(* ===== verification/_CoqProject ===== *)
-Q . S2P
Prelude.v
Mem.v
Config.v
Route.v
Topology.v
TopologyFormat.v
Layout.v
Segment.v
Timing.v
HeaderQueue.v
SendRecv.v
Router.v
Device.v
Network.v
ArmTicks.v
InsnTicks.v
Branch.v
Vpmu.v
Power.v
PerfRegs.v
VpmuConfig.v
VpmuDevice.v
BranchSession.v
Report.v
Sampling.v
Probe.v
SetObject.v
SetOut.v
SetTrace.v
SetProcess.v
SetEvents.v
SetExit.v
SetRelease.v
Efd.v
GuestLib.v
VpmuInit.v
Dinero.v
DineroStack.v
DineroSpec.v
DineroRun.v
DineroRefine.v
DineroSetup.v
DineroTrace.v
VpmuCache.v
