(* ===== verification/Prelude.v ===== *)
(** * A verification library for the M2M network simulator

    The repository is an Android emulator (QEMU) extended in three ways.  The
    _M2M network_ ([m2m.h], [hw/m2m_*.c], [hw/virtual-network-device.c]) lets
    several emulator processes, each the node of one ZigBee network, exchange
    messages through a System V shared-memory segment.  The _VPMU_
    ([hw/vpmu-device.c], [vpmu.h], [target-arm/op_vpmu.c],
    [target-arm/vpmu_insn_ticks.c]) counts what the emulated ARM processor does
    and estimates the time it would take; that time is the clock of the network
    node; the cache simulator dinero IV ([d4-7]) works for it.  The _event tracer_
    SET ([SET], [hw/SET_device.c]) follows programs of the guest and writes
    their calls, returns and system calls to trace files.  The library models these
    parts, with the guest's library [m2m_app], and proves what makes them work,
    and, where they do not, what happens instead.

    ** The program

    The guest writes a request to a register of the network device
    ([special_write]).  NETWORK_INIT parses [topology.conf], attaches the segment,
    computes where everything lies in it, starts the routing thread, clears the
    node's queues and waits until all nodes are there.  NETWORK_SEND draws the
    latency of the first hop, puts header and payload into a header queue (an end
    device into the queue its router keeps for it, a coordinator into its own
    queue for outgoing packets) and waits for its control flag.  Routing threads
    of routers and the coordinator take packets from their queues in the order of
    arrival times, as far as the clocks of their neighbours allow, look up the
    next hop and pass them on; the last hop sets the sender's control flag.
    NETWORK_RECV polls the node's queue.  The VPMU keeps the clock cell of the
    segment up to date while the guest computes; the network calls add the
    time of the transmissions.

    Memory references go through a ring to a thread of their own, which hands each to the
    simulated instruction or data cache; a cache asks the larger one behind it for
    what it lacks.  Branches of the guest go to the tracer.  Branches to six functions of
    the guest's kernel tell it that programs start, end, switch, map files or
    make threads; for the traced ones, branches into functions of their object files
    and back are pushed on and popped from call stacks and recorded.

    ** Files

    - [Prelude]: machine integers as [Z] with explicit wrapping ([u8], [u32],
      [u64], [s32], the congruence [eq64] with its [Proper] instances), C arrays
      as total maps ([a.[i]], [a.[i <- v]]), counted loops ([forZ], [forMZ]) and
      the monad [run] of computations that return, leave the process through
      [exit], or do not end ([Ret], [ProcExit], [Spin]); [eventually], what every
      way of continuing a step relation comes to.
    - [Mem]: the segment as a byte map, little-endian loads and stores, [memcpy].
    - [Config]: [m2m.h], [m2m_mm.h], [m2m_route_processor.h]: constants, [struct
      VND], the packet header and queue metadata with their byte offsets.
    - [Route]: [dijkstra], [routePath], [route_discovery] on the globals they share.
    - [Topology]: the parser [m2m_topology_init], character by character.
      [TopologyFormat]: an abstract network description, its text, and the effect
      the parser should have ([build]), the specification the parser refines.
    - [Layout]: [m2m_mm.c] and [m2m_dbp.c], the address tables of one process.
      [Segment]: several processes side by side.
    - [Timing]: [m2m_time.c] and [one_hop_latency]; the abstract [clock] that the
      VPMU implements.
    - [HeaderQueue]: the interface [HQueue] (where a queue lies) with its laws
      [HQueueLayout], the accesses of producer and consumer, and their free
      interleaving as a step relation.
    - [SendRecv]: [m2m_send_recv.c], one process; the other processes are
      arbitrary functions on the segment, applied at every busy wait.
    - [Router]: the routing thread of [m2m_route_processor.c].
    - [Device]: [special_write] of [virtual-network-device.c].
    - [Network]: the processes of a booted network together; it gives the laws of
      [HQueueLayout] for the queues [Layout] computes, and connects sender, routing
      thread and receiver.
    - [ArmTicks]: [get_arm_ticks] and [dual_issue_check], the decoder that times
      instructions, and its call in [translate.c].
    - [InsnTicks]: [get_insn_ticks] and [get_insn_ticks_thumb] of
      [vpmu_insn_ticks.c], the data-sheet timing with its interlocks,
      [get_insn_parser], and the hook of [translate.c] that chooses among them.
    - [Branch]: the branch predictor and the two rings between the CPU thread and
      the worker threads, with the threads interleaved.
    - [Vpmu]: the counters, the helpers that run with the translated code, the
      timing models, cycle counts and times, the overflow interrupt.
    - [Power]: the power of processor and peripherals, the running estimate of time
      and energy, the battery.
    - [PerfRegs]: the event selector and the performance registers of coprocessor
      14, with the interrupt line.
    - [VpmuConfig]: the parser of [vpmu_config/def-config-*].
    - [VpmuDevice]: [special_write] of [vpmu-device.c]: enabling, resetting, the
      bypass registers.
    - [BranchSession]: the branch predictor's worker with its suspension, while the
      CPU thread sends signals, reads the counts and turns the VPMU on and off.
    - [Report]: [commaprint], the numbers of the reports.
    - [Sampling]: the sampling thread of [vpmu_sampling.c] and its two files.
    - [Probe]: open addressing, the search and insertion that the tracer's tables share.
      [SetObject]: the function tables of object files and the watched kernel
      functions ([SET_object.c], [SET_kernel.c]).  [SetOut]: the eight buffered trace
      files and their records ([SET_out.c]).
    - [SetTrace]: call stacks, branches, interrupts, system calls and methods of a traced
      process.  [SetProcess]: the tables of processes, starting, copying and ending.
      [SetEvents]: the events of the guest's kernel and what they read of the guest,
      dex files, the device's registers, the control server's session, start
      ([SET_event.c], [SET.c], [SET_dex.c], [SET_ctrl.c], [hw/SET_device.c]).
      [SetExit]: the end.  [SetRelease]: the reference counts of object and dex files,
      and what is freed when.
    - [Efd]: the reader of ELF files ([efd.c]) on the bytes of a file.
    - [GuestLib]: [m2m_app/network_device.c], on top of [Device] and [VpmuDevice].
    - [VpmuInit]: the start of the VPMU: table of simulators, tree of caches, clock.
    - [Dinero]: the cache simulator, [ref.c] and [misc.c] of [d4-7], over the interface
      [BlockStore] of what a reference needs of the sets; the linked nodes are
      its instance [store_blocks].  [DineroStack]: rings and hash chains, and
      what the operations on nodes do to them.  [DineroSpec]: the specification, lists of blocks
      (instance [list_blocks]), and the arithmetic of blocks.  [DineroRun]: one
      reference and its requests; every reference ends.  [DineroRefine]: the nodes
      implement the lists.  [DineroSetup]: [d4setup].  [DineroTrace]: whole
      traces, LRU, the configured caches.
    - [VpmuCache]: the helpers and the device of [Vpmu] and [VpmuDevice], the ring of
      [Branch] and the caches of [Dinero] together, the CPU thread and [dinero_thread] as one
      step relation, with a sequential definition of what a measurement reads.

    ** What is shown

    - Routing: the distances are the shortest, [route_discovery] ends and returns
      a neighbour one hop closer, and hop-by-hop forwarding reaches its receiver
      over a shortest path.
    - Configuration and layout: the parser ends on every file and inverts the
      renderer; all processes agree on links, types and addresses; the pieces of
      a node tile its block, the blocks tile the segment; the queue a sender
      computes for a neighbour is one that neighbour polls, and nobody else
      writes it.
    - The queue protocol: messages arrive once, in order and intact under every
      interleaving when the producer waits for its flag; payloads always do; no
      deadlock; and the interleaving in which an eager producer loses a header.
    - Sending and receiving: what is posted is what is received; how both clocks
      move; what the guest sees.
    - The routing thread: the packet chosen is the earliest; when the wait for
      the clocks ends, enough neighbours have come close; what delivery and
      forwarding do to queues, header, clock and control flag; and the wait that
      never ends.
    - Latency: both retry loops end, [RandomHit] has the probability it is asked
      for, all times stay below 2^53, where the [double] product is exact.
    - VPMU: its time is the abstract clock; the 32-bit overflow test agrees with
      an unbounded counter; the instruction statistics and cycle counts against
      what was executed; the rings lose nothing; the decoder's table accesses
      stay in bounds.
    - End to end: three processes of one booted network, the layouts each computed
      for itself, one message from an end device through the routing thread of its
      parent to another; and the invariant of a process that every network call
      keeps.
    - The data-sheet timing: the ticks the code adds up are those of a scoreboard
      that counts delays down ([data_sheet_refines]), and where the 32-bit clock
      of the interlocks wraps ([interlock_wraps]).
    - The guest's view of the VPMU: PMN0 counts the selected event; the interrupt
      line follows FLAG, and the order of writes that leaves it stuck; a machine
      description is read back as it was written; enabling leaves the machine
      described and every counter zero.
    - Reports: [commaprint] is read back as the number; the sample files are
      streams, whatever the buffers do.
    - The tracer: the function tables find exactly the functions, and the two sizes
      at which they do not; trace files are read back record by record; the call tree can be
      rebuilt from them; interrupts leave no trace; the process table is a map of
      the running processes until one exits out of order; a context switch selects the
      right process; ELF files are read back; leaving the emulator closes the traces, except of
      a program started twice ([SET_exit_closes]); no process follows a freed file
      ([files_in_use]), and which files are never freed; and what the kernel events miss.
    - The guest library: a message from one guest program's buffer to another's, and the
      page boundary that spoils it.
    - The caches: the tree built is the configured one and can be simulated
      ([configured_caches]); the simulator ends on every trace ([trace_ends]); its stacks and hash
      chains behave as lists ([stacks_are_lists]); LRU holds the last
      different blocks and counts misses exactly ([fetches_exact]), so more ways never miss
      more ([more_ways]); dirty blocks are written back exactly ([write_back_exact]).
    - The VPMU and its workers: however the threads interleave, a measurement comes to
      its end with the readings of the sequential definition ([measurement_sequential]), with LRU
      the misses of the blocks executed ([icache_session]), and with the counts
      of the two-bit predictor ([branch_session]); and the two ways in which a reading
      never ends: the signal that comes before the worker sleeps ([signal_lost]), the
      report after the VPMU is turned off ([report_hangs]).

    ** Conventions, bounds and fuel

    C integers are [Z] with the wrap written out; [long] and pointers are plain
    [Z] (addresses do not wrap).  Arrays are total maps, so that an access out of
    bounds reads and writes cells of its own; the theorems say where that
    matters ([route_path[-1]], the instruction buffer).  A loop that the code
    bounds has the code's bound.  [routePath] has fuel [n + 1] in
    [route_discovery], enough on every predecessor table [dijkstra] leaves
    ([route_discovery_total]); the parser's loops have the buffer's length
    ([topology_init_terminates] shows that [Spin] never comes); [hit_fresh] has
    fuel that every fair stream suffices for ([fair]).  Waits for other processes
    consume a list of what those processes do between two looks, and are [Spin]
    when the list ends first.  [rand] and [random] are streams of non-negative numbers.
    Where the code follows pointers (nodes of the cache simulator, the tracer's processes)
    a pointer is a number and 0 is NULL; undefined behaviour is [None] in fallible
    code and [Spin] in [run].  Searches in hash tables have the table's size as fuel, chains the
    number of nodes; [d4ref] and [d4_dopending], which call each other, share a fuel for
    the depth, and [trace_ends] shows that enough of it always gives the result.
    Memory allocation succeeds.
    [double] arithmetic is IEEE 754 binary64 rounded to nearest (the code is
    built for i386; excess precision of the x87 unit is not modelled).  The
    configuration macros are those of the headers as shipped: [ROUTER_RFD],
    [M2M_VPMU], [TimingModel] 1, [CONFIG_VPMU_THREAD] on, [CONFIG_PACDSP] off.

    ** Not modelled

    Output, log files, sleeping and CPU affinity beyond its error exit; System V
    calls, guest address translation and the existence of files are parameters.  QEMU and the
    Android emulator are outside, and with them the registration of the devices ([vnd_init] and
    the like) and the creation of threads.  Code the build leaves out or nothing calls:
    the ticks of VFP instructions (behind [CONFIG_VPMU_VFP], which no file
    defines), [analyze_arm_ticks], [trace.c] beyond the Thumb ticks, [SET_dwarf.c],
    the DSP.  Of the VPMU, the reports (only their numbers), the
    idle-time accounting and the variant of sampling that prints peripheral power; of the
    tracer, the socket calls; of
    the cache simulator, the classification of misses ([D4F_CCC] is never asked for),
    copying back and invalidating (never issued) and its programs.
    In [VpmuCache] the cache worker wakes by a signal only, although POSIX lets a wait end
    without one (in [BranchSession] it may); the two workers are not put
    together in one relation, since they share nothing but the VPMU's switch. *)
From stdpp Require Export base numbers list gmap.
From Stdlib Require Export ZArith Lia.

#[global] Open Scope Z_scope.

(** ** Machine integers: an n-bit C value is a [Z]; arithmetic wraps. *)

Definition wrap (w x : Z) : Z := x mod 2 ^ w.
Definition u8 (x : Z) : Z := wrap 8 x.
Definition u32 (x : Z) : Z := wrap 32 x.
Definition u64 (x : Z) : Z := wrap 64 x.

(** The two's-complement reading of a 32-bit pattern (a C [int]). *)
Definition s32 (x : Z) : Z := let y := u32 x in if y <? 2 ^ 31 then y else y - 2 ^ 32.

Lemma wrap_range w x : 0 <= w -> 0 <= wrap w x < 2 ^ w.
Proof. intros. apply Z.mod_pos_bound. by apply Z.pow_pos_nonneg. Qed.

Lemma u32_range x : 0 <= u32 x < 2 ^ 32.
Proof. by apply wrap_range. Qed.

Lemma u64_range x : 0 <= u64 x < 2 ^ 64.
Proof. by apply wrap_range. Qed.

Lemma u8_small x : 0 <= x < 256 -> u8 x = x.
Proof. intros. unfold u8, wrap. by apply Z.mod_small. Qed.

Lemma u32_small x : 0 <= x < 2 ^ 32 -> u32 x = x.
Proof. intros. unfold u32, wrap. by apply Z.mod_small. Qed.

Lemma u64_small x : 0 <= x < 2 ^ 64 -> u64 x = x.
Proof. intros. unfold u64, wrap. by apply Z.mod_small. Qed.

Lemma u64_add_l x y : u64 (u64 x + y) = u64 (x + y).
Proof. unfold u64, wrap. by rewrite Zplus_mod_idemp_l. Qed.

Lemma u64_add_r x y : u64 (x + u64 y) = u64 (x + y).
Proof. unfold u64, wrap. by rewrite Zplus_mod_idemp_r. Qed.

Lemma u64_sub_l x y : u64 (u64 x - y) = u64 (x - y).
Proof. unfold u64, wrap. by rewrite Zminus_mod_idemp_l. Qed.

Lemma u64_sub_r x y : u64 (x - u64 y) = u64 (x - y).
Proof. unfold u64, wrap. by rewrite Zminus_mod_idemp_r. Qed.

Lemma u8_idem x : u8 (u8 x) = u8 x.
Proof. unfold u8, wrap. by rewrite Zmod_mod. Qed.

Lemma u64_idem x : u64 (u64 x) = u64 x.
Proof. unfold u64, wrap. by rewrite Zmod_mod. Qed.

Lemma u32_idem x : u32 (u32 x) = u32 x.
Proof. unfold u32, wrap. by rewrite Zmod_mod. Qed.

Lemma s32_small x : - 2 ^ 31 <= x < 2 ^ 31 -> s32 x = x.
Proof.
  intros. unfold s32, u32, wrap.
  destruct (decide (0 <= x)).
  - rewrite Z.mod_small by lia. destruct (Z.ltb_spec x (2 ^ 31)); lia.
  - replace (x mod 2 ^ 32) with (x + 2 ^ 32).
    + destruct (Z.ltb_spec (x + 2 ^ 32) (2 ^ 31)); lia.
    + rewrite <- (Z_mod_plus_full x 1 (2 ^ 32)). rewrite Z.mod_small; lia.
Qed.

Create HintDb cint.
Create Rewrite HintDb cint.
#[export] Hint Rewrite u64_add_l u64_add_r u64_sub_l u64_sub_r u64_idem u32_idem : cint.
#[export] Hint Resolve u32_range u64_range : cint.

(** Normal form of sums and differences of wrapped 64-bit terms. *)
Ltac u64_norm := autorewrite with cint.

(** Equality of 64-bit values: a congruence for the ring operations, so that
    inner wraps can be dropped anywhere under a wrap by setoid rewriting. *)
Definition eq64 (x y : Z) : Prop := u64 x = u64 y.

#[export] Instance eq64_equivalence : Equivalence eq64.
Proof. unfold eq64. split; [done|by intros ? ? ->|by intros ? ? ? -> ->]. Qed.
#[export] Instance eq64_add : Proper (eq64 ==> eq64 ==> eq64) Z.add.
Proof.
  intros x x' Hx y y' Hy. unfold eq64 in *.
  by rewrite <- (u64_add_l x), <- (u64_add_r _ y), Hx, Hy, u64_add_l, u64_add_r.
Qed.
#[export] Instance eq64_sub : Proper (eq64 ==> eq64 ==> eq64) Z.sub.
Proof.
  intros x x' Hx y y' Hy. unfold eq64 in *.
  by rewrite <- (u64_sub_l x), <- (u64_sub_r _ y), Hx, Hy, u64_sub_l, u64_sub_r.
Qed.
#[export] Instance eq64_mul : Proper (eq64 ==> eq64 ==> eq64) Z.mul.
Proof. intros x x' Hx y y' Hy. unfold eq64, u64, wrap in *. by rewrite Zmult_mod, Hx, Hy, <- Zmult_mod. Qed.
#[export] Instance u64_eq64_proper : Proper (eq64 ==> eq) u64.
Proof. by intros x y. Qed.

Lemma u64_eq64 x : eq64 (u64 x) x.
Proof. apply u64_idem. Qed.

Lemma eq64_of_eq x y : x = y -> eq64 x y.
Proof. by intros ->. Qed.

(** An equation between 64-bit terms that holds in the ring of integers. *)
Ltac u64_ring :=
  lazymatch goal with
  | |- u64 ?x = u64 ?y => change (eq64 x y)
  | |- _ => idtac
  end;
  rewrite ?u64_eq64; apply eq64_of_eq; ring.

(** ** C arrays: a total map from indices to cells, zero where never written
    (static storage). *)

Abbreviation arr := (gmap Z Z).
Definition aget (a : gmap Z Z) (i : Z) : Z := default 0 (a !! i).
Definition aset (a : gmap Z Z) (i v : Z) : gmap Z Z := <[i := v]> a.

Declare Scope c_scope.
Delimit Scope c_scope with C.
Notation "a .[ i ]" := (aget a i) (at level 1, left associativity, format "a .[ i ]") : c_scope.
Notation "a .[ i <- v ]" := (aset a i v) (at level 1, left associativity, format "a .[ i <- v ]") : c_scope.
#[global] Open Scope c_scope.

Lemma aget_aset_eq a i v : a.[i <- v].[i] = v.
Proof. unfold aget, aset. by rewrite lookup_insert_eq. Qed.

Lemma aget_aset_ne a i j v : i <> j -> a.[i <- v].[j] = a.[j].
Proof. intros. unfold aget, aset. by rewrite lookup_insert_ne. Qed.

Lemma aget_aset a i j v : a.[i <- v].[j] = if decide (i = j) then v else a.[j].
Proof. case_decide; subst; [apply aget_aset_eq | by apply aget_aset_ne]. Qed.

Lemma aget_empty i : (∅ : gmap Z Z).[i] = 0.
Proof. done. Qed.

Create Rewrite HintDb carr.
#[export] Hint Rewrite aget_aset_eq aget_empty : carr.
#[export] Hint Rewrite aget_aset_ne using (done || lia || congruence) : carr.

(** Reduce every read of an updated array. *)
Ltac arr_simpl := repeat first [progress autorewrite with carr | progress simpl].
Ltac arr_case := repeat (rewrite aget_aset; case_decide; subst; try lia).

(** ** Counting loops: [for (i = lo; i < lo + n; i++)] *)

Definition forZ {A} (lo : Z) (n : nat) (f : A -> Z -> A) (a : A) : A :=
  foldl f a (seqZ lo (Z.of_nat n)).

Lemma seqZ_one i : seqZ i 1 = [i].
Proof. by rewrite seqZ_cons by lia. Qed.

Lemma forZ_0 {A} lo (f : A -> Z -> A) a : forZ lo 0 f a = a.
Proof. done. Qed.

Lemma forZ_S {A} lo n (f : A -> Z -> A) a :
  forZ lo (S n) f a = f (forZ lo n f a) (lo + Z.of_nat n).
Proof.
  unfold forZ. replace (Z.of_nat (S n)) with (Z.of_nat n + 1) by lia.
  rewrite seqZ_app by lia. rewrite foldl_app. done.
Qed.

(** Invariant rule: [P k] holds before iteration [k]. *)
Lemma forZ_ind {A} (P : Z -> A -> Prop) lo n (f : A -> Z -> A) a :
  P lo a ->
  (forall i x, lo <= i < lo + Z.of_nat n -> P i x -> P (i + 1) (f x i)) ->
  P (lo + Z.of_nat n) (forZ lo n f a).
Proof.
  intros H0 Hs. induction n as [|n IH].
  - rewrite forZ_0. by rewrite Z.add_0_r.
  - rewrite forZ_S. replace (lo + Z.of_nat (S n)) with (lo + Z.of_nat n + 1) by lia.
    apply Hs; [lia|]. apply IH. intros. apply Hs; [lia|done].
Qed.

(** ** Counting cells *)

Lemma filter_ext_in (P Q : Z -> Prop) `{!forall x, Decision (P x), !forall x, Decision (Q x)} (l : list Z) :
  (forall x, x ∈ l -> (P x <-> Q x)) -> filter P l = filter Q l.
Proof.
  induction l as [|x l IH]; intros Hpq; [done|].
  assert (IHl : filter P l = filter Q l) by (apply IH; intros; apply Hpq; by right).
  pose proof (Hpq x ltac:(by left)).
  destruct (decide (P x)); [rewrite !filter_cons_True by tauto|rewrite !filter_cons_False by tauto];
    by rewrite IHl.
Qed.

(** Setting one more cell of a list to [v] counts one more. *)
Lemma count_set (a : arr) (v x : Z) (l : list Z) :
  NoDup l -> x ∈ l -> a.[x] <> v ->
  length (filter (fun c => a.[x <- v].[c] = v) l) = S (length (filter (fun c => a.[c] = v) l)).
Proof.
  intros Hnd Hin Hx. induction l as [|y l IH]; [by apply not_elem_of_nil in Hin|].
  apply NoDup_cons in Hnd as [Hy Hnd]. destruct (decide (y = x)) as [->|Hne].
  - rewrite filter_cons_True by apply aget_aset_eq. rewrite filter_cons_False by done.
    simpl. f_equal. f_equal. apply filter_ext_in. intros z Hz.
    rewrite aget_aset_ne; [done|]. intros ->. done.
  - apply elem_of_cons in Hin as [->|Hin]; [done|]. specialize (IH Hnd Hin).
    destruct (decide (a.[y] = v)).
    + rewrite !filter_cons_True; [simpl; by rewrite IH|done|by rewrite aget_aset_ne].
    + rewrite !filter_cons_False; [done|done|by rewrite aget_aset_ne].
Qed.

(** ** Runs of C code: a value, the process leaving through [exit(0)], or no
    result within the fuel (a loop still spinning). *)

Inductive run (A : Type) : Type :=
| Ret (a : A)
| ProcExit
| Spin.
Arguments Ret {A} a.
Arguments ProcExit {A}.
Arguments Spin {A}.

#[export] Instance run_ret : MRet run := fun A => @Ret A.
#[export] Instance run_bind : MBind run := fun A B k r =>
  match r with Ret a => k a | ProcExit => ProcExit | Spin => Spin end.

(** The run returned; decided without reading the value back. *)
Definition is_ret {A} (r : run A) : bool := match r with Ret _ => true | _ => false end.

Lemma is_ret_Ret {A} (r : run A) : is_ret r = true -> exists a, r = Ret a.
Proof. destruct r; try discriminate. by eexists. Qed.

(** The run ended: with a value or by [exit]. *)
Definition ended {A} (r : run A) : Prop := r <> Spin.

Lemma ended_bind {A B} (r : run A) (k : A -> run B) :
  ended r -> (forall a, r = Ret a -> ended (k a)) -> ended (r ≫= k).
Proof. destruct r; unfold ended; simpl; auto; discriminate. Qed.

Lemma bind_Ret {A B} (r : run A) (k : A -> run B) b :
  r ≫= k = Ret b -> exists a, r = Ret a /\ k a = Ret b.
Proof. destruct r; simpl; try discriminate. eauto. Qed.

(** [for] loops whose body may end the run. *)
Fixpoint forM_list {A} (l : list Z) (f : A -> Z -> run A) (a : A) : run A :=
  match l with
  | [] => Ret a
  | i :: l' => a' ← f a i; forM_list l' f a'
  end.
Definition forMZ {A} (lo : Z) (n : nat) (f : A -> Z -> run A) (a : A) : run A :=
  forM_list (seqZ lo (Z.of_nat n)) f a.

Lemma forM_list_app {A} l1 l2 (f : A -> Z -> run A) a :
  forM_list (l1 ++ l2) f a = (a' ← forM_list l1 f a; forM_list l2 f a').
Proof.
  revert a. induction l1 as [|i l1 IH]; intros a; [done|]. simpl.
  destruct (f a i); simpl; [apply IH|done|done].
Qed.

Lemma forMZ_S {A} lo n (f : A -> Z -> run A) a :
  forMZ lo (S n) f a = (a' ← forMZ lo n f a; f a' (lo + Z.of_nat n)).
Proof.
  unfold forMZ. replace (Z.of_nat (S n)) with (Z.of_nat n + 1) by lia.
  rewrite seqZ_app by lia. rewrite forM_list_app.
  destruct (forM_list (seqZ lo (Z.of_nat n)) f a) as [x| |]; simpl; [|done|done].
  by destruct (f x _).
Qed.

(** Invariant rule for values, and the end of every iteration. *)
Lemma forMZ_ind {A} (P : Z -> A -> Prop) lo n (f : A -> Z -> run A) a :
  P lo a ->
  (forall i x x', lo <= i < lo + Z.of_nat n -> P i x -> f x i = Ret x' -> P (i + 1) x') ->
  forall a', forMZ lo n f a = Ret a' -> P (lo + Z.of_nat n) a'.
Proof.
  intros H0 Hs. induction n as [|n IH].
  - intros a' [= <-]. by rewrite Z.add_0_r.
  - rewrite forMZ_S. intros a' (x & Hx & Hf)%bind_Ret.
    replace (lo + Z.of_nat (S n)) with (lo + Z.of_nat n + 1) by lia.
    eapply Hs; [lia| |done]. apply IH; [|done]. intros; eapply Hs; eauto; lia.
Qed.

Lemma forMZ_ended {A} (P : Z -> A -> Prop) lo n (f : A -> Z -> run A) a :
  P lo a ->
  (forall i x, lo <= i < lo + Z.of_nat n -> P i x ->
     ended (f x i) /\ forall x', f x i = Ret x' -> P (i + 1) x') ->
  ended (forMZ lo n f a).
Proof.
  intros H0 Hs. induction n as [|n IH]; [done|].
  rewrite forMZ_S. apply ended_bind.
  - apply IH. intros. apply Hs; [lia|done].
  - intros x Hx. apply Hs; [lia|]. eapply (forMZ_ind P); [exact H0| |exact Hx].
    intros i y y' Hi Hp Hf. apply (Hs i y); [lia|done|done].
Qed.

(** ** All runs of a step relation

    All ways to go on from a state lead to [P]: the run does not get stuck before, and
    does not go on for ever. *)
Inductive eventually {A} (step : A -> A -> Prop) (P : A -> Prop) (s : A) : Prop :=
| ev_now : P s -> eventually step P s
| ev_later : (exists s', step s s') -> (forall s', step s s' -> eventually step P s') -> eventually step P s.

Lemma eventually_trans {A} (step : A -> A -> Prop) (P Q : A -> Prop) s :
  eventually step P s -> (forall s', P s' -> eventually step Q s') -> eventually step Q s.
Proof. intros HP HPQ. induction HP as [s Hp|s Hex _ IH]; [by apply HPQ|by apply ev_later]. Qed.
