(* ===== verification/Mem.v ===== *)
(** * Byte-addressed shared memory

    The System V segment all emulator processes attach ([hw/m2m_mm.c]) is a map
    from addresses to bytes.  The program reads and writes it through pointers
    to 4- and 8-byte fields (little-endian, i386) and through [memcpy].
    The lemmas here are the read-over-write laws every client uses. *)
From S2P Require Import Prelude.

Abbreviation mem := (gmap Z Z).

(** One byte, and an [n]-byte little-endian field. *)
Definition load8 (m : mem) (a : Z) : Z := u8 m.[a].

Fixpoint load (n : nat) (m : mem) (a : Z) : Z :=
  match n with
  | O => 0
  | S n' => load8 m a + 256 * load n' m (a + 1)
  end.

Fixpoint store (n : nat) (m : mem) (a v : Z) : mem :=
  match n with
  | O => m
  | S n' => store n' m.[a <- u8 v] (a + 1) (v / 256)
  end.

Fixpoint load_bytes (n : nat) (m : mem) (a : Z) : list Z :=
  match n with
  | O => []
  | S n' => load8 m a :: load_bytes n' m (a + 1)
  end.

Fixpoint store_bytes (m : mem) (a : Z) (l : list Z) : mem :=
  match l with
  | [] => m
  | b :: l' => store_bytes m.[a <- u8 b] (a + 1) l'
  end.

(** [memcpy] between disjoint ranges. *)
Definition memcpy (m : mem) (dst src : Z) (n : nat) : mem :=
  store_bytes m dst (load_bytes n m src).

Definition bytes_ok (l : list Z) : Prop := Forall (fun b => 0 <= b < 256) l.

(** ** Writes leave the rest of memory alone *)

Lemma store_out n m a v i : ~ (a <= i < a + Z.of_nat n) -> (store n m a v).[i] = m.[i].
Proof.
  revert m a v. induction n as [|n IH]; intros m a v Hi; simpl; [done|].
  rewrite IH by lia. apply aget_aset_ne. lia.
Qed.

Lemma store_bytes_out m a l i :
  ~ (a <= i < a + Z.of_nat (length l)) -> (store_bytes m a l).[i] = m.[i].
Proof.
  revert m a. induction l as [|b l IH]; intros m a Hi; simpl in *; [done|].
  rewrite IH by lia. apply aget_aset_ne. lia.
Qed.

Lemma length_load_bytes n m a : length (load_bytes n m a) = n.
Proof. revert a. induction n as [|n IH]; intros a; simpl; [done|]. by rewrite IH. Qed.

Lemma memcpy_out m dst src n i :
  ~ (dst <= i < dst + Z.of_nat n) -> (memcpy m dst src n).[i] = m.[i].
Proof. intros. apply store_bytes_out. by rewrite length_load_bytes. Qed.

(** ** Reads depend on their range only *)

Lemma load_ext n m m' a :
  (forall i, a <= i < a + Z.of_nat n -> m.[i] = m'.[i]) -> load n m a = load n m' a.
Proof.
  revert a. induction n as [|n IH]; intros a H; simpl; [done|].
  unfold load8. rewrite (H a) by lia. f_equal. f_equal. apply IH. intros. apply H. lia.
Qed.

Lemma load_bytes_ext n m m' a :
  (forall i, a <= i < a + Z.of_nat n -> m.[i] = m'.[i]) ->
  load_bytes n m a = load_bytes n m' a.
Proof.
  revert a. induction n as [|n IH]; intros a H; simpl; [done|].
  unfold load8. rewrite (H a) by lia. f_equal. apply IH. intros. apply H. lia.
Qed.

(** ** Reads of what was written *)

Lemma load_store_same n m a v : load n (store n m a v) a = v mod 2 ^ (8 * Z.of_nat n).
Proof.
  revert m a v. induction n as [|n IH]; intros m a v; simpl; [by rewrite Z.mod_1_r|].
  unfold load8. rewrite store_out by lia. rewrite aget_aset_eq, IH.
  replace (8 * Z.of_nat (S n)) with (8 + 8 * Z.of_nat n) by lia.
  rewrite Z.pow_add_r by lia. change (2 ^ 8) with 256.
  rewrite Z.rem_mul_r by lia. rewrite u8_idem. done.
Qed.

Lemma load_store_disj n k m a b v :
  a + Z.of_nat n <= b \/ b + Z.of_nat k <= a -> load n (store k m b v) a = load n m a.
Proof. intros. apply load_ext. intros. apply store_out. lia. Qed.

Lemma load_store_bytes_disj n m a b l :
  a + Z.of_nat n <= b \/ b + Z.of_nat (length l) <= a ->
  load n (store_bytes m b l) a = load n m a.
Proof. intros. apply load_ext. intros. apply store_bytes_out. lia. Qed.

Lemma load_bytes_store_disj n k m a b v :
  a + Z.of_nat n <= b \/ b + Z.of_nat k <= a ->
  load_bytes n (store k m b v) a = load_bytes n m a.
Proof. intros. apply load_bytes_ext. intros. apply store_out. lia. Qed.

Lemma load_bytes_store_bytes_disj n m a b l :
  a + Z.of_nat n <= b \/ b + Z.of_nat (length l) <= a ->
  load_bytes n (store_bytes m b l) a = load_bytes n m a.
Proof. intros. apply load_bytes_ext. intros. apply store_bytes_out. lia. Qed.

Lemma load_memcpy_disj n k m a dst src :
  a + Z.of_nat n <= dst \/ dst + Z.of_nat k <= a ->
  load n (memcpy m dst src k) a = load n m a.
Proof. intros. apply load_store_bytes_disj. by rewrite length_load_bytes. Qed.

Lemma load_bytes_memcpy_disj n k m a dst src :
  a + Z.of_nat n <= dst \/ dst + Z.of_nat k <= a ->
  load_bytes n (memcpy m dst src k) a = load_bytes n m a.
Proof. intros. apply load_bytes_store_bytes_disj. by rewrite length_load_bytes. Qed.

Lemma load_bytes_ok n m a : bytes_ok (load_bytes n m a).
Proof.
  revert a. induction n as [|n IH]; intros a; simpl; [constructor|].
  constructor; [|apply IH]. unfold load8, u8. apply (wrap_range 8). lia.
Qed.

(** Byte [i] of a freshly written block. *)
Lemma load8_store_bytes m a l i b :
  bytes_ok l -> l !! i = Some b -> load8 (store_bytes m a l) (a + Z.of_nat i) = b.
Proof.
  revert m a i. induction l as [|c l IH]; intros m a i Hok Hi; [done|].
  inversion Hok; subst. destruct i as [|i]; simpl in *.
  - injection Hi as ->. unfold load8. rewrite store_bytes_out by lia.
    rewrite Z.add_0_r, aget_aset_eq. rewrite u8_idem. by apply u8_small.
  - replace (a + Z.of_nat (S i)) with (a + 1 + Z.of_nat i) by lia. by apply IH.
Qed.

Lemma load_bytes_store_bytes_same m a l :
  bytes_ok l -> load_bytes (length l) (store_bytes m a l) a = l.
Proof.
  revert m a. induction l as [|c l IH]; intros m a Hok; simpl; [done|].
  inversion Hok; subst. f_equal; [|by apply IH].
  unfold load8. rewrite store_bytes_out by lia. rewrite aget_aset_eq.
  rewrite u8_idem. by apply u8_small.
Qed.

Lemma load8_load_bytes n m a i :
  (i < n)%nat -> load_bytes n m a !! i = Some (load8 m (a + Z.of_nat i)).
Proof.
  revert a i. induction n as [|n IH]; intros a i Hi; [lia|].
  destruct i as [|i]; simpl; [by rewrite Z.add_0_r|].
  rewrite IH by lia. do 2 f_equal. lia.
Qed.

Lemma load8_memcpy m dst src k i :
  0 <= i < Z.of_nat k -> load8 (memcpy m dst src k) (dst + i) = load8 m (src + i).
Proof.
  intros Hi. unfold memcpy. rewrite <- (Z2Nat.id i) by lia.
  apply load8_store_bytes; [apply load_bytes_ok|]. apply load8_load_bytes. lia.
Qed.

(** A field of a copied block is the field of the original. *)
Lemma load_memcpy_same n k m dst src off :
  0 <= off -> off + Z.of_nat n <= Z.of_nat k ->
  load n (memcpy m dst src k) (dst + off) = load n m (src + off).
Proof.
  revert off. induction n as [|n IH]; intros off H1 H2; simpl; [done|].
  rewrite load8_memcpy by lia.
  rewrite <- !Z.add_assoc. rewrite IH by lia. done.
Qed.

Lemma load_memcpy_start n k m dst src :
  (n <= k)%nat -> load n (memcpy m dst src k) dst = load n m src.
Proof.
  intros. pose proof (load_memcpy_same n k m dst src 0) as H0.
  rewrite !Z.add_0_r in H0. apply H0; lia.
Qed.

Lemma load_bytes_memcpy_same n k m dst src :
  (n <= k)%nat -> load_bytes n (memcpy m dst src k) dst = load_bytes n m src.
Proof.
  intros Hn. apply list_eq. intros i.
  destruct (decide (i < n)%nat).
  - rewrite !load8_load_bytes by lia. f_equal. apply load8_memcpy. lia.
  - rewrite !lookup_ge_None_2; rewrite ?length_load_bytes; auto with lia.
Qed.

Lemma load_nonneg n m a : 0 <= load n m a.
Proof.
  revert a. induction n as [|n IH]; intros a; simpl; [done|].
  pose proof (wrap_range 8 m.[a]). unfold load8, u8. specialize (IH (a + 1)). lia.
Qed.

Lemma load_range n m a : 0 <= load n m a < 2 ^ (8 * Z.of_nat n).
Proof.
  revert a. induction n as [|n IH]; intros a; simpl; [lia|].
  pose proof (wrap_range 8 m.[a]). unfold load8, u8. specialize (IH (a + 1)).
  replace (8 * Z.of_nat (S n)) with (8 + 8 * Z.of_nat n) by lia.
  rewrite Z.pow_add_r by lia. change (2 ^ 8) with 256 in *. lia.
Qed.

(** ** The field widths the program uses *)

Definition load32 (m : mem) (a : Z) : Z := load 4 m a.
Definition load64 (m : mem) (a : Z) : Z := load 8 m a.
Definition store32 (m : mem) (a v : Z) : mem := store 4 m a v.
Definition store64 (m : mem) (a v : Z) : mem := store 8 m a v.

Lemma load32_store32 m a v : load32 (store32 m a v) a = u32 v.
Proof. apply (load_store_same 4). Qed.

Lemma load64_store64 m a v : load64 (store64 m a v) a = u64 v.
Proof. apply (load_store_same 8). Qed.

Lemma load32_range m a : 0 <= load32 m a < 2 ^ 32.
Proof. apply (load_range 4). Qed.

Lemma load64_range m a : 0 <= load64 m a < 2 ^ 64.
Proof. apply (load_range 8). Qed.

(** [mem_frame]: push a read through writes to other ranges. *)
Ltac mem_frame_step :=
  match goal with
  | |- context [load ?n (store ?k ?m ?b ?v) ?a] =>
      rewrite (load_store_disj n k m a b v) by lia
  | |- context [load ?n (store_bytes ?m ?b ?l) ?a] =>
      rewrite (load_store_bytes_disj n m a b l) by lia
  | |- context [load ?n (memcpy ?m ?d ?s ?k) ?a] =>
      rewrite (load_memcpy_disj n k m a d s) by lia
  | |- context [load_bytes ?n (store ?k ?m ?b ?v) ?a] =>
      rewrite (load_bytes_store_disj n k m a b v) by lia
  | |- context [load_bytes ?n (store_bytes ?m ?b ?l) ?a] =>
      rewrite (load_bytes_store_bytes_disj n m a b l) by lia
  | |- context [load_bytes ?n (memcpy ?m ?d ?s ?k) ?a] =>
      rewrite (load_bytes_memcpy_disj n k m a d s) by lia
  end.
Ltac mem_frame := unfold load32, load64, store32, store64 in *; repeat mem_frame_step.
