(* ===== verification/Config.v ===== *)
(** * Constants and shared structures ([m2m.h], [hw/m2m_mm.h],
    [hw/m2m_route_processor.h]) *)
From S2P Require Import Prelude Mem.

(** ** Constants of m2m.h *)

Definition MAX_TIME : Z := 2 ^ 64 - 1.   (* (-1) stored in a uint64_t *)
Definition MAX_NODE_NUM : Z := 100.

Definition minBE : Z := 2.
Definition maxBE : Z := 5.
Definition MaxCSMABackoffs : Z := 4.
Definition MaxFrameRetries : Z := 3.
Definition AckWaitDuration : Z := 864.
Definition AUnitBackoffPeriod : Z := 320.
Definition CCADetectionTime : Z := 128.
Definition HEADERSIZE : Z := 43.
Definition DataRate : Z := 32.
Definition Percentage : Z := 100.

(** ** Result codes *)

Inductive M2M_ERR_T :=
| M2M_ERROR | M2M_SUCCESS | M2M_TRANS_NOT_READY | M2M_TRANS_FAIL
| M2M_TRANS_SUCCESS | M2M_ERR_AFFINITY.

#[export] Instance M2M_ERR_T_eq_dec : EqDecision M2M_ERR_T.
Proof. solve_decision. Defined.

(** ** Segment geometry of m2m_mm.h *)

Definition DATA_BUFFER_ENTRY_SIZE : Z := 4096.
Definition DATA_BUFFER_ENTRY_NUM : Z := 4.
Definition DATA_BUFFER_SIZE : Z := DATA_BUFFER_ENTRY_SIZE * DATA_BUFFER_ENTRY_NUM.
Definition DATA_BUFFER_METADATA_ENTRY_SIZE : Z := 4 + 8.
Definition DATA_BUFFER_METADATA_SIZE : Z :=
  DATA_BUFFER_ENTRY_NUM * DATA_BUFFER_METADATA_ENTRY_SIZE.
Definition TOTAL_DATA_BUFFER_SIZE : Z := DATA_BUFFER_SIZE + DATA_BUFFER_METADATA_SIZE.

Definition NODE_MAX_LINKS : Z := 8.
Definition HEADER_QUEUE_ENTRY_SIZE : Z := 128.
Definition HEADER_QUEUE_ENTRY_NUM : Z := 4.
Definition HEADER_QUEUE_SIZE : Z := HEADER_QUEUE_ENTRY_NUM * HEADER_QUEUE_ENTRY_SIZE.
Definition HEADER_QUEUE_METADATA_SIZE : Z := 4 + 4 + 24.
Definition TOTAL_HEADER_QUEUE_SIZE : Z := HEADER_QUEUE_SIZE + HEADER_QUEUE_METADATA_SIZE.
Definition HEADER_QUEUE_CONTRLFLAG : Z := 4 + 8.

Definition END_DEVICE_SIZE : Z :=
  TOTAL_DATA_BUFFER_SIZE + TOTAL_HEADER_QUEUE_SIZE + HEADER_QUEUE_CONTRLFLAG.
Definition COORDINATOR_SIZE : Z :=
  TOTAL_HEADER_QUEUE_SIZE * NODE_MAX_LINKS + END_DEVICE_SIZE + TOTAL_HEADER_QUEUE_SIZE.
(* ROUTER_RFD is defined *)
Definition ROUTER_SIZE : Z := NODE_MAX_LINKS * TOTAL_HEADER_QUEUE_SIZE.

(** ** Device types: the C strings in [VND.DeviceType] and [NODE_TYPE] *)

Abbreviation cstr := (list Z).
Definition ZC : cstr := [90; 67].
Definition ZR : cstr := [90; 82].
Definition ZED : cstr := [90; 69; 68].

(** [!strcmp(s, t)] *)
Definition streq (s t : cstr) : bool := bool_decide (s = t).

Lemma streq_eq s t : streq s t = true <-> s = t.
Proof. apply bool_decide_eq_true. Qed.

Lemma streq_refl s : streq s s = true.
Proof. by apply streq_eq. Qed.

(** ** struct m2m_HQe: the packet header, 40 bytes *)

Record m2m_HQe := mk_HQe {
  tag : Z; PacketSize : Z; SenderID : Z; ReceiverID : Z;
  ForwardID : Z; EntryNum : Z; SendTime : Z; TransTime : Z }.

Definition sizeof_HQe : nat := 40.

Definition off_PacketSize : Z := 4.
Definition off_SenderID : Z := 8.
Definition off_ReceiverID : Z := 12.
Definition off_ForwardID : Z := 16.
Definition off_EntryNum : Z := 20.
Definition off_SendTime : Z := 24.
Definition off_TransTime : Z := 32.

(** Field reads through a [m2m_HQe_t *] *)
Definition read_HQe (m : mem) (p : Z) : m2m_HQe :=
  mk_HQe (load32 m p) (load32 m (p + off_PacketSize)) (load32 m (p + off_SenderID))
    (load32 m (p + off_ReceiverID)) (load32 m (p + off_ForwardID))
    (s32 (load32 m (p + off_EntryNum)))
    (load64 m (p + off_SendTime)) (load64 m (p + off_TransTime)).

(** Copy of a header held in private memory into the segment. *)
Definition write_HQe (m : mem) (p : Z) (h : m2m_HQe) : mem :=
  let m := store32 m p (tag h) in
  let m := store32 m (p + off_PacketSize) (PacketSize h) in
  let m := store32 m (p + off_SenderID) (SenderID h) in
  let m := store32 m (p + off_ReceiverID) (ReceiverID h) in
  let m := store32 m (p + off_ForwardID) (ForwardID h) in
  let m := store32 m (p + off_EntryNum) (EntryNum h) in
  let m := store64 m (p + off_SendTime) (SendTime h) in
  store64 m (p + off_TransTime) (TransTime h).

(** Values representable in the fields' types. *)
Definition HQe_ok (h : m2m_HQe) : Prop :=
  0 <= tag h < 2 ^ 32 /\ 0 <= PacketSize h < 2 ^ 32 /\ 0 <= SenderID h < 2 ^ 32 /\
  0 <= ReceiverID h < 2 ^ 32 /\ 0 <= ForwardID h < 2 ^ 32 /\
  - 2 ^ 31 <= EntryNum h < 2 ^ 31 /\
  0 <= SendTime h < 2 ^ 64 /\ 0 <= TransTime h < 2 ^ 64.

Ltac off_unfold :=
  unfold off_PacketSize, off_SenderID, off_ReceiverID, off_ForwardID,
    off_EntryNum, off_SendTime, off_TransTime in *.

Lemma read_write_HQe m p h : HQe_ok h -> read_HQe (write_HQe m p h) p = h.
Proof.
  intros (?&?&?&?&?&?&?&?). destruct h as [tg sz snd rcv fwd ent st tt]; simpl in *.
  unfold read_HQe, write_HQe; cbn -[load store]. off_unfold. mem_frame.
  rewrite !load_store_same. change (8 * Z.of_nat 4) with 32. change (8 * Z.of_nat 8) with 64.
  f_equal; try (apply Z.mod_small; lia).
  fold (u32 ent). unfold s32. fold (wrap 32 ent) (u32 ent).
  rewrite u32_idem. fold (s32 ent). by apply s32_small.
Qed.

Lemma write_HQe_out m p h i : ~ (p <= i < p + 40) -> (write_HQe m p h).[i] = m.[i].
Proof.
  intros. unfold write_HQe, store32, store64; off_unfold.
  rewrite !store_out by lia. done.
Qed.

Lemma read_HQe_ext m m' p :
  (forall i, p <= i < p + 40 -> m.[i] = m'.[i]) -> read_HQe m p = read_HQe m' p.
Proof.
  intros H. unfold read_HQe, load32, load64; off_unfold.
  repeat (f_equal; try (apply load_ext; intros; apply H; lia)).
Qed.

Lemma read_HQe_memcpy m dst src n :
  (40 <= n)%nat -> read_HQe (memcpy m dst src n) dst = read_HQe m src.
Proof.
  intros Hn. unfold read_HQe, load32, load64; off_unfold.
  rewrite !load_memcpy_same by lia.
  by rewrite load_memcpy_start by lia.
Qed.

Lemma read_HQe_ok m p : HQe_ok (read_HQe m p).
Proof.
  unfold HQe_ok, read_HQe; simpl.
  repeat split; try apply load32_range; try apply load64_range;
    unfold s32; pose proof (u32_range (load32 m (p + off_EntryNum)));
    destruct (Z.ltb_spec (u32 (load32 m (p + off_EntryNum))) (2 ^ 31)); lia.
Qed.

(** ** Queue metadata and control flags *)

(** [m2m_HQ_meta]: producer at 0, 24 bytes of padding, consumer at 28. *)
Definition off_producer : Z := 0.
Definition off_consumer : Z := 28.

(** [m2m_HQ_cf] and [m2m_DB_meta]: dataflag at 0, transtime at 4 (a
    [uint64_t] member is 4-byte aligned in the i386 ABI; the emulator is
    built with -m32), 12 bytes as the comments of the header say. *)
Definition off_dataflag : Z := 0.
Definition off_transtime : Z := 4.

(** ** struct VND: the virtual network device the guest drives *)

Record VND := mk_VND {
  DeviceID : Z; DeviceType : arr; TotalDeviceNum : Z; Position : arr;
  Neighbors : arr; NeighborNum : Z; Shared_memory_address : Z;
  TotalTransTimes : Z; TotalTransSendEventTimes : Z; TotalTransRecvEventTimes : Z;
  TotalPacketLossTimes : Z; TotalPacketTransTimes : Z }.

Definition set_DeviceID (id : Z) (v : VND) : VND :=
  mk_VND (u32 id) (DeviceType v) (TotalDeviceNum v) (Position v) (Neighbors v)
    (NeighborNum v) (Shared_memory_address v) (TotalTransTimes v)
    (TotalTransSendEventTimes v) (TotalTransRecvEventTimes v)
    (TotalPacketLossTimes v) (TotalPacketTransTimes v).
Definition set_DeviceType (i c : Z) (v : VND) : VND :=
  mk_VND (DeviceID v) (DeviceType v).[i <- c] (TotalDeviceNum v) (Position v)
    (Neighbors v) (NeighborNum v) (Shared_memory_address v) (TotalTransTimes v)
    (TotalTransSendEventTimes v) (TotalTransRecvEventTimes v)
    (TotalPacketLossTimes v) (TotalPacketTransTimes v).
Definition set_TotalDeviceNum (x : Z) (v : VND) : VND :=
  mk_VND (DeviceID v) (DeviceType v) x (Position v) (Neighbors v)
    (NeighborNum v) (Shared_memory_address v) (TotalTransTimes v)
    (TotalTransSendEventTimes v) (TotalTransRecvEventTimes v)
    (TotalPacketLossTimes v) (TotalPacketTransTimes v).
Definition set_Position (i x : Z) (v : VND) : VND :=
  mk_VND (DeviceID v) (DeviceType v) (TotalDeviceNum v) (Position v).[i <- x]
    (Neighbors v) (NeighborNum v) (Shared_memory_address v) (TotalTransTimes v)
    (TotalTransSendEventTimes v) (TotalTransRecvEventTimes v)
    (TotalPacketLossTimes v) (TotalPacketTransTimes v).
Definition set_Neighbor (i x : Z) (v : VND) : VND :=
  mk_VND (DeviceID v) (DeviceType v) (TotalDeviceNum v) (Position v)
    (Neighbors v).[i <- x] (NeighborNum v) (Shared_memory_address v) (TotalTransTimes v)
    (TotalTransSendEventTimes v) (TotalTransRecvEventTimes v)
    (TotalPacketLossTimes v) (TotalPacketTransTimes v).
Definition set_NeighborNum (x : Z) (v : VND) : VND :=
  mk_VND (DeviceID v) (DeviceType v) (TotalDeviceNum v) (Position v)
    (Neighbors v) x (Shared_memory_address v) (TotalTransTimes v)
    (TotalTransSendEventTimes v) (TotalTransRecvEventTimes v)
    (TotalPacketLossTimes v) (TotalPacketTransTimes v).
Definition set_stats (tt ts tr tl tp : Z) (v : VND) : VND :=
  mk_VND (DeviceID v) (DeviceType v) (TotalDeviceNum v) (Position v)
    (Neighbors v) (NeighborNum v) (Shared_memory_address v) (u64 tt) (u64 ts) (u64 tr)
    (u64 tl) (u64 tp).

Definition set_Shared_memory_address (x : Z) (v : VND) : VND :=
  mk_VND (DeviceID v) (DeviceType v) (TotalDeviceNum v) (Position v)
    (Neighbors v) (NeighborNum v) x (TotalTransTimes v)
    (TotalTransSendEventTimes v) (TotalTransRecvEventTimes v)
    (TotalPacketLossTimes v) (TotalPacketTransTimes v).

(** [DeviceType] as a C string: a three-letter type is ended by the padding
    byte that follows the array in the struct, which stays zero. *)
Definition cstr_of (a : arr) : cstr :=
  if a.[0] =? 0 then [] else if a.[1] =? 0 then [a.[0]]
  else if a.[2] =? 0 then [a.[0]; a.[1]] else [a.[0]; a.[1]; a.[2]].

Definition dev_is (v : VND) (t : cstr) : bool := streq (cstr_of (DeviceType v)) t.

(** ** NODE_MAP: a row-major [unsigned int [MAX_NODE_NUM][MAX_NODE_NUM]] *)

Abbreviation linkmap := arr.
Definition NODE_MAP (g : linkmap) (i j : Z) : Z := g.[MAX_NODE_NUM * i + j].

(** [NODE_MAP[i][j] = 1; NODE_MAP[j][i] = 1;] *)
Definition add_link (g : linkmap) (i j : Z) : linkmap :=
  g.[MAX_NODE_NUM * i + j <- 1].[MAX_NODE_NUM * j + i <- 1].

(** Every cell is 0 or 1. *)
Definition unit_links (g : linkmap) : Prop :=
  forall i j, NODE_MAP g i j = 0 \/ NODE_MAP g i j = 1.

Definition node_idx (i : Z) : Prop := 0 <= i < MAX_NODE_NUM.

Lemma NODE_MAP_add_link g a b i j :
  NODE_MAP (add_link g a b) i j =
  if decide (MAX_NODE_NUM * b + a = MAX_NODE_NUM * i + j) then 1
  else if decide (MAX_NODE_NUM * a + b = MAX_NODE_NUM * i + j) then 1
  else NODE_MAP g i j.
Proof. unfold NODE_MAP, add_link. by rewrite !aget_aset. Qed.

(** Inside the table a new link is exactly the two cells. *)
Lemma NODE_MAP_add_link_idx g a b i j :
  node_idx a -> node_idx b -> node_idx i -> node_idx j ->
  NODE_MAP (add_link g a b) i j =
  if decide ((a = i /\ b = j) \/ (a = j /\ b = i)) then 1 else NODE_MAP g i j.
Proof.
  unfold node_idx. intros. rewrite NODE_MAP_add_link. unfold MAX_NODE_NUM in *.
  repeat case_decide; auto; lia.
Qed.

Lemma unit_links_add_link g a b : unit_links g -> unit_links (add_link g a b).
Proof. intros H i j. rewrite NODE_MAP_add_link. repeat case_decide; auto. Qed.

Lemma unit_links_empty : unit_links ∅.
Proof. intros i j. left. done. Qed.
