(* ===== verification/Route.v ===== *)
(** * Route discovery ([hw/m2m_route_processor.c]: dijkstra, routePath,
    route_discovery)

    Every sender and router recomputes, per packet, the next hop towards the
    receiver by running Dijkstra's algorithm on [NODE_MAP].  The file models the
    three functions on the globals they share and proves that the distances are
    the shortest ones, that [prev] is a shortest-path tree, and that forwarding
    along [route_discovery] brings a packet to its receiver in exactly as many
    hops as the distance. *)
From S2P Require Import Prelude Config.

(** ** The link map and the globals *)

Definition GRAPHSIZE : Z := MAX_NODE_NUM.
Definition MAXSIZE : Z := GRAPHSIZE * GRAPHSIZE.

Record dij := mk_dij { dist : arr; prev : arr }.

(** ** dijkstra(s).  [d] and [prev] are globals: the run starts from what the
    previous one left ([t0]) and rewrites cells 1..n. *)

Definition dijkstra_init (n s : Z) (t0 : dij) : dij * arr :=
  let '(t, visited) :=
    forZ 1 (Z.to_nat n)
      (fun '(t, visited) i =>
         (mk_dij (dist t).[i <- MAXSIZE] (prev t).[i <- (-1)], visited.[i <- 0]))
      (t0, ∅) in
  (mk_dij (dist t).[s <- 0] (prev t), visited).

(** The scan for the closest unvisited node, [mini = -1] at the start. *)
Definition find_mini (n : Z) (d visited : arr) : Z :=
  forZ 1 (Z.to_nat n)
    (fun mini i =>
       if (visited.[i] =? 0) && ((mini =? -1) || (d.[i] <? d.[mini])) then i else mini)
    (-1).

(** The relaxation of the links of [mini]. *)
Definition relax (g : linkmap) (mini : Z) (t : dij) (i : Z) : dij :=
  if NODE_MAP g mini i =? 0 then t
  else if (dist t).[mini] + NODE_MAP g mini i <? (dist t).[i]
       then mk_dij (dist t).[i <- (dist t).[mini] + NODE_MAP g mini i]
                   (prev t).[i <- mini]
       else t.

Definition dijkstra_step (g : linkmap) (n : Z) (st : dij * arr) : dij * arr :=
  let '(t, visited) := st in
  let mini := find_mini n (dist t) visited in
  (forZ 1 (Z.to_nat n) (relax g mini) t, visited.[mini <- 1]).

Definition dijkstra (g : linkmap) (n s : Z) (t0 : dij) : dij :=
  fst (forZ 1 (Z.to_nat n) (fun st _ => dijkstra_step g n st) (dijkstra_init n s t0)).

(** ** routePath(dest): follows [prev] to the source, then writes the path.
    [route_path] and [route_hops] are globals; cell -1 stands for the word in
    front of the array.  The recursion of the source is bounded here by fuel. *)

Record path_state := mk_path { route_path : arr; route_hops : Z }.

Definition clearPath (ps : path_state) : path_state := mk_path (route_path ps) (-1).

Definition push_hop (ps : path_state) (v : Z) : path_state :=
  mk_path (route_path ps).[route_hops ps <- v] (route_hops ps + 1).

Fixpoint routePath (fuel : nat) (prv : arr) (dest : Z) (ps : path_state)
  : option path_state :=
  match fuel with
  | O => None
  | S fuel' =>
      if prv.[dest] =? -1 then Some (push_hop ps dest)
      else ps' ← routePath fuel' prv prv.[dest] ps; Some (push_hop ps' dest)
  end.

(** The globals of the route processor the discovery reads and writes. *)
Record route_st := mk_route { rt_dij : dij; rt_path : path_state }.

(** TimingModel is 1: the next hop is [route_path[0]].  The recursion climbs
    the shortest-path tree, so [n + 1] calls are enough ([route_discovery_total]). *)
Definition route_discovery (g : linkmap) (n start dest : Z) (rs : route_st)
  : option (Z * route_st) :=
  let t := dijkstra g n start (rt_dij rs) in
  ps ← routePath (S (Z.to_nat n)) (prev t) dest (clearPath (rt_path rs));
  Some ((route_path ps).[0], mk_route t ps).

(** ** Reference notions: walks and the shortest-path tree *)

Definition in_net (n v : Z) : Prop := 1 <= v <= n.
Definition linked (g : linkmap) (u v : Z) : Prop := NODE_MAP g u v <> 0.

(** [walk g n k u v]: [k] links lead from [u] to [v] inside the network. *)
Inductive walk (g : linkmap) (n : Z) : Z -> Z -> Z -> Prop :=
| walk_nil v : in_net n v -> walk g n 0 v v
| walk_snoc k u v w :
    walk g n k u v -> in_net n w -> linked g v w -> walk g n (k + 1) u w.

Lemma walk_len g n k u v : walk g n k u v -> 0 <= k.
Proof. induction 1; lia. Qed.

Lemma walk_ends g n k u v : walk g n k u v -> in_net n u /\ in_net n v.
Proof. induction 1 as [v Hv|k u v w Hw IH Hin Hl]; [done|]. destruct IH. done. Qed.

Lemma walk_app g n k l u v w : walk g n k u v -> walk g n l v w -> walk g n (k + l) u w.
Proof.
  intros H1 H2. revert H1. induction H2 as [|l v w x H2 IH]; intros H1; [by rewrite Z.add_0_r|].
  rewrite Z.add_assoc. econstructor; eauto.
Qed.

Lemma walk_one g n u v : in_net n u -> in_net n v -> linked g u v -> walk g n 1 u v.
Proof. intros. change 1 with (0 + 1). econstructor; eauto using walk. Qed.

(** ** The pieces of the algorithm *)

Section Dijkstra.
Context (g : linkmap) (n s : Z).
Hypothesis Hunit : unit_links g.
Hypothesis Hs : in_net n s.

Lemma dijkstra_init_spec t0 v :
  in_net n v ->
  let '(t, visited) := dijkstra_init n s t0 in
  (dist t).[v] = (if decide (v = s) then 0 else MAXSIZE) /\
  (prev t).[v] = -1 /\ visited.[v] = 0.
Proof.
  intros Hv. unfold dijkstra_init.
  destruct (forZ _ _ _ _) as [t visited] eqn:E.
  pose (P := fun (k : Z) (st : dij * arr) =>
    forall w, 1 <= w < k ->
      (dist st.1).[w] = MAXSIZE /\ (prev st.1).[w] = -1 /\ st.2.[w] = 0).
  assert (HP : P (1 + Z.of_nat (Z.to_nat n)) (t, visited)).
  { rewrite <- E. apply (forZ_ind P); unfold P; [lia|].
    intros i [t' vis'] Hi IH w Hw. simpl.
    destruct (decide (w = i)) as [->|Hne]; [by rewrite !aget_aset_eq|].
    rewrite !aget_aset_ne by lia. apply IH. lia. }
  unfold P in HP; simpl in *. destruct (HP v) as (H1&H2&H3); [unfold in_net in *; lia|].
  rewrite aget_aset. repeat split; auto. repeat case_decide; congruence.
Qed.

Lemma find_mini_spec d visited :
  (forall v, in_net n v -> 0 <= d.[v]) ->
  (exists v, in_net n v /\ visited.[v] = 0) ->
  let m := find_mini n d visited in
  in_net n m /\ visited.[m] = 0 /\
  forall v, in_net n v -> visited.[v] = 0 -> d.[m] <= d.[v].
Proof.
  intros Hd [v0 [Hv0 Hu0]].
  pose (P := fun k m =>
    (m = -1 /\ forall v, 1 <= v < k -> visited.[v] <> 0) \/
    (1 <= m < k /\ visited.[m] = 0 /\ forall v, 1 <= v < k -> visited.[v] = 0 -> d.[m] <= d.[v])).
  assert (HP : P (1 + Z.of_nat (Z.to_nat n)) (find_mini n d visited)).
  { apply (forZ_ind P); unfold P; [left; split; [done|lia]|].
    intros i m Hi IH. destruct (Z.eqb_spec visited.[i] 0) as [Hvi|Hvi]; simpl.
    - destruct IH as [[-> IH]|(Hm&Hm0&IH)]; simpl.
      + right. repeat split; [lia|lia|done|]. intros v Hv Hv0'.
        destruct (decide (v = i)) as [->|]; [lia|]. exfalso. apply (IH v); [lia|done].
      + destruct (Z.eqb_spec m (-1)); [lia|]. simpl.
        right. destruct (Z.ltb_spec d.[i] d.[m]).
        * repeat split; [lia|lia|done|]. intros v Hv Hv0'.
          destruct (decide (v = i)) as [->|]; [lia|]. specialize (IH v). lia.
        * repeat split; [lia|lia|done|]. intros v Hv Hv0'.
          destruct (decide (v = i)) as [->|]; [lia|]. apply IH; [lia|done].
    - destruct IH as [[-> IH]|(Hm&Hm0&IH)].
      + left. split; [done|]. intros v Hv. destruct (decide (v = i)) as [->|]; [done|].
        apply IH; lia.
      + right. repeat split; [lia|lia|done|]. intros v Hv Hv0'.
        destruct (decide (v = i)) as [->|]; [done|]. apply IH; [lia|done]. }
  unfold P in HP. unfold in_net in *.
  destruct HP as [[_ H]|(Hm&Hm0&H)].
  - exfalso. apply (H v0); [lia|done].
  - split_and!; [lia|lia|done|]. intros. apply H; [lia|done].
Qed.

(** The relaxation loop in closed form: every linked node is lowered to
    [d[mini] + 1] if that is shorter; [d[mini]] itself never moves. *)
Lemma relax_all m t :
  in_net n m -> 0 <= (dist t).[m] ->
  let t' := forZ 1 (Z.to_nat n) (relax g m) t in
  forall v, in_net n v ->
    if decide (linked g m v /\ (dist t).[m] + 1 < (dist t).[v])
    then (dist t').[v] = (dist t).[m] + 1 /\ (prev t').[v] = m
    else (dist t').[v] = (dist t).[v] /\ (prev t').[v] = (prev t).[v].
Proof.
  intros Hm Hd0 t' v Hv.
  pose (P := fun k (x : dij) =>
    (dist x).[m] = (dist t).[m] /\
    (forall w, k <= w -> (dist x).[w] = (dist t).[w] /\ (prev x).[w] = (prev t).[w]) /\
    forall w, 1 <= w < k ->
      if decide (linked g m w /\ (dist t).[m] + 1 < (dist t).[w])
      then (dist x).[w] = (dist t).[m] + 1 /\ (prev x).[w] = m
      else (dist x).[w] = (dist t).[w] /\ (prev x).[w] = (prev t).[w]).
  assert (HP : P (1 + Z.of_nat (Z.to_nat n)) t').
  { apply (forZ_ind P); unfold P; [split_and!; [done|done|lia]|].
    intros i x Hi (Hxm & Hge & Hlt).
    destruct (Hge i) as [Hdi Hpi]; [lia|].
    assert (Hcase : relax g m x i =
      if decide (linked g m i /\ (dist t).[m] + 1 < (dist t).[i])
      then mk_dij (dist x).[i <- (dist t).[m] + 1] (prev x).[i <- m] else x).
    { unfold relax, linked. rewrite Hxm, Hdi. clear -Hunit.
      destruct (Z.eqb_spec (NODE_MAP g m i) 0) as [E|E].
      - by rewrite decide_False by tauto.
      - assert (NODE_MAP g m i = 1) as -> by (destruct (Hunit m i); lia).
        destruct (Z.ltb_spec ((dist t).[m] + 1) (dist t).[i]);
          [by rewrite decide_True by done|by rewrite decide_False by lia]. }
    rewrite Hcase. case_decide as Hdec; simpl.
    - assert (i <> m) by (intros ->; lia). split_and!.
      + rewrite aget_aset_ne by done. done.
      + intros w Hw. rewrite !aget_aset_ne by lia. apply Hge. lia.
      + intros w Hw. destruct (decide (w = i)) as [->|].
        * rewrite decide_True by done. by rewrite !aget_aset_eq.
        * rewrite !aget_aset_ne by lia. apply Hlt. lia.
    - split_and!; [done| |].
      + intros w Hw. apply Hge. lia.
      + intros w Hw. destruct (decide (w = i)) as [->|].
        * rewrite decide_False by done. done.
        * apply Hlt. lia. }
  unfold P in HP. destruct HP as (_ & _ & HP). apply HP. unfold in_net in *. lia.
Qed.

(** ** The invariant of the main loop, after [k] nodes were visited *)

Record dij_inv (k : Z) (t : dij) (visited : arr) : Prop := {
  di_src : (dist t).[s] = 0;
  di_range : forall v, in_net n v -> 0 <= (dist t).[v] <= MAXSIZE;
  di_few : forall v, in_net n v -> (dist t).[v] < MAXSIZE -> (dist t).[v] <= k;
  di_sound : forall v, in_net n v -> (dist t).[v] < MAXSIZE -> walk g n (dist t).[v] s v;
  di_relaxed : forall u v, in_net n u -> in_net n v -> visited.[u] <> 0 -> linked g u v ->
    (dist t).[v] <= (dist t).[u] + 1;
  di_order : forall u v, in_net n u -> in_net n v -> visited.[u] <> 0 -> visited.[v] = 0 ->
    (dist t).[u] <= (dist t).[v];
  di_tree : forall v, in_net n v ->
    ((prev t).[v] = -1 /\ (v = s \/ (dist t).[v] = MAXSIZE)) \/
    (v <> s /\ (dist t).[v] < MAXSIZE /\ in_net n (prev t).[v] /\
     visited.[(prev t).[v]] <> 0 /\ linked g (prev t).[v] v /\
     (dist t).[v] = (dist t).[(prev t).[v]] + 1) }.

Lemma dij_inv_init t0 t visited :
  dijkstra_init n s t0 = (t, visited) -> dij_inv 0 t visited.
Proof.
  intros E.
  assert (H : forall v, in_net n v ->
    (dist t).[v] = (if decide (v = s) then 0 else MAXSIZE) /\
    (prev t).[v] = -1 /\ visited.[v] = 0).
  { intros v Hv. pose proof (dijkstra_init_spec t0 v Hv) as H. by rewrite E in H. }
  assert (0 < MAXSIZE) by (unfold MAXSIZE, GRAPHSIZE, MAX_NODE_NUM; lia).
  constructor.
  - destruct (H s Hs) as (->&_). by rewrite decide_True.
  - intros v Hv. destruct (H v Hv) as (->&_). case_decide; lia.
  - intros v Hv. destruct (H v Hv) as (->&_). case_decide; lia.
  - intros v Hv. destruct (H v Hv) as (->&_). case_decide; [subst; by constructor|lia].
  - intros u v Hu Hv. destruct (H u Hu) as (_&_&->). done.
  - intros u v Hu Hv. destruct (H u Hu) as (_&_&->). done.
  - intros v Hv. destruct (H v Hv) as (->&->&_). left. split; [done|].
    case_decide; auto.
Qed.
(** What one relaxation pass does to the labels, in the form the invariant uses. *)
Lemma relax_effect k t visited m :
  dij_inv k t visited -> in_net n m -> visited.[m] = 0 ->
  (forall v, in_net n v -> visited.[v] = 0 -> (dist t).[m] <= (dist t).[v]) ->
  let t' := forZ 1 (Z.to_nat n) (relax g m) t in
  (forall v, in_net n v ->
     (linked g m v /\ (dist t).[m] + 1 < (dist t).[v] /\
      (dist t').[v] = (dist t).[m] + 1 /\ (prev t').[v] = m) \/
     (~ (linked g m v /\ (dist t).[m] + 1 < (dist t).[v]) /\
      (dist t').[v] = (dist t).[v] /\ (prev t').[v] = (prev t).[v])) /\
  (dist t').[m] = (dist t).[m] /\
  (forall u, in_net n u -> visited.[u] <> 0 ->
     (dist t).[u] <= (dist t).[m] /\ (dist t').[u] = (dist t).[u]).
Proof.
  intros I Hm Hum Hmin t'.
  assert (Hd0 : 0 <= (dist t).[m]) by apply (di_range _ _ _ I m Hm).
  assert (R : forall v, in_net n v ->
     (linked g m v /\ (dist t).[m] + 1 < (dist t).[v] /\
      (dist t').[v] = (dist t).[m] + 1 /\ (prev t').[v] = m) \/
     (~ (linked g m v /\ (dist t).[m] + 1 < (dist t).[v]) /\
      (dist t').[v] = (dist t).[v] /\ (prev t').[v] = (prev t).[v])).
  { intros v Hv. pose proof (relax_all m t Hm Hd0 v Hv) as H. simpl in H.
    fold t' in H. revert H. case_decide; tauto. }
  split; [exact R|]. split.
  - destruct (R m Hm) as [(_&?&_)|(_&?&_)]; [lia|done].
  - intros u Hu Hvu. pose proof (di_order _ _ _ I u m Hu Hm Hvu Hum) as Ho.
    split; [done|]. destruct (R u Hu) as [(_&?&_)|(_&?&_)]; [lia|done].
Qed.

Lemma dij_inv_step k t visited t' visited' :
  dij_inv k t visited -> 0 <= k ->
  (exists v, in_net n v /\ visited.[v] = 0) ->
  dijkstra_step g n (t, visited) = (t', visited') ->
  dij_inv (k + 1) t' visited'.
Proof.
  intros I Hk Hex E. unfold dijkstra_step in E.
  destruct (find_mini_spec (dist t) visited) as (Hm & Hum & Hmin);
    [intros v Hv; apply (di_range _ _ _ I v Hv)|done|].
  set (m := find_mini n (dist t) visited) in *.
  injection E as Et Ev.
  destruct (relax_effect k t visited m I Hm Hum Hmin) as (R & Rm & Rv).
  cbv zeta in R, Rm, Rv. rewrite Et in R, Rm, Rv. subst visited'. clear Et.
  pose proof (di_src _ _ _ I) as Hsrc.
  pose proof (di_range _ _ _ I) as Hrng.
  assert (Hvis : forall u, visited.[m <- 1].[u] <> 0 -> u = m \/ (u <> m /\ visited.[u] <> 0)).
  { intros u. rewrite aget_aset. case_decide; auto. }
  assert (Hvis' : forall u, visited.[u] <> 0 -> visited.[m <- 1].[u] <> 0).
  { intros u. rewrite aget_aset. case_decide; auto. }
  pose proof (Hrng m Hm) as Hrm.
  constructor.
  - destruct (R s Hs) as [(_&?&_)|(_&->&_)]; [lia|done].
  - intros v Hv. pose proof (Hrng v Hv). destruct (R v Hv) as [(_&?&->&_)|(_&->&_)]; lia.
  - intros v Hv Hlt. pose proof (Hrng v Hv). pose proof (di_few _ _ _ I m Hm).
    pose proof (di_few _ _ _ I v Hv).
    destruct (R v Hv) as [(_&?&Hd&_)|(_&Hd&_)]; rewrite Hd in *; lia.
  - intros v Hv Hlt. pose proof (Hrng v Hv).
    destruct (R v Hv) as [(Hl&?&Hd&_)|(_&Hd&_)]; rewrite Hd in *.
    + econstructor; [|done|done]. apply (di_sound _ _ _ I m Hm). lia.
    + by apply (di_sound _ _ _ I v Hv).
  - intros u v Hu Hv Hvu Hl. destruct (Hvis u Hvu) as [->|[Hne Hvu']].
    + rewrite Rm. destruct (R v Hv) as [(_&?&->&_)|(Hn&->&_)]; [lia|].
      apply Znot_lt_ge in Hn || (destruct (decide ((dist t).[m] + 1 < (dist t).[v])); [tauto|lia]).
    + destruct (Rv u Hu Hvu') as [? ->].
      pose proof (di_relaxed _ _ _ I u v Hu Hv Hvu' Hl).
      destruct (R v Hv) as [(_&?&->&_)|(_&->&_)]; lia.
  - intros u v Hu Hv Hvu Hvv. rewrite aget_aset in Hvv. case_decide as Hmv; [done|].
    pose proof (Hmin v Hv Hvv) as Hmv'.
    destruct (Hvis u Hvu) as [->|[Hne Hvu']].
    + rewrite Rm. destruct (R v Hv) as [(_&?&->&_)|(_&->&_)]; lia.
    + destruct (Rv u Hu Hvu') as [? ->].
      destruct (R v Hv) as [(_&?&->&_)|(_&->&_)]; lia.
  - intros v Hv. destruct (R v Hv) as [(Hl&Hlt&Hd&Hp)|(_&Hd&Hp)]; rewrite Hd, Hp.
    + right. pose proof (Hrng v Hv). rewrite Rm.
      split_and!; [intros ->; lia|lia|done|by rewrite aget_aset_eq|done|done].
    + destruct (di_tree _ _ _ I v Hv) as [?|(H1&H2&H3&H4&H5&H6)]; [by left|right].
      destruct (Rv _ H3 H4) as [_ ->]. split_and!; auto.
Qed.

(** Each pass visits one more node, so [n] passes visit them all. *)
Definition unvisited_count (visited : arr) : nat :=
  length (filter (fun v => visited.[v] = 0) (seqZ 1 n)).

Lemma unvisited_pos visited :
  (0 < unvisited_count visited)%nat -> exists v, in_net n v /\ visited.[v] = 0.
Proof.
  unfold unvisited_count. destruct (filter _ _) as [|v l] eqn:E; simpl; [lia|].
  intros _. assert (Hin : v ∈ filter (fun v => visited.[v] = 0) (seqZ 1 n))
    by (rewrite E; left).
  apply list_elem_of_filter in Hin as [H1 H2]. apply elem_of_seqZ in H2.
  exists v. unfold in_net. split; [lia|done].
Qed.

Lemma unvisited_zero visited :
  unvisited_count visited = 0%nat -> forall v, in_net n v -> visited.[v] <> 0.
Proof.
  unfold unvisited_count. intros H v Hv Hvv.
  apply nil_length_inv in H.
  assert (Hin : v ∈ filter (fun v => visited.[v] = 0) (seqZ 1 n)).
  { apply list_elem_of_filter. split; [done|]. apply elem_of_seqZ. unfold in_net in Hv. lia. }
  rewrite H in Hin. by apply not_elem_of_nil in Hin.
Qed.

Lemma unvisited_mark visited m :
  in_net n m -> visited.[m] = 0 ->
  S (unvisited_count visited.[m <- 1]) = unvisited_count visited.
Proof.
  intros Hm H0. unfold unvisited_count.
  assert (Hin : m ∈ seqZ 1 n) by (apply elem_of_seqZ; unfold in_net in Hm; lia).
  pose proof (NoDup_seqZ 1 n) as Hnd. revert Hin Hnd.
  generalize (seqZ 1 n) as l. induction l as [|x l IH]; intros Hin Hnd.
  { by apply not_elem_of_nil in Hin. }
  apply NoDup_cons in Hnd as [Hx Hnd].
  destruct (decide (x = m)) as [->|Hne].
  - rewrite (filter_cons_False _ m) by (by rewrite aget_aset_eq).
    rewrite (filter_cons_True _ m) by done. simpl. f_equal. f_equal.
    apply filter_ext_in. intros y Hy.
    rewrite aget_aset_ne; [done|]. intros ->. done.
  - apply elem_of_cons in Hin as [->|Hin]; [done|]. specialize (IH Hin Hnd).
    destruct (decide (visited.[x] = 0)) as [Hx0|Hx0].
    + rewrite !filter_cons_True; [simpl; lia|done|by rewrite aget_aset_ne].
    + rewrite !filter_cons_False; [done|done|by rewrite aget_aset_ne].
Qed.

Lemma unvisited_init t0 :
  unvisited_count (dijkstra_init n s t0).2 = Z.to_nat n.
Proof.
  unfold unvisited_count.
  rewrite (filter_ext_in _ (fun _ => True)).
  - rewrite <- (length_seqZ 1 n). generalize (seqZ 1 n) as l.
    induction l as [|x l IH]; [done|]. rewrite filter_cons_True by done. simpl. by rewrite IH.
  - intros v Hv%elem_of_seqZ. pose proof (dijkstra_init_spec t0 v) as H.
    destruct (dijkstra_init n s t0) as [t vis]. simpl.
    destruct H as (_&_&->); [unfold in_net; lia|done].
Qed.

(** The state after [k] passes. *)
Lemma dijkstra_passes t0 k :
  (k <= Z.to_nat n)%nat ->
  let st := forZ 1 k (fun st _ => dijkstra_step g n st) (dijkstra_init n s t0) in
  dij_inv (Z.of_nat k) st.1 st.2 /\ (k + unvisited_count st.2 = Z.to_nat n)%nat.
Proof.
  induction k as [|k IH]; intros Hk; cbv zeta.
  - rewrite forZ_0. destruct (dijkstra_init n s t0) as [t vis] eqn:E. split.
    + by eapply dij_inv_init.
    + pose proof (unvisited_init t0) as H. rewrite E in H. simpl in *. lia.
  - rewrite forZ_S. destruct IH as [I Hc]; [lia|].
    destruct (forZ 1 k _ _) as [t vis]. simpl in I, Hc.
    assert (Hex : exists v, in_net n v /\ vis.[v] = 0) by (apply unvisited_pos; lia).
    destruct (dijkstra_step g n (t, vis)) as [t' vis'] eqn:E. split.
    + replace (Z.of_nat (S k)) with (Z.of_nat k + 1) by lia.
      eapply dij_inv_step; eauto. lia.
    + destruct (find_mini_spec (dist t) vis) as (Hm & Hum & _);
        [apply (di_range _ _ _ I)|done|].
      injection E as _ <-. simpl. pose proof (unvisited_mark vis _ Hm Hum). lia.
Qed.

(** The final state: the invariant with every node visited. *)
Lemma dijkstra_final t0 :
  exists visited, dij_inv n (dijkstra g n s t0) visited /\
    forall v, in_net n v -> visited.[v] <> 0.
Proof.
  pose proof (dijkstra_passes t0 (Z.to_nat n) ltac:(lia)) as [I Hc].
  unfold dijkstra. eexists. split.
  - replace n with (Z.of_nat (Z.to_nat n)) at 1; [exact I|].
    unfold in_net in Hs. lia.
  - apply unvisited_zero. lia.
Qed.

Lemma dijkstra_lower t0 k v : walk g n k s v -> (dist (dijkstra g n s t0)).[v] <= k.
Proof.
  destruct (dijkstra_final t0) as (vis & I & Hall). intros W.
  revert I. generalize (dijkstra g n s t0) as t. intros t I.
  remember s as s0 eqn:Es in W. induction W as [v Hv|k u v w W IH Hw Hl].
  - subst. rewrite (di_src _ _ _ I). done.
  - pose proof (walk_ends _ _ _ _ _ W) as [_ Hv].
    pose proof (di_relaxed _ _ _ I v w Hv Hw (Hall v Hv) Hl). specialize (IH Es). lia.
Qed.

Lemma dijkstra_finite t0 k v :
  n < MAX_NODE_NUM -> walk g n k s v -> (dist (dijkstra g n s t0)).[v] <= n.
Proof.
  intros Hn. destruct (dijkstra_final t0) as (vis & I & Hall). intros W.
  revert I. generalize (dijkstra g n s t0) as t. intros t I.
  unfold in_net in Hs. unfold MAX_NODE_NUM in *.
  remember s as s0 eqn:Es in W. induction W as [v Hv|k u v w W IH Hw Hl].
  - subst. rewrite (di_src _ _ _ I). lia.
  - pose proof (walk_ends _ _ _ _ _ W) as [_ Hv]. specialize (IH Es).
    pose proof (di_relaxed _ _ _ I v w Hv Hw (Hall v Hv) Hl).
    apply (di_few _ _ _ I w Hw). unfold MAXSIZE, GRAPHSIZE, MAX_NODE_NUM. lia.
Qed.

(** The predecessor tree: every labelled node but the source has a linked
    predecessor one step closer. *)
Lemma dijkstra_tree t0 v :
  let t := dijkstra g n s t0 in
  in_net n v ->
  ((prev t).[v] = -1 /\ (v = s \/ (dist t).[v] = MAXSIZE)) \/
  (v <> s /\ (dist t).[v] < MAXSIZE /\ in_net n (prev t).[v] /\
   linked g (prev t).[v] v /\ (dist t).[v] = (dist t).[(prev t).[v]] + 1).
Proof.
  intros t Hv. destruct (dijkstra_final t0) as (vis & I & _).
  destruct (di_tree _ _ _ I v Hv) as [?|(?&?&?&?&?&?)]; [by left|right]. done.
Qed.

Lemma dijkstra_sound t0 v :
  let t := dijkstra g n s t0 in
  in_net n v -> (dist t).[v] < MAXSIZE ->
  0 <= (dist t).[v] <= n /\ walk g n (dist t).[v] s v.
Proof.
  intros t Hv Hlt. destruct (dijkstra_final t0) as (vis & I & _).
  pose proof (di_range _ _ _ I v Hv). pose proof (di_few _ _ _ I v Hv Hlt).
  split; [unfold t; lia|]. by apply (di_sound _ _ _ I).
Qed.
End Dijkstra.

(** ** routePath: the path it writes *)

Section Path.
Context (g : linkmap) (n s : Z).
Hypothesis Hunit : unit_links g.
Hypothesis Hs : in_net n s.
Context (t0 : dij).
#[local] Abbreviation t := (dijkstra g n s t0).

(** [trace a h v d]: cells [h..h+d] of [a] hold a path of linked nodes from [s]
    to [v], the node at cell [h + i] at distance [i]. *)
Definition trace (a : arr) (h v d : Z) : Prop :=
  a.[h + d] = v /\
  forall i, 0 <= i <= d ->
    in_net n a.[h + i] /\ (dist t).[a.[h + i]] = i /\
    (i = 0 -> a.[h + i] = s) /\
    (0 < i -> linked g a.[h + i - 1] a.[h + i]).

Lemma routePath_trace fuel v ps :
  in_net n v -> (dist t).[v] < MAXSIZE -> (dist t).[v] < Z.of_nat fuel ->
  exists ps', routePath fuel (prev t) v ps = Some ps' /\
    route_hops ps' = route_hops ps + (dist t).[v] + 1 /\
    trace (route_path ps') (route_hops ps) v (dist t).[v] /\
    forall i, ~ (route_hops ps <= i <= route_hops ps + (dist t).[v]) ->
      (route_path ps').[i] = (route_path ps).[i].
Proof.
  revert v. induction fuel as [|fuel IH]; intros v Hv Hlt Hf.
  { pose proof (dijkstra_sound g n s Hunit Hs t0 v Hv Hlt). lia. }
  simpl. destruct (dijkstra_tree g n s Hunit Hs t0 v Hv) as [[Hp Hd]|(Hne&_&Hin&Hl&Hd)].
  - destruct Hd as [->|Hd]; [|lia]. rewrite Hp. simpl.
    destruct (dijkstra_final g n s Hunit Hs t0) as (vis & I & _).
    rewrite (di_src _ _ _ _ _ _ I). eexists. split_and!; [done|simpl; lia| |].
    + split; simpl.
      * rewrite Z.add_0_r. apply aget_aset_eq.
      * intros i Hi. assert (i = 0) as -> by lia. rewrite Z.add_0_r, aget_aset_eq.
        split; [done|]. split; [apply (di_src _ _ _ _ _ _ I)|]. split; [done|lia].
    + intros i Hi. simpl. apply aget_aset_ne. lia.
  - destruct (Z.eqb_spec (prev t).[v] (-1)) as [E|_].
    { rewrite E in Hin. unfold in_net in Hin. lia. }
    assert (Hlt' : (dist t).[(prev t).[v]] < MAXSIZE) by lia.
    pose proof (dijkstra_sound g n s Hunit Hs t0 _ Hin Hlt') as [Hr _].
    destruct (IH (prev t).[v] Hin Hlt' ltac:(lia)) as (ps' & -> & Hh & [Hlast Htr] & Hout).
    simpl. eexists. split_and!; [done|simpl; lia| |].
    + rewrite Hd. split; simpl.
      * rewrite Hh, Z.add_assoc. apply aget_aset_eq.
      * intros i Hi. rewrite Hh. destruct (decide (i = (dist t).[(prev t).[v]] + 1)) as [->|Hn].
        -- rewrite Z.add_assoc, aget_aset_eq. rewrite aget_aset_ne by lia.
           split; [done|]. split; [lia|]. split; [lia|]. intros _. rewrite Z.add_simpl_r. by rewrite Hlast.
        -- rewrite !aget_aset_ne by lia. apply Htr. lia.
    + intros i Hi. simpl. rewrite aget_aset_ne by lia. apply Hout. lia.
Qed.

(** The suffix of a trace is a walk. *)
Lemma trace_walk a h v d i :
  trace a h v d -> 0 <= i <= d -> walk g n (d - i) a.[h + i] v.
Proof.
  intros [Hlast Htr] Hi.
  assert (H : forall k : nat, 0 <= i + Z.of_nat k <= d ->
    walk g n (Z.of_nat k) a.[h + i] a.[h + (i + Z.of_nat k)]).
  { induction k as [|k IHk]; intros Hk.
    - rewrite Z.add_0_r. constructor. by apply Htr.
    - replace (Z.of_nat (S k)) with (Z.of_nat k + 1) by lia. econstructor.
      + apply IHk. lia.
      + replace (i + (Z.of_nat k + 1)) with (i + Z.of_nat (S k)) by lia. by apply Htr.
      + destruct (Htr (i + Z.of_nat (S k)) Hk) as (_&_&_&Hl).
        replace (i + Z.of_nat k) with (i + Z.of_nat (S k) - 1) by lia.
        replace (i + (Z.of_nat k + 1)) with (i + Z.of_nat (S k)) by lia.
        replace (h + (i + Z.of_nat (S k) - 1)) with (h + (i + Z.of_nat (S k)) - 1) by lia.
        apply Hl. lia. }
  specialize (H (Z.to_nat (d - i))). rewrite Z2Nat.id in H by lia.
  replace (i + (d - i)) with d in H by lia. rewrite Hlast in H. apply H. lia.
Qed.
End Path.

(** The hop distance between two nodes: the length of a shortest walk. *)
Definition hop_dist (g : linkmap) (n k u v : Z) : Prop :=
  walk g n k u v /\ forall k', walk g n k' u v -> k <= k'.

Lemma hop_dist_dijkstra g n s t0 k v :
  unit_links g -> in_net n s -> n < MAX_NODE_NUM -> hop_dist g n k s v ->
  (dist (dijkstra g n s t0)).[v] = k.
Proof.
  intros Hu Hs Hn [W Hmin].
  pose proof (dijkstra_lower g n s Hu Hs t0 k v W).
  pose proof (dijkstra_finite g n s Hu Hs t0 k v Hn W).
  destruct (walk_ends _ _ _ _ _ W) as [_ Hv].
  destruct (dijkstra_sound g n s Hu Hs t0 v Hv) as [_ W'].
  { unfold MAXSIZE, GRAPHSIZE, MAX_NODE_NUM in *. lia. }
  specialize (Hmin _ W'). lia.
Qed.

(** The next hop of a packet that has at least one link to go. *)
Lemma route_discovery_hop g n k start dest rs :
  unit_links g -> n < MAX_NODE_NUM -> hop_dist g n k start dest -> 0 < k ->
  exists h rs', route_discovery g n start dest rs = Some (h, rs') /\
    in_net n h /\ linked g start h /\ hop_dist g n (k - 1) h dest /\
    forall i, ~ (-1 <= i < k) ->
      (route_path (rt_path rs')).[i] = (route_path (rt_path rs)).[i].
Proof.
  intros Hu Hn Hk Hpos. pose proof Hk as [W Hmin].
  destruct (walk_ends _ _ _ _ _ W) as [Hs Hv].
  pose proof (hop_dist_dijkstra g n start (rt_dij rs) k dest Hu Hs Hn Hk) as Hd.
  pose proof (dijkstra_finite g n start Hu Hs (rt_dij rs) k dest Hn W) as Hfin.
  set (t := dijkstra g n start (rt_dij rs)) in *.
  assert (Hlt : (dist t).[dest] < MAXSIZE).
  { unfold MAXSIZE, GRAPHSIZE, MAX_NODE_NUM in *. lia. }
  destruct (routePath_trace g n start Hu Hs (rt_dij rs) (S (Z.to_nat n)) dest
    (clearPath (rt_path rs)) Hv Hlt) as (ps & Hrun & _ & Htr & Hout).
  { unfold in_net in Hs. fold t. lia. }
  fold t in Hrun, Htr, Hout. rewrite Hd in Htr, Hout. simpl in Htr, Hout.
  unfold route_discovery. fold t. rewrite Hrun. simpl.
  do 2 eexists. split; [done|]. simpl.
  pose proof Htr as [Hlast Hcells].
  destruct (Hcells 1 ltac:(lia)) as (Hin & _ & _ & Hl).
  destruct (Hcells 0 ltac:(lia)) as (_ & _ & Hfirst & _).
  assert (Hf : (route_path ps).[-1] = start) by (by apply Hfirst).
  change (-1 + 1) with 0 in *. change (0 - 1) with (-1) in Hl. rewrite Hf in Hl.
  pose proof (trace_walk g n start (rt_dij rs) _ _ _ _ 1 Htr ltac:(lia)) as Wh.
  change (-1 + 1) with 0 in Wh.
  split_and!; [done|apply Hl; lia| |intros i Hi; apply Hout; lia].
  split; [done|]. intros k' Wk'.
  assert (walk g n (1 + k') start dest) as W'%Hmin; [|lia].
  eapply walk_app; [apply walk_one|]; eauto; by apply Hl.
Qed.

Lemma hop_dist_exists g n k u v :
  unit_links g -> n < MAX_NODE_NUM -> walk g n k u v ->
  exists d, hop_dist g n d u v /\ 0 <= d <= n /\ d <= k.
Proof.
  intros Hu Hn W. destruct (walk_ends _ _ _ _ _ W) as [Hs Hv].
  set (t0 := mk_dij ∅ ∅).
  pose proof (dijkstra_lower g n u Hu Hs t0 k v W).
  pose proof (dijkstra_finite g n u Hu Hs t0 k v Hn W).
  destruct (dijkstra_sound g n u Hu Hs t0 v Hv) as [Hr W'].
  { unfold MAXSIZE, GRAPHSIZE, MAX_NODE_NUM in *. lia. }
  exists (dist (dijkstra g n u t0)).[v]. split_and!; [|lia|lia|lia].
  split; [done|]. intros k' Wk'. by apply (dijkstra_lower g n u Hu Hs t0).
Qed.

Lemma hop_dist_0 g n k u v : hop_dist g n k u v -> (u = v <-> k = 0).
Proof.
  intros [W Hmin]. split.
  - intros ->. destruct (walk_ends _ _ _ _ _ W) as [_ Hv].
    pose proof (Hmin 0 ltac:(by constructor)). pose proof (walk_len _ _ _ _ _ W). lia.
  - intros ->. inversion W; subst; [done|].
    match goal with H : walk _ _ ?k _ _, E : ?k + 1 = 0 |- _ => apply walk_len in H; lia end.
Qed.

(** ** Forwarding through the network: every node on the way runs
    [route_discovery] on its own globals [rss u], as [m2m_post_remote_msg] and
    the routing threads do. *)
Fixpoint forward (fuel : nat) (g : linkmap) (n : Z) (rss : Z -> route_st) (u dest : Z)
  : option (list Z) :=
  if u =? dest then Some [u]
  else match fuel with
       | O => None
       | S fuel' =>
           '(h, _) ← route_discovery g n u dest (rss u);
           p ← forward fuel' g n rss h dest;
           Some (u :: p)
       end.

Lemma forward_hops g n rss fuel k u dest :
  unit_links g -> n < MAX_NODE_NUM -> hop_dist g n k u dest -> k <= Z.of_nat fuel ->
  exists p, forward fuel g n rss u dest = Some p /\ Z.of_nat (length p) = k + 1 /\
    last p = Some dest.
Proof.
  intros Hu Hn. revert k u. induction fuel as [|fuel IH]; intros k u Hk Hf;
    pose proof (hop_dist_0 _ _ _ _ _ Hk) as H0;
    pose proof (walk_len _ _ _ _ _ (proj1 Hk)); simpl;
    destruct (Z.eqb_spec u dest) as [->|Hne].
  - exists [dest]. rewrite (proj1 H0 eq_refl). done.
  - destruct Hne. apply H0. lia.
  - exists [dest]. rewrite (proj1 H0 eq_refl). done.
  - assert (0 < k) by (destruct (decide (k = 0)); [tauto|lia]).
    destruct (route_discovery_hop g n k u dest (rss u) Hu Hn Hk) as (h & rs' & -> & _ & _ & Hh & _);
      [lia|]. simpl.
    destruct (IH (k - 1) h Hh ltac:(lia)) as (p & -> & Hlen & Hlast). simpl.
    exists (u :: p). split; [done|]. split; [simpl; lia|].
    destruct p; [done|]. exact Hlast.
Qed.

(** ** A three-node network for the examples: 1 -- 2 -- 3 *)
Definition chain3 : linkmap := add_link (add_link ∅ 1 2) 2 3.
Definition route_st0 : route_st := mk_route (mk_dij ∅ ∅) (mk_path ∅ 0).

Lemma chain3_unit : unit_links chain3.
Proof. intros i j. unfold chain3. rewrite !NODE_MAP_add_link. repeat case_decide; auto. Qed.

Lemma chain3_walk : walk chain3 3 2 1 3.
Proof.
  change 2 with (0 + 1 + 1).
  apply (walk_snoc _ _ _ _ 2); [|by unfold in_net|vm_compute; done].
  apply (walk_snoc _ _ _ _ 1); [|by unfold in_net|vm_compute; done].
  constructor. by unfold in_net.
Qed.

Lemma chain3_dist : hop_dist chain3 3 2 1 3.
Proof.
  split; [apply chain3_walk|]. intros k W.
  pose proof (dijkstra_lower chain3 3 1 chain3_unit ltac:(by unfold in_net)
    (mk_dij ∅ ∅) k 3 W) as H.
  by replace (dist (dijkstra chain3 3 1 (mk_dij ∅ ∅))).[3] with 2 in H by (vm_compute; done).
Qed.

(** ** Cell 0 of [prev], which no node owns *)

Lemma dijkstra_prev0 g n s t0 : (prev (dijkstra g n s t0)).[0] = (prev t0).[0].
Proof.
  unfold dijkstra.
  apply (forZ_ind (fun _ st => (prev st.1).[0] = (prev t0).[0])).
  - unfold dijkstra_init.
    pose proof (forZ_ind (fun _ st => (prev (fst st)).[0] = (prev t0).[0]) 1 (Z.to_nat n)
      (fun '(t, visited) i =>
         (mk_dij (dist t).[i <- MAXSIZE] (prev t).[i <- (-1)], visited.[i <- 0])) (t0, ∅)) as H.
    destruct (forZ _ _ _ _) as [t vis]. simpl in *. apply H; [done|].
    intros i [t' v'] Hi IH. simpl in *. by rewrite aget_aset_ne by lia.
  - intros _ [t vis] _ IH. simpl in *.
    apply (forZ_ind (fun _ t' => (prev t').[0] = (prev t0).[0])); [done|].
    intros i t' Hi IH'. unfold relax. repeat case_match; simpl; try done.
    by rewrite aget_aset_ne by lia.
Qed.

Lemma routePath_cycle0 fuel prv ps : prv.[0] = 0 -> routePath fuel prv 0 ps = None.
Proof. intros H. induction fuel as [|f IH]; [done|]. simpl. rewrite H. simpl. by rewrite IH. Qed.

(** A receiver in the network always gets an answer. *)
Lemma route_discovery_some g n start dest rs :
  unit_links g -> in_net n start -> in_net n dest ->
  exists r, route_discovery g n start dest rs = Some r.
Proof.
  intros Hu Hs Hv. unfold route_discovery. set (t := dijkstra _ _ _ _).
  destruct (decide ((dist t).[dest] < MAXSIZE)) as [Hlt|Hge].
  - destruct (dijkstra_sound g n start Hu Hs (rt_dij rs) dest Hv Hlt) as [Hr _].
    destruct (routePath_trace g n start Hu Hs (rt_dij rs) (S (Z.to_nat n)) dest
      (clearPath (rt_path rs)) Hv Hlt) as (ps & Hrun & _).
    { fold t in Hr |- *. lia. }
    fold t in Hrun. rewrite Hrun. by eexists.
  - destruct (dijkstra_tree g n start Hu Hs (rt_dij rs) dest Hv) as [[Hp _]|(_&Hlt&_)];
      [|fold t in Hlt; lia].
    fold t in Hp. cbn [routePath]. rewrite Hp. by eexists.
Qed.

(** ** The properties *)

(** C12: [dijkstra] computes shortest distances: for every node the label is at
    most the length of any walk from the source; a label below [MAXSIZE] is the
    length of an actual walk of at most [n] links; a reachable node gets such a
    label; and the labels do not depend on the globals' earlier content. *)
Theorem dijkstra_correct g n s t0 v :
  unit_links g -> in_net n s -> in_net n v -> n < MAX_NODE_NUM ->
  let d := (dist (dijkstra g n s t0)).[v] in
  (forall k, walk g n k s v -> d <= k) /\
  (d < MAXSIZE -> 0 <= d <= n /\ walk g n d s v) /\
  ((exists k, walk g n k s v) -> d <= n) /\
  (forall t1, d < MAXSIZE -> (dist (dijkstra g n s t1)).[v] = d).
Proof.
  intros Hu Hs Hv Hn d. split_and!.
  - intros k. by apply dijkstra_lower.
  - by apply dijkstra_sound.
  - intros [k W]. by apply (dijkstra_finite g n s Hu Hs t0 k).
  - intros t1 Hlt. destruct (dijkstra_sound g n s Hu Hs t0 v Hv Hlt) as [_ W].
    apply hop_dist_dijkstra; [done..|]. split; [done|]. intros k. by apply dijkstra_lower.
Qed.

Theorem dijkstra_correct_witness :
  (dist (dijkstra chain3 3 1 (mk_dij ∅ ∅))).[3] = 2 /\
  ((exists k, walk chain3 3 k 1 3) -> (dist (dijkstra chain3 3 1 (mk_dij ∅ ∅))).[3] <= 3).
Proof.
  split; [vm_compute; done|].
  apply (dijkstra_correct chain3 3 1 (mk_dij ∅ ∅) 3 chain3_unit); by unfold in_net, MAX_NODE_NUM.
Defined.

(** [route_discovery] always returns: the recursion of [routePath] climbs
    the predecessor tree, which [dijkstra] leaves acyclic, and stops within
    [n + 1] calls for every destination, reachable or not. *)
Theorem route_discovery_total g n start dest rs :
  unit_links g -> in_net n start -> in_net n dest ->
  exists r, route_discovery g n start dest rs = Some r.
Proof. apply route_discovery_some. Qed.

Theorem route_discovery_total_witness :
  exists r, route_discovery chain3 3 1 3 route_st0 = Some r.
Proof. apply (route_discovery_total chain3 3 1 3 route_st0 chain3_unit); by unfold in_net. Defined.

(** The next hop is right: when [dest] is [k > 0] hops from [start],
    [route_discovery] returns a node linked to [start] that is exactly [k - 1]
    hops from [dest], whatever the globals held; the only cells of [route_path]
    it writes are -1 .. k-1, so cell -1 (in front of the array) always is. *)
Theorem route_discovery_next_hop g n k start dest rs :
  unit_links g -> n < MAX_NODE_NUM -> hop_dist g n k start dest -> 0 < k ->
  exists h rs', route_discovery g n start dest rs = Some (h, rs') /\
    linked g start h /\ hop_dist g n (k - 1) h dest /\
    forall i, ~ (-1 <= i < k) ->
      (route_path (rt_path rs')).[i] = (route_path (rt_path rs)).[i].
Proof.
  intros Hu Hn Hk Hp.
  destruct (route_discovery_hop g n k start dest rs Hu Hn Hk Hp)
    as (h & rs' & H & _ & Hl & Hh & Ho).
  by exists h, rs'.
Qed.

Theorem route_discovery_next_hop_witness :
  exists h rs', route_discovery chain3 3 1 3 route_st0 = Some (h, rs') /\
    linked chain3 1 h /\ hop_dist chain3 3 (2 - 1) h 3 /\
    forall i, ~ (-1 <= i < 2) ->
      (route_path (rt_path rs')).[i] = (route_path (rt_path route_st0)).[i].
Proof.
  apply (route_discovery_next_hop chain3 3 2 1 3 route_st0 chain3_unit);
    [done|apply chain3_dist|done].
Defined.



(** For a destination no walk reaches, [route_discovery] does not report an
    error: it returns whatever [route_path[0]] held, having written the
    destination in front of the array. *)
Theorem route_discovery_unreachable g n start dest rs :
  unit_links g -> in_net n start -> in_net n dest ->
  (forall k, ~ walk g n k start dest) ->
  exists rs', route_discovery g n start dest rs = Some ((route_path (rt_path rs)).[0], rs') /\
    (route_path (rt_path rs')).[-1] = dest.
Proof.
  intros Hu Hs Hv Hno. unfold route_discovery. set (t := dijkstra _ _ _ _).
  destruct (dijkstra_tree g n start Hu Hs (rt_dij rs) dest Hv) as [[Hp _]|(_&Hlt&_)].
  - fold t in Hp. cbn [routePath]. rewrite Hp.
    exists (mk_route t (push_hop (clearPath (rt_path rs)) dest)). simpl.
    rewrite aget_aset_eq. by rewrite aget_aset_ne.
  - destruct (dijkstra_sound g n start Hu Hs (rt_dij rs) dest Hv Hlt) as [_ W].
    by destruct (Hno _ W).
Qed.

(** Node 4 has no link in the chain. *)
Theorem route_discovery_unreachable_witness :
  exists rs', route_discovery chain3 4 1 4 route_st0 =
      Some ((route_path (rt_path route_st0)).[0], rs') /\
    (route_path (rt_path rs')).[-1] = 4.
Proof.
  apply (route_discovery_unreachable chain3 4 1 4 route_st0 chain3_unit); try by unfold in_net.
  intros k W. pose proof (dijkstra_finite chain3 4 1 chain3_unit ltac:(by unfold in_net)
    (mk_dij ∅ ∅) k 4 ltac:(done) W) as H.
  by replace (dist (dijkstra chain3 4 1 (mk_dij ∅ ∅))).[4] with 10000 in H by (vm_compute; done).
Defined.
