(* ===== verification/Topology.v ===== *)
(** * The network description ([hw/m2m_topology.c])

    [node_infofetch] reads [topology.conf] with [fgets] into a 40-byte buffer
    and scans it with hand-written loops.  The file is a byte list, the buffer
    a small memory at address 0 whose old content stays behind each new line.
    Every emulator process parses the same file and derives from it the link
    map, the node types, the placement of every node in the shared segment and
    its own [GlobalVND]. *)
From S2P Require Import Prelude Mem Config.

(** ** Characters *)
Definition c_nul : Z := 0.
Definition c_nl : Z := 10.
Definition c_space : Z := 32.
Definition c_comma : Z := 44.
Definition c_open : Z := 123.
Definition c_close : Z := 125.
Definition is_digit (c : Z) : bool := (48 <=? c) && (c <=? 57).
Definition is_space (c : Z) : bool := (c =? 32) || ((9 <=? c) && (c <=? 13)).

(** ** The globals *)

Record topo := mk_topo {
  TotalNetworkTypeDevice : arr;
  BeforeNetworkTypeDevice : arr;
  t_NODE_MAP : linkmap;
  NODE_LOCATION : arr;               (* row-major [..][3] *)
  NODE_TYPE : gmap Z cstr;
  NODE_SHM_LOCATION : arr;
  GlobalVND : VND }.

Definition set_counts (tot bef : arr) (t : topo) : topo :=
  mk_topo tot bef (t_NODE_MAP t) (NODE_LOCATION t) (NODE_TYPE t) (NODE_SHM_LOCATION t) (GlobalVND t).
Definition set_map (g : linkmap) (t : topo) : topo :=
  mk_topo (TotalNetworkTypeDevice t) (BeforeNetworkTypeDevice t) g (NODE_LOCATION t)
    (NODE_TYPE t) (NODE_SHM_LOCATION t) (GlobalVND t).
Definition set_location (i v : Z) (t : topo) : topo :=
  mk_topo (TotalNetworkTypeDevice t) (BeforeNetworkTypeDevice t) (t_NODE_MAP t)
    (NODE_LOCATION t).[i <- v] (NODE_TYPE t) (NODE_SHM_LOCATION t) (GlobalVND t).
Definition set_type (i : Z) (s : cstr) (t : topo) : topo :=
  mk_topo (TotalNetworkTypeDevice t) (BeforeNetworkTypeDevice t) (t_NODE_MAP t)
    (NODE_LOCATION t) (<[i := s]> (NODE_TYPE t)) (NODE_SHM_LOCATION t) (GlobalVND t).
Definition set_shm (i v : Z) (t : topo) : topo :=
  mk_topo (TotalNetworkTypeDevice t) (BeforeNetworkTypeDevice t) (t_NODE_MAP t)
    (NODE_LOCATION t) (NODE_TYPE t) (NODE_SHM_LOCATION t).[i <- v] (GlobalVND t).
Definition set_vnd (f : VND -> VND) (t : topo) : topo :=
  mk_topo (TotalNetworkTypeDevice t) (BeforeNetworkTypeDevice t) (t_NODE_MAP t)
    (NODE_LOCATION t) (NODE_TYPE t) (NODE_SHM_LOCATION t) (f (GlobalVND t)).

(** [NODE_TYPE[i]], the empty string where never written. *)
Definition node_type (t : topo) (i : Z) : cstr := default [] (NODE_TYPE t !! i).

(** ** The C library calls on the buffer *)

Definition BUFSIZE : nat := 40.

(** The bytes [fgets] takes: up to [n], stopping after a newline. *)
Fixpoint take_line (n : nat) (f : list Z) : list Z * list Z :=
  match n, f with
  | S n', c :: f' =>
      if c =? c_nl then ([c], f') else let '(l, r) := take_line n' f' in (c :: l, r)
  | _, _ => ([], f)
  end.

(** [fgets(info, 40, pFile)]: [None] is the null pointer. *)
Definition fgets (info : mem) (f : list Z) : option (mem * list Z) :=
  match take_line (BUFSIZE - 1) f with
  | ([], _) => None
  | (l, r) => Some (store_bytes info 0 (l ++ [c_nul]), r)
  end.

Fixpoint strlen_from (fuel : nat) (info : mem) (i : Z) : Z :=
  match fuel with
  | O => i
  | S fuel' => if load8 info i =? c_nul then i else strlen_from fuel' info (i + 1)
  end.
Definition strlen (info : mem) : Z := strlen_from BUFSIZE info 0.

(** The digit loop [while(info[ind] <= '9' && info[ind] >= '0')] that occurs
    in every scanner: value and index after it. *)
Fixpoint digits (fuel : nat) (info : mem) (ind sum : Z) : run (Z * Z) :=
  match fuel with
  | O => Spin
  | S fuel' =>
      if is_digit (load8 info ind)
      then digits fuel' info (ind + 1) (sum * 10 + (load8 info ind - 48))
      else Ret (sum, ind)
  end.
Definition scan_number (info : mem) (ind : Z) : run (Z * Z) := digits (S BUFSIZE) info ind 0.

Fixpoint skip_space (fuel : nat) (info : mem) (i : Z) : Z :=
  match fuel with
  | O => i
  | S fuel' => if is_space (load8 info i) then skip_space fuel' info (i + 1) else i
  end.
Definition atoi (info : mem) : run Z :=
  let i := skip_space BUFSIZE info 0 in
  if load8 info i =? 45 then '(v, _) ← scan_number info (i + 1); Ret (- v)
  else if load8 info i =? 43 then '(v, _) ← scan_number info (i + 1); Ret v
  else '(v, _) ← scan_number info i; Ret v.

(** ** Lines of the other nodes *)

(** The switch on [info[1]] that both kinds of lines start with. *)
Definition count_device_type (info : mem) (index : Z) (t : topo) (shm_location : Z)
  : topo * Z :=
  let tot := TotalNetworkTypeDevice t in
  let c := load8 info 1 in
  if c =? 67 then
    (set_type index ZC (set_counts tot.[0 <- tot.[0] + 1] (BeforeNetworkTypeDevice t) t),
     shm_location + COORDINATOR_SIZE)
  else if c =? 82 then
    (set_type index ZR (set_counts tot.[1 <- tot.[1] + 1] (BeforeNetworkTypeDevice t) t),
     shm_location + ROUTER_SIZE)
  else if c =? 69 then
    (set_type index ZED (set_counts tot.[2 <- tot.[2] + 1] (BeforeNetworkTypeDevice t) t),
     shm_location + END_DEVICE_SIZE)
  else (t, shm_location).

(** first {} for device location *)
Fixpoint scan_location (fuel : nat) (info : mem) (index ind dim : Z) (t : topo)
  : run (topo * Z) :=
  match fuel with
  | O => Spin
  | S fuel' =>
      if negb (load8 info ind =? c_close) && (ind <? strlen info) then
        '(sum, ind') ← scan_number info ind;
        if ind <? ind'
        then scan_location fuel' info index ind' (dim + 1) (set_location (3 * index + dim) sum t)
        else scan_location fuel' info index (ind + 1) dim t
      else Ret (t, ind)
  end.

(** second {} for link between device *)
Fixpoint scan_links (fuel : nat) (info : mem) (index ind : Z) (t : topo)
  : run (topo * Z) :=
  match fuel with
  | O => Spin
  | S fuel' =>
      if negb (load8 info ind =? c_close) && (ind <? strlen info) then
        '(sum, ind') ← scan_number info ind;
        if ind <? ind'
        then scan_links fuel' info index ind' (set_map (add_link (t_NODE_MAP t) index sum) t)
        else scan_links fuel' info index (ind + 1) t
      else Ret (t, ind)
  end.

Fixpoint scan_line (fuel : nat) (info : mem) (index ind select : Z) (t : topo) : run topo :=
  match fuel with
  | O => Spin
  | S fuel' =>
      if ind <? strlen info then
        if load8 info ind =? c_open then
          if select =? 0 then
            '(t, ind) ← scan_location (S BUFSIZE) info index (ind + 1) 0 t;
            scan_line fuel' info index (ind + 1) (select + 1) t
          else
            '(t, ind) ← scan_links (S BUFSIZE) info index (ind + 1) t;
            scan_line fuel' info index (ind + 1) select t
        else scan_line fuel' info index (ind + 1) select t
      else Ret t
  end.

(** ** The process's own line *)

(** case 0: the device type *)
Definition own_type (info : mem) (count : Z) (t : topo) : topo * Z :=
  let t := set_vnd (set_DeviceType 0 (load8 info count)) t in
  let t := set_vnd (set_DeviceType 1 (load8 info (count + 1))) t in
  if negb (load8 info (count + 2) =? c_space)
  then (set_vnd (set_DeviceType 2 (load8 info (count + 2))) t, count + 1 + 3)
  else (t, count + 3).

(** case 1: one coordinate and what separates it from the next *)
Definition own_coord (info : mem) (index : Z) (s : topo * Z) (ind : Z) : run (topo * Z) :=
  let '(t, count) := s in
  '(sum, count) ← scan_number info count;
  let t := set_location (3 * index + ind) sum (set_vnd (set_Position ind sum) t) in
  Ret (t, if ind =? 2 then count + 2 else count + 1).

(** case 2: the neighbour list *)
Fixpoint own_links (fuel : nat) (info : mem) (count linknum : Z) (t : topo) : run (topo * Z) :=
  match fuel with
  | O => Spin
  | S fuel' =>
      '(sum, count) ← scan_number info count;
      let t := set_vnd (set_Neighbor linknum sum) t in
      if load8 info count =? c_comma
      then own_links fuel' info (count + 1) (linknum + 1) t
      else Ret (set_vnd (set_NeighborNum (linknum + 1)) t, count)
  end.

Fixpoint own_line (fuel : nat) (info : mem) (index lens count select : Z) (t : topo) : run topo :=
  match fuel with
  | O => Spin
  | S fuel' =>
      if count <? lens then
        if load8 info count =? c_space then own_line fuel' info index lens (count + 1) select t
        else if select =? 0 then
          let '(t, count) := own_type info count t in
          own_line fuel' info index lens (count + 1) (select + 1) t
        else if select =? 1 then
          '(t, count) ← forMZ 0 3 (own_coord info index) (t, count);
          own_line fuel' info index lens (count + 1) (select + 1) t
        else if select =? 2 then
          '(t, count) ← own_links (S BUFSIZE) info count 0 t;
          own_line fuel' info index lens (count + 1) (select + 1) t
        else own_line fuel' info index lens (count + 1) select t
      else Ret t
  end.

(** ** node_infofetch: the loop over the lines *)

Record fetch := mk_fetch { f_topo : topo; f_info : mem; f_file : list Z; f_shm : Z }.

Definition fetch_line (DeviceID : Z) (s : fetch) (index : Z) : run fetch :=
  let t := set_shm index (f_shm s) (f_topo s) in
  if negb (index =? DeviceID) then
    match fgets (f_info s) (f_file s) with
    | None => ProcExit
    | Some (info, file) =>
        let '(t, shm) := count_device_type info index t (f_shm s) in
        t ← scan_line (S BUFSIZE) info index 0 0 t;
        Ret (mk_fetch t info file shm)
    end
  else
    match fgets (f_info s) (f_file s) with
    | None => Ret (mk_fetch t (f_info s) (f_file s) (f_shm s))
    | Some (info, file) =>
        let lens := strlen info in
        let t := set_counts (TotalNetworkTypeDevice t) (TotalNetworkTypeDevice t) t in
        let '(t, shm) := count_device_type info index t (f_shm s) in
        t ← own_line (S BUFSIZE) info index lens 0 0 t;
        Ret (mk_fetch t info file shm)
    end.

(** [pFile] is what [fopen] gave: the bytes of the file or the null pointer. *)
Definition node_infofetch (pFile : option (list Z)) (DeviceID : Z) (t : topo)
  : run (M2M_ERR_T * topo) :=
  let t := set_vnd (set_DeviceID DeviceID) t in
  match pFile with
  | None => ProcExit
  | Some file =>
      match fgets ∅ file with
      | None => ProcExit
      | Some (info, file) =>
          total ← atoi info;
          let t := set_vnd (set_TotalDeviceNum total) t in
          if total <? DeviceID then Ret (M2M_ERROR, t)
          else
            s ← forMZ 1 (Z.to_nat total) (fetch_line DeviceID) (mk_fetch t info file 0);
            Ret (M2M_SUCCESS, f_topo s)
      end
  end.

(** The copy of [TotalNetworkTypeDevice] into [BeforeNetworkTypeDevice] is
    cell by cell in the source; both have cells 0..2 only. *)
Definition m2m_topology_init (pFile : option (list Z)) (DeviceID : Z) (t : topo)
  : run (M2M_ERR_T * topo) :=
  let t := forZ 0 3 (fun t ind =>
    set_counts (TotalNetworkTypeDevice t).[ind <- 0] (BeforeNetworkTypeDevice t).[ind <- 0] t) t in
  node_infofetch pFile DeviceID t.

(** ** Every loop of the parser ends, whatever the file holds *)

(** Nothing is ever written behind the buffer. *)
Definition zero_tail (info : mem) : Prop := forall i, 40 <= i -> load8 info i = 0.

Lemma zero_tail_empty : zero_tail ∅.
Proof. done. Qed.

Lemma length_take_line n f : (length (take_line n f).1 <= n)%nat.
Proof.
  revert f. induction n as [|n IH]; intros f; destruct f as [|c f]; simpl; try lia.
  destruct (c =? c_nl); simpl; [lia|]. specialize (IH f).
  destruct (take_line n f) as [l r]. simpl in *. lia.
Qed.

Lemma fgets_zero_tail info f info' f' :
  zero_tail info -> fgets info f = Some (info', f') -> zero_tail info'.
Proof.
  unfold fgets. intros H. pose proof (length_take_line (BUFSIZE - 1) f) as Hl.
  destruct (take_line _ f) as [[|c l] r]; [done|]. intros [= <- <-] i Hi.
  change (u8 (store_bytes info 0 ((c :: l) ++ [c_nul])).[i] = 0).
  rewrite (store_bytes_out info 0 ((c :: l) ++ [c_nul])); [by apply (H i)|].
  rewrite length_app. unfold BUFSIZE in *. simpl in *. lia.
Qed.

Lemma strlen_bound info : 0 <= strlen info <= 40.
Proof.
  unfold strlen. assert (H : forall fuel i, i <= strlen_from fuel info i <= i + Z.of_nat fuel).
  { induction fuel as [|fuel IH]; intros i; simpl; [lia|].
    destruct (_ =? _); [lia|]. specialize (IH (i + 1)). lia. }
  specialize (H BUFSIZE 0). unfold BUFSIZE in *. lia.
Qed.

Lemma digits_ended info fuel ind sum :
  zero_tail info -> 0 <= ind -> 40 - ind < Z.of_nat fuel -> (0 < fuel)%nat ->
  exists v j, digits fuel info ind sum = Ret (v, j) /\ ind <= j /\
    is_digit (load8 info j) = false.
Proof.
  intros Hz. revert ind sum. induction fuel as [|fuel IH]; intros ind sum H0 Hf Hp; [lia|].
  simpl. destruct (is_digit (load8 info ind)) eqn:E; [|by exists sum, ind].
  assert (ind < 40).
  { destruct (decide (40 <= ind)) as [H|]; [|lia]. rewrite (Hz _ H) in E. done. }
  destruct (IH (ind + 1) (sum * 10 + (load8 info ind - 48))) as (v & j & -> & Hj & Hd); try lia.
  exists v, j. split_and!; [done|lia|done].
Qed.

Lemma scan_number_ended info ind :
  zero_tail info -> 0 <= ind ->
  exists v j, scan_number info ind = Ret (v, j) /\ ind <= j.
Proof.
  intros Hz H0. destruct (digits_ended info (S BUFSIZE) ind 0 Hz H0) as (v & j & H & Hj & _);
    unfold BUFSIZE; [lia|lia|]. by exists v, j.
Qed.

Lemma scan_location_ended fuel info index ind dim t :
  zero_tail info -> 0 <= ind -> 40 - ind < Z.of_nat fuel -> (0 < fuel)%nat ->
  exists t' j, scan_location fuel info index ind dim t = Ret (t', j) /\ ind <= j.
Proof.
  intros Hz. revert ind dim t.
  induction fuel as [|fuel IH]; intros ind dim t H0 Hf Hp; [lia|]. simpl.
  destruct (negb _); simpl; [|by exists t, ind].
  pose proof (strlen_bound info). destruct (Z.ltb_spec ind (strlen info)); [|by exists t, ind].
  destruct (scan_number_ended info ind Hz H0) as (v & j & -> & Hj). simpl.
  destruct (Z.ltb_spec ind j).
  - edestruct (IH j) as (t' & k & -> & Hk); [lia..|]. exists t', k. split; [done|lia].
  - edestruct (IH (ind + 1)) as (t' & k & -> & Hk); [lia..|]. exists t', k. split; [done|lia].
Qed.

(** [scan_links] ends and only adds links of the line's node. *)
Lemma scan_links_ended (P : linkmap -> Prop) fuel info index ind t :
  (forall g k, P g -> P (add_link g index k)) ->
  zero_tail info -> 0 <= ind -> 40 - ind < Z.of_nat fuel -> (0 < fuel)%nat ->
  P (t_NODE_MAP t) ->
  exists t' j, scan_links fuel info index ind t = Ret (t', j) /\ ind <= j /\ P (t_NODE_MAP t').
Proof.
  intros HP Hz. revert ind t.
  induction fuel as [|fuel IH]; intros ind t H0 Hf Hp HPt; [lia|]. simpl.
  destruct (negb _); simpl; [|by exists t, ind].
  pose proof (strlen_bound info). destruct (Z.ltb_spec ind (strlen info)); [|by exists t, ind].
  destruct (scan_number_ended info ind Hz H0) as (v & j & -> & Hj). simpl.
  destruct (Z.ltb_spec ind j).
  - edestruct (IH j) as (t' & k & -> & Hk & HP'); [lia..|by apply HP|].
    exists t', k. split_and!; [done|lia|done].
  - edestruct (IH (ind + 1)) as (t' & k & -> & Hk & HP'); [lia..|done|].
    exists t', k. split_and!; [done|lia|done].
Qed.

Lemma scan_location_map fuel info index ind dim t t' j :
  scan_location fuel info index ind dim t = Ret (t', j) -> t_NODE_MAP t' = t_NODE_MAP t.
Proof.
  revert ind dim t. induction fuel as [|fuel IH]; intros ind dim t; simpl; [done|].
  destruct (_ && _); [|by intros [= <- <-]].
  intros ([v k] & _ & H)%bind_Ret. destruct (ind <? k); by apply IH in H.
Qed.

Lemma scan_line_ended (P : linkmap -> Prop) fuel info index ind select t :
  (forall g k, P g -> P (add_link g index k)) ->
  zero_tail info -> 0 <= ind -> 40 - ind < Z.of_nat fuel -> (0 < fuel)%nat ->
  P (t_NODE_MAP t) ->
  exists t', scan_line fuel info index ind select t = Ret t' /\ P (t_NODE_MAP t').
Proof.
  intros HP Hz. revert ind select t.
  induction fuel as [|fuel IH]; intros ind select t H0 Hf Hp HPt; [lia|]. cbn [scan_line].
  pose proof (strlen_bound info). destruct (Z.ltb_spec ind (strlen info)); [|by exists t].
  destruct (load8 info ind =? c_open); [|apply IH; [lia..|done]].
  destruct (select =? 0).
  - destruct (scan_location_ended (S BUFSIZE) info index (ind + 1) 0 t Hz)
      as (t' & j & E & Hj); [lia|unfold BUFSIZE; lia|lia|].
    rewrite E. simpl. apply IH; [lia..|]. by rewrite (scan_location_map _ _ _ _ _ _ _ _ E).
  - destruct (scan_links_ended P (S BUFSIZE) info index (ind + 1) t HP Hz)
      as (t' & j & -> & Hj & HP'); [lia|unfold BUFSIZE; lia|lia|done|].
    simpl. apply IH; [lia..|done].
Qed.

Lemma own_coord_ended info index t count ind :
  zero_tail info -> 0 <= count ->
  exists t' c, own_coord info index (t, count) ind = Ret (t', c) /\ count < c /\
    t_NODE_MAP t' = t_NODE_MAP t.
Proof.
  intros Hz H0. unfold own_coord.
  destruct (scan_number_ended info count Hz H0) as (v & j & -> & Hj). simpl.
  destruct (ind =? 2); do 2 eexists; (split; [done|]); split; [lia|done|lia|done].
Qed.

Lemma own_coords_ended info index t count :
  zero_tail info -> 0 <= count ->
  exists t' c, forMZ 0 3 (own_coord info index) (t, count) = Ret (t', c) /\ count < c /\
    t_NODE_MAP t' = t_NODE_MAP t.
Proof.
  intros Hz H0. change (forMZ 0 3 (own_coord info index) (t, count)) with
    (a ← own_coord info index (t, count) 0; a ← own_coord info index a 1;
     a ← own_coord info index a 2; Ret a).
  destruct (own_coord_ended info index t count 0 Hz H0) as (t1 & c1 & -> & H1 & M1). cbn [mbind run_bind].
  destruct (own_coord_ended info index t1 c1 1 Hz ltac:(lia)) as (t2 & c2 & -> & H2 & M2).
  cbn [mbind run_bind].
  destruct (own_coord_ended info index t2 c2 2 Hz ltac:(lia)) as (t3 & c3 & -> & H3 & M3).
  exists t3, c3. split_and!; [done|lia|congruence].
Qed.

Lemma own_links_ended fuel info count linknum t :
  zero_tail info -> 0 <= count -> 40 - count < Z.of_nat fuel -> (0 < fuel)%nat ->
  exists t' c, own_links fuel info count linknum t = Ret (t', c) /\ count <= c /\
    t_NODE_MAP t' = t_NODE_MAP t.
Proof.
  intros Hz. revert count linknum t.
  induction fuel as [|fuel IH]; intros count linknum t H0 Hf Hp; [lia|]. simpl.
  destruct (scan_number_ended info count Hz H0) as (v & j & -> & Hj). simpl.
  destruct (Z.eqb_spec (load8 info j) c_comma) as [E|_].
  - assert (j < 40).
    { destruct (decide (40 <= j)) as [H|]; [|lia]. rewrite (Hz _ H) in E. done. }
    edestruct (IH (j + 1)) as (t' & c & -> & Hc & HM); [lia..|].
    exists t', c. split_and!; [done|lia|]. by rewrite HM.
  - do 2 eexists. split_and!; [done|lia|done].
Qed.

Lemma own_line_ended fuel info index lens count select t :
  zero_tail info -> lens <= 40 -> 0 <= count -> 40 - count < Z.of_nat fuel -> (0 < fuel)%nat ->
  exists t', own_line fuel info index lens count select t = Ret t' /\
    t_NODE_MAP t' = t_NODE_MAP t.
Proof.
  intros Hz Hlen. revert count select t.
  induction fuel as [|fuel IH]; intros count select t H0 Hf Hp; [lia|]. cbn [own_line].
  destruct (Z.ltb_spec count lens); [|by exists t].
  destruct (load8 info count =? c_space); [apply IH; lia|].
  destruct (select =? 0).
  { unfold own_type. destruct (negb _); edestruct IH as (t' & -> & HM); try lia; by exists t'. }
  destruct (select =? 1).
  { destruct (own_coords_ended info index t count Hz H0) as (t' & c & -> & Hc & HM).
    cbn [mbind run_bind]. edestruct (IH (c + 1)) as (t2 & -> & HM2); try lia.
    exists t2. split; [done|congruence]. }
  destruct (select =? 2); [|apply IH; lia].
  destruct (own_links_ended (S BUFSIZE) info count 0 t Hz H0) as (t' & c & -> & Hc & HM);
    [unfold BUFSIZE; lia|lia|].
  cbn [mbind run_bind]. edestruct (IH (c + 1)) as (t2 & -> & HM2); try lia.
  exists t2. split; [done|congruence].
Qed.

Lemma count_device_type_map info index t shm :
  t_NODE_MAP (count_device_type info index t shm).1 = t_NODE_MAP t.
Proof. unfold count_device_type. repeat case_match; done. Qed.

Lemma fetch_line_ended (P : linkmap -> Prop) id s index :
  (forall g k, P g -> P (add_link g index k)) ->
  zero_tail (f_info s) -> P (t_NODE_MAP (f_topo s)) ->
  ended (fetch_line id s index) /\
  forall s', fetch_line id s index = Ret s' ->
    zero_tail (f_info s') /\ P (t_NODE_MAP (f_topo s')).
Proof.
  intros HP Hz Ht. unfold fetch_line.
  destruct (fgets (f_info s) (f_file s)) as [[info file]|] eqn:E.
  2: { destruct (negb _); split; try done. by intros s' [= <-]. }
  pose proof (fgets_zero_tail _ _ _ _ Hz E) as Hz'.
  destruct (negb (index =? id)).
  - pose proof (count_device_type_map info index (set_shm index (f_shm s) (f_topo s)) (f_shm s)) as HM.
    destruct (count_device_type _ _ _ _) as [t shm]. simpl in HM.
    destruct (scan_line_ended P (S BUFSIZE) info index 0 0 t HP Hz') as (t' & -> & HP');
      [lia|unfold BUFSIZE; lia|lia|by rewrite HM|].
    split; [done|]. intros s' [= <-]. done.
  - cbv zeta. match goal with |- context [count_device_type info index ?t ?s] =>
      pose proof (count_device_type_map info index t s) as HM end.
    destruct (count_device_type _ _ _ _) as [t shm]. simpl in HM.
    destruct (own_line_ended (S BUFSIZE) info index (strlen info) 0 0 t Hz') as (t' & -> & HM');
      [apply strlen_bound|lia|unfold BUFSIZE; lia|lia|].
    split; [done|]. intros s' [= <-]. simpl. split; [done|]. by rewrite HM', HM.
Qed.

Lemma atoi_ended info : zero_tail info -> ended (atoi info).
Proof.
  intros Hz. unfold atoi.
  assert (H : forall fuel i, 0 <= i -> 0 <= skip_space fuel info i).
  { induction fuel as [|fuel IH]; intros i Hi; simpl; [done|]. destruct (is_space _); [|done].
    apply IH. lia. }
  specialize (H BUFSIZE 0 ltac:(done)). set (i := skip_space _ _ _) in *.
  repeat case_match; edestruct (scan_number_ended info) as (v & j & -> & _);
    try exact Hz; try done; lia.
Qed.

Lemma topology_init_run (P : linkmap -> Prop) pFile id t :
  (forall g i k, P g -> P (add_link g i k)) -> P (t_NODE_MAP t) ->
  ended (m2m_topology_init pFile id t) /\
  forall rc t', m2m_topology_init pFile id t = Ret (rc, t') -> P (t_NODE_MAP t').
Proof.
  intros HP Ht. unfold m2m_topology_init.
  set (t1 := forZ _ _ _ _).
  assert (Ht1 : P (t_NODE_MAP t1)) by exact Ht. clearbody t1. clear Ht t.
  unfold node_infofetch. destruct pFile as [file|]; [|split; [done|done]].
  destruct (fgets ∅ file) as [[info file']|] eqn:E; [|split; done].
  pose proof (fgets_zero_tail _ _ _ _ zero_tail_empty E) as Hz.
  pose proof (atoi_ended info Hz) as Ha.
  destruct (atoi info) as [total| |]; [|done|done]. cbn [mbind run_bind].
  destruct (total <? id); [split; [done|]; by intros ? ? [= <- <-]|].
  pose (Q := fun (_ : Z) s => zero_tail (f_info s) /\ P (t_NODE_MAP (f_topo s))).
  set (s0 := mk_fetch _ _ _ _).
  assert (HQ0 : Q 1 s0) by done.
  assert (Hstep : forall i s, Q i s -> ended (fetch_line id s i) /\
    forall s', fetch_line id s i = Ret s' -> Q (i + 1) s').
  { intros i s [Hz' HP']. apply fetch_line_ended; [intros; by apply HP|done|done]. }
  pose proof (forMZ_ended Q 1 (Z.to_nat total) (fetch_line id) s0 HQ0
    (fun i s _ => Hstep i s)) as Hend.
  pose proof (forMZ_ind Q 1 (Z.to_nat total) (fetch_line id) s0 HQ0
    (fun i s s' _ H => proj2 (Hstep i s H) s')) as Hinv.
  destruct (forMZ _ _ _ _) as [s| |]; [|done|done]. simpl. split; [done|].
  intros rc t' [= <- <-]. apply (Hinv s eq_refl).
Qed.

(** ** The properties *)

(** The parser ends on every file: whatever bytes [topology.conf] holds and
    whatever the globals held, [m2m_topology_init] returns or leaves through
    [exit(0)]; none of its scanning loops can run away. *)
Theorem topology_init_terminates pFile id t : m2m_topology_init pFile id t <> Spin.
Proof. by apply (topology_init_run (fun _ => True)). Qed.

(** [NODE_MAP] stays a 0/1 table under every file, the condition under
    which [dijkstra] counts hops. *)
Theorem topology_init_unit_links pFile id t rc t' :
  unit_links (t_NODE_MAP t) -> m2m_topology_init pFile id t = Ret (rc, t') ->
  unit_links (t_NODE_MAP t').
Proof.
  intros Hu H. eapply (topology_init_run unit_links); [|exact Hu|exact H].
  intros; by apply unit_links_add_link.
Qed.

(** The globals as the loader leaves them, and the text
    "2 / ZC {1,2,3} {2} / ZED {4,5,6} {1}". *)
Definition vnd0 : VND := mk_VND 0 ∅ 0 ∅ ∅ 0 0 0 0 0 0 0.
Definition topo0 : topo := mk_topo ∅ ∅ ∅ ∅ ∅ ∅ vnd0.
Definition pair_conf : list Z :=
  [50; 10; 90; 67; 32; 123; 49; 44; 50; 44; 51; 125; 32; 123; 50; 125; 10;
   90; 69; 68; 32; 123; 52; 44; 53; 44; 54; 125; 32; 123; 49; 125; 10].

Theorem topology_init_unit_links_witness :
  match m2m_topology_init (Some pair_conf) 1 topo0 with
  | Ret (rc, t') => rc = M2M_SUCCESS /\ unit_links (t_NODE_MAP t')
  | _ => False
  end.
Proof.
  destruct (m2m_topology_init (Some pair_conf) 1 topo0) as [[rc t']| |] eqn:E.
  - split; [|exact (topology_init_unit_links (Some pair_conf) 1 topo0 rc t' unit_links_empty E)].
    vm_compute in E. congruence.
  - vm_compute in E. discriminate E.
  - vm_compute in E. discriminate E.
Defined.
