(* ===== verification/TopologyFormat.v ===== *)
(** * The format of topology.conf and its round trip

    An abstract network description, its rendering as the text the
    configuration files of [m2m_app/] have, and the proof that
    [m2m_topology_init] reads it back: the parser's effect on the globals is
    the one of [build], which knows no characters. *)
From S2P Require Import Prelude Mem Config Topology.

(** ** Descriptions and their text *)

Inductive dtype := Coordinator | Router | EndDevice.

Record node_desc := mk_node {
  nd_type : dtype; nd_x : Z; nd_y : Z; nd_z : Z; nd_links : list Z }.

Definition type_name (d : dtype) : cstr :=
  match d with Coordinator => ZC | Router => ZR | EndDevice => ZED end.
Definition type_slot (d : dtype) : Z :=
  match d with Coordinator => 0 | Router => 1 | EndDevice => 2 end.
Definition type_size (d : dtype) : Z :=
  match d with
  | Coordinator => COORDINATOR_SIZE | Router => ROUTER_SIZE | EndDevice => END_DEVICE_SIZE
  end.

Fixpoint dec_fuel (n : nat) (x : Z) : list Z :=
  match n with
  | O => []
  | S n' => if x <? 10 then [48 + x] else dec_fuel n' (x / 10) ++ [48 + x mod 10]
  end.
Definition dec (x : Z) : list Z := dec_fuel 9 x.

Fixpoint sep_text (l : list Z) : list Z :=
  match l with
  | [] => []
  | [x] => dec x
  | x :: l' => dec x ++ c_comma :: sep_text l'
  end.

(** [ZR {200,100,0} {1,3}] and the newline *)
Definition render_line (d : node_desc) : list Z :=
  type_name (nd_type d) ++ c_space :: c_open :: sep_text [nd_x d; nd_y d; nd_z d] ++
  c_close :: c_space :: c_open :: sep_text (nd_links d) ++ [c_close; c_nl].

Definition render (ds : list node_desc) : list Z :=
  dec (Z.of_nat (length ds)) ++ c_nl :: concat (map render_line ds).

Definition small (x : Z) : Prop := 0 <= x < 10 ^ 9.

(** The lines fit the 40-byte buffer and name links of the table. *)
Definition node_ok (d : node_desc) : Prop :=
  small (nd_x d) /\ small (nd_y d) /\ small (nd_z d) /\
  nd_links d <> [] /\ Forall small (nd_links d) /\ (length (render_line d) <= 39)%nat.

(** ** What the parser is to do, without the characters *)

Definition build_head (index : Z) (d : node_desc) (t : topo) : topo :=
  let tot := TotalNetworkTypeDevice t in
  let k := type_slot (nd_type d) in
  set_type index (type_name (nd_type d))
    (set_counts tot.[k <- tot.[k] + 1] (BeforeNetworkTypeDevice t) t).

Definition build_other (index : Z) (d : node_desc) (t : topo) : topo :=
  let t := build_head index d t in
  let t := set_location (3 * index + 0) (nd_x d) t in
  let t := set_location (3 * index + 1) (nd_y d) t in
  let t := set_location (3 * index + 2) (nd_z d) t in
  set_map (foldl (fun g k => add_link g index k) (t_NODE_MAP t) (nd_links d)) t.

Definition set_neighbors (l : list Z) (t : topo) : topo :=
  set_vnd (set_NeighborNum (Z.of_nat (length l)))
    (foldl (fun t '(i, k) => set_vnd (set_Neighbor i k) t) t
       (zip (seqZ 0 (Z.of_nat (length l))) l)).

Definition set_own_type (d : dtype) (t : topo) : topo :=
  foldl (fun t '(i, c) => set_vnd (set_DeviceType i c) t) t (zip [0; 1; 2] (type_name d)).

Definition set_own_coord (index i v : Z) (t : topo) : topo :=
  set_location (3 * index + i) v (set_vnd (set_Position i v) t).

Definition build_own (index : Z) (d : node_desc) (t : topo) : topo :=
  let t := set_counts (TotalNetworkTypeDevice t) (TotalNetworkTypeDevice t) t in
  let t := build_head index d t in
  let t := set_own_type (nd_type d) t in
  let t := set_own_coord index 0 (nd_x d) t in
  let t := set_own_coord index 1 (nd_y d) t in
  let t := set_own_coord index 2 (nd_z d) t in
  set_neighbors (nd_links d) t.

Fixpoint build (id index shm : Z) (ds : list node_desc) (t : topo) : topo :=
  match ds with
  | [] => t
  | d :: ds' =>
      let t := set_shm index shm t in
      let t := if index =? id then build_own index d t else build_other index d t in
      build id (index + 1) (shm + type_size (nd_type d)) ds' t
  end.

(** ** Text in the buffer *)

Definition holds (info : mem) (i : Z) (l : list Z) : Prop :=
  forall k c, l !! k = Some c -> load8 info (i + Z.of_nat k) = c.

Lemma holds_cons info i c l :
  holds info i (c :: l) <-> load8 info i = c /\ holds info (i + 1) l.
Proof.
  split.
  - intros H. split; [specialize (H 0%nat c eq_refl); by rewrite Z.add_0_r in H|].
    intros k d Hk. specialize (H (S k) d Hk). rewrite <- H. f_equal. lia.
  - intros [H1 H2] [|k] d Hk; [injection Hk as <-; by rewrite Z.add_0_r|].
    rewrite <- (H2 k d Hk). f_equal. lia.
Qed.

Lemma holds_app info i l1 l2 :
  holds info i (l1 ++ l2) <-> holds info i l1 /\ holds info (i + Z.of_nat (length l1)) l2.
Proof.
  revert i. induction l1 as [|c l1 IH]; intros i; simpl.
  - rewrite Z.add_0_r. split; [|by intros []]. intros. split; [|done]. by intros k d.
  - rewrite !holds_cons, IH. replace (i + 1 + Z.of_nat (length l1))
      with (i + Z.of_nat (S (length l1))) by lia. tauto.
Qed.

Lemma take_line_app n body rest :
  Forall (fun c => c <> c_nl) body -> (length body < n)%nat ->
  take_line n (body ++ c_nl :: rest) = (body ++ [c_nl], rest).
Proof.
  revert n. induction body as [|c body IH]; intros n Hb Hn; (destruct n as [|n]; [simpl in Hn; lia|]).
  - done.
  - inversion Hb; subst. simpl. destruct (Z.eqb_spec c c_nl); [done|].
    by rewrite IH by (simpl in *; done || lia).
Qed.

Lemma fgets_line info body rest :
  Forall (fun c => 0 < c < 256 /\ c <> c_nl) body -> (length body < 39)%nat ->
  exists info', fgets info (body ++ c_nl :: rest) = Some (info', rest) /\
    holds info' 0 (body ++ [c_nl; c_nul]) /\
    strlen info' = Z.of_nat (length body) + 1.
Proof.
  intros Hb Hn. unfold fgets.
  assert (Hnl : Forall (fun c => c <> c_nl) body) by (eapply Forall_impl; [exact Hb|by intros ? []]).
  rewrite (take_line_app 39) by done.
  destruct (body ++ [c_nl]) as [|c l] eqn:E; [by destruct body|]. rewrite <- E. clear E c l.
  eexists. split; [done|]. rewrite <- app_assoc. simpl.
  set (txt := body ++ [c_nl; c_nul]).
  assert (Hok : bytes_ok txt).
  { apply Forall_app. split; [eapply Forall_impl; [exact Hb|]; simpl; intros; lia|].
    repeat constructor; done. }
  assert (Hh : holds (store_bytes info 0 txt) 0 txt).
  { intros k c Hk. by apply load8_store_bytes. }
  split; [exact Hh|].
  generalize dependent (store_bytes info 0 txt). intros m Hh. unfold txt in Hh. clear txt Hok Hnl.
  assert (H : forall fuel i l, holds m i (l ++ [c_nul]) -> Forall (fun c => 0 < c) l ->
    (length l < fuel)%nat -> strlen_from fuel m i = i + Z.of_nat (length l)).
  { induction fuel as [|fuel IH]; intros i l Hl Hp Hf; [lia|]. simpl.
    destruct l as [|c l]; simpl in *.
    - apply holds_cons in Hl as [-> _]. simpl. lia.
    - apply holds_cons in Hl as [-> Hl]. inversion Hp; subst.
      destruct (Z.eqb_spec c c_nul); [unfold c_nul in *; lia|].
      rewrite (IH (i + 1) l) by (done || lia). lia. }
  unfold strlen. rewrite (H BUFSIZE 0 (body ++ [c_nl])).
  - rewrite length_app. simpl. lia.
  - by rewrite <- app_assoc.
  - apply Forall_app. split; [eapply Forall_impl; [exact Hb|]; simpl; intros; lia|].
    by repeat constructor.
  - rewrite length_app. unfold BUFSIZE. simpl. lia.
Qed.

(** ** Numbers *)

Lemma dec_fuel_spec n x :
  0 <= x < 10 ^ Z.of_nat n -> (0 < n)%nat ->
  Forall (fun c => is_digit c = true) (dec_fuel n x) /\
  (forall s, foldl (fun s d => s * 10 + (d - 48)) s (dec_fuel n x) =
     s * 10 ^ Z.of_nat (length (dec_fuel n x)) + x) /\
  (1 <= length (dec_fuel n x))%nat.
Proof.
  revert x. induction n as [|n IH]; intros x Hx Hn; [lia|]. cbn [dec_fuel].
  assert (Hd : forall d, 0 <= d < 10 -> is_digit (48 + d) = true).
  { intros d Hd. unfold is_digit. apply andb_true_intro. split; apply Z.leb_le; lia. }
  destruct (Z.ltb_spec x 10).
  - split_and!; [|intros s; simpl; lia|simpl; lia]. constructor; [|done]. apply Hd. lia.
  - assert (Hn' : n <> 0%nat) by (intros ->; change (10 ^ Z.of_nat 1) with 10 in Hx; lia).
    pose proof (Z.div_mod x 10 ltac:(lia)). pose proof (Z.mod_pos_bound x 10 ltac:(lia)).
    destruct (IH (x / 10)) as (Hdg & Hval & Hlen).
    { replace (Z.of_nat (S n)) with (Z.of_nat n + 1) in Hx by lia.
      rewrite Z.pow_add_r in Hx by lia. change (10 ^ 1) with 10 in Hx. lia. }
    { lia. }
    split_and!.
    + apply Forall_app. split; [done|]. constructor; [|done]. by apply Hd.
    + intros s. rewrite foldl_app, Hval, length_app. simpl.
      replace (Z.of_nat (length (dec_fuel n (x / 10)) + 1))
        with (Z.of_nat (length (dec_fuel n (x / 10))) + 1) by lia.
      rewrite Z.pow_add_r by lia. change (10 ^ 1) with 10. lia.
    + rewrite length_app. simpl. lia.
Qed.

Lemma dec_digits x : small x -> Forall (fun c => is_digit c = true) (dec x).
Proof. intros. by apply (dec_fuel_spec 9); [|lia]. Qed.

Lemma dec_len x : small x -> (1 <= length (dec x))%nat.
Proof. intros. by apply (dec_fuel_spec 9); [|lia]. Qed.

Lemma digits_holds fuel info i ds c s :
  holds info i (ds ++ [c]) -> Forall (fun c => is_digit c = true) ds ->
  is_digit c = false -> (length ds < fuel)%nat ->
  digits fuel info i s = Ret (foldl (fun s d => s * 10 + (d - 48)) s ds, i + Z.of_nat (length ds)).
Proof.
  revert i s ds. induction fuel as [|fuel IH]; intros i s ds Hh Hd Hc Hf; [lia|]. simpl.
  destruct ds as [|d ds]; simpl in *.
  - apply holds_cons in Hh as [-> _]. rewrite Hc. by rewrite Z.add_0_r.
  - apply holds_cons in Hh as [-> Hh]. inversion Hd as [|? ? Hd1 Hd2]; subst. rewrite Hd1.
    rewrite (IH (i + 1) _ ds) by (done || lia). do 2 f_equal. lia.
Qed.

(** A rendered number followed by a non-digit is read back. *)
Lemma scan_dec info i x c l :
  holds info i (dec x ++ c :: l) -> small x -> is_digit c = false ->
  (length (dec x) <= 40)%nat ->
  scan_number info i = Ret (x, i + Z.of_nat (length (dec x))).
Proof.
  intros Hh Hx Hc Hl. unfold scan_number.
  rewrite (digits_holds _ _ _ (dec x) c).
  - do 2 f_equal. pose proof (dec_fuel_spec 9 x Hx ltac:(lia)) as (_ & H & _).
    fold (dec x) in H. rewrite H. lia.
  - apply holds_app in Hh as [H1 H2]. apply holds_app. split; [done|].
    apply holds_cons in H2 as [H2 _]. apply holds_cons. by split.
  - by apply dec_digits.
  - done.
  - unfold BUFSIZE. lia.
Qed.

(** The two brace scanners read a comma-separated list up to the brace. *)
Definition num_list_at (info : mem) (i : Z) (l : list Z) (r : list Z) : Prop :=
  holds info i (sep_text l ++ c_close :: r) /\ Forall small l /\
  i + Z.of_nat (length (sep_text l)) < strlen info.

Lemma sep_text_cons x y l : sep_text (x :: y :: l) = dec x ++ c_comma :: sep_text (y :: l).
Proof. done. Qed.

(** The step a scanner makes on one number. *)
Lemma num_list_step info i x l r :
  num_list_at info i (x :: l) r -> 0 <= i ->
  exists j, scan_number info i = Ret (x, j) /\ i < j /\ j <= i + Z.of_nat (length (sep_text (x :: l))) /\
    load8 info i <> c_close /\ i < strlen info /\
    match l with
    | [] => j = i + Z.of_nat (length (sep_text [x]))
    | _ => load8 info j = c_comma /\ j < strlen info /\ is_digit c_comma = false /\
           j + 1 + Z.of_nat (length (sep_text l)) = i + Z.of_nat (length (sep_text (x :: l))) /\
           num_list_at info (j + 1) l r
    end.
Proof.
  intros (Hh & Hs & Hlen) Hi. inversion Hs as [|? ? Hx Hl]; subst.
  pose proof (dec_len x Hx) as Hd1. pose proof (strlen_bound info) as Hsl.
  exists (i + Z.of_nat (length (dec x))).
  assert (Hfirst : is_digit (load8 info i) = true).
  { destruct (dec x) as [|d ds] eqn:E; [simpl in Hd1; lia|].
    pose proof (dec_digits x Hx) as Hdd. rewrite E in Hdd. inversion Hdd; subst.
    assert (load8 info i = d) as ->; [|done].
    destruct l; [simpl in Hh|rewrite sep_text_cons in Hh]; rewrite E in Hh;
      by apply holds_cons in Hh as [? _]. }
  assert (Hnb : load8 info i <> c_close) by (intros E; by rewrite E in Hfirst).
  destruct l as [|y l].
  - simpl in *. rewrite (scan_dec _ _ x _ _ Hh) by (done || lia).
    split_and!; try done; lia.
  - rewrite sep_text_cons in Hh, Hlen |- *. rewrite <- app_assoc in Hh. simpl in Hh.
    rewrite !length_app in *. cbn [length] in *.
    rewrite (scan_dec _ _ x _ _ Hh) by (done || lia).
    pose proof Hh as Hh'. apply holds_app in Hh' as [_ Hh']. apply holds_cons in Hh' as [Hc Hr].
    split_and!; try done; try lia. split_and!; try done; lia.
Qed.

Lemma load_close info i r : holds info i (c_close :: r) -> load8 info i = c_close.
Proof. by intros [? _]%holds_cons. Qed.

Lemma scan_links_at fuel info index i l r t :
  num_list_at info i l r -> l <> [] -> 0 <= i ->
  (2 * length l <= fuel)%nat ->
  scan_links fuel info index i t =
  Ret (set_map (foldl (fun g k => add_link g index k) (t_NODE_MAP t) l) t,
       i + Z.of_nat (length (sep_text l))).
Proof.
  revert fuel i t. induction l as [|x l IH]; intros fuel i t Ha Hne Hi Hf; [done|].
  destruct (num_list_step info i x l r Ha Hi) as (j & Hsc & Hij & Hj & Hnb & Hil & Hl).
  destruct fuel as [|fuel]; [simpl in Hf; lia|]. cbn [scan_links].
  rewrite (proj2 (Z.eqb_neq _ _) Hnb), (proj2 (Z.ltb_lt _ _) Hil), Hsc. cbn [mbind run_bind negb andb].
  rewrite (proj2 (Z.ltb_lt _ _) Hij).
  destruct l as [|y l].
  - destruct Ha as (Hh & _ & _). subst j. apply holds_app in Hh as [_ Hh%load_close].
    destruct fuel as [|fuel]; [simpl in Hf; lia|]. cbn [scan_links]. rewrite Hh. done.
  - destruct Hl as (Hc & Hjl & Hcd & Hlen & Ha').
    destruct fuel as [|fuel]; [simpl in Hf; lia|]. cbn [scan_links].
    assert (Hsn : scan_number info j = Ret (0, j)).
    { unfold scan_number, BUFSIZE. cbn [digits]. by rewrite Hc, Hcd. }
    rewrite Hsn, Hc, (proj2 (Z.ltb_lt _ _) Hjl). change (c_comma =? c_close) with false.
    cbn [mbind run_bind negb andb]. rewrite Z.ltb_irrefl.
    rewrite (IH fuel (j + 1)); [|done|done|lia|simpl in *; lia].
    rewrite Hlen. done.
Qed.

Definition locate (index : Z) (t : topo) (dim : Z) (l : list Z) : topo :=
  foldl (fun t '(k, v) => set_location (3 * index + k) v t) t
    (zip (seqZ dim (Z.of_nat (length l))) l).

Lemma locate_cons index t dim x l :
  locate index t dim (x :: l) = locate index (set_location (3 * index + dim) x t) (dim + 1) l.
Proof.
  unfold locate. simpl length. rewrite seqZ_cons by lia. simpl.
  replace (Z.pred (Z.of_nat (S (length l)))) with (Z.of_nat (length l)) by lia.
  by replace (Z.succ dim) with (dim + 1) by lia.
Qed.

Lemma scan_location_at fuel info index i dim l r t :
  num_list_at info i l r -> l <> [] -> 0 <= i ->
  (2 * length l <= fuel)%nat ->
  scan_location fuel info index i dim t =
  Ret (locate index t dim l, i + Z.of_nat (length (sep_text l))).
Proof.
  revert fuel i dim t. induction l as [|x l IH]; intros fuel i dim t Ha Hne Hi Hf; [done|].
  destruct (num_list_step info i x l r Ha Hi) as (j & Hsc & Hij & Hj & Hnb & Hil & Hl).
  destruct fuel as [|fuel]; [simpl in Hf; lia|]. cbn [scan_location].
  rewrite (proj2 (Z.eqb_neq _ _) Hnb), (proj2 (Z.ltb_lt _ _) Hil), Hsc. cbn [mbind run_bind negb andb].
  rewrite (proj2 (Z.ltb_lt _ _) Hij), locate_cons.
  destruct l as [|y l].
  - destruct Ha as (Hh & _ & _). subst j. apply holds_app in Hh as [_ Hh%load_close].
    destruct fuel as [|fuel]; [simpl in Hf; lia|]. cbn [scan_location]. rewrite Hh. done.
  - destruct Hl as (Hc & Hjl & Hcd & Hlen & Ha').
    destruct fuel as [|fuel]; [simpl in Hf; lia|]. cbn [scan_location].
    assert (Hsn : scan_number info j = Ret (0, j)).
    { unfold scan_number, BUFSIZE. cbn [digits]. by rewrite Hc, Hcd. }
    rewrite Hsn, Hc, (proj2 (Z.ltb_lt _ _) Hjl). change (c_comma =? c_close) with false.
    cbn [mbind run_bind negb andb]. rewrite Z.ltb_irrefl.
    rewrite (IH fuel (j + 1)); [|done|done|lia|simpl in *; lia].
    rewrite Hlen. done.
Qed.

(** ** A whole line in the buffer *)

Definition line_in (info : mem) (d : node_desc) : Prop :=
  holds info 0 (render_line d) /\ strlen info = Z.of_nat (length (render_line d)).

(** Where the parts of a line lie: the coordinate list at [len type + 2], the
    link list after it. *)
Lemma line_parts info d :
  line_in info d -> node_ok d ->
  let a := Z.of_nat (length (type_name (nd_type d))) in
  let xyz := sep_text [nd_x d; nd_y d; nd_z d] in
  let b := a + 2 + Z.of_nat (length xyz) in
  holds info 0 (type_name (nd_type d) ++ [c_space]) /\
  load8 info (a + 1) = c_open /\
  num_list_at info (a + 2) [nd_x d; nd_y d; nd_z d]
    (c_space :: c_open :: sep_text (nd_links d) ++ [c_close; c_nl]) /\
  load8 info b = c_close /\ load8 info (b + 1) = c_space /\ load8 info (b + 2) = c_open /\
  num_list_at info (b + 3) (nd_links d) [c_nl] /\
  load8 info (b + 3 + Z.of_nat (length (sep_text (nd_links d)))) = c_close /\
  load8 info (b + 3 + Z.of_nat (length (sep_text (nd_links d))) + 1) = c_nl /\
  strlen info = b + 3 + Z.of_nat (length (sep_text (nd_links d))) + 2.
Proof.
  intros [Hh Hlen] (Hx & Hy & Hz & Hne & Hl & Hfit). cbv zeta.
  unfold render_line in Hh, Hlen.
  set (ty := type_name (nd_type d)) in *. set (xyz := sep_text [nd_x d; nd_y d; nd_z d]) in *.
  set (ls := sep_text (nd_links d)) in *.
  assert (Hlen' : strlen info =
    Z.of_nat (length ty) + 2 + Z.of_nat (length xyz) + 3 + Z.of_nat (length ls) + 2).
  { rewrite Hlen. rewrite !length_app. cbn [length]. rewrite !length_app. cbn [length].
    rewrite !length_app. cbn [length]. lia. }
  apply holds_app in Hh as [Hty Hh]. apply holds_cons in Hh as [Hsp Hh].
  apply holds_cons in Hh as [Ho Hh].
  replace (0 + Z.of_nat (length ty) + 1 + 1) with (Z.of_nat (length ty) + 2) in Hh by lia.
  assert (Hxyz : holds info (Z.of_nat (length ty) + 2) (xyz ++ c_close :: c_space :: c_open :: ls ++ [c_close; c_nl])) by exact Hh.
  apply holds_app in Hh as [_ Hh]. apply holds_cons in Hh as [Hc Hh].
  apply holds_cons in Hh as [Hs2 Hh]. apply holds_cons in Hh as [Ho2 Hh].
  set (b := Z.of_nat (length ty) + 2 + Z.of_nat (length xyz)) in *.
  replace (b + 1 + 1 + 1) with (b + 3) in Hh by lia.
  assert (Hls : holds info (b + 3) (ls ++ c_close :: [c_nl])) by exact Hh.
  apply holds_app in Hh as [_ Hh]. apply holds_cons in Hh as [Hc2 Hh].
  apply holds_cons in Hh as [Hn _].
  replace (b + 1 + 1) with (b + 2) in Ho2 by lia.
  split; [apply holds_app; split; [done|]; apply holds_cons; by split|].
  split; [done|]. split.
  { split; [exact Hxyz|]. split; [by do 3 (constructor; [done|])|]. fold xyz. lia. }
  split; [done|]. split; [done|]. split; [done|]. split.
  { split; [exact Hls|]. split; [done|]. fold ls. lia. }
  split; [done|]. split; [done|]. lia.
Qed.

Lemma scan_line_skip fuel info index i select t l :
  holds info i l -> Forall (fun c => c <> c_open) l -> i + Z.of_nat (length l) <= strlen info ->
  scan_line (length l + fuel) info index i select t =
  scan_line fuel info index (i + Z.of_nat (length l)) select t.
Proof.
  revert i. induction l as [|c l IH]; intros i Hh Hf Hl; simpl length in *.
  - by rewrite Z.add_0_r.
  - apply holds_cons in Hh as [Hc Hh]. inversion Hf; subst. simpl plus. cbn [scan_line].
    rewrite (proj2 (Z.ltb_lt _ _)) by lia.
    destruct (Z.eqb_spec (load8 info i) c_open); [done|].
    rewrite (IH (i + 1)) by (done || lia). f_equal. lia.
Qed.

Lemma type_name_short d : (2 <= length (type_name d) <= 3)%nat.
Proof. destruct d; simpl; lia. Qed.

Lemma sep_text_len l : Forall small l -> (2 * length l <= S (length (sep_text l)))%nat.
Proof.
  induction l as [|x l IH]; intros Hs; [simpl; lia|]. inversion Hs as [|? ? Hx Hl]; subst.
  pose proof (dec_len x Hx). destruct l as [|y l]; [simpl; lia|].
  rewrite sep_text_cons, length_app. specialize (IH Hl). cbn [length] in *. lia.
Qed.

Lemma scan_line_render info index d t :
  line_in info d -> node_ok d ->
  scan_line (S BUFSIZE) info index 0 0 t =
  Ret (set_map (foldl (fun g k => add_link g index k) (t_NODE_MAP t) (nd_links d))
         (locate index t 0 [nd_x d; nd_y d; nd_z d])).
Proof.
  intros Hin Hok. destruct (line_parts info d Hin Hok)
    as (Hty & Ho & Hxyz & Hc & Hs & Ho2 & Hls & Hc2 & Hn & Hlen).
  pose proof (type_name_short (nd_type d)) as Hshort.
  pose proof (strlen_bound info) as Hsb.
  destruct Hok as (_ & _ & _ & Hne & Hsm & _).
  pose proof (sep_text_len _ Hsm) as Hll.
  set (a := Z.of_nat (length (type_name (nd_type d)))) in *.
  set (xyz := sep_text [nd_x d; nd_y d; nd_z d]) in *.
  set (b := a + 2 + Z.of_nat (length xyz)) in *.
  set (e := b + 3 + Z.of_nat (length (sep_text (nd_links d)))) in *.
  assert (Hlty : length (type_name (nd_type d) ++ [c_space]) = S (length (type_name (nd_type d))))
    by (rewrite length_app; simpl; lia).
  replace (S BUFSIZE) with (length (type_name (nd_type d) ++ [c_space]) +
    (S (S (S (S (S (35 - length (type_name (nd_type d)))))))))%nat
    by (rewrite Hlty; unfold BUFSIZE; lia).
  rewrite (scan_line_skip _ _ _ 0);
    [|done|destruct (nd_type d); repeat constructor; done|rewrite Hlty; lia].
  rewrite Hlty. replace (0 + Z.of_nat (S (length (type_name (nd_type d))))) with (a + 1) by lia.
  cbn [scan_line]. rewrite Ho, (proj2 (Z.ltb_lt _ _)) by lia. cbn [Z.eqb mbind run_bind].
  rewrite Z.eqb_refl. replace (a + 1 + 1) with (a + 2) by lia.
  rewrite (scan_location_at _ _ _ _ _ _ _ _ Hxyz) by (done || (unfold BUFSIZE; simpl; lia)).
  cbn [mbind run_bind]. fold xyz. fold b.
  rewrite Hs, (proj2 (Z.ltb_lt (b + 1) _)) by lia. change (c_space =? c_open) with false. cbn iota.
  replace (b + 1 + 1) with (b + 2) by lia.
  rewrite Ho2, (proj2 (Z.ltb_lt (b + 2) _)), Z.eqb_refl by lia. change (0 + 1 =? 0) with false. cbn iota.
  replace (b + 2 + 1) with (b + 3) by lia.
  rewrite (scan_links_at _ _ _ _ _ _ _ Hls) by (done || (unfold BUFSIZE; lia)).
  cbn [mbind run_bind]. fold e.
  rewrite Hn, (proj2 (Z.ltb_lt (e + 1) _)) by lia. change (c_nl =? c_open) with false. cbn iota.
  rewrite (proj2 (Z.ltb_ge (e + 1 + 1) _)) by lia. done.
Qed.

(** ** The process's own line *)

Definition neighbors_from (k : Z) (l : list Z) (t : topo) : topo :=
  foldl (fun t '(i, x) => set_vnd (set_Neighbor i x) t) t
    (zip (seqZ k (Z.of_nat (length l))) l).

Lemma neighbors_from_cons k x l t :
  neighbors_from k (x :: l) t = neighbors_from (k + 1) l (set_vnd (set_Neighbor k x) t).
Proof.
  unfold neighbors_from. simpl length. rewrite seqZ_cons by lia. simpl.
  replace (Z.pred (Z.of_nat (S (length l)))) with (Z.of_nat (length l)) by lia.
  by replace (Z.succ k) with (k + 1) by lia.
Qed.

Lemma own_links_at fuel info i k l r t :
  num_list_at info i l r -> l <> [] -> 0 <= i -> (length l <= fuel)%nat ->
  own_links fuel info i k t =
  Ret (set_vnd (set_NeighborNum (k + Z.of_nat (length l))) (neighbors_from k l t),
       i + Z.of_nat (length (sep_text l))).
Proof.
  revert fuel i k t. induction l as [|x l IH]; intros fuel i k t Ha Hne Hi Hf; [done|].
  destruct (num_list_step info i x l r Ha Hi) as (j & Hsc & Hij & Hj & Hnb & Hil & Hl).
  destruct fuel as [|fuel]; [simpl in Hf; lia|]. cbn [own_links].
  rewrite Hsc, neighbors_from_cons. cbn [mbind run_bind].
  destruct l as [|y l].
  - destruct Ha as (Hh & _ & _). subst j. apply holds_app in Hh as [_ Hh%load_close].
    rewrite Hh. done.
  - destruct Hl as (Hc & Hjl & Hcd & Hlen & Ha'). rewrite Hc. cbn [Z.eqb].
    rewrite Z.eqb_refl. rewrite (IH fuel (j + 1) (k + 1)); [|done|done|lia|simpl in *; lia].
    rewrite Hlen. do 4 f_equal. simpl length. lia.
Qed.

Lemma num_first info i x l r :
  num_list_at info i (x :: l) r -> load8 info i <> c_space.
Proof.
  intros (Hh & Hs & _) E. inversion Hs as [|? ? Hx Hl]; subst.
  pose proof (dec_len x Hx) as Hd1. pose proof (dec_digits x Hx) as Hdd.
  destruct (dec x) as [|d ds] eqn:E1; [simpl in Hd1; lia|].
  inversion Hdd as [|? ? Hd2 _]; subst.
  assert (load8 info i = d) as Hi.
  { destruct l; [simpl in Hh|rewrite sep_text_cons in Hh]; rewrite E1 in Hh;
      by apply holds_cons in Hh as [? _]. }
  rewrite <- Hi, E in Hd2. done.
Qed.

Lemma own_coord_eq info index t count ind v j :
  scan_number info count = Ret (v, j) ->
  own_coord info index (t, count) ind =
  Ret (set_own_coord index ind v t, if ind =? 2 then j + 2 else j + 1).
Proof. intros H. unfold own_coord. by rewrite H. Qed.

Lemma own_coords_at info index i x y z r t :
  num_list_at info i [x; y; z] r -> 0 <= i ->
  forMZ 0 3 (own_coord info index) (t, i) =
  Ret (set_own_coord index 2 z (set_own_coord index 1 y (set_own_coord index 0 x t)),
       i + Z.of_nat (length (sep_text [x; y; z])) + 2).
Proof.
  intros Ha Hi.
  destruct (num_list_step _ _ _ _ _ Ha Hi) as (j & Hsc & Hij & _ & _ & _ & Hc & _ & _ & Hlen & Ha2).
  destruct (num_list_step _ _ _ _ _ Ha2 ltac:(lia)) as (j2 & Hsc2 & Hij2 & _ & _ & _ & Hc2 & _ & _ & Hlen2 & Ha3).
  destruct (num_list_step _ _ _ _ _ Ha3 ltac:(lia)) as (j3 & Hsc3 & Hij3 & _ & _ & _ & Hlen3).
  change (forMZ 0 3 (own_coord info index) (t, i)) with
    (a ← own_coord info index (t, i) 0; a ← own_coord info index a 1;
     a ← own_coord info index a 2; Ret a).
  rewrite (own_coord_eq _ _ _ _ _ _ _ Hsc). cbn [mbind run_bind Z.eqb].
  rewrite (own_coord_eq _ _ _ _ _ _ _ Hsc2). cbn [mbind run_bind Z.eqb Pos.eqb].
  rewrite (own_coord_eq _ _ _ _ _ _ _ Hsc3). cbn [mbind run_bind Z.eqb Pos.eqb].
  do 2 f_equal. lia.
Qed.

Lemma own_type_at info d t :
  holds info 0 (type_name d ++ [c_space]) ->
  own_type info 0 t = (set_own_type d t, Z.of_nat (length (type_name d)) + 1).
Proof.
  intros Hh. unfold own_type. rewrite !Z.add_0_l.
  destruct d; simpl in Hh; repeat (apply holds_cons in Hh as [? Hh]);
    repeat match goal with
      | H : load8 info ?i = _ |- _ =>
          let j := eval compute in i in change i with j in H; rewrite H; clear H
      end; done.
Qed.

(** One turn of the [while(count < lens)] loop. *)
Lemma own_line_S fuel info index lens count select t :
  own_line (S fuel) info index lens count select t =
  if count <? lens then
    if load8 info count =? c_space then own_line fuel info index lens (count + 1) select t
    else if select =? 0 then
      let '(t, count) := own_type info count t in
      own_line fuel info index lens (count + 1) (select + 1) t
    else if select =? 1 then
      '(t, count) ← forMZ 0 3 (own_coord info index) (t, count);
      own_line fuel info index lens (count + 1) (select + 1) t
    else if select =? 2 then
      '(t, count) ← own_links (S BUFSIZE) info count 0 t;
      own_line fuel info index lens (count + 1) (select + 1) t
    else own_line fuel info index lens (count + 1) select t
  else Ret t.
Proof. done. Qed.

Lemma own_line_render info index d t :
  line_in info d -> node_ok d ->
  own_line (S BUFSIZE) info index (strlen info) 0 0 t =
  Ret (let t := set_own_type (nd_type d) t in
       let t := set_own_coord index 0 (nd_x d) t in
       let t := set_own_coord index 1 (nd_y d) t in
       let t := set_own_coord index 2 (nd_z d) t in
       set_neighbors (nd_links d) t).
Proof.
  intros Hin Hok. destruct (line_parts info d Hin Hok)
    as (Hty & Ho & Hxyz & Hc & Hs & Ho2 & Hls & Hc2 & Hn & Hlen).
  pose proof (type_name_short (nd_type d)) as Hshort.
  pose proof (strlen_bound info) as Hsb.
  destruct Hok as (_ & _ & _ & Hne & Hsm & _).
  pose proof (sep_text_len _ Hsm) as Hll.
  set (a := Z.of_nat (length (type_name (nd_type d)))) in *.
  set (xyz := sep_text [nd_x d; nd_y d; nd_z d]) in *.
  set (b := a + 2 + Z.of_nat (length xyz)) in *.
  set (e := b + 3 + Z.of_nat (length (sep_text (nd_links d)))) in *.
  assert (H0 : load8 info 0 <> c_space).
  { destruct (nd_type d); simpl in Hty; by apply holds_cons in Hty as [-> _]. }
  change (S BUFSIZE) with (S (S (S (S (S 36))))). generalize 36%nat as k. intros k.
  rewrite own_line_S.
  rewrite (proj2 (Z.ltb_lt 0 _)), (proj2 (Z.eqb_neq _ _) H0), Z.eqb_refl by lia.
  rewrite (own_type_at _ _ _ Hty). fold a. cbn iota.
  replace (a + 1 + 1) with (a + 2) by lia.
  rewrite own_line_S, (proj2 (Z.ltb_lt (a + 2) _)) by lia.
  rewrite (proj2 (Z.eqb_neq _ _) (num_first _ _ _ _ _ Hxyz)).
  change (0 + 1 =? 0) with false. change (0 + 1 =? 1) with true. cbn iota.
  rewrite (own_coords_at _ _ _ _ _ _ _ _ Hxyz) by lia. cbn [mbind run_bind].
  fold xyz. fold b. replace (b + 2 + 1) with (b + 3) by lia.
  rewrite own_line_S, (proj2 (Z.ltb_lt (b + 3) _)) by lia.
  destruct (nd_links d) as [|l0 ls] eqn:El; [done|].
  rewrite (proj2 (Z.eqb_neq _ _) (num_first _ _ _ _ _ Hls)).
  change (0 + 1 + 1 =? 0) with false. change (0 + 1 + 1 =? 1) with false.
  change (0 + 1 + 1 =? 2) with true. cbn iota.
  rewrite (own_links_at _ _ _ _ _ _ _ Hls) by (done || (unfold BUFSIZE; lia)).
  cbn [mbind run_bind]. fold e.
  rewrite own_line_S, (proj2 (Z.ltb_lt (e + 1) _)), Hn by lia. change (c_nl =? c_space) with false.
  change (0 + 1 + 1 + 1 =? 0) with false. change (0 + 1 + 1 + 1 =? 1) with false.
  change (0 + 1 + 1 + 1 =? 2) with false. cbn iota.
  rewrite own_line_S, (proj2 (Z.ltb_ge (e + 1 + 1) _)) by lia. done.
Qed.

(** ** The whole file *)

Definition text (c : Z) : Prop := 0 < c < 256 /\ c <> c_nl.

Lemma dec_text x : small x -> Forall text (dec x).
Proof.
  intros Hx. eapply Forall_impl; [by apply dec_digits|]. intros c Hc.
  unfold is_digit in Hc. apply andb_prop in Hc as [H1%Z.leb_le H2%Z.leb_le].
  unfold text, c_nl. lia.
Qed.

Lemma sep_text_text l : Forall small l -> Forall text (sep_text l).
Proof.
  induction l as [|x l IH]; intros Hs; [constructor|]. inversion Hs as [|? ? Hx Hl]; subst.
  destruct l as [|y l]; [by apply dec_text|].
  rewrite sep_text_cons. apply Forall_app. split; [by apply dec_text|].
  constructor; [done|]. by apply IH.
Qed.

Lemma render_line_body d :
  node_ok d -> exists body, render_line d = body ++ [c_nl] /\ Forall text body.
Proof.
  intros (Hx & Hy & Hz & _ & Hl & _). unfold render_line.
  exists (type_name (nd_type d) ++ c_space :: c_open :: sep_text [nd_x d; nd_y d; nd_z d] ++
    c_close :: c_space :: c_open :: sep_text (nd_links d) ++ [c_close]). split.
  { rewrite <- app_assoc. simpl. rewrite <- !app_assoc. simpl. by rewrite <- !app_assoc. }
  apply Forall_app. split; [destruct (nd_type d); repeat constructor; done|].
  do 2 (constructor; [done|]). apply Forall_app.
  split; [apply sep_text_text; by do 3 (constructor; [done|])|].
  do 3 (constructor; [done|]). apply Forall_app. split; [by apply sep_text_text|].
  by constructor.
Qed.

Lemma fgets_render info d rest :
  node_ok d -> exists info', fgets info (render_line d ++ rest) = Some (info', rest) /\
    line_in info' d.
Proof.
  intros Hok. destruct (render_line_body d Hok) as (body & Eb & Ht).
  pose proof Hok as (_ & _ & _ & _ & _ & Hfit). rewrite Eb, length_app in Hfit. simpl in Hfit.
  destruct (fgets_line info body rest Ht ltac:(lia)) as (info' & Hf & Hh & Hlen).
  exists info'. rewrite Eb, <- app_assoc. split; [done|]. split.
  - change [c_nl; c_nul] with ([c_nl] ++ [c_nul]) in Hh. rewrite app_assoc, <- Eb in Hh.
    by apply holds_app in Hh as [? _].
  - rewrite Hlen, Eb, length_app. simpl. lia.
Qed.

Lemma count_device_type_render info index d t shm :
  line_in info d ->
  count_device_type info index t shm = (build_head index d t, shm + type_size (nd_type d)).
Proof.
  intros [Hh _]. unfold count_device_type, build_head.
  assert (E : load8 info 1 = match nd_type d with Coordinator => 67 | Router => 82 | EndDevice => 69 end).
  { unfold render_line in Hh.
    destruct (nd_type d); apply (Hh 1%nat); done. }
  rewrite E. by destruct (nd_type d).
Qed.

Lemma fetch_line_render id s index d rest :
  node_ok d -> f_file s = render_line d ++ rest ->
  exists info, fetch_line id s index =
    Ret (mk_fetch (let t := set_shm index (f_shm s) (f_topo s) in
                   if index =? id then build_own index d t else build_other index d t)
           info rest (f_shm s + type_size (nd_type d))).
Proof.
  intros Hok Hf. unfold fetch_line. rewrite Hf.
  destruct (fgets_render (f_info s) d rest Hok) as (info & -> & Hin). exists info.
  destruct (index =? id); cbn [negb]; cbv zeta.
  - rewrite (count_device_type_render _ _ d) by done.
    by rewrite (own_line_render info index d).
  - rewrite (count_device_type_render _ _ d) by done.
    by rewrite (scan_line_render info index d).
Qed.

Lemma fetch_all_render id ds index s :
  Forall node_ok ds -> f_file s = concat (map render_line ds) ->
  exists s', forM_list (seqZ index (Z.of_nat (length ds))) (fetch_line id) s = Ret s' /\
    f_topo s' = build id index (f_shm s) ds (f_topo s).
Proof.
  revert index s. induction ds as [|d ds IH]; intros index s Hok Hf; simpl in Hf.
  - exists s. done.
  - inversion Hok as [|? ? Hd Hds]; subst. simpl length. rewrite seqZ_cons by lia.
    destruct (fetch_line_render id s index d _ Hd Hf) as (info & Hfl).
    replace (Z.pred (Z.of_nat (S (length ds)))) with (Z.of_nat (length ds)) by lia.
    replace (Z.succ index) with (index + 1) by lia.
    cbn [forM_list]. rewrite Hfl. cbn [mbind run_bind].
    edestruct (IH (index + 1)) as (s' & Hs & Ht); [done| |].
    2: { exists s'. split; [exact Hs|]. rewrite Ht. done. }
    done.
Qed.

Lemma atoi_dec info x l :
  small x -> holds info 0 (dec x ++ c_nl :: l) -> (length (dec x) <= 40)%nat -> atoi info = Ret x.
Proof.
  intros Hx Hh Hl. unfold atoi.
  assert (Hd : is_digit (load8 info 0) = true).
  { pose proof (dec_len x Hx) as Hd1. pose proof (dec_digits x Hx) as Hdd.
    destruct (dec x) as [|d ds]; [simpl in Hd1; lia|].
    inversion Hdd; subst. by apply holds_cons in Hh as [-> _]. }
  pose proof Hd as Hd'. unfold is_digit in Hd'.
  apply andb_prop in Hd' as [H1%Z.leb_le H2%Z.leb_le].
  assert (Hsp : skip_space BUFSIZE info 0 = 0).
  { unfold BUFSIZE. cbn [skip_space]. unfold is_space.
    destruct (Z.eqb_spec (load8 info 0) 32); [lia|].
    destruct (Z.leb_spec 9 (load8 info 0)), (Z.leb_spec (load8 info 0) 13); done || lia. }
  rewrite Hsp. destruct (Z.eqb_spec (load8 info 0) 45); [lia|].
  destruct (Z.eqb_spec (load8 info 0) 43); [lia|].
  by rewrite (scan_dec _ _ _ _ _ Hh).
Qed.

Lemma dec_short x : small x -> (length (dec x) <= 9)%nat.
Proof.
  intros _. unfold dec. generalize 9%nat as n. intros n. revert x.
  induction n as [|n IH]; intros x; simpl; [lia|].
  destruct (x <? 10); simpl; [lia|]. rewrite length_app. specialize (IH (x / 10)). simpl. lia.
Qed.

(** What [m2m_topology_init] resets before it reads the file. *)
Definition clear_counts (t : topo) : topo :=
  set_counts (TotalNetworkTypeDevice t).[0 <- 0].[1 <- 0].[2 <- 0]
    (BeforeNetworkTypeDevice t).[0 <- 0].[1 <- 0].[2 <- 0] t.

Definition desc_ok (ds : list node_desc) : Prop :=
  Forall node_ok ds /\ small (Z.of_nat (length ds)).

Lemma topology_init_render id ds t :
  desc_ok ds -> id <= Z.of_nat (length ds) ->
  m2m_topology_init (Some (render ds)) id t =
  Ret (M2M_SUCCESS,
       build id 1 0 ds (set_vnd (set_TotalDeviceNum (Z.of_nat (length ds)))
                          (set_vnd (set_DeviceID id) (clear_counts t)))).
Proof.
  intros [Hok Hn] Hid. unfold m2m_topology_init.
  change (forZ 0 3 _ t) with (clear_counts t).
  unfold node_infofetch, render.
  destruct (fgets_line ∅ (dec (Z.of_nat (length ds))) (concat (map render_line ds)))
    as (info & -> & Hh & _).
  { by apply dec_text. }
  { pose proof (dec_short _ Hn). lia. }
  pose proof (dec_short _ Hn). rewrite (atoi_dec _ _ _ Hn Hh) by lia. cbn [mbind run_bind].
  rewrite (proj2 (Z.ltb_ge _ _)) by lia. rewrite Nat2Z.id. unfold forMZ.
  edestruct (fetch_all_render id ds 1) as (s & -> & Ht); [done| |]; [done|].
  cbn [mbind run_bind]. by rewrite Ht.
Qed.

(** ** What [build] leaves in the globals *)

Lemma NODE_MAP_fold_links g idx l i j :
  node_idx idx -> Forall node_idx l -> node_idx i -> node_idx j ->
  NODE_MAP (foldl (fun g k => add_link g idx k) g l) i j =
  if decide ((idx = i /\ j ∈ l) \/ (idx = j /\ i ∈ l)) then 1 else NODE_MAP g i j.
Proof.
  intros Hidx. revert g. induction l as [|k l IH]; intros g Hl Hi Hj; simpl.
  - rewrite decide_False; [done|]. rewrite !elem_of_nil. tauto.
  - inversion Hl; subst. rewrite IH by done. rewrite NODE_MAP_add_link_idx by done.
    pose proof (elem_of_cons l i k). pose proof (elem_of_cons l j k).
    assert (k = j <-> j = k) by (split; congruence). assert (k = i <-> i = k) by (split; congruence).
    repeat case_decide; tauto.
Qed.

Definition links_ok (ds : list node_desc) : Prop :=
  Forall (fun d => Forall node_idx (nd_links d)) ds.

(** Line [k] (the lines are numbered from 1) mentions the pair. *)
Definition mentions (index : Z) (ds : list node_desc) (id i j : Z) : Prop :=
  exists k d, ds !! k = Some d /\ index + Z.of_nat k <> id /\
    ((index + Z.of_nat k = i /\ j ∈ nd_links d) \/ (index + Z.of_nat k = j /\ i ∈ nd_links d)).

Lemma mentions_cons index d ds id i j :
  mentions index (d :: ds) id i j <->
  (index <> id /\ ((index = i /\ j ∈ nd_links d) \/ (index = j /\ i ∈ nd_links d))) \/
  mentions (index + 1) ds id i j.
Proof.
  split.
  - intros ([|k] & e & Hk & Hne & Hor).
    + simpl in Hk. injection Hk as <-. left. rewrite Z.add_0_r in *. done.
    + right. exists k, e. replace (index + 1 + Z.of_nat k) with (index + Z.of_nat (S k)) by lia. done.
  - intros [[Hne Hor]|(k & e & Hk & Hne & Hor)].
    + exists 0%nat, d. rewrite Z.add_0_r. done.
    + exists (S k), e. replace (index + Z.of_nat (S k)) with (index + 1 + Z.of_nat k) by lia. done.
Qed.

Lemma set_own_type_frame {A} (f : topo -> A) d t :
  (forall t g, f (set_vnd g t) = f t) -> f (set_own_type d t) = f t.
Proof. intros Hf. unfold set_own_type. destruct d; simpl; by rewrite !Hf. Qed.

(** [set_neighbors] changes nothing but [GlobalVND]. *)
Lemma set_neighbors_frame {A} (f : topo -> A) l t :
  (forall t g, f (set_vnd g t) = f t) -> f (set_neighbors l t) = f t.
Proof.
  intros Hf. unfold set_neighbors. rewrite Hf.
  generalize (zip (seqZ 0 (Z.of_nat (length l))) l) as ps. intros ps. revert t.
  induction ps as [|[i k] ps IH]; intros t; [done|]. simpl. by rewrite IH, Hf.
Qed.

Lemma build_own_map index d t : t_NODE_MAP (build_own index d t) = t_NODE_MAP t.
Proof.
  unfold build_own. cbv zeta. rewrite set_neighbors_frame by done. simpl.
  by rewrite set_own_type_frame.
Qed.

Lemma build_links id index shm ds t i j :
  links_ok ds -> 0 <= index -> index + Z.of_nat (length ds) <= MAX_NODE_NUM ->
  node_idx i -> node_idx j ->
  NODE_MAP (t_NODE_MAP (build id index shm ds t)) i j =
    1 <-> NODE_MAP (t_NODE_MAP t) i j = 1 \/ mentions index ds id i j.
Proof.
  revert index shm t. induction ds as [|d ds IH]; intros index shm t Hl H0 Hn Hi Hj; simpl.
  - split; [by left|]. intros [?|(k & e & Hk & _)]; done.
  - inversion Hl as [|? ? Hd Hds]; subst. rewrite mentions_cons.
    rewrite IH; [|done|lia|simpl in *; lia|done|done].
    destruct (Z.eqb_spec index id) as [->|Hne].
    + rewrite build_own_map. simpl. tauto.
    + unfold build_other. cbv zeta. cbn [t_NODE_MAP set_map].
      rewrite NODE_MAP_fold_links; [|unfold node_idx; simpl in *; lia|done..].
      simpl. case_decide; tauto.
Qed.

Definition placement (ds : list node_desc) : Z :=
  foldr (fun d s => type_size (nd_type d) + s) 0 ds.

Lemma build_own_shm index d t : NODE_SHM_LOCATION (build_own index d t) = NODE_SHM_LOCATION t.
Proof.
  unfold build_own. cbv zeta. rewrite set_neighbors_frame by done. simpl.
  by rewrite set_own_type_frame.
Qed.

Lemma build_own_type index d t :
  NODE_TYPE (build_own index d t) = <[index := type_name (nd_type d)]> (NODE_TYPE t).
Proof.
  unfold build_own. cbv zeta. rewrite set_neighbors_frame by done. simpl.
  by rewrite set_own_type_frame.
Qed.

(** Cells in front of [index] are left alone; cell [index + k] is the sum of
    the sizes of the nodes in front of it, and its type that of the line. *)
Lemma build_place id index shm ds t :
  (forall i, i < index ->
     (NODE_SHM_LOCATION (build id index shm ds t)).[i] = (NODE_SHM_LOCATION t).[i] /\
     node_type (build id index shm ds t) i = node_type t i) /\
  (forall k d, ds !! k = Some d ->
     (NODE_SHM_LOCATION (build id index shm ds t)).[index + Z.of_nat k] =
       shm + placement (take k ds) /\
     node_type (build id index shm ds t) (index + Z.of_nat k) = type_name (nd_type d)).
Proof.
  revert index shm t. induction ds as [|d ds IH]; intros index shm t; simpl; [done|].
  set (t1 := if index =? id then _ else _).
  assert (Hs : NODE_SHM_LOCATION t1 = (NODE_SHM_LOCATION t).[index <- shm]).
  { unfold t1. destruct (index =? id); [by rewrite build_own_shm|done]. }
  assert (Ht : NODE_TYPE t1 = <[index := type_name (nd_type d)]> (NODE_TYPE t)).
  { unfold t1. destruct (index =? id); [by rewrite build_own_type|done]. }
  destruct (IH (index + 1) (shm + type_size (nd_type d)) t1) as [Hlow Hhigh]. split.
  - intros i Hi. destruct (Hlow i ltac:(lia)) as [H1 H2]. rewrite H1, H2, Hs.
    rewrite aget_aset_ne by lia. split; [done|]. unfold node_type.
    rewrite Ht, lookup_insert_ne by lia. done.
  - intros [|k] e Hk.
    + injection Hk as ->. rewrite Z.add_0_r. simpl.
      destruct (Hlow index ltac:(lia)) as [H1 H2]. rewrite H1, H2, Hs, aget_aset_eq.
      split; [lia|]. unfold node_type. by rewrite Ht, lookup_insert_eq.
    + simpl in Hk. destruct (Hhigh k e Hk) as [H1 H2].
      replace (index + Z.of_nat (S k)) with (index + 1 + Z.of_nat k) by lia.
      rewrite H1, H2. simpl. split; [lia|done].
Qed.

(** ** The process's own record *)

Definition vnd_type (d : dtype) (v : VND) : VND :=
  foldl (fun v '(i, c) => set_DeviceType i c v) v (zip [0; 1; 2] (type_name d)).

Definition vnd_neighbors (k : Z) (l : list Z) (v : VND) : VND :=
  foldl (fun v '(i, x) => set_Neighbor i x v) v (zip (seqZ k (Z.of_nat (length l))) l).

Definition vnd_own (d : node_desc) (v : VND) : VND :=
  let v := set_Position 2 (nd_z d) (set_Position 1 (nd_y d) (set_Position 0 (nd_x d)
             (vnd_type (nd_type d) v))) in
  set_NeighborNum (Z.of_nat (length (nd_links d))) (vnd_neighbors 0 (nd_links d) v).

Lemma build_own_vnd index d t : GlobalVND (build_own index d t) = vnd_own d (GlobalVND t).
Proof.
  unfold build_own, vnd_own, set_neighbors, vnd_neighbors. cbv zeta. cbn [GlobalVND set_vnd].
  f_equal.
  assert (H : forall ps t, GlobalVND (foldl (fun t '(i, k) => set_vnd (set_Neighbor i k) t) t ps) =
    foldl (fun v '(i, x) => set_Neighbor i x v) (GlobalVND t) ps).
  { induction ps as [|[i k] ps IH]; intros t'; [done|]. simpl. by rewrite IH. }
  rewrite H. f_equal. simpl. do 3 f_equal. unfold set_own_type, vnd_type.
  by destruct (nd_type d).
Qed.

Lemma build_vnd_other id index shm ds t :
  ~ (index <= id < index + Z.of_nat (length ds)) ->
  GlobalVND (build id index shm ds t) = GlobalVND t.
Proof.
  revert index shm t. induction ds as [|d ds IH]; intros index shm t H; simpl; [done|].
  simpl in H. rewrite IH by lia. rewrite (proj2 (Z.eqb_neq index id)) by lia. done.
Qed.

Lemma build_vnd id index shm ds t k d :
  ds !! k = Some d -> id = index + Z.of_nat k ->
  GlobalVND (build id index shm ds t) = vnd_own d (GlobalVND t).
Proof.
  revert index shm t k. induction ds as [|e ds IH]; intros index shm t k Hk Hid; [done|].
  destruct k as [|k]; cbn [build lookup] in *.
  - injection Hk as ->. rewrite Z.add_0_r in Hid. subst. rewrite Z.eqb_refl.
    rewrite build_vnd_other by lia. by rewrite build_own_vnd.
  - rewrite (proj2 (Z.eqb_neq index id)) by lia.
    rewrite (IH (index + 1) _ _ k) by (done || lia). done.
Qed.

Lemma vnd_neighbors_spec k l v :
  (forall i, i < k -> (Neighbors (vnd_neighbors k l v)).[i] = (Neighbors v).[i]) /\
  (forall i x, l !! i = Some x -> (Neighbors (vnd_neighbors k l v)).[k + Z.of_nat i] = x) /\
  DeviceType (vnd_neighbors k l v) = DeviceType v /\
  DeviceID (vnd_neighbors k l v) = DeviceID v /\
  TotalDeviceNum (vnd_neighbors k l v) = TotalDeviceNum v /\
  Position (vnd_neighbors k l v) = Position v.
Proof.
  revert k v. induction l as [|x l IH]; intros k v; [done|].
  assert (E : vnd_neighbors k (x :: l) v = vnd_neighbors (k + 1) l (set_Neighbor k x v)).
  { unfold vnd_neighbors. simpl length. rewrite seqZ_cons by lia. simpl.
    replace (Z.pred (Z.of_nat (S (length l)))) with (Z.of_nat (length l)) by lia.
    by replace (Z.succ k) with (k + 1) by lia. }
  rewrite E. destruct (IH (k + 1) (set_Neighbor k x v)) as (Hlow & Hhi & Hd & Hi & Ht & Hp).
  rewrite Hd, Hi, Ht, Hp. split_and!; [| |done..].
  - intros i Hi'. rewrite Hlow by lia. simpl. by apply aget_aset_ne; lia.
  - intros [|i] y Hy.
    + injection Hy as ->. rewrite Z.add_0_r, Hlow by lia. simpl. apply aget_aset_eq.
    + replace (k + Z.of_nat (S i)) with (k + 1 + Z.of_nat i) by lia. by apply Hhi.
Qed.

(** ** The properties *)


(** The network of m2m_app/topology.conf. *)
Definition demo_net : list node_desc :=
  [mk_node Coordinator 100 100 124 [2]; mk_node Router 200 100 0 [1; 3];
   mk_node EndDevice 150 100 0 [2]].

Lemma demo_ok : desc_ok demo_net.
Proof.
  split; [|by unfold small].
  repeat (constructor; [unfold node_ok, small; split_and!; try done;
    [repeat (constructor; [done|]); constructor|vm_compute; lia]|]). constructor.
Qed.


(** The link list of node [i]. *)
Definition links_of (ds : list node_desc) (i : Z) : list Z :=
  match ds !! Z.to_nat (i - 1) with Some d => nd_links d | None => [] end.

(** A consistent description: both ends of a link name it, no node links to itself. *)
Definition links_symmetric (ds : list node_desc) : Prop :=
  forall i j, 1 <= i <= Z.of_nat (length ds) -> 1 <= j <= Z.of_nat (length ds) ->
    (j ∈ links_of ds i <-> i ∈ links_of ds j) /\ i ∉ links_of ds i.

Lemma mentions_links ds id i j :
  1 <= i <= Z.of_nat (length ds) -> 1 <= j <= Z.of_nat (length ds) ->
  mentions 1 ds id i j <->
  (i <> id /\ j ∈ links_of ds i) \/ (j <> id /\ i ∈ links_of ds j).
Proof.
  intros Hi Hj. unfold mentions, links_of. split.
  - intros (k & d & Hk & Hne & [[E Hin]|[E Hin]]); [left|right]; split; try lia.
    + replace (Z.to_nat (i - 1)) with k by lia. by rewrite Hk.
    + replace (Z.to_nat (j - 1)) with k by lia. by rewrite Hk.
  - intros [[Hne Hin]|[Hne Hin]].
    + destruct (ds !! Z.to_nat (i - 1)) as [d|] eqn:E; [|by apply not_elem_of_nil in Hin].
      exists (Z.to_nat (i - 1)), d. split_and!; [done|lia|]. left. split; [lia|done].
    + destruct (ds !! Z.to_nat (j - 1)) as [d|] eqn:E; [|by apply not_elem_of_nil in Hin].
      exists (Z.to_nat (j - 1)), d. split_and!; [done|lia|]. right. split; [lia|done].
Qed.

Lemma init_links id ds t rc t' i j :
  desc_ok ds -> links_ok ds -> links_symmetric ds ->
  Z.of_nat (length ds) < MAX_NODE_NUM -> id <= Z.of_nat (length ds) ->
  t_NODE_MAP t = ∅ ->
  m2m_topology_init (Some (render ds)) id t = Ret (rc, t') ->
  1 <= i <= Z.of_nat (length ds) -> 1 <= j <= Z.of_nat (length ds) ->
  NODE_MAP (t_NODE_MAP t') i j = 1 <-> j ∈ links_of ds i.
Proof.
  intros Hok Hl Hsym Hn Hid Ht Hrun Hi Hj.
  rewrite (topology_init_render id ds t Hok Hid) in Hrun. injection Hrun as <- <-.
  rewrite build_links; [|done|lia|lia|unfold node_idx; lia|unfold node_idx; lia].
  rewrite mentions_links by done. cbn [t_NODE_MAP set_vnd clear_counts set_counts]. rewrite Ht.
  destruct (Hsym i j Hi Hj) as [Hij Hii]. destruct (Hsym j i Hj Hi) as [_ Hjj].
  unfold NODE_MAP. rewrite aget_empty. split.
  - intros [?|[[_ H]|[_ H]]]; [done|done|]. by apply Hij.
  - intros H. right. destruct (decide (i = id)) as [->|]; [|by left].
    right. split; [|by apply Hij]. intros ->. done.
Qed.

(** From a cleared table the cells are 0 or 1. *)
Lemma init_unit id ds t rc t' :
  desc_ok ds -> id <= Z.of_nat (length ds) -> t_NODE_MAP t = ∅ ->
  m2m_topology_init (Some (render ds)) id t = Ret (rc, t') -> unit_links (t_NODE_MAP t').
Proof.
  intros Hok Hid Ht H. eapply (topology_init_run unit_links); [| |exact H].
  - intros; by apply unit_links_add_link.
  - rewrite Ht. apply unit_links_empty.
Qed.

(** All processes agree on the links: for a consistent description and
    cleared tables, any two processes, whichever their own lines (which they do
    not enter into the table), end with the same [NODE_MAP] cells, and cell
    [i][j] is 1 exactly when [j] is in the link list of [i]. *)
Theorem topology_agreement id1 id2 ds t rc1 rc2 t1 t2 i j :
  desc_ok ds -> links_ok ds -> links_symmetric ds ->
  Z.of_nat (length ds) < MAX_NODE_NUM ->
  id1 <= Z.of_nat (length ds) -> id2 <= Z.of_nat (length ds) ->
  t_NODE_MAP t = ∅ ->
  m2m_topology_init (Some (render ds)) id1 t = Ret (rc1, t1) ->
  m2m_topology_init (Some (render ds)) id2 t = Ret (rc2, t2) ->
  1 <= i <= Z.of_nat (length ds) -> 1 <= j <= Z.of_nat (length ds) ->
  NODE_MAP (t_NODE_MAP t1) i j = NODE_MAP (t_NODE_MAP t2) i j /\
  (NODE_MAP (t_NODE_MAP t1) i j = 1 <-> j ∈ links_of ds i).
Proof.
  intros Hok Hl Hsym Hn Hid1 Hid2 Ht H1 H2 Hi Hj.
  pose proof (init_links id1 ds t rc1 t1 i j Hok Hl Hsym Hn Hid1 Ht H1 Hi Hj) as L1.
  pose proof (init_links id2 ds t rc2 t2 i j Hok Hl Hsym Hn Hid2 Ht H2 Hi Hj) as L2.
  split; [|done].
  pose proof (init_unit id1 ds t rc1 t1 Hok Hid1 Ht H1 i j).
  pose proof (init_unit id2 ds t rc2 t2 Hok Hid2 Ht H2 i j).
  destruct (decide (j ∈ links_of ds i)) as [Hin|Hin].
  - by rewrite (proj2 L1 Hin), (proj2 L2 Hin).
  - assert (NODE_MAP (t_NODE_MAP t1) i j <> 1) by tauto.
    assert (NODE_MAP (t_NODE_MAP t2) i j <> 1) by tauto. lia.
Qed.

Lemma demo_links_ok : links_ok demo_net.
Proof. repeat (constructor; [repeat (constructor; [by unfold node_idx|]); constructor|]). constructor. Qed.

Lemma demo_symmetric : links_symmetric demo_net.
Proof.
  intros i j Hi Hj. simpl in Hi, Hj.
  assert (i = 1 \/ i = 2 \/ i = 3) as [->|[-> | ->]] by lia;
    assert (j = 1 \/ j = 2 \/ j = 3) as [->|[-> | ->]] by lia;
    unfold links_of; simpl; rewrite ?elem_of_cons, ?elem_of_nil; lia.
Qed.

(** The middle router and the end device of the demo network: the router's own
    line is not entered, yet its links are there. *)
Theorem topology_agreement_witness :
  exists t1 t2, m2m_topology_init (Some (render demo_net)) 2 topo0 = Ret (M2M_SUCCESS, t1) /\
    m2m_topology_init (Some (render demo_net)) 3 topo0 = Ret (M2M_SUCCESS, t2) /\
    NODE_MAP (t_NODE_MAP t1) 2 3 = NODE_MAP (t_NODE_MAP t2) 2 3 /\
    (NODE_MAP (t_NODE_MAP t1) 2 3 = 1 <-> 3 ∈ links_of demo_net 2).
Proof.
  do 2 eexists. split; [exact (topology_init_render 2 demo_net topo0 demo_ok ltac:(done))|].
  split; [exact (topology_init_render 3 demo_net topo0 demo_ok ltac:(done))|].
  exact (topology_agreement 2 3 demo_net topo0 M2M_SUCCESS M2M_SUCCESS _ _ 2 3 demo_ok
    demo_links_ok demo_symmetric ltac:(done) ltac:(done) ltac:(done) eq_refl
    (topology_init_render 2 demo_net topo0 demo_ok ltac:(done))
    (topology_init_render 3 demo_net topo0 demo_ok ltac:(done)) ltac:(done) ltac:(done)).
Defined.

(** Placement: every process computes the same base of every node in the
    shared segment, the total size of the nodes in front of it, and records
    every node's type. *)
Theorem topology_placement id ds t rc t' k d :
  desc_ok ds -> id <= Z.of_nat (length ds) ->
  m2m_topology_init (Some (render ds)) id t = Ret (rc, t') ->
  ds !! k = Some d ->
  (NODE_SHM_LOCATION t').[1 + Z.of_nat k] = placement (take k ds) /\
  node_type t' (1 + Z.of_nat k) = type_name (nd_type d).
Proof.
  intros Hok Hid Hrun Hk.
  rewrite (topology_init_render id ds t Hok Hid) in Hrun. injection Hrun as <- <-.
  by apply build_place.
Qed.

Theorem topology_placement_witness :
  exists t', m2m_topology_init (Some (render demo_net)) 1 topo0 = Ret (M2M_SUCCESS, t') /\
    (NODE_SHM_LOCATION t').[1 + Z.of_nat 2] = placement (take 2 demo_net) /\
    node_type t' (1 + Z.of_nat 2) = type_name EndDevice.
Proof.
  eexists. split; [exact (topology_init_render 1 demo_net topo0 demo_ok ltac:(done))|].
  exact (topology_placement 1 demo_net topo0 M2M_SUCCESS _ 2 (mk_node EndDevice 150 100 0 [2])
    demo_ok ltac:(done) (topology_init_render 1 demo_net topo0 demo_ok ltac:(done)) eq_refl).
Defined.

(** The process's own record: identifier, network size, position, device
    type (as the string the other files compare) and neighbour list are those
    of its line. *)
Lemma topology_own_vnd id ds t rc t' k d :
  desc_ok ds -> id = 1 + Z.of_nat k -> id < 2 ^ 32 -> ds !! k = Some d ->
  DeviceType (GlobalVND t) = ∅ ->
  m2m_topology_init (Some (render ds)) id t = Ret (rc, t') ->
  let v := GlobalVND t' in
  DeviceID v = id /\ TotalDeviceNum v = Z.of_nat (length ds) /\
  cstr_of (DeviceType v) = type_name (nd_type d) /\
  ((Position v).[0] = nd_x d /\ (Position v).[1] = nd_y d /\ (Position v).[2] = nd_z d) /\
  NeighborNum v = Z.of_nat (length (nd_links d)) /\
  (forall i x, nd_links d !! i = Some x -> (Neighbors v).[Z.of_nat i] = x).
Proof.
  intros Hok Hidk Hid Hk Hty Hrun v. pose proof (lookup_lt_Some _ _ _ Hk) as Hlt.
  rewrite (topology_init_render id ds t Hok) in Hrun by lia. injection Hrun as <- <-.
  unfold v. rewrite (build_vnd id 1 0 ds _ k d Hk Hidk).
  set (v0 := GlobalVND _). unfold vnd_own. cbv zeta.
  set (v1 := set_Position 2 _ _).
  destruct (vnd_neighbors_spec 0 (nd_links d) v1) as (_ & Hnb & Hd & Hi & Ht & Hp).
  cbn [DeviceID TotalDeviceNum DeviceType Position NeighborNum Neighbors set_NeighborNum].
  rewrite Hd, Hi, Ht, Hp.
  assert (Hv0 : DeviceType v0 = ∅ /\ DeviceID v0 = u32 id /\ TotalDeviceNum v0 = Z.of_nat (length ds))
    by done.
  clearbody v0. destruct Hv0 as (H1 & H2 & H3). split_and!.
  - unfold v1, vnd_type. destruct (nd_type d); simpl; rewrite H2; apply u32_small; lia.
  - unfold v1, vnd_type. destruct (nd_type d); simpl; done.
  - unfold v1, vnd_type. destruct (nd_type d); simpl; rewrite H1; done.
  - unfold v1. simpl. by arr_simpl.
  - unfold v1. simpl. by arr_simpl.
  - unfold v1. simpl. by arr_simpl.
  - done.
  - done.
Qed.


(** ** The size of the segment *)

(** The bytes the device counts stand for. *)
Definition weight (tot : arr) : Z :=
  tot.[0] * COORDINATOR_SIZE + tot.[1] * ROUTER_SIZE + tot.[2] * END_DEVICE_SIZE.

Lemma weight_head index d t :
  weight (TotalNetworkTypeDevice (build_head index d t)) =
  weight (TotalNetworkTypeDevice t) + type_size (nd_type d).
Proof.
  unfold weight, build_head. simpl.
  destruct (nd_type d); cbn [type_slot type_size]; rewrite !aget_aset;
    repeat case_decide; try done; lia.
Qed.

Lemma build_own_counts index d t :
  TotalNetworkTypeDevice (build_own index d t) = TotalNetworkTypeDevice (build_head index d t).
Proof.
  unfold build_own. cbv zeta. rewrite set_neighbors_frame by done. simpl.
  by rewrite set_own_type_frame.
Qed.

Lemma build_weight id index shm ds t :
  weight (TotalNetworkTypeDevice (build id index shm ds t)) =
  weight (TotalNetworkTypeDevice t) + placement ds.
Proof.
  revert index shm t. induction ds as [|d ds IH]; intros index shm t; simpl; [lia|].
  rewrite IH. destruct (index =? id).
  - rewrite build_own_counts, weight_head. simpl. lia.
  - change (TotalNetworkTypeDevice (build_other index d (set_shm index shm t)))
      with (TotalNetworkTypeDevice (build_head index d (set_shm index shm t))).
    rewrite weight_head. simpl. lia.
Qed.
