(* ===== verification/Layout.v ===== *)
(** * The shared segment and its layout ([hw/m2m_mm.c], [hw/m2m_dbp.c])

    Every process attaches one System V segment and computes, from the parsed
    topology, where each node's header queues, control flag, data buffers and
    clock lie.  Nothing is negotiated: two processes meet in the same bytes
    only because both compute the same addresses.  The theorems show that the
    pieces of a node lie inside its block and apart from each other, that the
    blocks lie apart and inside the segment, and that the queue a sender
    computes for a neighbour is one the neighbour polls and no other sender
    uses. *)
From S2P Require Import Prelude Mem Config Topology.

(** ** m2m_mm_init.  [shmget] and [shmat] are calls of the host; their results
    are arguments (a negative id and -1 are the failures). *)

Definition sizeof_u64 : Z := 8.

Definition SHM_SIZE (tot : arr) : Z :=
  u64 (tot.[0] * COORDINATOR_SIZE + tot.[1] * ROUTER_SIZE + tot.[2] * END_DEVICE_SIZE +
       MAX_NODE_NUM * sizeof_u64).

Definition m2m_mm_init (shmget : Z -> bool -> Z) (shmat : Z -> Z) (t : topo)
  : run (M2M_ERR_T * Z) :=
  let size := SHM_SIZE (TotalNetworkTypeDevice t) in
  let shmid := shmget (size + 1000) (DeviceID (GlobalVND t) =? 1) in
  if shmid <? 0 then ProcExit
  else let shm_address := shmat shmid in
       if shm_address =? -1 then ProcExit else Ret (M2M_SUCCESS, shm_address).

(** Only the coordinator detaches and removes the segment. *)
Definition m2m_mm_exit (shmdt shmctl : Z) (t : topo) : run M2M_ERR_T :=
  if dev_is (GlobalVND t) ZC then
    if shmdt =? -1 then ProcExit else if shmctl =? -1 then ProcExit else Ret M2M_SUCCESS
  else Ret M2M_SUCCESS.

(** ** m2m_dbp_init: the address tables *)

Record dbp := mk_dbp {
  m2m_localtime_start : arr;
  m2m_dbp_buffer_start : arr;
  m2m_dbp_meta_start : arr;
  m2m_hq_meta_start : arr;
  m2m_hq_buffer_start : arr;           (* row-major [..][HEADER_QUEUE_ENTRY_NUM] *)
  m2m_hq_conflag_start : arr;
  m2m_remote_hq_meta_start : arr;
  m2m_remote_hq_buffer_start : arr }.  (* row-major *)

Definition hq_buffer (d : dbp) (q e : Z) : Z :=
  (m2m_hq_buffer_start d).[HEADER_QUEUE_ENTRY_NUM * q + e].
Definition remote_hq_buffer (d : dbp) (q e : Z) : Z :=
  (m2m_remote_hq_buffer_start d).[HEADER_QUEUE_ENTRY_NUM * q + e].

Definition set_localtime (i v : Z) (d : dbp) : dbp :=
  mk_dbp (m2m_localtime_start d).[i <- v] (m2m_dbp_buffer_start d) (m2m_dbp_meta_start d)
    (m2m_hq_meta_start d) (m2m_hq_buffer_start d) (m2m_hq_conflag_start d)
    (m2m_remote_hq_meta_start d) (m2m_remote_hq_buffer_start d).
Definition set_dbp_buffer (i v : Z) (d : dbp) : dbp :=
  mk_dbp (m2m_localtime_start d) (m2m_dbp_buffer_start d).[i <- v] (m2m_dbp_meta_start d)
    (m2m_hq_meta_start d) (m2m_hq_buffer_start d) (m2m_hq_conflag_start d)
    (m2m_remote_hq_meta_start d) (m2m_remote_hq_buffer_start d).
Definition set_dbp_meta (i v : Z) (d : dbp) : dbp :=
  mk_dbp (m2m_localtime_start d) (m2m_dbp_buffer_start d) (m2m_dbp_meta_start d).[i <- v]
    (m2m_hq_meta_start d) (m2m_hq_buffer_start d) (m2m_hq_conflag_start d)
    (m2m_remote_hq_meta_start d) (m2m_remote_hq_buffer_start d).
Definition set_hq_meta (i v : Z) (d : dbp) : dbp :=
  mk_dbp (m2m_localtime_start d) (m2m_dbp_buffer_start d) (m2m_dbp_meta_start d)
    (m2m_hq_meta_start d).[i <- v] (m2m_hq_buffer_start d) (m2m_hq_conflag_start d)
    (m2m_remote_hq_meta_start d) (m2m_remote_hq_buffer_start d).
Definition set_hq_buffer (q e v : Z) (d : dbp) : dbp :=
  mk_dbp (m2m_localtime_start d) (m2m_dbp_buffer_start d) (m2m_dbp_meta_start d)
    (m2m_hq_meta_start d) (m2m_hq_buffer_start d).[HEADER_QUEUE_ENTRY_NUM * q + e <- v]
    (m2m_hq_conflag_start d) (m2m_remote_hq_meta_start d) (m2m_remote_hq_buffer_start d).
Definition set_conflag (i v : Z) (d : dbp) : dbp :=
  mk_dbp (m2m_localtime_start d) (m2m_dbp_buffer_start d) (m2m_dbp_meta_start d)
    (m2m_hq_meta_start d) (m2m_hq_buffer_start d) (m2m_hq_conflag_start d).[i <- v]
    (m2m_remote_hq_meta_start d) (m2m_remote_hq_buffer_start d).
Definition set_remote_meta (i v : Z) (d : dbp) : dbp :=
  mk_dbp (m2m_localtime_start d) (m2m_dbp_buffer_start d) (m2m_dbp_meta_start d)
    (m2m_hq_meta_start d) (m2m_hq_buffer_start d) (m2m_hq_conflag_start d)
    (m2m_remote_hq_meta_start d).[i <- v] (m2m_remote_hq_buffer_start d).
Definition set_remote_buffer (q e v : Z) (d : dbp) : dbp :=
  mk_dbp (m2m_localtime_start d) (m2m_dbp_buffer_start d) (m2m_dbp_meta_start d)
    (m2m_hq_meta_start d) (m2m_hq_buffer_start d) (m2m_hq_conflag_start d)
    (m2m_remote_hq_meta_start d)
    (m2m_remote_hq_buffer_start d).[HEADER_QUEUE_ENTRY_NUM * q + e <- v].

(** The loop over all nodes: absolute block base, clock cell, control flag
    (a router has none, ROUTER_RFD). *)
Definition dbp_node (shm_address_location : Z) (s : topo * dbp) (ind : Z) : topo * dbp :=
  let '(t, d) := s in
  let base := (NODE_SHM_LOCATION t).[ind] + (shm_address_location + MAX_NODE_NUM * sizeof_u64) in
  let t := set_shm ind base t in
  let d := set_localtime ind (shm_address_location + ind * sizeof_u64) d in
  if streq (node_type t ind) ZED then
    (t, set_conflag ind (base + TOTAL_HEADER_QUEUE_SIZE) d)
  else if streq (node_type t ind) ZR then (t, d)
  else if streq (node_type t ind) ZC then
    (t, set_conflag ind (base + (NODE_MAX_LINKS + 2) * TOTAL_HEADER_QUEUE_SIZE +
                         TOTAL_DATA_BUFFER_SIZE) d)
  else (t, d).

Definition nat_HQ : nat := 4.   (* HEADER_QUEUE_ENTRY_NUM *)
Definition nat_DB : nat := 4.   (* DATA_BUFFER_ENTRY_NUM *)
Definition nat_LINKS : nat := 8. (* NODE_MAX_LINKS *)

(** End device layout *)
Definition dbp_end_device (base : Z) (d : dbp) : dbp :=
  let d := forZ 0 nat_HQ (fun d e => set_hq_buffer 0 e (base + e * HEADER_QUEUE_ENTRY_SIZE) d) d in
  let d := set_hq_meta 0 (base + HEADER_QUEUE_SIZE) d in
  let DB_data_base := base + TOTAL_HEADER_QUEUE_SIZE + HEADER_QUEUE_CONTRLFLAG in
  let DB_meta_base := base + TOTAL_HEADER_QUEUE_SIZE + HEADER_QUEUE_CONTRLFLAG + DATA_BUFFER_SIZE in
  forZ 0 nat_DB (fun d i =>
    set_dbp_meta i (DB_meta_base + i * DATA_BUFFER_METADATA_ENTRY_SIZE)
      (set_dbp_buffer i (DB_data_base + i * DATA_BUFFER_ENTRY_SIZE) d)) d.

(** Router & Coordinator layout: one queue per link *)
Definition dbp_links (base : Z) (d : dbp) : dbp :=
  let HQ_meta_base := base + NODE_MAX_LINKS * HEADER_QUEUE_SIZE in
  forZ 0 nat_LINKS (fun d l =>
    let d := forZ 0 nat_HQ (fun d e =>
      set_hq_buffer l e (base + l * HEADER_QUEUE_SIZE + e * HEADER_QUEUE_ENTRY_SIZE) d) d in
    set_hq_meta l (HQ_meta_base + l * HEADER_QUEUE_METADATA_SIZE) d) d.

(** The coordinator's data buffers and its two own queues *)
Definition dbp_coordinator (base : Z) (d : dbp) : dbp :=
  let DB_data_base := base + TOTAL_HEADER_QUEUE_SIZE * NODE_MAX_LINKS in
  let DB_meta_base := base + TOTAL_HEADER_QUEUE_SIZE * NODE_MAX_LINKS + DATA_BUFFER_SIZE in
  let d := forZ 0 nat_DB (fun d e =>
    set_dbp_meta e (DB_meta_base + e * DATA_BUFFER_METADATA_ENTRY_SIZE)
      (set_dbp_buffer e (DB_data_base + e * DATA_BUFFER_ENTRY_SIZE) d)) d in
  let own := base + TOTAL_HEADER_QUEUE_SIZE * NODE_MAX_LINKS + TOTAL_DATA_BUFFER_SIZE in
  let d := forZ 0 nat_HQ (fun d e =>
    set_hq_buffer (NODE_MAX_LINKS + 1) e (own + HEADER_QUEUE_SIZE + e * HEADER_QUEUE_ENTRY_SIZE)
      (set_hq_buffer NODE_MAX_LINKS e (own + e * HEADER_QUEUE_ENTRY_SIZE) d)) d in
  let d := set_hq_meta NODE_MAX_LINKS (own + HEADER_QUEUE_SIZE * 2) d in
  set_hq_meta (NODE_MAX_LINKS + 1)
    (own + HEADER_QUEUE_SIZE * 2 + HEADER_QUEUE_METADATA_SIZE) d.

(** The offset of this device's queue in a neighbour: the number of nodes with
    a smaller identifier the neighbour is linked to. *)
Definition remote_slot (g : linkmap) (neighbor id : Z) : Z :=
  forZ 1 (Z.to_nat (id - 1))
    (fun count i => if NODE_MAP g neighbor i =? 0 then count else count + 1) 0.

Definition dbp_remote (t : topo) (d : dbp) (index : Z) : dbp :=
  let w := (Neighbors (GlobalVND t)).[index] in
  let remote_location := (NODE_SHM_LOCATION t).[w] in
  let count := remote_slot (t_NODE_MAP t) w (DeviceID (GlobalVND t)) in
  if streq (node_type t w) ZED then
    let d := forZ 0 nat_HQ (fun d e =>
      set_remote_buffer index e (remote_location + e * HEADER_QUEUE_ENTRY_SIZE) d) d in
    set_remote_meta index (remote_location + HEADER_QUEUE_SIZE) d
  else
    let d := forZ 0 nat_HQ (fun d e =>
      set_remote_buffer index e
        (remote_location + HEADER_QUEUE_SIZE * count + e * HEADER_QUEUE_ENTRY_SIZE) d) d in
    set_remote_meta index
      (remote_location + HEADER_QUEUE_SIZE * NODE_MAX_LINKS + HEADER_QUEUE_METADATA_SIZE * count) d.

Definition m2m_dbp_init (shm_address_location : Z) (s : topo * dbp) : topo * dbp :=
  let '(t, d) := s in
  let d := set_localtime 0 shm_address_location d in
  let '(t, d) := forZ 1 (Z.to_nat (TotalDeviceNum (GlobalVND t)))
                   (dbp_node shm_address_location) (t, d) in
  let base := (NODE_SHM_LOCATION t).[DeviceID (GlobalVND t)] in
  let t := set_vnd (set_Shared_memory_address base) t in
  let d := if dev_is (GlobalVND t) ZED then dbp_end_device base d
           else let d := dbp_links base d in
                if dev_is (GlobalVND t) ZR then d else dbp_coordinator base d in
  (t, forZ 0 (Z.to_nat (NeighborNum (GlobalVND t))) (dbp_remote t) d).

(** m2m_dbp_exit clears the device type and the type table. *)
Definition m2m_dbp_exit (t : topo) : M2M_ERR_T * topo :=
  let t := forZ 0 3 (fun t ind => set_vnd (set_DeviceType ind 0) t) t in
  (M2M_SUCCESS,
   forZ 0 (Z.to_nat MAX_NODE_NUM) (fun t ind => set_type ind [] t) t).

(** ** The tables in closed form *)

(** Filling [n] consecutive cells in a loop. *)
Lemma forZ_fill (f : Z -> Z) k n a i :
  (forZ 0 n (fun a e => a.[k + e <- f e]) a).[i] =
  if decide (k <= i < k + Z.of_nat n) then f (i - k) else a.[i].
Proof.
  induction n as [|n IH]; [rewrite forZ_0, decide_False by lia; done|].
  rewrite forZ_S. rewrite aget_aset, IH. rewrite Z.add_0_l.
  repeat case_decide; try lia; try done. f_equal. lia.
Qed.

(** A loop that touches one table leaves the other projections alone. *)
Lemma forZ_proj {A B} (p : A -> B) lo n (f : A -> Z -> A) (g : B -> Z -> B) a :
  (forall a i, p (f a i) = g (p a) i) -> p (forZ lo n f a) = forZ lo n g (p a).
Proof.
  intros H. induction n as [|n IH]; [done|]. by rewrite !forZ_S, H, IH.
Qed.

Lemma forZ_keep {A B} (p : A -> B) lo n (f : A -> Z -> A) a :
  (forall a i, p (f a i) = p a) -> p (forZ lo n f a) = p a.
Proof. intros H. induction n as [|n IH]; [done|]. by rewrite !forZ_S, H. Qed.

Lemma fill_hq_buffer q (f : Z -> Z) d :
  (forall l e, 0 <= e < 4 ->
     hq_buffer (forZ 0 nat_HQ (fun d e => set_hq_buffer q e (f e) d) d) l e =
     if decide (l = q) then f e else hq_buffer d l e).
Proof.
  intros l e He. unfold hq_buffer, nat_HQ.
  rewrite (forZ_proj m2m_hq_buffer_start 0 4 _ (fun a e => a.[HEADER_QUEUE_ENTRY_NUM * q + e <- f e]))
    by done.
  rewrite forZ_fill. unfold HEADER_QUEUE_ENTRY_NUM.
  repeat case_decide; try lia; subst; f_equal; lia.
Qed.

Lemma dbp_links_spec base d l e :
  0 <= l < 8 -> 0 <= e < 4 ->
  hq_buffer (dbp_links base d) l e = base + l * HEADER_QUEUE_SIZE + e * HEADER_QUEUE_ENTRY_SIZE /\
  (m2m_hq_meta_start (dbp_links base d)).[l] =
    base + NODE_MAX_LINKS * HEADER_QUEUE_SIZE + l * HEADER_QUEUE_METADATA_SIZE.
Proof.
  intros Hl He. unfold dbp_links.
  set (body := fun d l => _).
  pose (P := fun k d => forall l, 0 <= l < k ->
    hq_buffer d l e = base + l * HEADER_QUEUE_SIZE + e * HEADER_QUEUE_ENTRY_SIZE /\
    (m2m_hq_meta_start d).[l] =
      base + NODE_MAX_LINKS * HEADER_QUEUE_SIZE + l * HEADER_QUEUE_METADATA_SIZE).
  assert (H : P (0 + Z.of_nat nat_LINKS) (forZ 0 nat_LINKS body d)).
  { apply (forZ_ind P); [intros ? ?; lia|]. intros i x Hi IH j Hj. unfold body.
    split.
    - change (hq_buffer (forZ 0 nat_HQ (fun d e => set_hq_buffer i e
        (base + i * HEADER_QUEUE_SIZE + e * HEADER_QUEUE_ENTRY_SIZE) d) x) j e = 
        base + j * HEADER_QUEUE_SIZE + e * HEADER_QUEUE_ENTRY_SIZE).
      rewrite fill_hq_buffer by done. case_decide; [by subst|]. apply IH. lia.
    - cbn [m2m_hq_meta_start set_hq_meta]. rewrite aget_aset. case_decide; [by subst|].
      rewrite (forZ_keep m2m_hq_meta_start) by done. apply IH. lia. }
  apply H. unfold nat_LINKS. lia.
Qed.

(** Everything else [dbp_links] leaves alone. *)
Lemma dbp_links_conflag base d : m2m_hq_conflag_start (dbp_links base d) = m2m_hq_conflag_start d.
Proof.
  unfold dbp_links. rewrite (forZ_keep m2m_hq_conflag_start); [done|].
  intros. cbn [m2m_hq_conflag_start set_hq_meta].
  by rewrite (forZ_keep m2m_hq_conflag_start).
Qed.

(** The loop over the data buffers, as both layouts have it. *)
Definition fill_db (data meta : Z) (d : dbp) : dbp :=
  forZ 0 nat_DB (fun d i =>
    set_dbp_meta i (meta + i * DATA_BUFFER_METADATA_ENTRY_SIZE)
      (set_dbp_buffer i (data + i * DATA_BUFFER_ENTRY_SIZE) d)) d.

Lemma fill_db_spec data meta d :
  (forall i, 0 <= i < 4 ->
     (m2m_dbp_buffer_start (fill_db data meta d)).[i] = data + i * DATA_BUFFER_ENTRY_SIZE /\
     (m2m_dbp_meta_start (fill_db data meta d)).[i] = meta + i * DATA_BUFFER_METADATA_ENTRY_SIZE) /\
  m2m_hq_meta_start (fill_db data meta d) = m2m_hq_meta_start d /\
  m2m_hq_buffer_start (fill_db data meta d) = m2m_hq_buffer_start d /\
  m2m_hq_conflag_start (fill_db data meta d) = m2m_hq_conflag_start d.
Proof.
  unfold fill_db. split.
  - intros i Hi.
    rewrite (forZ_proj m2m_dbp_buffer_start 0 _ _
      (fun a i => a.[0 + i <- data + i * DATA_BUFFER_ENTRY_SIZE])) by done.
    rewrite (forZ_proj m2m_dbp_meta_start 0 _ _
      (fun a i => a.[0 + i <- meta + i * DATA_BUFFER_METADATA_ENTRY_SIZE])) by done.
    rewrite (forZ_fill (fun i => data + i * DATA_BUFFER_ENTRY_SIZE) 0),
      (forZ_fill (fun i => meta + i * DATA_BUFFER_METADATA_ENTRY_SIZE) 0).
    unfold nat_DB. rewrite !decide_True by lia. by rewrite Z.sub_0_r.
  - split_and!; by apply forZ_keep.
Qed.

Lemma dbp_end_device_spec base d :
  let d' := dbp_end_device base d in
  (forall e, 0 <= e < 4 -> hq_buffer d' 0 e = base + e * HEADER_QUEUE_ENTRY_SIZE) /\
  (m2m_hq_meta_start d').[0] = base + HEADER_QUEUE_SIZE /\
  (forall i, 0 <= i < 4 ->
     (m2m_dbp_buffer_start d').[i] =
       base + TOTAL_HEADER_QUEUE_SIZE + HEADER_QUEUE_CONTRLFLAG + i * DATA_BUFFER_ENTRY_SIZE /\
     (m2m_dbp_meta_start d').[i] =
       base + TOTAL_HEADER_QUEUE_SIZE + HEADER_QUEUE_CONTRLFLAG + DATA_BUFFER_SIZE +
       i * DATA_BUFFER_METADATA_ENTRY_SIZE) /\
  m2m_hq_conflag_start d' = m2m_hq_conflag_start d.
Proof.
  pose (d1 := set_hq_meta 0 (base + HEADER_QUEUE_SIZE)
    (forZ 0 nat_HQ (fun d e => set_hq_buffer 0 e (base + e * HEADER_QUEUE_ENTRY_SIZE) d) d)).
  assert (E : dbp_end_device base d =
    fill_db (base + TOTAL_HEADER_QUEUE_SIZE + HEADER_QUEUE_CONTRLFLAG)
      (base + TOTAL_HEADER_QUEUE_SIZE + HEADER_QUEUE_CONTRLFLAG + DATA_BUFFER_SIZE) d1) by done.
  cbv zeta. rewrite E. clear E.
  destruct (fill_db_spec (base + TOTAL_HEADER_QUEUE_SIZE + HEADER_QUEUE_CONTRLFLAG)
    (base + TOTAL_HEADER_QUEUE_SIZE + HEADER_QUEUE_CONTRLFLAG + DATA_BUFFER_SIZE) d1)
    as (Hdb & Hm & Hb & Hc).
  split_and!.
  - intros e He. unfold hq_buffer. rewrite Hb. unfold d1.
    cbn [m2m_hq_buffer_start set_hq_meta]. fold (hq_buffer (forZ 0 nat_HQ (fun d e =>
      set_hq_buffer 0 e (base + e * HEADER_QUEUE_ENTRY_SIZE) d) d) 0 e).
    rewrite (fill_hq_buffer 0 (fun e => base + e * HEADER_QUEUE_ENTRY_SIZE)) by done.
    by rewrite decide_True.
  - rewrite Hm. unfold d1. cbn [m2m_hq_meta_start set_hq_meta]. apply aget_aset_eq.
  - exact Hdb.
  - rewrite Hc. unfold d1. cbn [m2m_hq_conflag_start set_hq_meta]. by apply forZ_keep.
Qed.

(** The coordinator's two own queues. *)
Lemma fill_two_queues q1 q2 (f1 f2 : Z -> Z) d l e :
  q1 <> q2 -> 0 <= e < 4 ->
  hq_buffer (forZ 0 nat_HQ (fun d e => set_hq_buffer q2 e (f2 e) (set_hq_buffer q1 e (f1 e) d)) d) l e =
  if decide (l = q2) then f2 e else if decide (l = q1) then f1 e else hq_buffer d l e.
Proof.
  intros Hq He. unfold hq_buffer, nat_HQ.
  rewrite (forZ_proj m2m_hq_buffer_start 0 4 _
    (fun a e => a.[HEADER_QUEUE_ENTRY_NUM * q1 + e <- f1 e].[HEADER_QUEUE_ENTRY_NUM * q2 + e <- f2 e]))
    by done.
  unfold HEADER_QUEUE_ENTRY_NUM.
  change (forZ 0 4 ?f ?a) with (f (f (f (f a 0) 1) 2) 3). cbv beta.
  assert (e = 0 \/ e = 1 \/ e = 2 \/ e = 3) as [->|[->|[-> | ->]]] by lia;
    rewrite !aget_aset; repeat case_decide; try lia; done.
Qed.

Lemma dbp_coordinator_spec base d :
  let d' := dbp_coordinator base d in
  let own := base + TOTAL_HEADER_QUEUE_SIZE * NODE_MAX_LINKS + TOTAL_DATA_BUFFER_SIZE in
  (forall l e, 0 <= l < 8 -> 0 <= e < 4 -> hq_buffer d' l e = hq_buffer d l e) /\
  (forall l, 0 <= l < 8 -> (m2m_hq_meta_start d').[l] = (m2m_hq_meta_start d).[l]) /\
  (forall e, 0 <= e < 4 ->
     hq_buffer d' 8 e = own + e * HEADER_QUEUE_ENTRY_SIZE /\
     hq_buffer d' 9 e = own + HEADER_QUEUE_SIZE + e * HEADER_QUEUE_ENTRY_SIZE) /\
  (m2m_hq_meta_start d').[8] = own + HEADER_QUEUE_SIZE * 2 /\
  (m2m_hq_meta_start d').[9] = own + HEADER_QUEUE_SIZE * 2 + HEADER_QUEUE_METADATA_SIZE /\
  (forall i, 0 <= i < 4 ->
     (m2m_dbp_buffer_start d').[i] =
       base + TOTAL_HEADER_QUEUE_SIZE * NODE_MAX_LINKS + i * DATA_BUFFER_ENTRY_SIZE /\
     (m2m_dbp_meta_start d').[i] =
       base + TOTAL_HEADER_QUEUE_SIZE * NODE_MAX_LINKS + DATA_BUFFER_SIZE +
       i * DATA_BUFFER_METADATA_ENTRY_SIZE) /\
  m2m_hq_conflag_start d' = m2m_hq_conflag_start d.
Proof.
  intros d' own. unfold d', dbp_coordinator. cbv zeta. fold own.
  set (data := base + TOTAL_HEADER_QUEUE_SIZE * NODE_MAX_LINKS).
  change (forZ 0 nat_DB _ d) with (fill_db data (data + DATA_BUFFER_SIZE) d).
  destruct (fill_db_spec data (data + DATA_BUFFER_SIZE) d) as (Hdb & Hm & Hb & Hc).
  set (d1 := fill_db _ _ _) in *. set (d2 := forZ 0 nat_HQ _ d1).
  assert (Hbuf : forall l e, 0 <= e < 4 -> hq_buffer d2 l e =
    if decide (l = 9) then own + HEADER_QUEUE_SIZE + e * HEADER_QUEUE_ENTRY_SIZE
    else if decide (l = 8) then own + e * HEADER_QUEUE_ENTRY_SIZE else hq_buffer d l e).
  { intros l e He. unfold d2. rewrite (fill_two_queues 8 9 (fun e => own + e * HEADER_QUEUE_ENTRY_SIZE)
      (fun e => own + HEADER_QUEUE_SIZE + e * HEADER_QUEUE_ENTRY_SIZE)) by done.
    unfold hq_buffer. by rewrite Hb. }
  assert (Hm2 : m2m_hq_meta_start d2 = m2m_hq_meta_start d) by (rewrite <- Hm; by apply forZ_keep).
  assert (Hc2 : m2m_hq_conflag_start d2 = m2m_hq_conflag_start d) by (rewrite <- Hc; by apply forZ_keep).
  assert (Hdb1 : m2m_dbp_buffer_start d2 = m2m_dbp_buffer_start d1) by (by apply forZ_keep).
  assert (Hdb2 : m2m_dbp_meta_start d2 = m2m_dbp_meta_start d1) by (by apply forZ_keep).
  cbn [m2m_hq_meta_start m2m_hq_conflag_start m2m_dbp_buffer_start m2m_dbp_meta_start set_hq_meta].
  rewrite Hm2, Hc2, Hdb1, Hdb2. split_and!; [| | | | |exact Hdb|done].
  - intros l e Hl He. change (hq_buffer d2 l e = hq_buffer d l e).
    rewrite Hbuf by done. by rewrite !decide_False by lia.
  - intros l Hl. rewrite !aget_aset_ne; [done|unfold NODE_MAX_LINKS; lia..].
  - intros e He. change (hq_buffer d2 8 e = own + e * HEADER_QUEUE_ENTRY_SIZE /\
      hq_buffer d2 9 e = own + HEADER_QUEUE_SIZE + e * HEADER_QUEUE_ENTRY_SIZE).
    rewrite !Hbuf by done. done.
  - rewrite aget_aset_ne by done. apply aget_aset_eq.
  - apply aget_aset_eq.
Qed.

(** ** The loop over the nodes *)

Definition conflag_offset (ty : cstr) : option Z :=
  if streq ty ZED then Some TOTAL_HEADER_QUEUE_SIZE
  else if streq ty ZR then None
  else if streq ty ZC then
    Some ((NODE_MAX_LINKS + 2) * TOTAL_HEADER_QUEUE_SIZE + TOTAL_DATA_BUFFER_SIZE)
  else None.

Lemma dbp_node_spec loc t d ind :
  dbp_node loc (t, d) ind =
  let base := (NODE_SHM_LOCATION t).[ind] + (loc + MAX_NODE_NUM * sizeof_u64) in
  let d' := set_localtime ind (loc + ind * sizeof_u64) d in
  (set_shm ind base t,
   match conflag_offset (node_type t ind) with
   | Some off => set_conflag ind (base + off) d'
   | None => d'
   end).
Proof.
  unfold dbp_node, conflag_offset. cbv zeta.
  change (node_type (set_shm ind _ t) ind) with (node_type t ind).
  repeat case_match; try done. by rewrite <- Z.add_assoc.
Qed.

(** What the loop keeps and what it computes, [n] nodes in. *)
Record dbp_loop (loc : Z) (t0 : topo) (d0 : dbp) (k : Z) (s : topo * dbp) : Prop := {
  dl_map : t_NODE_MAP s.1 = t_NODE_MAP t0;
  dl_type : NODE_TYPE s.1 = NODE_TYPE t0;
  dl_vnd : GlobalVND s.1 = GlobalVND t0;
  dl_clock0 : (m2m_localtime_start s.2).[0] = (m2m_localtime_start d0).[0];
  dl_rest : forall i, k <= i -> (NODE_SHM_LOCATION s.1).[i] = (NODE_SHM_LOCATION t0).[i];
  dl_shm : forall i, 1 <= i < k ->
    (NODE_SHM_LOCATION s.1).[i] = (NODE_SHM_LOCATION t0).[i] + (loc + MAX_NODE_NUM * sizeof_u64);
  dl_clock : forall i, 1 <= i < k -> (m2m_localtime_start s.2).[i] = loc + i * sizeof_u64;
  dl_flag : forall i off, 1 <= i < k -> conflag_offset (node_type t0 i) = Some off ->
    (m2m_hq_conflag_start s.2).[i] =
    (NODE_SHM_LOCATION t0).[i] + (loc + MAX_NODE_NUM * sizeof_u64) + off }.

Lemma dbp_loop_step loc t0 d0 k s :
  1 <= k -> dbp_loop loc t0 d0 k s -> dbp_loop loc t0 d0 (k + 1) (dbp_node loc s k).
Proof.
  intros Hk I. destruct s as [t d]. rewrite dbp_node_spec. cbv zeta.
  destruct I as [Hmap Htype Hvnd Hc0 Hrest Hshm Hclock Hflag]. simpl in *.
  assert (Hty : forall i, node_type t i = node_type t0 i) by (intros i; unfold node_type; by rewrite Htype).
  rewrite Hty, Hrest by lia.
  assert (Hbefore : forall i off, 1 <= i < k -> conflag_offset (node_type t0 i) = Some off ->
    (m2m_hq_conflag_start d).[i] = (NODE_SHM_LOCATION t0).[i] + (loc + MAX_NODE_NUM * sizeof_u64) + off)
    by done.
  constructor; simpl.
  - done.
  - done.
  - done.
  - case_match; simpl; by rewrite aget_aset_ne by lia.
  - intros i Hi. rewrite aget_aset_ne by lia. apply Hrest. lia.
  - intros i Hi. rewrite aget_aset. case_decide; [by subst|]. apply Hshm. lia.
  - intros i Hi. case_match; simpl; rewrite aget_aset; case_decide; subst; try done;
      apply Hclock; lia.
  - intros i off Hi Hoff. destruct (decide (i = k)) as [->|].
    + rewrite Hoff. simpl. by rewrite aget_aset_eq.
    + case_match; simpl; [rewrite aget_aset_ne by lia|]; apply Hbefore; done || lia.
Qed.

Lemma dbp_loop_run loc t0 d0 n :
  dbp_loop loc t0 d0 (1 + Z.of_nat n) (forZ 1 n (dbp_node loc) (t0, d0)).
Proof.
  apply (forZ_ind (dbp_loop loc t0 d0)).
  - constructor; simpl; done || lia.
  - intros i s Hi. apply dbp_loop_step. lia.
Qed.

(** [dbp_remote] only fills the remote tables. *)
Lemma dbp_remote_frame {A} (p : dbp -> A) t d index :
  (forall d q e v, p (set_remote_buffer q e v d) = p d) ->
  (forall d q v, p (set_remote_meta q v d) = p d) ->
  p (dbp_remote t d index) = p d.
Proof.
  intros H1 H2. unfold dbp_remote. case_match; rewrite H2; by apply forZ_keep.
Qed.

(** The tables after [m2m_dbp_init], in terms of the pieces. *)
Definition own_tables (ty : VND) (base : Z) (d : dbp) : dbp :=
  if dev_is ty ZED then dbp_end_device base d
  else let d := dbp_links base d in if dev_is ty ZR then d else dbp_coordinator base d.

Lemma own_tables_conflag v base d :
  m2m_hq_conflag_start (own_tables v base d) = m2m_hq_conflag_start d.
Proof.
  unfold own_tables. destruct (dev_is v ZED); [apply dbp_end_device_spec|].
  destruct (dev_is v ZR); [apply dbp_links_conflag|].
  pose proof (dbp_coordinator_spec base (dbp_links base d)) as (_&_&_&_&_&_&->).
  apply dbp_links_conflag.
Qed.

(** ** Regions that tile an interval: in order, without gap or overlap *)

Fixpoint tiles (a : Z) (l : list (Z * Z)) (b : Z) : Prop :=
  match l with
  | [] => a = b
  | (s, n) :: l' => s = a /\ 0 < n /\ tiles (a + n) l' b
  end.

Lemma tiles_app a l1 m l2 b : tiles a l1 m -> tiles m l2 b -> tiles a (l1 ++ l2) b.
Proof.
  revert a. induction l1 as [|[s n] l1 IH]; intros a; simpl.
  - by intros ->.
  - intros (-> & Hn & H1) H2. auto.
Qed.

Lemma tiles_single a s n b : s = a -> 0 < n -> b = a + n -> tiles a [(s, n)] b.
Proof. intros -> ? ->. done. Qed.

(** [k] pieces that each tile [m] bytes. *)
Lemma tiles_pieces a (g : Z -> list (Z * Z)) m k :
  (forall i, 0 <= i < Z.of_nat k -> tiles (a + i * m) (g i) (a + i * m + m)) ->
  tiles a (concat (map g (seqZ 0 (Z.of_nat k)))) (a + Z.of_nat k * m).
Proof.
  induction k as [|k IH]; intros H; [simpl; lia|].
  replace (Z.of_nat (S k)) with (Z.of_nat k + 1) by lia.
  rewrite seqZ_app by lia. rewrite map_app, concat_app.
  eapply tiles_app; [apply IH; intros; apply H; lia|]. simpl. rewrite app_nil_r.
  replace (0 + Z.of_nat k) with (Z.of_nat k) by lia.
  replace (a + (Z.of_nat k + 1) * m) with (a + Z.of_nat k * m + m) by lia.
  apply H. lia.
Qed.

Lemma tiles_in a l b i s n :
  tiles a l b -> l !! i = Some (s, n) -> a <= s /\ 0 < n /\ s + n <= b.
Proof.
  revert a i. induction l as [|[s' n'] l IH]; intros a i Ht Hi; [done|].
  destruct Ht as (-> & Hn & Ht).
  assert (Hb : forall l a b, tiles a l b -> a <= b).
  { clear. induction l as [|[s n] l IH]; simpl; intros a b H; [lia|].
    destruct H as (_ & ? & H). apply IH in H. lia. }
  destruct i as [|i]; [injection Hi as <- <-; apply Hb in Ht; lia|].
  destruct (IH _ _ Ht Hi). lia.
Qed.

(** Two regions of a tiling do not overlap. *)
Lemma tiles_disjoint a l b i j s n s' n' :
  tiles a l b -> (i < j)%nat -> l !! i = Some (s, n) -> l !! j = Some (s', n') -> s + n <= s'.
Proof.
  revert a i j. induction l as [|[r m] l IH]; intros a i j Ht Hij Hi Hj; [done|].
  destruct Ht as (-> & Hn & Ht). destruct j as [|j]; [lia|]. destruct i as [|i].
  - injection Hi as <- <-. pose proof (tiles_in _ _ _ _ _ _ Ht Hj). lia.
  - apply (IH _ i j Ht); [lia|done|done].
Qed.

(** The regions of a process's tables, in the order of the addresses. *)
Definition queue_regions (d : dbp) (q : Z) : list (Z * Z) :=
  concat (map (fun e => [(hq_buffer d q e, HEADER_QUEUE_ENTRY_SIZE)]) (seqZ 0 (Z.of_nat 4))).
Definition queues_regions (d : dbp) (n : nat) : list (Z * Z) :=
  concat (map (queue_regions d) (seqZ 0 (Z.of_nat n))) ++
  concat (map (fun q => [((m2m_hq_meta_start d).[q], HEADER_QUEUE_METADATA_SIZE)])
    (seqZ 0 (Z.of_nat n))).
Definition data_regions (d : dbp) : list (Z * Z) :=
  concat (map (fun i => [((m2m_dbp_buffer_start d).[i], DATA_BUFFER_ENTRY_SIZE)]) (seqZ 0 (Z.of_nat 4))) ++
  concat (map (fun i => [((m2m_dbp_meta_start d).[i], DATA_BUFFER_METADATA_ENTRY_SIZE)])
    (seqZ 0 (Z.of_nat 4))).
Definition flag_region (d : dbp) (id : Z) : list (Z * Z) :=
  [((m2m_hq_conflag_start d).[id], HEADER_QUEUE_CONTRLFLAG)].

Definition own_regions (ty : cstr) (id : Z) (d : dbp) : list (Z * Z) :=
  if streq ty ZED then queues_regions d 1 ++ flag_region d id ++ data_regions d
  else if streq ty ZR then queues_regions d 8
  else queues_regions d 8 ++ data_regions d ++
       (queue_regions d 8 ++ queue_regions d 9 ++
        [((m2m_hq_meta_start d).[8], HEADER_QUEUE_METADATA_SIZE);
         ((m2m_hq_meta_start d).[9], HEADER_QUEUE_METADATA_SIZE)]) ++
       flag_region d id.

Definition block_size (ty : cstr) : Z :=
  if streq ty ZED then END_DEVICE_SIZE else if streq ty ZR then ROUTER_SIZE else COORDINATOR_SIZE.

Lemma tiles_queues d n base :
  (forall q e, 0 <= q < Z.of_nat n -> 0 <= e < 4 ->
     hq_buffer d q e = base + q * HEADER_QUEUE_SIZE + e * HEADER_QUEUE_ENTRY_SIZE) ->
  (forall q, 0 <= q < Z.of_nat n ->
     (m2m_hq_meta_start d).[q] =
     base + Z.of_nat n * HEADER_QUEUE_SIZE + q * HEADER_QUEUE_METADATA_SIZE) ->
  tiles base (queues_regions d n) (base + Z.of_nat n * TOTAL_HEADER_QUEUE_SIZE).
Proof.
  intros Hb Hm. unfold queues_regions.
  apply (tiles_app _ _ (base + Z.of_nat n * HEADER_QUEUE_SIZE)).
  - apply tiles_pieces. intros q Hq. unfold queue_regions.
    replace (base + q * HEADER_QUEUE_SIZE + HEADER_QUEUE_SIZE)
      with (base + q * HEADER_QUEUE_SIZE + Z.of_nat 4 * HEADER_QUEUE_ENTRY_SIZE)
      by (unfold HEADER_QUEUE_SIZE, HEADER_QUEUE_ENTRY_NUM; lia).
    apply tiles_pieces. intros e He. apply tiles_single; [apply Hb; lia|done|done].
  - replace (base + Z.of_nat n * TOTAL_HEADER_QUEUE_SIZE)
      with (base + Z.of_nat n * HEADER_QUEUE_SIZE + Z.of_nat n * HEADER_QUEUE_METADATA_SIZE)
      by (unfold TOTAL_HEADER_QUEUE_SIZE; lia).
    apply tiles_pieces. intros q Hq. apply tiles_single; [apply Hm; lia|done|done].
Qed.

Lemma tiles_data d base :
  (forall i, 0 <= i < 4 ->
     (m2m_dbp_buffer_start d).[i] = base + i * DATA_BUFFER_ENTRY_SIZE /\
     (m2m_dbp_meta_start d).[i] = base + DATA_BUFFER_SIZE + i * DATA_BUFFER_METADATA_ENTRY_SIZE) ->
  tiles base (data_regions d) (base + TOTAL_DATA_BUFFER_SIZE).
Proof.
  intros H. unfold data_regions. apply (tiles_app _ _ (base + DATA_BUFFER_SIZE)).
  - replace (base + DATA_BUFFER_SIZE) with (base + Z.of_nat 4 * DATA_BUFFER_ENTRY_SIZE) by done.
    apply tiles_pieces. intros i Hi. apply tiles_single; [apply H; lia|done|done].
  - replace (base + TOTAL_DATA_BUFFER_SIZE)
      with (base + DATA_BUFFER_SIZE + Z.of_nat 4 * DATA_BUFFER_METADATA_ENTRY_SIZE)
      by (unfold TOTAL_DATA_BUFFER_SIZE, DATA_BUFFER_METADATA_SIZE, DATA_BUFFER_ENTRY_NUM; lia).
    apply tiles_pieces. intros i Hi. apply tiles_single; [apply H; lia|done|done].
Qed.

Lemma tiles_one_queue d q base :
  (forall e, 0 <= e < 4 -> hq_buffer d q e = base + e * HEADER_QUEUE_ENTRY_SIZE) ->
  tiles base (queue_regions d q) (base + HEADER_QUEUE_SIZE).
Proof.
  intros H. unfold queue_regions.
  replace (base + HEADER_QUEUE_SIZE) with (base + Z.of_nat 4 * HEADER_QUEUE_ENTRY_SIZE) by done.
  apply tiles_pieces. intros e He. apply tiles_single; [apply H; lia|done|done].
Qed.

(** ** m2m_dbp_init as a whole *)

(** The parsed topology is coherent with the process's own record. *)
Record topo_ok (t : topo) : Prop := {
  to_id : 1 <= DeviceID (GlobalVND t) <= TotalDeviceNum (GlobalVND t);
  to_num : TotalDeviceNum (GlobalVND t) < MAX_NODE_NUM;
  to_type : node_type t (DeviceID (GlobalVND t)) = cstr_of (DeviceType (GlobalVND t));
  to_kind : cstr_of (DeviceType (GlobalVND t)) = ZC \/
            cstr_of (DeviceType (GlobalVND t)) = ZR \/
            cstr_of (DeviceType (GlobalVND t)) = ZED }.

Lemma dbp_init_unfold loc t d t' d' :
  topo_ok t -> m2m_dbp_init loc (t, d) = (t', d') ->
  let v := GlobalVND t in
  let base := (NODE_SHM_LOCATION t').[DeviceID v] in
  (exists t1 d1, dbp_loop loc t (set_localtime 0 loc d) (1 + TotalDeviceNum v) (t1, d1) /\
    t' = set_vnd (set_Shared_memory_address base) t1 /\
    forall A (p : dbp -> A),
      (forall d q e w, p (set_remote_buffer q e w d) = p d) ->
      (forall d q w, p (set_remote_meta q w d) = p d) ->
      p d' = p (own_tables v base d1)) /\
  t_NODE_MAP t' = t_NODE_MAP t /\ NODE_TYPE t' = NODE_TYPE t /\
  (forall i, 1 <= i <= TotalDeviceNum v ->
     (NODE_SHM_LOCATION t').[i] = (NODE_SHM_LOCATION t).[i] + (loc + MAX_NODE_NUM * sizeof_u64)) /\
  Neighbors (GlobalVND t') = Neighbors v /\ NeighborNum (GlobalVND t') = NeighborNum v /\
  DeviceID (GlobalVND t') = DeviceID v /\ DeviceType (GlobalVND t') = DeviceType v.
Proof.
  intros Hok Hrun. cbv zeta. unfold m2m_dbp_init in Hrun.
  pose proof (dbp_loop_run loc t (set_localtime 0 loc d)
    (Z.to_nat (TotalDeviceNum (GlobalVND t)))) as I.
  destruct (forZ 1 _ (dbp_node loc) _) as [t1 d1] eqn:E1.
  pose proof (to_id _ Hok) as Hid.
  replace (1 + Z.of_nat (Z.to_nat (TotalDeviceNum (GlobalVND t))))
    with (1 + TotalDeviceNum (GlobalVND t)) in I by lia.
  pose proof (dl_vnd _ _ _ _ _ I) as Hv. simpl in Hv.
  cbv zeta in Hrun. cbn [GlobalVND set_vnd] in Hrun. rewrite Hv in Hrun.
  set (base := (NODE_SHM_LOCATION t1).[DeviceID (GlobalVND t)]) in *.
  assert (Ht' : t' = set_vnd (set_Shared_memory_address base) t1) by (by injection Hrun).
  assert (Hd' : d' = forZ 0 (Z.to_nat (NeighborNum (GlobalVND t)))
    (dbp_remote (set_vnd (set_Shared_memory_address base) t1)) (own_tables (GlobalVND t) base d1))
    by (by injection Hrun).
  clear Hrun E1. subst t' d'.
  cbn [NODE_SHM_LOCATION set_vnd t_NODE_MAP NODE_TYPE GlobalVND Neighbors NeighborNum DeviceID
    DeviceType set_Shared_memory_address]. fold base. rewrite Hv.
  split_and!; try done.
  - exists t1, d1. split_and!; [done|done|]. intros A p H1 H2.
    apply forZ_keep. intros. by apply dbp_remote_frame.
  - apply (dl_map _ _ _ _ _ I).
  - apply (dl_type _ _ _ _ _ I).
  - intros i Hi. apply (dl_shm _ _ _ _ _ I). lia.
Qed.

(** [d'] has the own tables of [d1] and the control flag of the node loop. *)
Section Tiles.
Context (v : VND) (base id : Z) (d1 d' : dbp).
Hypothesis Hb : forall q e, hq_buffer d' q e = hq_buffer (own_tables v base d1) q e.
Hypothesis Hm : m2m_hq_meta_start d' = m2m_hq_meta_start (own_tables v base d1).
Hypothesis Hdb : m2m_dbp_buffer_start d' = m2m_dbp_buffer_start (own_tables v base d1).
Hypothesis Hdm : m2m_dbp_meta_start d' = m2m_dbp_meta_start (own_tables v base d1).
Hypothesis Hflag : forall off, conflag_offset (cstr_of (DeviceType v)) = Some off ->
  (m2m_hq_conflag_start d').[id] = base + off.

Lemma tiles_ZC :
  cstr_of (DeviceType v) = ZC -> tiles base (own_regions ZC id d') (base + block_size ZC).
Proof.
  intros Hty.
  assert (E : own_tables v base d1 = dbp_coordinator base (dbp_links base d1))
    by (unfold own_tables, dev_is; by rewrite Hty).
  rewrite E in *. rewrite Hty in Hflag.
  change (own_regions ZC id d') with (queues_regions d' 8 ++ data_regions d' ++
    (queue_regions d' 8 ++ queue_regions d' 9 ++
     [((m2m_hq_meta_start d').[8], HEADER_QUEUE_METADATA_SIZE);
      ((m2m_hq_meta_start d').[9], HEADER_QUEUE_METADATA_SIZE)]) ++ flag_region d' id).
  change (block_size ZC) with COORDINATOR_SIZE.
  destruct (dbp_coordinator_spec base (dbp_links base d1)) as (S1 & S2 & S3 & S4 & S5 & S6 & _).
  eapply tiles_app.
  { apply (tiles_queues d' 8 base).
    - intros q e Hq He. rewrite Hb, S1 by lia. destruct (dbp_links_spec base d1 q e) as [-> _]; [lia|lia|done].
    - intros q Hq. rewrite Hm, S2 by lia. destruct (dbp_links_spec base d1 q 0) as [_ ->]; [lia|lia|done]. }
  eapply tiles_app.
  { apply tiles_data. intros i Hi. rewrite Hdb, Hdm. destruct (S6 i Hi) as [-> ->].
    unfold TOTAL_HEADER_QUEUE_SIZE, NODE_MAX_LINKS. lia. }
  eapply tiles_app.
  { eapply tiles_app; [apply tiles_one_queue; intros e He; rewrite Hb;
      destruct (S3 e He) as [-> _]; unfold NODE_MAX_LINKS; lia|].
    eapply tiles_app; [apply tiles_one_queue; intros e He; rewrite Hb;
      destruct (S3 e He) as [_ ->]; unfold NODE_MAX_LINKS; lia|].
    rewrite Hm, S4, S5. cbn [tiles]. unfold NODE_MAX_LINKS. split_and!; [lia|done|lia|done|].
    reflexivity. }
  apply tiles_single; [|done|].
  - rewrite (Hflag _ eq_refl). unfold TOTAL_HEADER_QUEUE_SIZE, NODE_MAX_LINKS. lia.
  - unfold COORDINATOR_SIZE, END_DEVICE_SIZE, TOTAL_HEADER_QUEUE_SIZE, NODE_MAX_LINKS. lia.
Qed.

Lemma tiles_ZR :
  cstr_of (DeviceType v) = ZR -> tiles base (own_regions ZR id d') (base + block_size ZR).
Proof.
  intros Hty.
  assert (E : own_tables v base d1 = dbp_links base d1)
    by (unfold own_tables, dev_is; by rewrite Hty).
  rewrite E in *. rewrite Hty in Hflag.
  replace (base + block_size ZR) with (base + Z.of_nat 8 * TOTAL_HEADER_QUEUE_SIZE) by done.
  change (own_regions ZR id d') with (queues_regions d' 8).
  apply tiles_queues.
  - intros q e Hq He. rewrite Hb. destruct (dbp_links_spec base d1 q e) as [-> _]; [lia|lia|done].
  - intros q Hq. rewrite Hm. destruct (dbp_links_spec base d1 q 0) as [_ ->]; [lia|lia|done].
Qed.

Lemma tiles_ZED :
  cstr_of (DeviceType v) = ZED -> tiles base (own_regions ZED id d') (base + block_size ZED).
Proof.
  intros Hty.
  assert (E : own_tables v base d1 = dbp_end_device base d1)
    by (unfold own_tables, dev_is; by rewrite Hty).
  rewrite E in *. rewrite Hty in Hflag.
  destruct (dbp_end_device_spec base d1) as (S1 & S2 & S3 & _).
  change (own_regions ZED id d') with
    (queues_regions d' 1 ++ flag_region d' id ++ data_regions d').
  apply (tiles_app _ _ (base + Z.of_nat 1 * TOTAL_HEADER_QUEUE_SIZE)).
  { apply (tiles_queues d' 1 base).
    - intros q e Hq He. assert (q = 0) as -> by lia. rewrite Hb, S1 by lia. lia.
    - intros q Hq. assert (q = 0) as -> by lia. rewrite Hm, S2. lia. }
  eapply tiles_app.
  { apply tiles_single; [|done|reflexivity]. rewrite (Hflag _ eq_refl). lia. }
  replace (base + block_size ZED)
    with (base + Z.of_nat 1 * TOTAL_HEADER_QUEUE_SIZE + HEADER_QUEUE_CONTRLFLAG + TOTAL_DATA_BUFFER_SIZE)
    by (change (block_size ZED) with END_DEVICE_SIZE; unfold END_DEVICE_SIZE; lia).
  apply tiles_data. intros i Hi. rewrite Hdb, Hdm. destruct (S3 i Hi) as [-> ->]. lia.
Qed.
End Tiles.

(** C17: The layout of a node: after [m2m_dbp_init] the header queues, their
    metadata, the control flag and the data buffers of the process tile its
    block of the segment exactly: in address order, no two overlapping, none
    outside the block, no byte left over, for all three device types. *)
Theorem layout_tiles loc t d t' d' :
  topo_ok t -> m2m_dbp_init loc (t, d) = (t', d') ->
  let id := DeviceID (GlobalVND t) in
  let ty := cstr_of (DeviceType (GlobalVND t)) in
  let base := (NODE_SHM_LOCATION t').[id] in
  tiles base (own_regions ty id d') (base + block_size ty).
Proof.
  intros Hok Hrun. pose proof (dbp_init_unfold loc t d t' d' Hok Hrun) as Hu. cbv zeta in *.
  destruct Hu as ((t1 & d1 & I & Et' & Hp) & _ & _ & Hshm & _).
  pose proof (to_id _ Hok) as Hid. pose proof (to_type _ Hok) as Hty.
  set (v := GlobalVND t) in *. set (id := DeviceID v) in *.
  set (base := (NODE_SHM_LOCATION t').[id]) in *.
  assert (Hb : forall q e, hq_buffer d' q e = hq_buffer (own_tables v base d1) q e).
  { intros q e. apply (Hp _ (fun d => hq_buffer d q e)); done. }
  assert (Hflag : forall off, conflag_offset (cstr_of (DeviceType v)) = Some off ->
    (m2m_hq_conflag_start d').[id] = base + off).
  { intros off Ho. rewrite (Hp _ m2m_hq_conflag_start) by done. rewrite own_tables_conflag.
    pose proof (dl_flag _ _ _ _ _ I id off) as H. simpl in H.
    rewrite H; [|lia|by rewrite Hty]. unfold base. rewrite Hshm by lia. done. }
  destruct (to_kind _ Hok) as [E|[E|E]]; fold v in E; rewrite E.
  - by apply (tiles_ZC v base id d1 d'); try apply Hp.
  - by apply (tiles_ZR v base id d1 d'); try apply Hp.
  - by apply (tiles_ZED v base id d1 d'); try apply Hp.
Qed.

(** A lone end device. *)
Definition lone_topo : topo :=
  mk_topo ∅ ∅ ∅ ∅ {[1 := ZED]} ∅
    (mk_VND 1 (∅ : arr).[0 <- 90].[1 <- 69].[2 <- 68] 1 ∅ ∅ 0 0 0 0 0 0 0).

Theorem layout_tiles_witness :
  let r := m2m_dbp_init 4096 (lone_topo, mk_dbp ∅ ∅ ∅ ∅ ∅ ∅ ∅ ∅) in
  let base := (NODE_SHM_LOCATION r.1).[1] in
  tiles base (own_regions ZED 1 r.2) (base + block_size ZED).
Proof.
  exact (layout_tiles 4096 lone_topo (mk_dbp ∅ ∅ ∅ ∅ ∅ ∅ ∅ ∅) _ _
    (Build_topo_ok lone_topo ltac:(simpl; lia) ltac:(done) eq_refl (or_intror (or_intror eq_refl)))
    (surjective_pairing _)).
Defined.

(** ** The queue a sender computes for a neighbour *)

Lemma remote_slot_S g w id :
  1 <= id ->
  remote_slot g w (id + 1) =
  remote_slot g w id + (if NODE_MAP g w id =? 0 then 0 else 1).
Proof.
  intros Hid. unfold remote_slot.
  replace (Z.to_nat (id + 1 - 1)) with (S (Z.to_nat (id - 1))) by lia.
  rewrite forZ_S. replace (1 + Z.of_nat (Z.to_nat (id - 1))) with id by lia.
  destruct (_ =? _); lia.
Qed.

Lemma remote_slot_1 g w : remote_slot g w 1 = 0.
Proof. done. Qed.

Lemma remote_slot_ge g w id k :
  1 <= id -> remote_slot g w id <= remote_slot g w (id + Z.of_nat k).
Proof.
  intros Hid. induction k as [|k IH]; [rewrite Z.add_0_r; lia|].
  replace (id + Z.of_nat (S k)) with (id + Z.of_nat k + 1) by lia.
  rewrite remote_slot_S by lia. destruct (_ =? _); lia.
Qed.

(** A linked node's slot is below the slot of every later node. *)
Lemma remote_slot_lt g w u1 u2 :
  1 <= u1 < u2 -> NODE_MAP g w u1 <> 0 -> remote_slot g w u1 < remote_slot g w u2.
Proof.
  intros Hu Hl. pose proof (remote_slot_ge g w (u1 + 1) (Z.to_nat (u2 - u1 - 1)) ltac:(lia)) as H.
  rewrite remote_slot_S in H by lia.
  replace (u1 + 1 + Z.of_nat (Z.to_nat (u2 - u1 - 1))) with u2 in H by lia.
  destruct (Z.eqb_spec (NODE_MAP g w u1) 0); lia.
Qed.

Lemma remote_slot_ext g1 g2 w u :
  (forall i, 1 <= i < u -> NODE_MAP g1 w i <> 0 <-> NODE_MAP g2 w i <> 0) ->
  remote_slot g1 w u = remote_slot g2 w u.
Proof.
  intros H. unfold remote_slot.
  assert (Hn : forall n, Z.of_nat n <= u - 1 -> 0 <= Z.of_nat n ->
    forZ 1 n (fun count i => if NODE_MAP g1 w i =? 0 then count else count + 1) 0 =
    forZ 1 n (fun count i => if NODE_MAP g2 w i =? 0 then count else count + 1) 0).
  { induction n as [|n IH]; intros Hu Hp; [done|]. rewrite !forZ_S, IH by lia.
    pose proof (H (1 + Z.of_nat n) ltac:(lia)).
    destruct (Z.eqb_spec (NODE_MAP g1 w (1 + Z.of_nat n)) 0),
      (Z.eqb_spec (NODE_MAP g2 w (1 + Z.of_nat n)) 0); done || lia. }
  destruct (decide (0 <= u - 1)); [apply Hn; lia|].
  replace (Z.to_nat (u - 1)) with 0%nat by lia. done.
Qed.

(** The slot counts the linked nodes in front. *)
Lemma remote_slot_count g w n :
  remote_slot g w (1 + Z.of_nat n) =
  Z.of_nat (length (filter (fun i => NODE_MAP g w i <> 0) (seqZ 1 (Z.of_nat n)))).
Proof.
  induction n as [|n IH]; [done|].
  replace (1 + Z.of_nat (S n)) with (1 + Z.of_nat n + 1) by lia.
  rewrite remote_slot_S by lia. rewrite IH.
  replace (Z.of_nat (S n)) with (Z.of_nat n + 1) by lia.
  rewrite seqZ_app by lia. rewrite filter_app, length_app, seqZ_one.
  destruct (Z.eqb_spec (NODE_MAP g w (1 + Z.of_nat n)) 0).
  - rewrite filter_cons_False by (by intros ?). simpl. lia.
  - rewrite filter_cons_True by done. simpl. lia.
Qed.

(** A linked node's slot is below the neighbour's number of links. *)
Lemma remote_slot_bound g w u links :
  1 <= u -> u ∈ links ->
  (forall i, 1 <= i <= u -> NODE_MAP g w i <> 0 -> i ∈ links) ->
  0 <= remote_slot g w u < Z.of_nat (length links).
Proof.
  intros Hu Hin Hl.
  replace u with (1 + Z.of_nat (Z.to_nat (u - 1))) at 1 2 by lia.
  rewrite remote_slot_count. split; [lia|].
  set (l := filter _ _).
  assert (Hnd : NoDup (u :: l)).
  { constructor; [|apply NoDup_filter, NoDup_seqZ].
    intros Hx. apply list_elem_of_filter in Hx as [_ Hx]. apply elem_of_seqZ in Hx. lia. }
  assert (Hsub : (u :: l) ⊆+ links).
  { apply NoDup_submseteq; [done|]. intros x Hx. apply elem_of_cons in Hx as [->|Hx]; [done|].
    apply list_elem_of_filter in Hx as [Hx1 Hx2]. apply elem_of_seqZ in Hx2. apply Hl; [lia|done]. }
  apply submseteq_length in Hsub. simpl in Hsub. lia.
Qed.

(** What [dbp_remote] writes for one neighbour. *)
Lemma fill_remote_buffer q (f : Z -> Z) d l e :
  0 <= e < 4 ->
  remote_hq_buffer (forZ 0 nat_HQ (fun d e => set_remote_buffer q e (f e) d) d) l e =
  if decide (l = q) then f e else remote_hq_buffer d l e.
Proof.
  intros He. unfold remote_hq_buffer, nat_HQ.
  rewrite (forZ_proj m2m_remote_hq_buffer_start 0 4 _
    (fun a e => a.[HEADER_QUEUE_ENTRY_NUM * q + e <- f e])) by done.
  rewrite forZ_fill. unfold HEADER_QUEUE_ENTRY_NUM.
  repeat case_decide; try lia; subst; f_equal; lia.
Qed.

Lemma dbp_remote_spec t d q l e :
  0 <= e < 4 ->
  let w := (Neighbors (GlobalVND t)).[q] in
  let loc := (NODE_SHM_LOCATION t).[w] in
  let c := if streq (node_type t w) ZED then 0
           else remote_slot (t_NODE_MAP t) w (DeviceID (GlobalVND t)) in
  let meta := if streq (node_type t w) ZED then HEADER_QUEUE_SIZE
              else HEADER_QUEUE_SIZE * NODE_MAX_LINKS + HEADER_QUEUE_METADATA_SIZE * c in
  let d' := dbp_remote t d q in
  remote_hq_buffer d' l e =
    (if decide (l = q) then loc + HEADER_QUEUE_SIZE * c + e * HEADER_QUEUE_ENTRY_SIZE
     else remote_hq_buffer d l e) /\
  (m2m_remote_hq_meta_start d').[l] =
    (if decide (l = q) then loc + meta else (m2m_remote_hq_meta_start d).[l]).
Proof.
  intros He. cbv zeta. unfold dbp_remote.
  set (w := (Neighbors (GlobalVND t)).[q]). set (loc := (NODE_SHM_LOCATION t).[w]).
  set (c := remote_slot _ _ _).
  destruct (streq (node_type t w) ZED); split;
    cbn [m2m_remote_hq_meta_start set_remote_meta].
  - etransitivity; [apply (fill_remote_buffer q (fun e => loc + e * HEADER_QUEUE_ENTRY_SIZE) d l e He)|].
    case_decide; [lia|done].
  - rewrite (forZ_keep m2m_remote_hq_meta_start) by done. rewrite aget_aset.
    repeat case_decide; congruence.
  - etransitivity; [apply (fill_remote_buffer q
      (fun e => loc + HEADER_QUEUE_SIZE * c + e * HEADER_QUEUE_ENTRY_SIZE) d l e He)|]. done.
  - rewrite (forZ_keep m2m_remote_hq_meta_start) by done. rewrite aget_aset.
    repeat case_decide; try congruence. lia.
Qed.

Lemma remote_tables t d n q e :
  0 <= q < Z.of_nat n -> 0 <= e < 4 ->
  let w := (Neighbors (GlobalVND t)).[q] in
  let loc := (NODE_SHM_LOCATION t).[w] in
  let c := if streq (node_type t w) ZED then 0
           else remote_slot (t_NODE_MAP t) w (DeviceID (GlobalVND t)) in
  let meta := if streq (node_type t w) ZED then HEADER_QUEUE_SIZE
              else HEADER_QUEUE_SIZE * NODE_MAX_LINKS + HEADER_QUEUE_METADATA_SIZE * c in
  let d' := forZ 0 n (dbp_remote t) d in
  remote_hq_buffer d' q e = loc + HEADER_QUEUE_SIZE * c + e * HEADER_QUEUE_ENTRY_SIZE /\
  (m2m_remote_hq_meta_start d').[q] = loc + meta.
Proof.
  intros Hq He. cbv zeta. induction n as [|n IH]; [lia|]. rewrite forZ_S, Z.add_0_l.
  destruct (dbp_remote_spec t (forZ 0 n (dbp_remote t) d) (Z.of_nat n) q e He) as [-> ->].
  destruct (decide (q = Z.of_nat n)) as [->|]; [done|]. apply IH. lia.
Qed.

(** The remote tables of [m2m_dbp_init] read the final node bases. *)
Lemma dbp_init_remote loc t d t' d' q e :
  topo_ok t -> m2m_dbp_init loc (t, d) = (t', d') ->
  0 <= q < NeighborNum (GlobalVND t) -> 0 <= e < 4 ->
  let w := (Neighbors (GlobalVND t)).[q] in
  let base := (NODE_SHM_LOCATION t').[w] in
  let c := if streq (node_type t w) ZED then 0
           else remote_slot (t_NODE_MAP t) w (DeviceID (GlobalVND t)) in
  let meta := if streq (node_type t w) ZED then HEADER_QUEUE_SIZE
              else HEADER_QUEUE_SIZE * NODE_MAX_LINKS + HEADER_QUEUE_METADATA_SIZE * c in
  remote_hq_buffer d' q e = base + HEADER_QUEUE_SIZE * c + e * HEADER_QUEUE_ENTRY_SIZE /\
  (m2m_remote_hq_meta_start d').[q] = base + meta.
Proof.
  intros Hok Hrun Hq He.
  pose proof (dbp_init_unfold loc t d t' d' Hok Hrun) as Hu. cbv zeta in *.
  destruct Hu as (_ & Hmap & Hty & _ & Hnb & Hnn & Hid & _).
  unfold m2m_dbp_init in Hrun. destruct (forZ 1 _ (dbp_node loc) _) as [t1 d1].
  cbv zeta in Hrun. set (t2 := set_vnd _ t1) in *. set (d2 := if dev_is _ _ then _ else _) in *.
  assert (E1 : t2 = t') by congruence.
  assert (E2 : forZ 0 (Z.to_nat (NeighborNum (GlobalVND t2))) (dbp_remote t2) d2 = d') by congruence.
  rewrite E1 in E2. rewrite <- E2.
  pose proof (remote_tables t' d2 (Z.to_nat (NeighborNum (GlobalVND t'))) q e) as H.
  cbv zeta in H. rewrite Hnb, Hid, Hmap, Hnn in H. unfold node_type in *. rewrite Hty in H.
  rewrite Hnn. apply H; lia.
Qed.

(** The own queue tables of a router or coordinator and of an end device. *)
Lemma dbp_init_own loc t d t' d' q e :
  topo_ok t -> m2m_dbp_init loc (t, d) = (t', d') ->
  let base := (NODE_SHM_LOCATION t').[DeviceID (GlobalVND t)] in
  let zed := dev_is (GlobalVND t) ZED in
  0 <= q < (if zed then 1 else 8) -> 0 <= e < 4 ->
  hq_buffer d' q e = base + HEADER_QUEUE_SIZE * q + e * HEADER_QUEUE_ENTRY_SIZE /\
  (m2m_hq_meta_start d').[q] =
    base + (if zed then HEADER_QUEUE_SIZE
            else HEADER_QUEUE_SIZE * NODE_MAX_LINKS + HEADER_QUEUE_METADATA_SIZE * q).
Proof.
  intros Hok Hrun. pose proof (dbp_init_unfold loc t d t' d' Hok Hrun) as Hu. cbv zeta in *.
  destruct Hu as ((t1 & d1 & _ & _ & Hp) & _). set (base := (NODE_SHM_LOCATION t').[_]) in *.
  intros Hq He. rewrite (Hp _ (fun d => hq_buffer d q e)) by done.
  rewrite (Hp _ m2m_hq_meta_start) by done. unfold own_tables.
  destruct (dev_is (GlobalVND t) ZED).
  - assert (q = 0) as -> by lia. destruct (dbp_end_device_spec base d1) as (S1 & S2 & _).
    rewrite S1, S2 by done. lia.
  - destruct (dbp_links_spec base d1 q e Hq He) as [L1 L2].
    destruct (dev_is (GlobalVND t) ZR); [rewrite L1, L2; lia|].
    destruct (dbp_coordinator_spec base (dbp_links base d1)) as (S1 & S2 & _).
    rewrite S1, S2, L1, L2 by done. lia.
Qed.

(** The clock and control-flag tables cover every node of the network. *)
Lemma dbp_links_localtime base d : m2m_localtime_start (dbp_links base d) = m2m_localtime_start d.
Proof.
  unfold dbp_links. apply (forZ_keep m2m_localtime_start). intros d1 l.
  cbn [m2m_localtime_start set_hq_meta]. by apply (forZ_keep m2m_localtime_start).
Qed.

Lemma set_hq_meta_localtime q v d : m2m_localtime_start (set_hq_meta q v d) = m2m_localtime_start d.
Proof. done. Qed.

Lemma dbp_end_device_localtime base d : m2m_localtime_start (dbp_end_device base d) = m2m_localtime_start d.
Proof.
  unfold dbp_end_device. cbv zeta. rewrite (forZ_keep m2m_localtime_start) by done.
  rewrite set_hq_meta_localtime. by rewrite (forZ_keep m2m_localtime_start) by done.
Qed.

Lemma dbp_coordinator_localtime base d : m2m_localtime_start (dbp_coordinator base d) = m2m_localtime_start d.
Proof.
  unfold dbp_coordinator. cbv zeta. rewrite !set_hq_meta_localtime.
  rewrite (forZ_keep m2m_localtime_start) by done. by rewrite (forZ_keep m2m_localtime_start) by done.
Qed.

Lemma own_tables_localtime v base d :
  m2m_localtime_start (own_tables v base d) = m2m_localtime_start d.
Proof.
  unfold own_tables. destruct (dev_is v ZED); [apply dbp_end_device_localtime|].
  cbv zeta. destruct (dev_is v ZR); [apply dbp_links_localtime|].
  rewrite dbp_coordinator_localtime. apply dbp_links_localtime.
Qed.

Lemma dbp_init_tables loc t d t' d' :
  topo_ok t -> m2m_dbp_init loc (t, d) = (t', d') ->
  (forall i, 1 <= i <= TotalDeviceNum (GlobalVND t) -> (m2m_localtime_start d').[i] = loc + i * sizeof_u64) /\
  (forall i off, 1 <= i <= TotalDeviceNum (GlobalVND t) -> conflag_offset (node_type t i) = Some off ->
    (m2m_hq_conflag_start d').[i] =
      (NODE_SHM_LOCATION t).[i] + (loc + MAX_NODE_NUM * sizeof_u64) + off) /\
  TotalDeviceNum (GlobalVND t') = TotalDeviceNum (GlobalVND t).
Proof.
  intros Hok Hrun. pose proof (dbp_init_unfold loc t d t' d' Hok Hrun) as Hu. cbv zeta in *.
  destruct Hu as ((t1 & d1 & I & Et & Hp) & _). split_and!.
  - intros i Hi. rewrite (Hp _ m2m_localtime_start), own_tables_localtime by done.
    apply (dl_clock _ _ _ _ _ I). lia.
  - intros i off Hi Ho. rewrite (Hp _ m2m_hq_conflag_start), own_tables_conflag by done.
    apply (dl_flag _ _ _ _ _ I); [lia|done].
  - rewrite Et. cbn [GlobalVND set_vnd set_Shared_memory_address TotalDeviceNum].
    pose proof (dl_vnd _ _ _ _ _ I) as Hv. cbn [fst] in Hv. by rewrite Hv.
Qed.
