(* ===== verification/Segment.v ===== *)
(** * Processes that share the segment

    Each process parses the same [topology.conf], attaches the segment at an
    address of its own and fills its tables.  This file puts the processes of a
    network side by side: the theorems say that the tables of any two of them
    meet in the same bytes. *)
From S2P Require Import Prelude Mem Config Topology TopologyFormat Layout.

Definition dbp0 : dbp := mk_dbp ∅ ∅ ∅ ∅ ∅ ∅ ∅ ∅.

(** A process's start: [m2m_topology_init], then [m2m_dbp_init] with the
    segment attached at [loc] (the order of [network_initial]). *)
Definition boot (ds : list node_desc) (loc id : Z) : option (topo * dbp) :=
  match m2m_topology_init (Some (render ds)) id topo0 with
  | Ret (M2M_SUCCESS, t) => Some (m2m_dbp_init loc (t, dbp0))
  | _ => None
  end.

(** A description the program can place: at most 99 nodes, at most 8 links each. *)
Record net_ok (ds : list node_desc) : Prop := {
  no_desc : desc_ok ds;
  no_links : links_ok ds;
  no_sym : links_symmetric ds;
  no_size : Z.of_nat (length ds) < MAX_NODE_NUM;
  no_degree : Forall (fun d => Z.of_nat (length (nd_links d)) <= NODE_MAX_LINKS) ds }.

Lemma net_lookup (ds : list node_desc) id : 1 <= id <= Z.of_nat (length ds) -> exists d, ds !! Z.to_nat (id - 1) = Some d.
Proof. intros H. apply lookup_lt_is_Some. lia. Qed.

(** The topology a process starts from. *)
Definition start_topo (ds : list node_desc) (id : Z) : topo :=
  build id 1 0 ds (set_vnd (set_TotalDeviceNum (Z.of_nat (length ds)))
                     (set_vnd (set_DeviceID id) (clear_counts topo0))).

Section Net.
Context (ds : list node_desc).
Hypothesis Hnet : net_ok ds.

Lemma boot_eq loc id :
  id <= Z.of_nat (length ds) -> boot ds loc id = Some (m2m_dbp_init loc (start_topo ds id, dbp0)).
Proof.
  intros Hid. unfold boot. by rewrite (topology_init_render id ds topo0 (no_desc _ Hnet) Hid).
Qed.

(** Everything the tables depend on, for the process of node [id]. *)
Lemma start_topo_facts id d :
  1 <= id <= Z.of_nat (length ds) -> ds !! Z.to_nat (id - 1) = Some d ->
  let t := start_topo ds id in
  topo_ok t /\ DeviceID (GlobalVND t) = id /\
  TotalDeviceNum (GlobalVND t) = Z.of_nat (length ds) /\
  cstr_of (DeviceType (GlobalVND t)) = type_name (nd_type d) /\
  NeighborNum (GlobalVND t) = Z.of_nat (length (nd_links d)) /\
  (forall i x, nd_links d !! i = Some x -> (Neighbors (GlobalVND t)).[Z.of_nat i] = x).
Proof.
  intros Hid Hd. cbv zeta.
  pose proof (topology_init_render id ds topo0 (no_desc _ Hnet) ltac:(lia)) as Hrun.
  fold (start_topo ds id) in Hrun. pose proof (no_size _ Hnet). unfold MAX_NODE_NUM in *.
  destruct (topology_own_vnd id ds topo0 M2M_SUCCESS (start_topo ds id) (Z.to_nat (id - 1)) d
    (no_desc _ Hnet) ltac:(lia) ltac:(lia) Hd eq_refl Hrun) as (V1 & V2 & V3 & _ & V5 & V6).
  split_and!; try done. constructor.
  - rewrite V1, V2. lia.
  - rewrite V2. unfold MAX_NODE_NUM. lia.
  - rewrite V1, V3. destruct (build_place id 1 0 ds (set_vnd (set_TotalDeviceNum (Z.of_nat (length ds)))
                     (set_vnd (set_DeviceID id) (clear_counts topo0)))) as [_ Hp].
    destruct (Hp _ _ Hd) as [_ Hty]. fold (start_topo ds id) in Hty.
    by replace (1 + Z.of_nat (Z.to_nat (id - 1))) with id in Hty by lia.
  - rewrite V3. destruct (nd_type d); auto.
Qed.

Lemma start_topo_place id k d :
  ds !! k = Some d ->
  (NODE_SHM_LOCATION (start_topo ds id)).[1 + Z.of_nat k] = placement (take k ds) /\
  node_type (start_topo ds id) (1 + Z.of_nat k) = type_name (nd_type d).
Proof.
  intros Hk. destruct (build_place id 1 0 ds (set_vnd (set_TotalDeviceNum (Z.of_nat (length ds)))
                     (set_vnd (set_DeviceID id) (clear_counts topo0)))) as [_ Hp].
  by destruct (Hp _ _ Hk).
Qed.

Lemma boot_base loc id t d k e :
  1 <= id <= Z.of_nat (length ds) -> boot ds loc id = Some (t, d) -> ds !! k = Some e ->
  (NODE_SHM_LOCATION t).[1 + Z.of_nat k] = loc + MAX_NODE_NUM * sizeof_u64 + placement (take k ds).
Proof.
  intros Hid Hb Hk. destruct (net_lookup ds id Hid) as [d0 Hd0].
  destruct (start_topo_facts id d0 Hid Hd0) as (Hok & _ & Hn & _).
  rewrite boot_eq in Hb by lia. injection Hb as Hrun.
  pose proof (dbp_init_unfold _ _ _ _ _ Hok Hrun) as Hu. cbv zeta in Hu.
  destruct Hu as (_ & _ & _ & Hs & _). pose proof (lookup_lt_Some _ _ _ Hk).
  rewrite Hs by lia. destruct (start_topo_place id k e Hk) as [-> _]. lia.
Qed.

(** The start-up link map is the description's. *)
Lemma start_topo_links u w i :
  1 <= u <= Z.of_nat (length ds) -> 1 <= w <= Z.of_nat (length ds) ->
  1 <= i <= Z.of_nat (length ds) ->
  NODE_MAP (t_NODE_MAP (start_topo ds u)) w i <> 0 <-> i ∈ links_of ds w.
Proof.
  intros Hu Hw Hi.
  pose proof (topology_init_render u ds topo0 (no_desc _ Hnet) ltac:(lia)) as Hrun.
  fold (start_topo ds u) in Hrun.
  pose proof (init_unit u ds topo0 _ _ (no_desc _ Hnet) ltac:(lia) eq_refl Hrun w i).
  pose proof (init_links u ds topo0 _ _ w i (no_desc _ Hnet) (no_links _ Hnet) (no_sym _ Hnet)
    (no_size _ Hnet) ltac:(lia) eq_refl Hrun Hw Hi) as <-. lia.
Qed.

(** The slot a neighbour computes is one of the node's link queues. *)
Lemma slot_range u w du dw :
  1 <= u <= Z.of_nat (length ds) -> 1 <= w <= Z.of_nat (length ds) ->
  ds !! Z.to_nat (u - 1) = Some du -> ds !! Z.to_nat (w - 1) = Some dw -> w ∈ nd_links du ->
  0 <= remote_slot (t_NODE_MAP (start_topo ds u)) w u < Z.of_nat (length (nd_links dw)).
Proof.
  intros Hu Hw Hdu Hdw Hin. apply remote_slot_bound; [lia| |].
  - destruct (no_sym _ Hnet u w Hu Hw) as [Hsym _]. unfold links_of in Hsym.
    rewrite Hdu, Hdw in Hsym. by apply Hsym.
  - intros i Hi Hn. apply start_topo_links in Hn; [|lia..].
    unfold links_of in Hn. by rewrite Hdw in Hn.
Qed.

(** The metadata address a neighbour computes for a router or coordinator. *)
Lemma remote_meta_at u w l t d e ew q :
  1 <= u <= Z.of_nat (length ds) -> 1 <= w <= Z.of_nat (length ds) ->
  boot ds l u = Some (t, d) ->
  ds !! Z.to_nat (u - 1) = Some e -> nd_links e !! q = Some w ->
  ds !! Z.to_nat (w - 1) = Some ew -> nd_type ew <> EndDevice ->
  (m2m_remote_hq_meta_start d).[Z.of_nat q] - l =
    MAX_NODE_NUM * sizeof_u64 + placement (take (Z.to_nat (w - 1)) ds) +
    (HEADER_QUEUE_SIZE * NODE_MAX_LINKS +
     HEADER_QUEUE_METADATA_SIZE * remote_slot (t_NODE_MAP (start_topo ds u)) w u).
Proof.
  intros Hu Hw Hb He Hq Hew Hty.
  destruct (start_topo_facts u e Hu He) as (Uok & Uid & _ & _ & Unn & Unb).
  pose proof (boot_base l u t d _ _ Hu Hb Hew) as Bu.
  replace (1 + Z.of_nat (Z.to_nat (w - 1))) with w in Bu by lia.
  rewrite boot_eq in Hb by lia. injection Hb as Ru.
  destruct (start_topo_place u (Z.to_nat (w - 1)) ew Hew) as [_ Hw'].
  replace (1 + Z.of_nat (Z.to_nat (w - 1))) with w in Hw' by lia.
  pose proof (lookup_lt_Some _ _ _ Hq).
  destruct (dbp_init_remote _ _ _ _ _ (Z.of_nat q) 0 Uok Ru ltac:(lia) ltac:(lia)) as [_ Hm].
  cbv zeta in Hm. rewrite (Unb q w Hq), Hw', Uid, Bu in Hm.
  assert (streq (type_name (nd_type ew)) ZED = false) as E by (by destruct (nd_type ew)).
  rewrite E in Hm. lia.
Qed.
End Net.

(** The demo network can be placed. *)
Lemma demo_net_ok : net_ok demo_net.
Proof.
  constructor; [apply demo_ok|apply demo_links_ok|apply demo_symmetric|done|].
  repeat (constructor; [done|]). constructor.
Qed.

Definition demo_boot (loc id : Z) : topo * dbp := m2m_dbp_init loc (start_topo demo_net id, dbp0).

Lemma demo_boot_eq loc id :
  id <= 3 -> boot demo_net loc id = Some ((demo_boot loc id).1, (demo_boot loc id).2).
Proof. intros H. rewrite (boot_eq demo_net demo_net_ok) by exact H. by rewrite <- surjective_pairing. Qed.

Lemma placement_app l1 l2 : placement (l1 ++ l2) = placement l1 + placement l2.
Proof. induction l1 as [|d l1 IH]; simpl; lia. Qed.

Lemma type_size_pos d : 0 < type_size d.
Proof. by destruct d. Qed.

Lemma placement_nonneg l : 0 <= placement l.
Proof. induction l as [|d l IH]; simpl; [lia|]. pose proof (type_size_pos (nd_type d)). lia. Qed.

Lemma placement_take (ds : list node_desc) k d :
  ds !! k = Some d -> placement (take (S k) ds) = placement (take k ds) + type_size (nd_type d).
Proof. intros H. rewrite (take_S_r _ _ _ H), placement_app. simpl. lia. Qed.

Lemma placement_mono (ds : list node_desc) i j :
  (i <= j)%nat -> placement (take i ds) <= placement (take j ds).
Proof.
  intros H. replace j with (i + (j - i))%nat by lia.
  rewrite <- take_take_drop, placement_app. pose proof (placement_nonneg (take (j - i) (drop i ds))). lia.
Qed.

Lemma block_size_type d : block_size (type_name d) = type_size d.
Proof. by destruct d. Qed.

(** ** The properties *)

(** The blocks of the nodes lie one after the other behind the clock table,
    none overlapping another, and the last ends where the segment of
    [SHM_SIZE] bytes ends, in the address space of every process. *)
Theorem segment_blocks ds loc id t d k e :
  net_ok ds -> 1 <= id <= Z.of_nat (length ds) -> boot ds loc id = Some (t, d) ->
  placement ds < 2 ^ 63 -> ds !! k = Some e ->
  let base i := (NODE_SHM_LOCATION t).[1 + Z.of_nat i] in
  (k = 0%nat -> base k = loc + MAX_NODE_NUM * sizeof_u64) /\
  (forall k' e', ds !! k' = Some e' -> (k < k')%nat -> base k + type_size (nd_type e) <= base k') /\
  (forall e', ds !! S k = Some e' -> base (S k) = base k + type_size (nd_type e)) /\
  base k + type_size (nd_type e) <=
    loc + SHM_SIZE (TotalNetworkTypeDevice (start_topo ds id)).
Proof.
  intros Hnet Hid Hb Hsz Hk base.
  pose proof (fun k e => boot_base ds Hnet loc id t d k e Hid Hb) as Hbase.
  pose proof (placement_take ds k e Hk) as Hp. split_and!.
  - intros ->. unfold base. rewrite (Hbase 0%nat e Hk). simpl. lia.
  - intros k' e' Hk' Hlt. unfold base. rewrite (Hbase k e Hk), (Hbase k' e' Hk').
    pose proof (placement_mono ds (S k) k' ltac:(lia)). lia.
  - intros e' Hk'. unfold base. rewrite (Hbase k e Hk), (Hbase (S k) e' Hk'). lia.
  - unfold base. rewrite (Hbase k e Hk).
    assert (E : SHM_SIZE (TotalNetworkTypeDevice (start_topo ds id)) =
      MAX_NODE_NUM * sizeof_u64 + placement ds).
    { unfold SHM_SIZE. fold (weight (TotalNetworkTypeDevice (start_topo ds id))).
      unfold start_topo. rewrite build_weight.
      change (weight (TotalNetworkTypeDevice (set_vnd _ (set_vnd _ (clear_counts topo0))))) with 0.
      pose proof (placement_nonneg ds). rewrite u64_small; unfold MAX_NODE_NUM, sizeof_u64; lia. }
    rewrite E. pose proof (placement_mono ds (S k) (length ds)) as Hm.
    rewrite firstn_all in Hm. pose proof (lookup_lt_Some _ _ _ Hk). specialize (Hm ltac:(lia)). lia.
Qed.

Theorem segment_blocks_witness :
  (NODE_SHM_LOCATION (demo_boot 4096 2).1).[1 + Z.of_nat 0] = 4096 + MAX_NODE_NUM * sizeof_u64.
Proof.
  exact (proj1 (segment_blocks demo_net 4096 2 _ _ 0 (mk_node Coordinator 100 100 124 [2])
    demo_net_ok ltac:(done) (demo_boot_eq 4096 2 ltac:(done)) ltac:(vm_compute; done) eq_refl) eq_refl).
Defined.

(** C2: Sender and receiver meet: the queue process [u] computes for its
    neighbour [w] is, entry by entry and in its metadata, a queue in [w]'s own
    table (each relative to where the two attached the segment), and one that
    [w] polls: queue 0 of an end device, otherwise a queue below [w]'s number of
    links. *)
Theorem remote_queue_meets ds lu lw u w tu du tw dw du_ dw_ q :
  net_ok ds -> 1 <= u <= Z.of_nat (length ds) -> 1 <= w <= Z.of_nat (length ds) ->
  boot ds lu u = Some (tu, du) -> boot ds lw w = Some (tw, dw) ->
  ds !! Z.to_nat (u - 1) = Some du_ -> ds !! Z.to_nat (w - 1) = Some dw_ ->
  nd_links du_ !! q = Some w ->
  exists s, 0 <= s < (if dev_is (GlobalVND tw) ZED then 1 else NeighborNum (GlobalVND tw)) /\
    (forall e, 0 <= e < HEADER_QUEUE_ENTRY_NUM ->
       remote_hq_buffer du (Z.of_nat q) e - lu = hq_buffer dw s e - lw) /\
    (m2m_remote_hq_meta_start du).[Z.of_nat q] - lu = (m2m_hq_meta_start dw).[s] - lw.
Proof.
  intros Hnet Hu Hw Hbu Hbw Hdu Hdw Hq.
  destruct (start_topo_facts ds Hnet u du_ Hu Hdu) as (Uok & Uid & _ & _ & Unn & Unb).
  destruct (start_topo_facts ds Hnet w dw_ Hw Hdw) as (Wok & Wid & _ & Wty & Wnn & _).
  pose proof (boot_base ds Hnet lu u tu du _ _ Hu Hbu Hdw) as Bu.
  pose proof (boot_base ds Hnet lw w tw dw _ _ Hw Hbw Hdw) as Bw.
  replace (1 + Z.of_nat (Z.to_nat (w - 1))) with w in Bu, Bw by lia.
  rewrite boot_eq in Hbu, Hbw by (done || lia). injection Hbu as Ru. injection Hbw as Rw.
  pose proof (dbp_init_unfold _ _ _ _ _ Wok Rw) as Hfw. cbv zeta in Hfw.
  destruct Hfw as (_ & _ & _ & _ & _ & Wnn' & _ & Wdt).
  pose proof (lookup_lt_Some _ _ _ Hq) as Hqlt.
  destruct (start_topo_place ds u (Z.to_nat (w - 1)) dw_ Hdw) as [_ Hty].
  replace (1 + Z.of_nat (Z.to_nat (w - 1))) with w in Hty by lia.
  set (zed := streq (type_name (nd_type dw_)) ZED).
  assert (Hzed : dev_is (GlobalVND tw) ZED = zed) by (unfold dev_is; by rewrite Wdt, Wty).
  assert (Hzed' : dev_is (GlobalVND (start_topo ds w)) ZED = zed) by (unfold dev_is; by rewrite Wty).
  set (s := if zed then 0 else remote_slot (t_NODE_MAP (start_topo ds u)) w u).
  assert (Hs : 0 <= s < (if zed then 1 else Z.of_nat (length (nd_links dw_)))).
  { unfold s. destruct zed; [lia|].
    apply (slot_range ds Hnet u w du_ dw_ Hu Hw Hdu Hdw). by eapply list_elem_of_lookup_2. }
  pose proof (no_degree _ Hnet) as Hdeg. rewrite Forall_lookup in Hdeg.
  specialize (Hdeg _ _ Hdw). unfold NODE_MAX_LINKS in Hdeg.
  exists s. rewrite Hzed, Wnn', Wnn. split; [exact Hs|].
  assert (Hr : forall e, 0 <= e < 4 ->
    remote_hq_buffer du (Z.of_nat q) e - lu = hq_buffer dw s e - lw /\
    (m2m_remote_hq_meta_start du).[Z.of_nat q] - lu = (m2m_hq_meta_start dw).[s] - lw).
  { intros e He.
    pose proof (dbp_init_remote _ _ _ _ _ (Z.of_nat q) e Uok Ru ltac:(lia) He) as R. cbv zeta in R.
    rewrite (Unb q w Hq), Hty, Uid in R. fold zed s in R. rewrite Bu in R.
    pose proof (dbp_init_own _ _ _ _ _ s e Wok Rw) as O. cbv zeta in O.
    rewrite Hzed', Wid, Bw in O.
    destruct R as [R1 R2]. destruct O as [O1 O2]; [destruct zed; lia|done|].
    rewrite R1, R2, O1, O2. destruct zed; lia. }
  split; [intros e He; by apply Hr|]. by apply (Hr 0).
Qed.

Theorem remote_queue_meets_witness :
  exists s, 0 <= s < (if dev_is (GlobalVND (demo_boot 8192 2).1) ZED then 1
                      else NeighborNum (GlobalVND (demo_boot 8192 2).1)) /\
    (forall e, 0 <= e < HEADER_QUEUE_ENTRY_NUM ->
       remote_hq_buffer (demo_boot 4096 3).2 (Z.of_nat 0) e - 4096 =
       hq_buffer (demo_boot 8192 2).2 s e - 8192) /\
    (m2m_remote_hq_meta_start (demo_boot 4096 3).2).[Z.of_nat 0] - 4096 =
      (m2m_hq_meta_start (demo_boot 8192 2).2).[s] - 8192.
Proof.
  exact (remote_queue_meets demo_net 4096 8192 3 2 _ _ _ _ (mk_node EndDevice 150 100 0 [2])
    (mk_node Router 200 100 0 [1; 3]) 0 demo_net_ok ltac:(done) ltac:(done)
    (demo_boot_eq 4096 3 ltac:(done)) (demo_boot_eq 8192 2 ltac:(done)) eq_refl eq_refl eq_refl).
Defined.

(** C18: One producer per queue: two different neighbours of a router or
    coordinator [w] compute different queues of [w], so no header queue has two
    writers. *)
Theorem remote_queue_exclusive ds l1 l2 u1 u2 w t1 d1 t2 d2 e1 e2 ew q1 q2 :
  net_ok ds -> 1 <= u1 <= Z.of_nat (length ds) -> 1 <= u2 <= Z.of_nat (length ds) -> u1 <> u2 ->
  1 <= w <= Z.of_nat (length ds) ->
  boot ds l1 u1 = Some (t1, d1) -> boot ds l2 u2 = Some (t2, d2) ->
  ds !! Z.to_nat (u1 - 1) = Some e1 -> ds !! Z.to_nat (u2 - 1) = Some e2 ->
  ds !! Z.to_nat (w - 1) = Some ew -> nd_type ew <> EndDevice ->
  nd_links e1 !! q1 = Some w -> nd_links e2 !! q2 = Some w ->
  (m2m_remote_hq_meta_start d1).[Z.of_nat q1] - l1 <>
  (m2m_remote_hq_meta_start d2).[Z.of_nat q2] - l2.
Proof.
  intros Hnet Hu1 Hu2 Hne Hw Hb1 Hb2 He1 He2 Hew Hty Hq1 Hq2.
  rewrite (remote_meta_at ds Hnet u1 w l1 t1 d1 e1 ew q1),
    (remote_meta_at ds Hnet u2 w l2 t2 d2 e2 ew q2) by done.
  assert (Hl : forall u e q, 1 <= u <= Z.of_nat (length ds) -> ds !! Z.to_nat (u - 1) = Some e ->
    nd_links e !! q = Some w -> u ∈ links_of ds w).
  { intros u e q Hu He Hq. destruct (no_sym _ Hnet u w Hu Hw) as [Hs _]. apply Hs.
    unfold links_of. rewrite He. by eapply list_elem_of_lookup_2. }
  assert (Heq : forall u, 1 <= u <= Z.of_nat (length ds) ->
    remote_slot (t_NODE_MAP (start_topo ds u2)) w u = remote_slot (t_NODE_MAP (start_topo ds u1)) w u).
  { intros u Hu. apply remote_slot_ext. intros i Hi.
    pose proof (start_topo_links ds Hnet u1 w i Hu1 Hw ltac:(lia)).
    pose proof (start_topo_links ds Hnet u2 w i Hu2 Hw ltac:(lia)). tauto. }
  rewrite Heq by done.
  set (g := t_NODE_MAP (start_topo ds u1)).
  assert (Hg : forall u, 1 <= u <= Z.of_nat (length ds) -> u ∈ links_of ds w -> NODE_MAP g w u <> 0).
  { intros u Hu Hin. by apply (start_topo_links ds Hnet u1 w u). }
  destruct (decide (u1 < u2)).
  - pose proof (remote_slot_lt g w u1 u2 ltac:(lia) (Hg u1 Hu1 (Hl _ _ _ Hu1 He1 Hq1))).
    unfold HEADER_QUEUE_METADATA_SIZE. lia.
  - pose proof (remote_slot_lt g w u2 u1 ltac:(lia) (Hg u2 Hu2 (Hl _ _ _ Hu2 He2 Hq2))).
    unfold HEADER_QUEUE_METADATA_SIZE. lia.
Qed.

Theorem remote_queue_exclusive_witness :
  (m2m_remote_hq_meta_start (demo_boot 4096 1).2).[Z.of_nat 0] - 4096 <>
  (m2m_remote_hq_meta_start (demo_boot 8192 3).2).[Z.of_nat 0] - 8192.
Proof.
  exact (remote_queue_exclusive demo_net 4096 8192 1 3 2 _ _ _ _
    (mk_node Coordinator 100 100 124 [2]) (mk_node EndDevice 150 100 0 [2])
    (mk_node Router 200 100 0 [1; 3]) 0 0 demo_net_ok ltac:(done) ltac:(done) ltac:(done)
    ltac:(done) (demo_boot_eq 4096 1 ltac:(done)) (demo_boot_eq 8192 3 ltac:(done))
    eq_refl eq_refl eq_refl ltac:(done) eq_refl eq_refl).
Defined.
