(* ===== verification/Timing.v ===== *)
(** * Time ([hw/m2m_time.c], [one_hop_latency] of [hw/m2m_route_processor.c])

    The clock cells of the segment, the start and exit protocol on them, the
    router's clock rule, and the latency model of one ZigBee hop (CSMA-CA and
    acknowledgement retries, driven by the C library's [rand]).

    [rand] is the stream [rnd : nat -> Z] of the values it returns, all
    non-negative; a function that draws takes the position in the stream and
    returns the next one. *)
From Stdlib Require Import Floats.SpecFloat.
From S2P Require Import Prelude Mem Config.

(** ** The clock a device with a CPU reads: [vpmu_estimated_execution_time_ns].
    The pipeline, I/O and memory part does not move while the emulated CPU sits
    in a network call; it is [cpu_ns]. *)

Record clock := mk_clock {
  cpu_ns : Z; netsend_qemu : Z; netrecv_qemu : Z; netsend_count : Z; netrecv_count : Z }.

Definition get_vpmu_time (c : clock) : Z := u64 (cpu_ns c + (netsend_qemu c + netrecv_qemu c)).

Definition add_netsend (x : Z) (c : clock) : clock :=
  mk_clock (cpu_ns c) (u64 (netsend_qemu c + x)) (netrecv_qemu c) (netsend_count c) (netrecv_count c).
Definition add_netrecv (x : Z) (c : clock) : clock :=
  mk_clock (cpu_ns c) (netsend_qemu c) (u64 (netrecv_qemu c + x)) (netsend_count c) (netrecv_count c).
Definition count_send (c : clock) : clock :=
  mk_clock (cpu_ns c) (netsend_qemu c) (netrecv_qemu c) (u64 (netsend_count c + 1)) (netrecv_count c).
Definition count_recv (c : clock) : clock :=
  mk_clock (cpu_ns c) (netsend_qemu c) (netrecv_qemu c) (netsend_count c) (u64 (netrecv_count c + 1)).

(** ** time_sync *)

(** The globals [m2m_route_processor_init] fills. *)
Record sync := mk_sync {
  neighbor_end : Z; end_count : Z; router_count : Z;
  neighbor_end_list : arr; neighbor_router_list : arr }.

(** One of the two loops: [warmup] and the running minimum. *)
Definition sync_scan (lt : arr) (m : mem) (nodes : arr) (n : Z) : Z * Z :=
  forZ 0 (Z.to_nat n)
    (fun '(warmup, tmp_time) ind =>
       let v := load64 m lt.[nodes.[ind]] in
       if v =? MAX_TIME then (1, tmp_time)
       else if v <? tmp_time then (warmup, v) else (warmup, tmp_time))
    (0, MAX_TIME).

Definition time_sync (v : VND) (sy : sync) (lt : arr) (m : mem) (c : clock) : Z :=
  if dev_is v ZR then
    let '(warmup, tmp_time) :=
      if neighbor_end sy =? 0 then sync_scan lt m (neighbor_router_list sy) (router_count sy)
      else sync_scan lt m (neighbor_end_list sy) (end_count sy) in
    if warmup =? 1 then 0 else tmp_time
  else get_vpmu_time c.

(** ** m2m_time_init: the writes before the wait, and the two waits *)

Definition time_init_write (v : VND) (lt : arr) (m : mem) : mem :=
  let m := if dev_is v ZC then
             forZ 1 (Z.to_nat (TotalDeviceNum v)) (fun m ind => store64 m lt.[ind] MAX_TIME) m
           else m in
  let m := store64 m lt.[DeviceID v] 0 in
  if dev_is v ZC then store64 m lt.[0] 0 else m.

(** One pass of the coordinator's [while(count < TotalDeviceNum - 1)] body over
    the segment as it is then: which devices were seen awake, and how many. *)
Definition probe_one (lt : arr) (m : mem) (s : arr * Z) (ind : Z) : arr * Z :=
  let '(start, count) := s in
  if start.[ind] =? 0 then
    if negb (load64 m lt.[ind] =? MAX_TIME) then (start.[ind <- 1], count + 1) else (start, count)
  else (start, count).
Definition probe_pass (n : Z) (lt : arr) (m : mem) (s : arr * Z) : arr * Z :=
  forZ 2 (Z.to_nat (n - 1)) (probe_one lt m) s.

(** The wait: the other processes change the segment between passes, so the
    loop runs over the list of the states it sees; [None] while it still waits.
    The result carries the state in which the loop was left. *)
Fixpoint coordinator_wait (n : Z) (lt : arr) (seen : list mem) (s : arr * Z) : option (arr * Z) :=
  if s.2 <? n - 1 then
    match seen with
    | [] => None
    | m :: seen' => coordinator_wait n lt seen' (probe_pass n lt m s)
    end
  else Some s.

(** A device's wait until the start signal is 1 *)
Fixpoint device_wait (lt : arr) (seen : list mem) : option (list mem) :=
  match seen with
  | [] => None
  | m :: seen' => if load64 m lt.[0] =? 1 then Some seen' else device_wait lt seen'
  end.

(** The end of [m2m_time_init] in the coordinator; [vpmu_trigger] becomes 77. *)
Definition time_init_go (lt : arr) (m : mem) : mem * Z := (store64 m lt.[0] 1, 77).

(** ** m2m_time_exit: [vpmu_trigger] becomes 0, the clock the largest time a
    running device can have. *)
Definition m2m_time_exit (v : VND) (lt : arr) (m : mem) : M2M_ERR_T * mem * Z :=
  (M2M_SUCCESS, store64 m lt.[DeviceID v] (u64 (-1 - 1)), 0).

(** ** RandomHit *)

Section Random.
Context (rnd : nat -> Z).

(** The [do ... while(flag != 1)] that marks one more cell of the box. *)
Fixpoint hit_fresh (fuel : nat) (k : nat) (hitbox : arr) : run (arr * nat) :=
  match fuel with
  | O => Spin
  | S fuel' =>
      let hitnum := rnd k mod Percentage in
      if hitbox.[hitnum] =? 1 then hit_fresh fuel' (S k) hitbox
      else Ret (hitbox.[hitnum <- 1], S k)
  end.

Definition set_hitbox (fuel : nat) (Percent : Z) (k : nat) : run (arr * nat) :=
  forMZ 0 (Z.to_nat Percent) (fun '(hitbox, k) _ => hit_fresh fuel k hitbox) (∅, k).

Definition RandomHit (fuel : nat) (Percent : Z) (k : nat) : run (Z * nat) :=
  '(hitbox, k) ← set_hitbox fuel Percent k;
  let guessnum := rnd k mod Percentage in
  Ret (if hitbox.[guessnum] =? 1 then 1 else 0, S k).

(** ** transmission_latency *)

(** The CSMA-CA loop: result, time so far, position.  [true] is success,
    [false] the access failure after [MaxCSMABackoffs] retries. *)
Fixpoint csma_loop (n fuel : nat) (csma_percent : Z) (BE NB_csma us : Z) (k : nat)
  : run (bool * Z * nat) :=
  match n with
  | O => Spin
  | S n' =>
      let tmpBE := 2 ^ BE in
      let Backofftime := rnd k mod tmpBE in
      let us := u64 (us + Backofftime * AUnitBackoffPeriod) in
      let us := u64 (us + CCADetectionTime) in
      '(csma_fail, k) ← RandomHit fuel csma_percent (S k);
      if csma_fail =? 1 then
        let BE := if BE <? maxBE then BE + 1 else BE in
        if NB_csma =? MaxCSMABackoffs then Ret (false, us, k)
        else csma_loop n' fuel csma_percent BE (NB_csma + 1) us k
      else Ret (true, us, k)
  end.

(** The acknowledgement loop around it. *)
Fixpoint ack_loop (n fuel : nat) (csma_percent tx_percent size NB_ack us : Z) (k : nat)
  : run (bool * Z * nat) :=
  match n with
  | O => Spin
  | S n' =>
      '(ok, us, k) ← csma_loop 5 fuel csma_percent minBE 0 us k;
      if (ok : bool) then
        let us := u64 (us + u32 (u32 (size + HEADERSIZE) * DataRate)) in
        let us := u64 (us + AckWaitDuration) in
        '(ack_fail, k) ← RandomHit fuel tx_percent k;
        if ack_fail =? 1 then
          if NB_ack =? MaxFrameRetries then Ret (false, us, k)
          else ack_loop n' fuel csma_percent tx_percent size (NB_ack + 1) us k
        else Ret (true, us, k)
      else Ret (false, us, k)
  end.

(** [(uint64_t)(us * 1000.0)]: both the conversion and the product are exact
    for the values that occur, [transmission_latency_exact]. *)
Definition us_to_ns (us : Z) : Z := us * 1000.

Record hop := mk_hop { latency : Z; fail_latency : option Z; hop_vnd : VND; hop_pos : nat }.

Definition count_hop (v : VND) : VND :=
  set_stats (TotalTransTimes v) (TotalTransSendEventTimes v) (TotalTransRecvEventTimes v)
    (TotalPacketLossTimes v) (TotalPacketTransTimes v + 1) v.
Definition count_loss (v : VND) : VND :=
  set_stats (TotalTransTimes v) (TotalTransSendEventTimes v) (TotalTransRecvEventTimes v)
    (TotalPacketLossTimes v + 1) (TotalPacketTransTimes v) v.

Definition transmission_latency_gen (fuel : nat) (csma_percent tx_percent : Z)
    (size : Z) (v : VND) (k : nat) : run hop :=
  let v := count_hop v in
  '(ok, us, k) ← ack_loop 4 fuel csma_percent tx_percent size 0 0 k;
  if (ok : bool) then Ret (mk_hop (us_to_ns us) None v k)
  else Ret (mk_hop 0 (Some (us_to_ns us)) (count_loss v) k).

(** [ChannelBusyRateCSMA * Percentage] and [ChannelBusyRateTx * Percentage]:
    both rates are 0.0 in m2m.h, and no cell is ever marked. *)
Definition ChannelBusyPercent : Z := 0.
Definition transmission_latency (size : Z) (v : VND) (k : nat) : run hop :=
  transmission_latency_gen 0 ChannelBusyPercent ChannelBusyPercent size v k.
End Random.

(** ** one_hop_latency, in double precision *)

Definition dadd := SFadd 53 1024.
Definition dsub := SFsub 53 1024.
Definition dmul := SFmul 53 1024.
Definition ddiv := SFdiv 53 1024.
Definition dZ (z : Z) : spec_float := binary_normalize 53 1024 z 0 false.

Definition d_one_hop (ChannelBusyRateCSMA : spec_float) : spec_float :=
  let Pinactive := ChannelBusyRateCSMA in
  let q := dsub (dZ 1) Pinactive in
  let Paccess_failure := dmul (dmul (dmul q q) q) q in
  let Paccess_granted := dsub (dZ 1) Paccess_failure in
  let T_CSMACA :=
    ddiv (dadd (dZ 1248) (dmul q (dadd (dZ 2528) (dmul q (dadd (dZ 5088) (dmul q (dZ 5088)))))))
         Paccess_granted in
  let T_Tx := dZ (133 * 8 / 4 * 16) in
  let T_Turnaround := dZ (12 * 16) in
  let T_Tx_ACK := dZ (11 * 8 / 4 * 16) in
  let T_IFS := dZ (40 * 16) in
  dmul (dadd (dadd (dadd (dadd T_CSMACA T_Tx) T_Turnaround) T_Tx_ACK) T_IFS) (dZ 1000).

(** Conversion to [uint64_t]: defined only for a finite value in range. *)
Definition to_uint64 (f : spec_float) : option Z :=
  match f with
  | S754_zero _ => Some 0
  | S754_finite false m e =>
      let z := if 0 <=? e then Z.pos m * 2 ^ e else Z.pos m / 2 ^ (- e) in
      if z <? 2 ^ 64 then Some z else None
  | S754_finite true m e =>
      if (if 0 <=? e then Z.pos m * 2 ^ e else Z.pos m / 2 ^ (- e)) =? 0 then Some 0 else None
  | _ => None
  end.

Definition one_hop_latency (ChannelBusyRateCSMA : spec_float) : option Z :=
  to_uint64 (d_one_hop ChannelBusyRateCSMA).

(** ** The random draws *)

(** The cells of the hit box that are marked. *)
Definition marked (hitbox : arr) : list Z := filter (fun c => hitbox.[c] = 1) (seqZ 0 Percentage).

(** A stream in which every residue comes within [fuel] draws, from anywhere. *)
Definition fair (rnd : nat -> Z) (fuel : nat) : Prop :=
  forall k c, 0 <= c < Percentage -> exists i, (i < fuel)%nat /\ rnd (k + i)%nat mod Percentage = c.

Section RandomProofs.
Context (rnd : nat -> Z).

Lemma hit_fresh_run fuel k box c :
  0 <= c < Percentage -> box.[c] <> 1 ->
  (exists i, (i < fuel)%nat /\ rnd (k + i)%nat mod Percentage = c) ->
  exists x k', hit_fresh rnd fuel k box = Ret (box.[x <- 1], k') /\
    0 <= x < Percentage /\ box.[x] <> 1.
Proof.
  intros Hc Hbox. revert k. induction fuel as [|fuel IH]; intros k (i & Hi & Hk); [lia|].
  simpl. destruct (Z.eqb_spec box.[rnd k mod Percentage] 1) as [E|E].
  - destruct i as [|i]; [rewrite Nat.add_0_r in Hk; by rewrite Hk in E|].
    apply IH. exists i. split; [lia|]. by replace (S k + i)%nat with (k + S i)%nat by lia.
  - do 2 eexists. split; [done|]. split; [by apply Z.mod_pos_bound|done].
Qed.

(** Fewer than 100 marked cells leave an unmarked one. *)
Lemma unmarked_cell box :
  (length (marked box) < Z.to_nat Percentage)%nat -> exists c, 0 <= c < Percentage /\ box.[c] <> 1.
Proof.
  intros H. destruct (filter (fun c => box.[c] <> 1) (seqZ 0 Percentage)) as [|c l] eqn:E.
  - exfalso. assert (Hall : marked box = seqZ 0 Percentage).
    { unfold marked. rewrite (filter_ext_in _ (fun _ => True)).
      - generalize (seqZ 0 Percentage) as l. induction l as [|x l IH]; [done|].
        rewrite filter_cons_True by done. by rewrite IH.
      - intros c Hc. split; [done|]. intros _. destruct (decide (box.[c] = 1)); [done|].
        exfalso. apply (not_elem_of_nil c). rewrite <- E. by apply list_elem_of_filter. }
    rewrite Hall, length_seqZ in H. lia.
  - exists c. assert (Hc : c ∈ c :: l) by (by left). rewrite <- E in Hc.
    apply list_elem_of_filter in Hc as [Hc1 Hc2]. apply elem_of_seqZ in Hc2. split; [lia|done].
Qed.

Lemma set_hitbox_run fuel Percent k :
  fair rnd fuel -> 0 <= Percent <= Percentage ->
  exists box k', set_hitbox rnd fuel Percent k = Ret (box, k') /\
    Z.of_nat (length (marked box)) = Percent.
Proof.
  intros Hf Hp. unfold set_hitbox.
  assert (H : forall n : nat, Z.of_nat n <= Percentage -> exists box k',
    forMZ 0 n (fun '(box, k) _ => hit_fresh rnd fuel k box) (∅, k) = Ret (box, k') /\
    length (marked box) = n).
  { induction n as [|n IH]; intros Hn; [by exists ∅, k|].
    rewrite forMZ_S. destruct (IH ltac:(lia)) as (box & k' & -> & Hl). simpl.
    destruct (unmarked_cell box) as (c & Hc & Hu); [lia|].
    destruct (hit_fresh_run fuel k' box c Hc Hu (Hf k' c Hc)) as (x & k'' & -> & Hx & Hux).
    do 2 eexists. split; [done|]. unfold marked.
    rewrite count_set; [by rewrite <- Hl|apply NoDup_seqZ|apply elem_of_seqZ; lia|done]. }
  destruct (H (Z.to_nat Percent)) as (box & k' & -> & Hl); [lia|].
  exists box, k'. split; [done|]. lia.
Qed.

Lemma RandomHit_run fuel Percent k :
  fair rnd fuel -> 0 <= Percent <= Percentage ->
  exists box k' r, RandomHit rnd fuel Percent k = Ret (r, S k') /\
    Z.of_nat (length (marked box)) = Percent /\
    (r = 0 \/ r = 1) /\ (r = 1 <-> rnd k' mod Percentage ∈ marked box).
Proof.
  intros Hf Hp. destruct (set_hitbox_run fuel Percent k Hf Hp) as (box & k' & E & Hl).
  unfold RandomHit. rewrite E. simpl. exists box, k'. eexists. split; [done|]. split; [done|].
  unfold marked. rewrite list_elem_of_filter, elem_of_seqZ.
  pose proof (Z.mod_pos_bound (rnd k') Percentage ltac:(done)).
  destruct (Z.eqb_spec box.[rnd k' mod Percentage] 1); split; auto; split; intros; try done; try lia.
Qed.

(** No cell is marked at rate 0. *)
Lemma RandomHit_0 fuel k : RandomHit rnd fuel 0 k = Ret (0, S k).
Proof. done. Qed.

(** ** The loops of a hop *)

(** [n - 1] retries are left and the backoff exponent is in its range. *)
Lemma csma_loop_run n fuel pc BE NB us k :
  fair rnd fuel -> 0 <= pc <= Percentage -> minBE <= BE <= maxBE ->
  Z.of_nat n = MaxCSMABackoffs - NB + 1 -> (0 < n)%nat ->
  0 <= us -> us + Z.of_nat n * 10048 < 2 ^ 64 ->
  exists ok us' k', csma_loop rnd n fuel pc BE NB us k = Ret (ok, us', k') /\
    us + CCADetectionTime <= us' <= us + Z.of_nat n * 10048.
Proof.
  intros Hf Hp. revert BE NB us k. induction n as [|n IH]; intros BE NB us k HBE Hn Hpos Hus Hb; [lia|].
  cbn [csma_loop].
  assert (Hbo : 0 <= rnd k mod 2 ^ BE <= 31).
  { assert (BE = 2 \/ BE = 3 \/ BE = 4 \/ BE = 5) by (unfold minBE, maxBE in HBE; lia).
    pose proof (Z.mod_pos_bound (rnd k) (2 ^ BE) ltac:(by apply Z.pow_pos_nonneg; lia)).
    destruct H as [->|[->|[-> | ->]]]; simpl in *; lia. }
  set (bo := rnd k mod 2 ^ BE) in *.
  assert (E : u64 (u64 (us + bo * AUnitBackoffPeriod) + CCADetectionTime) =
    us + bo * 320 + 128).
  { unfold AUnitBackoffPeriod, CCADetectionTime. rewrite u64_add_l. apply u64_small. lia. }
  rewrite E. clear E. unfold CCADetectionTime in *.
  destruct (RandomHit_run fuel pc (S k) Hf Hp) as (box & k' & r & -> & _). cbn [mbind run_bind].
  destruct (r =? 1); [|do 3 eexists; split; [done|]; lia].
  destruct (Z.eqb_spec NB MaxCSMABackoffs); [do 3 eexists; split; [done|]; lia|].
  assert (HBE' : minBE <= (if BE <? maxBE then BE + 1 else BE) <= maxBE).
  { unfold minBE, maxBE in *. destruct (Z.ltb_spec BE 5); lia. }
  edestruct (IH _ (NB + 1) (us + bo * 320 + 128) (S k') HBE') as (ok & us' & k'' & -> & Hr); [lia..|].
  do 3 eexists. split; [done|]. lia.
Qed.

Definition hop_bytes (size : Z) : Z := u32 (u32 (size + HEADERSIZE) * DataRate).

Lemma ack_loop_run n fuel pc pt size NB us k :
  fair rnd fuel -> 0 <= pc <= Percentage -> 0 <= pt <= Percentage ->
  Z.of_nat n = MaxFrameRetries - NB + 1 -> (0 < n)%nat ->
  0 <= us -> us + Z.of_nat n * (50240 + hop_bytes size + 864) < 2 ^ 64 ->
  exists ok us' k', ack_loop rnd n fuel pc pt size NB us k = Ret (ok, us', k') /\
    us + CCADetectionTime <= us' <= us + Z.of_nat n * (50240 + hop_bytes size + 864).
Proof.
  intros Hf Hpc Hpt. revert NB us k. induction n as [|n IH]; intros NB us k Hn Hpos Hus Hb; [lia|].
  cbn [ack_loop]. pose proof (u32_range (u32 (size + HEADERSIZE) * DataRate)) as Hr.
  fold (hop_bytes size) in Hr. unfold CCADetectionTime in *.
  destruct (csma_loop_run 5 fuel pc minBE 0 us k) as (ok & us1 & k1 & -> & Hc);
    try done; try lia. cbn [mbind run_bind]. unfold CCADetectionTime in Hc.
  destruct ok; [|do 3 eexists; split; [done|]; lia].
  assert (E : u64 (u64 (us1 + hop_bytes size) + AckWaitDuration) = us1 + hop_bytes size + 864).
  { unfold AckWaitDuration. rewrite u64_add_l. apply u64_small. lia. }
  fold (hop_bytes size). rewrite E. clear E.
  destruct (RandomHit_run fuel pt k1 Hf Hpt) as (box & k2 & r & -> & _). cbn [mbind run_bind].
  destruct (r =? 1); [|do 3 eexists; split; [done|]; lia].
  destruct (Z.eqb_spec NB MaxFrameRetries); [do 3 eexists; split; [done|]; lia|].
  edestruct (IH (NB + 1) (us1 + hop_bytes size + 864) (S k2)) as (ok & us' & k3 & -> & Hr'); [lia..|].
  do 3 eexists. split; [done|]. lia.
Qed.
End RandomProofs.

(** ** The clock rules *)

(** What one scan of neighbours computes. *)
Lemma sync_scan_spec lt m nodes n :
  0 <= n ->
  let '(warmup, t) := sync_scan lt m nodes n in
  let val i := load64 m lt.[nodes.[i]] in
  (warmup = 1 <-> exists i, 0 <= i < n /\ val i = MAX_TIME) /\
  (warmup = 0 \/ warmup = 1) /\
  (forall i, 0 <= i < n -> val i <> MAX_TIME -> t <= val i) /\
  (t = MAX_TIME \/ exists i, 0 <= i < n /\ val i = t).
Proof.
  intros Hn. unfold sync_scan. set (f := fun '(warmup, tmp_time) ind => _).
  pose (P := fun k (s : Z * Z) =>
    let val i := load64 m lt.[nodes.[i]] in
    (s.1 = 1 <-> exists i, 0 <= i < k /\ val i = MAX_TIME) /\ (s.1 = 0 \/ s.1 = 1) /\
    (forall i, 0 <= i < k -> val i <> MAX_TIME -> s.2 <= val i) /\
    (s.2 = MAX_TIME \/ exists i, 0 <= i < k /\ val i = s.2)).
  assert (HP : P (0 + Z.of_nat (Z.to_nat n)) (forZ 0 (Z.to_nat n) f (0, MAX_TIME))).
  { apply (forZ_ind P).
    - unfold P; simpl. split_and!; [|by left|intros; lia|by left].
      split; [lia|]. intros (i & Hi & _). lia.
    - intros i [w t] Hi (Hw & Hw01 & Hle & Hex). unfold P, f; simpl in *.
      set (val := fun i => load64 m lt.[nodes.[i]]) in *.
      change (load64 m lt.[nodes.[i]]) with (val i).
      destruct (Z.eqb_spec (val i) MAX_TIME) as [E|E]; [|destruct (Z.ltb_spec (val i) t)]; simpl.
      + split_and!; [|by right| |].
        * split; [|done]. intros _. exists i. split; [lia|done].
        * intros j Hj Hne. destruct (decide (j = i)) as [->|]; [done|]. apply Hle; [lia|done].
        * destruct Hex as [?|(j & Hj & Hv)]; [by left|]. right. exists j. split; [lia|done].
      + split_and!; [|done| |].
        * rewrite Hw. split; intros (j & Hj & Hv).
          -- exists j. split; [lia|done].
          -- destruct (decide (j = i)) as [->|]; [done|]. exists j. split; [lia|done].
        * intros j Hj Hne. destruct (decide (j = i)) as [->|]; [done|].
          specialize (Hle j ltac:(lia) Hne). lia.
        * right. exists i. split; [lia|done].
      + split_and!; [|done| |].
        * rewrite Hw. split; intros (j & Hj & Hv).
          -- exists j. split; [lia|done].
          -- destruct (decide (j = i)) as [->|]; [done|]. exists j. split; [lia|done].
        * intros j Hj Hne. destruct (decide (j = i)) as [->|]; [done|]. apply Hle; [lia|done].
        * destruct Hex as [?|(j & Hj & Hv)]; [by left|]. right. exists j. split; [lia|done]. }
  destruct (forZ 0 (Z.to_nat n) f (0, MAX_TIME)) as [w t].
  replace (0 + Z.of_nat (Z.to_nat n)) with n in HP by lia. exact HP.
Qed.

(** ** The start barrier *)

(** [start] marks only devices seen awake in one of the states, [count] counts
    the marks. *)
Definition barrier_inv (n : Z) (lt : arr) (past : list mem) (s : arr * Z) : Prop :=
  (forall i, 2 <= i <= n -> s.1.[i] = 0 \/ s.1.[i] = 1) /\
  (forall i, 2 <= i <= n -> s.1.[i] = 1 ->
     exists m, m ∈ past /\ load64 m lt.[i] <> MAX_TIME) /\
  s.2 = Z.of_nat (length (filter (fun i => s.1.[i] = 1) (seqZ 2 (n - 1)))).

Lemma probe_pass_inv n lt past m s :
  barrier_inv n lt past s -> barrier_inv n lt (past ++ [m]) (probe_pass n lt m s).
Proof.
  intros I. unfold probe_pass.
  assert (I0 : barrier_inv n lt (past ++ [m]) s).
  { destruct I as (H1 & H2 & H3). split_and!; [done| |done].
    intros i Hi E. destruct (H2 i Hi E) as (x & Hx & Hv). exists x. split; [|done].
    apply elem_of_app. by left. }
  clear I. apply (forZ_ind (fun _ s => barrier_inv n lt (past ++ [m]) s)); [done|].
  intros i [start count] Hi (H1 & H2 & H3). simpl in *. unfold probe_one.
  assert (Hin : 2 <= i <= n) by lia.
  destruct (Z.eqb_spec start.[i] 0) as [E|E]; [|by split_and!].
  destruct (Z.eqb_spec (load64 m lt.[i]) MAX_TIME) as [Em|Em]; simpl; [by split_and!|].
  split_and!; simpl.
  - intros j Hj. rewrite aget_aset. case_decide; [by right|]. by apply H1.
  - intros j Hj. rewrite aget_aset. case_decide; [subst|by apply H2].
    intros _. exists m. split; [|done]. apply elem_of_app. right. by left.
  - rewrite count_set; [lia|apply NoDup_seqZ|apply elem_of_seqZ; lia|lia].
Qed.

Lemma coordinator_wait_inv n lt seen past s s' :
  barrier_inv n lt past s -> coordinator_wait n lt seen s = Some s' ->
  exists k, barrier_inv n lt (past ++ take k seen) s' /\ n - 1 <= s'.2.
Proof.
  revert past s. induction seen as [|m seen IH]; intros past s I; simpl;
    destruct (Z.ltb_spec s.2 (n - 1)); try done.
  - intros [= <-]. exists 0%nat. by rewrite app_nil_r.
  - intros H1. destruct (IH (past ++ [m]) _ (probe_pass_inv _ _ _ m _ I) H1) as (k & Hk & Hc).
    exists (S k). rewrite <- app_assoc in Hk. done.
  - intros [= <-]. exists 0%nat. simpl. by rewrite app_nil_r.
Qed.

(** A list whose filter is as long as itself is kept whole. *)
Lemma filter_full (P : Z -> Prop) `{!forall x, Decision (P x)} (l : list Z) :
  length (filter P l) = length l -> forall x, x ∈ l -> P x.
Proof.
  induction l as [|y l IH]; intros Hl x Hx; [by apply not_elem_of_nil in Hx|].
  pose proof (length_filter P l). destruct (decide (P y)) as [Hy|Hy].
  - rewrite filter_cons_True in Hl by done. simpl in Hl.
    apply elem_of_cons in Hx as [->|Hx]; [done|]. apply IH; [lia|done].
  - rewrite filter_cons_False in Hl by done. simpl in Hl. lia.
Qed.

(** A hop in the shipped configuration. *)
Lemma transmission_latency_eq rnd size v k :
  0 <= size <= HEADER_QUEUE_ENTRY_SIZE ->
  transmission_latency rnd size v k =
  Ret (mk_hop (1000 * (320 * (rnd k mod 4) + 128 + 32 * (size + 43) + 864)) None
         (count_hop v) (S (S (S k)))).
Proof.
  unfold HEADER_QUEUE_ENTRY_SIZE. intros Hs.
  unfold transmission_latency, transmission_latency_gen, ChannelBusyPercent.
  cbn [ack_loop csma_loop]. rewrite !RandomHit_0. cbn [mbind run_bind Z.eqb].
  rewrite !RandomHit_0. cbn [mbind run_bind Z.eqb]. change (2 ^ minBE) with 4.
  pose proof (Z.mod_pos_bound (rnd k) 4 ltac:(lia)).
  unfold AUnitBackoffPeriod, CCADetectionTime, HEADERSIZE, DataRate, AckWaitDuration, us_to_ns.
  rewrite (u32_small (size + 43)) by lia. rewrite (u32_small ((size + 43) * 32)) by lia.
  rewrite Z.add_0_l, (u64_small (rnd k mod 4 * 320)) by lia.
  rewrite (u64_small (rnd k mod 4 * 320 + 128)) by lia.
  rewrite (u64_small (rnd k mod 4 * 320 + 128 + (size + 43) * 32)) by lia.
  rewrite u64_small by lia. f_equal. f_equal. lia.
Qed.

(** ** The properties *)

(** [RandomHit(Percent)] hits with probability [Percent]/100 of a uniform
    draw: it ends on every fair stream, marks exactly [Percent] of the 100
    cells, and answers 1 exactly when the last draw is one of them. *)
Theorem RandomHit_exact rnd fuel Percent k :
  fair rnd fuel -> 0 <= Percent <= Percentage ->
  exists box k' r, RandomHit rnd fuel Percent k = Ret (r, S k') /\
    Z.of_nat (length (marked box)) = Percent /\
    (r = 0 \/ r = 1) /\ (r = 1 <-> rnd k' mod Percentage ∈ marked box).
Proof. apply RandomHit_run. Qed.

(** The stream 0, 1, 2, ... *)
Lemma fair_count : fair Z.of_nat 100.
Proof.
  intros k c Hc. unfold Percentage in *.
  pose proof (Z.mod_pos_bound (c - Z.of_nat k) 100 ltac:(lia)).
  exists (Z.to_nat ((c - Z.of_nat k) mod 100)). split; [lia|].
  rewrite Nat2Z.inj_add, Z2Nat.id by lia.
  rewrite Zplus_mod_idemp_r. replace (Z.of_nat k + (c - Z.of_nat k)) with c by lia.
  by apply Z.mod_small.
Qed.

Theorem RandomHit_exact_witness :
  exists box k' r, RandomHit Z.of_nat 100 30 0 = Ret (r, S k') /\
    Z.of_nat (length (marked box)) = 30 /\
    (r = 0 \/ r = 1) /\ (r = 1 <-> Z.of_nat k' mod Percentage ∈ marked box).
Proof. exact (RandomHit_exact Z.of_nat 100 30 0 fair_count ltac:(done)). Defined.

(** C23: A hop always ends: for any busy rates and any fair stream the CSMA loop
    leaves within five rounds and the acknowledgement loop within four; the
    result is a positive latency, or 0 with [fail_latency] set and one loss
    counted; and every time is small enough for the [double] product with
    1000.0 to be exact. *)
Theorem transmission_latency_exact rnd fuel pc pt size v k :
  fair rnd fuel -> 0 <= pc <= Percentage -> 0 <= pt <= Percentage ->
  exists h, transmission_latency_gen rnd fuel pc pt size v k = Ret h /\
    match fail_latency h with
    | None => 0 < latency h < 2 ^ 53 /\ hop_vnd h = count_hop v
    | Some f => latency h = 0 /\ 0 < f < 2 ^ 53 /\ hop_vnd h = count_loss (count_hop v)
    end.
Proof.
  intros Hf Hpc Hpt. unfold transmission_latency_gen.
  pose proof (u32_range (u32 (size + HEADERSIZE) * DataRate)) as Hr. fold (hop_bytes size) in Hr.
  destruct (ack_loop_run rnd 4 fuel pc pt size 0 0 k) as (ok & us & k' & -> & Hus);
    try done; try lia. cbn [mbind run_bind]. unfold CCADetectionTime in Hus.
  destruct ok; eexists; (split; [done|]); simpl; unfold us_to_ns; split_and!; done || lia.
Qed.

Theorem transmission_latency_exact_witness :
  exists h, transmission_latency_gen Z.of_nat 100 30 20 84 (mk_VND 1 ∅ 2 ∅ ∅ 1 0 0 0 0 0 0) 0 = Ret h /\
    match fail_latency h with
    | None => 0 < latency h < 2 ^ 53 /\ hop_vnd h = count_hop (mk_VND 1 ∅ 2 ∅ ∅ 1 0 0 0 0 0 0)
    | Some f => latency h = 0 /\ 0 < f < 2 ^ 53 /\
                hop_vnd h = count_loss (count_hop (mk_VND 1 ∅ 2 ∅ ∅ 1 0 0 0 0 0 0))
    end.
Proof.
  exact (transmission_latency_exact Z.of_nat 100 30 20 84 (mk_VND 1 ∅ 2 ∅ ∅ 1 0 0 0 0 0 0) 0
    fair_count ltac:(done) ltac:(done)).
Defined.

(** As shipped (both busy rates 0.0) a hop never fails: it draws three
    numbers, counts one transmission and no loss, and the latency of a message
    of [size] bytes is the fixed cost of [size] (channel assessment, 32 us per
    byte of message and header, acknowledgement wait) plus 0 to 3 backoff
    periods of 320 us. *)
Theorem transmission_latency_value rnd size v k :
  0 <= size <= HEADER_QUEUE_ENTRY_SIZE ->
  exists h b, transmission_latency rnd size v k = Ret h /\ fail_latency h = None /\
    hop_vnd h = count_hop v /\ hop_pos h = S (S (S k)) /\ 0 <= b <= 3 /\
    latency h = 1000 * (CCADetectionTime + DataRate * (size + HEADERSIZE) + AckWaitDuration) +
                1000 * AUnitBackoffPeriod * b.
Proof.
  intros Hs. eexists _, (rnd k mod 4). split; [by apply transmission_latency_eq|]. simpl.
  pose proof (Z.mod_pos_bound (rnd k) 4 ltac:(lia)).
  unfold CCADetectionTime, DataRate, HEADERSIZE, AckWaitDuration, AUnitBackoffPeriod.
  split_and!; done || lia.
Qed.

Theorem transmission_latency_value_witness :
  exists h b, transmission_latency (fun _ => 7) 128 (mk_VND 1 ∅ 2 ∅ ∅ 1 0 0 0 0 0 0) 0 = Ret h /\
    fail_latency h = None /\ hop_vnd h = count_hop (mk_VND 1 ∅ 2 ∅ ∅ 1 0 0 0 0 0 0) /\
    hop_pos h = 3%nat /\ 0 <= b <= 3 /\
    latency h = 1000 * (CCADetectionTime + DataRate * (128 + HEADERSIZE) + AckWaitDuration) +
                1000 * AUnitBackoffPeriod * b.
Proof.
  exact (transmission_latency_value (fun _ => 7) 128 (mk_VND 1 ∅ 2 ∅ ∅ 1 0 0 0 0 0 0) 0 ltac:(done)).
Defined.

(** The look-ahead of the routers has no value: with the shipped
    [ChannelBusyRateCSMA] of 0.0, [one_hop_latency("zigbee")] divides by an
    access probability of 0, so the sum is infinite and its conversion to
    [uint64_t] undefined; any rate of 1/2 gives the intended 10.15 ms. *)
Theorem one_hop_latency_undefined :
  one_hop_latency (S754_zero false) = None /\ d_one_hop (S754_zero false) = S754_infinity false /\
  one_hop_latency (ddiv (dZ 1) (dZ 2)) = Some 10154666.
Proof. split_and!; vm_compute; reflexivity. Qed.

(** A router's clock: [time_sync] returns 0 while a device it follows has
    not warmed up, and otherwise the smallest of their clocks ([MAX_TIME] when
    it follows none); it follows its end devices if it has any, else its
    neighbouring routers. *)
Theorem time_sync_router v sy lt m c :
  dev_is v ZR = true -> 0 <= end_count sy -> 0 <= router_count sy ->
  let nodes := if neighbor_end sy =? 0 then neighbor_router_list sy else neighbor_end_list sy in
  let n := if neighbor_end sy =? 0 then router_count sy else end_count sy in
  let val i := load64 m lt.[nodes.[i]] in
  let t := time_sync v sy lt m c in
  ((exists i, 0 <= i < n /\ val i = MAX_TIME) -> t = 0) /\
  ((forall i, 0 <= i < n -> val i <> MAX_TIME) ->
   (forall i, 0 <= i < n -> t <= val i) /\ (t = MAX_TIME \/ exists i, 0 <= i < n /\ val i = t)).
Proof.
  intros Hv He Hr nodes n val t.
  assert (Hn : 0 <= n) by (unfold n; destruct (neighbor_end sy =? 0); lia).
  assert (Et : t = let '(warmup, x) := sync_scan lt m nodes n in if warmup =? 1 then 0 else x).
  { unfold t, time_sync, nodes, n. rewrite Hv. by destruct (neighbor_end sy =? 0). }
  pose proof (sync_scan_spec lt m nodes n Hn) as Hs.
  destruct (sync_scan lt m nodes n) as [w x]. cbv zeta in Hs.
  destruct Hs as (Hw & Hw01 & Hle & Hex). rewrite Et. split.
  - intros H. apply Hw in H. by subst.
  - intros H. destruct (Z.eqb_spec w 1) as [->|].
    + destruct (proj1 Hw eq_refl) as (i & Hi & Hv'). by destruct (H i Hi).
    + split; [|done]. intros i Hi. apply Hle; [done|]. by apply H.
Qed.

Theorem time_sync_router_witness :
  let v := mk_VND 2 (∅ : arr).[0 <- 90].[1 <- 82] 3 ∅ ∅ 2 0 0 0 0 0 0 in
  let sy := mk_sync 1 1 0 (∅ : arr).[0 <- 3] ∅ in
  let lt := (∅ : arr).[3 <- 24] in
  let m := store64 ∅ 24 777 in
  time_sync v sy lt m (mk_clock 0 0 0 0 0) = 777 /\
  ((exists i, 0 <= i < 1 /\ load64 m lt.[(∅ : arr).[0 <- 3].[i]] = MAX_TIME) ->
   time_sync v sy lt m (mk_clock 0 0 0 0 0) = 0).
Proof.
  split; [vm_compute; done|].
  exact (proj1 (time_sync_router (mk_VND 2 (∅ : arr).[0 <- 90].[1 <- 82] 3 ∅ ∅ 2 0 0 0 0 0 0)
    (mk_sync 1 1 0 (∅ : arr).[0 <- 3] ∅) (∅ : arr).[3 <- 24] (store64 ∅ 24 777)
    (mk_clock 0 0 0 0 0) eq_refl ltac:(done) ltac:(done))).
Defined.

(** The start barrier: the coordinator leaves its wait only after every
    other device was seen with a clock other than [MAX_TIME], which it had
    written into all of them. *)
Theorem coordinator_barrier n lt seen s' :
  2 <= n -> coordinator_wait n lt seen (∅, 0) = Some s' ->
  forall i, 2 <= i <= n -> exists m, m ∈ seen /\ load64 m lt.[i] <> MAX_TIME.
Proof.
  intros Hn H. assert (I0 : barrier_inv n lt [] (∅, 0)).
  { split_and!; simpl; [by left|done|]. generalize (seqZ 2 (n - 1)) as l.
    induction l as [|x l IH]; [done|]. by rewrite filter_cons_False. }
  destruct (coordinator_wait_inv n lt seen [] (∅, 0) s' I0 H) as (k & (H1 & H2 & H3) & Hc).
  simpl in H2. intros i Hi.
  assert (Hall : forall x, x ∈ seqZ 2 (n - 1) -> s'.1.[x] = 1).
  { apply (filter_full (fun x => s'.1.[x] = 1)). pose proof (length_filter (fun i => s'.1.[i] = 1) (seqZ 2 (n - 1))) as Hl.
    rewrite length_seqZ in *. lia. }
  destruct (H2 i Hi) as (m & Hm & Hv); [apply Hall, elem_of_seqZ; lia|].
  exists m. split; [|done]. apply elem_of_take in Hm as (j & Hj & _). by eapply list_elem_of_lookup_2.
Qed.

Theorem coordinator_barrier_witness :
  exists m, m ∈ [store64 ∅ 16 5] /\ load64 m (∅ : arr).[2 <- 16].[2] <> MAX_TIME.
Proof.
  exact (coordinator_barrier 2 (∅ : arr).[2 <- 16] [store64 ∅ 16 5] ((∅ : arr).[2 <- 1], 1)
    ltac:(done) ltac:(vm_compute; reflexivity) 2 ltac:(done)).
Defined.
