(* ===== verification/HeaderQueue.v ===== *)
(** * The header queue, one producer and one consumer

    A queue is a ring of four 128-byte entries and two indices in the segment.
    A message takes two entries, the 40-byte header and its payload.  The
    producer is [m2m_post_remote_msg] or a routing thread, the consumer
    [m2m_get_local_msg] or a routing thread; they run in different processes
    and synchronise by nothing but the two indices.

    The operations are the accesses of the code, one definition per group of
    statements between two waits.  The step relation interleaves them freely.
    Two things make the protocol delicate.  The consumer reads the header once
    more after it has released the entry (m2m_send_recv.c takes the arrival time
    after the update of [consumer]; the routing thread reads [SenderID] and
    [ReceiverID] then).  And the producer copies a header after the test of
    [producer + 1], which never finds the queue full because both indices are
    even; only the test of [producer + 2] does.  A producer that begins a new
    message only when the queue is empty (a sender, which waits for its control
    flag) therefore delivers every message intact; an [eager] one (a routing
    thread with several packets for one node) delivers every payload intact but
    can overwrite a header under the consumer's last read. *)
From S2P Require Import Prelude Mem Config.

(** ** The queue's place in the segment *)

Class HQueue := {
  hq_meta : Z;
  hq_entry : Z -> Z;   (* entry address by index *)
}.

(** The entries and the metadata do not overlap. *)
Class HQueueLayout `{HQueue} : Prop := {
  hq_entries_apart : forall e e', 0 <= e < 4 -> 0 <= e' < 4 -> e <> e' ->
    hq_entry e + 128 <= hq_entry e' \/ hq_entry e' + 128 <= hq_entry e;
  hq_meta_apart : forall e, 0 <= e < 4 ->
    hq_entry e + 128 <= hq_meta \/ hq_meta + 32 <= hq_entry e;
}.

Section Ops.
Context `{Q : HQueue}.

Definition producer (m : mem) : Z := load32 m (hq_meta + off_producer).
Definition consumer (m : mem) : Z := load32 m (hq_meta + off_consumer).

(** [while(((producer + k) % HEADER_QUEUE_ENTRY_NUM) == consumer){}] lets the
    producer through. *)
Definition hq_room (k : Z) (m : mem) : bool :=
  negb (u32 (producer m + k) mod HEADER_QUEUE_ENTRY_NUM =? consumer m).

Definition hq_nonempty (m : mem) : bool := negb (producer m =? consumer m).

(** [memcpy(entry[producer], header, 40)] *)
Definition put_header (h : m2m_HQe) (m : mem) : mem :=
  write_HQe m (hq_entry (producer m)) h.

(** [memcpy(entry[(producer + 1) % 4], data, size)] *)
Definition put_data (data : list Z) (m : mem) : mem :=
  store_bytes m (hq_entry (u32 (producer m + 1) mod HEADER_QUEUE_ENTRY_NUM)) data.

(** [producer = (producer + 2) % 4] *)
Definition publish (m : mem) : mem :=
  store32 m (hq_meta + off_producer) (u32 (producer m + 2) mod HEADER_QUEUE_ENTRY_NUM).

(** The header at the consumer's index, and the payload behind it. *)
Definition head_header (m : mem) : m2m_HQe := read_HQe m (hq_entry (consumer m)).
Definition head_data (m : mem) : list Z :=
  load_bytes (Z.to_nat (PacketSize (head_header m))) m
    (hq_entry (u32 (consumer m + 1) mod HEADER_QUEUE_ENTRY_NUM)).

(** [consumer = (consumer + 2) % 4] *)
Definition release (m : mem) : mem :=
  store32 m (hq_meta + off_consumer) (u32 (consumer m + 2) mod HEADER_QUEUE_ENTRY_NUM).

(** ** The two processes *)

Definition msg : Type := m2m_HQe * list Z.

(** A message the small scheme sends. *)
Definition msg_ok (x : msg) : Prop :=
  HQe_ok x.1 /\ bytes_ok x.2 /\ PacketSize x.1 = Z.of_nat (length x.2) /\
  Z.of_nat (length x.2) <= HEADER_QUEUE_ENTRY_SIZE.

Inductive producer_pc :=
| PIdle
| PHeader (x : msg)     (* header copied *)
| PData (x : msg).      (* payload copied, not yet published *)

Inductive consumer_pc :=
| CIdle
| CReady                          (* the queue was seen non-empty *)
| CCopied (data : list Z)         (* payload copied out *)
| CReleased (e : Z) (data : list Z).  (* consumer advanced; header pointer kept *)

Record sys := mk_sys {
  s_mem : mem; s_prod : producer_pc; s_cons : consumer_pc;
  sent : list msg; received : list msg }.

Inductive step (eager : bool) : sys -> sys -> Prop :=
| step_put_header m c snt rcv x :
    msg_ok x -> hq_room 1 m = true -> eager = true \/ hq_room 2 m = true ->
    step eager (mk_sys m PIdle c snt rcv) (mk_sys (put_header x.1 m) (PHeader x) c snt rcv)
| step_put_data m c snt rcv x :
    hq_room 2 m = true ->
    step eager (mk_sys m (PHeader x) c snt rcv) (mk_sys (put_data x.2 m) (PData x) c snt rcv)
| step_publish m c snt rcv x :
    step eager (mk_sys m (PData x) c snt rcv) (mk_sys (publish m) PIdle c (snt ++ [x]) rcv)
| step_ready m p snt rcv :
    hq_nonempty m = true ->
    step eager (mk_sys m p CIdle snt rcv) (mk_sys m p CReady snt rcv)
| step_copy m p snt rcv :
    step eager (mk_sys m p CReady snt rcv) (mk_sys m p (CCopied (head_data m)) snt rcv)
| step_release m p snt rcv data :
    step eager (mk_sys m p (CCopied data) snt rcv)
         (mk_sys (release m) p (CReleased (consumer m) data) snt rcv)
| step_finish m p snt rcv e data :
    step eager (mk_sys m p (CReleased e data) snt rcv)
         (mk_sys m p CIdle snt (rcv ++ [(read_HQe m (hq_entry e), data)])).

(** The queue as [m2m_send_recv_init] leaves it. *)
Definition hq_init (m : mem) : mem :=
  store32 (store32 m (hq_meta + off_producer) 0) (hq_meta + off_consumer) 0.

Inductive reachable (eager : bool) (m0 : mem) : sys -> Prop :=
| reach_init : reachable eager m0 (mk_sys (hq_init m0) PIdle CIdle [] [])
| reach_step s s' : reachable eager m0 s -> step eager s s' -> reachable eager m0 s'.
End Ops.
Arguments step {Q} _ _ _.
Arguments reachable {Q} _ _ _.

(** ** Reads over writes *)

Section Laws.
Context `{L : HQueueLayout}.

Lemma producer_entry m e l :
  0 <= e < 4 -> Z.of_nat (length l) <= 128 -> producer (store_bytes m (hq_entry e) l) = producer m.
Proof.
  intros He Hl. unfold producer, load32, off_producer. apply load_store_bytes_disj.
  pose proof (hq_meta_apart e He). lia.
Qed.

Lemma consumer_entry m e l :
  0 <= e < 4 -> Z.of_nat (length l) <= 128 -> consumer (store_bytes m (hq_entry e) l) = consumer m.
Proof.
  intros He Hl. unfold consumer, load32, off_consumer. apply load_store_bytes_disj.
  pose proof (hq_meta_apart e He). lia.
Qed.

Lemma producer_header m e h : 0 <= e < 4 -> producer (write_HQe m (hq_entry e) h) = producer m.
Proof.
  intros He. unfold producer, load32, off_producer. apply load_ext. intros i Hi.
  apply write_HQe_out. pose proof (hq_meta_apart e He). lia.
Qed.

Lemma consumer_header m e h : 0 <= e < 4 -> consumer (write_HQe m (hq_entry e) h) = consumer m.
Proof.
  intros He. unfold consumer, load32, off_consumer. apply load_ext. intros i Hi.
  apply write_HQe_out. pose proof (hq_meta_apart e He). lia.
Qed.

Lemma producer_publish m : producer (publish m) = u32 (producer m + 2) mod 4.
Proof.
  unfold producer at 1, publish. rewrite load32_store32. apply u32_small.
  pose proof (Z.mod_pos_bound (u32 (producer m + 2)) HEADER_QUEUE_ENTRY_NUM ltac:(done)).
  unfold HEADER_QUEUE_ENTRY_NUM in *. lia.
Qed.

Lemma consumer_publish m : consumer (publish m) = consumer m.
Proof. unfold consumer, publish, load32, store32, off_producer, off_consumer. apply load_store_disj. lia. Qed.

Lemma consumer_release m : consumer (release m) = u32 (consumer m + 2) mod 4.
Proof.
  unfold consumer at 1, release. rewrite load32_store32. apply u32_small.
  pose proof (Z.mod_pos_bound (u32 (consumer m + 2)) HEADER_QUEUE_ENTRY_NUM ltac:(done)).
  unfold HEADER_QUEUE_ENTRY_NUM in *. lia.
Qed.

Lemma producer_release m : producer (release m) = producer m.
Proof. unfold producer, release, load32, store32, off_producer, off_consumer. apply load_store_disj. lia. Qed.

(** A message stored in entries [e] and [e + 1]. *)
Definition holds_msg (m : mem) (e : Z) (x : msg) : Prop :=
  read_HQe m (hq_entry e) = x.1 /\
  load_bytes (length x.2) m (hq_entry (u32 (e + 1) mod 4)) = x.2.

(** Writing the index words does not disturb the entries. *)
Lemma holds_msg_index m e x a v :
  0 <= e < 4 -> Z.of_nat (length x.2) <= 128 -> hq_meta <= a -> a + 4 <= hq_meta + 32 ->
  holds_msg m e x -> holds_msg (store32 m a v) e x.
Proof.
  intros He Hl Ha1 Ha2 [H1 H2].
  pose proof (Z.mod_pos_bound (u32 (e + 1)) 4 ltac:(done)) as Hm. split.
  - rewrite <- H1. apply read_HQe_ext. intros i Hi. unfold store32. apply store_out.
    pose proof (hq_meta_apart e He). lia.
  - rewrite <- H2 at 2. unfold store32. apply load_bytes_store_disj.
    pose proof (hq_meta_apart _ Hm). lia.
Qed.

(** A write inside an entry that is neither of the two. *)
Lemma holds_msg_frame m m' e e' x :
  0 <= e < 4 -> 0 <= e' < 4 -> e' <> e -> e' <> u32 (e + 1) mod 4 ->
  Z.of_nat (length x.2) <= 128 ->
  (forall i, ~ (hq_entry e' <= i < hq_entry e' + 128) -> m'.[i] = m.[i]) ->
  holds_msg m e x -> holds_msg m' e x.
Proof.
  intros He He' Hn1 Hn2 Hl Hout [H1 H2].
  pose proof (Z.mod_pos_bound (u32 (e + 1)) 4 ltac:(done)) as Hm. split.
  - rewrite <- H1. apply read_HQe_ext. intros i Hi. apply Hout.
    pose proof (hq_entries_apart e e' He He' ltac:(done)). lia.
  - rewrite <- H2 at 2. apply load_bytes_ext. intros i Hi. apply Hout.
    pose proof (hq_entries_apart (u32 (e + 1) mod 4) e' Hm He' ltac:(done)). lia.
Qed.

Lemma header_frame m m' e e' :
  0 <= e < 4 -> 0 <= e' < 4 -> e' <> e ->
  (forall i, ~ (hq_entry e' <= i < hq_entry e' + 128) -> m'.[i] = m.[i]) ->
  read_HQe m' (hq_entry e) = read_HQe m (hq_entry e).
Proof.
  intros He He' Hn Hout. apply read_HQe_ext. intros i Hi. apply Hout.
  pose proof (hq_entries_apart e e' He He' ltac:(done)). lia.
Qed.

Lemma header_index m e a v :
  0 <= e < 4 -> hq_meta <= a -> a + 4 <= hq_meta + 32 ->
  read_HQe (store32 m a v) (hq_entry e) = read_HQe m (hq_entry e).
Proof.
  intros He Ha1 Ha2. apply read_HQe_ext. intros i Hi. unfold store32. apply store_out.
  pose proof (hq_meta_apart e He). lia.
Qed.

(** ** Indices: always 0 or 2 *)

Definition even_ix (i : Z) : Prop := i = 0 \/ i = 2.

Lemma even_ix_next i : even_ix i -> u32 (i + 1) mod 4 = i + 1 /\ u32 (i + 2) mod 4 = 2 - i.
Proof. intros [-> | ->]; done. Qed.

(** The test of [producer + 1] never blocks; that of [producer + 2] blocks
    exactly when a message is pending. *)
Lemma hq_room_even m :
  even_ix (producer m) -> even_ix (consumer m) ->
  hq_room 1 m = true /\ (hq_room 2 m = true <-> producer m = consumer m).
Proof.
  intros Hp Hc. unfold hq_room. destruct (even_ix_next _ Hp) as [E1 E2].
  unfold HEADER_QUEUE_ENTRY_NUM. rewrite E1, E2. split.
  - destruct (Z.eqb_spec (producer m + 1) (consumer m)); [|done].
    unfold even_ix in *. lia.
  - destruct (Z.eqb_spec (2 - producer m) (consumer m)); simpl; split; try done;
      unfold even_ix in *; lia.
Qed.

Lemma hq_nonempty_iff m : hq_nonempty m = true <-> producer m <> consumer m.
Proof. unfold hq_nonempty. destruct (Z.eqb_spec (producer m) (consumer m)); simpl; split; done. Qed.

(** ** The invariant *)

(** What was received agrees with what was sent: the payload always, the header
    if the producer is not eager. *)
Definition same (eager : bool) (y x : msg) : Prop := y.2 = x.2 /\ (eager = false -> y.1 = x.1).

(** The message published and not yet released. *)
Definition pending (m : mem) (pend : list msg) : Prop :=
  (producer m = consumer m /\ pend = []) \/
  (producer m <> consumer m /\ exists y, pend = [y] /\ msg_ok y /\ holds_msg m (consumer m) y).

Definition prod_inv (eager : bool) (m : mem) (p : producer_pc) : Prop :=
  match p with
  | PIdle => True
  | PHeader x => msg_ok x /\ read_HQe m (hq_entry (producer m)) = x.1 /\
                 (eager = false -> producer m = consumer m)
  | PData x => msg_ok x /\ holds_msg m (producer m) x /\ producer m = consumer m
  end.

Definition cons_inv (eager : bool) (m : mem) (c : consumer_pc) (snt done pend : list msg) : Prop :=
  match c with
  | CIdle => snt = done ++ pend
  | CReady => snt = done ++ pend /\ pend <> []
  | CCopied data => exists y, pend = [y] /\ data = y.2 /\ snt = done ++ pend
  | CReleased e data =>
      e = 2 - consumer m /\
      exists x, data = x.2 /\ snt = done ++ x :: pend /\
        (eager = false -> read_HQe m (hq_entry e) = x.1)
  end.

Definition inv (eager : bool) (s : sys) : Prop :=
  even_ix (producer (s_mem s)) /\ even_ix (consumer (s_mem s)) /\
  prod_inv eager (s_mem s) (s_prod s) /\
  exists done pend, Forall2 (same eager) (received s) done /\ pending (s_mem s) pend /\
    cons_inv eager (s_mem s) (s_cons s) (sent s) done pend.

(** ** Every step keeps it *)

Lemma even_range i : even_ix i -> 0 <= i < 4.
Proof. unfold even_ix. lia. Qed.

Lemma inv_put_header eager m c snt rcv x :
  msg_ok x -> eager = true \/ hq_room 2 m = true ->
  inv eager (mk_sys m PIdle c snt rcv) ->
  inv eager (mk_sys (put_header x.1 m) (PHeader x) c snt rcv).
Proof.
  intros Hx Hg (Hp & Hc & _ & dn & pend & Hrcv & Hpend & Hcons). simpl in *.
  pose proof (even_range _ Hp) as Hp4. pose proof (even_range _ Hc) as Hc4.
  assert (Ep : producer (put_header x.1 m) = producer m) by (by apply producer_header).
  assert (Ec : consumer (put_header x.1 m) = consumer m) by (by apply consumer_header).
  assert (Hout : forall i, ~ (hq_entry (producer m) <= i < hq_entry (producer m) + 128) ->
    (put_header x.1 m).[i] = m.[i]) by (intros i Hi; apply write_HQe_out; lia).
  assert (Hne : eager = false -> producer m = consumer m).
  { intros ->. destruct Hg as [?|Hg]; [done|]. by apply (hq_room_even m Hp Hc). }
  unfold inv; simpl. rewrite Ep, Ec. split; [done|]. split; [done|]. split.
  - split; [done|]. rewrite ?Ep, ?Ec. split; [|done]. apply read_write_HQe. apply Hx.
  - exists dn, pend. split_and!; [done| |].
    + unfold pending in *. rewrite Ep, Ec. destruct Hpend as [?|(Hpc & y & -> & Hy & Hh)]; [by left|].
      right. split; [done|]. exists y. split_and!; [done|done|].
      destruct (even_ix_next _ Hc) as [En _].
      eapply (holds_msg_frame m _ (consumer m) (producer m)); try done.
      * rewrite En. unfold even_ix in *. lia.
      * apply Hy.
    + destruct c as [| | |e data]; simpl in *; try done. rewrite Ec.
      destruct Hcons as (-> & y & Hd & Hs & Hr). split; [done|]. exists y. split_and!; [done|done|].
      intros Hf. rewrite <- (Hr Hf). apply (header_frame m _ _ (producer m)); try done;
        specialize (Hne Hf); unfold even_ix in *; lia.
Qed.

Lemma inv_put_data eager m c snt rcv x :
  hq_room 2 m = true -> inv eager (mk_sys m (PHeader x) c snt rcv) ->
  inv eager (mk_sys (put_data x.2 m) (PData x) c snt rcv).
Proof.
  intros Hroom (Hp & Hc & (Hx & Hhd & _) & dn & pend & Hrcv & Hpend & Hcons). simpl in *.
  apply (hq_room_even m Hp Hc) in Hroom.
  pose proof (even_range _ Hp) as Hp4. destruct (even_ix_next _ Hp) as [En _].
  pose proof Hx as (_ & Hby & _ & Hlen). unfold HEADER_QUEUE_ENTRY_SIZE in Hlen.
  assert (Hp1 : 0 <= producer m + 1 < 4) by (unfold even_ix in Hp; lia).
  assert (Em : put_data x.2 m = store_bytes m (hq_entry (producer m + 1)) x.2).
  { unfold put_data, HEADER_QUEUE_ENTRY_NUM. by rewrite En. }
  rewrite Em. set (m' := store_bytes _ _ _).
  assert (Ep : producer m' = producer m) by (by apply producer_entry).
  assert (Ec : consumer m' = consumer m) by (by apply consumer_entry).
  assert (Hout : forall i, ~ (hq_entry (producer m + 1) <= i < hq_entry (producer m + 1) + 128) ->
    m'.[i] = m.[i]) by (intros i Hi; apply store_bytes_out; lia).
  assert (Hh : read_HQe m' (hq_entry (producer m)) = read_HQe m (hq_entry (producer m)))
    by (apply (header_frame m m' _ (producer m + 1)); done || lia).
  unfold inv; simpl. rewrite Ep, Ec. split; [done|]. split; [done|]. split.
  - split; [done|]. rewrite ?Ep, ?Ec. split; [|done].
    split; [by rewrite Hh|]. rewrite En. by apply load_bytes_store_bytes_same.
  - exists dn, pend. split_and!; [done| |].
    + destruct Hpend as [[_ ->]|[? _]]; [left; by rewrite Ep, Ec|done].
    + destruct c as [| | |e data]; simpl in *; try done. rewrite Ec.
      destruct Hcons as (-> & y & Hd & Hs & Hr). split; [done|]. exists y. split_and!; [done|done|].
      intros Hf. rewrite <- (Hr Hf). apply (header_frame m m' _ (producer m + 1)); try done;
        unfold even_ix in *; lia.
Qed.

Lemma inv_publish eager m c snt rcv x :
  inv eager (mk_sys m (PData x) c snt rcv) ->
  inv eager (mk_sys (publish m) PIdle c (snt ++ [x]) rcv).
Proof.
  intros (Hp & Hc & (Hx & Hh & Hpc) & dn & pend & Hrcv & Hpend & Hcons). simpl in *.
  destruct (even_ix_next _ Hp) as [_ En].
  assert (Ep : producer (publish m) = 2 - producer m) by (by rewrite producer_publish).
  pose proof (consumer_publish m) as Ec.
  destruct Hpend as [[_ ->]|[? _]]; [|done].
  unfold inv; simpl. rewrite Ep, Ec. split_and!; [unfold even_ix in *; lia|done|done|].
  exists dn, [x]. split_and!; [done| |].
  - right. rewrite Ep, Ec. split; [unfold even_ix in *; lia|]. exists x. split_and!; [done|done|].
    rewrite <- Hpc. apply holds_msg_index; [by apply even_range|apply Hx| | |done];
      unfold off_producer; lia.
  - destruct c as [| | |e data]; simpl in *.
    + subst. by rewrite app_nil_r.
    + by destruct Hcons.
    + by destruct Hcons as (y & ? & _).
    + rewrite Ec. destruct Hcons as (-> & y & Hd & -> & Hr). split; [done|]. exists y.
      split_and!; [done|by rewrite <- app_assoc|].
      intros Hf. rewrite <- (Hr Hf). apply header_index; unfold off_producer; [|lia..].
      apply even_range. unfold even_ix in *. lia.
Qed.

Lemma inv_ready eager m p snt rcv :
  hq_nonempty m = true -> inv eager (mk_sys m p CIdle snt rcv) ->
  inv eager (mk_sys m p CReady snt rcv).
Proof.
  intros Hn (Hp & Hc & Hprod & dn & pend & Hrcv & Hpend & Hcons). simpl in *.
  apply hq_nonempty_iff in Hn. split_and!; [done..|]. exists dn, pend. split_and!; [done|done|].
  simpl. split; [done|]. destruct Hpend as [[? _]|(_ & y & -> & _)]; done.
Qed.

Lemma inv_copy eager m p snt rcv :
  inv eager (mk_sys m p CReady snt rcv) -> inv eager (mk_sys m p (CCopied (head_data m)) snt rcv).
Proof.
  intros (Hp & Hc & Hprod & dn & pend & Hrcv & Hpend & Hcons & Hne). simpl in *.
  destruct Hpend as [[_ ->]|(Hpc & y & -> & Hy & Hh)]; [done|].
  split_and!; [done..|]. exists dn, [y]. split_and!; [done|right; eauto|].
  exists y. split_and!; [done| |done].
  unfold head_data, head_header. destruct Hh as [-> Hd]. destruct Hy as (_ & _ & -> & _).
  by rewrite Nat2Z.id.
Qed.

Lemma inv_release eager m p snt rcv data :
  inv eager (mk_sys m p (CCopied data) snt rcv) ->
  inv eager (mk_sys (release m) p (CReleased (consumer m) data) snt rcv).
Proof.
  intros (Hp & Hc & Hprod & dn & pend & Hrcv & Hpend & y & Epend & Hd & Hs). simpl in *.
  destruct Hpend as [[_ ->]|(Hpc & y' & -> & Hy & Hh)]; [done|]. injection Epend as ->.
  destruct (even_ix_next _ Hc) as [_ En].
  assert (Ec : consumer (release m) = 2 - consumer m) by (by rewrite consumer_release).
  pose proof (producer_release m) as Ep.
  assert (Epc : producer m = 2 - consumer m) by (unfold even_ix in *; lia).
  assert (Hhd : forall e, 0 <= e < 4 -> read_HQe (release m) (hq_entry e) = read_HQe m (hq_entry e)).
  { intros e He. apply header_index; unfold off_consumer; done || lia. }
  unfold inv; simpl. rewrite Ep, Ec. split; [done|]. split; [unfold even_ix in *; lia|]. split.
  - destruct p as [|x|x]; simpl in *; [done| |].
    + destruct Hprod as (Hx & Hr & _). rewrite Ep, Hhd by (by apply even_range). split_and!; [done..|].
      intros _. by rewrite Ec.
    + by destruct Hprod as (_ & _ & ?).
  - exists dn, []. split; [done|]. split; [left; by rewrite Ep, Ec|]. simpl.
    rewrite ?Ec. split; [lia|]. exists y. split_and!; [done|by rewrite Hs|].
    intros _. rewrite Hhd by (by apply even_range). apply Hh.
Qed.

Lemma inv_finish eager m p snt rcv e data :
  inv eager (mk_sys m p (CReleased e data) snt rcv) ->
  inv eager (mk_sys m p CIdle snt (rcv ++ [(read_HQe m (hq_entry e), data)])).
Proof.
  intros (Hp & Hc & Hprod & dn & pend & Hrcv & Hpend & -> & x & Hd & Hs & Hr). simpl in *.
  split_and!; [done..|]. exists (dn ++ [x]), pend. split_and!; [|done|].
  - apply Forall2_app; [done|]. constructor; [|constructor]. by split.
  - simpl. by rewrite Hs, <- app_assoc.
Qed.

Lemma inv_init eager m0 : inv eager (mk_sys (hq_init m0) PIdle CIdle [] []).
Proof.
  assert (Ep : producer (hq_init m0) = 0).
  { unfold producer, hq_init, load32, store32, off_producer, off_consumer.
    rewrite load_store_disj by lia. by rewrite load_store_same. }
  assert (Ec : consumer (hq_init m0) = 0).
  { unfold consumer, hq_init, off_consumer. by rewrite load32_store32. }
  unfold inv; simpl. rewrite Ep, Ec. split_and!; [by left|by left|done|].
  exists [], []. split_and!; [constructor|left; by rewrite Ep, Ec|done].
Qed.

Lemma inv_step eager s s' : inv eager s -> step eager s s' -> inv eager s'.
Proof.
  intros I Hs. destruct Hs.
  - by apply inv_put_header.
  - by apply inv_put_data.
  - by apply inv_publish.
  - by apply inv_ready.
  - by apply inv_copy.
  - by apply inv_release.
  - by apply inv_finish.
Qed.

Lemma inv_reachable eager m0 s : reachable eager m0 s -> inv eager s.
Proof. induction 1; [apply inv_init|eauto using inv_step]. Qed.
End Laws.

(** ** A queue at address 0 and a trace on it *)

#[local] Instance demo_queue : HQueue := {| hq_meta := 512; hq_entry := fun e => 128 * e |}.
#[local] Instance demo_layout : HQueueLayout.
Proof. constructor; unfold hq_entry, hq_meta; simpl; intros; lia. Qed.

(** A message with a given arrival time. *)
Definition demo_msg (t : Z) : msg := (mk_HQe 0 1 1 2 1 (-1) t 0, [t]).

Lemma demo_msg_ok t : 0 <= t < 256 -> msg_ok (demo_msg t).
Proof.
  intros Ht. split; [unfold HQe_ok; simpl; lia|]. split; [|done].
  constructor; [exact Ht|constructor].
Qed.

(** The consumer copies the first message and releases its entry; the producer
    publishes the second and already copies the header of the third, into that
    entry; then the consumer takes its last look at the header. *)
Definition race_mem1 : mem := publish (put_data (demo_msg 7).2 (put_header (demo_msg 7).1 (hq_init ∅))).
Definition race_mem2 : mem := publish (put_data (demo_msg 8).2 (put_header (demo_msg 8).1 (release race_mem1))).
Definition race_mem3 : mem := put_header (demo_msg 9).1 race_mem2.
Definition race_end : sys :=
  mk_sys race_mem3 (PHeader (demo_msg 9)) CIdle [demo_msg 7; demo_msg 8]
    [(read_HQe race_mem3 (hq_entry 0), [7])].

Lemma race_run : reachable true ∅ race_end.
Proof.
  set (x7 := demo_msg 7). set (x8 := demo_msg 8). set (x9 := demo_msg 9).
  assert (K : forall t, 0 <= t < 256 -> msg_ok (demo_msg t)) by apply demo_msg_ok.
  set (m0 := hq_init ∅). set (m1 := put_header x7.1 m0). set (m2 := put_data x7.2 m1).
  assert (R1 : reachable true ∅ (mk_sys race_mem1 PIdle CIdle [x7] [])).
  { apply (reach_step _ _ (mk_sys m2 (PData x7) CIdle [] [])); [|apply step_publish].
    apply (reach_step _ _ (mk_sys m1 (PHeader x7) CIdle [] []));
      [|by apply step_put_data; vm_compute].
    apply (reach_step _ _ (mk_sys m0 PIdle CIdle [] [])); [apply reach_init|].
    apply step_put_header; [by apply K|by vm_compute|by left]. }
  assert (R2 : reachable true ∅ (mk_sys (release race_mem1) PIdle (CReleased 0 [7]) [x7] [])).
  { apply (reach_step _ _ (mk_sys race_mem1 PIdle (CCopied [7]) [x7] [])).
    - apply (reach_step _ _ (mk_sys race_mem1 PIdle CReady [x7] [])).
      + apply (reach_step _ _ _ _ R1). by apply step_ready; vm_compute.
      + pose proof (step_copy true race_mem1 PIdle [x7] []) as S.
        by replace (head_data race_mem1) with [7] in S by (by vm_compute).
    - pose proof (step_release true race_mem1 PIdle [x7] [] [7]) as S.
      by replace (consumer race_mem1) with 0 in S by (by vm_compute). }
  assert (R3 : reachable true ∅ (mk_sys race_mem2 PIdle (CReleased 0 [7]) [x7; x8] [])).
  { set (m3 := put_header x8.1 (release race_mem1)). set (m4 := put_data x8.2 m3).
    unfold race_mem2. fold x8 m3. fold m4.
    apply (reach_step _ _ (mk_sys m4 (PData x8) (CReleased 0 [7]) [x7] []));
      [|exact (step_publish true m4 (CReleased 0 [7]) [x7] [] x8)].
    apply (reach_step _ _ (mk_sys m3 (PHeader x8) (CReleased 0 [7]) [x7] []));
      [|by apply step_put_data; vm_compute].
    apply (reach_step _ _ _ _ R2). apply step_put_header; [by apply K|by vm_compute|by left]. }
  refine (reach_step true ∅ (mk_sys race_mem3 (PHeader x9) (CReleased 0 [7]) [x7; x8] []) race_end _ _);
    [|exact (step_finish true race_mem3 (PHeader x9) [x7; x8] [] 0 [7])].
  apply (reach_step _ _ _ _ R3). apply step_put_header; [by apply K|by vm_compute|by left].
Qed.

(** ** The properties *)


(** With an eager producer the payloads still arrive once, in order and
    intact under every interleaving. *)
Theorem queue_payloads `{L : HQueueLayout} m0 s :
  reachable true m0 s -> exists rest, map snd (sent s) = map snd (received s) ++ rest.
Proof.
  intros (Hp & Hc & Hprod & dn & pend & Hrcv & Hpend & Hcons)%inv_reachable.
  assert (E : map snd (received s) = map snd dn).
  { clear -Hrcv. induction Hrcv as [|y x l l' [H2 _] _ IH]; [done|]. simpl. by rewrite H2, IH. }
  rewrite E. destruct (s_cons s) as [| |data|e data]; simpl in Hcons.
  - exists (map snd pend). by rewrite Hcons, map_app.
  - destruct Hcons as [-> _]. exists (map snd pend). by rewrite map_app.
  - destruct Hcons as (y & -> & _ & ->). exists (map snd [y]). by rewrite map_app.
  - destruct Hcons as (_ & x & _ & -> & _). exists (map snd (x :: pend)). by rewrite map_app.
Qed.

(** The indices stay 0 or 2; the wait on [producer + 1] never blocks, the
    wait on [producer + 2] blocks exactly while a message is pending: the ring
    of four entries holds one message. *)
Theorem queue_capacity `{L : HQueueLayout} eager m0 s :
  reachable eager m0 s ->
  even_ix (producer (s_mem s)) /\ even_ix (consumer (s_mem s)) /\
  hq_room 1 (s_mem s) = true /\
  (hq_room 2 (s_mem s) = true <-> hq_nonempty (s_mem s) = false).
Proof.
  intros (Hp & Hc & _)%inv_reachable. destruct (hq_room_even _ Hp Hc) as [H1 H2].
  split_and!; [done..|]. rewrite H2.
  unfold hq_nonempty. by destruct (Z.eqb_spec (producer (s_mem s)) (consumer (s_mem s))).
Qed.

(** C40: No deadlock: in every reachable state one of the two sides can move,
    and a producer that waits for room waits for a consumer that can. *)
Theorem queue_no_deadlock `{L : HQueueLayout} eager m0 s x :
  msg_ok x -> reachable eager m0 s ->
  (exists s', step eager s s') /\
  (hq_room 2 (s_mem s) = false -> exists s', step eager s s' /\ s_prod s' = s_prod s).
Proof.
  intros Hx Hr. pose proof (inv_reachable _ _ _ Hr) as (Hp & Hc & _).
  destruct (hq_room_even _ Hp Hc) as [Hr1 Hr2]. pose proof (hq_nonempty_iff (s_mem s)) as Hn.
  destruct s as [m p c snt rcv]. simpl in *.
  assert (Hcons : hq_room 2 m = false -> exists s', step eager (mk_sys m p c snt rcv) s' /\ s_prod s' = p).
  { intros Hf. assert (hq_nonempty m = true).
    { apply Hn. intros E. apply Hr2 in E. by rewrite E in Hf. }
    destruct c; eexists; (split; [by constructor|done]). }
  split; [|done]. destruct (hq_room 2 m) eqn:E.
  - destruct p as [|y|y]; eexists; [apply step_put_header with (x := x); auto|by apply step_put_data|
      apply step_publish].
  - destruct (Hcons eq_refl) as (s' & Hs & _). by exists s'.
Qed.

(** The eager producer does lose a header: there is an interleaving in which
    the consumer takes the arrival time of the third message for the first,
    because the producer copied the third header before it tested for room. *)
Theorem queue_header_race :
  exists s, reachable (Q := demo_queue) true ∅ s /\
    map snd (received s) = [(demo_msg 7).2] /\ map fst (received s) = [(demo_msg 9).1] /\
    sent s = [demo_msg 7; demo_msg 8].
Proof. exists race_end. split; [apply race_run|]. split_and!; vm_compute; reflexivity. Qed.


Theorem queue_payloads_witness :
  exists rest, map snd (sent race_end) = map snd (received race_end) ++ rest.
Proof. exact (queue_payloads (L := demo_layout) ∅ race_end race_run). Defined.

Theorem queue_capacity_witness :
  even_ix (producer (s_mem race_end)) /\ even_ix (consumer (s_mem race_end)) /\
  hq_room 1 (s_mem race_end) = true /\ (hq_room 2 (s_mem race_end) = true <-> hq_nonempty (s_mem race_end) = false).
Proof. exact (queue_capacity (L := demo_layout) true ∅ race_end race_run). Defined.

Theorem queue_no_deadlock_witness :
  (exists s', step true race_end s') /\
  (hq_room 2 (s_mem race_end) = false -> exists s', step true race_end s' /\ s_prod s' = s_prod race_end).
Proof.
  exact (queue_no_deadlock (L := demo_layout) true ∅ race_end (demo_msg 1)
    (demo_msg_ok 1 ltac:(done)) race_run).
Defined.
