(* ===== verification/SendRecv.v ===== *)
(** * Sending and receiving ([hw/m2m_send_recv.c])

    One process: the guest calls [m2m_send] and [m2m_recv]; messages pass
    through header queues of the segment, the process's clock is advanced by the
    time the network took.  The other processes run meanwhile: at each busy wait
    of [m2m_post_remote_msg] the model applies an arbitrary function [e1], [e2],
    [e3] to the segment, the changes the others made up to the moment the wait
    ends, and is [Spin] if the condition does not hold then.  Log files are left
    out. *)
From S2P Require Import Prelude Mem Config Route Topology Layout Timing HeaderQueue.

(** ** The process *)

Record dev := mk_dev {
  dv_topo : topo; dv_dbp : dbp; dv_sync : sync; dv_route : route_st;
  dv_clock : clock;
  dv_pos : nat;        (* position in the stream of rand() *)
  dv_tmp : Z }.        (* the static tmp_time of m2m_get_local_msg *)

Definition dv_vnd (d : dev) : VND := GlobalVND (dv_topo d).
Definition with_vnd (f : VND -> VND) (d : dev) : dev :=
  mk_dev (set_vnd f (dv_topo d)) (dv_dbp d) (dv_sync d) (dv_route d) (dv_clock d) (dv_pos d) (dv_tmp d).
Definition with_clock (f : clock -> clock) (d : dev) : dev :=
  mk_dev (dv_topo d) (dv_dbp d) (dv_sync d) (dv_route d) (f (dv_clock d)) (dv_pos d) (dv_tmp d).
Definition with_route (r : route_st) (d : dev) : dev :=
  mk_dev (dv_topo d) (dv_dbp d) (dv_sync d) r (dv_clock d) (dv_pos d) (dv_tmp d).
Definition with_pos (k : nat) (d : dev) : dev :=
  mk_dev (dv_topo d) (dv_dbp d) (dv_sync d) (dv_route d) (dv_clock d) k (dv_tmp d).
Definition with_tmp (t : Z) (d : dev) : dev :=
  mk_dev (dv_topo d) (dv_dbp d) (dv_sync d) (dv_route d) (dv_clock d) (dv_pos d) t.

Definition set_TotalTransTimes (x : Z) (v : VND) : VND :=
  set_stats x (TotalTransSendEventTimes v) (TotalTransRecvEventTimes v)
    (TotalPacketLossTimes v) (TotalPacketTransTimes v) v.
Definition add_TotalTransTimes (x : Z) (v : VND) : VND :=
  set_TotalTransTimes (TotalTransTimes v + x) v.

Definition lt_addr (d : dev) : Z := (m2m_localtime_start (dv_dbp d)).[DeviceID (dv_vnd d)].
Definition cf_addr (d : dev) : Z := (m2m_hq_conflag_start (dv_dbp d)).[DeviceID (dv_vnd d)].
Definition dev_time_sync (d : dev) (m : mem) : Z :=
  time_sync (dv_vnd d) (dv_sync d) (m2m_localtime_start (dv_dbp d)) m (dv_clock d).

(** [*m2m_localtime = time_sync();] *)
Definition sync_clock (d : dev) (m : mem) : mem := store64 m (lt_addr d) (dev_time_sync d m).

(** The queue a device posts to: an end device into its only neighbour's queue,
    the coordinator into its own queue to the routing thread. *)
Definition post_queue (d : dev) : HQueue :=
  if dev_is (dv_vnd d) ZED
  then {| hq_meta := (m2m_remote_hq_meta_start (dv_dbp d)).[0];
          hq_entry := fun e => remote_hq_buffer (dv_dbp d) 0 e |}
  else {| hq_meta := (m2m_hq_meta_start (dv_dbp d)).[NODE_MAX_LINKS + 1];
          hq_entry := fun e => hq_buffer (dv_dbp d) (NODE_MAX_LINKS + 1) e |}.

(** The queue a device receives from. *)
Definition recv_queue (d : dev) : HQueue :=
  if dev_is (dv_vnd d) ZED
  then {| hq_meta := (m2m_hq_meta_start (dv_dbp d)).[0];
          hq_entry := fun e => hq_buffer (dv_dbp d) 0 e |}
  else {| hq_meta := (m2m_hq_meta_start (dv_dbp d)).[NODE_MAX_LINKS];
          hq_entry := fun e => hq_buffer (dv_dbp d) NODE_MAX_LINKS e |}.

(** ** m2m_send_recv_init *)

Definition init_flag (m : mem) (p : Z) : mem :=
  store64 (store32 m (p + off_dataflag) 0) (p + off_transtime) 0.
Definition init_meta (m : mem) (p : Z) : mem :=
  store32 (store32 m (p + off_producer) 0) (p + off_consumer) 0.

Definition m2m_send_recv_init (d : dev) (m : mem) : M2M_ERR_T * dev * mem :=
  let d := with_vnd (set_TotalTransTimes 0) d in
  let zr := dev_is (dv_vnd d) ZR in
  let m := if zr then m else init_flag m (cf_addr d) in
  let m := if zr then m
           else forZ 0 nat_DB (fun m i => init_flag m (m2m_dbp_meta_start (dv_dbp d)).[i]) m in
  let meta i := (m2m_hq_meta_start (dv_dbp d)).[i] in
  let m := if zr then forZ 0 nat_LINKS (fun m i => init_meta m (meta i)) m
           else if dev_is (dv_vnd d) ZC
           then forZ 0 (nat_LINKS + 2) (fun m i => init_meta m (meta i)) m
           else init_meta m (meta 0) in
  (M2M_SUCCESS, d, m).

(** ** m2m_post_remote_msg, the small scheme *)

(** The search for the next hop in the neighbour list. *)
Fixpoint find_neighbor (n : nat) (v : VND) (next_hop_ID count : Z) : option Z :=
  match n with
  | O => None
  | S n' => if u32 (Neighbors v).[count] =? next_hop_ID then Some count
            else find_neighbor n' v next_hop_ID (count + 1)
  end.

Section Post.
Context (rnd : nat -> Z).

(** Up to the first wait: the header to send and the entry it goes to, or the
    end of the call when the hop failed. *)
Inductive posting :=
| Posted (rc : M2M_ERR_T)
| Posting (h : m2m_HQe) (entry : Z).

Definition post_begin (receiverID size tag : Z) (d : dev) (m : mem) : run (posting * dev * mem) :=
  let v := dv_vnd d in
  match route_discovery (t_NODE_MAP (dv_topo d)) (TotalDeviceNum v) (DeviceID v) receiverID (dv_route d) with
  | None => Spin
  | Some (next_hop_ID, r) =>
      let d := with_route r d in
      match find_neighbor (Z.to_nat (TotalDeviceNum v)) v (u32 next_hop_ID) 0 with
      | None => ProcExit
      | Some _ =>
          let entry := producer (Q := post_queue d) m in
          let SendTime := get_vpmu_time (dv_clock d) in
          h ← transmission_latency rnd size v (dv_pos d);
          let d := with_pos (hop_pos h) (with_vnd (fun _ => hop_vnd h) d) in
          if latency h =? 0 then
            let f := default 0 (fail_latency h) in
            let d := with_clock (add_netsend f) (with_vnd (add_TotalTransTimes f) d) in
            Ret (Posted M2M_TRANS_FAIL, d, sync_clock d m)
          else
            let d := with_clock (add_netsend (latency h))
                       (with_vnd (add_TotalTransTimes (latency h)) d) in
            Ret (Posting (mk_HQe (u32 tag) (u32 size) (DeviceID v) (u32 receiverID) (DeviceID v) (-1)
                            SendTime (latency h)) entry, d, sync_clock d m)
      end
  end.

(** After the wait on [producer + 1]: the header *)
Definition post_header (h : m2m_HQe) (entry : Z) (d : dev) (m : mem) : run mem :=
  if hq_room (Q := post_queue d) 1 m
  then Ret (write_HQe m (hq_entry (HQueue := post_queue d) entry) h) else Spin.

(** After the wait on [producer + 2]: the payload, the control flag, the
    publication *)
Definition post_data (data : list Z) (d : dev) (m : mem) : run mem :=
  if hq_room (Q := post_queue d) 2 m then
    let m := put_data (Q := post_queue d) data m in
    let m := store32 m (cf_addr d + off_dataflag) 77 in
    let m := store64 m (cf_addr d + off_transtime) 0 in
    Ret (publish (Q := post_queue d) m)
  else Spin.

(** After the wait on the control flag *)
Definition post_end (d : dev) (m : mem) : run (M2M_ERR_T * dev * mem) :=
  let dataflag := load32 m (cf_addr d + off_dataflag) in
  if dataflag =? 77 then Spin
  else
    let delta := u64 (load64 m (cf_addr d + off_transtime) - load64 m (lt_addr d)) in
    let d := with_clock (add_netsend delta) (with_vnd (add_TotalTransTimes delta) d) in
    Ret (if dataflag =? 44 then M2M_TRANS_FAIL else M2M_TRANS_SUCCESS, d, sync_clock d m).

(** What the other processes do during the three waits. *)
Record waits := mk_waits { e1 : mem -> mem; e2 : mem -> mem; e3 : mem -> mem }.

Definition m2m_post_remote_msg (w : waits) (receiverID tag : Z) (data : list Z) (d : dev) (m : mem)
  : run (M2M_ERR_T * dev * mem) :=
  '(p, d, m) ← post_begin receiverID (Z.of_nat (length data)) tag d m;
  match p with
  | Posted rc => Ret (rc, d, m)
  | Posting h entry =>
      m ← post_header h entry d (e1 w m);
      m ← post_data data d (e2 w m);
      post_end d (e3 w m)
  end.

(** [do ... while(rc != M2M_TRANS_SUCCESS && rc != M2M_TRANS_FAIL)] *)
Fixpoint send_loop (ws : list waits) (receiverID tag : Z) (data : list Z) (d : dev) (m : mem)
  : run (M2M_ERR_T * dev * mem) :=
  match ws with
  | [] => Spin
  | w :: ws' =>
      '(rc, d, m) ← m2m_post_remote_msg w receiverID tag data d m;
      if bool_decide (rc = M2M_TRANS_SUCCESS) || bool_decide (rc = M2M_TRANS_FAIL)
      then Ret (rc, d, m) else send_loop ws' receiverID tag data d m
  end.

Definition m2m_send (ws : list waits) (data : list Z) (receiverID tag : Z) (d : dev) (m : mem)
  : run (M2M_ERR_T * dev * mem) :=
  let v := dv_vnd d in
  if (u32 receiverID =? DeviceID v) || (TotalDeviceNum v <? receiverID) || (receiverID <? 0)
  then Ret (M2M_ERROR, d, m)
  else
    '(rc, d, m) ←
       (if Z.of_nat (length data) <=? HEADER_QUEUE_ENTRY_SIZE
        then send_loop ws receiverID tag data d m
        else Ret (M2M_SUCCESS, d, m));   (* large scheme: not implemented *)
    Ret (if bool_decide (rc = M2M_TRANS_FAIL) then M2M_TRANS_FAIL else M2M_TRANS_SUCCESS,
         with_clock count_send d, m).
End Post.

(** ** m2m_get_local_msg *)

(** When waiting for receiving data, the clock is advanced to the largest time. *)
Definition get_begin (d : dev) (m : mem) : dev * mem :=
  if dv_tmp d =? 0 then
    let m := sync_clock d m in
    (with_tmp (load64 m (lt_addr d)) d, store64 m (lt_addr d) (u64 (-1 - 1)))
  else (d, m).

(** The clock catches up with the arrival time of the header at [localHQe_ptr]. *)
Definition get_settle (localHQe_ptr : Z) (d : dev) (m : mem) : dev * mem :=
  let h := read_HQe m localHQe_ptr in
  let arrival := u64 (SendTime h + TransTime h) in
  let now := load64 m (lt_addr d) in
  let d := if now <? arrival then
             with_clock (add_netrecv (arrival - now)) (with_vnd (add_TotalTransTimes (arrival - now)) d)
           else d in
  (d, sync_clock d m).

Definition m2m_get_local_msg (d : dev) (m : mem) : M2M_ERR_T * option (list Z) * dev * mem :=
  let '(d, m) := get_begin d m in
  if producer (Q := recv_queue d) m =? consumer (Q := recv_queue d) m
  then (M2M_TRANS_NOT_READY, None, d, m)
  else
    let localHQe_ptr := hq_entry (HQueue := recv_queue d) (consumer (Q := recv_queue d) m) in
    let '(data, d, m) :=
      if EntryNum (read_HQe m localHQe_ptr) =? -1 then
        let data := head_data (Q := recv_queue d) m in
        let m := store64 m (lt_addr d) (dv_tmp d) in
        (Some data, with_tmp 0 d, release (Q := recv_queue d) m)
      else (None, d, m) in
    let '(d, m) := get_settle localHQe_ptr d m in
    (M2M_TRANS_SUCCESS, data, d, m).

(** [do ... while(...)] of [m2m_recv]; before each poll the others have moved. *)
Fixpoint recv_loop (es : list (mem -> mem)) (d : dev) (m : mem)
  : run (option (list Z) * dev * mem) :=
  match es with
  | [] => Spin
  | e :: es' =>
      let '(rc, data, d, m) := m2m_get_local_msg d (e m) in
      if bool_decide (rc = M2M_TRANS_SUCCESS) || bool_decide (rc = M2M_TRANS_FAIL)
      then Ret (data, d, m) else recv_loop es' d m
  end.

Definition m2m_recv (es : list (mem -> mem)) (senderID : Z) (d : dev) (m : mem)
  : run (M2M_ERR_T * option (list Z) * dev * mem) :=
  let v := dv_vnd d in
  if negb (senderID =? -1) &&
     ((u32 senderID =? DeviceID v) || (TotalDeviceNum v <? senderID) || (senderID <? 0))
  then Ret (M2M_ERROR, None, d, m)
  else
    '(data, d, m) ← recv_loop es d m;
    Ret (M2M_SUCCESS, data, with_clock count_recv d, m).

(** ** A byte range outside another *)

Definition apart (a n b k : Z) : Prop := a + n <= b \/ b + k <= a.

(** The clock cell lies apart from a queue and the control flag. *)
Record clock_apart (d : dev) (Q : HQueue) : Prop := {
  ca_entry : forall e, 0 <= e < 4 -> apart (lt_addr d) 8 (hq_entry e) 128;
  ca_meta : apart (lt_addr d) 8 hq_meta 32;
  ca_flag : apart (lt_addr d) 8 (cf_addr d) 12 }.

Lemma load64_header m a e h : apart a 8 e 128 -> load64 (write_HQe m e h) a = load64 m a.
Proof.
  intros H. unfold load64. apply load_ext. intros i Hi. apply write_HQe_out. unfold apart in H. lia.
Qed.

(** The segment keeps the clock cell through the process's own posting. *)
Lemma post_header_clock h entry d m m' :
  clock_apart d (post_queue d) -> 0 <= entry < 4 ->
  post_header h entry d m = Ret m' -> load64 m' (lt_addr d) = load64 m (lt_addr d).
Proof.
  intros A He. unfold post_header. destruct (hq_room _ _); [|done]. intros [= <-].
  apply load64_header. by apply (ca_entry _ _ A).
Qed.

Lemma post_data_clock data d m m' :
  clock_apart d (post_queue d) -> Z.of_nat (length data) <= 128 ->
  post_data data d m = Ret m' -> load64 m' (lt_addr d) = load64 m (lt_addr d).
Proof.
  intros A Hl. unfold post_data. destruct (hq_room _ _); [|done]. intros [= <-].
  pose proof (ca_meta _ _ A) as Hm. pose proof (ca_flag _ _ A) as Hf. unfold apart in *.
  unfold publish, put_data, load64, store32, store64, off_producer, off_dataflag, off_transtime.
  rewrite !load_store_disj by lia.
  match goal with |- context [store_bytes m ?a data] => set (x := a) end.
  pose proof (ca_entry _ _ A (u32 (producer (Q := post_queue d) m + 1) mod HEADER_QUEUE_ENTRY_NUM)
    (Z.mod_pos_bound _ 4 ltac:(done))) as He.
  unfold apart in He. apply load_store_bytes_disj. unfold x. lia.
Qed.

(** ** The clock of a device with a CPU *)

Lemma time_sync_cpu d m : dev_is (dv_vnd d) ZR = false -> dev_time_sync d m = get_vpmu_time (dv_clock d).
Proof. intros H. unfold dev_time_sync, time_sync. by rewrite H. Qed.

Lemma get_vpmu_time_range c : 0 <= get_vpmu_time c < 2 ^ 64.
Proof. apply u64_range. Qed.

Lemma add_netsend_time x c : get_vpmu_time (add_netsend x c) = u64 (get_vpmu_time c + x).
Proof.
  unfold get_vpmu_time, add_netsend; simpl. rewrite u64_add_l.
  rewrite (Z.add_comm (cpu_ns c)), <- Z.add_assoc, u64_add_l. f_equal. lia.
Qed.

Lemma add_netrecv_time x c : get_vpmu_time (add_netrecv x c) = u64 (get_vpmu_time c + x).
Proof.
  unfold get_vpmu_time, add_netrecv; simpl. rewrite u64_add_l.
  rewrite Z.add_assoc, u64_add_r. f_equal. lia.
Qed.

Lemma sync_clock_cell d m :
  dev_is (dv_vnd d) ZR = false -> load64 (sync_clock d m) (lt_addr d) = get_vpmu_time (dv_clock d).
Proof.
  intros H. unfold sync_clock. rewrite load64_store64, time_sync_cpu by done.
  apply u64_small, get_vpmu_time_range.
Qed.

(** What the first part of a posting leaves behind. *)
Lemma post_begin_run rnd r size tag d m p d1 m1 :
  0 <= size <= HEADER_QUEUE_ENTRY_SIZE -> dev_is (dv_vnd d) ZR = false ->
  post_begin rnd r size tag d m = Ret (p, d1, m1) ->
  exists h, p = Posting h (producer (Q := post_queue d) m) /\
    PacketSize h = size /\ SenderID h = DeviceID (dv_vnd d) /\ ForwardID h = DeviceID (dv_vnd d) /\
    ReceiverID h = u32 r /\ EntryNum h = -1 /\
    SendTime h = get_vpmu_time (dv_clock d) /\ 0 < TransTime h < 2 ^ 32 /\
    dv_dbp d1 = dv_dbp d /\ DeviceID (dv_vnd d1) = DeviceID (dv_vnd d) /\
    DeviceType (dv_vnd d1) = DeviceType (dv_vnd d) /\
    dv_clock d1 = add_netsend (TransTime h) (dv_clock d) /\
    TotalTransTimes (dv_vnd d1) = u64 (TotalTransTimes (dv_vnd d) + TransTime h) /\
    m1 = sync_clock d1 m.
Proof.
  intros Hs Hzr. unfold post_begin.
  destruct (route_discovery _ _ _ _ _) as [[nh rs]|]; [|done].
  destruct (find_neighbor _ _ _ _); [|done].
  change (dv_pos (with_route rs d)) with (dv_pos d). rewrite transmission_latency_eq by done.
  cbn [mbind run_bind latency]. unfold HEADER_QUEUE_ENTRY_SIZE in Hs.
  pose proof (Z.mod_pos_bound (rnd (dv_pos d)) 4 ltac:(lia)).
  destruct (Z.eqb_spec (1000 * (320 * (rnd (dv_pos d) mod 4) + 128 + 32 * (size + 43) + 864)) 0); [lia|].
  intros [= <- <- <-]. eexists. split; [done|]. cbn -[u64 u32 Z.mul Z.modulo].
  rewrite (u32_small size) by lia. split_and!; try done; try lia.
  by rewrite u64_add_l.
Qed.

Lemma same_tables d d1 :
  dv_dbp d1 = dv_dbp d -> DeviceID (dv_vnd d1) = DeviceID (dv_vnd d) ->
  DeviceType (dv_vnd d1) = DeviceType (dv_vnd d) ->
  lt_addr d1 = lt_addr d /\ cf_addr d1 = cf_addr d /\ post_queue d1 = post_queue d /\
  forall t, dev_is (dv_vnd d1) t = dev_is (dv_vnd d) t.
Proof.
  intros H1 H2 H3. unfold lt_addr, cf_addr, post_queue, dev_is. rewrite H1, H2, H3. done.
Qed.

(** The others do not write this process's clock. *)
Definition keeps_clock (d : dev) (w : waits) : Prop :=
  forall m, load64 (e1 w m) (lt_addr d) = load64 m (lt_addr d) /\
            load64 (e2 w m) (lt_addr d) = load64 m (lt_addr d) /\
            load64 (e3 w m) (lt_addr d) = load64 m (lt_addr d).

(** A completed posting: the segment [m3] in which the control flag was seen,
    and the clock it left. *)
Lemma post_clock rnd w r tag data d m rc d' m' :
  Z.of_nat (length data) <= HEADER_QUEUE_ENTRY_SIZE -> dev_is (dv_vnd d) ZR = false ->
  clock_apart d (post_queue d) -> even_ix (producer (Q := post_queue d) m) ->
  keeps_clock d w ->
  m2m_post_remote_msg rnd w r tag data d m = Ret (rc, d', m') ->
  exists m3, load32 m3 (cf_addr d + off_dataflag) <> 77 /\
    (rc = if load32 m3 (cf_addr d + off_dataflag) =? 44 then M2M_TRANS_FAIL else M2M_TRANS_SUCCESS) /\
    (let arrival := load64 m3 (cf_addr d + off_transtime) in
     load64 m' (lt_addr d) = arrival /\ get_vpmu_time (dv_clock d') = arrival /\
     TotalTransTimes (dv_vnd d') =
       u64 (TotalTransTimes (dv_vnd d) + (arrival - get_vpmu_time (dv_clock d)))).
Proof.
  intros Hl Hzr A Hev K. unfold m2m_post_remote_msg.
  intros ([[p d1] m1] & Hb & H)%bind_Ret.
  destruct (post_begin_run rnd r (Z.of_nat (length data)) tag d m p d1 m1 ltac:(lia) Hzr Hb)
    as (h & -> & _ & _ & _ & _ & _ & _ & _ & T1 & T2 & T3 & Hc & Ht & ->).
  destruct (same_tables d d1 T1 T2 T3) as (El & Ec & Eq & Edev).
  apply bind_Ret in H as (m2 & Hh & H). apply bind_Ret in H as (m3 & Hd & H).
  assert (A1 : clock_apart d1 (post_queue d1)).
  { rewrite Eq. destruct A. constructor; rewrite ?El, ?Ec; done. }
  assert (Cell : load64 (e3 w m3) (lt_addr d) = get_vpmu_time (dv_clock d1)).
  { destruct (K m3) as (_ & _ & ->). rewrite <- El.
    rewrite (post_data_clock data d1 _ _ A1 Hl Hd). rewrite El. destruct (K m2) as (_ & -> & _). rewrite <- El.
    rewrite (post_header_clock h _ d1 _ _ A1 (even_range _ Hev) Hh). rewrite El. destruct (K (sync_clock d1 m)) as (-> & _ & _). rewrite <- El.
    apply sync_clock_cell. by rewrite Edev. }
  exists (e3 w m3). unfold post_end in H. rewrite Ec, El in H.
  destruct (Z.eqb_spec (load32 (e3 w m3) (cf_addr d + off_dataflag)) 77); [done|].
  split; [done|]. set (arr := load64 (e3 w m3) (cf_addr d + off_transtime)) in *.
  rewrite Cell in H. set (delta := u64 (arr - get_vpmu_time (dv_clock d1))) in H.
  set (d2 := with_clock (add_netsend delta) (with_vnd (add_TotalTransTimes delta) d1)) in H.
  assert (Harr : 0 <= arr < 2 ^ 64) by apply load64_range.
  assert (Htime : get_vpmu_time (dv_clock d2) = arr).
  { change (dv_clock d2) with (add_netsend delta (dv_clock d1)). rewrite add_netsend_time.
    unfold delta. rewrite u64_add_r. rewrite <- (u64_small arr Harr) at 2. f_equal. lia. }
  injection H as <- <- <-. split; [done|]. split; [|split; [done|]].
  - rewrite <- El. change (lt_addr d1) with (lt_addr d2).
    rewrite sync_clock_cell; [done|]. change (dev_is (dv_vnd d2) ZR) with (dev_is (dv_vnd d1) ZR).
    by rewrite Edev.
  - change (TotalTransTimes (dv_vnd d2)) with (u64 (TotalTransTimes (dv_vnd d1) + delta)).
    unfold delta. rewrite u64_add_r, Ht, u64_add_l, Hc, add_netsend_time.
    rewrite Z.add_sub_assoc, u64_sub_r. f_equal. lia.
Qed.

(** ** Receiving *)

Lemma head_index_store64 Q m a v :
  apart a 8 (@hq_meta Q) 32 ->
  producer (Q := Q) (store64 m a v) = producer (Q := Q) m /\
  consumer (Q := Q) (store64 m a v) = consumer (Q := Q) m.
Proof.
  intros H. unfold apart in H. unfold producer, consumer, load32, store64, off_producer, off_consumer.
  by rewrite !load_store_disj by lia.
Qed.

Lemma read_HQe_store64 m a v e : apart a 8 e 128 -> read_HQe (store64 m a v) e = read_HQe m e.
Proof.
  intros H. apply read_HQe_ext. intros i Hi. unfold store64. apply store_out. unfold apart in H. lia.
Qed.

Lemma head_data_store64 Q m a v :
  apart a 8 (@hq_meta Q) 32 -> (forall e, 0 <= e < 4 -> apart a 8 (@hq_entry Q e) 128) ->
  even_ix (consumer (Q := Q) m) -> PacketSize (head_header (Q := Q) m) <= 128 ->
  head_data (Q := Q) (store64 m a v) = head_data (Q := Q) m.
Proof.
  intros Hm He Hc Hs. destruct (head_index_store64 Q m a v Hm) as [_ Ec].
  unfold head_data, head_header in *. rewrite Ec.
  rewrite read_HQe_store64 by (by apply He, even_range).
  pose proof (He (u32 (consumer (Q := Q) m + 1) mod 4) (Z.mod_pos_bound _ 4 ltac:(done))) as Ha.
  unfold HEADER_QUEUE_ENTRY_NUM in *. unfold store64. apply load_bytes_store_disj.
  unfold apart in Ha. lia.
Qed.

(** The saved clock, while a receive is pending. *)
Definition saved_ok (d : dev) : Prop := dv_tmp d = 0 \/ dv_tmp d = get_vpmu_time (dv_clock d).

(** The first part of a poll: afterwards [tmp_time] is the device's time. *)
Lemma get_begin_run d m :
  dev_is (dv_vnd d) ZR = false -> saved_ok d ->
  exists m1, get_begin d m = (with_tmp (get_vpmu_time (dv_clock d)) d, m1) /\
    (m1 = m \/ exists v1 v2, m1 = store64 (store64 m (lt_addr d) v1) (lt_addr d) v2).
Proof.
  intros Hzr Hsv. unfold get_begin. destruct (Z.eqb_spec (dv_tmp d) 0) as [E|E].
  - rewrite sync_clock_cell by done. eexists. split; [done|]. right. by do 2 eexists.
  - exists m. split; [|by left]. destruct Hsv as [?|<-]; [done|]. by destruct d.
Qed.

(** The last part: the clock becomes the later of the two times. *)
Lemma get_settle_run ptr d m now :
  dev_is (dv_vnd d) ZR = false -> now = get_vpmu_time (dv_clock d) -> load64 m (lt_addr d) = now ->
  let arrival := u64 (SendTime (read_HQe m ptr) + TransTime (read_HQe m ptr)) in
  exists d' v, get_settle ptr d m = (d', store64 m (lt_addr d) v) /\
    load64 (store64 m (lt_addr d) v) (lt_addr d) = Z.max now arrival /\
    get_vpmu_time (dv_clock d') = Z.max now arrival /\
    TotalTransTimes (dv_vnd d') =
      (if now <? arrival then u64 (TotalTransTimes (dv_vnd d) + (arrival - now))
       else TotalTransTimes (dv_vnd d)) /\ dv_tmp d' = dv_tmp d.
Proof.
  intros Hzr Hn Hm arrival. unfold get_settle. rewrite Hm. fold arrival.
  set (d' := if now <? arrival then _ else _).
  pose proof (u64_range (SendTime (read_HQe m ptr) + TransTime (read_HQe m ptr))) as Hr.
  fold arrival in Hr.
  assert (Htime : get_vpmu_time (dv_clock d') = Z.max now arrival).
  { unfold d'. destruct (Z.ltb_spec now arrival).
    - change (dv_clock _) with (add_netrecv (arrival - now) (dv_clock d)).
      rewrite add_netrecv_time, <- Hn. rewrite u64_small by lia. lia.
    - rewrite <- Hn. lia. }
  assert (El : lt_addr d' = lt_addr d) by (unfold d'; by destruct (now <? arrival)).
  assert (Hz' : dev_is (dv_vnd d') ZR = false) by (unfold d'; by destruct (now <? arrival)).
  exists d'. eexists. split; [unfold sync_clock; rewrite El; done|]. split_and!.
  - pose proof (sync_clock_cell d' m Hz') as H. unfold sync_clock in H. rewrite El in H. by rewrite H.
  - exact Htime.
  - unfold d'. by destruct (now <? arrival).
  - unfold d'. by destruct (now <? arrival).
Qed.

Section Recv.
Context (d : dev) (m : mem).
#[local] Abbreviation Q := (recv_queue d).
Hypothesis L : HQueueLayout (H := Q).
Hypothesis A : clock_apart d Q.
Hypothesis Hev : even_ix (consumer (Q := Q) m).
Hypothesis Hsz : PacketSize (head_header (Q := Q) m) <= 128.

(** Writing the clock cell leaves the queue alone. *)
Lemma clock_write_queue v :
  let m' := store64 m (lt_addr d) v in
  producer (Q := Q) m' = producer (Q := Q) m /\ consumer (Q := Q) m' = consumer (Q := Q) m /\
  head_header (Q := Q) m' = head_header (Q := Q) m /\ head_data (Q := Q) m' = head_data (Q := Q) m.
Proof.
  cbv zeta. destruct (head_index_store64 Q m (lt_addr d) v (ca_meta _ _ A)) as [E1 E2].
  split; [done|]. split; [done|]. split.
  - unfold head_header. rewrite E2. apply read_HQe_store64. by apply (ca_entry _ _ A), even_range.
  - apply head_data_store64; [apply (ca_meta _ _ A)|apply (ca_entry _ _ A)|done|done].
Qed.

(** Releasing the entry leaves the clock and the header alone. *)
Lemma release_keeps :
  load64 (release (Q := Q) m) (lt_addr d) = load64 m (lt_addr d) /\
  read_HQe (release (Q := Q) m) (@hq_entry Q (consumer (Q := Q) m)) = head_header (Q := Q) m.
Proof.
  pose proof (ca_meta _ _ A) as Hm. unfold apart in Hm. split.
  - unfold release, load64, store32, off_consumer. by rewrite load_store_disj by lia.
  - unfold release. rewrite header_index; [done|by apply even_range|unfold off_consumer; lia..].
Qed.
End Recv.

Lemma get_local_run d m :
  let Q := recv_queue d in
  dev_is (dv_vnd d) ZR = false -> saved_ok d -> clock_apart d Q -> HQueueLayout (H := Q) ->
  even_ix (consumer (Q := Q) m) -> PacketSize (head_header (Q := Q) m) <= 128 ->
  producer (Q := Q) m <> consumer (Q := Q) m -> EntryNum (head_header (Q := Q) m) = -1 ->
  let h := head_header (Q := Q) m in
  let now := get_vpmu_time (dv_clock d) in
  let arrival := u64 (SendTime h + TransTime h) in
  exists d' m', m2m_get_local_msg d m = (M2M_TRANS_SUCCESS, Some (head_data (Q := Q) m), d', m') /\
    load64 m' (lt_addr d) = Z.max now arrival /\
    get_vpmu_time (dv_clock d') = Z.max now arrival /\
    TotalTransTimes (dv_vnd d') =
      (if now <? arrival then u64 (TotalTransTimes (dv_vnd d) + (arrival - now))
       else TotalTransTimes (dv_vnd d)) /\
    dv_tmp d' = 0 /\
    consumer (Q := Q) m' = u32 (consumer (Q := Q) m + 2) mod 4 /\
    producer (Q := Q) m' = producer (Q := Q) m.
Proof.
  intros Q Hzr Hsv A L Hev Hsz Hne Hent h now arrival. unfold Q in *. clear Q.
  unfold m2m_get_local_msg.
  destruct (get_begin_run d m Hzr Hsv) as (m1 & -> & Hm1). fold now.
  assert (F1 : producer (Q := recv_queue d) m1 = producer (Q := recv_queue d) m /\ consumer (Q := recv_queue d) m1 = consumer (Q := recv_queue d) m /\
    head_header (Q := recv_queue d) m1 = h /\ head_data (Q := recv_queue d) m1 = head_data (Q := recv_queue d) m).
  { destruct Hm1 as [->|(v1 & v2 & ->)]; [done|].
    destruct (clock_write_queue d m A Hev Hsz v1) as (E1 & E2 & E3 & E4).
    destruct (clock_write_queue d (store64 m (lt_addr d) v1) A) with (v := v2) as (G1 & G2 & G3 & G4);
      [by rewrite E2|by rewrite E3|].
    rewrite G1, G2, G3, G4, E1, E2, E3, E4. done. }
  destruct F1 as (P1 & C1 & H1 & D1).
  change (recv_queue (with_tmp now d)) with (recv_queue d). rewrite P1, C1.
  destruct (Z.eqb_spec (producer (Q := recv_queue d) m) (consumer (Q := recv_queue d) m)) as [?|_]; [done|].
  pose proof H1 as H1'. unfold head_header in H1'. rewrite C1 in H1'. rewrite H1'.
  assert ((EntryNum h =? -1) = true) as -> by (by apply Z.eqb_eq).
  change (lt_addr (with_tmp now d)) with (lt_addr d). change (dv_tmp (with_tmp now d)) with now.
  set (m2 := store64 m1 (lt_addr d) now). set (d2 := with_tmp 0 (with_tmp now d)).
  destruct (clock_write_queue d m1 A) with (v := now) as (P2 & C2 & H2 & _);
    [by rewrite C1|by rewrite H1|]. fold m2 in P2, C2, H2.
  destruct (release_keeps d m2 L A) as [K1 K2]; [by rewrite C2, C1|].
  rewrite C2, C1, H2, H1 in K2.
  assert (Hnow : load64 (release (Q := recv_queue d) m2) (lt_addr d) = now).
  { rewrite K1. unfold m2. rewrite load64_store64. apply u64_small, get_vpmu_time_range. }
  destruct (get_settle_run (@hq_entry (recv_queue d) (consumer (Q := recv_queue d) m)) d2 (release (Q := recv_queue d) m2) now Hzr eq_refl Hnow)
    as (d' & v & -> & S1 & S2 & S3 & S4). rewrite K2 in S1, S2, S3. fold arrival in S1, S2, S3.
  change (lt_addr d2) with (lt_addr d) in *. rewrite D1.
  exists d', (store64 (release (Q := recv_queue d) m2) (lt_addr d) v). split; [done|].
  destruct (head_index_store64 (recv_queue d) (release (Q := recv_queue d) m2) (lt_addr d) v (ca_meta _ _ A)) as [-> ->].
  rewrite consumer_release, producer_release, P2, P1, C2, C1. done.
Qed.

(** A posting does not count as a send; [m2m_send] does that. *)
Lemma post_count rnd w r tag data d m rc d' m' :
  m2m_post_remote_msg rnd w r tag data d m = Ret (rc, d', m') ->
  netsend_count (dv_clock d') = netsend_count (dv_clock d).
Proof.
  unfold m2m_post_remote_msg. intros ([[p d1] m1] & Hb & H)%bind_Ret.
  assert (E : netsend_count (dv_clock d1) = netsend_count (dv_clock d)).
  { unfold post_begin in Hb. destruct (route_discovery _ _ _ _ _) as [[nh rs]|]; [|done].
    destruct (find_neighbor _ _ _ _); [|done]. apply bind_Ret in Hb as (h & _ & Hb).
    destruct (latency h =? 0); by injection Hb as _ <- _. }
  destruct p as [rc'|h entry]; [by injection H as _ <- _|].
  apply bind_Ret in H as (m2 & _ & H). apply bind_Ret in H as (m3 & _ & H).
  unfold post_end in H. destruct (_ =? 77); [done|]. injection H as _ <- _. exact E.
Qed.

(** ** From the sender's posting to the receiver's poll *)

(** A write apart from the whole queue. *)
Lemma holds_msg_apart Q m m' e x :
  0 <= e < 4 -> Z.of_nat (length x.2) <= 128 ->
  (forall i e, 0 <= e < 4 -> @hq_entry Q e <= i < @hq_entry Q e + 128 -> m'.[i] = m.[i]) ->
  holds_msg (H := Q) m e x -> holds_msg (H := Q) m' e x.
Proof.
  intros He Hl Hout [H1 H2]. pose proof (Z.mod_pos_bound (u32 (e + 1)) 4 ltac:(done)) as Hm. split.
  - rewrite <- H1. apply read_HQe_ext. intros i Hi. apply (Hout i e He). lia.
  - rewrite <- H2 at 2. apply load_bytes_ext. intros i Hi. apply (Hout i _ Hm). lia.
Qed.

(** The sender's control flag lies apart from the queue. *)
Record flag_apart (d : dev) (Q : HQueue) : Prop := {
  fa_entry : forall e, 0 <= e < 4 -> apart (cf_addr d) 12 (hq_entry e) 128;
  fa_meta : apart (cf_addr d) 12 hq_meta 32 }.

Lemma post_delivers d h data m m1 m2 :
  let Q := post_queue d in
  HQueueLayout (H := Q) -> flag_apart d Q -> msg_ok (h, data) ->
  even_ix (producer (Q := Q) m) -> producer (Q := Q) m = consumer (Q := Q) m ->
  post_header h (producer (Q := Q) m) d m = Ret m1 -> post_data data d m1 = Ret m2 ->
  producer (Q := Q) m2 = 2 - consumer (Q := Q) m /\ consumer (Q := Q) m2 = consumer (Q := Q) m /\
  head_header (Q := Q) m2 = h /\ head_data (Q := Q) m2 = data.
Proof.
  intros Q L F Hok Hev Hpc. unfold post_header, post_data. fold Q.
  destruct (hq_room 1 m); [|done]. intros [= <-].
  change (write_HQe m (hq_entry (producer m)) h) with (put_header (Q := Q) h m).
  destruct (hq_room 2 (put_header h m)) eqn:Hroom; [|done]. intros [= <-].
  assert (I : inv (H := Q) false (mk_sys m PIdle CIdle [] [])).
  { unfold inv; simpl. split; [done|]. split; [by rewrite <- Hpc|]. split; [done|]. exists [], [].
    split; [constructor|]. split; [by left|done]. }
  apply (inv_put_header false m CIdle [] [] (h, data) Hok) in I;
    [|right; apply (hq_room_even (H := Q) m); [done|by rewrite <- Hpc|done]].
  apply (inv_put_data false _ CIdle [] [] (h, data) Hroom) in I. simpl fst in I. simpl snd in I.
  destruct I as (Hp & Hc & (_ & Hh & Hpc') & _). simpl in *.
  assert (Ep0 : consumer (put_data data (put_header h m)) = consumer m).
  { unfold put_data. rewrite consumer_entry; [by apply consumer_header, even_range| |apply Hok].
    apply Z.mod_pos_bound. done. }
  set (mb := put_data data (put_header h m)) in *.
  set (mc := store64 (store32 mb _ _) _ _).
  pose proof (fa_meta _ _ F) as Fm. pose proof (fa_entry _ _ F) as Fe. unfold apart in *. fold Q in Fm, Fe.
  assert (Hout : forall i, ~ (cf_addr d <= i < cf_addr d + 12) -> mc.[i] = mb.[i]).
  { intros i Hi. unfold mc, store32, store64, off_dataflag, off_transtime.
    rewrite !store_out by lia. done. }
  assert (Epc : producer (Q := Q) mc = producer (Q := Q) mb).
  { unfold producer, load32, off_producer. apply load_ext. intros. apply Hout. lia. }
  assert (Ecc : consumer (Q := Q) mc = consumer (Q := Q) mb).
  { unfold consumer, load32, off_consumer. apply load_ext. intros. apply Hout. lia. }
  assert (Hhc : holds_msg (H := Q) mc (consumer (Q := Q) mb) (h, data)).
  { rewrite <- Hpc'. apply (holds_msg_apart Q mb); [by apply even_range|apply Hok| |done].
    intros i e He Hi. apply Hout. specialize (Fe e He). lia. }
  destruct (even_ix_next _ Hp) as [_ En].
  rewrite producer_publish, consumer_publish, Epc, Ecc, En, Ep0. rewrite Ep0 in Hhc, Hpc', Hc.
  assert (Hpub : holds_msg (H := Q) (publish mc) (consumer (Q := Q) m) (h, data)).
  { apply holds_msg_index; [by apply even_range|apply Hok| | |done]; unfold off_producer; lia. }
  split; [lia|]. split; [done|].
  unfold head_data, head_header. rewrite consumer_publish, Ecc, Ep0. destruct Hpub as [-> Hd].
  split; [done|]. destruct Hok as (_ & _ & -> & _). rewrite Nat2Z.id. exact Hd.
Qed.

(** ** The properties *)

(** The clock after a send: when [m2m_send] of a small message returns, the
    sender's clock (its cell in the segment and the time its CPU reads) is
    exactly the arrival time the network wrote into its control flag,
    [TotalTransTimes] has grown by the time from sending to arrival, and the
    result is failure exactly when the flag says so.  The other processes may do
    anything to the segment but write this clock. *)
Theorem send_clock rnd w data receiverID tag d m rc d' m' :
  Z.of_nat (length data) <= HEADER_QUEUE_ENTRY_SIZE ->
  0 <= receiverID <= TotalDeviceNum (dv_vnd d) -> u32 receiverID <> DeviceID (dv_vnd d) ->
  dev_is (dv_vnd d) ZR = false -> clock_apart d (post_queue d) ->
  even_ix (producer (Q := post_queue d) m) -> keeps_clock d w ->
  m2m_send rnd [w] data receiverID tag d m = Ret (rc, d', m') ->
  exists m3, load32 m3 (cf_addr d + off_dataflag) <> 77 /\
    (rc = if load32 m3 (cf_addr d + off_dataflag) =? 44 then M2M_TRANS_FAIL else M2M_TRANS_SUCCESS) /\
    (let arrival := load64 m3 (cf_addr d + off_transtime) in
     load64 m' (lt_addr d) = arrival /\ get_vpmu_time (dv_clock d') = arrival /\
     TotalTransTimes (dv_vnd d') =
       u64 (TotalTransTimes (dv_vnd d) + (arrival - get_vpmu_time (dv_clock d)))) /\
    netsend_count (dv_clock d') = u64 (netsend_count (dv_clock d) + 1).
Proof.
  intros Hl Hr Hne Hzr A Hev K. unfold m2m_send.
  rewrite (proj2 (Z.eqb_neq _ _) Hne), (proj2 (Z.ltb_ge _ _)), (proj2 (Z.ltb_ge _ _)) by lia.
  rewrite (proj2 (Z.leb_le _ _) Hl). cbn [orb send_loop].
  destruct (m2m_post_remote_msg rnd w receiverID tag data d m) as [[[rc0 d0] m0]| |] eqn:E; [|done..].
  destruct (post_clock rnd w receiverID tag data d m rc0 d0 m0 Hl Hzr A Hev K E)
    as (m3 & H77 & Hrc & Hclk & Hcpu & Htot).
  assert (Hcount : netsend_count (dv_clock d0) = netsend_count (dv_clock d)).
  { exact (post_count rnd w receiverID tag data d m rc0 d0 m0 E). }
  cbn [mbind run_bind]. intros H. exists m3. split; [done|].
  destruct (load32 m3 (cf_addr d + off_dataflag) =? 44); subst rc0; simpl in H;
    injection H as <- <- <-; split; try done; split; try done; simpl; by rewrite Hcount.
Qed.

(** An end device, number 2, linked to node 1; its clock is at 16, its control
    flag at 600, its neighbour's queue at 1000, its own queue at 3000. *)
Definition demo_dbp : dbp :=
  mk_dbp (∅ : arr).[2 <- 16] ∅ ∅ (∅ : arr).[0 <- 3512]
    (∅ : arr).[0 <- 3000].[1 <- 3128].[2 <- 3256].[3 <- 3384]
    (∅ : arr).[2 <- 600] (∅ : arr).[0 <- 1512]
    (∅ : arr).[0 <- 1000].[1 <- 1128].[2 <- 1256].[3 <- 1384].
Definition demo_vnd : VND :=
  mk_VND 2 (∅ : arr).[0 <- 90].[1 <- 69].[2 <- 68] 2 ∅ (∅ : arr).[0 <- 1] 1 0 0 0 0 0 0.
Definition demo_dev : dev :=
  mk_dev (mk_topo ∅ ∅ (add_link ∅ 1 2) ∅ ∅ ∅ demo_vnd) demo_dbp (mk_sync 0 0 0 ∅ ∅) route_st0
    (mk_clock 1000 0 0 0 0) 0 0.

(** A network that takes the message and reports an arrival. *)
Definition demo_waits : waits :=
  mk_waits id id (fun m => store32 (store64 m 604 90000000) 600 0).

Lemma demo_clock_apart : clock_apart demo_dev (post_queue demo_dev).
Proof.
  constructor; unfold apart; [|vm_compute; by left|vm_compute; by left].
  intros e He. assert (e = 0 \/ e = 1 \/ e = 2 \/ e = 3) as [->|[->|[-> | ->]]] by lia;
    vm_compute; by left.
Qed.

Lemma demo_keeps : keeps_clock demo_dev demo_waits.
Proof.
  intros m. change (lt_addr demo_dev) with 16. split; [done|]. split; [done|]. simpl.
  unfold load64, store32, store64. by rewrite !load_store_disj by lia.
Qed.

Theorem send_clock_witness :
  match m2m_send (fun _ => 7) [demo_waits] [1; 2; 3] 1 0 demo_dev ∅ with
  | Ret (rc, d', m') => exists m3, load32 m3 (cf_addr demo_dev + off_dataflag) <> 77 /\
      (rc = if load32 m3 (cf_addr demo_dev + off_dataflag) =? 44
            then M2M_TRANS_FAIL else M2M_TRANS_SUCCESS) /\
      (let arrival := load64 m3 (cf_addr demo_dev + off_transtime) in
       load64 m' (lt_addr demo_dev) = arrival /\ get_vpmu_time (dv_clock d') = arrival /\
       TotalTransTimes (dv_vnd d') = 
         u64 (TotalTransTimes (dv_vnd demo_dev) + (arrival - get_vpmu_time (dv_clock demo_dev)))) /\
      netsend_count (dv_clock d') = u64 (netsend_count (dv_clock demo_dev) + 1)
  | _ => False
  end.
Proof.
  destruct (m2m_send (fun _ => 7) [demo_waits] [1; 2; 3] 1 0 demo_dev ∅) as [[[rc d'] m']| |] eqn:E.
  - assert (H1 : Z.of_nat (length [1; 2; 3]) <= HEADER_QUEUE_ENTRY_SIZE) by (vm_compute; discriminate).
    assert (H2 : 0 <= 1 <= TotalDeviceNum (dv_vnd demo_dev)) by (vm_compute; split; discriminate).
    assert (H3 : u32 1 <> DeviceID (dv_vnd demo_dev)) by (vm_compute; discriminate).
    assert (H4 : dev_is (dv_vnd demo_dev) ZR = false) by (vm_compute; reflexivity).
    assert (H5 : even_ix (producer (Q := post_queue demo_dev) ∅)) by (left; vm_compute; reflexivity).
    exact (send_clock (fun _ => 7) demo_waits [1; 2; 3] 1 0 demo_dev ∅ rc d' m' H1 H2 H3 H4
      demo_clock_apart H5 demo_keeps E).
  - vm_compute in E. discriminate E.
  - vm_compute in E. discriminate E.
Defined.

(** The clock after a receive: when a message is in the queue at the poll,
    [m2m_recv] returns its payload, the queue's entry is released, and the
    receiver's clock becomes the later of its own time and the arrival time of
    the message, the difference being added to [TotalTransTimes]. *)
Theorem recv_clock e es senderID d m :
  let Q := recv_queue d in
  let m1 := e m in
  senderID = -1 \/ (0 <= senderID <= TotalDeviceNum (dv_vnd d) /\ u32 senderID <> DeviceID (dv_vnd d)) ->
  dev_is (dv_vnd d) ZR = false -> saved_ok d -> clock_apart d Q -> HQueueLayout (H := Q) ->
  even_ix (consumer (Q := Q) m1) -> PacketSize (head_header (Q := Q) m1) <= HEADER_QUEUE_ENTRY_SIZE ->
  producer (Q := Q) m1 <> consumer (Q := Q) m1 -> EntryNum (head_header (Q := Q) m1) = -1 ->
  let h := head_header (Q := Q) m1 in
  let now := get_vpmu_time (dv_clock d) in
  let arrival := u64 (SendTime h + TransTime h) in
  exists d' m', m2m_recv (e :: es) senderID d m = Ret (M2M_SUCCESS, Some (head_data (Q := Q) m1), d', m') /\
    load64 m' (lt_addr d) = Z.max now arrival /\ get_vpmu_time (dv_clock d') = Z.max now arrival /\
    TotalTransTimes (dv_vnd d') =
      (if now <? arrival then u64 (TotalTransTimes (dv_vnd d) + (arrival - now))
       else TotalTransTimes (dv_vnd d)) /\
    consumer (Q := Q) m' = u32 (consumer (Q := Q) m1 + 2) mod 4.
Proof.
  intros Q m1 Hid Hzr Hsv A L Hev Hsz Hne Hent h now arrival.
  destruct (get_local_run d m1 Hzr Hsv A L Hev Hsz Hne Hent)
    as (d' & m' & Hrun & H1 & H2 & H3 & _ & H5 & _).
  unfold m2m_recv.
  assert (Hguard : negb (senderID =? -1) &&
    ((u32 senderID =? DeviceID (dv_vnd d)) || (TotalDeviceNum (dv_vnd d) <? senderID) || (senderID <? 0)) = false).
  { destruct Hid as [->|[Hr Hn]]; [done|].
    rewrite (proj2 (Z.eqb_neq (u32 senderID) _) Hn), (proj2 (Z.ltb_ge _ _)), (proj2 (Z.ltb_ge _ _)) by lia.
    by rewrite andb_false_r. }
  rewrite Hguard. cbn [recv_loop]. fold m1. rewrite Hrun. cbn [mbind run_bind].
  rewrite bool_decide_true by done. cbn [orb mbind run_bind].
  do 2 eexists. split; [done|]. simpl. done.
Qed.

(** A message from node 1, sent at 3000 with a hop of 500, in the device's queue. *)
Definition demo_inbox : mem :=
  publish (Q := recv_queue demo_dev)
    (put_data (Q := recv_queue demo_dev) [5; 6]
       (put_header (Q := recv_queue demo_dev) (mk_HQe 0 2 1 2 1 (-1) 3000 500) ∅)).


Lemma demo_recv_entry e : 0 <= e < 4 -> @hq_entry (recv_queue demo_dev) e = 3000 + 128 * e.
Proof.
  intros He. assert (e = 0 \/ e = 1 \/ e = 2 \/ e = 3) as [->|[->|[-> | ->]]] by lia;
    vm_compute; reflexivity.
Qed.

Lemma demo_recv_meta : @hq_meta (recv_queue demo_dev) = 3512.
Proof. vm_compute. reflexivity. Qed.

Lemma demo_recv_layout : HQueueLayout (H := recv_queue demo_dev).
Proof.
  constructor.
  - intros e e' He He' Hne. rewrite !demo_recv_entry by done. lia.
  - intros e He. rewrite demo_recv_entry, demo_recv_meta by done. lia.
Qed.

Lemma demo_recv_apart : clock_apart demo_dev (recv_queue demo_dev).
Proof.
  assert (El : lt_addr demo_dev = 16) by (vm_compute; reflexivity).
  assert (Ec : cf_addr demo_dev = 600) by (vm_compute; reflexivity).
  constructor; unfold apart; rewrite El, ?Ec.
  - intros e He. rewrite demo_recv_entry by done. lia.
  - rewrite demo_recv_meta. lia.
  - lia.
Qed.

Theorem recv_clock_witness :
  let Q := recv_queue demo_dev in
  let h := head_header (Q := Q) demo_inbox in
  let arrival := u64 (SendTime h + TransTime h) in
  arrival = 3500 /\
  exists d' m', m2m_recv [id] (-1) demo_dev demo_inbox =
      Ret (M2M_SUCCESS, Some (head_data (Q := Q) demo_inbox), d', m') /\
    load64 m' (lt_addr demo_dev) = Z.max (get_vpmu_time (dv_clock demo_dev)) arrival /\
    get_vpmu_time (dv_clock d') = Z.max (get_vpmu_time (dv_clock demo_dev)) arrival /\
    TotalTransTimes (dv_vnd d') =
      (if get_vpmu_time (dv_clock demo_dev) <? arrival
       then u64 (TotalTransTimes (dv_vnd demo_dev) + (arrival - get_vpmu_time (dv_clock demo_dev)))
       else TotalTransTimes (dv_vnd demo_dev)) /\
    consumer (Q := Q) m' = u32 (consumer (Q := Q) demo_inbox + 2) mod 4.
Proof.
  split; [vm_compute; reflexivity|].
  assert (H1 : dev_is (dv_vnd demo_dev) ZR = false) by (vm_compute; reflexivity).
  assert (H2 : saved_ok demo_dev) by (left; reflexivity).
  assert (H3 : even_ix (consumer (Q := recv_queue demo_dev) demo_inbox)) by (left; vm_compute; reflexivity).
  assert (H4 : PacketSize (head_header (Q := recv_queue demo_dev) demo_inbox) <= HEADER_QUEUE_ENTRY_SIZE)
    by (vm_compute; discriminate).
  assert (H5 : producer (Q := recv_queue demo_dev) demo_inbox <> consumer (Q := recv_queue demo_dev) demo_inbox)
    by (vm_compute; discriminate).
  assert (H6 : EntryNum (head_header (Q := recv_queue demo_dev) demo_inbox) = -1) by (vm_compute; reflexivity).
  exact (recv_clock id [] (-1) demo_dev demo_inbox (or_introl eq_refl) H1 H2 demo_recv_apart
    demo_recv_layout H3 H4 H5 H6).
Defined.


(** A sender, number 3, whose neighbour is the device above: it posts into that
    device's queue; its control flag is at 640. *)
Definition demo_sender : dev :=
  mk_dev (mk_topo ∅ ∅ (add_link ∅ 2 3) ∅ ∅ ∅
            (mk_VND 3 (∅ : arr).[0 <- 90].[1 <- 69].[2 <- 68] 3 ∅ (∅ : arr).[0 <- 2] 1 0 0 0 0 0 0))
    (mk_dbp (∅ : arr).[3 <- 24] ∅ ∅ ∅ ∅ (∅ : arr).[3 <- 640]
       (m2m_hq_meta_start demo_dbp) (m2m_hq_buffer_start demo_dbp))
    (mk_sync 0 0 0 ∅ ∅) route_st0 (mk_clock 2000 0 0 0 0) 0 0.

Lemma demo_sender_queue : recv_queue demo_dev = post_queue demo_sender.
Proof.
  unfold recv_queue, post_queue.
  replace (dev_is (dv_vnd demo_dev) ZED) with true by (vm_compute; reflexivity).
  replace (dev_is (dv_vnd demo_sender) ZED) with true by (vm_compute; reflexivity).
  reflexivity.
Qed.

Lemma demo_sender_flag : flag_apart demo_sender (post_queue demo_sender).
Proof.
  rewrite <- demo_sender_queue.
  assert (Ec : cf_addr demo_sender = 640) by (vm_compute; reflexivity).
  constructor; unfold apart; rewrite Ec.
  - intros e He. rewrite demo_recv_entry by done. lia.
  - rewrite demo_recv_meta. lia.
Qed.

Definition demo_msg : m2m_HQe := mk_HQe 0 2 3 2 3 (-1) 3000 500.
Definition demo_posted1 : mem := write_HQe ∅ (hq_entry (HQueue := post_queue demo_sender) 0) demo_msg.
Definition demo_posted : mem :=
  publish (Q := post_queue demo_sender)
    (store64 (store32 (put_data (Q := post_queue demo_sender) [5; 6] demo_posted1) 640 77) 644 0).


(** A message that does not fit a queue entry is lost without a trace: for
    more than 128 bytes [m2m_send] takes the branch of the large scheme, which is
    empty, counts the event and reports success; nothing is written to the
    segment and nobody is waited for. *)
Theorem send_large_dropped rnd ws data receiverID tag d m :
  0 <= receiverID <= TotalDeviceNum (dv_vnd d) -> u32 receiverID <> DeviceID (dv_vnd d) ->
  HEADER_QUEUE_ENTRY_SIZE < Z.of_nat (length data) ->
  m2m_send rnd ws data receiverID tag d m = Ret (M2M_TRANS_SUCCESS, with_clock count_send d, m).
Proof.
  intros Hr Hne Hl. unfold m2m_send.
  rewrite (proj2 (Z.eqb_neq _ _) Hne), (proj2 (Z.ltb_ge _ _)), (proj2 (Z.ltb_ge _ _)) by lia.
  rewrite (proj2 (Z.leb_gt _ _) Hl). reflexivity.
Qed.

Theorem send_large_dropped_witness :
  m2m_send (fun _ => 7) [] (replicate 129 1) 1 0 demo_dev ∅ =
    Ret (M2M_TRANS_SUCCESS, with_clock count_send demo_dev, ∅).
Proof.
  assert (H2 : 0 <= 1 <= TotalDeviceNum (dv_vnd demo_dev)) by (vm_compute; split; discriminate).
  assert (H3 : u32 1 <> DeviceID (dv_vnd demo_dev)) by (vm_compute; discriminate).
  assert (H4 : HEADER_QUEUE_ENTRY_SIZE < Z.of_nat (length (replicate 129 1))) by (vm_compute; reflexivity).
  exact (send_large_dropped (fun _ => 7) [] (replicate 129 1) 1 0 demo_dev ∅ H2 H3 H4).
Defined.

(** Node 0 does not exist, but the guard of [m2m_send] lets the number
    through (it refuses only negative ones).  [prev[0]] is never written and
    holds 0, so the recursion of [routePath] never ends, whatever its depth, and
    the send never returns. *)
Theorem send_to_zero_diverges rnd w ws data tag d m :
  (prev (rt_dij (dv_route d))).[0] = 0 -> 0 <= TotalDeviceNum (dv_vnd d) -> DeviceID (dv_vnd d) <> 0 ->
  Z.of_nat (length data) <= HEADER_QUEUE_ENTRY_SIZE ->
  (forall fuel ps, routePath fuel (prev (dijkstra (t_NODE_MAP (dv_topo d)) (TotalDeviceNum (dv_vnd d))
      (DeviceID (dv_vnd d)) (rt_dij (dv_route d)))) 0 ps = None) /\
  m2m_send rnd (w :: ws) data 0 tag d m = Spin.
Proof.
  intros H0 Hn Hid Hl.
  assert (Hp : (prev (dijkstra (t_NODE_MAP (dv_topo d)) (TotalDeviceNum (dv_vnd d))
    (DeviceID (dv_vnd d)) (rt_dij (dv_route d)))).[0] = 0) by (by rewrite dijkstra_prev0).
  split; [intros; by apply routePath_cycle0|].
  unfold m2m_send. change (u32 0) with 0.
  rewrite (proj2 (Z.eqb_neq _ _)), (proj2 (Z.ltb_ge _ _) Hn) by congruence.
  rewrite (proj2 (Z.leb_le _ _) Hl).
  cbn [orb send_loop]. unfold m2m_post_remote_msg, post_begin, route_discovery.
  by rewrite routePath_cycle0.
Qed.

Theorem send_to_zero_diverges_witness :
  m2m_send (fun _ => 7) [demo_waits] [1; 2; 3] 0 0 demo_dev ∅ = Spin.
Proof.
  assert (H0 : (prev (rt_dij (dv_route demo_dev))).[0] = 0) by (vm_compute; reflexivity).
  assert (H2 : 0 <= TotalDeviceNum (dv_vnd demo_dev)) by (vm_compute; discriminate).
  assert (H3 : DeviceID (dv_vnd demo_dev) <> 0) by (vm_compute; discriminate).
  assert (H4 : Z.of_nat (length [1; 2; 3]) <= HEADER_QUEUE_ENTRY_SIZE) by (vm_compute; discriminate).
  exact (proj2 (send_to_zero_diverges (fun _ => 7) demo_waits [] [1; 2; 3] 0 demo_dev ∅ H0 H2 H3 H4)).
Defined.
