(* ===== verification/Router.v ===== *)
(** * The routing thread ([hw/m2m_route_processor.c])

    A coordinator or router runs one thread that takes packets from the header
    queues of its own area (one per neighbour and, in a coordinator, one for the
    packets of its own CPU), always the one that arrives first, and hands each
    to its own CPU or to the next hop.  One round is: wait for a packet, find
    the earliest one, wait until the neighbours' clocks have come close to its
    time (a conservative discrete-event simulation), deliver or forward.

    As in [SendRecv] the other processes are functions on the segment: one per
    pass of a wait for packets, one per neighbour looked at in the wait for the
    clocks, one per wait for room in a queue.  A round in which a wait has not
    ended is [Spin].  Log files and [usleep] are left out. *)
From S2P Require Import Prelude Mem Config Route Topology Layout Timing HeaderQueue SendRecv.

(** ** m2m_route_processor_init and _exit *)

(** The neighbours by kind: who a router takes its time from. *)
Definition sort_neighbor (t : topo) (sy : sync) (ind : Z) : sync :=
  let x := (Neighbors (GlobalVND t)).[ind] in
  if streq (node_type t x) ZED
  then mk_sync (if neighbor_end sy =? 0 then neighbor_end sy + 1 else neighbor_end sy)
         (end_count sy + 1) (router_count sy)
         (neighbor_end_list sy).[end_count sy <- x] (neighbor_router_list sy)
  else mk_sync (neighbor_end sy) (end_count sy) (router_count sy + 1)
         (neighbor_end_list sy) (neighbor_router_list sy).[router_count sy <- x].

(** The second component: whether a routing thread is started. *)
Definition m2m_route_processor_init (t : topo) (sy : sync) : M2M_ERR_T * bool * sync :=
  let sy := mk_sync 0 0 0 (neighbor_end_list sy) (neighbor_router_list sy) in
  if dev_is (GlobalVND t) ZED then (M2M_SUCCESS, false, sy)
  else (M2M_SUCCESS, true, forZ 0 (Z.to_nat (NeighborNum (GlobalVND t))) (sort_neighbor t) sy).

(** The second component: whether a routing thread is cancelled. *)
Definition m2m_route_processor_exit (v : VND) (sy : sync) : M2M_ERR_T * bool * sync :=
  (M2M_SUCCESS, negb (dev_is v ZED),
   mk_sync 0 0 0 (neighbor_end_list sy) (neighbor_router_list sy)).

(** ** The queues of the thread *)

Definition search_num (v : VND) : Z :=
  if dev_is v ZR then NeighborNum v else NeighborNum v + 1.

(** Search position to queue number, and to the node that fills the queue. *)
Definition queue_no (v : VND) (index : Z) : Z :=
  if index =? NeighborNum v then NODE_MAX_LINKS + 1 else index.
Definition owner (v : VND) (index : Z) : Z :=
  if index =? NeighborNum v then DeviceID v else u32 (Neighbors v).[index].

Definition own_queue (b : dbp) (q : Z) : HQueue :=
  {| hq_meta := (m2m_hq_meta_start b).[q]; hq_entry := fun e => hq_buffer b q e |}.
Definition next_queue (b : dbp) (c : Z) : HQueue :=
  {| hq_meta := (m2m_remote_hq_meta_start b).[c]; hq_entry := fun e => remote_hq_buffer b c e |}.

(** [if ZR: *router_localtime_ptr = time_sync();] *)
Definition sync_router (d : dev) (m : mem) : mem :=
  if dev_is (dv_vnd d) ZR then sync_clock d m else m.

(** ** Waiting for a packet *)

Fixpoint packet_scan (n : nat) (d : dev) (m : mem) (index : Z) : bool :=
  match n with
  | O => false
  | S n' => if hq_nonempty (Q := own_queue (dv_dbp d) (queue_no (dv_vnd d) index)) m then true
            else packet_scan n' d m (index + 1)
  end.

Fixpoint wait_packet (es : list (mem -> mem)) (d : dev) (m : mem) : run mem :=
  match es with
  | [] => Spin
  | e :: es' =>
      let m := e m in
      let found := packet_scan (Z.to_nat (search_num (dv_vnd d))) d m 0 in
      let m := sync_router d m in
      if found then Ret m else wait_packet es' d m
  end.

(** ** The earliest packet *)

Record pick := mk_pick {
  packet_mintime : Z; packet_sendtime : Z; packet_from : Z; packet_next : Z; packet_ind : Z }.

Definition no_pick : pick := mk_pick MAX_TIME MAX_TIME (2 ^ 32 - 1) (2 ^ 32 - 1) (2 ^ 32 - 1).

Definition arrival_time (h : m2m_HQe) : Z := u64 (SendTime h + TransTime h).

Definition earlier (h : m2m_HQe) (p : pick) : bool :=
  (arrival_time h <? packet_mintime p) ||
  ((packet_mintime p =? arrival_time h) && (SendTime h <? packet_sendtime p)).

(** The packet [h] at the head of queue [q] becomes the current one. *)
Definition take_packet (q : Z) (h : m2m_HQe) (d : dev) : run (pick * dev) :=
  let v := dv_vnd d in
  let p next := mk_pick (arrival_time h) (SendTime h) (ForwardID h) next q in
  if DeviceID v =? ReceiverID h then Ret (p (DeviceID v), d)
  else match route_discovery (t_NODE_MAP (dv_topo d)) (TotalDeviceNum v) (DeviceID v)
               (s32 (ReceiverID h)) (dv_route d) with
       | None => Spin
       | Some (next, r) => Ret (p (u32 next), with_route r d)
       end.

Definition look_at (m : mem) (s : pick * dev) (index : Z) : run (pick * dev) :=
  let '(p, d) := s in
  let q := queue_no (dv_vnd d) index in
  if hq_nonempty (Q := own_queue (dv_dbp d) q) m then
    let h := head_header (Q := own_queue (dv_dbp d) q) m in
    if earlier h p then take_packet q h d else Ret (p, d)
  else Ret (p, d).

Definition find_earliest (d : dev) (m : mem) : run (pick * dev) :=
  forMZ 0 (Z.to_nat (search_num (dv_vnd d))) (look_at m) (no_pick, d).

(** ** Waiting for the neighbours' clocks *)

Record deadline := mk_deadline {
  dl_pick : pick; dl_dev : dev; dl_mem : mem;
  neigbor_device_deadline : arr; deadline_count : Z }.

(** One neighbour: an earlier packet restarts the wait; otherwise its clock is
    compared, once, with the packet's time less [one_hop] (the value of
    [one_hop_latency("zigbee")]). *)
Definition deadline_index (one_hop : Z) (e : Z -> mem -> mem) (s : deadline) (index : Z)
  : run deadline :=
  let d := dl_dev s in
  let v := dv_vnd d in
  let q := queue_no v index in
  let m := e index (dl_mem s) in
  '(p, d, flags, count) ←
    (if hq_nonempty (Q := own_queue (dv_dbp d) q) m &&
        earlier (head_header (Q := own_queue (dv_dbp d) q) m) (dl_pick s)
     then '(p, d) ← take_packet q (head_header (Q := own_queue (dv_dbp d) q) m) d;
          Ret (p, d, ∅ : arr, 0)
     else Ret (dl_pick s, d, neigbor_device_deadline s, deadline_count s));
  if negb (flags.[q] =? 1) && negb (packet_from p =? owner v index) then
    let tmp_packet_mintime :=
      if one_hop <? packet_mintime p then packet_mintime p - one_hop else 0 in
    if tmp_packet_mintime <=? load64 m (m2m_localtime_start (dv_dbp d)).[owner v index]
    then Ret (mk_deadline p d m flags.[q <- 1] (count + 1))
    else Ret (mk_deadline p d m flags count)
  else Ret (mk_deadline p d m flags count).

Definition deadline_pass (one_hop : Z) (e : Z -> mem -> mem) (s : deadline) : run deadline :=
  s ← forMZ 0 (Z.to_nat (search_num (dv_vnd (dl_dev s)))) (deadline_index one_hop e) s;
  Ret (mk_deadline (dl_pick s) (dl_dev s) (sync_router (dl_dev s) (dl_mem s))
         (neigbor_device_deadline s) (deadline_count s)).

(** [while(!deadline)] *)
Fixpoint deadline_loop (one_hop : Z) (es : list (Z -> mem -> mem)) (s : deadline) : run deadline :=
  match es with
  | [] => Spin
  | e :: es' =>
      s ← deadline_pass one_hop e s;
      if deadline_count s =? search_num (dv_vnd (dl_dev s)) - 2 then Ret s
      else deadline_loop one_hop es' s
  end.

Definition wait_clocks (one_hop : Z) (es : list (Z -> mem -> mem)) (p : pick) (d : dev) (m : mem)
  : run (pick * dev * mem) :=
  if 2 <? search_num (dv_vnd d) then
    s ← deadline_loop one_hop es (mk_deadline p d m ∅ 0);
    Ret (dl_pick s, dl_dev s, dl_mem s)
  else Ret (p, d, m).

(** ** Handing the packet on *)

(** The small scheme: header, payload, the source entry freed, the copy
    published.  [fp], [tp] are the entries the headers are in. *)
Definition transfer (F T : HQueue) (fp tp : Z) (w1 w2 : mem -> mem) (m : mem) : run mem :=
  let m := w1 m in
  if hq_room (Q := T) 1 m then
    let m := memcpy m tp fp sizeof_HQe in
    let m := w2 m in
    if hq_room (Q := T) 2 m then
      let tp' := hq_entry (HQueue := T) (u32 (producer (Q := T) m + 1) mod HEADER_QUEUE_ENTRY_NUM) in
      let fp' := hq_entry (HQueue := F) (u32 (consumer (Q := F) m + 1) mod HEADER_QUEUE_ENTRY_NUM) in
      let m := memcpy m tp' fp' (Z.to_nat (PacketSize (read_HQe m fp))) in
      Ret (publish (Q := T) (release (Q := F) m))
    else Spin
  else Spin.

(** The original sender's control flag. *)
Definition signal_sender (d : dev) (h : m2m_HQe) (transtime dataflag : Z) (m : mem) : mem :=
  let hq_conflag := (m2m_hq_conflag_start (dv_dbp d)).[SenderID h] in
  store32 (store64 m (hq_conflag + off_transtime) transtime) (hq_conflag + off_dataflag) dataflag.

(** The packet is for this node: to the queue its CPU receives from. *)
Definition deliver_self (w1 w2 : mem -> mem) (ind : Z) (d : dev) (router_localtime : Z) (m : mem)
  : run (Z * mem) :=
  let F := own_queue (dv_dbp d) ind in
  let T := own_queue (dv_dbp d) NODE_MAX_LINKS in
  let fp := hq_entry (HQueue := F) (consumer (Q := F) m) in
  let tp := hq_entry (HQueue := T) (producer (Q := T) m) in
  let send := SendTime (read_HQe m fp) in
  let '(t, m) := if send <? router_localtime
                 then (router_localtime, store64 m (fp + off_SendTime) router_localtime)
                 else (send, m) in
  m ← (if EntryNum (read_HQe m fp) =? -1 then transfer F T fp tp w1 w2 m else Ret m);
  let t := u64 (t + TransTime (read_HQe m fp)) in
  Ret (t, signal_sender d (read_HQe m fp) t 0 m).

(** [x + &fail_latency]: pointer arithmetic on a [uint64_t *], the 32-bit
    result converted to [uint64_t] with its sign. *)
Definition plus_pointer (x fail_addr : Z) : Z := u64 (s32 (fail_addr + 8 * x)).

(** The header rewritten for the next hop; the router's time catches up. *)
Definition restamp (rnd : nat -> Z) (fp : Z) (d : dev) (router_localtime : Z) (m : mem)
  : run (Z * dev * mem) :=
  let v := dv_vnd d in
  let t := Z.max router_localtime (SendTime (read_HQe m fp)) in
  let m := store32 m (fp + off_ForwardID) (DeviceID v) in
  let m := store64 m (fp + off_SendTime) t in
  let h := read_HQe m fp in
  if SenderID h =? DeviceID v then Ret (t, d, m)
  else
    let m := store64 m (fp + off_SendTime) (u64 (t + TransTime h)) in
    hp ← transmission_latency rnd (PacketSize h) v (dv_pos d);
    Ret (t, with_pos (hop_pos hp) (with_vnd (fun _ => hop_vnd hp) d),
         store64 m (fp + off_TransTime) (latency hp)).

Definition forward_packet (rnd : nat -> Z) (fail_addr : Z) (w1 w2 : mem -> mem) (ind next : Z) (d : dev)
    (router_localtime : Z) (m : mem) : run (Z * dev * mem) :=
  match find_neighbor (Z.to_nat (TotalDeviceNum (dv_vnd d))) (dv_vnd d) next 0 with
  | None => ProcExit
  | Some count =>
      let F := own_queue (dv_dbp d) ind in
      let T := next_queue (dv_dbp d) count in
      let fp := hq_entry (HQueue := F) (consumer (Q := F) m) in
      let tp := hq_entry (HQueue := T) (producer (Q := T) m) in
      '(t, d, m) ← restamp rnd fp d router_localtime m;
      let h := read_HQe m fp in
      if TransTime h =? 0 then
        if EntryNum h =? -1
        then Ret (plus_pointer t fail_addr, d,
                  release (Q := F) (signal_sender d h (plus_pointer (SendTime h) fail_addr) 44 m))
        else Ret (t, d, m)
      else
        let t := u64 (t + TransTime h) in
        m ← (if EntryNum h =? -1 then transfer F T fp tp w1 w2 m else Ret m);
        let h := read_HQe m fp in
        Ret (t, d, if (ReceiverID h =? next) && streq (node_type (dv_topo d) next) ZED
                   then signal_sender d h t 0 m else m)
  end.

(** ** One round of [while(1)], and the thread *)

Record round_env := mk_round_env {
  re_packet : list (mem -> mem); re_clocks : list (Z -> mem -> mem);
  re_room1 : mem -> mem; re_room2 : mem -> mem }.

Definition route_round (rnd : nat -> Z) (one_hop fail_addr : Z) (e : round_env)
    (s : Z * dev * mem) : run (Z * dev * mem) :=
  let '(router_localtime, d, m) := s in
  m ← wait_packet (re_packet e) d m;
  '(p, d) ← find_earliest d m;
  '(p, d, m) ← wait_clocks one_hop (re_clocks e) p d m;
  if packet_next p =? DeviceID (dv_vnd d)
  then '(t, m) ← deliver_self (re_room1 e) (re_room2 e) (packet_ind p) d router_localtime m;
       Ret (t, d, m)
  else forward_packet rnd fail_addr (re_room1 e) (re_room2 e) (packet_ind p) (packet_next p) d router_localtime m.

Definition m2m_route_processor_create (rnd : nat -> Z) (one_hop fail_addr : Z) (es : list round_env)
    (d : dev) (m : mem) : run (Z * dev * mem) :=
  let m := sync_router d m in
  foldl (fun s e => s ≫= route_round rnd one_hop fail_addr e) (Ret (0, d, m)) es.

(** ** Choosing the earliest packet *)

Definition full_at (d : dev) (m : mem) (i : Z) : Prop :=
  hq_nonempty (Q := own_queue (dv_dbp d) (queue_no (dv_vnd d) i)) m = true.
Definition head_at (d : dev) (m : mem) (i : Z) : m2m_HQe :=
  head_header (Q := own_queue (dv_dbp d) (queue_no (dv_vnd d) i)) m.

(** The order of the simulation: arrival, then sending time. *)
Definition key_le (a b : Z * Z) : Prop := a.1 < b.1 \/ (a.1 = b.1 /\ a.2 <= b.2).
Definition header_key (h : m2m_HQe) : Z * Z := (arrival_time h, SendTime h).
Definition pick_key (p : pick) : Z * Z := (packet_mintime p, packet_sendtime p).

Lemma key_le_refl a : key_le a a.
Proof. right. lia. Qed.

Lemma key_le_trans a b c : key_le a b -> key_le b c -> key_le a c.
Proof. unfold key_le. lia. Qed.

Lemma earlier_spec h p :
  if earlier h p then key_le (header_key h) (pick_key p) /\ header_key h <> pick_key p
  else key_le (pick_key p) (header_key h).
Proof.
  unfold earlier, key_le, header_key, pick_key; simpl.
  destruct (Z.ltb_spec (arrival_time h) (packet_mintime p)); simpl.
  - split; [by left|]. intros [= ? ?]. lia.
  - destruct (Z.eqb_spec (packet_mintime p) (arrival_time h)); simpl; [|lia].
    destruct (Z.ltb_spec (SendTime h) (packet_sendtime p)); [|lia].
    split; [lia|]. intros [= ? ?]. lia.
Qed.

(** The next hop of a packet, as the routing theorem has it. *)
Definition next_hop_ok (d : dev) (h : m2m_HQe) (next : Z) : Prop :=
  let g := t_NODE_MAP (dv_topo d) in
  let n := TotalDeviceNum (dv_vnd d) in
  let me := DeviceID (dv_vnd d) in
  (ReceiverID h = me -> next = me) /\
  forall k, 0 < k -> hop_dist g n k me (ReceiverID h) ->
    linked g me next /\ hop_dist g n (k - 1) next (ReceiverID h).

(** The current packet is the one at the head of position [i]. *)
Definition pick_of (d : dev) (m : mem) (i : Z) (p : pick) : Prop :=
  let h := head_at d m i in
  pick_key p = header_key h /\ packet_from p = ForwardID h /\
  packet_ind p = queue_no (dv_vnd d) i /\ next_hop_ok d h (packet_next p).

Lemma with_route_id d : with_route (dv_route d) d = d.
Proof. by destruct d. Qed.

Section Earliest.
Context (d : dev) (m : mem).
Let g := t_NODE_MAP (dv_topo d).
Let n := TotalDeviceNum (dv_vnd d).
Hypothesis Hunit : unit_links g.
Hypothesis Hn : n < MAX_NODE_NUM.
Hypothesis Hme : in_net n (DeviceID (dv_vnd d)).

Lemma take_packet_run q h r :
  in_net n (ReceiverID h) ->
  exists p r', take_packet q h (with_route r d) = Ret (p, with_route r' d) /\
    pick_key p = header_key h /\ packet_from p = ForwardID h /\ packet_ind p = q /\
    next_hop_ok d h (packet_next p).
Proof.
  intros Hr. unfold take_packet. change (dv_vnd (with_route r d)) with (dv_vnd d).
  change (dv_topo (with_route r d)) with (dv_topo d). cbn [dv_route with_route]. fold n g.
  destruct (Z.eqb_spec (DeviceID (dv_vnd d)) (ReceiverID h)) as [E|E].
  - do 2 eexists. split; [done|]. do 3 (split; [done|]). split; [done|].
    intros k Hk Hd. rewrite E in Hd. apply hop_dist_0 in Hd. lia.
  - rewrite s32_small by (unfold in_net, MAX_NODE_NUM in *; lia).
    destruct (route_discovery_some g n (DeviceID (dv_vnd d)) (ReceiverID h) r Hunit Hme Hr) as [[nx r'] Er].
    rewrite Er. do 2 eexists. split; [done|]. do 3 (split; [done|]). split; [congruence|].
    intros k Hk Hd. fold g n in Hd |- *. simpl.
    destruct (route_discovery_hop g n k (DeviceID (dv_vnd d)) (ReceiverID h) r Hunit Hn Hd Hk)
      as (h' & r'' & Er' & Hin & Hl & Hd' & _).
    rewrite Er in Er'. injection Er' as <- <-.
    rewrite u32_small by (unfold in_net, MAX_NODE_NUM in *; lia). done.
Qed.

(** Every packet waiting has a receiver in the network and a possible time. *)
Hypothesis Hheads : forall i, 0 <= i < search_num (dv_vnd d) -> full_at d m i ->
  in_net n (ReceiverID (head_at d m i)) /\ SendTime (head_at d m i) < MAX_TIME.

Lemma find_earliest_upto (k : nat) :
  Z.of_nat k <= search_num (dv_vnd d) ->
  exists p r, forMZ 0 k (look_at m) (no_pick, d) = Ret (p, with_route r d) /\
    (forall j, 0 <= j < Z.of_nat k -> full_at d m j -> key_le (pick_key p) (header_key (head_at d m j))) /\
    ((p = no_pick /\ forall j, 0 <= j < Z.of_nat k -> ~ full_at d m j) \/
     exists i, 0 <= i < Z.of_nat k /\ full_at d m i /\ pick_of d m i p).
Proof.
  induction k as [|k IH]; intros Hk.
  - exists no_pick, (dv_route d). rewrite with_route_id. split; [done|]. split; [lia|]. left. split; [done|lia].
  - destruct IH as (p & r & Er & Hmin & Hp); [lia|]. rewrite forMZ_S, Er.
    cbn [mbind run_bind look_at].
    change (dv_vnd (with_route r d)) with (dv_vnd d). change (dv_dbp (with_route r d)) with (dv_dbp d).
    rewrite Z.add_0_l. replace (Z.of_nat (S k)) with (Z.of_nat k + 1) in * by lia.
    assert (Hi0 : 0 <= Z.of_nat k) by lia. set (i := Z.of_nat k) in *. clearbody i. fold (head_at d m i).
    destruct (hq_nonempty m) eqn:Hf.
    2: { exists p, r. split; [done|]. split.
         - intros j Hj Hjf. apply Hmin; [|done]. destruct (decide (j = i)) as [->|]; [|lia].
           unfold full_at in Hjf. congruence.
         - destruct Hp as [[-> Hp]|(j & Hj & Hp)]; [left|right; exists j; split; [lia|done]].
           split; [done|]. intros j Hj Hjf. destruct (decide (j = i)) as [->|];
             [unfold full_at in Hjf; congruence|]. apply (Hp j); [lia|done]. }
    fold (full_at d m i) in Hf. destruct (Hheads i ltac:(lia) Hf) as [Hrc Hst].
    pose proof (earlier_spec (head_at d m i) p) as He.
    destruct (earlier (head_at d m i) p) eqn:Hearly.
    + destruct (take_packet_run (queue_no (dv_vnd d) i) (head_at d m i) r Hrc)
        as (p' & r' & -> & Hk1 & Hk2 & Hk3 & Hk4).
      exists p', r'. split; [done|]. split.
      * intros j Hj Hjf. rewrite Hk1. destruct (decide (j = i)) as [->|]; [apply key_le_refl|].
        eapply key_le_trans; [apply He|]. apply Hmin; [lia|done].
      * right. exists i. split; [lia|]. done.
    + exists p, r. split; [done|]. split.
      * intros j Hj Hjf. destruct (decide (j = i)) as [->|]; [done|]. apply Hmin; [lia|done].
      * right. destruct Hp as [[-> Hp]|(j & Hj & Hp)]; [|exists j; split; [lia|done]].
        exfalso. unfold key_le, pick_key, header_key, no_pick in He.
        cbn [fst snd packet_mintime packet_sendtime] in He.
        pose proof (u64_range (SendTime (head_at d m i) + TransTime (head_at d m i))).
        unfold arrival_time, MAX_TIME in *. lia.
Qed.
End Earliest.

(** ** The wait for the clocks *)

Definition positions (v : VND) : list Z := seqZ 0 (search_num v).

(** The positions whose clock was found late enough. *)
Definition flagged (v : VND) (flags : arr) : list Z :=
  filter (fun i => flags.[queue_no v i] = 1) (positions v).

Definition clock_at (d : dev) (m : mem) (i : Z) : Z :=
  load64 m (m2m_localtime_start (dv_dbp d)).[owner (dv_vnd d) i].

Lemma queue_no_inj v i j :
  0 <= NeighborNum v <= NODE_MAX_LINKS -> 0 <= i <= NeighborNum v -> 0 <= j <= NeighborNum v ->
  queue_no v i = queue_no v j -> i = j.
Proof.
  unfold queue_no, NODE_MAX_LINKS. intros Hn Hi Hj.
  destruct (Z.eqb_spec i (NeighborNum v)), (Z.eqb_spec j (NeighborNum v)); lia.
Qed.

Lemma search_num_bound v : 0 <= NeighborNum v -> 0 <= search_num v <= NeighborNum v + 1.
Proof. unfold search_num. destruct (dev_is v ZR); lia. Qed.

Lemma elem_of_positions v i : i ∈ positions v <-> 0 <= i < search_num v.
Proof. unfold positions. rewrite elem_of_seqZ. lia. Qed.

Lemma flagged_empty v : flagged v ∅ = [].
Proof.
  unfold flagged. generalize (positions v). intros l. induction l as [|x l IH]; [done|].
  rewrite filter_cons_False; [done|]. rewrite aget_empty. done.
Qed.

Lemma filter_set_queue v flags i (l : list Z) :
  NoDup l -> i ∈ l -> flags.[queue_no v i] <> 1 ->
  (forall j, j ∈ l -> queue_no v j = queue_no v i -> j = i) ->
  length (filter (fun j => flags.[queue_no v i <- 1].[queue_no v j] = 1) l) =
  S (length (filter (fun j => flags.[queue_no v j] = 1) l)).
Proof.
  intros Hnd Hin Hx. induction l as [|y l IH]; intros Hinj; [by apply not_elem_of_nil in Hin|].
  apply NoDup_cons in Hnd as [Hy Hnd]. destruct (decide (y = i)) as [->|Hne].
  - rewrite filter_cons_True by apply aget_aset_eq. rewrite filter_cons_False by done.
    simpl. f_equal. f_equal. apply filter_ext_in. intros z Hz. rewrite aget_aset_ne; [done|].
    intros E. symmetry in E. apply Hinj in E; [|by right]. by subst z.
  - apply elem_of_cons in Hin as [->|Hin]; [done|].
    assert (Hq : queue_no v i <> queue_no v y) by (intros E; symmetry in E; apply Hinj in E; [done|by left]).
    specialize (IH Hnd Hin ltac:(intros; apply Hinj; [by right|done])).
    destruct (decide (flags.[queue_no v y] = 1)).
    + rewrite !filter_cons_True; [simpl; by rewrite IH|done|by rewrite aget_aset_ne].
    + rewrite !filter_cons_False; [done|done|by rewrite aget_aset_ne].
Qed.

Lemma flagged_set v flags i :
  0 <= NeighborNum v <= NODE_MAX_LINKS -> 0 <= i < search_num v -> flags.[queue_no v i] <> 1 ->
  length (flagged v flags.[queue_no v i <- 1]) = S (length (flagged v flags)).
Proof.
  intros Hn Hi Hf. pose proof (search_num_bound v ltac:(lia)). apply filter_set_queue; [apply NoDup_seqZ| |done|].
  - by apply elem_of_positions.
  - intros j Hj%elem_of_positions. apply queue_no_inj; lia.
Qed.

Lemma take_packet_inv q h d p d' :
  take_packet q h d = Ret (p, d') ->
  (exists r, d' = with_route r d) /\ pick_key p = header_key h /\ packet_from p = ForwardID h /\
  packet_ind p = q.
Proof.
  unfold take_packet. destruct (_ =? _).
  - intros [= <- <-]. split; [|done]. exists (dv_route d). by rewrite with_route_id.
  - destruct (route_discovery _ _ _ _ _) as [[nx r]|]; [|done]. intros [= <- <-]. split; [by exists r|done].
Qed.

Section Deadline.
Context (d0 : dev) (p0 : pick) (one_hop : Z).
Let v := dv_vnd d0.
Hypothesis Hlinks : 0 <= NeighborNum v <= NODE_MAX_LINKS.

Record deadline_inv (s : deadline) : Prop := {
  di_dev : exists r, dl_dev s = with_route r d0;
  di_count : deadline_count s = Z.of_nat (length (flagged v (neigbor_device_deadline s)));
  di_key : key_le (pick_key (dl_pick s)) (pick_key p0);
  di_flag : forall i, 0 <= i < search_num v -> (neigbor_device_deadline s).[queue_no v i] = 1 ->
    owner v i <> packet_from (dl_pick s) /\
    packet_mintime (dl_pick s) - one_hop <= clock_at d0 (dl_mem s) i }.

(** The others move their clocks forward only. *)
Definition clocks_forward (f : mem -> mem) : Prop :=
  forall m i, 0 <= i < search_num v -> clock_at d0 m i <= clock_at d0 (f m) i.

Lemma deadline_index_inv e s index s' :
  clocks_forward (e index) -> 0 <= index < search_num v ->
  deadline_inv s -> deadline_index one_hop e s index = Ret s' -> deadline_inv s'.
Proof.
  intros Hfw Hi [[r Ed] Hc Hk Hfl]. unfold deadline_index. rewrite Ed.
  change (dv_vnd (with_route r d0)) with v. change (dv_dbp (with_route r d0)) with (dv_dbp d0).
  set (m := e index (dl_mem s)).
  assert (Hm : forall i, 0 <= i < search_num v -> clock_at d0 (dl_mem s) i <= clock_at d0 m i)
    by (intros; by apply Hfw).
  intros ([[[p d] flags] count] & Ht & H)%bind_Ret.
  assert (J : deadline_inv (mk_deadline p d m flags count)).
  { destruct (_ && _) eqn:Hg.
    - apply bind_Ret in Ht as ([p' d'] & Htk & [= <- <- <- <-]).
      apply take_packet_inv in Htk as ([r' ->] & Hkey & _).
      apply andb_prop in Hg as [_ Hearly].
      pose proof (earlier_spec (head_header (Q := own_queue (dv_dbp d0) (queue_no v index)) m) (dl_pick s)) as He.
      rewrite Hearly in He. split; simpl.
      + by exists r'.
      + by rewrite flagged_empty.
      + rewrite Hkey. eapply key_le_trans; [apply He|done].
      + intros i _. rewrite aget_empty. done.
    - injection Ht as <- <- <- <-. split; simpl; [by exists r|done|done|].
      intros i Hi' Hf. destruct (Hfl i Hi' Hf). split; [done|]. specialize (Hm i Hi'). lia. }
  destruct J as [[r' Ed'] Jc Jk Jf]; simpl in *.
  destruct (negb (flags.[queue_no v index] =? 1) && negb (packet_from p =? owner v index)) eqn:Hg.
  - apply andb_prop in Hg as [Hg1%negb_true_iff%Z.eqb_neq Hg2%negb_true_iff%Z.eqb_neq].
    assert (El : load64 m (m2m_localtime_start (dv_dbp d)).[owner v index] = clock_at d0 m index)
      by (by rewrite Ed').
    rewrite El in H. destruct (Z.leb_spec (if one_hop <? packet_mintime p then packet_mintime p - one_hop else 0)
      (clock_at d0 m index)) as [Hle|Hle]; injection H as <-; split; simpl; eauto.
    + rewrite flagged_set by done. lia.
    + intros i Hi' Hf. destruct (decide (queue_no v i = queue_no v index)) as [Eq|Nq].
      * pose proof (search_num_bound v ltac:(lia)).
        apply queue_no_inj in Eq as ->; [|done|lia|lia]. split; [congruence|].
        destruct (Z.ltb_spec one_hop (packet_mintime p)); [done|].
        pose proof (load64_range m (m2m_localtime_start (dv_dbp d0)).[owner v index]).
        unfold clock_at in *. fold v. lia.
      * rewrite aget_aset_ne in Hf by congruence. by apply Jf.
  - injection H as <-. split; simpl; eauto.
Qed.

(** A router's own clock cell lies apart from the neighbours'. *)
Hypothesis Hown : dev_is v ZR = true -> forall i, 0 <= i < search_num v ->
  apart (m2m_localtime_start (dv_dbp d0)).[owner v i] 8 (lt_addr d0) 8.

Lemma deadline_pass_inv e s s' :
  (forall i, clocks_forward (e i)) -> deadline_inv s -> deadline_pass one_hop e s = Ret s' ->
  deadline_inv s'.
Proof.
  intros Hfw Hs. unfold deadline_pass. intros (s1 & H1 & [= <-])%bind_Ret.
  assert (J : deadline_inv s1).
  { destruct (di_dev _ Hs) as [r0 Ed0]. rewrite Ed0 in H1.
    eapply (forMZ_ind (fun _ x => deadline_inv x)); [exact Hs| |exact H1].
    intros i x x' Hi Hx Hr. pose proof (search_num_bound v ltac:(lia)).
    eapply deadline_index_inv; [apply Hfw| |exact Hx|exact Hr].
    change (dv_vnd (with_route r0 d0)) with v in Hi. lia. }
  destruct J as [[r Ed] Jc Jk Jf]. split; simpl; [by exists r|done|done|].
  intros i Hi Hf. destruct (Jf i Hi Hf) as [H2 H3]. split; [done|].
  unfold sync_router. rewrite Ed. change (dv_vnd (with_route r d0)) with v.
  destruct (dev_is v ZR) eqn:Hzr; [|done]. unfold sync_clock, clock_at in *.
  change (lt_addr (with_route r d0)) with (lt_addr d0).
  specialize (Hown eq_refl i Hi). unfold apart in Hown.
  unfold load64, store64 in *. fold v in H3 |- *. rewrite load_store_disj by lia. exact H3.
Qed.

Lemma deadline_loop_inv es s s' :
  Forall (fun e => forall i, clocks_forward (e i)) es -> deadline_inv s ->
  deadline_loop one_hop es s = Ret s' ->
  deadline_inv s' /\ deadline_count s' = search_num v - 2.
Proof.
  intros Hes. revert s. induction Hes as [|e es He _ IH]; intros s Hs; [done|]. simpl.
  intros (s1 & H1 & H)%bind_Ret. pose proof (deadline_pass_inv e s s1 He Hs H1) as J.
  destruct (di_dev _ J) as [r Ed]. rewrite Ed in H. change (dv_vnd (with_route r d0)) with v in H.
  destruct (Z.eqb_spec (deadline_count s1) (search_num v - 2)); [injection H as <-; done|by apply IH in H].
Qed.
End Deadline.

(** ** A wait that does not end *)

Section Livelock.
Context (one_hop : Z) (p : pick) (d : dev) (m : mem) (i0 : Z).
Let v := dv_vnd d.
Hypothesis Hlinks : 0 <= NeighborNum v <= NODE_MAX_LINKS.
Hypothesis Hzc : dev_is v ZR = false.
Hypothesis Hi0 : 0 <= i0 < search_num v.
Hypothesis Hfrom : forall i, 0 <= i < search_num v -> (owner v i = packet_from p <-> i = i0).
Hypothesis Hfirst : forall i, 0 <= i < search_num v -> full_at d m i -> earlier (head_at d m i) p = false.
Hypothesis Hlate : forall i, 0 <= i < search_num v -> i <> i0 -> packet_mintime p - one_hop <= clock_at d m i.

(** Nobody moves. *)
Definition idle : Z -> mem -> mem := fun _ m => m.

Lemma idle_index flags count i :
  0 <= i < search_num v ->
  deadline_index one_hop idle (mk_deadline p d m flags count) i =
  Ret (if decide (flags.[queue_no v i] <> 1 /\ i <> i0)
       then mk_deadline p d m flags.[queue_no v i <- 1] (count + 1)
       else mk_deadline p d m flags count).
Proof.
  intros Hi. unfold deadline_index. cbn [dl_dev dl_mem dl_pick neigbor_device_deadline deadline_count].
  unfold idle. fold v. change (head_header (Q := own_queue (dv_dbp d) (queue_no v i)) m) with (head_at d m i).
  replace (hq_nonempty (Q := own_queue (dv_dbp d) (queue_no v i)) m && earlier (head_at d m i) p) with false.
  2: { symmetry. destruct (hq_nonempty (Q := own_queue (dv_dbp d) (queue_no v i)) m) eqn:Hf; [|done].
       by apply Hfirst. }
  cbn [mbind run_bind]. fold (clock_at d m i).
  destruct (Z.eqb_spec flags.[queue_no v i] 1) as [Hf|Hf]; simpl.
  { rewrite decide_False by tauto. done. }
  destruct (Z.eqb_spec (packet_from p) (owner v i)) as [Ho|Ho]; simpl.
  { rewrite decide_False; [done|]. intros [_ Hne]. apply Hne, Hfrom; auto. }
  assert (Hne : i <> i0) by (intros ->; apply Ho; symmetry; by apply Hfrom).
  rewrite decide_True by done. specialize (Hlate i Hi Hne).
  pose proof (load64_range m (m2m_localtime_start (dv_dbp d)).[owner v i]).
  fold (clock_at d m i) in *. rewrite (proj2 (Z.leb_le _ _)); [done|].
  destruct (Z.ltb_spec one_hop (packet_mintime p)); unfold clock_at in *; fold v in Hlate; lia.
Qed.

Lemma idle_pass flags count :
  exists flags' count', deadline_pass one_hop idle (mk_deadline p d m flags count) =
    Ret (mk_deadline p d m flags' count') /\
    forall i, 0 <= i < search_num v -> i <> i0 -> flags'.[queue_no v i] = 1.
Proof.
  pose proof (search_num_bound v ltac:(lia)) as Hb.
  assert (H : forall k : nat, Z.of_nat k <= search_num v -> exists flags' count',
    forMZ 0 k (deadline_index one_hop idle) (mk_deadline p d m flags count) =
      Ret (mk_deadline p d m flags' count') /\
    forall i, 0 <= i < Z.of_nat k -> i <> i0 -> flags'.[queue_no v i] = 1).
  { induction k as [|k IH]; intros Hk.
    - exists flags, count. split; [done|lia].
    - destruct IH as (fl & c & E & Hfl); [lia|]. rewrite forMZ_S, E. cbn [mbind run_bind].
      rewrite Z.add_0_l, idle_index by lia. case_decide as Hd.
      + do 2 eexists. split; [done|]. intros i Hi Hne.
        rewrite aget_aset. case_decide; [done|]. apply Hfl; [|done].
        destruct (decide (i = Z.of_nat k)); [by subst|lia].
      + do 2 eexists. split; [done|]. intros i Hi Hne.
        destruct (decide (i = Z.of_nat k)) as [->|]; [|apply Hfl; [lia|done]].
        destruct (decide (fl.[queue_no v (Z.of_nat k)] = 1)); [done|tauto]. }
  destruct (H (Z.to_nat (search_num v))) as (fl & c & E & Hfl); [lia|].
  exists fl, c. unfold deadline_pass. cbn [dl_dev]. fold v. rewrite E. cbn [mbind run_bind].
  unfold sync_router. cbn [dl_dev]. fold v. rewrite Hzc. split; [done|].
  intros i Hi. apply Hfl. lia.
Qed.

Lemma idle_loop k flags count :
  deadline_inv d p one_hop (mk_deadline p d m flags count) ->
  deadline_loop one_hop (replicate k idle) (mk_deadline p d m flags count) = Spin.
Proof.
  revert flags count. induction k as [|k IH]; intros flags count J; [done|]. simpl.
  destruct (idle_pass flags count) as (fl & c & E & Hfl).
  assert (J' : deadline_inv d p one_hop (mk_deadline p d m fl c)).
  { eapply deadline_pass_inv; [done| | |exact J|exact E].
    - intros Hr. fold v in Hr. congruence.
    - intros i m' j Hj. unfold idle. lia. }
  rewrite E. cbn [mbind run_bind deadline_count dl_dev]. fold v.
  destruct (Z.eqb_spec c (search_num v - 2)) as [Hc|]; [|by apply IH]. exfalso.
  destruct J' as [_ Jc _ Jf]; simpl in *. fold v in Jc, Jf.
  assert (Hp : i0 :: flagged v fl ≡ₚ positions v).
  { apply NoDup_Permutation; [apply NoDup_cons; split| |].
    - intros [Hf Hin]%list_elem_of_filter. destruct (Jf i0 Hi0 Hf) as [Ho _]. by apply Ho, Hfrom.
    - apply NoDup_filter, NoDup_seqZ.
    - apply NoDup_seqZ.
    - intros i. rewrite elem_of_cons. unfold flagged. rewrite list_elem_of_filter, elem_of_positions.
      split; [intros [->|[_ ?]]; done|]. intros Hi.
      destruct (decide (i = i0)) as [->|]; [by left|right; auto]. }
  apply Permutation_length in Hp. unfold positions in Hp. rewrite length_seqZ in Hp. simpl in Hp. lia.
Qed.
End Livelock.

(** ** Handing a packet on *)

Record queues_apart (F T : HQueue) : Prop := {
  qa_entries : forall e e', 0 <= e < 4 -> 0 <= e' < 4 ->
    apart (hq_entry (HQueue := F) e) 128 (hq_entry (HQueue := T) e') 128;
  qa_meta_l : forall e', 0 <= e' < 4 -> apart (hq_meta (HQueue := F)) 32 (hq_entry (HQueue := T) e') 128;
  qa_meta_r : forall e, 0 <= e < 4 -> apart (hq_entry (HQueue := F) e) 128 (hq_meta (HQueue := T)) 32;
  qa_metas : apart (hq_meta (HQueue := F)) 32 (hq_meta (HQueue := T)) 32 }.

(** What the others leave alone while the thread waits for room: the packet it
    is handling, its own two indices, and the entries of the target queue. *)
Definition quiet (F T : HQueue) (w : mem -> mem) : Prop :=
  forall m i,
    (hq_meta (HQueue := F) + 28 <= i < hq_meta (HQueue := F) + 32 \/
     hq_meta (HQueue := T) <= i < hq_meta (HQueue := T) + 4 \/
     (exists e, 0 <= e < 4 /\ hq_entry (HQueue := T) e <= i < hq_entry (HQueue := T) e + 128) \/
     (exists e, (e = consumer (Q := F) m \/ e = u32 (consumer (Q := F) m + 1) mod 4) /\
        hq_entry (HQueue := F) e <= i < hq_entry (HQueue := F) e + 128)) ->
    (w m).[i] = m.[i].

Section Transfer.
Context (F T : HQueue) (LF : HQueueLayout (H := F)) (LT : HQueueLayout (H := T)) (A : queues_apart F T).
Context (c q : Z) (h : m2m_HQe) (data : list Z).
Hypothesis Hc : even_ix c.
Hypothesis Hq : even_ix q.
Hypothesis Hsize : PacketSize h = Z.of_nat (length data).
Hypothesis Hlen : Z.of_nat (length data) <= 128.

(** The packet at the head of [F], and the two indices the thread owns. *)
Record at_hand (m : mem) : Prop := {
  ah_consumer : consumer (Q := F) m = c;
  ah_producer : producer (Q := T) m = q;
  ah_holds : holds_msg (H := F) m c (h, data) }.

Definition hand_bytes (i : Z) : Prop :=
  hq_meta (HQueue := F) + 28 <= i < hq_meta (HQueue := F) + 32 \/
  hq_meta (HQueue := T) <= i < hq_meta (HQueue := T) + 4 \/
  hq_entry (HQueue := F) c <= i < hq_entry (HQueue := F) c + 128 \/
  hq_entry (HQueue := F) (c + 1) <= i < hq_entry (HQueue := F) (c + 1) + 128.

Lemma at_hand_ext x y : (forall i, hand_bytes i -> y.[i] = x.[i]) -> at_hand x -> at_hand y.
Proof.
  unfold hand_bytes. intros E [H1 H2 [H3 H4]]. destruct (even_ix_next _ Hc) as [En _]. split.
  - rewrite <- H1. unfold consumer, load32, off_consumer. apply load_ext. intros. apply E. lia.
  - rewrite <- H2. unfold producer, load32, off_producer. apply load_ext. intros. apply E. lia.
  - split; simpl in *.
    + rewrite <- H3. apply read_HQe_ext. intros. apply E. lia.
    + rewrite En in *. transitivity (load_bytes (length data) x (hq_entry (HQueue := F) (c + 1))); [|done].
      apply load_bytes_ext. intros. apply E. lia.
Qed.

(** A write into an entry of [T] does not disturb it. *)
Lemma at_hand_entry x e a n s :
  0 <= e < 4 -> a = hq_entry (HQueue := T) e -> (n <= 128)%nat -> at_hand x -> at_hand (memcpy x a s n).
Proof.
  intros He -> Hn. apply at_hand_ext. intros i Hi. apply memcpy_out. unfold hand_bytes in Hi.
  pose proof (qa_meta_l _ _ A e He). pose proof (hq_meta_apart (H := T) e He).
  pose proof (qa_entries _ _ A c e (even_range _ Hc) He).
  pose proof (qa_entries _ _ A (c + 1) e ltac:(unfold even_ix in Hc; lia) He).
  unfold apart in *. lia.
Qed.

Lemma at_hand_quiet w x : quiet F T w -> at_hand x -> at_hand (w x).
Proof.
  intros W Hx. apply (at_hand_ext x); [|done]. intros i Hi. apply W.
  destruct (even_ix_next _ Hc) as [En _].
  destruct Hi as [Hi|[Hi|[Hi|Hi]]]; auto; right; right; right;
    rewrite (ah_consumer _ Hx), En; eauto.
Qed.

Lemma transfer_run w1 w2 m m' :
  quiet F T w1 -> quiet F T w2 -> at_hand m ->
  transfer F T (hq_entry (HQueue := F) c) (hq_entry (HQueue := T) q) w1 w2 m = Ret m' ->
  holds_msg (H := T) m' q (h, data) /\ holds_msg (H := F) m' c (h, data) /\
  producer (Q := T) m' = 2 - q /\ consumer (Q := F) m' = 2 - c.
Proof.
  intros W1 W2 Hm. unfold transfer. destruct (even_ix_next _ Hc) as [Ec1 Ec2].
  destruct (even_ix_next _ Hq) as [Eq1 Eq2]. pose proof (even_range _ Hq) as Hq4.
  assert (Hq1 : 0 <= q + 1 < 4) by (unfold even_ix in Hq; lia).
  pose proof (at_hand_quiet w1 m W1 Hm) as Ha. destruct (hq_room 1 (w1 m)); [|done].
  set (mb := memcpy (w1 m) _ _ _).
  assert (Hb : at_hand mb) by (apply (at_hand_entry _ q); [done|done|unfold sizeof_HQe; lia|done]).
  assert (Tb : read_HQe mb (hq_entry q) = h).
  { unfold mb. rewrite read_HQe_memcpy by (unfold sizeof_HQe; lia). apply (ah_holds _ Ha). }
  pose proof (at_hand_quiet w2 mb W2 Hb) as Hd. destruct (hq_room 2 (w2 mb)); [|done].
  assert (Td : read_HQe (w2 mb) (hq_entry q) = h).
  { rewrite <- Tb. apply read_HQe_ext. intros i Hi. apply W2. right; right; left.
    exists q. split; [done|lia]. }
  rewrite (ah_producer _ Hd), (ah_consumer _ Hd). unfold HEADER_QUEUE_ENTRY_NUM. rewrite Eq1, Ec1.
  destruct (ah_holds _ Hd) as [Hh Hdata]. simpl in Hh, Hdata. rewrite Ec1 in Hdata.
  rewrite Hh, Hsize, Nat2Z.id. set (me := memcpy (w2 mb) _ _ _).
  assert (He : at_hand me) by (apply (at_hand_entry _ (q + 1)); [done|done|lia|done]).
  assert (Te : holds_msg (H := T) me q (h, data)).
  { split; simpl.
    - rewrite <- Td. apply read_HQe_ext. intros i Hi. apply memcpy_out.
      pose proof (hq_entries_apart (H := T) q (q + 1) Hq4 Hq1 ltac:(lia)). lia.
    - rewrite Eq1. unfold me. rewrite load_bytes_memcpy_same by done. exact Hdata. }
  intros [= <-]. rewrite producer_publish.
  assert (Epr : producer (Q := T) (release (Q := F) me) = q).
  { rewrite <- (ah_producer _ He). unfold producer, release, load32, store32, off_producer, off_consumer.
    apply load_store_disj. pose proof (qa_metas _ _ A). unfold apart in *. lia. }
  rewrite Epr, Eq2.
  assert (Ecm : forall x, consumer (Q := F) (publish (Q := T) x) = consumer (Q := F) x).
  { intros x. unfold consumer, publish, load32, store32, off_producer, off_consumer. apply load_store_disj.
    pose proof (qa_metas _ _ A). unfold apart in *. lia. }
  rewrite Ecm, consumer_release, (ah_consumer _ He), Ec2. split_and!; [| |done|done].
  - apply holds_msg_index; [done|done|unfold off_producer; lia..|].
    apply (holds_msg_apart T me); [done|done| |done].
    intros i e Hi4 Hi. unfold release, store32, off_consumer. apply store_out.
    pose proof (qa_meta_l _ _ A e Hi4). unfold apart in *. lia.
  - apply (holds_msg_apart F (release (Q := F) me)); [by apply even_range|done| |].
    + intros i e Hi4 Hi. unfold publish, store32, off_producer. apply store_out.
      pose proof (qa_meta_r _ _ A e Hi4). unfold apart in *. lia.
    + apply holds_msg_index; [by apply even_range|done|unfold off_consumer; lia..|]. apply (ah_holds _ He).
Qed.

(** What the transfer writes, when nobody moves meanwhile *)
Lemma transfer_frame m m' i :
  at_hand m ->
  transfer F T (hq_entry (HQueue := F) c) (hq_entry (HQueue := T) q) (fun m => m) (fun m => m) m = Ret m' ->
  ~ (hq_meta (HQueue := F) + 28 <= i < hq_meta (HQueue := F) + 32) ->
  ~ (hq_meta (HQueue := T) <= i < hq_meta (HQueue := T) + 4) ->
  (forall e, 0 <= e < 4 -> ~ (hq_entry (HQueue := T) e <= i < hq_entry (HQueue := T) e + 128)) ->
  m'.[i] = m.[i].
Proof.
  intros Ha. unfold transfer. destruct (even_ix_next _ Hq) as [Eq1 _]. pose proof (even_range _ Hq) as Hq4.
  assert (Hq1 : 0 <= q + 1 < 4) by (unfold even_ix in Hq; lia).
  destruct (hq_room 1 m); [|done]. set (mb := memcpy m _ _ _).
  assert (Hb : at_hand mb) by (apply (at_hand_entry _ q); [done|done|unfold sizeof_HQe; lia|done]).
  destruct (hq_room 2 mb); [|done]. intros [= <-] H1 H2 H3.
  destruct (ah_holds _ Hb) as [Hh _]. simpl in Hh.
  unfold publish at 1, release at 1, store32. rewrite !store_out by (unfold off_producer, off_consumer; lia).
  assert (Hsz : load32 mb (hq_entry (HQueue := F) c + off_PacketSize) = Z.of_nat (length data))
    by (rewrite <- Hsize, <- Hh; done).
  rewrite (ah_producer _ Hb), Hsz, Nat2Z.id. unfold HEADER_QUEUE_ENTRY_NUM. rewrite Eq1.
  pose proof (H3 _ Hq1). rewrite memcpy_out by lia.
  pose proof (H3 _ Hq4). unfold mb. by rewrite memcpy_out by (unfold sizeof_HQe; lia).
Qed.
End Transfer.

(** The header of the packet at hand rewritten in place. *)
Lemma at_hand_rewritten F T c q h h' data m m1 :
  HQueueLayout (H := F) -> queues_apart F T -> even_ix c ->
  consumer (Q := F) m = c -> producer (Q := T) m = q -> holds_msg (H := F) m c (h, data) ->
  Z.of_nat (length data) <= 128 -> read_HQe m1 (hq_entry (HQueue := F) c) = h' ->
  (forall i, ~ (hq_entry (HQueue := F) c <= i < hq_entry (HQueue := F) c + 40) -> m1.[i] = m.[i]) ->
  at_hand F T c q h' data m1.
Proof.
  intros LF A Hc Ec Eq [_ Hd] Hlen Em1 Om1. cbn [snd] in Hd.
  pose proof (even_range _ Hc) as Hc4. pose proof (even_ix_next _ Hc) as [En _].
  assert (Hc1 : 0 <= c + 1 < 4) by (unfold even_ix in Hc; lia). split.
  - rewrite <- Ec. unfold consumer, load32, off_consumer. apply load_ext.
    intros i Hi. apply Om1. pose proof (hq_meta_apart (H := F) c Hc4). lia.
  - rewrite <- Eq. unfold producer, load32, off_producer. apply load_ext.
    intros i Hi. apply Om1. pose proof (qa_meta_r _ _ A c Hc4). unfold apart in *. lia.
  - split; cbn [fst snd]; [done|]. rewrite En in Hd |- *. rewrite <- Hd at 2. apply load_bytes_ext. intros i Hi.
    apply Om1. pose proof (hq_entries_apart (H := F) c (c + 1) Hc4 Hc1 ltac:(lia)). lia.
Qed.

(** The latency of one hop in the shipped configuration. *)
Definition hop_ns (rnd : nat -> Z) (k : nat) (size : Z) : Z :=
  1000 * (320 * (rnd k mod 4) + 128 + 32 * (size + 43) + 864).

(** The header a packet leaves with, and the router's time then. *)
Definition stamped (me t lat : Z) (h : m2m_HQe) : m2m_HQe :=
  let t1 := Z.max t (SendTime h) in
  let '(snd, tr) := if SenderID h =? me then (t1, TransTime h) else (u64 (t1 + TransTime h), lat) in
  mk_HQe (tag h) (PacketSize h) (SenderID h) (ReceiverID h) me (EntryNum h) snd tr.
Definition set_SendTime (t : Z) (h : m2m_HQe) : m2m_HQe :=
  mk_HQe (tag h) (PacketSize h) (SenderID h) (ReceiverID h) (ForwardID h) (EntryNum h) t (TransTime h).

(** Field writes through a header pointer. *)
Lemma read_store_SendTime m p t : 0 <= t < 2 ^ 64 ->
  read_HQe (store64 m (p + off_SendTime) t) p = set_SendTime t (read_HQe m p).
Proof.
  intros Ht. unfold read_HQe, set_SendTime; cbn [tag PacketSize SenderID ReceiverID ForwardID EntryNum TransTime].
  off_unfold. mem_frame. rewrite load_store_same. f_equal. by apply Z.mod_small.
Qed.

Lemma read_store_ForwardID m p x : 0 <= x < 2 ^ 32 ->
  read_HQe (store32 m (p + off_ForwardID) x) p =
  let h := read_HQe m p in
  mk_HQe (tag h) (PacketSize h) (SenderID h) (ReceiverID h) x (EntryNum h) (SendTime h) (TransTime h).
Proof.
  intros Hx. unfold read_HQe; cbn [tag PacketSize SenderID ReceiverID ForwardID EntryNum SendTime TransTime].
  off_unfold. mem_frame. rewrite load_store_same. f_equal. by apply Z.mod_small.
Qed.

Lemma read_store_TransTime m p x : 0 <= x < 2 ^ 64 ->
  read_HQe (store64 m (p + off_TransTime) x) p =
  let h := read_HQe m p in
  mk_HQe (tag h) (PacketSize h) (SenderID h) (ReceiverID h) (ForwardID h) (EntryNum h) (SendTime h) x.
Proof.
  intros Hx. unfold read_HQe; cbn [tag PacketSize SenderID ReceiverID ForwardID EntryNum SendTime TransTime].
  off_unfold. mem_frame. rewrite load_store_same. f_equal. by apply Z.mod_small.
Qed.

Lemma hop_ns_range rnd k size : 0 <= size <= 128 -> 0 < hop_ns rnd k size < 2 ^ 64.
Proof. intros. unfold hop_ns. pose proof (Z.mod_pos_bound (rnd k) 4 ltac:(lia)). lia. Qed.

Lemma restamp_run rnd fp d t m t1 d1 m1 :
  let h := read_HQe m fp in
  0 <= t < 2 ^ 64 -> 0 <= DeviceID (dv_vnd d) < 2 ^ 32 -> 0 <= PacketSize h <= 128 ->
  restamp rnd fp d t m = Ret (t1, d1, m1) ->
  t1 = Z.max t (SendTime h) /\ dv_dbp d1 = dv_dbp d /\ NODE_TYPE (dv_topo d1) = NODE_TYPE (dv_topo d) /\
  read_HQe m1 fp = stamped (DeviceID (dv_vnd d)) t (hop_ns rnd (dv_pos d) (PacketSize h)) h /\
  forall i, ~ (fp <= i < fp + 40) -> m1.[i] = m.[i].
Proof.
  intros h Ht Hid Hs. unfold restamp, stamped. fold h.
  pose proof (read_HQe_ok m fp) as (_ & _ & _ & _ & _ & _ & Hst & _). fold h in Hst.
  set (me := DeviceID (dv_vnd d)) in *. set (tm := Z.max t (SendTime h)).
  set (ma := store64 (store32 m _ _) _ _).
  assert (Ea : read_HQe ma fp = mk_HQe (tag h) (PacketSize h) (SenderID h) (ReceiverID h) me (EntryNum h) tm (TransTime h)).
  { unfold ma. rewrite read_store_SendTime by lia. rewrite read_store_ForwardID by lia. done. }
  assert (Oa : forall i, ~ (fp <= i < fp + 40) -> ma.[i] = m.[i]).
  { intros i Hi. unfold ma, store32, store64. off_unfold. rewrite !store_out by lia. done. }
  clearbody h. rewrite Ea. cbn [SenderID TransTime PacketSize].
  destruct (SenderID h =? me).
  - intros [= <- <- <-]. split_and!; try done.
  - rewrite (transmission_latency_eq rnd (PacketSize h)) by (unfold HEADER_QUEUE_ENTRY_SIZE; lia).
    cbn [mbind run_bind latency hop_pos hop_vnd]. intros [= <- <- <-]. split_and!; try done.
    + rewrite read_store_TransTime by (pose proof (hop_ns_range rnd (dv_pos d) (PacketSize h) Hs); unfold hop_ns in *; lia).
      rewrite read_store_SendTime by apply u64_range. rewrite Ea. done.
    + intros i Hi. unfold store64. off_unfold. rewrite !store_out by lia. by apply Oa.
Qed.

(** The sender's control flag lies apart from a queue. *)
Definition signal_apart (d : dev) (s : Z) (Q : HQueue) : Prop :=
  let cf := (m2m_hq_conflag_start (dv_dbp d)).[s] in
  (forall e, 0 <= e < 4 -> apart cf 12 (hq_entry e) 128) /\ apart cf 12 hq_meta 32.

Lemma signal_out d h t f m i :
  let cf := (m2m_hq_conflag_start (dv_dbp d)).[SenderID h] in
  ~ (cf <= i < cf + 12) -> (signal_sender d h t f m).[i] = m.[i].
Proof.
  intros cf Hi. unfold signal_sender, store32, store64, off_dataflag, off_transtime. fold cf.
  rewrite !store_out by lia. done.
Qed.

Lemma signal_cells d h t f m :
  let cf := (m2m_hq_conflag_start (dv_dbp d)).[SenderID h] in
  0 <= t < 2 ^ 64 -> 0 <= f < 2 ^ 32 ->
  load64 (signal_sender d h t f m) (cf + off_transtime) = t /\
  load32 (signal_sender d h t f m) (cf + off_dataflag) = f.
Proof.
  intros cf Ht Hf. unfold signal_sender. fold cf. rewrite load32_store32, u32_small by done. split; [|done].
  unfold load64, store32, store64, off_dataflag, off_transtime. rewrite load_store_disj by lia.
  rewrite load_store_same. by apply Z.mod_small.
Qed.

Lemma signal_queue d h t f m Q x e :
  signal_apart d (SenderID h) Q -> 0 <= e < 4 -> Z.of_nat (length x.2) <= 128 -> holds_msg (H := Q) m e x ->
  let m' := signal_sender d h t f m in
  holds_msg (H := Q) m' e x /\ producer (Q := Q) m' = producer (Q := Q) m /\
  consumer (Q := Q) m' = consumer (Q := Q) m.
Proof.
  intros [S1 S2] He Hl Hh m'. unfold apart in *. split_and!.
  - apply (holds_msg_apart Q m); [done|done| |done]. intros i e' He' Hi. apply signal_out.
    specialize (S1 e' He'). lia.
  - unfold producer, load32, off_producer. apply load_ext. intros i Hi. apply signal_out. lia.
  - unfold consumer, load32, off_consumer. apply load_ext. intros i Hi. apply signal_out. lia.
Qed.

(** A demo coordinator for the examples, number 2: neighbours 1 and 3 and
    itself.  Queue [q] lies at [1000 (q + 1)], the neighbours' queues at 20000
    and 21000, the control flags at 600 and 620, the clocks from 16 on. *)
Definition demo_rows (base : Z) (n : nat) : arr * arr :=
  forZ 0 n (fun '(metas, bufs) q =>
    (metas.[q <- base + 1000 * q + 512],
     forZ 0 4 (fun b e => b.[4 * q + e <- base + 1000 * q + 128 * e]) bufs)) (∅, ∅).
Definition demo_zc : dev :=
  mk_dev (mk_topo ∅ ∅ (add_link (add_link ∅ 1 2) 2 3) ∅ (<[1 := ZED]> (<[2 := ZC]> {[3 := ZED]})) ∅
            (mk_VND 2 (∅ : arr).[0 <- 90].[1 <- 67] 3 ∅ (∅ : arr).[0 <- 1].[1 <- 3] 2 0 0 0 0 0 0))
    (mk_dbp (∅ : arr).[1 <- 16].[2 <- 24].[3 <- 32] ∅ ∅ (demo_rows 1000 10).1 (demo_rows 1000 10).2
       (∅ : arr).[1 <- 600].[2 <- 640].[3 <- 620] (demo_rows 20000 2).1 (demo_rows 20000 2).2)
    (mk_sync 0 0 0 ∅ ∅) route_st0 (mk_clock 500 0 0 0 0) 0 0.

(** Positions 0 (a packet for 3) and 1 (one for the coordinator). *)
Definition demo_traffic : mem :=
  let Q0 := own_queue (dv_dbp demo_zc) 0 in
  let Q1 := own_queue (dv_dbp demo_zc) 1 in
  let m := publish (Q := Q0) (put_data (Q := Q0) [7; 8; 9] (put_header (Q := Q0) (mk_HQe 0 3 1 3 1 (-1) 100 400) ∅)) in
  publish (Q := Q1) (put_data (Q := Q1) [4] (put_header (Q := Q1) (mk_HQe 0 1 3 2 3 (-1) 200 350) m)).

Lemma demo_rows_addr base n q e :
  0 <= q < Z.of_nat n -> 0 <= e < 4 ->
  (demo_rows base n).1.[q] = base + 1000 * q + 512 /\
  (demo_rows base n).2.[4 * q + e] = base + 1000 * q + 128 * e.
Proof.
  intros Hq He. unfold demo_rows.
  pose (P := fun k (s : arr * arr) => forall j, 0 <= j < k -> s.1.[j] = base + 1000 * j + 512 /\
    forall e, 0 <= e < 4 -> s.2.[4 * j + e] = base + 1000 * j + 128 * e).
  assert (H : P (0 + Z.of_nat n) (forZ 0 n (fun '(metas, bufs) q =>
    (metas.[q <- base + 1000 * q + 512],
     forZ 0 4 (fun b e => b.[4 * q + e <- base + 1000 * q + 128 * e]) bufs)) (∅, ∅))).
  { apply (forZ_ind P); unfold P; [lia|]. intros i [ms bs] Hi IH j Hj. simpl.
    rewrite !aget_aset. split; [case_decide; [by subst|apply IH; lia]|].
    intros e' He'. unfold forZ. change (seqZ 0 (Z.of_nat 4)) with [0; 1; 2; 3]. cbn [foldl].
    rewrite !aget_aset. repeat case_decide; try lia. apply IH; lia. }
  destruct (H q) as [H1 H2]; [lia|]. split; [done|]. by apply H2.
Qed.

Lemma demo_own_layout q : 0 <= q < 10 ->
  (forall e, 0 <= e < 4 -> hq_entry (HQueue := own_queue (dv_dbp demo_zc) q) e = 1000 + 1000 * q + 128 * e) /\
  hq_meta (HQueue := own_queue (dv_dbp demo_zc) q) = 1000 + 1000 * q + 512.
Proof.
  intros Hq. split; [intros e He|]; cbn [own_queue hq_entry hq_meta]; unfold hq_buffer, HEADER_QUEUE_ENTRY_NUM;
    [exact (proj2 (demo_rows_addr 1000 10 q e Hq He))|exact (proj1 (demo_rows_addr 1000 10 q 0 Hq ltac:(lia)))].
Qed.

Lemma demo_next_layout c : 0 <= c < 2 ->
  (forall e, 0 <= e < 4 -> hq_entry (HQueue := next_queue (dv_dbp demo_zc) c) e = 20000 + 1000 * c + 128 * e) /\
  hq_meta (HQueue := next_queue (dv_dbp demo_zc) c) = 20000 + 1000 * c + 512.
Proof.
  intros Hq. split; [intros e He|]; cbn [next_queue hq_entry hq_meta]; unfold remote_hq_buffer, HEADER_QUEUE_ENTRY_NUM;
    [exact (proj2 (demo_rows_addr 20000 2 c e Hq He))|exact (proj1 (demo_rows_addr 20000 2 c 0 Hq ltac:(lia)))].
Qed.

(** ** The properties *)

(** C22: The earliest packet: when packets wait, the scan returns one whose
    arrival time (ties broken by sending time) is minimal among the heads of all
    queues searched, with the queue it is in, the node it came from, and as next
    hop the node itself if it is the receiver or else a neighbour one hop closer
    to the receiver on a shortest path. *)
Theorem earliest_packet d m :
  let n := TotalDeviceNum (dv_vnd d) in
  unit_links (t_NODE_MAP (dv_topo d)) -> n < MAX_NODE_NUM -> in_net n (DeviceID (dv_vnd d)) ->
  (forall i, 0 <= i < search_num (dv_vnd d) -> full_at d m i ->
     in_net n (ReceiverID (head_at d m i)) /\ SendTime (head_at d m i) < MAX_TIME) ->
  (exists i, 0 <= i < search_num (dv_vnd d) /\ full_at d m i) ->
  exists p r i, find_earliest d m = Ret (p, with_route r d) /\
    0 <= i < search_num (dv_vnd d) /\ full_at d m i /\ pick_of d m i p /\
    forall j, 0 <= j < search_num (dv_vnd d) -> full_at d m j ->
      key_le (header_key (head_at d m i)) (header_key (head_at d m j)).
Proof.
  intros n Hu Hn Hme Hh (i0 & Hi0 & Hf0).
  destruct (find_earliest_upto d m Hu Hn Hme Hh (Z.to_nat (search_num (dv_vnd d))))
    as (p & r & E & Hmin & Hp); [lia|].
  rewrite Z2Nat.id in * by lia. destruct Hp as [[_ Hp]|(i & Hi & Hf & Hp)]; [by destruct (Hp i0)|].
  exists p, r, i. split; [done|]. split; [done|]. split; [done|]. split; [done|].
  intros j Hj Hfj. destruct Hp as [<- _]. by apply Hmin.
Qed.

Theorem earliest_packet_witness :
  exists p r i, find_earliest demo_zc demo_traffic = Ret (p, with_route r demo_zc) /\
    0 <= i < search_num (dv_vnd demo_zc) /\ full_at demo_zc demo_traffic i /\
    pick_of demo_zc demo_traffic i p /\
    forall j, 0 <= j < search_num (dv_vnd demo_zc) -> full_at demo_zc demo_traffic j ->
      key_le (header_key (head_at demo_zc demo_traffic i)) (header_key (head_at demo_zc demo_traffic j)).
Proof.
  assert (H1 : unit_links (t_NODE_MAP (dv_topo demo_zc)))
    by (apply unit_links_add_link, unit_links_add_link, unit_links_empty).
  assert (H2 : TotalDeviceNum (dv_vnd demo_zc) < MAX_NODE_NUM) by done.
  assert (H3 : in_net (TotalDeviceNum (dv_vnd demo_zc)) (DeviceID (dv_vnd demo_zc))) by (by split).
  assert (H5 : exists i, 0 <= i < search_num (dv_vnd demo_zc) /\ full_at demo_zc demo_traffic i)
    by (exists 0; split; vm_compute; [split; [discriminate|reflexivity]|reflexivity]).
  assert (H4 : forall i, 0 <= i < search_num (dv_vnd demo_zc) -> full_at demo_zc demo_traffic i ->
    in_net (TotalDeviceNum (dv_vnd demo_zc)) (ReceiverID (head_at demo_zc demo_traffic i)) /\
    SendTime (head_at demo_zc demo_traffic i) < MAX_TIME).
  { assert (E : search_num (dv_vnd demo_zc) = 3) by (vm_compute; reflexivity). rewrite E.
    intros i Hi Hf. assert (i = 0 \/ i = 1 \/ i = 2) as [->|[-> | ->]] by lia.
    - replace (head_at demo_zc demo_traffic 0) with (mk_HQe 0 3 1 3 1 (-1) 100 400) by (vm_compute; reflexivity).
      by split; [split|].
    - replace (head_at demo_zc demo_traffic 1) with (mk_HQe 0 1 3 2 3 (-1) 200 350) by (vm_compute; reflexivity).
      by split; [split|].
    - exfalso. revert Hf. vm_compute. discriminate. }
  exact (earliest_packet demo_zc demo_traffic H1 H2 H3 H4 H5).
Defined.


(** Node 1's packet is first; both clocks are at 0 when the wait begins, then
    node 3 moves to 1000. *)
Definition demo_pick : pick := mk_pick 500 100 1 3 0.
Definition demo_tick : Z -> mem -> mem :=
  fun i m => if i =? 1 then store64 m 32 (Z.max (load64 m 32) 1000) else m.

Lemma demo_clock_cells i : 0 <= i < 3 ->
  (m2m_localtime_start (dv_dbp demo_zc)).[owner (dv_vnd demo_zc) i] =
  if i =? 0 then 16 else if i =? 1 then 32 else 24.
Proof. intros Hi. assert (i = 0 \/ i = 1 \/ i = 2) as [->|[-> | ->]] by lia; vm_compute; reflexivity. Qed.

Lemma demo_search : search_num (dv_vnd demo_zc) = 3.
Proof. vm_compute. reflexivity. Qed.

Lemma demo_tick_forward i : clocks_forward demo_zc (demo_tick i).
Proof.
  intros m j. rewrite demo_search. intros Hj. unfold clock_at, demo_tick. rewrite demo_clock_cells by done.
  destruct (i =? 1); [|lia].
  pose proof (load64_range m 32). unfold load64, store64 in *.
  destruct (j =? 0); [rewrite load_store_disj by lia; lia|].
  destruct (j =? 1); [|rewrite load_store_disj by lia; lia].
  rewrite load_store_same. rewrite Z.mod_small by lia. lia.
Qed.


(** The rule can also wait for ever: the loop leaves only when exactly
    [search_num - 2] clocks have passed, but every node other than the packet's
    forwarder is counted, the next hop included.  In a coordinator, if all these
    clocks are late enough when the round looks at them and no earlier packet
    comes, the count steps over the bound and no number of passes ends the
    wait. *)
Theorem wait_clocks_livelock one_hop p d m i0 k :
  let v := dv_vnd d in
  0 <= NeighborNum v <= NODE_MAX_LINKS -> 2 < search_num v -> dev_is v ZR = false ->
  0 <= i0 < search_num v ->
  (forall i, 0 <= i < search_num v -> (owner v i = packet_from p <-> i = i0)) ->
  (forall i, 0 <= i < search_num v -> full_at d m i -> earlier (head_at d m i) p = false) ->
  (forall i, 0 <= i < search_num v -> i <> i0 -> packet_mintime p - one_hop <= clock_at d m i) ->
  wait_clocks one_hop (replicate k idle) p d m = Spin.
Proof.
  intros v Hl H2 Hzc Hi0 Hfrom Hfirst Hlate. unfold wait_clocks. fold v.
  rewrite (proj2 (Z.ltb_lt _ _) H2). rewrite (idle_loop one_hop p d m i0); try done.
  split; simpl.
  - exists (dv_route d). by rewrite with_route_id.
  - by rewrite flagged_empty.
  - apply key_le_refl.
  - intros i _. rewrite aget_empty. done.
Qed.

(** Both receivers wait in [m2m_recv], their clocks at the largest time. *)
Theorem wait_clocks_livelock_witness :
  wait_clocks 0 (replicate 1000 idle) demo_pick demo_zc
    (store64 (store64 demo_traffic 24 (MAX_TIME - 1)) 32 (MAX_TIME - 1)) = Spin.
Proof.
  set (m := store64 _ _ _).
  assert (H1 : 0 <= NeighborNum (dv_vnd demo_zc) <= NODE_MAX_LINKS) by (vm_compute; split; discriminate).
  assert (H2 : 2 < search_num (dv_vnd demo_zc)) by (by rewrite demo_search).
  assert (H3 : dev_is (dv_vnd demo_zc) ZR = false) by (vm_compute; reflexivity).
  assert (H4 : 0 <= 0 < search_num (dv_vnd demo_zc)) by (rewrite demo_search; lia).
  assert (H5 : forall i, 0 <= i < search_num (dv_vnd demo_zc) ->
    (owner (dv_vnd demo_zc) i = packet_from demo_pick <-> i = 0)).
  { rewrite demo_search. intros i Hi. assert (i = 0 \/ i = 1 \/ i = 2) as [->|[-> | ->]] by lia;
      vm_compute; split; congruence. }
  assert (H6 : forall i, 0 <= i < search_num (dv_vnd demo_zc) -> full_at demo_zc m i ->
    earlier (head_at demo_zc m i) demo_pick = false).
  { rewrite demo_search. intros i Hi Hf. assert (i = 0 \/ i = 1 \/ i = 2) as [->|[-> | ->]] by lia.
    1, 2: vm_compute; reflexivity.
    exfalso. revert Hf. vm_compute. discriminate. }
  assert (H7 : forall i, 0 <= i < search_num (dv_vnd demo_zc) -> i <> 0 ->
    packet_mintime demo_pick - 0 <= clock_at demo_zc m i).
  { rewrite demo_search. intros i Hi Hne. assert (i = 1 \/ i = 2) as [-> | ->] by lia;
      vm_compute; discriminate. }
  exact (wait_clocks_livelock 0 demo_pick demo_zc m 0 1000 H1 H2 H3 H4 H5 H6 H7).
Defined.

(** What forwarding does, when its waits end *)
Lemma forward_run rnd fa w1 w2 ind next count d t m t' d' m' h data :
  let F := own_queue (dv_dbp d) ind in
  let T := next_queue (dv_dbp d) count in
  find_neighbor (Z.to_nat (TotalDeviceNum (dv_vnd d))) (dv_vnd d) next 0 = Some count ->
  HQueueLayout (H := F) -> HQueueLayout (H := T) -> queues_apart F T ->
  signal_apart d (SenderID h) F -> signal_apart d (SenderID h) T ->
  quiet F T w1 -> quiet F T w2 ->
  even_ix (consumer (Q := F) m) -> even_ix (producer (Q := T) m) ->
  holds_msg (H := F) m (consumer (Q := F) m) (h, data) ->
  PacketSize h = Z.of_nat (length data) -> Z.of_nat (length data) <= 128 -> EntryNum h = -1 ->
  0 < TransTime h -> 0 <= t < 2 ^ 64 -> 0 <= DeviceID (dv_vnd d) < 2 ^ 32 ->
  forward_packet rnd fa w1 w2 ind next d t m = Ret (t', d', m') ->
  let h' := stamped (DeviceID (dv_vnd d)) t (hop_ns rnd (dv_pos d) (PacketSize h)) h in
  holds_msg (H := T) m' (producer (Q := T) m) (h', data) /\
  producer (Q := T) m' = 2 - producer (Q := T) m /\
  consumer (Q := F) m' = 2 - consumer (Q := F) m /\
  t' = u64 (Z.max t (SendTime h) + TransTime h') /\
  (ReceiverID h = next -> node_type (dv_topo d) next = ZED ->
   let cf := (m2m_hq_conflag_start (dv_dbp d)).[SenderID h] in
   load32 m' (cf + off_dataflag) = 0 /\ load64 m' (cf + off_transtime) = t') /\
  (SenderID h <> DeviceID (dv_vnd d) -> arrival_time h' = u64 (t' + TransTime h)).
Proof.
  intros F T Hnb LF LT A SF ST W1 W2 Hc Hq Hhold Hsize Hlen Hent Htr Ht Hid. unfold forward_packet.
  rewrite Hnb. fold F T. set (c := consumer (Q := F) m) in *. set (q := producer (Q := T) m) in *.
  pose proof Hhold as [Hh Hd]. cbn [fst snd] in Hh, Hd.
  intros ([[t1 d1] m1] & Hr & H)%bind_Ret.
  apply restamp_run in Hr as (-> & Edbp & Ety & Em1 & Om1); [|done|done|rewrite Hh, Hsize; lia].
  rewrite Hh in *. set (h' := stamped _ _ _ _) in *.
  assert (Esz : PacketSize h' = Z.of_nat (length data) /\ SenderID h' = SenderID h /\
    ReceiverID h' = ReceiverID h /\ EntryNum h' = -1 /\ 0 < TransTime h').
  { unfold h', stamped. destruct (SenderID h =? DeviceID (dv_vnd d)); simpl; [done|].
    split_and!; try done. apply hop_ns_range. lia. }
  destruct Esz as (Esz & Esnd & Ercv & Eent & Etr).
  pose proof (at_hand_rewritten F T c q h h' data m m1 LF A Hc eq_refl eq_refl Hhold Hlen Em1 Om1) as Hhand.
  rewrite Em1 in H. rewrite (proj2 (Z.eqb_neq (TransTime h') 0)) in H by lia.
  rewrite Eent in H. cbn [Z.eqb Pos.eqb] in H. apply bind_Ret in H as (m2 & Htf & H).
  apply (transfer_run F T LF LT A c q h' data Hc Hq Esz Hlen w1 w2 m1 m2 W1 W2 Hhand) in Htf
    as (HT & HF & HpT & HcF).
  assert (Eh2 : read_HQe m2 (hq_entry (HQueue := F) c) = h') by apply HF.
  rewrite Eh2 in H. injection H as <- <- <-.
  pose proof (even_range _ Hq) as Hq4. pose proof (even_range _ Hc) as Hc4.
  rewrite <- Esnd in SF, ST.
  assert (SF1 : signal_apart d1 (SenderID h') F) by (unfold signal_apart; rewrite Edbp; exact SF).
  assert (ST1 : signal_apart d1 (SenderID h') T) by (unfold signal_apart; rewrite Edbp; exact ST).
  set (tn := u64 _). assert (Htn : 0 <= tn < 2 ^ 64) by apply u64_range.
  pose proof (signal_queue d1 h' tn 0 m2 T (h', data) q ST1 Hq4 Hlen HT) as (G1 & G2 & _).
  pose proof (signal_queue d1 h' tn 0 m2 F (h', data) c SF1 Hc4 Hlen HF) as (_ & _ & G3).
  pose proof (signal_cells d1 h' tn 0 m2 Htn ltac:(done)) as [C1 C2].
  rewrite Edbp, Esnd in C1, C2.
  assert (Ent : node_type (dv_topo d1) next = node_type (dv_topo d) next) by (unfold node_type; by rewrite Ety).
  rewrite Ent, Ercv. split_and!.
  - by destruct (_ && _).
  - destruct (_ && _); congruence.
  - destruct (_ && _); congruence.
  - done.
  - intros -> ->. rewrite Z.eqb_refl, streq_refl. done.
  - intros Hne. unfold tn, h', arrival_time, stamped. rewrite (proj2 (Z.eqb_neq _ _) Hne). simpl.
    rewrite !u64_add_l. f_equal. lia.
Qed.

(** The rest of the segment stays as it was. *)
Lemma forward_frame rnd fa ind next count d t m t' d' m' h data i :
  let F := own_queue (dv_dbp d) ind in
  let T := next_queue (dv_dbp d) count in
  find_neighbor (Z.to_nat (TotalDeviceNum (dv_vnd d))) (dv_vnd d) next 0 = Some count ->
  HQueueLayout (H := F) -> HQueueLayout (H := T) -> queues_apart F T ->
  even_ix (consumer (Q := F) m) -> even_ix (producer (Q := T) m) ->
  holds_msg (H := F) m (consumer (Q := F) m) (h, data) ->
  PacketSize h = Z.of_nat (length data) -> Z.of_nat (length data) <= 128 -> EntryNum h = -1 ->
  0 < TransTime h -> 0 <= t < 2 ^ 64 -> 0 <= DeviceID (dv_vnd d) < 2 ^ 32 ->
  forward_packet rnd fa (fun m => m) (fun m => m) ind next d t m = Ret (t', d', m') ->
  ~ (hq_meta (HQueue := F) + 28 <= i < hq_meta (HQueue := F) + 32) ->
  ~ (hq_entry (HQueue := F) (consumer (Q := F) m) <= i < hq_entry (HQueue := F) (consumer (Q := F) m) + 128) ->
  ~ (hq_meta (HQueue := T) <= i < hq_meta (HQueue := T) + 4) ->
  (forall e, 0 <= e < 4 -> ~ (hq_entry (HQueue := T) e <= i < hq_entry (HQueue := T) e + 128)) ->
  (let cf := (m2m_hq_conflag_start (dv_dbp d)).[SenderID h] in ~ (cf <= i < cf + 12)) ->
  m'.[i] = m.[i].
Proof.
  intros F T Hnb LF LT A Hc Hq Hhold Hsize Hlen Hent Htr Ht Hid. unfold forward_packet.
  rewrite Hnb. fold F T. set (c := consumer (Q := F) m) in *. set (q := producer (Q := T) m) in *.
  pose proof Hhold as [Hh Hd]. cbn [fst snd] in Hh, Hd.
  intros ([[t1 d1] m1] & Hr & H)%bind_Ret.
  apply restamp_run in Hr as (-> & Edbp & Ety & Em1 & Om1); [|done|done|rewrite Hh, Hsize; lia].
  rewrite Hh in *. set (h' := stamped _ _ _ _) in *.
  assert (Esz : PacketSize h' = Z.of_nat (length data) /\ SenderID h' = SenderID h /\
    EntryNum h' = -1 /\ 0 < TransTime h').
  { unfold h', stamped. destruct (SenderID h =? DeviceID (dv_vnd d)); simpl; [done|].
    split_and!; try done. apply hop_ns_range. lia. }
  destruct Esz as (Esz & Esnd & Eent & Etr).
  pose proof (at_hand_rewritten F T c q h h' data m m1 LF A Hc eq_refl eq_refl Hhold Hlen Em1 Om1) as Hhand.
  rewrite Em1 in H. rewrite (proj2 (Z.eqb_neq (TransTime h') 0)) in H by lia.
  rewrite Eent in H. cbn [Z.eqb Pos.eqb] in H. apply bind_Ret in H as (m2 & Htf & H).
  pose proof Htf as Htf'.
  apply (transfer_run F T LF LT A c q h' data Hc Hq Esz Hlen (fun m => m) (fun m => m)) in Htf
    as (_ & [HF _] & _); [|done..].
  cbn [fst] in HF. rewrite HF in H. injection H as _ _ <-.
  intros N1 N2 N3 N4 N5. cbv zeta in N5.
  transitivity (m2.[i]).
  { destruct (_ && _); [|done]. apply signal_out. rewrite Edbp, Esnd. exact N5. }
  rewrite (transfer_frame F T LT A c q h' data Hc Hq Esz Hlen m1 m2 i Hhand Htf' N1 N3 N4).
  apply Om1. lia.
Qed.

(** With an empty target queue and nobody in the way, both waits end. *)
Lemma transfer_ends F T fp tp e m :
  HQueueLayout (H := T) -> 0 <= e < 4 -> tp = hq_entry (HQueue := T) e ->
  even_ix (producer (Q := T) m) -> producer (Q := T) m = consumer (Q := T) m ->
  exists m', transfer F T fp tp (fun m => m) (fun m => m) m = Ret m'.
Proof.
  intros L He -> Hev Hpc. unfold transfer.
  destruct (hq_room_even (H := T) m Hev ltac:(by rewrite <- Hpc)) as [-> _].
  set (m1 := memcpy m _ _ _).
  assert (E : forall k, 0 <= k <= 28 -> load32 m1 (hq_meta (HQueue := T) + k) = load32 m (hq_meta (HQueue := T) + k)).
  { intros k Hk. unfold load32. apply load_ext. intros i Hi. apply memcpy_out.
    pose proof (hq_meta_apart (H := T) e He). unfold sizeof_HQe. lia. }
  assert (Ep : producer (Q := T) m1 = producer (Q := T) m) by (apply E; unfold off_producer; lia).
  assert (Ec : consumer (Q := T) m1 = consumer (Q := T) m) by (apply E; unfold off_consumer; lia).
  destruct (hq_room_even (H := T) m1 ltac:(by rewrite Ep) ltac:(by rewrite Ec, <- Hpc)) as [_ Hr].
  rewrite (proj2 Hr) by congruence. by eexists.
Qed.

Lemma restamp_ends rnd fp d t m :
  0 <= t < 2 ^ 64 -> 0 <= DeviceID (dv_vnd d) < 2 ^ 32 -> 0 <= PacketSize (read_HQe m fp) <= 128 ->
  exists r, restamp rnd fp d t m = Ret r.
Proof.
  intros Ht Hid Hs. unfold restamp. cbv zeta.
  pose proof (read_HQe_ok m fp) as (_ & _ & _ & _ & _ & _ & Hst & _).
  rewrite read_store_SendTime by lia. rewrite read_store_ForwardID by lia.
  cbn [set_SendTime SenderID PacketSize].
  destruct (_ =? _); [by eexists|]. rewrite transmission_latency_eq by exact Hs. by eexists.
Qed.

(** Forwarding into an empty queue ends. *)
Lemma forward_ends rnd fa ind next count d t m h data :
  let F := own_queue (dv_dbp d) ind in
  let T := next_queue (dv_dbp d) count in
  find_neighbor (Z.to_nat (TotalDeviceNum (dv_vnd d))) (dv_vnd d) next 0 = Some count ->
  HQueueLayout (H := T) -> queues_apart F T ->
  even_ix (consumer (Q := F) m) -> even_ix (producer (Q := T) m) ->
  producer (Q := T) m = consumer (Q := T) m ->
  holds_msg (H := F) m (consumer (Q := F) m) (h, data) ->
  PacketSize h = Z.of_nat (length data) -> Z.of_nat (length data) <= 128 -> EntryNum h = -1 ->
  0 < TransTime h -> 0 <= t < 2 ^ 64 -> 0 <= DeviceID (dv_vnd d) < 2 ^ 32 ->
  exists t' d' m', forward_packet rnd fa (fun m => m) (fun m => m) ind next d t m = Ret (t', d', m') /\
    dv_dbp d' = dv_dbp d.
Proof.
  intros F T Hnb LT A Hc Hq Hpc [Hh _] Hsize Hlen Hent Htr Ht Hid. cbn [fst] in Hh.
  unfold forward_packet. rewrite Hnb. fold F T. set (c := consumer (Q := F) m) in *.
  destruct (restamp_ends rnd (hq_entry (HQueue := F) c) d t m Ht Hid) as [[[t1 d1] m1] Er];
    [rewrite Hh, Hsize; lia|].
  rewrite Er. cbn [mbind run_bind].
  apply restamp_run in Er as (-> & Edbp & _ & Em1 & Om1); [|done|done|rewrite Hh, Hsize; lia].
  rewrite Hh in Em1. rewrite Em1. set (h' := stamped _ _ _ _).
  assert (Esz : EntryNum h' = -1 /\ 0 < TransTime h').
  { unfold h', stamped. destruct (SenderID h =? _); simpl; [done|]. split; [done|].
    apply hop_ns_range. lia. }
  destruct Esz as [-> Etr]. rewrite (proj2 (Z.eqb_neq (TransTime h') 0)) by lia.
  cbn [Z.eqb Pos.eqb].
  assert (E : forall k, 0 <= k <= 28 -> load32 m1 (hq_meta (HQueue := T) + k) = load32 m (hq_meta (HQueue := T) + k)).
  { intros k Hk. unfold load32. apply load_ext. intros i Hi. apply Om1.
    pose proof (qa_meta_r _ _ A c (even_range _ Hc)). unfold apart in *. lia. }
  assert (Ep : producer (Q := T) m1 = producer (Q := T) m) by (apply E; unfold off_producer; lia).
  assert (Ec : consumer (Q := T) m1 = consumer (Q := T) m) by (apply E; unfold off_consumer; lia).
  destruct (transfer_ends F T (hq_entry (HQueue := F) c) (hq_entry (HQueue := T) (producer (Q := T) m))
    (producer (Q := T) m) m1 LT (even_range _ Hq) eq_refl) as [m2 ->]; [by rewrite Ep|congruence|].
  cbn [mbind run_bind]. by do 3 eexists.
Qed.

(** C14: Forwarding: the packet at the head of its queue goes, payload intact,
    to the queue of the next hop with the header restamped (forwarder, sending
    time, the latency drawn for the next hop), the entry is freed, and the
    router's time advances by that latency; no packet is ever lost on this path
    in the shipped configuration.  When the next hop is the receiver, an end
    device, the original sender's control flag is set with the router's time as
    arrival.  For a packet the node relays, the header the receiver gets gives
    an arrival later than that by the latency of the hop before. *)
Theorem forward_packet_spec rnd fa w1 w2 ind next count d t m t' d' m' h data :
  let F := own_queue (dv_dbp d) ind in
  let T := next_queue (dv_dbp d) count in
  find_neighbor (Z.to_nat (TotalDeviceNum (dv_vnd d))) (dv_vnd d) next 0 = Some count ->
  HQueueLayout (H := F) -> HQueueLayout (H := T) -> queues_apart F T ->
  signal_apart d (SenderID h) F -> signal_apart d (SenderID h) T ->
  quiet F T w1 -> quiet F T w2 ->
  even_ix (consumer (Q := F) m) -> even_ix (producer (Q := T) m) ->
  holds_msg (H := F) m (consumer (Q := F) m) (h, data) ->
  PacketSize h = Z.of_nat (length data) -> Z.of_nat (length data) <= 128 -> EntryNum h = -1 ->
  0 < TransTime h -> 0 <= t < 2 ^ 64 -> 0 <= DeviceID (dv_vnd d) < 2 ^ 32 ->
  forward_packet rnd fa w1 w2 ind next d t m = Ret (t', d', m') ->
  let h' := stamped (DeviceID (dv_vnd d)) t (hop_ns rnd (dv_pos d) (PacketSize h)) h in
  holds_msg (H := T) m' (producer (Q := T) m) (h', data) /\
  producer (Q := T) m' = 2 - producer (Q := T) m /\
  consumer (Q := F) m' = 2 - consumer (Q := F) m /\
  t' = u64 (Z.max t (SendTime h) + TransTime h') /\
  (ReceiverID h = next -> node_type (dv_topo d) next = ZED ->
   let cf := (m2m_hq_conflag_start (dv_dbp d)).[SenderID h] in
   load32 m' (cf + off_dataflag) = 0 /\ load64 m' (cf + off_transtime) = t') /\
  (SenderID h <> DeviceID (dv_vnd d) -> arrival_time h' = u64 (t' + TransTime h)).
Proof. exact (forward_run rnd fa w1 w2 ind next count d t m t' d' m' h data). Qed.

(** Packet 0 of the demo traffic goes on to node 3, the second neighbour. *)
Lemma demo_queues_apart a b : (a <> b) -> 0 <= a < 10 -> 0 <= b < 10 ->
  queues_apart (own_queue (dv_dbp demo_zc) a) (own_queue (dv_dbp demo_zc) b).
Proof.
  intros Hne Ha Hb. destruct (demo_own_layout a Ha) as [A1 A2]. destruct (demo_own_layout b Hb) as [B1 B2].
  split; unfold apart; intros; rewrite ?A2, ?B2, ?A1, ?B1 by done; lia.
Qed.

Lemma demo_own_ok q : 0 <= q < 10 -> HQueueLayout (H := own_queue (dv_dbp demo_zc) q).
Proof.
  intros Hq. destruct (demo_own_layout q Hq) as [A1 A2].
  split; intros; rewrite ?A2, ?A1 by done; lia.
Qed.

Lemma demo_signal q s : 0 <= q < 10 -> (m2m_hq_conflag_start (dv_dbp demo_zc)).[s] <= 640 ->
  signal_apart demo_zc s (own_queue (dv_dbp demo_zc) q).
Proof.
  intros Hq Hs. destruct (demo_own_layout q Hq) as [A1 A2].
  split; unfold apart; intros; rewrite ?A2, ?A1 by done; lia.
Qed.

Lemma quiet_id F T : quiet F T (fun m => m).
Proof. done. Qed.

Lemma demo_holds0 : holds_msg (H := own_queue (dv_dbp demo_zc) 0) demo_traffic 0
  (mk_HQe 0 3 1 3 1 (-1) 100 400, [7; 8; 9]).
Proof. split; vm_compute; reflexivity. Qed.

Lemma demo_holds1 : holds_msg (H := own_queue (dv_dbp demo_zc) 1) demo_traffic 0
  (mk_HQe 0 1 3 2 3 (-1) 200 350, [4]).
Proof. split; vm_compute; reflexivity. Qed.

Definition demo_rnd : nat -> Z := fun _ => 7.

Theorem forward_packet_spec_witness :
  let T := next_queue (dv_dbp demo_zc) 1 in
  let h := mk_HQe 0 3 1 3 1 (-1) 100 400 in
  let h' := stamped 2 50 (hop_ns demo_rnd 0 3) h in
  h' = mk_HQe 0 3 1 3 2 (-1) 500 3424000 /\
  match forward_packet demo_rnd 0 (fun m => m) (fun m => m) 0 3 demo_zc 50 demo_traffic with
  | Ret (t', d', m') =>
      holds_msg (H := T) m' 0 (h', [7; 8; 9]) /\ producer (Q := T) m' = 2 - 0 /\
      t' = u64 (Z.max 50 100 + TransTime h') /\ arrival_time h' = u64 (t' + 400)
  | _ => False
  end.
Proof.
  intros T h h'. split; [vm_compute; reflexivity|].
  destruct (demo_own_layout 0 ltac:(lia)) as [A1 A2]. destruct (demo_next_layout 1 ltac:(lia)) as [B1 B2].
  assert (LT : HQueueLayout (H := T)) by (split; intros; unfold T; rewrite ?B2, ?B1 by done; lia).
  assert (A : queues_apart (own_queue (dv_dbp demo_zc) 0) T)
    by (split; unfold apart; intros; unfold T; rewrite ?A2, ?B2, ?A1, ?B1 by done; lia).
  assert (Ecf : (m2m_hq_conflag_start (dv_dbp demo_zc)).[1] = 600) by (vm_compute; reflexivity).
  assert (SF : signal_apart demo_zc 1 (own_queue (dv_dbp demo_zc) 0)) by (apply demo_signal; rewrite ?Ecf; lia).
  assert (ST : signal_apart demo_zc 1 T)
    by (split; unfold apart; intros; rewrite Ecf; unfold T; rewrite ?B2, ?B1 by done; lia).
  assert (Enb : find_neighbor (Z.to_nat (TotalDeviceNum (dv_vnd demo_zc))) (dv_vnd demo_zc) 3 0 = Some 1)
    by (vm_compute; reflexivity).
  assert (Ec : consumer (Q := own_queue (dv_dbp demo_zc) 0) demo_traffic = 0) by (vm_compute; reflexivity).
  assert (Eq : producer (Q := T) demo_traffic = 0) by (vm_compute; reflexivity).
  assert (Hh : holds_msg (H := own_queue (dv_dbp demo_zc) 0) demo_traffic
    (consumer (Q := own_queue (dv_dbp demo_zc) 0) demo_traffic) (h, [7; 8; 9])) by (rewrite Ec; apply demo_holds0).
  destruct (is_ret_Ret (forward_packet demo_rnd 0 (fun m => m) (fun m => m) 0 3 demo_zc 50 demo_traffic))
    as [[[t' d'] m'] E]; [vm_compute; reflexivity|]. rewrite E.
  assert (N1 : PacketSize h = Z.of_nat (length [7; 8; 9])) by reflexivity.
  assert (N2 : Z.of_nat (length [7; 8; 9]) <= 128) by (vm_compute; discriminate).
  assert (N3 : EntryNum h = -1) by reflexivity.
  assert (N4 : 0 < TransTime h) by reflexivity.
  assert (N5 : 0 <= 50 < 2 ^ 64) by lia.
  assert (N6 : 0 <= DeviceID (dv_vnd demo_zc) < 2 ^ 32) by (vm_compute; split; [discriminate|reflexivity]).
  assert (Hc : even_ix (consumer (Q := own_queue (dv_dbp demo_zc) 0) demo_traffic)) by (left; exact Ec).
  assert (Hq : even_ix (producer (Q := T) demo_traffic)) by (left; exact Eq).
  pose proof (demo_own_ok 0 ltac:(lia)) as LF.
  destruct (forward_packet_spec demo_rnd 0 (fun m => m) (fun m => m) 0 3 1 demo_zc 50 demo_traffic t' d' m'
    h [7; 8; 9] Enb LF LT A SF ST (quiet_id _ _) (quiet_id _ _) Hc Hq Hh N1 N2 N3 N4 N5 N6 E)
    as (G1 & G2 & _ & G3 & _ & G4).
  fold T in G1, G2. rewrite Eq in G1, G2. specialize (G4 ltac:(done)).
  split; [exact G1|]. split; [exact G2|]. split; [exact G3|exact G4].
Defined.

(** Delivery to the node itself: the packet goes, payload intact, to the
    queue the CPU receives from, its sending time lifted to the router's time;
    the router's time becomes its arrival time, and the sender's control flag
    reports success with exactly the arrival time the receiver will read. *)
Theorem deliver_self_spec w1 w2 ind d t m t' m' h data :
  let F := own_queue (dv_dbp d) ind in
  let T := own_queue (dv_dbp d) NODE_MAX_LINKS in
  HQueueLayout (H := F) -> HQueueLayout (H := T) -> queues_apart F T ->
  signal_apart d (SenderID h) F -> signal_apart d (SenderID h) T ->
  quiet F T w1 -> quiet F T w2 ->
  even_ix (consumer (Q := F) m) -> even_ix (producer (Q := T) m) ->
  holds_msg (H := F) m (consumer (Q := F) m) (h, data) ->
  PacketSize h = Z.of_nat (length data) -> Z.of_nat (length data) <= 128 -> EntryNum h = -1 ->
  0 <= t < 2 ^ 64 ->
  deliver_self w1 w2 ind d t m = Ret (t', m') ->
  let h' := set_SendTime (Z.max t (SendTime h)) h in
  holds_msg (H := T) m' (producer (Q := T) m) (h', data) /\
  producer (Q := T) m' = 2 - producer (Q := T) m /\
  consumer (Q := F) m' = 2 - consumer (Q := F) m /\
  t' = arrival_time h' /\
  let cf := (m2m_hq_conflag_start (dv_dbp d)).[SenderID h] in
  load32 m' (cf + off_dataflag) = 0 /\ load64 m' (cf + off_transtime) = t'.
Proof.
  intros F T LF LT A SF ST W1 W2 Hc Hq Hhold Hsize Hlen Hent Ht. unfold deliver_self. fold F T.
  set (c := consumer (Q := F) m) in *. set (q := producer (Q := T) m) in *.
  pose proof Hhold as [Hh Hd]. cbn [fst snd] in Hh, Hd.
  pose proof (even_range _ Hq) as Hq4. pose proof (even_range _ Hc) as Hc4.
  rewrite Hh. set (h' := set_SendTime _ _). cbv zeta.
  set (fp := hq_entry (HQueue := F) c).
  assert (Hcase : exists m1, (if SendTime h <? t then (t, store64 m (fp + off_SendTime) t) else (SendTime h, m)) =
      (Z.max t (SendTime h), m1) /\ read_HQe m1 fp = h' /\ forall i, ~ (fp <= i < fp + 40) -> m1.[i] = m.[i]).
  { destruct (Z.ltb_spec (SendTime h) t).
    - eexists. split; [by rewrite Z.max_l by lia|]. split.
      + rewrite read_store_SendTime by done. unfold fp. rewrite Hh. unfold h'. by rewrite Z.max_l by lia.
      + intros i Hi. unfold store64. off_unfold. apply store_out. lia.
    - exists m. split; [by rewrite Z.max_r by lia|]. split; [|done]. unfold fp. rewrite Hh. unfold h'.
      rewrite Z.max_r by lia. by destruct h. }
  destruct Hcase as (m1 & -> & Em1 & Om1). rewrite Em1.
  pose proof (at_hand_rewritten F T c q h h' data m m1 LF A Hc eq_refl eq_refl Hhold Hlen Em1 Om1) as Hhand.
  change (EntryNum h') with (EntryNum h). rewrite Hent. cbn [Z.eqb Pos.eqb].
  intros (m2 & Htf & H)%bind_Ret.
  apply (transfer_run F T LF LT A c q h' data Hc Hq Hsize Hlen w1 w2 m1 m2 W1 W2 Hhand) in Htf
    as (HT & HF & HpT & HcF).
  assert (Eh2 : read_HQe m2 fp = h') by apply HF. rewrite Eh2 in H. injection H as <- <-.
  change (TransTime h') with (TransTime h).
  change (SenderID h) with (SenderID h') in SF, ST |- *.
  set (tn := u64 _). assert (Htn : 0 <= tn < 2 ^ 64) by apply u64_range.
  pose proof (signal_queue d h' tn 0 m2 T (h', data) q ST Hq4 Hlen HT) as (G1 & G2 & _).
  pose proof (signal_queue d h' tn 0 m2 F (h', data) c SF Hc4 Hlen HF) as (_ & _ & G3).
  pose proof (signal_cells d h' tn 0 m2 Htn ltac:(done)) as [C1 C2].
  split_and!; [done|congruence|congruence|done|done|done].
Qed.

Theorem deliver_self_spec_witness :
  let T := own_queue (dv_dbp demo_zc) 8 in
  let h' := mk_HQe 0 1 3 2 3 (-1) 300 350 in
  match deliver_self (fun m => m) (fun m => m) 1 demo_zc 300 demo_traffic with
  | Ret (t', m') => holds_msg (H := T) m' 0 (h', [4]) /\ producer (Q := T) m' = 2 - 0 /\
      t' = arrival_time h' /\ load32 m' (620 + off_dataflag) = 0 /\ load64 m' (620 + off_transtime) = t'
  | _ => False
  end.
Proof.
  intros T h'.
  assert (Ecf : (m2m_hq_conflag_start (dv_dbp demo_zc)).[3] = 620) by (vm_compute; reflexivity).
  assert (SF : signal_apart demo_zc 3 (own_queue (dv_dbp demo_zc) 1)) by (apply demo_signal; rewrite ?Ecf; lia).
  assert (ST : signal_apart demo_zc 3 T) by (apply demo_signal; rewrite ?Ecf; lia).
  assert (Ec : consumer (Q := own_queue (dv_dbp demo_zc) 1) demo_traffic = 0) by (vm_compute; reflexivity).
  assert (Eq : producer (Q := T) demo_traffic = 0) by (vm_compute; reflexivity).
  assert (Hh : holds_msg (H := own_queue (dv_dbp demo_zc) 1) demo_traffic
    (consumer (Q := own_queue (dv_dbp demo_zc) 1) demo_traffic) (mk_HQe 0 1 3 2 3 (-1) 200 350, [4]))
    by (rewrite Ec; apply demo_holds1).
  destruct (is_ret_Ret (deliver_self (fun m => m) (fun m => m) 1 demo_zc 300 demo_traffic)) as [[t' m'] E];
    [vm_compute; reflexivity|]. rewrite E.
  set (h := mk_HQe 0 1 3 2 3 (-1) 200 350) in *.
  assert (N1 : PacketSize h = Z.of_nat (length [4])) by reflexivity.
  assert (N2 : Z.of_nat (length [4]) <= 128) by (vm_compute; discriminate).
  assert (N3 : EntryNum h = -1) by reflexivity.
  assert (N5 : 0 <= 300 < 2 ^ 64) by lia.
  assert (Hc : even_ix (consumer (Q := own_queue (dv_dbp demo_zc) 1) demo_traffic)) by (left; exact Ec).
  assert (Hq : even_ix (producer (Q := T) demo_traffic)) by (left; exact Eq).
  pose proof (demo_own_ok 1 ltac:(lia)) as LF. pose proof (demo_own_ok 8 ltac:(lia)) as LT.
  pose proof (demo_queues_apart 1 8 ltac:(lia) ltac:(lia) ltac:(lia)) as A.
  destruct (deliver_self_spec (fun m => m) (fun m => m) 1 demo_zc 300 demo_traffic t' m' h [4]
    LF LT A SF ST (quiet_id _ _) (quiet_id _ _) Hc Hq Hh N1 N2 N3 N5 E)
    as (G1 & G2 & _ & G3 & G4 & G5).
  change (SenderID h) with 3 in G4, G5.
  change NODE_MAX_LINKS with 8 in G1, G2. fold T in G1, G2. rewrite Eq in G1, G2. rewrite Ecf in G4, G5.
  split; [exact G1|]. split; [exact G2|]. split; [exact G3|]. split; [exact G4|exact G5].
Defined.
