(* ===== verification/Device.v ===== *)
(** * The virtual network device ([hw/virtual-network-device.c])

    The guest drives the network by writing, to a register of the device, the
    address of a request structure in its own memory: [special_write] finds the
    structure with [v2p], runs the command and stores the result in the
    structure's [rv].  [v2p] (target-arm/op_helper.c, part of the emulated CPU)
    is a parameter; guest memory is a byte map like the segment.  The System V
    calls, the file and what the other processes do are parameters too. *)
From S2P Require Import Prelude Mem Config Route Topology Layout Timing HeaderQueue SendRecv Router.

Definition NET_DIST : Z := 16.
Definition ZIGBEE : Z := 0.
Definition NETWORK_INIT : Z := 0.
Definition NETWORK_SEND : Z := 4.
Definition NETWORK_RECV : Z := 8.
Definition NETWORK_EXIT : Z := 12.

(** ** m2m_time_init as a whole: [es] is what the others do before each look *)

Fixpoint wait_awake (es : list (mem -> mem)) (n : Z) (lt : arr) (m : mem) (s : arr * Z) : run mem :=
  if s.2 <? n - 1 then
    match es with
    | [] => Spin
    | e :: es' => wait_awake es' n lt (e m) (probe_pass n lt (e m) s)
    end
  else Ret m.

Fixpoint wait_go (es : list (mem -> mem)) (lt : arr) (m : mem) : run mem :=
  match es with
  | [] => Spin
  | e :: es' => if load64 (e m) lt.[0] =? 1 then Ret (e m) else wait_go es' lt (e m)
  end.

Definition m2m_time_init (es : list (mem -> mem)) (v : VND) (lt : arr) (vpmu_trigger : Z) (m : mem)
  : run (M2M_ERR_T * mem * Z) :=
  let m := time_init_write v lt m in
  if dev_is v ZC then
    m ← wait_awake es (TotalDeviceNum v) lt m (∅, 0);
    let '(m, trigger) := time_init_go lt m in
    Ret (M2M_SUCCESS, m, trigger)
  else
    m ← wait_go es lt m;
    Ret (M2M_SUCCESS, m, vpmu_trigger).

(** ** The device's state *)

Record vnd_state := mk_vnd_state {
  vs_dev : dev;
  vs_mem : mem;          (* the segment *)
  vs_guest : mem;
  vs_thread : bool;      (* a routing thread runs *)
  vpmu_trigger : Z }.

Definition set_tables (t : topo) (b : dbp) (sy : sync) (d : dev) : dev :=
  mk_dev t b sy (dv_route d) (dv_clock d) (dv_pos d) (dv_tmp d).

(** The request structures of the guest *)
Definition off_init_rv : Z := 4.
Definition off_DataAddress : Z := 4.
Definition off_DataSize : Z := 8.
Definition off_send_rv : Z := 12.
Definition off_recv_rv : Z := 8.

Record world := mk_world {
  w_v2p : Z -> Z;
  w_conf : option (list Z);         (* topology.conf *)
  w_shmget : Z -> bool -> Z; w_shmat : Z -> Z; w_shmdt : Z; w_shmctl : Z;
  w_affinity : bool;                (* sched_setaffinity succeeds *)
  w_start : list (mem -> mem);      (* during m2m_time_init *)
  w_send : list waits; w_recv : list (mem -> mem);
  w_rand : nat -> Z }.

Definition set_core_affinity (pinned : bool) : run M2M_ERR_T :=
  if pinned then Ret M2M_SUCCESS else ProcExit.

(** NETWORK_INIT: each stage runs if the one before succeeded; [rv] is 1 either
    way. *)
Definition network_init (w : world) (value : Z) (s : vnd_state) : run vnd_state :=
  let netinit := w_v2p w value in
  let id := load32 (vs_guest s) netinit in
  let d := with_vnd (set_DeviceID id) (vs_dev s) in
  let answer d m th tr := mk_vnd_state d m (store32 (vs_guest s) (netinit + off_init_rv) 1) th tr in
  '(rc, t) ← m2m_topology_init (w_conf w) (s32 id) (dv_topo d);
  if bool_decide (rc = M2M_SUCCESS) then
    '(_, loc) ← m2m_mm_init (w_shmget w) (w_shmat w) t;
    let '(t, b) := m2m_dbp_init loc (t, dv_dbp d) in
    let '(_, th, sy) := m2m_route_processor_init t (dv_sync d) in
    let d := set_tables t b sy d in
    _ ← set_core_affinity (w_affinity w);
    let '(_, d, m) := m2m_send_recv_init d (vs_mem s) in
    '(_, m, tr) ← m2m_time_init (w_start w) (dv_vnd d) (m2m_localtime_start b) (vpmu_trigger s) m;
    Ret (answer d m (vs_thread s || th) tr)
  else Ret (answer (set_tables t (dv_dbp d) (dv_sync d) d) (vs_mem s) (vs_thread s) (vpmu_trigger s)).

Definition network_send (w : world) (value : Z) (s : vnd_state) : run vnd_state :=
  let packet := w_v2p w value in
  let g := vs_guest s in
  let data := load_bytes (Z.to_nat (load32 g (packet + off_DataSize))) g
                (w_v2p w (load32 g (packet + off_DataAddress))) in
  '(ret, d, m) ← m2m_send (w_rand w) (w_send w) data (s32 (load32 g packet)) 0 (vs_dev s) (vs_mem s);
  Ret (mk_vnd_state d m
         (store32 g (packet + off_send_rv) (if bool_decide (ret = M2M_TRANS_SUCCESS) then 1 else 0))
         (vs_thread s) (vpmu_trigger s)).

Definition network_recv (w : world) (value : Z) (s : vnd_state) : run vnd_state :=
  let packet := w_v2p w value in
  let g := vs_guest s in
  '(_, data, d, m) ← m2m_recv (w_recv w) (-1) (vs_dev s) (vs_mem s);
  let g := match data with
           | Some data => store_bytes g (w_v2p w (load32 g (packet + off_DataAddress))) data
           | None => g
           end in
  Ret (mk_vnd_state d m (store32 g (packet + off_recv_rv) 1) (vs_thread s) (vpmu_trigger s)).

Definition network_exit (w : world) (value : Z) (s : vnd_state) : run vnd_state :=
  let netexit := w_v2p w value in
  let d := vs_dev s in
  let '(_, cancelled, sy) := m2m_route_processor_exit (dv_vnd d) (dv_sync d) in
  let '(_, m, tr) := m2m_time_exit (dv_vnd d) (m2m_localtime_start (dv_dbp d)) (vs_mem s) in
  _ ← m2m_mm_exit (w_shmdt w) (w_shmctl w) (dv_topo d);
  let '(_, t) := m2m_dbp_exit (dv_topo d) in
  Ret (mk_vnd_state (set_tables t (dv_dbp d) sy d) m
         (store32 (vs_guest s) (netexit + off_init_rv) 1)
         (vs_thread s && negb cancelled) tr).

(** The register decoding; every other address is ignored. *)
Definition special_write (w : world) (addr value : Z) (s : vnd_state) : run vnd_state :=
  if addr / NET_DIST =? ZIGBEE then
    let reg := addr mod NET_DIST in
    if reg =? NETWORK_INIT then network_init w value s
    else if reg =? NETWORK_SEND then network_send w value s
    else if reg =? NETWORK_RECV then network_recv w value s
    else if reg =? NETWORK_EXIT then network_exit w value s
    else Ret s
  else Ret s.

(** Reads do nothing. *)
Definition special_read (addr : Z) (s : vnd_state) : vnd_state := s.

(** ** Zeroed memory *)

(** [n] bytes from [a] are zero. *)
Definition zeroed (m : mem) (a n : Z) : Prop := forall i, a <= i < a + n -> load8 m i = 0.

Lemma load8_store_zero n m a i :
  load8 (store n m a 0) i = if decide (a <= i < a + Z.of_nat n) then 0 else load8 m i.
Proof.
  revert m a. induction n as [|n IH]; intros m a; cbn [store]; [by rewrite decide_False by lia|].
  rewrite IH. unfold load8 at 1. rewrite aget_aset.
  repeat case_decide; try lia; done.
Qed.

Lemma zeroed_store n m a b k : zeroed m b k -> zeroed (store n m a 0) b k.
Proof. intros H i Hi. rewrite load8_store_zero. case_decide; [done|by apply H]. Qed.

Lemma zeroed_stored n m a : zeroed (store n m a 0) a (Z.of_nat n).
Proof. intros i Hi. rewrite load8_store_zero. by rewrite decide_True. Qed.

Lemma zeroed_load n m a : zeroed m a (Z.of_nat n) -> load n m a = 0.
Proof.
  revert a. induction n as [|n IH]; intros a H; [done|]. cbn [load].
  rewrite (H a) by lia. rewrite IH; [done|]. intros i Hi. apply H. lia.
Qed.

Lemma zeroed_flag m p b k : zeroed m b k -> zeroed (init_flag m p) b k.
Proof. intros H. by apply zeroed_store, zeroed_store. Qed.
Lemma zeroed_meta m p b k : zeroed m b k -> zeroed (init_meta m p) b k.
Proof. intros H. by apply zeroed_store, zeroed_store. Qed.

Lemma init_flag_zeroed m p : zeroed (init_flag m p) p 12.
Proof.
  intros i Hi. unfold init_flag, store32, store64, off_dataflag, off_transtime.
  rewrite !load8_store_zero. repeat case_decide; done || lia.
Qed.

Lemma init_meta_zeroed m p :
  zeroed (init_meta m p) (p + off_producer) 4 /\ zeroed (init_meta m p) (p + off_consumer) 4.
Proof.
  unfold init_meta, store32, off_producer, off_consumer; split; intros i Hi;
    rewrite !load8_store_zero; repeat case_decide; done || lia.
Qed.

(** A loop of such stores zeroes every cell it visits and keeps zeroes. *)
Lemma zeroed_loop (f : mem -> Z -> mem) n m b k :
  (forall m i, zeroed m b k -> zeroed (f m i) b k) -> zeroed m b k -> zeroed (forZ 0 n f m) b k.
Proof.
  intros Hf H0. apply (forZ_ind (fun _ m => zeroed m b k)); [done|]. intros; by apply Hf.
Qed.

Lemma loop_zeroes (f : mem -> Z -> mem) n m b k q :
  (forall m i, zeroed m b k -> zeroed (f m i) b k) -> (forall m, zeroed (f m q) b k) ->
  0 <= q < Z.of_nat n -> zeroed (forZ 0 n f m) b k.
Proof.
  intros Hf Hq Hn.
  assert (H : q < 0 + Z.of_nat n -> zeroed (forZ 0 n f m) b k); [|by apply H; lia].
  apply (forZ_ind (fun j m => q < j -> zeroed m b k)); [lia|].
  intros i x Hi IH Hj. destruct (decide (i = q)) as [->|]; [apply Hq|apply Hf, IH; lia].
Qed.

(** ** The properties *)

Definition own_queues (v : VND) : Z := if dev_is v ZR then 8 else if dev_is v ZC then 10 else 1.

(** After [m2m_send_recv_init] every queue the device owns is empty with
    both indices 0, and the control flag and the data buffers' flags are clear,
    whatever the segment held and wherever the tables point; only the device's
    accumulated transmission time changes. *)
Theorem send_recv_init_empty d m :
  let '(rc, d', m') := m2m_send_recv_init d m in
  rc = M2M_SUCCESS /\ d' = with_vnd (set_TotalTransTimes 0) d /\
  (forall q, 0 <= q < own_queues (dv_vnd d) ->
     producer (Q := own_queue (dv_dbp d) q) m' = 0 /\ consumer (Q := own_queue (dv_dbp d) q) m' = 0) /\
  (dev_is (dv_vnd d) ZR = false ->
     forall p, p = cf_addr d \/ (exists i, 0 <= i < 4 /\ p = (m2m_dbp_meta_start (dv_dbp d)).[i]) ->
     load32 m' (p + off_dataflag) = 0 /\ load64 m' (p + off_transtime) = 0).
Proof.
  unfold m2m_send_recv_init.
  change (dev_is (dv_vnd (with_vnd (set_TotalTransTimes 0) d))) with (dev_is (dv_vnd d)).
  change (cf_addr (with_vnd (set_TotalTransTimes 0) d)) with (cf_addr d).
  change (dv_dbp (with_vnd (set_TotalTransTimes 0) d)) with (dv_dbp d).
  set (meta := fun i => (m2m_hq_meta_start (dv_dbp d)).[i]).
  assert (Hm : forall n m q k, (k = off_producer \/ k = off_consumer) -> 0 <= q < Z.of_nat n ->
    zeroed (forZ 0 n (fun m i => init_meta m (meta i)) m) (meta q + k) 4).
  { intros n m1 q k Hk Hq. apply (loop_zeroes (fun m i => init_meta m (meta i)) n m1 _ _ q); [|intros m2|done].
    - intros m2 i H. by apply zeroed_meta.
    - destruct (init_meta_zeroed m2 (meta q)). destruct Hk as [-> | ->]; done. }
  split; [done|]. split; [done|]. split.
  - intros q Hq. unfold own_queues in Hq. unfold producer, consumer, load32. cbn [own_queue hq_meta].
    fold (meta q). destruct (dev_is (dv_vnd d) ZR); [split; apply zeroed_load, Hm; auto|].
    destruct (dev_is (dv_vnd d) ZC); [split; apply zeroed_load, Hm; auto; unfold nat_LINKS; lia|].
    assert (q = 0) as -> by lia. split; apply zeroed_load, init_meta_zeroed.
  - intros Hzr p Hp. rewrite Hzr.
    set (m1 := forZ 0 nat_DB _ _).
    assert (H1 : zeroed m1 p 12).
    { destruct Hp as [->|(i & Hi & ->)].
      - apply zeroed_loop; [intros; by apply zeroed_flag|]. apply init_flag_zeroed.
      - apply (loop_zeroes _ _ _ _ _ i); [intros; by apply zeroed_flag|intros; apply init_flag_zeroed|done]. }
    match goal with |- load32 ?x _ = 0 /\ _ => assert (H2 : zeroed x p 12) end.
    { destruct (dev_is (dv_vnd d) ZC); [|by apply zeroed_meta].
      apply zeroed_loop; [intros; by apply zeroed_meta|done]. }
    split; apply zeroed_load; intros i Hi; apply H2; unfold off_dataflag, off_transtime in *; lia.
Qed.

(** What the guest sees of a send: [rv], alone in its memory, becomes 1 or 0;
    a request for an unknown receiver or for the device itself answers 0 and
    leaves the network untouched. *)
Theorem network_send_result w value s s' :
  let packet := w_v2p w value in
  let r := s32 (load32 (vs_guest s) packet) in
  let v := dv_vnd (vs_dev s) in
  special_write w NETWORK_SEND value s = Ret s' ->
  (load32 (vs_guest s') (packet + off_send_rv) = 0 \/ load32 (vs_guest s') (packet + off_send_rv) = 1) /\
  (forall i, ~ (packet + off_send_rv <= i < packet + off_send_rv + 4) ->
     (vs_guest s').[i] = (vs_guest s).[i]) /\
  (u32 r = DeviceID v \/ TotalDeviceNum v < r \/ r < 0 ->
   vs_dev s' = vs_dev s /\ vs_mem s' = vs_mem s /\ load32 (vs_guest s') (packet + off_send_rv) = 0).
Proof.
  intros packet r v. change (special_write w NETWORK_SEND value s) with (network_send w value s).
  unfold network_send. fold packet r. intros ([[ret d] m] & E & [= <-])%bind_Ret.
  cbn [vs_guest vs_dev vs_mem]. split; [|split].
  - rewrite load32_store32. case_bool_decide; auto.
  - intros i Hi. by apply store_out.
  - intros Hbad. rewrite load32_store32. unfold m2m_send in E. fold v in E.
    replace ((u32 r =? DeviceID v) || (TotalDeviceNum v <? r) || (r <? 0)) with true in E.
    + injection E as <- <- <-. done.
    + symmetry. destruct (Z.eqb_spec (u32 r) (DeviceID v)); [done|].
      destruct (Z.ltb_spec (TotalDeviceNum v) r); [done|]. simpl. apply Z.ltb_lt. lia.
Qed.

(** The guest of the demo device: requests at 100, its buffer at 200. *)
Definition demo_world (ws : list waits) (es : list (mem -> mem)) : world :=
  mk_world (fun a => a) None (fun _ _ => 0) (fun _ => 0) 0 0 true [] ws es (fun _ => 7).
Definition demo_guest (id : Z) : mem := store32 (store32 (store32 ∅ 100 id) 104 200) 108 3.
Definition demo_vs (id : Z) (m : mem) : vnd_state := mk_vnd_state demo_dev m (demo_guest id) false 77.

Theorem network_send_result_witness :
  match special_write (demo_world [demo_waits] []) NETWORK_SEND 100 (demo_vs 2 ∅) with
  | Ret s' => vs_dev s' = demo_dev /\ vs_mem s' = ∅ /\ load32 (vs_guest s') 112 = 0
  | _ => False
  end.
Proof.
  destruct (special_write (demo_world [demo_waits] []) NETWORK_SEND 100 (demo_vs 2 ∅)) as [s'| |] eqn:E;
    [|vm_compute in E; discriminate E..].
  assert (Hr : u32 (s32 (load32 (vs_guest (demo_vs 2 ∅)) 100)) = DeviceID (dv_vnd (vs_dev (demo_vs 2 ∅))))
    by (vm_compute; reflexivity).
  exact (proj2 (proj2 (network_send_result _ 100 (demo_vs 2 ∅) s' E)) (or_introl Hr)).
Defined.

(** What the guest sees of a receive: when a message is at the head of the
    queue at the first poll, its payload is in the guest's buffer, [rv] is 1 and
    the rest of guest memory is untouched; the clock is the later of the
    device's and the arrival time. *)
Theorem network_recv_result w value s e es :
  let d := vs_dev s in
  let Q := recv_queue d in
  let m1 := e (vs_mem s) in
  let packet := w_v2p w value in
  let buf := w_v2p w (load32 (vs_guest s) (packet + off_DataAddress)) in
  let data := head_data (Q := Q) m1 in
  w_recv w = e :: es ->
  dev_is (dv_vnd d) ZR = false -> saved_ok d -> clock_apart d Q -> HQueueLayout (H := Q) ->
  even_ix (consumer (Q := Q) m1) -> PacketSize (head_header (Q := Q) m1) <= HEADER_QUEUE_ENTRY_SIZE ->
  producer (Q := Q) m1 <> consumer (Q := Q) m1 -> EntryNum (head_header (Q := Q) m1) = -1 ->
  apart buf (Z.of_nat (length data)) (packet + off_recv_rv) 4 ->
  exists s', special_write w NETWORK_RECV value s = Ret s' /\
    load_bytes (length data) (vs_guest s') buf = data /\
    load32 (vs_guest s') (packet + off_recv_rv) = 1 /\
    (forall i, ~ (buf <= i < buf + Z.of_nat (length data)) ->
       ~ (packet + off_recv_rv <= i < packet + off_recv_rv + 4) -> (vs_guest s').[i] = (vs_guest s).[i]) /\
    get_vpmu_time (dv_clock (vs_dev s')) =
      Z.max (get_vpmu_time (dv_clock d)) (arrival_time (head_header (Q := Q) m1)).
Proof.
  intros d Q m1 packet buf data Hes Hzr Hsv A L Hev Hsz Hne Hent Hap.
  destruct (get_local_run d m1 Hzr Hsv A L Hev Hsz Hne Hent) as (d' & m' & Hrun & _ & Hclk & _).
  change (special_write w NETWORK_RECV value s) with (network_recv w value s).
  unfold network_recv, m2m_recv. rewrite Hes. cbn [Z.eqb Pos.eqb negb andb recv_loop].
  fold d m1 Q. rewrite Hrun. cbn [mbind run_bind]. rewrite bool_decide_true by done.
  cbn [orb mbind run_bind]. fold Q packet data. fold buf.
  eexists. split; [reflexivity|]. cbn [vs_guest vs_dev]. unfold apart in Hap. split; [|split; [|split]].
  - unfold store32. rewrite load_bytes_store_disj by lia.
    apply load_bytes_store_bytes_same, load_bytes_ok.
  - by rewrite load32_store32.
  - intros i H1 H2. unfold store32. rewrite store_out by lia. by apply store_bytes_out.
  - exact Hclk.
Qed.

Theorem network_recv_result_witness :
  exists s', special_write (demo_world [] [id]) NETWORK_RECV 100 (demo_vs (-1) demo_inbox) = Ret s' /\
    load_bytes 2 (vs_guest s') 200 = [5; 6] /\ load32 (vs_guest s') 108 = 1 /\
    get_vpmu_time (dv_clock (vs_dev s')) = 3500.
Proof.
  assert (H1 : dev_is (dv_vnd demo_dev) ZR = false) by (vm_compute; reflexivity).
  assert (H2 : saved_ok demo_dev) by (left; reflexivity).
  assert (H3 : even_ix (consumer (Q := recv_queue demo_dev) demo_inbox)) by (left; vm_compute; reflexivity).
  assert (H4 : PacketSize (head_header (Q := recv_queue demo_dev) demo_inbox) <= HEADER_QUEUE_ENTRY_SIZE)
    by (vm_compute; discriminate).
  assert (H5 : producer (Q := recv_queue demo_dev) demo_inbox <> consumer (Q := recv_queue demo_dev) demo_inbox)
    by (vm_compute; discriminate).
  assert (H6 : EntryNum (head_header (Q := recv_queue demo_dev) demo_inbox) = -1) by (vm_compute; reflexivity).
  assert (Eb : load32 (demo_guest (-1)) (100 + off_DataAddress) = 200) by (vm_compute; reflexivity).
  assert (Ed : head_data (Q := recv_queue demo_dev) demo_inbox = [5; 6]) by (vm_compute; reflexivity).
  assert (Ea : Z.max (get_vpmu_time (dv_clock demo_dev))
    (arrival_time (head_header (Q := recv_queue demo_dev) demo_inbox)) = 3500) by (vm_compute; reflexivity).
  assert (H7 : apart (load32 (demo_guest (-1)) (100 + off_DataAddress))
    (Z.of_nat (length (head_data (Q := recv_queue demo_dev) demo_inbox))) (100 + off_recv_rv) 4)
    by (rewrite Eb, Ed; right; vm_compute; discriminate).
  destruct (network_recv_result (demo_world [] [id]) 100 (demo_vs (-1) demo_inbox) id []
    eq_refl H1 H2 demo_recv_apart demo_recv_layout H3 H4 H5 H6 H7) as (s' & Es & G1 & G2 & _ & G4).
  exists s'. cbn [vs_dev demo_vs w_v2p demo_world vs_guest vs_mem] in G1, G4. unfold id in G1, G4.
  rewrite Ed, Eb in G1. rewrite Ea in G4.
  split; [exact Es|]. split; [exact G1|]. split; [exact G2|exact G4].
Defined.

(** Leaving the network blocks nobody: after NETWORK_EXIT the device's clock
    is the largest time a running device can show (later than any packet a
    router may hold back), the VPMU is off, its routing thread is gone, its type
    is cleared, and the guest reads 1. *)
Theorem network_exit_result w value s s' :
  special_write w NETWORK_EXIT value s = Ret s' ->
  load64 (vs_mem s') (lt_addr (vs_dev s)) = MAX_TIME - 1 /\ vpmu_trigger s' = 0 /\
  vs_thread s' = vs_thread s && dev_is (dv_vnd (vs_dev s)) ZED /\
  cstr_of (DeviceType (dv_vnd (vs_dev s'))) = [] /\
  load32 (vs_guest s') (w_v2p w value + off_init_rv) = 1.
Proof.
  change (special_write w NETWORK_EXIT value s) with (network_exit w value s).
  unfold network_exit. destruct (m2m_route_processor_exit _ _) as [[? c] sy] eqn:Er.
  injection Er as <- <- <-. destruct (m2m_time_exit _ _ _) as [[? m] tr] eqn:Et. injection Et as <- <- <-.
  intros (x & _ & H)%bind_Ret. destruct (m2m_dbp_exit (dv_topo (vs_dev s))) as [? t] eqn:Ed.
  injection H as <-. cbn [vs_mem vs_dev vpmu_trigger vs_thread vs_guest].
  split; [by rewrite load64_store64|]. split; [done|]. split; [by rewrite negb_involutive|].
  split; [|by rewrite load32_store32].
  unfold m2m_dbp_exit in Ed. injection Ed as <- <-. unfold dv_vnd, set_tables. cbn [dv_topo].
  set (t0 := forZ 0 3 _ _).
  assert (E0 : (DeviceType (GlobalVND t0)).[0] = 0).
  { unfold t0, forZ. change (seqZ 0 (Z.of_nat 3)) with [0; 1; 2]. cbn [foldl].
    unfold set_vnd. cbn [GlobalVND]. unfold set_DeviceType. cbn [DeviceType]. by arr_simpl. }
  unfold cstr_of.
  assert (E1 : forall n, (DeviceType (GlobalVND (forZ 0 n (fun t ind => set_type ind [] t) t0))).[0] = 0).
  { intros n. apply (forZ_ind (fun _ t => (DeviceType (GlobalVND t)).[0] = 0)); [done|]. intros; done. }
  by rewrite E1.
Qed.

Theorem network_exit_result_witness :
  exists s', special_write (demo_world [] []) NETWORK_EXIT 100 (demo_vs 2 ∅) = Ret s' /\
    load64 (vs_mem s') 16 = MAX_TIME - 1.
Proof.
  destruct (special_write (demo_world [] []) NETWORK_EXIT 100 (demo_vs 2 ∅)) as [s'| |] eqn:E;
    [|vm_compute in E; discriminate E..].
  exists s'. split; [reflexivity|].
  exact (proj1 (network_exit_result (demo_world [] []) 100 (demo_vs 2 ∅) s' E)).
Defined.
