(* ===== verification/Network.v ===== *)
(** * The processes of a network at work

    [Segment] shows that the tables of the processes meet; [SendRecv] and
    [Router] prove what the operations do wherever their queues lie.  This file
    joins the two: it states what a process knows of the network after its start
    ([process]), shows that every operation keeps it, derives from it that the
    queues, control flags and clock cells the operations use lie apart, and
    follows one message through three processes: the sender's posting, the
    router's forwarding, the receiver's poll. *)
From S2P Require Import Prelude Mem Config Route Topology TopologyFormat Layout Segment Timing HeaderQueue SendRecv Router.

(** ** Where things lie *)

(** Start of the block of node [w], in a segment attached at [L]. *)
Definition node_base (L : Z) (ds : list node_desc) (w : Z) : Z :=
  L + MAX_NODE_NUM * sizeof_u64 + placement (take (Z.to_nat (w - 1)) ds).

(** A queue whose four entries start at [a] and whose metadata are at [b]. *)
Definition placed (Q : HQueue) (a b : Z) : Prop :=
  (forall e, 0 <= e < 4 -> hq_entry (HQueue := Q) e = a + e * 128) /\ hq_meta (HQueue := Q) = b.

(** Offset of queue [q] and of its metadata in the block of a node. *)
Definition queue_off (q : Z) : Z := HEADER_QUEUE_SIZE * q.
Definition meta_off (ty : dtype) (q : Z) : Z :=
  match ty with
  | EndDevice => HEADER_QUEUE_SIZE
  | _ => HEADER_QUEUE_SIZE * NODE_MAX_LINKS + HEADER_QUEUE_METADATA_SIZE * q
  end.
Definition queue_count (ty : dtype) : Z := match ty with EndDevice => 1 | _ => 8 end.

(** The queue of [w] that its neighbour [u] fills. *)
Definition slot (g : linkmap) (ty : dtype) (w u : Z) : Z :=
  match ty with EndDevice => 0 | _ => remote_slot g w u end.

(** ** What a process knows of the network *)

(** The configuration of process [id]: its own description [e], the types and
    links of all nodes, and the addresses of clocks, control flags and queues. *)
Record process (ds : list node_desc) (L id : Z) (e : node_desc) (d : dev) : Prop := {
  pr_range : 1 <= id <= Z.of_nat (length ds);
  pr_node : ds !! Z.to_nat (id - 1) = Some e;
  pr_id : DeviceID (dv_vnd d) = id;
  pr_total : TotalDeviceNum (dv_vnd d) = Z.of_nat (length ds);
  pr_type : cstr_of (DeviceType (dv_vnd d)) = type_name (nd_type e);
  pr_degree : NeighborNum (dv_vnd d) = Z.of_nat (length (nd_links e));
  pr_neighbor : forall i x, nd_links e !! i = Some x -> (Neighbors (dv_vnd d)).[Z.of_nat i] = x;
  pr_types : forall w ew, 1 <= w -> ds !! Z.to_nat (w - 1) = Some ew ->
    node_type (dv_topo d) w = type_name (nd_type ew);
  pr_unit : unit_links (t_NODE_MAP (dv_topo d));
  pr_links : forall w i, 1 <= w <= Z.of_nat (length ds) -> 1 <= i <= Z.of_nat (length ds) ->
    linked (t_NODE_MAP (dv_topo d)) w i <-> i ∈ links_of ds w;
  pr_clock : forall w, 1 <= w <= Z.of_nat (length ds) ->
    (m2m_localtime_start (dv_dbp d)).[w] = L + w * sizeof_u64;
  pr_flag : forall w ew off, 1 <= w -> ds !! Z.to_nat (w - 1) = Some ew ->
    conflag_offset (type_name (nd_type ew)) = Some off ->
    (m2m_hq_conflag_start (dv_dbp d)).[w] = node_base L ds w + off;
  pr_own : forall q, 0 <= q < queue_count (nd_type e) ->
    placed (own_queue (dv_dbp d) q) (node_base L ds id + queue_off q)
      (node_base L ds id + meta_off (nd_type e) q);
  pr_next : forall q w ew, 1 <= w -> nd_links e !! q = Some w -> ds !! Z.to_nat (w - 1) = Some ew ->
    let s := slot (t_NODE_MAP (dv_topo d)) (nd_type ew) w id in
    placed (next_queue (dv_dbp d) (Z.of_nat q)) (node_base L ds w + queue_off s)
      (node_base L ds w + meta_off (nd_type ew) s) }.

Section Boot.
Context (ds : list node_desc) (L : Z).
Hypothesis Hnet : net_ok ds.

(** A process that has started knows its network. *)
Lemma boot_process id e d :
  1 <= id <= Z.of_nat (length ds) -> ds !! Z.to_nat (id - 1) = Some e ->
  boot ds L id = Some (dv_topo d, dv_dbp d) -> process ds L id e d.
Proof.
  intros Hid He Hb.
  destruct (start_topo_facts ds Hnet id e Hid He) as (Hok & Eid & En & Ety & Enn & Enb).
  assert (Hbase : forall w ew, 1 <= w -> ds !! Z.to_nat (w - 1) = Some ew ->
    (NODE_SHM_LOCATION (dv_topo d)).[w] = node_base L ds w).
  { intros w ew Hw Hew. pose proof (boot_base ds Hnet L id _ _ _ _ Hid Hb Hew) as H.
    by replace (1 + Z.of_nat (Z.to_nat (w - 1))) with w in H by lia. }
  assert (Hplace : forall w ew, 1 <= w -> ds !! Z.to_nat (w - 1) = Some ew ->
    (NODE_SHM_LOCATION (start_topo ds id)).[w] = placement (take (Z.to_nat (w - 1)) ds) /\
    node_type (start_topo ds id) w = type_name (nd_type ew)).
  { intros w ew Hw Hew. destruct (start_topo_place ds id _ _ Hew) as [H1 H2].
    by replace (1 + Z.of_nat (Z.to_nat (w - 1))) with w in H1, H2 by lia. }
  assert (Hun : unit_links (t_NODE_MAP (start_topo ds id))).
  { pose proof (topology_init_render id ds topo0 (no_desc _ Hnet) ltac:(lia)) as Hrun.
    apply (init_unit id ds topo0 _ _ (no_desc _ Hnet) ltac:(lia) eq_refl Hrun). }
  rewrite (boot_eq ds Hnet) in Hb by lia. injection Hb as Hrun.
  pose proof (dbp_init_unfold _ _ _ _ _ Hok Hrun) as Hu. cbv zeta in Hu.
  destruct Hu as (_ & Hmap & Hty & _ & Hnb & Hnn & Hdi & Hdt).
  destruct (dbp_init_tables _ _ _ _ _ Hok Hrun) as (Hclock & Hflag & Htot).
  pose proof (no_size _ Hnet) as Hsz. unfold MAX_NODE_NUM in Hsz.
  assert (Hzed : dev_is (GlobalVND (start_topo ds id)) ZED = match nd_type e with EndDevice => true | _ => false end).
  { unfold dev_is. rewrite Ety. by destruct (nd_type e). }
  constructor; unfold dv_vnd; rewrite ?Hdi, ?Htot, ?Hdt, ?Hnn, ?Hnb, ?Hmap; try done.
  - intros w ew Hw Hew. unfold node_type. rewrite Hty. by apply (Hplace w ew).
  - intros w i Hw Hi. by apply start_topo_links.
  - intros w Hw. apply Hclock. lia.
  - intros w ew off Hw Hew Ho. pose proof (lookup_lt_Some _ _ _ Hew).
    destruct (Hplace w ew Hw Hew) as [Hp Ht]. rewrite (Hflag w off), Hp; [|lia|by rewrite Ht].
    unfold node_base. lia.
  - intros q Hq. rewrite <- (Hbase id e) by (done || lia). rewrite <- Eid.
    assert (Hqr : 0 <= q < (if dev_is (GlobalVND (start_topo ds id)) ZED then 1 else 8))
      by (rewrite Hzed; by destruct (nd_type e)).
    split; [intros x Hx|]; unfold own_queue; cbn [hq_entry hq_meta].
    + destruct (dbp_init_own _ _ _ _ _ q x Hok Hrun Hqr Hx) as [-> _]. done.
    + destruct (dbp_init_own _ _ _ _ _ q 0 Hok Hrun Hqr ltac:(lia)) as [_ ->]. rewrite Hzed.
      by destruct (nd_type e).
  - intros q w ew Hw Hq Hew. cbv zeta. pose proof (lookup_lt_Some _ _ _ Hq).
    destruct (Hplace w ew Hw Hew) as [_ Ht].
    pose proof (fun x => dbp_init_remote _ _ _ _ _ (Z.of_nat q) x Hok Hrun ltac:(lia)) as R. cbv zeta in R.
    rewrite (Enb q w Hq), Ht, Eid, (Hbase w ew Hw Hew) in R.
    assert (Es : streq (type_name (nd_type ew)) ZED = match nd_type ew with EndDevice => true | _ => false end)
      by (by destruct (nd_type ew)).
    rewrite Es in R.
    split; [intros x Hx|]; unfold next_queue; cbn [hq_entry hq_meta].
    + destruct (R x Hx) as [-> _]. unfold queue_off, slot. by destruct (nd_type ew).
    + destruct (R 0 ltac:(lia)) as [_ ->]. unfold meta_off, slot. by destruct (nd_type ew).
Qed.
End Boot.

(** ** Operations keep the configuration *)

(** Everything but statistics, clock, routing scratch and random position *)
Record same_config (d d' : dev) : Prop := {
  sc_dbp : dv_dbp d' = dv_dbp d;
  sc_map : t_NODE_MAP (dv_topo d') = t_NODE_MAP (dv_topo d);
  sc_types : NODE_TYPE (dv_topo d') = NODE_TYPE (dv_topo d);
  sc_id : DeviceID (dv_vnd d') = DeviceID (dv_vnd d);
  sc_type : DeviceType (dv_vnd d') = DeviceType (dv_vnd d);
  sc_total : TotalDeviceNum (dv_vnd d') = TotalDeviceNum (dv_vnd d);
  sc_degree : NeighborNum (dv_vnd d') = NeighborNum (dv_vnd d);
  sc_neighbors : Neighbors (dv_vnd d') = Neighbors (dv_vnd d) }.

#[export] Instance same_config_equivalence : Equivalence same_config.
Proof.
  split.
  - intros d. by split.
  - intros d d' []. by split.
  - intros d1 d2 d3 [] []. split; congruence.
Qed.

Lemma process_config ds L id e d d' : process ds L id e d -> same_config d d' -> process ds L id e d'.
Proof.
  intros [] []. constructor; rewrite ?sc_dbp0, ?sc_map0, ?sc_id0, ?sc_type0, ?sc_total0, ?sc_degree0,
    ?sc_neighbors0; try done.
  intros w ew Hw Hew. unfold node_type. rewrite sc_types0. by apply (pr_types0 w ew).
Qed.

(** The statistics that the operations update *)
Inductive stats_only : VND -> VND -> Prop :=
| so_refl v : stats_only v v
| so_step v v' tt ts tr tl tp : stats_only v v' -> stats_only v (set_stats tt ts tr tl tp v').

Lemma config_vnd f d :
  (forall v, stats_only v (f v)) -> same_config d (with_vnd f d).
Proof.
  intros Hf. specialize (Hf (dv_vnd d)). split; try done;
    unfold dv_vnd in *; cbn [with_vnd dv_topo set_vnd GlobalVND] in *;
    generalize dependent (f (GlobalVND (dv_topo d))); intros v' Hf; by induction Hf.
Qed.

Lemma config_clock f d : same_config d (with_clock f d).
Proof. by split. Qed.
Lemma config_route r d : same_config d (with_route r d).
Proof. by split. Qed.
Lemma config_pos k d : same_config d (with_pos k d).
Proof. by split. Qed.
Lemma config_tmp t d : same_config d (with_tmp t d).
Proof. by split. Qed.
Lemma config_trans x d : same_config d (with_vnd (add_TotalTransTimes x) d).
Proof. apply config_vnd. intros v. apply so_step, so_refl. Qed.

Create HintDb config.
#[export] Hint Resolve config_clock config_route config_pos config_tmp config_trans : config.
#[export] Hint Extern 4 (same_config ?d ?d) => reflexivity : config.

(** Chains of updates *)
Ltac config_steps :=
  repeat match goal with
  | |- same_config ?d ?d => reflexivity
  | H : same_config ?d ?e |- same_config ?d ?e => exact H
  | |- same_config _ (with_clock _ _) => etransitivity; [|apply config_clock]
  | |- same_config _ (with_route _ _) => etransitivity; [|apply config_route]
  | |- same_config _ (with_pos _ _) => etransitivity; [|apply config_pos]
  | |- same_config _ (with_tmp _ _) => etransitivity; [|apply config_tmp]
  | |- same_config _ (with_vnd (add_TotalTransTimes _) _) => etransitivity; [|apply config_trans]
  end.

Lemma transmission_stats rnd size v k h :
  transmission_latency rnd size v k = Ret h -> stats_only v (hop_vnd h).
Proof.
  unfold transmission_latency, transmission_latency_gen. intros ([[ok us] k'] & _ & H)%bind_Ret.
  destruct ok; injection H as <-; cbn [hop_vnd]; repeat apply so_step; apply so_refl.
Qed.

Lemma config_hop rnd size d k h :
  transmission_latency rnd size (dv_vnd d) k = Ret h -> same_config d (with_vnd (fun _ => hop_vnd h) d).
Proof.
  intros Hh%transmission_stats. split; try done;
    unfold dv_vnd in *; cbn [with_vnd dv_topo set_vnd GlobalVND] in *;
    generalize dependent (hop_vnd h); intros v' Hf; by induction Hf.
Qed.

Lemma post_begin_config rnd r size tag d m p d' m' :
  post_begin rnd r size tag d m = Ret (p, d', m') -> same_config d d'.
Proof.
  unfold post_begin. destruct (route_discovery _ _ _ _ _) as [[nh rs]|]; [|done].
  destruct (find_neighbor _ _ _ _); [|done]. intros (h & Hh & H)%bind_Ret.
  assert (C : same_config d (with_pos (hop_pos h) (with_vnd (fun _ => hop_vnd h) (with_route rs d)))).
  { etransitivity; [|apply config_pos]. etransitivity; [apply (config_route rs)|].
    by apply (config_hop rnd size (with_route rs d) _ _ Hh). }
  destruct (latency h =? 0); injection H as _ <- _; by config_steps.
Qed.

Lemma post_config rnd w r tag data d m rc d' m' :
  m2m_post_remote_msg rnd w r tag data d m = Ret (rc, d', m') -> same_config d d'.
Proof.
  unfold m2m_post_remote_msg. intros ([[p d1] m1] & Hb%post_begin_config & H)%bind_Ret.
  destruct p as [rc1|h entry]; [by injection H as _ <- _|].
  apply bind_Ret in H as (m2 & _ & H). apply bind_Ret in H as (m3 & _ & H).
  unfold post_end in H. destruct (_ =? 77); [done|]. injection H as _ <- _. by config_steps.
Qed.

Lemma send_config rnd ws data r tag d m rc d' m' :
  m2m_send rnd ws data r tag d m = Ret (rc, d', m') -> same_config d d'.
Proof.
  unfold m2m_send. destruct (_ || _); [by intros [= _ <- _]|].
  intros ([[rc1 d1] m1] & Hl & H)%bind_Ret. injection H as _ <- _. config_steps.
  destruct (_ <=? _); [|by injection Hl as _ <- _].
  clear -Hl. revert d m Hl. induction ws as [|w ws IH]; intros d m; [done|]. cbn [send_loop].
  intros ([[rc2 d2] m2] & Hp%post_config & H)%bind_Ret.
  destruct (_ || _); [by injection H as _ <- _|]. etransitivity; [exact Hp|by eapply IH].
Qed.

Lemma get_begin_config d m : same_config d (get_begin d m).1.
Proof. unfold get_begin. destruct (_ =? 0); cbn [fst]; by config_steps. Qed.

Lemma get_settle_config ptr d m : same_config d (get_settle ptr d m).1.
Proof. unfold get_settle. cbv zeta. cbn [fst]. destruct (_ <? _); by config_steps. Qed.

Lemma get_config d m rc data d' m' :
  m2m_get_local_msg d m = (rc, data, d', m') -> same_config d d'.
Proof.
  unfold m2m_get_local_msg. pose proof (get_begin_config d m) as C1.
  destruct (get_begin d m) as [d1 m1]. cbn [fst] in C1.
  destruct (producer _ =? _); [by intros [= _ _ <- _]|]. cbv zeta.
  set (ptr := hq_entry _). set (x := if EntryNum _ =? -1 then _ else _).
  assert (C2 : same_config d1 x.1.2) by (unfold x; destruct (_ =? -1); cbn [fst snd]; by config_steps).
  destruct x as [[dt d2] m2]. cbn [fst snd] in C2. pose proof (get_settle_config ptr d2 m2) as C3.
  destruct (get_settle ptr d2 m2) as [d3 m3]. cbn [fst] in C3. intros [= _ _ <- _].
  etransitivity; [exact C1|]. by etransitivity.
Qed.

Lemma recv_config es s d m rc data d' m' :
  m2m_recv es s d m = Ret (rc, data, d', m') -> same_config d d'.
Proof.
  unfold m2m_recv. destruct (_ && _); [by intros [= _ _ <- _]|].
  intros ([[dt d1] m1] & Hl & H)%bind_Ret. injection H as _ _ <- _. config_steps. clear -Hl.
  revert d m Hl. induction es as [|e es IH]; intros d m; [done|]. cbn [recv_loop].
  destruct (m2m_get_local_msg d (e m)) as [[[rc1 dt1] d2] m2] eqn:E. apply get_config in E.
  destruct (_ || _); [by intros [= _ <- _]|]. intros Hl%IH. by etransitivity.
Qed.

Lemma take_packet_config q h d p d' : take_packet q h d = Ret (p, d') -> same_config d d'.
Proof. intros ([r ->] & _)%take_packet_inv. apply config_route. Qed.

Lemma look_at_config m p d i p' d' : look_at m (p, d) i = Ret (p', d') -> same_config d d'.
Proof.
  unfold look_at. destruct (hq_nonempty _); [|by intros [= _ <-]].
  destruct (earlier _ _); [apply take_packet_config|by intros [= _ <-]].
Qed.

Lemma find_earliest_config d m p d' : find_earliest d m = Ret (p, d') -> same_config d d'.
Proof.
  unfold find_earliest. intros H.
  apply (forMZ_ind (fun _ x => same_config d x.2)) with (a' := (p, d')) in H; [exact H|reflexivity|].
  intros i [p1 d1] [p2 d2] _ C E%look_at_config. cbn [snd] in *. by etransitivity.
Qed.

Lemma deadline_index_config one_hop e s i s' :
  deadline_index one_hop e s i = Ret s' -> same_config (dl_dev s) (dl_dev s').
Proof.
  unfold deadline_index. intros ([[[p d] fl] c] & Hx & H)%bind_Ret.
  assert (C : same_config (dl_dev s) d).
  { destruct (_ && _); [|by injection Hx as _ <- _ _].
    apply bind_Ret in Hx as ([p1 d1] & E%take_packet_config & Hx). by injection Hx as _ <- _ _. }
  clear Hx. revert H. destruct (_ && _); [|by intros [= <-]]. cbv zeta.
  destruct (_ <=? _); by intros [= <-].
Qed.

Lemma deadline_pass_config one_hop e s s' :
  deadline_pass one_hop e s = Ret s' -> same_config (dl_dev s) (dl_dev s').
Proof.
  unfold deadline_pass. intros (s1 & Hs & H)%bind_Ret. injection H as <-. cbn [dl_dev].
  apply (forMZ_ind (fun _ x => same_config (dl_dev s) (dl_dev x))) with (a' := s1) in Hs; [exact Hs|reflexivity|].
  intros i s2 s3 _ C E%deadline_index_config. by etransitivity.
Qed.

Lemma wait_clocks_config one_hop es p d m p' d' m' :
  wait_clocks one_hop es p d m = Ret (p', d', m') -> same_config d d'.
Proof.
  unfold wait_clocks. destruct (_ <? _); [|by intros [= _ <- _]].
  intros (s' & Hs & H)%bind_Ret. injection H as _ <- _.
  change d with (dl_dev (mk_deadline p d m ∅ 0)) at 1. revert Hs.
  generalize (mk_deadline p d m ∅ 0). clear.
  induction es as [|e es IH]; intros s; [done|]. cbn [deadline_loop].
  intros (s1 & E%deadline_pass_config & H)%bind_Ret.
  destruct (_ =? _); [by injection H as <-|]. etransitivity; [exact E|by apply IH].
Qed.

Lemma restamp_config rnd fp d t m t' d' m' : restamp rnd fp d t m = Ret (t', d', m') -> same_config d d'.
Proof.
  unfold restamp. cbv zeta. destruct (_ =? _); [by intros [= _ <- _]|].
  intros (h & Hh%config_hop & H)%bind_Ret. injection H as _ <- _. by config_steps.
Qed.

Lemma forward_config rnd fa w1 w2 ind next d t m t' d' m' :
  forward_packet rnd fa w1 w2 ind next d t m = Ret (t', d', m') -> same_config d d'.
Proof.
  unfold forward_packet. destruct (find_neighbor _ _ _ _); [|done].
  intros ([[t1 d1] m1] & C%restamp_config & H)%bind_Ret.
  destruct (_ =? 0); [destruct (_ =? -1); by injection H as _ <- _|].
  apply bind_Ret in H as (m2 & _ & H). by injection H as _ <- _.
Qed.

Lemma round_config rnd one_hop fa e t d m t' d' m' :
  route_round rnd one_hop fa e (t, d, m) = Ret (t', d', m') -> same_config d d'.
Proof.
  unfold route_round. intros (m1 & _ & H)%bind_Ret.
  apply bind_Ret in H as ([p d1] & C1%find_earliest_config & H).
  apply bind_Ret in H as ([[p2 d2] m2] & C2%wait_clocks_config & H).
  transitivity d2; [by etransitivity|].
  destruct (_ =? _); [|by eapply forward_config].
  apply bind_Ret in H as ([t3 m3] & _ & H). by injection H as _ <- _.
Qed.

Lemma thread_config rnd one_hop fa es d m t' d' m' :
  m2m_route_processor_create rnd one_hop fa es d m = Ret (t', d', m') -> same_config d d'.
Proof.
  unfold m2m_route_processor_create. generalize 0 at 1. generalize (sync_router d m). intros m0 t0 H.
  cut (forall s, foldl (fun s e => s ≫= route_round rnd one_hop fa e) s es = Ret (t', d', m') ->
    (forall t1 d1 m1, s = Ret (t1, d1, m1) -> same_config d d1) -> same_config d d').
  { intros Hc. eapply Hc; [exact H|]. by intros t1 d1 m1 [= _ <- _]. }
  clear. induction es as [|e es IH]; intros s; cbn [foldl]; [intros ->; by eauto|].
  intros Hf Hs. eapply IH; [exact Hf|]. intros t1 d1 m1 ([[t2 d2] m2] & E & Hr)%bind_Ret.
  apply round_config in Hr. etransitivity; [by eapply Hs|done].
Qed.

(** ** The bytes of a queue *)

Definition queue_bytes (Q : HQueue) (i : Z) : Prop :=
  (hq_meta (HQueue := Q) <= i < hq_meta (HQueue := Q) + 32) \/
  exists e, 0 <= e < 4 /\ hq_entry (HQueue := Q) e <= i < hq_entry (HQueue := Q) e + 128.

Lemma placed_bytes Q a b i : placed Q a b -> queue_bytes Q i -> a <= i < a + 512 \/ b <= i < b + 32.
Proof. intros [He Hm] [H|(e & H1 & H2)]; [lia|]. rewrite He in H2 by done. lia. Qed.

Lemma placed_layout Q a b : placed Q a b -> a + 512 <= b -> HQueueLayout (H := Q).
Proof.
  intros [He Hm] H. split; intros; [rewrite !He by done|rewrite Hm, He by done]; lia.
Qed.

Lemma placed_apart F T a b a' b' :
  placed F a b -> placed T a' b' -> apart a 512 a' 512 -> apart b 32 a' 512 -> apart a 512 b' 32 ->
  apart b 32 b' 32 -> queues_apart F T.
Proof.
  intros [He Hm] [He' Hm']. unfold apart. intros. split; unfold apart; intros;
    rewrite ?Hm, ?Hm', ?He, ?He' by done; lia.
Qed.

(** Two records of one queue, and two segments that agree on a queue *)
Lemma producer_same Q Q' m m' :
  hq_meta (HQueue := Q) = hq_meta (HQueue := Q') -> (forall i, queue_bytes Q i -> m'.[i] = m.[i]) ->
  producer (Q := Q') m' = producer (Q := Q) m.
Proof.
  intros E H. unfold producer, load32, off_producer. rewrite <- E. apply load_ext. intros i Hi.
  apply H. left. lia.
Qed.

Lemma consumer_same Q Q' m m' :
  hq_meta (HQueue := Q) = hq_meta (HQueue := Q') -> (forall i, queue_bytes Q i -> m'.[i] = m.[i]) ->
  consumer (Q := Q') m' = consumer (Q := Q) m.
Proof.
  intros E H. unfold consumer, load32, off_consumer. rewrite <- E. apply load_ext. intros i Hi.
  apply H. left. lia.
Qed.

Lemma holds_same Q Q' m m' e x a b :
  placed Q a b -> placed Q' a b -> 0 <= e < 4 -> Z.of_nat (length x.2) <= 128 ->
  (forall i, queue_bytes Q i -> m'.[i] = m.[i]) -> holds_msg (H := Q) m e x -> holds_msg (H := Q') m' e x.
Proof.
  intros [E1 _] [E2 _] He Hl H [H1 H2]. pose proof (Z.mod_pos_bound (u32 (e + 1)) 4 ltac:(done)) as Hm. split.
  - rewrite <- H1, E1, E2 by done. apply read_HQe_ext. intros i Hi. apply H. right. exists e.
    rewrite E1 by done. lia.
  - rewrite <- H2 at 2. rewrite E1, E2 by done. apply load_bytes_ext. intros i Hi. apply H. right.
    exists (u32 (e + 1) mod 4). rewrite E1 by done. lia.
Qed.

(** ** What posting and forwarding leave alone *)

Lemma post_frame h entry data d m m1 m2 i :
  0 <= entry < 4 -> Z.of_nat (length data) <= 128 ->
  post_header h entry d m = Ret m1 -> post_data data d m1 = Ret m2 ->
  ~ queue_bytes (post_queue d) i -> ~ (cf_addr d <= i < cf_addr d + 12) -> m2.[i] = m.[i].
Proof.
  intros He Hl. unfold post_header, post_data. destruct (hq_room 1 m); [|done]. intros [= <-].
  destruct (hq_room 2 _); [|done]. intros [= <-] Hq Hc. unfold publish, put_data, store32, store64.
  assert (Hmeta : forall k, 0 <= k < 32 -> i <> hq_meta (HQueue := post_queue d) + k)
    by (intros k Hk ->; apply Hq; left; lia).
  assert (Hent : forall e, 0 <= e < 4 -> ~ (hq_entry (HQueue := post_queue d) e <= i <
    hq_entry (HQueue := post_queue d) e + 128)) by (intros e He' Hi; apply Hq; right; by exists e).
  unfold off_producer, off_dataflag, off_transtime, HEADER_QUEUE_ENTRY_NUM.
  rewrite store_out by (intros Hi; apply (Hmeta (i - hq_meta (HQueue := post_queue d))); lia).
  rewrite !store_out by lia.
  match goal with |- context [store_bytes _ (hq_entry ?e) _] =>
    pose proof (Hent e (Z.mod_pos_bound _ 4 ltac:(done))) end.
  rewrite store_bytes_out by lia. pose proof (Hent entry He). by rewrite write_HQe_out by lia.
Qed.


(** ** Blocks of different nodes lie apart, the clock cells before them *)

Lemma base_blocks L ds u w eu ew :
  1 <= u -> 1 <= w -> u <> w ->
  ds !! Z.to_nat (u - 1) = Some eu -> ds !! Z.to_nat (w - 1) = Some ew ->
  apart (node_base L ds u) (type_size (nd_type eu)) (node_base L ds w) (type_size (nd_type ew)).
Proof.
  intros Hu Hw Hne He Hf. unfold apart, node_base.
  pose proof (placement_take ds _ _ He). pose proof (placement_take ds _ _ Hf).
  destruct (decide (u < w)).
  - pose proof (placement_mono ds (S (Z.to_nat (u - 1))) (Z.to_nat (w - 1)) ltac:(lia)). lia.
  - pose proof (placement_mono ds (S (Z.to_nat (w - 1))) (Z.to_nat (u - 1)) ltac:(lia)). lia.
Qed.

Lemma base_above L ds w k : k < MAX_NODE_NUM -> L + k * sizeof_u64 + 8 <= node_base L ds w.
Proof.
  intros Hk. unfold node_base. pose proof (placement_nonneg (take (Z.to_nat (w - 1)) ds)).
  unfold MAX_NODE_NUM, sizeof_u64 in *. lia.
Qed.

(** A search for a neighbour finds it, at its first place in the list. *)
Lemma find_neighbor_in (l : list Z) v x n count :
  (forall i y, l !! i = Some y -> (Neighbors v).[count + Z.of_nat i] = y) ->
  Forall node_idx l -> x ∈ l -> (length l <= n)%nat ->
  exists q, find_neighbor n v x count = Some (count + Z.of_nat q) /\ l !! q = Some x.
Proof.
  revert n count. induction l as [|y l IH]; intros n count Hv Hl Hin Hn; [by apply not_elem_of_nil in Hin|].
  destruct n as [|n]; [cbn in Hn; lia|]. apply Forall_cons in Hl as [Hy Hl]. cbn [find_neighbor].
  pose proof (Hv 0%nat y eq_refl) as E0. rewrite Z.add_0_r in E0.
  rewrite E0, u32_small by (unfold node_idx, MAX_NODE_NUM in Hy; lia).
  destruct (Z.eqb_spec y x) as [->|Hne]; [exists 0%nat; by rewrite Z.add_0_r|].
  apply elem_of_cons in Hin as [->|Hin]; [done|].
  destruct (IH n (count + 1)) as (q & E & Hq); [|done|done|cbn in Hn; lia|].
  - intros i z Hz. rewrite <- (Hv (S i) z Hz). f_equal. lia.
  - exists (S q). rewrite E. split; [f_equal; lia|done].
Qed.

(** ** The sender's first part, in full *)

Definition posted (d : dev) (r size tag lat : Z) : m2m_HQe :=
  mk_HQe (u32 tag) (u32 size) (DeviceID (dv_vnd d)) (u32 r) (DeviceID (dv_vnd d)) (-1)
    (get_vpmu_time (dv_clock d)) lat.

Lemma post_begin_ends rnd r size tag d m nh rs c :
  0 <= size <= HEADER_QUEUE_ENTRY_SIZE ->
  route_discovery (t_NODE_MAP (dv_topo d)) (TotalDeviceNum (dv_vnd d)) (DeviceID (dv_vnd d)) r (dv_route d)
    = Some (nh, rs) ->
  find_neighbor (Z.to_nat (TotalDeviceNum (dv_vnd d))) (dv_vnd d) (u32 nh) 0 = Some c ->
  let lat := hop_ns rnd (dv_pos d) size in
  exists d1, post_begin rnd r size tag d m =
      Ret (Posting (posted d r size tag lat) (producer (Q := post_queue d) m), d1, sync_clock d1 m) /\
    same_config d d1 /\ dv_clock d1 = add_netsend lat (dv_clock d).
Proof.
  intros Hs Hr Hf lat. unfold post_begin. rewrite Hr, Hf.
  change (dv_pos (with_route rs d)) with (dv_pos d). rewrite transmission_latency_eq by done.
  cbn [mbind run_bind latency hop_vnd hop_pos]. fold (hop_ns rnd (dv_pos d) size). fold lat.
  unfold HEADER_QUEUE_ENTRY_SIZE in Hs. pose proof (hop_ns_range rnd (dv_pos d) size Hs) as Hlat. fold lat in Hlat.
  rewrite (proj2 (Z.eqb_neq lat 0)) by lia. eexists. split; [done|]. split; [|done].
  etransitivity; [|apply config_clock]. etransitivity; [|apply config_trans].
  etransitivity; [|apply config_pos]. etransitivity; [apply (config_route rs)|].
  pose proof (transmission_latency_eq rnd size (dv_vnd d) (dv_pos d) Hs) as E.
  exact (config_hop rnd size (with_route rs d) _ _ E).
Qed.

(** ** One message through three processes *)

Section Delivery.
Context (ds : list node_desc) (L u w x : Z) (eu ew ex : node_desc) (du dw dx : dev).
Hypothesis Hnet : net_ok ds.
Hypothesis Pu : process ds L u eu du.
Hypothesis Pw : process ds L w ew dw.
Hypothesis Px : process ds L x ex dx.
Hypothesis Tu : nd_type eu = EndDevice.
Hypothesis Tw : nd_type ew <> EndDevice.
Hypothesis Tx : nd_type ex = EndDevice.
Hypothesis Lu : nd_links eu = [w].
Hypothesis Lw : x ∈ nd_links ew.
Hypothesis Dw : (length (nd_links ew) <= length ds)%nat.
Hypothesis Hux : u <> x.

#[local] Abbreviation Bu := (node_base L ds u).
#[local] Abbreviation Bw := (node_base L ds w).
#[local] Abbreviation Bx := (node_base L ds x).

(** The queue of the router that the sender fills *)
Definition uplink : Z := remote_slot (t_NODE_MAP (dv_topo du)) w u.

Lemma uwx_distinct : u <> w /\ x <> w.
Proof.
  split; intros ->; [pose proof (pr_node _ _ _ _ _ Pu)|pose proof (pr_node _ _ _ _ _ Px)];
    pose proof (pr_node _ _ _ _ _ Pw); congruence.
Qed.

Lemma links_of_node id e d : process ds L id e d -> links_of ds id = nd_links e.
Proof. intros P. unfold links_of. by rewrite (pr_node _ _ _ _ _ P). Qed.

Lemma uplink_range : 0 <= uplink < 8.
Proof.
  pose proof (pr_range _ _ _ _ _ Pu). pose proof (pr_range _ _ _ _ _ Pw).
  pose proof (no_degree _ Hnet) as Hd. rewrite Forall_lookup in Hd.
  specialize (Hd _ _ (pr_node _ _ _ _ _ Pw)). unfold NODE_MAX_LINKS in Hd.
  assert (Hb : 0 <= uplink < Z.of_nat (length (nd_links ew))); [|lia].
  rewrite <- (links_of_node w ew dw Pw). apply remote_slot_bound; [lia| |].
  - destruct (no_sym _ Hnet u w ltac:(lia) ltac:(lia)) as [Hs _]. apply Hs.
    rewrite (links_of_node u eu du Pu), Lu. by left.
  - intros i Hi Hn. apply (pr_links _ _ _ _ _ Pu); [lia..|exact Hn].
Qed.

Lemma zed_u t : dev_is (dv_vnd du) t = streq ZED t.
Proof. unfold dev_is. by rewrite (pr_type _ _ _ _ _ Pu), Tu. Qed.
Lemma zed_x t : dev_is (dv_vnd dx) t = streq ZED t.
Proof. unfold dev_is. by rewrite (pr_type _ _ _ _ _ Px), Tx. Qed.

(** The two ends of the two queues of the way *)
Lemma up_queue :
  placed (post_queue du) (Bw + queue_off uplink) (Bw + meta_off (nd_type ew) uplink) /\
  placed (own_queue (dv_dbp dw) uplink) (Bw + queue_off uplink) (Bw + meta_off (nd_type ew) uplink).
Proof.
  pose proof uplink_range as Hr. pose proof (pr_range _ _ _ _ _ Pw).
  split; [|apply (pr_own _ _ _ _ _ Pw); by destruct (nd_type ew)].
  assert (E : slot (t_NODE_MAP (dv_topo du)) (nd_type ew) w u = uplink)
    by (unfold slot, uplink; by destruct (nd_type ew)).
  rewrite <- E. unfold post_queue. rewrite zed_u. change (streq ZED ZED) with true. cbv iota.
  apply (pr_next _ _ _ _ _ Pu 0%nat w ew); [lia|by rewrite Lu|apply Pw].
Qed.

Lemma down_queue c :
  nd_links ew !! c = Some x ->
  placed (next_queue (dv_dbp dw) (Z.of_nat c)) Bx (Bx + 512) /\ placed (recv_queue dx) Bx (Bx + 512).
Proof.
  intros Hc. pose proof (pr_range _ _ _ _ _ Px). split.
  - pose proof (pr_next _ _ _ _ _ Pw c x ex ltac:(lia) Hc (pr_node _ _ _ _ _ Px)) as P. cbv zeta in P.
    rewrite Tx in P. cbn [slot meta_off] in P. unfold queue_off in P. by rewrite Z.mul_0_r, Z.add_0_r in P.
  - pose proof (pr_own _ _ _ _ _ Px 0) as P. rewrite Tx in P. cbn [queue_count meta_off] in P.
    unfold queue_off in P. rewrite Z.mul_0_r, Z.add_0_r in P. unfold recv_queue. rewrite zed_x.
    change (streq ZED ZED) with true. cbv iota. by apply P.
Qed.

(** Room for the posting of a message *)
Lemma post_ends (d : dev) h data m :
  HQueueLayout (H := post_queue d) -> even_ix (producer (Q := post_queue d) m) ->
  producer (Q := post_queue d) m = consumer (Q := post_queue d) m ->
  exists m1 m2, post_header h (producer (Q := post_queue d) m) d m = Ret m1 /\ post_data data d m1 = Ret m2.
Proof.
  intros LQ Hev Hpc. unfold post_header, post_data.
  destruct (hq_room_even (H := post_queue d) m Hev ltac:(by rewrite <- Hpc)) as [-> _].
  eexists. eexists. split; [done|].
  set (m1 := write_HQe _ _ _).
  assert (Eq : forall i, hq_meta (HQueue := post_queue d) <= i < hq_meta (HQueue := post_queue d) + 32 -> m1.[i] = m.[i]).
  { intros i Hi. apply write_HQe_out. pose proof (hq_meta_apart (H := post_queue d) _ (even_range _ Hev)). lia. }
  assert (Ep : producer (Q := post_queue d) m1 = producer (Q := post_queue d) m).
  { unfold producer, load32, off_producer. apply load_ext. intros. apply Eq. lia. }
  assert (Ec : consumer (Q := post_queue d) m1 = consumer (Q := post_queue d) m).
  { unfold consumer, load32, off_consumer. apply load_ext. intros. apply Eq. lia. }
  destruct (hq_room_even (H := post_queue d) m1) as [_ Hr]; [by rewrite Ep|by rewrite Ec, <- Hpc|].
  by rewrite (proj2 Hr) by congruence.
Qed.

(** The places, as numbers *)
Lemma geometry :
  (Bu + 556 <= Bw \/ Bw + 4352 <= Bu) /\ (Bu + 556 <= Bx \/ Bx + 556 <= Bu) /\
  (Bx + 556 <= Bw \/ Bw + 4352 <= Bx) /\
  (forall k, k < MAX_NODE_NUM -> L + k * 8 + 8 <= Bu /\ L + k * 8 + 8 <= Bw /\ L + k * 8 + 8 <= Bx).
Proof.
  pose proof (pr_range _ _ _ _ _ Pu). pose proof (pr_range _ _ _ _ _ Pw). pose proof (pr_range _ _ _ _ _ Px).
  destruct uwx_distinct as [Huw Hxw].
  pose proof (base_blocks L ds u w eu ew ltac:(lia) ltac:(lia) Huw (pr_node _ _ _ _ _ Pu) (pr_node _ _ _ _ _ Pw)) as G1.
  pose proof (base_blocks L ds u x eu ex ltac:(lia) ltac:(lia) Hux (pr_node _ _ _ _ _ Pu) (pr_node _ _ _ _ _ Px)) as G2.
  pose proof (base_blocks L ds x w ex ew ltac:(lia) ltac:(lia) Hxw (pr_node _ _ _ _ _ Px) (pr_node _ _ _ _ _ Pw)) as G3.
  rewrite Tu in G1, G2. rewrite Tx in G2, G3. unfold apart in *.
  assert (Sw : 4352 <= type_size (nd_type ew)) by (destruct (nd_type ew); [by vm_compute|by vm_compute|done]).
  assert (Se : 556 <= type_size EndDevice) by (by vm_compute).
  split_and!; [lia..|]. intros k Hk.
  split_and!; apply (base_above L ds); done.
Qed.

Lemma tables (d : dev) id e :
  process ds L id e d ->
  (m2m_hq_conflag_start (dv_dbp d)).[u] = Bu + 544 /\
  (forall k, 1 <= k <= Z.of_nat (length ds) -> (m2m_localtime_start (dv_dbp d)).[k] = L + k * 8).
Proof.
  intros P. pose proof (pr_range _ _ _ _ _ Pu). split; [|apply P].
  apply (pr_flag _ _ _ _ _ P u eu); [lia|apply Pu|]. by rewrite Tu.
Qed.

(** The route of the sender: over its only neighbour *)
Lemma sender_route rs :
  exists rs', route_discovery (t_NODE_MAP (dv_topo du)) (TotalDeviceNum (dv_vnd du))
    (DeviceID (dv_vnd du)) x rs = Some (w, rs').
Proof.
  rewrite (pr_total _ _ _ _ _ Pu), (pr_id _ _ _ _ _ Pu). set (n := Z.of_nat (length ds)).
  pose proof (pr_range _ _ _ _ _ Pu) as Ru. pose proof (pr_range _ _ _ _ _ Pw) as Rw.
  pose proof (pr_range _ _ _ _ _ Px) as Rx. destruct uwx_distinct as [Huw Hxw].
  assert (Hl : forall i, 1 <= i <= n -> linked (t_NODE_MAP (dv_topo du)) u i -> i = w).
  { intros i Hi Hlk. apply (pr_links _ _ _ _ _ Pu) in Hlk; [|done..].
    rewrite (links_of_node u eu du Pu), Lu in Hlk. by apply list_elem_of_singleton in Hlk. }
  assert (Huw' : linked (t_NODE_MAP (dv_topo du)) u w).
  { apply (pr_links _ _ _ _ _ Pu); [done..|]. rewrite (links_of_node u eu du Pu), Lu. by left. }
  assert (Hwx : linked (t_NODE_MAP (dv_topo du)) w x).
  { apply (pr_links _ _ _ _ _ Pu); [done..|]. by rewrite (links_of_node w ew dw Pw). }
  assert (Hd : hop_dist (t_NODE_MAP (dv_topo du)) n 2 u x).
  { split.
    - apply (walk_snoc _ _ 1 u w x); [|done|done]. apply (walk_snoc _ _ 0 u u w); [by apply walk_nil|done|done].
    - intros k Hk. inversion Hk as [v Hv|k' u' v' w' Hwalk Hin Hlk]; subst; [done|].
      inversion Hwalk as [v2 Hv2|k2 u2 v2 w2 Hwalk2 Hin2 Hlk2]; subst.
      + apply Hl in Hlk; [done|done].
      + pose proof (walk_len _ _ _ _ _ Hwalk2). lia. }
  destruct (route_discovery_hop _ n 2 u x rs (pr_unit _ _ _ _ _ Pu) ltac:(apply Hnet) Hd ltac:(lia))
    as (hp & rs' & E & Hin & Hlk & _). exists rs'. rewrite E. f_equal. f_equal. by apply Hl.
Qed.

(** The three steps on the segment.  [h] is the header the sender makes. *)
Section Steps.
Context (rnd rnd' : nat -> Z) (fa tg t : Z) (data : list Z).
Hypothesis Hdata : bytes_ok data.
Hypothesis Hlen : Z.of_nat (length data) <= HEADER_QUEUE_ENTRY_SIZE.
Hypothesis Ht : 0 <= t < 2 ^ 64.
Let size := Z.of_nat (length data).
Let lat := hop_ns rnd (dv_pos du) size.
Let h := posted du x size tg lat.
#[local] Abbreviation U := (post_queue du).
#[local] Abbreviation F := (own_queue (dv_dbp dw) uplink).
#[local] Abbreviation R := (recv_queue dx).

Definition empty_queue (Q : HQueue) (m : mem) : Prop :=
  even_ix (producer (Q := Q) m) /\ producer (Q := Q) m = consumer (Q := Q) m.

Lemma lat_range : 0 < lat < 2 ^ 64.
Proof. apply hop_ns_range. unfold size, HEADER_QUEUE_ENTRY_SIZE in *. lia. Qed.

Lemma h_ok : msg_ok (h, data).
Proof.
  pose proof lat_range. pose proof (pr_range _ _ _ _ _ Pu). pose proof (no_size _ Hnet) as Hsz.
  unfold MAX_NODE_NUM, HEADER_QUEUE_ENTRY_SIZE in *. pose proof (get_vpmu_time_range (dv_clock du)).
  unfold msg_ok, HQe_ok, h, posted. cbn [fst snd tag PacketSize SenderID ReceiverID ForwardID EntryNum SendTime TransTime].
  rewrite (pr_id _ _ _ _ _ Pu), (u32_small size) by (unfold size; lia).
  pose proof (u32_range tg). pose proof (u32_range x). unfold size in *.
  split_and!; try done; try lia.
Qed.

Lemma step_post m :
  empty_queue U m ->
  exists d1 m1 m2 m3,
    post_begin rnd x size tg du m = Ret (Posting h (producer (Q := U) m), d1, m1) /\
    post_header h (producer (Q := U) m) d1 m1 = Ret m2 /\ post_data data d1 m2 = Ret m3 /\
    same_config du d1 /\ dv_clock d1 = add_netsend lat (dv_clock du) /\
    producer (Q := U) m3 = 2 - consumer (Q := U) m /\ consumer (Q := U) m3 = consumer (Q := U) m /\
    holds_msg (H := U) m3 (consumer (Q := U) m) (h, data) /\
    load64 m3 (lt_addr du) = get_vpmu_time (dv_clock d1) /\
    (forall i, ~ queue_bytes U i -> ~ (Bu + 544 <= i < Bu + 556) -> ~ (L + u * 8 <= i < L + u * 8 + 8) ->
       m3.[i] = m.[i]).
Proof.
  intros [Hev Hpc]. pose proof (pr_range _ _ _ _ _ Pu) as Ru.
  destruct (sender_route (dv_route du)) as [rs Hr].
  destruct (find_neighbor_in [w] (dv_vnd du) w (Z.to_nat (TotalDeviceNum (dv_vnd du))) 0) as (q & Hf & _).
  { intros i y Hy. rewrite <- Lu in Hy. rewrite Z.add_0_l. by apply (pr_neighbor _ _ _ _ _ Pu). }
  { pose proof (no_links _ Hnet) as Hl. unfold links_ok in Hl. rewrite Forall_lookup in Hl.
    rewrite <- Lu. apply (Hl _ _ (pr_node _ _ _ _ _ Pu)). }
  { by left. }
  { rewrite (pr_total _ _ _ _ _ Pu). cbn [length]. lia. }
  pose proof (pr_range _ _ _ _ _ Pw). pose proof (no_size _ Hnet) as Hsz. unfold MAX_NODE_NUM in Hsz.
  destruct (post_begin_ends rnd x size tg du m w rs (0 + Z.of_nat q)) as (d1 & Hb & C & Hclk);
    [unfold size; lia|done|by rewrite u32_small by lia|].
  fold size in lat. fold lat h in Hb, Hclk.
  destruct (same_tables du d1 (sc_dbp _ _ C) (sc_id _ _ C) (sc_type _ _ C)) as (El & Ec & Eq & Edev).
  destruct (tables du u eu Pu) as [Tcf Tlt].
  assert (Elt : lt_addr du = L + u * 8) by (unfold lt_addr; rewrite (pr_id _ _ _ _ _ Pu); by apply Tlt).
  assert (Ecf : cf_addr du = Bu + 544) by (unfold cf_addr; by rewrite (pr_id _ _ _ _ _ Pu)).
  destruct up_queue as [PU _]. destruct geometry as (G1 & G2 & G3 & G4). specialize (G4 u ltac:(unfold MAX_NODE_NUM; lia)).
  pose proof uplink_range as Hup.
  assert (Hin : forall i, queue_bytes U i -> Bw <= i < Bw + 4352).
  { intros i Hi%(placed_bytes _ _ _ _ PU). unfold queue_off, meta_off, HEADER_QUEUE_SIZE,
      HEADER_QUEUE_METADATA_SIZE, HEADER_QUEUE_ENTRY_NUM, HEADER_QUEUE_ENTRY_SIZE, NODE_MAX_LINKS in Hi.
    destruct (nd_type ew); lia. }
  set (m1 := sync_clock d1 m).
  assert (E1 : forall i, ~ (L + u * 8 <= i < L + u * 8 + 8) -> m1.[i] = m.[i]).
  { intros i Hi. unfold m1, sync_clock. rewrite El, Elt. unfold store64. apply store_out. lia. }
  assert (S1 : forall i, queue_bytes U i -> m1.[i] = m.[i]) by (intros i Hi%Hin; apply E1; lia).
  pose proof (producer_same U U m m1 eq_refl S1) as Ep. pose proof (consumer_same U U m m1 eq_refl S1) as Ecn.
  assert (LU : HQueueLayout (H := U)).
  { apply (placed_layout U _ _ PU). unfold queue_off, meta_off, HEADER_QUEUE_SIZE,
      HEADER_QUEUE_METADATA_SIZE, HEADER_QUEUE_ENTRY_NUM, HEADER_QUEUE_ENTRY_SIZE, NODE_MAX_LINKS.
    destruct (nd_type ew); [lia|lia|done]. }
  assert (Hq : forall e, 0 <= e < 4 -> Bw <= hq_entry (HQueue := U) e /\ hq_entry (HQueue := U) e + 128 <= Bw + 4352).
  { intros e He. pose proof (Hin (hq_entry (HQueue := U) e) ltac:(right; exists e; lia)).
    pose proof (Hin (hq_entry (HQueue := U) e + 127) ltac:(right; exists e; lia)). lia. }
  assert (Hm : Bw <= hq_meta (HQueue := U) /\ hq_meta (HQueue := U) + 32 <= Bw + 4352).
  { pose proof (Hin (hq_meta (HQueue := U)) ltac:(left; lia)).
    pose proof (Hin (hq_meta (HQueue := U) + 31) ltac:(left; lia)). lia. }
  assert (FA : flag_apart d1 U).
  { constructor; unfold apart; rewrite Ec, Ecf; [intros e He; specialize (Hq e He)|]; lia. }
  assert (CA : clock_apart d1 U).
  { constructor; unfold apart; rewrite El, Elt, ?Ec, ?Ecf; [intros e He; specialize (Hq e He)| |]; lia. }
  destruct (post_ends d1 h data m1) as (m2 & m3 & H2 & H3); rewrite ?Eq in *; [done|by rewrite Ep|congruence|].
  rewrite Ep in H2.
  destruct (post_delivers d1 h data m1 m2 m3) as (D1 & D2 & D3 & D4); rewrite ?Eq, ?Ep, ?Ecn in *;
    [done|done|apply h_ok|done|done|done|done|].
  exists d1, m1, m2, m3. split_and!; try done.
  - split; cbn [fst snd].
    + rewrite <- D3. unfold head_header. by rewrite D2.
    + rewrite <- D4 at 2. unfold head_data. rewrite D3, D2. unfold h, posted. cbn [PacketSize].
      rewrite (u32_small size) by (unfold size, HEADER_QUEUE_ENTRY_SIZE in *; lia). unfold size. by rewrite Nat2Z.id.
  - rewrite <- El. rewrite (post_data_clock data d1 m2 m3); [|by rewrite Eq|done|done].
    rewrite (post_header_clock h (producer (Q := U) m) d1 m1 m2); [|by rewrite Eq|by apply even_range|exact H2].
    unfold m1. apply sync_clock_cell. rewrite Edev. apply zed_u.
  - intros i N1 N2 N3. rewrite (post_frame h (producer (Q := U) m) data d1 m1 m2 m3 i);
      [by apply E1|by apply even_range|done|done|done|by rewrite Eq|rewrite Ec, Ecf; lia].
Qed.

(** The router's clock when it has passed the message on *)
Definition passed_on : Z := u64 (Z.max t (get_vpmu_time (dv_clock du)) + hop_ns rnd' (dv_pos dw) size).

Lemma step_forward m3 c :
  even_ix c -> consumer (Q := U) m3 = c -> holds_msg (H := U) m3 c (h, data) -> empty_queue R m3 ->
  exists d' m4 h',
    forward_packet rnd' fa (fun m => m) (fun m => m) uplink x dw t m3 = Ret (passed_on, d', m4) /\
    load32 m4 (Bu + 544 + off_dataflag) = 0 /\ load64 m4 (Bu + 544 + off_transtime) = passed_on /\
    holds_msg (H := R) m4 (consumer (Q := R) m3) (h', data) /\
    producer (Q := R) m4 = 2 - consumer (Q := R) m3 /\ consumer (Q := R) m4 = consumer (Q := R) m3 /\
    load64 m4 (L + u * 8) = load64 m3 (L + u * 8) /\
    arrival_time h' = u64 (passed_on + lat) /\ PacketSize h' = size /\ EntryNum h' = -1.
Proof.
  intros Hc Ecu Hh [Hev Hpc].
  pose proof (pr_range _ _ _ _ _ Pu). pose proof (pr_range _ _ _ _ _ Pw). pose proof (pr_range _ _ _ _ _ Px).
  destruct uwx_distinct as [Huw Hxw]. pose proof (no_size _ Hnet) as Hsz. unfold MAX_NODE_NUM in Hsz.
  destruct (find_neighbor_in (nd_links ew) (dv_vnd dw) x (Z.to_nat (TotalDeviceNum (dv_vnd dw))) 0)
    as (q & Hf & Hq).
  { intros i y Hy. rewrite Z.add_0_l. by apply (pr_neighbor _ _ _ _ _ Pw). }
  { pose proof (no_links _ Hnet) as Hl. unfold links_ok in Hl. rewrite Forall_lookup in Hl.
    apply (Hl _ _ (pr_node _ _ _ _ _ Pw)). }
  { done. }
  { rewrite (pr_total _ _ _ _ _ Pw). lia. }
  rewrite Z.add_0_l in Hf. destruct (down_queue q Hq) as [PT PR]. destruct up_queue as [PU PF].
  pose proof uplink_range as Hup. destruct geometry as (G1 & G2 & G3 & G4).
  specialize (G4 u ltac:(unfold MAX_NODE_NUM; lia)).
  set (T := next_queue (dv_dbp dw) (Z.of_nat q)) in *.
  set (a := Bw + queue_off uplink) in *. set (b := Bw + meta_off (nd_type ew) uplink) in *.
  assert (Hab : Bw <= a /\ a + 512 <= b /\ b + 32 <= Bw + 4352).
  { unfold a, b, queue_off, meta_off, HEADER_QUEUE_SIZE, HEADER_QUEUE_METADATA_SIZE,
      HEADER_QUEUE_ENTRY_NUM, HEADER_QUEUE_ENTRY_SIZE, NODE_MAX_LINKS. destruct (nd_type ew); [lia|lia|done]. }
  assert (LF : HQueueLayout (H := F)) by (apply (placed_layout F a b PF); lia).
  assert (LT : HQueueLayout (H := T)) by (apply (placed_layout T _ _ PT); lia).
  assert (A : queues_apart F T) by (apply (placed_apart F T a b _ _ PF PT); unfold apart; lia).
  destruct (tables dw w ew Pw) as [Tcf _].
  pose proof lat_range as Hlat.
  assert (Esnd : SenderID h = u) by (unfold h, posted; cbn [SenderID]; apply Pu).
  assert (SF : signal_apart dw (SenderID h) F).
  { rewrite Esnd. unfold signal_apart. rewrite Tcf. destruct PF as [E1 E2]. unfold apart.
    split; [intros e He; rewrite E1 by done|rewrite E2]; lia. }
  assert (ST : signal_apart dw (SenderID h) T).
  { rewrite Esnd. unfold signal_apart. rewrite Tcf. destruct PT as [E1 E2]. unfold apart.
    split; [intros e He; rewrite E1 by done|rewrite E2]; lia. }
  assert (Refl : forall Q i, queue_bytes Q i -> m3.[i] = m3.[i]) by done.
  assert (EcF : consumer (Q := F) m3 = c).
  { rewrite <- Ecu. apply consumer_same; [|done]. destruct PU as [_ ->], PF as [_ ->]. done. }
  assert (HhF : holds_msg (H := F) m3 c (h, data)).
  { apply (holds_same U F m3 m3 c (h, data) a b); try done; by apply even_range. }
  assert (EqT : producer (Q := T) m3 = producer (Q := R) m3 /\ consumer (Q := T) m3 = consumer (Q := R) m3).
  { destruct PT as [_ E1], PR as [_ E2].
    split; [apply producer_same|apply consumer_same]; try done; congruence. }
  destruct EqT as [EpT EcT].
  assert (Hps : PacketSize h = Z.of_nat (length data)).
  { unfold h, posted. cbn [PacketSize]. apply u32_small. unfold size, HEADER_QUEUE_ENTRY_SIZE in *. lia. }
  assert (Hid : 0 <= DeviceID (dv_vnd dw) < 2 ^ 32) by (rewrite (pr_id _ _ _ _ _ Pw); lia).
  assert (Hc' : even_ix (consumer (Q := F) m3)) by (by rewrite EcF).
  assert (Hev' : even_ix (producer (Q := T) m3)) by (by rewrite EpT).
  assert (HhF' : holds_msg (H := F) m3 (consumer (Q := F) m3) (h, data)) by (by rewrite EcF).
  assert (Hpc' : producer (Q := T) m3 = consumer (Q := T) m3) by congruence.
  assert (Htr : 0 < TransTime h) by (unfold h, posted; cbn [TransTime]; lia).
  destruct (forward_ends rnd' fa uplink x (Z.of_nat q) dw t m3 h data Hf LT A Hc' Hev' Hpc' HhF' Hps Hlen
    eq_refl Htr Ht Hid) as (t' & d' & m4 & E & _).
  pose proof (forward_run rnd' fa (fun m => m) (fun m => m) uplink x (Z.of_nat q) dw t m3 t' d' m4 h data
    Hf LF LT A SF ST (quiet_id F T) (quiet_id F T) Hc' Hev' HhF' Hps Hlen eq_refl Htr Ht Hid E) as Hrun.
  cbv zeta in Hrun. fold T in Hrun. rewrite Hps in Hrun. fold size in Hrun.
  destruct Hrun as (R1 & R2 & _ & R4 & R5 & R6).
  rewrite Esnd, (pr_id _ _ _ _ _ Pw) in *.
  assert (Et : t' = passed_on).
  { rewrite R4. unfold passed_on, stamped. rewrite Esnd, (proj2 (Z.eqb_neq u w)) by done.
    cbn [TransTime]. do 2 f_equal. }
  rewrite Et in *. clear R4 Et t'.
  destruct (R5 ltac:(unfold h, posted; cbn [ReceiverID]; apply u32_small; lia)) as [C1 C2].
  { rewrite (pr_types _ _ _ _ _ Pw x ex); [by rewrite Tx|lia|apply Px]. }
  rewrite Tcf in C1, C2. specialize (R6 ltac:(done)).
  assert (Fr : forall i, ~ (a <= i < a + 512) -> ~ (b <= i < b + 32) -> ~ (Bx <= i < Bx + 512) ->
    ~ (Bx + 512 <= i < Bx + 516) -> ~ (Bu + 544 <= i < Bu + 556) -> m4.[i] = m3.[i]).
  { intros i N1 N2 N3 N4 N5.
    apply (forward_frame rnd' fa uplink x (Z.of_nat q) dw t m3 passed_on d' m4 h data i); try done;
      rewrite ?(pr_id _ _ _ _ _ Pw), ?Esnd, ?Tcf; try done.
    - destruct PF as [_ ->]. lia.
    - destruct PF as [-> _]; [|by apply even_range]. pose proof (even_range _ Hc'). lia.
    - fold T. destruct PT as [_ ->]. lia.
    - fold T. intros e He. destruct PT as [-> _]; [lia|done].
    - lia. }
  assert (Eall : forall i, queue_bytes T i -> m4.[i] = m4.[i]) by done.
  exists d', m4. eexists. split_and!; [exact E|exact C1|exact C2| | | | |exact R6| |].
  - rewrite <- EcT, <- Hpc'. eapply (holds_same T R m4 m4); [exact PT|exact PR|by apply even_range|exact Hlen|done|exact R1].
  - rewrite <- EcT, <- Hpc', <- R2. apply producer_same; [|done].
    destruct PT as [_ E1], PR as [_ E2]. congruence.
  - unfold consumer, load32, off_consumer. apply load_ext. intros i Hi. destruct PR as [_ E2].
    rewrite E2 in Hi. apply Fr; lia.
  - unfold load64. apply load_ext. intros i Hi. apply Fr; lia.
  - unfold stamped. by destruct (_ =? _).
  - unfold stamped. by destruct (_ =? _).
Qed.

(** The sender's last step, when the router has raised its flag *)
Lemma step_end d1 m4 :
  same_config du d1 -> load64 m4 (L + u * 8) = get_vpmu_time (dv_clock d1) ->
  load32 m4 (Bu + 544 + off_dataflag) = 0 -> load64 m4 (Bu + 544 + off_transtime) = passed_on ->
  exists d2 v, post_end d1 m4 = Ret (M2M_TRANS_SUCCESS, d2, store64 m4 (L + u * 8) v) /\
    same_config du d2 /\ get_vpmu_time (dv_clock d2) = passed_on.
Proof.
  intros C Hcell Hflag Htime. pose proof (pr_range _ _ _ _ _ Pu).
  destruct (same_tables du d1 (sc_dbp _ _ C) (sc_id _ _ C) (sc_type _ _ C)) as (El & Ec & _ & _).
  destruct (tables du u eu Pu) as [Tcf Tlt].
  assert (Elt : lt_addr du = L + u * 8) by (unfold lt_addr; rewrite (pr_id _ _ _ _ _ Pu); by apply Tlt).
  assert (Ecf : cf_addr du = Bu + 544) by (unfold cf_addr; by rewrite (pr_id _ _ _ _ _ Pu)).
  unfold post_end. rewrite Ec, Ecf, El, Elt, Hflag, Htime, Hcell. cbn [Z.eqb].
  set (delta := u64 (passed_on - get_vpmu_time (dv_clock d1))).
  set (d2 := with_clock (add_netsend delta) (with_vnd (add_TotalTransTimes delta) d1)).
  exists d2. eexists. split.
  - unfold sync_clock. change (lt_addr d2) with (lt_addr d1). by rewrite El, Elt.
  - split; [unfold d2; etransitivity; [exact C|by config_steps]|].
    change (dv_clock d2) with (add_netsend delta (dv_clock d1)). rewrite add_netsend_time.
    unfold delta, passed_on. u64_norm. f_equal. lia.
Qed.

Lemma step_receive m4 v h' c :
  saved_ok dx -> even_ix c -> holds_msg (H := R) m4 c (h', data) ->
  producer (Q := R) m4 = 2 - c -> consumer (Q := R) m4 = c -> PacketSize h' = size -> EntryNum h' = -1 ->
  exists d' m', m2m_recv [fun m => m] (-1) dx (store64 m4 (L + u * 8) v) = Ret (M2M_SUCCESS, Some data, d', m') /\
    same_config dx d' /\
    get_vpmu_time (dv_clock d') = Z.max (get_vpmu_time (dv_clock dx)) (arrival_time h').
Proof.
  intros Hsv Hc Hh Hp Hcn Hsz Hent. pose proof (pr_range _ _ _ _ _ Px) as Rx. pose proof (pr_range _ _ _ _ _ Pu) as Ru.
  pose proof (no_size _ Hnet) as Hn. unfold MAX_NODE_NUM in Hn.
  destruct geometry as (_ & _ & _ & G4).
  pose proof (G4 u ltac:(unfold MAX_NODE_NUM; lia)) as Gu. pose proof (G4 x ltac:(unfold MAX_NODE_NUM; lia)) as Gx.
  assert (PR : placed R Bx (Bx + 512)).
  { pose proof (list_elem_of_lookup_1 _ _ Lw) as [q Hq]. by apply (down_queue q Hq). }
  set (m5 := store64 m4 (L + u * 8) v).
  assert (S : forall i, queue_bytes R i -> m5.[i] = m4.[i]).
  { intros i Hi%(placed_bytes _ _ _ _ PR). unfold m5, store64. apply store_out. lia. }
  pose proof (producer_same R R m4 m5 eq_refl S) as Ep. pose proof (consumer_same R R m4 m5 eq_refl S) as Ec.
  assert (Hh5 : holds_msg (H := R) m5 c (h', data)).
  { apply (holds_same R R m4 m5 c (h', data) _ _ PR PR); try done. by apply even_range. }
  assert (LR : HQueueLayout (H := R)) by (apply (placed_layout R _ _ PR); lia).
  assert (Elt : lt_addr dx = L + x * 8) by (unfold lt_addr; rewrite (pr_id _ _ _ _ _ Px); by apply (pr_clock _ _ _ _ _ Px)).
  assert (Ecf : cf_addr dx = Bx + 544).
  { unfold cf_addr. rewrite (pr_id _ _ _ _ _ Px). apply (pr_flag _ _ _ _ _ Px x ex); [lia|apply Px|by rewrite Tx]. }
  assert (CA : clock_apart dx R).
  { destruct PR as [E1 E2].
    constructor; unfold apart; rewrite Elt, ?Ecf, ?E2; [intros e He; rewrite E1 by done| |]; lia. }
  destruct Hh5 as [H1 H2]. cbn [fst snd] in H1, H2.
  assert (Ehead : head_header (Q := R) m5 = h') by (unfold head_header; by rewrite Ec, Hcn).
  assert (Edata : head_data (Q := R) m5 = data).
  { unfold head_data. rewrite Ehead, Hsz, Ec, Hcn. unfold size. rewrite Nat2Z.id. exact H2. }
  destruct (get_local_run dx m5) as (d' & m' & Hrun & _ & Hclk & _); rewrite ?Ehead, ?Ec, ?Ep, ?Hcn, ?Hp; try done.
  { by rewrite zed_x. }
  { rewrite Hsz. exact Hlen. }
  { unfold even_ix in Hc. lia. }
  rewrite Ehead in Hclk. rewrite Edata in Hrun. fold (arrival_time h') in Hclk.
  exists (with_clock count_recv d'), m'.
  pose proof (get_config _ _ _ _ _ _ Hrun) as C.
  unfold m2m_recv. cbn [Z.eqb Pos.eqb negb andb recv_loop]. rewrite Hrun. split; [done|].
  split; [etransitivity; [exact C|apply config_clock]|exact Hclk].
Qed.

(** The router's thread, while the sender waits *)
Definition relay (m : mem) : mem :=
  match forward_packet rnd' fa (fun m => m) (fun m => m) uplink x dw t m with
  | Ret (_, _, m') => m' | _ => m end.

Lemma delivery m :
  saved_ok dx -> empty_queue U m -> empty_queue R m ->
  exists du' m1 dx' m2,
    m2m_send rnd [mk_waits (fun m => m) (fun m => m) relay] data x tg du m = Ret (M2M_TRANS_SUCCESS, du', m1) /\
    m2m_recv [fun m => m] (-1) dx m1 = Ret (M2M_SUCCESS, Some data, dx', m2) /\
    get_vpmu_time (dv_clock du') = passed_on /\
    get_vpmu_time (dv_clock dx') = Z.max (get_vpmu_time (dv_clock dx)) (u64 (passed_on + lat)) /\
    same_config du du' /\ same_config dx dx'.
Proof.
  intros Hsv HU HR. pose proof (pr_range _ _ _ _ _ Pu) as Ru. pose proof (pr_range _ _ _ _ _ Px) as Rx.
  pose proof (no_size _ Hnet) as Hn. unfold MAX_NODE_NUM in Hn.
  destruct (step_post m HU) as (d1 & m1 & m2 & m3 & S1 & S2 & S3 & C1 & _ & S4 & S5 & S6 & S7 & S8).
  destruct geometry as (G1 & G2 & G3 & G4). pose proof (G4 u ltac:(unfold MAX_NODE_NUM; lia)) as Gu.
  destruct (list_elem_of_lookup_1 _ _ Lw) as [q0 Hq0]. destruct (down_queue q0 Hq0) as [_ PR].
  destruct up_queue as [PU _]. pose proof uplink_range as Hup.
  assert (HcU : even_ix (consumer (Q := U) m)) by (destruct HU as [? <-]; done).
  assert (SR : forall i, queue_bytes R i -> m3.[i] = m.[i]).
  { intros i Hi%(placed_bytes _ _ _ _ PR). apply S8; [|lia|lia].
    intros Hi'%(placed_bytes _ _ _ _ PU). unfold queue_off, meta_off, HEADER_QUEUE_SIZE,
      HEADER_QUEUE_METADATA_SIZE, HEADER_QUEUE_ENTRY_NUM, HEADER_QUEUE_ENTRY_SIZE, NODE_MAX_LINKS in Hi'.
    destruct (nd_type ew); [lia|lia|done]. }
  assert (HR3 : empty_queue R m3).
  { unfold empty_queue. rewrite (producer_same R R m m3 eq_refl SR), (consumer_same R R m m3 eq_refl SR). exact HR. }
  assert (HcR : even_ix (consumer (Q := R) m3)) by (destruct HR3 as [? <-]; done).
  destruct (step_forward m3 (consumer (Q := U) m) HcU S5 S6 HR3)
    as (dw' & m4 & h' & F1 & F2 & F3 & F4 & F5 & F6 & F7 & F8 & F9 & F10).
  assert (Elt : lt_addr du = L + u * 8) by (unfold lt_addr; rewrite (pr_id _ _ _ _ _ Pu); by apply (pr_clock _ _ _ _ _ Pu)).
  rewrite Elt in S7. rewrite S7 in F7.
  destruct (step_end d1 m4 C1 F7 F2 F3) as (d2 & v & E1 & E2 & E3).
  destruct (step_receive m4 v h' (consumer (Q := R) m3) Hsv HcR F4 F5 F6 F9 F10) as (dx' & m6 & X1 & X2 & X3).
  exists (with_clock count_send d2). do 3 eexists. split_and!; [|exact X1|exact E3| | |exact X2].
  - unfold m2m_send. rewrite (pr_id _ _ _ _ _ Pu), (pr_total _ _ _ _ _ Pu), u32_small by lia.
    rewrite (proj2 (Z.eqb_neq x u)) by done. rewrite !(proj2 (Z.ltb_ge _ _)) by lia.
    rewrite (proj2 (Z.leb_le _ _) Hlen). cbn [orb send_loop]. unfold m2m_post_remote_msg.
    cbn [e1 e2 e3]. fold size. rewrite S1. cbn [mbind run_bind]. rewrite S2. cbn [mbind run_bind]. rewrite S3.
    cbn [mbind run_bind]. unfold relay. rewrite F1, E1. done.
  - by rewrite X3, F8.
  - etransitivity; [exact E2|apply config_clock].
Qed.
End Steps.
End Delivery.


(** A coordinator with two end devices. *)
Definition star_net : list node_desc :=
  [mk_node Coordinator 100 100 124 [2; 3]; mk_node EndDevice 200 100 0 [1]; mk_node EndDevice 150 100 0 [1]].

Lemma star_net_ok : net_ok star_net.
Proof.
  constructor.
  - split; [|by unfold small].
    repeat (constructor; [unfold node_ok, small; split_and!; try done;
      [repeat (constructor; [done|]); constructor|vm_compute; lia]|]). constructor.
  - repeat (constructor; [repeat (constructor; [by unfold node_idx, MAX_NODE_NUM|]); constructor|]). constructor.
  - intros i j Hi Hj. simpl in Hi, Hj.
    assert (i = 1 \/ i = 2 \/ i = 3) as [->|[-> | ->]] by lia;
      assert (j = 1 \/ j = 2 \/ j = 3) as [->|[-> | ->]] by lia;
      unfold links_of; simpl; rewrite ?elem_of_cons, ?elem_of_nil; lia.
  - done.
  - repeat (constructor; [done|]). constructor.
Qed.

Definition star_dev (loc id now : Z) : dev :=
  let b := m2m_dbp_init loc (start_topo star_net id, dbp0) in
  mk_dev b.1 b.2 (mk_sync 0 0 0 ∅ ∅) route_st0 (mk_clock now 0 0 0 0) 0 0.

Lemma star_process loc id now e :
  1 <= id <= 3 -> star_net !! Z.to_nat (id - 1) = Some e -> process star_net loc id e (star_dev loc id now).
Proof.
  intros Hid He. apply boot_process; [apply star_net_ok|done|done|].
  rewrite (boot_eq star_net star_net_ok) by (cbn; lia). unfold star_dev. cbn [dv_topo dv_dbp].
  by rewrite <- surjective_pairing.
Qed.

Lemma load_empty n a : load n ∅ a = 0.
Proof. revert a. induction n as [|n IH]; intros a; [done|]. cbn [load]. rewrite IH. done. Qed.

Lemma empty_queue_zero Q : empty_queue Q ∅.
Proof. unfold empty_queue, producer, consumer, load32. rewrite !load_empty. split; [by left|done]. Qed.



