(* ===== verification/ArmTicks.v ===== *)
(** * Pipeline ticks of ARM instructions ([target-arm/vpmu_insn_ticks.c],
    [get_arm_ticks] and [dual_issue_check])

    While QEMU translates a block of guest code, the VPMU adds to the block the
    cycles each ARM instruction takes and counts the instruction by class.  The
    decoder is a cascade of mask tests; the model follows it test by test and
    returns, for one instruction, the class it counts and the class whose time
    it returns (for most instructions the same, for some, as the theorems show,
    not).  [arm_instr_time] is a table the VPMU reads from its configuration
    file; it is a parameter. *)
From S2P Require Import Prelude.

(** ** The classes, in the order of [enum arm_instructions] *)

Inductive arm_instructions : Set :=
| ARM_INSTRUCTION_B | ARM_INSTRUCTION_BL | ARM_INSTRUCTION_BLX | ARM_INSTRUCTION_BX
| ARM_INSTRUCTION_BXJ | ARM_INSTRUCTION_ADC | ARM_INSTRUCTION_ADD | ARM_INSTRUCTION_AND
| ARM_INSTRUCTION_BIC | ARM_INSTRUCTION_CMN | ARM_INSTRUCTION_CMP | ARM_INSTRUCTION_EOR
| ARM_INSTRUCTION_MOV | ARM_INSTRUCTION_MVN | ARM_INSTRUCTION_ORR | ARM_INSTRUCTION_RSB
| ARM_INSTRUCTION_RSC | ARM_INSTRUCTION_SBC | ARM_INSTRUCTION_SUB | ARM_INSTRUCTION_TEQ
| ARM_INSTRUCTION_TST | ARM_INSTRUCTION_MUL | ARM_INSTRUCTION_MULS | ARM_INSTRUCTION_MLA
| ARM_INSTRUCTION_MLAS | ARM_INSTRUCTION_SMLAXY | ARM_INSTRUCTION_SMLAL
| ARM_INSTRUCTION_SMLALS | ARM_INSTRUCTION_SMLALXY | ARM_INSTRUCTION_SMLAWY
| ARM_INSTRUCTION_SMUAD | ARM_INSTRUCTION_SMUSD | ARM_INSTRUCTION_SMLAD | ARM_INSTRUCTION_SMLSD
| ARM_INSTRUCTION_SMLALD | ARM_INSTRUCTION_SMLSLD | ARM_INSTRUCTION_SMMLA
| ARM_INSTRUCTION_SMMLS | ARM_INSTRUCTION_SMMUL | ARM_INSTRUCTION_SMULXY
| ARM_INSTRUCTION_SMULL | ARM_INSTRUCTION_SMULLS | ARM_INSTRUCTION_SMULWY
| ARM_INSTRUCTION_UMAAL | ARM_INSTRUCTION_UMLAL | ARM_INSTRUCTION_UMLALS
| ARM_INSTRUCTION_UMULL | ARM_INSTRUCTION_UMULLS | ARM_INSTRUCTION_QADD | ARM_INSTRUCTION_QDADD
| ARM_INSTRUCTION_QADD16 | ARM_INSTRUCTION_QADDSUBX | ARM_INSTRUCTION_QSUBADDX
| ARM_INSTRUCTION_QSUB16 | ARM_INSTRUCTION_QADD8 | ARM_INSTRUCTION_QSUB8 | ARM_INSTRUCTION_QSUB
| ARM_INSTRUCTION_QDSUB | ARM_INSTRUCTION_SADD16 | ARM_INSTRUCTION_SADDSUBX
| ARM_INSTRUCTION_SSUBADDX | ARM_INSTRUCTION_SSUB16 | ARM_INSTRUCTION_SADD8
| ARM_INSTRUCTION_SSUB8 | ARM_INSTRUCTION_SHADD16 | ARM_INSTRUCTION_SHADDSUBX
| ARM_INSTRUCTION_SHSUBADDX | ARM_INSTRUCTION_SHSUB16 | ARM_INSTRUCTION_SHADD8
| ARM_INSTRUCTION_SHSUB8 | ARM_INSTRUCTION_UADD16 | ARM_INSTRUCTION_UADDSUBX
| ARM_INSTRUCTION_USUBADDX | ARM_INSTRUCTION_USUB16 | ARM_INSTRUCTION_UADD8
| ARM_INSTRUCTION_USUB8 | ARM_INSTRUCTION_UHADD16 | ARM_INSTRUCTION_UHADDSUBX
| ARM_INSTRUCTION_UHSUBADDX | ARM_INSTRUCTION_UHSUB16 | ARM_INSTRUCTION_UHADD8
| ARM_INSTRUCTION_UHSUB8 | ARM_INSTRUCTION_UQADD16 | ARM_INSTRUCTION_UQADDSUBX
| ARM_INSTRUCTION_UQSUBADDX | ARM_INSTRUCTION_UQSUB16 | ARM_INSTRUCTION_UQADD8
| ARM_INSTRUCTION_UQSUB8 | ARM_INSTRUCTION_SXTAB16 | ARM_INSTRUCTION_SXTAB
| ARM_INSTRUCTION_SXTAH | ARM_INSTRUCTION_SXTB16 | ARM_INSTRUCTION_SXTB | ARM_INSTRUCTION_SXTH
| ARM_INSTRUCTION_UXTAB16 | ARM_INSTRUCTION_UXTAB | ARM_INSTRUCTION_UXTAH
| ARM_INSTRUCTION_UXTB16 | ARM_INSTRUCTION_UXTB | ARM_INSTRUCTION_UXTH | ARM_INSTRUCTION_CLZ
| ARM_INSTRUCTION_USAD8 | ARM_INSTRUCTION_USADA8 | ARM_INSTRUCTION_PKH | ARM_INSTRUCTION_PKHBT
| ARM_INSTRUCTION_PKHTB | ARM_INSTRUCTION_REV | ARM_INSTRUCTION_REV16 | ARM_INSTRUCTION_REVSH
| ARM_INSTRUCTION_SEL | ARM_INSTRUCTION_SSAT | ARM_INSTRUCTION_SSAT16 | ARM_INSTRUCTION_USAT
| ARM_INSTRUCTION_USAT16 | ARM_INSTRUCTION_MRS | ARM_INSTRUCTION_MSR | ARM_INSTRUCTION_CPS
| ARM_INSTRUCTION_SETEND | ARM_INSTRUCTION_LDR | ARM_INSTRUCTION_LDRB | ARM_INSTRUCTION_LDRBT
| ARM_INSTRUCTION_LDRD | ARM_INSTRUCTION_LDREX | ARM_INSTRUCTION_LDRH | ARM_INSTRUCTION_LDRSB
| ARM_INSTRUCTION_LDRSH | ARM_INSTRUCTION_LDRT | ARM_INSTRUCTION_STR | ARM_INSTRUCTION_STRB
| ARM_INSTRUCTION_STRBT | ARM_INSTRUCTION_STRD | ARM_INSTRUCTION_STREX | ARM_INSTRUCTION_STRH
| ARM_INSTRUCTION_STRT | ARM_INSTRUCTION_LDM1 | ARM_INSTRUCTION_LDM2 | ARM_INSTRUCTION_LDM3
| ARM_INSTRUCTION_STM1 | ARM_INSTRUCTION_STM2 | ARM_INSTRUCTION_SWP | ARM_INSTRUCTION_SWPB
| ARM_INSTRUCTION_BKPT | ARM_INSTRUCTION_SWI | ARM_INSTRUCTION_CDP | ARM_INSTRUCTION_LDC
| ARM_INSTRUCTION_MCR | ARM_INSTRUCTION_MCRR | ARM_INSTRUCTION_MRC | ARM_INSTRUCTION_MRRC
| ARM_INSTRUCTION_STC | ARM_INSTRUCTION_PLD | ARM_INSTRUCTION_RFE | ARM_INSTRUCTION_SRS
| ARM_INSTRUCTION_MCRR2 | ARM_INSTRUCTION_MRRC2 | ARM_INSTRUCTION_STC2 | ARM_INSTRUCTION_LDC2
| ARM_INSTRUCTION_CDP2 | ARM_INSTRUCTION_MCR2 | ARM_INSTRUCTION_MRC2
| ARM_INSTRUCTION_COPROCESSOR | ARM_INSTRUCTION_NEON_DP | ARM_INSTRUCTION_NEON_LS
| ARM_INSTRUCTION_CLREX | ARM_INSTRUCTION_DSB | ARM_INSTRUCTION_DMB | ARM_INSTRUCTION_ISB
| ARM_INSTRUCTION_MOVW | ARM_INSTRUCTION_MOVT | ARM_INSTRUCTION_UNKNOWN
| ARM_INSTRUCTION_NOT_INSTRUMENTED | ARM_INSTRUCTION_TOTAL_COUNT | ARM_INSTRUCTIONS.

Definition arm_index (x : arm_instructions) : Z :=
  match x with
  | ARM_INSTRUCTION_B => 0 | ARM_INSTRUCTION_BL => 1 | ARM_INSTRUCTION_BLX => 2
  | ARM_INSTRUCTION_BX => 3 | ARM_INSTRUCTION_BXJ => 4 | ARM_INSTRUCTION_ADC => 5
  | ARM_INSTRUCTION_ADD => 6 | ARM_INSTRUCTION_AND => 7 | ARM_INSTRUCTION_BIC => 8
  | ARM_INSTRUCTION_CMN => 9 | ARM_INSTRUCTION_CMP => 10 | ARM_INSTRUCTION_EOR => 11
  | ARM_INSTRUCTION_MOV => 12 | ARM_INSTRUCTION_MVN => 13 | ARM_INSTRUCTION_ORR => 14
  | ARM_INSTRUCTION_RSB => 15 | ARM_INSTRUCTION_RSC => 16 | ARM_INSTRUCTION_SBC => 17
  | ARM_INSTRUCTION_SUB => 18 | ARM_INSTRUCTION_TEQ => 19 | ARM_INSTRUCTION_TST => 20
  | ARM_INSTRUCTION_MUL => 21 | ARM_INSTRUCTION_MULS => 22 | ARM_INSTRUCTION_MLA => 23
  | ARM_INSTRUCTION_MLAS => 24 | ARM_INSTRUCTION_SMLAXY => 25 | ARM_INSTRUCTION_SMLAL => 26
  | ARM_INSTRUCTION_SMLALS => 27 | ARM_INSTRUCTION_SMLALXY => 28 | ARM_INSTRUCTION_SMLAWY => 29
  | ARM_INSTRUCTION_SMUAD => 30 | ARM_INSTRUCTION_SMUSD => 31 | ARM_INSTRUCTION_SMLAD => 32
  | ARM_INSTRUCTION_SMLSD => 33 | ARM_INSTRUCTION_SMLALD => 34 | ARM_INSTRUCTION_SMLSLD => 35
  | ARM_INSTRUCTION_SMMLA => 36 | ARM_INSTRUCTION_SMMLS => 37 | ARM_INSTRUCTION_SMMUL => 38
  | ARM_INSTRUCTION_SMULXY => 39 | ARM_INSTRUCTION_SMULL => 40 | ARM_INSTRUCTION_SMULLS => 41
  | ARM_INSTRUCTION_SMULWY => 42 | ARM_INSTRUCTION_UMAAL => 43 | ARM_INSTRUCTION_UMLAL => 44
  | ARM_INSTRUCTION_UMLALS => 45 | ARM_INSTRUCTION_UMULL => 46 | ARM_INSTRUCTION_UMULLS => 47
  | ARM_INSTRUCTION_QADD => 48 | ARM_INSTRUCTION_QDADD => 49 | ARM_INSTRUCTION_QADD16 => 50
  | ARM_INSTRUCTION_QADDSUBX => 51 | ARM_INSTRUCTION_QSUBADDX => 52
  | ARM_INSTRUCTION_QSUB16 => 53 | ARM_INSTRUCTION_QADD8 => 54 | ARM_INSTRUCTION_QSUB8 => 55
  | ARM_INSTRUCTION_QSUB => 56 | ARM_INSTRUCTION_QDSUB => 57 | ARM_INSTRUCTION_SADD16 => 58
  | ARM_INSTRUCTION_SADDSUBX => 59 | ARM_INSTRUCTION_SSUBADDX => 60
  | ARM_INSTRUCTION_SSUB16 => 61 | ARM_INSTRUCTION_SADD8 => 62 | ARM_INSTRUCTION_SSUB8 => 63
  | ARM_INSTRUCTION_SHADD16 => 64 | ARM_INSTRUCTION_SHADDSUBX => 65
  | ARM_INSTRUCTION_SHSUBADDX => 66 | ARM_INSTRUCTION_SHSUB16 => 67
  | ARM_INSTRUCTION_SHADD8 => 68 | ARM_INSTRUCTION_SHSUB8 => 69 | ARM_INSTRUCTION_UADD16 => 70
  | ARM_INSTRUCTION_UADDSUBX => 71 | ARM_INSTRUCTION_USUBADDX => 72
  | ARM_INSTRUCTION_USUB16 => 73 | ARM_INSTRUCTION_UADD8 => 74 | ARM_INSTRUCTION_USUB8 => 75
  | ARM_INSTRUCTION_UHADD16 => 76 | ARM_INSTRUCTION_UHADDSUBX => 77
  | ARM_INSTRUCTION_UHSUBADDX => 78 | ARM_INSTRUCTION_UHSUB16 => 79
  | ARM_INSTRUCTION_UHADD8 => 80 | ARM_INSTRUCTION_UHSUB8 => 81 | ARM_INSTRUCTION_UQADD16 => 82
  | ARM_INSTRUCTION_UQADDSUBX => 83 | ARM_INSTRUCTION_UQSUBADDX => 84
  | ARM_INSTRUCTION_UQSUB16 => 85 | ARM_INSTRUCTION_UQADD8 => 86 | ARM_INSTRUCTION_UQSUB8 => 87
  | ARM_INSTRUCTION_SXTAB16 => 88 | ARM_INSTRUCTION_SXTAB => 89 | ARM_INSTRUCTION_SXTAH => 90
  | ARM_INSTRUCTION_SXTB16 => 91 | ARM_INSTRUCTION_SXTB => 92 | ARM_INSTRUCTION_SXTH => 93
  | ARM_INSTRUCTION_UXTAB16 => 94 | ARM_INSTRUCTION_UXTAB => 95 | ARM_INSTRUCTION_UXTAH => 96
  | ARM_INSTRUCTION_UXTB16 => 97 | ARM_INSTRUCTION_UXTB => 98 | ARM_INSTRUCTION_UXTH => 99
  | ARM_INSTRUCTION_CLZ => 100 | ARM_INSTRUCTION_USAD8 => 101 | ARM_INSTRUCTION_USADA8 => 102
  | ARM_INSTRUCTION_PKH => 103 | ARM_INSTRUCTION_PKHBT => 104 | ARM_INSTRUCTION_PKHTB => 105
  | ARM_INSTRUCTION_REV => 106 | ARM_INSTRUCTION_REV16 => 107 | ARM_INSTRUCTION_REVSH => 108
  | ARM_INSTRUCTION_SEL => 109 | ARM_INSTRUCTION_SSAT => 110 | ARM_INSTRUCTION_SSAT16 => 111
  | ARM_INSTRUCTION_USAT => 112 | ARM_INSTRUCTION_USAT16 => 113 | ARM_INSTRUCTION_MRS => 114
  | ARM_INSTRUCTION_MSR => 115 | ARM_INSTRUCTION_CPS => 116 | ARM_INSTRUCTION_SETEND => 117
  | ARM_INSTRUCTION_LDR => 118 | ARM_INSTRUCTION_LDRB => 119 | ARM_INSTRUCTION_LDRBT => 120
  | ARM_INSTRUCTION_LDRD => 121 | ARM_INSTRUCTION_LDREX => 122 | ARM_INSTRUCTION_LDRH => 123
  | ARM_INSTRUCTION_LDRSB => 124 | ARM_INSTRUCTION_LDRSH => 125 | ARM_INSTRUCTION_LDRT => 126
  | ARM_INSTRUCTION_STR => 127 | ARM_INSTRUCTION_STRB => 128 | ARM_INSTRUCTION_STRBT => 129
  | ARM_INSTRUCTION_STRD => 130 | ARM_INSTRUCTION_STREX => 131 | ARM_INSTRUCTION_STRH => 132
  | ARM_INSTRUCTION_STRT => 133 | ARM_INSTRUCTION_LDM1 => 134 | ARM_INSTRUCTION_LDM2 => 135
  | ARM_INSTRUCTION_LDM3 => 136 | ARM_INSTRUCTION_STM1 => 137 | ARM_INSTRUCTION_STM2 => 138
  | ARM_INSTRUCTION_SWP => 139 | ARM_INSTRUCTION_SWPB => 140 | ARM_INSTRUCTION_BKPT => 141
  | ARM_INSTRUCTION_SWI => 142 | ARM_INSTRUCTION_CDP => 143 | ARM_INSTRUCTION_LDC => 144
  | ARM_INSTRUCTION_MCR => 145 | ARM_INSTRUCTION_MCRR => 146 | ARM_INSTRUCTION_MRC => 147
  | ARM_INSTRUCTION_MRRC => 148 | ARM_INSTRUCTION_STC => 149 | ARM_INSTRUCTION_PLD => 150
  | ARM_INSTRUCTION_RFE => 151 | ARM_INSTRUCTION_SRS => 152 | ARM_INSTRUCTION_MCRR2 => 153
  | ARM_INSTRUCTION_MRRC2 => 154 | ARM_INSTRUCTION_STC2 => 155 | ARM_INSTRUCTION_LDC2 => 156
  | ARM_INSTRUCTION_CDP2 => 157 | ARM_INSTRUCTION_MCR2 => 158 | ARM_INSTRUCTION_MRC2 => 159
  | ARM_INSTRUCTION_COPROCESSOR => 160 | ARM_INSTRUCTION_NEON_DP => 161
  | ARM_INSTRUCTION_NEON_LS => 162 | ARM_INSTRUCTION_CLREX => 163 | ARM_INSTRUCTION_DSB => 164
  | ARM_INSTRUCTION_DMB => 165 | ARM_INSTRUCTION_ISB => 166 | ARM_INSTRUCTION_MOVW => 167
  | ARM_INSTRUCTION_MOVT => 168 | ARM_INSTRUCTION_UNKNOWN => 169
  | ARM_INSTRUCTION_NOT_INSTRUMENTED => 170 | ARM_INSTRUCTION_TOTAL_COUNT => 171
  | ARM_INSTRUCTIONS => 172
  end.
Coercion arm_index : arm_instructions >-> Z.

(** ** What one instruction does: the counter it bumps, the entry of the time
    table it returns ([None]: it falls through to the default of one tick), and
    whether it counts as a branch. *)

Record decoded := mk_decoded { counted : option Z; timed : option Z; is_branch : bool }.

Definition class (i : Z) : decoded := mk_decoded (Some i) (Some i) false.
Definition unknown : decoded := mk_decoded None None false.

(** [(insn & mask) == v] and [insn & (1 << k)] *)
Definition masked (insn mask v : Z) : bool := Z.land insn mask =? v.
Definition field (insn k m : Z) : Z := Z.land (Z.shiftr insn k) m.
Abbreviation bit := Z.testbit.

(** Unconditional space, [cond == 0xf] *)
Definition decode_uncond (insn : Z) : decoded :=
  if field insn 25 7 =? 1 then class ARM_INSTRUCTION_NEON_DP
  else if masked insn 0x0f100000 0x04000000 then class ARM_INSTRUCTION_NEON_LS
  else if masked insn 0x0d70f000 0x0550f000 then class ARM_INSTRUCTION_PLD
  else if masked insn 0x0ffffdff 0x01010000 then class ARM_INSTRUCTION_SETEND
  else if masked insn 0x0fffff00 0x057ff000 then
    let c := field insn 4 0xf in
    if c =? 1 then class ARM_INSTRUCTION_CLREX
    else if c =? 4 then class ARM_INSTRUCTION_DSB
    else if c =? 5 then class ARM_INSTRUCTION_DMB
    else if c =? 6 then class ARM_INSTRUCTION_ISB
    else unknown
  else if masked insn 0x0e5fffe0 0x084d0500 then class ARM_INSTRUCTION_SRS
  else if masked insn 0x0e5fffe0 0x081d0a00 then class ARM_INSTRUCTION_RFE
  else if masked insn 0x0e000000 0x0a000000 then class ARM_INSTRUCTION_BLX
  else if masked insn 0x0e000f00 0x0c000100 then
    class (if bit insn 20 then ARM_INSTRUCTION_LDC else ARM_INSTRUCTION_STC)
  else if masked insn 0x0fe00000 0x0c400000 then
    class (if bit insn 20 then ARM_INSTRUCTION_MRRC else ARM_INSTRUCTION_MCRR)
  else if masked insn 0x0f000010 0x0e000010 then
    class (if bit insn 20 then ARM_INSTRUCTION_MRC else ARM_INSTRUCTION_MCR)
  else if masked insn 0x0ff10020 0x01000000 then class ARM_INSTRUCTION_CPS
  else unknown.

(** [(insn & 0x0f900000) == 0x03000000] *)
Definition decode_mov16 (insn : Z) : decoded :=
  if negb (bit insn 21) then
    if negb (bit insn 22) then class ARM_INSTRUCTION_MOVW else class ARM_INSTRUCTION_MOVT
  else if field insn 16 0xf =? 0 then unknown else class ARM_INSTRUCTION_MSR.

(** Miscellaneous instructions *)
Definition decode_misc (insn : Z) : decoded :=
  let op1 := field insn 21 3 in
  let sh := field insn 4 0xf in
  if sh =? 0 then class (if bit op1 0 then ARM_INSTRUCTION_MSR else ARM_INSTRUCTION_MRS)
  else if sh =? 1 then
    if op1 =? 1 then class ARM_INSTRUCTION_BX
    else if op1 =? 3 then class ARM_INSTRUCTION_CLZ else unknown
  else if sh =? 2 then if op1 =? 1 then class ARM_INSTRUCTION_BXJ else unknown
  else if sh =? 3 then if negb (op1 =? 1) then unknown else class ARM_INSTRUCTION_BLX
  else if sh =? 5 then
    if bit op1 1 then
      if bit op1 0 then class ARM_INSTRUCTION_QDSUB
      else mk_decoded (Some (ARM_INSTRUCTION_QDADD : Z)) (Some (ARM_INSTRUCTION_QADD : Z)) false
    else class (if bit op1 0 then ARM_INSTRUCTION_QSUB else ARM_INSTRUCTION_QADD)
  else if sh =? 7 then class ARM_INSTRUCTION_BKPT
  else if (sh =? 8) || (sh =? 0xa) || (sh =? 0xc) || (sh =? 0xe) then
    if op1 =? 1 then class (if negb (bit sh 1) then ARM_INSTRUCTION_SMLAWY else ARM_INSTRUCTION_SMULWY)
    else if op1 =? 3 then class ARM_INSTRUCTION_SMULXY
    else if op1 =? 2 then class ARM_INSTRUCTION_SMLALXY
    else if op1 =? 0 then class ARM_INSTRUCTION_SMLAXY else unknown
  else unknown.

(** Data processing: the sixteen opcodes *)
Definition decode_dp (insn : Z) : decoded :=
  let op1 := field insn 21 0xf in
  if op1 =? 0x0 then class ARM_INSTRUCTION_AND else if op1 =? 0x1 then class ARM_INSTRUCTION_EOR
  else if op1 =? 0x2 then class ARM_INSTRUCTION_SUB else if op1 =? 0x3 then class ARM_INSTRUCTION_RSB
  else if op1 =? 0x4 then class ARM_INSTRUCTION_ADD else if op1 =? 0x5 then class ARM_INSTRUCTION_ADC
  else if op1 =? 0x6 then class ARM_INSTRUCTION_SBC else if op1 =? 0x7 then class ARM_INSTRUCTION_RSC
  else if op1 =? 0x8 then class ARM_INSTRUCTION_TST else if op1 =? 0x9 then class ARM_INSTRUCTION_TEQ
  else if op1 =? 0xa then class ARM_INSTRUCTION_CMP else if op1 =? 0xb then class ARM_INSTRUCTION_CMN
  else if op1 =? 0xc then class ARM_INSTRUCTION_ORR else if op1 =? 0xd then class ARM_INSTRUCTION_MOV
  else if op1 =? 0xe then class ARM_INSTRUCTION_BIC else class ARM_INSTRUCTION_MVN.

(** Multiplies, exclusives and swaps ([sh == 0]); a 32-bit multiply is counted
    but the [case] ends without a [return]. *)
Definition decode_mul (insn op1 : Z) : decoded :=
  let inc := if bit insn 20 then 1 else 0 in
  if op1 =? 0x0 then
    let op := field insn 20 0xf in
    if (op =? 0) || (op =? 1) || (op =? 2) || (op =? 3) || (op =? 6) then
      let instr_index : Z := if bit insn 22 then ARM_INSTRUCTION_MUL
                             else if bit insn 21 then ARM_INSTRUCTION_MLA else ARM_INSTRUCTION_MUL in
      mk_decoded (Some (instr_index + inc)) None false
    else
      let instr_index : Z :=
        if bit insn 21 then (if bit insn 22 then ARM_INSTRUCTION_SMLAL else ARM_INSTRUCTION_UMLAL)
        else (if bit insn 22 then ARM_INSTRUCTION_SMULL else ARM_INSTRUCTION_UMULL) in
      class (instr_index + inc)
  else if bit insn 23 then
    if bit insn 20 then mk_decoded None (Some (ARM_INSTRUCTION_LDREX : Z)) false
    else class ARM_INSTRUCTION_STREX
  else class (if bit insn 22 then ARM_INSTRUCTION_SWPB else ARM_INSTRUCTION_SWP).

(** Extra load/stores ([sh != 0]) *)
Definition decode_extra_ls (insn sh : Z) : decoded :=
  if bit insn 20 then
    if sh =? 1 then class ARM_INSTRUCTION_LDRH
    else if sh =? 2 then class ARM_INSTRUCTION_LDRSB
    else if sh =? 3 then unknown
    else class ARM_INSTRUCTION_LDRSH
  else if bit sh 1 then class (if bit sh 0 then ARM_INSTRUCTION_STRD else ARM_INSTRUCTION_LDRD)
  else class ARM_INSTRUCTION_STRH.

(** ARMv6 media instructions.  [rn] and [rd] are read here but were never
    assigned on this path: they hold whatever the stack does. *)
Definition decode_extend (insn rn : Z) : decoded :=
  let op1 := field insn 20 7 in
  let instr_index (x : Z) := class (if negb (rn =? 15) then x - 3 else x) in
  if op1 =? 0 then instr_index ARM_INSTRUCTION_SXTB16
  else if op1 =? 2 then instr_index ARM_INSTRUCTION_SXTB
  else if op1 =? 3 then instr_index ARM_INSTRUCTION_SXTH
  else if op1 =? 4 then instr_index ARM_INSTRUCTION_UXTB16
  else if op1 =? 6 then instr_index ARM_INSTRUCTION_UXTB
  else if op1 =? 7 then instr_index ARM_INSTRUCTION_UXTH
  else unknown.

Definition decode_media (insn rn rd : Z) : decoded :=
  let t := field insn 23 3 in
  if t =? 0 then unknown
  else if t =? 1 then
    if masked insn 0x00700020 0 then class (if bit insn 6 then ARM_INSTRUCTION_PKHTB else ARM_INSTRUCTION_PKHBT)
    else if masked insn 0x00200020 0x00200000 then
      if field insn 16 0x1f =? 0 then unknown
      else class (if bit insn 22 then ARM_INSTRUCTION_USAT else ARM_INSTRUCTION_SSAT)
    else if masked insn 0x00300fe0 0x00200f20 then
      if field insn 16 0x1f =? 0 then unknown
      else class (if bit insn 22 then ARM_INSTRUCTION_USAT16 else ARM_INSTRUCTION_SSAT16)
    else if masked insn 0x00700fe0 0x00000fa0 then class ARM_INSTRUCTION_SEL
    else if masked insn 0x000003e0 0x00000060 then decode_extend insn rn
    else if masked insn 0x003f0f60 0x003f0f20 then
      if bit insn 22 then unknown
      else class (if bit insn 7 then ARM_INSTRUCTION_REV16 else ARM_INSTRUCTION_REV)
    else unknown
  else if t =? 2 then
    if bit insn 20 then
      if negb (rd =? 15) then class (if bit insn 6 then ARM_INSTRUCTION_SMMLS else ARM_INSTRUCTION_SMMLA)
      else class ARM_INSTRUCTION_SMMUL
    else
      let instr_index := if bit insn 6 then 1 else 0 in
      if bit insn 22 then class (instr_index + ARM_INSTRUCTION_SMLALD)
      else class (instr_index + (if negb (rd =? 15) then 2 else 0) + ARM_INSTRUCTION_SMUAD)
  else if Z.lor (field insn 17 0x38) (field insn 5 7) =? 0 then
    class (if negb (rd =? 15) then ARM_INSTRUCTION_USADA8 else ARM_INSTRUCTION_USAD8)
  else unknown.

(** Load/store byte/word *)
Definition decode_ldst (insn op1 : Z) : decoded :=
  if (op1 =? 0x7) && masked insn 0x00f000f0 0x00f000f0 then unknown
  else if bit insn 20 then class (if bit insn 22 then ARM_INSTRUCTION_LDRB else ARM_INSTRUCTION_LDR)
  else class (if bit insn 22 then ARM_INSTRUCTION_STRB else ARM_INSTRUCTION_STR).

(** Load/store multiple: the code switches on [insn & 0x00500000 >> 20], which
    C reads as [insn & (0x00500000 >> 20)], that is [insn & 5]. *)
Definition decode_block (insn : Z) : decoded :=
  let x := Z.land insn (Z.shiftr 0x00500000 20) in
  if x =? 0x0 then class ARM_INSTRUCTION_STM1
  else if x =? 0x1 then class ARM_INSTRUCTION_LDM1
  else if x =? 0x4 then class ARM_INSTRUCTION_STM2
  else if x =? 0x5 then class (if bit insn 15 then ARM_INSTRUCTION_LDM3 else ARM_INSTRUCTION_LDM2)
  else unknown.

(** The other instructions, by bits 27-24 *)
Definition decode_other (insn rn rd : Z) : decoded :=
  let op1 := field insn 24 0xf in
  if (op1 =? 0x0) || (op1 =? 0x1) then
    let sh := field insn 5 3 in
    if sh =? 0 then decode_mul insn op1 else decode_extra_ls insn sh
  else if (op1 =? 0x4) || (op1 =? 0x5) then decode_ldst insn op1
  else if (op1 =? 0x6) || (op1 =? 0x7) then
    if bit insn 4 then decode_media insn rn rd else decode_ldst insn op1
  else if (op1 =? 0x8) || (op1 =? 0x9) then decode_block insn
  else if (op1 =? 0xa) || (op1 =? 0xb) then
    mk_decoded (Some (ARM_INSTRUCTION_B : Z)) (Some (ARM_INSTRUCTION_B : Z)) true
  else if (op1 =? 0xc) || (op1 =? 0xd) || (op1 =? 0xe) then class ARM_INSTRUCTION_COPROCESSOR
  else if op1 =? 0xf then class ARM_INSTRUCTION_SWI
  else unknown.

Definition decode_cond (insn rn rd : Z) : decoded :=
  if masked insn 0x0f900000 0x03000000 then decode_mov16 insn
  else if masked insn 0x0f900000 0x01000000 && negb (masked insn 0x90 0x90) then decode_misc insn
  else if (masked insn 0x0e000000 0 && negb (masked insn 0x90 0x90)) || masked insn 0x0e000000 (2 ^ 25)
  then decode_dp insn
  else decode_other insn rn rd.

Definition decode (insn rn rd : Z) : decoded :=
  if Z.shiftr insn 28 =? 0xf then decode_uncond insn else decode_cond insn rn rd.

#[global] Arguments decode : simpl never.

(** ** get_arm_ticks *)

(** The fields of [struct ExtraTBInfo] these functions use. *)
Record ExtraTBInfo := mk_tb {
  ticks : Z; branch_count : Z; arm_count : arr;
  insn_buf : arr; insn_buf_index : Z; dual_issue_reduce_ticks : Z }.

Section Ticks.
Context (arm_instr_time : Z -> Z).

Definition get_arm_ticks (insn rn rd : Z) (tb : ExtraTBInfo) : Z * ExtraTBInfo :=
  let d := decode insn rn rd in
  let count := match counted d with
               | Some i => (arm_count tb).[i <- u64 ((arm_count tb).[i] + 1)]
               | None => arm_count tb
               end in
  (match timed d with Some i => arm_instr_time i | None => 1 end,
   mk_tb (ticks tb) (if is_branch d then u32 (branch_count tb + 1) else branch_count tb) count
     (insn_buf tb).[insn_buf_index tb <- insn] (insn_buf_index tb + 1) (dual_issue_reduce_ticks tb)).
End Ticks.

(** ** dual_issue_check *)

(** The locals of the function: none is initialised. *)
Record issue := mk_issue { is_ls : bool; is_arith : bool; Rn : Z; Rm : Z; Rd : Z }.

(** One of the two buffered instructions; [x] is what its locals held. *)
Definition issue_of (tmp_insn : Z) (x : issue) : issue :=
  if masked tmp_insn 0x0f900000 0x03000000 then x
  else if masked tmp_insn 0x0f900000 0x01000000 && negb (masked tmp_insn 0x90 0x90) then x
  else if (masked tmp_insn 0x0e000000 0 && negb (masked tmp_insn 0x90 0x90)) ||
          masked tmp_insn 0x0e000000 (2 ^ 25)
  then mk_issue (is_ls x) true (field tmp_insn 16 0xf) (Z.land tmp_insn 0xf) (field tmp_insn 12 0xf)
  else
    let op1 := field tmp_insn 24 0xf in
    mk_issue (if (op1 =? 0x4) || (op1 =? 0x5) then true else is_ls x) (is_arith x)
      (field tmp_insn 16 0xf) (Rm x) (field tmp_insn 12 0xf).

(** An arithmetic instruction beside a load or store, no register shared. *)
Definition pairs (a l : issue) : bool :=
  negb (Rd a =? Rd l) && negb (Rd a =? Rn l) && negb (Rm a =? Rd l) && negb (Rn a =? Rd l).

Definition dual_issue_check (x0 x1 : issue) (tb : ExtraTBInfo) : ExtraTBInfo :=
  let i0 := issue_of (insn_buf tb).[0] x0 in
  let i1 := issue_of (insn_buf tb).[1] x1 in
  let saved := if is_arith i0 && is_ls i1 then pairs i0 i1
               else if is_arith i1 && is_ls i0 then pairs i1 i0 else false in
  mk_tb (ticks tb) (branch_count tb) (arm_count tb) (insn_buf tb) 0
    (if saved then u64 (dual_issue_reduce_ticks tb + 1) else dual_issue_reduce_ticks tb).

(** ** The call from the translator ([target-arm/translate.c], [disas_arm_insn]):
    the pipeline simulation of CPU model 1 *)

Record stack := mk_stack { st_rn : Z; st_rd : Z; st_x0 : issue; st_x1 : issue }.

Definition translate_insn (arm_instr_time : Z -> Z) (tb : ExtraTBInfo) (i : Z * stack) : ExtraTBInfo :=
  let '(insn, st) := i in
  let '(t, tb) := get_arm_ticks arm_instr_time insn (st_rn st) (st_rd st) tb in
  let tb := mk_tb (u64 (ticks tb + t)) (branch_count tb) (arm_count tb) (insn_buf tb)
              (insn_buf_index tb) (dual_issue_reduce_ticks tb) in
  if insn_buf_index tb =? 2 then dual_issue_check (st_x0 st) (st_x1 st) tb else tb.

Definition translate_block (arm_instr_time : Z -> Z) (l : list (Z * stack)) (tb : ExtraTBInfo) : ExtraTBInfo :=
  foldl (translate_insn arm_instr_time) tb l.

(** ** Walking the decoder *)

Create HintDb leaf.

(** Split on the first test of the goal. *)
Ltac split_if :=
  match goal with
  | |- context [if ?b then _ else _] => destruct b eqn:?
  end.

(** Every leaf of one of the decoder's functions satisfies a predicate. *)
Definition leaf_ok (P : option Z -> Prop) (d : decoded) : Prop := P (counted d) /\ P (timed d).

Definition in_table (o : option Z) : Prop :=
  match o with Some i => 0 <= i < ARM_INSTRUCTIONS | None => True end.

Ltac close_leaf :=
  match goal with
  | |- leaf_ok _ (mk_decoded _ _ _) => idtac
  | |- leaf_ok _ (class _) => idtac
  | |- leaf_ok _ unknown => idtac
  end; clear; split; cbn; lia || done.
Ltac leaves f := unfold f; cbv zeta; repeat split_if; close_leaf.

Lemma uncond_in_table insn : leaf_ok in_table (decode_uncond insn).
Proof. leaves decode_uncond. Qed.
Lemma mov16_in_table insn : leaf_ok in_table (decode_mov16 insn).
Proof. leaves decode_mov16. Qed.
Lemma misc_in_table insn : leaf_ok in_table (decode_misc insn).
Proof. leaves decode_misc. Qed.
Lemma dp_in_table insn : leaf_ok in_table (decode_dp insn).
Proof. leaves decode_dp. Qed.
Lemma mul_in_table insn op1 : leaf_ok in_table (decode_mul insn op1).
Proof. leaves decode_mul. Qed.
Lemma extra_in_table insn sh : leaf_ok in_table (decode_extra_ls insn sh).
Proof. leaves decode_extra_ls. Qed.
Lemma extend_in_table insn rn : leaf_ok in_table (decode_extend insn rn).
Proof. leaves decode_extend. Qed.
#[export] Hint Resolve extend_in_table : leaf.

Lemma media_in_table insn rn rd : leaf_ok in_table (decode_media insn rn rd).
Proof.
  unfold decode_media; cbv zeta. repeat (split_if; auto with leaf); close_leaf.
Qed.
Lemma ldst_in_table insn op1 : leaf_ok in_table (decode_ldst insn op1).
Proof. leaves decode_ldst. Qed.
Lemma block_in_table insn : leaf_ok in_table (decode_block insn).
Proof. leaves decode_block. Qed.

#[export] Hint Resolve uncond_in_table mov16_in_table misc_in_table dp_in_table mul_in_table
  extra_in_table media_in_table ldst_in_table block_in_table : leaf.

Lemma other_in_table insn rn rd : leaf_ok in_table (decode_other insn rn rd).
Proof.
  unfold decode_other; cbv zeta. repeat (split_if; auto with leaf); close_leaf.
Qed.

Lemma cond_in_table insn rn rd : leaf_ok in_table (decode_cond insn rn rd).
Proof. unfold decode_cond. repeat (split_if; auto using other_in_table with leaf). Qed.

(** ** Bits above a mask do not matter *)

(** [insn] below bit 28. *)
Definition low28 (insn : Z) : Z := Z.land insn (Z.ones 28).

Lemma masked_low insn mask v :
  Z.land mask (Z.ones 28) = mask -> masked (low28 insn) mask v = masked insn mask v.
Proof.
  intros H. unfold masked, low28. rewrite <- Z.land_assoc, (Z.land_comm (Z.ones 28)). by rewrite H.
Qed.

Lemma bit_low insn k : 0 <= k < 28 -> bit (low28 insn) k = bit insn k.
Proof. intros H. unfold low28. rewrite Z.land_spec, Z.ones_spec_low by lia. by rewrite andb_true_r. Qed.

Lemma field_low insn k m :
  0 <= k -> Z.land (Z.shiftr (Z.ones 28) k) m = m -> field (low28 insn) k m = field insn k m.
Proof.
  intros Hk H. unfold field, low28. rewrite Z.shiftr_land, <- Z.land_assoc. by rewrite H.
Qed.

Lemma land_low insn m : Z.land m (Z.ones 28) = m -> Z.land (low28 insn) m = Z.land insn m.
Proof. intros H. unfold low28. rewrite <- Z.land_assoc, (Z.land_comm (Z.ones 28)). by rewrite H. Qed.

Create Rewrite HintDb low28.
#[export] Hint Rewrite masked_low bit_low field_low land_low using (reflexivity || lia) : low28.

Lemma decode_cond_low insn rn rd : decode_cond (low28 insn) rn rd = decode_cond insn rn rd.
Proof.
  unfold decode_cond, decode_mov16, decode_misc, decode_dp, decode_other, decode_mul, decode_extra_ls,
    decode_media, decode_extend, decode_ldst, decode_block; cbv zeta.
  autorewrite with low28. done.
Qed.

(** ** The classes that are never counted *)

Definition not_class (x : arm_instructions) (o : option Z) : Prop := o <> Some (x : Z).

Definition uncounted_class (x : arm_instructions) : Prop :=
  x = ARM_INSTRUCTION_BL \/ x = ARM_INSTRUCTION_LDREX \/ x = ARM_INSTRUCTION_LDRSH.

Definition misses (x : arm_instructions) (d : decoded) : Prop := not_class x (counted d).

Ltac close_miss :=
  match goal with
  | |- misses _ (mk_decoded _ _ _) => idtac
  | |- misses _ (class _) => idtac
  | |- misses _ unknown => idtac
  end; clear; vm_compute; discriminate.
Ltac miss H f := destruct H as [->|[-> | ->]]; unfold f; cbv zeta; repeat split_if; close_miss.

Lemma uncond_misses x insn : uncounted_class x -> misses x (decode_uncond insn).
Proof. intros H. miss H decode_uncond. Qed.
Lemma mov16_misses x insn : uncounted_class x -> misses x (decode_mov16 insn).
Proof. intros H. miss H decode_mov16. Qed.
Lemma misc_misses x insn : uncounted_class x -> misses x (decode_misc insn).
Proof. intros H. miss H decode_misc. Qed.
Lemma dp_misses x insn : uncounted_class x -> misses x (decode_dp insn).
Proof. intros H. miss H decode_dp. Qed.
Lemma mul_misses x insn op1 : uncounted_class x -> misses x (decode_mul insn op1).
Proof. intros H. miss H decode_mul. Qed.
Lemma extend_misses x insn rn : uncounted_class x -> misses x (decode_extend insn rn).
Proof. intros H. miss H decode_extend. Qed.
Lemma ldst_misses x insn op1 : uncounted_class x -> misses x (decode_ldst insn op1).
Proof. intros H. miss H decode_ldst. Qed.
Lemma block_misses x insn : uncounted_class x -> misses x (decode_block insn).
Proof. intros H. miss H decode_block. Qed.

(** [sh] is two bits and not 0 here. *)
Lemma extra_misses x insn : uncounted_class x -> field insn 5 3 <> 0 ->
  misses x (decode_extra_ls insn (field insn 5 3)).
Proof.
  intros H Hsh. assert (Hr : 0 <= field insn 5 3 < 4).
  { unfold field. change 3 with (Z.ones 2). rewrite Z.land_ones by lia. by apply Z.mod_pos_bound. }
  assert (field insn 5 3 = 1 \/ field insn 5 3 = 2 \/ field insn 5 3 = 3) as [E|[E|E]] by lia;
    rewrite E; unfold decode_extra_ls; cbn [Z.eqb Pos.eqb]; (destruct H as [->|[-> | ->]]; repeat split_if; close_miss).
Qed.

#[export] Hint Resolve uncond_misses mov16_misses misc_misses dp_misses mul_misses extend_misses
  ldst_misses block_misses extra_misses : leaf.

Lemma media_misses x insn rn rd : uncounted_class x -> misses x (decode_media insn rn rd).
Proof.
  intros H. unfold decode_media; cbv zeta. repeat (split_if; auto with leaf);
    (destruct H as [->|[-> | ->]]; repeat split_if; close_miss).
Qed.
#[export] Hint Resolve media_misses : leaf.

Lemma other_misses x insn rn rd : uncounted_class x -> misses x (decode_other insn rn rd).
Proof.
  intros H. unfold decode_other; cbv zeta.
  destruct (field insn 5 3 =? 0) eqn:Esh; [apply Z.eqb_eq in Esh|apply Z.eqb_neq in Esh];
    repeat (split_if; auto with leaf); (destruct H as [->|[-> | ->]]; close_miss).
Qed.

(** ** A block of instructions *)

Lemma get_arm_ticks_count time insn rn rd tb i :
  (arm_count (get_arm_ticks time insn rn rd tb).2).[i] =
  if decide (counted (decode insn rn rd) = Some i) then u64 ((arm_count tb).[i] + 1) else (arm_count tb).[i].
Proof.
  unfold get_arm_ticks. cbv zeta. cbn [arm_count snd]. destruct (counted (decode insn rn rd)) as [j|].
  - rewrite aget_aset. repeat case_decide; congruence.
  - by rewrite decide_False.
Qed.

Lemma translate_insn_index time tb i :
  0 <= insn_buf_index tb < 2 ->
  insn_buf_index (translate_insn time tb i) = (insn_buf_index tb + 1) mod 2 /\
  forall k, k <> insn_buf_index tb -> (insn_buf (translate_insn time tb i)).[k] = (insn_buf tb).[k].
Proof.
  intros Hi. destruct i as [insn st]. unfold translate_insn, get_arm_ticks; cbn [insn_buf_index].
  assert (insn_buf_index tb = 0 \/ insn_buf_index tb = 1) as [E|E] by lia; rewrite E; simpl;
    (split; [done|]); intros k Hk; by apply aget_aset_ne.
Qed.

(** The time and the class of one instruction of a block. *)
Definition insn_class (i : Z * stack) : option Z := counted (decode i.1 (st_rn i.2) (st_rd i.2)).
Definition insn_time (time : Z -> Z) (i : Z * stack) : Z :=
  match timed (decode i.1 (st_rn i.2) (st_rd i.2)) with Some k => time k | None => 1 end.

Lemma translate_insn_ticks time tb i :
  ticks (translate_insn time tb i) = u64 (ticks tb + insn_time time i).
Proof.
  destruct i as [insn st]. unfold translate_insn, get_arm_ticks, insn_time. cbn [fst snd insn_buf_index].
  by destruct (_ =? 2).
Qed.

Lemma translate_insn_count time tb i k :
  (arm_count (translate_insn time tb i)).[k] =
  if decide (insn_class i = Some k) then u64 ((arm_count tb).[k] + 1) else (arm_count tb).[k].
Proof.
  destruct i as [insn st]. unfold translate_insn.
  pose proof (get_arm_ticks_count time insn (st_rn st) (st_rd st) tb k) as H.
  destruct (get_arm_ticks time insn (st_rn st) (st_rd st) tb) as [t tb']. cbn [snd] in H.
  unfold insn_class. cbn [fst snd]. rewrite <- H. by destruct (_ =? 2).
Qed.

(** ** Known bits of an instruction *)

(** A test whose mask lies inside a known one is decided by it. *)
Lemma known_sub insn M v M' : Z.land insn M = v -> Z.land M M' = M' -> Z.land insn M' = Z.land v M'.
Proof. intros <- H. by rewrite <- Z.land_assoc, H. Qed.

Lemma field_mask insn k m : 0 <= k -> field insn k m = Z.shiftr (Z.land insn (Z.shiftl m k)) k.
Proof.
  intros Hk. unfold field. rewrite Z.shiftr_land, Z.shiftr_shiftl_l by lia.
  by rewrite Z.sub_diag, Z.shiftl_0_r.
Qed.

Lemma known_split insn a b : Z.land insn (Z.lor a b) = Z.lor (Z.land insn a) (Z.land insn b).
Proof. apply Z.land_lor_distr_r. Qed.

Lemma one_bit insn k : 0 <= k -> Z.land insn (2 ^ k) = if bit insn k then 2 ^ k else 0.
Proof.
  intros Hk. apply Z.bits_inj'. intros j Hj. rewrite Z.land_spec, Z.pow2_bits_eqb by done.
  destruct (Z.eqb_spec k j) as [->|Hne].
  - rewrite andb_true_r. destruct (bit insn j); [|by rewrite Z.bits_0].
    rewrite Z.pow2_bits_eqb by done. by rewrite Z.eqb_refl.
  - rewrite andb_false_r. destruct (bit insn k); [|by rewrite Z.bits_0].
    rewrite Z.pow2_bits_eqb by done. by rewrite (proj2 (Z.eqb_neq _ _)).
Qed.

Lemma flip_land insn M k : 0 <= k -> bit M k = false -> Z.land (Z.lxor insn (2 ^ k)) M = Z.land insn M.
Proof.
  intros Hk HM. apply Z.bits_inj'. intros j Hj. rewrite !Z.land_spec, Z.lxor_spec, Z.pow2_bits_eqb by done.
  destruct (Z.eqb_spec k j) as [<-|]; [by rewrite HM, !andb_false_r|by rewrite xorb_false_r].
Qed.

(** ** Two families *)

(** Load/store multiple: bits 27-25 are 100. *)
Definition is_block (insn : Z) : Prop := Z.land insn 0x0e000000 = 0x08000000.

Lemma decode_is_block insn rn rd :
  is_block insn -> Z.shiftr insn 28 <> 0xf -> decode insn rn rd = decode_block insn.
Proof.
  unfold is_block. intros H Hc. unfold decode. rewrite (proj2 (Z.eqb_neq _ _) Hc). unfold decode_cond.
  assert (Hm : forall v, Z.land v 0x0e000000 <> 0x08000000 -> masked insn 0x0f900000 v = false).
  { intros v Hv. apply Z.eqb_neq. intros E. apply Hv.
    rewrite <- (known_sub insn 0x0f900000 v 0x0e000000 E eq_refl). exact H. }
  assert (H0 : masked insn 0x0e000000 0 = false) by (unfold masked; by rewrite H).
  assert (H1 : masked insn 0x0e000000 (2 ^ 25) = false) by (unfold masked; by rewrite H).
  rewrite !Hm, H0, H1 by done. cbn [andb orb].
  unfold decode_other. rewrite (field_mask insn 24 0xf) by done.
  change (Z.shiftl 0xf 24) with (Z.lor 0x0e000000 (2 ^ 24)). rewrite known_split, H, one_bit by done.
  by destruct (bit insn 24).
Qed.

(** A 32-bit multiply: bits 27-22 are 0 and bits 7-4 are 1001. *)
Definition is_mul32 (insn : Z) : Prop := Z.land insn 0x0fc000f0 = 0x90.

Lemma decode_is_mul32 insn rn rd :
  is_mul32 insn -> Z.shiftr insn 28 <> 0xf ->
  exists i, decode insn rn rd = mk_decoded (Some i) None false /\ ARM_INSTRUCTION_MUL <= i <= ARM_INSTRUCTION_MLAS.
Proof.
  unfold is_mul32. intros H Hc. unfold decode. rewrite (proj2 (Z.eqb_neq _ _) Hc). unfold decode_cond, masked.
  assert (Hk : forall M', Z.land 0x0fc000f0 M' = M' -> Z.land insn M' = Z.land 0x90 M').
  { intros M' HM. by apply known_sub with 0x0fc000f0. }
  assert (H1 : Z.land insn 0x0f900000 <> 0x03000000).
  { intros E. pose proof (known_sub insn _ _ 0x0f800000 E eq_refl) as E'. rewrite Hk in E' by reflexivity. done. }
  assert (H2 : Z.land insn 0x0f900000 <> 0x01000000).
  { intros E. pose proof (known_sub insn _ _ 0x0f800000 E eq_refl) as E'. rewrite Hk in E' by reflexivity. done. }
  rewrite (proj2 (Z.eqb_neq _ _) H1), (proj2 (Z.eqb_neq _ _) H2).
  rewrite !(Hk 0x0e000000), !(Hk 0x90) by reflexivity. cbn [Z.eqb Pos.eqb andb orb negb Z.land Pos.land].
  unfold decode_other. rewrite (field_mask insn 24 0xf), (field_mask insn 5 3) by done.
  rewrite (Hk (Z.shiftl 0xf 24)), (Hk (Z.shiftl 3 5)) by reflexivity.
  cbv zeta. change (Z.shiftr (Z.land 0x90 (Z.shiftl 0xf 24)) 24) with 0.
  change (Z.shiftr (Z.land 0x90 (Z.shiftl 3 5)) 5) with 0. cbn [Z.eqb orb].
  unfold decode_mul. cbn [Z.eqb]. rewrite (field_mask insn 20 0xf) by done.
  change (Z.shiftl 0xf 20) with (Z.lor 0x00c00000 (Z.lor (2 ^ 20) (2 ^ 21))).
  rewrite !known_split, !one_bit, (Hk 0x00c00000) by done.
  destruct (bit insn 20), (bit insn 21), (bit insn 22); cbn -[arm_index]; eexists; (split; [reflexivity|done]).
Qed.

(** ** The properties *)

(** Memory safety of the counters: whatever the instruction word, and
    whatever the uninitialised locals hold, the class counted is an index inside
    [arm_count] and the class whose time is returned is inside
    [arm_instr_time]. *)
Theorem decode_in_range insn rn rd :
  match counted (decode insn rn rd) with Some i => 0 <= i < ARM_INSTRUCTIONS | None => True end /\
  match timed (decode insn rn rd) with Some i => 0 <= i < ARM_INSTRUCTIONS | None => True end.
Proof.
  unfold decode. destruct (Z.shiftr insn 28 =? 0xf); [apply uncond_in_table|apply cond_in_table].
Qed.

(** A conditional instruction is classified and timed by its low 28 bits:
    the condition field makes no difference. *)
Theorem decode_condition c1 c2 insn rn rd :
  0 <= insn < 2 ^ 28 -> 0 <= c1 < 15 -> 0 <= c2 < 15 ->
  decode (c1 * 2 ^ 28 + insn) rn rd = decode (c2 * 2 ^ 28 + insn) rn rd.
Proof.
  intros Hi H1 H2.
  assert (H : forall c, 0 <= c < 15 -> decode (c * 2 ^ 28 + insn) rn rd = decode_cond insn rn rd).
  { intros c Hc. unfold decode. rewrite Z.shiftr_div_pow2, Z.div_add_l, Z.div_small by lia.
    rewrite (proj2 (Z.eqb_neq _ _)) by lia. rewrite <- decode_cond_low. f_equal. unfold low28.
    rewrite Z.land_ones, Z.add_comm, Z_mod_plus_full by lia. by apply Z.mod_small. }
  by rewrite !H.
Qed.

Theorem decode_condition_witness : decode 0xe0821003 0 0 = decode 0x00821003 0 0.
Proof. exact (decode_condition 14 0 0x00821003 0 0 ltac:(lia) ltac:(lia) ltac:(lia)). Defined.

(** The ticks and the counters of a translated block: the block's ticks grow
    by the sum of the instructions' times, each class's counter by the number of
    instructions decoded to it (both modulo 2^64), and the two-entry instruction
    buffer is never written outside its bounds however long the block is. *)
Theorem translate_block_totals time l tb :
  0 <= insn_buf_index tb < 2 -> 0 <= ticks tb < 2 ^ 64 ->
  (forall k, 0 <= (arm_count tb).[k] < 2 ^ 64) ->
  let tb' := translate_block time l tb in
  ticks tb' = u64 (ticks tb + foldr Z.add 0 (map (insn_time time) l)) /\
  (forall k, (arm_count tb').[k] =
     u64 ((arm_count tb).[k] + Z.of_nat (length (filter (fun i => insn_class i = Some k) l)))) /\
  insn_buf_index tb' = (insn_buf_index tb + Z.of_nat (length l)) mod 2 /\
  forall k, k <> 0 -> k <> 1 -> (insn_buf tb').[k] = (insn_buf tb).[k].
Proof.
  unfold translate_block. revert tb. induction l as [|i l IH]; intros tb Hi Ht Hc; cbn [foldl map foldr length].
  - change (Z.of_nat 0) with 0. split_and!; [by rewrite Z.add_0_r, u64_small|..].
    + intros k. change (length (filter (fun i => insn_class i = Some k) [])) with O.
      change (Z.of_nat 0) with 0. by rewrite Z.add_0_r, u64_small.
    + rewrite Z.add_0_r. symmetry. by apply Z.mod_small.
    + done.
  - destruct (translate_insn_index time tb i Hi) as [Hx Hb].
    pose proof (Z.mod_pos_bound (insn_buf_index tb + 1) 2 ltac:(done)).
    destruct (IH (translate_insn time tb i)) as (I1 & I2 & I3 & I4).
    + lia.
    + rewrite translate_insn_ticks. apply u64_range.
    + intros k. rewrite translate_insn_count. case_decide; [apply u64_range|done].
    + split_and!.
      * rewrite I1, translate_insn_ticks, u64_add_l. f_equal. lia.
      * intros k. rewrite I2, translate_insn_count. destruct (decide (insn_class i = Some k)).
        -- rewrite filter_cons_True by done. rewrite u64_add_l. f_equal. cbn [length]. lia.
        -- by rewrite filter_cons_False.
      * rewrite I3, Hx, Zplus_mod_idemp_l. f_equal. lia.
      * intros k H0 H1. rewrite I4 by done. apply Hb. lia.
Qed.

Definition tb0 : ExtraTBInfo := mk_tb 0 0 ∅ ∅ 0 0.
Definition no_stack : stack := mk_stack 0 0 (mk_issue false false 0 0 0) (mk_issue false false 0 0 0).

(** ADD r1, r2, r3; LDR r4, [r5]; ADD; with ADD at 2 ticks and LDR at 3. *)
Theorem translate_block_totals_witness :
  let time i := if i =? ARM_INSTRUCTION_LDR then 3 else 2 in
  let l := [(0xe0821003, no_stack); (0xe5954000, no_stack); (0xe0821003, no_stack)] in
  ticks (translate_block time l tb0) = 7 /\
  (arm_count (translate_block time l tb0)).[ARM_INSTRUCTION_ADD] = 2.
Proof.
  intros time l. pose proof (translate_block_totals time l tb0 ltac:(done) ltac:(done) ltac:(done)) as (H1 & H2 & _).
  split; [exact H1|exact (H2 ARM_INSTRUCTION_ADD)].
Defined.

(** BL, LDREX and LDRSH have counters that stay at zero: no instruction word
    whatever is ever counted in these classes (branch-and-link is counted as a
    plain branch, the LDREX counter sits behind a [switch] label, the signed
    halfword load takes a [case] that only breaks). *)
Theorem classes_never_counted x insn rn rd :
  uncounted_class x -> counted (decode insn rn rd) <> Some (x : Z).
Proof.
  intros H. unfold decode. destruct (Z.shiftr insn 28 =? 0xf); [by apply uncond_misses|].
  unfold decode_cond. change (misses x (if masked insn 0x0f900000 0x03000000 then decode_mov16 insn
    else if masked insn 0x0f900000 0x01000000 && negb (masked insn 0x90 0x90) then decode_misc insn
    else if (masked insn 0x0e000000 0 && negb (masked insn 0x90 0x90)) || masked insn 0x0e000000 (2 ^ 25)
    then decode_dp insn else decode_other insn rn rd)).
  repeat split_if; auto using other_misses with leaf.
Qed.

Theorem classes_never_counted_witness : counted (decode 0xeb000000 0 0) <> Some (ARM_INSTRUCTION_BL : Z).
Proof. apply (classes_never_counted ARM_INSTRUCTION_BL 0xeb000000 0 0). by left. Defined.

(** Loads and stores of several registers are told apart by the register
    list, not by the load bit: the code's [insn & 0x00500000 >> 20] is
    [insn & 5].  For every block transfer, flipping the load/store bit changes
    nothing; a store of r0 alone is counted and timed as a load. *)
Theorem block_class_ignores_load insn rn rd :
  is_block insn -> Z.shiftr insn 28 <> 0xf ->
  decode (Z.lxor insn (2 ^ 20)) rn rd = decode insn rn rd /\
  (Z.land insn 5 = 1 -> decode insn rn rd = class ARM_INSTRUCTION_LDM1).
Proof.
  intros H Hc.
  assert (H' : is_block (Z.lxor insn (2 ^ 20))) by (unfold is_block; by rewrite flip_land).
  assert (Hc' : Z.shiftr (Z.lxor insn (2 ^ 20)) 28 <> 0xf)
    by (rewrite Z.shiftr_lxor; change (Z.shiftr (2 ^ 20) 28) with 0; by rewrite Z.lxor_0_r).
  rewrite !decode_is_block by done. unfold decode_block. change (Z.shiftr 0x00500000 20) with 5.
  rewrite flip_land by done. split; [|by intros ->].
  assert (Eb : bit (Z.lxor insn (2 ^ 20)) 15 = bit insn 15).
  { rewrite Z.lxor_spec. change (Z.testbit (2 ^ 20) 15) with false. apply xorb_false_r. }
  by rewrite Eb.
Qed.

(** STMIA r13!, {r0}: cond AL, bits 100, L clear *)
Theorem block_class_ignores_load_witness :
  decode (Z.lxor 0xe8ad0001 (2 ^ 20)) 0 0 = decode 0xe8ad0001 0 0 /\
  decode 0xe8ad0001 0 0 = class ARM_INSTRUCTION_LDM1.
Proof.
  destruct (block_class_ignores_load 0xe8ad0001 0 0 ltac:(reflexivity) ltac:(discriminate)) as [H1 H2].
  split; [exact H1|exact (H2 eq_refl)].
Defined.

(** A 32-bit multiply costs one tick whatever the configuration says: it is
    counted, but its [case] ends in [break] instead of returning the time. *)
Theorem mul_takes_one_tick time insn rn rd tb :
  is_mul32 insn -> Z.shiftr insn 28 <> 0xf ->
  fst (get_arm_ticks time insn rn rd tb) = 1 /\
  exists i, counted (decode insn rn rd) = Some i /\ ARM_INSTRUCTION_MUL <= i <= ARM_INSTRUCTION_MLAS.
Proof.
  intros H Hc. destruct (decode_is_mul32 insn rn rd H Hc) as (i & E & Hi).
  unfold get_arm_ticks. rewrite E. split; [done|by exists i].
Qed.

Theorem mul_takes_one_tick_witness : fst (get_arm_ticks (fun _ => 5) 0xe0000291 0 0 tb0) = 1.
Proof.
  exact (proj1 (mul_takes_one_tick (fun _ => 5) 0xe0000291 0 0 tb0 ltac:(reflexivity) ltac:(discriminate))).
Defined.

(** The dual-issue check reads locals it has not set: for two MOVW
    instructions, which set none of them, the saving depends on what was on the
    stack. *)
Theorem dual_issue_reads_stack :
  let tb := mk_tb 0 0 ∅ (∅ : arr).[0 <- 0xe3000001].[1 <- 0xe3001001] 2 0 in
  let zero := mk_issue false false 0 0 0 in
  dual_issue_reduce_ticks (dual_issue_check zero zero tb) = 0 /\
  dual_issue_reduce_ticks (dual_issue_check (mk_issue false true 1 2 3) (mk_issue true false 4 5 6) tb) = 1.
Proof. split; vm_compute; reflexivity. Qed.
