(* ===== verification/InsnTicks.v ===== *)
(** * The data-sheet tick model ([get_insn_ticks] and [get_insn_parser] of
    [hw/vpmu-device.c], [get_insn_ticks_thumb] of [trace.c])

    For CPU models other than 1 the translator adds to a block what
    [get_insn_ticks] says of each ARM instruction, and for Thumb code what
    [get_insn_ticks_thumb] says.  Both look the instruction up and add the
    cycles it waits for registers that earlier instructions have not finished
    writing.  They keep for that a counter of ticks, [interlock_base], and per
    register the tick at which it is free, [interlocks] (one pair of variables
    per file).

    An instruction asks for the delays of its registers ([_interlock_use]) and
    then locks registers ([_interlock_def]); it never asks after it has locked.
    What one instruction does is therefore a function of the delays: its ticks
    and the registers it locks ([arm_timing], [thumb_timing]).  The engine
    around it ([insn_step]) is shared.  The specification is a scoreboard that
    stores the remaining delay of each register, with no running counter
    ([board_step]). *)
From S2P Require Import Prelude ArmTicks.

(** ** The interlocks: [int]s, whose arithmetic wraps *)

Record interlock := mk_interlock { interlocks : arr; interlock_base : Z }.

Definition _interlock_def (s : interlock) (reg delay : Z) : interlock :=
  if 0 <=? reg
  then mk_interlock (interlocks s).[reg <- s32 (interlock_base s + delay)] (interlock_base s) else s.

Definition _interlock_use (s : interlock) (reg : Z) : Z :=
  if 0 <=? reg then
    let delay := s32 ((interlocks s).[reg] - interlock_base s) in
    if delay <? 0 then 0 else delay
  else 0.

(** The ticks of an instruction and the locks it sets, register and delay. *)
Definition timing : Type := Z * list (Z * Z).

(** [for (count = 0; mask; count++) mask &= mask - 1;] on a mask of at most
    sixteen bits *)
Fixpoint clear_bits (fuel : nat) (mask count : Z) : Z :=
  match fuel with
  | O => count
  | S fuel => if mask =? 0 then count else clear_bits fuel (Z.land mask (mask - 1)) (count + 1)
  end.
Definition count_bits (mask : Z) : Z := clear_bits 16 mask 0.

(** ** ARM *)

Section Arm.
Context (arm_instr_time : Z -> Z) (use : Z -> Z).

Definition ticks_multiply (insn : Z) : timing :=
  let Rm := Z.land insn 15 in
  let Rs := field insn 8 15 in
  let Rn := field insn 12 15 in
  let Rd := field insn 16 15 in
  let finish result :=
    let result :=
      result + (arm_instr_time (if bit insn 20 then ARM_INSTRUCTION_MULS else ARM_INSTRUCTION_MUL)
                - 1 + use Rm + use Rs) in
    (result, [(Rd, result + 1)]) in
  if bit insn 21 then finish (if 1 <? use Rn then 1 + (use Rn - 1) else 1)
  else if negb (Rn =? 0) then (1, []) else finish 1.

Definition ticks_multiply_long (insn : Z) : timing :=
  let Rm := Z.land insn 15 in
  let Rs := field insn 8 15 in
  let RdLo := field insn 12 15 in
  let RdHi := field insn 16 15 in
  let wait r := if 1 <? use r then use r - 1 else 0 in
  let result := if bit insn 21 then 1 + wait RdLo + wait RdHi else 1 in
  let result :=
    result + (arm_instr_time (if bit insn 20 then ARM_INSTRUCTION_SMULLS else ARM_INSTRUCTION_SMULL)
              - 1 + use Rm + use Rs) in
  (result, [(RdLo, result + 1); (RdHi, result + 1)]).

Definition ticks_swap (insn : Z) : timing :=
  let Rm := Z.land insn 15 in
  let Rd := field insn 8 15 in
  let result := 2 + use Rm in
  (result, [(Rd, result + arm_instr_time (if bit insn 22 then ARM_INSTRUCTION_SWPB else ARM_INSTRUCTION_SWP) - 1)]).

Definition ticks_half_reg (insn : Z) : timing :=
  let Rm := Z.land insn 15 in
  let Rd := field insn 12 15 in
  let Rn := field insn 16 15 in
  let result := 1 + (use Rn + use Rm) in
  (result, if bit insn 20 then [(Rd, result + arm_instr_time ARM_INSTRUCTION_LDRH - 1)] else []).

Definition ticks_half_imm (insn : Z) : timing :=
  let Rd := field insn 12 15 in
  let Rn := field insn 16 15 in
  let result := 1 + use Rn in
  (result, if bit insn 20 then [(Rd, result + arm_instr_time ARM_INSTRUCTION_LDRH - 1)] else []).

Definition ticks_two_words_reg (insn : Z) : timing :=
  let Rd := field insn 12 15 in
  let Rn := field insn 16 15 in
  let result := 1 + (1 + use Rn) in
  (result, if negb (bit insn 5) && negb (Rd =? 15)
           then [(Rd + 1, result + arm_instr_time ARM_INSTRUCTION_LDR - 1)] else []).

Definition ticks_signed_reg (insn : Z) : timing :=
  let Rm := Z.land insn 15 in
  let Rd := field insn 12 15 in
  let Rn := field insn 16 15 in
  let result := 1 + (use Rn + use Rm) in
  (result, if bit insn 20 then [(Rd, result + arm_instr_time ARM_INSTRUCTION_LDRSH - 1)] else []).

(** The two immediate forms lock without adding [result]. *)
Definition ticks_two_words_imm (insn : Z) : timing :=
  let Rd := field insn 12 15 in
  let Rn := field insn 16 15 in
  let result := 1 + (1 + use Rn) in
  (result, if negb (bit insn 5) && negb (Rd =? 15)
           then [(Rd + 1, arm_instr_time ARM_INSTRUCTION_LDR - 1)] else []).

Definition ticks_signed_imm (insn : Z) : timing :=
  let Rd := field insn 12 15 in
  let Rn := field insn 16 15 in
  let result := 1 + use Rn in
  (result, if bit insn 20 then [(Rd, arm_instr_time ARM_INSTRUCTION_LDRSH - 1)] else []).

(** [(insn & 0x90) == 0x90]: multiplies, extra loads and stores *)
Definition ticks_extra (insn : Z) : timing :=
  if masked insn 0x0fc000f0 0x00000090 then ticks_multiply insn
  else if masked insn 0x0f8000f0 0x00800090 then ticks_multiply_long insn
  else if masked insn 0x0fb00ff0 0x01000090 then ticks_swap insn
  else if masked insn 0x0e400ff0 0x000000b0 then ticks_half_reg insn
  else if masked insn 0x0e4000f0 0x004000b0 then ticks_half_imm insn
  else if masked insn 0x0e500fd0 0x000000d0 then ticks_two_words_reg insn
  else if masked insn 0x0e500fd0 0x001000d0 then ticks_signed_reg insn
  else if masked insn 0x0e5000d0 0x004000d0 then ticks_two_words_imm insn
  else if masked insn 0x0e5000d0 0x005000d0 then ticks_signed_imm insn
  else (1, []).

(** Miscellaneous instructions, table 3-3 *)
Definition ticks_misc (insn : Z) : timing :=
  let Rm := Z.land insn 15 in
  let op := field insn 4 15 in
  let at_rm t := (1 + (arm_instr_time t - 1 + use Rm), []) in
  if op =? 0 then
    if masked insn 0x0fb0fff0 0x0120f000 then
      (1 + (if 0 <? field insn 16 0x0007 then 2 + use Rm else use Rm), [])
    else if masked insn 0xfbf0fff 0x010f0000 then (1 + 1, [])
    else (1, [])
  else if op =? 1 then
    if masked insn 0x0ffffff0 0x012fff10 then at_rm ARM_INSTRUCTION_BX
    else if masked insn 0x0fff0ff0 0x016f0f10 then at_rm ARM_INSTRUCTION_CLZ
    else (1, [])
  else if op =? 3 then
    if masked insn 0x0ffffff0 0x012fff30 then at_rm ARM_INSTRUCTION_BLX else (1, [])
  else (1, []).

Definition ticks_data_processing (insn : Z) : timing :=
  let Rm := Z.land insn 15 in
  let Rn := field insn 16 15 in
  let result := 1 + (use Rn + use Rm) in
  let result := if bit insn 4 then result + (1 + use (field insn 8 15)) else result in
  let Rd := field insn 12 15 in
  (if Rd =? 15 then result + 2 else result, []).

Definition ticks_dp_imm (insn : Z) : timing :=
  if masked insn 0x03b0f000 0x0320f000 then (1, []) else (1 + use (field insn 12 15), []).

Definition ticks_ldst_imm (insn : Z) : timing :=
  let Rn := field insn 16 15 in
  let result := 1 + use Rn in
  if bit insn 20 then
    let Rd := field insn 12 15 in
    if Rd =? 15 then (result + 4, []) else (result, [(Rd, result + 1)])
  else (result, []).

Definition ticks_ldst_reg (insn : Z) : timing :=
  if negb (bit insn 4) then
    let Rm := Z.land insn 15 in
    let Rn := field insn 16 15 in
    let result := 1 + (use Rm + use Rn) in
    if bit insn 20 then
      let Rd := field insn 12 15 in
      if Rd =? 15 then (if Z.land insn 0xff0 =? 0 then 5 else 6, []) else (result, [(Rd, result + 1)])
    else (if Z.land insn 0xff0 =? 0 then 1 else 2, [])
  else (1, []).

(** The first loop of the load/store multiple: it looks at the lowest register
    of the list (r15 aside) and stops there. *)
Fixpoint lowest_lock (n : nat) (count mask : Z) : bool :=
  match n with
  | O => false
  | S n => if Z.odd mask then use count =? 1 else lowest_lock n (count + 1) (Z.shiftr mask 1)
  end.

Definition ticks_block (insn : Z) : timing :=
  let Rn := field insn 16 15 in
  let mask := Z.land insn 0xffff in
  let result := if lowest_lock 15 0 mask then 1 + 2 else 1 in
  let count := count_bits mask in
  let result := result + use Rn in
  let several := (if count <? 2 then 2 else count) - 1 in
  if bit insn 20 then
    let result := if bit insn 15 then count + 4 else result + several in
    (result, map (fun nn => (nn, result)) (filter (fun nn => bit insn nn = true) (seqZ 0 15)))
  else (result + several, []).

(** The switch on bits 27-25 *)
Definition arm_timing (insn : Z) : timing :=
  if Z.shiftr insn 28 =? 0xf then
    if Z.shiftr insn 25 =? 0x7d then (arm_instr_time ARM_INSTRUCTION_BLX, [])
    else if masked insn 0x0d70f000 0x0550f000 then (arm_instr_time ARM_INSTRUCTION_PLD, [])
    else (1, [])
  else
    let op := field insn 25 7 in
    if op =? 0 then
      if masked insn 0x90 0x90 then ticks_extra insn
      else if masked insn 0x0f900000 0x01000000 then ticks_misc insn
      else ticks_data_processing insn
    else if op =? 1 then ticks_dp_imm insn
    else if op =? 2 then ticks_ldst_imm insn
    else if op =? 3 then ticks_ldst_reg insn
    else if op =? 4 then ticks_block insn
    else if op =? 5 then (3, [])
    else if op =? 6 then (1 + (if bit insn 20 then use (field insn 16 15) else 0), [])
    else (1, []).
End Arm.

(** ** Thumb *)

Section Thumb.
Context (use : Z -> Z).

(** [for (nn = 0; nn < n; nn++) if (insn & (1 << nn)) ...] *)
Definition listed (n : nat) (insn : Z) : list Z := filter (fun nn => bit insn nn = true) (seqZ 0 (Z.of_nat n)).
Definition lock_all (l : list Z) (result : Z) : list (Z * Z) := map (fun nn => (nn, result)) l.
Definition wait_all (l : list Z) (result : Z) : Z := foldl (fun r nn => r + use nn) result l.
Definition transfer_ticks (mask : Z) : Z := let count := count_bits mask in if count <? 2 then 2 else count.

(** Data processing on registers, special data processing, branch exchange *)
Definition thumb_register (insn : Z) : timing :=
  if masked insn 0x0400 0 then
    let Rm := field insn 3 7 in
    let Rd := field insn 3 7 in
    (1 + (use Rm + use Rd), [])
  else if field insn 8 3 =? 3 then
    if masked insn 0xff07 0x4700 then (3 + use (field insn 3 15), []) else (1, [])
  else
    let Rn := Z.lor (Z.land insn 7) (field insn 4 0x8) in
    let Rm := field insn 3 15 in
    (1 + (use Rn + use Rm), []).

(** Load and store with register offset *)
Definition thumb_ldst_reg (insn : Z) : timing :=
  let Rd := Z.land insn 7 in
  let Rn := field insn 3 7 in
  let Rm := field insn 6 7 in
  let result := 1 + (use Rn + use Rm) in
  let op := field insn 9 7 in
  if (op =? 0) || (op =? 1) || (op =? 2) then (result + use Rd, [])
  else if op =? 4 then (result, [(Rd, result + 1)])
  else (result, [(Rd, result + 2)]).

(** Miscellaneous instructions, table 6-2 *)
Definition thumb_misc (insn : Z) : timing :=
  if masked insn 0xff00 0xb000 then (1 + use 14, [])
  else if masked insn 0x0600 0x0400 then
    let result := transfer_ticks (Z.land insn 0x01ff) in
    if bit insn 11 then (result, lock_all (listed 9 insn) result)
    else (wait_all (listed 9 insn) result, [])
  else (1, []).

Definition thumb_timing (insn : Z) : timing :=
  let op := field insn 11 31 in
  let load_imm k :=
    let result := 1 + use (field insn 3 7) in (result, [(Z.land insn 7, result + k)]) in
  if op <=? 2 then (1 + use (field insn 3 7), [])
  else if op =? 3 then
    let result := 1 + use (field insn 3 7) in
    (if masked insn 0x0400 0 then result + use (field insn 6 7) else result, [])
  else if op =? 4 then (1, [])
  else if op <=? 7 then (1 + use (field insn 8 7), [])
  else if op =? 8 then thumb_register insn
  else if op =? 9 then (1, [(field insn 8 7, 1 + 1)])
  else if op <=? 11 then thumb_ldst_reg insn
  else if (op =? 12) || (op =? 14) then (1 + (use (Z.land insn 7) + use (field insn 3 7)), [])
  else if op =? 13 then load_imm 1
  else if op =? 15 then load_imm 2
  else if op =? 16 then (1 + (use (field insn 3 7) + use (Z.land insn 7)), [])
  else if op =? 17 then load_imm 2
  else if op =? 18 then (1 + use (field insn 8 3), [])
  else if op =? 19 then (1, [(field insn 8 3, 1 + 1)])
  else if op <=? 21 then (1 + use (field insn 8 3), [])
  else if op <=? 23 then thumb_misc insn
  else if op =? 24 then
    let result := transfer_ticks (Z.land insn 255) + use (field insn 8 7) in
    (wait_all (listed 8 insn) result, [])
  else if op =? 25 then
    let result := transfer_ticks (Z.land insn 255) + use (field insn 8 7) in
    (result, lock_all (listed 8 insn) result)
  else if op <=? 27 then
    let c := field insn 8 15 in (if (c =? 14) || (c =? 15) then 1 else 3, [])
  else if op =? 28 then (3, [])
  else if op =? 29 then (if masked insn 1 0 then 3 else 1, [])
  else if op =? 30 then (1, [])
  else (3, []).
End Thumb.

(** ** The engine, [int result] and [interlock_base += result] *)

Definition set_locks (s : interlock) (defs : list (Z * Z)) : interlock :=
  foldl (fun s d => _interlock_def s d.1 d.2) s defs.

Definition insn_step (timing_of : (Z -> Z) -> Z -> timing) (s : interlock) (insn : Z) : Z * interlock :=
  let '(result, defs) := timing_of (_interlock_use s) insn in
  let s' := set_locks s defs in
  (s32 result, mk_interlock (interlocks s') (s32 (interlock_base s' + result))).

Definition get_insn_ticks (arm_instr_time : Z -> Z) : interlock -> Z -> Z * interlock :=
  insn_step (arm_timing arm_instr_time).
Definition get_insn_ticks_thumb : interlock -> Z -> Z * interlock := insn_step thumb_timing.

(** Static storage starts at zero; [trace_bb_start] clears the interlocks of
    [trace.c], but is called when tracing only. *)
Definition interlock0 : interlock := mk_interlock ∅ 0.
Definition trace_bb_start (s : interlock) : interlock :=
  mk_interlock (forZ 0 16 (fun a nn => a.[nn <- 0]) (interlocks s)) 0.

(** A sequence of instructions in the order of translation: the ticks of each
    and the interlocks behind it. *)
Fixpoint insn_run (timing_of : (Z -> Z) -> Z -> timing) (s : interlock) (l : list Z) : list Z * interlock :=
  match l with
  | [] => ([], s)
  | insn :: l =>
      let '(t, s) := insn_step timing_of s insn in
      let '(ts, s) := insn_run timing_of s l in
      (t :: ts, s)
  end.

(** ** The specification: a scoreboard *)

(** The remaining delay of each register, counted down by every instruction. *)
Definition board_step (timing_of : (Z -> Z) -> Z -> timing) (d : arr) (insn : Z) : Z * arr :=
  let '(result, defs) := timing_of (aget d) insn in
  (result, (fun v => Z.max 0 (v - result)) <$> foldl (fun d p => d.[p.1 <- p.2]) d defs).

Fixpoint board_run (timing_of : (Z -> Z) -> Z -> timing) (d : arr) (l : list Z) : list Z :=
  match l with
  | [] => []
  | insn :: l => let '(t, d) := board_step timing_of d insn in t :: board_run timing_of d l
  end.

(** ** get_insn_parser: does the block's count of program-counter changes grow? *)

(** The first switch; [None]: none of its cases, go on to the second.  [case 0]
    has no [break] and falls into [case 5]. *)
Definition parse_branch (insn : Z) : option bool :=
  if (Z.shiftr insn 28 =? 0xf) && (Z.shiftr insn 25 =? 0x7d) then Some true
  else
    let op := field insn 25 7 in
    if op =? 0 then
      if masked insn 0x0f900000 0x01000000 && (field insn 4 15 =? 1) && masked insn 0x0ffffff0 0x01200010
      then Some true
      else Some true
    else if op =? 5 then Some true
    else None.

(** The second switch, on instructions with 15 in one of two fields.  The
    [case]s 0 and 5 are there too. *)
Definition parse_other (insn : Z) : bool :=
  let rd := field insn 12 0xf in
  let rn := field insn 16 0xf in
  if (rd =? 15) || (rn =? 15) then
    let op := field insn 25 7 in
    if op =? 0 then
      if masked insn 0x90 0x90 then false
      else if masked insn 0x0f900000 0x01000000 then false
      else rd =? 15
    else if op =? 1 then if masked insn 0x01900000 0x01900000 then false else rd =? 15
    else if op =? 2 then bit insn 20 && (rd =? 15)
    else if op =? 3 then negb (bit insn 4) && bit insn 20 && (rn =? 15)
    else if op =? 4 then bit insn 20 && bit insn 15
    else false
  else false.

Definition changes_pc (insn : Z) : bool :=
  match parse_branch insn with Some b => b | None => parse_other insn end.

Definition get_insn_parser (insn : Z) (all_changes_to_PC_count : Z) : Z :=
  if changes_pc insn then u32 (all_changes_to_PC_count + 1) else all_changes_to_PC_count.

(** ** The hook of the ARM translator ([disas_arm_insn]): both pipeline models
    and the instruction counters *)

Record translator := mk_translator { tr_tb : ExtraTBInfo; tr_pc : Z; tr_locks : interlock }.

Definition add_ticks (t : Z) (tb : ExtraTBInfo) : ExtraTBInfo :=
  mk_tb (u64 (ticks tb + t)) (branch_count tb) (arm_count tb) (insn_buf tb) (insn_buf_index tb)
    (dual_issue_reduce_ticks tb).

Definition disas_hook (arm_instr_time : Z -> Z) (pipeline counting : bool) (cpu_model : Z)
    (s : translator) (i : Z * stack) : translator :=
  let insn := i.1 in
  let s :=
    if pipeline then
      if cpu_model =? 1 then mk_translator (translate_insn arm_instr_time (tr_tb s) i) (tr_pc s) (tr_locks s)
      else
        let '(t, locks) := get_insn_ticks arm_instr_time (tr_locks s) insn in
        mk_translator (add_ticks t (tr_tb s)) (tr_pc s) locks
    else s in
  if counting then mk_translator (tr_tb s) (get_insn_parser insn (tr_pc s)) (tr_locks s) else s.

Definition disas_block (arm_instr_time : Z -> Z) (pipeline counting : bool) (cpu_model : Z)
    (s : translator) (l : list (Z * stack)) : translator :=
  foldl (disas_hook arm_instr_time pipeline counting cpu_model) s l.

(** ** Bounds: what one instruction costs and locks, when delays are bounded *)

Definition timing_ok (D M : Z) (t : timing) : Prop :=
  1 <= t.1 <= M /\ Forall (fun p => 0 <= p.1 /\ 0 <= p.2 <= t.1 + D) t.2.

(** What the engine needs of a model: delays at most [D] are kept, ticks are
    between 1 and [M], and the result depends on the delays only. *)
Class Bounded (timing_of : (Z -> Z) -> Z -> timing) (D M : Z) : Prop := {
  bounded_pos : 0 <= D;
  bounded_proper :: Proper (pointwise_relation Z eq ==> eq ==> eq) timing_of;
  bounded_ok use insn : (forall r, 0 <= use r <= D) -> timing_ok D M (timing_of use insn) }.

Lemma field_nonneg insn k m : 0 <= m -> 0 <= field insn k m.
Proof. intros. unfold field. apply Z.land_nonneg. by right. Qed.

Lemma land_nonneg_r x m : 0 <= m -> 0 <= Z.land x m.
Proof. intros. apply Z.land_nonneg. by right. Qed.

Lemma clear_bits_bounds fuel mask count :
  count <= clear_bits fuel mask count <= count + Z.of_nat fuel.
Proof.
  revert mask count. induction fuel as [|fuel IH]; intros mask count; [cbn; lia|].
  cbn [clear_bits]. destruct (mask =? 0); [lia|].
  specialize (IH (Z.land mask (mask - 1)) (count + 1)). lia.
Qed.

Lemma count_bits_bounds mask : 0 <= count_bits mask <= 16.
Proof. apply (clear_bits_bounds 16 mask 0). Qed.

(** Name every atom of the goal that has bounds, and forget what it is. *)
Ltac bound_term b x := pose proof b; generalize dependent x; intros.
Ltac bound_fields :=
  repeat match goal with
  | |- context [count_bits ?m] => bound_term (count_bits_bounds m) (count_bits m)
  | |- context [field ?i ?k ?m] => bound_term (field_nonneg i k m ltac:(lia)) (field i k m)
  | |- context [Z.land ?x ?m] => bound_term (land_nonneg_r x m ltac:(lia)) (Z.land x m)
  end.
Ltac bound_calls f Hf :=
  repeat match goal with |- context [f ?i] => bound_term (Hf i) (f i) end.

Section ArmBounds.
Context (time : Z -> Z) (T : Z).
Hypothesis Htime : forall i, 1 <= time i <= T.

(** The longest lock and the costliest instruction. *)
Definition max_delay : Z := Z.max 1 (T - 1).
Definition max_ticks : Z := 20 + T + 4 * max_delay.

Context (use : Z -> Z).
Hypothesis Huse : forall r, 0 <= use r <= max_delay.
Let ok := timing_ok max_delay max_ticks.

Ltac piece f :=
  pose proof (Htime 0); unfold ok, f, timing_ok; cbv zeta; repeat split_if; cbn [fst snd];
  rewrite ?Forall_cons, ?Forall_nil; cbn [fst snd];
  bound_calls time Htime; bound_calls use Huse; bound_fields;
  unfold max_ticks, max_delay in *; repeat split; try done; lia.

Lemma ok_multiply insn : ok (ticks_multiply time use insn).
Proof. piece ticks_multiply. Qed.
Lemma ok_multiply_long insn : ok (ticks_multiply_long time use insn).
Proof. piece ticks_multiply_long. Qed.
Lemma ok_swap insn : ok (ticks_swap time use insn).
Proof. piece ticks_swap. Qed.
Lemma ok_half_reg insn : ok (ticks_half_reg time use insn).
Proof. piece ticks_half_reg. Qed.
Lemma ok_half_imm insn : ok (ticks_half_imm time use insn).
Proof. piece ticks_half_imm. Qed.
Lemma ok_two_words_reg insn : ok (ticks_two_words_reg time use insn).
Proof. piece ticks_two_words_reg. Qed.
Lemma ok_signed_reg insn : ok (ticks_signed_reg time use insn).
Proof. piece ticks_signed_reg. Qed.
Lemma ok_two_words_imm insn : ok (ticks_two_words_imm time use insn).
Proof. piece ticks_two_words_imm. Qed.
Lemma ok_signed_imm insn : ok (ticks_signed_imm time use insn).
Proof. piece ticks_signed_imm. Qed.
Lemma ok_misc insn : ok (ticks_misc time use insn).
Proof. piece ticks_misc. Qed.
Lemma ok_data_processing insn : ok (ticks_data_processing use insn).
Proof. piece ticks_data_processing. Qed.
Lemma ok_dp_imm insn : ok (ticks_dp_imm use insn).
Proof. piece ticks_dp_imm. Qed.
Lemma ok_ldst_imm insn : ok (ticks_ldst_imm use insn).
Proof. piece ticks_ldst_imm. Qed.
Lemma ok_ldst_reg insn : ok (ticks_ldst_reg use insn).
Proof. piece ticks_ldst_reg. Qed.

(** The registers of a list, all locked with the same delay. *)
Lemma ok_lock_all D result l :
  0 <= D -> 0 <= result -> Forall (fun r => 0 <= r) l ->
  Forall (fun p => 0 <= p.1 /\ 0 <= p.2 <= result + D) (lock_all l result).
Proof.
  intros HD Hr Hl. unfold lock_all. apply Forall_map. eapply Forall_impl; [exact Hl|]. cbn. intros; lia.
Qed.

Lemma listed_nonneg n insn : Forall (fun r => 0 <= r) (listed n insn).
Proof. apply Forall_forall. intros r [_ Hr]%list_elem_of_filter. apply elem_of_seqZ in Hr. lia. Qed.

Lemma ok_block insn : ok (ticks_block use insn).
Proof.
  unfold ok, ticks_block, timing_ok; cbv zeta.
  pose proof (Htime 0). pose proof (count_bits_bounds (Z.land insn 0xffff)).
  pose proof (Huse (field insn 16 15)).
  repeat split_if; cbn [fst snd]; unfold max_ticks, max_delay in *;
    (split; [lia|]); try apply Forall_nil_2; apply (ok_lock_all _ _ (listed 15 insn)); try lia;
    apply listed_nonneg.
Qed.

Lemma ok_extra insn : ok (ticks_extra time use insn).
Proof.
  unfold ticks_extra. repeat (split_if; [first
    [apply ok_multiply|apply ok_multiply_long|apply ok_swap|apply ok_half_reg|apply ok_half_imm
    |apply ok_two_words_reg|apply ok_signed_reg|apply ok_two_words_imm|apply ok_signed_imm]|]).
  piece timing_ok.
Qed.

Lemma ok_arm insn : ok (arm_timing time use insn).
Proof.
  unfold arm_timing. cbv zeta. repeat (split_if; auto using ok_extra, ok_misc, ok_data_processing,
    ok_dp_imm, ok_ldst_imm, ok_ldst_reg, ok_block); piece timing_ok.
Qed.
End ArmBounds.

(** Both models depend on the delays only. *)
Section Extensional.
Context (use use' : Z -> Z).
Hypothesis same : forall r, use r = use' r.

Lemma lowest_lock_ext n count mask : lowest_lock use n count mask = lowest_lock use' n count mask.
Proof. revert count mask. induction n as [|n IH]; intros; cbn [lowest_lock]; [done|]. by rewrite (same count), IH. Qed.

Lemma wait_all_ext l result : wait_all use l result = wait_all use' l result.
Proof.
  unfold wait_all. revert result. induction l as [|r l IH]; intros; cbn [foldl]; [done|].
  by rewrite (same r), IH.
Qed.

Lemma arm_timing_ext time insn : arm_timing time use insn = arm_timing time use' insn.
Proof.
  unfold arm_timing, ticks_extra, ticks_multiply, ticks_multiply_long, ticks_swap, ticks_half_reg,
    ticks_half_imm, ticks_two_words_reg, ticks_signed_reg, ticks_two_words_imm, ticks_signed_imm,
    ticks_misc, ticks_data_processing, ticks_dp_imm, ticks_ldst_imm, ticks_ldst_reg, ticks_block.
  cbv zeta. by rewrite !same, !lowest_lock_ext.
Qed.

Lemma thumb_timing_ext insn : thumb_timing use insn = thumb_timing use' insn.
Proof.
  unfold thumb_timing, thumb_misc, thumb_ldst_reg, thumb_register. cbv zeta.
  by rewrite !same, !wait_all_ext.
Qed.
End Extensional.

Lemma wait_all_bounds use D l result :
  (forall r, 0 <= use r <= D) ->
  result <= wait_all use l result <= result + D * Z.of_nat (length l).
Proof.
  intros Hu. unfold wait_all. revert result. induction l as [|r l IH]; intros; cbn [foldl length]; [lia|].
  specialize (IH (result + use r)). specialize (Hu r). lia.
Qed.

Lemma listed_length n insn : (length (listed n insn) <= n)%nat.
Proof. unfold listed. etransitivity; [apply length_filter|]. rewrite length_seqZ. lia. Qed.

Lemma arm_bounded time T (Ht : forall i, 1 <= time i <= T) :
  Bounded (arm_timing time) (max_delay T) (max_ticks T).
Proof.
  split; [unfold max_delay; lia| |intros; by apply ok_arm].
  intros use use' H insn ? <-. by apply arm_timing_ext.
Qed.

Lemma transfer_ticks_bounds mask : 2 <= transfer_ticks mask <= 16.
Proof.
  unfold transfer_ticks. pose proof (count_bits_bounds mask). cbv zeta.
  destruct (Z.ltb_spec (count_bits mask) 2); lia.
Qed.

Lemma ok_thumb use insn : (forall r, 0 <= use r <= 2) -> timing_ok 2 40 (thumb_timing use insn).
Proof.
  intros Hu.
  assert (Hw : forall n i r, (n <= 9)%nat -> 2 <= r -> r <= wait_all use (listed n i) r <= r + 18).
  { intros n i r Hn Hr. pose proof (wait_all_bounds use 2 (listed n i) r Hu).
    pose proof (listed_length n i). lia. }
  assert (Hl : forall n i r, 2 <= r -> Forall (fun p => 0 <= p.1 /\ 0 <= p.2 <= r + 2) (lock_all (listed n i) r)).
  { intros. apply ok_lock_all; [lia|lia|apply listed_nonneg]. }
  unfold thumb_timing, thumb_misc, thumb_ldst_reg, thumb_register, timing_ok. cbv zeta.
  pose proof (transfer_ticks_bounds (Z.land insn 0x01ff)).
  pose proof (transfer_ticks_bounds (Z.land insn 255)).
  pose proof (Hu (field insn 8 7)).
  repeat split_if; cbn [fst snd];
    (split; [try (match goal with |- context [wait_all use (listed ?n ?i) ?r] =>
                    specialize (Hw n i r ltac:(lia) ltac:(lia)) end)|try (apply Hl; lia)];
     rewrite ?Forall_cons, ?Forall_nil; cbn [fst snd];
     bound_calls use Hu; bound_fields; repeat split; try done; lia).
Qed.

#[export] Instance thumb_bounded : Bounded thumb_timing 2 40.
Proof.
  split; [lia| |apply ok_thumb]. intros use use' H insn ? <-. by apply thumb_timing_ext.
Qed.

(** ** The engine implements the scoreboard *)

Section Engine.
Context (timing_of : (Z -> Z) -> Z -> timing) (D M : Z) `{!Bounded timing_of D M}.

(** Interlocks [s] and scoreboard [d] tell the same delays; nothing has wrapped. *)
Definition related (s : interlock) (d : arr) : Prop :=
  0 <= interlock_base s /\
  forall r, 0 <= (interlocks s).[r] <= interlock_base s + D /\ (r < 0 -> (interlocks s).[r] = 0) /\
    d.[r] = Z.max 0 ((interlocks s).[r] - interlock_base s).

Lemma related_0 : related interlock0 ∅.
Proof.
  split; [done|]. intros r. pose proof bounded_pos. unfold interlock0; cbn [interlocks interlock_base].
  rewrite !aget_empty. lia.
Qed.

Lemma related_delays s d r : related s d -> 0 <= d.[r] <= D.
Proof. intros [_ H]. destruct (H r) as (H1 & _ & ->). pose proof bounded_pos. lia. Qed.

Lemma related_use s d r : related s d -> interlock_base s + D < 2 ^ 31 -> _interlock_use s r = d.[r].
Proof.
  intros [Hb H] Hlt. destruct (H r) as (H1 & H2 & ->). pose proof bounded_pos. unfold _interlock_use.
  destruct (Z.leb_spec 0 r); [|rewrite H2 by done; lia].
  rewrite s32_small by lia. destruct (Z.ltb_spec ((interlocks s).[r] - interlock_base s) 0); lia.
Qed.

(** While the locks of one instruction are set *)
Definition locking (base result : Z) (s : interlock) (d : arr) : Prop :=
  interlock_base s = base /\
  forall r, 0 <= (interlocks s).[r] <= base + result + D /\ (r < 0 -> (interlocks s).[r] = 0) /\
    Z.max 0 ((interlocks s).[r] - (base + result)) = Z.max 0 (d.[r] - result).

Lemma locking_def base result s d reg delay :
  0 <= base -> base + result + D < 2 ^ 31 -> 0 <= reg -> 0 <= delay <= result + D ->
  locking base result s d -> locking base result (_interlock_def s reg delay) (d.[reg <- delay]).
Proof.
  intros Hb Hlt Hr Hd [<- H]. unfold _interlock_def. rewrite (proj2 (Z.leb_le 0 reg)) by done.
  split; [done|]. intros r. cbn [interlocks]. rewrite !aget_aset. case_decide; [|apply H].
  rewrite s32_small by lia. lia.
Qed.

Lemma locking_defs base result defs s d :
  0 <= base -> base + result + D < 2 ^ 31 ->
  Forall (fun p => 0 <= p.1 /\ 0 <= p.2 <= result + D) defs -> locking base result s d ->
  locking base result (set_locks s defs) (foldl (fun d p => d.[p.1 <- p.2]) d defs).
Proof.
  intros Hb Hlt Hd. revert s d. induction Hd as [|p defs [Hp1 Hp2] _ IH]; intros s d H; [done|].
  apply IH. by apply locking_def.
Qed.

Lemma aget_countdown (d : arr) result r :
  0 <= result -> ((fun v => Z.max 0 (v - result)) <$> d).[r] = Z.max 0 (d.[r] - result).
Proof. intros. unfold aget. rewrite lookup_fmap. destruct (d !! r); cbn; lia. Qed.

Lemma step_related s d insn :
  related s d -> interlock_base s + M + D < 2 ^ 31 ->
  (insn_step timing_of s insn).1 = (board_step timing_of d insn).1 /\
  related (insn_step timing_of s insn).2 (board_step timing_of d insn).2 /\
  interlock_base (insn_step timing_of s insn).2 = interlock_base s + (insn_step timing_of s insn).1 /\
  1 <= (insn_step timing_of s insn).1 <= M.
Proof.
  intros Hr Hlt. pose proof bounded_pos as HD.
  assert (E : timing_of (_interlock_use s) insn = timing_of (aget d) insn).
  { pose proof (bounded_ok (aget d) insn (fun r => related_delays s d r Hr)) as [? _].
    apply bounded_proper; [|done]. intros r. apply related_use; [done|lia]. }
  pose proof (bounded_ok (aget d) insn (fun r => related_delays s d r Hr)) as [Ht Hdefs].
  unfold insn_step, board_step. rewrite E. destruct (timing_of (aget d) insn) as [result defs].
  cbn [fst snd] in Ht, Hdefs |- *. pose proof Hr as [Hb Hl].
  destruct (locking_defs (interlock_base s) result defs s d) as [Hb' Hl']; [lia|lia|done|
    split; [done|]; intros r; destruct (Hl r) as (? & ? & ->); lia|].
  rewrite !Hb', (s32_small result), (s32_small (interlock_base s + result)) by lia.
  split_and!; [done| |done|lia|lia]. split; cbn [interlocks interlock_base]; [lia|].
  intros r. rewrite aget_countdown by lia. specialize (Hl' r). lia.
Qed.

Lemma run_related s d l :
  related s d -> interlock_base s + Z.of_nat (length l) * M + D < 2 ^ 31 ->
  (insn_run timing_of s l).1 = board_run timing_of d l /\
  Forall (fun t => 1 <= t <= M) (insn_run timing_of s l).1.
Proof.
  revert s d. induction l as [|insn l IH]; intros s d Hr Hlt; [by split|].
  cbn [length] in Hlt. cbn [insn_run board_run].
  assert (HM : 1 <= M).
  { pose proof (bounded_ok (aget d) insn (fun r => related_delays s d r Hr)) as [? _]. lia. }
  destruct (step_related s d insn Hr ltac:(nia)) as (E1 & Hr' & Eb & Ht).
  destruct (insn_step timing_of s insn) as [t s'], (board_step timing_of d insn) as [t' d'].
  cbn [fst snd] in *. subst t'. destruct (IH s' d' Hr' ltac:(nia)) as [E2 Hf].
  destruct (insn_run timing_of s' l) as [ts s'']. cbn [fst snd] in *. rewrite E2 in Hf |- *.
  split; [done|]. by constructor.
Qed.
End Engine.

(** ** Block totals *)

Lemma disas_block_ticks time counting model i l s :
  model <> 1 ->
  ticks (tr_tb (disas_block time true counting model s (i :: l))) =
    u64 (ticks (tr_tb s) + foldr Z.add 0 (insn_run (arm_timing time) (tr_locks s) (map fst (i :: l))).1).
Proof.
  intros Hm. revert s i.
  assert (Hs : forall s i, ticks (tr_tb (disas_hook time true counting model s i)) =
      u64 (ticks (tr_tb s) + (insn_step (arm_timing time) (tr_locks s) i.1).1) /\
      tr_locks (disas_hook time true counting model s i) = (insn_step (arm_timing time) (tr_locks s) i.1).2).
  { intros s i. unfold disas_hook, get_insn_ticks. rewrite (proj2 (Z.eqb_neq model 1)) by done.
    destruct (insn_step _ _ _) as [t locks]. by destruct counting. }
  induction l as [|j l IH]; intros s i.
  - cbn [disas_block foldl map insn_run]. destruct (Hs s i) as [-> _].
    destruct (insn_step _ _ _) as [t locks]. cbn [fst foldr]. by rewrite Z.add_0_r.
  - change (disas_block time true counting model s (i :: j :: l))
      with (disas_block time true counting model (disas_hook time true counting model s i) (j :: l)).
    rewrite IH. destruct (Hs s i) as [-> ->]. rewrite (map_cons fst i). cbn [insn_run].
    destruct (insn_step _ (tr_locks s) _) as [t locks]. cbn [fst snd].
    destruct (insn_run _ locks _) as [ts s'']. cbn [fst foldr]. u64_norm. f_equal. lia.
Qed.

(** ** Properties *)

(** C21: The interlocks implement a scoreboard.  For every ARM instruction
    sequence, as long as the tick counter cannot have passed 2^31, the ticks
    [get_insn_ticks] returns are those of a scoreboard that stores only how long
    each register is still busy, although the code never resets its counter;
    each instruction takes between 1 and [max_ticks] ticks, and a block's
    [ticks] field grows by their sum. *)
Theorem data_sheet_refines time T model counting tb pc l :
  (forall i, 1 <= time i <= T) -> model <> 1 -> l <> [] ->
  Z.of_nat (length l) * max_ticks T + max_delay T < 2 ^ 31 ->
  let ts := board_run (arm_timing time) ∅ (map fst l) in
  (insn_run (arm_timing time) interlock0 (map fst l)).1 = ts /\
  Forall (fun t => 1 <= t <= max_ticks T) ts /\
  ticks (tr_tb (disas_block time true counting model (mk_translator tb pc interlock0) l)) =
    u64 (ticks tb + foldr Z.add 0 ts).
Proof.
  intros Ht Hm Hl Hlt ts. pose proof (arm_bounded time T Ht).
  destruct (run_related (arm_timing time) (max_delay T) (max_ticks T) interlock0 ∅ (map fst l)) as [E Hf].
  { by apply (related_0 (arm_timing time) _ (max_ticks T)). }
  { by rewrite length_map. }
  rewrite E in Hf. split_and!; [done|done|].
  destruct l as [|i l]; [done|]. rewrite disas_block_ticks by done. cbn [tr_locks tr_tb]. by rewrite E.
Qed.

(** LDR r1,[r2]; ADD r0,r0,r1; LDMIA r13!,{r0,r1,r15}; MUL r3,r1,r2 *)
Definition demo_insns : list Z := [0xe5921000; 0xe0800001; 0xe8bd8003; 0xe0030291].
Definition demo_time : Z -> Z := fun i => if i =? ARM_INSTRUCTION_MUL then 2 else 1.
Definition demo_stack : stack := mk_stack 0 0 (mk_issue false false 0 0 0) (mk_issue false false 0 0 0).

Theorem data_sheet_refines_witness :
  (insn_run (arm_timing demo_time) interlock0 demo_insns).1 = [1; 2; 7; 2].
Proof.
  assert (Ht : forall i, 1 <= demo_time i <= 2) by (intros i; unfold demo_time; destruct (i =? _); lia).
  assert (Hl : Z.of_nat (length (map (fun i => (i, demo_stack)) demo_insns)) * max_ticks 2 + max_delay 2 < 2 ^ 31)
    by (vm_compute; reflexivity).
  exact (proj1 (data_sheet_refines demo_time 2 0 true tb0 0 (map (fun i => (i, demo_stack)) demo_insns)
    Ht ltac:(lia) ltac:(discriminate) Hl)).
Defined.

Lemma trace_bb_start_cell s r :
  (interlocks (trace_bb_start s)).[r] = if decide (0 <= r < 16) then 0 else (interlocks s).[r].
Proof.
  unfold trace_bb_start. cbn [interlocks].
  refine (forZ_ind (fun i a => a.[r] = if decide (0 <= r < i) then 0 else (interlocks s).[r]) 0 16 _ _ _ _).
  - by rewrite decide_False by lia.
  - intros i a Hi E. cbn beta in E. rewrite aget_aset, E. repeat case_decide; lia.
Qed.

(** Ticks of a block and its history.  The interlocks of [trace.c] are
    cleared at the start of a block when tracing runs: then a Thumb block costs
    what it costs on an empty scoreboard, whatever was translated before.  The
    ARM interlocks of [vpmu-device.c] are never cleared, although the comment
    there says so: the ticks of the block ADD r0,r0,r1 depend on whether the
    block translated before it ended in LDR r1,[r2]. *)
Theorem block_ticks_history s l time :
  (forall r, ~ 0 <= r < 16 -> (interlocks s).[r] = 0) ->
  Z.of_nat (length l) * 40 + 2 < 2 ^ 31 ->
  (insn_run thumb_timing (trace_bb_start s) l).1 = board_run thumb_timing ∅ l /\
  (insn_run (arm_timing time) interlock0 [0xe0800001]).1 = [1] /\
  (insn_run (arm_timing time) (insn_run (arm_timing time) interlock0 [0xe5921000]).2 [0xe0800001]).1 = [2].
Proof.
  intros Hs Hl. split; [|by split].
  apply (run_related thumb_timing 2 40); [|cbn [trace_bb_start interlock_base]; lia].
  split; [done|]. intros r. rewrite trace_bb_start_cell, aget_empty. cbn [trace_bb_start interlock_base].
  case_decide; [lia|]. rewrite Hs by done. lia.
Qed.

(** After POP {r0}: MOV r1,r0 in Thumb *)
Theorem block_ticks_history_witness :
  let s := (insn_run thumb_timing interlock0 [0x4801]).2 in
  (insn_run thumb_timing s [0x0001]).1 = [2] /\ (insn_run thumb_timing (trace_bb_start s) [0x0001]).1 = [1].
Proof.
  split; [vm_compute; reflexivity|].
  assert (H : forall r, ~ 0 <= r < 16 ->
    (interlocks (insn_run thumb_timing interlock0 [0x4801]).2).[r] = 0).
  { intros r Hr. change (interlocks (insn_run thumb_timing interlock0 [0x4801]).2) with ((∅ : arr).[0 <- 2]).
    rewrite aget_aset_ne by lia. apply aget_empty. }
  exact (proj1 (block_ticks_history (insn_run thumb_timing interlock0 [0x4801]).2 [0x0001] (fun _ => 1) H
    ltac:(vm_compute; reflexivity))).
Defined.

(** [n] branches, three ticks each, lock nothing. *)
Definition branches (n : Z) : list Z := repeat 0xea000000 (Z.to_nat n).

Lemma s32_congr x y : u32 x = u32 y -> s32 x = s32 y.
Proof. unfold s32. by intros ->. Qed.

Lemma s32_add_l x y : s32 (s32 x + y) = s32 (x + y).
Proof.
  apply s32_congr. unfold s32, u32, wrap. destruct (Z.ltb (x mod 2 ^ 32) (2 ^ 31)).
  - by rewrite Zplus_mod_idemp_l.
  - replace (x mod 2 ^ 32 - 2 ^ 32 + y) with (x mod 2 ^ 32 + y + (-1) * 2 ^ 32) by ring.
    by rewrite Z_mod_plus_full, Zplus_mod_idemp_l.
Qed.

Lemma run_branches time n b :
  (insn_run (arm_timing time) (mk_interlock ∅ (s32 b)) (repeat 0xea000000 n)).2 =
  mk_interlock ∅ (s32 (b + 3 * Z.of_nat n)).
Proof.
  revert b. induction n as [|n IH]; intros b; [cbn; by rewrite Z.add_0_r|].
  cbn [repeat insn_run].
  replace (insn_step (arm_timing time) (mk_interlock ∅ (s32 b)) 0xea000000)
    with (3, mk_interlock ∅ (s32 (b + 3))).
  - specialize (IH (b + 3)). destruct (insn_run _ _ _) as [ts s]. cbn [snd] in *. rewrite IH.
    do 2 f_equal. lia.
  - unfold insn_step. change (arm_timing time _ 0xea000000) with (3, @nil (Z * Z)).
    cbn [set_locks foldl interlocks interlock_base]. by rewrite s32_add_l.
Qed.

Lemma run_branches0 time n :
  0 <= n -> (insn_run (arm_timing time) interlock0 (branches n)).2 = mk_interlock ∅ (s32 (3 * n)).
Proof.
  intros. pose proof (run_branches time (Z.to_nat n) 0) as E. rewrite Z2Nat.id in E by done. exact E.
Qed.

(** The tick counter wraps.  After 715827883 branches [interlock_base] has
    passed 2^31; registers that nothing ever wrote then look busy for 2^31 - 1
    ticks, and ADD r0,r0,r1 is charged -1 ticks. *)
Theorem interlock_wraps time n :
  n = 715827883 ->
  let s := (insn_run (arm_timing time) interlock0 (branches n)).2 in
  _interlock_use s 0 = 2 ^ 31 - 1 /\ fst (get_insn_ticks time s 0xe0800001) = -1.
Proof. intros Hn. cbv zeta. rewrite run_branches0 by lia. subst n. by split. Qed.

Theorem interlock_wraps_witness :
  exists n, fst (get_insn_ticks (fun _ => 1)
    (insn_run (arm_timing (fun _ => 1)) interlock0 (branches n)).2 0xe0800001) = -1.
Proof. exists 715827883. exact (proj2 (interlock_wraps (fun _ => 1) 715827883 eq_refl)). Defined.

(** ** What get_insn_parser counts *)

(** The instructions that write the program counter, by format: branches, BLX
    to Thumb, data processing into r15 other than the comparisons, multiples
    and miscellaneous forms aside, loads of r15. *)
Definition writes_pc (insn : Z) : bool :=
  let rd := field insn 12 15 in
  let op := field insn 25 7 in
  if Z.shiftr insn 28 =? 0xf then op =? 5
  else if op =? 0 then
    if masked insn 0x90 0x90 then false
    else if masked insn 0x01900000 0x01000000 then masked insn 0x0fffffd0 0x012fff10
    else (rd =? 15) && negb (masked insn 0x01800000 0x01000000)
  else if op =? 1 then (rd =? 15) && negb (masked insn 0x01800000 0x01000000)
  else if op =? 2 then bit insn 20 && (rd =? 15)
  else if op =? 3 then negb (bit insn 4) && bit insn 20 && (rd =? 15)
  else if op =? 4 then bit insn 20 && bit insn 15
  else op =? 5.

(** The count of program-counter changes.  [get_insn_parser] adds at most
    one per instruction.  It is right on branches and on loads with an
    immediate offset; it counts every instruction with bits 27-25 clear (ADD
    r0,r0,r1 among them), because [case 0] falls into [case 5]; a load with a
    register offset is judged by its base register instead of its target; a
    load multiple into r15 counts only when bits 15-12 or 19-16 are all set. *)
Theorem get_insn_parser_exact insn n :
  Z.shiftr insn 28 <> 0xf ->
  get_insn_parser insn n = (if changes_pc insn then u32 (n + 1) else n) /\
  (field insn 25 7 = 0 -> changes_pc insn = true) /\
  (field insn 25 7 = 5 -> changes_pc insn = true /\ writes_pc insn = true) /\
  (field insn 25 7 = 2 -> changes_pc insn = writes_pc insn) /\
  (field insn 25 7 = 3 ->
     changes_pc insn = negb (bit insn 4) && bit insn 20 && (field insn 16 15 =? 15)) /\
  (field insn 25 7 = 4 ->
     changes_pc insn = writes_pc insn && ((field insn 12 15 =? 15) || (field insn 16 15 =? 15))) /\
  (5 < field insn 25 7 -> changes_pc insn = false).
Proof.
  intros Hc. split; [done|]. unfold changes_pc, parse_branch, parse_other, writes_pc. cbv zeta.
  rewrite (proj2 (Z.eqb_neq _ _) Hc). cbn [andb].
  split_and!.
  - intros ->. cbn -[Z.testbit field masked]. by destruct (_ && _).
  - by intros ->.
  - intros ->. cbn -[Z.testbit field masked]. destruct (field insn 12 15 =? 15), (field insn 16 15 =? 15), (bit insn 20); done.
  - intros ->. cbn -[Z.testbit field masked].
    destruct (field insn 12 15 =? 15), (field insn 16 15 =? 15); cbn -[Z.testbit];
      by rewrite ?andb_false_r.
  - intros ->. cbn -[Z.testbit field masked].
    destruct (field insn 12 15 =? 15), (field insn 16 15 =? 15); cbn -[Z.testbit];
      by rewrite ?andb_false_r, ?andb_true_r.
  - intros H5. rewrite !(proj2 (Z.eqb_neq (field insn 25 7) _)) by lia. by destruct (_ || _).
Qed.

(** ADD r0,r0,r1 is counted; LDMIA r13!,{r4,r15} is not. *)
Theorem get_insn_parser_exact_witness :
  changes_pc 0xe0800001 = true /\ writes_pc 0xe0800001 = false /\
  changes_pc 0xe8bd8010 = false /\ writes_pc 0xe8bd8010 = true.
Proof.
  split_and!; [|reflexivity| |reflexivity].
  - exact (proj1 (proj2 (get_insn_parser_exact 0xe0800001 0 ltac:(discriminate))) eq_refl).
  - destruct (get_insn_parser_exact 0xe8bd8010 0 ltac:(discriminate)) as (_ & _ & _ & _ & _ & H & _).
    exact (H eq_refl).
Defined.
