(* ===== verification/Branch.v ===== *)
(** * The branch predictor simulation and the trace rings ([hw/vpmu-device.c])

    The CPU thread puts branch signals into a ring of 200 bytes ([put_event]);
    a worker thread ([branch_thread]) takes them out and drives a two-bit
    predictor ([branch_set], [branch_update]).  Memory references travel through
    a second ring of 500 sets of 100 references ([cache_ref], [dinero_thread]).
    In both, the producer stores an element before the test that makes it wait,
    and only a counter is shared; the model interleaves the two threads at every
    access to it.  What the cache simulator does with a reference is in [Dinero]; the
    theorem about its ring says which references reach it, in which order;
    [BranchSession] and [VpmuCache] use the rings in whole sessions. *)
From S2P Require Import Prelude.

(** ** branch_set and branch_update *)

Definition COND_SIG : Z := 99.
Definition BRANCH_PREDICT_SYNC : Z := 2.

(** The statics of [branch_update] and the two results in [GlobalVPMU]. *)
Record bp := mk_bp {
  predictor : Z; predict_correct : Z; predict_wrong : Z;
  branch_predict_correct : Z; branch_predict_wrong : Z }.

Definition right (p : Z) (s : bp) : bp :=
  mk_bp p (u32 (predict_correct s + 1)) (predict_wrong s) (branch_predict_correct s) (branch_predict_wrong s).
Definition wrong (p : Z) (s : bp) : bp :=
  mk_bp p (predict_correct s) (u32 (predict_wrong s + 1)) (branch_predict_correct s) (branch_predict_wrong s).

Definition branch_update (taken : Z) (s : bp) : run bp :=
  if taken =? BRANCH_PREDICT_SYNC
  then Ret (mk_bp (predictor s) (predict_correct s) (predict_wrong s) (predict_correct s) (predict_wrong s))
  else
    let t := negb (taken =? 0) in
    if predictor s =? 0 then Ret (if t then wrong 1 s else right 0 s)
    else if predictor s =? 1 then Ret (if t then wrong 3 s else right 0 s)
    else if predictor s =? 2 then Ret (if t then right 3 s else wrong 0 s)
    else if predictor s =? 3 then Ret (if t then right 3 s else wrong 2 s)
    else ProcExit.

(** The second component is the static [last_signal]. *)
Definition branch_set (s : bp * Z) (cur_sig : Z) : run (bp * Z) :=
  let '(b, last_signal) := s in
  if last_signal =? COND_SIG then
    if cur_sig =? COND_SIG
    then b ← branch_update 0 b; Ret (b, last_signal)
    else b ← branch_update 1 b; Ret (b, 0)
  else Ret (b, cur_sig).

(** vpmu_branch_predict, once the worker has emptied the ring *)
Definition PREDICT_CORRECT : Z := 0.
Definition PREDICT_WRONG : Z := 1.
Definition vpmu_branch_predict (request : Z) (s : bp) : run (Z * bp) :=
  s ← branch_update BRANCH_PREDICT_SYNC s;
  Ret (if request =? PREDICT_CORRECT then branch_predict_correct s
       else if request =? PREDICT_WRONG then branch_predict_wrong s else 0, s).

(** The whole trace through the worker. *)
Definition branch_trace (l : list Z) (s : bp * Z) : run (bp * Z) :=
  foldl (fun r x => s ← r; branch_set s x) (Ret s) l.

(** ** The ring: [n] slots, an item is visible once counted *)

Inductive prod_pc (A : Type) := PReady | PStored (x : A).
Arguments PReady {A}.
Arguments PStored {A} x.
Inductive cons_pc := CWait | CTaken.

Record ring (A : Type) := mk_ring {
  slots : gmap Z A; head : Z; tail : Z; used : Z;
  r_prod : prod_pc A; r_cons : cons_pc;
  put : list A; got : list A }.   (* history: counted, taken *)
Arguments mk_ring {A}.
Arguments slots {A}.
Arguments head {A}.
Arguments tail {A}.
Arguments used {A}.
Arguments r_prod {A}.
Arguments r_cons {A}.
Arguments put {A}.
Arguments got {A}.

Section Ring.
Context {A : Type}.
(** [n] slots; the producer waits while [limit] of them are counted; [junk] is
    what the consumer leaves in a slot, if anything. *)
Context (n limit : Z) (junk : option A).

Inductive ring_step : ring A -> ring A -> Prop :=
| ring_store b h t u c p g x :
    ring_step (mk_ring b h t u PReady c p g) (mk_ring (<[h := x]> b) h t u (PStored x) c p g)
| ring_count b h t u c p g x :
    u <> limit ->
    ring_step (mk_ring b h t u (PStored x) c p g)
              (mk_ring b ((h + 1) mod n) t (u + 1) PReady c (p ++ [x]) g)
| ring_take b h t u pp p g x :
    u <> 0 -> b !! t = Some x ->
    ring_step (mk_ring b h t u pp CWait p g)
              (mk_ring (match junk with Some j => <[t := j]> b | None => b end) h t u pp CTaken p (g ++ [x]))
| ring_release b h t u pp p g :
    ring_step (mk_ring b h t u pp CTaken p g) (mk_ring b h ((t + 1) mod n) (u - 1) pp CWait p g).

Definition ring_start (b : gmap Z A) : ring A := mk_ring b 0 0 0 PReady CWait [] [].

Inductive ring_reach (b : gmap Z A) : ring A -> Prop :=
| rr_start : ring_reach b (ring_start b)
| rr_step s s' : ring_reach b s -> ring_step s s' -> ring_reach b s'.
End Ring.

(** put_event and branch_thread: 200 slots, the producer waits at 199, a slot
    taken is overwritten with 33. *)
Definition BRANCH_QUEUE_SIZE : Z := 200.
Definition put_event_step : ring Z -> ring Z -> Prop :=
  ring_step BRANCH_QUEUE_SIZE (BRANCH_QUEUE_SIZE - 1) (Some 33).

(** ** The memory-reference ring, at the level of sets *)

Definition TRACE_SET : Z := 500.
Definition TRACE_QUEUE_SIZE : nat := 100.

(** [cache_ref]: the set under construction (a row of [TraceBuffer]) and the
    sets handed over. *)
Record trace (A : Type) := mk_trace {
  rows : gmap Z (list A); t_set : Z; t_index : nat; set_used : Z;
  c_set : Z; c_index : nat;
  refs_in : list A; refs_out : list A }.
Arguments mk_trace {A}.
Arguments rows {A}.
Arguments t_set {A}.
Arguments t_index {A}.
Arguments set_used {A}.
Arguments c_set {A}.
Arguments c_index {A}.
Arguments refs_in {A}.
Arguments refs_out {A}.

Section TraceRing.
Context {A : Type}.

Definition row (b : gmap Z (list A)) (k : Z) : list A := default [] (b !! k).

(** The producer appends one reference; with the hundredth the set is counted. *)
Definition cache_ref (r : A) (s : trace A) : run (trace A) :=
  if set_used s =? TRACE_SET then Spin
  else
    let b := <[t_set s := take (t_index s) (row (rows s) (t_set s)) ++ r :: drop (S (t_index s)) (row (rows s) (t_set s))]> (rows s) in
    if (S (t_index s) =? TRACE_QUEUE_SIZE)%nat
    then Ret (mk_trace b (if t_set s + 1 =? TRACE_SET then 0 else t_set s + 1) 0 (set_used s + 1)
                (c_set s) (c_index s) (refs_in s ++ [r]) (refs_out s))
    else Ret (mk_trace b (t_set s) (S (t_index s)) (set_used s) (c_set s) (c_index s)
                (refs_in s ++ [r]) (refs_out s)).

(** One turn of the consumer's inner loop, or the end of a set. *)
Definition dinero_step (s : trace A) : run (trace A) :=
  if 0 <? set_used s then
    if (c_index s =? TRACE_QUEUE_SIZE)%nat
    then Ret (mk_trace (rows s) (t_set s) (t_index s) (set_used s - 1)
                (if c_set s + 1 =? TRACE_SET then 0 else c_set s + 1) 0 (refs_in s) (refs_out s))
    else match row (rows s) (c_set s) !! c_index s with
         | Some r => Ret (mk_trace (rows s) (t_set s) (t_index s) (set_used s) (c_set s) (S (c_index s))
                           (refs_in s) (refs_out s ++ [r]))
         | None => Spin
         end
  else Spin.
End TraceRing.

(** ** The ring keeps the order *)

Lemma mod_shift_ne n t a b : 0 <= a < n -> 0 <= b < n -> a <> b -> (t + a) mod n <> (t + b) mod n.
Proof.
  intros Ha Hb Hne E. apply Hne.
  assert (H : (t + a - (t + b)) mod n = 0) by (rewrite Zminus_mod, E, Z.sub_diag; apply Z.mod_0_l; lia).
  replace (t + a - (t + b)) with (a - b) in H by lia.
  apply Z.mod_divide in H as [k Hk]; [|lia]. assert (k = 0) by nia. lia.
Qed.

Lemma mod_next n t k : ((t + 1) mod n + k) mod n = (t + (1 + k)) mod n.
Proof. rewrite Zplus_mod_idemp_l. f_equal. lia. Qed.

Section RingProof.
Context {A : Type} (n : Z) (junk : option A).
Hypothesis Hn : 1 < n.

(** Items taken but whose slot is still counted. *)
Definition taken_slots (s : ring A) : Z := match r_cons s with CWait => 0 | CTaken => 1 end.

Record ring_inv (s : ring A) : Prop := {
  ri_used : taken_slots s <= used s < n;
  ri_tail : 0 <= tail s < n;
  ri_head : head s = (tail s + used s) mod n;
  ri_stored : forall x, r_prod s = PStored x -> slots s !! head s = Some x;
  ri_items : exists l, put s = got s ++ l /\ Z.of_nat (length l) = used s - taken_slots s /\
    forall i x, l !! i = Some x -> slots s !! ((tail s + (taken_slots s + Z.of_nat i)) mod n) = Some x }.

Lemma ring_inv_start b : ring_inv (ring_start b).
Proof.
  split; unfold taken_slots; cbn; [lia|lia|by rewrite Z.mod_0_l by lia|done|]. exists []. split; [done|]. split; [done|].
  intros i x. by rewrite lookup_nil.
Qed.

Lemma ring_inv_step s s' : ring_inv s -> ring_step n (n - 1) junk s s' -> ring_inv s'.
Proof.
  intros [Hu Ht Hh Hst (l & Hl & Hlen & Hit)] Hs.
  unfold taken_slots in *. destruct Hs; cbn in *.
  - (* store *) split; unfold taken_slots; cbn; [done|done|done| |].
    + intros y [= ->]. apply lookup_insert_eq.
    + exists l. split; [done|]. split; [done|]. intros i y Hy. rewrite lookup_insert_ne; [by apply Hit|].
      apply lookup_lt_Some in Hy. rewrite Hh. apply mod_shift_ne; destruct c; cbn in *; lia.
  - (* count *) split; unfold taken_slots; cbn; [lia|done| |done|].
    + rewrite Hh, Zplus_mod_idemp_l. f_equal. lia.
    + exists (l ++ [x]). rewrite Hl, app_assoc. split; [done|]. rewrite length_app. cbn.
      split; [lia|].
      intros i y Hy. destruct (decide (i < length l)%nat).
      * rewrite lookup_app_l in Hy by done. by apply Hit.
      * rewrite lookup_app_r in Hy by lia. destruct (i - length l)%nat eqn:E; [|done].
        injection Hy as <-. rewrite <- (Hst x eq_refl), Hh. do 2 f_equal. lia.
  - (* take *) destruct l as [|y l]; [cbn in *; lia|].
    assert (y = x) as ->.
    { specialize (Hit O y eq_refl). change (Z.of_nat 0) with 0 in Hit.
      rewrite !Z.add_0_r, Z.mod_small in Hit by lia. congruence. }
    assert (Hj : forall k, k <> t -> match junk with Some j => <[t:=j]> b | None => b end !! k = b !! k)
      by (intros k Hk; destruct junk; [by rewrite lookup_insert_ne|done]).
    split; unfold taken_slots; cbn; [lia|done|done| |].
    + intros z Hz. rewrite Hj; [by apply Hst|]. rewrite Hh.
      rewrite <- (Z.mod_small t n) at 2 by lia. replace (t mod n) with ((t + 0) mod n) by (f_equal; lia).
      apply mod_shift_ne; cbn in *; lia.
    + exists l. rewrite Hl, <- app_assoc. split; [done|]. cbn in Hlen |- *. split; [lia|].
      intros i z Hz. pose proof (lookup_lt_Some _ _ _ Hz). rewrite Hj.
      * specialize (Hit (S i) z Hz). rewrite <- Hit. do 2 f_equal. cbn. lia.
      * rewrite <- (Z.mod_small t n) at 2 by lia. replace (t mod n) with ((t + 0) mod n) by (f_equal; lia).
        apply mod_shift_ne; lia.
  - (* release *) split; unfold taken_slots; cbn; [lia|by apply Z.mod_pos_bound; lia| |done|].
    + rewrite Hh, mod_next. f_equal. lia.
    + exists l. split; [done|]. cbn in *. split; [lia|]. intros i z Hz. rewrite mod_next.
      rewrite <- (Hit i z Hz). do 2 f_equal.
Qed.

Lemma ring_inv_reach b s : ring_reach n (n - 1) junk b s -> ring_inv s.
Proof. induction 1; [apply ring_inv_start|by eapply ring_inv_step]. Qed.
End RingProof.

(** ** The predictor as a pure machine *)

Definition two_bit (p : Z) (t : bool) : Z :=
  if p =? 0 then (if t then 1 else 0) else if p =? 1 then (if t then 3 else 0)
  else if p =? 2 then (if t then 3 else 0) else (if t then 3 else 2).
(** States 2 and 3 predict taken. *)
Definition predicts (p : Z) : bool := 2 <=? p.

Fixpoint misses (p : Z) (l : list bool) : nat :=
  match l with
  | [] => O
  | t :: l' => ((if Bool.eqb (predicts p) t then 0 else 1) + misses (two_bit p t) l')%nat
  end.

(** The outcomes in a signal trace: after a conditional branch, any other
    signal than a conditional branch means it was taken. *)
Fixpoint outcomes (last : Z) (l : list Z) : list bool :=
  match l with
  | [] => []
  | x :: l' => if last =? COND_SIG then negb (x =? COND_SIG) :: outcomes x l' else outcomes x l'
  end.

Definition bp_after (b : bp) (l : list bool) : bp :=
  mk_bp (foldl two_bit (predictor b) l)
    (u32 (predict_correct b + Z.of_nat (length l - misses (predictor b) l)))
    (u32 (predict_wrong b + Z.of_nat (misses (predictor b) l)))
    (branch_predict_correct b) (branch_predict_wrong b).

Definition bp_ok (b : bp) : Prop :=
  0 <= predictor b <= 3 /\ 0 <= predict_correct b < 2 ^ 32 /\ 0 <= predict_wrong b < 2 ^ 32.

Lemma misses_le p l : (misses p l <= length l)%nat.
Proof.
  revert p. induction l as [|t l IH]; intros p; cbn; [lia|]. specialize (IH (two_bit p t)).
  destruct (Bool.eqb (predicts p) t); lia.
Qed.

Lemma u32_add_l x y : u32 (u32 x + y) = u32 (x + y).
Proof. unfold u32, wrap. by rewrite Zplus_mod_idemp_l. Qed.

Lemma two_bit_range p t : 0 <= two_bit p t <= 3.
Proof. unfold two_bit. repeat case_match; lia. Qed.

Lemma branch_update_run (b : bp) (t : bool) :
  bp_ok b -> branch_update (if t then 1 else 0) b = Ret (bp_after b [t]) /\ bp_ok (bp_after b [t]).
Proof.
  intros (Hp & Hc & Hw). destruct b as [p c w c' w']; cbn in Hp, Hc, Hw.
  assert (p = 0 \/ p = 1 \/ p = 2 \/ p = 3) as Hcase by lia.
  split.
  - destruct Hcase as [->|[->|[-> | ->]]]; destruct t; unfold branch_update, bp_after, right, wrong; cbn;
      by rewrite ?Z.add_0_r, ?(u32_small c), ?(u32_small w).
  - split; unfold taken_slots; cbn; [apply two_bit_range|]. split; apply u32_range.
Qed.

Lemma bp_after_cons b t l : bp_after (bp_after b [t]) l = bp_after b (t :: l).
Proof.
  unfold bp_after. cbn [predictor predict_correct predict_wrong branch_predict_correct branch_predict_wrong foldl misses length].
  pose proof (misses_le (two_bit (predictor b) t) l). rewrite !u32_add_l.
  destruct (Bool.eqb (predicts (predictor b)) t); f_equal; f_equal; lia.
Qed.

Lemma branch_trace_run l b last :
  bp_ok b -> exists last', branch_trace l (b, last) = Ret (bp_after b (outcomes last l), last').
Proof.
  revert b last. induction l as [|x l IH]; intros b last Hb.
  - exists last. destruct Hb as (_ & Hc & Hw). destruct b. unfold branch_trace, bp_after; cbn in *.
    by rewrite !Z.add_0_r, !u32_small.
  - cbn [outcomes]. unfold branch_trace. cbn [foldl mbind run_bind branch_set].
    destruct (Z.eqb_spec last COND_SIG) as [->|Hl].
    + destruct (Z.eqb_spec x COND_SIG) as [->|Hx].
      * destruct (branch_update_run b false Hb) as [-> Hb']. cbn [mbind run_bind].
        destruct (IH _ COND_SIG Hb') as [last' E]. exists last'. unfold branch_trace in E. rewrite E.
        cbn [negb]. by rewrite bp_after_cons.
      * destruct (branch_update_run b true Hb) as [-> Hb']. cbn [mbind run_bind].
        destruct (IH _ 0 Hb') as [last' E]. exists last'. unfold branch_trace in E. rewrite E.
        cbn [negb]. rewrite bp_after_cons. do 3 f_equal.
        destruct l as [|y l]; [done|]. cbn [outcomes]. by rewrite (proj2 (Z.eqb_neq x COND_SIG)).
    + apply (IH b x Hb).
Qed.

(** ** Predictor runs *)

Lemma run_taken k : foldl two_bit 3 (replicate k true) = 3 /\ misses 3 (replicate k true) = O.
Proof. induction k as [|k IH]; [done|]. cbn. by destruct IH as [-> ->]. Qed.

Lemma misses_app p l1 l2 : misses p (l1 ++ l2) = (misses p l1 + misses (foldl two_bit p l1) l2)%nat.
Proof. revert p. induction l1 as [|t l1 IH]; intros p; cbn; [done|]. rewrite IH. lia. Qed.

(** A loop: [k] times back, then out. *)
Definition loop_run (k : nat) : list bool := replicate k true ++ [false].

Lemma loop_once k p : 2 <= p <= 3 -> foldl two_bit p (loop_run (S k)) = 2 /\ misses p (loop_run (S k)) = 1%nat.
Proof.
  intros Hp. unfold loop_run. cbn [replicate app foldl misses].
  assert (E : two_bit p true = 3 /\ predicts p = true) by (assert (p = 2 \/ p = 3) as [-> | ->] by lia; done).
  destruct E as [-> ->]. rewrite foldl_app, misses_app. destruct (run_taken k) as [-> ->]. done.
Qed.

Lemma loop_many k m p :
  2 <= p <= 3 -> misses p (concat (replicate m (loop_run (S k)))) = m.
Proof.
  revert p. induction m as [|m IH]; intros p Hp; [done|]. cbn [replicate concat].
  rewrite misses_app. destruct (loop_once k p Hp) as [-> ->]. rewrite IH by lia. done.
Qed.

(** ** The cache ring *)

Definition next_set (k : Z) : Z := if k + 1 =? TRACE_SET then 0 else k + 1.

Lemma next_set_mod k : 0 <= k < TRACE_SET -> next_set k = (k + 1) mod TRACE_SET.
Proof.
  unfold next_set, TRACE_SET. intros Hk. destruct (Z.eqb_spec (k + 1) 500) as [->|]; [done|].
  by rewrite Z.mod_small by lia.
Qed.

Section TraceProof.
Context {A : Type}.

Inductive trace_step : trace A -> trace A -> Prop :=
| trace_put r s s' : cache_ref r s = Ret s' -> trace_step s s'
| trace_get s s' : dinero_step s = Ret s' -> trace_step s s'.

Definition trace_start : trace A := mk_trace ∅ 0 0 0 0 0 [] [].
Inductive trace_reach : trace A -> Prop :=
| tr_start : trace_reach trace_start
| tr_step s s' : trace_reach s -> trace_step s s' -> trace_reach s'.

(** [full]: the counted sets, oldest first; [part]: the set under construction. *)
Record trace_inv (s : trace A) : Prop := {
  ti_used : 0 <= set_used s <= TRACE_SET;
  ti_cset : 0 <= c_set s < TRACE_SET;
  ti_tset : t_set s = (c_set s + set_used s) mod TRACE_SET;
  ti_index : (t_index s < TRACE_QUEUE_SIZE)%nat;
  ti_cindex : (c_index s <= TRACE_QUEUE_SIZE)%nat /\ (set_used s = 0 -> c_index s = O);
  ti_len : forall k, (length (row (rows s) k) <= TRACE_QUEUE_SIZE)%nat;
  ti_refs : exists full part done,
    Z.of_nat (length full) = set_used s /\ length part = t_index s /\
    Forall (fun l => length l = TRACE_QUEUE_SIZE) full /\
    refs_in s = done ++ concat full ++ part /\
    refs_out s = done ++ take (c_index s) (concat full) /\
    take (t_index s) (row (rows s) (t_set s)) = part /\
    forall i l, full !! i = Some l -> row (rows s) ((c_set s + Z.of_nat i) mod TRACE_SET) = l }.

Lemma row_insert (b : gmap Z (list A)) k l j : row (<[k := l]> b) j = if decide (k = j) then l else row b j.
Proof.
  unfold row. case_decide as H; [subst; by rewrite lookup_insert_eq|by rewrite lookup_insert_ne].
Qed.

Lemma trace_inv_start : trace_inv trace_start.
Proof.
  split; cbn; [unfold TRACE_SET; lia|unfold TRACE_SET; lia|done|unfold TRACE_QUEUE_SIZE; lia|
    split; [lia|done]|intros k; unfold row; cbn; rewrite lookup_empty; cbn; lia|].
  exists [], [], []. split; [done|]. split; [done|]. split; [constructor|]. split; [done|]. split; [done|].
  split; [done|]. intros i l. by rewrite lookup_nil.
Qed.

(** The slot row after the store of [r] at [i]. *)
Definition put_row (i : nat) (r : A) (l : list A) : list A := take i l ++ r :: drop (S i) l.

Lemma put_row_take i r l part : take i l = part -> length part = i -> take (S i) (put_row i r l) = part ++ [r].
Proof.
  intros E El. unfold put_row. rewrite E. rewrite take_app_ge by lia.
  by replace (S i - length part)%nat with 1%nat by lia.
Qed.

Lemma put_row_length i r l n : (i < n)%nat -> (length l <= n)%nat -> (length (put_row i r l) <= n)%nat.
Proof. intros. unfold put_row. rewrite length_app, length_take. cbn. rewrite length_drop. lia. Qed.

Lemma trace_inv_put r s s' : trace_inv s -> cache_ref r s = Ret s' -> trace_inv s'.
Proof.
  intros [Hu Hc Ht Hi Hci Hlen (full & part & done & Hf & Hp & Hfl & Hin & Hout & Htk & Hrow)].
  unfold cache_ref. destruct (Z.eqb_spec (set_used s) TRACE_SET) as [|Hne]; [done|].
  fold (put_row (t_index s) r (row (rows s) (t_set s))). set (nr := put_row _ _ _).
  assert (Hnr : take (S (t_index s)) nr = part ++ [r]) by (by apply put_row_take).
  assert (Hlen' : forall k, (length (row (<[t_set s := nr]> (rows s)) k) <= TRACE_QUEUE_SIZE)%nat).
  { intros k. rewrite row_insert. case_decide; [|apply Hlen]. apply put_row_length; [lia|apply Hlen]. }
  assert (Hold : forall i l, full !! i = Some l ->
    row (<[t_set s := nr]> (rows s)) ((c_set s + Z.of_nat i) mod TRACE_SET) = l).
  { intros i l Hil. pose proof (lookup_lt_Some _ _ _ Hil). rewrite row_insert, decide_False; [by apply Hrow|].
    rewrite Ht. apply mod_shift_ne; unfold TRACE_SET in *; lia. }
  destruct (Nat.eqb_spec (S (t_index s)) TRACE_QUEUE_SIZE) as [E|E]; intros [= <-]; split; cbn -[TRACE_SET TRACE_QUEUE_SIZE]; try done; try lia.
  - fold (next_set (t_set s)).
    rewrite next_set_mod, Ht, Zplus_mod_idemp_l by (rewrite Ht; apply Z.mod_pos_bound; done). f_equal. lia.
  - exists (full ++ [part ++ [r]]), [], done.
    rewrite length_app, concat_app, Hin. cbn. rewrite !app_nil_r, <- !app_assoc. split; [lia|]. split; [done|].
    split; [apply Forall_app; split; [done|]; constructor; [rewrite length_app; cbn; lia|constructor]|].
    split; [done|]. split.
    { rewrite Hout. f_equal. destruct full as [|f full].
      - cbn in Hf. destruct Hci as [_ Hz]. rewrite Hz by lia. done.
      - rewrite take_app_le; [done|]. cbn. rewrite length_app. apply Forall_cons in Hfl as [-> _]. lia. }
    split; [done|]. intros i l Hil. destruct (decide (i < length full)%nat).
    + rewrite lookup_app_l in Hil by done. by apply Hold.
    + rewrite lookup_app_r in Hil by lia. destruct (i - length full)%nat eqn:Ei; [|done].
      injection Hil as <-. replace (Z.of_nat i) with (set_used s) by lia. rewrite <- Ht, row_insert, decide_True by done.
      rewrite <- Hnr. rewrite take_ge; [done|]. rewrite E. apply put_row_length; [lia|apply Hlen].
  - exists full, (part ++ [r]), done. rewrite length_app, Hin, <- !app_assoc. cbn.
    split; [done|]. split; [lia|]. split; [done|]. split; [done|]. split; [done|]. split; [|done].
    by rewrite row_insert, decide_True.
Qed.

Lemma trace_inv_get s s' : trace_inv s -> dinero_step s = Ret s' -> trace_inv s'.
Proof.
  intros [Hu Hc Ht Hi Hci Hlen (full & part & done & Hf & Hp & Hfl & Hin & Hout & Htk & Hrow)].
  unfold dinero_step. destruct (Z.ltb_spec 0 (set_used s)) as [Hpos|]; [|done].
  destruct full as [|f full]; [cbn in Hf; lia|]. apply Forall_cons in Hfl as [Hf100 Hfl].
  assert (Hf0 : row (rows s) (c_set s) = f).
  { rewrite <- (Hrow O f eq_refl). f_equal. rewrite Z.add_0_r. symmetry. by apply Z.mod_small. }
  destruct (Nat.eqb_spec (c_index s) TRACE_QUEUE_SIZE) as [E|E].
  - intros [= <-]. fold (next_set (c_set s)). split; cbn -[TRACE_SET TRACE_QUEUE_SIZE]; try done; try lia.
    + rewrite next_set_mod by done. by apply Z.mod_pos_bound.
    + rewrite Ht, next_set_mod, Zplus_mod_idemp_l by done. f_equal. lia.
    + exists full, part, (done ++ f). rewrite Hin, Hout. cbn. rewrite <- !app_assoc. cbn in Hf.
      split; [lia|]. split; [done|]. split; [done|]. split; [done|]. split.
      { rewrite E, <- Hf100, take_app_length. by rewrite take_0, app_nil_r. }
      split; [done|].
      intros i l Hil. rewrite next_set_mod, Zplus_mod_idemp_l by done.
      rewrite <- (Hrow (S i) l Hil). do 2 f_equal. lia.
  - rewrite Hf0. destruct (f !! c_index s) as [r|] eqn:Er; [|done]. intros [= <-].
    split; cbn -[TRACE_SET TRACE_QUEUE_SIZE]; try done; try lia.
    exists (f :: full), part, done. split; [done|]. split; [done|]. split; [by constructor|]. split; [done|].
    split; [|done]. rewrite Hout, <- app_assoc. f_equal. cbn.
    pose proof (lookup_lt_Some _ _ _ Er). rewrite !take_app_le by lia. by erewrite take_S_r.
Qed.

Lemma trace_inv_reach s : trace_reach s -> trace_inv s.
Proof.
  induction 1 as [|s s' _ IH Hs]; [apply trace_inv_start|].
  destruct Hs as [r s s' H|s s' H]; [by eapply trace_inv_put|by eapply trace_inv_get].
Qed.
End TraceProof.

(** ** The properties *)

(** The branch ring is a queue: whatever the interleaving of the CPU thread
    and the worker, what the worker has taken followed by at most 199 items is
    exactly what was put, in order; a waiting item can always be taken, and
    storing before the test of the counter never overwrites one. *)
Theorem branch_ring_fifo b s :
  ring_reach BRANCH_QUEUE_SIZE (BRANCH_QUEUE_SIZE - 1) (Some 33) b s ->
  exists l, put s = got s ++ l /\ Z.of_nat (length l) <= used s <= BRANCH_QUEUE_SIZE - 1 /\
    (r_cons s = CWait -> used s <> 0 -> exists x s', put_event_step s s' /\ got s' = got s ++ [x]).
Proof.
  intros H. apply (ring_inv_reach BRANCH_QUEUE_SIZE (Some 33) ltac:(done)) in H.
  destruct H as [Hu Ht Hh _ (l & Hl & Hlen & Hit)]. unfold taken_slots in *.
  exists l. split; [done|]. split; [destruct (r_cons s); lia|]. intros Hc Hne.
  destruct s as [bf h t u pp c p g]; cbn in *. subst c. destruct l as [|x l]; [cbn in *; lia|].
  assert (Hx : bf !! t = Some x).
  { specialize (Hit O x eq_refl). change (Z.of_nat 0) with 0 in Hit.
    by rewrite !Z.add_0_r, Z.mod_small in Hit by done. }
  exists x. eexists. split; [by apply (ring_take _ _ (Some 33) bf h t u pp p g x)|reflexivity].
Qed.

(** Put 5, put 99, take 5. *)
Theorem branch_ring_fifo_witness :
  exists s l, got s = [5] /\ put s = got s ++ l /\ Z.of_nat (length l) <= used s <= BRANCH_QUEUE_SIZE - 1.
Proof.
  assert (R : ring_reach BRANCH_QUEUE_SIZE (BRANCH_QUEUE_SIZE - 1) (Some 33) ∅
    (mk_ring (<[0 := 33]> (<[1 := 99]> (<[0 := 5]> ∅))) 2 0 2 PReady CTaken [5; 99] [5])).
  { eapply rr_step. 2: { apply (ring_take _ _ (Some 33) _ 2 0 2 PReady [5; 99] [] 5); vm_compute; done. }
    eapply rr_step. 2: { apply (ring_count 200 199 (Some 33) _ 1 0 1 CWait [5] [] 99). done. }
    eapply rr_step. 2: { apply ring_store. }
    eapply rr_step. 2: { apply (ring_count 200 199 (Some 33) _ 0 0 0 CWait [] [] 5). done. }
    eapply rr_step. 2: { apply ring_store. } apply rr_start. }
  destruct (branch_ring_fifo ∅ _ R) as (l & H1 & H2 & _).
  eexists _, l. split; [|split; [exact H1|exact H2]]. reflexivity.
Defined.

(** No memory reference is lost or reordered on the way to the cache
    simulator: what it has been given is a prefix of what the CPU referenced,
    and when no set is waiting it lacks only the references of the set still
    under construction, fewer than 100. *)
Theorem cache_trace_fifo {A} (s : trace A) :
  trace_reach s ->
  exists l, refs_in s = refs_out s ++ l /\
    (set_used s = 0 -> length l = t_index s /\ (length l < TRACE_QUEUE_SIZE)%nat).
Proof.
  intros H. destruct (trace_inv_reach s H)
    as [Hu Hc Ht Hi [Hci Hc0] Hlen (full & part & done & Hf & Hp & _ & Hin & Hout & _)].
  exists (drop (c_index s) (concat full) ++ part). split.
  - rewrite Hin, Hout, <- !app_assoc. f_equal. by rewrite app_assoc, take_drop.
  - intros E. destruct full; [|cbn in Hf; lia]. cbn. rewrite drop_nil. cbn. by rewrite Hp.
Qed.

Theorem cache_trace_fifo_witness :
  exists (s : trace Z) l, refs_in s = refs_out s ++ l /\ length l = 1%nat.
Proof.
  assert (R : trace_reach (mk_trace (<[0 := [7]]> ∅) 0 1 0 0 0 [7] [])).
  { eapply tr_step; [apply tr_start|]. apply (trace_put 7). reflexivity. }
  destruct (cache_trace_fifo _ R) as (l & H1 & H2). destruct (H2 eq_refl) as [H3 _].
  eexists _, l. split; [exact H1|exact H3].
Defined.

(** The predictor's accounting: on any signal trace the worker processes,
    every conditional branch whose successor it has seen is scored exactly once,
    right or wrong against the two-bit machine started in the state the last
    trace left, and the unreachable-state exit is never taken. *)
Theorem branch_trace_counts l b last :
  0 <= predictor b <= 3 -> 0 <= predict_correct b < 2 ^ 32 -> 0 <= predict_wrong b < 2 ^ 32 ->
  exists b' last', branch_trace l (b, last) = Ret (b', last') /\
    predictor b' = foldl two_bit (predictor b) (outcomes last l) /\
    predict_wrong b' = u32 (predict_wrong b + Z.of_nat (misses (predictor b) (outcomes last l))) /\
    u32 (predict_correct b' + predict_wrong b') =
      u32 (predict_correct b + predict_wrong b + Z.of_nat (length (outcomes last l))).
Proof.
  intros Hp Hc Hw. destruct (branch_trace_run l b last (conj Hp (conj Hc Hw))) as [last' E].
  eexists _, last'. split; [exact E|]. split; [done|]. split; [done|].
  unfold bp_after. cbn [predict_correct predict_wrong].
  pose proof (misses_le (predictor b) (outcomes last l)).
  rewrite u32_add_l. unfold u32, wrap. rewrite Zplus_mod_idemp_r. f_equal. lia.
Qed.

Theorem branch_trace_counts_witness :
  exists b' last', branch_trace [99; 5; 99; 5; 99; 99; 5] (mk_bp 0 0 0 0 0, 0) = Ret (b', last') /\
    u32 (predict_correct b' + predict_wrong b') = 4.
Proof.
  destruct (branch_trace_counts [99; 5; 99; 5; 99; 99; 5] (mk_bp 0 0 0 0 0) 0 ltac:(done) ltac:(done) ltac:(done))
    as (b' & last' & E & _ & _ & H).
  exists b', last'. split; [exact E|exact H].
Defined.

(** The predictor's hysteresis: once it predicts taken, a loop branch (taken
    any number of times, at least once, then not) costs exactly one miss per run
    of the loop, however many runs follow. *)
Theorem predictor_loop_misses k m p : 2 <= p <= 3 -> misses p (concat (replicate m (loop_run (S k)))) = m.
Proof. apply loop_many. Qed.

Theorem predictor_loop_misses_witness : misses 3 (concat (replicate 10 (loop_run 5))) = 10%nat.
Proof. apply (predictor_loop_misses 4 10 3). lia. Defined.
