(* ===== verification/Vpmu.v ===== *)
(** * The virtual performance monitoring unit ([hw/vpmu-device.c],
    [target-arm/op_vpmu.c])

    The counters the VPMU keeps of the guest, how the execution of a translated
    block and of a memory access changes them, the timing models that select the
    simulators, and the cycle counts and times computed from them: the clock
    the network device reads.  The counters of one processor mode (the
    [USR_...], [SVC_...] fields and so on of [struct VPMU]) are one record.  The
    statistics of the cache simulator ([Dinero]; [double]s that hold
    integers) are an argument here; [VpmuCache] reads them from the simulator. *)
From Stdlib Require Import Floats.SpecFloat.
From S2P Require Import Prelude Mem Config Timing.

(** ** struct VPMU *)

Record counts := mk_counts { icount : Z; ldst_count : Z; load_count : Z; store_count : Z }.
Definition counts0 : counts := mk_counts 0 0 0 0.

Record VPMU := mk_VPMU {
  USR : counts; SVC : counts; IRQ : counts; sys_call : counts; sys_rest : counts;
  v_ticks : Z; reduce_ticks : Z; v_branch_count : Z; all_changes_to_PC_count : Z;
  additional_icache_access : Z; iomem_test : Z; iomem_qemu : Z;
  netsend_ns : Z; netrecv_ns : Z; netsends : Z; netrecvs : Z;
  timing_register : Z; swi_fired : Z;
  cpu_model : Z; target_cpu_frequency : Z; d4_maxlevel : Z;
  l1_cache_miss_lat : Z; l2_cache_miss_lat : Z }.

(** ** Timing models and simulators *)

Definition TIMING_MODEL_A : Z := Z.shiftl 1 28.
Definition TIMING_MODEL_B : Z := Z.shiftl 2 28.
Definition TIMING_MODEL_C : Z := Z.shiftl 3 28.
Definition TIMING_MODEL_D : Z := Z.shiftl 4 28.
Definition TIMING_MODEL_E : Z := Z.shiftl 5 28.
Definition TIMING_MODEL_F : Z := Z.shiftl 6 28.
Definition TIMING_MODEL_G : Z := Z.shiftl 7 28.

Definition VPMU_INSN_COUNT_SIM : Z := 2 ^ 0.
Definition VPMU_DCACHE_SIM : Z := 2 ^ 1.
Definition VPMU_ICACHE_SIM : Z := 2 ^ 2.
Definition VPMU_BRANCH_SIM : Z := 2 ^ 3.
Definition VPMU_PIPELINE_SIM : Z := 2 ^ 4.
Definition VPMU_SAMPLING : Z := 2 ^ 5.

(** [timing_register |= mask]; the second component: which worker threads are
    woken, the branch predictor's and the cache simulator's. *)
Definition vpmu_simulator_turn_on (reg mask : Z) : Z * (bool * bool) :=
  (Z.lor reg mask,
   (negb (Z.land mask VPMU_BRANCH_SIM =? 0),
    negb (Z.land mask (Z.lor VPMU_DCACHE_SIM VPMU_ICACHE_SIM) =? 0))).

Definition sims (l : list Z) : Z := foldr Z.lor 0 l.

Definition vpmu_model_setup (model : Z) : Z * (bool * bool) :=
  let on l := vpmu_simulator_turn_on model (sims l) in
  if model =? TIMING_MODEL_A then on [VPMU_INSN_COUNT_SIM]
  else if model =? TIMING_MODEL_B then on [VPMU_PIPELINE_SIM]
  else if model =? TIMING_MODEL_C then on [VPMU_PIPELINE_SIM; VPMU_DCACHE_SIM]
  else if model =? TIMING_MODEL_D then on [VPMU_PIPELINE_SIM; VPMU_DCACHE_SIM; VPMU_ICACHE_SIM]
  else if model =? TIMING_MODEL_E then
    on [VPMU_INSN_COUNT_SIM; VPMU_DCACHE_SIM; VPMU_ICACHE_SIM; VPMU_BRANCH_SIM; VPMU_PIPELINE_SIM]
  else if model =? TIMING_MODEL_F then on [VPMU_INSN_COUNT_SIM; VPMU_PIPELINE_SIM]
  else if model =? TIMING_MODEL_G then
    on [VPMU_INSN_COUNT_SIM; VPMU_DCACHE_SIM; VPMU_ICACHE_SIM; VPMU_PIPELINE_SIM]
  else (model, (false, false)).

(** 0 or 1; -1 for an unknown simulator; 0 for the printing request. *)
Definition vpmu_simulator_status (reg opt : Z) : Z :=
  if opt =? 0 then 0
  else if existsb (Z.eqb opt) [VPMU_INSN_COUNT_SIM; VPMU_DCACHE_SIM; VPMU_ICACHE_SIM; VPMU_BRANCH_SIM;
                               VPMU_PIPELINE_SIM; VPMU_SAMPLING]
  then (if Z.land reg opt =? 0 then 0 else 1) else -1.

Definition sim_on (v : VPMU) (opt : Z) : bool := negb (vpmu_simulator_status (timing_register v) opt =? 0).

(** ** The helper that runs with every translated block *)

Definition ARM_CPU_MODE_USR : Z := 0x10.
Definition ARM_CPU_MODE_IRQ : Z := 0x12.
Definition ARM_CPU_MODE_SVC : Z := 0x13.
Definition D4XREAD : Z := 0.
Definition D4XWRITE : Z := 1.
Definition D4XINSTRN : Z := 2.

(** The summary of a block (fields of [struct ExtraTBInfo]). *)
Record tb_info := mk_tb_info {
  tb_insns : Z; tb_loads : Z; tb_stores : Z; tb_branches : Z; tb_pc_changes : Z;
  tb_ticks : Z; tb_reduce : Z; tb_icache_addr : Z; tb_icache_size : Z }.

Definition count_block (t : tb_info) (c : counts) : counts :=
  mk_counts (u64 (icount c + tb_insns t)) (u64 (ldst_count c + (tb_loads t + tb_stores t)))
    (u64 (load_count c + tb_loads t)) (u64 (store_count c + tb_stores t)).

Definition set_counts_of (usr svc irq call rest : counts) (v : VPMU) : VPMU :=
  mk_VPMU usr svc irq call rest (v_ticks v) (reduce_ticks v) (v_branch_count v)
    (all_changes_to_PC_count v) (additional_icache_access v) (iomem_test v) (iomem_qemu v)
    (netsend_ns v) (netrecv_ns v) (netsends v) (netrecvs v) (timing_register v) (swi_fired v)
    (cpu_model v) (target_cpu_frequency v) (d4_maxlevel v) (l1_cache_miss_lat v) (l2_cache_miss_lat v).

(** By processor mode *)
Definition count_mode (mode : Z) (t : tb_info) (v : VPMU) : VPMU :=
  if mode =? ARM_CPU_MODE_USR
  then set_counts_of (count_block t (USR v)) (SVC v) (IRQ v) (sys_call v) (sys_rest v) v
  else if mode =? ARM_CPU_MODE_SVC then
    if swi_fired v =? 1
    then set_counts_of (USR v) (SVC v) (IRQ v) (count_block t (sys_call v)) (sys_rest v) v
    else set_counts_of (USR v) (count_block t (SVC v)) (IRQ v) (sys_call v) (sys_rest v) v
  else if mode =? ARM_CPU_MODE_IRQ
  then set_counts_of (USR v) (SVC v) (count_block t (IRQ v)) (sys_call v) (sys_rest v) v
  else set_counts_of (USR v) (SVC v) (IRQ v) (sys_call v) (count_block t (sys_rest v)) v.

Definition set_pipeline (ticks reduce : Z) (v : VPMU) : VPMU :=
  mk_VPMU (USR v) (SVC v) (IRQ v) (sys_call v) (sys_rest v) ticks reduce (v_branch_count v)
    (all_changes_to_PC_count v) (additional_icache_access v) (iomem_test v) (iomem_qemu v)
    (netsend_ns v) (netrecv_ns v) (netsends v) (netrecvs v) (timing_register v) (swi_fired v)
    (cpu_model v) (target_cpu_frequency v) (d4_maxlevel v) (l1_cache_miss_lat v) (l2_cache_miss_lat v).
Definition set_flow (branches changes : Z) (v : VPMU) : VPMU :=
  mk_VPMU (USR v) (SVC v) (IRQ v) (sys_call v) (sys_rest v) (v_ticks v) (reduce_ticks v) branches
    changes (additional_icache_access v) (iomem_test v) (iomem_qemu v)
    (netsend_ns v) (netrecv_ns v) (netsends v) (netrecvs v) (timing_register v) (swi_fired v)
    (cpu_model v) (target_cpu_frequency v) (d4_maxlevel v) (l1_cache_miss_lat v) (l2_cache_miss_lat v).
Definition set_icache (extra : Z) (v : VPMU) : VPMU :=
  mk_VPMU (USR v) (SVC v) (IRQ v) (sys_call v) (sys_rest v) (v_ticks v) (reduce_ticks v) (v_branch_count v)
    (all_changes_to_PC_count v) extra (iomem_test v) (iomem_qemu v)
    (netsend_ns v) (netrecv_ns v) (netsends v) (netrecvs v) (timing_register v) (swi_fired v)
    (cpu_model v) (target_cpu_frequency v) (d4_maxlevel v) (l1_cache_miss_lat v) (l2_cache_miss_lat v).
Definition set_iomem (test qemu : Z) (v : VPMU) : VPMU :=
  mk_VPMU (USR v) (SVC v) (IRQ v) (sys_call v) (sys_rest v) (v_ticks v) (reduce_ticks v) (v_branch_count v)
    (all_changes_to_PC_count v) (additional_icache_access v) test qemu
    (netsend_ns v) (netrecv_ns v) (netsends v) (netrecvs v) (timing_register v) (swi_fired v)
    (cpu_model v) (target_cpu_frequency v) (d4_maxlevel v) (l1_cache_miss_lat v) (l2_cache_miss_lat v).

(** A reference for the cache simulator: address, access type, size. *)
Definition memref : Type := Z * Z * Z.

(** What HELPER(vpmu_calculate) works on: the VPMU, the static [previous_pc],
    the references sent on to the cache simulator. *)
Definition calc_state : Type := VPMU * Z * list memref.

Definition calc_icache (t : tb_info) (s : calc_state) : calc_state :=
  let '(v, previous_pc, refs) := s in
  if sim_on v VPMU_ICACHE_SIM then
    if previous_pc =? tb_icache_addr t
    then (set_icache (u64 (additional_icache_access v + tb_icache_size t)) v, previous_pc, refs)
    else (v, tb_icache_addr t, refs ++ [(tb_icache_addr t, D4XINSTRN, tb_icache_size t)])
  else s.

Definition calc_pipeline (t : tb_info) (v : VPMU) : VPMU :=
  if sim_on v VPMU_PIPELINE_SIM then
    if cpu_model v =? 0 then set_pipeline (u64 (v_ticks v + tb_ticks t)) (reduce_ticks v) v
    else set_pipeline (u64 (u64 (v_ticks v + tb_ticks t) - tb_reduce t))
           (u64 (reduce_ticks v + tb_reduce t)) v
  else v.

Definition calc_counts (mode : Z) (t : tb_info) (v : VPMU) : VPMU :=
  if sim_on v VPMU_INSN_COUNT_SIM then
    count_mode mode t (set_flow (u64 (v_branch_count v + tb_branches t))
                         (u64 (all_changes_to_PC_count v + tb_pc_changes t)) v)
  else v.

Definition calc_stats (mode : Z) (t : tb_info) (s : calc_state) : calc_state :=
  let '(v, previous_pc, refs) := calc_icache t s in
  (calc_counts mode t (calc_pipeline t v), previous_pc, refs).

(** HELPER(dinero_access): one load or store.  [phys] is
    [cpu_get_phys_page_debug], [preload rw addr] the address of a PLD from the
    CPU's registers. *)
Definition dinero_access (VPMU_enabled : bool) (phys preload : Z -> Z) (addr rw size : Z) (s : VPMU * list memref)
  : VPMU * list memref :=
  let '(v, refs) := s in
  if VPMU_enabled && sim_on v VPMU_DCACHE_SIM then
    let '(addr, rw) := if rw =? 0xff then (preload addr, D4XREAD) else (addr, rw) in
    let addr := if cpu_model v =? 1 then phys addr else addr in
    if iomem_test v =? 1 then (set_iomem 0 (u64 (iomem_qemu v + 1)) v, refs)
    else (v, refs ++ [(addr, rw, size)])
  else s.

(** ** The totals *)

Definition vpmu_total_insn_count (v : VPMU) : Z :=
  u64 (icount (USR v) + icount (SVC v) + icount (sys_call v) + icount (sys_rest v)).
Definition total5 (f : counts -> Z) (v : VPMU) : Z :=
  u64 (f (USR v) + f (SVC v) + f (IRQ v) + f (sys_call v) + f (sys_rest v)).
Definition vpmu_total_load_count : VPMU -> Z := total5 load_count.
Definition vpmu_total_store_count : VPMU -> Z := total5 store_count.
Definition vpmu_total_ldst_count : VPMU -> Z := total5 ldst_count.

(** ** The cache statistics and the cycle counts *)

Section Cycles.
(** [d4_levcache[idu][lev]->miss[type]] and [->fetch[type]] *)
Context (miss fetch : Z -> Z -> Z -> Z).

Definition vpmu_L1_dcache_access_count : Z := u64 (fetch 2 0 D4XREAD + fetch 2 0 D4XWRITE).
Definition vpmu_L1_dcache_miss_count : Z := u64 (miss 2 0 D4XREAD + miss 2 0 D4XWRITE).
Definition vpmu_L1_dcache_read_miss_count : Z := u64 (miss 2 0 D4XREAD).
Definition vpmu_L1_dcache_write_miss_count : Z := u64 (miss 2 0 D4XWRITE).
Definition vpmu_L2_dcache_access_count : Z := u64 (fetch 0 1 D4XREAD + fetch 0 1 D4XWRITE).
Definition vpmu_L2_dcache_miss_count : Z := u64 (miss 0 1 D4XREAD + miss 0 1 D4XWRITE).
Definition vpmu_L2_dcache_read_miss_count : Z := u64 (miss 0 1 D4XREAD).
Definition vpmu_L2_dcache_write_miss_count : Z := u64 (fetch 0 1 D4XWRITE).
Definition vpmu_L1_icache_access_count (v : VPMU) : Z := u64 (fetch 1 0 D4XINSTRN + additional_icache_access v).
Definition vpmu_L1_icache_miss_count : Z := u64 (miss 1 0 D4XINSTRN).

(** [timing_register & (0xf << 28)] *)
Definition model_of (v : VPMU) : Z := Z.land (timing_register v) (Z.shiftl 0xf 28).

Definition vpmu_cycle_count (v : VPMU) : Z :=
  let m := model_of v in
  let l2 := if 1 <? d4_maxlevel v then vpmu_L2_dcache_miss_count else 0 in
  let '(L1_nowMiss, L2_nowMiss) :=
    if m =? TIMING_MODEL_C then (vpmu_L1_dcache_miss_count, l2)
    else if (m =? TIMING_MODEL_D) || (m =? TIMING_MODEL_E) || (m =? TIMING_MODEL_F) || (m =? TIMING_MODEL_G)
    then (u64 (vpmu_L1_dcache_miss_count + vpmu_L1_icache_miss_count), l2)
    else (0, 0) in
  u64 (v_ticks v + u64 (L1_nowMiss + iomem_qemu v) * l1_cache_miss_lat v + L2_nowMiss * l2_cache_miss_lat v).

Definition vpmu_pipeline_cycle_count (v : VPMU) : Z := v_ticks v.
Definition vpmu_io_memory_access_cycle_count (v : VPMU) : Z := u64 (iomem_qemu v * l1_cache_miss_lat v).
Definition vpmu_sys_memory_access_cycle_count (v : VPMU) : Z :=
  let l1 := u64 (vpmu_L1_dcache_miss_count + vpmu_L1_icache_miss_count) in
  if cpu_model v =? 1
  then u64 (l1 * l1_cache_miss_lat v + vpmu_L2_dcache_miss_count * l2_cache_miss_lat v)
  else u64 (l1 * l1_cache_miss_lat v).

(** ** Estimated times: cycles by [target_cpu_frequency / 1000.0], in doubles *)

Definition cycles_to_ns (v : VPMU) (cycles : Z) : option Z :=
  to_uint64 (ddiv (dZ cycles) (ddiv (dZ (target_cpu_frequency v)) (dZ 1000))).

Definition vpmu_estimated_pipeline_execution_time_ns (v : VPMU) : option Z :=
  cycles_to_ns v (vpmu_pipeline_cycle_count v).
Definition vpmu_estimated_io_memory_access_time_ns (v : VPMU) : option Z :=
  cycles_to_ns v (vpmu_io_memory_access_cycle_count v).
Definition vpmu_estimated_sys_memory_access_time_ns (v : VPMU) : option Z :=
  cycles_to_ns v (vpmu_sys_memory_access_cycle_count v).
Definition vpmu_estimated_network_execution_time_ns (v : VPMU) : Z := u64 (netsend_ns v + netrecv_ns v).

Definition vpmu_estimated_execution_time_ns (v : VPMU) : option Z :=
  p ← vpmu_estimated_pipeline_execution_time_ns v;
  i ← vpmu_estimated_io_memory_access_time_ns v;
  m ← vpmu_estimated_sys_memory_access_time_ns v;
  Some (u64 (p + i + vpmu_estimated_network_execution_time_ns v + m)).
End Cycles.

(** ** The OProfile counter PMN0 *)

Record pmu := mk_pmu { pmn0 : Z; pmn_reset : Z; inten : Z; pmnc : Z; pmu_flag : Z }.

(** [cur_value] is what [vpmu_hardware_event_select] gives; the second component
    is whether the interrupt is raised. *)
Definition vpmu_perf_counter_overflow_testing (cur_value : Z) (s : pmu) : pmu * bool :=
  let vpmu_value_inteval := u32 (cur_value - pmn_reset s) in
  let vir_value_interval := u32 (0xFFFFFFFF - pmn0 s) in
  if vir_value_interval <? vpmu_value_inteval then
    let irq := negb (Z.land (inten s) 2 =? 0) && negb (Z.land (pmnc s) 1 =? 0) in
    (mk_pmu (pmn0 s) cur_value (inten s) (pmnc s) (if irq then Z.lor (pmu_flag s) 2 else pmu_flag s), irq)
  else (s, false).

(** The interrupt is lowered once the flag was cleared. *)
Definition vpmu_perf_counter_overflow_handled (s : pmu) : bool :=
  negb (Z.land (inten s) 2 =? 0) && (Z.land (pmu_flag s) 2 =? 0).

(** ** VPMU_reset: the part of the state the model has (the configuration is
    read again from the file afterwards). *)
Definition VPMU_reset (v : VPMU) : VPMU :=
  mk_VPMU counts0 counts0 counts0 counts0 counts0 0 0 0 0 0 0 0 0 0 0 0 0 0
    (cpu_model v) (target_cpu_frequency v) (d4_maxlevel v) (l1_cache_miss_lat v) (l2_cache_miss_lat v).

(** ** The network's view of the clock *)

(** [*m2m_localtime = vpmu_estimated_execution_time_ns()] at the end of
    [vpmu_calculate], while [vpmu_trigger] is set; [None] where the conversion of
    the time is undefined. *)
Definition calc_localtime (miss : Z -> Z -> Z -> Z) (vpmu_trigger cell : Z) (v : VPMU) (m : mem) : option mem :=
  if vpmu_trigger =? 0 then Some m
  else t ← vpmu_estimated_execution_time_ns miss v; Some (store64 m cell t).

(** HELPER(vpmu_calculate), all of it: [miss] is what the cache simulator has
    counted by then, [cell] the device's clock cell of the segment. *)
Definition vpmu_calculate (VPMU_enabled : bool) (miss : Z -> Z -> Z -> Z) (vpmu_trigger cell mode : Z)
    (t : tb_info) (sm : calc_state * mem) : option (calc_state * mem) :=
  let '(s, m) := sm in
  if VPMU_enabled then
    let s := calc_stats mode t s in
    m ← calc_localtime miss vpmu_trigger cell s.1.1 m; Some (s, m)
  else Some (s, m).

(** [GlobalVPMU.netsend_qemu += x] and [netrecv_qemu += x] *)
Definition set_net (send recv sends recvs : Z) (v : VPMU) : VPMU :=
  mk_VPMU (USR v) (SVC v) (IRQ v) (sys_call v) (sys_rest v) (v_ticks v) (reduce_ticks v) (v_branch_count v)
    (all_changes_to_PC_count v) (additional_icache_access v) (iomem_test v) (iomem_qemu v)
    send recv sends recvs (timing_register v) (swi_fired v)
    (cpu_model v) (target_cpu_frequency v) (d4_maxlevel v) (l1_cache_miss_lat v) (l2_cache_miss_lat v).
Definition vpmu_netsend (x : Z) (v : VPMU) : VPMU :=
  set_net (u64 (netsend_ns v + x)) (netrecv_ns v) (netsends v) (netrecvs v) v.
Definition vpmu_netrecv (x : Z) (v : VPMU) : VPMU :=
  set_net (netsend_ns v) (u64 (netrecv_ns v + x)) (netsends v) (netrecvs v) v.

(** The abstract clock of [Timing] that a VPMU implements. *)
Definition clock_of (miss : Z -> Z -> Z -> Z) (v : VPMU) : option clock :=
  p ← vpmu_estimated_pipeline_execution_time_ns v;
  i ← vpmu_estimated_io_memory_access_time_ns v;
  m ← vpmu_estimated_sys_memory_access_time_ns miss v;
  Some (mk_clock (u64 (p + i + m)) (netsend_ns v) (netrecv_ns v) (netsends v) (netrecvs v)).

(** ** Reference behaviour of the overflow test

    The guest programs PMN0 with [2 ^ 32 - interval]; the events are counted
    without bound, and an interrupt is due as soon as [interval] of them were
    seen since the last one. *)
Fixpoint overflow_ref (interval base : Z) (ts : list Z) : list bool :=
  match ts with
  | [] => []
  | t :: ts' =>
      if interval <=? t - base then true :: overflow_ref interval t ts' else false :: overflow_ref interval base ts'
  end.

(** The test run on each of the values [vpmu_hardware_event_select] gives. *)
Fixpoint overflow_run (cur : list Z) (s : pmu) : list bool :=
  match cur with
  | [] => []
  | c :: cur' =>
      let '(s', irq) := vpmu_perf_counter_overflow_testing c s in irq :: overflow_run cur' s'
  end.

(** No more than [gap] events between two tests. *)
Fixpoint gaps_ok (gap last : Z) (ts : list Z) : Prop :=
  match ts with [] => True | t :: ts' => last <= t <= last + gap /\ gaps_ok gap t ts' end.

(** ** Helper lemmas *)

Lemma total5_wrap f v : u64 (total5 f v) = total5 f v.
Proof. apply u64_idem. Qed.

Lemma set_flow_sim b c v o : sim_on (set_flow b c v) o = sim_on v o.
Proof. done. Qed.

Lemma count_mode_sim mode t v o : sim_on (count_mode mode t v) o = sim_on v o.
Proof. unfold count_mode. by repeat case_match. Qed.

Lemma calc_pipeline_sim t v o : sim_on (calc_pipeline t v) o = sim_on v o.
Proof. unfold calc_pipeline. by repeat case_match. Qed.

Lemma calc_icache_frame t s :
  let v := s.1.1 in let v' := (calc_icache t s).1.1 in
  (forall o, sim_on v' o = sim_on v o) /\ USR v' = USR v /\ SVC v' = SVC v /\ IRQ v' = IRQ v /\
  sys_call v' = sys_call v /\ sys_rest v' = sys_rest v.
Proof. destruct s as [[v pc] refs]. unfold calc_icache. by repeat case_match. Qed.

(** Every mode's counters of one kind, moved by what a block adds. *)
Definition shifts (f : counts -> Z) (x : tb_info -> Z) : Prop :=
  forall t c, f (count_block t c) = u64 (f c + x t).

Lemma shifts_icount : shifts icount tb_insns.
Proof. done. Qed.
Lemma shifts_ldst : shifts ldst_count (fun t => tb_loads t + tb_stores t).
Proof. done. Qed.
Lemma shifts_load : shifts load_count tb_loads.
Proof. done. Qed.
Lemma shifts_store : shifts store_count tb_stores.
Proof. done. Qed.

Lemma u64_congr x y : x mod 2 ^ 64 = y mod 2 ^ 64 -> u64 x = u64 y.
Proof. done. Qed.

Lemma u64_swap x y z : u64 (x + u64 y + z) = u64 (x + y + z).
Proof.
  rewrite <- (u64_add_l (x + u64 y)), u64_add_r, u64_add_l. done.
Qed.

Lemma total5_count f x mode t v :
  shifts f x -> total5 f (count_mode mode t v) = u64 (total5 f v + x t).
Proof.
  intros Hf. unfold count_mode, total5. rewrite u64_add_l.
  destruct (mode =? ARM_CPU_MODE_USR); [|destruct (mode =? ARM_CPU_MODE_SVC);
    [destruct (swi_fired v =? 1)|destruct (mode =? ARM_CPU_MODE_IRQ)]];
    cbn [USR SVC IRQ sys_call sys_rest set_counts_of]; rewrite Hf.
  - rewrite <- !Z.add_assoc, u64_add_l. f_equal. lia.
  - rewrite u64_swap. f_equal. lia.
  - rewrite <- 2Z.add_assoc, u64_swap. f_equal. lia.
  - rewrite <- Z.add_assoc, u64_swap. f_equal. lia.
  - rewrite u64_add_r. f_equal. lia.
Qed.

Lemma total_insn_count_mode mode t v :
  vpmu_total_insn_count (count_mode mode t v) =
  u64 (vpmu_total_insn_count v + (if mode =? ARM_CPU_MODE_IRQ then 0 else tb_insns t)).
Proof.
  unfold count_mode, vpmu_total_insn_count. rewrite u64_add_l.
  destruct (Z.eqb_spec mode ARM_CPU_MODE_IRQ) as [->|Hne].
  - cbn. by rewrite Z.add_0_r.
  - destruct (mode =? ARM_CPU_MODE_USR); [|destruct (mode =? ARM_CPU_MODE_SVC); [destruct (swi_fired v =? 1)|]];
      cbn [USR SVC IRQ sys_call sys_rest set_counts_of icount count_block].
    + rewrite <- !Z.add_assoc, u64_add_l. f_equal. lia.
    + rewrite u64_swap. f_equal. lia.
    + rewrite <- Z.add_assoc, u64_swap. f_equal. lia.
    + rewrite u64_add_r. f_equal. lia.
Qed.

(** The counting of one block, seen from the totals. *)
Lemma calc_stats_totals mode t s :
  sim_on s.1.1 VPMU_INSN_COUNT_SIM = true ->
  let v := s.1.1 in let v' := (calc_stats mode t s).1.1 in
  sim_on v' VPMU_INSN_COUNT_SIM = true /\
  (forall f x, shifts f x -> total5 f v' = u64 (total5 f v + x t)) /\
  vpmu_total_insn_count v' =
    u64 (vpmu_total_insn_count v + (if mode =? ARM_CPU_MODE_IRQ then 0 else tb_insns t)).
Proof.
  intros Hsim. cbv zeta. unfold calc_stats.
  pose proof (calc_icache_frame t s) as (Hs & E1 & E2 & E3 & E4 & E5). cbv zeta in *.
  destruct (calc_icache t s) as [[v1 pc1] refs1]. cbn [fst] in *.
  assert (Hsim1 : sim_on (calc_pipeline t v1) VPMU_INSN_COUNT_SIM = true) by (by rewrite calc_pipeline_sim, Hs).
  unfold calc_counts. rewrite Hsim1.
  assert (Ep : forall f, total5 f (calc_pipeline t v1) = total5 f (fst (fst s))).
  { intros f. unfold calc_pipeline, total5. destruct (sim_on v1 _); [destruct (cpu_model v1 =? 0)|];
      cbn; by rewrite E1, E2, E3, E4, E5. }
  assert (Ei : vpmu_total_insn_count (calc_pipeline t v1) = vpmu_total_insn_count (fst (fst s))).
  { unfold calc_pipeline, vpmu_total_insn_count. destruct (sim_on v1 _); [destruct (cpu_model v1 =? 0)|];
      cbn; by rewrite E1, E2, E4, E5. }
  split; [|split].
  - by rewrite count_mode_sim.
  - intros f x Hf. rewrite (total5_count f x) by done. by rewrite <- Ep.
  - rewrite total_insn_count_mode. by rewrite <- Ei.
Qed.

(** Blocks run one after the other: the processor mode, the block, and what the
    cache simulator has counted when it is accounted. *)
Definition block : Type := Z * tb_info * (Z -> Z -> Z -> Z).
Definition blk_mode (b : block) : Z := b.1.1.
Definition blk_info (b : block) : tb_info := b.1.2.

Fixpoint run_blocks (trigger cell : Z) (l : list block) (sm : calc_state * mem) : option (calc_state * mem) :=
  match l with
  | [] => Some sm
  | b :: l' =>
      sm ← vpmu_calculate true b.2 trigger cell (blk_mode b) (blk_info b) sm; run_blocks trigger cell l' sm
  end.
Definition sum_of {A} (f : A -> Z) (l : list A) : Z := foldr Z.add 0 (map f l).

Lemma vpmu_calculate_stats miss trigger cell mode t s m s' m' :
  vpmu_calculate true miss trigger cell mode t (s, m) = Some (s', m') ->
  s' = calc_stats mode t s /\ calc_localtime miss trigger cell s'.1.1 m = Some m'.
Proof.
  unfold vpmu_calculate. destruct (calc_localtime _ _ _ _ m) as [m1|] eqn:E; cbn; [|done].
  intros [= <- <-]. done.
Qed.

Lemma run_blocks_totals trigger cell l s m s' m' :
  sim_on s.1.1 VPMU_INSN_COUNT_SIM = true -> run_blocks trigger cell l (s, m) = Some (s', m') ->
  let v := s.1.1 in let v' := s'.1.1 in
  (forall f x, shifts f x -> total5 f v' = u64 (total5 f v + sum_of (fun b => x (blk_info b)) l)) /\
  vpmu_total_insn_count v' = u64 (vpmu_total_insn_count v +
    sum_of (fun b => if blk_mode b =? ARM_CPU_MODE_IRQ then 0 else tb_insns (blk_info b)) l).
Proof.
  revert s m. induction l as [|b l IH]; intros s m Hs; cbn [run_blocks].
  - intros [= <- <-]. cbv zeta. unfold sum_of; cbn.
    split; intros; rewrite Z.add_0_r; symmetry; [apply total5_wrap|apply u64_idem].
  - destruct (vpmu_calculate _ _ _ _ _ _ _) as [[s1 m1]|] eqn:E; cbn [mbind option_bind]; [|done]. intros Hr.
    destruct (vpmu_calculate_stats _ _ _ _ _ _ _ _ _ E) as [-> _].
    destruct (calc_stats_totals (blk_mode b) (blk_info b) s Hs) as (H1 & H2 & H3). cbv zeta in *.
    destruct (IH _ _ H1 Hr) as [I1 I2]. cbv zeta in *. split.
    + intros f x Hf. rewrite (I1 f x Hf), (H2 f x Hf), u64_add_l. unfold sum_of; cbn [map foldr].
      f_equal. lia.
    + rewrite I2, H3, u64_add_l. unfold sum_of; cbn [map foldr]. f_equal. lia.
Qed.

Lemma calc_stats_net mode t s :
  netsend_ns (calc_stats mode t s).1.1 = netsend_ns s.1.1 /\ netrecv_ns (calc_stats mode t s).1.1 = netrecv_ns s.1.1 /\
  netsends (calc_stats mode t s).1.1 = netsends s.1.1 /\ netrecvs (calc_stats mode t s).1.1 = netrecvs s.1.1.
Proof.
  unfold calc_stats. destruct s as [[v pc] refs]. unfold calc_icache.
  repeat case_match; simplify_eq; cbn; unfold calc_counts, calc_pipeline, count_mode; repeat case_match; done.
Qed.

Lemma clock_of_time miss v :
  vpmu_estimated_execution_time_ns miss v = option_map get_vpmu_time (clock_of miss v).
Proof.
  unfold vpmu_estimated_execution_time_ns, clock_of, vpmu_estimated_network_execution_time_ns.
  destruct (vpmu_estimated_pipeline_execution_time_ns v) as [p|]; [|done].
  destruct (vpmu_estimated_io_memory_access_time_ns v) as [i|]; [|done].
  destruct (vpmu_estimated_sys_memory_access_time_ns miss v) as [m|]; [|done]. cbn.
  unfold get_vpmu_time; cbn. f_equal. rewrite u64_swap, u64_add_l. f_equal. lia.
Qed.

Lemma clock_of_net miss v c :
  clock_of miss v = Some c ->
  netsend_qemu c = netsend_ns v /\ netrecv_qemu c = netrecv_ns v /\
  netsend_count c = netsends v /\ netrecv_count c = netrecvs v.
Proof.
  unfold clock_of. destruct (vpmu_estimated_pipeline_execution_time_ns v); [|done].
  destruct (vpmu_estimated_io_memory_access_time_ns v); [|done].
  destruct (vpmu_estimated_sys_memory_access_time_ns miss v); [|done]. by intros [= <-].
Qed.

(** Only the cycle counters and the configuration matter to the CPU's part. *)
Lemma clock_of_set_net a b c d miss v k :
  clock_of miss v = Some k ->
  clock_of miss (set_net a b c d v) = Some (mk_clock (cpu_ns k) a b c d).
Proof.
  unfold clock_of.
  change (vpmu_estimated_pipeline_execution_time_ns (set_net a b c d v)) with (vpmu_estimated_pipeline_execution_time_ns v).
  change (vpmu_estimated_io_memory_access_time_ns (set_net a b c d v)) with (vpmu_estimated_io_memory_access_time_ns v).
  change (vpmu_estimated_sys_memory_access_time_ns miss (set_net a b c d v)) with
    (vpmu_estimated_sys_memory_access_time_ns miss v).
  destruct (vpmu_estimated_pipeline_execution_time_ns v); [|done].
  destruct (vpmu_estimated_io_memory_access_time_ns v); [|done].
  destruct (vpmu_estimated_sys_memory_access_time_ns miss v); [|done]. by intros [= <-].
Qed.

Lemma clock_of_netsend x miss v c :
  clock_of miss v = Some c -> clock_of miss (vpmu_netsend x v) = Some (add_netsend x c).
Proof.
  intros Hc. unfold vpmu_netsend. rewrite (clock_of_set_net _ _ _ _ _ _ _ Hc).
  unfold add_netsend. by destruct (clock_of_net _ _ _ Hc) as (-> & -> & -> & ->).
Qed.

Lemma clock_of_netrecv x miss v c :
  clock_of miss v = Some c -> clock_of miss (vpmu_netrecv x v) = Some (add_netrecv x c).
Proof.
  intros Hc. unfold vpmu_netrecv. rewrite (clock_of_set_net _ _ _ _ _ _ _ Hc).
  unfold add_netrecv. by destruct (clock_of_net _ _ _ Hc) as (-> & -> & -> & ->).
Qed.

Lemma u32_diff t b : 0 <= t - b < 2 ^ 32 -> u32 (u32 t - u32 b) = t - b.
Proof. intros H. unfold u32, wrap. by rewrite <- Zminus_mod, Z.mod_small. Qed.

Lemma overflow_run_ref ts s base last :
  0 <= pmn0 s < 2 ^ 32 -> Z.land (inten s) 2 <> 0 -> Z.land (pmnc s) 1 <> 0 ->
  pmn_reset s = u32 base -> 0 <= last - base < 2 ^ 32 - pmn0 s -> gaps_ok (pmn0 s) last ts ->
  overflow_run (map u32 ts) s = overflow_ref (2 ^ 32 - pmn0 s) base ts.
Proof.
  intros Hp Hi Hc. revert s base last Hp Hi Hc.
  induction ts as [|t ts IH]; intros s base last Hp Hi Hc Hr Hl Hg; [done|].
  destruct Hg as [Ht Hg]. cbn [map overflow_run overflow_ref].
  unfold vpmu_perf_counter_overflow_testing. rewrite Hr, u32_diff by lia.
  rewrite (u32_small (0xFFFFFFFF - _)) by lia.
  destruct (Z.ltb_spec (0xFFFFFFFF - pmn0 s) (t - base)); destruct (Z.leb_spec (2 ^ 32 - pmn0 s) (t - base)); try lia.
  - rewrite (proj2 (Z.eqb_neq _ _) Hi), (proj2 (Z.eqb_neq _ _) Hc). cbn [negb andb]. f_equal.
    apply (IH (mk_pmu _ _ _ _ _) t t); cbn; [done..|lia|done].
  - f_equal. by apply (IH s base t); [..|lia|].
Qed.

(** ** The properties *)

(** The models and the simulators each turns on. *)
Definition model_sims : list (Z * list Z) :=
  [(TIMING_MODEL_A, [VPMU_INSN_COUNT_SIM]);
   (TIMING_MODEL_B, [VPMU_PIPELINE_SIM]);
   (TIMING_MODEL_C, [VPMU_PIPELINE_SIM; VPMU_DCACHE_SIM]);
   (TIMING_MODEL_D, [VPMU_PIPELINE_SIM; VPMU_DCACHE_SIM; VPMU_ICACHE_SIM]);
   (TIMING_MODEL_E, [VPMU_PIPELINE_SIM; VPMU_DCACHE_SIM; VPMU_ICACHE_SIM; VPMU_INSN_COUNT_SIM; VPMU_BRANCH_SIM]);
   (TIMING_MODEL_F, [VPMU_PIPELINE_SIM; VPMU_INSN_COUNT_SIM]);
   (TIMING_MODEL_G, [VPMU_PIPELINE_SIM; VPMU_DCACHE_SIM; VPMU_ICACHE_SIM; VPMU_INSN_COUNT_SIM])].
Definition all_sims : list Z :=
  [VPMU_INSN_COUNT_SIM; VPMU_DCACHE_SIM; VPMU_ICACHE_SIM; VPMU_BRANCH_SIM; VPMU_PIPELINE_SIM; VPMU_SAMPLING].

(** Setting up a timing model turns on exactly its simulators, as
    [vpmu_simulator_status] reports them, keeps the model readable from the
    register, and wakes a worker thread exactly when a simulator it serves is on. *)
Theorem vpmu_model_setup_status model on s :
  (model, on) ∈ model_sims -> s ∈ all_sims ->
  let '(reg, (branch, cache)) := vpmu_model_setup model in
  vpmu_simulator_status reg s = (if existsb (Z.eqb s) on then 1 else 0) /\
  Z.land reg (Z.shiftl 0xf 28) = model /\
  branch = existsb (Z.eqb VPMU_BRANCH_SIM) on /\
  cache = existsb (Z.eqb VPMU_DCACHE_SIM) on || existsb (Z.eqb VPMU_ICACHE_SIM) on.
Proof.
  unfold model_sims, all_sims. intros Hm Hs.
  repeat (apply elem_of_cons in Hs as [->|Hs]); [..|by apply not_elem_of_nil in Hs];
    (repeat (apply elem_of_cons in Hm as [Hm|Hm]; [injection Hm as -> ->|]);
     [..|by apply not_elem_of_nil in Hm]); vm_compute; done.
Qed.

Theorem vpmu_model_setup_status_witness :
  vpmu_simulator_status (fst (vpmu_model_setup TIMING_MODEL_D)) VPMU_ICACHE_SIM = 1.
Proof.
  assert (H1 : (TIMING_MODEL_D, [VPMU_PIPELINE_SIM; VPMU_DCACHE_SIM; VPMU_ICACHE_SIM]) ∈ model_sims)
    by (apply elem_of_list_here || (do 3 apply list_elem_of_further; apply list_elem_of_here)).
  assert (H2 : VPMU_ICACHE_SIM ∈ all_sims) by (do 2 apply list_elem_of_further; apply list_elem_of_here).
  exact (proj1 (vpmu_model_setup_status _ _ _ H1 H2)).
Defined.

(** The instruction statistics: with counting on, after any sequence of
    blocks in any processor modes, the load and store totals have grown by
    exactly what the blocks contain and [ldst] by the sum of both.  The
    instruction total has grown only by the blocks outside IRQ mode:
    [vpmu_total_insn_count] leaves [IRQ_icount] out, unlike the other totals. *)
Theorem instruction_totals trigger cell l s m s' m' :
  sim_on s.1.1 VPMU_INSN_COUNT_SIM = true -> run_blocks trigger cell l (s, m) = Some (s', m') ->
  let v := s.1.1 in let v' := s'.1.1 in
  vpmu_total_load_count v' = u64 (vpmu_total_load_count v + sum_of (fun b => tb_loads (blk_info b)) l) /\
  vpmu_total_store_count v' = u64 (vpmu_total_store_count v + sum_of (fun b => tb_stores (blk_info b)) l) /\
  vpmu_total_ldst_count v' = u64 (vpmu_total_ldst_count v +
    sum_of (fun b => tb_loads (blk_info b) + tb_stores (blk_info b)) l) /\
  vpmu_total_insn_count v' = u64 (vpmu_total_insn_count v +
    sum_of (fun b => if blk_mode b =? ARM_CPU_MODE_IRQ then 0 else tb_insns (blk_info b)) l).
Proof.
  intros Hs Hr. destruct (run_blocks_totals trigger cell l s m s' m' Hs Hr) as [H1 H2]. cbv zeta in *.
  split; [apply H1, shifts_load|]. split; [apply H1, shifts_store|].
  split; [exact (H1 ldst_count (fun t => tb_loads t + tb_stores t) shifts_ldst)|exact H2].
Qed.

Definition vpmu0 (model : Z) : VPMU :=
  mk_VPMU counts0 counts0 counts0 counts0 counts0 0 0 0 0 0 0 0 0 0 0 0 (fst (vpmu_model_setup model)) 0
    1 1000 2 10 100.
Definition no_miss : Z -> Z -> Z -> Z := fun _ _ _ => 0.

(** A user block, then an interrupt handler's: its 7 instructions are missing. *)
Definition demo_blocks : list block :=
  [(ARM_CPU_MODE_USR, mk_tb_info 20 3 2 1 1 30 4 4096 80, no_miss);
   (ARM_CPU_MODE_IRQ, mk_tb_info 7 1 1 0 0 9 0 8192 28, no_miss)].
Theorem instruction_totals_witness :
  exists s' m', run_blocks 77 800 demo_blocks (vpmu0 TIMING_MODEL_E, 0, [], ∅) = Some (s', m') /\
    vpmu_total_load_count s'.1.1 = 4 /\ vpmu_total_insn_count s'.1.1 = 20.
Proof.
  assert (H : sim_on (vpmu0 TIMING_MODEL_E) VPMU_INSN_COUNT_SIM = true) by (vm_compute; reflexivity).
  destruct (run_blocks 77 800 demo_blocks (vpmu0 TIMING_MODEL_E, 0, [], ∅)) as [[s' m']|] eqn:E;
    [|vm_compute in E; discriminate].
  exists s', m'. split; [reflexivity|].
  destruct (instruction_totals 77 800 demo_blocks (vpmu0 TIMING_MODEL_E, 0, []) ∅ s' m' H E) as (H1 & _ & _ & H4).
  split; [exact H1|exact H4].
Defined.

(** The cycle count adds up: in the timing models D to G, with the
    two-level cache of CPU model 1, [vpmu_cycle_count] is the sum of the
    pipeline, system memory and I/O cycle counts that the time estimate is built
    from; in the models A and B it is that sum less the memory cycles, which the
    time estimate adds all the same. *)
Theorem cycle_count_sum miss v :
  cpu_model v = 1 -> 1 < d4_maxlevel v ->
  (model_of v ∈ [TIMING_MODEL_D; TIMING_MODEL_E; TIMING_MODEL_F; TIMING_MODEL_G] ->
   vpmu_cycle_count miss v =
     u64 (vpmu_pipeline_cycle_count v + vpmu_sys_memory_access_cycle_count miss v +
          vpmu_io_memory_access_cycle_count v)) /\
  (model_of v ∈ [TIMING_MODEL_A; TIMING_MODEL_B] ->
   vpmu_cycle_count miss v = u64 (vpmu_pipeline_cycle_count v + vpmu_io_memory_access_cycle_count v)).
Proof.
  intros Hcpu Hlev. unfold vpmu_cycle_count, vpmu_sys_memory_access_cycle_count,
    vpmu_io_memory_access_cycle_count, vpmu_pipeline_cycle_count.
  rewrite Hcpu, (proj2 (Z.ltb_lt _ _) Hlev), Z.eqb_refl.
  split; intros Hm; repeat (apply elem_of_cons in Hm as [->|Hm]; [simpl; u64_ring|]);
    by apply not_elem_of_nil in Hm.
Qed.

Theorem cycle_count_sum_witness :
  let miss i l t := 100 * i + 10 * l + t + 1 in
  let v := mk_VPMU counts0 counts0 counts0 counts0 counts0 5000 0 0 0 0 0 7 0 0 0 0
             (fst (vpmu_model_setup TIMING_MODEL_D)) 0 1 1000 2 10 100 in
  vpmu_cycle_count miss v = u64 (5000 + vpmu_sys_memory_access_cycle_count miss v + 70).
Proof.
  intros miss v.
  assert (H1 : cpu_model v = 1) by reflexivity.
  assert (H2 : 1 < d4_maxlevel v) by (vm_compute; reflexivity).
  assert (E : model_of v = TIMING_MODEL_D) by (vm_compute; reflexivity).
  assert (H3 : model_of v ∈ [TIMING_MODEL_D; TIMING_MODEL_E; TIMING_MODEL_F; TIMING_MODEL_G])
    by (rewrite E; apply list_elem_of_here).
  exact (proj1 (cycle_count_sum miss v H1 H2) H3).
Defined.

(** The overflow interrupt: while PMN0's interrupt and the counters are
    enabled, the 32-bit test raises it at exactly the tests at which the
    interval [2 ^ 32 - pmn0] of events has passed since the previous interrupt,
    counted without bound, however often the 32-bit values wrap; provided no more
    than [pmn0] events happen between two tests. *)
Theorem overflow_exact ts s base :
  0 <= pmn0 s < 2 ^ 32 -> Z.land (inten s) 2 <> 0 -> Z.land (pmnc s) 1 <> 0 ->
  pmn_reset s = u32 base -> gaps_ok (pmn0 s) base ts ->
  overflow_run (map u32 ts) s = overflow_ref (2 ^ 32 - pmn0 s) base ts.
Proof. intros Hp Hi Hc Hr Hg. apply (overflow_run_ref ts s base base); [done..|lia|done]. Qed.

(** An interval of 1000 events; the counter wraps at [2 ^ 32] on the way. *)
Theorem overflow_exact_witness :
  let s := mk_pmu (2 ^ 32 - 1000) (2 ^ 32 - 100) 2 1 0 in
  overflow_run (map u32 [2 ^ 32 + 400; 2 ^ 32 + 899; 2 ^ 32 + 950; 2 ^ 32 + 1950]) s =
  [false; false; true; true].
Proof.
  intros s.
  assert (H1 : 0 <= pmn0 s < 2 ^ 32) by (vm_compute; split; [discriminate|reflexivity]).
  assert (H2 : Z.land (inten s) 2 <> 0) by (vm_compute; discriminate).
  assert (H3 : Z.land (pmnc s) 1 <> 0) by (vm_compute; discriminate).
  assert (H4 : pmn_reset s = u32 (2 ^ 32 - 100)) by (vm_compute; reflexivity).
  assert (H5 : gaps_ok (pmn0 s) (2 ^ 32 - 100) [2 ^ 32 + 400; 2 ^ 32 + 899; 2 ^ 32 + 950; 2 ^ 32 + 1950])
    by (cbn [gaps_ok pmn0 s]; lia).
  exact (overflow_exact _ s _ H1 H2 H3 H4 H5).
Defined.

(** C24: The VPMU implements the clock the network device reads: its estimated
    time is that of the abstract clock; the updates of [m2m_send] and [m2m_recv]
    are [add_netsend] and [add_netrecv] on it; and once the devices were started,
    an executed block leaves the network part alone and its clock's new time in
    the device's clock cell. *)
Theorem vpmu_refines_clock miss v c :
  clock_of miss v = Some c ->
  vpmu_estimated_execution_time_ns miss v = Some (get_vpmu_time c) /\
  (forall x, clock_of miss (vpmu_netsend x v) = Some (add_netsend x c)) /\
  (forall x, clock_of miss (vpmu_netrecv x v) = Some (add_netrecv x c)) /\
  (forall miss' trigger cell mode t pc refs m s' m',
     trigger <> 0 -> vpmu_calculate true miss' trigger cell mode t (v, pc, refs, m) = Some (s', m') ->
     exists c', clock_of miss' s'.1.1 = Some c' /\
       netsend_qemu c' = netsend_qemu c /\ netrecv_qemu c' = netrecv_qemu c /\
       netsend_count c' = netsend_count c /\ netrecv_count c' = netrecv_count c /\
       load64 m' cell = get_vpmu_time c').
Proof.
  intros Hc. split; [by rewrite clock_of_time, Hc|].
  split; [intros x; by rewrite (clock_of_netsend x _ _ _ Hc)|].
  split; [intros x; by rewrite (clock_of_netrecv x _ _ _ Hc)|].
  intros miss' trigger cell mode t pc refs m s' m' Htr Hs.
  destruct (vpmu_calculate_stats _ _ _ _ _ _ _ _ _ Hs) as [-> Hm].
  destruct (calc_stats_net mode t (v, pc, refs)) as (N1 & N2 & N3 & N4).
  destruct (clock_of_net _ _ _ Hc) as (C1 & C2 & C3 & C4).
  unfold calc_localtime in Hm. rewrite (proj2 (Z.eqb_neq _ _) Htr), clock_of_time in Hm.
  destruct (clock_of miss' _) as [c'|] eqn:Hc'; [|done]. cbn [mbind option_bind option_map] in Hm. injection Hm as <-.
  exists c'. destruct (clock_of_net _ _ _ Hc') as (D1 & D2 & D3 & D4). cbn [fst] in *.
  split; [done|]. repeat (split; [congruence|]). rewrite load64_store64. apply u64_idem.
Qed.

(** 5000 pipeline cycles and 7 I/O accesses at 1 GHz, no cache misses; 300 ns on
    the network. *)
Theorem vpmu_refines_clock_witness :
  let v := mk_VPMU counts0 counts0 counts0 counts0 counts0 5000 0 0 0 0 0 7 100 200 1 1
             (fst (vpmu_model_setup TIMING_MODEL_D)) 0 1 1000 2 10 100 in
  vpmu_estimated_execution_time_ns no_miss v = Some 5370.
Proof.
  intros v.
  assert (H : clock_of no_miss v = Some (mk_clock 5070 100 200 1 1)) by (vm_compute; reflexivity).
  exact (proj1 (vpmu_refines_clock _ v _ H)).
Defined.
