(* ===== verification/Power.v ===== *)
(** * The virtual power device ([hw/vpmu-device.c])

    The power of the processor and of the board's devices as the VPMU reports it
    ([vpmu_vpd_*_power]), the accumulated estimate it keeps for the processor
    ([vpmu_update_eet_epc]), and the simulated battery that the periodic write
    of the guest's CPU load drains ([VPMU_MMAP_BYPASS_CPU_UTIL]).  The variables
    of other devices that [struct android_dev_stat] points to (brightness, GPS
    status, packet counter and so on) are fields: other code writes them.  They
    are [NULL] until those devices exist; the model is of a board that has them.
    Powers are computed in [double]s and converted, [None] where the C conversion
    is undefined.  [CONFIG_PACDSP] is off: there is no DSP. *)
From Stdlib Require Import Floats.SpecFloat.
From S2P Require Import Prelude Mem Config Timing Vpmu.

(** ** Decimal constants and conversions *)

(** The double nearest to [m / 10 ^ k]: both are exact below 2^53, and IEEE
    division rounds correctly. *)
Definition dec (m k : Z) : spec_float := ddiv (dZ m) (dZ (10 ^ k)).

(** Conversion to [uint32_t], and to [unsigned long] (32 bits on i386) *)
Definition to_uint32 (f : spec_float) : option Z :=
  match to_uint64 f with
  | Some z => if z <? 2 ^ 32 then Some z else None
  | None => None
  end.

(** A [char]: signed, eight bits *)
Definition s8 (x : Z) : Z := let y := u8 x in if y <? 2 ^ 7 then y else y - 2 ^ 8.

(** ** State *)

Record android_dev_stat := mk_adev {
  cpu_util : Z; lcd_brightness : Z; audio_buf : Z; audio_on : Z; net_mode : Z; net_on : Z;
  net_packets : Z; gps_status : Z; battery_sim : Z; energy_left : Z; bat_ac_online : Z; bat_capacity : Z }.

(** The fields of [GlobalVPMU] that the estimate uses besides those of [Vpmu]. *)
Record estimate := mk_estimate { eet_ns : Z; last_ticks : Z; epc_mpu : Z; mpu_power : spec_float }.

(** ** The processor's estimate *)

Definition TARGET_AVG_CPI : spec_float := dec 151189302527 11.

Section Mpu.
Context (miss : Z -> Z -> Z -> Z).

(** [/ (GlobalVPMU.target_cpu_frequency / 1000.0)] *)
Definition per_mhz (x : spec_float) (v : VPMU) : option Z :=
  to_uint64 (ddiv x (ddiv (dZ (target_cpu_frequency v)) (dZ 1000))).

(** The time since the last estimate, and the count it starts from next time. *)
Definition eet_step (v : VPMU) (e : estimate) : option (Z * Z) :=
  let m := model_of v in
  if m =? TIMING_MODEL_A then
    let insns := vpmu_total_insn_count v in
    time ← per_mhz (dmul (dZ (u64 (insns - last_ticks e))) TARGET_AVG_CPI) v; Some (time, insns)
  else if existsb (Z.eqb m) [TIMING_MODEL_B; TIMING_MODEL_C; TIMING_MODEL_D; TIMING_MODEL_E;
                             TIMING_MODEL_F; TIMING_MODEL_G] then
    let cycles := vpmu_cycle_count miss v in
    time ← per_mhz (dZ (u64 (cycles - last_ticks e))) v; Some (time, cycles)
  else Some (0, last_ticks e).

(** The addition to [eet_ns] is commented out in the code. *)
Definition vpmu_update_eet_epc (v : VPMU) (e : estimate) : option estimate :=
  '(time, last) ← eet_step v e;
  epc ← to_uint32 (dadd (dZ (epc_mpu e)) (ddiv (dmul (dZ time) (mpu_power e)) (dZ 1000000)));
  Some (mk_estimate (eet_ns e) last epc (mpu_power e)).

(** In microseconds; a [uint32_t] *)
Definition vpmu_estimated_execution_time (v : VPMU) (e : estimate) : option (Z * estimate) :=
  e ← vpmu_update_eet_epc v e; Some (u32 (eet_ns e / 1000), e).

Definition vpmu_vpd_mpu_power (VPMU_enabled : bool) (v : VPMU) (e : estimate) (a : android_dev_stat)
  : option (Z * estimate) :=
  if VPMU_enabled then e ← vpmu_update_eet_epc v e; Some (epc_mpu e, e)
  else p ← to_uint32 (dmul (dec 434 2) (dZ (cpu_util a))); Some (p, e).

(** ** The other devices *)

Definition vpmu_vpd_dsp1_power : Z := 0.
Definition vpmu_vpd_dsp2_power : Z := 0.

Definition vpmu_vpd_lcd_power (a : android_dev_stat) : option Z :=
  to_uint32 (if lcd_brightness a =? 0 then dZ 0
             else dadd (dmul (dZ (lcd_brightness a)) (dec 24 1)) (dec 2873 1)).
Definition vpmu_vpd_audio_power (a : android_dev_stat) : option Z :=
  to_uint32 (if audio_on a =? 0 then dZ 0 else dec 38462 2).
Definition vpmu_vpd_net_power (a : android_dev_stat) : option Z :=
  if net_mode a =? 1 then to_uint32 (if net_on a =? 0 then dec 380 1 else dec 7200 1)
  else if net_mode a =? 2 then to_uint32 (if net_on a =? 0 then dZ 0 else dec 4010 1)
  else Some 0.
Definition vpmu_vpd_gps_power (a : android_dev_stat) : option Z :=
  if gps_status a =? 2 then to_uint32 (dec 42955 2)
  else if gps_status a =? 1 then to_uint32 (dec 17355 2)
  else Some 0.

Definition vpmu_vpd_total_power (VPMU_enabled : bool) (v : VPMU) (e : estimate) (a : android_dev_stat)
  : option (Z * estimate) :=
  '(mpu, e) ← vpmu_vpd_mpu_power VPMU_enabled v e a;
  lcd ← vpmu_vpd_lcd_power a;
  audio ← vpmu_vpd_audio_power a;
  net ← vpmu_vpd_net_power a;
  gps ← vpmu_vpd_gps_power a;
  Some (u32 (mpu + lcd + audio + net + gps), e).
End Mpu.

(** ** The battery: every write of the CPU load *)

(** The statics [count], [timer], [last_packets], [last_audio] of [special_write] *)
Record sampler := mk_sampler { count : Z; timer : Z; last_packets : Z; last_audio : Z }.

Definition set_net_on (on : Z) (a : android_dev_stat) : android_dev_stat :=
  mk_adev (cpu_util a) (lcd_brightness a) (audio_buf a) (audio_on a) (net_mode a) on
    (net_packets a) (gps_status a) (battery_sim a) (energy_left a) (bat_ac_online a) (bat_capacity a).
Definition set_load (util audio : Z) (a : android_dev_stat) : android_dev_stat :=
  mk_adev util (lcd_brightness a) (audio_buf a) audio (net_mode a) (net_on a)
    (net_packets a) (gps_status a) (battery_sim a) (energy_left a) (bat_ac_online a) (bat_capacity a).
Definition set_energy (energy capacity : Z) (a : android_dev_stat) : android_dev_stat :=
  mk_adev (cpu_util a) (lcd_brightness a) (audio_buf a) (audio_on a) (net_mode a) (net_on a)
    (net_packets a) (gps_status a) (battery_sim a) energy (bat_ac_online a) capacity.

(** [VPD_BAT_CAPACITY * VPD_BAT_VOLTAGE * 3600] *)
Definition full_battery : spec_float := dmul (dmul (dZ 1150) (dec 37 1)) (dZ 3600).

Definition initial_energy (a : android_dev_stat) : option Z :=
  to_uint32 (dmul full_battery (ddiv (dZ (bat_capacity a)) (dZ 100))).

(** The percentage handed to [goldfish_battery_set_prop] (an [int]) *)
Definition capacity_of (energy : Z) : option Z :=
  to_uint32 (ddiv (dmul (dZ energy) (dZ 100)) full_battery).

(** Is the radio on?  Wifi by the packets since the last sample, 3G with a
    tail of six samples. *)
Definition sample_net (p : sampler) (a : android_dev_stat) : sampler * android_dev_stat :=
  if net_mode a =? 1 then
    (p, set_net_on (if 8 <? u32 (net_packets a - last_packets p) then 1 else 0) a)
  else if net_mode a =? 2 then
    if last_packets p <? net_packets a
    then (mk_sampler (count p) 0 (last_packets p) (last_audio p), set_net_on 1 a)
    else
      let timer := timer p + 1 in
      (mk_sampler (count p) timer (last_packets p) (last_audio p), if 6 <=? timer then set_net_on 0 a else a)
  else (p, a).

Section Battery.
Context (miss : Z -> Z -> Z -> Z) (VPMU_enabled : bool) (v : VPMU).

(** [vpmu_vpd_total_power] is called in the test and again in the subtraction. *)
Definition drain (e : estimate) (a : android_dev_stat) : option (estimate * android_dev_stat) :=
  if (bat_ac_online a =? 0) && (battery_sim a =? 1) then
    '(p, e) ← vpmu_vpd_total_power miss VPMU_enabled v e a;
    '(energy, e) ←
      (if p <? energy_left a
       then '(p', e) ← vpmu_vpd_total_power miss VPMU_enabled v e a; Some (u32 (energy_left a - p'), e)
       else Some (0, e));
    capacity ← capacity_of energy;
    Some (e, set_energy energy capacity a)
  else Some (e, a).

(** [case VPMU_MMAP_BYPASS_CPU_UTIL] of [special_write] *)
Definition bypass_cpu_util (value : Z) (s : sampler * estimate * android_dev_stat)
  : option (sampler * estimate * android_dev_stat) :=
  let '(p, e, a) := s in
  let next p := mk_sampler (s32 (count p + 1)) (timer p) (last_packets p) (last_audio p) in
  let packets p a := mk_sampler (count p) (timer p) (net_packets a) (last_audio p) in
  if count p =? 0 then
    energy ← initial_energy a;
    Some (next (packets p a), e, set_energy energy (bat_capacity a) a)
  else if Z.even (count p) then
    let a := set_load value (u32 (last_audio p + audio_buf a)) a in
    let '(p, a) := sample_net p a in
    '(e, a) ← drain e a;
    Some (next (packets p a), e, a)
  else Some (next (mk_sampler (count p) (timer p) (last_packets p) (u32 (audio_buf a))), e, a).
End Battery.

(** ** What the estimates give *)

(** The estimated execution time in microseconds is always 0: nothing but
    [VPMU_reset] writes [eet_ns], and it writes 0. *)
Lemma execution_time_zero miss v e x e' :
  eet_ns e = 0 -> vpmu_estimated_execution_time miss v e = Some (x, e') -> x = 0 /\ eet_ns e' = 0.
Proof.
  unfold vpmu_estimated_execution_time, vpmu_update_eet_epc. intros H0.
  destruct (eet_step miss v e) as [[time last]|]; [|done]. cbn [mbind option_bind].
  destruct (to_uint32 _) as [epc|]; [|done]. cbn [mbind option_bind eet_ns]. rewrite H0. by intros [= <- <-].
Qed.

(** [n] estimates, each after [step] more cycles *)
Fixpoint poll (n : nat) (step : Z) (v : VPMU) (e : estimate) : option estimate :=
  match n with
  | O => Some e
  | S n =>
      let v := set_pipeline (v_ticks v + step) (reduce_ticks v) v in
      e ← vpmu_update_eet_epc no_miss v e; poll n step v e
  end.

(** The processor's energy depends on how often it is asked for: 100 questions
    5000 cycles apart find none, one question after the same time finds 89,
    because each addition to [epc_mpu] drops its fraction. *)
Lemma polling_loses_energy :
  let e := mk_estimate 0 0 0 (dec 17806314 5) in
  epc_mpu <$> poll 100 5000 (vpmu0 TIMING_MODEL_D) e = Some 0 /\
  epc_mpu <$> poll 1 500000 (vpmu0 TIMING_MODEL_D) e = Some 89.
Proof. vm_compute. done. Qed.

(** A load in percent and a brightness of one byte *)
Definition in_range (a : android_dev_stat) : Prop := 0 <= cpu_util a <= 100 /\ 0 <= lcd_brightness a <= 255.

Definition at_most (x : option Z) (n : Z) : bool :=
  match x with Some y => (0 <=? y) && (y <=? n) | None => false end.

Lemma at_most_spec x n : at_most x n = true -> exists y, x = Some y /\ 0 <= y <= n.
Proof. destruct x as [y|]; [|done]. intros [?%Z.leb_le ?%Z.leb_le]%andb_prop. by exists y. Qed.

Lemma range_check (f : Z -> option Z) n k x :
  forallb (fun i => at_most (f i) n) (seqZ 0 k) = true -> 0 <= x < k -> exists y, f x = Some y /\ 0 <= y <= n.
Proof.
  intros H Hx. apply at_most_spec. rewrite forallb_forall in H. apply H, list_elem_of_In, elem_of_seqZ. lia.
Qed.

(** With the VPMU off the total power is defined and is at most 2866 mW, so its
    32-bit sum does not wrap; asking does not change the estimate. *)
Lemma total_power_bounded miss v e a :
  in_range a -> exists p, vpmu_vpd_total_power miss false v e a = Some (p, e) /\ 0 <= p <= 2866.
Proof.
  intros [Hu Hl].
  destruct (range_check (fun u => to_uint32 (dmul (dec 434 2) (dZ u))) 434 101 (cpu_util a))
    as (p1 & E1 & B1); [vm_compute; reflexivity|lia|].
  destruct (range_check (fun b => to_uint32 (if b =? 0 then dZ 0 else dadd (dmul (dZ b) (dec 24 1)) (dec 2873 1)))
    899 256 (lcd_brightness a)) as (p2 & E2 & B2); [vm_compute; reflexivity|lia|].
  destruct (at_most_spec (vpmu_vpd_audio_power a) 384) as (p3 & E3 & B3);
    [unfold vpmu_vpd_audio_power; by destruct (audio_on a =? 0)|].
  destruct (at_most_spec (vpmu_vpd_net_power a) 720) as (p4 & E4 & B4);
    [unfold vpmu_vpd_net_power; by destruct (net_mode a =? 1), (net_mode a =? 2), (net_on a =? 0)|].
  destruct (at_most_spec (vpmu_vpd_gps_power a) 429) as (p5 & E5 & B5);
    [unfold vpmu_vpd_gps_power; by destruct (gps_status a =? 2), (gps_status a =? 1)|].
  exists (p1 + p2 + p3 + p4 + p5). split; [|lia].
  unfold vpmu_vpd_total_power, vpmu_vpd_mpu_power. rewrite E1. cbn [mbind option_bind].
  unfold vpmu_vpd_lcd_power. rewrite E2. cbn [mbind option_bind]. rewrite E3, E4, E5. cbn [mbind option_bind].
  by rewrite u32_small by lia.
Qed.

(** The battery.  With the VPMU off, on battery and with the simulation on,
    every sample takes the total power from the energy left, which stops at 0
    and never grows; on mains, or with the simulation off, nothing changes. *)
Theorem battery_drains miss v e a :
  in_range a -> 0 <= energy_left a < 2 ^ 32 ->
  exists p, 0 <= p <= 2866 /\ vpmu_vpd_total_power miss false v e a = Some (p, e) /\
    let left := Z.max 0 (energy_left a - p) in
    (bat_ac_online a = 0 -> battery_sim a = 1 ->
       drain miss false v e a = (c ← capacity_of left; Some (e, set_energy left c a)) /\ left <= energy_left a) /\
    (bat_ac_online a <> 0 \/ battery_sim a <> 1 -> drain miss false v e a = Some (e, a)).
Proof.
  intros Ha He. destruct (total_power_bounded miss v e a Ha) as (p & Hp & Hb).
  exists p. split; [done|]. split; [done|]. cbv zeta. unfold drain. split.
  - intros -> ->. cbn [Z.eqb Pos.eqb andb]. rewrite Hp. cbn [mbind option_bind]. split; [|lia].
    destruct (Z.ltb_spec p (energy_left a)).
    + rewrite ?Hp. cbn [mbind option_bind]. rewrite u32_small by lia. by replace (Z.max 0 (energy_left a - p)) with (energy_left a - p) by lia.
    + cbn [mbind option_bind]. by replace (Z.max 0 (energy_left a - p)) with 0 by lia.
  - intros Hoff. replace ((bat_ac_online a =? 0) && (battery_sim a =? 1)) with false; [done|].
    symmetry. apply andb_false_iff. destruct Hoff as [H|H]; [left|right]; by apply Z.eqb_neq.
Qed.

(** Full brightness, Wifi on: 1619 mW of 100000 *)
Theorem battery_drains_witness :
  let a := mk_adev 0 255 0 0 1 1 0 0 1 100000 0 50 in
  drain no_miss false (vpmu0 TIMING_MODEL_A) (mk_estimate 0 0 0 (dZ 178)) a =
    Some (mk_estimate 0 0 0 (dZ 178), set_energy 98381 0 a).
Proof.
  intros a.
  assert (H1 : in_range a) by (repeat split; discriminate).
  assert (H2 : 0 <= energy_left a < 2 ^ 32) by (split; [discriminate|reflexivity]).
  destruct (battery_drains no_miss (vpmu0 TIMING_MODEL_A) (mk_estimate 0 0 0 (dZ 178)) a H1 H2)
    as (p & _ & Hp & [E _] & _); [reflexivity|reflexivity|].
  rewrite E. assert (P : p = 1619).
  { assert (Q : fst <$> vpmu_vpd_total_power no_miss false (vpmu0 TIMING_MODEL_A) (mk_estimate 0 0 0 (dZ 178)) a = Some 1619)
      by (vm_compute; reflexivity). rewrite Hp in Q. cbn in Q. congruence. }
  rewrite P. vm_compute. reflexivity.
Defined.
