(* ===== verification/PerfRegs.v ===== *)
(** * The performance registers ([hw/vpmu-device.c])

    The guest reads the VPMU's counters through coprocessor 14, laid out like
    the performance monitor of an XScale: [pas_cp14_read], [pas_cp14_write] and
    the functions they call.  Counter register PMN0 counts the event that EVTSEL
    selects ([vpmu_hardware_event_select]); its overflow test
    ([vpmu_perf_counter_overflow_testing], in [Vpmu]) raises an interrupt and a
    bit of FLAG, and a write to FLAG lowers it again.

    [oprofile] stands for CONFIG_VPMU_OPROFILE.  The statistics of the cache
    simulator are parameters as in [Vpmu]; [GlobalVPMU.dcache] and [icache] are
    its level-one caches.  Results are [None] where a conversion from [double]
    is undefined. *)
From Stdlib Require Import Floats.SpecFloat.
From S2P Require Import Prelude Mem Config Timing Branch Vpmu Power.

(** ** What an event reads *)

Record unit_state := mk_unit {
  un_vpmu : VPMU; un_bp : bp; iomem_count : Z; un_est : estimate; un_dev : android_dev_stat;
  VPMU_enabled : bool }.

Definition with_bp (b : bp) (s : unit_state) : unit_state :=
  mk_unit (un_vpmu s) b (iomem_count s) (un_est s) (un_dev s) (VPMU_enabled s).
Definition with_est (e : estimate) (s : unit_state) : unit_state :=
  mk_unit (un_vpmu s) (un_bp s) (iomem_count s) e (un_dev s) (VPMU_enabled s).

Definition vpmu_branch_insn_count (v : VPMU) : Z := v_branch_count v.

Section Events.
Context (miss fetch : Z -> Z -> Z -> Z).

(** [(uint32_t) x] of a [double] that holds an integer *)
Definition fits32 (x : Z) : option Z := if x <? 2 ^ 32 then Some x else None.

(** [pure]: a 64-bit count, truncated; [timed]: a time, which may be undefined;
    [power]: a power that only reads; [mpu]: a power that updates the estimate;
    [branch]: synchronises with the predictor first. *)
Definition vpmu_hardware_event_select (evtsel : Z) (s : unit_state) : option (Z * unit_state) :=
  let v := un_vpmu s in
  let pure x := Some (u32 x, s) in
  let timed o := x ← o; Some (u32 x, s) in
  let power o := x ← o; Some (x, s) in
  let mpu (r : option (Z * estimate)) := '(x, e) ← r; Some (x, with_est e s) in
  let branch request :=
    match vpmu_branch_predict request (un_bp s) with Ret (x, b) => Some (x, with_bp b s) | _ => None end in
  let ev n := evtsel =? n in
  if ev (2 ^ 32 - 1) || ev 0 then pure (vpmu_total_insn_count v)
  else if ev 0x01 then pure (icount (USR v))
  else if ev 0x02 then pure (icount (SVC v))
  else if ev 0x03 then pure (icount (IRQ v))
  else if ev 0x04 then pure (icount (sys_rest v))
  else if ev 0x05 then pure (vpmu_total_ldst_count v)
  else if ev 0x06 then pure (ldst_count (USR v))
  else if ev 0x07 then pure (ldst_count (SVC v))
  else if ev 0x08 then pure (ldst_count (IRQ v))
  else if ev 0x09 then pure (ldst_count (sys_rest v))
  else if ev 0x0a then pure (vpmu_total_load_count v)
  else if ev 0x0b then pure (load_count (USR v))
  else if ev 0x0c then pure (load_count (SVC v))
  else if ev 0x0d then pure (load_count (IRQ v))
  else if ev 0x0e then pure (load_count (sys_rest v))
  else if ev 0x0f then pure (vpmu_total_store_count v)
  else if ev 0x10 then pure (store_count (USR v))
  else if ev 0x11 then pure (store_count (SVC v))
  else if ev 0x12 then pure (store_count (IRQ v))
  else if ev 0x13 then pure (store_count (sys_rest v))
  else if ev 0x14 then pure (all_changes_to_PC_count v)
  else if ev 0x20 then pure (vpmu_branch_insn_count v)
  else if ev 0x21 then branch PREDICT_CORRECT
  else if ev 0x22 then branch PREDICT_WRONG
  else if ev 0x30 then pure (vpmu_L1_dcache_access_count fetch)
  else if ev 0x31 then power (fits32 (miss 2 0 D4XWRITE))
  else if ev 0x32 then power (fits32 (miss 2 0 D4XREAD))
  else if ev 0x33 then power (r ← fits32 (miss 2 0 D4XREAD); fits32 (r + miss 2 0 D4XWRITE))
  else if ev 0x34 then pure (vpmu_L1_icache_access_count fetch v)
  else if ev 0x35 then power (fits32 (miss 1 0 D4XINSTRN))
  else if ev 0x40 then pure (vpmu_L1_dcache_miss_count miss + vpmu_L1_icache_miss_count miss)
  else if ev 0x41 then pure (iomem_count s)
  else if ev 0x50 then pure (vpmu_cycle_count miss v)
  else if ev 0x51 then timed (vpmu_estimated_execution_time_ns miss v)
  else if ev 0x52 then pure (vpmu_pipeline_cycle_count v)
  else if ev 0x53 then timed (vpmu_estimated_pipeline_execution_time_ns v)
  else if ev 0x54 then pure (vpmu_sys_memory_access_cycle_count miss v)
  else if ev 0x55 then timed (vpmu_estimated_sys_memory_access_time_ns miss v)
  else if ev 0x56 then pure (vpmu_io_memory_access_cycle_count v)
  else if ev 0x57 then timed (vpmu_estimated_io_memory_access_time_ns v)
  else if ev 0xf0 then mpu (vpmu_vpd_mpu_power miss (VPMU_enabled s) v (un_est s) (un_dev s))
  else if ev 0xf1 then pure vpmu_vpd_dsp1_power
  else if ev 0xf2 then pure vpmu_vpd_dsp2_power
  else if ev 0xf3 then power (vpmu_vpd_lcd_power (un_dev s))
  else if ev 0xf4 then power (vpmu_vpd_audio_power (un_dev s))
  else if ev 0xf5 then power (vpmu_vpd_net_power (un_dev s))
  else if ev 0xf6 then power (vpmu_vpd_gps_power (un_dev s))
  else if ev 0xff then mpu (vpmu_vpd_total_power miss (VPMU_enabled s) v (un_est s) (un_dev s))
  else pure 0.

(** ** The registers *)

Definition CPPMNC : Z := 0.
Definition CPCCNT : Z := 1.
Definition CPINTEN : Z := 4.
Definition CPFLAG : Z := 5.
Definition CPEVTSEL : Z := 8.
Definition CPPMN0 : Z := 0.
Definition CPPMN1 : Z := 1.
Definition CPPMN2 : Z := 2.
Definition CPPMN3 : Z := 3.

(** [struct cp14_pmu_state]: [core] holds what the overflow test uses (PMNC,
    INTEN, FLAG, PMN0 and its baseline), [pmn] the other three counters. *)
Record cp14_pmu_state := mk_cp14 { core : pmu; clkcfg : Z; evtsel : Z; pmn : arr }.

(** The registers and the VPMU's interrupt line. *)
Record regs := mk_regs { cp14 : cp14_pmu_state; irq : bool }.

Definition set_core (f : pmu -> pmu) (c : cp14_pmu_state) : cp14_pmu_state :=
  mk_cp14 (f (core c)) (clkcfg c) (evtsel c) (pmn c).
Definition set_evtsel (x : Z) (c : cp14_pmu_state) : cp14_pmu_state := mk_cp14 (core c) (clkcfg c) x (pmn c).

Definition pxa2xx_clkpwr_read (reg : Z) (c : cp14_pmu_state) : Z := if reg =? 6 then clkcfg c else 0.

(** The body is disabled ([#if 0]). *)
Definition pxa2xx_clkpwr_write (reg value : Z) (r : regs) : regs := r.

(** [now]: [qemu_get_clock(vm_clock)] *)
Definition pxa2xx_perf_read (now reg : Z) (c : cp14_pmu_state) : Z :=
  if reg =? CPPMNC then pmnc (core c)
  else if reg =? CPCCNT then u32 now
  else if reg =? CPFLAG then pmu_flag (core c)
  else if reg =? CPEVTSEL then evtsel c
  else if reg =? CPINTEN then inten (core c)
  else 0.

Definition pxa2xx_perf_write (reg value : Z) (r : regs) : regs :=
  let c := cp14 r in
  let core_is f := mk_regs (set_core f c) (irq r) in
  if reg =? CPPMNC then
    core_is (fun p => mk_pmu (pmn0 p) (pmn_reset p) (inten p) value (pmu_flag p))
  else if reg =? CPCCNT then r
  else if reg =? CPINTEN then
    core_is (fun p => mk_pmu (pmn0 p) (pmn_reset p) value (pmnc p) (pmu_flag p))
  else if reg =? CPFLAG then
    let tmp := Z.land value 0x1F in
    let c := set_core (fun p => mk_pmu (pmn0 p) (pmn_reset p) (inten p) (pmnc p)
                                  (Z.land (u32 (Z.lnot tmp)) (pmu_flag p))) c in
    mk_regs c (if vpmu_perf_counter_overflow_handled (core c) then false else irq r)
  else if reg =? CPEVTSEL then mk_regs (set_evtsel value c) (irq r)
  else r.

Definition pas_cp14_read (oprofile : bool) (now reg crm : Z) (r : regs) (s : unit_state)
  : option (Z * unit_state) :=
  let c := cp14 r in
  if crm =? 0 then Some (pxa2xx_clkpwr_read reg c, s)
  else if crm =? 1 then Some (pxa2xx_perf_read now reg c, s)
  else if crm =? 2 then
    if reg =? CPPMN0 then
      '(x, s) ← vpmu_hardware_event_select (evtsel c) s;
      Some (if oprofile then u32 (x - pmn_reset (core c) + pmn0 (core c)) else x, s)
    else if (reg =? CPPMN1) || (reg =? CPPMN2) || (reg =? CPPMN3) then
      time ← vpmu_estimated_execution_time_ns miss (un_vpmu s); Some (u32 (time / 1000000000), s)
    else Some (0, s)
  else Some (0, s).

Definition pas_cp14_write (oprofile : bool) (reg crm value : Z) (r : regs) (s : unit_state)
  : option (regs * unit_state) :=
  let c := cp14 r in
  if crm =? 0 then Some (pxa2xx_clkpwr_write reg value r, s)
  else if crm =? 1 then Some (pxa2xx_perf_write reg value r, s)
  else if crm =? 2 then
    if reg =? CPPMN0 then
      let pmn0_is base :=
        mk_regs (set_core (fun p => mk_pmu value base (inten p) (pmnc p) (pmu_flag p)) c) (irq r) in
      if oprofile then '(x, s) ← vpmu_hardware_event_select (evtsel c) s; Some (pmn0_is x, s)
      else Some (pmn0_is (pmn_reset (core c)), s)
    else if (reg =? CPPMN1) || (reg =? CPPMN2) || (reg =? CPPMN3) then
      Some (mk_regs (mk_cp14 (core c) (clkcfg c) (evtsel c) (pmn c).[reg <- value]) (irq r), s)
    else Some (r, s)
  else Some (r, s).

(** The test after every run of translated code ([cpu-exec.c]), with
    CONFIG_VPMU_OPROFILE *)
Definition overflow_check (r : regs) (s : unit_state) : option (regs * unit_state) :=
  if VPMU_enabled s then
    '(cur_value, s) ← vpmu_hardware_event_select (evtsel (cp14 r)) s;
    let '(p, raised) := vpmu_perf_counter_overflow_testing cur_value (core (cp14 r)) in
    Some (mk_regs (set_core (fun _ => p) (cp14 r)) (if raised then true else irq r), s)
  else Some (r, s).
End Events.

(** ** PMN0 counts events *)

Section Counting.
Context (miss fetch : Z -> Z -> Z -> Z).

(** In state [s] the event selected has happened [t] times, counted without
    bound. *)
Definition counts_at (ev : Z) (s : unit_state) (t : Z) : Prop :=
  exists s', vpmu_hardware_event_select miss fetch ev s = Some (u32 t, s').

(** Tests with the VPMU on; between them the guest runs. *)
Fixpoint checks (r : regs) (l : list unit_state) : option regs :=
  match l with
  | [] => Some r
  | s :: l => '(r, _) ← overflow_check miss fetch r s; checks r l
  end.

(** The count at the last test that found an overflow. *)
Fixpoint overflow_base (interval base : Z) (ts : list Z) : Z :=
  match ts with
  | [] => base
  | t :: ts => overflow_base interval (if interval <=? t - base then t else base) ts
  end.

Lemma checks_base x ev t0 l ts r :
  0 <= x < 2 ^ 32 -> Forall (fun s => VPMU_enabled s = true) l -> Forall2 (counts_at ev) l ts ->
  evtsel (cp14 r) = ev -> pmn0 (core (cp14 r)) = x -> pmn_reset (core (cp14 r)) = u32 t0 ->
  forall last, 0 <= last - t0 < 2 ^ 32 - x -> gaps_ok x last ts ->
  exists r', checks r l = Some r' /\ evtsel (cp14 r') = ev /\ pmn0 (core (cp14 r')) = x /\
    pmn_reset (core (cp14 r')) = u32 (overflow_base (2 ^ 32 - x) t0 ts).
Proof.
  intros Hx Hen Hc. revert r t0.
  induction Hc as [|s t l ts [s' Hs] Hc IH]; intros r t0 He H0 Hr last Hl Hg; [by exists r|].
  inversion Hen as [|? ? Hs1 Hen']; subst. destruct Hg as [Ht Hg].
  cbn [checks overflow_base]. unfold overflow_check. rewrite Hs1, Hs. cbn [mbind option_bind].
  unfold vpmu_perf_counter_overflow_testing. rewrite Hr, u32_diff by lia.
  rewrite (u32_small (0xFFFFFFFF - _)) by lia.
  destruct (Z.ltb_spec (0xFFFFFFFF - pmn0 (core (cp14 r))) (t - t0)) as [Hov|Hov];
    destruct (Z.leb_spec (2 ^ 32 - pmn0 (core (cp14 r))) (t - t0)); try lia.
  - by apply (IH Hen' (mk_regs (set_core (fun _ => mk_pmu _ _ _ _ _) (cp14 r)) _) t eq_refl eq_refl eq_refl t ltac:(lia)).
  - by apply (IH Hen' (mk_regs (set_core (fun _ => core (cp14 r)) (cp14 r)) _) t0 eq_refl eq_refl Hr t ltac:(lia)).
Qed.

End Counting.

(** A user-mode instruction count of [n] *)
Definition demo_unit (n : Z) : unit_state :=
  mk_unit (set_counts_of (mk_counts n 0 0 0) counts0 counts0 counts0 counts0 (vpmu0 TIMING_MODEL_E))
    (mk_bp 0 0 0 0 0) 0 (mk_estimate 0 0 0 (dZ 178)) (mk_adev 0 0 0 0 0 0 0 0 0 0 0 0) true.

Lemma demo_counts n : counts_at no_miss no_miss 1 (demo_unit n) n.
Proof. by eexists. Qed.

(** [struct cp14_pmu_state] is allocated zeroed. *)
Definition power_on : regs := mk_regs (mk_cp14 (mk_pmu 0 0 0 0 0) 0 0 ∅) false.


(** ** The interrupt line *)

Section Line.
Context (miss fetch : Z -> Z -> Z -> Z).

Definition flag_bit (r : regs) : bool := Z.testbit (pmu_flag (core (cp14 r))) 1.
Definition inten_bit (r : regs) : bool := Z.testbit (inten (core (cp14 r))) 1.

(** One access of the guest, or one overflow test; the rest of the VPMU and the
    guest's program are free. *)
Inductive line_step : regs -> regs -> Prop :=
| ls_write oprofile reg crm value r s r' s' :
    pas_cp14_write miss fetch oprofile reg crm value r s = Some (r', s') -> line_step r r'
| ls_check r s r' s' : overflow_check miss fetch r s = Some (r', s') -> line_step r r'.

(** The register states a guest can reach; [true] while it has acknowledged
    (written FLAG) only with PMN0's interrupt enabled in INTEN. *)
Inductive reach : bool -> regs -> Prop :=
| reach_on : reach true power_on
| reach_write polite oprofile reg crm value r s r' s' :
    reach polite r -> pas_cp14_write miss fetch oprofile reg crm value r s = Some (r', s') ->
    reach (polite && (negb ((crm =? 1) && (reg =? CPFLAG)) || inten_bit r)) r'
| reach_check polite r s r' s' :
    reach polite r -> overflow_check miss fetch r s = Some (r', s') -> reach polite r'.

Lemma land_bit1 x : negb (Z.land x 2 =? 0) = Z.testbit x 1.
Proof.
  destruct (Z.eqb_spec (Z.land x 2) 0) as [E|E].
  - pose proof (Z.land_spec x 2 1) as H. rewrite E, Z.bits_0, andb_true_r in H. by rewrite <- H.
  - destruct (Z.testbit x 1) eqn:B; [done|]. destruct E. apply Z.bits_inj_0. intros i. rewrite Z.land_spec.
    destruct (Z.eq_dec i 1) as [->|Hi]; [by rewrite B|]. change 2 with (2 ^ 1).
    destruct (Z.ltb_spec i 0); [by rewrite Z.testbit_neg_r|].
    by rewrite Z.pow2_bits_false, andb_false_r by lia.
Qed.

(** Acknowledging clears the bits written as ones (five of them) and keeps the
    others. *)
Lemma ack_bit value flag i :
  0 <= i < 5 -> Z.testbit (Z.land (u32 (Z.lnot (Z.land value 0x1F))) flag) i =
    negb (Z.testbit value i) && Z.testbit flag i.
Proof.
  intros Hi. unfold u32, wrap. rewrite Z.land_spec, Z.mod_pow2_bits_low, Z.lnot_spec, Z.land_spec by lia.
  change 0x1F with (Z.ones 5). by rewrite Z.ones_spec_low, andb_true_r by lia.
Qed.

(** How a write moves the interrupt line and the flag. *)
Lemma write_line oprofile reg crm value r s r' s' :
  pas_cp14_write miss fetch oprofile reg crm value r s = Some (r', s') ->
  if (crm =? 1) && (reg =? CPFLAG)
  then flag_bit r' = negb (Z.testbit value 1) && flag_bit r /\ inten_bit r' = inten_bit r /\
       irq r' = (if inten_bit r && negb (flag_bit r') then false else irq r)
  else flag_bit r' = flag_bit r /\ irq r' = irq r.
Proof.
  unfold pas_cp14_write. intros H. destruct (Z.eqb_spec crm 1) as [->|Hc].
  - cbn [Z.eqb Pos.eqb andb] in *. injection H as <- <-. unfold pxa2xx_perf_write.
    destruct (Z.eqb_spec reg CPFLAG) as [->|Hr].
    + cbn [Z.eqb Pos.eqb CPPMNC CPCCNT CPINTEN CPFLAG]. unfold vpmu_perf_counter_overflow_handled, flag_bit, inten_bit.
      cbn [cp14 core set_core pmu_flag inten irq]. rewrite (ack_bit value _ 1) by lia. split; [done|]. split; [done|].
      rewrite land_bit1.
      replace (Z.land (Z.land (u32 (Z.lnot (Z.land value 31))) (pmu_flag (core (cp14 r)))) 2 =? 0)
        with (negb (negb (Z.testbit value 1) && Z.testbit (pmu_flag (core (cp14 r))) 1)); [done|].
      rewrite <- (ack_bit value _ 1) by lia. by rewrite <- land_bit1, negb_involutive.
    + by repeat case_match.
  - cbn [andb]. unfold pxa2xx_clkpwr_write in H.
    destruct (crm =? 0); [by injection H as <- <-|].
    destruct (crm =? 2); [|by injection H as <- <-].
    destruct (reg =? CPPMN0); [|by destruct (_ || _) in H; injection H as <- <-].
    destruct oprofile; [|by injection H as <- <-].
    destruct (vpmu_hardware_event_select _ _ _ _) as [[x s1]|]; [|done]. by injection H as <- <-.
Qed.

Lemma check_line r s r' s' :
  overflow_check miss fetch r s = Some (r', s') ->
  inten_bit r' = inten_bit r /\
  ((flag_bit r' = flag_bit r /\ irq r' = irq r) \/ (flag_bit r' = true /\ irq r' = true)).
Proof.
  unfold overflow_check. destruct (VPMU_enabled s); [|intros [= <- <-]; by auto].
  destruct (vpmu_hardware_event_select _ _ _ _) as [[x s1]|]; [|done]. cbn [mbind option_bind].
  unfold vpmu_perf_counter_overflow_testing.
  destruct (_ <? _); [|intros [= <- <-]; by auto].
  destruct (_ && _); intros [= <- <-]; split; [done| |done|by auto].
  right. split; [|done]. unfold flag_bit. cbn [cp14 core set_core pmu_flag]. by rewrite Z.lor_spec, orb_true_r.
Qed.

End Line.

Lemma reach_written miss fetch polite polite' reg crm value r s r' s' :
  reach miss fetch polite r -> pas_cp14_write miss fetch true reg crm value r s = Some (r', s') ->
  polite && (negb ((crm =? 1) && (reg =? CPFLAG)) || inten_bit r) = polite' -> reach miss fetch polite' r'.
Proof. intros Hr Hw <-. by eapply reach_write. Qed.

