(* ===== verification/VpmuConfig.v ===== *)
(** * The machine description of the VPMU ([vpmu_config/def-config-*])

    [VPMU_set_config_from_file] reads a file of lines [name,value,]: clock
    frequency, cache latencies, the levels of the caches, then the time of every
    instruction.  The names are never looked at: the n-th line that has a second
    field is setting number n ([VPMU_set_config]).  Two globals, [lev] and [idu],
    remember which cache the settings go to.

    The file is a list of bytes.  The model has the library functions the code
    uses: [fgets] on 255 bytes, [strtok], [strtol] to base 10 (32-bit [long]) and
    [atof] on decimals without exponent of at most 15 digits, for which the
    division is the correctly rounded value. *)
From Stdlib Require Import Floats.SpecFloat.
From S2P Require Import Prelude Mem Config Timing Topology TopologyFormat Vpmu Power.

(** ** The C library *)

Definition c_hash : Z := 35.
Definition c_minus : Z := 45.
Definition c_plus : Z := 43.
Definition c_dot : Z := 46.

(** The string in a buffer: up to the NUL *)
Fixpoint upto_nul (l : list Z) : list Z :=
  match l with
  | [] => []
  | c :: l => if c =? c_nul then [] else c :: upto_nul l
  end.

(** [strtok] with "," called until it returns NULL: the non-empty fields.  [cur]
    is the field being read, in reverse. *)
Fixpoint fields (cur l : list Z) : list (list Z) :=
  let close := match cur with [] => [] | _ => [rev cur] end in
  match l with
  | [] => close
  | c :: l => if c =? c_comma then close ++ fields [] l else fields (c :: cur) l
  end.

(** The digits at the front: value and rest *)
Fixpoint number (l : list Z) (sum : Z) : Z * list Z :=
  match l with
  | c :: l' => if is_digit c then number l' (sum * 10 + (c - 48)) else (sum, l)
  | [] => (sum, [])
  end.

Fixpoint skip_blank (l : list Z) : list Z :=
  match l with
  | c :: l' => if is_space c then skip_blank l' else l
  | [] => []
  end.

Definition sign (l : list Z) : Z * list Z :=
  match l with
  | c :: l' => if c =? c_minus then (-1, l') else if c =? c_plus then (1, l') else (1, l)
  | [] => (1, [])
  end.

(** Saturates at the limits of [long]. *)
Definition strtol (l : list Z) : Z :=
  let '(s, l) := sign (skip_blank l) in
  Z.max (- 2 ^ 31) (Z.min (2 ^ 31 - 1) (s * fst (number l 0))).

Definition atof (l : list Z) : spec_float :=
  let '(s, l) := sign (skip_blank l) in
  let '(whole, l) := number l 0 in
  let x :=
    match l with
    | c :: l' =>
        if c =? c_dot
        then let '(m, l'') := number l' whole in Power.dec m (Z.of_nat (length l') - Z.of_nat (length l''))
        else dZ whole
    | [] => dZ whole
    end in
  if s =? 1 then x else SFopp x.

(** ** VPMU_set_config *)

(** [d4_level_*[idu][lev]], ten arrays of [3][5] in one: size, blocksize,
    subblocksize, assoc, replacement, walloc, wback, fetch,
    prefetch_abortpercent, prefetch_distance. *)
Definition level_cell (field idu lev : Z) : Z := field * 15 + (idu * 5 + lev).

Record config := mk_config {
  cf_vpmu : VPMU; d4_level : arr; arm_instr_time : arr; cf_lev : Z; cf_idu : Z }.

Definition set_machine (freq l1 l2 maxlevel : Z) (v : VPMU) : VPMU :=
  mk_VPMU (USR v) (SVC v) (IRQ v) (sys_call v) (sys_rest v) (v_ticks v) (reduce_ticks v) (v_branch_count v)
    (all_changes_to_PC_count v) (additional_icache_access v) (iomem_test v) (iomem_qemu v)
    (netsend_ns v) (netrecv_ns v) (netsends v) (netrecvs v) (timing_register v) (swi_fired v)
    (cpu_model v) freq maxlevel l1 l2.

Definition with_vpmu (v : VPMU) (c : config) : config :=
  mk_config v (d4_level c) (arm_instr_time c) (cf_lev c) (cf_idu c).

(** [atof(value) * target_cpu_frequency / 1000] *)
Definition latency (value : list Z) (v : VPMU) : option Z :=
  to_uint64 (ddiv (dmul (atof value) (dZ (target_cpu_frequency v))) (dZ 1000)).

(** The settings of a cache level are numbered 4-13, 14-23, 25-34 and 35-44. *)
Definition level_field (config_id : Z) : option Z :=
  if (4 <=? config_id) && (config_id <=? 13) then Some (config_id - 4)
  else if (14 <=? config_id) && (config_id <=? 23) then Some (config_id - 14)
  else if (25 <=? config_id) && (config_id <=? 34) then Some (config_id - 25)
  else if (35 <=? config_id) && (config_id <=? 44) then Some (config_id - 35)
  else None.

(** Letters for the four policies, numbers otherwise ([unsigned] for the first
    four) *)
Definition level_value (field : Z) (value : list Z) : Z :=
  if (4 <=? field) && (field <=? 7) then s8 (nth 0 value c_nul)
  else if field <? 4 then u32 (strtol value) else strtol value.

(** [None]: the latency's conversion is undefined. *)
Definition VPMU_set_config (config_id : Z) (value : list Z) (c : config) : option config :=
  let v := cf_vpmu c in
  if config_id =? 0 then
    Some (with_vpmu (set_machine (u64 (strtol value)) (l1_cache_miss_lat v) (l2_cache_miss_lat v) (d4_maxlevel v) v) c)
  else if config_id =? 1 then
    l ← latency value v;
    Some (with_vpmu (set_machine (target_cpu_frequency v) l (l2_cache_miss_lat v) (d4_maxlevel v) v) c)
  else if config_id =? 2 then
    l ← latency value v;
    Some (with_vpmu (set_machine (target_cpu_frequency v) (l1_cache_miss_lat v) l (d4_maxlevel v) v) c)
  else if (config_id =? 24) || (config_id =? 3) then
    let v := set_machine (target_cpu_frequency v) (l1_cache_miss_lat v) (l2_cache_miss_lat v) (strtol value) v in
    Some (mk_config v (d4_level c) (arm_instr_time c) 0 (if 22 <=? config_id then 2 else 1))
  else
    match level_field config_id with
    | Some field =>
        let levels := (d4_level c).[level_cell field (cf_idu c) (cf_lev c) <- level_value field value] in
        let lev := if field =? 9 then cf_lev c + 1 else cf_lev c in
        Some (mk_config v levels (arm_instr_time c) lev
                (if (field =? 9) && (lev =? 1) then 0 else cf_idu c))
    | None =>
        Some (mk_config v (d4_level c) (arm_instr_time c).[config_id - 45 <- u32 (strtol value)]
                (cf_lev c) (cf_idu c))
    end.

(** ** VPMU_set_config_from_file *)

(** [while (pch != NULL)]: [count] is 0 at the start of a line. *)
Fixpoint set_fields (toks : list (list Z)) (count line : Z) (c : config) : option (Z * config) :=
  match toks with
  | [] => Some (line, c)
  | pch :: toks =>
      let count := count + 1 in
      if count =? 2 then c ← VPMU_set_config line pch c; set_fields toks count (line + 1) c
      else set_fields toks count line c
  end.

(** [fgets(tmp, 255, config_file)] until the end of the file; every line takes
    at least one byte of it. *)
Fixpoint set_lines (fuel : nat) (file : list Z) (line : Z) (c : config) : option (Z * config) :=
  match fuel with
  | O => Some (line, c)
  | S fuel =>
      match take_line 254 file with
      | ([], _) => Some (line, c)
      | (l, rest) =>
          let tmp := upto_nul l in
          '(line, c) ← (if nth 0 tmp c_nul =? c_hash then Some (line, c) else set_fields (fields [] tmp) 0 line c);
          set_lines fuel rest line c
      end
  end.

(** [None] for [file] is [fopen] failing, where the code calls [exit]. *)
Definition VPMU_set_config_from_file (file : option (list Z)) (c : config) : run (option config) :=
  match file with
  | None => ProcExit
  | Some file => Ret (snd <$> set_lines (S (length file)) file 0 c)
  end.

(** ** The text of a configuration *)

Inductive cline := Comment (text : list Z) | Setting (name value : list Z).

Definition render_cline (l : cline) : list Z :=
  match l with
  | Comment text => c_hash :: text ++ [c_nl]
  | Setting name value => name ++ c_comma :: value ++ [c_comma; c_nl]
  end.

(** No NUL, newline or comma *)
Definition plain (c : Z) : Prop := c <> c_nul /\ c <> c_nl /\ c <> c_comma.

Definition cline_ok (l : cline) : Prop :=
  (length (render_cline l) <= 254)%nat /\
  match l with
  | Comment text => Forall (fun c => c <> c_nul /\ c <> c_nl) text
  | Setting name value => name <> [] /\ head name <> Some c_hash /\ value <> [] /\ Forall plain name /\ Forall plain value
  end.

Definition value_of (l : cline) : option (list Z) :=
  match l with Comment _ => None | Setting _ value => Some value end.
Definition values (ls : list cline) : list (list Z) := omap value_of ls.
Definition render_config (ls : list cline) : list Z := concat (map render_cline ls).

(** The settings one after the other, without the text around them *)
Fixpoint run_values (line : Z) (vals : list (list Z)) (c : config) : option config :=
  match vals with
  | [] => Some c
  | v :: vals => c ← VPMU_set_config line v c; run_values (line + 1) vals c
  end.

(** *** Lines *)

Lemma upto_nul_id l : Forall (fun c => c <> c_nul) l -> upto_nul l = l.
Proof.
  induction 1 as [|c l Hc _ IH]; [done|]. cbn [upto_nul]. by rewrite (proj2 (Z.eqb_neq _ _) Hc), IH.
Qed.

Lemma fields_one cur l r :
  Forall plain l -> rev cur ++ l <> [] -> fields cur (l ++ c_comma :: r) = (rev cur ++ l) :: fields [] r.
Proof.
  revert cur. induction l as [|c l IH]; intros cur Hl Hne; cbn [app fields].
  - rewrite Z.eqb_refl, app_nil_r. rewrite app_nil_r in Hne. by destruct cur.
  - inversion Hl as [|? ? (_ & _ & Hc) Hl']; subst. rewrite (proj2 (Z.eqb_neq _ _) Hc).
    rewrite IH; [|done|cbn [rev]; rewrite <- app_assoc; by destruct (rev cur)].
    cbn [rev]. by rewrite <- app_assoc.
Qed.

Lemma fields_setting name value :
  name <> [] -> value <> [] -> Forall plain name -> Forall plain value ->
  fields [] (render_cline (Setting name value)) = [name; value; [c_nl]].
Proof.
  intros. cbn [render_cline]. rewrite fields_one by done. cbn [rev app]. by rewrite fields_one by done.
Qed.

Lemma render_cline_line l :
  cline_ok l -> exists body, render_cline l = body ++ [c_nl] /\ (length body < 254)%nat /\
    Forall (fun c => c <> c_nl) body /\ Forall (fun c => c <> c_nul) (render_cline l).
Proof.
  intros [Hlen Hl]. destruct l as [text|name value]; cbn [render_cline] in *.
  - exists (c_hash :: text). split; [done|]. cbn [length] in *. rewrite length_app in Hlen. cbn in Hlen.
    split; [lia|]. split; (constructor; [done|]); [|apply Forall_app; split; [|by repeat constructor]];
      (eapply Forall_impl; [exact Hl|]); by intros ? [].
  - exists (name ++ c_comma :: value ++ [c_comma]). destruct Hl as (_ & _ & _ & Hn & Hv).
    rewrite !length_app in *. cbn [length] in *. rewrite !length_app in *. cbn in Hlen.
    split; [by rewrite <- app_assoc; cbn; rewrite <- app_assoc|]. split; [cbn; lia|].
    split; (apply Forall_app; split; [eapply Forall_impl; [exact Hn|]; by intros ? (? & ? & ?)|];
      constructor; [done|]; apply Forall_app; split; [eapply Forall_impl; [exact Hv|]; by intros ? (? & ? & ?)|];
      by repeat constructor).
Qed.

(** What one line does to the settings *)
Lemma set_line l line c :
  cline_ok l ->
  (if nth 0 (render_cline l) c_nul =? c_hash then Some (line, c)
   else set_fields (fields [] (render_cline l)) 0 line c) =
  match value_of l with
  | None => Some (line, c)
  | Some v => c ← VPMU_set_config line v c; Some (line + 1, c)
  end.
Proof.
  intros [_ Hl]. destruct l as [text|name value]; [done|].
  destruct Hl as (Hn & Hh & Hv & Pn & Pv). rewrite fields_setting by done.
  destruct name as [|n name]; [done|]. cbn [render_cline app nth].
  destruct (Z.eqb_spec n c_hash) as [->|_]; [by destruct Hh|]. cbn [value_of set_fields Z.add Z.eqb Pos.eqb Pos.add].
  by destruct (VPMU_set_config line value c).
Qed.

Lemma set_lines_render ls fuel line c :
  Forall cline_ok ls -> (length (render_config ls) < fuel)%nat ->
  snd <$> set_lines fuel (render_config ls) line c = run_values line (values ls) c.
Proof.
  intros Hls. revert fuel line c. induction Hls as [|l ls Hl Hls IH]; intros fuel line c Hf;
    (destruct fuel as [|fuel]; [lia|]); [done|].
  destruct (render_cline_line l Hl) as (body & E & Hb & Hnl & Hnul).
  cbn [render_config map concat] in *. fold (render_config ls) in *. cbn [set_lines].
  replace (take_line 254 (render_cline l ++ render_config ls)) with (render_cline l, render_config ls)
    by (rewrite E, <- app_assoc; symmetry; by apply TopologyFormat.take_line_app).
  assert (Hne : render_cline l <> []) by (rewrite E; by destruct body).
  rewrite length_app in Hf.
  destruct (render_cline l) as [|ch tl] eqn:R; [done|]. rewrite upto_nul_id by done. rewrite <- R. cbv zeta.
  rewrite set_line by done. cbn [length] in Hf. cbn [values omap list_omap].
  destruct (value_of l) as [v|]; cbn [mbind option_bind run_values].
  - fold (values ls). destruct (VPMU_set_config line v c) as [c'|]; [|done]. cbn [mbind option_bind]. apply IH. lia.
  - apply IH. lia.
Qed.

(** *** Numbers *)

Definition digits_value (ds : list Z) : Z := foldl (fun s d => s * 10 + (d - 48)) 0 ds.
Definition is_digits (ds : list Z) : Prop := Forall (fun c => is_digit c = true) ds.
(** Not a digit at the front *)
Definition stops (l : list Z) : Prop := match l with [] => True | c :: _ => is_digit c = false end.

Lemma number_digits ds l s :
  is_digits ds -> stops l -> number (ds ++ l) s = (foldl (fun s d => s * 10 + (d - 48)) s ds, l).
Proof.
  intros Hd Hl. revert s. induction Hd as [|d ds Hd _ IH]; intros s; cbn [app number foldl].
  - destruct l as [|c l]; [done|]. cbn [stops] in Hl. by cbn [number]; rewrite Hl.
  - by rewrite Hd.
Qed.

Lemma digit_front ds l :
  is_digits ds -> ds <> [] -> skip_blank (ds ++ l) = ds ++ l /\ sign (ds ++ l) = (1, ds ++ l).
Proof.
  intros Hd Hne. destruct ds as [|d ds]; [done|]. inversion Hd as [|? ? H _]; subst.
  unfold is_digit in H. apply andb_prop in H as [H1%Z.leb_le H2%Z.leb_le].
  cbn [app skip_blank sign]. unfold is_space, c_minus, c_plus.
  rewrite (proj2 (Z.eqb_neq d 32)), (proj2 (Z.leb_gt d 13)), andb_false_r by lia. cbn [orb].
  by rewrite (proj2 (Z.eqb_neq d 45)), (proj2 (Z.eqb_neq d 43)) by lia.
Qed.

Lemma dec_value x : small x -> digits_value (TopologyFormat.dec x) = x.
Proof.
  intros Hx. destruct (dec_fuel_spec 9 x Hx ltac:(lia)) as (_ & H & _). specialize (H 0).
  unfold digits_value, TopologyFormat.dec. lia.
Qed.

Lemma strtol_dec x : small x -> strtol (TopologyFormat.dec x) = x.
Proof.
  intros Hx. assert (Hd : is_digits (TopologyFormat.dec x)) by (by apply dec_digits).
  assert (Hne : TopologyFormat.dec x <> []) by (pose proof (dec_len x Hx) as L; intros E; rewrite E in L; cbn in L; lia).
  unfold strtol. destruct (digit_front (TopologyFormat.dec x) [] Hd Hne) as [E1 E2].
  rewrite app_nil_r in E1, E2. rewrite E1, E2. rewrite <- (app_nil_r (TopologyFormat.dec x)).
  rewrite number_digits by done. cbn [fst]. fold (digits_value (TopologyFormat.dec x)). rewrite dec_value by done.
  unfold small in Hx. lia.
Qed.

(** A decimal: digits before and after the point *)
Definition decimal_text (d : list Z * list Z) : list Z := d.1 ++ c_dot :: d.2.
Definition decimal_ok (d : list Z * list Z) : Prop := is_digits d.1 /\ is_digits d.2 /\ d.1 <> [].
Definition decimal_double (d : list Z * list Z) : spec_float :=
  Power.dec (digits_value (d.1 ++ d.2)) (Z.of_nat (length d.2)).

Lemma atof_decimal d : decimal_ok d -> atof (decimal_text d) = decimal_double d.
Proof.
  destruct d as [w f]. intros (Hw & Hf & Hne). cbn [fst snd] in *. unfold atof, decimal_text, decimal_double. cbn [fst snd].
  destruct (digit_front w (c_dot :: f) Hw Hne) as [-> ->]. rewrite number_digits by done. rewrite Z.eqb_refl.
  rewrite <- (app_nil_r f) at 1. rewrite number_digits by done. cbn [length]. rewrite Z.sub_0_r.
  unfold digits_value. by rewrite foldl_app.
Qed.

(** *** Consecutive cells *)

Fixpoint set_from (g : Z -> Z) (i : Z) (xs : list Z) (a : arr) : arr :=
  match xs with [] => a | x :: xs => set_from g (i + 1) xs a.[g i <- x] end.

Lemma set_from_out g i xs a k :
  (forall j, i <= j < i + Z.of_nat (length xs) -> g j <> k) -> (set_from g i xs a).[k] = a.[k].
Proof.
  revert i a. induction xs as [|x xs IH]; intros i a Hg; [done|]. cbn [set_from]. cbn [length] in Hg.
  rewrite IH by (intros j Hj; apply Hg; lia). apply aget_aset_ne. intros E. apply (Hg i); [lia|done].
Qed.

Lemma set_from_in g i xs a n x :
  (forall j j', g j = g j' -> j = j') -> xs !! n = Some x -> (set_from g i xs a).[g (i + Z.of_nat n)] = x.
Proof.
  intros Hinj. revert i n a. induction xs as [|y xs IH]; intros i n a Hn; [done|]. cbn [set_from].
  destruct n as [|n]; cbn in Hn.
  - injection Hn as ->. rewrite set_from_out; [rewrite Z.add_0_r; apply aget_aset_eq|].
    intros j Hj E. apply Hinj in E. lia.
  - rewrite <- (IH (i + 1) n a.[g i <- y] Hn). do 2 f_equal. lia.
Qed.

(** ** Descriptions of a machine *)

(** A cache level: its ten settings.  The four policies are letters. *)
Definition policy (field : Z) : bool := (4 <=? field) && (field <=? 7).
Definition field_ok (field x : Z) : Prop := if policy field then plain x /\ 0 < x < 128 else small x.
Definition field_text (field x : Z) : list Z := if policy field then [x] else TopologyFormat.dec x.
Fixpoint fields_ok (field : Z) (xs : list Z) : Prop :=
  match xs with [] => True | x :: xs => field_ok field x /\ fields_ok (field + 1) xs end.
Fixpoint fields_text (field : Z) (xs : list Z) : list (list Z) :=
  match xs with [] => [] | x :: xs => field_text field x :: fields_text (field + 1) xs end.
Definition level_ok (xs : list Z) : Prop := length xs = 10%nat /\ fields_ok 0 xs.

Record machine := mk_machine {
  mc_freq : Z; mc_l1_lat : list Z * list Z; mc_l2_lat : list Z * list Z;
  mc_ilevels : Z; mc_i1 : list Z; mc_i2 : list Z;
  mc_dlevels : Z; mc_d1 : list Z; mc_d2 : list Z; mc_times : list Z }.

Definition machine_ok (m : machine) : Prop :=
  small (mc_freq m) /\ decimal_ok (mc_l1_lat m) /\ decimal_ok (mc_l2_lat m) /\
  small (mc_ilevels m) /\ level_ok (mc_i1 m) /\ level_ok (mc_i2 m) /\
  small (mc_dlevels m) /\ level_ok (mc_d1 m) /\ level_ok (mc_d2 m) /\ Forall small (mc_times m).

(** The settings in the order of the file *)
Definition machine_texts (m : machine) : list (list Z) :=
  TopologyFormat.dec (mc_freq m) :: decimal_text (mc_l1_lat m) :: decimal_text (mc_l2_lat m) ::
  TopologyFormat.dec (mc_ilevels m) :: fields_text 0 (mc_i1 m) ++ fields_text 0 (mc_i2 m) ++
  TopologyFormat.dec (mc_dlevels m) :: fields_text 0 (mc_d1 m) ++ fields_text 0 (mc_d2 m) ++
  map TopologyFormat.dec (mc_times m).

(** The latency of a decimal number of nanoseconds, in cycles *)
Definition cycles_of (d : list Z * list Z) (freq : Z) : option Z :=
  to_uint64 (ddiv (dmul (decimal_double d) (dZ freq)) (dZ 1000)).

(** *** Effect of the settings of one level, of the times *)

Definition level_step (idu lev field : Z) (value : list Z) (c : config) : config :=
  let levels := (d4_level c).[level_cell field idu lev <- level_value field value] in
  mk_config (cf_vpmu c) levels (arm_instr_time c) (if field =? 9 then lev + 1 else lev)
    (if (field =? 9) && (lev + 1 =? 1) then 0 else idu).

Definition level_base (base : Z) : Prop := base = 4 \/ base = 14 \/ base = 25 \/ base = 35.

Lemma set_config_level base field value c :
  level_base base -> 0 <= field < 10 ->
  VPMU_set_config (base + field) value c = Some (level_step (cf_idu c) (cf_lev c) field value c).
Proof.
  intros Hb Hf. assert (E : level_field (base + field) = Some field).
  { unfold level_field. destruct Hb as [->|[->|[-> | ->]]];
      repeat (case_match; [match goal with H : (_ && _) = true |- _ =>
        apply andb_prop in H as [?%Z.leb_le ?%Z.leb_le]; f_equal; lia end|
        match goal with H : (_ && _) = false |- _ => apply andb_false_iff in H as [?%Z.leb_gt|?%Z.leb_gt]; try lia end]);
      lia. }
  assert (Hn : base + field <> 0 /\ base + field <> 1 /\ base + field <> 2 /\ base + field <> 3 /\ base + field <> 24)
    by (destruct Hb as [->|[->|[-> | ->]]]; lia).
  destruct Hn as (H0 & H1 & H2 & H3 & H4). unfold VPMU_set_config. rewrite E.
  rewrite !(proj2 (Z.eqb_neq _ _)) by done. cbn [orb]. unfold level_step.
  destruct (Z.eqb_spec field 9); done.
Qed.

Lemma level_value_text field x :
  0 <= field < 10 -> field_ok field x -> level_value field (field_text field x) = x.
Proof.
  unfold level_value, field_ok, field_text, policy. intros Hf Hx. destruct (_ && _).
  - cbn [nth]. unfold s8, u8, wrap. rewrite Z.mod_small by lia. by rewrite (proj2 (Z.ltb_lt _ _)) by lia.
  - rewrite strtol_dec by done. destruct (field <? 4); [|done]. apply u32_small. unfold small in Hx. lia.
Qed.

Lemma run_values_app line v1 v2 c :
  run_values line (v1 ++ v2) c = c ← run_values line v1 c; run_values (line + Z.of_nat (length v1)) v2 c.
Proof.
  revert line c. induction v1 as [|v v1 IH]; intros line c; cbn [app run_values length].
  - cbn [mbind option_bind]. by rewrite Z.add_0_r.
  - destruct (VPMU_set_config line v c) as [c'|]; [|done]. cbn [mbind option_bind]. rewrite IH.
    destruct (run_values (line + 1) v1 c'); [|done]. cbn [mbind option_bind]. f_equal. lia.
Qed.

Lemma run_fields base xs field c :
  level_base base -> 0 <= field -> field + Z.of_nat (length xs) = 10 -> xs <> [] -> fields_ok field xs ->
  run_values (base + field) (fields_text field xs) c =
    Some (mk_config (cf_vpmu c) (set_from (fun f => level_cell f (cf_idu c) (cf_lev c)) field xs (d4_level c))
            (arm_instr_time c) (cf_lev c + 1) (if cf_lev c + 1 =? 1 then 0 else cf_idu c)).
Proof.
  intros Hb. revert field c. induction xs as [|x xs IH]; intros field c H0 Hl Hne Hok; [done|].
  cbn [fields_ok] in Hok. destruct Hok as [Hx Hok]. cbn [fields_text run_values length] in *.
  rewrite set_config_level by (done || lia). cbn [mbind option_bind]. unfold level_step.
  rewrite level_value_text by (done || lia). destruct xs as [|x' xs].
  - assert (field = 9) as -> by (cbn in Hl; lia). done.
  - rewrite !(proj2 (Z.eqb_neq field 9)) by (cbn [length] in Hl; lia). cbn [andb].
    rewrite <- Z.add_assoc, IH by (done || cbn [length] in *; lia). done.
Qed.

Lemma run_level base xs c :
  level_base base -> level_ok xs ->
  run_values base (fields_text 0 xs) c =
    Some (mk_config (cf_vpmu c) (set_from (fun f => level_cell f (cf_idu c) (cf_lev c)) 0 xs (d4_level c))
            (arm_instr_time c) (cf_lev c + 1) (if cf_lev c + 1 =? 1 then 0 else cf_idu c)).
Proof.
  intros Hb [Hl Hok]. rewrite <- (Z.add_0_r base) at 1. apply run_fields; try done; rewrite ?Hl; [lia|by destruct xs].
Qed.

Lemma run_times k ts c :
  0 <= k -> Forall small ts ->
  run_values (45 + k) (map TopologyFormat.dec ts) c =
    Some (mk_config (cf_vpmu c) (d4_level c) (set_from (fun i => i) k ts (arm_instr_time c)) (cf_lev c) (cf_idu c)).
Proof.
  intros Hk Hts. revert k c Hk. induction Hts as [|t ts Ht Hts IH]; intros k c Hk; cbn [map run_values set_from].
  - by destruct c.
  - assert (E : VPMU_set_config (45 + k) (TopologyFormat.dec t) c =
      Some (mk_config (cf_vpmu c) (d4_level c) (arm_instr_time c).[k <- t] (cf_lev c) (cf_idu c))).
    { unfold VPMU_set_config, level_field.
      rewrite !(proj2 (Z.eqb_neq (45 + k) _)) by lia. rewrite !(proj2 (Z.leb_gt (45 + k) _)) by lia.
      rewrite !andb_false_r. cbn [orb]. rewrite strtol_dec, u32_small by (done || (unfold small in Ht; lia)).
      do 3 f_equal. lia. }
    rewrite E. cbn [mbind option_bind]. rewrite <- Z.add_assoc, IH by lia. done.
Qed.

Lemma fields_text_length field xs : length (fields_text field xs) = length xs.
Proof. revert field. induction xs as [|x xs IH]; intros field; [done|]. cbn. by rewrite IH. Qed.

(** The levels written in the order of the file: the unified second level twice *)
Definition machine_levels (m : machine) (a : arr) : arr :=
  let put idu lev xs a := set_from (fun f => level_cell f idu lev) 0 xs a in
  put 0 1 (mc_d2 m) (put 2 0 (mc_d1 m) (put 0 1 (mc_i2 m) (put 1 0 (mc_i1 m) a))).

(** *** The single settings *)

Definition machine_is (freq l1 l2 maxlevel : Z) (c : config) : config :=
  with_vpmu (set_machine freq l1 l2 maxlevel (cf_vpmu c)) c.

Lemma set_config_freq x c :
  small x ->
  VPMU_set_config 0 (TopologyFormat.dec x) c =
    Some (machine_is x (l1_cache_miss_lat (cf_vpmu c)) (l2_cache_miss_lat (cf_vpmu c)) (d4_maxlevel (cf_vpmu c)) c).
Proof.
  intros Hx. unfold VPMU_set_config, machine_is. cbn [Z.eqb].
  by rewrite strtol_dec, u64_small by (done || (unfold small in Hx; lia)).
Qed.

Lemma set_config_l1 d c l :
  decimal_ok d -> cycles_of d (target_cpu_frequency (cf_vpmu c)) = Some l ->
  VPMU_set_config (0 + 1) (decimal_text d) c =
    Some (machine_is (target_cpu_frequency (cf_vpmu c)) l (l2_cache_miss_lat (cf_vpmu c)) (d4_maxlevel (cf_vpmu c)) c).
Proof.
  intros Hd Hl. unfold VPMU_set_config, machine_is, latency. rewrite atof_decimal by done.
  unfold cycles_of in Hl. by rewrite Hl.
Qed.

Lemma set_config_l2 d c l :
  decimal_ok d -> cycles_of d (target_cpu_frequency (cf_vpmu c)) = Some l ->
  VPMU_set_config (0 + 1 + 1) (decimal_text d) c =
    Some (machine_is (target_cpu_frequency (cf_vpmu c)) (l1_cache_miss_lat (cf_vpmu c)) l (d4_maxlevel (cf_vpmu c)) c).
Proof.
  intros Hd Hl. unfold VPMU_set_config, machine_is, latency. rewrite atof_decimal by done.
  unfold cycles_of in Hl. by rewrite Hl.
Qed.

Definition level_start (maxlevel idu : Z) (c : config) : config :=
  let v := cf_vpmu c in
  mk_config (set_machine (target_cpu_frequency v) (l1_cache_miss_lat v) (l2_cache_miss_lat v) maxlevel v)
    (d4_level c) (arm_instr_time c) 0 idu.

Lemma set_config_ilevels x c :
  small x -> VPMU_set_config 3 (TopologyFormat.dec x) c = Some (level_start x 1 c).
Proof. intros Hx. unfold VPMU_set_config, level_start. by rewrite strtol_dec. Qed.

Lemma set_config_dlevels x c :
  small x -> VPMU_set_config 24 (TopologyFormat.dec x) c = Some (level_start x 2 c).
Proof. intros Hx. unfold VPMU_set_config, level_start. by rewrite strtol_dec. Qed.

Lemma run_cons line v vs c c' :
  VPMU_set_config line v c = Some c' -> run_values line (v :: vs) c = run_values (line + 1) vs c'.
Proof. intros E. cbn [run_values]. by rewrite E. Qed.

Lemma run_level_cons base xs vs v lv ts lev idu :
  level_base base -> level_ok xs ->
  run_values base (fields_text 0 xs ++ vs) (mk_config v lv ts lev idu) =
  run_values (base + 10) vs
    (mk_config v (set_from (fun f => level_cell f idu lev) 0 xs lv) ts (lev + 1) (if lev + 1 =? 1 then 0 else idu)).
Proof.
  intros Hb Hx. rewrite run_values_app, run_level by done. cbn [mbind option_bind cf_vpmu d4_level arm_instr_time cf_lev cf_idu].
  by rewrite fields_text_length, (proj1 Hx).
Qed.

Lemma run_machine m c l1 l2 :
  machine_ok m -> cycles_of (mc_l1_lat m) (mc_freq m) = Some l1 -> cycles_of (mc_l2_lat m) (mc_freq m) = Some l2 ->
  run_values 0 (machine_texts m) c =
    Some (mk_config (set_machine (mc_freq m) l1 l2 (mc_dlevels m) (cf_vpmu c)) (machine_levels m (d4_level c))
            (set_from (fun i => i) 0 (mc_times m) (arm_instr_time c)) 2 0).
Proof.
  intros (Hf & Hd1 & Hd2 & Hi & Li1 & Li2 & Hdl & Ld1 & Ld2 & Hts) E1 E2. unfold machine_texts.
  erewrite run_cons by (by apply set_config_freq). erewrite run_cons by (apply set_config_l1; [done|exact E1]).
  erewrite run_cons by (apply set_config_l2; [done|exact E2]). change (0 + 1 + 1 + 1) with 3.
  erewrite run_cons by (by apply set_config_ilevels).
  unfold level_start. change (3 + 1) with 4.
  rewrite run_level_cons, run_level_cons by (done || (by left) || (by right; left)).
  change (4 + 10 + 10) with 24. erewrite run_cons by (by apply set_config_dlevels).
  unfold level_start. cbn [cf_vpmu d4_level arm_instr_time]. change (24 + 1) with 25.
  rewrite run_level_cons, run_level_cons by (done || (by right; right; left) || (by right; right; right)).
  change (25 + 10 + 10) with (45 + 0). by rewrite run_times.
Qed.

Lemma level_cell_inj idu lev f f' : level_cell f idu lev = level_cell f' idu lev -> f = f'.
Proof. unfold level_cell. lia. Qed.

Lemma put_same idu lev xs a n x :
  xs !! n = Some x -> (set_from (fun f => level_cell f idu lev) 0 xs a).[level_cell (Z.of_nat n) idu lev] = x.
Proof. intros Hn. exact (set_from_in _ 0 xs a n x (level_cell_inj idu lev) Hn). Qed.

Lemma put_other idu lev idu' lev' xs a f :
  0 <= lev < 5 -> 0 <= lev' < 5 -> 0 <= idu < 3 -> 0 <= idu' < 3 -> (idu, lev) <> (idu', lev') ->
  (set_from (fun f => level_cell f idu lev) 0 xs a).[level_cell f idu' lev'] = a.[level_cell f idu' lev'].
Proof.
  intros H1 H2 H3 H4 Hne. apply set_from_out. intros j _ E. unfold level_cell in E. apply Hne.
  assert (idu = idu' /\ lev = lev') as [-> ->] by lia. done.
Qed.


(** ** An example *)

#[export] Instance plain_dec c : Decision (plain c).
Proof. unfold plain. apply _. Defined.
#[export] Instance cline_ok_dec l : Decision (cline_ok l).
Proof. unfold cline_ok. destruct l; apply _. Defined.
#[export] Instance field_ok_dec field x : Decision (field_ok field x).
Proof. unfold field_ok, small. destruct (policy field); apply _. Defined.
#[export] Instance fields_ok_dec field xs : Decision (fields_ok field xs).
Proof. revert field. induction xs as [|x xs IH]; intros field; cbn [fields_ok]; apply _. Defined.
#[export] Instance machine_ok_dec m : Decision (machine_ok m).
Proof. unfold machine_ok, decimal_ok, is_digits, level_ok, small. apply _. Defined.

(** The Cortex-A9 of the repository, with the times of the first three
    instructions: l1_cache_miss_latency is 29.54, l2_cache_miss_latency 110.9. *)
Definition cortex_a9 : machine :=
  let l1 := [32768; 32; 32; 4; 114; 110; 97; 100; 0; 1] in
  let l2 := [1048576; 64; 64; 8; 114; 110; 97; 100; 0; 1] in
  mk_machine 1000 ([50; 57], [53; 52]) ([49; 49; 48], [57]) 2 l1 l2 2 l1 l2 [1; 1; 1].

(** Every setting is called [x]. *)
Definition cortex_a9_lines : list cline := Comment [35; 32; 67; 80; 85] :: map (Setting [120]) (machine_texts cortex_a9).

Definition config0 : config := mk_config (vpmu0 TIMING_MODEL_A) ∅ ∅ 0 0.

