(* ===== verification/VpmuDevice.v ===== *)
(** * The VPMU as a device ([special_read] and [special_write] of
    [hw/vpmu-device.c])

    The guest turns the VPMU on and off and chooses its timing model by writing
    to offset 0 of the device; other offsets set the network and battery mode of
    the power model, take the CPU load of the last interval and print counters.
    Turning it on resets every counter and reads the machine's configuration
    again ([VPMU_reset]).  Reports go to files and the terminal and are left out
    (see [Report] for how numbers are printed); what printing changes, the
    estimate of [Power] and the predictor's published counters, is here.  A run
    ends in [ProcExit] when the configuration file cannot be opened; [None] is an
    undefined conversion from [double]. *)
From Stdlib Require Import Floats.SpecFloat.
From S2P Require Import Prelude Mem Config Timing Topology Branch Vpmu Power PerfRegs VpmuConfig.

(** ** State *)

(** [d_levels .. d_idu]: the configuration besides the fields of [VPMU];
    [d_miss], [d_fetch]: the statistics of the caches. *)
Record device := mk_device {
  d_unit : unit_state; ARM_count : arr; d_levels : arr; d_times : arr; d_lev : Z; d_idu : Z;
  d_miss : Z -> Z -> Z -> Z; d_fetch : Z -> Z -> Z -> Z;
  d_sampler : sampler; ISR_addr : arr; find_entry : Z }.

Definition with_unit (u : unit_state) (d : device) : device :=
  mk_device u (ARM_count d) (d_levels d) (d_times d) (d_lev d) (d_idu d) (d_miss d) (d_fetch d)
    (d_sampler d) (ISR_addr d) (find_entry d).

Definition with_vpmu (v : VPMU) (u : unit_state) : unit_state :=
  mk_unit v (un_bp u) (iomem_count u) (un_est u) (un_dev u) (VPMU_enabled u).
Definition with_adev (a : android_dev_stat) (u : unit_state) : unit_state :=
  mk_unit (un_vpmu u) (un_bp u) (iomem_count u) (un_est u) a (VPMU_enabled u).
Definition set_enabled (b : bool) (u : unit_state) : unit_state :=
  mk_unit (un_vpmu u) (un_bp u) (iomem_count u) (un_est u) (un_dev u) b.

(** ** VPMU_reset *)

(** [ResetCache] on each cache of [d4_levcache[3][5]] *)
Definition ResetCache (stat : Z -> Z -> Z -> Z) (idu lev type : Z) : Z :=
  if (0 <=? idu) && (idu <? 3) && (0 <=? lev) && (lev <? 5) && (0 <=? type) && (type <=? 2)
  then 0 else stat idu lev type.

(** [ARM_INSTRUCTIONS + 2] *)
Definition ARM_COUNTS : nat := 174.

Definition reset_unit (u : unit_state) : unit_state :=
  mk_unit (VPMU_reset (un_vpmu u)) (un_bp u) 0 (mk_estimate 0 0 0 (mpu_power (un_est u))) (un_dev u) (VPMU_enabled u).

(** The counters, then the configuration file of the CPU model *)
Definition reset (files : Z -> option (list Z)) (d : device) : run (option device) :=
  let u := reset_unit (d_unit d) in
  c ← VPMU_set_config_from_file (files (cpu_model (un_vpmu u)))
        (mk_config (un_vpmu u) (d_levels d) (d_times d) (d_lev d) (d_idu d));
  Ret (c ← c;
       Some (mk_device (with_vpmu (cf_vpmu c) u) (forZ 0 ARM_COUNTS (fun a i => a.[i <- 0]) (ARM_count d))
               (d4_level c) (arm_instr_time c) (cf_lev c) (cf_idu c)
               (ResetCache (d_miss d)) (ResetCache (d_fetch d)) (d_sampler d) (ISR_addr d) (find_entry d))).

(** ** special_write *)

Definition VPMU_MMAP_ENABLE : Z := 0x0000.
Definition VPMU_MMAP_BYPASS_ISR_ADDR : Z := 0x0008.
Definition VPMU_MMAP_POWER_ENABLE : Z := 0x0100.
Definition VPMU_MMAP_BYPASS_CPU_UTIL : Z := 0x0104.
Definition VPMU_MMAP_SELECT_NET_MODE : Z := 0x0108.
Definition VPMU_MMAP_BATTERY_ENABLE : Z := 0x010c.
Definition NUM_FIND_SYMBOLS : Z := 1.

Definition set_timing (reg : Z) (v : VPMU) : VPMU :=
  mk_VPMU (USR v) (SVC v) (IRQ v) (sys_call v) (sys_rest v) (v_ticks v) (reduce_ticks v) (v_branch_count v)
    (all_changes_to_PC_count v) (additional_icache_access v) (iomem_test v) (iomem_qemu v)
    (netsend_ns v) (netrecv_ns v) (netsends v) (netrecvs v) reg (swi_fired v)
    (cpu_model v) (target_cpu_frequency v) (d4_maxlevel v) (l1_cache_miss_lat v) (l2_cache_miss_lat v).

(** The model the value selects; [None]: value 7 lists processes instead. *)
Definition enable_model (value : Z) : option Z :=
  if value =? 2 then Some TIMING_MODEL_A
  else if value =? 3 then Some TIMING_MODEL_B
  else if value =? 4 then Some TIMING_MODEL_C
  else if value =? 5 then Some TIMING_MODEL_D
  else if value =? 6 then Some TIMING_MODEL_E
  else if value =? 7 then None
  else Some TIMING_MODEL_C.

Definition setup_model (value : Z) (u : unit_state) : unit_state :=
  let u := set_enabled true u in
  match enable_model value with
  | Some m => with_vpmu (set_timing (fst (vpmu_model_setup m)) (un_vpmu u)) u
  | None => u
  end.

(** [branch_update(BRANCH_PREDICT_SYNC)], which every report does *)
Definition sync_predictor (u : unit_state) : unit_state :=
  match vpmu_branch_predict PREDICT_CORRECT (un_bp u) with Ret (_, b) => with_bp b u | _ => u end.

(** [n] calls of [vpmu_estimated_execution_time]: a [DBG] has three uses of its
    arguments. *)
Fixpoint print_time (n : nat) (miss : Z -> Z -> Z -> Z) (u : unit_state) : option unit_state :=
  match n with
  | O => Some u
  | S n => '(_, e) ← vpmu_estimated_execution_time miss (un_vpmu u) (un_est u); print_time n miss (with_est e u)
  end.

(** value 16: the total power, then that of the processor *)
Definition print_power (miss : Z -> Z -> Z -> Z) (u : unit_state) : option unit_state :=
  '(_, e) ← vpmu_vpd_total_power miss (VPMU_enabled u) (un_vpmu u) (un_est u) (un_dev u);
  '(_, e) ← vpmu_vpd_mpu_power miss (VPMU_enabled u) (un_vpmu u) e (un_dev u);
  Some (with_est e u).

Definition write_enable (files : Z -> option (list Z)) (value : Z) (d : device) : run (option device) :=
  let on_unit (u : option unit_state) := Ret (u ← u; Some (with_unit u d)) in
  if (value =? 0) || ((value <=? 10) && (2 <=? value)) then
    d ← reset files d;
    Ret (d ← d; Some (with_unit (setup_model value (d_unit d)) d))
  else if value =? 1 then
    let u := sync_predictor (set_enabled false (d_unit d)) in
    on_unit (print_time 1 (d_miss d) u)
  else if value =? 11 then on_unit (Some (sync_predictor (d_unit d)))
  else if value =? 16 then on_unit (print_power (d_miss d) (d_unit d))
  else Ret (Some d).

Definition set_net_mode (mode : Z) (a : android_dev_stat) : android_dev_stat :=
  mk_adev (cpu_util a) (lcd_brightness a) (audio_buf a) (audio_on a) mode (net_on a)
    (net_packets a) (gps_status a) (battery_sim a) (energy_left a) (bat_ac_online a) (bat_capacity a).
Definition set_battery_sim (x : Z) (a : android_dev_stat) : android_dev_stat :=
  mk_adev (cpu_util a) (lcd_brightness a) (audio_buf a) (audio_on a) (net_mode a) (net_on a)
    (net_packets a) (gps_status a) x (energy_left a) (bat_ac_online a) (bat_capacity a).

Definition special_write (files : Z -> option (list Z)) (addr value : Z) (d : device) : run (option device) :=
  let u := d_unit d in
  let a := un_dev u in
  if addr =? VPMU_MMAP_ENABLE then write_enable files value d
  else if addr =? VPMU_MMAP_BYPASS_ISR_ADDR then
    Ret (Some (if find_entry d <? NUM_FIND_SYMBOLS
               then mk_device u (ARM_count d) (d_levels d) (d_times d) (d_lev d) (d_idu d) (d_miss d) (d_fetch d)
                      (d_sampler d) (ISR_addr d).[find_entry d <- value] (find_entry d + 1)
               else d))
  else if addr =? 0x0015 then Ret (u ← print_time 3 (d_miss d) u; Some (with_unit u d))
  else if addr =? VPMU_MMAP_BYPASS_CPU_UTIL then
    Ret ('(p, e, a) ← bypass_cpu_util (d_miss d) (VPMU_enabled u) (un_vpmu u) value (d_sampler d, un_est u, a);
         Some (mk_device (with_adev a (with_est e u)) (ARM_count d) (d_levels d) (d_times d) (d_lev d) (d_idu d)
                 (d_miss d) (d_fetch d) p (ISR_addr d) (find_entry d)))
  else if addr =? VPMU_MMAP_SELECT_NET_MODE then
    Ret (Some (with_unit (if (0 <=? value) || (value <=? 2) then with_adev (set_net_mode (s8 value) a) u else u) d))
  else if addr =? VPMU_MMAP_BATTERY_ENABLE then
    Ret (Some (with_unit (if (value =? 0) || (value =? 1) then with_adev (set_battery_sim (s8 value) a) u else u) d))
  else Ret (Some d).

(** Without the PAC Duo's registers every offset reads as 0. *)
Definition special_read (addr : Z) (d : device) : Z := 0.

(** ** Turning the VPMU on *)

(** *** The configuration leaves the counters alone. *)

Definition configures (v v' : VPMU) : Prop := exists f l1 l2 m, v' = set_machine f l1 l2 m v.

#[export] Instance configures_preorder : PreOrder configures.
Proof.
  split.
  - intros v. exists (target_cpu_frequency v), (l1_cache_miss_lat v), (l2_cache_miss_lat v), (d4_maxlevel v).
    by destruct v.
  - intros v1 v2 v3 (f & l1 & l2 & m & ->) (f' & l1' & l2' & m' & ->). by exists f', l1', l2', m'.
Qed.

Lemma set_config_configures line value c c' :
  VPMU_set_config line value c = Some c' -> configures (cf_vpmu c) (cf_vpmu c').
Proof.
  unfold VPMU_set_config. intros H.
  repeat (case_match; simplify_option_eq; try (by do 4 eexists); try done).
Qed.

Lemma set_fields_configures toks count line c line' c' :
  set_fields toks count line c = Some (line', c') -> configures (cf_vpmu c) (cf_vpmu c').
Proof.
  revert count line c. induction toks as [|t toks IH]; intros count line c; cbn [set_fields].
  - by intros [= _ <-].
  - destruct (_ =? 2); [|apply IH].
    destruct (VPMU_set_config line t c) as [c1|] eqn:E; [|done]. cbn [mbind option_bind]. intros H.
    transitivity (cf_vpmu c1); [by eapply set_config_configures|by eapply IH].
Qed.

Lemma config_configures file c c' :
  VPMU_set_config_from_file file c = Ret (Some c') -> configures (cf_vpmu c) (cf_vpmu c').
Proof.
  destruct file as [file|]; [|done]. cbn [VPMU_set_config_from_file].
  generalize (S (length file)) as fuel, 0 as line. intros fuel line H.
  destruct (set_lines fuel file line c) as [[l c1]|] eqn:E; [|done]. cbn in H. injection H as ->.
  revert file line c E. induction fuel as [|fuel IH]; intros file line c; cbn [set_lines]; [by intros [= _ <-]|].
  destruct (take_line 254 file) as [[|ch tl] rest]; [by intros [= _ <-]|]. cbv zeta.
  destruct (nth 0 (upto_nul (ch :: tl)) c_nul =? c_hash); cbn [mbind option_bind]; [apply IH|].
  destruct (set_fields _ 0 line c) as [[line1 c2]|] eqn:F; [|done]. cbn [mbind option_bind]. intros H.
  transitivity (cf_vpmu c2); [by eapply set_fields_configures|by eapply IH].
Qed.

(** *** Nothing has happened yet *)

(** A clock frequency in MHz for which a time of no cycles is 0 *)
Definition mhz_ok (f : Z) : bool :=
  match ddiv (dZ f) (dZ 1000) with S754_finite false _ _ => true | _ => false end.
Definition clock_mhz (f : Z) : Prop := 1 <= f <= 4000.

Lemma clock_mhz_ok f : clock_mhz f -> mhz_ok f = true.
Proof.
  intros [H1 H2].
  assert (H : forallb mhz_ok (seqZ 1 4000) = true) by (vm_compute; reflexivity).
  rewrite forallb_forall in H. apply H, list_elem_of_In, elem_of_seqZ. lia.
Qed.

Lemma no_cycles v : clock_mhz (target_cpu_frequency v) -> cycles_to_ns v 0 = Some 0.
Proof.
  intros H%clock_mhz_ok. unfold mhz_ok in H. unfold cycles_to_ns.
  by destruct (ddiv (dZ (target_cpu_frequency v)) (dZ 1000)) as [| | |[] ].
Qed.

(** The VPMU just turned on *)
Definition started (reg f l1 l2 ml : Z) (v : VPMU) : VPMU := set_timing reg (set_machine f l1 l2 ml (VPMU_reset v)).

(** Events that are not counters: the predictor's and the powers *)
Definition not_counters : list Z := [0x21; 0x22; 0xf0; 0xf3; 0xf4; 0xf5; 0xf6; 0xff].

Section Started.
Context (miss0 fetch0 : Z -> Z -> Z -> Z) (reg f l1 l2 ml : Z) (v0 : VPMU).
Let v := started reg f l1 l2 ml v0.
Let miss := ResetCache miss0.
Let fetch := ResetCache fetch0.

Lemma started_cycles :
  vpmu_cycle_count miss v = 0 /\ vpmu_sys_memory_access_cycle_count miss v = 0 /\
  vpmu_io_memory_access_cycle_count v = 0.
Proof.
  split_and!.
  - unfold vpmu_cycle_count, vpmu_L1_dcache_miss_count, vpmu_L1_icache_miss_count, vpmu_L2_dcache_miss_count. cbv zeta.
    change (miss 2 0 D4XREAD) with 0. change (miss 2 0 D4XWRITE) with 0. change (miss 1 0 D4XINSTRN) with 0.
    change (miss 0 1 D4XREAD) with 0. change (miss 0 1 D4XWRITE) with 0.
    destruct (1 <? d4_maxlevel v), (model_of v =? TIMING_MODEL_C); try done; by destruct (_ || _).
  - unfold vpmu_sys_memory_access_cycle_count. by destruct (cpu_model v =? 1).
  - done.
Qed.

Lemma started_clock : clock_mhz f -> clock_of miss v = Some (mk_clock 0 0 0 0 0).
Proof.
  intros Hf. destruct started_cycles as (_ & Em & Ei).
  unfold clock_of, vpmu_estimated_pipeline_execution_time_ns, vpmu_estimated_io_memory_access_time_ns,
    vpmu_estimated_sys_memory_access_time_ns. rewrite Em, Ei. change (vpmu_pipeline_cycle_count v) with 0.
  by rewrite !no_cycles.
Qed.

Lemma started_event ev u :
  clock_mhz f -> un_vpmu u = v -> iomem_count u = 0 -> ev ∉ not_counters ->
  vpmu_hardware_event_select miss fetch ev u = Some (0, u).
Proof.
  intros Hf Hv Hi Hev. destruct started_cycles as (Ec & Em & Ei).
  assert (Et : vpmu_estimated_execution_time_ns miss v = Some 0)
    by (by rewrite clock_of_time, started_clock).
  assert (Hp : cycles_to_ns v 0 = Some 0) by (by apply no_cycles).
  unfold vpmu_hardware_event_select, vpmu_estimated_pipeline_execution_time_ns, vpmu_estimated_io_memory_access_time_ns,
    vpmu_estimated_sys_memory_access_time_ns.
  rewrite Hv, Hi, Ec, Em, Ei, Et. change (vpmu_pipeline_cycle_count v) with 0. rewrite Hp. cbv zeta.
  assert (Hne : forall n, n ∈ not_counters -> (ev =? n) = false)
    by (intros n Hn; apply Z.eqb_neq; by intros ->).
  rewrite (Hne 0x21), (Hne 0x22), (Hne 0xf0), (Hne 0xf3), (Hne 0xf4), (Hne 0xf5), (Hne 0xf6), (Hne 0xff)
    by (unfold not_counters; set_solver).
  repeat match goal with |- (if ?b then _ else _) = _ => destruct b; [reflexivity|] end. done.
Qed.
End Started.

(** Turning the VPMU on.  Writing 0, 2 to 6 or 8 to 10 to the enable
    register starts from nothing: the timing model's simulators are on, every
    counter the event selector knows reads 0, and the estimated time, which is
    the clock of the network node, starts again at 0, provided the configuration
    file gives a clock of 1 to 4000 MHz.  Only the predictor's two counts go on:
    they live in statics of [branch_update] that [VPMU_reset] does not reach. *)
Theorem vpmu_enable files value d file c' m :
  let u := d_unit d in
  value = 0 \/ 2 <= value <= 10 -> enable_model value = Some m ->
  files (cpu_model (un_vpmu u)) = Some file ->
  VPMU_set_config_from_file (Some file)
    (mk_config (VPMU_reset (un_vpmu u)) (d_levels d) (d_times d) (d_lev d) (d_idu d)) = Ret (Some c') ->
  clock_mhz (target_cpu_frequency (cf_vpmu c')) ->
  exists d', special_write files VPMU_MMAP_ENABLE value d = Ret (Some d') /\
    let u' := d_unit d' in
    VPMU_enabled u' = true /\ timing_register (un_vpmu u') = fst (vpmu_model_setup m) /\
    (forall ev, ev ∉ not_counters ->
       vpmu_hardware_event_select (d_miss d') (d_fetch d') ev u' = Some (0, u')) /\
    clock_of (d_miss d') (un_vpmu u') = Some (mk_clock 0 0 0 0 0) /\
    fst <$> vpmu_hardware_event_select (d_miss d') (d_fetch d') 0x21 u' = Some (predict_correct (un_bp u)).
Proof.
  intros u Hval Hm Hfile Hc Hf. unfold special_write, write_enable. cbn [Z.eqb VPMU_MMAP_ENABLE].
  replace ((value =? 0) || _) with true
    by (symmetry; apply orb_true_iff; destruct Hval as [->|?]; [by left|right; apply andb_true_intro; split; apply Z.leb_le; lia]).
  unfold reset. fold u. cbn [un_vpmu reset_unit].
  change (cpu_model (VPMU_reset (un_vpmu u))) with (cpu_model (un_vpmu u)). rewrite Hfile, Hc.
  cbn [mbind run_bind option_bind]. eexists. split; [reflexivity|].
  destruct (config_configures _ _ _ Hc) as (f & l1 & l2 & ml & E). cbn [cf_vpmu] in E. rewrite E in *.
  cbn [target_cpu_frequency set_machine] in Hf.
  unfold setup_model. rewrite Hm. cbn [d_unit d_miss d_fetch with_unit un_vpmu with_vpmu set_enabled VPMU_enabled].
  split; [done|]. split; [done|]. split; [|split].
  - intros ev Hev. by apply (started_event _ _ (fst (vpmu_model_setup m)) f l1 l2 ml (un_vpmu u)).
  - by apply (started_clock _ (fst (vpmu_model_setup m)) f l1 l2 ml (un_vpmu u)).
  - done.
Qed.

(** The Cortex-A9's file, model E, after 1000 user instructions and 5 right
    predictions *)
Definition demo_device : device :=
  let u := demo_unit 1000 in
  mk_device (mk_unit (un_vpmu u) (mk_bp 1 5 3 0 0) 7 (un_est u) (un_dev u) false) ∅ ∅ ∅ 0 0
    (fun i l t => 9) (fun i l t => 90) (mk_sampler 0 0 0 0) ∅ 0.
Definition demo_files (model : Z) : option (list Z) := Some (render_config cortex_a9_lines).

Theorem vpmu_enable_witness :
  exists d', special_write demo_files VPMU_MMAP_ENABLE 6 demo_device = Ret (Some d') /\
    fst <$> vpmu_hardware_event_select (d_miss d') (d_fetch d') 0 (d_unit d') = Some 0 /\
    fst <$> vpmu_hardware_event_select (d_miss d') (d_fetch d') 0x21 (d_unit d') = Some 5.
Proof.
  set (d := demo_device). set (u := d_unit d).
  set (r := VPMU_set_config_from_file (Some (render_config cortex_a9_lines))
              (mk_config (VPMU_reset (un_vpmu u)) (d_levels d) (d_times d) (d_lev d) (d_idu d))).
  set (c' := match r with Ret (Some c') => c' | _ => mk_config (un_vpmu u) ∅ ∅ 0 0 end).
  assert (Hc : r = Ret (Some c')) by (vm_compute; reflexivity).
  assert (Hf : clock_mhz (target_cpu_frequency (cf_vpmu c'))) by (vm_compute; split; discriminate).
  clearbody c'. subst r.
  assert (H1 : 6 = 0 \/ 2 <= 6 <= 10) by (right; split; discriminate).
  assert (H2 : enable_model 6 = Some TIMING_MODEL_E) by (vm_compute; reflexivity).
  assert (H3 : demo_files (cpu_model (un_vpmu u)) = Some (render_config cortex_a9_lines)) by (vm_compute; reflexivity).
  pose proof (vpmu_enable demo_files 6 d (render_config cortex_a9_lines) c' TIMING_MODEL_E H1 H2 H3 Hc Hf) as H.
  destruct H as (d' & E & _ & _ & He & _ & Hp).
  exists d'. split; [exact E|]. split; [|exact Hp].
  assert (H0 : 0 ∉ not_counters) by (apply (bool_decide_eq_true_1 (0 ∉ not_counters)); vm_compute; reflexivity).
  exact (f_equal (fmap fst) (He 0 H0)).
Defined.
