(* ===== verification/BranchSession.v ===== *)
(** * A session of the branch predictor ([hw/vpmu-device.c], [target-arm/op_vpmu.c])

    [HELPER(branch_predictor)] puts signals into the ring of [put_event] while the
    VPMU is on; [branch_thread] works them off and suspends itself when the VPMU is off;
    [vpmu_branch_predict] waits until the ring is empty.  While the VPMU stays on, a
    session ends in every interleaving with the counts of the two-bit machine
    ([branch_session]); when it is turned off with two signals or more in the
    ring, the wait of the report never ends ([report_hangs]). *)
From S2P Require Import Prelude Mem Config Timing Branch Vpmu.

(** ** State *)

(** What the CPU thread does *)
Inductive branch_op :=
| BranchSignal (cur_sig : Z)   (* HELPER(branch_predictor) *)
| BranchRead (request : Z)     (* vpmu_branch_predict *)
| SetOn (b : bool)
| SetModel (model : Z).        (* vpmu_model_setup *)

(** Where [branch_thread] is: before its outer test, behind it, at [SUSPEND], in
    [pthread_cond_wait] *)
Inductive branch_at := Outer | Inner | Suspending | Sleeping.

Record session := mk_session {
  b_todo : list branch_op; b_on : bool; b_reg : Z; b_ring : ring Z; b_at : branch_at; b_pred : bp * Z; b_read : list Z }.

Definition branch_sim (reg : Z) : bool := negb (Z.land reg VPMU_BRANCH_SIM =? 0).
Definition signals (s : session) : bool := b_on s && negb (vpmu_simulator_status (b_reg s) VPMU_BRANCH_SIM =? 0).

(** The accesses to the ring, on both sides of its counter *)
Definition store_signal (x : Z) (r : ring Z) : ring Z :=
  mk_ring (<[head r := x]> (slots r)) (head r) (tail r) (used r) (PStored x) (r_cons r) (put r) (got r).
Definition count_signal (x : Z) (r : ring Z) : ring Z :=
  mk_ring (slots r) ((head r + 1) mod BRANCH_QUEUE_SIZE) (tail r) (used r + 1) PReady (r_cons r) (put r ++ [x]) (got r).
Definition take_signal (x : Z) (r : ring Z) : ring Z :=
  mk_ring (<[tail r := 33]> (slots r)) (head r) (tail r) (used r) (r_prod r) CTaken (put r) (got r ++ [x]).
Definition release_signal (r : ring Z) : ring Z :=
  mk_ring (slots r) (head r) ((tail r + 1) mod BRANCH_QUEUE_SIZE) (used r - 1) (r_prod r) CWait (put r) (got r).

Definition wake (signal : bool) (w : branch_at) : branch_at := match w with Sleeping => if signal then Outer else Sleeping | _ => w end.

(** The wait for the signal may also end without one. *)
Inductive session_step : session -> session -> Prop :=
| cpu_skips x l on reg r w p out : on && negb (vpmu_simulator_status reg VPMU_BRANCH_SIM =? 0) = false -> r_prod r = PReady ->
    session_step (mk_session (BranchSignal x :: l) on reg r w p out) (mk_session l on reg r w p out)
| cpu_stores x l on reg r w p out : on && negb (vpmu_simulator_status reg VPMU_BRANCH_SIM =? 0) = true -> r_prod r = PReady ->
    session_step (mk_session (BranchSignal x :: l) on reg r w p out) (mk_session (BranchSignal x :: l) on reg (store_signal (u8 x) r) w p out)
| cpu_counts x y l on reg r w p out : r_prod r = PStored y -> used r <> BRANCH_QUEUE_SIZE - 1 ->
    session_step (mk_session (BranchSignal x :: l) on reg r w p out) (mk_session l on reg (count_signal y r) w p out)
| cpu_reads q l on reg r w b last out v b' : branch_sim reg = false \/ used r = 0 -> vpmu_branch_predict q b = Ret (v, b') ->
    session_step (mk_session (BranchRead q :: l) on reg r w (b, last) out) (mk_session l on reg r w (b', last) (out ++ [v]))
| cpu_sets on' l on reg r w p out :
    session_step (mk_session (SetOn on' :: l) on reg r w p out) (mk_session l on' reg r w p out)
| cpu_models m l on reg r w p out :
    session_step (mk_session (SetModel m :: l) on reg r w p out)
      (mk_session l on (fst (vpmu_model_setup m)) r (wake (fst (snd (vpmu_model_setup m))) w) p out)
| worker_enters l reg r p out :
    session_step (mk_session l true reg r Outer p out) (mk_session l true reg r Inner p out)
| worker_leaves l reg r p out :
    session_step (mk_session l false reg r Outer p out) (mk_session l false reg r Suspending p out)
| worker_takes l on reg r p out x p' : r_cons r = CWait -> used r <> 0 -> slots r !! tail r = Some x -> branch_set p x = Ret p' ->
    session_step (mk_session l on reg r Inner p out) (mk_session l on reg (take_signal x r) Inner p' out)
| worker_releases l on reg r p out : r_cons r = CTaken ->
    session_step (mk_session l on reg r Inner p out) (mk_session l on reg (release_signal r) Outer p out)
| worker_empty l reg r p out : r_cons r = CWait -> used r = 0 ->
    session_step (mk_session l false reg r Inner p out) (mk_session l false reg r Suspending p out)
| worker_sleeps l on reg r p out :
    session_step (mk_session l on reg r Suspending p out) (mk_session l on reg r Sleeping p out)
| worker_woken l on reg r p out :
    session_step (mk_session l on reg r Sleeping p out) (mk_session l on reg r Outer p out).

(** ** The ring under the session *)

Lemma store_is_step x r : r_prod r = PReady -> put_event_step r (store_signal x r).
Proof. destruct r. cbn. intros ->. apply ring_store. Qed.
Lemma count_is_step x r : r_prod r = PStored x -> used r <> BRANCH_QUEUE_SIZE - 1 -> put_event_step r (count_signal x r).
Proof. destruct r. cbn. intros -> Hu. by apply ring_count. Qed.
Lemma take_is_step x r : r_cons r = CWait -> used r <> 0 -> slots r !! tail r = Some x -> put_event_step r (take_signal x r).
Proof. destruct r. cbn. intros -> Hu Hx. by apply (ring_take _ _ (Some 33)). Qed.
Lemma release_is_step r : r_cons r = CTaken -> put_event_step r (release_signal r).
Proof. destruct r. cbn. intros ->. apply ring_release. Qed.

Definition reached (r : ring Z) : Prop := exists b, ring_reach BRANCH_QUEUE_SIZE (BRANCH_QUEUE_SIZE - 1) (Some 33) b r.
Lemma reached_step r r' : reached r -> put_event_step r r' -> reached r'.
Proof. intros [b R] Hs. exists b. by eapply rr_step. Qed.

Lemma reached_inv r : reached r -> ring_inv BRANCH_QUEUE_SIZE r.
Proof. intros [b R]. by eapply ring_inv_reach. Qed.

Lemma next_signal r : reached r -> r_cons r = CWait -> used r <> 0 -> exists x, slots r !! tail r = Some x.
Proof.
  intros R Hc Hu. destruct (reached_inv r R) as [H1 H2 _ _ (l & _ & Hl & Hit)]. unfold taken_slots in *. rewrite Hc in *.
  destruct l as [|x l]; [cbn in Hl; lia|]. exists x. specialize (Hit O x eq_refl). change (Z.of_nat 0) with 0 in Hit.
  by rewrite !Z.add_0_r, Z.mod_small in Hit by done.
Qed.

Lemma all_taken r : reached r -> r_cons r = CWait -> used r = 0 -> got r = put r.
Proof.
  intros R Hc Hu. destruct (reached_inv r R) as [_ _ _ _ (l & E & Hl & _)]. unfold taken_slots in *. rewrite Hc in *.
  destruct l; [by rewrite E, app_nil_r|cbn in Hl; lia].
Qed.

(** ** While the VPMU is on *)

Section Session.
(** The signals and the predictor's state before, and all signals of the session *)
Context (old : list Z) (b0 : bp) (last0 : Z) (Hb0 : bp_ok b0) (all : list Z) (reads : list branch_op).

(** The signals [rest] are still to come. *)
Record in_session (rest : list Z) (s : session) : Prop := {
  i_todo : b_todo s = (BranchSignal <$> rest) ++ reads;
  i_on : b_on s = true;
  i_sim : branch_sim (b_reg s) = true;
  i_ring : reached (b_ring s);
  i_all : put (b_ring s) ++ (u8 <$> rest) = old ++ all;
  i_prod : forall y, r_prod (b_ring s) = PStored y -> exists x l, rest = x :: l /\ y = u8 x;
  i_at : (b_at s = Outer /\ r_cons (b_ring s) = CWait) \/ b_at s = Inner;
  i_pred : exists l, got (b_ring s) = old ++ l /\ branch_trace l (b0, last0) = Ret (b_pred s) }.

Lemma sim_status reg : branch_sim reg = true -> negb (vpmu_simulator_status reg VPMU_BRANCH_SIM =? 0) = true.
Proof. unfold branch_sim. intros E. change (vpmu_simulator_status reg VPMU_BRANCH_SIM) with (if Z.land reg VPMU_BRANCH_SIM =? 0 then 0 else 1). by destruct (_ =? 0). Qed.

Lemma trace_snoc l x p p' : branch_trace l (b0, last0) = Ret p -> branch_set p x = Ret p' -> branch_trace (l ++ [x]) (b0, last0) = Ret p'.
Proof. intros E1 E2. unfold branch_trace in *. rewrite foldl_app, E1. exact E2. Qed.

Lemma set_returns l x p : branch_trace l (b0, last0) = Ret p -> exists p', branch_set p x = Ret p'.
Proof.
  intros E. destruct (branch_trace_run (l ++ [x]) b0 last0 Hb0) as [last' E2]. unfold branch_trace in *. rewrite foldl_app, E in E2.
  eexists. exact E2.
Qed.

(** What the threads still have to do *)
Definition work_left (s : session) : Z :=
  6 * Z.of_nat (length (b_todo s)) + 3 * used (b_ring s) - (match r_prod (b_ring s) with PStored _ => 1 | _ => 0 end) +
  match b_at s with Outer => 1 | _ => match r_cons (b_ring s) with CWait => 0 | CTaken => -1 end end.

Lemma work_pos rest s : in_session rest s -> 0 <= work_left s.
Proof.
  intros [Et _ _ R _ Hp _ _]. destruct (reached_inv _ R) as [Hu _ _ _ _]. unfold work_left, taken_slots in *.
  assert (match r_prod (b_ring s) with PStored _ => 1 | _ => 0 end <= 6 * Z.of_nat (length (b_todo s))).
  { destruct (r_prod (b_ring s)) as [|y]; [lia|]. destruct (Hp y eq_refl) as (x & l & -> & _). rewrite Et. cbn [fmap list_fmap app length]. lia. }
  destruct (b_at s), (r_cons (b_ring s)); lia.
Qed.

Lemma session_goes_on rest s : in_session rest s -> rest <> [] \/ used (b_ring s) <> 0 -> exists s', session_step s s'.
Proof.
  intros [Et Hon Hs R Ha Hp Hat Hpr] Hmore. destruct s as [td on reg r w p out]. cbn in *. subst on td.
  assert (Hwork : used r <> 0 -> exists s', session_step (mk_session ((BranchSignal <$> rest) ++ reads) true reg r w p out) s').
  { intros Hu. destruct Hat as [[-> Hc]| ->]; [eexists; apply worker_enters|]. destruct (r_cons r) eqn:Hc; [|eexists; by apply worker_releases].
    destruct (next_signal r R Hc Hu) as [x Hx]. destruct Hpr as (l & _ & Hpr). destruct (set_returns l x p Hpr) as [p' E]. eexists. by eapply worker_takes. }
  destruct Hmore as [Hne|Hu]; [|by apply Hwork]. destruct rest as [|x rest]; [done|]. cbn [fmap list_fmap app] in *.
  destruct (r_prod r) as [|y] eqn:Er; [eexists; apply cpu_stores; [by rewrite sim_status|done]|].
  destruct (decide (used r = BRANCH_QUEUE_SIZE - 1)) as [E|E]; [apply Hwork; rewrite E; done|]. eexists. by apply cpu_counts.
Qed.

Lemma session_keeps rest s s' : in_session rest s -> (rest <> [] \/ exists q l, reads = BranchRead q :: l /\ used (b_ring s) <> 0) -> session_step s s' ->
  exists rest', in_session rest' s' /\ work_left s' < work_left s /\ b_read s' = b_read s.
Proof.
  intros [Et Hon Hs R Ha Hp Hat Hpr] Hmore Hst. unfold work_left.
  destruct Hst as [x l on reg r w p out Hsig Hr|x l on reg r w p out Hsig Hr|x y l on reg r w p out Hr Hu|q l on reg r w b last out v b' Hw E|
    on' l on reg r w p out|m l on reg r w p out|l reg r p out|l reg r p out|l on reg r p out x p' Hc Hu Hx E|l on reg r p out Hc|l reg r p out Hc Hu|
    l on reg r p out|l on reg r p out]; cbn [b_todo b_on b_reg b_ring b_at b_pred b_read] in *; try done; try (by destruct Hat as [[? _]|?]).
  - by rewrite Hon, (sim_status _ Hs) in Hsig.
  - exists rest. split; [|split; [cbn; rewrite Hr; destruct w, (r_cons r); lia|done]].
    split; cbn [b_todo b_on b_reg b_ring b_at b_pred]; try done; [by eapply reached_step, store_is_step|].
    cbn. intros y [= <-]. destruct rest as [|x' rest]; [destruct Hmore as [?|(? & ? & -> & _)]; done|]. injection Et as -> ->. eauto.
  - destruct (Hp y Hr) as (x' & rest' & -> & ->). injection Et as -> ->. exists rest'.
    split; [|split; [cbn [store_signal count_signal used r_prod r_cons length]; rewrite Hr; destruct w, (r_cons r); lia|done]].
    split; cbn [b_todo b_on b_reg b_ring b_at b_pred]; try done; [by eapply reached_step, count_is_step|].
    cbn. rewrite <- app_assoc. exact Ha.
  - destruct rest as [|x' rest]; [|done]. destruct Hmore as [?|(q' & l' & -> & Hu)]; [done|]. destruct Hw; congruence.
  - destruct rest as [|x' rest]; [|done]. destruct Hmore as [?|(q' & l' & -> & Hu)]; done.
  - destruct rest as [|x' rest]; [|done]. destruct Hmore as [?|(q' & l' & -> & Hu)]; done.
  - exists rest. destruct Hat as [[_ Hc]|?]; [|done]. split; [|split; [rewrite Hc; lia|done]]. split; try done. by right.
  - exists rest. split; [|split; [cbn [take_signal used r_prod r_cons]; rewrite Hc; lia|done]].
    split; cbn [b_todo b_on b_reg b_ring b_at b_pred]; try done; [by eapply reached_step, take_is_step|by right|].
    destruct Hpr as (l' & El & Hpr). exists (l' ++ [x]). cbn [take_signal got]. rewrite El, app_assoc. split; [done|by eapply trace_snoc].
  - exists rest. split; [|split; [cbn [release_signal used r_prod r_cons]; rewrite Hc; lia|done]].
    split; cbn [b_todo b_on b_reg b_ring b_at b_pred]; try done; [by eapply reached_step, release_is_step|]. by left.
Qed.
(** The signals end up with the worker. *)
Lemma signals_worked_off n : forall rest s, work_left s < Z.of_nat n -> in_session rest s -> (exists q l, reads = BranchRead q :: l) ->
  eventually session_step (fun s' => in_session [] s' /\ used (b_ring s') = 0 /\ b_read s' = b_read s) s.
Proof.
  induction n as [|n IH]; intros rest s Hn HI Hr; [pose proof (work_pos rest s HI); lia|].
  destruct (decide (rest = [] /\ used (b_ring s) = 0)) as [[-> Hu]|Hmore]; [by apply ev_now|].
  assert (Hm : rest <> [] \/ used (b_ring s) <> 0) by (destruct rest; [right; intros E; by apply Hmore|by left]).
  apply ev_later; [by eapply session_goes_on|]. intros s' Hs.
  assert (Hm' : rest <> [] \/ exists q l, reads = BranchRead q :: l /\ used (b_ring s) <> 0).
  { destruct Hm as [?|?]; [by left|right]. destruct Hr as (q & l & E). by exists q, l. }
  destruct (session_keeps rest s s' HI Hm' Hs) as (rest' & HI' & Hw & Ho).
  eapply eventually_trans; [apply (IH rest' s'); [lia|done|done]|]. intros s2 (H1 & H2 & H3). apply ev_now. by rewrite H3, Ho.
Qed.
End Session.

(** What a report reads of the predictor *)
Definition prediction (q : Z) (b : bp) : Z := if q =? PREDICT_CORRECT then predict_correct b else if q =? PREDICT_WRONG then predict_wrong b else 0.

Lemma read_value q b : exists b', vpmu_branch_predict q b = Ret (prediction q b, b') /\ forall q', prediction q' b' = prediction q' b.
Proof. destruct b. by eexists. Qed.

(** Reports of an empty ring *)
Lemma reads_end qs : forall reg r w b last out, reached r -> used r = 0 -> branch_sim reg = true -> (w = Outer \/ w = Inner) ->
  eventually session_step (fun s' => b_todo s' = [] /\ b_read s' = out ++ ((fun q => prediction q b) <$> qs))
    (mk_session (BranchRead <$> qs) true reg r w (b, last) out).
Proof.
  induction qs as [|q qs IH]; intros reg r w b last out R Hu Hs Hw; [apply ev_now; by rewrite app_nil_r|].
  assert (Hc : r_cons r = CWait).
  { destruct (reached_inv r R) as [H _ _ _ _]. unfold taken_slots in H. destruct (r_cons r); [done|lia]. }
  destruct (read_value q b) as (b1 & E1 & Hsame).
  assert (Hinner : forall w', w' = Inner \/ w' = Outer -> forall s', session_step (mk_session (BranchRead <$> q :: qs) true reg r w' (b, last) out) s' ->
    (exists b' v, vpmu_branch_predict q b = Ret (v, b') /\ s' = mk_session (BranchRead <$> qs) true reg r w' (b', last) (out ++ [v])) \/
    (w' = Outer /\ s' = mk_session (BranchRead <$> q :: qs) true reg r Inner (b, last) out)).
  { intros w' Hw' s' Hst. inversion Hst; subst; try done; try congruence; try (by destruct Hw'); [left; eauto|by right]. }
  assert (Hread : forall w', w' = Inner \/ w' = Outer ->
    eventually session_step (fun s' => b_todo s' = [] /\ b_read s' = out ++ ((fun q => prediction q b) <$> q :: qs))
      (mk_session (BranchRead <$> qs) true reg r w' (b1, last) (out ++ [prediction q b]))).
  { intros w' Hw'. eapply eventually_trans; [apply (IH reg r w' b1 last (out ++ [prediction q b])); try done; tauto|].
    intros s' [H1 H2]. apply ev_now. split; [done|]. rewrite H2, <- app_assoc. cbn. do 2 f_equal. apply list_fmap_ext. intros; apply Hsame. }
  assert (Hin : eventually session_step (fun s' => b_todo s' = [] /\ b_read s' = out ++ ((fun q => prediction q b) <$> q :: qs))
    (mk_session (BranchRead <$> q :: qs) true reg r Inner (b, last) out)).
  { apply ev_later; [eexists; apply cpu_reads; [by right|exact E1]|]. intros s' Hst.
    destruct (Hinner Inner ltac:(by left) s' Hst) as [(b' & v & E & ->)|[? _]]; [|done]. rewrite E1 in E. injection E as <- <-. apply Hread. by left. }
  destruct Hw as [-> | ->]; [|done]. apply ev_later; [eexists; apply worker_enters|]. intros s' Hst.
  destruct (Hinner Outer ltac:(by right) s' Hst) as [(b' & v & E & ->)|[_ ->]]; [|done]. rewrite E1 in E. injection E as <- <-. apply Hread. by right.
Qed.

(** ** The properties *)

(** C34: A branch session is exact.  While the VPMU stays on and branches are simulated, the
    signals of a run and then a report of both counts end in every interleaving of the CPU
    thread and the worker, and the counts are those of the two-bit machine: each
    conditional branch followed by another signal is scored once, wrong where the machine misses. *)
Theorem branch_session r w b last reg sigs out : reached r -> used r = 0 -> r_prod r = PReady -> (w = Outer \/ w = Inner) -> bp_ok b ->
  branch_sim reg = true ->
  let os := outcomes last (u8 <$> sigs) in let m := misses (predictor b) os in
  eventually session_step (fun s' => b_todo s' = [] /\
      b_read s' = out ++ [u32 (predict_correct b + Z.of_nat (length os - m)); u32 (predict_wrong b + Z.of_nat m)])
    (mk_session ((BranchSignal <$> sigs) ++ [BranchRead PREDICT_CORRECT; BranchRead PREDICT_WRONG]) true reg r w (b, last) out).
Proof.
  intros R Hu Hp Hw Hb Hs os m. set (reads := [BranchRead PREDICT_CORRECT; BranchRead PREDICT_WRONG]).
  set (s0 := mk_session _ _ _ _ _ _ _). assert (Hc : r_cons r = CWait).
  { destruct (reached_inv r R) as [H _ _ _ _]. unfold taken_slots in H. destruct (r_cons r); [done|lia]. }
  assert (HI : in_session (got r) b last (u8 <$> sigs) reads sigs s0).
  { split; try done; cbn [b_ring b_at b_pred s0].
    - by rewrite (all_taken r R Hc Hu).
    - intros y E. congruence.
    - destruct Hw as [-> | ->]; [by left|by right].
    - exists []. by rewrite app_nil_r. }
  eapply eventually_trans; [apply (signals_worked_off (got r) b last Hb (u8 <$> sigs) reads (S (Z.to_nat (work_left s0))) sigs s0); [lia|done|by eexists _, _]|].
  intros s1 ([Et Hon Hsim R1 Hall _ Hat (l & El & Ep)] & Hu1 & Hout). destruct s1 as [td on reg1 r1 w1 [b1 last1] out1]. cbn in *. subst td on out1.
  assert (Hc1 : r_cons r1 = CWait) by (destruct (reached_inv r1 R1) as [H _ _ _ _]; unfold taken_slots in H; destruct (r_cons r1); [done|lia]).
  assert (l = u8 <$> sigs) as -> by (apply (app_inv_head (got r)); rewrite <- El, (all_taken r1 R1 Hc1 Hu1), <- Hall; by rewrite app_nil_r).
  destruct (branch_trace_run (u8 <$> sigs) b last Hb) as [last' E]. rewrite E in Ep. injection Ep as <- <-.
  eapply eventually_trans; [apply (reads_end [PREDICT_CORRECT; PREDICT_WRONG] reg1 r1 w1); try done; tauto|].
  intros s2 [H1 H2]. apply ev_now. split; [done|]. rewrite H2. done.
Qed.

(** The VPMU off, signals in the ring beyond the one the worker may have in hand *)
Definition hung (q : Z) (l : list branch_op) (out : list Z) (s : session) : Prop :=
  b_todo s = BranchRead q :: l /\ b_read s = out /\ b_on s = false /\ branch_sim (b_reg s) = true /\
  (b_at s = Inner \/ r_cons (b_ring s) = CWait) /\ (if b_at s is Inner then 2 else 1) <= used (b_ring s).

Lemma hung_step q l out s s' : hung q l out s -> session_step s s' -> hung q l out s'.
Proof.
  intros (E1 & E2 & E3 & E4 & E5 & E6) Hs. destruct Hs as [| | |q' l' on reg r w b last out' v b' Hw E| | | | |l' on reg r p out' x p' Hc Hu Hx E|l' on reg r p out' Hc| | |];
    cbn in *; try done; unfold hung; cbn; try (by destruct E5).
  - destruct Hw; [congruence|]. destruct w; lia.
  - split_and!; try done. right. by destruct E5.
  - split_and!; try done; by left.
  - split_and!; try done; [by right|lia].
  - lia.
  - split_and!; try done. right. by destruct E5.
  - split_and!; try done. right. by destruct E5.
Qed.

(** C36: A report after turning the VPMU off hangs.  If two signals or more are in the ring when the
    VPMU is turned off, the worker suspends itself before the ring is empty, and the
    report's wait for the empty ring never ends, whatever the threads do; spurious ends of the
    worker's wait do not help. *)
Theorem report_hangs s q l : b_todo s = SetOn false :: BranchRead q :: l -> branch_sim (b_reg s) = true -> 2 <= used (b_ring s) ->
  (b_at s = Inner \/ r_cons (b_ring s) = CWait) ->
  exists s1, session_step s s1 /\ forall s', rtc session_step s1 s' -> b_todo s' = BranchRead q :: l /\ b_read s' = b_read s.
Proof.
  intros Et Hs Hu Hc. destruct s as [td on reg r w p out]. cbn in *. subst td. eexists. split; [apply cpu_sets|]. intros s' Hr.
  assert (Hh : hung q l out (mk_session (BranchRead q :: l) false reg r w p out)) by (split_and!; try done; cbn; destruct w; lia).
  assert (Hh' : hung q l out s'); [|by destruct Hh' as (? & ? & _)]. clear -Hh Hr. induction Hr as [|s1 s2 s3 H12 _ IH]; [done|]. by apply IH, (hung_step _ _ _ s1).
Qed.

(** ** Witnesses *)

Definition pred0 : bp := mk_bp 0 0 0 0 0.
(** A loop's branch, taken three times and then not *)
Theorem branch_session_witness :
  eventually session_step (fun s' => b_todo s' = [] /\ b_read s' = [1; 3])
    (mk_session ((BranchSignal <$> [99; 1; 99; 1; 99; 1; 99; 99]) ++ [BranchRead PREDICT_CORRECT; BranchRead PREDICT_WRONG]) true (fst (vpmu_model_setup TIMING_MODEL_E))
       (ring_start ∅) Outer (pred0, 0) []).
Proof.
  eapply eventually_trans.
  - apply (branch_session (ring_start ∅) Outer pred0 0 (fst (vpmu_model_setup TIMING_MODEL_E)) [99; 1; 99; 1; 99; 1; 99; 99] []);
      [exists ∅; apply rr_start|reflexivity|reflexivity|by left|repeat split; vm_compute; discriminate|vm_compute; reflexivity].
  - intros s' [H1 H2]. apply ev_now. split; [exact H1|]. rewrite H2. vm_compute. reflexivity.
Defined.

Definition two_waiting : ring Z := mk_ring (<[1 := 1]> (<[0 := 99]> ∅)) 2 0 2 PReady CWait [99; 1] [].
Theorem report_hangs_witness :
  let s := mk_session [SetOn false; BranchRead PREDICT_WRONG] true (fst (vpmu_model_setup TIMING_MODEL_E)) two_waiting Outer (pred0, 0) [] in
  exists s1, session_step s s1 /\ forall s', rtc session_step s1 s' -> b_todo s' = [BranchRead PREDICT_WRONG] /\ b_read s' = [].
Proof.
  intros s. apply (report_hangs s PREDICT_WRONG []); [reflexivity|vm_compute; reflexivity|vm_compute; discriminate|by right].
Defined.
