(* ===== verification/Report.v ===== *)
(** * Numbers in the reports ([commaprint] of [hw/vpmu-device.c])

    Every counter of a report is printed with a separator before each group of
    three digits.  [commaprint] fills a static buffer of 30 bytes from its end,
    and returns a pointer to the first character.  The separator is the locale's
    ([localeconv], a parameter), a comma if that is empty. *)
From S2P Require Import Prelude.

(** ** commaprint *)

Definition RETBUF : Z := 30.

(** The static [comma]: chosen at the first call, [thousands_sep] being the first
    character of the locale's separator (0: empty). *)
Definition pick_comma (thousands_sep comma : Z) : Z :=
  if comma =? 0 then (if thousands_sep =? 0 then 44 else thousands_sep) else comma.

(** [do { ... } while(n != 0)]; [p] is the index into [retbuf]. *)
Fixpoint comma_loop (fuel : nat) (comma n i p : Z) (retbuf : arr) : run (Z * arr) :=
  match fuel with
  | O => Spin
  | S fuel =>
      let '(p, retbuf) :=
        if (i mod 3 =? 0) && negb (i =? 0) then (p - 1, retbuf.[p - 1 <- comma]) else (p, retbuf) in
      let retbuf := retbuf.[p - 1 <- 48 + n mod 10] in
      let n := n / 10 in
      if n =? 0 then Ret (p - 1, retbuf) else comma_loop fuel comma n (i + 1) (p - 1) retbuf
  end.

(** A 64-bit number has at most 20 digits. *)
Definition commaprint (comma n : Z) (retbuf : arr) : run (Z * arr) :=
  comma_loop 20 comma n 0 (RETBUF - 1) retbuf.[RETBUF - 1 <- 0].

(** The string at [p], the byte at index 29 being its NUL *)
Definition string_at (p : Z) (retbuf : arr) : list Z := map (aget retbuf) (seqZ p (RETBUF - 1 - p)).

(** ** The text, from its last character *)

Fixpoint backwards (fuel : nat) (comma i n : Z) : list Z :=
  match fuel with
  | O => []
  | S fuel =>
      (if (i mod 3 =? 0) && negb (i =? 0) then [comma] else []) ++
      (48 + n mod 10) :: (if n / 10 =? 0 then [] else backwards fuel comma (i + 1) (n / 10))
  end.

Lemma comma_loop_backwards fuel comma n i p buf :
  0 <= n < 10 ^ Z.of_nat fuel -> (0 < fuel)%nat ->
  exists buf', let t := backwards fuel comma i n in
    comma_loop fuel comma n i p buf = Ret (p - Z.of_nat (length t), buf') /\
    (forall k c, t !! k = Some c -> buf'.[p - 1 - Z.of_nat k] = c) /\
    (forall j, p <= j -> buf'.[j] = buf.[j]).
Proof.
  revert n i p buf. induction fuel as [|fuel IH]; intros n i p buf Hn Hf; [lia|].
  cbn [comma_loop backwards]. set (b := (i mod 3 =? 0) && negb (i =? 0)).
  assert (Hstep : forall q buf0, exists buf',
    let t := (48 + n mod 10) :: (if n / 10 =? 0 then [] else backwards fuel comma (i + 1) (n / 10)) in
    (if n / 10 =? 0 then Ret (q - 1, buf0.[q - 1 <- 48 + n mod 10])
     else comma_loop fuel comma (n / 10) (i + 1) (q - 1) buf0.[q - 1 <- 48 + n mod 10]) =
      Ret (q - Z.of_nat (length t), buf') /\
    (forall k c, t !! k = Some c -> buf'.[q - 1 - Z.of_nat k] = c) /\
    (forall j, q <= j -> buf'.[j] = buf0.[j])).
  { intros q buf0. destruct (Z.eqb_spec (n / 10) 0) as [E|E].
    - eexists. cbv zeta. split; [reflexivity|]. split.
      + intros [|k] c; [|done]. intros [= <-]. rewrite Z.sub_0_r. apply aget_aset_eq.
      + intros j Hj. apply aget_aset_ne. lia.
    - pose proof (Z.div_mod n 10 ltac:(lia)) as Hdm. pose proof (Z.mod_pos_bound n 10 ltac:(lia)) as Hb.
      assert (Hpow : 10 ^ Z.of_nat (S fuel) = 10 * 10 ^ Z.of_nat fuel)
        by (rewrite Nat2Z.inj_succ, Z.pow_succ_r by lia; done).
      assert (Hf' : (0 < fuel)%nat) by (destruct fuel; [change (10 ^ Z.of_nat 1) with 10 in Hn; lia|lia]).
      destruct (IH (n / 10) (i + 1) (q - 1) buf0.[q - 1 <- 48 + n mod 10]) as (buf' & E1 & E2 & E3); [lia|done|].
      exists buf'. cbv zeta in *. split; [|split].
      + rewrite E1. cbn [length]. do 2 f_equal. lia.
      + intros [|k] c Hk; cbn in Hk.
        * injection Hk as <-. rewrite E3 by lia. rewrite Z.sub_0_r. apply aget_aset_eq.
        * rewrite <- (E2 k c Hk). f_equal. lia.
      + intros j Hj. rewrite E3 by lia. apply aget_aset_ne. lia. }
  destruct b.
  - destruct (Hstep (p - 1) buf.[p - 1 <- comma]) as (buf' & E1 & E2 & E3). exists buf'. cbv zeta in *. cbn [app].
    split; [|split].
    + rewrite E1. cbn [length]. do 2 f_equal. lia.
    + intros [|k] c Hk; cbn in Hk.
      * injection Hk as <-. rewrite E3 by lia. rewrite Z.sub_0_r. apply aget_aset_eq.
      * rewrite <- (E2 k c Hk). f_equal. lia.
    + intros j Hj. rewrite E3 by lia. apply aget_aset_ne. lia.
  - exact (Hstep p buf).
Qed.

(** Where the text of digit [i] starts, counted from the end *)
Definition starts (i : Z) : Z := if i =? 0 then 0 else i + (i - 1) / 3.

Lemma starts_next i :
  0 <= i ->
  starts (i + 1) = starts i + (if (i mod 3 =? 0) && negb (i =? 0) then 2 else 1) /\
  ((i mod 3 =? 0) && negb (i =? 0) = true -> starts i mod 4 = 3 /\ (starts i + 1) mod 4 = 0) /\
  ((i mod 3 =? 0) && negb (i =? 0) = false -> starts i mod 4 <> 3).
Proof.
  intros Hi. unfold starts. rewrite (proj2 (Z.eqb_neq (i + 1) 0)) by lia. replace (i + 1 - 1) with i by lia.
  destruct (Z.eqb_spec i 0) as [->|H0]; [by split_and!|].
  pose proof (Z.div_mod i 3 ltac:(lia)). pose proof (Z.mod_pos_bound i 3 ltac:(lia)).
  pose proof (Z.div_mod (i - 1) 3 ltac:(lia)). pose proof (Z.mod_pos_bound (i - 1) 3 ltac:(lia)).
  set (q := (i - 1) / 3) in *.
  pose proof (Z.div_mod (i + q) 4 ltac:(lia)). pose proof (Z.mod_pos_bound (i + q) 4 ltac:(lia)).
  pose proof (Z.div_mod (i + q + 1) 4 ltac:(lia)). pose proof (Z.mod_pos_bound (i + q + 1) 4 ltac:(lia)).
  destruct (Z.eqb_spec (i mod 3) 0) as [E|E]; cbn [negb andb]; split_and!; try discriminate; intros; lia.
Qed.

Definition digit (c : Z) : Prop := 48 <= c <= 57.

Lemma digit_mod n : digit (48 + n mod 10).
Proof. pose proof (Z.mod_pos_bound n 10 ltac:(lia)). unfold digit. lia. Qed.

Lemma backwards_chars fuel comma i n k c :
  0 <= i -> backwards fuel comma i n !! k = Some c ->
  if decide ((starts i + Z.of_nat k) mod 4 = 3) then c = comma else digit c.
Proof.
  revert i n k. induction fuel as [|fuel IH]; intros i n k Hi; [done|]. cbn [backwards].
  destruct (starts_next i Hi) as (Hn & Hc & Hd). destruct ((i mod 3 =? 0) && negb (i =? 0)) eqn:Hb; cbn [app].
  - destruct (Hc eq_refl) as [H3 H0]. destruct k as [|[|k]]; cbn.
    + intros [= <-]. rewrite Z.add_0_r. by rewrite decide_True.
    + intros [= <-]. rewrite decide_False by (cbn; lia). apply digit_mod.
    + destruct (n / 10 =? 0); [done|]. intros H%IH; [|lia]. rewrite Hn in H.
      by replace (starts i + 2 + Z.of_nat k) with (starts i + Z.of_nat (S (S k))) in H by lia.
  - destruct k as [|k]; cbn.
    + intros [= <-]. rewrite Z.add_0_r. rewrite decide_False by auto. apply digit_mod.
    + destruct (n / 10 =? 0); [done|]. intros H%IH; [|lia]. rewrite Hn in H.
      by replace (starts i + 1 + Z.of_nat k) with (starts i + Z.of_nat (S k)) in H by lia.
Qed.

Lemma backwards_length fuel comma i n :
  0 <= i -> starts i + Z.of_nat (length (backwards fuel comma i n)) <= starts (i + Z.of_nat fuel).
Proof.
  revert i n. induction fuel as [|fuel IH]; intros i n Hi; [cbn [backwards length]; change (Z.of_nat 0) with 0; by rewrite !Z.add_0_r|]. cbn [backwards].
  destruct (starts_next i Hi) as (Hn & _). rewrite length_app. cbn [length].
  assert (Hm : starts (i + 1) <= starts (i + Z.of_nat (S fuel))) by (pose proof (IH (i + 1) 0 ltac:(lia)) as H;
    replace (i + 1 + Z.of_nat fuel) with (i + Z.of_nat (S fuel)) in H by lia; lia).
  destruct (n / 10 =? 0).
  - destruct (_ && _); cbn [length]; lia.
  - pose proof (IH (i + 1) (n / 10) ltac:(lia)) as H.
    replace (i + 1 + Z.of_nat fuel) with (i + Z.of_nat (S fuel)) in H by lia.
    destruct (_ && _); cbn [length]; lia.
Qed.

(** The number is the digits' value. *)
Lemma backwards_value fuel comma i n :
  0 <= n < 10 ^ Z.of_nat fuel -> ~ digit comma -> (0 < fuel)%nat ->
  foldr (fun c v => v * 10 + (c - 48)) 0 (filter (fun c => c <> comma) (backwards fuel comma i n)) = n.
Proof.
  intros Hn Hc. revert i n Hn. induction fuel as [|fuel IH]; intros i n Hn Hf; [lia|]. cbn [backwards].
  rewrite filter_app.
  replace (filter (fun c => c <> comma) (if (i mod 3 =? 0) && negb (i =? 0) then [comma] else [])) with (@nil Z)
    by (destruct (_ && _); [rewrite filter_cons_False by auto|]; done).
  cbn [app]. rewrite filter_cons_True by (intros E; apply Hc; rewrite <- E; apply digit_mod). cbn [foldr].
  pose proof (Z.div_mod n 10 ltac:(lia)). pose proof (Z.mod_pos_bound n 10 ltac:(lia)).
  destruct (Z.eqb_spec (n / 10) 0); [cbn; lia|].
  assert (10 ^ Z.of_nat (S fuel) = 10 * 10 ^ Z.of_nat fuel) by (rewrite Nat2Z.inj_succ, Z.pow_succ_r by lia; done).
  rewrite IH; [lia|lia|]. destruct fuel; [change (10 ^ Z.of_nat 1) with 10 in Hn; lia|lia].
Qed.

Lemma backwards_last fuel comma i n :
  0 < n < 10 ^ Z.of_nat fuel -> last (backwards fuel comma i n) <> Some 48.
Proof.
  revert i n. induction fuel as [|fuel IH]; intros i n Hn; [change (10 ^ Z.of_nat 0) with 1 in Hn; lia|].
  cbn [backwards]. rewrite last_app. pose proof (Z.div_mod n 10 ltac:(lia)).
  destruct (Z.eqb_spec (n / 10) 0) as [E|E].
  - cbn [last]. intros [= H']. lia.
  - assert (10 ^ Z.of_nat (S fuel) = 10 * 10 ^ Z.of_nat fuel) by (rewrite Nat2Z.inj_succ, Z.pow_succ_r by lia; done).
    pose proof (Z.mod_pos_bound n 10 ltac:(lia)). specialize (IH (i + 1) (n / 10) ltac:(lia)).
    destruct (backwards fuel comma (i + 1) (n / 10)) as [|c l] eqn:B;
      [|change (last (48 + n mod 10 :: c :: l)) with (last (c :: l)); by destruct (last (c :: l)) eqn:L;
        [|apply last_None in L]].
    destruct fuel as [|fuel]; [change (10 ^ Z.of_nat 1) with 10 in Hn; lia|].
    cbn [backwards] in B. by destruct (_ && _).
Qed.

Lemma string_backwards p buf t :
  p = RETBUF - 1 - Z.of_nat (length t) ->
  (forall k c, t !! k = Some c -> buf.[RETBUF - 1 - 1 - Z.of_nat k] = c) -> string_at p buf = reverse t.
Proof.
  intros -> Ht. unfold string_at. apply list_eq_same_length with (length t).
  - by rewrite length_reverse.
  - rewrite length_map, length_seqZ. lia.
  - intros i x y Hi Hx Hy. rewrite list_lookup_fmap in Hx. apply fmap_Some in Hx as (j & [-> Hj]%lookup_seqZ & ->).
    apply reverse_lookup_Some in Hy as [Hy Hl]. rewrite <- (Ht _ _ Hy). f_equal. lia.
Qed.

(** Printing with separators.  For every 64-bit number and every separator
    that is not a digit, [commaprint] ends inside its 30-byte buffer, and the
    string it returns is the number: without the separators its digits have the
    value [n], no digit 0 leads unless [n] is 0, and a separator stands exactly
    before every group of three digits. *)
Theorem commaprint_reads_back comma n buf :
  0 <= n < 2 ^ 64 -> ~ digit comma ->
  exists p buf', commaprint comma n buf = Ret (p, buf') /\ 3 <= p <= RETBUF - 2 /\ buf'.[RETBUF - 1] = 0 /\
    let s := string_at p buf' in
    foldl (fun v c => v * 10 + (c - 48)) 0 (filter (fun c => c <> comma) s) = n /\
    (n <> 0 -> head s <> Some 48) /\
    (forall k c, reverse s !! k = Some c -> if decide (Z.of_nat k mod 4 = 3) then c = comma else digit c).
Proof.
  intros Hn Hc. assert (Hp : 0 <= n < 10 ^ Z.of_nat 20) by (change (10 ^ Z.of_nat 20) with (10 ^ 20); lia).
  destruct (comma_loop_backwards 20 comma n 0 (RETBUF - 1) buf.[RETBUF - 1 <- 0] Hp ltac:(lia)) as (buf' & E1 & E2 & E3).
  cbv zeta in *. set (t := backwards 20 comma 0 n) in *. unfold commaprint.
  exists (RETBUF - 1 - Z.of_nat (length t)), buf'. rewrite E1. split; [done|].
  pose proof (backwards_length 20 comma 0 n ltac:(lia)) as Hl. change (starts (0 + Z.of_nat 20)) with 26 in Hl.
  change (starts 0) with 0 in Hl. fold t in Hl.
  assert (Hl1 : (1 <= length t)%nat) by (unfold t; cbn [backwards]; rewrite length_app; cbn [length]; lia).
  split; [unfold RETBUF; lia|]. split; [rewrite E3 by lia; apply aget_aset_eq|].
  rewrite (string_backwards _ _ t) by done. split_and!.
  - rewrite filter_reverse, <- (backwards_value 20 comma 0 n Hp Hc ltac:(lia)). fold t.
    generalize (filter (fun c => c <> comma) t) as l. intros l. induction l as [|c l IH]; [done|].
    rewrite reverse_cons, foldl_app, IH. done.
  - intros H0. rewrite <- last_reverse, reverse_involutive. by apply backwards_last; lia.
  - intros k c. rewrite reverse_involutive. intros Hk. exact (backwards_chars 20 comma 0 n k c ltac:(lia) Hk).
Qed.

(** 18446744073709551615 with commas fills the buffer down to index 3. *)
Theorem commaprint_reads_back_witness :
  exists p buf', commaprint 44 (2 ^ 64 - 1) ∅ = Ret (p, buf') /\ p = 3 /\
    foldl (fun v c => v * 10 + (c - 48)) 0 (filter (fun c => c <> 44) (string_at p buf')) = 2 ^ 64 - 1.
Proof.
  assert (H1 : 0 <= 2 ^ 64 - 1 < 2 ^ 64) by (split; [discriminate|reflexivity]).
  assert (H2 : ~ digit 44) by (intros [H _]; by vm_compute in H).
  destruct (commaprint_reads_back 44 (2 ^ 64 - 1) ∅ H1 H2) as (p & buf' & E & _ & _ & V & _).
  exists p, buf'. split; [exact E|]. split; [|exact V].
  assert (P : match commaprint 44 (2 ^ 64 - 1) ∅ with Ret (q, _) => q = 3 | _ => False end) by (vm_compute; reflexivity).
  rewrite E in P. exact P.
Defined.
