(* ===== verification/Sampling.v ===== *)
(** * Sampling ([vpmu_sampling.c], [SET/SET_ctrl.c])

    While sampling is on, a thread watches one event of the VPMU
    ([samplingProcessorEvents]): each time it has grown by more than the chosen
    interval, a line with the process, the time and all monitored events goes to
    [vpmu_samples.txt]; a second file gets a line for every microsecond of
    estimated time.  Both files are written through large buffers that are
    flushed when fewer than 1024 bytes are left.

    One round of the thread's loop is one [tick]: what it reads of the VPMU and
    of the guest in that round.  A [sprintf] past the end of a buffer is [None].
    The specification is a pure one: which ticks are sampled ([picked]) and the
    text of a line. *)
From S2P Require Import Prelude.

(** ** The settings of SET_ctrl.c *)

Definition DUMMY_EVENT_CFG : Z := 127.
Definition MAX_VPMU_SUPPORT_EVENT : Z := 256.
Definition CUR_VPMU_SUPPORT_EVENT : nat := 46.
Definition EVENT_ON : Z := 1.

Definition initEventConfig (eventConfig : arr) : arr :=
  forZ 0 256 (fun a i => a.[i <- DUMMY_EVENT_CFG]) eventConfig.

Definition isEventMonitored (eventConfig : arr) (index : Z) : Z :=
  if (MAX_VPMU_SUPPORT_EVENT <=? index) || (index <? 0) then 0
  else if eventConfig.[index] =? DUMMY_EVENT_CFG then 0
  else eventConfig.[index].

(** The indices of the events a line has, in order *)
Definition monitored (eventConfig : arr) : list Z :=
  filter (fun i => isEventMonitored eventConfig i = EVENT_ON) (seqZ 0 (Z.of_nat CUR_VPMU_SUPPORT_EVENT)).

(** ** Text *)

Definition c_tab : Z := 9.
Definition c_newline : Z := 10.

(** [%u] of a 32-bit value *)
Fixpoint udigits (fuel : nat) (x : Z) : list Z :=
  match fuel with
  | O => []
  | S fuel => if x <? 10 then [48 + x] else udigits fuel (x / 10) ++ [48 + x mod 10]
  end.
Definition fmt_u (x : Z) : list Z := udigits 10 (u32 x).
Definition fmt_d (x : Z) : list Z := if x <? 0 then 45 :: udigits 10 (- x) else udigits 10 x.

(** [sprintf(buf + idx, ...)] into a buffer of [BUFFER_SIZE] bytes, of which the
    first [length buf] are in use *)
Definition BUFFER_SIZE : Z := 50 * 1024 + 1024.
Definition sprintf (buf text : list Z) : option (list Z) :=
  if Z.of_nat (length buf) + Z.of_nat (length text) + 1 <=? BUFFER_SIZE then Some (buf ++ text) else None.
Definition sprintf_all (buf : list Z) (texts : list (list Z)) : option (list Z) :=
  foldl (fun b t => b ← b; sprintf b t) (Some buf) texts.

(** [if (idx > BUFFER_SIZE - 1024) { fwrite(...); idx = 0; }]: buffer and file *)
Definition flush (s : list Z * list Z) : list Z * list Z :=
  if BUFFER_SIZE - 1024 <? Z.of_nat (length s.1) then ([], s.2 ++ s.1) else s.
(** [if (idx) fwrite(...)] at the end *)
Definition finish (s : list Z * list Z) : list Z := s.2 ++ s.1.

(** ** One round *)

(** [t_cur]: the value of the sampling event; [t_eet]: the time printed in the
    line; [t_events]: the value of each event; [t_eet_ns]: the time, read again
    and cut to 32 bits, for the second file; the process is looked up once for
    each file. *)
Record tick := mk_tick {
  t_cur : Z; t_pid : Z; t_name : list Z; t_eet : Z; t_events : Z -> Z;
  t_eet_ns : Z; t_pid2 : Z; t_name2 : list Z }.

Record st := mk_st { previous_value : Z; seq_id : Z; last_EET_ns : Z; samples : list Z * list Z; threads : list Z * list Z }.

Definition threadSampleIntl : Z := 1000.

Section Loop.
Context (eventConfig : arr) (desc : Z -> list Z) (sampleIntvl sample_event_id : Z).

(** The texts of the header and of one line, [sprintf] by [sprintf] *)
Definition header_texts (previous : Z) : list (list Z) :=
  [ [83; 97; 109; 112; 108; 101; 32; 105; 100; 32; 40] ++ fmt_d sample_event_id ++
    [41; 44; 32; 105; 110; 116; 101; 114; 118; 97; 108; 32; 40] ++ fmt_u sampleIntvl ++
    [41; 44; 32; 115; 116; 97; 114; 116; 105; 110; 103; 32; 118; 97; 108; 117; 101; 32; 40] ++ fmt_u previous ++
    [41; 46; c_newline];
    [83; 101; 113; 95; 105; 100; c_tab; 80; 73; 68; c_tab; 80; 114; 111; 99; 101; 115; 115; 95; 110; 97; 109; 101;
     c_tab; 69; 69; 84; 40; 110; 115; 41] ] ++
  map (fun i => c_tab :: desc i) (monitored eventConfig) ++ [[c_newline]].

(** "PID\tEET\n" *)
Definition thread_header : list Z := [80; 73; 68; c_tab; 69; 69; 84; c_newline].

Definition line_texts (j : Z) (t : tick) : list (list Z) :=
  (fmt_u j ++ c_tab :: fmt_d (t_pid t) ++ c_tab :: t_name t ++ c_tab :: fmt_u (t_eet t)) ::
  map (fun i => c_tab :: fmt_u (t_events t i)) (monitored eventConfig) ++ [[c_newline]].

Definition thread_text (eet : Z) (t : tick) : list Z :=
  fmt_u (t_pid2 t) ++ c_tab :: t_name2 t ++ c_tab :: fmt_u eet ++ [c_newline].

Definition sample_first (t : tick) : option st :=
  h ← sprintf_all [] (header_texts (t_cur t));
  h2 ← sprintf [] thread_header;
  Some (mk_st (t_cur t) 1 (u32 (t_eet_ns t)) (flush (h, [])) (flush (h2, []))).

Definition sample_next (s : st) (t : tick) : option st :=
  '(prev, j, sbuf) ←
    (if sampleIntvl <? u32 (t_cur t - previous_value s)
     then b ← sprintf_all (samples s).1 (line_texts (seq_id s) t); Some (t_cur t, u32 (seq_id s + 1), b)
     else Some (previous_value s, seq_id s, (samples s).1));
  let cur_EET_ns := u32 (t_eet_ns t) in
  let spent := u32 (cur_EET_ns - last_EET_ns s) in
  '(last, tbuf) ←
    (if threadSampleIntl <? spent
     then b ← sprintf (threads s).1 (thread_text spent t); Some (cur_EET_ns, b)
     else Some (last_EET_ns s, (threads s).1));
  Some (mk_st prev j last (flush (sbuf, (samples s).2)) (flush (tbuf, (threads s).2))).

(** [while (isSampling())], the rounds being given; then both files *)
Definition samplingProcessorEvents (ts : list tick) : option (list Z * list Z) :=
  match ts with
  | [] => Some ([], [])
  | t :: ts =>
      s ← foldl (fun s t => s ← s; sample_next s t) (sample_first t) ts;
      Some (finish (samples s), finish (threads s))
  end.
End Loop.

(** ** What the files are to hold *)

(** The rounds that are sampled: more than the interval after the one before *)
Fixpoint picked (sampleIntvl prev : Z) (ts : list tick) : list tick :=
  match ts with
  | [] => []
  | t :: ts =>
      if sampleIntvl <? u32 (t_cur t - prev) then t :: picked sampleIntvl (t_cur t) ts
      else picked sampleIntvl prev ts
  end.

(** The rounds of the second file, each with the time spent since the last *)
Fixpoint spans (last : Z) (ts : list tick) : list (Z * tick) :=
  match ts with
  | [] => []
  | t :: ts =>
      let spent := u32 (u32 (t_eet_ns t) - last) in
      if threadSampleIntl <? spent then (spent, t) :: spans (u32 (t_eet_ns t)) ts else spans last ts
  end.

(** The lines of the samples, numbered from [j] *)
Fixpoint lines (eventConfig : arr) (j : Z) (ts : list tick) : list (list Z) :=
  match ts with
  | [] => []
  | t :: ts => concat (line_texts eventConfig j t) :: lines eventConfig (u32 (j + 1)) ts
  end.

(** Names fit the rows of [pid_name_base[512][32]]. *)
Definition tick_ok (t : tick) : Prop := (length (t_name t) <= 31)%nat /\ (length (t_name2 t) <= 31)%nat.

(** *** Lengths *)

Ltac lengths := repeat first [rewrite length_app | progress cbn [length app concat]].

Lemma udigits_length fuel x : (length (udigits fuel x) <= fuel)%nat.
Proof.
  revert x. induction fuel as [|fuel IH]; intros x; [done|]. cbn [udigits].
  destruct (x <? 10); [cbn; lia|]. rewrite length_app. specialize (IH (x / 10)). cbn. lia.
Qed.
Lemma fmt_u_length x : (length (fmt_u x) <= 10)%nat.
Proof. apply udigits_length. Qed.
Lemma fmt_d_length x : (length (fmt_d x) <= 11)%nat.
Proof.
  unfold fmt_d. pose proof (udigits_length 10 x). pose proof (udigits_length 10 (- x)).
  destruct (x <? 0); cbn [length]; lia.
Qed.

Lemma monitored_length cfg : (length (monitored cfg) <= 46)%nat.
Proof.
  unfold monitored. etransitivity; [apply length_filter|]. by rewrite length_seqZ.
Qed.

Lemma concat_length_le {A} (ls : list (list A)) n :
  Forall (fun l => (length l <= n)%nat) ls -> (length (concat ls) <= n * length ls)%nat.
Proof.
  induction 1 as [|l ls Hl _ IH]; [cbn; lia|]. cbn [concat length]. rewrite length_app. lia.
Qed.

Lemma events_length (f : Z -> list Z) cfg n :
  (forall i, (length (f i) <= n)%nat) -> (length (concat (map f (monitored cfg))) <= n * 46)%nat.
Proof.
  intros Hf. pose proof (monitored_length cfg) as Hm.
  pose proof (concat_length_le (map f (monitored cfg)) n) as H. rewrite length_map in H.
  etransitivity; [apply H|nia]. apply Forall_forall. intros l (i & <- & _)%list_elem_of_In%in_map_iff. apply Hf.
Qed.

Lemma line_length cfg j t : tick_ok t -> (length (concat (line_texts cfg j t)) <= 600)%nat.
Proof.
  intros [Hn _]. unfold line_texts. cbn [concat]. rewrite concat_app. lengths.
  pose proof (fmt_u_length j). pose proof (fmt_u_length (t_eet t)). pose proof (fmt_d_length (t_pid t)).
  pose proof (events_length (fun i => c_tab :: fmt_u (t_events t i)) cfg 11) as He.
  assert (forall i, (length (c_tab :: fmt_u (t_events t i)) <= 11)%nat) as H11
    by (intros i; pose proof (fmt_u_length (t_events t i)); cbn [length]; lia).
  specialize (He H11). lia.
Qed.

Lemma thread_length x t : tick_ok t -> (length (thread_text x t) <= 100)%nat.
Proof.
  intros [_ Hn]. unfold thread_text. lengths. pose proof (fmt_u_length x). pose proof (fmt_u_length (t_pid2 t)). lia.
Qed.

Lemma header_length cfg desc intvl ev prev :
  (forall i, (length (desc i) <= 29)%nat) -> (length (concat (header_texts cfg desc intvl ev prev)) <= 1600)%nat.
Proof.
  intros Hd. unfold header_texts. cbn [app concat]. rewrite concat_app. lengths.
  pose proof (fmt_u_length intvl). pose proof (fmt_u_length prev). pose proof (fmt_d_length ev).
  pose proof (events_length (fun i => c_tab :: desc i) cfg 30) as He.
  assert (forall i, (length (c_tab :: desc i) <= 30)%nat) as H30
    by (intros i; specialize (Hd i); cbn [length]; lia).
  specialize (He H30). lia.
Qed.

(** *** Buffers and streams *)

(** More than 1023 bytes are free. *)
Definition roomy (b : list Z * list Z) : Prop := Z.of_nat (length b.1) <= BUFFER_SIZE - 1024.

Lemma flush_stream b : finish (flush b) = finish b /\ roomy (flush b).
Proof.
  unfold flush, roomy, finish. destruct (Z.ltb_spec (BUFFER_SIZE - 1024) (Z.of_nat (length b.1))); cbn; [|done].
  split; [by rewrite app_nil_r|unfold BUFFER_SIZE; lia].
Qed.

Lemma sprintf_all_ok texts buf :
  Z.of_nat (length buf) + Z.of_nat (length (concat texts)) + 1 <= BUFFER_SIZE ->
  sprintf_all buf texts = Some (buf ++ concat texts).
Proof.
  unfold sprintf_all. revert buf. induction texts as [|t ts IH]; intros buf H; cbn [concat foldl].
  - by rewrite app_nil_r.
  - cbn [concat] in H. rewrite length_app in H. unfold sprintf. cbn [mbind option_bind].
    rewrite (proj2 (Z.leb_le _ _)) by lia. rewrite IH; [by rewrite app_assoc|]. rewrite length_app. lia.
Qed.

Section Streams.
Context (cfg : arr) (desc : Z -> list Z) (intvl ev : Z).

Definition line_if (s : st) (t : tick) : list Z :=
  if intvl <? u32 (t_cur t - previous_value s) then concat (line_texts cfg (seq_id s) t) else [].
Definition spent (s : st) (t : tick) : Z := u32 (u32 (t_eet_ns t) - last_EET_ns s).
Definition thread_if (s : st) (t : tick) : list Z :=
  if threadSampleIntl <? spent s t then thread_text (spent s t) t else [].

Lemma sample_next_stream s t :
  tick_ok t -> roomy (samples s) -> roomy (threads s) ->
  exists s', sample_next cfg intvl s t = Some s' /\ roomy (samples s') /\ roomy (threads s') /\
    finish (samples s') = finish (samples s) ++ line_if s t /\
    finish (threads s') = finish (threads s) ++ thread_if s t /\
    previous_value s' = (if intvl <? u32 (t_cur t - previous_value s) then t_cur t else previous_value s) /\
    seq_id s' = (if intvl <? u32 (t_cur t - previous_value s) then u32 (seq_id s + 1) else seq_id s) /\
    last_EET_ns s' = (if threadSampleIntl <? spent s t then u32 (t_eet_ns t) else last_EET_ns s).
Proof.
  intros Ht Hs Hth. unfold roomy, BUFFER_SIZE in *.
  pose proof (line_length cfg (seq_id s) t Ht). pose proof (thread_length (spent s t) t Ht).
  unfold sample_next. fold (spent s t). unfold line_if, thread_if.
  set (line := concat (line_texts cfg (seq_id s) t)) in *.
  assert (E : sprintf_all (samples s).1 (line_texts cfg (seq_id s) t) = Some ((samples s).1 ++ line))
    by (apply sprintf_all_ok; unfold BUFFER_SIZE; fold line; lia).
  assert (E2 : sprintf (threads s).1 (thread_text (spent s t) t) = Some ((threads s).1 ++ thread_text (spent s t) t))
    by (unfold sprintf; rewrite (proj2 (Z.leb_le _ _)); [done|unfold BUFFER_SIZE; lia]).
  rewrite E, E2.
  destruct (intvl <? u32 (t_cur t - previous_value s)), (threadSampleIntl <? spent s t);
    cbn [mbind option_bind]; (eexists; split; [reflexivity|]);
    cbn [samples threads previous_value seq_id last_EET_ns];
    split_and!; try done; try apply flush_stream; rewrite (proj1 (flush_stream _)); unfold finish; cbn [fst snd];
    by rewrite ?app_assoc, ?app_nil_r.
Qed.

Lemma sampling_loop ts s :
  Forall tick_ok ts -> roomy (samples s) -> roomy (threads s) ->
  exists s', foldl (fun s t => s ← s; sample_next cfg intvl s t) (Some s) ts = Some s' /\
    finish (samples s') = finish (samples s) ++ concat (lines cfg (seq_id s) (picked intvl (previous_value s) ts)) /\
    finish (threads s') = finish (threads s) ++ concat (map (fun p => thread_text p.1 p.2) (spans (last_EET_ns s) ts)).
Proof.
  intros Hts. revert s. induction Hts as [|t ts Ht Hts IH]; intros s Hs Hth; cbn [foldl picked spans].
  - exists s. by rewrite !app_nil_r.
  - destruct (sample_next_stream s t Ht Hs Hth) as (s1 & E & R1 & R2 & F1 & F2 & P1 & P2 & P3).
    cbn [mbind option_bind]. rewrite E. destruct (IH s1 R1 R2) as (s' & E' & G1 & G2). exists s'. split; [exact E'|].
    rewrite G1, G2, F1, F2, P1, P2, P3. unfold line_if, thread_if. fold (spent s t).
    split; [destruct (intvl <? _)|destruct (threadSampleIntl <? _)]; cbn [lines concat map fst snd];
      by rewrite ?app_nil_r, <- ?app_assoc.
Qed.
End Streams.

(** Successive samples lie more than the interval apart; nothing between them
    did. *)
Fixpoint spaced (intvl prev : Z) (ps : list tick) : Prop :=
  match ps with [] => True | p :: ps => intvl < u32 (t_cur p - prev) /\ spaced intvl (t_cur p) ps end.

Lemma picked_spaced intvl prev ts : spaced intvl prev (picked intvl prev ts) /\ picked intvl prev ts ⊆+ ts.
Proof.
  revert prev. induction ts as [|t ts IH]; intros prev; cbn [picked]; [done|].
  destruct (Z.ltb_spec intvl (u32 (t_cur t - prev))).
  - destruct (IH (t_cur t)) as [H1 H2]. split; [done|]. by apply submseteq_skip.
  - destruct (IH prev) as [H1 H2]. split; [done|]. by apply submseteq_cons.
Qed.

(** The sample files are streams.  For any number of rounds, and whatever
    they read, no [sprintf] leaves its buffer, and when sampling ends the first
    file holds the header and one numbered line for each round in which the
    event had grown by more than the interval since the line before (modulo
    2^32), and the second file one line for each time more than 1000 ns had
    passed, with that time; the flushing neither loses nor repeats a byte. *)
Theorem sampling_streams cfg desc intvl ev t ts :
  (forall i, (length (desc i) <= 29)%nat) -> Forall tick_ok ts ->
  let ps := picked intvl (t_cur t) ts in
  samplingProcessorEvents cfg desc intvl ev (t :: ts) =
    Some (concat (header_texts cfg desc intvl ev (t_cur t)) ++ concat (lines cfg 1 ps),
          thread_header ++ concat (map (fun p => thread_text p.1 p.2) (spans (u32 (t_eet_ns t)) ts))) /\
  spaced intvl (t_cur t) ps.
Proof.
  intros Hd Hts ps. split; [|apply picked_spaced]. unfold samplingProcessorEvents, sample_first.
  pose proof (header_length cfg desc intvl ev (t_cur t) Hd) as Hh.
  rewrite sprintf_all_ok by (cbn [length]; unfold BUFFER_SIZE; lia). cbn [mbind option_bind app].
  change (sprintf [] thread_header) with (Some thread_header). cbn [mbind option_bind].
  destruct (sampling_loop cfg intvl ts
    (mk_st (t_cur t) 1 (u32 (t_eet_ns t)) (flush (concat (header_texts cfg desc intvl ev (t_cur t)), []))
       (flush (thread_header, []))) Hts) as (s' & E & F1 & F2); [apply flush_stream..|].
  rewrite E. cbn [mbind option_bind]. rewrite F1, F2. cbn [samples threads previous_value seq_id last_EET_ns].
  by rewrite !(proj1 (flush_stream _)).
Qed.

(** Four rounds of the process "a": the event at 10, 900, 1011 and 2500 with an
    interval of 1000, one event monitored; the time at 0, 500, 1500 and 1700. *)
Definition demo_tick (cur eet : Z) : tick := mk_tick cur 7 [97] eet (fun _ => 5) eet 7 [97].
Definition demo_cfg : arr := (initEventConfig ∅).[0 <- 1].

Theorem sampling_streams_witness :
  exists files, samplingProcessorEvents demo_cfg (fun _ => [84]) 1000 81
      [demo_tick 10 0; demo_tick 900 500; demo_tick 1011 1500; demo_tick 2500 1700] = Some files /\
    drop (length (concat (header_texts demo_cfg (fun _ => [84]) 1000 81 10))) files.1 =
      concat (lines demo_cfg 1 [demo_tick 1011 1500; demo_tick 2500 1700]) /\
    files.2 = thread_header ++ thread_text 1500 (demo_tick 1011 1500).
Proof.
  assert (H1 : forall i : Z, (length [84] <= 29)%nat) by (intros _; cbn; lia).
  assert (H2 : Forall tick_ok [demo_tick 900 500; demo_tick 1011 1500; demo_tick 2500 1700])
    by (repeat constructor).
  destruct (sampling_streams demo_cfg (fun _ => [84]) 1000 81 (demo_tick 10 0) _ H1 H2) as [E _].
  eexists. split; [exact E|]. split; vm_compute; reflexivity.
Defined.
