(* ===== verification/Probe.v ===== *)
(** * Linear probing

    The event tracer has three hash tables with open addressing: the functions of
    an object file ([SET_object.c]), the kernel functions it watches
    ([SET_kernel.c]) and the traced processes ([SET_event.c]).  All are walked
    by the same loop,

      for (idx = hash; slot idx is in use; idx = (idx+1) % size)
          if (slot idx holds the key) ...

    A table is seen here as a function from indices to the key of the slot, if it
    is in use.  [probe] is the walk; [probed] is what insertion maintains and what
    makes a lookup find every key; it needs a free slot to end. *)
From S2P Require Import Prelude.

(** The loop ends at a slot that is free or holds the key. *)
Definition stops (slots : Z -> option Z) (key i : Z) : bool :=
  match slots i with None => true | Some k => k =? key end.

(** [size] steps have seen every slot: a walk that has not ended then never does. *)
Fixpoint probe_from (fuel : nat) (size : Z) (stop : Z -> bool) (idx : Z) : run Z :=
  match fuel with
  | O => Spin
  | S fuel => if stop idx then Ret idx else probe_from fuel size stop ((idx + 1) mod size)
  end.
Definition probe (size : Z) (slots : Z -> option Z) (key hash : Z) : run Z :=
  probe_from (Z.to_nat size) size (stops slots key) hash.

Section Walk.
Context (size : Z) (Hsize : 0 < size).

Lemma next_range idx : 0 <= (idx + 1) mod size < size.
Proof. by apply Z.mod_pos_bound. Qed.

Lemma probe_from_ret stop j idx :
  0 <= idx < size -> 0 <= j < size -> stop j = true ->
  forall fuel, (j - idx) mod size < Z.of_nat fuel ->
  exists i, probe_from fuel size stop idx = Ret i /\ stop i = true /\ 0 <= i < size.
Proof.
  intros Hi Hj Hs fuel. revert idx Hi. induction fuel as [|fuel IH]; intros idx Hi Hf.
  - pose proof (Z.mod_pos_bound (j - idx) size Hsize). lia.
  - cbn [probe_from]. destruct (stop idx) eqn:E; [by exists idx|].
    apply IH; [apply next_range|]. assert (j <> idx) by congruence.
    rewrite Zminus_mod_idemp_r. replace (j - (idx + 1)) with (j - idx - 1) by lia.
    destruct (Z.ltb_spec idx j).
    + rewrite Z.mod_small in Hf by lia. rewrite Z.mod_small by lia. lia.
    + rewrite <- (Z_mod_plus_full _ 1 size), Z.mod_small by lia.
      rewrite <- (Z_mod_plus_full _ 1 size), Z.mod_small in Hf by lia. lia.
Qed.

(** A walk stays among the slots and ends where it may stop. *)
Lemma probe_from_stop stop fuel idx i :
  0 <= idx < size -> probe_from fuel size stop idx = Ret i -> stop i = true /\ 0 <= i < size.
Proof.
  revert idx. induction fuel as [|fuel IH]; intros idx Hi; cbn [probe_from]; [done|].
  destruct (stop idx) eqn:E; [by intros [= <-]|]. apply IH, next_range.
Qed.

Lemma probe_from_spin stop fuel idx :
  (forall i, 0 <= i < size -> stop i = false) -> 0 <= idx < size -> probe_from fuel size stop idx = Spin.
Proof.
  intros Hs. revert idx. induction fuel as [|fuel IH]; intros idx Hi; cbn [probe_from]; [done|].
  rewrite Hs by done. apply IH, next_range.
Qed.

Lemma probe_from_ext stop stop' fuel idx :
  (forall i, 0 <= i < size -> stop i = stop' i) -> 0 <= idx < size ->
  probe_from fuel size stop idx = probe_from fuel size stop' idx.
Proof.
  intros Hs. revert idx. induction fuel as [|fuel IH]; intros idx Hi; cbn [probe_from]; [done|].
  rewrite Hs by done. destruct (stop' idx); [done|]. apply IH, next_range.
Qed.

Context (hash : Z -> Z) (Hhash : forall k, 0 <= hash k < size).
Implicit Types (slots : Z -> option Z).

(** Every key in the table is where its walk ends. *)
Definition probed slots : Prop :=
  forall i k, 0 <= i < size -> slots i = Some k -> probe size slots k (hash k) = Ret i.
Definition has_room slots : Prop := exists i, 0 <= i < size /\ slots i = None.
Definition put (i k : Z) slots : Z -> option Z := fun j => if j =? i then Some k else slots j.

Lemma probed_unique slots i j k :
  probed slots -> 0 <= i < size -> 0 <= j < size -> slots i = Some k -> slots j = Some k -> i = j.
Proof. intros Hp Hi Hj Ei Ej. pose proof (Hp i k Hi Ei) as E. rewrite (Hp j k Hj Ej) in E. congruence. Qed.

(** Filling a free slot leaves the walks that end at other keys alone. *)
Lemma probe_from_put slots i k key fuel idx j :
  slots i = None -> probe_from fuel size (stops slots key) idx = Ret j -> slots j = Some key ->
  probe_from fuel size (stops (put i k slots) key) idx = Ret j.
Proof.
  intros Hi. revert idx. induction fuel as [|fuel IH]; intros idx; cbn [probe_from]; [done|].
  unfold stops, put at 1. destruct (Z.eqb_spec idx i) as [->|Hne].
  - rewrite Hi. intros [= <-]. congruence.
  - destruct (slots idx) as [c|] eqn:Ec; [|intros [= <-]; congruence].
    destruct (c =? key); [done|]. apply IH.
Qed.

Lemma probe_from_put_self slots i k fuel idx :
  slots i = None -> probe_from fuel size (stops slots k) idx = Ret i ->
  probe_from fuel size (stops (put i k slots) k) idx = Ret i.
Proof.
  intros Hi. revert idx. induction fuel as [|fuel IH]; intros idx; cbn [probe_from]; [done|].
  unfold stops, put at 1. destruct (Z.eqb_spec idx i) as [->|Hne].
  - by rewrite Z.eqb_refl.
  - destruct (slots idx) as [c|] eqn:Ec; [|by intros [= ->]].
    destruct (c =? k) eqn:Ek; [|apply IH]. intros [= ->]. congruence.
Qed.

(** Insertion at the end of the key's walk keeps every key findable. *)
Lemma probed_put slots i k :
  probed slots -> slots i = None -> probe size slots k (hash k) = Ret i -> probed (put i k slots).
Proof.
  intros Hp Hi Hk j c Hj. unfold put at 1. destruct (Z.eqb_spec j i) as [->|Hne].
  - intros [= <-]. by apply probe_from_put_self.
  - intros Hc. by apply probe_from_put; [|apply Hp|].
Qed.

Lemma probed_ext slots slots' :
  (forall i, 0 <= i < size -> slots i = slots' i) -> probed slots -> probed slots'.
Proof.
  intros He Hp i k Hi Hk. rewrite <- He in Hk by done. rewrite <- (Hp i k Hi Hk).
  symmetry. apply probe_from_ext; [|apply Hhash]. intros j Hj. unfold stops. by rewrite He.
Qed.

Lemma probed_empty slots : (forall i, 0 <= i < size -> slots i = None) -> probed slots.
Proof. intros He i k Hi Hk. by rewrite He in Hk. Qed.

Lemma probe_ret slots key : has_room slots -> exists i, probe size slots key (hash key) = Ret i /\ 0 <= i < size.
Proof.
  intros (j & Hj & Ej).
  destruct (probe_from_ret (stops slots key) j (hash key) (Hhash key) Hj ltac:(unfold stops; by rewrite Ej)
    (Z.to_nat size)) as (i & E & _ & Hi).
  - pose proof (Z.mod_pos_bound (j - hash key) size Hsize). lia.
  - by exists i.
Qed.

(** With a free slot, a lookup ends: at the key when it is in the table, else at
    a free slot. *)
Lemma probe_finds slots key :
  probed slots -> has_room slots ->
  exists i, probe size slots key (hash key) = Ret i /\ 0 <= i < size /\
    ((slots i = Some key) \/ (slots i = None /\ forall j, 0 <= j < size -> slots j <> Some key)).
Proof.
  intros Hp Hr. destruct (probe_ret slots key Hr) as (i & E & Hi). exists i. split; [done|]. split; [done|].
  destruct (probe_from_stop _ _ _ _ (Hhash key) E) as [Hs _]. unfold stops in Hs.
  destruct (slots i) as [c|] eqn:Ec.
  - left. by apply Z.eqb_eq in Hs as ->.
  - right. split; [done|]. intros j Hj Ej. rewrite (Hp j key Hj Ej) in E. congruence.
Qed.

(** A full table without the key: the walk never ends. *)
Lemma probe_full slots key :
  (forall i, 0 <= i < size -> exists k, slots i = Some k /\ k <> key) -> probe size slots key (hash key) = Spin.
Proof.
  intros Hf. apply probe_from_spin; [|apply Hhash]. intros i Hi. unfold stops.
  destruct (Hf i Hi) as (k & -> & Hk). by apply Z.eqb_neq.
Qed.

(** Fewer keys than slots leave room. *)
Lemma room_count slots ks :
  probed slots -> (forall i k, 0 <= i < size -> slots i = Some k -> k ∈ ks) ->
  Z.of_nat (length ks) < size -> has_room slots.
Proof.
  intros Hp Hks Hlen.
  destruct (decide (Exists (fun i => slots i = None) (seqZ 0 size))) as [(i & Hi & E)%Exists_exists|Hn].
  - exists i. split; [|done]. apply elem_of_seqZ in Hi. lia.
  - exfalso. apply not_Exists_Forall in Hn; [|apply _].
    pose (f i := default 0 (slots i)).
    assert (Hf : forall i, 0 <= i < size -> slots i = Some (f i)).
    { intros i Hi. rewrite Forall_forall in Hn. specialize (Hn i ltac:(apply elem_of_seqZ; lia)). cbn in Hn.
      unfold f. by destruct (slots i). }
    assert (Hnd : NoDup (f <$> seqZ 0 size)).
    { apply NoDup_fmap_2_strong; [|apply NoDup_seqZ]. intros i j Hi%elem_of_seqZ Hj%elem_of_seqZ E.
      apply (probed_unique slots i j (f i) Hp); [lia..|apply Hf; lia|]. rewrite E. apply Hf. lia. }
    assert (Hsub : (f <$> seqZ 0 size) ⊆+ ks).
    { apply NoDup_submseteq; [done|]. intros x (i & -> & Hi%elem_of_seqZ)%list_elem_of_fmap.
      apply (Hks i); [lia|]. apply Hf. lia. }
    apply submseteq_length in Hsub. rewrite length_fmap, length_seqZ in Hsub. lia.
Qed.
End Walk.

(** ** Deletion

    A slot is freed by clearing it, so later keys of a chain that went over it
    become unreachable.  As long as no two keys share a hash value, every key sits at its
    hash value, chains have length one, and clearing is right. *)
Section Homed.
Context (size : Z) (Hsize : 0 < size) (hash : Z -> Z) (Hhash : forall k, 0 <= hash k < size).
Implicit Types (slots : Z -> option Z).

Definition homed slots : Prop := forall i k, 0 <= i < size -> slots i = Some k -> i = hash k.
Definition cleared (i : Z) slots : Z -> option Z := fun j => if j =? i then None else slots j.

Lemma probe_home slots key :
  stops slots key (hash key) = true -> probe size slots key (hash key) = Ret (hash key).
Proof.
  intros Hs. unfold probe. destruct (Z.to_nat size) eqn:E; [lia|]. cbn [probe_from]. by rewrite Hs.
Qed.

Lemma homed_probe slots key :
  homed slots -> (forall k, slots (hash key) = Some k -> k = key) ->
  probe size slots key (hash key) = Ret (hash key).
Proof.
  intros _ Hk. apply probe_home. unfold stops. destruct (slots (hash key)) as [k|]; [|done].
  by rewrite (Hk k eq_refl), Z.eqb_refl.
Qed.

Lemma homed_put slots k : homed slots -> homed (put (hash k) k slots).
Proof. intros Hh i c Hi. unfold put. destruct (Z.eqb_spec i (hash k)) as [->|]; [by intros [= ->]|by apply Hh]. Qed.

Lemma homed_cleared slots i : homed slots -> homed (cleared i slots).
Proof. intros Hh j c Hj. unfold cleared. destruct (j =? i); [done|by apply Hh]. Qed.
End Homed.
