(* ===== verification/SetObject.v ===== *)
(** * The object files of the tracer ([SET/SET_object.c], [SET/SET_kernel.c])

    [SET_create_obj] fills a hash table with the addresses of an object file's
    functions; the tracer looks up the target of every branch in it.
    [get_special_kernel_func] finds, in the same way, the six kernel functions
    whose calls tell the tracer about processes.

    What [efd_open_elf] read of a file (its type and its symbols) is data here.
    Memory is not exhausted.  A division by zero ends the process ([ProcExit]). *)
From stdpp Require Import strings.
From S2P Require Import Prelude Probe.

(** ** Symbols ([Elf32_Sym] as [efd.h] reads it) *)

Record sym := mk_sym {
  sym_name : string; sym_value : Z; sym_size : Z; sym_type : Z; sym_vis : Z; sym_shndx : Z }.
Record EFD := mk_EFD { e_type : Z; symtab : list sym }.

Definition STT_FUNC : Z := 2.
Definition STV_DEFAULT : Z := 0.
Definition SHN_UNDEF : Z := 0.
Definition ET_DYN : Z := 3.
Definition TARGET_PAGE_BITS : Z := 10.
Definition THUMB_INSN_MASK : Z := 0xfffffffe.

Definition IS_FUNC (y : sym) : bool :=
  (sym_type y =? STT_FUNC) && (sym_vis y =? STV_DEFAULT) && negb (sym_shndx y =? SHN_UNDEF).
Definition HASH (addr size : Z) : Z := Z.shiftr addr 2 mod size.

(** ** Objects *)

Record ObjFile := mk_obj {
  obj_id : Z; obj_path : string; func_addr : arr; func_idx : arr; funcTableSize : Z;
  text_start : Z; text_end : Z; obj_count : Z }.

(** [static int HashTableSize[32]]; the cells that are not written are zero. *)
Definition HashTableSize : list Z :=
  [1; 13; 61; 127; 509; 1021; 2039; 4093; 8191; 16381; 32749; 65521; 131071; 262139; 524287; 1048573].
(** [HashTableSize[31-__builtin_clz(size)]] *)
Definition table_size (size : Z) : Z := nth (Z.to_nat (Z.log2 size)) HashTableSize 0.

Definition func_slots (addr : arr) (i : Z) : option Z := if addr.[i] =? 0 then None else Some addr.[i].

(** The variables of the second pass *)
Record fill := mk_fill { fl_addr : arr; fl_idx : arr; symtabFuncIdx : Z; fl_min : Z; fl_max : Z }.
Definition fill0 : fill := mk_fill ∅ ∅ 0 0xc0000000 0.

Definition func_vaddr (off : Z) (y : sym) : Z := u32 (Z.land (sym_value y) THUMB_INSN_MASK + off).

Definition insert_func (size off : Z) (s : fill) (y : sym) : run fill :=
  if IS_FUNC y then
    let vaddr := func_vaddr off y in
    idx ← probe size (func_slots (fl_addr s)) vaddr (HASH vaddr size);
    if negb ((fl_addr s).[idx] =? vaddr) then
      let fend := u32 (vaddr + sym_size y) in
      Ret (mk_fill (fl_addr s).[idx <- vaddr] (fl_idx s).[idx <- symtabFuncIdx s] (u32 (symtabFuncIdx s + 1))
             (if vaddr <? fl_min s then vaddr else fl_min s) (if fl_max s <? fend then fend else fl_max s))
    else Ret s
  else Ret s.

Definition insert_funcs (size off : Z) (l : list sym) (s : fill) : run fill :=
  foldl (fun r y => s ← r; insert_func size off s y) (Ret s) l.

Definition load_offset (efd : EFD) (start pgoff : Z) : Z :=
  if e_type efd =? ET_DYN then u32 (start - Z.shiftl pgoff TARGET_PAGE_BITS) else 0.

(** Object and the new [current_id].  No object: the file cannot be read or has
    no function. *)
Definition SET_create_obj (efd : option EFD) (path : string) (start pgoff current_id : Z)
  : run (option ObjFile * Z) :=
  match efd with
  | None => Ret (None, current_id)
  | Some efd =>
      let size := Z.of_nat (length (filter (fun y => IS_FUNC y = true) (symtab efd))) in
      if size =? 0 then Ret (None, current_id)
      else
        let n := table_size size in
        if n =? 0 then ProcExit
        else
          s ← insert_funcs n (load_offset efd start pgoff) (symtab efd) fill0;
          Ret (Some (mk_obj current_id path (fl_addr s) (fl_idx s) n (fl_min s) (fl_max s) 0),
               wrap 16 (current_id + 1))
  end.

(** The search for a function entry, in the three [SET_event_branch_*]: the
    function's number, if the target is one *)
Definition find_func (obj : ObjFile) (target_addr : Z) : run (option Z) :=
  idx ← probe (funcTableSize obj) (func_slots (func_addr obj)) target_addr (HASH target_addr (funcTableSize obj));
  Ret (if (func_addr obj).[idx] =? 0 then None else Some (func_idx obj).[idx]).

(** ** The kernel's functions *)

Inductive KerEvent := EXECVE | EXIT | CS | MMAP | FORK | KTHREAD.
#[export] Instance KerEvent_eq_dec : EqDecision KerEvent.
Proof. solve_decision. Defined.

Definition KER_EVENT_NUM : Z := 6.
Definition KER_TABLE_SIZE : Z := 83.

Record FuncRange := mk_range { fr_start : Z; fr_end : Z }.

(** [KerFunc kerFuncTable[83]] and the four static ranges its [retFunc] pointers
    go to *)
Record KerTable := mk_kt {
  k_addr : arr; k_event : gmap Z KerEvent;
  r_execve : FuncRange; r_mmap : FuncRange; r_fork : FuncRange; r_kthread : FuncRange }.

Definition kt0 : KerTable := mk_kt ∅ ∅ (mk_range 0 0) (mk_range 0 0) (mk_range 0 0) (mk_range 0 0).

(** The event of an entry (the first constant where never written) *)
Definition event_at (t : KerTable) (idx : Z) : KerEvent := default EXECVE (k_event t !! idx).

(** The function whose return counts, for the events that have one *)
Definition retFunc (t : KerTable) (e : KerEvent) : option FuncRange :=
  match e with
  | EXECVE => Some (r_execve t) | MMAP => Some (r_mmap t) | FORK => Some (r_fork t) | KTHREAD => Some (r_kthread t)
  | EXIT | CS => None
  end.

Definition range_of (y : sym) : FuncRange :=
  let vaddr := Z.land (sym_value y) THUMB_INSN_MASK in mk_range vaddr (u32 (vaddr + sym_size y)).

(** The names that set a range, and the names that are entries *)
Definition note_range (y : sym) (t : KerTable) : KerTable :=
  let r := range_of y in
  if decide (sym_name y = "do_execve") then mk_kt (k_addr t) (k_event t) r (r_mmap t) (r_fork t) (r_kthread t)
  else if decide (sym_name y = "do_fork") then mk_kt (k_addr t) (k_event t) (r_execve t) (r_mmap t) r (r_kthread t)
  else if decide (sym_name y = "mmap_region") then mk_kt (k_addr t) (k_event t) (r_execve t) r (r_fork t) (r_kthread t)
  else if decide (sym_name y = "kthread_create") then mk_kt (k_addr t) (k_event t) (r_execve t) (r_mmap t) (r_fork t) r
  else t.
Definition entry_event (name : string) : option KerEvent :=
  if decide (name = "do_exit") then Some EXIT
  else if decide (name = "search_binary_handler") then Some EXECVE
  else if decide (name = "vma_wants_writenotify") then Some MMAP
  else if decide (name = "vsnprintf") then Some KTHREAD
  else if decide (name = "wake_up_new_task") then Some FORK
  else if decide (name = "__switch_to") then Some CS
  else None.

Definition insert_ker (size : Z) (t : KerTable) (y : sym) : run KerTable :=
  if IS_FUNC y then
    let t := note_range y t in
    match entry_event (sym_name y) with
    | None => Ret t
    | Some e =>
        let vaddr := Z.land (sym_value y) THUMB_INSN_MASK in
        idx ← probe_from (Z.to_nat size) size (fun i => (k_addr t).[i] =? 0) (HASH vaddr size);
        Ret (mk_kt (k_addr t).[idx <- vaddr] (<[idx := e]> (k_event t)) (r_execve t) (r_mmap t) (r_fork t) (r_kthread t))
    end
  else Ret t.

Definition range_ok (r : FuncRange) : bool :=
  negb (fr_start r =? 0) && negb (fr_end r =? 0) && negb (u32 (fr_end r - fr_start r) =? 0).

Definition entries (t : KerTable) : list Z :=
  filter (fun i => (k_addr t).[i] <> 0) (seqZ 0 KER_TABLE_SIZE).
Definition entry_ok (t : KerTable) (i : Z) : bool :=
  match retFunc t (event_at t i) with Some r => range_ok r | None => true end.

(** The table, or [None] for the result -1 *)
Definition get_special_kernel_func (efd : option EFD) (size : Z) : run (option KerTable) :=
  match efd with
  | None => Ret None
  | Some efd =>
      t ← foldl (fun r y => t ← r; insert_ker size t y) (Ret kt0) (symtab efd);
      Ret (if forallb (entry_ok t) (entries t) && (Z.of_nat (length (entries t)) =? KER_EVENT_NUM)
           then Some t else None)
  end.

(** The search of [SET_event_branch] *)
Definition find_ker (t : KerTable) (target_addr : Z) : run (option KerEvent) :=
  idx ← probe KER_TABLE_SIZE (func_slots (k_addr t)) target_addr (HASH target_addr KER_TABLE_SIZE);
  Ret (if (k_addr t).[idx] =? 0 then None else Some (event_at t idx)).

(** ** What the table is to hold: the addresses of the functions, each once, in the
    order of the symbol table.  The number of a function is its place here. *)

Definition note_address (seen : list Z) (v : Z) : list Z :=
  if decide (v = 0 \/ v ∈ seen) then seen else seen ++ [v].
Definition func_addresses (off : Z) (l : list sym) : list Z :=
  foldl note_address [] (map (func_vaddr off) (filter (fun y => IS_FUNC y = true) l)).

(** The number of an address in such a list *)
Definition place (seen : list Z) (v : Z) : option Z := (fun p => Z.of_nat p.1) <$> list_find (eq v) seen.

(** ** Helper lemmas *)

Lemma HASH_range size addr : 0 < size -> 0 <= HASH addr size < size.
Proof. intros. by apply Z.mod_pos_bound. Qed.

Lemma slots_set addr i v : v <> 0 -> forall j, func_slots addr.[i <- v] j = put i v (func_slots addr) j.
Proof.
  intros Hv j. unfold func_slots, put. rewrite aget_aset. destruct (Z.eqb_spec j i) as [->|Hne].
  - rewrite decide_True by done. destruct (Z.eqb_spec v 0); [lia|done].
  - by rewrite decide_False by done.
Qed.

Lemma slots_nonzero addr i k : func_slots addr i = Some k -> k <> 0 /\ addr.[i] = k.
Proof. unfold func_slots. destruct (Z.eqb_spec addr.[i] 0); [done|]. by intros [= <-]. Qed.

Lemma note_address_nodup seen v : NoDup seen -> NoDup (note_address seen v).
Proof.
  intros H. unfold note_address. destruct (decide _) as [|Hn]; [done|].
  apply NoDup_app. split; [done|]. split; [|apply NoDup_singleton].
  intros x Hx ->%list_elem_of_singleton. apply Hn. by right.
Qed.

Lemma note_address_prefix seen v : seen `prefix_of` note_address seen v.
Proof. unfold note_address. destruct (decide _); [done|by apply prefix_app_r]. Qed.

Lemma note_address_length seen v : (length (note_address seen v) <= S (length seen))%nat.
Proof. unfold note_address. destruct (decide _); [lia|]. rewrite length_app. cbn. lia. Qed.

Lemma addresses_length vs seen : (length (foldl note_address seen vs) <= length seen + length vs)%nat.
Proof.
  revert seen. induction vs as [|v vs IH]; intros seen; cbn [foldl length]; [lia|].
  specialize (IH (note_address seen v)). pose proof (note_address_length seen v). lia.
Qed.

Lemma addresses_nodup vs seen : NoDup seen -> NoDup (foldl note_address seen vs).
Proof. revert seen. induction vs as [|v vs IH]; intros seen H; [done|]. by apply IH, note_address_nodup. Qed.

(** *** The table during the second pass *)

Section Fill.
Context (size : Z) (Hsize : 0 < size).
Abbreviation hash := (fun k => HASH k size).

Record fill_inv (seen : list Z) (s : fill) : Prop := {
  fi_probed : probed size hash (func_slots (fl_addr s));
  fi_count : symtabFuncIdx s = Z.of_nat (length seen);
  fi_nodup : NoDup seen;
  fi_slot : forall i k, 0 <= i < size -> func_slots (fl_addr s) i = Some k ->
    exists n, seen !! n = Some k /\ (fl_idx s).[i] = Z.of_nat n;
  fi_seen : forall k, k ∈ seen -> exists i, 0 <= i < size /\ func_slots (fl_addr s) i = Some k;
  fi_nonzero : 0 ∉ seen;
  fi_min : Forall (fun k => fl_min s <= k) seen }.

Lemma fill_inv_0 : fill_inv [] fill0.
Proof.
  assert (He : forall i, func_slots ∅ i = None) by (intros i; unfold func_slots; by rewrite aget_empty).
  split; cbn.
  - apply probed_empty. auto.
  - done.
  - constructor.
  - intros i k _. by rewrite He.
  - by intros k ?%elem_of_nil.
  - by intros ?%elem_of_nil.
  - constructor.
Qed.

Lemma fill_room seen s : fill_inv seen s -> Z.of_nat (length seen) < size -> has_room size (func_slots (fl_addr s)).
Proof.
  intros I Hlen. apply (room_count size Hsize hash _ seen (fi_probed _ _ I)); [|done].
  intros i k Hi Hk. destruct (fi_slot _ _ I i k Hi Hk) as (n & Hn & _). by eapply list_elem_of_lookup_2.
Qed.

Lemma seen_found seen s v i :
  fill_inv seen s -> probe size (func_slots (fl_addr s)) v (HASH v size) = Ret i -> 0 <= i < size ->
  ((func_slots (fl_addr s) i = Some v /\ v ∈ seen) \/ (func_slots (fl_addr s) i = None /\ v ∉ seen)).
Proof.
  intros I E Hi.
  destruct (probe_from_stop size Hsize _ _ _ _ (HASH_range size v Hsize) E) as [Hs _].
  unfold stops in Hs. destruct (func_slots (fl_addr s) i) as [c|] eqn:Ec.
  - left. apply Z.eqb_eq in Hs as ->. split; [done|].
    destruct (fi_slot _ _ I i v Hi Ec) as (n & Hn & _). by eapply list_elem_of_lookup_2.
  - right. split; [done|]. intros Hv. destruct (fi_seen _ _ I v Hv) as (j & Hj & Ej).
    rewrite (fi_probed _ _ I j v Hj Ej) in E. congruence.
Qed.

(** One symbol: the table follows the list of addresses. *)
Lemma insert_func_inv off seen s y :
  fill_inv seen s -> Z.of_nat (length seen) < size -> Z.of_nat (length seen) < 2 ^ 31 -> IS_FUNC y = true ->
  exists s', insert_func size off s y = Ret s' /\ fill_inv (note_address seen (func_vaddr off y)) s'.
Proof.
  intros I Hlen H32 Hf. unfold insert_func. rewrite Hf. set (v := func_vaddr off y).
  destruct (probe_ret size Hsize hash (fun k => HASH_range size k Hsize) _ v (fill_room seen s I Hlen)) as (i & E & Hi).
  rewrite E. cbn [mbind run_bind].
  destruct (seen_found seen s v i I E Hi) as [[Ei Hv]|[Ei Hv]].
  - destruct (slots_nonzero _ _ _ Ei) as [_ ->]. rewrite Z.eqb_refl. exists s. split; [done|].
    unfold note_address. by rewrite decide_True by (by right).
  - assert (E0 : (fl_addr s).[i] = 0) by (unfold func_slots in Ei; by destruct (Z.eqb_spec (fl_addr s).[i] 0)).
    rewrite E0. destruct (Z.eqb_spec 0 v) as [Ev|Ev]; cbn [negb].
    + exists s. split; [done|]. unfold note_address. by rewrite decide_True by (by left).
    + eexists. split; [reflexivity|]. unfold note_address. rewrite decide_False by (by intros [?|?]; [lia|]).
      assert (Hs : forall j, func_slots (fl_addr s).[i <- v] j = put i v (func_slots (fl_addr s)) j)
        by (apply slots_set; lia).
      split; cbn [fl_addr fl_idx symtabFuncIdx fl_min fl_max].
      * eapply (probed_ext size Hsize hash (fun k => HASH_range size k Hsize)); [intros j _; symmetry; apply Hs|].
        apply probed_put; [exact (fi_probed _ _ I)|done|exact E].
      * rewrite (fi_count _ _ I), length_app. cbn [length]. rewrite u32_small by lia. lia.
      * apply NoDup_app. split; [exact (fi_nodup _ _ I)|]. split; [|apply NoDup_singleton].
        by intros x Hx ->%list_elem_of_singleton.
      * intros j k Hj. rewrite Hs. unfold put. rewrite aget_aset. destruct (Z.eqb_spec j i) as [->|Hne].
        -- intros [= <-]. exists (length seen). rewrite decide_True by done. rewrite (fi_count _ _ I).
           split; [|done]. by apply list_lookup_middle.
        -- intros Hk. rewrite decide_False by done. destruct (fi_slot _ _ I j k Hj Hk) as (n & Hn & ->).
           exists n. split; [by apply lookup_app_l_Some|done].
      * intros k [Hk| ->%list_elem_of_singleton]%elem_of_app.
        -- destruct (fi_seen _ _ I k Hk) as (j & Hj & Ej). exists j. split; [done|]. rewrite Hs. unfold put.
           destruct (Z.eqb_spec j i) as [->|]; [congruence|done].
        -- exists i. split; [done|]. rewrite Hs. unfold put. by rewrite Z.eqb_refl.
      * pose proof (fi_nonzero _ _ I). rewrite elem_of_app, list_elem_of_singleton. intros [?|?]; [done|lia].
      * pose proof (fi_min _ _ I) as Hm. destruct (Z.ltb_spec v (fl_min s)); apply Forall_app; split.
        -- eapply Forall_impl; [exact Hm|]. cbn. lia.
        -- by repeat constructor.
        -- done.
        -- by repeat constructor.
Qed.

Lemma insert_funcs_inv off l seen s :
  fill_inv seen s ->
  Z.of_nat (length seen) + Z.of_nat (length (filter (fun y => IS_FUNC y = true) l)) < Z.min size (2 ^ 31) ->
  exists s', insert_funcs size off l s = Ret s' /\
    fill_inv (foldl note_address seen (map (func_vaddr off) (filter (fun y => IS_FUNC y = true) l))) s'.
Proof.
  revert seen s. induction l as [|y l IH]; intros seen s I Hlen; [by exists s|].
  unfold insert_funcs in *. cbn [foldl mbind run_bind]. rewrite filter_cons in *.
  destruct (decide (IS_FUNC y = true)) as [Hf|Hf].
  - cbn [length] in Hlen. destruct (insert_func_inv off seen s y I ltac:(lia) ltac:(lia) Hf) as (s1 & E & I1).
    rewrite E. cbn [map foldl]. apply IH; [done|].
    pose proof (note_address_length seen (func_vaddr off y)). lia.
  - unfold insert_func. rewrite (not_true_is_false _ Hf). by apply IH.
Qed.

Lemma find_func_place seen s id path n0 m :
  fill_inv seen s -> Z.of_nat (length seen) < size ->
  forall t, find_func (mk_obj id path (fl_addr s) (fl_idx s) size n0 m 0) t = Ret (place seen t).
Proof.
  intros I Hlen t. unfold find_func. cbn [funcTableSize func_addr func_idx].
  destruct (probe_ret size Hsize hash (fun k => HASH_range size k Hsize) _ t (fill_room seen s I Hlen)) as (i & E & Hi).
  rewrite E. cbn [mbind run_bind]. f_equal. unfold place.
  destruct (seen_found seen s t i I E Hi) as [[Ei Ht]|[Ei Ht]].
  - destruct (slots_nonzero _ _ _ Ei) as [Hk ->]. destruct (Z.eqb_spec t 0); [lia|].
    destruct (fi_slot _ _ I i t Hi Ei) as (p & Hp & ->).
    rewrite (proj2 (list_find_Some (eq t) seen p t)); [done|]. split_and!; [done..|].
    intros j y Hj Hlt ->. pose proof (NoDup_lookup _ _ _ _ (fi_nodup _ _ I) Hj Hp). lia.
  - rewrite (proj2 (list_find_None (eq t) seen)) by (apply Forall_forall; by intros x Hx <-).
    unfold func_slots in Ei. by destruct (Z.eqb_spec (fl_addr s).[i] 0).
Qed.
End Fill.

(** More slots than functions, from two functions on *)
Lemma table_size_gt n : 2 <= n < 65536 -> n < table_size n.
Proof.
  intros Hn. pose proof (Z.log2_spec n ltac:(lia)) as [_ Hlt].
  assert (Hl : 1 <= Z.log2 n < 16).
  { split; [change 1 with (Z.log2 2) at 1; apply Z.log2_le_mono; lia|]. apply Z.log2_lt_pow2; lia. }
  assert (Ht : forallb (fun i => 2 ^ (Z.of_nat i + 1) <? nth i HashTableSize 0) (seq 1 15) = true)
    by (vm_compute; reflexivity).
  rewrite forallb_forall in Ht. specialize (Ht (Z.to_nat (Z.log2 n)) ltac:(apply in_seq; lia)).
  apply Z.ltb_lt in Ht. rewrite Z2Nat.id in Ht by lia. unfold table_size. lia.
Qed.

(** The end of the text is behind every function, if none wraps. *)
Definition below_max (s : fill) : Prop := forall i, (fl_addr s).[i] <= fl_max s.
Definition sym_fits (off : Z) (y : sym) : Prop := 0 <= sym_size y /\ func_vaddr off y + sym_size y < 2 ^ 32.

Lemma insert_func_max size off s s' y :
  sym_fits off y -> below_max s -> insert_func size off s y = Ret s' -> below_max s'.
Proof.
  intros [H0 Hw] Hb. unfold insert_func. destruct (IS_FUNC y); [|by intros [= <-]].
  set (v := func_vaddr off y) in *. assert (0 <= v) by (subst v; unfold func_vaddr; apply u32_range).
  intros (i & _ & E)%bind_Ret. destruct (negb _); [|by injection E as <-].
  injection E as <-. intros j. cbn [fl_addr fl_max]. rewrite aget_aset. specialize (Hb j).
  rewrite u32_small by lia. destruct (Z.ltb_spec (fl_max s) (v + sym_size y)); case_decide; lia.
Qed.

Lemma insert_funcs_max size off l s s' :
  Forall (sym_fits off) l -> below_max s -> insert_funcs size off l s = Ret s' -> below_max s'.
Proof.
  intros Hl. revert s. unfold insert_funcs. induction Hl as [|y l Hy Hl IH]; intros s Hb; cbn [foldl mbind run_bind].
  - by intros [= <-].
  - destruct (insert_func size off s y) as [s1| |] eqn:E.
    + apply IH. by eapply insert_func_max.
    + clear. induction l as [|z l IH]; [done|exact IH].
    + clear. induction l as [|z l IH]; [done|exact IH].
Qed.

Lemma insert_funcs_filter size off l s :
  insert_funcs size off l s = insert_funcs size off (filter (fun y => IS_FUNC y = true) l) s.
Proof.
  unfold insert_funcs. generalize (Ret s). induction l as [|y l IH]; intros r; [done|].
  rewrite filter_cons. cbn [foldl]. destruct (decide (IS_FUNC y = true)) as [Hf|Hf]; cbn [foldl]; [apply IH|].
  rewrite <- IH. f_equal. destruct r as [s'| |]; cbn; [|done|done]. unfold insert_func. by rewrite (not_true_is_false _ Hf).
Qed.

Lemma probe_one slots key : probe 1 slots key 0 = if stops slots key 0 then Ret 0 else Spin.
Proof. done. Qed.

(** *** The kernel's table *)

(** The watched functions of a symbol table, and the ranges it gives *)
Definition entry_sym (y : sym) : option (Z * KerEvent) :=
  if IS_FUNC y then e ← entry_event (sym_name y); Some (Z.land (sym_value y) THUMB_INSN_MASK, e) else None.
Definition note_ranges (t : KerTable) (l : list sym) : KerTable :=
  foldl (fun t y => if IS_FUNC y then note_range y t else t) t l.
Definition event_of (es : list (Z * KerEvent)) (target : Z) : option KerEvent :=
  (fun p => p.2.2) <$> list_find (fun p => p.1 = target) es.

Definition ker_hash (k : Z) : Z := HASH k KER_TABLE_SIZE.
Lemma ker_size : 0 < KER_TABLE_SIZE.
Proof. done. Qed.
Lemma ker_hash_range k : 0 <= ker_hash k < KER_TABLE_SIZE.
Proof. by apply HASH_range. Qed.

Record ker_inv (es : list (Z * KerEvent)) (t : KerTable) : Prop := {
  ki_probed : probed KER_TABLE_SIZE ker_hash (func_slots (k_addr t));
  ki_slot : forall i k, 0 <= i < KER_TABLE_SIZE -> func_slots (k_addr t) i = Some k -> (k, event_at t i) ∈ es;
  ki_seen : forall k e, (k, e) ∈ es -> exists i, 0 <= i < KER_TABLE_SIZE /\ func_slots (k_addr t) i = Some k }.

Lemma ker_inv_0 : ker_inv [] kt0.
Proof.
  assert (He : forall i, func_slots ∅ i = None) by (intros i; unfold func_slots; by rewrite aget_empty).
  split; cbn.
  - apply probed_empty. auto.
  - intros i k _. by rewrite He.
  - by intros k e ?%elem_of_nil.
Qed.

Lemma ker_room es t : ker_inv es t -> Z.of_nat (length es) < KER_TABLE_SIZE -> has_room KER_TABLE_SIZE (func_slots (k_addr t)).
Proof.
  intros I Hlen. apply (room_count _ ker_size ker_hash _ es.*1 (ki_probed _ _ I)); [|by rewrite length_fmap].
  intros i k Hi Hk. apply (list_elem_of_fmap_2 fst es (k, event_at t i)), (ki_slot _ _ I i k Hi Hk).
Qed.

Lemma note_range_table y t : k_addr (note_range y t) = k_addr t /\ k_event (note_range y t) = k_event t.
Proof. unfold note_range. by repeat destruct (decide _). Qed.

Lemma ker_inv_table es t t' : k_addr t' = k_addr t -> k_event t' = k_event t -> ker_inv es t -> ker_inv es t'.
Proof.
  intros Ea Ee [H1 H2 H3]. split; rewrite Ea; [done| |done].
  intros i k Hi Hk. unfold event_at. rewrite Ee. by apply H2.
Qed.

Lemma insert_ker_inv es t y :
  ker_inv es t -> Z.of_nat (length es) < KER_TABLE_SIZE ->
  (forall p, entry_sym y = Some p -> p.1 <> 0 /\ p.1 ∉ es.*1) ->
  exists t', insert_ker KER_TABLE_SIZE t y = Ret t' /\
    ker_inv (es ++ option_list (entry_sym y)) t' /\
    forall e, retFunc t' e = retFunc (if IS_FUNC y then note_range y t else t) e.
Proof.
  intros I Hlen. unfold insert_ker, entry_sym. destruct (IS_FUNC y); [|by exists t; rewrite app_nil_r].
  destruct (note_range_table y t) as [Ea Ee]. apply (ker_inv_table _ _ _ Ea Ee) in I.
  set (t1 := note_range y t) in *. set (v := Z.land (sym_value y) THUMB_INSN_MASK).
  destruct (entry_event (sym_name y)) as [e|]; cbn [mbind option_bind option_list];
    [|intros _; exists t1; by rewrite app_nil_r].
  intros Hv. destruct (Hv (v, e) eq_refl) as [Hv0 Hvn]. cbn [fst] in *.
  destruct (probe_ret _ ker_size ker_hash ker_hash_range _ v (ker_room es t1 I Hlen)) as (i & E & Hi).
  destruct (probe_from_stop _ ker_size _ _ _ _ (ker_hash_range v) E) as [Hs _].
  assert (Hnone : forall j, func_slots (k_addr t1) j <> Some v \/ ~ 0 <= j < KER_TABLE_SIZE).
  { intros j. destruct (decide (0 <= j < KER_TABLE_SIZE)) as [Hj|]; [left|by right]. intros Ej. apply Hvn.
    apply (list_elem_of_fmap_2 fst es (v, event_at t1 j)), (ki_slot _ _ I j v Hj Ej). }
  assert (Hi0 : func_slots (k_addr t1) i = None).
  { unfold stops in Hs. destruct (func_slots (k_addr t1) i) as [c|] eqn:Ec; [|done].
    apply Z.eqb_eq in Hs as ->. by destruct (Hnone i). }
  assert (E' : probe_from (Z.to_nat KER_TABLE_SIZE) KER_TABLE_SIZE (fun j => (k_addr t1).[j] =? 0) (ker_hash v) = Ret i).
  { rewrite <- E. apply probe_from_ext; [done| |apply ker_hash_range]. intros j Hj. unfold stops.
    destruct (Hnone j) as [Hj'|]; [|done]. unfold func_slots in *.
    destruct (Z.eqb_spec (k_addr t1).[j] 0) as [|_]; [done|].
    destruct (Z.eqb_spec (k_addr t1).[j] v) as [Ev|]; [by rewrite Ev in Hj'|done]. }
  fold (ker_hash v). rewrite E'. cbn [mbind run_bind]. eexists. split; [reflexivity|]. split; [|by intros []].
  pose proof (slots_set (k_addr t1) i v Hv0) as Hset.
  split; cbn [k_addr k_event].
  - eapply (probed_ext _ ker_size _ ker_hash_range); [intros j _; symmetry; apply Hset|].
    apply probed_put; [exact (ki_probed _ _ I)|done|exact E].
  - intros j k Hj. rewrite Hset. unfold put, event_at. cbn [k_event].
    destruct (Z.eqb_spec j i) as [->|Hne].
    + intros [= <-]. rewrite lookup_insert_eq. apply elem_of_app. right. by left.
    + intros Hk. rewrite lookup_insert_ne by done. apply elem_of_app. left. apply (ki_slot _ _ I j k Hj Hk).
  - intros k e' [Hk|Hk]%elem_of_app.
    + destruct (ki_seen _ _ I k e' Hk) as (j & Hj & Ej). exists j. split; [done|]. rewrite Hset. unfold put.
      destruct (Z.eqb_spec j i) as [->|]; [congruence|done].
    + apply list_elem_of_singleton in Hk. injection Hk as -> ->. exists i. split; [done|]. rewrite Hset. unfold put.
      by rewrite Z.eqb_refl.
Qed.

Lemma retFunc_note y t t' e :
  (forall e, retFunc t e = retFunc t' e) -> retFunc (note_range y t) e = retFunc (note_range y t') e.
Proof.
  intros H. pose proof (H EXECVE) as H1. pose proof (H MMAP) as H2. pose proof (H FORK) as H3. pose proof (H KTHREAD) as H4.
  cbn in H1, H2, H3, H4. unfold note_range. repeat destruct (decide _); destruct e; cbn; congruence.
Qed.

Lemma note_ranges_ret l t t' e :
  (forall e, retFunc t e = retFunc t' e) -> retFunc (note_ranges t l) e = retFunc (note_ranges t' l) e.
Proof.
  unfold note_ranges. revert t t' e. induction l as [|y l IH]; intros t t' e H; [apply H|]. cbn [foldl].
  apply IH. intros e'. destruct (IS_FUNC y); [by apply retFunc_note|apply H].
Qed.

Lemma insert_kers_inv l es t :
  ker_inv es t -> Z.of_nat (length (es ++ omap entry_sym l)) < KER_TABLE_SIZE ->
  NoDup (es ++ omap entry_sym l).*1 -> 0 ∉ (omap entry_sym l).*1 ->
  exists t', foldl (fun r y => t ← r; insert_ker KER_TABLE_SIZE t y) (Ret t) l = Ret t' /\
    ker_inv (es ++ omap entry_sym l) t' /\ forall e, retFunc t' e = retFunc (note_ranges t l) e.
Proof.
  revert es t. induction l as [|y l IH]; intros es t I Hlen Hnd H0.
  - exists t. change (omap entry_sym []) with (@nil (Z * KerEvent)). by rewrite app_nil_r.
  - assert (Ho : omap entry_sym (y :: l) = option_list (entry_sym y) ++ omap entry_sym l)
      by (cbn; by destruct (entry_sym y)).
    rewrite Ho in *. rewrite !length_app in Hlen.
    destruct (insert_ker_inv es t y I ltac:(lia)) as (t1 & E & I1 & Hr).
    { intros p Hp. rewrite Hp in Hnd, H0. cbn in Hnd, H0. split; [intros E; apply H0; rewrite <- E; by left|].
      intros Hin. rewrite fmap_app in Hnd. apply NoDup_app in Hnd as (_ & Hd & _). apply (Hd _ Hin). by left. }
    cbn [foldl mbind run_bind]. rewrite E.
    destruct (IH (es ++ option_list (entry_sym y)) t1 I1) as (t' & E' & I' & Hr').
    + rewrite !length_app. lia.
    + by rewrite <- app_assoc.
    + intros Hin. apply H0. rewrite fmap_app, elem_of_app. by right.
    + exists t'. rewrite app_assoc. split; [exact E'|]. split; [exact I'|]. intros e. rewrite Hr'.
      cbn [note_ranges foldl]. by apply note_ranges_ret.
Qed.

(** The entries are the watched functions. *)
Lemma ker_entries es t : ker_inv es t -> NoDup es.*1 -> length (entries t) = length es.
Proof.
  intros I Hnd. rewrite <- (length_fmap fst es), <- (length_fmap (aget (k_addr t)) (entries t)).
  assert (Hs : forall i, i ∈ entries t <-> 0 <= i < KER_TABLE_SIZE /\ func_slots (k_addr t) i = Some (k_addr t).[i]).
  { intros i. unfold entries. rewrite list_elem_of_filter, elem_of_seqZ. unfold func_slots.
    destruct (Z.eqb_spec (k_addr t).[i] 0); split; intros [? ?]; try done; split; try done; lia. }
  apply Permutation_length, NoDup_Permutation; [|done|].
  - apply NoDup_fmap_2_strong; [|apply NoDup_filter, NoDup_seqZ].
    intros i j [Hi Ei]%Hs [Hj Ej]%Hs E. rewrite <- E in Ej.
    exact (probed_unique KER_TABLE_SIZE ker_hash _ i j _ (ki_probed _ _ I) Hi Hj Ei Ej).
  - intros k. rewrite list_elem_of_fmap. split.
    + intros (i & -> & [Hi Ei]%Hs). apply (list_elem_of_fmap_2 fst es (_, event_at t i)), (ki_slot _ _ I i _ Hi Ei).
    + intros ([k' e] & -> & Hk)%list_elem_of_fmap. destruct (ki_seen _ _ I k' e Hk) as (i & Hi & Ei).
      exists i. destruct (slots_nonzero _ _ _ Ei) as [_ E]. cbn. rewrite E. split; [done|]. apply Hs. by rewrite E.
Qed.

Lemma event_of_in es k e : NoDup es.*1 -> (k, e) ∈ es -> event_of es k = Some e.
Proof.
  intros Hnd (n & Hn)%list_elem_of_lookup. unfold event_of.
  rewrite (proj2 (list_find_Some _ es n (k, e))); [done|]. split; [done|]. split; [done|].
  intros j [k' e'] Hj Hlt E. cbn in E. subst k'.
  assert (j = n); [|lia]. apply (NoDup_lookup es.*1 j n k Hnd); by rewrite list_lookup_fmap, ?Hj, ?Hn.
Qed.

Lemma event_of_none es k : k ∉ es.*1 -> event_of es k = None.
Proof.
  intros H. unfold event_of. rewrite (proj2 (list_find_None _ es)); [done|]. apply Forall_forall.
  intros p Hp <-. by apply H, list_elem_of_fmap_2.
Qed.

(** ** The properties *)

Definition func_count (efd : EFD) : Z := Z.of_nat (length (filter (fun y => IS_FUNC y = true) (symtab efd))).

(** C30: The function table of an object is exact.  For a file with 2 to 65535
    functions, [SET_create_obj] ends with an object, and every search in its table ends
    with the number of the function at that address, or finds nothing; aliases
    of a function share one number, a function at address 0 has none.  The
    numbers are those a reader of the symbol table counts.  Every function lies
    in the object's text range, if no symbol reaches over the end of memory. *)
Theorem obj_lookup_exact efd path start pgoff id :
  2 <= func_count efd < 65536 ->
  exists obj, SET_create_obj (Some efd) path start pgoff id = Ret (Some obj, wrap 16 (id + 1)) /\
    let fs := func_addresses (load_offset efd start pgoff) (symtab efd) in
    NoDup fs /\ obj_id obj = id /\ obj_path obj = path /\
    (forall t, find_func obj t = Ret (place fs t)) /\
    (Forall (sym_fits (load_offset efd start pgoff)) (symtab efd) ->
     Forall (fun t => text_start obj <= t <= text_end obj) fs).
Proof.
  intros Hn. unfold func_count in Hn. unfold SET_create_obj.
  set (n := Z.of_nat (length (filter _ (symtab efd)))) in *. set (off := load_offset efd start pgoff).
  rewrite (proj2 (Z.eqb_neq n 0)) by lia. pose proof (table_size_gt n Hn) as Hsize.
  rewrite (proj2 (Z.eqb_neq (table_size n) 0)) by lia.
  destruct (insert_funcs_inv (table_size n) ltac:(lia) off (symtab efd) [] fill0 (fill_inv_0 (table_size n)))
    as (s & E & I); [cbn [length]; lia|].
  pose proof (addresses_length (map (func_vaddr off) (filter (fun y => IS_FUNC y = true) (symtab efd))) []) as Hlen.
  rewrite length_map in Hlen. cbn [length] in Hlen.
  rewrite E. cbn [mbind run_bind]. eexists. split; [reflexivity|]. cbv zeta.
  split; [apply (fi_nodup _ _ _ I)|]. do 2 (split; [reflexivity|]). split.
  - intros t. apply find_func_place; [lia|done|]. unfold func_addresses. lia.
  - intros Hfit. cbn [text_start text_end]. apply Forall_forall. intros t Ht.
    pose proof (fi_min _ _ _ I) as Hmin. rewrite Forall_forall in Hmin. specialize (Hmin t Ht). cbn in Hmin.
    destruct (fi_seen _ _ _ I t Ht) as (i & _ & (_ & Hi)%slots_nonzero).
    assert (Hb : below_max s).
    { eapply (insert_funcs_max (table_size n) off); [exact Hfit| |exact E]. intros j. by rewrite aget_empty. }
    specialize (Hb i). lia.
Qed.

Definition demo_sym (name : string) (value size : Z) : sym := mk_sym name value size STT_FUNC 0 7.
(** A library with an alias and a Thumb function *)
Definition demo_lib : EFD :=
  mk_EFD ET_DYN [demo_sym "open" 0x1000 64; demo_sym "__open" 0x1000 64; mk_sym "errno" 0x4000 4 1 0 9;
    demo_sym "close" 0x1041 32].

Theorem obj_lookup_exact_witness :
  exists obj, SET_create_obj (Some demo_lib) "libc.so" 0x40000000 0 2 = Ret (Some obj, 3) /\
    find_func obj 0x40001040 = Ret (Some 1) /\ find_func obj 0x40001041 = Ret None.
Proof.
  destruct (obj_lookup_exact demo_lib "libc.so" 0x40000000 0 2 ltac:(split; [discriminate|reflexivity]))
    as (obj & E & _ & _ & _ & Hf & _).
  exists obj. split; [exact E|]. split; [exact (Hf 0x40001040)|exact (Hf 0x40001041)].
Defined.

(** A single function fills its table.  An object with one function gets a
    table of one slot, so that a branch into it that is not a call of that
    function is looked up for ever; with 65536 functions or more (and no more
    than an [int] counts) the table has size 0, and the tracer dies of the
    division by zero. *)
Theorem obj_lookup_limits efd path start pgoff id :
  (func_count efd = 1 -> Forall (fun y => IS_FUNC y = true -> func_vaddr (load_offset efd start pgoff) y <> 0) (symtab efd) ->
   exists obj f, SET_create_obj (Some efd) path start pgoff id = Ret (Some obj, wrap 16 (id + 1)) /\
     find_func obj f = Ret (Some 0) /\ forall t, t <> f -> find_func obj t = Spin) /\
  (65536 <= func_count efd < 2 ^ 31 -> SET_create_obj (Some efd) path start pgoff id = ProcExit).
Proof.
  unfold func_count, SET_create_obj. set (off := load_offset efd start pgoff). split.
  - intros Hn Hz. rewrite Hn. cbn [Z.eqb Pos.eqb]. rewrite insert_funcs_filter.
    destruct (filter (fun y => IS_FUNC y = true) (symtab efd)) as [|y [|]] eqn:El; cbn in Hn; try lia.
    assert (Hy : y ∈ filter (fun y => IS_FUNC y = true) (symtab efd)) by (rewrite El; by left).
    apply list_elem_of_filter in Hy as [Hf Hin]. rewrite Forall_forall in Hz. specialize (Hz y Hin Hf).
    set (v := func_vaddr off y) in *.
    assert (E : exists s, insert_funcs 1 off [y] fill0 = Ret s /\ fl_addr s = (∅ : arr).[0 <- v] /\ (fl_idx s).[0] = 0).
    { unfold insert_funcs. cbn [foldl mbind run_bind]. unfold insert_func. rewrite Hf. fold v.
      unfold HASH. rewrite Z.mod_1_r, probe_one. cbn [fl_addr fl_idx fill0]. unfold stops, func_slots.
      rewrite aget_empty. cbn [Z.eqb mbind run_bind].
      rewrite aget_empty, (proj2 (Z.eqb_neq 0 v)) by lia. cbn [negb]. eexists. split; [reflexivity|]. by cbn. }
    destruct E as (s & E & Ea & Ei). change (table_size 1) with 1. cbn [Z.eqb Pos.eqb].
    rewrite E. cbn [mbind run_bind]. eexists _, v. split; [reflexivity|].
    unfold find_func, HASH. cbn [funcTableSize func_addr func_idx]. rewrite Ea.
    split; [|intros t Ht]; rewrite Z.mod_1_r, probe_one; unfold stops, func_slots; rewrite aget_aset_eq.
    + rewrite (proj2 (Z.eqb_neq v 0)), Z.eqb_refl by lia. cbn [mbind run_bind].
      by rewrite aget_aset_eq, (proj2 (Z.eqb_neq v 0)), Ei.
    + by rewrite (proj2 (Z.eqb_neq v 0)), (proj2 (Z.eqb_neq v t)) by lia.
  - intros Hn. rewrite (proj2 (Z.eqb_neq _ 0)) by lia. unfold table_size. rewrite nth_overflow; [done|].
    pose proof (Z.log2_le_mono _ _ (proj1 Hn)) as Hl. change (Z.log2 65536) with 16 in Hl.
    change (length HashTableSize) with 16%nat. lia.
Qed.

Theorem obj_lookup_limits_witness :
  exists obj, SET_create_obj (Some (mk_EFD 2 [demo_sym "main" 0x8000 16])) "one" 0 0 2 = Ret (Some obj, 3) /\
    find_func obj 0x8004 = Spin.
Proof.
  destruct (proj1 (obj_lookup_limits (mk_EFD 2 [demo_sym "main" 0x8000 16]) "one" 0 0 2) eq_refl
    ltac:(repeat constructor; discriminate)) as (obj & f & E & Hf & Hs).
  exists obj. split; [exact E|]. apply Hs. intros <-.
  injection E as <-. discriminate Hf.
Defined.

(** The kernel's functions are found.  If the symbol table of the kernel has
    exactly the six watched functions, at different addresses, and a range for
    each of the four functions they return to, then
    [get_special_kernel_func] succeeds, and the search that [SET_event_branch]
    makes for every kernel branch ends with the event of the target and none
    otherwise; the ranges are those of the symbols. *)
Theorem kernel_events_found efd :
  let es := omap entry_sym (symtab efd) in
  let rs := note_ranges kt0 (symtab efd) in
  length es = 6%nat -> NoDup es.*1 -> 0 ∉ es.*1 ->
  Forall (fun e => match retFunc rs e with Some r => range_ok r = true | None => True end) [EXECVE; EXIT; CS; MMAP; FORK; KTHREAD] ->
  exists t, get_special_kernel_func (Some efd) KER_TABLE_SIZE = Ret (Some t) /\
    (forall target, find_ker t target = Ret (event_of es target)) /\ forall e, retFunc t e = retFunc rs e.
Proof.
  intros es rs Hlen Hnd H0 Hr. unfold get_special_kernel_func.
  destruct (insert_kers_inv (symtab efd) [] kt0 ker_inv_0) as (t & E & I & Hret); try (cbn [app]; fold es; done);
    [cbn [app]; fold es; rewrite Hlen; done|].
  cbn [app] in I. fold es in I. fold rs in Hret. rewrite E. cbn [mbind run_bind].
  rewrite (ker_entries es t I Hnd), Hlen.
  rewrite (proj2 (forallb_forall _ (entries t))).
  - exists t. split; [done|]. split; [|exact Hret]. intros target. unfold find_ker. fold (ker_hash target).
    destruct (probe_ret _ ker_size ker_hash ker_hash_range _ target (ker_room es t I ltac:(rewrite Hlen; done))) as (i & Ei & Hi).
    rewrite Ei. cbn [mbind run_bind]. f_equal.
    destruct (probe_from_stop _ ker_size _ _ _ _ (ker_hash_range target) Ei) as [Hs _]. unfold stops in Hs.
    destruct (func_slots (k_addr t) i) as [c|] eqn:Ec.
    + apply Z.eqb_eq in Hs as ->. destruct (slots_nonzero _ _ _ Ec) as [Hz Hc].
      rewrite (proj2 (Z.eqb_neq _ 0)) by lia. symmetry. by apply event_of_in, (ki_slot _ _ I).
    + unfold func_slots in Ec. destruct (Z.eqb_spec (k_addr t).[i] 0); [|done].
      symmetry. apply event_of_none. intros ([k e'] & -> & Hk)%list_elem_of_fmap. cbn in *.
      destruct (ki_seen _ _ I k e' Hk) as (j & Hj & Ej). rewrite (ki_probed _ _ I j k Hj Ej) in Ei.
      injection Ei as ->. apply slots_nonzero in Ej. lia.
  - intros i _. unfold entry_ok. rewrite Hret.
    rewrite Forall_forall in Hr. specialize (Hr (event_at t i)). destruct (retFunc rs (event_at t i)); [|done].
    apply Hr. destruct (event_at t i); set_solver.
Qed.

Definition demo_kernel : EFD :=
  mk_EFD 2 [demo_sym "do_execve" 0xc0010000 256; demo_sym "do_exit" 0xc0020000 512; demo_sym "do_fork" 0xc0030000 300;
    demo_sym "mmap_region" 0xc0040000 400; demo_sym "search_binary_handler" 0xc0050000 128;
    demo_sym "vma_wants_writenotify" 0xc0060000 64; demo_sym "vsnprintf" 0xc0070000 999;
    demo_sym "wake_up_new_task" 0xc0080000 80; demo_sym "__switch_to" 0xc0090000 96;
    demo_sym "kthread_create" 0xc00a0000 200; demo_sym "schedule" 0xc00b0000 800].

Theorem kernel_events_found_witness :
  exists t, get_special_kernel_func (Some demo_kernel) KER_TABLE_SIZE = Ret (Some t) /\
    find_ker t 0xc0090000 = Ret (Some CS) /\ find_ker t 0xc00b0000 = Ret None.
Proof.
  assert (H1 : length (omap entry_sym (symtab demo_kernel)) = 6%nat) by (vm_compute; reflexivity).
  assert (H2 : NoDup (omap entry_sym (symtab demo_kernel)).*1)
    by (apply (bool_decide_eq_true_1 (NoDup _)); vm_compute; reflexivity).
  assert (H3 : 0 ∉ (omap entry_sym (symtab demo_kernel)).*1)
    by (apply (bool_decide_eq_true_1 (~ _)); vm_compute; reflexivity).
  assert (H4 : Forall (fun e => match retFunc (note_ranges kt0 (symtab demo_kernel)) e with
      Some r => range_ok r = true | None => True end) [EXECVE; EXIT; CS; MMAP; FORK; KTHREAD])
    by (repeat constructor).
  destruct (kernel_events_found demo_kernel H1 H2 H3 H4) as (t & E & Hf & _).
  exists t. split; [exact E|]. split; [exact (Hf 0xc0090000)|exact (Hf 0xc00b0000)].
Defined.
