(* ===== verification/SetOut.v ===== *)
(** * The trace files ([SET/SET_out.c])

    A traced process writes one record for every function entered or left, every
    Dalvik method and every system call: its kind, the process and the readings of the
    VPMU go to the files [type], [pid], [cc], [power] and [vpmu], what happened to
    [func], [method] or [syscall].  Each file has a buffer of 1024 entries.

    A [stream] is an open file with what has been written to it, or [None], and its
    buffer.  Results are [None] where the code would write past a buffer, or
    entries to a file that is not open ([fwrite] of no entries does nothing).
    [can_open] says which files [fopen] can create. *)
From stdpp Require Import strings.
From S2P Require Import Prelude Mem Config Timing Branch Vpmu Power PerfRegs.

(** ** What a record shows of the VPMU *)

Record VPMUinfo := mk_info {
  i_count : Z; ldst_count : Z; dcache_access_count : Z; dcache_miss_count : Z; icache_access_count : Z;
  icache_miss_count : Z; br_count : Z; eet : Z; eet_pipe : Z; eet_sys_mem : Z; eet_io : Z; eet_net : Z }.
Record reading := mk_reading { rd_cc : Z; rd_power : Z; rd_info : VPMUinfo }.

(** The calls of [SET_output_write_type_vpmu] *)
Definition read_vpmu (miss fetch : Z -> Z -> Z -> Z) (s : unit_state) : option (reading * unit_state) :=
  let v := un_vpmu s in
  '(power, e) ← vpmu_vpd_mpu_power miss (VPMU_enabled s) v (un_est s) (un_dev s);
  time ← vpmu_estimated_execution_time_ns miss v;
  pipe ← vpmu_estimated_pipeline_execution_time_ns v;
  sys ← vpmu_estimated_sys_memory_access_time_ns miss v;
  io ← vpmu_estimated_io_memory_access_time_ns v;
  Some (mk_reading (vpmu_cycle_count miss v) power
          (mk_info (vpmu_total_insn_count v) (vpmu_total_ldst_count v) (vpmu_L1_dcache_access_count fetch)
             (vpmu_L1_dcache_miss_count miss) (vpmu_L1_icache_access_count fetch v) (vpmu_L1_icache_miss_count miss)
             (vpmu_branch_insn_count v) time pipe sys io (vpmu_estimated_network_execution_time_ns v)),
        with_est e s).

(** ** Files with buffers *)

Definition MAX_BUF_SIZE : Z := 1024.

Record stream (A : Type) := mk_stream { file : option (list A); buf : gmap Z A }.
Arguments mk_stream {A} _ _.
Arguments file {A} _.
Arguments buf {A} _.

(** [buf[i]]: zero where never written *)
Definition cell {A} `{Inhabited A} (s : stream A) (i : Z) : A := default inhabitant (buf s !! i).
Definition buffered {A} `{Inhabited A} (s : stream A) (n : Z) : list A := cell s <$> seqZ 0 n.

(** [fwrite(buf, sizeof(A), n, fp)] *)
Definition fwrite {A} `{Inhabited A} (s : stream A) (n : Z) : option (stream A) :=
  match file s with
  | Some l => Some (mk_stream (Some (l ++ buffered s n)) (buf s))
  | None => if n =? 0 then Some s else None
  end.
Definition store_at {A} (s : stream A) (i : Z) (x : A) : option (stream A) :=
  if (0 <=? i) && (i <? MAX_BUF_SIZE) then Some (mk_stream (file s) (<[i := x]> (buf s))) else None.

#[export] Instance info_inhabited : Inhabited VPMUinfo := populate (mk_info 0 0 0 0 0 0 0 0 0 0 0 0).

(** ** SETOut *)

Record SETOut := mk_out {
  s_type : stream Z; s_cc : stream Z; s_power : stream Z; s_vpmu : stream VPMUinfo; s_pid : stream Z; global_size : Z;
  f_obj : option (list (Z * string)); s_func : stream Z; func_size : Z;
  f_dex : option (list (Z * string)); s_method : stream (Z * Z); method_size : Z;
  s_syscall : stream Z; syscall_size : Z }.

Definition closed {A} : stream A := mk_stream None ∅.
(** [SET_output_create]: an empty directory, a zeroed structure *)
Definition SET_output_create : SETOut :=
  mk_out closed closed closed closed closed 0 None closed 0 None closed 0 closed 0.

Definition opened {A} (s : stream A) : stream A := mk_stream (Some []) (buf s).
Definition is_open {A} (s : stream A) : bool := match file s with Some _ => true | None => false end.

Definition with_global (ty cc pw : stream Z) (vp : stream VPMUinfo) (pid : stream Z) (n : Z) (o : SETOut) : SETOut :=
  mk_out ty cc pw vp pid n (f_obj o) (s_func o) (func_size o) (f_dex o) (s_method o) (method_size o)
    (s_syscall o) (syscall_size o).
Definition with_func (f : stream Z) (n : Z) (o : SETOut) : SETOut :=
  mk_out (s_type o) (s_cc o) (s_power o) (s_vpmu o) (s_pid o) (global_size o) (f_obj o) f n (f_dex o) (s_method o)
    (method_size o) (s_syscall o) (syscall_size o).
Definition with_method (f : stream (Z * Z)) (n : Z) (o : SETOut) : SETOut :=
  mk_out (s_type o) (s_cc o) (s_power o) (s_vpmu o) (s_pid o) (global_size o) (f_obj o) (s_func o) (func_size o)
    (f_dex o) f n (s_syscall o) (syscall_size o).
Definition with_syscall (f : stream Z) (n : Z) (o : SETOut) : SETOut :=
  mk_out (s_type o) (s_cc o) (s_power o) (s_vpmu o) (s_pid o) (global_size o) (f_obj o) (s_func o) (func_size o)
    (f_dex o) (s_method o) (method_size o) f n.
Definition with_obj (l : option (list (Z * string))) (o : SETOut) : SETOut :=
  mk_out (s_type o) (s_cc o) (s_power o) (s_vpmu o) (s_pid o) (global_size o) l (s_func o) (func_size o)
    (f_dex o) (s_method o) (method_size o) (s_syscall o) (syscall_size o).
Definition with_dex (l : option (list (Z * string))) (o : SETOut) : SETOut :=
  mk_out (s_type o) (s_cc o) (s_power o) (s_vpmu o) (s_pid o) (global_size o) (f_obj o) (s_func o) (func_size o)
    l (s_method o) (method_size o) (s_syscall o) (syscall_size o).

(** *** Opening: the state, and whether it succeeded *)

Section Open.
Context (can_open : string -> bool).

Definition SET_output_open_type_vpmu (model : Z) (o : SETOut) : SETOut * bool :=
  let glob ty cc pw vp := with_global ty cc pw vp (s_pid o) (global_size o) o in
  let '(ty, cc, pw, vp) := (s_type o, s_cc o, s_power o, s_vpmu o) in
  if can_open "type" then
    if (1 <=? model) && (model <=? 3) then
      if can_open "vpmu" then
        if can_open "cc" then
          if can_open "power" then (glob (opened ty) (opened cc) (opened pw) (opened vp), true)
          else (glob (opened ty) (opened cc) closed (opened vp), false)
        else (glob (opened ty) closed pw (opened vp), false)
      else (glob (opened ty) cc pw closed, false)
    else (glob (opened ty) cc pw vp, model =? 0)
  else (glob closed cc pw vp, false).

Definition SET_output_open_pid (o : SETOut) : SETOut * bool :=
  let glob p := with_global (s_type o) (s_cc o) (s_power o) (s_vpmu o) p (global_size o) o in
  if can_open "pid" then (glob (opened (s_pid o)), true) else (glob closed, false).

Definition SET_output_open_obj_func (o : SETOut) : SETOut * bool :=
  if can_open "obj" then
    let o := with_obj (Some []) o in
    if can_open "func" then (with_func (opened (s_func o)) (func_size o) o, true)
    else (with_func closed (func_size o) o, false)
  else (with_obj None o, false).

Definition SET_output_open_dex_method (o : SETOut) : SETOut * bool :=
  if can_open "dex" then
    let o := with_dex (Some []) o in
    if can_open "method" then (with_method (opened (s_method o)) (method_size o) o, true)
    else (with_method closed (method_size o) o, false)
  else (with_dex None o, false).

Definition SET_output_open_syscall (o : SETOut) : SETOut * bool :=
  if can_open "syscall" then (with_syscall (opened (s_syscall o)) (syscall_size o) o, true)
  else (with_syscall closed (syscall_size o) o, false).
End Open.

(** *** Flushing *)

Definition flush_type_vpmu (o : SETOut) : option SETOut :=
  let n := global_size o in
  pid ← fwrite (s_pid o) n;
  ty ← fwrite (s_type o) n;
  '(cc, pw, vp) ←
    (if is_open (s_cc o) then
       cc ← fwrite (s_cc o) n;
       pw ← (if is_open (s_power o) then fwrite (s_power o) n else Some (s_power o));
       vp ← (if is_open (s_vpmu o) then fwrite (s_vpmu o) n else Some (s_vpmu o));
       Some (cc, pw, vp)
     else Some (s_cc o, s_power o, s_vpmu o));
  Some (with_global ty cc pw vp pid 0 o).
Definition flush_func (o : SETOut) : option SETOut :=
  f ← fwrite (s_func o) (func_size o); Some (with_func f 0 o).
Definition flush_method (o : SETOut) : option SETOut :=
  f ← fwrite (s_method o) (method_size o); Some (with_method f 0 o).
Definition flush_syscall (o : SETOut) : option SETOut :=
  f ← fwrite (s_syscall o) (syscall_size o); Some (with_syscall f 0 o).

Definition flush_all (o : SETOut) : option SETOut :=
  o ← flush_type_vpmu o;
  o ← (if is_open (s_func o) then flush_func o else Some o);
  o ← (if is_open (s_method o) then flush_method o else Some o);
  if is_open (s_syscall o) then flush_syscall o else Some o.

(** What closing leaves on disk *)
Definition SET_output_close (o : SETOut) : option SETOut := flush_all o.

(** *** Writing *)

Definition SET_OUTPUT_FUNC : Z := 1.
Definition SET_OUTPUT_METHOD : Z := 2.
Definition SET_OUTPUT_SYSCALL : Z := 3.

Definition SET_output_write_pid (pid : Z) (o : SETOut) : option SETOut :=
  p ← store_at (s_pid o) (global_size o) pid;
  Some (with_global (s_type o) (s_cc o) (s_power o) (s_vpmu o) p (global_size o) o).

Definition SET_output_write_type_vpmu (rd : reading) (type : Z) (o : SETOut) : option SETOut :=
  let n := global_size o in
  ty ← store_at (s_type o) n type;
  '(cc, pw, vp) ←
    (if is_open (s_cc o) then
       cc ← store_at (s_cc o) n (rd_cc rd);
       pw ← (if is_open (s_power o) then store_at (s_power o) n (rd_power rd) else Some (s_power o));
       vp ← (if is_open (s_vpmu o) then store_at (s_vpmu o) n (rd_info rd) else Some (s_vpmu o));
       Some (cc, pw, vp)
     else Some (s_cc o, s_power o, s_vpmu o));
  let o := with_global ty cc pw vp (s_pid o) (n + 1) o in
  if n + 1 =? MAX_BUF_SIZE then flush_type_vpmu o else Some o.

Definition SET_output_write_func (rd : reading) (id_index : Z) (o : SETOut) : option SETOut :=
  f ← store_at (s_func o) (func_size o) id_index;
  let o := with_func f (func_size o + 1) o in
  o ← (if func_size o =? MAX_BUF_SIZE then flush_func o else Some o);
  SET_output_write_type_vpmu rd SET_OUTPUT_FUNC o.

Definition SET_output_write_method (rd : reading) (id addr : Z) (o : SETOut) : option SETOut :=
  f ← store_at (s_method o) (method_size o) (id, addr);
  let o := with_method f (method_size o + 1) o in
  o ← (if method_size o =? MAX_BUF_SIZE then flush_method o else Some o);
  SET_output_write_type_vpmu rd SET_OUTPUT_METHOD o.

Definition SET_output_write_syscall (rd : reading) (nr_syscall : Z) (o : SETOut) : option SETOut :=
  f ← store_at (s_syscall o) (syscall_size o) nr_syscall;
  let o := with_syscall f (syscall_size o + 1) o in
  o ← (if syscall_size o =? MAX_BUF_SIZE then flush_syscall o else Some o);
  SET_output_write_type_vpmu rd SET_OUTPUT_SYSCALL o.

Definition SET_output_write_obj (id : Z) (path : string) (o : SETOut) : option SETOut :=
  l ← f_obj o; Some (with_obj (Some (l ++ [(id, path)])) o).
Definition SET_output_write_dex (id : Z) (path : string) (o : SETOut) : option SETOut :=
  l ← f_dex o; Some (with_dex (Some (l ++ [(id, path)])) o).

(** *** The files a process type needs ([SET_start_tracing]) *)

Definition SET_PROCESS_OUTPUT : Z := 0x01.
Definition SET_PROCESS_KERNEL : Z := 0x02.
Definition SET_PROCESS_SYSCALL : Z := 0x04.
Definition SET_PROCESS_LIBRARY : Z := 0x08.
Definition SET_PROCESS_USER_C : Z := 0x10.
Definition SET_PROCESS_DALVIK : Z := 0x20.
Definition SET_PROCESS_IRQ : Z := 0x40.
Definition SET_PROCESS_MMAP : Z := 0x80.

(** [type & flags] as a condition *)
Definition has (type flags : Z) : bool := negb (Z.land type flags =? 0).
Definition NATIVE : Z :=
  Z.lor (Z.lor SET_PROCESS_KERNEL SET_PROCESS_IRQ) (Z.lor SET_PROCESS_LIBRARY SET_PROCESS_USER_C).

(** [if (...) goto fail]: the first failure ends the sequence. *)
Definition and_then (r : SETOut * bool) (f : SETOut -> SETOut * bool) : SETOut * bool :=
  if r.2 then f r.1 else r.
Definition open_streams (can_open : string -> bool) (model type : Z) (o : SETOut) : SETOut * bool :=
  let r := SET_output_open_type_vpmu can_open model o in
  let r := and_then r (SET_output_open_pid can_open) in
  let r := and_then r (fun o => if has type NATIVE then SET_output_open_obj_func can_open o else (o, true)) in
  let r := and_then r (fun o => if has type SET_PROCESS_DALVIK then SET_output_open_dex_method can_open o else (o, true)) in
  and_then r (fun o => if has type SET_PROCESS_SYSCALL then SET_output_open_syscall can_open o else (o, true)).

(** ** Records, and how a reader of the files gets them back *)

Inductive what := Func (id_index : Z) | Method (id addr : Z) | Syscall (nr : Z).
Record record := mk_record { r_pid : Z; r_what : what; r_reading : reading }.

(** Every event is written as process, then the rest. *)
Definition write_record (r : record) (o : SETOut) : option SETOut :=
  o ← SET_output_write_pid (r_pid r) o;
  match r_what r with
  | Func x => SET_output_write_func (r_reading r) x o
  | Method id addr => SET_output_write_method (r_reading r) id addr o
  | Syscall nr => SET_output_write_syscall (r_reading r) nr o
  end.
Definition write_records (rs : list record) (o : SETOut) : option SETOut :=
  foldl (fun o r => o ← o; write_record r o) (Some o) rs.

(** The kinds a process type writes *)
Definition kind_ok (type : Z) (w : what) : bool :=
  match w with
  | Func _ => has type NATIVE
  | Method _ _ => has type SET_PROCESS_DALVIK
  | Syscall _ => has type SET_PROCESS_SYSCALL
  end.
Definition kind (w : what) : Z :=
  match w with Func _ => SET_OUTPUT_FUNC | Method _ _ => SET_OUTPUT_METHOD | Syscall _ => SET_OUTPUT_SYSCALL end.

Fixpoint read_back (types pids ccs powers : list Z) (infos : list VPMUinfo) (funcs : list Z) (methods : list (Z * Z))
    (syscalls : list Z) : option (list record) :=
  match types, pids, ccs, powers, infos with
  | ty :: types, pid :: pids, cc :: ccs, power :: powers, info :: infos =>
      let rd := mk_reading cc power info in
      let next w fs ms ss := rs ← read_back types pids ccs powers infos fs ms ss; Some (mk_record pid w rd :: rs) in
      if ty =? SET_OUTPUT_FUNC then match funcs with x :: fs => next (Func x) fs methods syscalls | [] => None end
      else if ty =? SET_OUTPUT_METHOD then
        match methods with (id, addr) :: ms => next (Method id addr) funcs ms syscalls | [] => None end
      else if ty =? SET_OUTPUT_SYSCALL then
        match syscalls with nr :: ss => next (Syscall nr) funcs methods ss | [] => None end
      else None
  | [], [], [], [], [] => match funcs, methods, syscalls with [], [], [] => Some [] | _, _, _ => None end
  | _, _, _, _, _ => None
  end.

(** The files of an output; one that was not opened has nothing to read. *)
Definition contents {A} (s : stream A) : list A := default [] (file s).
Definition read_files (o : SETOut) : option (list record) :=
  read_back (contents (s_type o)) (contents (s_pid o)) (contents (s_cc o)) (contents (s_power o)) (contents (s_vpmu o))
    (contents (s_func o)) (contents (s_method o)) (contents (s_syscall o)).

(** ** Streams *)

Section Streams.
Context {A : Type} `{Inhabited A}.
Implicit Types (s : stream A) (l : list A).

(** With [n] entries in its buffer, the file is to be [l]. *)
Definition holds s (n : Z) l : Prop := is_open s = true /\ contents s ++ buffered s n = l.
(** A file that is only there for some processes *)
Definition part s (n : Z) l : Prop := 0 <= n < MAX_BUF_SIZE /\ (holds s n l \/ is_open s = false /\ n = 0 /\ l = []).

Lemma store_holds s n l x :
  0 <= n < MAX_BUF_SIZE -> holds s n l ->
  exists s', store_at s n x = Some s' /\ holds s' (n + 1) (l ++ [x]).
Proof.
  intros Hn [Ho <-]. unfold store_at. rewrite (proj2 (Z.leb_le 0 n)), (proj2 (Z.ltb_lt _ _)) by lia.
  cbn [andb]. eexists. split; [reflexivity|]. split; [done|]. unfold contents, buffered. cbn [file].
  rewrite seqZ_app by lia. rewrite fmap_app, <- app_assoc. f_equal. rewrite Z.add_0_l, seqZ_one. cbn. f_equal.
  - apply list_fmap_ext. intros i j [-> Hi]%lookup_seqZ. unfold cell. cbn [buf]. by rewrite lookup_insert_ne by lia.
  - unfold cell. cbn [buf]. by rewrite lookup_insert_eq.
Qed.

Lemma buffered_0 s : buffered s 0 = [].
Proof. done. Qed.

Lemma fwrite_holds s n l : holds s n l -> exists s', fwrite s n = Some s' /\ holds s' 0 l.
Proof.
  intros [Ho <-]. unfold fwrite, is_open in *. destruct (file s) as [c|] eqn:E; [|done].
  eexists. split; [reflexivity|]. split; [done|]. unfold contents. cbn [file default]. by rewrite E, buffered_0, app_nil_r.
Qed.

Lemma holds_contents s l : holds s 0 l -> contents s = l.
Proof. intros [_ <-]. by rewrite buffered_0, app_nil_r. Qed.

Lemma holds_open s : buf s = ∅ -> holds (opened s) 0 [].
Proof. done. Qed.
End Streams.

(** ** The five files every record goes to *)

(** The process is noted first, so its buffer may be one entry ahead. *)
Record globals (o : SETOut) (np : Z) (lt lc lw : list Z) (lv : list VPMUinfo) (lp : list Z) : Prop := {
  g_type : holds (s_type o) (global_size o) lt;
  g_cc : holds (s_cc o) (global_size o) lc;
  g_power : holds (s_power o) (global_size o) lw;
  g_vpmu : holds (s_vpmu o) (global_size o) lv;
  g_pid : holds (s_pid o) np lp }.

(** The rest of an output *)
Definition same_rest (o o' : SETOut) : Prop :=
  s_func o' = s_func o /\ func_size o' = func_size o /\ s_method o' = s_method o /\ method_size o' = method_size o /\
  s_syscall o' = s_syscall o /\ syscall_size o' = syscall_size o.

Lemma flush_globals o lt lc lw lv lp :
  globals o (global_size o) lt lc lw lv lp ->
  exists o', flush_type_vpmu o = Some o' /\ global_size o' = 0 /\ globals o' 0 lt lc lw lv lp /\ same_rest o o'.
Proof.
  intros [H1 H2 H3 H4 H5]. unfold flush_type_vpmu.
  destruct (fwrite_holds _ _ _ H1) as (ty & E1 & G1). destruct (fwrite_holds _ _ _ H2) as (cc & E2 & G2).
  destruct (fwrite_holds _ _ _ H3) as (pw & E3 & G3). destruct (fwrite_holds _ _ _ H4) as (vp & E4 & G4).
  destruct (fwrite_holds _ _ _ H5) as (pid & E5 & G5).
  rewrite (proj1 H2), (proj1 H3), (proj1 H4), E1, E2, E3, E4, E5. cbn [mbind option_bind].
  eexists. split; [reflexivity|]. split; [done|]. split; [by split|done].
Qed.

Lemma write_globals rd ty o lt lc lw lv lp :
  0 <= global_size o < MAX_BUF_SIZE -> globals o (global_size o + 1) lt lc lw lv lp ->
  exists o', SET_output_write_type_vpmu rd ty o = Some o' /\ 0 <= global_size o' < MAX_BUF_SIZE /\
    globals o' (global_size o') (lt ++ [ty]) (lc ++ [rd_cc rd]) (lw ++ [rd_power rd]) (lv ++ [rd_info rd]) lp /\
    same_rest o o'.
Proof.
  intros Hn [H1 H2 H3 H4 H5]. unfold SET_output_write_type_vpmu.
  destruct (store_holds _ _ _ ty Hn H1) as (sty & E1 & G1).
  destruct (store_holds _ _ _ (rd_cc rd) Hn H2) as (scc & E2 & G2).
  destruct (store_holds _ _ _ (rd_power rd) Hn H3) as (spw & E3 & G3).
  destruct (store_holds _ _ _ (rd_info rd) Hn H4) as (svp & E4 & G4).
  rewrite (proj1 H2), (proj1 H3), (proj1 H4), E1, E2, E3, E4. cbn [mbind option_bind].
  set (o1 := with_global sty scc spw svp (s_pid o) (global_size o + 1) o).
  assert (I : globals o1 (global_size o1) (lt ++ [ty]) (lc ++ [rd_cc rd]) (lw ++ [rd_power rd]) (lv ++ [rd_info rd]) lp)
    by (by split).
  destruct (Z.eqb_spec (global_size o + 1) MAX_BUF_SIZE).
  - destruct (flush_globals o1 _ _ _ _ _ I) as (o' & E & Hz & I' & Hr). exists o'. rewrite Hz. done.
  - exists o1. split; [done|]. cbn [global_size with_global o1]. split; [lia|done].
Qed.

Lemma write_pid_globals pid o lt lc lw lv lp :
  0 <= global_size o < MAX_BUF_SIZE -> globals o (global_size o) lt lc lw lv lp ->
  exists o', SET_output_write_pid pid o = Some o' /\ global_size o' = global_size o /\
    globals o' (global_size o' + 1) lt lc lw lv (lp ++ [pid]) /\ same_rest o o'.
Proof.
  intros Hn [H1 H2 H3 H4 H5]. unfold SET_output_write_pid.
  destruct (store_holds _ _ _ pid Hn H5) as (p & E & G). rewrite E. cbn [mbind option_bind].
  eexists. split; [reflexivity|]. split; [done|]. by split.
Qed.

(** ** All files *)

Definition funcs_of (rs : list record) : list Z :=
  omap (fun r => match r_what r with Func x => Some x | _ => None end) rs.
Definition methods_of (rs : list record) : list (Z * Z) :=
  omap (fun r => match r_what r with Method id addr => Some (id, addr) | _ => None end) rs.
Definition syscalls_of (rs : list record) : list Z :=
  omap (fun r => match r_what r with Syscall nr => Some nr | _ => None end) rs.

Record out_inv (type : Z) (rs : list record) (o : SETOut) : Prop := {
  oi_size : 0 <= global_size o < MAX_BUF_SIZE;
  oi_global : globals o (global_size o) (map (kind ∘ r_what) rs) (map (rd_cc ∘ r_reading) rs)
    (map (rd_power ∘ r_reading) rs) (map (rd_info ∘ r_reading) rs) (map r_pid rs);
  oi_func : part (s_func o) (func_size o) (funcs_of rs);
  oi_method : part (s_method o) (method_size o) (methods_of rs);
  oi_syscall : part (s_syscall o) (syscall_size o) (syscalls_of rs);
  oi_kinds : is_open (s_func o) = has type NATIVE /\ is_open (s_method o) = has type SET_PROCESS_DALVIK /\
    is_open (s_syscall o) = has type SET_PROCESS_SYSCALL }.

(** Adding an entry to the buffer of one of the three other files, and flushing
    it when it is full *)
Definition push {A} `{Inhabited A} (s : stream A) (n : Z) (x : A) : option (stream A * Z) :=
  s ← store_at s n x; if n + 1 =? MAX_BUF_SIZE then s ← fwrite s (n + 1); Some (s, 0) else Some (s, n + 1).

Lemma push_part {A} `{Inhabited A} (s : stream A) n l x :
  part s n l -> is_open s = true ->
  exists s' n', push s n x = Some (s', n') /\ part s' n' (l ++ [x]) /\ is_open s' = true.
Proof.
  intros [Hn [Hh|(Hc & _)]] Ho; [|congruence].
  destruct (store_holds s n l x Hn Hh) as (s1 & E & H1). unfold push. rewrite E. cbn [mbind option_bind].
  destruct (Z.eqb_spec (n + 1) MAX_BUF_SIZE).
  - destruct (fwrite_holds s1 _ _ H1) as (s2 & E2 & H2). rewrite E2. exists s2, 0. split; [done|].
    split; [|apply H2]. split; [done|by left].
  - exists s1, (n + 1). split; [done|]. split; [|apply H1]. split; [unfold MAX_BUF_SIZE in *; lia|by left].
Qed.

Lemma write_func_push rd x o :
  SET_output_write_func rd x o =
    ('(f, n) ← push (s_func o) (func_size o) x; SET_output_write_type_vpmu rd SET_OUTPUT_FUNC (with_func f n o)).
Proof.
  unfold SET_output_write_func, push. destruct (store_at _ _ x) as [f|]; [|done]. cbn [mbind option_bind].
  unfold flush_func. cbn [func_size with_func s_func]. destruct (_ =? _); [|done].
  by destruct (fwrite f _).
Qed.
Lemma write_method_push rd id addr o :
  SET_output_write_method rd id addr o =
    ('(f, n) ← push (s_method o) (method_size o) (id, addr);
     SET_output_write_type_vpmu rd SET_OUTPUT_METHOD (with_method f n o)).
Proof.
  unfold SET_output_write_method, push. destruct (store_at _ _ _) as [f|]; [|done]. cbn [mbind option_bind].
  unfold flush_method. cbn [method_size with_method s_method]. destruct (_ =? _); [|done].
  by destruct (fwrite f _).
Qed.
Lemma write_syscall_push rd nr o :
  SET_output_write_syscall rd nr o =
    ('(f, n) ← push (s_syscall o) (syscall_size o) nr;
     SET_output_write_type_vpmu rd SET_OUTPUT_SYSCALL (with_syscall f n o)).
Proof.
  unfold SET_output_write_syscall, push. destruct (store_at _ _ nr) as [f|]; [|done]. cbn [mbind option_bind].
  unfold flush_syscall. cbn [syscall_size with_syscall s_syscall]. destruct (_ =? _); [|done].
  by destruct (fwrite f _).
Qed.

(** The end of a record, once its entry is in its own file *)
Ltac record_written r code o1 Hn Hg Ew :=
  let o2 := fresh "o2" in let E2 := fresh "E2" in
  let Hn2 := fresh "Hn2" in let Hg2 := fresh "Hg2" in
  let G1 := fresh "G" in let G2 := fresh "G" in let G3 := fresh "G" in
  let G4 := fresh "G" in let G5 := fresh "G" in let G6 := fresh "G" in
  cbn [mbind option_bind];
  destruct (write_globals (r_reading r) code o1 _ _ _ _ _ Hn ltac:(destruct Hg; by split))
    as (o2 & E2 & Hn2 & Hg2 & G1 & G2 & G3 & G4 & G5 & G6);
  exists o2; split; [exact E2|];
  split; [done| |rewrite G1, G2|rewrite G3, G4|rewrite G5, G6|rewrite G1, G3, G5];
    unfold funcs_of, methods_of, syscalls_of; rewrite ?map_app, ?omap_app; cbn; rewrite ?Ew, ?app_nil_r; try done;
  split_and!; first [done|congruence].

Lemma write_record_inv type rs o r :
  out_inv type rs o -> kind_ok type (r_what r) = true ->
  exists o', write_record r o = Some o' /\ out_inv type (rs ++ [r]) o'.
Proof.
  intros [Hn Hg Hf Hm Hs (Ef & Em & Es)] Hk. unfold write_record.
  destruct (write_pid_globals (r_pid r) o _ _ _ _ _ Hn Hg) as (o1 & E1 & Hn1 & Hg1 & F1 & F2 & F3 & F4 & F5 & F6).
  rewrite E1. cbn [mbind option_bind]. rewrite <- Hn1 in Hn.
  rewrite <- F1, <- F2 in Hf. rewrite <- F3, <- F4 in Hm. rewrite <- F5, <- F6 in Hs.
  rewrite <- F1 in Ef. rewrite <- F3 in Em. rewrite <- F5 in Es.
  destruct (r_what r) as [x|id addr|nr] eqn:Ew; cbn [kind_ok] in Hk.
  - destruct (push_part _ _ _ x Hf ltac:(congruence)) as (f & n & E & Hp & Ho).
    rewrite write_func_push, E. record_written r SET_OUTPUT_FUNC (with_func f n o1) Hn Hg1 Ew.
  - destruct (push_part _ _ _ (id, addr) Hm ltac:(congruence)) as (f & n & E & Hp & Ho).
    rewrite write_method_push, E. record_written r SET_OUTPUT_METHOD (with_method f n o1) Hn Hg1 Ew.
  - destruct (push_part _ _ _ nr Hs ltac:(congruence)) as (f & n & E & Hp & Ho).
    rewrite write_syscall_push, E. record_written r SET_OUTPUT_SYSCALL (with_syscall f n o1) Hn Hg1 Ew.
Qed.

Lemma write_records_inv type rs' : forall rs o,
  out_inv type rs o -> Forall (fun r => kind_ok type (r_what r) = true) rs' ->
  exists o', write_records rs' o = Some o' /\ out_inv type (rs ++ rs') o'.
Proof.
  induction rs' as [|r rs' IH]; intros rs o I Hk; [exists o; by rewrite app_nil_r|].
  inversion Hk as [|? ? Hr Hk']; subst. destruct (write_record_inv type rs o r I Hr) as (o1 & E & I1).
  unfold write_records. cbn [foldl mbind option_bind]. rewrite E.
  destruct (IH (rs ++ [r]) o1 I1 Hk') as (o' & E' & I'). exists o'. split; [exact E'|]. by rewrite <- app_assoc in I'.
Qed.

Lemma part_nil {A} `{Inhabited A} (s : stream A) : (file s = Some [] \/ file s = None) -> part s 0 [].
Proof.
  intros Hs. split; [done|]. unfold holds, is_open, contents. destruct Hs as [-> | ->]; [left|by right].
  done.
Qed.

Lemma open_streams_inv can model type o :
  1 <= model <= 3 -> open_streams can model type SET_output_create = (o, true) -> out_inv type [] o.
Proof.
  intros Hm. unfold open_streams, and_then, SET_output_open_type_vpmu, SET_output_open_pid,
    SET_output_open_obj_func, SET_output_open_dex_method, SET_output_open_syscall.
  rewrite (proj2 (Z.leb_le 1 model)), (proj2 (Z.leb_le model 3)) by lia. cbn [andb].
  destruct (can "type"), (can "vpmu"), (can "cc"), (can "power"); try done. cbn [fst snd].
  destruct (can "pid"); [|done]. cbn [fst snd].
  destruct (has type NATIVE) eqn:E1, (has type SET_PROCESS_DALVIK) eqn:E2, (has type SET_PROCESS_SYSCALL) eqn:E3;
    cbn [fst snd]; repeat (match goal with |- context [can ?x] => destruct (can x) end; cbn [fst snd]); try done;
    intros [= <-]; (split; [done|by split|apply part_nil; cbn; first [by left|by right]..|rewrite E1, E2, E3; done]).
Qed.

(** *** Closing *)

Lemma part_flush {A} `{Inhabited A} (s : stream A) n l :
  part s n l ->
  (is_open s = true /\ exists s', fwrite s n = Some s' /\ contents s' = l) \/ (is_open s = false /\ contents s = l).
Proof.
  intros [Hn [Hh|(Hc & -> & ->)]].
  - left. split; [apply Hh|]. destruct (fwrite_holds s n l Hh) as (s' & E & H'). exists s'. split; [done|].
    by apply holds_contents.
  - right. split; [done|]. unfold contents, is_open in *. by destruct (file s).
Qed.

Lemma close_contents type rs o :
  out_inv type rs o ->
  exists o', SET_output_close o = Some o' /\
    contents (s_type o') = map (kind ∘ r_what) rs /\ contents (s_pid o') = map r_pid rs /\
    contents (s_cc o') = map (rd_cc ∘ r_reading) rs /\ contents (s_power o') = map (rd_power ∘ r_reading) rs /\
    contents (s_vpmu o') = map (rd_info ∘ r_reading) rs /\
    contents (s_func o') = funcs_of rs /\ contents (s_method o') = methods_of rs /\ contents (s_syscall o') = syscalls_of rs.
Proof.
  intros [Hn Hg Hf Hm Hs _]. unfold SET_output_close, flush_all.
  destruct (flush_globals o _ _ _ _ _ Hg) as (o1 & E1 & Hz & [G1 G2 G3 G4 G5] & F1 & F2 & F3 & F4 & F5 & F6).
  rewrite E1. cbn [mbind option_bind]. apply holds_contents in G5. rewrite Hz in G1, G2, G3, G4.
  apply holds_contents in G1, G2, G3, G4.
  rewrite <- F1, <- F2 in Hf. rewrite <- F3, <- F4 in Hm. rewrite <- F5, <- F6 in Hs.
  unfold flush_func, flush_method, flush_syscall.
  destruct (part_flush _ _ _ Hf) as [(Of & sf & Ef & Cf)|(Of & Cf)]; rewrite Of, ?Ef; cbn [mbind option_bind];
    cbn [s_func s_method s_syscall func_size method_size syscall_size with_func];
    destruct (part_flush _ _ _ Hm) as [(Om & sm & Em & Cm)|(Om & Cm)]; rewrite Om, ?Em; cbn [mbind option_bind];
    cbn [s_func s_method s_syscall func_size method_size syscall_size with_func with_method];
    destruct (part_flush _ _ _ Hs) as [(Os & ss & Es & Cs)|(Os & Cs)]; rewrite Os, ?Es; cbn [mbind option_bind];
    (eexists; split; [reflexivity|]); cbn; done.
Qed.

Lemma read_back_records rs :
  read_back (map (kind ∘ r_what) rs) (map r_pid rs) (map (rd_cc ∘ r_reading) rs) (map (rd_power ∘ r_reading) rs)
    (map (rd_info ∘ r_reading) rs) (funcs_of rs) (methods_of rs) (syscalls_of rs) = Some rs.
Proof.
  unfold compose. induction rs as [|[pid w [cc pw info]] rs IH]; [done|].
  destruct w as [x|id addr|nr]; cbn [map read_back kind r_what r_pid r_reading rd_cc rd_power rd_info] in IH |- *;
    cbn [Z.eqb Pos.eqb SET_OUTPUT_FUNC SET_OUTPUT_METHOD SET_OUTPUT_SYSCALL];
    (change (funcs_of (_ :: rs)) with (funcs_of rs) || change (funcs_of (_ :: rs)) with (x :: funcs_of rs));
    (change (methods_of (_ :: rs)) with (methods_of rs) || change (methods_of (_ :: rs)) with ((id, addr) :: methods_of rs));
    (change (syscalls_of (_ :: rs)) with (syscalls_of rs) || change (syscalls_of (_ :: rs)) with (nr :: syscalls_of rs));
    cbv iota; by rewrite IH.
Qed.

(** ** The property *)

(** C26: A trace is read back as it was written.  With the files of a process
    type open (timing model 1 to 3), any number of records of the kinds that type
    produces is written without leaving a buffer or using a file that is not
    open; and when the output is closed, a reader of the eight files gets
    back exactly these records in their order, each with its process, its
    cycle count, its power and its VPMU readings, however the buffers were
    filled and flushed. *)
Theorem trace_roundtrip can model type o rs :
  1 <= model <= 3 -> open_streams can model type SET_output_create = (o, true) ->
  Forall (fun r => kind_ok type (r_what r) = true) rs ->
  exists o1 o2, write_records rs o = Some o1 /\ SET_output_close o1 = Some o2 /\ read_files o2 = Some rs.
Proof.
  intros Hm Ho Hk. pose proof (open_streams_inv can model type o Hm Ho) as I.
  destruct (write_records_inv type rs [] o I Hk) as (o1 & E1 & I1). cbn [app] in I1.
  destruct (close_contents type rs o1 I1) as (o2 & E2 & C1 & C2 & C3 & C4 & C5 & C6 & C7 & C8).
  exists o1, o2. split; [done|]. split; [done|]. unfold read_files.
  rewrite C1, C2, C3, C4, C5, C6, C7, C8. apply read_back_records.
Qed.

(** A process with library and system call tracing; the buffers are flushed twice. *)
Definition demo_rec (i : Z) : record :=
  mk_record (100 + i mod 2) (if i mod 3 =? 0 then Syscall i else Func i)
    (mk_reading (1000 * i) i (mk_info i 0 0 0 0 0 0 (5 * i) 0 0 0 0)).

Theorem trace_roundtrip_witness :
  exists o o1 o2, open_streams (fun _ => true) 2 0x0d SET_output_create = (o, true) /\
    write_records (demo_rec <$> seqZ 0 2500) o = Some o1 /\ SET_output_close o1 = Some o2 /\
    read_files o2 = Some (demo_rec <$> seqZ 0 2500).
Proof.
  assert (H1 : exists o, open_streams (fun _ => true) 2 0x0d SET_output_create = (o, true))
    by (eexists; vm_compute; reflexivity).
  assert (H2 : Forall (fun r => kind_ok 0x0d (r_what r) = true) (demo_rec <$> seqZ 0 2500)).
  { apply Forall_forall. intros r (i & -> & _)%list_elem_of_fmap. cbn. by destruct (_ =? _). }
  destruct H1 as [o Ho].
  destruct (trace_roundtrip _ 2 _ o (demo_rec <$> seqZ 0 2500) ltac:(split; discriminate) Ho H2) as (o1 & o2 & E).
  by exists o, o1, o2.
Defined.
