(* ===== verification/SetTrace.v ===== *)
(** * Following the guest ([SET/SET_event.c], the event handlers)

    Every taken branch of the guest, every interrupt and system call and every
    Dalvik method is reported to the process being traced.  The tracer keeps call
    stacks of return addresses: a branch to the entry of a function pushes its return
    address, a branch to an address on the stack pops down to it.  Entries and
    returns are written as records of [SetOut].

    Results are [None] where the code would fail on its output ([SetOut]).  One
    event reads the VPMU once, as nothing is executed meanwhile. *)
From stdpp Require Import strings.
From S2P Require Import Prelude Probe SetObject SetOut.

(** ** Call stacks *)

Definition MAX_STACK_SIZE : Z := 1024.
Record stack := mk_stack { st_cells : arr; st_size : Z }.
Definition stack0 : stack := mk_stack ∅ 0.

Definition SET_callstack_push (s : stack) (addr : Z) : stack :=
  if st_size s <? MAX_STACK_SIZE then mk_stack (st_cells s).[st_size s <- addr] (st_size s + 1) else s.
Definition cut (s : stack) (size : Z) : stack := mk_stack (st_cells s) size.

(** The return addresses, outermost first *)
Definition frames (s : stack) : list Z := aget (st_cells s) <$> seqZ 0 (st_size s).

(** ** The process being traced *)

Record DexFile := mk_dex { d_id : Z; d_path : string; d_start : Z; d_end : Z; d_count : Z }.

Record tracing := mk_tracing {
  t_type : Z; t_pid : Z; t_output : option SETOut;
  t_objKernel : ObjFile; t_kernel : stack; t_irq : stack; t_ic : stack;
  t_objs : list ObjFile; t_user : stack; t_return_addr : Z; t_dexs : list DexFile }.

Definition with_output (o : option SETOut) (t : tracing) : tracing :=
  mk_tracing (t_type t) (t_pid t) o (t_objKernel t) (t_kernel t) (t_irq t) (t_ic t) (t_objs t) (t_user t)
    (t_return_addr t) (t_dexs t).
Definition with_kernel (s : stack) (t : tracing) : tracing :=
  mk_tracing (t_type t) (t_pid t) (t_output t) (t_objKernel t) s (t_irq t) (t_ic t) (t_objs t) (t_user t)
    (t_return_addr t) (t_dexs t).
Definition with_irq (s : stack) (t : tracing) : tracing :=
  mk_tracing (t_type t) (t_pid t) (t_output t) (t_objKernel t) (t_kernel t) s (t_ic t) (t_objs t) (t_user t)
    (t_return_addr t) (t_dexs t).
Definition with_ic (s : stack) (t : tracing) : tracing :=
  mk_tracing (t_type t) (t_pid t) (t_output t) (t_objKernel t) (t_kernel t) (t_irq t) s (t_objs t) (t_user t)
    (t_return_addr t) (t_dexs t).
Definition with_user (s : stack) (return_addr : Z) (t : tracing) : tracing :=
  mk_tracing (t_type t) (t_pid t) (t_output t) (t_objKernel t) (t_kernel t) (t_irq t) (t_ic t) (t_objs t) s
    return_addr (t_dexs t).
Definition with_objs (l : list ObjFile) (t : tracing) : tracing :=
  mk_tracing (t_type t) (t_pid t) (t_output t) (t_objKernel t) (t_kernel t) (t_irq t) (t_ic t) l (t_user t)
    (t_return_addr t) (t_dexs t).
Definition with_dexs (l : list DexFile) (t : tracing) : tracing :=
  mk_tracing (t_type t) (t_pid t) (t_output t) (t_objKernel t) (t_kernel t) (t_irq t) (t_ic t) (t_objs t) (t_user t)
    (t_return_addr t) l.

(** [if (output) { SET_output_write_pid(...); SET_output_write_...(...); }] *)
Definition emit (rd : reading) (w : what) (t : tracing) : option tracing :=
  match t_output t with
  | None => Some t
  | Some o => o ← write_record (mk_record (t_pid t) w rd) o; Some (with_output (Some o) t)
  end.

(** ** Tables ordered by address *)

Definition MAX_OBJ_TABLE_SIZE : nat := 256.
Definition MAX_DEX_TABLE_SIZE : nat := 256.

Section Ordered.
Context {A : Type} (start : A -> Z).

(** The search: the last entry that starts at or before the key *)
Fixpoint last_before (key : Z) (prev : A) (rest : list A) : A :=
  match rest with
  | [] => prev
  | x :: rest => if key <? start x then prev else last_before key x rest
  end.
Definition search (key : Z) (l : list A) : option A :=
  match l with [] => None | x :: rest => if key <? start x then None else Some (last_before key x rest) end.

(** The insertion: in front of the first entry that starts later *)
Fixpoint insert_before (x : A) (l : list A) : list A :=
  match l with
  | [] => [x]
  | y :: l' => if start x <? start y then x :: l else y :: insert_before x l'
  end.
End Ordered.

Definition count_obj (k : Z) (o : ObjFile) : ObjFile :=
  mk_obj (obj_id o) (obj_path o) (func_addr o) (func_idx o) (funcTableSize o) (text_start o) (text_end o) (obj_count o + k).
Definition count_dex (k : Z) (d : DexFile) : DexFile := mk_dex (d_id d) (d_path d) (d_start d) (d_end d) (d_count d + k).

Definition SET_attach_obj (obj : ObjFile) (t : tracing) : option tracing :=
  if (length (t_objs t) =? MAX_OBJ_TABLE_SIZE)%nat then Some t
  else
    t ← (match t_output t with
         | None => Some t
         | Some o => o ← SET_output_write_obj (obj_id obj) (obj_path obj) o; Some (with_output (Some o) t)
         end);
    Some (with_objs (insert_before text_start (count_obj 1 obj) (t_objs t)) t).
Definition SET_attach_dex (dex : DexFile) (t : tracing) : option tracing :=
  if (length (t_dexs t) =? MAX_DEX_TABLE_SIZE)%nat then Some t
  else
    t ← (match t_output t with
         | None => Some t
         | Some o => o ← SET_output_write_dex (d_id dex) (d_path dex) o; Some (with_output (Some o) t)
         end);
    Some (with_dexs (insert_before d_start (count_dex 1 dex) (t_dexs t)) t).

(** ** Branches *)

Definition func_code (id idx : Z) : Z := u32 (Z.lor (Z.shiftl id 16) idx).

(** Where a user-space target lies: outside the objects, inside one, or at the
    entry of a function, which has a code *)
Inductive place_of := Unknown | Inside | Entry (code : Z).
Definition resolve (objs : list ObjFile) (target_addr : Z) : run place_of :=
  match search text_start target_addr objs with
  | None => Ret Unknown
  | Some obj =>
      if target_addr <=? text_end obj then
        f ← find_func obj target_addr;
        Ret (match f with Some idx => Entry (func_code (obj_id obj) idx) | None => Inside end)
      else Ret Unknown
  end.

(** The depth at which the target is on the stack, from [i] on: [n] entries are
    left to look at *)
Fixpoint find_return (n : nat) (i target_addr : Z) (s : stack) : option Z :=
  match n with
  | O => None
  | S n => if target_addr =? (st_cells s).[st_size s - i] then Some i else find_return n (i + 1) target_addr s
  end.

Definition SET_event_branch_user (rd : reading) (target_addr return_addr : Z) (t : tracing) : run (option tracing) :=
  match t_objs t with
  | [] => Ret (Some t)
  | _ =>
      p ← resolve (t_objs t) target_addr;
      Ret (match p with
           | Entry code =>
               t ← emit rd (Func code) t;
               let addr := if t_return_addr t =? 0 then return_addr else t_return_addr t in
               Some (with_user (SET_callstack_push (t_user t) addr) 0 t)
           | Inside =>
               match find_return (Z.to_nat (st_size (t_user t))) 1 target_addr (t_user t) with
               | Some i =>
                   t ← emit rd (Func i) t; Some (with_user (cut (t_user t) (st_size (t_user t) - i)) (t_return_addr t) t)
               | None => Some t
               end
           | Unknown =>
               if (0 <? st_size (t_user t)) && (target_addr =? (st_cells (t_user t)).[0]) then
                 t ← emit rd (Func (st_size (t_user t))) t; Some (with_user (cut (t_user t) 0) (t_return_addr t) t)
               else Some (with_user (t_user t) return_addr t)
           end)
  end.

(** The search for an exit in the kernel and in interrupts does not stop at the
    one it finds.  [get], [set]: the stack it works on. *)
Fixpoint exits (n : nat) (i code : Z) (get : tracing -> stack) (set : stack -> tracing -> tracing)
    (rd : reading) (target_addr : Z) (t : tracing) : option tracing :=
  match n with
  | O => Some t
  | S n =>
      let s := get t in
      if i <=? st_size s then
        t ← (if target_addr =? (st_cells s).[st_size s - i]
             then t ← emit rd (Func (Z.lor code i)) t; Some (set (cut s (st_size s - i)) t)
             else Some t);
        exits n (i + 1) code get set rd target_addr t
      else Some t
  end.

Definition SET_event_branch_kernel (rd : reading) (target_addr return_addr : Z) (t : tracing) : run (option tracing) :=
  f ← find_func (t_objKernel t) target_addr;
  Ret (match f with
       | Some idx =>
           t ← emit rd (Func (func_code (obj_id (t_objKernel t)) idx)) t;
           Some (with_kernel (SET_callstack_push (t_kernel t) return_addr) t)
       | None => exits (Z.to_nat MAX_STACK_SIZE) 1 0x00010000 t_kernel with_kernel rd target_addr t
       end).

Definition SET_event_branch_irq (rd : reading) (target_addr return_addr : Z) (t : tracing) : run (option tracing) :=
  f ← find_func (t_objKernel t) target_addr;
  Ret (match f with
       | Some idx =>
           t ← emit rd (Func (Z.lor 0x00030000 idx)) t;
           Some (with_ic (SET_callstack_push (t_ic t) return_addr) t)
       | None => exits (Z.to_nat MAX_STACK_SIZE) 1 0x00020000 t_ic with_ic rd target_addr t
       end).

Definition KERNEL_BASE : Z := 0xc0000000.
Definition KERNEL_OR_IRQ : Z := Z.lor SET_PROCESS_KERNEL SET_PROCESS_IRQ.
Definition LIBRARY_OR_C : Z := Z.lor SET_PROCESS_LIBRARY SET_PROCESS_USER_C.

(** [SET_event_branch] behind the kernel events: the process being traced *)
Definition trace_branch (rd : reading) (target_addr return_addr : Z) (t : tracing) : run (option tracing) :=
  if has (t_type t) KERNEL_OR_IRQ && (0 <? st_size (t_irq t)) then
    let s := t_irq t in
    if target_addr =? (st_cells s).[st_size s - 1] then
      let t := with_irq (cut s (st_size s - 1)) t in
      Ret (if has (t_type t) SET_PROCESS_IRQ && (0 <? st_size (t_ic t))
           then t ← emit rd (Func (Z.lor 0x00020000 (st_size (t_ic t)))) t; Some (with_ic (cut (t_ic t) 0) t)
           else Some t)
    else if has (t_type t) SET_PROCESS_IRQ then SET_event_branch_irq rd target_addr return_addr t
    else Ret (Some t)
  else if target_addr <? KERNEL_BASE then
    if return_addr <? KERNEL_BASE then
      if has (t_type t) LIBRARY_OR_C then SET_event_branch_user rd target_addr return_addr t else Ret (Some t)
    else
      Ret (if has (t_type t) SET_PROCESS_KERNEL && (0 <? st_size (t_kernel t))
           then t ← emit rd (Func (Z.lor 0x00010000 (st_size (t_kernel t)))) t; Some (with_kernel (cut (t_kernel t) 0) t)
           else Some t)
  else if has (t_type t) SET_PROCESS_KERNEL then SET_event_branch_kernel rd target_addr return_addr t
  else Ret (Some t).

(** ** The other events *)

Definition SET_event_interrupt (return_addr : Z) (t : tracing) : tracing :=
  if has (t_type t) KERNEL_OR_IRQ then with_irq (SET_callstack_push (t_irq t) return_addr) t else t.

(** [r7]: the guest's register 7, the number of the call *)
Definition SET_event_syscall (rd : reading) (r7 : Z) (t : tracing) : option tracing :=
  if has (t_type t) SET_PROCESS_SYSCALL then emit rd (Syscall r7) t else Some t.

(** [exit]: 1 at the end of the method.  Addresses compare unsigned. *)
Definition SET_event_method (exit : Z) (rd : reading) (insns : Z) (t : tracing) : option tracing :=
  if has (t_type t) SET_PROCESS_DALVIK then
    match search d_start (u32 insns) (t_dexs t) with
    | None => Some t
    | Some dex =>
        if u32 insns <=? d_end dex
        then emit rd (Method (d_id dex) (u32 (u32 insns - d_start dex + exit))) t else Some t
    end
  else Some t.
Definition SET_event_method_entry := SET_event_method 0.
Definition SET_event_method_exit := SET_event_method 1.

(** [(uint16_t) -1] for the object *)
Definition SET_event_jni (exit : Z) (rd : reading) (t : tracing) : option tracing :=
  if has (t_type t) SET_PROCESS_DALVIK && negb (length (t_dexs t) =? 0)%nat
  then emit rd (Method 0xffff exit) t else Some t.
Definition SET_event_jni_entry := SET_event_jni 0.
Definition SET_event_jni_exit := SET_event_jni 1.

(** A sequence of what the guest does *)
Inductive guest := Branch (rd : reading) (target return_addr : Z) | Interrupt (return_addr : Z).
Definition guest_step (g : guest) (t : tracing) : run (option tracing) :=
  match g with
  | Branch rd target return_addr => trace_branch rd target return_addr t
  | Interrupt return_addr => Ret (Some (SET_event_interrupt return_addr t))
  end.
Fixpoint guest_run (gs : list guest) (t : tracing) : run (option tracing) :=
  match gs with
  | [] => Ret (Some t)
  | g :: gs => r ← guest_step g t; match r with Some t => guest_run gs t | None => Ret None end
  end.

(** ** Helper lemmas *)

(** *** Call stacks *)

Definition stack_ok (s : stack) : Prop := 0 <= st_size s <= MAX_STACK_SIZE.

Lemma frames_length s : stack_ok s -> length (frames s) = Z.to_nat (st_size s).
Proof. intros H. unfold frames. by rewrite length_fmap, length_seqZ. Qed.

Lemma frames_cell s i : 0 <= i < st_size s -> frames s !! Z.to_nat i = Some (st_cells s).[i].
Proof.
  intros H. unfold frames. rewrite list_lookup_fmap, lookup_seqZ_lt by lia. cbn. by rewrite Z2Nat.id, Z.add_0_l by lia.
Qed.

Lemma frames_cut s n : 0 <= n <= st_size s -> frames (cut s n) = take (Z.to_nat n) (frames s).
Proof.
  intros H. unfold frames, cut. cbn [st_cells st_size]. rewrite <- fmap_take. f_equal.
  replace (st_size s) with (n + (st_size s - n)) by lia. rewrite seqZ_app, take_app_le by (rewrite ?length_seqZ; lia).
  by rewrite take_ge by (rewrite length_seqZ; lia).
Qed.

Lemma frames_push s a :
  stack_ok s -> st_size s < MAX_STACK_SIZE ->
  frames (SET_callstack_push s a) = frames s ++ [a] /\ st_size (SET_callstack_push s a) = st_size s + 1 /\
  (st_cells (SET_callstack_push s a)).[st_size s] = a.
Proof.
  intros Hs Hlt. unfold SET_callstack_push. rewrite (proj2 (Z.ltb_lt _ _)) by lia. unfold stack_ok in Hs.
  split; [|split; [done|cbn [st_cells]; by rewrite aget_aset_eq]].
  unfold frames. cbn [st_cells st_size]. rewrite seqZ_app by lia. rewrite fmap_app, seqZ_one. cbn [fmap list_fmap].
  rewrite Z.add_0_l, aget_aset_eq. f_equal. apply list_fmap_ext. intros i j [-> Hi]%lookup_seqZ.
  by rewrite aget_aset_ne by lia.
Qed.

Lemma push_ok s a : stack_ok s -> stack_ok (SET_callstack_push s a).
Proof.
  unfold stack_ok, SET_callstack_push. intros H. destruct (Z.ltb_spec (st_size s) MAX_STACK_SIZE); cbn [st_size]; lia.
Qed.

(** Pushing and cutting back restores the frames. *)
Lemma frames_push_cut s s' a :
  stack_ok s -> st_size s < MAX_STACK_SIZE -> st_size s' = st_size (SET_callstack_push s a) ->
  frames s' = frames (SET_callstack_push s a) ->
  (st_cells s').[st_size s' - 1] = a /\ frames (cut s' (st_size s' - 1)) = frames s.
Proof.
  intros Hs Hlt Hsz Hf. destruct (frames_push s a Hs Hlt) as (Ef & Es & _).
  pose proof (frames_length s Hs) as Hlen. unfold stack_ok in Hs. split.
  - assert (Hc : frames s' !! Z.to_nat (st_size s) = Some (st_cells s').[st_size s]) by (apply frames_cell; lia).
    rewrite Hf, Ef, lookup_app_r, Hlen, Nat.sub_diag in Hc by lia. injection Hc as ->. f_equal. lia.
  - rewrite frames_cut by lia. rewrite Hf, Ef. rewrite take_app_le by lia. apply take_ge. lia.
Qed.

(** *** Interrupts *)

(** A stack that holds the same frames; the cells above them are free. *)
Definition same_frames (s s' : stack) : Prop := st_size s' = st_size s /\ frames s' = frames s.

Lemma same_frames_refl s : same_frames s s.
Proof. done. Qed.
Lemma same_frames_trans s1 s2 s3 : same_frames s1 s2 -> same_frames s2 s3 -> same_frames s1 s3.
Proof. intros [E1 E2] [E3 E4]. split; congruence. Qed.

(** What runs between an interrupt and its return: branches of the kernel, and
    further interrupts. *)
Inductive handler :=
| HDone
| HBranch (rd : reading) (target return_addr : Z) (rest : handler)
| HInterrupt (ret : Z) (rd : reading) (from : Z) (inner rest : handler).
Fixpoint handler_events (h : handler) : list guest :=
  match h with
  | HDone => []
  | HBranch rd target return_addr rest => Branch rd target return_addr :: handler_events rest
  | HInterrupt ret rd from inner rest =>
      Interrupt ret :: handler_events inner ++ Branch rd ret from :: handler_events rest
  end.
(** No branch goes to the return address of the innermost interrupt but the return from it; no
    more than [room] interrupts at a time. *)
Fixpoint handler_ok (top : Z) (room : nat) (h : handler) : Prop :=
  match h with
  | HDone => True
  | HBranch _ target _ rest => target <> top /\ handler_ok top room rest
  | HInterrupt ret _ _ inner rest =>
      match room with O => False | S room' => handler_ok ret room' inner /\ handler_ok top room rest end
  end.

Lemma guest_run_app gs1 gs2 t t1 :
  guest_run gs1 t = Ret (Some t1) -> guest_run (gs1 ++ gs2) t = guest_run gs2 t1.
Proof.
  revert t. induction gs1 as [|g gs1 IH]; intros t; cbn [guest_run app]; [by intros [= ->]|].
  destruct (guest_step g t) as [[t'|]| |]; cbn [mbind run_bind]; try done. apply IH.
Qed.

Lemma with_irq_twice s s' t : with_irq s (with_irq s' t) = with_irq s t.
Proof. done. Qed.
Lemma with_irq_id t : with_irq (t_irq t) t = t.
Proof. by destruct t. Qed.

Section Quiet.
Context (t : tracing) (Hk : has (t_type t) KERNEL_OR_IRQ = true) (Hi : has (t_type t) SET_PROCESS_IRQ = false).

Lemma return_step rd ret from s :
  0 < st_size s -> (st_cells s).[st_size s - 1] = ret ->
  trace_branch rd ret from (with_irq s t) = Ret (Some (with_irq (cut s (st_size s - 1)) t)).
Proof.
  intros Hs Hr. unfold trace_branch. cbn [t_type t_irq with_irq]. rewrite Hk, (proj2 (Z.ltb_lt 0 _)) by lia. cbn [andb].
  rewrite Hr, Z.eqb_refl. cbn [t_type with_irq]. rewrite Hi. done.
Qed.

Lemma handler_run h : forall s top room,
  stack_ok s -> 0 < st_size s -> (st_cells s).[st_size s - 1] = top -> handler_ok top room h ->
  st_size s + Z.of_nat room <= MAX_STACK_SIZE ->
  exists s', guest_run (handler_events h) (with_irq s t) = Ret (Some (with_irq s' t)) /\ same_frames s s'.
Proof.
  induction h as [|rd target ra rest IH|ret rd from inner IH1 rest IH2]; intros s top room Hs H0 Ht Hok Hroom.
  - exists s. done.
  - destruct Hok as [Hne Hok]. cbn [handler_events guest_run guest_step]. unfold trace_branch.
    cbn [t_type t_irq with_irq]. rewrite Hk, Hi, (proj2 (Z.ltb_lt 0 _)) by lia. cbn [andb].
    rewrite Ht, (proj2 (Z.eqb_neq target top)) by done. cbn [mbind run_bind]. eapply IH; eauto.
  - destruct room as [|room]; [done|]. destruct Hok as [Hok1 Hok2].
    cbn [handler_events guest_run guest_step]. unfold SET_event_interrupt. cbn [t_type t_irq with_irq].
    rewrite Hk. cbn [mbind run_bind]. rewrite with_irq_twice.
    destruct (frames_push s ret Hs ltac:(unfold MAX_STACK_SIZE in *; lia)) as (Ef & Es & Ec).
    destruct (IH1 (SET_callstack_push s ret) ret room (push_ok s ret Hs) ltac:(lia)) as (s1 & E1 & Es1 & Ef1);
      [by rewrite Es, Z.add_simpl_r|done|lia|].
    rewrite (guest_run_app _ _ _ _ E1). cbn [guest_run guest_step].
    destruct (frames_push_cut s s1 ret Hs ltac:(unfold MAX_STACK_SIZE in *; lia) Es1 Ef1) as [Hr Hc].
    rewrite return_step by (done || lia). cbn [mbind run_bind].
    assert (Hsf : same_frames s (cut s1 (st_size s1 - 1))) by (split; [cbn [st_size cut]; lia|done]).
    destruct (IH2 (cut s1 (st_size s1 - 1)) top (S room)) as (s2 & E2 & F2); [| | |done| |].
    + unfold stack_ok in *. cbn [st_size cut]. lia.
    + cbn [st_size cut]. lia.
    + pose proof (frames_cell s (st_size s - 1) ltac:(lia)) as Hc1. rewrite <- (proj2 Hsf) in Hc1.
      rewrite frames_cell in Hc1 by (rewrite (proj1 Hsf); lia). rewrite (proj1 Hsf). congruence.
    + rewrite (proj1 Hsf). done.
    + exists s2. split; [exact E2|]. by eapply same_frames_trans.
Qed.
End Quiet.

(** *** User-space calls *)

(** Calls and returns of a program: [ret] is where the callee returns to, [from]
    the address behind the return, the readings are those at the two branches. *)
Inductive calls :=
| Leaf
| Call (f ret from : Z) (rd rd' : reading) (body rest : calls).
Fixpoint call_events (c : calls) : list guest :=
  match c with
  | Leaf => []
  | Call f ret from rd rd' body rest =>
      Branch rd f ret :: call_events body ++ Branch rd' ret from :: call_events rest
  end.

Definition entry_code (objs : list ObjFile) (f : Z) : Z :=
  match resolve objs f with Ret (Entry c) => c | _ => 0 end.
(** The records that show them *)
Fixpoint call_records (pid : Z) (objs : list ObjFile) (c : calls) : list record :=
  match c with
  | Leaf => []
  | Call f ret from rd rd' body rest =>
      mk_record pid (Func (entry_code objs f)) rd :: call_records pid objs body ++
      mk_record pid (Func 1) rd' :: call_records pid objs rest
  end.

(** Callees are entries of functions, return addresses are not; all lie in user
    space and the calls are at most [room] deep. *)
Fixpoint calls_ok (objs : list ObjFile) (room : nat) (c : calls) : Prop :=
  match c with
  | Leaf => True
  | Call f ret from rd rd' body rest =>
      f < KERNEL_BASE /\ ret < KERNEL_BASE /\ from < KERNEL_BASE /\
      (exists code, resolve objs f = Ret (Entry code) /\ 0x10000 <= code) /\ resolve objs ret = Ret Inside /\
      match room with O => False | S room' => calls_ok objs room' body /\ calls_ok objs room rest end
  end.

(** A reader's reconstruction of the call tree from the numbers in [func]: 1 is a
    return, numbers from 0x10000 on are entries. *)
Inductive shape := SLeaf | SCall (code : Z) (body rest : shape).
Fixpoint rebuild (fuel : nat) (codes : list Z) : option (shape * list Z) :=
  match fuel with
  | O => None
  | S fuel =>
      match codes with
      | [] => Some (SLeaf, [])
      | c :: cs =>
          if c =? 1 then Some (SLeaf, codes)
          else
            '(body, cs) ← rebuild fuel cs;
            match cs with
            | [] => None
            | _ :: cs => '(rest, cs) ← rebuild fuel cs; Some (SCall c body rest, cs)
            end
      end
  end.
Fixpoint shape_of (objs : list ObjFile) (c : calls) : shape :=
  match c with
  | Leaf => SLeaf
  | Call f _ _ _ _ body rest => SCall (entry_code objs f) (shape_of objs body) (shape_of objs rest)
  end.

Lemma has_mono type f g : (forall i, Z.testbit f i = true -> Z.testbit g i = true) -> has type f = true -> has type g = true.
Proof.
  intros Hfg. unfold has. rewrite !negb_true_iff, !Z.eqb_neq. intros H E. apply H. apply Z.bits_inj_0. intros i.
  pose proof (Z.bits_0 i) as B. rewrite <- E in B. rewrite Z.land_spec in *. specialize (Hfg i).
  destruct (Z.testbit type i), (Z.testbit f i), (Z.testbit g i); try done. by specialize (Hfg eq_refl).
Qed.
Lemma has_native type : has type LIBRARY_OR_C = true -> has type NATIVE = true.
Proof. apply has_mono. intros i. unfold NATIVE. rewrite (Z.lor_spec _ LIBRARY_OR_C). intros ->. apply orb_true_r. Qed.
Lemma has_kernel type : has type SET_PROCESS_KERNEL = true -> has type NATIVE = true.
Proof. apply has_mono. intros i. unfold NATIVE. rewrite !Z.lor_spec. by intros ->. Qed.

(** User mode, outside of interrupts, with an output that has the records [rs] *)
Record user_mode (t : tracing) (rs : list record) : Prop := {
  um_type : has (t_type t) LIBRARY_OR_C = true;
  um_irq : has (t_type t) KERNEL_OR_IRQ && (0 <? st_size (t_irq t)) = false;
  um_stack : stack_ok (t_user t);
  um_ret : t_return_addr t = 0;
  um_out : exists o, t_output t = Some o /\ out_inv (t_type t) rs o }.

Lemma emit_user t rs rd x :
  user_mode t rs ->
  exists t', emit rd (Func x) t = Some t' /\ user_mode t' (rs ++ [mk_record (t_pid t) (Func x) rd]) /\
    t_pid t' = t_pid t /\ t_objs t' = t_objs t /\ t_user t' = t_user t.
Proof.
  intros [H1 H2 H3 H4 (o & Ho & I)]. unfold emit. rewrite Ho.
  destruct (write_record_inv (t_type t) rs o (mk_record (t_pid t) (Func x) rd) I (has_native _ H1)) as (o' & E & I').
  rewrite E. cbn [mbind option_bind]. eexists. split; [reflexivity|]. split; [|done]. split; cbn; try done. by exists o'.
Qed.

Lemma user_mode_stack t rs s : user_mode t rs -> stack_ok s -> user_mode (with_user s 0 t) rs.
Proof. intros [H1 H2 H3 H4 H5] Hs. by split. Qed.

Lemma user_branch t rs rd target ra :
  user_mode t rs -> target < KERNEL_BASE -> ra < KERNEL_BASE ->
  trace_branch rd target ra t = SET_event_branch_user rd target ra t.
Proof.
  intros [H1 H2 _ _ _] Ht Hr. unfold trace_branch. rewrite H2, H1.
  by rewrite (proj2 (Z.ltb_lt target _)), (proj2 (Z.ltb_lt ra _)) by done.
Qed.

(** A call: one record, one frame *)
Lemma call_step t rs rd f ra code :
  user_mode t rs -> f < KERNEL_BASE -> ra < KERNEL_BASE -> resolve (t_objs t) f = Ret (Entry code) ->
  exists t', trace_branch rd f ra t = Ret (Some t') /\
    user_mode t' (rs ++ [mk_record (t_pid t) (Func code) rd]) /\ t_pid t' = t_pid t /\ t_objs t' = t_objs t /\
    t_user t' = SET_callstack_push (t_user t) ra.
Proof.
  intros U Hf Hr E. rewrite (user_branch t rs) by done. unfold SET_event_branch_user.
  destruct (t_objs t) as [|o os] eqn:Eo; [done|]. rewrite E. cbn [mbind run_bind].
  destruct (emit_user t rs rd code U) as (t1 & E1 & U1 & P1 & O1 & S1). rewrite E1. cbn [mbind option_bind].
  rewrite (um_ret _ _ U1). cbn [Z.eqb]. eexists. split; [reflexivity|].
  split; [by apply user_mode_stack, push_ok, U1|]. cbn [t_pid t_objs t_user with_user]. by rewrite P1, O1, S1.
Qed.

(** The return: the frame is found on top *)
Lemma user_return_step t rs rd ret from s :
  user_mode t rs -> ret < KERNEL_BASE -> from < KERNEL_BASE -> resolve (t_objs t) ret = Ret Inside ->
  stack_ok s -> st_size s < MAX_STACK_SIZE -> same_frames (SET_callstack_push s ret) (t_user t) ->
  exists t', trace_branch rd ret from t = Ret (Some t') /\
    user_mode t' (rs ++ [mk_record (t_pid t) (Func 1) rd]) /\ t_pid t' = t_pid t /\ t_objs t' = t_objs t /\
    same_frames s (t_user t').
Proof.
  intros U Hf Hr E Hs Hlt [Esz Efr]. rewrite (user_branch t rs) by done. unfold SET_event_branch_user.
  destruct (t_objs t) as [|o os] eqn:Eo; [done|]. rewrite E. cbn [mbind run_bind].
  destruct (frames_push_cut s (t_user t) ret Hs Hlt Esz Efr) as [Htop Hcut].
  destruct (frames_push s ret Hs Hlt) as (_ & Es & _). unfold stack_ok in Hs.
  destruct (Z.to_nat (st_size (t_user t))) as [|n] eqn:En; [lia|]. cbn [find_return]. rewrite Htop, Z.eqb_refl.
  destruct (emit_user t rs rd 1 U) as (t1 & E1 & U1 & P1 & O1 & S1). rewrite E1. cbn [mbind option_bind].
  rewrite (um_ret _ _ U1). eexists. split; [reflexivity|].
  split; [apply user_mode_stack; [done|]|].
  { rewrite S1. unfold stack_ok. cbn [st_size cut]. lia. }
  cbn [t_pid t_objs t_user with_user]. rewrite P1, O1, S1, Eo. split; [done|]. split; [done|].
  split; [cbn [st_size cut]; lia|done].
Qed.

Lemma calls_run c : forall t rs room,
  user_mode t rs -> calls_ok (t_objs t) room c -> st_size (t_user t) + Z.of_nat room <= MAX_STACK_SIZE ->
  exists t', guest_run (call_events c) t = Ret (Some t') /\
    user_mode t' (rs ++ call_records (t_pid t) (t_objs t) c) /\ t_pid t' = t_pid t /\ t_objs t' = t_objs t /\
    same_frames (t_user t) (t_user t').
Proof.
  induction c as [|f ret from rd rd' body IH1 rest IH2]; intros t rs room U Hok Hroom.
  - exists t. cbn [call_records]. by rewrite app_nil_r.
  - destruct Hok as (Hf & Hret & Hfrom & (code & Ec & _) & Er & Hok). destruct room as [|room]; [done|].
    destruct Hok as [Hok1 Hok2]. cbn [call_events guest_run guest_step call_records].
    replace (entry_code (t_objs t) f) with code by (unfold entry_code; by rewrite Ec).
    destruct (call_step t rs rd f ret code U Hf Hret Ec) as (t1 & E1 & U1 & P1 & O1 & S1).
    rewrite E1. cbn [mbind run_bind]. pose proof (um_stack _ _ U) as Hst.
    destruct (frames_push (t_user t) ret Hst ltac:(unfold MAX_STACK_SIZE in *; lia)) as (_ & Es & _).
    rewrite <- O1 in Hok1. destruct (IH1 t1 _ room U1 Hok1) as (t2 & E2 & U2 & P2 & O2 & S2); [rewrite S1, Es; lia|].
    rewrite (guest_run_app _ _ _ _ E2). cbn [guest_run guest_step]. rewrite S1 in S2.
    assert (Er2 : resolve (t_objs t2) ret = Ret Inside) by (by rewrite O2, O1).
    destruct (user_return_step t2 _ rd' ret from (t_user t) U2 Hret Hfrom Er2 Hst
      ltac:(unfold MAX_STACK_SIZE in *; lia) S2) as (t3 & E3 & U3 & P3 & O3 & S3).
    rewrite E3. cbn [mbind run_bind].
    assert (Hok3 : calls_ok (t_objs t3) (S room) rest) by (by rewrite O3, O2, O1).
    destruct (IH2 t3 _ (S room) U3 Hok3) as (t4 & E4 & U4 & P4 & O4 & S4); [rewrite (proj1 S3); lia|].
    exists t4. split; [exact E4|]. rewrite O3, O2, P3, P2, O1, P1 in U4.
    split; [rewrite <- !app_assoc in U4; exact U4|].
    split; [congruence|]. split; [congruence|]. by eapply same_frames_trans.
Qed.

Lemma funcs_of_app rs1 rs2 : funcs_of (rs1 ++ rs2) = funcs_of rs1 ++ funcs_of rs2.
Proof. unfold funcs_of. apply omap_app. Qed.

Lemma rebuild_calls pid objs c : forall room fuel tail,
  calls_ok objs room c -> (tail = [] \/ exists l, tail = 1 :: l) ->
  (length (funcs_of (call_records pid objs c)) < fuel)%nat ->
  rebuild fuel (funcs_of (call_records pid objs c) ++ tail) = Some (shape_of objs c, tail).
Proof.
  induction c as [|f ret from rd rd' body IH1 rest IH2]; intros room fuel tail Hok Ht Hfuel.
  - destruct fuel as [|fuel]; [cbn in Hfuel; lia|]. cbn. by destruct Ht as [->|[l ->]].
  - destruct Hok as (_ & _ & _ & (code & Ec & Hc) & _ & Hok). destruct room as [|room]; [done|].
    destruct Hok as [Hok1 Hok2]. cbn [call_records shape_of] in *.
    replace (entry_code objs f) with code in * by (unfold entry_code; by rewrite Ec).
    change (funcs_of (mk_record pid (Func code) rd :: ?l)) with (code :: funcs_of l) in *.
    rewrite funcs_of_app in *.
    change (funcs_of (mk_record pid (Func 1) rd' :: ?l)) with (1 :: funcs_of l) in *.
    cbn [length] in Hfuel. rewrite length_app in Hfuel. cbn [length] in Hfuel.
    destruct fuel as [|fuel]; [lia|]. cbn [app rebuild]. rewrite (proj2 (Z.eqb_neq code 1)) by lia.
    rewrite <- app_assoc. cbn [app]. rewrite (IH1 room) by (done || (by right; eexists) || lia). cbn [mbind option_bind].
    rewrite (IH2 (S room)) by (done || lia). done.
Qed.

(** *** Tables ordered by address *)

Section Tables.
Context {A : Type} (start : A -> Z).

Fixpoint ordered (l : list A) : Prop :=
  match l with [] => True | x :: l => Forall (fun y => start x <= start y) l /\ ordered l end.

Lemma insert_before_perm x l : insert_before start x l ≡ₚ x :: l.
Proof.
  induction l as [|y l IH]; [done|]. cbn [insert_before]. destruct (start x <? start y); [done|].
  rewrite IH. constructor.
Qed.

Lemma insert_before_ordered x l : ordered l -> ordered (insert_before start x l).
Proof.
  induction l as [|y l IH]; [by repeat constructor|]. intros [Hy Ho]. cbn [insert_before].
  destruct (Z.ltb_spec (start x) (start y)).
  - split; [|done]. constructor; [lia|]. eapply Forall_impl; [exact Hy|]. cbn. lia.
  - split; [|by apply IH]. rewrite insert_before_perm. by constructor.
Qed.

Lemma last_before_spec key prev rest :
  ordered (prev :: rest) -> start prev <= key ->
  last_before start key prev rest ∈ prev :: rest /\ start (last_before start key prev rest) <= key /\
  Forall (fun y => start y <= key -> start y <= start (last_before start key prev rest)) (prev :: rest).
Proof.
  revert prev. induction rest as [|x rest IH]; intros prev Ho Hp; cbn [last_before].
  - split; [by left|]. split; [done|]. repeat constructor. lia.
  - destruct Ho as [Hpx [Hx Ho]]. inversion Hpx as [|? ? Hle Hpr]; subst. destruct (Z.ltb_spec key (start x)).
    + split; [by left|]. split; [done|]. constructor; [lia|]. constructor; [lia|].
      eapply Forall_impl; [exact Hx|]. cbn. lia.
    + destruct (IH x (conj Hx Ho) ltac:(lia)) as (H1 & H2 & H3). split; [by right|]. split; [done|].
      constructor; [|done]. inversion H3; subst. lia.
Qed.

Lemma search_spec key l :
  ordered l ->
  match search start key l with
  | Some x => x ∈ l /\ start x <= key /\ Forall (fun y => start y <= key -> start y <= start x) l
  | None => Forall (fun y => key < start y) l
  end.
Proof.
  destruct l as [|x l]; [intros _; constructor|]. intros Ho. cbn [search]. destruct (Z.ltb_spec key (start x)).
  - constructor; [done|]. eapply Forall_impl; [apply Ho|]. cbn. lia.
  - by apply last_before_spec.
Qed.
End Tables.

(** Where the code is searched, given the object a target lies in *)
Definition inside (target : Z) (o : ObjFile) : Prop := text_start o <= target <= text_end o.
Definition place_in (o : ObjFile) (target : Z) : run place_of :=
  f ← find_func o target; Ret (match f with Some idx => Entry (func_code (obj_id o) idx) | None => Inside end).

(** No two objects overlap. *)
Definition apart_objs (l : list ObjFile) : Prop :=
  Forall (fun o => text_start o <= text_end o) l /\
  forall x y, x ∈ l -> y ∈ l -> x = y \/ text_end x < text_start y \/ text_end y < text_start x.

Lemma resolve_ordered l target :
  ordered text_start l -> apart_objs l ->
  (forall o, o ∈ l -> inside target o -> resolve l target = place_in o target) /\
  (Forall (fun o => ~ inside target o) l -> resolve l target = Ret Unknown).
Proof.
  intros Ho [Hne Hd]. pose proof (search_spec text_start target l Ho) as Hs. unfold resolve.
  destruct (search text_start target l) as [x|].
  - destruct Hs as (Hx & Hle & Hlast). rewrite Forall_forall in Hlast. split.
    + intros o Ho' Hin. assert (o = x) as ->.
      { rewrite Forall_forall in Hne. specialize (Hlast o Ho' (proj1 Hin)). cbn in Hlast. unfold inside in Hin.
        specialize (Hne x Hx). cbn in Hne. destruct (Hd o x Ho' Hx) as [|[|]]; [done|lia|lia]. }
      by rewrite (proj2 (Z.leb_le target _)) by apply Hin.
    + intros Hn. rewrite Forall_forall in Hn. specialize (Hn x Hx). unfold inside in Hn.
      by rewrite (proj2 (Z.leb_gt target _)) by lia.
  - split; [|done]. intros o Ho' Hin. rewrite Forall_forall in Hs. specialize (Hs o Ho'). unfold inside in Hin. cbn in Hs. lia.
Qed.

Fixpoint attach_objs (l : list ObjFile) (t : tracing) : option tracing :=
  match l with [] => Some t | o :: l => t ← SET_attach_obj o t; attach_objs l t end.

Lemma attach_objs_table l : forall t,
  ordered text_start (t_objs t) -> t_output t = None -> (length (t_objs t) + length l <= MAX_OBJ_TABLE_SIZE)%nat ->
  exists t', attach_objs l t = Some t' /\ ordered text_start (t_objs t') /\ t_objs t' ≡ₚ (count_obj 1 <$> l) ++ t_objs t.
Proof.
  induction l as [|o l IH]; intros t Ho Hout Hlen; [by exists t|]. cbn [attach_objs length] in *.
  unfold SET_attach_obj. rewrite (proj2 (Nat.eqb_neq _ _)) by lia. rewrite Hout. cbn [mbind option_bind].
  set (t1 := with_objs _ t). pose proof (insert_before_perm text_start (count_obj 1 o) (t_objs t)) as Hp.
  destruct (IH t1) as (t' & E & Ho' & Hp'); [by apply insert_before_ordered|done| |].
  - cbn [t_objs with_objs t1]. rewrite Hp. cbn [length]. lia.
  - exists t'. split; [exact E|]. split; [done|]. rewrite Hp'. cbn [t_objs with_objs t1 fmap list_fmap]. rewrite Hp.
    by rewrite <- Permutation_middle.
Qed.

(** *** The exits of the kernel *)

Lemma exits_hit n i code get set rd target t :
  i <= st_size (get t) -> (st_cells (get t)).[st_size (get t) - i] = target ->
  exits (S n) i code get set rd target t =
    (t' ← emit rd (Func (Z.lor code i)) t;
     exits n (i + 1) code get set rd target (set (cut (get t) (st_size (get t) - i)) t')).
Proof.
  intros Hi <-. cbn [exits]. rewrite (proj2 (Z.leb_le _ _)), Z.eqb_refl by done. by destruct (emit _ _ t).
Qed.

Lemma exits_end n i code get set rd target t :
  st_size (get t) < i -> exits n i code get set rd target t = Some t.
Proof. intros Hi. destruct n; [done|]. cbn [exits]. by rewrite (proj2 (Z.leb_gt _ _)). Qed.

(** ** The properties *)

(** C25: A traced program's calls are read off its trace.  In user space, with the
    functions of its objects known, let the program call and return,
    calls nested to any depth the stack has room for.  Then the tracer's stack
    is afterwards what it was; the files, when they are closed, hold one
    record per call and one per return, in order, after what was there before;
    and the call tree can be rebuilt from the numbers alone. *)
Theorem user_trace t rs c room :
  user_mode t rs -> calls_ok (t_objs t) room c -> st_size (t_user t) + Z.of_nat room <= MAX_STACK_SIZE ->
  let recs := call_records (t_pid t) (t_objs t) c in
  exists t' o o', guest_run (call_events c) t = Ret (Some t') /\ same_frames (t_user t) (t_user t') /\
    t_output t' = Some o /\ SET_output_close o = Some o' /\ contents (s_func o') = funcs_of (rs ++ recs) /\
    contents (s_pid o') = map r_pid (rs ++ recs) /\ contents (s_cc o') = map (rd_cc ∘ r_reading) (rs ++ recs) /\
    rebuild (S (length (funcs_of recs))) (funcs_of recs) = Some (shape_of (t_objs t) c, []).
Proof.
  intros U Hok Hroom recs. destruct (calls_run c t rs room U Hok Hroom) as (t' & E & U' & P & O & S).
  destruct (um_out _ _ U') as (o & Eo & I). destruct (close_contents _ _ o I) as (o' & Ec & _ & C2 & C3 & _ & _ & C6 & _).
  exists t', o, o'. do 7 (split; [done|]).
  pose proof (rebuild_calls (t_pid t) (t_objs t) c room (Datatypes.S (length (funcs_of recs))) [] Hok (or_introl eq_refl)) as Hr.
  rewrite app_nil_r in Hr. apply Hr. unfold recs. lia.
Qed.

(** Interrupts leave no trace.  When the kernel is traced without interrupts
    ([SET_PROCESS_IRQ] off), whatever happens between an interrupt and the return from it - any
    kernel branches, further interrupts and their returns - changes neither
    the output nor a call stack: the process goes on as if nothing had been.
    Branches of a handler must not go to the interrupted address, and at most
    1024 interrupts may be pending. *)
Theorem interrupt_transparent t ret rd from h room :
  has (t_type t) KERNEL_OR_IRQ = true -> has (t_type t) SET_PROCESS_IRQ = false -> stack_ok (t_irq t) ->
  handler_ok ret room h -> st_size (t_irq t) + 1 + Z.of_nat room <= MAX_STACK_SIZE ->
  exists irq, guest_run (Interrupt ret :: handler_events h ++ [Branch rd ret from]) t = Ret (Some (with_irq irq t)) /\
    same_frames (t_irq t) irq.
Proof.
  intros Hk Hi Hs Hok Hroom. cbn [guest_run guest_step]. unfold SET_event_interrupt. rewrite Hk. cbn [mbind run_bind].
  destruct (frames_push (t_irq t) ret Hs ltac:(lia)) as (Ef & Es & Ec).
  destruct (handler_run t Hk Hi h (SET_callstack_push (t_irq t) ret) ret room (push_ok _ _ Hs)) as (s1 & E1 & S1);
    [unfold stack_ok in Hs; lia|by rewrite Es, Z.add_simpl_r|done|lia|].
  rewrite (guest_run_app _ _ _ _ E1). cbn [guest_run guest_step].
  destruct (frames_push_cut (t_irq t) s1 ret Hs ltac:(lia) (proj1 S1) (proj2 S1)) as [Hr Hc].
  pose proof (proj1 S1) as Hsz. unfold stack_ok in Hs.
  rewrite (return_step t Hk Hi rd ret from s1) by (done || lia). cbn [mbind run_bind].
  eexists. split; [reflexivity|]. split; [cbn [st_size cut]; lia|done].
Qed.

(** The object a branch goes to is found.  Objects that do not overlap may be
    mapped in any order: the table stays ordered by address, and a target is
    looked up in the object whose text has it, and in none if there is none. *)
Theorem attach_resolve l t target :
  t_objs t = [] -> t_output t = None -> (length l <= MAX_OBJ_TABLE_SIZE)%nat -> apart_objs l ->
  exists t', attach_objs l t = Some t' /\ ordered text_start (t_objs t') /\
    (forall o, o ∈ l -> inside target o -> resolve (t_objs t') target = place_in o target) /\
    (Forall (fun o => ~ inside target o) l -> resolve (t_objs t') target = Ret Unknown).
Proof.
  intros H0 Hout Hlen [Hne Hd].
  destruct (attach_objs_table l t) as (t' & E & Ho & Hp); [by rewrite H0|done|rewrite H0; cbn; lia|].
  rewrite H0, app_nil_r in Hp. exists t'. split; [done|]. split; [done|].
  assert (Ha : apart_objs (t_objs t')).
  { split; [rewrite Hp; by apply Forall_fmap|]. intros x y. rewrite Hp.
    intros (x' & -> & Hx)%list_elem_of_fmap (y' & -> & Hy)%list_elem_of_fmap.
    destruct (Hd x' y' Hx Hy) as [->|H]; [by left|by right]. }
  destruct (resolve_ordered (t_objs t') target Ho Ha) as [H1 H2]. split.
  - intros o Hin Ho'. apply (H1 (count_obj 1 o)); [|done]. rewrite Hp. by apply list_elem_of_fmap_2.
  - intros Hn. apply H2. rewrite Hp. by apply Forall_fmap.
Qed.

(** One return from a recursive kernel function drops several calls.  When a
    return address lies on the kernel's stack twice, two entries apart - [f]
    calls [g] calls [f] calls [g] - the search goes on after the return it
    found, with a stack that has become shorter, and takes a second match: one
    branch writes two records and removes three frames.  (In user space the search
    stops.) *)
Theorem kernel_return_twice t o rs rd a b from :
  has (t_type t) SET_PROCESS_KERNEL = true -> st_size (t_irq t) = 0 -> KERNEL_BASE <= a ->
  find_func (t_objKernel t) a = Ret None -> a <> b ->
  st_size (t_kernel t) = 3 -> frames (t_kernel t) = [a; b; a] -> t_output t = Some o -> out_inv (t_type t) rs o ->
  exists t' o', trace_branch rd a from t = Ret (Some t') /\ frames (t_kernel t') = [] /\ t_output t' = Some o' /\
    out_inv (t_type t) (rs ++ [mk_record (t_pid t) (Func 0x10001) rd; mk_record (t_pid t) (Func 0x10002) rd]) o'.
Proof.
  intros Hk Hirq Ha Hf Hab Hsz Hfr Ho I.
  assert (C : (st_cells (t_kernel t)).[0] = a /\ (st_cells (t_kernel t)).[2] = a).
  { unfold frames in Hfr. rewrite Hsz in Hfr.
    change (seqZ 0 3) with [0; 1; 2] in Hfr. cbn [fmap list_fmap] in Hfr. by injection Hfr as H0 _ H2. }
  destruct C as [C0 C2]. unfold trace_branch. rewrite Hirq, Z.ltb_irrefl, andb_false_r.
  rewrite (proj2 (Z.ltb_ge a _)) by done. rewrite Hk. unfold SET_event_branch_kernel. rewrite Hf. cbn [mbind run_bind].
  assert (Hnat : kind_ok (t_type t) (Func 0) = true) by (by apply has_kernel).
  destruct (write_record_inv (t_type t) rs o (mk_record (t_pid t) (Func 0x10001) rd) I Hnat) as (o1 & E1 & I1).
  destruct (write_record_inv (t_type t) _ o1 (mk_record (t_pid t) (Func 0x10002) rd) I1 Hnat) as (o2 & E2 & I2).
  change (Z.to_nat MAX_STACK_SIZE) with (S (S 1022)).
  rewrite exits_hit by (rewrite Hsz; done). unfold emit at 1. rewrite Ho. change (Z.lor 65536 1) with 0x10001. rewrite E1.
  cbn [mbind option_bind]. rewrite Hsz.
  set (t1 := with_kernel (cut (t_kernel t) (3 - 1)) (with_output (Some o1) t)).
  rewrite exits_hit by done. unfold emit at 1. cbn [t_output t_pid with_kernel with_output t1].
  change (Z.lor 65536 (1 + 1)) with 0x10002. rewrite E2. cbn [mbind option_bind]. rewrite exits_end by done.
  eexists _, o2. split; [reflexivity|]. split; [done|]. split; [done|].
  by rewrite <- app_assoc in I2.
Qed.

(** *** Concrete runs *)

(** An object as [SET_create_obj] makes it; [libc.so] is mapped at 0x40000000. *)
Definition loaded (efd : EFD) (path : string) (start id : Z) : ObjFile :=
  match SET_create_obj (Some efd) path start 0 id with
  | Ret (Some o, _) => o
  | _ => mk_obj 0 "" ∅ ∅ 0 0 0 0
  end.
Definition demo_libc : ObjFile := loaded demo_lib "libc.so" 0x40000000 2.
Definition demo_vmlinux : ObjFile := loaded demo_kernel "vmlinux" 0 3.

Definition demo_output (type : Z) : SETOut := (open_streams (fun _ => true) 2 type SET_output_create).1.
Lemma demo_output_inv type : out_inv type [] (demo_output type).
Proof.
  apply (open_streams_inv (fun _ => true) 2); [lia|]. unfold demo_output, open_streams, and_then, SET_output_open_type_vpmu.
  cbn [Z.leb Z.compare Pos.compare Pos.compare_cont andb fst snd SET_output_open_pid].
  destruct (has type NATIVE), (has type SET_PROCESS_DALVIK), (has type SET_PROCESS_SYSCALL); reflexivity.
Qed.

Definition demo_tracing (type : Z) (out : option SETOut) (irq kernel : stack) (objs : list ObjFile) : tracing :=
  mk_tracing type 100 out demo_vmlinux kernel irq stack0 objs stack0 0 [].

(** [open] calls [close]. *)
Definition demo_rd (n : Z) : reading := mk_reading n 0 (mk_info n 0 0 0 0 0 0 0 0 0 0 0).
Definition demo_calls : calls :=
  Call 0x40001000 0x40001048 0x40001020 (demo_rd 10) (demo_rd 40)
    (Call 0x40001040 0x40001008 0x4000105c (demo_rd 20) (demo_rd 30) Leaf Leaf) Leaf.

Theorem user_trace_witness :
  exists t' o o', guest_run (call_events demo_calls) (demo_tracing 0x09 (Some (demo_output 0x09)) stack0 stack0 [demo_libc]) = Ret (Some t') /\
    t_output t' = Some o /\ SET_output_close o = Some o' /\
    contents (s_func o') = [0x20000; 0x20001; 1; 1] /\ contents (s_cc o') = [10; 20; 30; 40] /\
    rebuild 5 [0x20000; 0x20001; 1; 1] = Some (SCall 0x20000 (SCall 0x20001 SLeaf SLeaf) SLeaf, []).
Proof.
  set (t := demo_tracing 0x09 (Some (demo_output 0x09)) stack0 stack0 [demo_libc]).
  assert (U : user_mode t []).
  { split; [done|done|split; done|done|]. exists (demo_output 0x09). split; [done|apply demo_output_inv]. }
  assert (K : calls_ok (t_objs t) 2 demo_calls).
  { assert (R1 : resolve (t_objs t) 0x40001000 = Ret (Entry 0x20000)) by (vm_compute; reflexivity).
    assert (R2 : resolve (t_objs t) 0x40001048 = Ret Inside) by (vm_compute; reflexivity).
    assert (R3 : resolve (t_objs t) 0x40001040 = Ret (Entry 0x20001)) by (vm_compute; reflexivity).
    assert (R4 : resolve (t_objs t) 0x40001008 = Ret Inside) by (vm_compute; reflexivity).
    unfold demo_calls. cbn [calls_ok].
    split; [done|]. split; [done|]. split; [done|]. split; [exists 0x20000; split; [exact R1|lia]|]. split; [exact R2|].
    split; [|exact I].
    split; [done|]. split; [done|]. split; [done|]. split; [exists 0x20001; split; [exact R3|lia]|]. split; [exact R4|].
    split; exact I. }
  assert (D : st_size (t_user t) + Z.of_nat 2 <= MAX_STACK_SIZE) by (vm_compute; discriminate).
  destruct (user_trace t [] demo_calls 2 U K D) as (t' & o & o' & E & _ & Eo & Ec & C1 & _ & C3 & R).
  exists t', o, o'. split; [exact E|]. split; [exact Eo|]. split; [exact Ec|].
  assert (F : funcs_of ([] ++ call_records (t_pid t) (t_objs t) demo_calls) = [0x20000; 0x20001; 1; 1]) by (vm_compute; reflexivity).
  split; [exact (eq_trans C1 F)|]. split; [exact C3|]. vm_compute. reflexivity.
Defined.

(** A timer interrupt with a nested device interrupt *)
Theorem interrupt_transparent_witness :
  exists irq, guest_run (Interrupt 0xc0051000 :: handler_events
      (HBranch (demo_rd 1) 0xc00b0000 0xc0000018
        (HInterrupt 0xc00b0010 (demo_rd 2) 0xc0090010 (HBranch (demo_rd 3) 0xc0090000 0xc0000018 HDone) HDone))
      ++ [Branch (demo_rd 4) 0xc0051000 0xc00b0020]) (demo_tracing 0x02 None stack0 stack0 [])
    = Ret (Some (with_irq irq (demo_tracing 0x02 None stack0 stack0 []))) /\ frames irq = [].
Proof.
  destruct (interrupt_transparent (demo_tracing 0x02 None stack0 stack0 []) 0xc0051000 (demo_rd 4) 0xc00b0020
    (HBranch (demo_rd 1) 0xc00b0000 0xc0000018
        (HInterrupt 0xc00b0010 (demo_rd 2) 0xc0090010 (HBranch (demo_rd 3) 0xc0090000 0xc0000018 HDone) HDone)) 1)
    as (irq & E & [_ Hf]).
  - reflexivity.
  - reflexivity.
  - split; discriminate.
  - repeat split; discriminate.
  - discriminate.
  - exists irq. split; [exact E|exact Hf].
Defined.

(** Two libraries, the higher one mapped first *)
Theorem attach_resolve_witness :
  exists t', attach_objs [loaded demo_lib "libb.so" 0x50000000 4; demo_libc] (demo_tracing 0x08 None stack0 stack0 []) = Some t' /\
    resolve (t_objs t') 0x50001040 = Ret (Entry 0x40001) /\ resolve (t_objs t') 0x48000000 = Ret Unknown.
Proof.
  set (l := [loaded demo_lib "libb.so" 0x50000000 4; demo_libc]).
  assert (A : apart_objs l).
  { split; [repeat constructor; vm_compute; discriminate|].
    intros x y Hx Hy. unfold l in Hx, Hy. apply elem_of_cons in Hx as [->|Hx%list_elem_of_singleton];
      apply elem_of_cons in Hy as [->|Hy%list_elem_of_singleton]; subst; auto; right; [right|left]; vm_compute; reflexivity. }
  assert (N : (length l <= MAX_OBJ_TABLE_SIZE)%nat) by (apply Nat.leb_le; vm_compute; reflexivity).
  destruct (attach_resolve l (demo_tracing 0x08 None stack0 stack0 []) 0x50001040 eq_refl eq_refl N A) as (t' & E & _ & H1 & _).
  destruct (attach_resolve l (demo_tracing 0x08 None stack0 stack0 []) 0x48000000 eq_refl eq_refl N A) as (t2 & E2 & _ & _ & H2).
  exists t'. split; [exact E|]. rewrite E in E2. injection E2 as <-. split.
  - transitivity (place_in (loaded demo_lib "libb.so" 0x50000000 4) 0x50001040); [|vm_compute; reflexivity].
    apply H1; [by left|]. split; vm_compute; discriminate.
  - apply H2. repeat constructor; vm_compute; intros [? ?]; auto.
Defined.

Definition demo_recursion : stack :=
  SET_callstack_push (SET_callstack_push (SET_callstack_push stack0 0xc00b0010) 0xc00b0020) 0xc00b0010.
Theorem kernel_return_twice_witness :
  exists t' o', trace_branch (demo_rd 7) 0xc00b0010 0xc00b0100
      (demo_tracing 0x03 (Some (demo_output 0x03)) stack0 demo_recursion []) = Ret (Some t') /\
    frames (t_kernel t') = [] /\ t_output t' = Some o' /\
    out_inv 0x03 [mk_record 100 (Func 0x10001) (demo_rd 7); mk_record 100 (Func 0x10002) (demo_rd 7)] o'.
Proof.
  assert (F : find_func demo_vmlinux 0xc00b0010 = Ret None) by (vm_compute; reflexivity).
  apply (kernel_return_twice (demo_tracing 0x03 (Some (demo_output 0x03)) stack0 demo_recursion []) (demo_output 0x03) []
    (demo_rd 7) 0xc00b0010 0xc00b0020 0xc00b0100); [reflexivity|reflexivity|discriminate|exact F|discriminate|reflexivity..|].
  apply demo_output_inv.
Defined.

(** The comment in [SET_object.c] reserves the object numbers 0, 1 and 2 for
    returns, but the first object gets 2: its function [i] and [i] returns in an
    interrupt have one code, and the entries of interrupt handlers have those of
    the second object. *)
Lemma codes_ambiguous i : 0 <= i < 2 ^ 16 -> func_code 2 i = Z.lor 0x00020000 i /\ func_code 3 i = Z.lor 0x00030000 i.
Proof.
  intros Hi. assert (Hl : Z.log2 i < 32).
  { destruct (decide (i = 0)) as [->|]; [done|]. apply Z.log2_lt_pow2; lia. }
  assert (H : forall k, 0 <= k -> Z.log2 k < 32 -> u32 (Z.lor k i) = Z.lor k i).
  { intros k H0 Hk. apply u32_small. split; [apply Z.lor_nonneg; lia|]. apply Z.log2_lt_cancel.
    rewrite Z.log2_lor by lia. apply Z.max_lub_lt; [exact Hk|exact Hl]. }
  split; by apply H.
Qed.
