(* ===== verification/SetProcess.v ===== *)
(** * The traced processes ([SET/SET.c], [SET/SET_event.c])

    A process to be traced is registered under its name and found again when the
    guest executes a program of that name.  While it runs it sits in a hash table under its
    process number; every context switch looks up the process to trace.  Threads
    are copies that share the output and a counter.

    Structures are allocated and freed: a pointer is a number, 0 is NULL, and
    [heap] has the ones that are in use.  Following another pointer is
    undefined behaviour and gives [None].  The reference counts of objects,
    which only say when to free them, are in [SetRelease].  The kernel's part of an event (what
    the guest's registers point to) is an argument. *)
From Stdlib Require Ascii.
From stdpp Require Import strings.
From S2P Require Import Prelude Mem Config Timing Branch Vpmu Power PerfRegs VpmuConfig VpmuDevice Probe SetObject SetOut SetTrace.

(** ** State *)

(** [struct SETProcess]: what an event needs is [p_trace], except that [output]
    is the pointer [p_output]; [p_tracing]: the shared counter; [p_hash_pos]: an
    index, -1 for NULL *)
Record SETProcess := mk_process {
  p_name : string; p_trace : tracing; p_output : Z; p_tracing : Z; p_idx : Z; p_hash_pos : Z;
  path_c : string; path_kernel : string }.

Record SET := mk_SET {
  heap : gmap Z SETProcess; outputs : gmap Z SETOut; counters : gmap Z Z; brk : Z;
  procTable : arr; procTableSize : Z; tracing_process : Z; procHashTable : arr;
  now_pid : Z; set_model : Z; isSamplingOn : bool; set_vpmu : device }.

Definition MAX_PROC_TABLE_SIZE : Z := 1024.
Definition PROC_HASH_TABLE_SIZE : Z := 32749.

Definition with_heap (h : gmap Z SETProcess) (s : SET) : SET :=
  mk_SET h (outputs s) (counters s) (brk s) (procTable s) (procTableSize s) (tracing_process s) (procHashTable s)
    (now_pid s) (set_model s) (isSamplingOn s) (set_vpmu s).
Definition with_outputs (o : gmap Z SETOut) (s : SET) : SET :=
  mk_SET (heap s) o (counters s) (brk s) (procTable s) (procTableSize s) (tracing_process s) (procHashTable s)
    (now_pid s) (set_model s) (isSamplingOn s) (set_vpmu s).
Definition with_counters (c : gmap Z Z) (s : SET) : SET :=
  mk_SET (heap s) (outputs s) c (brk s) (procTable s) (procTableSize s) (tracing_process s) (procHashTable s)
    (now_pid s) (set_model s) (isSamplingOn s) (set_vpmu s).
Definition with_table (t : arr) (n : Z) (s : SET) : SET :=
  mk_SET (heap s) (outputs s) (counters s) (brk s) t n (tracing_process s) (procHashTable s)
    (now_pid s) (set_model s) (isSamplingOn s) (set_vpmu s).
Definition with_tracing (p : Z) (s : SET) : SET :=
  mk_SET (heap s) (outputs s) (counters s) (brk s) (procTable s) (procTableSize s) p (procHashTable s)
    (now_pid s) (set_model s) (isSamplingOn s) (set_vpmu s).
Definition with_hash (h : arr) (s : SET) : SET :=
  mk_SET (heap s) (outputs s) (counters s) (brk s) (procTable s) (procTableSize s) (tracing_process s) h
    (now_pid s) (set_model s) (isSamplingOn s) (set_vpmu s).
Definition with_now_pid (p : Z) (s : SET) : SET :=
  mk_SET (heap s) (outputs s) (counters s) (brk s) (procTable s) (procTableSize s) (tracing_process s)
    (procHashTable s) p (set_model s) (isSamplingOn s) (set_vpmu s).
Definition with_device (model : Z) (sampling : bool) (d : device) (s : SET) : SET :=
  mk_SET (heap s) (outputs s) (counters s) (brk s) (procTable s) (procTableSize s) (tracing_process s)
    (procHashTable s) (now_pid s) model sampling d.

Definition vpmu_on (s : SET) : bool := VPMU_enabled (d_unit (set_vpmu s)).

(** A new pointer *)
Definition alloc (p : SETProcess) (s : SET) : Z * SET :=
  (brk s, mk_SET (<[brk s := p]> (heap s)) (outputs s) (counters s) (brk s + 1) (procTable s) (procTableSize s)
            (tracing_process s) (procHashTable s) (now_pid s) (set_model s) (isSamplingOn s) (set_vpmu s)).

Definition upd (p : Z) (f : SETProcess -> SETProcess) (s : SET) : option SET :=
  x ← heap s !! p; Some (with_heap (<[p := f x]> (heap s)) s).
Definition set_idx (i : Z) (p : SETProcess) : SETProcess :=
  mk_process (p_name p) (p_trace p) (p_output p) (p_tracing p) i (p_hash_pos p) (path_c p) (path_kernel p).
Definition set_hash_pos (i : Z) (p : SETProcess) : SETProcess :=
  mk_process (p_name p) (p_trace p) (p_output p) (p_tracing p) (p_idx p) i (path_c p) (path_kernel p).
Definition set_trace (t : tracing) (p : SETProcess) : SETProcess :=
  mk_process (p_name p) t (p_output p) (p_tracing p) (p_idx p) (p_hash_pos p) (path_c p) (path_kernel p).
Definition with_pid (pid : Z) (t : tracing) : tracing :=
  mk_tracing (t_type t) pid (t_output t) (t_objKernel t) (t_kernel t) (t_irq t) (t_ic t) (t_objs t) (t_user t)
    (t_return_addr t) (t_dexs t).

(** ** The hash table of running processes *)

(** The loop of [proc_insert] and [proc_find]: to a free slot or to the process *)
Fixpoint proc_walk (fuel : nat) (s : SET) (pid hash : Z) : run (option Z) :=
  match fuel with
  | O => Spin
  | S fuel =>
      let p := (procHashTable s).[hash] in
      if p =? 0 then Ret (Some hash)
      else
        match heap s !! p with
        | None => Ret None
        | Some x =>
            if t_pid (p_trace x) =? pid then Ret (Some hash)
            else proc_walk fuel s pid ((hash + 1) mod PROC_HASH_TABLE_SIZE)
        end
  end.
(** A negative number would index in front of the table. *)
Definition proc_slot (s : SET) (pid : Z) : run (option Z) :=
  if 0 <=? pid then proc_walk (Z.to_nat PROC_HASH_TABLE_SIZE) s pid (pid mod PROC_HASH_TABLE_SIZE) else Ret None.

Definition proc_insert (p : Z) (s : SET) : run (option SET) :=
  match heap s !! p with
  | None => Ret None
  | Some x =>
      i ← proc_slot s (t_pid (p_trace x));
      Ret (i ← i;
           if (procHashTable s).[i] =? 0 then upd p (set_hash_pos i) (with_hash (procHashTable s).[i <- p] s)
           else Some s)
  end.
Definition proc_find (pid : Z) (s : SET) : run (option Z) :=
  i ← proc_slot s pid; Ret (i ← i; Some (procHashTable s).[i]).

(** ** The table of registered processes *)

Definition SET_attach_process (p : Z) (s : SET) : option SET :=
  if procTableSize s =? MAX_PROC_TABLE_SIZE then Some s
  else
    let n := procTableSize s in
    s ← upd p (set_idx n) (with_table (procTable s).[n <- p] n s);
    Some (with_table (procTable s) (n + 1) s).

Definition SET_detach_process (p : Z) (s : SET) : option SET :=
  let n := procTableSize s in
  if n <=? 0 then Some s
  else
    x ← heap s !! p;
    let i := p_idx x in
    if i <=? 0 then Some s
    else
      let t := forZ i (Z.to_nat (n - i)) (fun t j => t.[j <- t.[j + 1]]) (procTable s) in
      upd p (set_idx (-1)) (with_table t (n - 1) s).

(** ** Copying and deleting *)

(** A thread shares the output and the counter, and has stacks of its own. *)
Definition SET_copy_process (p : Z) (s : SET) : option (Z * SET) :=
  x ← heap s !! p;
  c ← counters s !! p_tracing x;
  let t := p_trace x in
  let t := mk_tracing (t_type t) (t_pid t) (t_output t) (t_objKernel t) stack0 stack0 stack0 (t_objs t) stack0
             (t_return_addr t) (t_dexs t) in
  Some (alloc (set_trace t x) (with_counters (<[p_tracing x := c + 1]> (counters s)) s)).

(** The last one closes the output. *)
Definition SET_delete_process (p : Z) (s : SET) : option SET :=
  if p =? 0 then Some s
  else
    x ← heap s !! p;
    c ← counters s !! p_tracing x;
    let s := with_counters (<[p_tracing x := c - 1]> (counters s)) s in
    s ← (if c - 1 <? 1 then
           s ← (if p_output x =? 0 then Some s
                else o ← outputs s !! p_output x; o ← SET_output_close o;
                     Some (with_outputs (<[p_output x := o]> (outputs s)) s));
           Some (with_counters (delete (p_tracing x) (counters s)) s)
         else Some s);
    Some (with_heap (delete p (heap s)) s).

(** ** Registering *)

(** The name behind the last slash, cut to [size - 1] characters *)
Definition base_name (size : nat) (path : string) : string :=
  String.string_of_list_ascii
    (foldl (fun name c => if decide (Ascii.nat_of_ascii c = 47%nat) then [] else if (length name <? size - 1)%nat then name ++ [c] else name)
       [] (String.list_ascii_of_string path)).
Definition PROCESS_NAME_LEN : nat := 32.
(** [snprintf] into [char [FULL_PATH_LEN]] *)
Definition path_of (s : string) : string := String.substring 0 255 s.

Section Register.
Context (file_exists : string -> bool) (path_set_out path_android_out : string).

Definition SET_set_C_binary (name : string) : option string :=
  let path := path_of (path_set_out +:+ "/" +:+ name) in
  if file_exists path then Some path
  else
    let path := path_of (path_android_out +:+ "/symbols/system/bin/" +:+ name) in
    if file_exists path then Some path else None.
Definition vmlinux : string := path_of (path_set_out +:+ "/vmlinux").

(** Is a process of this name registered? *)
Fixpoint name_taken (n : nat) (i : Z) (name : string) (s : SET) : option bool :=
  match n with
  | O => Some false
  | S n =>
      x ← heap s !! (procTable s).[i];
      if decide (p_name x = name) then Some true else name_taken n (i + 1) name s
  end.

Definition no_obj : ObjFile := mk_obj 0 "" ∅ ∅ 0 0 0 0.
Definition fresh_trace (type : Z) : tracing := mk_tracing type (-1) None no_obj stack0 stack0 stack0 [] stack0 0 [].

(** The pointer, 0 when it failed (what was allocated is freed again) *)
Definition SET_create_process (name : string) (type : Z) (s : SET) : option (Z * SET) :=
  let p := brk s in
  if has type KERNEL_OR_IRQ && negb (file_exists vmlinux) then Some (0, s)
  else
    let name := base_name PROCESS_NAME_LEN name in
    taken ← name_taken (Z.to_nat (procTableSize s)) 0 name s;
    if (taken : bool) then Some (0, s)
    else
      let c := if has type SET_PROCESS_USER_C then SET_set_C_binary name else Some ""%string in
      match c with
      | None => Some (0, s)
      | Some c =>
          let out := has type SET_PROCESS_OUTPUT in
          let x := mk_process name (fresh_trace type) (if out then p else 0) p (-1) (-1) c
                     (if has type KERNEL_OR_IRQ then vmlinux else ""%string) in
          let '(p, s) := alloc x (with_counters (<[p := 0]> (counters s)) s) in
          Some (p, if out then with_outputs (<[p := SET_output_create]> (outputs s)) s else s)
      end.
End Register.

(** ** Tracing begins and ends *)

Section Tracing.
(** The host's files *)
Context (can_open : string -> bool) (elf : string -> option EFD) (config : Z -> option (list Z)).

(** [SET_has_process_being_tracing] *)
Fixpoint being_tracing (n : nat) (i : Z) (s : SET) : option bool :=
  match n with
  | O => Some false
  | S n =>
      x ← heap s !! (procTable s).[i];
      c ← counters s !! p_tracing x;
      if (0 <? c) && negb (p_output x =? 0) then Some true else being_tracing n (i + 1) s
  end.
Definition SET_has_process_being_tracing (s : SET) : option bool := being_tracing (Z.to_nat (procTableSize s)) 0 s.

Definition SET_start_vpmu (s : SET) : run (option SET) :=
  if vpmu_on s then Ret (Some s)
  else if set_model s =? 0 then Ret (Some s)
  else
    d ← reset config (set_vpmu s);
    Ret (d ← d;
         let start m :=
           Some (with_device (set_model s) (isSamplingOn s)
             (with_unit (set_enabled true (with_vpmu (set_timing (fst (vpmu_model_setup m)) (un_vpmu (d_unit d))) (d_unit d))) d) s) in
         if set_model s =? 1 then start TIMING_MODEL_F
         else if set_model s =? 2 then start TIMING_MODEL_G
         else if set_model s =? 3 then start TIMING_MODEL_E
         else Some (with_device 0 (isSamplingOn s) (with_unit (set_enabled false (d_unit d)) d) s)).
Definition SET_stop_vpmu (s : SET) : SET :=
  if vpmu_on s then
    with_device (set_model s) (isSamplingOn s)
      (with_unit (sync_predictor (set_enabled false (d_unit (set_vpmu s)))) (set_vpmu s)) s
  else s.

(** Opening the files and loading the objects: whether it succeeded, the
    process so far, and the counter of object numbers *)
Definition loading : Type := bool * tracing * Z.
Definition and_load (r : run (option loading)) (f : tracing -> Z -> run (option loading)) : run (option loading) :=
  r ← r; match r with Some (true, t, id) => f t id | r => Ret r end.

Definition load_files (model : Z) (t : tracing) (id : Z) : run (option loading) :=
  Ret (match t_output t with
       | None => Some (true, t, id)
       | Some o => let '(o, ok) := open_streams can_open model (t_type t) o in Some (ok, with_output (Some o) t, id)
       end).
Definition load_c (path : string) (t : tracing) (id : Z) : run (option loading) :=
  if has (t_type t) SET_PROCESS_USER_C then
    '(obj, id) ← SET_create_obj (elf path) path 0 0 id;
    Ret (match obj with Some o => t ← SET_attach_obj o t; Some (true, t, id) | None => Some (false, t, id) end)
  else Ret (Some (true, t, id)).
Definition load_kernel (path : string) (t : tracing) (id : Z) : run (option loading) :=
  if has (t_type t) KERNEL_OR_IRQ then
    '(obj, id) ← SET_create_obj (elf path) path 0 0 id;
    Ret (match obj with
         | Some o =>
             t ← (match t_output t with
                  | None => Some t
                  | Some out => out ← SET_output_write_obj (obj_id o) (obj_path o) out; Some (with_output (Some out) t)
                  end);
             Some (true, mk_tracing (t_type t) (t_pid t) (t_output t) (count_obj 1 o) stack0 stack0 stack0 (t_objs t)
                           (t_user t) (t_return_addr t) (t_dexs t), id)
         | None => Some (false, t, id)
         end)
  else Ret (Some (true, t, id)).
Definition load_user (t : tracing) (id : Z) : run (option loading) :=
  Ret (Some (true, if has (t_type t) LIBRARY_OR_C then with_user stack0 (t_return_addr t) t else t, id)).

Definition load_process (model : Z) (x : SETProcess) (t : tracing) (id : Z) : run (option loading) :=
  let r := load_files model t id in
  let r := and_load r (load_c (path_c x)) in
  let r := and_load r (load_kernel (path_kernel x)) in
  and_load r load_user.

(** The process with its output, from the store, and back *)
Definition fetch_trace (x : SETProcess) (s : SET) : option tracing :=
  if p_output x =? 0 then Some (with_output None (p_trace x))
  else o ← outputs s !! p_output x; Some (with_output (Some o) (p_trace x)).
Definition keep_trace (p : Z) (t : tracing) (s : SET) : option SET :=
  x ← heap s !! p;
  s ← upd p (set_trace (with_output None t)) s;
  Some (match t_output t with
        | Some o => if p_output x =? 0 then s else with_outputs (<[p_output x := o]> (outputs s)) s
        | None => s
        end).

Definition SET_start_tracing (p : Z) (s : SET) (id : Z) : run (option (SET * Z)) :=
  match (x ← heap s !! p; t ← fetch_trace x s; Some (x, t)) with
  | None => Ret None
  | Some (x, t) =>
      r ← load_process (set_model s) x t id;
      match r with
      | None => Ret None
      | Some (false, t, id) =>
          Ret (s ← keep_trace p t s; s ← SET_detach_process p s; s ← SET_delete_process p s; Some (s, id))
      | Some (true, t, id) =>
          let s' :=
            s ← keep_trace p (with_pid (now_pid s) t) s;
            c ← counters s !! p_tracing x;
            Some (with_tracing p (with_counters (<[p_tracing x := c + 1]> (counters s)) s)) in
          match s' with
          | None => Ret None
          | Some s =>
              if negb (p_output x =? 0) && negb (vpmu_on s) then
                s ← SET_start_vpmu (with_device (set_model s) true (set_vpmu s) s); Ret (s ← s; Some (s, id))
              else Ret (Some (s, id))
          end
      end
  end.

Definition SET_end_tracing (p : Z) (s : SET) : option SET :=
  s ← SET_detach_process p s;
  s ← SET_delete_process p s;
  b ← SET_has_process_being_tracing s;
  Some (if (b : bool) then s else SET_stop_vpmu s).

(** ** The events about processes *)

(** The first registered process of the name *)
Fixpoint find_name (n : nat) (i : Z) (name : string) (s : SET) : option (option Z) :=
  match n with
  | O => Some None
  | S n =>
      x ← heap s !! (procTable s).[i];
      if decide (p_name x = name) then Some (Some (procTable s).[i]) else find_name n (i + 1) name s
  end.

Definition SET_event_execve (current_name : string) (s : SET) (id : Z) : run (option (SET * Z)) :=
  match find_name (Z.to_nat (procTableSize s)) 0 current_name s with
  | None => Ret None
  | Some None => Ret (Some (s, id))
  | Some (Some p) =>
      r ← SET_start_tracing p s id;
      match r with
      | None => Ret None
      | Some (s, id) => s ← proc_insert p s; Ret (s ← s; Some (s, id))
      end
  end.

Definition SET_event_exit (s : SET) : option SET :=
  let p := tracing_process s in
  if p =? 0 then Some s
  else
    x ← heap s !! p;
    let s := with_tracing 0 s in
    if p_hash_pos x <? 0 then None
    else SET_end_tracing p (with_hash (procHashTable s).[p_hash_pos x <- 0] s).

Definition SET_event_cs (pid : Z) (s : SET) : run (option SET) :=
  let s := with_now_pid pid s in
  p ← proc_find pid s; Ret (p ← p; Some (with_tracing p s)).

Definition SET_event_thread_create (child_pid : Z) (s : SET) : run (option SET) :=
  let p := tracing_process s in
  if p =? 0 then Ret (Some s)
  else
    match ('(c, s) ← SET_copy_process p s;
           x ← heap s !! c;
           s ← upd c (set_trace (with_pid child_pid (p_trace x))) s;
           s ← SET_attach_process c s;
           Some (c, s)) with
    | None => Ret None
    | Some (c, s) => proc_insert c s
    end.

(** An event of the traced process *)
Definition on_tracing (f : tracing -> run (option tracing)) (s : SET) : run (option SET) :=
  let p := tracing_process s in
  if p =? 0 then Ret (Some s)
  else
    match (x ← heap s !! p; fetch_trace x s) with
    | None => Ret None
    | Some t => r ← f t; Ret (t ← r; keep_trace p t s)
    end.
Definition SET_branch (rd : reading) (target_addr return_addr : Z) : SET -> run (option SET) :=
  on_tracing (trace_branch rd target_addr return_addr).
End Tracing.

(** ** Helper lemmas *)

(** *** What an operation on one process leaves alone *)

Definition touches (p : Z) (s s' : SET) : Prop :=
  (forall q, q <> p -> heap s' !! q = heap s !! q) /\ procHashTable s' = procHashTable s /\ now_pid s' = now_pid s.

Lemma touches_refl p s : touches p s s.
Proof. done. Qed.
Lemma touches_trans p s1 s2 s3 : touches p s1 s2 -> touches p s2 s3 -> touches p s1 s3.
Proof. intros (H1 & H2 & H3) (H4 & H5 & H6). split; [intros q Hq; by rewrite H4, H1|]. split; congruence. Qed.

Lemma upd_touches p f s s' : upd p f s = Some s' -> touches p s s'.
Proof.
  unfold upd. destruct (heap s !! p); [|done]. intros [= <-]. split; [|done].
  intros q Hq. cbn. by rewrite lookup_insert_ne.
Qed.

Lemma upd_heap p f s s' : upd p f s = Some s' -> exists x, heap s !! p = Some x /\ heap s' !! p = Some (f x).
Proof.
  unfold upd. destruct (heap s !! p) as [x|]; [|done]. intros [= <-]. exists x. split; [done|]. cbn. by rewrite lookup_insert_eq.
Qed.

Lemma detach_touches p s s' : SET_detach_process p s = Some s' -> touches p s s'.
Proof.
  unfold SET_detach_process. destruct (procTableSize s <=? 0); [by intros [= <-]|].
  destruct (heap s !! p) as [x|] eqn:E; [|done]. cbn [mbind option_bind].
  destruct (p_idx x <=? 0); [by intros [= <-]|]. intros H%upd_touches. exact H.
Qed.

Lemma delete_touches p s s' : p <> 0 -> SET_delete_process p s = Some s' -> touches p s s' /\ heap s' !! p = None.
Proof.
  intros Hp. unfold SET_delete_process. rewrite (proj2 (Z.eqb_neq p 0)) by done.
  destruct (heap s !! p) as [x|]; [|done]. cbn [mbind option_bind].
  destruct (counters s !! p_tracing x) as [c|]; [|done]. cbn [mbind option_bind].
  assert (Hd : forall s1, heap s1 = heap s -> procHashTable s1 = procHashTable s -> now_pid s1 = now_pid s ->
    touches p s (with_heap (delete p (heap s1)) s1) /\ heap (with_heap (delete p (heap s1)) s1) !! p = None).
  { intros s1 E1 E2 E3. split; [split; [|done]|cbn; apply lookup_delete_eq].
    intros q Hq. cbn. rewrite lookup_delete_ne by done. by rewrite E1. }
  destruct (c - 1 <? 1); cbn [mbind option_bind]; [|intros E; injection E as <-; exact (Hd _ eq_refl eq_refl eq_refl)].
  destruct (p_output x =? 0); cbn [mbind option_bind]; [intros E; injection E as <-; exact (Hd _ eq_refl eq_refl eq_refl)|].
  cbn [outputs with_counters]. destruct (outputs s !! p_output x) as [o|]; [|done]. cbn [mbind option_bind].
  destruct (SET_output_close o); [|done]. cbn [mbind option_bind]. intros E. injection E as <-.
  exact (Hd _ eq_refl eq_refl eq_refl).
Qed.

Lemma delete_table p s s' :
  SET_delete_process p s = Some s' -> procTable s' = procTable s /\ procTableSize s' = procTableSize s.
Proof.
  unfold SET_delete_process. destruct (p =? 0); [by intros [= <-]|].
  destruct (heap s !! p) as [x|]; [|done]. cbn [mbind option_bind].
  destruct (counters s !! p_tracing x) as [c|]; [|done]. cbn [mbind option_bind].
  destruct (c - 1 <? 1); cbn [mbind option_bind]; [|intros E; by injection E as <-].
  destruct (p_output x =? 0); cbn [mbind option_bind]; [intros E; by injection E as <-|].
  cbn [outputs with_counters]. destruct (outputs s !! p_output x) as [o|]; [|done]. cbn [mbind option_bind].
  destruct (SET_output_close o); [|done]. cbn [mbind option_bind]. intros E. by injection E as <-.
Qed.

Lemma keep_touches p t s s' : keep_trace p t s = Some s' -> touches p s s'.
Proof.
  unfold keep_trace. destruct (heap s !! p) as [x|] eqn:E; [|done]. cbn [mbind option_bind].
  destruct (upd p _ s) as [s1|] eqn:E1; [|done]. cbn [mbind option_bind]. apply upd_touches in E1.
  intros [= <-]. destruct (t_output t); [|done]. by destruct (p_output x =? 0).
Qed.

Lemma keep_pid p t s s' :
  keep_trace p t s = Some s' -> exists x, heap s' !! p = Some x /\ t_pid (p_trace x) = t_pid t.
Proof.
  unfold keep_trace. destruct (heap s !! p) as [x|] eqn:E; [|done]. cbn [mbind option_bind].
  destruct (upd p _ s) as [s1|] eqn:E1; [|done]. cbn [mbind option_bind].
  apply upd_heap in E1 as (y & Ey & E1). intros [= <-].
  exists (set_trace (with_output None t) y). split; [|done].
  destruct (t_output t); [destruct (p_output x =? 0)|]; exact E1.
Qed.

(** The emulator's side does not touch the processes. *)
Definition same_processes (s s' : SET) : Prop :=
  heap s' = heap s /\ procHashTable s' = procHashTable s /\ now_pid s' = now_pid s /\ tracing_process s' = tracing_process s.

Lemma start_vpmu_same config s s' : SET_start_vpmu config s = Ret (Some s') -> same_processes s s'.
Proof.
  unfold SET_start_vpmu. destruct (vpmu_on s); [by intros [= <-]|]. destruct (set_model s =? 0); [by intros [= <-]|].
  destruct (reset config (set_vpmu s)) as [[d|]| |]; cbn [mbind run_bind option_bind]; try done.
  destruct (set_model s =? 1), (set_model s =? 2), (set_model s =? 3); by intros [= <-].
Qed.

Lemma end_tracing_touches p s s' : p <> 0 -> SET_end_tracing p s = Some s' -> touches p s s'.
Proof.
  intros Hp. unfold SET_end_tracing. destruct (SET_detach_process p s) as [s1|] eqn:E1; [|done]. cbn [mbind option_bind].
  destruct (SET_delete_process p s1) as [s2|] eqn:E2; [|done]. cbn [mbind option_bind].
  apply detach_touches in E1. apply delete_touches in E2 as [E2 _]; [|done].
  destruct (SET_has_process_being_tracing s2) as [b|]; [|done]. intros [= <-].
  eapply touches_trans; [exact E1|]. destruct b; [exact E2|]. unfold SET_stop_vpmu. by destruct (vpmu_on s2).
Qed.

Section Started.
Context (can_open : string -> bool) (elf : string -> option EFD) (config : Z -> option (list Z)).

(** If tracing could begin, the process is still there and has the number of the
    running process; otherwise it has been freed. *)
Lemma start_tracing_process p s id s' id' :
  p <> 0 -> SET_start_tracing can_open elf config p s id = Ret (Some (s', id')) ->
  touches p s s' /\ (heap s' !! p = None \/ exists x, heap s' !! p = Some x /\ t_pid (p_trace x) = now_pid s).
Proof.
  intros Hp. unfold SET_start_tracing. destruct (heap s !! p) as [x|] eqn:Ex; [|done]. cbn [mbind option_bind].
  destruct (fetch_trace x s) as [t|]; [|done]. cbn [mbind option_bind].
  destruct (load_process can_open elf (set_model s) x t id) as [[[[[] t1] id1]|]| |]; cbn [mbind run_bind]; try done.
  - destruct (keep_trace p (with_pid (now_pid s) t1) s) as [s1|] eqn:E1; [|done]. cbn [mbind option_bind].
    destruct (counters s1 !! p_tracing x) as [c|]; [|done]. cbn [mbind option_bind].
    pose proof (keep_touches _ _ _ _ E1) as T. apply keep_pid in E1 as (y & Ey & Py). cbn in Py.
    set (s2 := with_tracing p _). assert (T2 : touches p s s2) by exact T.
    assert (E2 : heap s2 !! p = Some y) by exact Ey.
    destruct (negb (p_output x =? 0) && negb (vpmu_on s2)).
    + destruct (SET_start_vpmu config _) as [[s3|]| |] eqn:E3; cbn [mbind run_bind option_bind]; try done.
      intros [= <- _]. apply start_vpmu_same in E3 as (H1 & H2 & H3 & _). cbn in H1, H2, H3. split.
      * destruct T2 as (T3 & T4 & T5). split; [intros q Hq; rewrite H1; by apply T3|]. split; [by rewrite H2|by rewrite H3].
      * right. exists y. by rewrite H1.
    + intros [= <- _]. split; [done|]. right. by exists y.
  - destruct (keep_trace p t1 s) as [s1|] eqn:E1; [|done]. cbn [mbind option_bind].
    destruct (SET_detach_process p s1) as [s2|] eqn:E2; [|done]. cbn [mbind option_bind].
    destruct (SET_delete_process p s2) as [s3|] eqn:E3; [|done]. cbn [mbind option_bind]. intros [= <- _].
    apply keep_touches in E1. apply detach_touches in E2. apply delete_touches in E3 as [E3 N]; [|done].
    split; [|by left]. eapply touches_trans; [exact E1|]. by eapply touches_trans.
Qed.
End Started.

(** *** The hash table *)

(** The processes that run, by number *)
Record running (s : SET) (m : gmap Z Z) : Prop := {
  rn_in : forall pid p, m !! pid = Some p ->
    0 <= pid < PROC_HASH_TABLE_SIZE /\ p <> 0 /\ (procHashTable s).[pid] = p /\
    exists x, heap s !! p = Some x /\ t_pid (p_trace x) = pid /\ p_hash_pos x = pid;
  rn_out : forall i, 0 <= i < PROC_HASH_TABLE_SIZE -> (procHashTable s).[i] <> 0 -> m !! i = Some (procHashTable s).[i] }.

Lemma running_slot s m pid :
  running s m -> 0 <= pid < PROC_HASH_TABLE_SIZE ->
  (procHashTable s).[pid] = default 0 (m !! pid) /\ proc_slot s pid = Ret (Some pid).
Proof.
  intros [Hin Hout] Hp. unfold proc_slot. rewrite (proj2 (Z.leb_le 0 pid)) by lia.
  rewrite (Z.mod_small pid) by done.
  destruct (Z.to_nat PROC_HASH_TABLE_SIZE) as [|n] eqn:En; [unfold PROC_HASH_TABLE_SIZE in En; lia|]. cbn [proc_walk].
  destruct (Z.eqb_spec (procHashTable s).[pid] 0) as [E|E].
  - split; [|done]. destruct (m !! pid) as [p|] eqn:Em; [|done].
    destruct (Hin pid p Em) as (_ & Hp0 & Hs & _). congruence.
  - pose proof (Hout pid Hp E) as Em. rewrite Em. split; [done|].
    destruct (Hin _ _ Em) as (_ & _ & _ & x & -> & -> & _). by rewrite Z.eqb_refl.
Qed.

Lemma running_find s m pid :
  running s m -> 0 <= pid < PROC_HASH_TABLE_SIZE -> proc_find pid s = Ret (Some (default 0 (m !! pid))).
Proof.
  intros R Hp. destruct (running_slot s m pid R Hp) as [E1 E2]. unfold proc_find. by rewrite E2, <- E1.
Qed.

(** A change of one process that is not in the table *)
Lemma running_touches s s' m p :
  running s m -> touches p s s' -> (forall pid, m !! pid <> Some p) -> running s' m.
Proof.
  intros [Hin Hout] (Hh & Ht & _) Hp. split; rewrite Ht; [|done].
  intros pid q Hq. destruct (Hin pid q Hq) as (H1 & H2 & H3 & x & Hx & H4). split_and!; [lia..|done|done|].
  exists x. rewrite Hh; [done|]. intros ->. by apply (Hp pid).
Qed.

Lemma running_insert s m p x pid s' :
  running s m -> heap s !! p = Some x -> t_pid (p_trace x) = pid -> p <> 0 -> 0 <= pid < PROC_HASH_TABLE_SIZE ->
  m !! pid = None -> (forall k, m !! k <> Some p) -> proc_insert p s = Ret (Some s') -> running s' (<[pid := p]> m).
Proof.
  intros R Hx Hpid Hp Hr Hm Hv. unfold proc_insert. rewrite Hx, Hpid.
  destruct (running_slot s m pid R Hr) as [E1 E2]. rewrite E2. cbn [mbind run_bind option_bind].
  rewrite Hm in E1. cbn in E1. rewrite E1. cbn [Z.eqb]. intros [= Hu].
  pose proof (upd_touches _ _ _ _ Hu) as (T1 & T2 & _). apply upd_heap in Hu as (y & Hy & Hy'). cbn in T1, T2, Hy.
  rewrite Hx in Hy. injection Hy as <-. destruct R as [Hin Hout]. split.
  - intros k q Hk. rewrite T2. destruct (decide (k = pid)) as [->|Hne].
    + rewrite lookup_insert_eq in Hk. injection Hk as <-. rewrite aget_aset_eq. split; [done|]. split; [done|].
      split; [done|]. by eexists.
    + rewrite lookup_insert_ne in Hk by done. destruct (Hin k q Hk) as (H1 & H2 & H3 & z & Hz & H4).
      rewrite aget_aset_ne by done. split; [done|]. split; [done|]. split; [done|]. exists z. split; [|done].
      rewrite T1; [done|]. intros ->. by apply (Hv k).
  - intros i Hi. rewrite T2. destruct (decide (i = pid)) as [->|Hne].
    + rewrite aget_aset_eq. intros _. apply lookup_insert_eq.
    + rewrite aget_aset_ne by done. rewrite lookup_insert_ne by done. by apply Hout.
Qed.

Lemma running_clear s m pid p s' :
  running s m -> m !! pid = Some p -> touches p (with_hash (procHashTable s).[pid <- 0] s) s' -> running s' (delete pid m).
Proof.
  intros [Hin Hout] Hp (Hh & Ht & _). cbn in Hh, Ht. destruct (Hin pid p Hp) as (Hr & Hp0 & Hs & x & Hx & Hpx & _). split.
  - intros k q Hk. destruct (decide (k = pid)) as [->|Hne]; [by rewrite lookup_delete_eq in Hk|].
    rewrite lookup_delete_ne in Hk by done. destruct (Hin k q Hk) as (H1 & H2 & H3 & y & Hy & Hpy & H4).
    rewrite Ht, aget_aset_ne by done. split; [done|]. split; [done|]. split; [done|]. exists y.
    rewrite Hh; [done|]. intros ->. congruence.
  - intros i Hi. rewrite Ht. destruct (decide (i = pid)) as [->|Hne].
    + by rewrite aget_aset_eq.
    + rewrite aget_aset_ne by done. rewrite lookup_delete_ne by done. by apply Hout.
Qed.

Lemma find_name_in n i name s p : find_name n i name s = Some (Some p) -> exists x, heap s !! p = Some x /\ p_name x = name.
Proof.
  revert i. induction n as [|n IH]; intros i; cbn [find_name]; [done|].
  destruct (heap s !! (procTable s).[i]) as [x|] eqn:E; [|done]. cbn [mbind option_bind].
  destruct (decide (p_name x = name)); [|apply IH]. intros [= <-]. by exists x.
Qed.

Lemma attach_touches p s s' : SET_attach_process p s = Some s' -> touches p s s'.
Proof.
  unfold SET_attach_process. destruct (procTableSize s =? MAX_PROC_TABLE_SIZE); [by intros [= <-]|].
  destruct (upd p _ _) as [s1|] eqn:E; [|done]. cbn [mbind option_bind]. intros [= <-]. by apply upd_touches in E.
Qed.

(** Changing one process keeps its number, if the change does. *)
Lemma upd_pid p f s s' q x :
  (forall y, t_pid (p_trace (f y)) = t_pid (p_trace y)) -> upd p f s = Some s' -> heap s !! q = Some x ->
  exists x', heap s' !! q = Some x' /\ t_pid (p_trace x') = t_pid (p_trace x).
Proof.
  intros Hf Hu Hx. destruct (decide (q = p)) as [->|Hne].
  - apply upd_heap in Hu as (y & Hy & Hy'). exists (f y). split; [done|]. rewrite Hf. congruence.
  - exists x. split; [|done]. rewrite (proj1 (upd_touches _ _ _ _ Hu)); done.
Qed.

(** ** The properties *)


(** The registered processes *)
Definition registered (s : SET) : list Z := aget (procTable s) <$> seqZ 0 (procTableSize s).

Lemma shift_down (t : arr) i n k :
  (forZ i n (fun t j => t.[j <- t.[j + 1]]) t).[k] =
    if decide (i <= k < i + Z.of_nat n) then t.[k + 1] else t.[k].
Proof.
  pose (P j (t' : arr) := forall k, t'.[k] = if decide (i <= k < j) then t.[k + 1] else t.[k]).
  enough (H : P (i + Z.of_nat n) (forZ i n (fun t j => t.[j <- t.[j + 1]]) t)) by apply H.
  apply forZ_ind.
  - intros k'. by rewrite decide_False by lia.
  - intros j t' Hj IH k'. rewrite aget_aset.
    repeat case_decide; subst; rewrite ?IH; repeat case_decide; subst; (done || lia).
Qed.

Lemma lookup_registered s k :
  registered s !! k = if decide (Z.of_nat k < procTableSize s) then Some (procTable s).[Z.of_nat k] else None.
Proof.
  unfold registered. rewrite list_lookup_fmap. destruct (decide _) as [H|H].
  - rewrite lookup_seqZ_lt by lia. cbn. by rewrite Z.add_0_l.
  - by rewrite lookup_seqZ_ge by lia.
Qed.

Ltac decide_lia := repeat first [rewrite decide_True by lia | rewrite decide_False by lia].

(** A process is taken off the list.  If a process knows its place, [SET_detach_process]
    removes exactly it and keeps the others in order.  But the others
    are not told that they moved: of four processes, the second and then the third end, and the
    third stays registered - freed memory, which the next search by name
    reads - while the fourth is lost. *)
Theorem detach_process s :
  (forall p x, heap s !! p = Some x -> 0 < p_idx x < procTableSize s ->
   exists s', SET_detach_process p s = Some s' /\ registered s' = delete (Z.to_nat (p_idx x)) (registered s)) /\
  (forall a b c d xb xc, registered s = [a; b; c; d] -> b <> c -> heap s !! b = Some xb -> heap s !! c = Some xc ->
   p_idx xb = 1 -> p_idx xc = 2 ->
   exists s1 s2, SET_detach_process b s = Some s1 /\ registered s1 = [a; c; d] /\
     SET_detach_process c s1 = Some s2 /\ registered s2 = [a; c] /\
     forall s3, c <> 0 -> SET_delete_process c s2 = Some s3 -> registered s3 = [a; c] /\ heap s3 !! c = None).
Proof.
  assert (D : forall s p x, heap s !! p = Some x -> 0 < p_idx x <= procTableSize s ->
    exists s', SET_detach_process p s = Some s' /\ procTableSize s' = procTableSize s - 1 /\
      (forall k, 0 <= k -> (procTable s').[k] = if decide (p_idx x <= k < procTableSize s) then (procTable s).[k + 1] else (procTable s).[k]) /\
      forall q, q <> p -> heap s' !! q = heap s !! q).
  { clear s. intros s p x Hx Hi. unfold SET_detach_process. rewrite (proj2 (Z.leb_gt _ 0)) by lia. rewrite Hx. cbn [mbind option_bind].
    rewrite (proj2 (Z.leb_gt _ 0)) by lia. unfold upd. cbn [heap with_table]. rewrite Hx. cbn [mbind option_bind].
    eexists. split; [reflexivity|]. cbn [procTableSize procTable with_heap with_table heap]. split; [done|]. split.
    - intros k Hk. rewrite shift_down. replace (p_idx x + Z.of_nat (Z.to_nat (procTableSize s - p_idx x))) with (procTableSize s) by lia. done.
    - intros q Hq. by rewrite lookup_insert_ne. }
  split.
  - intros p x Hx Hi. destruct (D s p x Hx ltac:(lia)) as (s' & E & En & Et & _). exists s'. split; [done|].
    apply list_eq. intros k. rewrite lookup_registered, En. destruct (decide (Z.of_nat k < p_idx x)) as [Hlt|Hge].
    + rewrite list_lookup_delete_lt, lookup_registered by lia. rewrite !decide_True by lia.
      rewrite Et by lia. by rewrite decide_False by lia.
    + rewrite list_lookup_delete_ge, lookup_registered by lia. replace (Z.of_nat (S k)) with (Z.of_nat k + 1) by lia.
      destruct (decide (Z.of_nat k < procTableSize s - 1)).
      * rewrite decide_True by lia. rewrite Et by lia. by rewrite decide_True by lia.
      * by rewrite decide_False by lia.
  - intros a b c d xb xc Hr Hbc Hb Hc Ib Ic.
    assert (Hn : procTableSize s = 4).
    { apply (f_equal length) in Hr. unfold registered in Hr. rewrite length_fmap, length_seqZ in Hr. cbn in Hr. lia. }
    assert (Ht : forall k, registered s !! k = [a; b; c; d] !! k) by (by rewrite Hr).
    assert (T0 := Ht 0%nat). assert (T2 := Ht 2%nat). assert (T3 := Ht 3%nat). clear Ht.
    rewrite !lookup_registered, Hn in *. cbn [lookup list_lookup] in T0, T2, T3. rewrite !decide_True in T0, T2, T3 by lia. injection T0 as T0. injection T2 as T2. injection T3 as T3.
    destruct (D s b xb Hb ltac:(lia)) as (s1 & E1 & N1 & P1 & H1). rewrite Hn in N1.
    assert (Hc1 : heap s1 !! c = Some xc) by (by rewrite H1).
    destruct (D s1 c xc Hc1 ltac:(lia)) as (s2 & E2 & N2 & P2 & H2). rewrite N1 in N2.
    rewrite Ib, Hn in P1. rewrite Ic, N1 in P2.
    assert (Q0 : (procTable s2).[0] = a) by (rewrite P2 by lia; decide_lia; rewrite P1 by lia; decide_lia; exact T0).
    assert (Q1 : (procTable s2).[1] = c) by (rewrite P2 by lia; decide_lia; rewrite P1 by lia; decide_lia; exact T2).
    assert (R2 : registered s2 = [a; c]) by (unfold registered; rewrite N2; change (seqZ 0 (4 - 1 - 1)) with [0; 1]; cbn [fmap list_fmap]; by rewrite Q0, Q1).
    exists s1, s2. split; [done|]. split; [|split; [done|split; [done|]]].
    + unfold registered. rewrite N1. change (seqZ 0 (4 - 1)) with [0; 1; 2]. cbn [fmap list_fmap].
      rewrite !P1 by lia. decide_lia. change (1 + 1) with (Z.of_nat 2). change (2 + 1) with (Z.of_nat 3).
      change 0 with (Z.of_nat 0). by rewrite T0, T2, T3.
    + intros s3 Hc0 E3. destruct (delete_table _ _ _ E3) as [G1 G2]. split; [|by apply (delete_touches c s2)].
      unfold registered. by rewrite G1, G2.
Qed.

(** A start that fails is used after it was freed.  When the files of a
    process cannot be opened or its program or the kernel has no symbols,
    [SET_start_tracing] frees the process; [SET_event_execve] does not look at
    that and puts the freed process into the hash table: undefined behaviour,
    whatever the program and the state. *)
Theorem start_failure_undefined can_open elf config name s id p x t t' id' :
  find_name (Z.to_nat (procTableSize s)) 0 name s = Some (Some p) -> p <> 0 ->
  heap s !! p = Some x -> fetch_trace x s = Some t ->
  load_process can_open elf (set_model s) x t id = Ret (Some (false, t', id')) ->
  SET_event_execve can_open elf config name s id = Ret None.
Proof.
  intros Hf Hp Hx Ht Hl. unfold SET_event_execve. rewrite Hf. unfold SET_start_tracing. rewrite Hx. cbn [mbind option_bind].
  rewrite Ht. cbn [mbind option_bind]. rewrite Hl. cbn [mbind run_bind].
  destruct (keep_trace p t' s) as [s1|]; [|done]. cbn [mbind option_bind].
  destruct (SET_detach_process p s1) as [s2|]; [|done]. cbn [mbind option_bind].
  destruct (SET_delete_process p s2) as [s3|] eqn:E3; [|done]. cbn [mbind option_bind].
  apply delete_touches in E3 as [_ N]; [|done]. unfold proc_insert. by rewrite N.
Qed.

(** *** Concrete runs *)

(** A program registered under a type *)
Definition demo_set0 : SET := mk_SET ∅ ∅ ∅ 1 ∅ 0 0 ∅ 7 2 false demo_device.
Definition register (name : string) (type : Z) (s : SET) : SET :=
  match SET_create_process (fun _ => true) "/set" "/out" name type s with
  | Some (p, s') => default s (SET_attach_process p s')
  | None => s
  end.
Definition demo_set (type : Z) : SET := register "/system/bin/app" type demo_set0.

Lemma no_process_runs s : procHashTable s = ∅ -> running s ∅.
Proof. intros E. split; [by intros pid p|]. intros i _. by rewrite E, aget_empty. Qed.


(** Four programs; the second and the third end. *)
Definition demo_four : SET :=
  register "d" 0x80 (register "c" 0x80 (register "b" 0x80 (register "a" 0x80 demo_set0))).
Theorem detach_process_witness :
  exists s1 s2, SET_detach_process 2 demo_four = Some s1 /\ registered s1 = [1; 3; 4] /\
    SET_detach_process 3 s1 = Some s2 /\ registered s2 = [1; 3].
Proof.
  assert (R : registered demo_four = [1; 2; 3; 4]) by (vm_compute; reflexivity).
  assert (B : exists xb, heap demo_four !! 2 = Some xb /\ p_idx xb = 1) by (eexists; split; vm_compute; reflexivity).
  assert (C : exists xc, heap demo_four !! 3 = Some xc /\ p_idx xc = 2) by (eexists; split; vm_compute; reflexivity).
  destruct B as (xb & Hb & Ib). destruct C as (xc & Hc & Ic).
  destruct (proj2 (detach_process demo_four) 1 2 3 4 xb xc R ltac:(discriminate) Hb Hc Ib Ic)
    as (s1 & s2 & E1 & R1 & E2 & R2 & _).
  exists s1, s2. split; [exact E1|]. split; [exact R1|]. split; [exact E2|exact R2].
Defined.

(** The C program has no symbol table. *)
Theorem start_failure_undefined_witness :
  SET_event_execve (fun _ => true) (fun _ => None) (fun _ => None) "app" (demo_set 0x11) 2 = Ret None.
Proof.
  assert (F : find_name (Z.to_nat (procTableSize (demo_set 0x11))) 0 "app" (demo_set 0x11) = Some (Some 1)) by (vm_compute; reflexivity).
  assert (X : exists x, heap (demo_set 0x11) !! 1 = Some x /\ (exists t, fetch_trace x (demo_set 0x11) = Some t /\
    exists t', load_process (fun _ => true) (fun _ => None) (set_model (demo_set 0x11)) x t 2 = Ret (Some (false, t', 2))))
    by (eexists; split; [vm_compute; reflexivity|eexists; split; [vm_compute; reflexivity|eexists; vm_compute; reflexivity]]).
  destruct X as (x & Hx & t & Ht & t' & Hl).
  exact (start_failure_undefined _ _ _ _ _ _ _ _ _ _ _ F ltac:(discriminate) Hx Ht Hl).
Defined.

(** *** Two numbers that share a place of the table *)

(** Removing a process hides one that was moved on because of it. *)
Example lost_process :
  let reg pid p s :=
    match (x ← heap s !! p; upd p (set_trace (with_pid pid (p_trace x))) s) with
    | Some s => match proc_insert p s with Ret (Some s') => s' | _ => s end
    | None => s
    end in
  let s := reg 32752 3 (reg 3 2 demo_four) in
  proc_find 32752 s = Ret (Some 3) /\
  exists s', SET_event_exit (with_tracing 2 s) = Some s' /\ proc_find 32752 s' = Ret (Some 0).
Proof. split; [vm_compute; reflexivity|]. eexists. split; [vm_compute; reflexivity|]. vm_compute. reflexivity. Qed.

(** The process registered first keeps its place when it ends, so the
    search for others that are traced follows a freed pointer. *)
Example first_process_stays :
  let s := register "b" 0x80 (demo_set 0x80) in
  match proc_insert 1 (match upd 1 (set_trace (with_pid 3 (fresh_trace 0x80))) s with Some s => s | None => s end) with
  | Ret (Some s) => SET_event_exit (with_tracing 1 s) = None
  | _ => False
  end.
Proof. vm_compute. reflexivity. Qed.
