(* ===== verification/SetEvents.v ===== *)
(** * The tracer and the guest's kernel ([SET_event_branch], [hw/SET_device.c])

    Branches of the guest's kernel to one of six watched functions tell the tracer what
    happens to processes: it reads the kernel's structures through the guest's
    registers and memory.  A guest program configures the tracer through a device, a
    user through a socket ([SET_ctrl_thread]).

    [g_word], [g_string]: the guest's memory by virtual address.  The code translates
    the beginning of a structure ([v2p]) and adds the member's offset, which is the
    same where the structure lies within one page.  The
    tables of process names have 512 rows of 32 bytes; using another row or a
    longer name is undefined ([None]). *)
From stdpp Require Import strings.
From S2P Require Import Prelude Mem Config Timing Branch Vpmu Power PerfRegs VpmuConfig VpmuDevice Sampling Probe SetObject SetOut SetTrace SetProcess.

(** ** State *)

Record guest_cpu := mk_guest { g_reg : Z -> Z; g_word : Z -> Z; g_string : Z -> string }.

(** The statics of the SET files: the tracer, the numbers of the next object and
    dex file, the kernel's functions, [pid_base[512][32]] and [pid_name_base],
    [current_name], [process_name], [trace_kernel], and [type] of the device *)
Record SETdev := mk_SETdev {
  sd_set : SET; sd_obj_id : Z; sd_dex_id : Z; sd_kt : KerTable; pid_base : arr; pid_names : gmap Z string;
  current_name : string; kthread_name : string; trace_kernel : bool; dev_type : Z; eventConfig : arr }.

Definition on_set (s : SET) (d : SETdev) : SETdev :=
  mk_SETdev s (sd_obj_id d) (sd_dex_id d) (sd_kt d) (pid_base d) (pid_names d) (current_name d) (kthread_name d)
    (trace_kernel d) (dev_type d) (eventConfig d).
Definition with_ids (obj dex : Z) (d : SETdev) : SETdev :=
  mk_SETdev (sd_set d) obj dex (sd_kt d) (pid_base d) (pid_names d) (current_name d) (kthread_name d)
    (trace_kernel d) (dev_type d) (eventConfig d).
Definition with_names (b : arr) (n : gmap Z string) (d : SETdev) : SETdev :=
  mk_SETdev (sd_set d) (sd_obj_id d) (sd_dex_id d) (sd_kt d) b n (current_name d) (kthread_name d)
    (trace_kernel d) (dev_type d) (eventConfig d).
Definition with_current (c k : string) (d : SETdev) : SETdev :=
  mk_SETdev (sd_set d) (sd_obj_id d) (sd_dex_id d) (sd_kt d) (pid_base d) (pid_names d) c k
    (trace_kernel d) (dev_type d) (eventConfig d).
Definition with_type (t : Z) (d : SETdev) : SETdev :=
  mk_SETdev (sd_set d) (sd_obj_id d) (sd_dex_id d) (sd_kt d) (pid_base d) (pid_names d) (current_name d) (kthread_name d)
    (trace_kernel d) t (eventConfig d).
Definition with_events (e : arr) (d : SETdev) : SETdev :=
  mk_SETdev (sd_set d) (sd_obj_id d) (sd_dex_id d) (sd_kt d) (pid_base d) (pid_names d) (current_name d) (kthread_name d)
    (trace_kernel d) (dev_type d) e.

(** ** The tables of names *)

Definition NAME_ROWS : Z := 512.
Definition row_ok (pid : Z) : bool := (0 <=? pid) && (pid <? NAME_ROWS).

Definition base_at (pid i : Z) (d : SETdev) : option Z := if row_ok pid then Some (pid_base d).[pid * 32 + i] else None.
Definition set_base (pid i x : Z) (d : SETdev) : option SETdev :=
  if row_ok pid then Some (with_names (pid_base d).[pid * 32 + i <- x] (pid_names d) d) else None.
Definition name_at (pid : Z) (d : SETdev) : option string := if row_ok pid then Some (default ""%string (pid_names d !! pid)) else None.
(** [strcpy] *)
Definition set_name (pid : Z) (name : string) (d : SETdev) : option SETdev :=
  if row_ok pid && (String.length name <? 32)%nat then Some (with_names (pid_base d) (<[pid := name]> (pid_names d)) d) else None.

Definition BACKSLASH : Ascii.ascii := Ascii.ascii_of_nat 92.
Definition first_char (s : string) : option Ascii.ascii := match s with String.String c _ => Some c | _ => None end.

(** [if (pid_name_base[pid] is empty) strcpy(...)] *)
Definition name_if_empty (pid : Z) (name : string) (d : SETdev) : option SETdev :=
  old ← name_at pid d; if decide (old = ""%string) then set_name pid name d else Some d.

Section Events.
(** The host's files, as in [SetProcess] *)
Context (can_open file_exists : string -> bool) (elf : string -> option EFD) (config : Z -> option (list Z)).
Context (path_set_out path_android_out : string).

(** ** Mappings *)

Definition SET_is_dex (path : string) : bool :=
  let n := String.length path in
  (4 <? n)%nat && bool_decide (String.substring (n - 4) 4 path = ".dex"%string).

(** '@' becomes '/', and the name ends at the last of them (at its beginning, if
    there is none) *)
Fixpoint at_to_slash (l : list Ascii.ascii) : list Ascii.ascii :=
  match l with
  | [] => []
  | c :: l => (if decide (Ascii.nat_of_ascii c = 64%nat) then Ascii.ascii_of_nat 47 else c) :: at_to_slash l
  end.
Fixpoint last_at (i last : nat) (l : list Ascii.ascii) : nat :=
  match l with
  | [] => last
  | c :: l => last_at (S i) (if decide (Ascii.nat_of_ascii c = 64%nat) then i else last) l
  end.
Definition dex_name (name : string) : string :=
  let l := String.list_ascii_of_string name in
  String.string_of_list_ascii (take (last_at 0 0 l) (at_to_slash l)).

Definition SET_create_dex (path : string) (start dend id : Z) : DexFile * Z :=
  (mk_dex id path start dend 0, wrap 16 (id + 1)).

Definition FULL_PATH_LEN : nat := 256.

(** The library's file on the host: the first of three places *)
Definition library_path (name : string) : option string :=
  let p1 := path_of (path_android_out +:+ "/symbols/system/lib/" +:+ name) in
  let p2 := path_of (path_android_out +:+ "/symbols/system/bin/" +:+ name) in
  let p3 := path_of (path_set_out +:+ "/lib/" +:+ name) in
  if file_exists p1 then Some p1 else if file_exists p2 then Some p2 else if file_exists p3 then Some p3 else None.

Definition mmap_process (name : string) (start mend pgoff : Z) (t : tracing) (d : SETdev)
  : run (option (tracing * SETdev)) :=
  if SET_is_dex name then
    if has (t_type t) (Z.lor SET_PROCESS_DALVIK SET_PROCESS_MMAP) then
      let path := path_of (path_android_out +:+ "/" +:+ dex_name name) in
      if (FULL_PATH_LEN <=? String.length name)%nat then Ret None   (* changedName *)
      else if file_exists path then
        let '(dex, id) := SET_create_dex path start mend (sd_dex_id d) in
        Ret (t ← SET_attach_dex dex t; Some (t, with_ids (sd_obj_id d) id d))
      else Ret (Some (t, d))
    else Ret (Some (t, d))
  else if has (t_type t) (Z.lor SET_PROCESS_LIBRARY SET_PROCESS_MMAP) then
    match library_path name with
    | None => Ret (Some (t, d))
    | Some path =>
        if existsb (fun o => bool_decide (obj_path o = path)) (t_objs t) then Ret (Some (t, d))
        else
          '(obj, id) ← SET_create_obj (elf path) path start pgoff (sd_obj_id d);
          let d := with_ids id (sd_dex_id d) d in
          Ret (match obj with Some o => t ← SET_attach_obj o t; Some (t, d) | None => Some (t, d) end)
    end
  else Ret (Some (t, d)).

Definition SET_event_mmap (name : string) (start mend pgoff : Z) (d : SETdev) : run (option SETdev) :=
  let s := sd_set d in
  let p := tracing_process s in
  if p =? 0 then Ret (Some d)
  else
    match (x ← heap s !! p; fetch_trace x s) with
    | None => Ret None
    | Some t =>
        r ← mmap_process name start mend pgoff t d;
        Ret ('(t, d) ← r; s ← keep_trace p t s; Some (on_set s d))
    end.

(** ** Names of kernel threads *)

Inductive fmt_arg := ArgS (s : string) | ArgD (x : Z).

(** The directives kernel threads are named with: %s, %d and %u; others are
    outside the model. *)
Definition digits_of (x : Z) : string :=
  String.string_of_list_ascii (map (fun c => Ascii.ascii_of_nat (Z.to_nat c)) (Sampling.fmt_d x)).
Fixpoint format (l : list Ascii.ascii) (args : list fmt_arg) : option string :=
  match l with
  | [] => Some ""%string
  | c :: l =>
      if decide (Ascii.nat_of_ascii c = 37%nat) then
        match l, args with
        | k :: l, ArgS s :: args => if decide (Ascii.nat_of_ascii k = 115%nat) then r ← format l args; Some (s +:+ r) else None
        | k :: l, ArgD x :: args =>
            if decide (Ascii.nat_of_ascii k = 100%nat) then r ← format l args; Some (digits_of (s32 x) +:+ r)
            else if decide (Ascii.nat_of_ascii k = 117%nat) then r ← format l args; Some (digits_of (u32 x) +:+ r)
            else None
        | _, _ => None
        end
      else r ← format l args; Some (String.String c r)
  end.

(** The number of '%' and the character behind the last one *)
Fixpoint percents (l : list Ascii.ascii) (count : Z) (save : Ascii.ascii) : Z * Ascii.ascii :=
  match l with
  | [] => (count, save)
  | c :: l =>
      if decide (Ascii.nat_of_ascii c = 37%nat)
      then percents l (count + 1) (match l with k :: _ => k | [] => Ascii.ascii_of_nat 0 end) else percents l count save
  end.

Definition thread_name (g : guest_cpu) (old : string) : option string :=
  let fmt := String.list_ascii_of_string (g_string g (g_reg g 2)) in
  let '(count, save) := percents fmt 0 (Ascii.ascii_of_nat 0) in
  let va := g_reg g 3 in
  let cut31 := fun s => String.substring 0 31 s in
  if count =? 2 then cut31 <$> format fmt [ArgS (g_string g (g_word g va)); ArgD (g_word g (u32 (va + 4)))]
  else if count =? 1 then
    if decide (Ascii.nat_of_ascii save = 100%nat) then cut31 <$> format fmt [ArgD (g_word g va)]
    else cut31 <$> format fmt [ArgS (g_string g (g_word g va))]
  else Some old.

(** The first process whose name is still open *)
Fixpoint open_name (n : nat) (i : Z) (d : SETdev) : option Z :=
  match n with
  | O => None
  | S n => if decide (first_char (default ""%string (pid_names d !! i)) = Some BACKSLASH) then Some i else open_name n (i + 1) d
  end.

(** ** The six events *)

Definition on_set_run (r : run (option SET)) (d : SETdev) : run (option SETdev) := s ← r; Ret (s ← s; Some (on_set s d)).

Definition event_execve (g : guest_cpu) (d : SETdev) : run (option SETdev) :=
  let name := base_name 32 (g_string g (g_word g (u32 (g_reg g 0 + 172)))) in
  let d := with_current name (kthread_name d) d in
  if trace_kernel d && bool_decide (name = "init"%string) then
    match SET_delete_process (tracing_process (sd_set d)) (sd_set d) with Some _ => ProcExit | None => Ret None end
  else
    match name_if_empty (now_pid (sd_set d)) name d with
    | None => Ret None
    | Some d =>
        r ← SET_event_execve can_open elf config name (sd_set d) (sd_obj_id d);
        Ret ('(s, id) ← r; Some (with_ids id (sd_dex_id d) (on_set s d)))
    end.

Definition next_pid (g : guest_cpu) : Z := s32 (g_word g (u32 (g_word g (u32 (g_reg g 2 + 12)) + 492))).
Definition event_cs (g : guest_cpu) (d : SETdev) : run (option SETdev) :=
  let pid := next_pid g in
  let d := on_set (with_now_pid pid (sd_set d)) d in
  let switch d := on_set_run (SET_event_cs pid (sd_set d)) d in
  if pid =? 0 then
    if (pid_base d).[0] =? -1 then
      match (d ← set_base 0 0 1 d; set_name 0 "sched" d) with None => Ret None | Some d => switch d end
    else if (pid_base d).[0] =? 1 then Ret (Some d)
    else switch d
  else switch d.

Definition event_mmap (g : guest_cpu) (d : SETdev) : run (option SETdev) :=
  let vma i := g_word g (u32 (g_reg g 0 + 4 * i)) in
  let file := vma 18 in
  if file =? 0 then Ret (Some d)
  else
    let name := g_string g (g_word g (u32 (g_word g (u32 (file + 12)) + 36))) in
    SET_event_mmap name (vma 1) (vma 2) (vma 17) d.

(** [for(i = 1; i < 32; i++) if (pid_base[fork_tgid][i] == -1) ...] *)
Fixpoint note_thread (n : nat) (i tgid pid : Z) (d : SETdev) : option SETdev :=
  match n with
  | O => Some d
  | S n => b ← base_at tgid i d; if b =? -1 then set_base tgid i pid d else note_thread n (i + 1) tgid pid d
  end.

Definition event_fork (g : guest_cpu) (d : SETdev) : run (option SETdev) :=
  let pid := s32 (g_word g (u32 (g_reg g 0 + 492))) in
  if has (g_reg g 1) 0x100 then
    let tgid := s32 (g_word g (u32 (g_reg g 0 + 496))) in
    if negb (pid =? tgid) then
      r ← SET_event_thread_create pid (sd_set d);
      Ret (s ← r;
           d ← note_thread 31 1 tgid pid (on_set s d);
           d ← set_base pid 0 1 d;
           name ← name_at tgid d;
           d ← name_if_empty pid name d;
           own ← name_at pid d;
           if decide (first_char own = Some BACKSLASH) then set_name pid name d else Some d)
    else
      Ret (d ← set_base pid 0 1 d;
           d ← (if pid =? 1 then set_name pid "init" d else if pid =? 2 then set_name pid "kthread" d else Some d);
           name_if_empty pid (String.String BACKSLASH "") d)
  else Ret (set_base pid 0 1 d).

Definition event_kthread (g : guest_cpu) (d : SETdev) : run (option SETdev) :=
  Ret (name ← thread_name g (kthread_name d);
       let d := with_current (current_name d) name d in
       match open_name (Z.to_nat NAME_ROWS) 0 d with Some i => set_name i name d | None => Some d end).

(** The branch comes from the function whose return is watched. *)
Definition in_range (e : KerEvent) (return_addr : Z) (t : KerTable) : bool :=
  match retFunc t e with Some r => (fr_start r <? return_addr) && (return_addr <=? fr_end r) | None => true end.

Definition kernel_event (e : KerEvent) (g : guest_cpu) (return_addr : Z) (d : SETdev) : run (option SETdev) :=
  if in_range e return_addr (sd_kt d) then
    match e with
    | EXECVE => event_execve g d
    | EXIT => Ret (s ← SET_event_exit (sd_set d); Some (on_set s d))
    | CS => event_cs g d
    | MMAP => event_mmap g d
    | FORK => event_fork g d
    | KTHREAD => event_kthread g d
    end
  else Ret (Some d).

(** The whole of [SET_event_branch] *)
Definition SET_event_branch (rd : reading) (g : guest_cpu) (target_addr return_addr : Z) (d : SETdev) : run (option SETdev) :=
  r ← (if KERNEL_BASE <=? return_addr then
         e ← find_ker (sd_kt d) target_addr;
         match e with Some e => kernel_event e g return_addr d | None => Ret (Some d) end
       else Ret (Some d));
  match r with
  | None => Ret None
  | Some d => on_set_run (SET_branch rd target_addr return_addr (sd_set d)) d
  end.

(** ** Dalvik programs *)

(** The tables of the new process become those of zygote. *)
Definition write_objs (l : list ObjFile) (t : tracing) : option tracing :=
  match t_output t with
  | None => Some t
  | Some o => o ← foldl (fun o x => o ← o; SET_output_write_obj (obj_id x) (obj_path x) o) (Some o) l; Some (with_output (Some o) t)
  end.
Definition write_dexs (l : list DexFile) (t : tracing) : option tracing :=
  match t_output t with
  | None => Some t
  | Some o => o ← foldl (fun o x => o ← o; SET_output_write_dex (d_id x) (d_path x) o) (Some o) l; Some (with_output (Some o) t)
  end.
Definition inherit (zygote : tracing) (t : tracing) : option tracing :=
  t ← (if has (t_type t) SET_PROCESS_DALVIK then
         t ← write_dexs (t_dexs zygote) t; Some (with_dexs (count_dex 1 <$> t_dexs zygote) t)
       else Some t);
  if has (t_type t) SET_PROCESS_LIBRARY then
    t ← write_objs (t_objs zygote) t; Some (with_objs (count_obj 1 <$> t_objs zygote) t)
  else Some t.

Definition inherit_from_zygote (p : Z) (s : SET) : option SET :=
  z ← find_name (Z.to_nat (procTableSize s)) 0 "app_process" s;
  match z with
  | None => Some s
  | Some z =>
      zx ← heap s !! z; x ← heap s !! p; t ← fetch_trace x s;
      t ← inherit (p_trace zx) t; keep_trace p t s
  end.

Definition SET_event_start_dalvik (name : string) (d : SETdev) : run (option SETdev) :=
  let pid := now_pid (sd_set d) in
  match (d ← set_base pid 0 1 d; d ← set_name pid name d;
         p ← find_name (Z.to_nat (procTableSize (sd_set d))) 0 name (sd_set d); Some (d, p)) with
  | None => Ret None
  | Some (d, None) => Ret (Some d)
  | Some (d, Some p) =>
      r ← SET_start_tracing can_open elf config p (sd_set d) (sd_obj_id d);
      match r with
      | None => Ret None
      | Some (s, id) =>
          s ← proc_insert p s;
          Ret (s ← s; s ← inherit_from_zygote p s; Some (with_ids id (sd_dex_id d) (on_set s d)))
      end
  end.

(** ** The device and the socket *)

Definition create_and_attach (name : string) (type : Z) (d : SETdev) : option SETdev :=
  '(p, s) ← SET_create_process file_exists path_set_out path_android_out name type (sd_set d);
  s ← (if p =? 0 then Some s else SET_attach_process p s);
  Some (on_set s d).
Definition with_model (m : Z) (s : SET) : SET := with_device m (SetProcess.isSamplingOn s) (set_vpmu s) s.
Definition with_sampling (b : bool) (s : SET) : SET := with_device (set_model s) b (set_vpmu s) s.

Definition SET_DEV_REG_SET_CTRL : Z := 0.
Definition SET_DEV_REG_VPMU_SETUP : Z := 4.
Definition SET_DEV_REG_EVENT_TYPE : Z := 8.
Definition SET_DEV_REG_EVENT_NAME : Z := 12.
Definition SET_DEV_REG_APP_NAME : Z := 84.
Definition SET_DEV_REG_METHOD_ENTRY : Z := 88.
Definition SET_DEV_REG_METHOD_EXIT : Z := 92.
Definition SET_DEV_REG_JNI_ENTRY : Z := 96.
Definition SET_DEV_REG_JNI_EXIT : Z := 100.

Definition SET_read (addr : Z) (d : SETdev) : Z :=
  if addr =? SET_DEV_REG_SET_CTRL then (if tracing_process (sd_set d) =? 0 then 0 else 1) else 0.

Definition SET_write (rd : reading) (g : guest_cpu) (addr val : Z) (d : SETdev) : run (option SETdev) :=
  let pure f := on_set_run (on_tracing (fun t => Ret (f t)) (sd_set d)) d in
  if addr =? SET_DEV_REG_VPMU_SETUP then Ret (Some (on_set (with_model (s32 val) (sd_set d)) d))
  else if addr =? SET_DEV_REG_EVENT_TYPE then Ret (Some (with_type (u8 val) d))
  else if addr =? SET_DEV_REG_EVENT_NAME then
    let name := g_string g val in
    let d := if decide (name = "stop"%string) then on_set (with_sampling false (sd_set d)) d else d in
    Ret (create_and_attach name (dev_type d) d)
  else if addr =? SET_DEV_REG_APP_NAME then
    let name := g_string g val in
    if decide (first_char name = Some (Ascii.ascii_of_nat 60)) then Ret (Some d) else SET_event_start_dalvik name d
  else if addr =? SET_DEV_REG_METHOD_ENTRY then pure (SET_event_method_entry rd val)
  else if addr =? SET_DEV_REG_METHOD_EXIT then pure (SET_event_method_exit rd val)
  else if addr =? SET_DEV_REG_JNI_ENTRY then pure (SET_event_jni_entry rd)
  else if addr =? SET_DEV_REG_JNI_EXIT then pure (SET_event_jni_exit rd)
  else Ret (Some d).

(** One connection of [SET_ctrl_thread]: model, type and name; the event
    configuration (what [read] got of 46 bytes); the status that ends it *)
Definition ctrl_session (model type : Z) (name : string) (events : list Z) (status : option Z) (d : SETdev) : run (option SETdev) :=
  s ← SET_start_vpmu config (with_model model (sd_set d));
  match (s ← s; create_and_attach name type (on_set s d)) with
  | None => Ret None
  | Some d =>
      let cfg := foldl (fun a p => a.[p.1 <- p.2]) (initEventConfig (eventConfig d))
                   (imap (fun i x => (Z.of_nat i, x)) (take CUR_VPMU_SUPPORT_EVENT events)) in
      let d := on_set (with_sampling true (sd_set d)) (with_events cfg d) in
      Ret (Some (match status with
                 | Some 0 => on_set (SET_stop_vpmu (with_sampling false (sd_set d))) d
                 | _ => d
                 end))
  end.

(** ** Start *)

Definition BOOTUP : Z := Z.lor (Z.lor SET_PROCESS_MMAP SET_PROCESS_OUTPUT) KERNEL_OR_IRQ.
Definition SET_event_bootup (d : SETdev) : run (option SETdev) :=
  match SET_create_process file_exists path_set_out path_android_out "bootup_process" BOOTUP (sd_set d) with
  | None => Ret None
  | Some (p, s) =>
      if p =? 0 then Ret (Some (on_set s d))
      else
        r ← SET_start_tracing can_open elf config p s (sd_obj_id d);
        match r with
        | None => Ret None
        | Some (s, id) => s ← proc_insert p (with_tracing p s); Ret (s ← s; Some (with_ids id (sd_dex_id d) (on_set s d)))
        end
  end.

(** [SET_init], when the environment has both directories: [None] in the state if
    the kernel's functions are not found, which leaves the tracer off.  Only
    the first column of [pid_base] is set to -1. *)
Definition init_pid_base (a : arr) : arr := forZ 0 512 (fun a ii => a.[ii * 32 <- -1]) a.
Definition SET_cleared (s : SET) : SET :=
  with_table ∅ 0 (with_tracing 0 (with_device 0 (SetProcess.isSamplingOn s) (set_vpmu s) s)).

Definition SET_init (d : SETdev) : run (option (option SETdev)) :=
  let d := with_names (init_pid_base (pid_base d)) (pid_names d) d in
  let d := on_set (SET_cleared (sd_set d)) d in
  k ← get_special_kernel_func (elf (path_of (path_set_out +:+ "/vmlinux"))) KER_TABLE_SIZE;
  match k with
  | None => Ret (Some None)
  | Some kt =>
      let d := mk_SETdev (sd_set d) (sd_obj_id d) (sd_dex_id d) kt (pid_base d) (pid_names d) (current_name d)
                 (kthread_name d) (trace_kernel d) (dev_type d) (eventConfig d) in
      match SET_create_process file_exists path_set_out path_android_out "app_process" SET_PROCESS_MMAP (sd_set d) with
      | None => Ret None
      | Some (p, s) =>
          r ← (if trace_kernel d then SET_event_bootup (on_set (with_model 2 s) d) else Ret (Some (on_set s d)));
          Ret (d ← r;
               s ← (if p =? 0 then Some (sd_set d) else SET_attach_process p (sd_set d));
               Some (Some (on_set s d)))
      end
  end.
End Events.

Definition SET_trace_kernel (d : SETdev) : SETdev :=
  mk_SETdev (sd_set d) (sd_obj_id d) (sd_dex_id d) (sd_kt d) (pid_base d) (pid_names d) (current_name d) (kthread_name d)
    true (dev_type d) (eventConfig d).

(** ** Helper lemmas *)

Lemma emit_pid rd w t t' : emit rd w t = Some t' -> t_pid t' = t_pid t.
Proof.
  unfold emit. destruct (t_output t); [|by intros [= <-]]. destruct (write_record _ _); [|done]. by intros [= <-].
Qed.

Lemma exits_pid n : forall i code get set rd target t t',
  (forall s u, t_pid (set s u) = t_pid u) -> exits n i code get set rd target t = Some t' -> t_pid t' = t_pid t.
Proof.
  induction n as [|n IH]; intros i code get set rd target t t' Hs; cbn [exits]; [by intros [= <-]|].
  destruct (i <=? st_size (get t)); [|by intros [= <-]].
  destruct (target =? _); cbn [mbind option_bind]; [|by apply IH].
  destruct (emit rd _ t) as [t1|] eqn:E; [|done]. cbn [mbind option_bind]. intros H%IH; [|done].
  rewrite H, Hs. by eapply emit_pid.
Qed.

(** Recording a branch does not change whose it is. *)
Lemma branch_user_pid rd a b t t' : SET_event_branch_user rd a b t = Ret (Some t') -> t_pid t' = t_pid t.
Proof.
  unfold SET_event_branch_user. destruct (t_objs t) eqn:Eo; [by intros [= <-]|]. rewrite <- Eo.
  destruct (resolve (t_objs t) a) as [[| |code]| |]; cbn [mbind run_bind]; try done; intros [= H].
  - destruct (_ && _); [|by injection H as <-].
    destruct (emit rd _ t) as [t1|] eqn:E; [|done]. injection H as <-. by apply emit_pid in E.
  - destruct (find_return _ _ _ _); [|by injection H as <-].
    destruct (emit rd _ t) as [t1|] eqn:E; [|done]. injection H as <-. by apply emit_pid in E.
  - destruct (emit rd _ t) as [t1|] eqn:E; [|done]. injection H as <-. by apply emit_pid in E.
Qed.

Lemma trace_branch_pid rd a b t t' : trace_branch rd a b t = Ret (Some t') -> t_pid t' = t_pid t.
Proof.
  unfold trace_branch, SET_event_branch_irq, SET_event_branch_kernel. generalize (Z.to_nat MAX_STACK_SIZE) as n. intros n.
  destruct (has (t_type t) KERNEL_OR_IRQ && (0 <? st_size (t_irq t))).
  - destruct (a =? _).
    + intros [= H]. destruct (_ && _); [|by injection H as <-].
      destruct (emit rd _ _) as [t1|] eqn:E; [|done]. injection H as <-. apply emit_pid in E. done.
    + destruct (has (t_type t) SET_PROCESS_IRQ); [|by intros [= <-]].
      destruct (find_func _ _) as [[idx|]| |]; cbn [mbind run_bind]; try done; intros [= H].
      * destruct (emit rd _ t) as [t1|] eqn:E; [|done]. injection H as <-. apply emit_pid in E. done.
      * by eapply exits_pid in H.
  - destruct (a <? KERNEL_BASE).
    + destruct (b <? KERNEL_BASE).
      * destruct (has (t_type t) LIBRARY_OR_C); [apply branch_user_pid|by intros [= <-]].
      * intros [= H]. destruct (_ && _); [|by injection H as <-].
        destruct (emit rd _ t) as [t1|] eqn:E; [|done]. injection H as <-. apply emit_pid in E. done.
    + destruct (has (t_type t) SET_PROCESS_KERNEL); [|by intros [= <-]].
      destruct (find_func _ _) as [[idx|]| |]; cbn [mbind run_bind]; try done; intros [= H].
      * destruct (emit rd _ t) as [t1|] eqn:E; [|done]. injection H as <-. apply emit_pid in E. done.
      * by eapply exits_pid in H.
Qed.

(** Keeping a changed trace keeps the table of running processes. *)
Lemma running_keep s m p t x s' :
  running s m -> heap s !! p = Some x -> t_pid t = t_pid (p_trace x) -> keep_trace p t s = Some s' -> running s' m.
Proof.
  intros [Hin Hout] Hx Hp Hk. unfold keep_trace in Hk. rewrite Hx in Hk. cbn [mbind option_bind] in Hk.
  unfold upd in Hk. rewrite Hx in Hk. cbn [mbind option_bind] in Hk. injection Hk as <-.
  set (s1 := with_heap _ s).
  assert (R1 : running s1 m).
  { split; [|done]. intros k q Hq. destruct (Hin k q Hq) as (H1 & H2 & H3 & y & Hy & Hpy & H4).
    split; [done|]. split; [done|]. split; [done|]. destruct (decide (q = p)) as [->|Hne].
    - exists (set_trace (with_output None t) x). cbn [heap s1 with_heap]. rewrite lookup_insert_eq. split; [done|].
      cbn. rewrite Hx in Hy. injection Hy as <-. split; [by rewrite Hp|done].
    - exists y. cbn [heap s1 with_heap]. by rewrite lookup_insert_ne. }
  destruct (t_output t); [|done]. destruct (p_output x =? 0); [done|]. by destruct R1.
Qed.

Lemma branch_running rd a b s m s' :
  running s m -> SET_branch rd a b s = Ret (Some s') -> running s' m /\ tracing_process s' = tracing_process s.
Proof.
  intros R. unfold SET_branch, on_tracing. destruct (tracing_process s =? 0) eqn:E0; [by intros [= <-]|].
  destruct (heap s !! tracing_process s) as [x|] eqn:Hx; [|done]. cbn [mbind option_bind].
  destruct (fetch_trace x s) as [t|] eqn:Ef; [|done].
  destruct (trace_branch rd a b t) as [[t'|]| |] eqn:Et; cbn [mbind run_bind option_bind]; try done. intros [= Hk].
  assert (Hpid : t_pid t = t_pid (p_trace x)).
  { unfold fetch_trace in Ef. destruct (p_output x =? 0); [by injection Ef as <-|].
    destruct (outputs s !! p_output x); [|done]. by injection Ef as <-. }
  apply trace_branch_pid in Et. split.
  - eapply (running_keep s m _ t'); [done|done| |done]. congruence.
  - unfold keep_trace in Hk. rewrite Hx in Hk. cbn [mbind option_bind] in Hk. unfold upd in Hk. rewrite Hx in Hk.
    cbn [mbind option_bind] in Hk. injection Hk as <-. destruct (t_output t'); [|done]. by destruct (p_output x =? 0).
Qed.

(** The columns behind the first *)
Lemma forZ_columns n : forall lo (a : arr) j, (forall k, lo <= k < lo + Z.of_nat n -> j <> k * 32) ->
  (foldl (fun a ii => a.[ii * 32 <- -1]) a (seqZ lo (Z.of_nat n))).[j] = a.[j].
Proof.
  induction n as [|n IH]; intros lo a j Hj; [done|]. rewrite seqZ_cons by lia. cbn [foldl].
  replace (Z.pred (Z.of_nat (S n))) with (Z.of_nat n) by lia. rewrite IH by (intros k Hk; apply Hj; lia).
  apply aget_aset_ne. intros E. by apply (Hj lo); [lia|].
Qed.

Lemma note_thread_none d tgid pid :
  row_ok tgid = true -> (forall i, 1 <= i < 32 -> (pid_base d).[tgid * 32 + i] = 0) ->
  forall k i, 1 <= i -> i + Z.of_nat k <= 32 -> note_thread k i tgid pid d = Some d.
Proof.
  intros Hr Hc. induction k as [|k IH]; intros i Hi Hk; [done|]. cbn [note_thread]. unfold base_at. rewrite Hr.
  cbn [mbind option_bind]. rewrite Hc by lia. cbn. apply IH; lia.
Qed.

Lemma boot_no_dex can model o : open_streams can model BOOTUP SET_output_create = (o, true) -> f_dex o = None.
Proof.
  unfold open_streams, and_then. change (has BOOTUP NATIVE) with true. change (has BOOTUP SET_PROCESS_DALVIK) with false.
  change (has BOOTUP SET_PROCESS_SYSCALL) with false.
  unfold SET_output_open_type_vpmu, SET_output_open_pid, SET_output_open_obj_func.
  destruct (can "type"); [|done]. destruct ((1 <=? model) && (model <=? 3)).
  - destruct (can "vpmu"); [|done]. destruct (can "cc"); [|done]. destruct (can "power"); [|done]. cbn [fst snd].
    destruct (can "pid"); [|done]. cbn [fst snd]. destruct (can "obj"); [|done]. by destruct (can "func"); [intros [= <-]|].
  - cbn [fst snd]. destruct (model =? 0); [|done]. destruct (can "pid"); [|done]. cbn [fst snd].
    destruct (can "obj"); [|done]. by destruct (can "func"); [intros [= <-]|].
Qed.

(** ** The properties *)

Section Guest.
Context (can_open file_exists : string -> bool) (elf : string -> option EFD) (config : Z -> option (list Z)).
Context (set_out android_out : string).
Abbreviation branch := (SET_event_branch can_open file_exists elf config set_out android_out).


Lemma switch_event g d pid :
  next_pid g = pid -> pid <> 0 ->
  event_cs g d = on_set_run (SET_event_cs pid (with_now_pid pid (sd_set d))) (on_set (with_now_pid pid (sd_set d)) d).
Proof. intros <- Hp. unfold event_cs. by rewrite (proj2 (Z.eqb_neq _ 0)). Qed.


(** The idle task is noticed once.  At its first turn its name is noted and the
    process of number 0 selected; at every later one the tracer
    keeps the process it traced before, so the branches of the idle task count as that
    process's. *)
Theorem idle_keeps_process g d m :
  running (sd_set d) m -> next_pid g = 0 -> (pid_base d).[0] = -1 ->
  exists d1, event_cs g d = Ret (Some d1) /\ tracing_process (sd_set d1) = default 0 (m !! 0) /\
    pid_names d1 !! 0 = Some "sched"%string /\
    forall d2, (pid_base d2).[0] = (pid_base d1).[0] ->
      event_cs g d2 = Ret (Some (on_set (with_now_pid 0 (sd_set d2)) d2)).
Proof.
  intros R Hg Hb. unfold event_cs. rewrite Hg. cbn [pid_base on_set]. rewrite Hb.
  unfold set_base, set_name. change (row_ok 0) with true. cbn [andb Z.eqb mbind option_bind String.length Nat.ltb Nat.leb].
  unfold SET_event_cs. rewrite (running_find _ m 0); [|by destruct R|done]. unfold on_set_run. cbn [mbind run_bind option_bind].
  eexists. split; [reflexivity|]. split; [done|]. cbn. split; [by rewrite lookup_insert_eq|].
  intros d2 ->. by rewrite aget_aset_eq.
Qed.

(** The threads of a process are never listed: only the first column of [pid_base] is
    set to -1, and the search for a free place looks for -1 in the others.  A
    process number from 512 on is outside the tables: no such process can be
    created or started. *)
Theorem name_tables_limits g d :
  (forall tgid pid k, row_ok tgid = true -> pid_base d = init_pid_base ∅ -> (k <= 31)%nat -> note_thread k 1 tgid pid d = Some d) /\
  (512 <= s32 (g_word g (u32 (g_reg g 0 + 492))) -> forall d', event_fork g d <> Ret (Some d')) /\
  (512 <= now_pid (sd_set d) -> forall d', event_execve can_open elf config g d <> Ret (Some d')).
Proof.
  split; [|split].
  - intros tgid pid k Hr Hb Hk. assert (Hc : forall i, 1 <= i < 32 -> (pid_base d).[tgid * 32 + i] = 0).
    { intros i Hi. rewrite Hb. unfold init_pid_base, forZ.
      rewrite (forZ_columns 512) by lia. apply aget_empty. }
    apply (note_thread_none d tgid pid Hr Hc); lia.
  - intros Hp d'. unfold event_fork.
    assert (Hs : forall i x u, set_base (s32 (g_word g (u32 (g_reg g 0 + 492)))) i x u = None)
      by (intros; unfold set_base, row_ok, NAME_ROWS; by rewrite (proj2 (Z.ltb_ge _ 512)), andb_false_r by lia).
    destruct (has (g_reg g 1) 256); [|by rewrite Hs]. destruct (negb _); [|by rewrite Hs].
    destruct (SET_event_thread_create _ _) as [[s|]| |]; cbn [mbind run_bind option_bind]; try done.
    destruct (note_thread _ _ _ _ _); cbn [mbind option_bind]; [|done]. by rewrite Hs.
  - intros Hp d'. unfold event_execve. cbn [trace_kernel with_current].
    destruct (_ && _); [by destruct (SET_delete_process _ _)|]. unfold name_if_empty, name_at, row_ok, NAME_ROWS.
    cbn [sd_set with_current]. by rewrite (proj2 (Z.ltb_ge _ 512)), andb_false_r by lia.
Qed.

(** A process that is traced from the start of the system has no file for Dalvik
    programs ([BOOTUP] has no [SET_PROCESS_DALVIK]), but the mapping of a dex
    file writes to it all the same. *)
Theorem boot_dex_undefined can model name start mend pgoff d x t o o0 :
  open_streams can model BOOTUP SET_output_create = (o0, true) -> f_dex o = f_dex o0 ->
  tracing_process (sd_set d) <> 0 -> heap (sd_set d) !! tracing_process (sd_set d) = Some x ->
  fetch_trace x (sd_set d) = Some t -> t_output t = Some o -> t_type t = BOOTUP ->
  SET_is_dex name = true -> file_exists (path_of (android_out +:+ "/" +:+ dex_name name)) = true ->
  (length (t_dexs t) < MAX_DEX_TABLE_SIZE)%nat ->
  SET_event_mmap file_exists elf set_out android_out name start mend pgoff d = Ret None.
Proof.
  intros Ho Hf Hp Hx Ht Hto Hty Hd Hfe Hn. unfold SET_event_mmap. rewrite (proj2 (Z.eqb_neq _ 0)) by done.
  rewrite Hx. cbn [mbind option_bind]. rewrite Ht. unfold mmap_process. rewrite Hd, Hty, Hfe.
  change (has BOOTUP _) with true. destruct (_ <=? String.length name)%nat; [done|]. cbn [SET_create_dex]. unfold SET_attach_dex.
  rewrite (proj2 (Nat.eqb_neq _ _)) by lia. rewrite Hto. unfold SET_output_write_dex. rewrite Hf.
  by rewrite (boot_no_dex _ _ _ Ho).
Qed.
End Guest.

(** ** Witnesses *)

Definition demo_kt : KerTable := match get_special_kernel_func (Some demo_kernel) KER_TABLE_SIZE with Ret (Some t) => t | _ => kt0 end.
Definition demo_events (s : SET) : SETdev := mk_SETdev s 2 0 demo_kt (init_pid_base ∅) ∅ "" "" false 0 ∅.
(** The program of number 7 has started, then the system switched away. *)
Definition demo_started : SET :=
  match SET_event_execve (fun _ => true) (fun _ => None) (fun _ => None) "app" (demo_set 0x80) 2 with
  | Ret (Some (s, _)) => with_tracing 0 s
  | _ => demo_set 0x80
  end.
(** [__switch_to] with the next task of number [pid] *)
Definition demo_guest (pid : Z) : guest_cpu :=
  mk_guest (fun r => if r =? 2 then 0x1000 else 0) (fun a => if a =? 0x100c then 0x2000 else if a =? 0x21ec then pid else 0)
    (fun _ => ""%string).

Lemma one_runs s pid p x :
  procHashTable s = {[pid := p]} -> heap s !! p = Some x -> t_pid (p_trace x) = pid -> p_hash_pos x = pid -> p <> 0 ->
  0 <= pid < PROC_HASH_TABLE_SIZE -> running s {[pid := p]}.
Proof.
  intros Ht Hx H1 H2 Hp Hr. split; rewrite Ht.
  - intros k q [<- <-]%lookup_singleton_Some. split_and!; try done; [lia..| |by exists x].
    unfold aget. by rewrite lookup_singleton_eq.
  - intros i _. unfold aget. destruct (decide (i = pid)) as [->|Hne]; [by rewrite lookup_singleton_eq|].
    by rewrite lookup_singleton_ne.
Qed.


Example dex_name_example : dex_name "system@app@Mms.apk@classes.dex" = "system/app/Mms.apk"%string.
Proof. reflexivity. Qed.
Example thread_name_example :
  thread_name (mk_guest (fun r => r) (fun a => if a =? 7 then 5 else 9) (fun a => if a =? 2 then "%s/%u"%string else "kworker"%string)) "" =
  Some "kworker/5"%string.
Proof. reflexivity. Qed.
