(* ===== verification/SetExit.v ===== *)
(** * The tracer's exit ([SET_exit] of [SET/SET.c])

    When the emulator ends, the tracer deletes the registered processes and turns the VPMU
    off.  Threads share their output and a counter; the last of them closes the output, that is,
    writes what is still buffered. *)
From stdpp Require Import strings.
From S2P Require Import Prelude Vpmu VpmuConfig VpmuDevice SetOut SetTrace SetProcess.

Fixpoint delete_processes (l : list Z) (s : SET) : option SET :=
  match l with [] => Some s | p :: l => s ← SET_delete_process p s; delete_processes l s end.

(** [set.is_start] is an argument and the first result. *)
Definition SET_exit (is_start : bool) (s : SET) : option (bool * SET) :=
  if is_start then
    s ← delete_processes (registered s) s;
    Some (false, SET_stop_vpmu (with_table (procTable s) 0 s))
  else Some (is_start, s).

(** ** Helper lemmas *)

(** The processes with the counter [t] *)
Definition sharers (m : gmap Z SETProcess) (t : Z) : gset Z := dom (filter (fun x : Z * SETProcess => p_tracing x.2 = t) m).

Lemma elem_sharers m t p : p ∈ sharers m t <-> exists x, m !! p = Some x /\ p_tracing x = t.
Proof.
  unfold sharers. rewrite elem_of_dom. split.
  - intros [x Hx]. apply map_lookup_filter_Some in Hx. by exists x.
  - intros (x & Hm & Ht). exists x. by apply map_lookup_filter_Some.
Qed.
Lemma sharers_delete m p t : sharers (delete p m) t = sharers m t ∖ {[p]}.
Proof.
  apply set_eq. intros q. rewrite elem_of_difference, elem_of_singleton, !elem_sharers. setoid_rewrite lookup_delete_Some.
  split; [intros (h & [Hne Hq] & Ht)|intros [(h & Hq & Ht) Hne]]; eauto 10.
Qed.
Lemma sharers_size m p t : p ∈ sharers m t -> size (sharers (delete p m) t) = (size (sharers m t) - 1)%nat.
Proof.
  intros Hp. rewrite sharers_delete, size_difference; [by rewrite size_singleton|by apply singleton_subseteq_l].
Qed.

(** Every process has its counter and its output, shared with its threads only. *)
Record owned (s : SET) : Prop := {
  ow_counter p x : heap s !! p = Some x ->
    p <> 0 /\ exists c, counters s !! p_tracing x = Some c /\ Z.of_nat (size (sharers (heap s) (p_tracing x))) <= Z.max 1 c;
  ow_output p x : heap s !! p = Some x -> p_output x <> 0 ->
    exists o, outputs s !! p_output x = Some o /\ is_Some (SET_output_close o);
  ow_threads p q x y : heap s !! p = Some x -> heap s !! q = Some y ->
    p_output x = p_output y -> p_output x <> 0 -> p_tracing x = p_tracing y;
  ow_shared p q x y : heap s !! p = Some x -> heap s !! q = Some y -> p_tracing x = p_tracing y -> p_output x = p_output y }.

(** What deleting a process does, when its counter is [c] *)
Definition closed_output (x : SETProcess) (c : Z) (s : SET) : gmap Z SETOut :=
  if c - 1 <? 1 then
    match (o ← outputs s !! p_output x; SET_output_close o) with
    | Some o => if p_output x =? 0 then outputs s else <[p_output x := o]> (outputs s)
    | None => outputs s
    end
  else outputs s.

Lemma delete_shape p x c s : p <> 0 -> heap s !! p = Some x -> counters s !! p_tracing x = Some c ->
  (p_output x <> 0 -> exists o, outputs s !! p_output x = Some o /\ is_Some (SET_output_close o)) ->
  exists s', SET_delete_process p s = Some s' /\ heap s' = delete p (heap s) /\
    counters s' = (if c - 1 <? 1 then delete (p_tracing x) (counters s) else <[p_tracing x := c - 1]> (counters s)) /\
    outputs s' = closed_output x c s /\ procTable s' = procTable s /\ procTableSize s' = procTableSize s.
Proof.
  intros Hp Hx Hc Ho. unfold SET_delete_process, closed_output. rewrite (proj2 (Z.eqb_neq p 0)) by done. rewrite Hx.
  cbn [mbind option_bind]. rewrite Hc. cbn [mbind option_bind]. destruct (c - 1 <? 1); [|cbn; eexists; split_and!; done].
  destruct (Z.eqb_spec (p_output x) 0) as [E|E].
  - cbn. eexists. split_and!; try done; cbn; [by rewrite delete_insert_eq|].
    by destruct (outputs s !! p_output x ≫= SET_output_close).
  - destruct (Ho E) as (o & Eo & [o' Eo']). cbn [outputs with_counters]. rewrite Eo. cbn [mbind option_bind]. rewrite Eo'. cbn.
    eexists. split_and!; try done. cbn. by rewrite delete_insert_eq.
Qed.

Lemma closed_output_other x c s w : p_output x <> w \/ 1 <= c - 1 -> closed_output x c s !! w = outputs s !! w.
Proof.
  unfold closed_output. intros H. destruct (Z.ltb_spec (c - 1) 1); [|done].
  destruct (outputs s !! p_output x ≫= SET_output_close) as [o1|]; [|done].
  destruct (p_output x =? 0); [done|]. apply lookup_insert_ne. destruct H; [done|lia].
Qed.

Lemma last_sharer s p x c : owned s -> heap s !! p = Some x -> counters s !! p_tracing x = Some c -> c - 1 < 1 ->
  forall q y, heap s !! q = Some y -> p_tracing y = p_tracing x -> q = p.
Proof.
  intros O Hx Hc H1 q y Hy Ht. destruct (ow_counter s O p x Hx) as (_ & c' & Hc' & Hs). assert (c' = c) as -> by congruence.
  destruct (decide (q = p)) as [|Hne]; [done|].
  assert (Hsub : ({[p]} ∪ {[q]} : gset Z) ⊆ sharers (heap s) (p_tracing x)).
  { intros a. rewrite elem_of_union, !elem_of_singleton, elem_sharers. intros [->| ->]; eauto. }
  apply subseteq_size in Hsub. rewrite size_union, !size_singleton in Hsub by set_solver. lia.
Qed.

Lemma delete_owned s p x c : owned s -> heap s !! p = Some x -> counters s !! p_tracing x = Some c ->
  exists s', SET_delete_process p s = Some s' /\ owned s' /\ heap s' = delete p (heap s) /\
    counters s' = (if c - 1 <? 1 then delete (p_tracing x) (counters s) else <[p_tracing x := c - 1]> (counters s)) /\
    outputs s' = closed_output x c s /\ procTable s' = procTable s /\ procTableSize s' = procTableSize s.
Proof.
  intros O Hx Hc. destruct (ow_counter s O p x Hx) as (H0 & c' & Hc' & Hs). assert (c' = c) as -> by congruence.
  destruct (delete_shape p x c s H0 Hx Hc) as (s' & E & Eh & Ec & Eo & Et & En); [by apply (ow_output s O p)|].
  exists s'. split_and!; try done. assert (Hin : p ∈ sharers (heap s) (p_tracing x)) by (apply elem_sharers; eauto).
  split; rewrite Eh; intros q; setoid_rewrite lookup_delete_Some.
  - intros y [Hne Hy]. destruct (ow_counter s O q y Hy) as (Hq & cy & Hcy & Hsy). split; [done|].
    assert (Hle : Z.of_nat (size (sharers (delete p (heap s)) (p_tracing y))) <= Z.max 1 cy).
    { etransitivity; [|done]. apply inj_le, subseteq_size. by rewrite sharers_delete; apply subseteq_difference_l. }
    rewrite Ec. destruct (decide (p_tracing y = p_tracing x)) as [Ey|Ey].
    + destruct (Z.ltb_spec (c - 1) 1) as [H1|H1]; [by destruct Hne; symmetry; eapply (last_sharer s p x c O Hx Hc H1)|].
      rewrite Ey, lookup_insert_eq in *. exists (c - 1). split; [done|]. rewrite sharers_size by done. lia.
    + exists cy. split; [|done]. destruct (c - 1 <? 1); [by rewrite lookup_delete_ne|by rewrite lookup_insert_ne].
  - intros y [Hne Hy] Hw. destruct (ow_output s O q y Hy Hw) as (o & Ho & Hcl). exists o. split; [|done].
    rewrite Eo, closed_output_other; [done|]. destruct (Z.ltb_spec (c - 1) 1) as [H1|H1]; [left|by right]. intros Ew.
    apply Hne. symmetry. eapply (last_sharer s p x c O Hx Hc H1); [done|]. symmetry. eapply (ow_threads s O p q); congruence.
  - intros q' y z [_ Hy] [_ Hz]. by apply (ow_threads s O q q').
  - intros q' y z [_ Hy] [_ Hz]. by apply (ow_shared s O q q').
Qed.

(** While processes of the counter [t] are left to delete, their output [w] is as it was; then it is closed. *)
Definition closing (w t : Z) (o o' : SETOut) (l : list Z) (s : SET) : Prop :=
  (forall q y, heap s !! q = Some y -> p_output y = w -> p_tracing y = t) /\
  ((exists c, counters s !! t = Some c /\ c = Z.of_nat (size (sharers (heap s) t)) /\ 1 <= c /\
      outputs s !! w = Some o /\ forall q y, heap s !! q = Some y -> p_tracing y = t -> q ∈ l /\ p_output y = w) \/
   outputs s !! w = Some o' /\ forall q y, heap s !! q = Some y -> p_tracing y <> t).

Lemma closing_step w t o o' p l s s' x c : owned s -> heap s !! p = Some x -> counters s !! p_tracing x = Some c ->
  heap s' = delete p (heap s) ->
  counters s' = (if c - 1 <? 1 then delete (p_tracing x) (counters s) else <[p_tracing x := c - 1]> (counters s)) ->
  outputs s' = closed_output x c s -> w <> 0 -> SET_output_close o = Some o' -> p ∉ l ->
  closing w t o o' (p :: l) s -> closing w t o o' l s'.
Proof.
  intros O Hx Hc Eh Ec Eo Hw Ho Hp [Hsame Hcl]. unfold closing. rewrite Eh, Ec, Eo. setoid_rewrite lookup_delete_Some.
  split; [intros q y [_ Hy]; eauto|]. destruct Hcl as [(c' & Ht & Hcs & H1 & Hout & Hl)|[Hout Hgone]].
  - destruct (decide (p_tracing x = t)) as [Et|Et].
    + rewrite Et in *. assert (c' = c) as -> by congruence. destruct (Hl p x Hx Et) as [_ Ew].
      assert (Hin : p ∈ sharers (heap s) t) by (apply elem_sharers; eauto).
      destruct (Z.ltb_spec (c - 1) 1) as [Hlast|Hmore].
      * right. split; [|intros q y [Hne Hy] Hyt; apply Hne; symmetry; eapply (last_sharer s p x c); eauto; congruence].
        unfold closed_output. rewrite (proj2 (Z.ltb_lt (c - 1) 1)), Ew, Hout by done. cbn. rewrite Ho, (proj2 (Z.eqb_neq w 0)) by done.
        by rewrite lookup_insert_eq.
      * left. exists (c - 1). rewrite lookup_insert_eq. split_and!; [done|rewrite sharers_size by done; lia|lia| |].
        { rewrite closed_output_other; [done|by right]. }
        intros q y [Hne Hy] Hyt. destruct (Hl q y Hy Hyt) as [[->|]%elem_of_cons ?]; done.
    + left. exists c'. split_and!; [by destruct (_ <? _); [rewrite lookup_delete_ne|rewrite lookup_insert_ne]| |done| |].
      * rewrite sharers_delete, Hcs. do 2 f_equal. apply set_eq. intros q. rewrite elem_of_difference, elem_of_singleton.
        split; [|tauto]. intros Hq. split; [done|]. intros ->. apply elem_sharers in Hq as (y & Hy & Hyt). congruence.
      * rewrite closed_output_other; [done|]. left. intros Ew. apply Et. by apply (Hsame p).
      * intros q y [Hne Hy] Hyt. destruct (Hl q y Hy Hyt) as [[->|]%elem_of_cons ?]; done.
  - right. split; [|intros q y [_ Hy]; eauto]. rewrite closed_output_other; [done|]. left. intros Ew.
    apply (Hgone p x Hx). by apply (Hsame p).
Qed.

(** A counter that counts more than its processes never reaches the end. *)
Definition staying (w t : Z) (o : SETOut) (s : SET) : Prop :=
  (forall q y, heap s !! q = Some y -> p_output y = w -> p_tracing y = t) /\
  outputs s !! w = Some o /\ exists c, counters s !! t = Some c /\ Z.of_nat (size (sharers (heap s) t)) < c.

Lemma staying_step w t o p s s' x c : heap s !! p = Some x -> counters s !! p_tracing x = Some c ->
  heap s' = delete p (heap s) ->
  counters s' = (if c - 1 <? 1 then delete (p_tracing x) (counters s) else <[p_tracing x := c - 1]> (counters s)) ->
  outputs s' = closed_output x c s -> staying w t o s -> staying w t o s'.
Proof.
  intros Hx Hc Eh Ec Eo (Hsame & Hout & c' & Ht & Hlt). unfold staying. rewrite Eh, Ec, Eo. setoid_rewrite lookup_delete_Some.
  split; [intros q y [_ Hy]; eauto|]. destruct (decide (p_tracing x = t)) as [Et|Et].
  - rewrite Et in *. assert (c' = c) as -> by congruence.
    assert (Hin : p ∈ sharers (heap s) t) by (apply elem_sharers; eauto). pose proof (sharers_size _ _ _ Hin) as Es.
    assert (H1 : (1 <= size (sharers (heap s) t))%nat).
    { apply singleton_subseteq_l, subseteq_size in Hin. by rewrite size_singleton in Hin. }
    rewrite closed_output_other by (right; lia). split; [done|]. rewrite (proj2 (Z.ltb_ge (c - 1) 1)) by lia.
    exists (c - 1). rewrite lookup_insert_eq. split; [done|]. lia.
  - rewrite closed_output_other; [|left; intros Ew; apply Et; by apply (Hsame p)]. split; [done|]. exists c'.
    split; [by destruct (_ <? _); [rewrite lookup_delete_ne|rewrite lookup_insert_ne]|].
    eapply Z.le_lt_trans; [|exact Hlt]. apply inj_le, subseteq_size. rewrite sharers_delete. by apply subseteq_difference_l.
Qed.

Lemma delete_all l : forall s, owned s -> NoDup l -> (forall p, p ∈ l -> is_Some (heap s !! p)) ->
  exists s', delete_processes l s = Some s' /\ owned s' /\ (forall p, heap s' !! p = if decide (p ∈ l) then None else heap s !! p) /\
    forall w t o o', w <> 0 -> SET_output_close o = Some o' -> (closing w t o o' l s -> closing w t o o' [] s') /\ (staying w t o s -> staying w t o s').
Proof.
  induction l as [|p l IH]; intros s O Hd Hl.
  - exists s. by split_and!.
  - apply NoDup_cons in Hd as [Hp Hd]. destruct (Hl p) as [x Hx]; [by left|].
    destruct (ow_counter s O p x Hx) as (_ & c & Hc & _).
    destruct (delete_owned s p x c O Hx Hc) as (s1 & E & O1 & Eh & Ec & Eo & _). cbn. rewrite E. cbn.
    destruct (IH s1 O1 Hd) as (s' & -> & O' & Hh & Hcl).
    { intros q Hq. rewrite Eh, lookup_delete_ne; [apply Hl; by right|]. by intros ->. }
    exists s'. split_and!; try done.
    + intros q. rewrite Hh, Eh. destruct (decide (p = q)) as [->|Hne].
      * rewrite lookup_delete_eq, (decide_True (P := q ∈ q :: l)) by (by left). by destruct (decide _).
      * rewrite lookup_delete_ne by done. destruct (decide (q ∈ l)); [rewrite decide_True by (by right); done|].
        rewrite decide_False; [done|]. intros [->|]%elem_of_cons; done.
    + intros w t o o' Hw Ho. destruct (Hcl w t o o' Hw Ho) as [H1 H2].
      split; intros H; [apply H1; by eapply (closing_step w t o o' p l s s1 x c)|apply H2; by eapply (staying_step w t o p s s1 x c)].
Qed.

Lemma stop_keeps s : heap (SET_stop_vpmu s) = heap s /\ outputs (SET_stop_vpmu s) = outputs s /\
  procTableSize (SET_stop_vpmu s) = procTableSize s /\ vpmu_on (SET_stop_vpmu s) = false.
Proof. unfold SET_stop_vpmu. destruct (vpmu_on s) eqn:E; [|by split_and!]. by split_and!. Qed.

(** ** Theorems *)

(** C28: Leaving the emulator saves the traces.  If the registered processes are in use and each has its
    counter and output, [SET_exit] ends with all of them deleted and the VPMU off.  The output of a
    process whose threads are all registered, and counted once each, is closed with everything that was
    buffered.  An output whose counter is higher, because a program of the name was started
    twice, is not closed: what is buffered never reaches the files. *)
Theorem SET_exit_closes s : owned s -> NoDup (registered s) -> (forall p, p ∈ registered s -> is_Some (heap s !! p)) ->
  exists s', SET_exit true s = Some (false, s') /\ registered s' = [] /\ vpmu_on s' = false /\
    (forall p, heap s' !! p = if decide (p ∈ registered s) then None else heap s !! p) /\
    forall p x c o o', heap s !! p = Some x -> p_output x <> 0 -> counters s !! p_tracing x = Some c -> 1 <= c ->
      outputs s !! p_output x = Some o -> SET_output_close o = Some o' ->
      (forall q y, heap s !! q = Some y -> p_tracing y = p_tracing x -> q ∈ registered s) ->
      outputs s' !! p_output x = Some (if decide (c = Z.of_nat (size (sharers (heap s) (p_tracing x)))) then o' else o).
Proof.
  intros O Hd Hl. destruct (delete_all (registered s) s O Hd Hl) as (s1 & E & O1 & Hh & Hcl).
  unfold SET_exit. rewrite E. cbn [mbind option_bind]. destruct (stop_keeps (with_table (procTable s1) 0 s1)) as (E1 & E2 & E3 & E4).
  eexists. split; [done|]. split_and!.
  - unfold registered. by rewrite E3.
  - done.
  - intros p. by rewrite E1.
  - intros p x c o o' Hx Hw Hc H1 Hout Ho Hreg. rewrite E2. cbn. destruct (Hcl (p_output x) (p_tracing x) o o' Hw Ho) as [Hc1 Hs1].
    assert (Hsame : forall q y, heap s !! q = Some y -> p_output y = p_output x -> p_tracing y = p_tracing x).
    { intros q y Hy Ey. symmetry. eapply (ow_threads s O p q); eauto. }
    destruct (decide (c = _)) as [Ec|Ec].
    + destruct Hc1 as (_ & [(c' & Hc' & Es & H1' & _ & Hall)|[Hout' _]]); [|exfalso|done].
      * split; [done|]. left. exists c. split_and!; try done. intros q y Hy Ht. split; [by eapply Hreg|]. by apply (ow_shared s O q p).
      * assert (Hne : (0 < size (sharers (heap s1) (p_tracing x)))%nat) by lia.
        destruct (decide (sharers (heap s1) (p_tracing x) = ∅)) as [E0|E0]; [rewrite E0, size_empty in Hne; lia|].
        apply set_choose_L in E0 as [q Hq]. apply elem_sharers in Hq as (y & Hy & Hyt). destruct (Hall q y Hy Hyt) as [[]%elem_of_nil _].
    + destruct Hs1 as (_ & Hout' & _); [|done]. split; [done|]. split; [done|]. exists c. split; [done|].
      destruct (ow_counter s O p x Hx) as (_ & c' & Hc' & Hle). assert (c' = c) as -> by congruence. lia.
Qed.

(** *** Concrete runs *)

(** A program that is traced makes a system call and a thread; the thread makes another. *)
Definition and_then (r : run (option SET)) (f : SET -> run (option SET)) : run (option SET) :=
  s ← r; match s with Some s => f s | None => Ret None end.
Definition started (s : SET) : run (option SET) :=
  r ← SET_event_execve (fun _ => true) (fun _ => None) demo_files "app" s 2; Ret (option_map fst r).
Definition makes_call (n : Z) : SET -> run (option SET) := on_tracing (fun t => Ret (SET_event_syscall (demo_rd n) n t)).
Definition ended (r : run (option SET)) : SET := match r with Ret (Some s) => s | _ => demo_set0 end.
Definition two_threads : SET := Eval vm_compute in
  ended (and_then (and_then (and_then (and_then (started (demo_set 5)) (makes_call 4)) (SET_event_thread_create 8)) (SET_event_cs 8)) (makes_call 1)).
(** The program is started a second time. *)
Definition two_starts : SET := Eval vm_compute in ended (and_then (and_then (started (demo_set 5)) (makes_call 4)) started).


Definition ownedb (s : SET) : bool :=
  let l := map_to_list (heap s) in
  forallb (fun p =>
    negb (p.1 =? 0) &&
    match counters s !! p_tracing p.2 with
    | Some c => Z.of_nat (size (sharers (heap s) (p_tracing p.2))) <=? Z.max 1 c
    | None => false
    end &&
    ((p_output p.2 =? 0) || match outputs s !! p_output p.2 with Some o => bool_decide (is_Some (SET_output_close o)) | None => false end) &&
    forallb (fun q =>
      (negb (p_output p.2 =? p_output q.2) || (p_output p.2 =? 0) || (p_tracing p.2 =? p_tracing q.2)) &&
      (negb (p_tracing p.2 =? p_tracing q.2) || (p_output p.2 =? p_output q.2))) l) l.
Lemma ownedb_ok s : ownedb s = true -> owned s.
Proof.
  unfold ownedb. rewrite forallb_forall. intros H.
  assert (Hp : forall p x, heap s !! p = Some x -> In (p, x) (map_to_list (heap s))).
  { intros p x Hx. by apply list_elem_of_In, elem_of_map_to_list. }
  assert (Hpq := fun p x q y Hx Hy => proj1 (forallb_forall _ _) (proj2 (andb_prop _ _ (H (p, x) (Hp p x Hx)))) (q, y) (Hp q y Hy)).
  assert (Hone := fun p x Hx => proj1 (andb_prop _ _ (H (p, x) (Hp p x Hx)))). cbn in Hpq, Hone. split.
  - intros p x Hx. specialize (Hone p x Hx). rewrite !andb_true_iff, negb_true_iff in Hone. destruct Hone as [[H0 Hc] _].
    split; [by apply Z.eqb_neq|]. destruct (counters s !! p_tracing x) as [c|]; [|done]. exists c. split; [done|]. by apply Z.leb_le.
  - intros p x Hx Hw. specialize (Hone p x Hx). rewrite !andb_true_iff, orb_true_iff in Hone. destruct Hone as [_ [E|E]].
    { by apply Z.eqb_eq in E. }
    destruct (outputs s !! p_output x) as [o|]; [|done]. exists o. split; [done|]. by apply bool_decide_eq_true in E.
  - intros p q x y Hx Hy Ew Hw. specialize (Hpq p x q y Hx Hy). rewrite andb_true_iff, !orb_true_iff, !negb_true_iff, !Z.eqb_eq, !Z.eqb_neq in Hpq.
    destruct Hpq as [[[E|E]|E] _]; congruence.
  - intros p q x y Hx Hy Et. specialize (Hpq p x q y Hx Hy). rewrite andb_true_iff, !orb_true_iff, !negb_true_iff, !Z.eqb_eq, !Z.eqb_neq in Hpq.
    destruct Hpq as [_ [E|E]]; congruence.
Qed.

Lemma registered_live s : forallb (fun p => bool_decide (is_Some (heap s !! p))) (registered s) = true ->
  forall p, p ∈ registered s -> is_Some (heap s !! p).
Proof. rewrite forallb_forall. intros H p Hp%list_elem_of_In. by apply H, bool_decide_eq_true in Hp. Qed.

Lemma all_registered s : forallb (fun p => bool_decide (p.1 ∈ registered s)) (map_to_list (heap s)) = true ->
  forall q y, heap s !! q = Some y -> q ∈ registered s.
Proof.
  rewrite forallb_forall. intros H q y Hy. apply elem_of_map_to_list, list_elem_of_In in Hy. by apply H, bool_decide_eq_true in Hy.
Qed.

(** Both system calls are in the file after the exit; after the second start, the one there was is not. *)
Theorem SET_exit_closes_witness :
  exists s1 s2, SET_exit true two_threads = Some (false, s1) /\ (o ← outputs s1 !! 1; file (s_syscall o)) = Some [4; 1] /\
    SET_exit true two_starts = Some (false, s2) /\ (o ← outputs s2 !! 1; file (s_syscall o)) = Some [].
Proof.
  assert (D1 : NoDup (registered two_threads)) by (apply (bool_decide_eq_true_1 _); vm_compute; reflexivity).
  assert (D2 : NoDup (registered two_starts)) by (apply (bool_decide_eq_true_1 _); vm_compute; reflexivity).
  destruct (SET_exit_closes two_threads ltac:(apply ownedb_ok; vm_compute; reflexivity) D1
    ltac:(apply registered_live; vm_compute; reflexivity)) as (s1 & E1 & _ & _ & _ & H1).
  destruct (SET_exit_closes two_starts ltac:(apply ownedb_ok; vm_compute; reflexivity) D2
    ltac:(apply registered_live; vm_compute; reflexivity)) as (s2 & E2 & _ & _ & _ & H2).
  exists s1, s2. split; [exact E1|]. split; [|split; [exact E2|]].
  - assert (X : exists x o o', heap two_threads !! 1 = Some x /\ p_output x = 1 /\ p_tracing x = 1 /\ counters two_threads !! 1 = Some 2 /\
      outputs two_threads !! 1 = Some o /\ SET_output_close o = Some o' /\ file (s_syscall o') = Some [4; 1] /\
      size (sharers (heap two_threads) 1) = 2%nat) by (do 3 eexists; vm_compute; split_and!; reflexivity).
    destruct X as (x & o & o' & Hx & Ew & Et & Hc & Ho & Hcl & Hf & Hs). rewrite <- Et in Hc, Hs.
    specialize (H1 1 x 2 o o' Hx). rewrite Ew, Hs, decide_True in H1 by reflexivity.
    rewrite (H1 ltac:(discriminate) Hc ltac:(discriminate) Ho Hcl); [exact Hf|].
    intros q y Hy _. revert q y Hy. apply all_registered. vm_compute. reflexivity.
  - assert (X : exists x o o', heap two_starts !! 1 = Some x /\ p_output x = 1 /\ p_tracing x = 1 /\ counters two_starts !! 1 = Some 2 /\
      outputs two_starts !! 1 = Some o /\ SET_output_close o = Some o' /\ file (s_syscall o) = Some [] /\
      size (sharers (heap two_starts) 1) = 1%nat) by (do 3 eexists; vm_compute; split_and!; reflexivity).
    destruct X as (x & o & o' & Hx & Ew & Et & Hc & Ho & Hcl & Hf & Hs). rewrite <- Et in Hc, Hs.
    specialize (H2 1 x 2 o o' Hx). rewrite Ew, Hs, decide_False in H2 by discriminate.
    rewrite (H2 ltac:(discriminate) Hc ltac:(discriminate) Ho Hcl); [exact Hf|].
    intros q y Hy _. revert q y Hy. apply all_registered. vm_compute. reflexivity.
Defined.
