(* ===== verification/SetRelease.v ===== *)
(** * What the tracer frees, and when ([SET/SET.c], [SET/SET_object.c], [SET/SET_dex.c])

    Object and dex files are shared: a thread has the tables of the process it was
    copied from, a Dalvik program those of zygote.  A file counts the
    processes that hold it, threads together as one; the processes that share a counter
    [tracing] free what they hold when the last of them is deleted.

    [SetProcess] has everything else of a process (names, output, stacks, the tables);
    here is, of the same functions, what they do to the counts.  A pointer is
    a number, 0 is NULL; the maps have the ones in use, and following another
    is undefined behaviour ([None]). *)
From S2P Require Import Prelude SetOut SetTrace.

(** ** State *)

(** [struct ObjFile], [struct DexFile]: where the file starts and how often it is held *)
Record shared := mk_shared { f_start : Z; f_count : Z }.
Abbreviation files := (gmap Z shared).

(** [struct SETProcess]: type, counter and tables *)
Record holder := mk_holder { h_type : Z; h_tracing : Z; h_objKernel : Z; h_objTable : list Z; h_dexTable : list Z }.

(** [brk]: the next address [malloc] returns *)
Record refs := mk_refs { holders : gmap Z holder; tracings : gmap Z Z; objs : files; dexs : files; brk : Z }.

Definition with_holders (m : gmap Z holder) (r : refs) : refs := mk_refs m (tracings r) (objs r) (dexs r) (brk r).
Definition with_tracings (m : gmap Z Z) (r : refs) : refs := mk_refs (holders r) m (objs r) (dexs r) (brk r).
Definition with_objs (m : files) (r : refs) : refs := mk_refs (holders r) (tracings r) m (dexs r) (brk r).
Definition with_dexs (m : files) (r : refs) : refs := mk_refs (holders r) (tracings r) (objs r) m (brk r).
Definition malloc (r : refs) : Z * refs := (brk r, mk_refs (holders r) (tracings r) (objs r) (dexs r) (brk r + 1)).

Definition set_objKernel (o : Z) (h : holder) : holder := mk_holder (h_type h) (h_tracing h) o (h_objTable h) (h_dexTable h).
Definition set_objTable (l : list Z) (h : holder) : holder := mk_holder (h_type h) (h_tracing h) (h_objKernel h) l (h_dexTable h).
Definition set_dexTable (l : list Z) (h : holder) : holder := mk_holder (h_type h) (h_tracing h) (h_objKernel h) (h_objTable h) l.

(** ** Counting *)

(** [obj->count++], [dex->count++] *)
Definition count_up (o : Z) (m : files) : option files :=
  x ← m !! o; Some (<[o := mk_shared (f_start x) (f_count x + 1)]> m).
(** [SET_detach_obj], [SET_detach_dex], which nothing calls, and the same in line *)
Definition count_down (o : Z) (m : files) : option files :=
  x ← m !! o; Some (<[o := mk_shared (f_start x) (f_count x - 1)]> m).
(** [SET_delete_obj], [SET_delete_dex] *)
Definition delete_unused (o : Z) (m : files) : option files :=
  if o =? 0 then Some m else x ← m !! o; Some (if f_count x <=? 0 then delete o m else m).

(** The loops of [SET_delete_process] *)
Definition release (o : Z) (m : files) : option files := m ← count_down o m; delete_unused o m.
Fixpoint release_all (l : list Z) (m : files) : option files :=
  match l with [] => Some m | o :: l => m ← release o m; release_all l m end.
(** The loops of [SET_event_start_dalvik] *)
Fixpoint share_all (l : list Z) (m : files) : option files :=
  match l with [] => Some m | o :: l => m ← count_up o m; share_all l m end.

(** The insertion into a table: in front of the first entry that starts later *)
Fixpoint insert_file (m : files) (start o : Z) (l : list Z) : option (list Z) :=
  match l with
  | [] => Some [o]
  | y :: l' =>
      x ← m !! y;
      if start <? f_start x then Some (o :: l) else l' ← insert_file m start o l'; Some (y :: l')
  end.

(** ** The operations *)

(** [SET_create_process], when it succeeds; otherwise it frees what it allocated. *)
Definition create_process (type : Z) (r : refs) : Z * refs :=
  let '(p, r) := malloc r in
  let '(t, r) := malloc r in
  (p, with_tracings (<[t := 0]> (tracings r)) (with_holders (<[p := mk_holder type t 0 [] []]> (holders r)) r)).

(** [SET_create_obj], [SET_create_dex], when they succeed.  (When the file cannot be read, the object
    just allocated is lost.) *)
Definition create_obj (start : Z) (r : refs) : Z * refs :=
  let '(o, r) := malloc r in (o, with_objs (<[o := mk_shared start 0]> (objs r)) r).
Definition create_dex (start : Z) (r : refs) : Z * refs :=
  let '(o, r) := malloc r in (o, with_dexs (<[o := mk_shared start 0]> (dexs r)) r).

Definition attach_obj (p o : Z) (r : refs) : option refs :=
  h ← holders r !! p;
  if (length (h_objTable h) =? MAX_OBJ_TABLE_SIZE)%nat then Some r
  else
    m ← count_up o (objs r);
    x ← m !! o;
    l ← insert_file m (f_start x) o (h_objTable h);
    Some (with_holders (<[p := set_objTable l h]> (holders r)) (with_objs m r)).
Definition attach_dex (p o : Z) (r : refs) : option refs :=
  h ← holders r !! p;
  if (length (h_dexTable h) =? MAX_DEX_TABLE_SIZE)%nat then Some r
  else
    m ← count_up o (dexs r);
    x ← m !! o;
    l ← insert_file m (f_start x) o (h_dexTable h);
    Some (with_holders (<[p := set_dexTable l h]> (holders r)) (with_dexs m r)).

(** [SET_delete_process] *)
Definition release_process (h : holder) (r : refs) : option refs :=
  m ← (if h_objKernel h =? 0 then Some (objs r) else release (h_objKernel h) (objs r));
  m ← release_all (h_objTable h) m;
  d ← release_all (h_dexTable h) (dexs r);
  Some (with_tracings (delete (h_tracing h) (tracings r)) (with_dexs d (with_objs m r))).
Definition delete_process (p : Z) (r : refs) : option refs :=
  if p =? 0 then Some r
  else
    h ← holders r !! p;
    c ← tracings r !! h_tracing h;
    let r := with_tracings (<[h_tracing h := c - 1]> (tracings r)) r in
    r ← (if c - 1 <? 1 then release_process h r else Some r);
    Some (with_holders (delete p (holders r)) r).

(** [SET_copy_process] *)
Definition copy_process (p : Z) (r : refs) : option (Z * refs) :=
  h ← holders r !! p;
  c ← tracings r !! h_tracing h;
  let '(q, r) := malloc r in
  Some (q, with_tracings (<[h_tracing h := c + 1]> (tracings r)) (with_holders (<[q := h]> (holders r)) r)).

(** [SET_start_tracing]: [opened], whether the output files could be opened; [program] and
    [kernel], where the files of the program and of the kernel start, when they can be read *)
Definition load_program (program : option Z) (p : Z) (r : refs) : option (bool * refs) :=
  h ← holders r !! p;
  if has (h_type h) SET_PROCESS_USER_C then
    match program with
    | None => Some (false, r)
    | Some start => let '(o, r) := create_obj start r in r ← attach_obj p o r; Some (true, r)
    end
  else Some (true, r).
Definition load_vmlinux (kernel : option Z) (p : Z) (r : refs) : option (bool * refs) :=
  h ← holders r !! p;
  if has (h_type h) KERNEL_OR_IRQ then
    match kernel with
    | None => Some (false, r)
    | Some start =>
        let '(o, r) := create_obj start r in
        m ← count_up o (objs r);
        Some (true, with_holders (<[p := set_objKernel o h]> (holders r)) (with_objs m r))
    end
  else Some (true, r).
Definition count_tracing (p : Z) (r : refs) : option refs :=
  h ← holders r !! p;
  c ← tracings r !! h_tracing h;
  Some (with_tracings (<[h_tracing h := c + 1]> (tracings r)) r).
Definition start_tracing (opened : bool) (program kernel : option Z) (p : Z) (r : refs) : option refs :=
  if opened then
    '(ok, r) ← load_program program p r;
    if (ok : bool) then
      '(ok, r) ← load_vmlinux kernel p r;
      if (ok : bool) then count_tracing p r else delete_process p r
    else delete_process p r
  else delete_process p r.

(** [SET_event_mmap]: a library or a dex file that can be read *)
Definition map_obj (start p : Z) (r : refs) : option refs := let '(o, r) := create_obj start r in attach_obj p o r.
Definition map_dex (start p : Z) (r : refs) : option refs := let '(o, r) := create_dex start r in attach_dex p o r.

(** [SET_event_start_dalvik]: the tables of zygote *)
Definition inherit (p zygote : Z) (r : refs) : option refs :=
  h ← holders r !! p;
  r ← (if has (h_type h) SET_PROCESS_DALVIK then
         h ← holders r !! p; z ← holders r !! zygote;
         m ← share_all (h_dexTable z) (dexs r);
         Some (with_holders (<[p := set_dexTable (h_dexTable z) h]> (holders r)) (with_dexs m r))
       else Some r);
  if has (h_type h) SET_PROCESS_LIBRARY then
    h ← holders r !! p; z ← holders r !! zygote;
    m ← share_all (h_objTable z) (objs r);
    Some (with_holders (<[p := set_objTable (h_objTable z) h]> (holders r)) (with_objs m r))
  else Some r.

Inductive operation :=
| Create (type : Z)
| StartTracing (p : Z) (opened : bool) (program kernel : option Z)
| Copy (p : Z)
| Delete (p : Z)
| MapObj (p start : Z)
| MapDex (p start : Z)
| Inherit (p zygote : Z).

Definition perform (x : operation) (r : refs) : option refs :=
  match x with
  | Create type => Some (snd (create_process type r))
  | StartTracing p opened program kernel => start_tracing opened program kernel p r
  | Copy p => snd <$> copy_process p r
  | Delete p => delete_process p r
  | MapObj p start => map_obj start p r
  | MapDex p start => map_dex start p r
  | Inherit p z => inherit p z r
  end.

(** The operations are on processes in use; only a process whose tracing has begun becomes
    the traced one, and so is copied. *)
Definition permitted (x : operation) (r : refs) : Prop :=
  let live p := is_Some (holders r !! p) in
  match x with
  | Create _ => True
  | StartTracing p _ _ _ | Delete p | MapObj p _ | MapDex p _ => live p
  | Copy p => exists h c, holders r !! p = Some h /\ tracings r !! h_tracing h = Some c /\ 1 <= c
  | Inherit p z => live p /\ live z
  end.

Definition refs0 : refs := mk_refs ∅ ∅ ∅ ∅ 1.
Inductive history : list operation -> refs -> Prop :=
| history_none : history [] refs0
| history_more l x r r' : history l r -> permitted x r -> perform x r = Some r' -> history (l ++ [x]) r'.

(** ** Helper lemmas *)

(** *** Counts and the processes behind them

    A table of who holds what: a process to its counter and the files it holds *)
Abbreviation holding := (gmap Z (Z * list Z)).
(** The counters whose processes hold [f] *)
Definition groups (m : holding) (f : Z) : gset Z :=
  list_to_set ((fun x : Z * (Z * list Z) => x.2.1) <$> filter (fun x => f ∈ x.2.2) (map_to_list m)).

(** Nothing that is held was freed, and every count is at least what it stands for. *)
Record counted (m : holding) (st : files) : Prop := {
  cd_NoDup p x : m !! p = Some x -> NoDup x.2;
  cd_live p x f : m !! p = Some x -> f ∈ x.2 -> is_Some (st !! f);
  cd_count f y : st !! f = Some y -> Z.of_nat (size (groups m f)) <= f_count y }.

Lemma elem_groups m f t : t ∈ groups m f <-> exists p l, m !! p = Some (t, l) /\ f ∈ l.
Proof.
  unfold groups. rewrite elem_of_list_to_set, list_elem_of_fmap. setoid_rewrite list_elem_of_filter. split.
  - intros [[p [t' l]] [-> [Hf Hm]]]. apply elem_of_map_to_list in Hm. by exists p, l.
  - intros (p & l & Hm & Hf). exists (p, (t, l)). by rewrite elem_of_map_to_list.
Qed.

Lemma groups_smaller m m' f : groups m' f ⊆ groups m f -> Z.of_nat (size (groups m' f)) <= Z.of_nat (size (groups m f)).
Proof. intros H. apply subseteq_size in H. lia. Qed.

Lemma counted_smaller m m' st : counted m st ->
  (forall p x, m' !! p = Some x -> exists q, m !! q = Some x) -> counted m' st.
Proof.
  intros [H1 H2 H3] Hm. split.
  - intros p x Hx. destruct (Hm _ _ Hx) as [q Hq]. eauto.
  - intros p x f Hx. destruct (Hm _ _ Hx) as [q Hq]. eauto.
  - intros f y Hy. transitivity (Z.of_nat (size (groups m f))); [|by apply H3]. apply groups_smaller.
    intros t. rewrite !elem_groups. intros (p & l & Hp & Hf). destruct (Hm _ _ Hp) as [q Hq]. eauto.
Qed.

Lemma counted_create m st f start : counted m st -> st !! f = None -> counted m (<[f := mk_shared start 0]> st).
Proof.
  intros [H1 H2 H3] Hf. split; [done| |].
  - intros p x g Hp Hg. destruct (decide (f = g)) as [->|]; simplify_map_eq; eauto.
  - intros g y Hg. destruct (decide (f = g)) as [->|]; simplify_map_eq; [|by apply H3].
    assert (groups m g = ∅) as ->; [|by rewrite size_empty].
    apply set_eq. intros t. rewrite elem_groups. split; [|set_solver].
    intros (p & l & Hp & Hg). destruct (H2 p (t, l) g Hp Hg) as [y Hy]. congruence.
Qed.

(** Taking files over: a count goes up for every new one. *)
Definition uses (f : Z) (l : list Z) : Z := Z.of_nat (length (filter (fun g => g = f) l)).
Lemma uses_cons f g l : uses f (g :: l) = uses f l + (if decide (g = f) then 1 else 0).
Proof. unfold uses. rewrite filter_cons. destruct (decide (g = f)); cbn [length]; lia. Qed.
Lemma uses_in f l : f ∈ l -> 1 <= uses f l.
Proof.
  unfold uses. intros Hf. assert (Hg : f ∈ filter (fun g => g = f) l) by (by apply list_elem_of_filter).
  destruct (filter _ l); [by apply elem_of_nil in Hg|]. cbn. lia.
Qed.

Lemma share_all_spec l : forall st, (forall f, f ∈ l -> is_Some (st !! f)) ->
  exists st', share_all l st = Some st' /\ forall f, st' !! f = (fun y => mk_shared (f_start y) (f_count y + uses f l)) <$> st !! f.
Proof.
  induction l as [|g l IH]; intros st Hl.
  - exists st. split; [done|]. intros f. unfold uses. cbn. destruct (st !! f) as [[]|]; cbn; [by rewrite Z.add_0_r|done].
  - destruct (Hl g) as [y Hy]; [set_solver|]. cbn. unfold count_up. rewrite Hy. cbn.
    destruct (IH (<[g := mk_shared (f_start y) (f_count y + 1)]> st)) as (st' & -> & H).
    { intros f Hf. destruct (decide (g = f)) as [->|]; simplify_map_eq; [done|]. apply Hl. set_solver. }
    exists st'. split; [done|]. intros f. rewrite H, uses_cons. destruct (decide (g = f)) as [->|].
    + rewrite lookup_insert_eq, Hy. cbn. do 2 f_equal. lia.
    + rewrite lookup_insert_ne by done. destruct (st !! f); cbn; [do 2 f_equal; lia|done].
Qed.

Lemma counted_acquire m st st' p t l l' new : counted m st -> m !! p = Some (t, l) -> NoDup l' ->
  (forall f, f ∈ l' -> f ∈ new \/ f ∈ l) -> (forall f, f ∈ new -> is_Some (st !! f)) ->
  (forall f, st' !! f = (fun y => mk_shared (f_start y) (f_count y + uses f new)) <$> st !! f) ->
  counted (<[p := (t, l')]> m) st'.
Proof.
  intros [H1 H2 H3] Hp Hd Hl Hn Hs.
  assert (Hlive : forall f, is_Some (st !! f) -> is_Some (st' !! f)).
  { intros f [y Hy]. rewrite Hs, Hy. by eexists. }
  split.
  - intros q x Hq. destruct (decide (p = q)) as [->|]; simplify_map_eq; eauto.
  - intros q x f Hq Hf. apply Hlive. destruct (decide (p = q)) as [->|]; simplify_map_eq; [|by eapply H2].
    destruct (Hl f Hf) as [|]; [by apply Hn|by apply (H2 q (t, l))].
  - intros f y' Hy'. rewrite Hs in Hy'. destruct (st !! f) as [y|] eqn:Hy; [|done]. injection Hy' as <-. cbn.
    specialize (H3 f y Hy).
    assert (Hsub : groups (<[p := (t, l')]> m) f ⊆ (if decide (f ∈ new) then {[t]} else ∅) ∪ groups m f).
    { intros u. rewrite elem_groups. intros (q & k & Hq & Hf). destruct (decide (p = q)) as [->|]; simplify_map_eq.
      - destruct (Hl f Hf) as [Hin|Hin].
        + rewrite decide_True by done. set_solver.
        + apply elem_of_union_r, elem_groups. eauto.
      - apply elem_of_union_r, elem_groups. eauto. }
    apply subseteq_size in Hsub. destruct (decide (f ∈ new)) as [Hin|Hin].
    + pose proof (uses_in _ _ Hin). pose proof (size_union_alt ({[t]} : gset Z) (groups m f)) as E.
      rewrite size_singleton in E.
      assert (size (groups m f ∖ {[t]}) <= size (groups m f))%nat by (by apply subseteq_size, subseteq_difference_l). lia.
    + rewrite (union_empty_l_L (groups m f)) in Hsub. unfold uses. lia.
Qed.

(** The last process of its counter gives back what it holds. *)
Lemma release_all_spec l : forall st, NoDup l -> (forall f, f ∈ l -> f <> 0 /\ is_Some (st !! f)) ->
  exists st', release_all l st = Some st' /\ forall f,
    st' !! f = (y ← st !! f; if decide (f ∈ l) then if f_count y - 1 <=? 0 then None else Some (mk_shared (f_start y) (f_count y - 1)) else Some y).
Proof.
  induction l as [|g l IH]; intros st Hd Hl.
  - exists st. split; [done|]. intros f. destruct (st !! f); [cbn; by rewrite decide_False by set_solver|done].
  - apply NoDup_cons in Hd as [Hg Hd]. destruct (Hl g) as [Hg0 [y Hy]]; [set_solver|].
    cbn. unfold release, count_down, delete_unused. rewrite Hy. cbn. rewrite (proj2 (Z.eqb_neq g 0)) by done.
    rewrite lookup_insert_eq. cbn.
    set (st1 := if f_count y - 1 <=? 0 then _ else _).
    assert (Hst1 : forall f, f <> g -> st1 !! f = st !! f).
    { intros f Hf. unfold st1. destruct (_ <=? 0); by simplify_map_eq. }
    destruct (IH st1 Hd) as (st' & -> & H).
    { intros f Hf. split; [apply Hl; set_solver|]. rewrite Hst1 by set_solver. apply Hl. set_solver. }
    exists st'. split; [done|]. intros f. rewrite H. destruct (decide (f = g)) as [->|Hfg].
    + rewrite Hy. cbn [mbind option_bind]. rewrite (decide_True _ _ (P := g ∈ g :: l)) by set_solver. unfold st1.
      destruct (_ <=? 0); [by rewrite lookup_delete_eq|]. rewrite lookup_insert_eq. cbn. by rewrite decide_False.
    + rewrite Hst1 by done. destruct (st !! f); [|done]. cbn. destruct (decide (f ∈ l)).
      * by rewrite (decide_True _ _ (P := f ∈ g :: l)) by set_solver.
      * by rewrite (decide_False _ _ (P := f ∈ g :: l)) by set_solver.
Qed.

Lemma counted_release m st p t l : counted m st -> m !! p = Some (t, l) -> 0 ∉ l ->
  (forall q x, m !! q = Some x -> x.1 = t -> q = p) ->
  exists st', release_all l st = Some st' /\ counted (delete p m) st' /\ dom st' ⊆ dom st.
Proof.
  intros [H1 H2 H3] Hp H0 Ho.
  destruct (release_all_spec l st) as (st' & E & H).
  { by apply (H1 p (t, l)). }
  { intros f Hf. split; [by intros ->|by apply (H2 p (t, l))]. }
  exists st'. split; [done|]. split; [split|].
  - intros q x Hq. apply lookup_delete_Some in Hq as [_ Hq]. eauto.
  - intros q x f Hq Hf. apply lookup_delete_Some in Hq as [Hpq Hq]. destruct (H2 q x f Hq Hf) as [y Hy].
    rewrite H, Hy. cbn. destruct (decide (f ∈ l)) as [Hfl|]; [|by eexists].
    rewrite (proj2 (Z.leb_gt _ 0)); [by eexists|]. specialize (H3 f y Hy).
    assert (Hs : ({[t; x.1]} : gset Z) ⊆ groups m f).
    { intros u. rewrite elem_of_union, !elem_of_singleton, elem_groups. intros [->| ->]; [by exists p, l|]. exists q, x.2. by destruct x. }
    apply subseteq_size in Hs. rewrite size_union, !size_singleton in Hs; [lia|].
    apply disjoint_singleton_l. rewrite elem_of_singleton. intros Et. apply Hpq. symmetry. by apply (Ho q x).
  - intros f y' Hy'. rewrite H in Hy'. destruct (st !! f) as [y|] eqn:Hy; [|done]. cbn in Hy'. specialize (H3 f y Hy).
    assert (Hsub : groups (delete p m) f ⊆ groups m f ∖ (if decide (f ∈ l) then {[t]} else ∅)).
    { intros u. rewrite elem_groups. intros (q & k & Hq & Hf). apply lookup_delete_Some in Hq as [Hpq Hq].
      apply elem_of_difference. split; [apply elem_groups; eauto|]. destruct (decide (f ∈ l)); [|set_solver].
      rewrite elem_of_singleton. intros ->. apply Hpq. symmetry. by apply (Ho q (t, k)). }
    apply subseteq_size in Hsub. destruct (decide (f ∈ l)) as [Hfl|].
    + destruct (_ <=? 0) eqn:Ec; [done|]. injection Hy' as <-. cbn.
      assert (Ht : {[t]} ⊆ groups m f) by (apply singleton_subseteq_l, elem_groups; eauto).
      rewrite size_difference in Hsub by done. apply subseteq_size in Ht. rewrite size_singleton in Hsub, Ht. lia.
    + injection Hy' as <-. rewrite difference_empty_L in Hsub. lia.
  - intros f. rewrite !elem_of_dom, H. intros [y Hy]. destruct (st !! f); [by eexists|done].
Qed.

(** *** The invariant *)

Definition obj_refs (h : holder) : list Z := (if h_objKernel h =? 0 then [] else [h_objKernel h]) ++ h_objTable h.
Definition obj_holding (m : gmap Z holder) : holding := (fun h => (h_tracing h, obj_refs h)) <$> m.
Definition dex_holding (m : gmap Z holder) : holding := (fun h => (h_tracing h, h_dexTable h)) <$> m.
(** The processes that share a counter *)
Definition members (m : gmap Z holder) (t : Z) : gset Z := dom (filter (fun x : Z * holder => h_tracing x.2 = t) m).

Lemma elem_members m t p : p ∈ members m t <-> exists h, m !! p = Some h /\ h_tracing h = t.
Proof.
  unfold members. rewrite elem_of_dom. split.
  - intros [h Hh]. apply map_lookup_filter_Some in Hh. by exists h.
  - intros (h & Hm & Ht). exists h. by apply map_lookup_filter_Some.
Qed.

Record sound (r : refs) : Prop := {
  so_objs : counted (obj_holding (holders r)) (objs r);
  so_dexs : counted (dex_holding (holders r)) (dexs r);
  so_members p h : holders r !! p = Some h ->
    exists c, tracings r !! h_tracing h = Some c /\ Z.of_nat (size (members (holders r) (h_tracing h))) <= Z.max 1 c;
  so_kernel p q h h' : holders r !! p = Some h -> holders r !! q = Some h' -> h_objKernel h ∉ h_objTable h';
  so_null : objs r !! 0 = None /\ dexs r !! 0 = None /\ holders r !! 0 = None;
  so_brk : 0 < brk r /\ forall a, brk r <= a -> objs r !! a = None /\ dexs r !! a = None /\ holders r !! a = None /\ tracings r !! a = None }.

Lemma sound0 : sound refs0.
Proof. by split. Qed.

Section Sound.
Context (r : refs) (S : sound r).

Lemma live_obj p h o : holders r !! p = Some h -> o ∈ obj_refs h -> is_Some (objs r !! o).
Proof. intros Hp Ho. apply (cd_live _ _ (so_objs _ S) p (h_tracing h, obj_refs h)); [|done]. unfold obj_holding. by rewrite lookup_fmap, Hp. Qed.
Lemma live_dex p h o : holders r !! p = Some h -> o ∈ h_dexTable h -> is_Some (dexs r !! o).
Proof. intros Hp Ho. apply (cd_live _ _ (so_dexs _ S) p (h_tracing h, h_dexTable h)); [|done]. unfold dex_holding. by rewrite lookup_fmap, Hp. Qed.

(** One process gets other tables. *)
Lemma sound_update p h h' m d : holders r !! p = Some h -> h_tracing h' = h_tracing h ->
  counted (<[p := (h_tracing h, obj_refs h')]> (obj_holding (holders r))) m ->
  counted (<[p := (h_tracing h, h_dexTable h')]> (dex_holding (holders r))) d ->
  (forall q x, holders r !! q = Some x -> (h_objKernel h' ∉ h_objTable x) /\ (h_objKernel x ∉ h_objTable h')) -> h_objKernel h' ∉ h_objTable h' ->
  (forall f, is_Some (m !! f) -> is_Some (objs r !! f)) -> (forall f, is_Some (d !! f) -> is_Some (dexs r !! f)) ->
  sound (mk_refs (<[p := h']> (holders r)) (tracings r) m d (brk r)).
Proof.
  intros Hp Ht Hm Hd Hk Hk' Dm Dd. destruct S as [_ _ S3 S4 (N1 & N2 & N3) [B1 B2]].
  assert (Hnone : forall (st st' : files) f, (is_Some (st' !! f) -> is_Some (st !! f)) -> st !! f = None -> st' !! f = None).
  { intros st st' f Hs Hf. destruct (st' !! f) eqn:E; [|done]. destruct Hs as [y Hy]; [done|]. congruence. }
  assert (Hne : forall a, holders r !! a = None -> p <> a) by (intros a Ha ->; congruence).
  split; cbn.
  - unfold obj_holding in *. by rewrite fmap_insert, Ht.
  - unfold dex_holding in *. by rewrite fmap_insert, Ht.
  - intros q x Hq. assert (Hmem : members (<[p := h']> (holders r)) (h_tracing x) = members (holders r) (h_tracing x)).
    { apply set_eq. intros a. rewrite !elem_members. destruct (decide (p = a)) as [->|].
      - rewrite lookup_insert_eq. split; intros (y & E & Ey); simplify_eq; eexists; (split; [done|congruence]).
      - by rewrite lookup_insert_ne. }
    rewrite Hmem. destruct (decide (p = q)) as [->|]; simplify_map_eq; [rewrite Ht|]; eauto.
  - intros a b x y Ha Hb. rewrite lookup_insert_Some in Ha, Hb.
    destruct Ha as [[_ <-]|[_ Ha]], Hb as [[_ <-]|[_ Hb]]; [done|by apply (Hk b y)|by apply (Hk a x)|by eauto].
  - split_and!; [by apply (Hnone (objs r)); auto|by apply (Hnone (dexs r)); auto|]. rewrite lookup_insert_ne; auto.
  - split; [done|]. intros a Ha. destruct (B2 a Ha) as (E1 & E2 & E3 & E4).
    split_and!; [by apply (Hnone (objs r)); auto|by apply (Hnone (dexs r)); auto| |done]. rewrite lookup_insert_ne; auto.
Qed.

Lemma same_holding (f : holder -> Z * list Z) p h (l : Z * list Z) :
  holders r !! p = Some h -> f h = l -> <[p := l]> (f <$> holders r) = f <$> holders r.
Proof. intros Hp <-. apply insert_id. by rewrite lookup_fmap, Hp. Qed.

(** A new file; nobody holds it yet. *)
Lemma sound_create_obj start : let '(o, r') := create_obj start r in
  sound r' /\ holders r' = holders r /\ tracings r' = tracings r /\ dexs r' = dexs r /\ is_Some (objs r' !! o) /\
  o <> 0 /\ forall p h, holders r !! p = Some h -> o ∉ obj_refs h.
Proof.
  cbn. destruct S as [S1 S2 S3 S4 (N1 & N2 & N3) [B1 B2]]. destruct (B2 (brk r)) as (F & _); [lia|]. split_and!; try done.
  - split; cbn; [by apply counted_create|done..| |].
    + split_and!; try done. by rewrite lookup_insert_ne by lia.
    + split; [lia|]. intros a Ha. rewrite lookup_insert_ne by lia. apply B2. lia.
  - by rewrite lookup_insert_eq.
  - lia.
  - intros p h Hp Ho. destruct (live_obj p h (brk r) Hp Ho). congruence.
Qed.
Lemma sound_create_dex start : let '(o, r') := create_dex start r in
  sound r' /\ holders r' = holders r /\ tracings r' = tracings r /\ objs r' = objs r /\ is_Some (dexs r' !! o) /\
  forall p h, holders r !! p = Some h -> o ∉ h_dexTable h.
Proof.
  cbn. destruct S as [S1 S2 S3 S4 (N1 & N2 & N3) [B1 B2]]. destruct (B2 (brk r)) as (_ & F & _); [lia|]. split_and!; try done.
  - split; cbn; [done|by apply counted_create|done..| |].
    + split_and!; try done. by rewrite lookup_insert_ne by lia.
    + split; [lia|]. intros a Ha. rewrite lookup_insert_ne by lia. apply B2. lia.
  - by rewrite lookup_insert_eq.
  - intros p h Hp Ho. destruct (live_dex p h (brk r) Hp Ho). congruence.
Qed.

Lemma count_up_share o m : count_up o m = share_all [o] m.
Proof. cbn. by destruct (count_up o m). Qed.

Lemma insert_file_perm m start o l : (forall f, f ∈ l -> is_Some (m !! f)) -> exists l', insert_file m start o l = Some l' /\ l' ≡ₚ o :: l.
Proof.
  induction l as [|y l IH]; intros Hl; [by exists [o]|]. cbn. destruct (Hl y) as [x ->]; [by left|]. cbn.
  destruct (_ <? _); [by eexists|]. destruct IH as (l' & -> & E); [intros f Hf; apply Hl; by right|].
  exists (y :: l'). split; [done|]. rewrite E. apply perm_swap.
Qed.

Lemma shared_dom (st st' : files) new :
  (forall f, st' !! f = (fun y => mk_shared (f_start y) (f_count y + uses f new)) <$> st !! f) -> forall f, is_Some (st' !! f) <-> is_Some (st !! f).
Proof. intros H f. rewrite H. by rewrite fmap_is_Some. Qed.

Lemma obj_refs_NoDup p h : holders r !! p = Some h -> NoDup (obj_refs h).
Proof. intros Hp. apply (cd_NoDup _ _ (so_objs _ S) p (h_tracing h, obj_refs h)). unfold obj_holding. by rewrite lookup_fmap, Hp. Qed.
Lemma dex_NoDup p h : holders r !! p = Some h -> NoDup (h_dexTable h).
Proof. intros Hp. apply (cd_NoDup _ _ (so_dexs _ S) p (h_tracing h, h_dexTable h)). unfold dex_holding. by rewrite lookup_fmap, Hp. Qed.

(** Other processes' tables are not part of an update. *)
Lemma dexs_as_they_are p h h' : holders r !! p = Some h -> h_dexTable h' = h_dexTable h ->
  counted (<[p := (h_tracing h, h_dexTable h')]> (dex_holding (holders r))) (dexs r).
Proof. intros Hp E. unfold dex_holding. rewrite (same_holding _ p h); [apply S|done|by rewrite E]. Qed.
Lemma objs_as_they_are p h h' : holders r !! p = Some h -> obj_refs h' = obj_refs h ->
  counted (<[p := (h_tracing h, obj_refs h')]> (obj_holding (holders r))) (objs r).
Proof. intros Hp E. unfold obj_holding. rewrite (same_holding _ p h); [apply S|done|by rewrite E]. Qed.

Lemma gain_objs p h h' m new : holders r !! p = Some h -> NoDup (obj_refs h') ->
  (forall f, f ∈ obj_refs h' -> f ∈ new \/ f ∈ obj_refs h) -> (forall f, f ∈ new -> is_Some (objs r !! f)) ->
  (forall f, m !! f = (fun y => mk_shared (f_start y) (f_count y + uses f new)) <$> objs r !! f) ->
  counted (<[p := (h_tracing h, obj_refs h')]> (obj_holding (holders r))) m.
Proof.
  intros Hp Hd Hn Hl Hm. apply (counted_acquire _ (objs r) m p (h_tracing h) (obj_refs h) _ new); try done; [apply S|].
  unfold obj_holding. by rewrite lookup_fmap, Hp.
Qed.
Lemma gain_dexs p h h' m new : holders r !! p = Some h -> NoDup (h_dexTable h') ->
  (forall f, f ∈ h_dexTable h' -> f ∈ new \/ f ∈ h_dexTable h) -> (forall f, f ∈ new -> is_Some (dexs r !! f)) ->
  (forall f, m !! f = (fun y => mk_shared (f_start y) (f_count y + uses f new)) <$> dexs r !! f) ->
  counted (<[p := (h_tracing h, h_dexTable h')]> (dex_holding (holders r))) m.
Proof.
  intros Hp Hd Hn Hl Hm. apply (counted_acquire _ (dexs r) m p (h_tracing h) (h_dexTable h) _ new); try done; [apply S|].
  unfold dex_holding. by rewrite lookup_fmap, Hp.
Qed.
End Sound.

(** *** The operations keep it *)

Section Kept.
Context (r : refs) (S : sound r).

(** [r'] is [r] after an update of the process [p]. *)
Definition updated (p : Z) (h : holder) (r' : refs) : Prop :=
  sound r' /\ tracings r' = tracings r /\
  exists h', holders r' = <[p := h']> (holders r) /\ h_type h' = h_type h /\ h_tracing h' = h_tracing h.

Lemma attach_obj_sound p h o : holders r !! p = Some h -> is_Some (objs r !! o) -> o <> 0 ->
  (forall q x, holders r !! q = Some x -> o ∉ obj_refs x) ->
  exists r', attach_obj p o r = Some r' /\ updated p h r'.
Proof.
  intros Hp Ho H0 Hfresh. unfold attach_obj. rewrite Hp. cbn [mbind option_bind].
  destruct (_ =? _)%nat.
  { exists r. split; [done|]. split_and!; try done. exists h. by rewrite insert_id. }
  destruct (share_all_spec [o] (objs r)) as (m & Em & Hm); [by intros f ->%list_elem_of_singleton|].
  rewrite count_up_share, Em. cbn [mbind option_bind].
  assert (Hlive : forall f, is_Some (objs r !! f) -> is_Some (m !! f)) by (intros f; by rewrite (shared_dom _ _ _ Hm)).
  destruct (Hlive o Ho) as [x ->]. cbn [mbind option_bind].
  destruct (insert_file_perm m (f_start x) o (h_objTable h)) as (l & -> & Hl).
  { intros f Hf. apply Hlive. apply (live_obj r S p h); [done|]. unfold obj_refs. set_solver. }
  eexists. split; [done|]. split_and!; cbn; [|done|by exists (set_objTable l h)].
  assert (Href : obj_refs (set_objTable l h) ≡ₚ o :: obj_refs h).
  { unfold obj_refs. cbn. rewrite Hl. by rewrite Permutation_middle. }
  assert (Hkey : forall q y, holders r !! q = Some y -> h_objKernel y <> o).
  { intros q y Hq E. apply (Hfresh q y Hq). unfold obj_refs. rewrite E, (proj2 (Z.eqb_neq o 0)) by done. set_solver. }
  apply (sound_update r S p h _ m (dexs r)); try done.
  - apply (gain_objs r S p h _ m [o]); try done.
    + rewrite Href. apply NoDup_cons. split; [by apply (Hfresh p)|by apply (obj_refs_NoDup r S p)].
    + intros f. rewrite Href. set_solver.
    + by intros f ->%list_elem_of_singleton.
  - by apply dexs_as_they_are.
  - intros q y Hq. split; [by apply (so_kernel r S p q h y)|]. cbn. rewrite Hl. apply not_elem_of_cons.
    split; [by apply (Hkey q)|by apply (so_kernel r S q p y h)].
  - cbn. rewrite Hl. apply not_elem_of_cons. split; [by apply (Hkey p)|by apply (so_kernel r S p p h h)].
  - intros f. by rewrite (shared_dom _ _ _ Hm).
Qed.

Lemma attach_dex_sound p h o : holders r !! p = Some h -> is_Some (dexs r !! o) ->
  (forall q x, holders r !! q = Some x -> o ∉ h_dexTable x) ->
  exists r', attach_dex p o r = Some r' /\ updated p h r'.
Proof.
  intros Hp Ho Hfresh. unfold attach_dex. rewrite Hp. cbn [mbind option_bind].
  destruct (_ =? _)%nat.
  { exists r. split; [done|]. split_and!; try done. exists h. by rewrite insert_id. }
  destruct (share_all_spec [o] (dexs r)) as (m & Em & Hm); [by intros f ->%list_elem_of_singleton|].
  rewrite count_up_share, Em. cbn [mbind option_bind].
  assert (Hlive : forall f, is_Some (dexs r !! f) -> is_Some (m !! f)) by (intros f; by rewrite (shared_dom _ _ _ Hm)).
  destruct (Hlive o Ho) as [x ->]. cbn [mbind option_bind].
  destruct (insert_file_perm m (f_start x) o (h_dexTable h)) as (l & -> & Hl).
  { intros f Hf. apply Hlive. by apply (live_dex r S p h). }
  eexists. split; [done|]. split_and!; cbn; [|done|by exists (set_dexTable l h)].
  apply (sound_update r S p h _ (objs r) m); try done.
  - by apply objs_as_they_are.
  - apply (gain_dexs r S p h _ m [o]); try done; cbn.
    + rewrite Hl. apply NoDup_cons. split; [by apply (Hfresh p)|by apply (dex_NoDup r S p)].
    + intros f. rewrite Hl. set_solver.
    + by intros f ->%list_elem_of_singleton.
  - intros q y Hq. split; [by apply (so_kernel r S p q h y)|by apply (so_kernel r S q p y h)].
  - by apply (so_kernel r S p p h h).
  - intros f. by rewrite (shared_dom _ _ _ Hm).
Qed.

(** The kernel's file *)
Lemma hold_kernel p h o : holders r !! p = Some h -> is_Some (objs r !! o) -> o <> 0 ->
  (forall q x, holders r !! q = Some x -> o ∉ obj_refs x) ->
  exists m, count_up o (objs r) = Some m /\ updated p h (with_holders (<[p := set_objKernel o h]> (holders r)) (with_objs m r)).
Proof.
  intros Hp Ho H0 Hfresh. destruct (share_all_spec [o] (objs r)) as (m & Em & Hm); [by intros f ->%list_elem_of_singleton|].
  exists m. rewrite count_up_share. split; [done|]. split_and!; cbn; [|done|by exists (set_objKernel o h)].
  assert (Hno : forall q y, holders r !! q = Some y -> o ∉ h_objTable y).
  { intros q y Hq Hin. apply (Hfresh q y Hq). unfold obj_refs. set_solver. }
  assert (Href : obj_refs (set_objKernel o h) = o :: h_objTable h) by (unfold obj_refs; cbn; by rewrite (proj2 (Z.eqb_neq o 0))).
  apply (sound_update r S p h _ m (dexs r)); try done.
  - apply (gain_objs r S p h _ m [o]); try done.
    + rewrite Href. apply NoDup_cons. split; [by apply (Hno p h)|].
      pose proof (obj_refs_NoDup r S p h Hp) as Hd. unfold obj_refs in Hd. by apply NoDup_app in Hd as (_ & _ & Hd).
    + intros f. rewrite Href. unfold obj_refs. set_solver.
    + by intros f ->%list_elem_of_singleton.
  - by apply dexs_as_they_are.
  - intros q y Hq. split; [by apply (Hno q y)|by apply (so_kernel r S q p y h)].
  - by apply (Hno p h).
  - intros f. by rewrite (shared_dom _ _ _ Hm).
Qed.

(** A table taken over from zygote *)
Lemma inherit_dexs p h z zh : holders r !! p = Some h -> holders r !! z = Some zh ->
  exists m, share_all (h_dexTable zh) (dexs r) = Some m /\
    updated p h (with_holders (<[p := set_dexTable (h_dexTable zh) h]> (holders r)) (with_dexs m r)).
Proof.
  intros Hp Hz. destruct (share_all_spec (h_dexTable zh) (dexs r)) as (m & Em & Hm); [intros f; by apply (live_dex r S z)|].
  exists m. split; [done|]. split_and!; cbn; [|done|by exists (set_dexTable (h_dexTable zh) h)].
  apply (sound_update r S p h _ (objs r) m); try done.
  - by apply objs_as_they_are.
  - apply (gain_dexs r S p h _ m (h_dexTable zh)); try done; cbn; [by apply (dex_NoDup r S z)|by left|intros f; by apply (live_dex r S z)].
  - intros q y Hq. split; [by apply (so_kernel r S p q h y)|by apply (so_kernel r S q p y h)].
  - by apply (so_kernel r S p p h h).
  - intros f. by rewrite (shared_dom _ _ _ Hm).
Qed.
Lemma inherit_objs p h z zh : holders r !! p = Some h -> holders r !! z = Some zh ->
  exists m, share_all (h_objTable zh) (objs r) = Some m /\
    updated p h (with_holders (<[p := set_objTable (h_objTable zh) h]> (holders r)) (with_objs m r)).
Proof.
  intros Hp Hz. assert (Hlz : forall f, f ∈ h_objTable zh -> is_Some (objs r !! f)).
  { intros f Hf. apply (live_obj r S z zh); [done|]. unfold obj_refs. set_solver. }
  destruct (share_all_spec (h_objTable zh) (objs r) Hlz) as (m & Em & Hm).
  exists m. split; [done|]. split_and!; cbn; [|done|by exists (set_objTable (h_objTable zh) h)].
  pose proof (so_kernel r S p z h zh Hp Hz) as Hk.
  apply (sound_update r S p h _ m (dexs r)); try done.
  - apply (gain_objs r S p h _ m (h_objTable zh)); try done; unfold obj_refs; cbn.
    + pose proof (obj_refs_NoDup r S z zh Hz) as Hd. unfold obj_refs in Hd. apply NoDup_app in Hd as (_ & _ & Hd).
      destruct (_ =? 0); [done|]. by apply NoDup_cons.
    + set_solver.
  - by apply dexs_as_they_are.
  - intros q y Hq. split; [by apply (so_kernel r S p q h y)|by apply (so_kernel r S q z y zh)].
  - intros f. by rewrite (shared_dom _ _ _ Hm).
Qed.
End Kept.

Lemma members_delete m p t : members (delete p m) t = members m t ∖ {[p]}.
Proof.
  apply set_eq. intros q. rewrite elem_of_difference, elem_of_singleton, !elem_members. setoid_rewrite lookup_delete_Some.
  split; [intros (h & [Hne Hq] & Ht)|intros [(h & Hq & Ht) Hne]]; eauto 10.
Qed.
Lemma release_all_app k l m : release_all (k ++ l) m = m ← release_all k m; release_all l m.
Proof. revert m. induction k as [|o k IH]; intros m; cbn; [done|]. destruct (release o m); cbn; [apply IH|done]. Qed.
Lemma release_obj_refs h m :
  release_all (obj_refs h) m = m ← (if h_objKernel h =? 0 then Some m else release (h_objKernel h) m); release_all (h_objTable h) m.
Proof. unfold obj_refs. rewrite release_all_app. destruct (_ =? 0); [done|]. cbn. by destruct (release _ m). Qed.

Section Kept2.
Context (r : refs) (S : sound r).

Lemma smaller_objs m : (forall p h, m !! p = Some h -> exists q, holders r !! q = Some h) -> counted (obj_holding m) (objs r).
Proof.
  intros Hm. apply (counted_smaller _ _ _ (so_objs r S)). unfold obj_holding. intros p x.
  rewrite lookup_fmap, fmap_Some. intros (h & Hh & ->). destruct (Hm p h Hh) as [q Hq]. exists q. by rewrite lookup_fmap, Hq.
Qed.
Lemma smaller_dexs m : (forall p h, m !! p = Some h -> exists q, holders r !! q = Some h) -> counted (dex_holding m) (dexs r).
Proof.
  intros Hm. apply (counted_smaller _ _ _ (so_dexs r S)). unfold dex_holding. intros p x.
  rewrite lookup_fmap, fmap_Some. intros (h & Hh & ->). destruct (Hm p h Hh) as [q Hq]. exists q. by rewrite lookup_fmap, Hq.
Qed.
Lemma dom_none (st st' : files) f : dom st' ⊆ dom st -> st !! f = None -> st' !! f = None.
Proof. rewrite <- !not_elem_of_dom. set_solver. Qed.

(** One process is gone; counters and files have changed accordingly. *)
Lemma sound_delete p h ts m d : holders r !! p = Some h -> counted (obj_holding (delete p (holders r))) m ->
  counted (dex_holding (delete p (holders r))) d -> dom m ⊆ dom (objs r) -> dom d ⊆ dom (dexs r) ->
  (forall q x, q <> p -> holders r !! q = Some x -> exists c, ts !! h_tracing x = Some c /\
     Z.of_nat (size (members (holders r) (h_tracing x) ∖ {[p]})) <= Z.max 1 c) ->
  (forall t, tracings r !! t = None -> ts !! t = None) ->
  sound (mk_refs (delete p (holders r)) ts m d (brk r)).
Proof.
  intros Hp Hm Hd Dm Dd Ht Hn. destruct S as [_ _ S3 S4 (N1 & N2 & N3) [B1 B2]]. split; cbn; try done.
  - intros q x [Hne Hq]%lookup_delete_Some. rewrite members_delete. by apply (Ht q).
  - intros a b x y [_ Ha]%lookup_delete_Some [_ Hb]%lookup_delete_Some. eauto.
  - split_and!; [by apply (dom_none (objs r))|by apply (dom_none (dexs r))|by apply lookup_delete_None; right].
  - split; [done|]. intros a Ha. destruct (B2 a Ha) as (E1 & E2 & E3 & E4).
    split_and!; [by apply (dom_none (objs r))|by apply (dom_none (dexs r))|by apply lookup_delete_None; right|by apply Hn].
Qed.

Lemma last_alone p q h x c : holders r !! p = Some h -> tracings r !! h_tracing h = Some c -> c - 1 < 1 ->
  holders r !! q = Some x -> h_tracing x = h_tracing h -> q = p.
Proof.
  intros Hp Hc Hlast Hq Ht. destruct (so_members r S p h Hp) as (c' & Hc' & Hm). assert (c' = c) as -> by congruence.
  destruct (decide (q = p)) as [|Hne]; [done|].
  assert (Hs : ({[p]} ∪ {[q]} : gset Z) ⊆ members (holders r) (h_tracing h)).
  { intros a. rewrite elem_of_union, !elem_of_singleton, elem_members. intros [->| ->]; eauto. }
  apply subseteq_size in Hs. rewrite size_union, !size_singleton in Hs; [lia|].
  apply disjoint_singleton_l. rewrite elem_of_singleton. by intros ->.
Qed.

Lemma delete_process_sound p h : holders r !! p = Some h ->
  exists r', delete_process p r = Some r' /\ sound r' /\ holders r' = delete p (holders r).
Proof.
  intros Hp. pose proof (so_null r S) as (_ & _ & N3). unfold delete_process.
  rewrite (proj2 (Z.eqb_neq p 0)) by (intros ->; congruence). rewrite Hp. cbn [mbind option_bind].
  destruct (so_members r S p h Hp) as (c & Hc & Hm). rewrite Hc. cbn [mbind option_bind].
  assert (Hin : p ∈ members (holders r) (h_tracing h)) by (apply elem_members; eauto).
  assert (Hrest : forall q x, delete p (holders r) !! q = Some x -> exists q', holders r !! q' = Some x).
  { intros q x [_ Hq]%lookup_delete_Some. eauto. }
  destruct (Z.ltb_spec (c - 1) 1) as [Hlast|Hmore].
  - pose proof (fun q x => last_alone p q h x c Hp Hc Hlast) as Hsole.
    destruct (counted_release _ (objs r) p (h_tracing h) (obj_refs h) (so_objs r S)) as (m & Em & Hm' & Dm).
    { unfold obj_holding. by rewrite lookup_fmap, Hp. }
    { intros H0. destruct (live_obj r S p h 0 Hp H0) as [y Hy]. pose proof (so_null r S) as (N1 & _). congruence. }
    { intros q x. unfold obj_holding. rewrite lookup_fmap, fmap_Some. intros (y & Hy & ->). by apply Hsole. }
    destruct (counted_release _ (dexs r) p (h_tracing h) (h_dexTable h) (so_dexs r S)) as (d & Ed & Hd' & Dd).
    { unfold dex_holding. by rewrite lookup_fmap, Hp. }
    { intros H0. destruct (live_dex r S p h 0 Hp H0) as [y Hy]. pose proof (so_null r S) as (_ & N2 & _). congruence. }
    { intros q x. unfold dex_holding. rewrite lookup_fmap, fmap_Some. intros (y & Hy & ->). by apply Hsole. }
    unfold release_process. rewrite release_obj_refs in Em. cbn [objs dexs tracings with_tracings].
    destruct (if h_objKernel h =? 0 then _ else _) as [m1|]; [|done]. cbn [mbind option_bind] in *. rewrite Em. cbn [mbind option_bind].
    rewrite Ed. cbn. eexists. split; [done|]. split; [|done]. apply (sound_delete p h); try done.
    + unfold obj_holding in *. by rewrite fmap_delete.
    + unfold dex_holding in *. by rewrite fmap_delete.
    + intros q x Hne Hq. destruct (so_members r S q x Hq) as (c' & Hc' & Hs).
      assert (h_tracing x <> h_tracing h) by (intros E; apply Hne; by apply (Hsole q x)). simplify_map_eq. exists c'. split; [done|].
      etransitivity; [|done]. apply inj_le, subseteq_size. set_solver.
    + intros t Ht. cbn. rewrite lookup_delete_None. right. rewrite lookup_insert_ne; [done|]. intros E. congruence.
  - eexists. split; [done|]. split; [|done]. apply (sound_delete p h); try done; [by apply smaller_objs|by apply smaller_dexs| |].
    + intros q x Hne Hq. destruct (so_members r S q x Hq) as (c' & Hc' & Hs). cbn. destruct (decide (h_tracing x = h_tracing h)) as [E|E].
      * rewrite E, lookup_insert_eq in *. exists (c - 1). split; [done|].
        rewrite size_difference by set_solver. rewrite size_singleton. lia.
      * rewrite lookup_insert_ne by done. exists c'. split; [done|]. etransitivity; [|done]. apply inj_le, subseteq_size. set_solver.
    + intros t Ht. cbn. rewrite lookup_insert_ne; [done|]. intros E. congruence.
Qed.
End Kept2.

Section Kept3.
Context (r : refs) (S : sound r).

(** A process more, with a counter [t] of its own or shared *)
Lemma sound_more p h ts b : holders r !! p = None -> p <> 0 -> brk r <= b -> p < b ->
  counted (<[p := (h_tracing h, obj_refs h)]> (obj_holding (holders r))) (objs r) ->
  counted (<[p := (h_tracing h, h_dexTable h)]> (dex_holding (holders r))) (dexs r) ->
  (forall q x, <[p := h]> (holders r) !! q = Some x -> exists c, ts !! h_tracing x = Some c /\
     Z.of_nat (size (members (<[p := h]> (holders r)) (h_tracing x))) <= Z.max 1 c) ->
  (forall q x, holders r !! q = Some x -> (h_objKernel h ∉ h_objTable x) /\ (h_objKernel x ∉ h_objTable h)) -> h_objKernel h ∉ h_objTable h ->
  (forall a, b <= a -> tracings r !! a = None -> ts !! a = None) ->
  sound (mk_refs (<[p := h]> (holders r)) ts (objs r) (dexs r) b).
Proof.
  intros Hp H0 Hb Hpb Hm Hd Ht Hk Hk' Hn. destruct S as [_ _ S3 S4 (N1 & N2 & N3) [B1 B2]]. split; cbn; try done.
  - unfold obj_holding in *. by rewrite fmap_insert.
  - unfold dex_holding in *. by rewrite fmap_insert.
  - intros a c x y. rewrite !lookup_insert_Some. intros [[_ <-]|[_ Ha]] [[_ <-]|[_ Hc]]; [done|by apply (Hk c y)|by apply (Hk a x)|eauto].
  - split_and!; try done. by rewrite lookup_insert_ne.
  - split; [lia|]. intros a Ha. destruct (B2 a) as (E1 & E2 & E3 & E4); [lia|]. split_and!; try done; [|by apply Hn].
    rewrite lookup_insert_ne; [done|lia].
Qed.

Lemma members_insert_new p h t : holders r !! p = None ->
  members (<[p := h]> (holders r)) t = (if decide (h_tracing h = t) then {[p]} else ∅) ∪ members (holders r) t.
Proof.
  intros Hp. apply set_eq. intros q. rewrite elem_of_union, !elem_members. setoid_rewrite lookup_insert_Some. split.
  - intros (x & [[<- <-]|[Hne Hq]] & Ht); [left; rewrite decide_True by done; set_solver|right; eauto].
  - intros [Hq|(x & Hq & Ht)].
    + destruct (decide _); [|set_solver]. apply elem_of_singleton in Hq as ->. exists h. auto.
    + exists x. split; [right|done]. split; [|done]. intros ->. congruence.
Qed.

Lemma counted_more (m : holding) st p x : counted m st -> NoDup x.2 -> (forall f, f ∈ x.2 -> is_Some (st !! f)) ->
  (forall f, f ∈ x.2 -> exists q l, m !! q = Some (x.1, l) /\ f ∈ l) -> counted (<[p := x]> m) st.
Proof.
  intros [H1 H2 H3] Hd Hl Hg. split.
  - intros q y. rewrite lookup_insert_Some. intros [[_ <-]|[_ Hq]]; eauto.
  - intros q y f. rewrite lookup_insert_Some. intros [[_ <-]|[_ Hq]]; eauto.
  - intros f y Hy. etransitivity; [|by apply (H3 f y)]. apply groups_smaller. intros t. rewrite !elem_groups.
    intros (q & l & Hq & Hf). apply lookup_insert_Some in Hq as [[_ ->]|[_ Hq]]; [|eauto]. by apply (Hg f).
Qed.

Lemma create_process_sound type : let '(p, r') := create_process type r in sound r' /\ holders r !! p = None /\ is_Some (holders r' !! p).
Proof.
  cbn. destruct (so_brk r S) as [B1 B2]. destruct (B2 (brk r)) as (_ & _ & Hp & _); [lia|]. destruct (B2 (brk r + 1)) as (_ & _ & _ & Ht); [lia|].
  split_and!; [|done|by rewrite lookup_insert_eq].
  assert (Hnot : forall q x, holders r !! q = Some x -> brk r + 1 <> h_tracing x).
  { intros q x Hq E. destruct (so_members r S q x Hq) as (c & Hc & _). congruence. }
  apply (sound_more (brk r) (mk_holder type (brk r + 1) 0 [] []) (<[brk r + 1 := 0]> (tracings r)) (brk r + 1 + 1)); try done; try lia.
  - apply counted_more; cbn; [apply S|by apply NoDup_nil|by intros f ?%elem_of_nil|by intros f ?%elem_of_nil].
  - apply counted_more; cbn; [apply S|by apply NoDup_nil|by intros f ?%elem_of_nil|by intros f ?%elem_of_nil].
  - intros q x Hq. rewrite members_insert_new by done. cbn. apply lookup_insert_Some in Hq as [[_ <-]|[_ Hq]]; cbn.
    + rewrite lookup_insert_eq, decide_True by done. exists 0. split; [done|].
      assert (members (holders r) (brk r + 1) = ∅) as ->; [|by rewrite union_empty_r_L, size_singleton].
      apply set_eq. intros a. rewrite elem_members. split; [|set_solver]. intros (x & Hx & E). by destruct (Hnot a x Hx).
    + pose proof (Hnot q x Hq). rewrite lookup_insert_ne, decide_False, union_empty_l_L by done. by apply (so_members r S q).
  - intros q x Hq. cbn. split; [|by apply not_elem_of_nil]. intros H0. destruct (live_obj r S q x 0 Hq) as [y Hy]; [unfold obj_refs; set_solver|].
    destruct (so_null r S) as (N & _). congruence.
  - by apply not_elem_of_nil.
  - intros a Ha Hna. rewrite lookup_insert_ne by lia. done.
Qed.

Lemma copy_process_sound p h c : holders r !! p = Some h -> tracings r !! h_tracing h = Some c -> 1 <= c ->
  exists q r', copy_process p r = Some (q, r') /\ sound r'.
Proof.
  intros Hp Hc H1. unfold copy_process. rewrite Hp. cbn [mbind option_bind]. rewrite Hc. cbn.
  destruct (so_brk r S) as [B1 B2]. destruct (B2 (brk r)) as (_ & _ & Hq & _); [lia|].
  eexists _, _. split; [done|].
  apply (sound_more (brk r) h (<[h_tracing h := c + 1]> (tracings r)) (brk r + 1)); try done; try lia.
  - apply counted_more; cbn; [apply S|by apply (obj_refs_NoDup r S p)|intros f; by apply (live_obj r S p)|].
    intros f Hf. exists p, (obj_refs h). unfold obj_holding. by rewrite lookup_fmap, Hp.
  - apply counted_more; cbn; [apply S|by apply (dex_NoDup r S p)|intros f; by apply (live_dex r S p)|].
    intros f Hf. exists p, (h_dexTable h). unfold dex_holding. by rewrite lookup_fmap, Hp.
  - intros q x Hx. rewrite members_insert_new by done.
    assert (Hx' : exists q', holders r !! q' = Some x) by (apply lookup_insert_Some in Hx as [[_ <-]|[_ Hx]]; eauto).
    destruct Hx' as [q' Hx']. destruct (so_members r S q' x Hx') as (c' & Hc' & Hs). destruct (decide (h_tracing h = h_tracing x)) as [E|E].
    + rewrite <- E, lookup_insert_eq in *. exists (c + 1). split; [done|]. rewrite Hc in Hc'. injection Hc' as <-.
      assert (p ∈ members (holders r) (h_tracing h)) by (apply elem_members; eauto).
      pose proof (size_union_alt ({[brk r]} : gset Z) (members (holders r) (h_tracing h))) as Es. rewrite size_singleton in Es.
      assert (size (members (holders r) (h_tracing h) ∖ {[brk r]}) <= size (members (holders r) (h_tracing h)))%nat
        by (by apply subseteq_size, subseteq_difference_l). lia.
    + rewrite lookup_insert_ne, union_empty_l_L by done. eauto.
  - intros q x Hx. split; [by apply (so_kernel r S p q h x)|by apply (so_kernel r S q p x h)].
  - by apply (so_kernel r S p p h h).
  - intros a Ha Hna. rewrite lookup_insert_ne; [done|]. intros E. congruence.
Qed.

Lemma map_obj_sound start p h : holders r !! p = Some h -> exists r', map_obj start p r = Some r' /\ sound r' /\
  exists h', holders r' = <[p := h']> (holders r) /\ h_type h' = h_type h /\ h_tracing h' = h_tracing h.
Proof.
  intros Hp. unfold map_obj. pose proof (sound_create_obj r S start) as H. destruct (create_obj start r) as [o r1].
  destruct H as (S1 & Eh & Et & Ed & Ho & H0 & Hf). rewrite <- Eh in Hp, Hf.
  destruct (attach_obj_sound r1 S1 p h o Hp Ho H0 Hf) as (r' & E & S' & _ & Hu). rewrite <- Eh. eauto.
Qed.
Lemma map_dex_sound start p h : holders r !! p = Some h -> exists r', map_dex start p r = Some r' /\ sound r'.
Proof.
  intros Hp. unfold map_dex. pose proof (sound_create_dex r S start) as H. destruct (create_dex start r) as [o r1].
  destruct H as (S1 & Eh & Et & Ed & Ho & Hf). rewrite <- Eh in Hp, Hf.
  destruct (attach_dex_sound r1 S1 p h o Hp Ho Hf) as (r' & E & S' & _). eauto.
Qed.
End Kept3.

Section Kept4.
Context (r : refs) (S : sound r).

Lemma load_vmlinux_sound kernel p h : holders r !! p = Some h ->
  exists ok r', load_vmlinux kernel p r = Some (ok, r') /\ sound r' /\ is_Some (holders r' !! p).
Proof.
  intros Hp. unfold load_vmlinux. rewrite Hp. cbn [mbind option_bind]. destruct (has _ _); [|eauto 10].
  destruct kernel as [start|]; [|eauto 10].
  pose proof (sound_create_obj r S start) as H. destruct (create_obj start r) as [o r1].
  destruct H as (S1 & Eh & Et & Ed & Ho & H0 & Hf). rewrite <- Eh in Hp, Hf.
  destruct (hold_kernel r1 S1 p h o Hp Ho H0 Hf) as (m & -> & S' & _). cbn [mbind option_bind].
  eexists _, _. split; [done|]. split; [done|]. cbn. by rewrite lookup_insert_eq.
Qed.

Lemma load_program_sound program p h : holders r !! p = Some h ->
  exists ok r', load_program program p r = Some (ok, r') /\ sound r' /\ is_Some (holders r' !! p).
Proof.
  intros Hp. unfold load_program. rewrite Hp. cbn [mbind option_bind]. destruct (has _ _); [|eauto 10].
  destruct program as [start|]; [|eauto 10].
  destruct (map_obj_sound r S start p h Hp) as (r' & E & S' & h' & Eh & _). unfold map_obj in E.
  destruct (create_obj start r) as [o r1]. rewrite E. cbn [mbind option_bind].
  eexists _, _. split; [done|]. split; [done|]. by rewrite Eh, lookup_insert_eq.
Qed.

Lemma count_tracing_sound p h : holders r !! p = Some h -> exists r', count_tracing p r = Some r' /\ sound r'.
Proof.
  intros Hp. unfold count_tracing. rewrite Hp. cbn [mbind option_bind]. destruct S as [S1 S2 S3 S4 S5 [B1 B2]].
  destruct (S3 p h Hp) as (c & Hc & Hs). rewrite Hc. cbn. eexists. split; [done|]. split; cbn; try done.
  - intros q x Hq. destruct (S3 q x Hq) as (c' & Hc' & Hs'). destruct (decide (h_tracing h = h_tracing x)) as [E|E].
    + rewrite <- E, lookup_insert_eq in *. exists (c + 1). split; [done|]. lia.
    + rewrite lookup_insert_ne by done. eauto.
  - split; [done|]. intros a Ha. destruct (B2 a Ha) as (E1 & E2 & E3 & E4). split_and!; try done.
    rewrite lookup_insert_ne; [done|]. intros E. congruence.
Qed.

Lemma inherit_sound p z h zh : holders r !! p = Some h -> holders r !! z = Some zh ->
  exists r', inherit p z r = Some r' /\ sound r'.
Proof.
  intros Hp Hz. unfold inherit. rewrite Hp. cbn [mbind option_bind].
  set (dalvik := if has (h_type h) SET_PROCESS_DALVIK then _ else Some r).
  assert (Hd : exists r1, dalvik = Some r1 /\ sound r1 /\ is_Some (holders r1 !! p) /\ is_Some (holders r1 !! z)).
  { unfold dalvik. destruct (has _ SET_PROCESS_DALVIK); [|eauto 10]. rewrite Hz. cbn [mbind option_bind].
    destruct (inherit_dexs r S p h z zh Hp Hz) as (m & -> & S' & _). cbn [mbind option_bind].
    eexists. split; [done|]. split; [done|]. cbn. rewrite lookup_insert_eq. split; [done|].
    destruct (decide (p = z)) as [->|]; [by rewrite lookup_insert_eq|by rewrite lookup_insert_ne, Hz]. }
  destruct Hd as (r1 & -> & S1 & [h1 Hp1] & [z1 Hz1]). cbn [mbind option_bind]. destruct (has _ _); [|eauto].
  rewrite Hp1. cbn [mbind option_bind]. rewrite Hz1. cbn [mbind option_bind].
  destruct (inherit_objs r1 S1 p h1 z z1 Hp1 Hz1) as (m & -> & S' & _). eauto.
Qed.
End Kept4.

Lemma start_tracing_sound r opened program kernel p h : sound r -> holders r !! p = Some h ->
  exists r', start_tracing opened program kernel p r = Some r' /\ sound r'.
Proof.
  assert (Hd : forall r h, sound r -> holders r !! p = Some h -> exists r', delete_process p r = Some r' /\ sound r').
  { intros r1 h1 S1 H1. destruct (delete_process_sound r1 S1 p h1 H1) as (r' & E & S' & _). eauto. }
  intros S Hp. unfold start_tracing. destruct opened; [|by eapply Hd].
  destruct (load_program_sound r S program p h Hp) as (ok & r1 & -> & S1 & [h1 H1]). cbn [mbind option_bind].
  destruct ok; [|by eapply Hd]. destruct (load_vmlinux_sound r1 S1 kernel p h1 H1) as (ok & r2 & -> & S2 & [h2 H2]).
  cbn [mbind option_bind]. destruct ok; [by apply (count_tracing_sound r2 S2 p h2)|by eapply Hd].
Qed.

Lemma perform_sound r x : sound r -> permitted x r -> exists r', perform x r = Some r' /\ sound r'.
Proof.
  intros S. destruct x as [type|p opened program kernel|p|p|p start|p start|p z]; cbn [permitted perform].
  - intros _. pose proof (create_process_sound r S type) as H. destruct (create_process type r) as [p r'].
    exists r'. split; [done|apply H].
  - intros [h Hp]. by apply (start_tracing_sound r opened program kernel p h).
  - intros (h & c & Hp & Hc & H1). destruct (copy_process_sound r S p h c Hp Hc H1) as (q & r' & -> & S'). by exists r'.
  - intros [h Hp]. destruct (delete_process_sound r S p h Hp) as (r' & E & S' & _). eauto.
  - intros [h Hp]. destruct (map_obj_sound r S start p h Hp) as (r' & E & S' & _). eauto.
  - intros [h Hp]. by apply (map_dex_sound r S start p h).
  - intros [[h Hp] [zh Hz]]. by apply (inherit_sound r S p z h zh).
Qed.

Lemma history_sound l r : history l r -> sound r.
Proof. induction 1 as [|l x r r' _ S Hx E]; [apply sound0|]. destruct (perform_sound r x S Hx) as (r1 & E1 & S1). congruence. Qed.

(** ** Theorems *)

(** C29: Shared files are freed in time, never too early.  Whatever processes are created, copied to
    threads, traced, map, inherit from zygote and end, in any order: no operation on a
    process in use follows a freed pointer, and after it every file in the tables of a process, and its counter, are
    still allocated; a count is never less than the number of groups of
    threads that hold the file. *)
Theorem files_in_use l r : history l r ->
  (forall x, permitted x r -> is_Some (perform x r)) /\
  (forall p h, holders r !! p = Some h ->
     (forall o, o ∈ obj_refs h -> is_Some (objs r !! o)) /\ (forall o, o ∈ h_dexTable h -> is_Some (dexs r !! o)) /\
     is_Some (tracings r !! h_tracing h)) /\
  (forall o y, objs r !! o = Some y -> Z.of_nat (size (groups (obj_holding (holders r)) o)) <= f_count y) /\
  (forall o y, dexs r !! o = Some y -> Z.of_nat (size (groups (dex_holding (holders r)) o)) <= f_count y).
Proof.
  intros H%history_sound. split_and!.
  - intros x Hx. destruct (perform_sound r x H Hx) as (r' & -> & _). done.
  - intros p h Hp. split_and!; intros *; [by apply (live_obj r H p)|by apply (live_dex r H p)|].
    destruct (so_members r H p h Hp) as (c & -> & _). done.
  - apply (cd_count _ _ (so_objs r H)).
  - apply (cd_count _ _ (so_dexs r H)).
Qed.

(** ** Examples *)

Definition permittedb (x : operation) (r : refs) : bool :=
  let live p := match holders r !! p with Some _ => true | None => false end in
  match x with
  | Create _ => true
  | StartTracing p _ _ _ | Delete p | MapObj p _ | MapDex p _ => live p
  | Copy p => match (h ← holders r !! p; tracings r !! h_tracing h) with Some c => 1 <=? c | None => false end
  | Inherit p z => live p && live z
  end.
Lemma permittedb_ok x r : permittedb x r = true -> permitted x r.
Proof.
  destruct x as [type|p opened program kernel|p|p|p start|p start|p z]; cbn; [done|destruct (holders r !! p); done|..].
  - destruct (holders r !! p) as [h|] eqn:Hp; [|done]. cbn. destruct (tracings r !! h_tracing h) as [c|] eqn:Hc; [|done].
    intros Hle%Z.leb_le. eauto.
  - destruct (holders r !! p); done.
  - destruct (holders r !! p); done.
  - destruct (holders r !! p); done.
  - destruct (holders r !! p), (holders r !! z); done.
Qed.

Definition run_all (l : list operation) : option refs :=
  foldl (fun r x => r ← r; if permittedb x r then perform x r else None) (Some refs0) l.
Lemma run_all_history l : forall r, run_all l = Some r -> history l r.
Proof.
  unfold run_all. induction l as [|x l IH] using rev_ind; intros r.
  - intros [= <-]. apply history_none.
  - rewrite foldl_app. cbn. destruct (foldl _ _ l) as [r1|]; [|done]. cbn.
    destruct (permittedb x r1) eqn:Hx; [|done]. intros E. eapply history_more; [by apply IH|by apply permittedb_ok|done].
Qed.

Definition LIBRARY_C : Z := Z.lor SET_PROCESS_LIBRARY SET_PROCESS_USER_C.
Definition APPLICATION : Z := Z.lor SET_PROCESS_LIBRARY SET_PROCESS_DALVIK.

(** zygote (1) maps a library (3) and a dex file (4); an application (5) takes both over and
    has a thread (7); then zygote ends.  The files stay, held once. *)
Definition zygote_ends : list operation :=
  [Create SET_PROCESS_MMAP; StartTracing 1 true None None; MapObj 1 4096; MapDex 1 8192;
   Create APPLICATION; StartTracing 5 true None None; Inherit 5 1; Copy 5; Delete 1].
Definition zygote_ended : refs := Eval vm_compute in default refs0 (run_all zygote_ends).

Theorem files_in_use_witness : history zygote_ends zygote_ended /\
  is_Some (perform (Delete 7) zygote_ended) /\ is_Some (objs zygote_ended !! 3) /\ is_Some (dexs zygote_ended !! 4).
Proof.
  assert (H : history zygote_ends zygote_ended) by (apply run_all_history; vm_compute; reflexivity).
  destruct (files_in_use zygote_ends zygote_ended H) as (H1 & H2 & _). split_and!; [exact H|..].
  - apply H1. vm_compute. eexists. reflexivity.
  - destruct (holders zygote_ended !! 7) as [h|] eqn:E; [|vm_compute in E; discriminate E].
    apply (proj1 (H2 7 h E)). vm_compute in E. injection E as <-. vm_compute. left.
  - destruct (holders zygote_ended !! 7) as [h|] eqn:E; [|vm_compute in E; discriminate E].
    apply (proj1 (proj2 (H2 7 h E))). vm_compute in E. injection E as <-. vm_compute. left.
Defined.

(** When the application ends, thread after thread, everything is free. *)
Example all_freed :
  (fun r => (map_to_list (objs r), map_to_list (dexs r), map_to_list (tracings r))) <$> run_all (zygote_ends ++ [Delete 5; Delete 7]) =
  Some ([], [], []).
Proof. vm_compute. reflexivity. Qed.

(** Three ways to keep a file for ever.  A thread maps a library and ends before the others: its table is not
    looked at.  A program is started twice (two processes of the name): the counter
    stays at 1, so that even the output is never closed.  A program that takes over zygote's tables
    forgets its own file. *)
Theorem never_freed :
  (fun r => (map_to_list (holders r), map_to_list (objs r))) <$>
    run_all [Create SET_PROCESS_LIBRARY; StartTracing 1 true None None; Copy 1; MapObj 3 4096; Delete 3; Delete 1] =
    Some ([], [(4, mk_shared 4096 1)]) /\
  (fun r => (map_to_list (holders r), map_to_list (tracings r), map_to_list (objs r))) <$>
    run_all [Create SET_PROCESS_LIBRARY; StartTracing 1 true None None; StartTracing 1 true None None; MapObj 1 4096; Delete 1] =
    Some ([], [(2, 1)], [(3, mk_shared 4096 1)]) /\
  (fun r => (map_to_list (holders r), map_to_list (objs r))) <$>
    run_all [Create SET_PROCESS_MMAP; Create LIBRARY_C; StartTracing 3 true (Some 32768) None; Inherit 3 1; Delete 3; Delete 1] =
    Some ([], [(5, mk_shared 32768 1)]).
Proof. split_and!; vm_compute; reflexivity. Qed.
