(* ===== verification/Efd.v ===== *)
(** * The reader of ELF files ([SET/efd.c])

    [efd_open_elf] reads the section headers, the symbol table with its strings and,
    if there is a dynamic symbol table, the procedure linkage table and the needed
    libraries.  A file is the list of its bytes.  The structures of [elf.h] are read
    as they lie in the file: the host is little-endian, as the guest is.

    The result of opening: [None] for undefined behaviour (an index behind a
    table, a division by zero, a byte that was never read), [Some None] for NULL,
    [Some (Some f)] for a descriptor.  [fread] into a buffer of the section's size gives
    what the file has; the rest of the buffer is uninitialised and is not in
    the list.  The code tests [feof] behind four of its nine reads. *)
From Stdlib Require Ascii.
From stdpp Require Import strings.
From S2P Require Import Prelude SetObject.

(** ** Bytes, and structures of them *)

Fixpoint le_bytes (n : nat) (x : Z) : list Z :=
  match n with O => [] | S n => x mod 256 :: le_bytes n (x / 256) end.
Fixpoint le (l : list Z) : Z := match l with [] => 0 | b :: l => b + 256 * le l end.
(** The member of [n] bytes at [off] *)
Definition member (n off : nat) (l : list Z) : Z := le (take n (drop off l)).

(** A structure with a fixed layout; [fits]: its members have their widths. *)
Class Layout (A : Type) := {
  sizeof : nat; dec : list Z -> A; enc : A -> list Z; fits : A -> Prop;
  enc_length a : fits a -> length (enc a) = sizeof;
  dec_enc a rest : fits a -> dec (enc a ++ rest) = a }.

Record Elf32_Ehdr := mk_ehdr {
  e_ident : list Z; eh_type : Z; e_machine : Z; e_version : Z; e_entry : Z; e_phoff : Z; e_shoff : Z; e_flags : Z;
  e_ehsize : Z; e_phentsize : Z; e_phnum : Z; e_shentsize : Z; e_shnum : Z; e_shstrndx : Z }.
Record Elf32_Shdr := mk_shdr {
  sh_name : Z; sh_type : Z; sh_flags : Z; sh_addr : Z; sh_offset : Z; sh_size : Z; sh_link : Z; sh_info : Z;
  sh_addralign : Z; sh_entsize : Z }.
Record Elf32_Sym := mk_esym { st_name : Z; st_value : Z; st_size : Z; st_info : Z; st_other : Z; st_shndx : Z }.
Record Elf32_Rel := mk_rel { r_offset : Z; r_info : Z }.
Record Elf32_Dyn := mk_dyn { d_tag : Z; d_val : Z }.

Definition w8 (x : Z) : Prop := 0 <= x < 2 ^ 8.
Definition w16 (x : Z) : Prop := 0 <= x < 2 ^ 16.
Definition w32 (x : Z) : Prop := 0 <= x < 2 ^ 32.

Lemma le_le_bytes n : forall x, 0 <= x < 2 ^ (8 * Z.of_nat n) -> le (le_bytes n x) = x.
Proof.
  induction n as [|n IH]; intros x Hx; [cbn; lia|]. cbn [le_bytes le].
  rewrite Nat2Z.inj_succ, Z.mul_succ_r, Z.pow_add_r in Hx by lia. change (2 ^ 8) with 256 in Hx.
  rewrite IH; [pose proof (Z.div_mod x 256); lia|]. split; [apply Z.div_pos; lia|]. apply Z.div_lt_upper_bound; lia.
Qed.
Lemma le1 x : w8 x -> le [x mod 256] = x.
Proof. apply (le_le_bytes 1). Qed.
Lemma le2 x : w16 x -> le [x mod 256; x / 256 mod 256] = x.
Proof. apply (le_le_bytes 2). Qed.
Lemma le4 x : w32 x -> le [x mod 256; x / 256 mod 256; x / 256 / 256 mod 256; x / 256 / 256 / 256 mod 256] = x.
Proof. apply (le_le_bytes 4). Qed.

(** The members of an encoded structure, one after the other *)
Ltac read_members := unfold member; cbn [app le_bytes take drop]; rewrite ?le1, ?le2, ?le4 by done.

#[export] Program Instance ehdr_layout : Layout Elf32_Ehdr := {|
  sizeof := 52;
  dec l := mk_ehdr (take 16 l) (member 2 16 l) (member 2 18 l) (member 4 20 l) (member 4 24 l) (member 4 28 l) (member 4 32 l)
             (member 4 36 l) (member 2 40 l) (member 2 42 l) (member 2 44 l) (member 2 46 l) (member 2 48 l) (member 2 50 l);
  enc h := e_ident h ++ le_bytes 2 (eh_type h) ++ le_bytes 2 (e_machine h) ++ le_bytes 4 (e_version h) ++ le_bytes 4 (e_entry h) ++
    le_bytes 4 (e_phoff h) ++ le_bytes 4 (e_shoff h) ++ le_bytes 4 (e_flags h) ++ le_bytes 2 (e_ehsize h) ++
    le_bytes 2 (e_phentsize h) ++ le_bytes 2 (e_phnum h) ++ le_bytes 2 (e_shentsize h) ++ le_bytes 2 (e_shnum h) ++
    le_bytes 2 (e_shstrndx h);
  fits h := length (e_ident h) = 16%nat /\ w16 (eh_type h) /\ w16 (e_machine h) /\ w32 (e_version h) /\ w32 (e_entry h) /\
    w32 (e_phoff h) /\ w32 (e_shoff h) /\ w32 (e_flags h) /\ w16 (e_ehsize h) /\ w16 (e_phentsize h) /\ w16 (e_phnum h) /\
    w16 (e_shentsize h) /\ w16 (e_shnum h) /\ w16 (e_shstrndx h) |}.
Next Obligation. intros h (Hi & _). by rewrite length_app, Hi. Qed.
Next Obligation.
  intros [id] rest (Hi & Hf). cbn [e_ident eh_type e_machine e_version e_entry e_phoff e_shoff e_flags e_ehsize e_phentsize
    e_phnum e_shentsize e_shnum e_shstrndx] in *. destruct_and! Hf.
  do 16 (destruct id as [|? id]; [done|]). destruct id; [|done]. by read_members.
Qed.

#[export] Program Instance shdr_layout : Layout Elf32_Shdr := {|
  sizeof := 40;
  dec l := mk_shdr (member 4 0 l) (member 4 4 l) (member 4 8 l) (member 4 12 l) (member 4 16 l) (member 4 20 l) (member 4 24 l)
             (member 4 28 l) (member 4 32 l) (member 4 36 l);
  enc h := le_bytes 4 (sh_name h) ++ le_bytes 4 (sh_type h) ++ le_bytes 4 (sh_flags h) ++ le_bytes 4 (sh_addr h) ++
    le_bytes 4 (sh_offset h) ++ le_bytes 4 (sh_size h) ++ le_bytes 4 (sh_link h) ++ le_bytes 4 (sh_info h) ++
    le_bytes 4 (sh_addralign h) ++ le_bytes 4 (sh_entsize h);
  fits h := w32 (sh_name h) /\ w32 (sh_type h) /\ w32 (sh_flags h) /\ w32 (sh_addr h) /\ w32 (sh_offset h) /\ w32 (sh_size h) /\
    w32 (sh_link h) /\ w32 (sh_info h) /\ w32 (sh_addralign h) /\ w32 (sh_entsize h) |}.
Next Obligation. done. Qed.
Next Obligation.
  intros [] rest Hf. cbn [sh_name sh_type sh_flags sh_addr sh_offset sh_size sh_link sh_info sh_addralign sh_entsize] in *.
  destruct_and! Hf. by read_members.
Qed.

#[export] Program Instance sym_layout : Layout Elf32_Sym := {|
  sizeof := 16;
  dec l := mk_esym (member 4 0 l) (member 4 4 l) (member 4 8 l) (member 1 12 l) (member 1 13 l) (member 2 14 l);
  enc y := le_bytes 4 (st_name y) ++ le_bytes 4 (st_value y) ++ le_bytes 4 (st_size y) ++ le_bytes 1 (st_info y) ++
    le_bytes 1 (st_other y) ++ le_bytes 2 (st_shndx y);
  fits y := w32 (st_name y) /\ w32 (st_value y) /\ w32 (st_size y) /\ w8 (st_info y) /\ w8 (st_other y) /\ w16 (st_shndx y) |}.
Next Obligation. done. Qed.
Next Obligation.
  intros [] rest Hf. cbn [st_name st_value st_size st_info st_other st_shndx] in *. destruct_and! Hf. by read_members.
Qed.

#[export] Program Instance rel_layout : Layout Elf32_Rel := {|
  sizeof := 8; dec l := mk_rel (member 4 0 l) (member 4 4 l); enc r := le_bytes 4 (r_offset r) ++ le_bytes 4 (r_info r);
  fits r := w32 (r_offset r) /\ w32 (r_info r) |}.
Next Obligation. done. Qed.
Next Obligation. intros [] rest Hf. cbn [r_offset r_info] in *. destruct_and! Hf. by read_members. Qed.

#[export] Program Instance dyn_layout : Layout Elf32_Dyn := {|
  sizeof := 8; dec l := mk_dyn (member 4 0 l) (member 4 4 l); enc r := le_bytes 4 (d_tag r) ++ le_bytes 4 (d_val r);
  fits r := w32 (d_tag r) /\ w32 (d_val r) |}.
Next Obligation. done. Qed.
Next Obligation. intros [] rest Hf. cbn [d_tag d_val] in *. destruct_and! Hf. by read_members. Qed.

(** ** Files *)

Definition file_bytes : Type := list Z.
(** What [fread] puts into a buffer of [n] bytes *)
Definition fread (f : file_bytes) (off n : Z) : list Z := take (Z.to_nat n) (drop (Z.to_nat off) f).
(** The same, when the code asks for [feof] afterwards *)
Definition fread_feof (f : file_bytes) (off n : Z) : option (list Z) :=
  let b := fread f off n in if Z.of_nat (length b) =? n then Some b else None.

(** Element [i] of an array of structures in a buffer *)
Definition elem (A : Type) `{Layout A} (b : list Z) (i : Z) : option A :=
  let n := Z.of_nat (sizeof (A := A)) in
  if (0 <=? i) && (n * (i + 1) <=? Z.of_nat (length b)) then Some (dec (drop (Z.to_nat (n * i)) b)) else None.
Definition elems (A : Type) `{Layout A} (b : list Z) (n : nat) : list A :=
  (fun i => dec (drop (sizeof (A := A) * i) b)) <$> seq 0 n.

(** A C string, and [strcmp] with one, which stops at the first difference *)
Fixpoint c_str (b : list Z) : option (list Z) :=
  match b with [] => None | c :: b => if c =? 0 then Some [] else s ← c_str b; Some (c :: s) end.
Fixpoint strcmp_eq (name b : list Z) : option bool :=
  match name, b with
  | _, [] => None
  | [], c :: _ => Some (c =? 0)
  | a :: name, c :: b => if a =? c then strcmp_eq name b else Some false
  end.
Definition str_at (b : list Z) (off : Z) : list Z := drop (Z.to_nat off) b.
Definition c_string (l : list Z) : string := String.string_of_list_ascii (map (fun c => Ascii.ascii_of_nat (Z.to_nat c)) l).
Definition chars (s : string) : list Z := map (fun c => Z.of_nat (Ascii.nat_of_ascii c)) (String.list_ascii_of_string s).

(** ** The descriptor *)

Record efd := mk_efd {
  elf_hdr : Elf32_Ehdr; sec_hdr : list Elf32_Shdr; shstrtab : list Z;
  ndx_sym : Z; sym_num : Z; esymtab : list Z; strtab : list Z;
  ndx_dynsym : Z; dynsym_num : Z; dynsymtab : list Z; dynstrtab : list Z;
  plt : list (Z * Z);   (** address, and where its name is in [dynstrtab] *)
  lib_num : Z; dyntab : list Z }.

Definition ET_EXEC : Z := 2.
Definition SHT_SYMTAB : Z := 2.
Definition SHT_DYNAMIC : Z := 6.
Definition SHT_DYNSYM : Z := 11.
Definition DT_NEEDED : Z := 1.

Definition elf_ident (ident : list Z) : bool := bool_decide (take 5 ident = [127; 69; 76; 70; 1]).
Definition elf_check_format (h : Elf32_Ehdr) : bool :=
  elf_ident (e_ident h) && ((eh_type h =? ET_EXEC) || (eh_type h =? ET_DYN)).

(** Sections are searched from the second on; 0: none *)
Fixpoint find_type (i type : Z) (l : list Elf32_Shdr) : Z :=
  match l with [] => 0 | h :: l => if sh_type h =? type then i else find_type (i + 1) type l end.
Definition efd_find_sec_by_type (l : list Elf32_Shdr) (type : Z) : Z := find_type 1 type (drop 1 l).

Fixpoint find_sec_name (i : Z) (name shstrtab : list Z) (l : list Elf32_Shdr) : option Z :=
  match l with
  | [] => Some 0
  | h :: l => e ← strcmp_eq name (str_at shstrtab (sh_name h)); if (e : bool) then Some i else find_sec_name (i + 1) name shstrtab l
  end.
Definition efd_find_sec_by_name (name : string) (f : efd) : option Z :=
  find_sec_name 1 (chars name) (shstrtab f) (drop 1 (sec_hdr f)).

(** The value of the first symbol of that name; 0: none *)
Fixpoint find_sym_name (n : nat) (i : Z) (name tab strs : list Z) : option Z :=
  match n with
  | O => Some 0
  | S n =>
      y ← elem Elf32_Sym tab i;
      e ← strcmp_eq name (str_at strs (st_name y));
      if (e : bool) then Some (st_value y) else find_sym_name n (i + 1) name tab strs
  end.
Definition efd_find_sym_by_name (name : string) (f : efd) : option Z :=
  find_sym_name (Z.to_nat (sym_num f)) 0 (chars name) (esymtab f) (strtab f).
Definition efd_find_dynsym_by_name (name : string) (f : efd) : option Z :=
  find_sym_name (Z.to_nat (dynsym_num f)) 0 (chars name) (dynsymtab f) (dynstrtab f).

(** A division of the header's numbers *)
Definition count_of (h : Elf32_Shdr) : option Z := if sh_entsize h =? 0 then None else Some (sh_size h / sh_entsize h).
Definition sec (l : list Elf32_Shdr) (i : Z) : option Elf32_Shdr := l !! Z.to_nat i.
Definition contents (f : file_bytes) (h : Elf32_Shdr) : list Z := fread f (sh_offset h) (sh_size h).

(** *** The procedure linkage table: 20 bytes, then entries of 12 *)

Definition ELF32_R_SYM (info : Z) : Z := Z.shiftr info 8.
Fixpoint plt_entries (n : nat) (i addr : Z) (rels : list Z) (f : efd) : option (list (Z * Z) * Z) :=
  match n with
  | O => Some ([], addr)
  | S n =>
      r ← elem Elf32_Rel rels i;
      y ← elem Elf32_Sym (dynsymtab f) (ELF32_R_SYM (r_info r));
      '(l, last) ← plt_entries n (i + 1) (u32 (addr + 12)) rels f;
      Some ((addr, st_name y) :: l, last)
  end.

Definition with_plt (l : list (Z * Z)) (f : efd) : efd :=
  mk_efd (elf_hdr f) (sec_hdr f) (shstrtab f) (ndx_sym f) (sym_num f) (esymtab f) (strtab f) (ndx_dynsym f) (dynsym_num f)
    (dynsymtab f) (dynstrtab f) l (lib_num f) (dyntab f).
(** The descriptor and whether the table is as expected *)
Definition parse_plt_for_arm (b : file_bytes) (f : efd) : option (efd * bool) :=
  ndx_relplt ← efd_find_sec_by_name ".rel.plt" f;
  if ndx_relplt =? 0 then Some (f, true)
  else
    rel ← sec (sec_hdr f) ndx_relplt;
    num ← count_of rel;
    ndx_plt ← efd_find_sec_by_name ".plt" f;
    p ← sec (sec_hdr f) ndx_plt;
    '(l, last) ← plt_entries (Z.to_nat num) 0 (u32 (sh_addr p + 20)) (contents b rel) f;
    Some (with_plt l f, (ndx_dynsym f =? sh_link rel) && (last =? u32 (sh_addr p + sh_size p))).

(** *** Opening *)

Fixpoint needed (n : nat) (l : list Z) : option Z :=
  match n with
  | O => None
  | S n =>
      if (length l <? 4)%nat then None
      else if le (take 4 l) =? DT_NEEDED then k ← needed n (drop 8 l); Some (k + 1) else Some 0
  end.

(** The dynamic symbol table and what depends on it *)
Definition open_dynamic (b : file_bytes) (f : efd) : option (option efd) :=
  let ndx := efd_find_sec_by_type (sec_hdr f) SHT_DYNSYM in
  if ndx =? 0 then Some (Some f)
  else
    d ← sec (sec_hdr f) ndx;
    num ← count_of d;
    s ← sec (sec_hdr f) (wrap 16 (sh_link d));
    let f := mk_efd (elf_hdr f) (sec_hdr f) (shstrtab f) (ndx_sym f) (sym_num f) (esymtab f) (strtab f) ndx num
               (contents b d) (contents b s) [] 0 [] in
    '(f, ok) ← parse_plt_for_arm b f;
    if ok : bool then
      dy ← sec (sec_hdr f) (efd_find_sec_by_type (sec_hdr f) SHT_DYNAMIC);
      let tab := contents b dy in
      n ← needed (S (length tab)) tab;
      Some (Some (mk_efd (elf_hdr f) (sec_hdr f) (shstrtab f) (ndx_sym f) (sym_num f) (esymtab f) (strtab f) (ndx_dynsym f)
        (dynsym_num f) (dynsymtab f) (dynstrtab f) (plt f) n tab))
    else Some None.

Definition open_symbols (b : file_bytes) (h : Elf32_Ehdr) (l : list Elf32_Shdr) : option (option efd) :=
  str ← sec l (e_shstrndx h);
  let ndx := efd_find_sec_by_type l SHT_SYMTAB in
  let ndx := if ndx =? 0 then efd_find_sec_by_type l SHT_DYNSYM else ndx in
  if ndx =? 0 then Some None
  else
    y ← sec l ndx;
    num ← count_of y;
    match fread_feof b (sh_offset y) (sh_size y) with
    | None => Some None
    | Some tab =>
        s ← sec l (wrap 16 (sh_link y));
        match fread_feof b (sh_offset s) (sh_size s) with
        | None => Some None
        | Some strs => open_dynamic b (mk_efd h l (contents b str) ndx num tab strs 0 0 [] [] [] 0 [])
        end
    end.

(** [fopen] gave the file, or not. *)
Definition efd_open_elf (file : option file_bytes) : option (option efd) :=
  match file with
  | None => Some None
  | Some b =>
      match fread_feof b 0 52 with
      | None => Some None
      | Some hb =>
          let h : Elf32_Ehdr := dec hb in
          if elf_check_format h then
            match fread_feof b (e_shoff h) (40 * e_shnum h) with
            | None => Some None
            | Some sb => open_symbols b h (elems Elf32_Shdr sb (Z.to_nat (e_shnum h)))
            end
          else Some None
      end
  end.

(** ** What the tracer reads ([efd_get_sym_*]) *)

Definition efd_get_sym (f : efd) (i : Z) : option sym :=
  y ← elem Elf32_Sym (esymtab f) i;
  name ← c_str (str_at (strtab f) (st_name y));
  Some (mk_sym (c_string name) (st_value y) (st_size y) (Z.land (st_info y) 0xf) (Z.land (st_other y) 3) (st_shndx y)).
Definition efd_syms (f : efd) : option EFD :=
  l ← mapM (efd_get_sym f) (seqZ 0 (sym_num f)); Some (mk_EFD (eh_type (elf_hdr f)) l).

(** The symbols of a file on the host: the parameter [elf] of the tracer *)
Definition elf_on_disk (files : string -> option file_bytes) (path : string) : option EFD :=
  match efd_open_elf (files path) with Some (Some f) => efd_syms f | _ => None end.

(** ** A writer of such files *)

(** Sections with their contents; the writer places them behind the header, and
    the table of headers behind them. *)
Definition place_hdr (off : Z) (h : Elf32_Shdr) (c : list Z) : Elf32_Shdr :=
  mk_shdr (sh_name h) (sh_type h) (sh_flags h) (sh_addr h) off (Z.of_nat (length c)) (sh_link h) (sh_info h) (sh_addralign h)
    (sh_entsize h).
Fixpoint place (off : Z) (secs : list (Elf32_Shdr * list Z)) : list Elf32_Shdr :=
  match secs with [] => [] | (h, c) :: secs => place_hdr off h c :: place (off + Z.of_nat (length c)) secs end.
Definition im_hdr (h : Elf32_Ehdr) (secs : list (Elf32_Shdr * list Z)) : Elf32_Ehdr :=
  mk_ehdr (e_ident h) (eh_type h) (e_machine h) (e_version h) (e_entry h) (e_phoff h)
    (52 + Z.of_nat (length (concat secs.*2))) (e_flags h) (e_ehsize h) (e_phentsize h) (e_phnum h) (e_shentsize h)
    (Z.of_nat (length secs)) (e_shstrndx h).
Definition elf_file (h : Elf32_Ehdr) (secs : list (Elf32_Shdr * list Z)) : file_bytes :=
  enc (im_hdr h secs) ++ concat secs.*2 ++ concat (enc <$> place 52 secs).

(** The symbol that an entry stands for *)
Definition sym_of (strs : list Z) (y : Elf32_Sym) : option sym :=
  name ← c_str (str_at strs (st_name y));
  Some (mk_sym (c_string name) (st_value y) (st_size y) (Z.land (st_info y) 0xf) (Z.land (st_other y) 3) (st_shndx y)).

(** The first section of a type, behind the null section *)
Definition first_of (type : Z) (k : nat) (secs : list (Elf32_Shdr * list Z)) : Prop :=
  (1 <= k)%nat /\ (exists x, secs !! k = Some x /\ sh_type x.1 = type) /\
  forall j x, (1 <= j < k)%nat -> secs !! j = Some x -> sh_type x.1 <> type.
Definition none_of (type : Z) (secs : list (Elf32_Shdr * list Z)) : Prop :=
  forall j x, (1 <= j)%nat -> secs !! j = Some x -> sh_type x.1 <> type.

(** ** Helper lemmas *)

Section Arrays.
Context {A : Type} `{Layout A}.

Lemma enc_all_length (xs : list A) : Forall fits xs -> length (concat (enc <$> xs)) = (sizeof (A := A) * length xs)%nat.
Proof.
  induction 1 as [|x xs Hx _ IH]; cbn; [lia|]. rewrite length_app, IH, enc_length by done. lia.
Qed.

Lemma drop_enc (xs : list A) rest i x :
  Forall fits xs -> xs !! i = Some x ->
  exists rest', drop (sizeof (A := A) * i) (concat (enc <$> xs) ++ rest) = enc x ++ rest'.
Proof.
  revert i. induction xs as [|y xs IH]; intros i Hf Hi; [done|]. apply Forall_cons in Hf as [Hy Hf]. destruct i as [|i].
  - injection Hi as ->. rewrite Nat.mul_0_r. cbn [fmap list_fmap concat]. rewrite drop_0, <- app_assoc. by eexists.
  - cbn [fmap list_fmap concat]. rewrite <- app_assoc, drop_app, (drop_ge (enc y)) by (rewrite enc_length by done; lia).
    rewrite (enc_length y Hy). replace (sizeof * S i - sizeof)%nat with (sizeof (A := A) * i)%nat by lia. by apply IH.
Qed.

Lemma elem_enc (xs : list A) rest i x :
  Forall fits xs -> xs !! i = Some x -> elem A (concat (enc <$> xs) ++ rest) (Z.of_nat i) = Some x.
Proof.
  intros Hf Hi. unfold elem. rewrite length_app, enc_all_length by done. apply lookup_lt_Some in Hi as Hlt.
  rewrite (proj2 (Z.leb_le 0 _)), (proj2 (Z.leb_le _ (Z.of_nat _))) by nia. cbn [andb].
  replace (Z.to_nat _) with (sizeof (A := A) * i)%nat by lia. destruct (drop_enc xs rest i x Hf Hi) as [r ->].
  rewrite dec_enc; [done|]. by eapply Forall_lookup_1.
Qed.

Lemma elems_enc (xs : list A) rest : Forall fits xs -> elems A (concat (enc <$> xs) ++ rest) (length xs) = xs.
Proof.
  intros Hf. unfold elems. apply list_eq. intros i. rewrite list_lookup_fmap. destruct (xs !! i) as [x|] eqn:Hi.
  - rewrite lookup_seq_lt by by eapply lookup_lt_Some. cbn. destruct (drop_enc xs rest i x Hf Hi) as [r ->].
    rewrite dec_enc; [done|]. by eapply Forall_lookup_1.
  - by rewrite lookup_seq_ge by by apply lookup_ge_None.
Qed.
End Arrays.

Lemma fread_app pre c post : fread (pre ++ c ++ post) (Z.of_nat (length pre)) (Z.of_nat (length c)) = c.
Proof. unfold fread. by rewrite !Nat2Z.id, drop_app_length, take_app_length. Qed.

Lemma fread_feof_app pre c post : fread_feof (pre ++ c ++ post) (Z.of_nat (length pre)) (Z.of_nat (length c)) = Some c.
Proof. unfold fread_feof. by rewrite fread_app, Z.eqb_refl. Qed.

Lemma place_length secs : forall off, length (place off secs) = length secs.
Proof. induction secs as [|[h c] secs IH]; intros off; [done|]. cbn. by rewrite IH. Qed.

Lemma place_lookup secs : forall off i h c,
  secs !! i = Some (h, c) -> exists pre post, concat secs.*2 = pre ++ c ++ post /\
    place off secs !! i = Some (place_hdr (off + Z.of_nat (length pre)) h c).
Proof.
  induction secs as [|[h0 c0] secs IH]; intros off i h c Hi; [done|]. destruct i as [|i].
  - injection Hi as -> ->. exists [], (concat secs.*2). cbn. by rewrite Z.add_0_r.
  - destruct (IH (off + Z.of_nat (length c0)) i h c Hi) as (pre & post & E & P). exists (c0 ++ pre), post. cbn. split.
    + by rewrite E, <- app_assoc.
    + change (place off ((h0, c0) :: secs) !! S i) with (place (off + Z.of_nat (length c0)) secs !! i).
      etransitivity; [exact P|]. rewrite length_app. do 2 f_equal. lia.
Qed.

Lemma place_lookup_inv secs i h :
  forall off, place off secs !! i = Some h -> exists x, secs !! i = Some x /\ sh_type h = sh_type x.1.
Proof.
  revert i. induction secs as [|[h0 c0] secs IH]; intros i off Hi; [done|]. destruct i as [|i].
  - injection Hi as <-. by eexists.
  - by apply IH in Hi.
Qed.

Lemma find_type_first type l : forall i k h,
  l !! k = Some h -> sh_type h = type -> (forall j h, (j < k)%nat -> l !! j = Some h -> sh_type h <> type) ->
  find_type i type l = i + Z.of_nat k.
Proof.
  induction l as [|h0 l IH]; intros i k h Hk Ht Hb; [done|]. cbn [find_type]. destruct k as [|k].
  - injection Hk as ->. rewrite (proj2 (Z.eqb_eq _ _)) by done. lia.
  - rewrite (proj2 (Z.eqb_neq _ _)) by (apply (Hb 0%nat); [lia|done]).
    rewrite (IH (i + 1) k h Hk Ht); [lia|]. intros j h' Hj. apply (Hb (S j)). lia.
Qed.

Lemma find_type_none type l : forall i, (forall j h, l !! j = Some h -> sh_type h <> type) -> find_type i type l = 0.
Proof.
  induction l as [|h0 l IH]; intros i Hn; [done|]. cbn [find_type].
  rewrite (proj2 (Z.eqb_neq _ _)) by by apply (Hn 0%nat). apply IH. intros j h. apply (Hn (S j)).
Qed.

Lemma find_first off secs type k :
  first_of type k secs -> efd_find_sec_by_type (place off secs) type = Z.of_nat k.
Proof.
  intros (Hk & ([h c] & Hx & Ht) & Hb). unfold efd_find_sec_by_type.
  destruct (place_lookup secs off k h c Hx) as (pre & post & _ & P).
  rewrite (find_type_first type _ 1 (k - 1) (place_hdr (off + Z.of_nat (length pre)) h c)); [lia| |done|].
  - rewrite lookup_drop. by replace (1 + (k - 1))%nat with k by lia.
  - intros j h' Hj. rewrite lookup_drop. intros (x & Hx' & ->)%place_lookup_inv. apply (Hb (1 + j)%nat); [lia|done].
Qed.

Lemma find_none off secs type : none_of type secs -> efd_find_sec_by_type (place off secs) type = 0.
Proof.
  intros Hn. apply find_type_none. intros j h. rewrite lookup_drop. intros (x & Hx & ->)%place_lookup_inv.
  apply (Hn (1 + j)%nat); [lia|done].
Qed.

(** The dynamic part of a file does not change what was read of its symbols. *)
Lemma open_dynamic_syms b f f' : open_dynamic b f = Some (Some f') -> efd_syms f' = efd_syms f.
Proof.
  unfold open_dynamic. destruct (_ =? 0); [by intros [= <-]|].
  destruct (sec _ _) as [d|]; [|done]. cbn [mbind option_bind]. destruct (count_of d) as [num|]; [|done]. cbn [mbind option_bind].
  destruct (sec _ (wrap 16 _)) as [s|]; [|done]. cbn [mbind option_bind]. unfold parse_plt_for_arm.
  set (f1 := mk_efd _ _ _ _ _ _ _ _ _ _ _ _ _ _).
  destruct (efd_find_sec_by_name ".rel.plt" f1) as [r|]; [|done]. cbn [mbind option_bind].
  destruct (r =? 0).
  - cbn [mbind option_bind]. destruct (sec _ _); [|done]. cbn [mbind option_bind]. destruct (needed _ _); [|done].
    by intros [= <-].
  - destruct (sec _ r) as [rel|]; [|done]. cbn [mbind option_bind]. destruct (count_of rel); [|done]. cbn [mbind option_bind].
    destruct (efd_find_sec_by_name ".plt" f1) as [p|]; [|done]. cbn [mbind option_bind]. destruct (sec _ p); [|done].
    cbn [mbind option_bind]. destruct (plt_entries _ _ _ _ _) as [[l last]|]; [|done]. cbn [mbind option_bind].
    destruct (_ && _); [|done]. destruct (sec _ _); [|done]. cbn [mbind option_bind]. destruct (needed _ _); [|done].
    by intros [= <-].
Qed.

Section Image.
Context (h : Elf32_Ehdr) (secs : list (Elf32_Shdr * list Z)).

(** The file has the sections where its header says. *)
Lemma file_section i hd c :
  fits (im_hdr h secs) -> secs !! i = Some (hd, c) ->
  exists pre post, place 52 secs !! i = Some (place_hdr (Z.of_nat (length pre)) hd c) /\ elf_file h secs = pre ++ c ++ post.
Proof.
  intros Hf Hi. destruct (place_lookup secs 52 i hd c Hi) as (pre & post & E & P).
  exists (enc (im_hdr h secs) ++ pre), (post ++ concat (enc <$> place 52 secs)). split.
  - rewrite P, length_app, (enc_length _ Hf). do 2 f_equal. cbn [sizeof ehdr_layout]. lia.
  - unfold elf_file. by rewrite E, <- !app_assoc.
Qed.

(** A file the code takes: 32-bit ELF, executable or shared object, no number too big *)
Record elf_ok : Prop := {
  ok_format : elf_check_format h = true;
  ok_header : fits (im_hdr h secs);
  ok_sections : Forall fits (place 52 secs);
  ok_names : (Z.to_nat (e_shstrndx h) < length secs)%nat }.

(** Where its symbols are: in the symbol table or, in a stripped one, in the dynamic one *)
Record symbols_in (k : nat) (syms : list Elf32_Sym) (strs : list Z) : Prop := {
  sy_first : first_of SHT_SYMTAB k secs \/ (none_of SHT_SYMTAB secs /\ first_of SHT_DYNSYM k secs);
  sy_table : exists hd hs, secs !! k = Some (hd, concat (enc <$> syms)) /\ sh_entsize hd = 16 /\
    secs !! Z.to_nat (sh_link hd) = Some (hs, strs) /\ 0 <= sh_link hd;
  sy_fits : Forall fits syms }.

Lemma headers_read :
  elf_ok -> exists f0 : file_bytes -> option (option efd),
    f0 = (fun b => open_symbols b (im_hdr h secs) (place 52 secs)) /\
    efd_open_elf (Some (elf_file h secs)) = f0 (elf_file h secs).
Proof.
  intros [Hc Hh Hs Hn]. eexists. split; [reflexivity|]. unfold efd_open_elf.
  assert (E0 : fread_feof (elf_file h secs) 0 52 = Some (enc (im_hdr h secs))).
  { pose proof (fread_feof_app [] (enc (im_hdr h secs)) (concat secs.*2 ++ concat (enc <$> place 52 secs))) as E.
    by rewrite (enc_length _ Hh) in E. }
  rewrite E0. pose proof (dec_enc (im_hdr h secs) [] Hh) as D. rewrite app_nil_r in D. rewrite D.
  change (elf_check_format (im_hdr h secs)) with (elf_check_format h). rewrite Hc.
  assert (E1 : fread_feof (elf_file h secs) (e_shoff (im_hdr h secs)) (40 * e_shnum (im_hdr h secs)) =
    Some (concat (enc <$> place 52 secs))).
  { pose proof (fread_feof_app (enc (im_hdr h secs) ++ concat secs.*2) (concat (enc <$> place 52 secs)) []) as E.
    rewrite app_nil_r, <- app_assoc in E. rewrite <- E. f_equal; cbn [e_shoff e_shnum im_hdr].
    - rewrite length_app, (enc_length _ Hh). cbn [sizeof ehdr_layout]. lia.
    - rewrite (enc_all_length _ Hs), place_length. cbn [sizeof shdr_layout]. lia. }
  rewrite E1. cbn [e_shnum im_hdr]. rewrite Nat2Z.id. pose proof (elems_enc (place 52 secs) [] Hs) as E2.
  by rewrite app_nil_r, place_length in E2; rewrite E2.
Qed.

Lemma symbols_read k syms strs :
  elf_ok -> symbols_in k syms strs -> exists f0,
    efd_open_elf (Some (elf_file h secs)) = open_dynamic (elf_file h secs) f0 /\
    elf_hdr f0 = im_hdr h secs /\ sec_hdr f0 = place 52 secs /\ sym_num f0 = Z.of_nat (length syms) /\
    esymtab f0 = concat (enc <$> syms) /\ strtab f0 = strs.
Proof.
  intros Ok [Hfirst (hd & hs & Hk & He & Hl & Hl0) Hfit]. destruct (headers_read Ok) as (? & -> & ->).
  destruct Ok as [Hc Hh Hs Hn]. unfold open_symbols, sec. cbn [e_shstrndx im_hdr].
  destruct (place 52 secs !! Z.to_nat (e_shstrndx h)) as [str|] eqn:Estr;
    [|apply lookup_ge_None in Estr; rewrite place_length in Estr; lia]. cbn [mbind option_bind].
  assert (Endx : (if efd_find_sec_by_type (place 52 secs) SHT_SYMTAB =? 0 then efd_find_sec_by_type (place 52 secs) SHT_DYNSYM
                 else efd_find_sec_by_type (place 52 secs) SHT_SYMTAB) = Z.of_nat k /\ (1 <= k)%nat).
  { destruct Hfirst as [Hf|[Hnone Hf]].
    - rewrite (find_first 52 secs _ k Hf). split; [|apply Hf]. by destruct (Z.eqb_spec (Z.of_nat k) 0); [destruct Hf; lia|].
    - rewrite (find_none 52 secs _ Hnone), (find_first 52 secs _ k Hf). split; [done|apply Hf]. }
  destruct Endx as [-> Hk1]. rewrite (proj2 (Z.eqb_neq _ 0)) by lia. rewrite Nat2Z.id.
  destruct (file_section k _ _ Hh Hk) as (pre & post & P & F). rewrite P. cbn [mbind option_bind].
  unfold count_of. cbn [sh_entsize sh_size sh_offset sh_link place_hdr]. rewrite He. cbn [Z.eqb mbind option_bind].
  rewrite F, fread_feof_app, <- F.
  assert (Hln : sh_link hd < 2 ^ 16).
  { apply lookup_lt_Some in Hl. destruct Hh as (_ & Hw). unfold w16 in Hw. cbn [e_shnum im_hdr] in Hw. lia. }
  unfold wrap. rewrite Z.mod_small by lia. destruct (file_section _ _ _ Hh Hl) as (pre2 & post2 & P2 & F2). rewrite P2.
  cbn [mbind option_bind sh_offset sh_size place_hdr]. rewrite F2, fread_feof_app, <- F2.
  eexists. split; [reflexivity|].
  cbn [elf_hdr sec_hdr sym_num esymtab strtab]. split_and!; try done. rewrite (enc_all_length syms Hfit). cbn [sizeof sym_layout].
  rewrite Nat2Z.inj_mul, Z.mul_comm. by rewrite Z.div_mul.
Qed.

Lemma syms_of f0 syms strs l :
  sym_num f0 = Z.of_nat (length syms) -> esymtab f0 = concat (enc <$> syms) -> strtab f0 = strs -> Forall fits syms ->
  mapM (sym_of strs) syms = Some l -> mapM (efd_get_sym f0) (seqZ 0 (sym_num f0)) = Some l.
Proof.
  intros Hn Ht Hs Hf Hl. rewrite Hn. apply mapM_Some in Hl. apply mapM_Some.
  apply Forall2_same_length_lookup in Hl as [Hlen Hl]. apply Forall2_same_length_lookup. split; [by rewrite length_seqZ, Nat2Z.id|].
  intros i x y Hx Hy. apply lookup_seqZ in Hx as [-> Hx]. rewrite Z.add_0_l.
  destruct (syms !! i) as [e|] eqn:Ei; [|apply lookup_ge_None in Ei; lia].
  unfold efd_get_sym. rewrite Ht. pose proof (elem_enc syms [] i e Hf Ei) as E. rewrite app_nil_r in E. rewrite E.
  cbn [mbind option_bind]. rewrite Hs. exact (Hl i e y Ei Hy).
Qed.

Lemma image_opens k syms strs l :
  elf_ok -> symbols_in k syms strs -> mapM (sym_of strs) syms = Some l -> exists f0,
    efd_open_elf (Some (elf_file h secs)) = open_dynamic (elf_file h secs) f0 /\
    efd_syms f0 = Some (mk_EFD (eh_type h) l) /\
    (none_of SHT_DYNSYM secs -> open_dynamic (elf_file h secs) f0 = Some (Some f0)).
Proof.
  intros Ok Hy Hl. destruct (symbols_read k syms strs Ok Hy) as (f0 & E & Hh & Hs & Hn & Ht & Hstr). exists f0.
  split; [done|]. split.
  - unfold efd_syms. rewrite (syms_of f0 syms strs l Hn Ht Hstr (sy_fits _ _ _ Hy) Hl). cbn [mbind option_bind]. by rewrite Hh.
  - intros Hnone. unfold open_dynamic. by rewrite Hs, (find_none 52 secs _ Hnone).
Qed.

(** C38: The reader reads back what an ELF file says.  Take any sections, placed
    one after the other behind a header of a 32-bit executable or shared object, with the
    table of section headers behind them; a symbol table of encoded entries and its
    string table among them (or, in a stripped library, only the dynamic ones).
    Then a file without a dynamic symbol table, such as the kernel's, is
    opened; and of every file that is opened the tracer sees the type and exactly
    the symbols that were written, with their names. *)
Theorem efd_reads_elf k syms strs l :
  elf_ok -> symbols_in k syms strs -> mapM (sym_of strs) syms = Some l ->
  (none_of SHT_DYNSYM secs -> exists f, efd_open_elf (Some (elf_file h secs)) = Some (Some f)) /\
  forall f, efd_open_elf (Some (elf_file h secs)) = Some (Some f) -> efd_syms f = Some (mk_EFD (eh_type h) l).
Proof.
  intros Ok Hy Hl. destruct (image_opens k syms strs l Ok Hy Hl) as (f0 & E & Hs & Hd). rewrite E. split.
  - intros Hnone. exists f0. by apply Hd.
  - intros f Hf. by rewrite (open_dynamic_syms _ _ _ Hf).
Qed.

(** From the bytes of the kernel's file to its events: if its symbols have the six
    watched functions ([kernel_events_found] says what that means), the tracer
    finds them, whatever else the file has. *)
Theorem kernel_file_watched files path k syms strs l :
  files path = Some (elf_file h secs) -> elf_ok -> symbols_in k syms strs -> mapM (sym_of strs) syms = Some l ->
  none_of SHT_DYNSYM secs ->
  let es := omap entry_sym l in
  length es = 6%nat -> NoDup es.*1 -> 0 ∉ es.*1 ->
  Forall (fun e => match retFunc (note_ranges kt0 l) e with Some r => range_ok r = true | None => True end)
    [EXECVE; EXIT; CS; MMAP; FORK; KTHREAD] ->
  exists t, get_special_kernel_func (elf_on_disk files path) KER_TABLE_SIZE = Ret (Some t) /\
    forall target, find_ker t target = Ret (event_of es target).
Proof.
  intros Hfile Ok Hy Hl Hnone es H1 H2 H3 H4. destruct (image_opens k syms strs l Ok Hy Hl) as (f0 & E & Hs & Hd).
  unfold elf_on_disk. rewrite Hfile, E, (Hd Hnone), Hs.
  destruct (kernel_events_found (mk_EFD (eh_type h) l) H1 H2 H3 H4) as (t & Et & Hf & _). by exists t.
Qed.
End Image.

Lemma plt_entries_spec rels f : forall pre suf ys addr,
  rels = pre ++ suf -> Forall fits rels ->
  Forall2 (fun r y => elem Elf32_Sym (dynsymtab f) (ELF32_R_SYM (r_info r)) = Some y) suf ys ->
  0 <= addr -> addr + 12 * Z.of_nat (length suf) < 2 ^ 32 ->
  plt_entries (length suf) (Z.of_nat (length pre)) addr (concat (enc <$> rels)) f =
    Some (imap (fun i y => (addr + 12 * Z.of_nat i, st_name y)) ys, addr + 12 * Z.of_nat (length suf)).
Proof.
  intros pre suf. revert pre. induction suf as [|r suf IH]; intros pre ys addr -> Hf H2 Ha Hl.
  - apply Forall2_nil_inv_l in H2 as ->. cbn. by rewrite Z.add_0_r.
  - apply Forall2_cons_inv_l in H2 as (y & ys' & Hy & H2 & ->). cbn [length plt_entries].
    pose proof (elem_enc (pre ++ r :: suf) [] (length pre) r Hf ltac:(by rewrite list_lookup_middle)) as E.
    rewrite app_nil_r in E. rewrite E. cbn [mbind option_bind]. rewrite Hy. cbn [mbind option_bind length] in *.
    rewrite u32_small by lia. replace (Z.of_nat (length pre) + 1) with (Z.of_nat (length (pre ++ [r]))) by (rewrite length_app; cbn; lia).
    rewrite (IH (pre ++ [r]) ys' (addr + 12)); [|by rewrite <- app_assoc|done|done|lia|lia]. cbn [mbind option_bind imap].
    rewrite Z.add_0_r. do 2 f_equal; [|lia]. f_equal. apply imap_ext. intros i x _. cbn. f_equal. lia.
Qed.

(** The procedure linkage table of a shared library is read as the linker
    writes it for ARM.  With relocations of 8 bytes for the functions [ys] of the
    dynamic symbol table, entry [i] is at 20 + 12 [i] behind the start of [.plt] and
    has the name of its function; the library is taken if and only if the section
    ends behind the last entry and the relocations are for that symbol table. *)
Theorem plt_exact b f r q rel p rels ys :
  efd_find_sec_by_name ".rel.plt" f = Some r -> r <> 0 -> sec (sec_hdr f) r = Some rel ->
  efd_find_sec_by_name ".plt" f = Some q -> sec (sec_hdr f) q = Some p ->
  contents b rel = concat (enc <$> rels) -> sh_entsize rel = 8 -> sh_size rel = 8 * Z.of_nat (length rels) -> Forall fits rels ->
  Forall2 (fun r y => elem Elf32_Sym (dynsymtab f) (ELF32_R_SYM (r_info r)) = Some y) rels ys ->
  0 <= sh_addr p -> sh_addr p + 20 + 12 * Z.of_nat (length rels) < 2 ^ 32 -> 0 <= sh_size p -> sh_addr p + sh_size p < 2 ^ 32 ->
  parse_plt_for_arm b f =
    Some (with_plt (imap (fun i y => (sh_addr p + 20 + 12 * Z.of_nat i, st_name y)) ys) f,
          (ndx_dynsym f =? sh_link rel) && (sh_size p =? 20 + 12 * Z.of_nat (length rels))).
Proof.
  intros Hr Hr0 Hrel Hq Hp Hc He Hs Hf H2 Ha Hl Hs0 Hl2. unfold parse_plt_for_arm. rewrite Hr. cbn [mbind option_bind].
  rewrite (proj2 (Z.eqb_neq _ 0)) by done. rewrite Hrel. cbn [mbind option_bind]. unfold count_of. rewrite He, Hs.
  cbn [Z.eqb mbind option_bind]. rewrite Hq. cbn [mbind option_bind]. rewrite Hp. cbn [mbind option_bind]. rewrite Hc.
  rewrite Z.mul_comm, Z.div_mul, Nat2Z.id by done. rewrite (u32_small (sh_addr p + 20)) by lia.
  pose proof (plt_entries_spec rels f [] rels ys (sh_addr p + 20) eq_refl Hf H2 ltac:(lia) ltac:(lia)) as E.
  change (Z.of_nat (length [])) with 0 in E. rewrite E. cbn [mbind option_bind].
  rewrite u32_small by lia. do 3 f_equal.
  apply eq_true_iff_eq. rewrite !Z.eqb_eq. lia.
Qed.

(** A file with a dynamic symbol table but without a dynamic section makes the
    reader follow a table that is not there. *)
Theorem no_dynamic_section_undefined b f d s num :
  efd_find_sec_by_type (sec_hdr f) SHT_DYNSYM <> 0 -> sec (sec_hdr f) (efd_find_sec_by_type (sec_hdr f) SHT_DYNSYM) = Some d ->
  count_of d = Some num -> sec (sec_hdr f) (wrap 16 (sh_link d)) = Some s ->
  efd_find_sec_by_name ".rel.plt" f = Some 0 ->
  efd_find_sec_by_type (sec_hdr f) SHT_DYNAMIC = 0 -> (exists n, sec (sec_hdr f) 0 = Some n /\ sh_size n = 0) ->
  open_dynamic b f = None.
Proof.
  intros H0 Hd Hn Hs Hrel Hdy (n & Hz & Hsz). unfold open_dynamic. rewrite (proj2 (Z.eqb_neq _ 0)) by done.
  rewrite Hd. cbn [mbind option_bind]. rewrite Hn. cbn [mbind option_bind]. rewrite Hs. cbn [mbind option_bind].
  unfold parse_plt_for_arm, efd_find_sec_by_name in *. cbn [shstrtab sec_hdr] in *. rewrite Hrel. cbn [mbind option_bind Z.eqb sec_hdr].
  rewrite Hdy, Hz. cbn [mbind option_bind]. unfold contents. by rewrite Hsz.
Qed.

(** ** Witnesses *)

Definition demo_shdr (name type addr link entsize : Z) : Elf32_Shdr := mk_shdr name type 0 addr 0 0 link 0 1 entsize.
Definition demo_ehdr (type : Z) : Elf32_Ehdr := mk_ehdr ([127; 69; 76; 70; 1; 1; 1] ++ replicate 9 0) type 40 1 0x8000 0 0 0 52 0 0 40 0 3.
Definition demo_strs : list Z := 0 :: chars "do_exit" ++ 0 :: chars "main" ++ [0].
Definition demo_syms : list Elf32_Sym := [mk_esym 0 0 0 0 0 0; mk_esym 1 0x8000 64 0x12 0 1; mk_esym 9 0x8040 32 0x12 0 1].
Definition demo_secs : list (Elf32_Shdr * list Z) :=
  [(demo_shdr 0 0 0 0 0, []); (demo_shdr 0 SHT_SYMTAB 0 2 16, concat (enc <$> demo_syms)); (demo_shdr 0 3 0 0 0, demo_strs);
   (demo_shdr 0 3 0 0 0, [0])].

Theorem efd_reads_elf_witness :
  exists f, efd_open_elf (Some (elf_file (demo_ehdr 2) demo_secs)) = Some (Some f) /\
    efd_syms f = Some (mk_EFD 2 [mk_sym "" 0 0 0 0 0; mk_sym "do_exit" 0x8000 64 2 0 1; mk_sym "main" 0x8040 32 2 0 1]).
Proof.
  assert (Ok : elf_ok (demo_ehdr 2) demo_secs).
  { constructor; [vm_compute; reflexivity| | |cbn; lia].
    - cbn. repeat split; vm_compute; (discriminate || reflexivity).
    - repeat constructor; cbn; vm_compute; (discriminate || reflexivity). }
  assert (Hy : symbols_in demo_secs 1 demo_syms demo_strs).
  { constructor.
    - left. split; [lia|]. split; [by eexists|]. intros j x Hj. lia.
    - eexists _, _. split; [reflexivity|]. split; [reflexivity|]. split; [reflexivity|]. vm_compute. discriminate.
    - repeat constructor; cbn; vm_compute; (discriminate || reflexivity). }
  assert (Hl : mapM (sym_of demo_strs) demo_syms =
    Some [mk_sym "" 0 0 0 0 0; mk_sym "do_exit" 0x8000 64 2 0 1; mk_sym "main" 0x8040 32 2 0 1]) by (vm_compute; reflexivity).
  destruct (efd_reads_elf (demo_ehdr 2) demo_secs 1 demo_syms demo_strs _ Ok Hy Hl) as [Ho Hs].
  assert (Hn : none_of SHT_DYNSYM demo_secs).
  { intros j x Hj Hx. do 4 (destruct j as [|j]; [injection Hx as <-; discriminate|]). discriminate Hx. }
  destruct (Ho Hn) as [f Hf]. exists f. split; [exact Hf|exact (Hs f Hf)].
Defined.

(** A stripped shared library that calls two functions of others *)
Definition demo_shstr : list Z := 0 :: chars ".rel.plt" ++ 0 :: chars ".plt" ++ [0].
Definition demo_imports : list Elf32_Sym := [mk_esym 0 0 0 0 0 0; mk_esym 1 0 0 0x12 0 0; mk_esym 9 0 0 0x12 0 0; mk_esym 9 0x9000 8 0x12 0 7].
Definition demo_rels : list Elf32_Rel := [mk_rel 0xa000 0x116; mk_rel 0xa004 0x216].
Definition demo_dynamic : list Z := concat (enc <$> [mk_dyn DT_NEEDED 1; mk_dyn 0 0]).
Definition demo_lib_secs : list (Elf32_Shdr * list Z) :=
  [(demo_shdr 0 0 0 0 0, []); (demo_shdr 0 SHT_DYNSYM 0 2 16, concat (enc <$> demo_imports)); (demo_shdr 0 3 0 0 0, demo_strs);
   (demo_shdr 0 3 0 0 0, demo_shstr); (demo_shdr 1 9 0 1 8, concat (enc <$> demo_rels));
   (demo_shdr 10 1 0x2000 0 4, replicate 44 0); (demo_shdr 0 SHT_DYNAMIC 0 2 8, demo_dynamic)].
Definition demo_lib_file : file_bytes := elf_file (demo_ehdr ET_DYN) demo_lib_secs.
Definition demo_efd : efd :=
  mk_efd (im_hdr (demo_ehdr ET_DYN) demo_lib_secs) (place 52 demo_lib_secs) demo_shstr 1 4 (concat (enc <$> demo_imports)) demo_strs
    1 4 (concat (enc <$> demo_imports)) demo_strs [] 0 [].

Theorem plt_exact_witness :
  parse_plt_for_arm demo_lib_file demo_efd = Some (with_plt [(0x2014, 1); (0x2020, 9)] demo_efd, true).
Proof.
  assert (R : sec (sec_hdr demo_efd) 4 = Some (place_hdr 145 (demo_shdr 1 9 0 1 8) (concat (enc <$> demo_rels)))) by (vm_compute; reflexivity).
  assert (P : sec (sec_hdr demo_efd) 5 = Some (place_hdr 161 (demo_shdr 10 1 0x2000 0 4) (replicate 44 0))) by (vm_compute; reflexivity).
  assert (F : Forall fits demo_rels) by (repeat constructor; cbn; vm_compute; (discriminate || reflexivity)).
  assert (Y : Forall2 (fun r y => elem Elf32_Sym (dynsymtab demo_efd) (ELF32_R_SYM (r_info r)) = Some y) demo_rels
    [mk_esym 1 0 0 0x12 0 0; mk_esym 9 0 0 0x12 0 0]) by (repeat constructor; vm_compute; reflexivity).
  exact (plt_exact demo_lib_file demo_efd 4 5 _ _ demo_rels _ ltac:(vm_compute; reflexivity) ltac:(discriminate) R
    ltac:(vm_compute; reflexivity) P ltac:(vm_compute; reflexivity) eq_refl ltac:(vm_compute; reflexivity) F Y
    ltac:(vm_compute; discriminate) ltac:(vm_compute; reflexivity) ltac:(vm_compute; discriminate) ltac:(vm_compute; reflexivity)).
Defined.

(** The whole of it, and what the tracer sees *)
Example stripped_library :
  exists f, efd_open_elf (Some demo_lib_file) = Some (Some f) /\ plt f = [(0x2014, 1); (0x2020, 9)] /\ lib_num f = 1 /\
    efd_syms f = Some (mk_EFD 3 [mk_sym "" 0 0 0 0 0; mk_sym "do_exit" 0 0 2 0 0; mk_sym "main" 0 0 2 0 0; mk_sym "main" 0x9000 8 2 0 7]).
Proof. eexists. vm_compute. repeat split. Qed.
