(* ===== verification/GuestLib.v ===== *)
(** * The guest's library ([m2m_app/network_device.c])

    Programs in the guest use the network through four functions.  Each fills a
    request structure on its stack and stores the structure's address in a
    register of the device, which reads and answers the request in guest memory.
    Starting the network also turns the VPMU on, through a register of its own.

    A word of the guest is stored at the physical place of its own virtual address,
    [w_v2p]; the device translates only the address of a structure or a
    buffer and goes on from there.  [sp]: where the request structure lies on the stack. *)
From stdpp Require Import strings.
From S2P Require Import Prelude Mem Config Route Topology TopologyFormat Layout Segment Timing HeaderQueue SendRecv Router Network Device Branch Vpmu Power PerfRegs VpmuConfig VpmuDevice.

Definition PACKETSIZE : Z := 101.
Definition NETWORK_TYPE : list string := ["Zigbee"; "Wifi"; "Bluetooth"]%string.

Definition with_guest (g : mem) (s : vnd_state) : vnd_state :=
  mk_vnd_state (vs_dev s) (vs_mem s) g (vs_thread s) (vpmu_trigger s).

Section Guest.
Context (w : world).

(** The guest's own accesses *)
Definition put_word (g : mem) (a x : Z) : mem := store32 g (w_v2p w a) x.
Definition get_word (g : mem) (a : Z) : Z := load32 g (w_v2p w a).
Definition guest_bytes (g : mem) (a n : Z) : list Z := (fun i => load8 g (w_v2p w (a + i))) <$> seqZ 0 n.
Definition bzero (g : mem) (a n : Z) : mem := foldl (fun g i => store 1 g (w_v2p w (a + i)) 0) g (seqZ 0 n).

Definition Network_Send (sp ReceiverID message : Z) (s : vnd_state) : run (Z * vnd_state) :=
  let g := put_word (vs_guest s) (sp + 12) 1 in
  let g := put_word g sp ReceiverID in
  let g := put_word g (sp + 4) message in
  let g := put_word g (sp + 8) PACKETSIZE in
  s ← Device.special_write w 4 (u32 sp) (with_guest g s);
  Ret (s32 (get_word (vs_guest s) (sp + 12)), s).

Definition Network_Recv (sp message : Z) (s : vnd_state) : run (Z * vnd_state) :=
  let g := put_word (vs_guest s) (sp + 8) 1 in
  let g := put_word g sp (-1) in
  let g := bzero g message PACKETSIZE in
  let g := put_word g (sp + 4) message in
  s ← Device.special_write w 8 (u32 sp) (with_guest g s);
  Ret (s32 (get_word (vs_guest s) (sp + 8)), s).

(** *** Start and end, with the VPMU's device and the static [DeviceID] *)

Record machine := mk_machine { m_vnd : vnd_state; m_vpmu : device; m_DeviceID : Z }.
Context (files : Z -> option (list Z)).

(** [vpmu_control] stores one byte. *)
Definition vpmu_control (open_mode offset timing_model : Z) (d : device) : run (option device) :=
  let argv_2 := if open_mode =? 1 then 1 else 0 in
  let argv_2 := if open_mode =? 0 then timing_model else argv_2 in
  VpmuDevice.special_write files (if open_mode =? 0 then offset else 0) (u8 argv_2) d.

Definition Network_Init (sp Device_ID : Z) (NetworkType : string) (timing_model : Z) (s : machine) : run (option (Z * machine)) :=
  let g := put_word (vs_guest (m_vnd s)) (sp + 4) 1 in
  if bool_decide (NetworkType ∈ NETWORK_TYPE) then
    let g := put_word g sp Device_ID in
    v ← Device.special_write w 0 (u32 sp) (with_guest g (m_vnd s));
    d ← (if negb (timing_model =? 0) then vpmu_control 0 0 timing_model (m_vpmu s) else Ret (Some (m_vpmu s)));
    Ret (d ← d; Some (s32 (get_word (vs_guest v) (sp + 4)), mk_machine v d (u32 Device_ID)))
  else Ret (Some (0, mk_machine (with_guest g (m_vnd s)) (m_vpmu s) (m_DeviceID s))).

Definition Network_Exit (sp : Z) (s : machine) : run (option (Z * machine)) :=
  let g := put_word (vs_guest (m_vnd s)) (sp + 4) 1 in
  d ← vpmu_control 1 0 3 (m_vpmu s);
  match d with
  | None => Ret None
  | Some d =>
      let g := put_word g sp (m_DeviceID s) in
      v ← Device.special_write w 12 (u32 sp) (with_guest g (m_vnd s));
      Ret (Some (s32 (get_word (vs_guest v) (sp + 4)), mk_machine v d (m_DeviceID s)))
  end.

(** ** Memory *)

(** A structure or buffer that the device sees as the guest does: it lies in one piece *)
Definition in_one_piece (a n : Z) : Prop := forall i, 0 <= i < n -> w_v2p w (a + i) = w_v2p w a + i.

Lemma guest_bytes_piece g a n : 0 <= n -> in_one_piece a n -> guest_bytes g a n = load_bytes (Z.to_nat n) g (w_v2p w a).
Proof.
  intros Hn Hp. apply list_eq. intros i. unfold guest_bytes. rewrite list_lookup_fmap.
  destruct (decide (i < Z.to_nat n)%nat) as [Hi|Hi].
  - rewrite lookup_seqZ_lt by lia. rewrite load8_load_bytes by done. cbn. rewrite Hp by lia. by rewrite Z.add_0_l.
  - rewrite lookup_seqZ_ge by lia. symmetry. apply lookup_ge_None. rewrite length_load_bytes. lia.
Qed.

Lemma piece_at a n k : in_one_piece a n -> 0 <= k < n -> w_v2p w (a + k) = w_v2p w a + k.
Proof. intros H. apply H. Qed.

Lemma bzero_out g a n i : in_one_piece a n -> ~ (w_v2p w a <= i < w_v2p w a + n) -> (bzero g a n).[i] = g.[i].
Proof.
  intros Hp Hi. unfold bzero. assert (H : Forall (fun k => 0 <= k < n) (seqZ 0 n)) by (apply Forall_seqZ; lia).
  revert g. induction H as [|k l Hk _ IH]; intros g; [done|]. cbn [foldl]. rewrite IH, store_out; [done|].
  rewrite Hp by done. lia.
Qed.

(** The request as the device reads it *)
Lemma send_request g sp r message :
  in_one_piece sp 16 -> 0 <= message < 2 ^ 32 ->
  let P := w_v2p w sp in
  let g' := put_word (put_word (put_word (put_word g (sp + 12) 1) sp r) (sp + 4) message) (sp + 8) PACKETSIZE in
  load32 g' P = u32 r /\ load32 g' (P + off_DataAddress) = message /\ load32 g' (P + off_DataSize) = PACKETSIZE /\
  forall i, ~ (P <= i < P + 16) -> g'.[i] = g.[i].
Proof.
  intros Hp Hm P g'. unfold g', put_word, off_DataAddress, off_DataSize. fold P.
  rewrite !(piece_at sp 16) by (done || lia). fold P. split_and!.
  - unfold load32. do 2 (unfold store32 at 1; rewrite load_store_disj by lia). apply load32_store32.
  - unfold load32. unfold store32 at 1. rewrite load_store_disj by lia. etransitivity; [apply load32_store32|by apply u32_small].
  - by rewrite load32_store32.
  - intros i Hi. unfold store32. by rewrite !store_out by lia.
Qed.

Lemma recv_request g sp message :
  in_one_piece sp 12 -> in_one_piece message PACKETSIZE -> 0 <= message < 2 ^ 32 ->
  let P := w_v2p w sp in
  let g' := put_word (bzero (put_word (put_word g (sp + 8) 1) sp (-1)) message PACKETSIZE) (sp + 4) message in
  load32 g' (P + off_DataAddress) = message.
Proof.
  intros Hp Hb Hm P g'. unfold g', off_DataAddress. unfold put_word at 1. rewrite (piece_at sp 12 4) by (done || lia). fold P.
  rewrite load32_store32. by apply u32_small.
Qed.

Lemma with_guest_eq s g : vs_dev (with_guest g s) = vs_dev s /\ vs_mem (with_guest g s) = vs_mem s /\ vs_guest (with_guest g s) = g.
Proof. done. Qed.

(** A send of the guest is a send of the device, with the bytes behind the physical
    place of the message's beginning. *)
Lemma guest_send_physical sp r message s ret d m :
  in_one_piece sp 16 -> 0 <= sp < 2 ^ 32 -> 0 <= message < 2 ^ 32 -> -2 ^ 31 <= r < 2 ^ 31 ->
  apart (w_v2p w sp) 16 (w_v2p w message) PACKETSIZE ->
  m2m_send (w_rand w) (w_send w) (load_bytes (Z.to_nat PACKETSIZE) (vs_guest s) (w_v2p w message)) r 0 (vs_dev s) (vs_mem s) = Ret (ret, d, m) ->
  exists s', Network_Send sp r message s = Ret ((if bool_decide (ret = M2M_TRANS_SUCCESS) then 1 else 0), s') /\
    vs_dev s' = d /\ vs_mem s' = m /\
    forall i, ~ (w_v2p w sp <= i < w_v2p w sp + 16) -> (vs_guest s').[i] = (vs_guest s).[i].
Proof.
  intros Hp Hsp Hm Hr Hap. set (P := w_v2p w sp) in *. unfold apart in Hap.
  destruct (send_request (vs_guest s) sp r message Hp Hm) as (G1 & G2 & G3 & G4). fold P in G1, G2, G3, G4.
  unfold Network_Send. set (g := put_word _ (sp + 8) PACKETSIZE) in *. rewrite (u32_small sp) by done.
  change (Device.special_write w 4 sp) with (network_send w sp). unfold network_send. cbn [vs_guest vs_dev vs_mem with_guest].
  fold P. rewrite G1, G2, G3.
  replace (load_bytes (Z.to_nat PACKETSIZE) g (w_v2p w message)) with (load_bytes (Z.to_nat PACKETSIZE) (vs_guest s) (w_v2p w message)).
  2: { symmetry. apply load_bytes_ext. intros i Hi. apply G4. unfold PACKETSIZE in *. lia. }
  replace (s32 (u32 r)) with r by (unfold s32; rewrite u32_idem; symmetry; by apply s32_small).
  intros E. rewrite E. cbn [mbind run_bind vs_guest].
  unfold get_word. rewrite (piece_at sp 16) by (done || lia). fold P. unfold off_send_rv. rewrite load32_store32.
  replace (s32 (u32 (if bool_decide (ret = M2M_TRANS_SUCCESS) then 1 else 0)))
    with (if bool_decide (ret = M2M_TRANS_SUCCESS) then 1 else 0) by by case_bool_decide.
  eexists. split; [reflexivity|]. split; [done|]. split; [done|].
  intros i Hi. cbn [vs_guest]. unfold store32. rewrite store_out by lia. by apply G4.
Qed.

Lemma guest_send sp r message s ret d m :
  in_one_piece sp 16 -> in_one_piece message PACKETSIZE -> 0 <= sp < 2 ^ 32 -> 0 <= message < 2 ^ 32 -> -2 ^ 31 <= r < 2 ^ 31 ->
  apart (w_v2p w sp) 16 (w_v2p w message) PACKETSIZE ->
  m2m_send (w_rand w) (w_send w) (guest_bytes (vs_guest s) message PACKETSIZE) r 0 (vs_dev s) (vs_mem s) = Ret (ret, d, m) ->
  exists s', Network_Send sp r message s = Ret ((if bool_decide (ret = M2M_TRANS_SUCCESS) then 1 else 0), s') /\
    vs_dev s' = d /\ vs_mem s' = m /\
    forall i, ~ (w_v2p w sp <= i < w_v2p w sp + 16) -> (vs_guest s').[i] = (vs_guest s).[i].
Proof. intros Hp Hb. rewrite (guest_bytes_piece (vs_guest s) message PACKETSIZE) by done. by apply guest_send_physical. Qed.

(** A receive puts the message where the guest looks for it. *)
Lemma guest_recv sp message s data d m :
  in_one_piece sp 12 -> in_one_piece message PACKETSIZE -> 0 <= sp < 2 ^ 32 -> 0 <= message < 2 ^ 32 ->
  apart (w_v2p w message) PACKETSIZE (w_v2p w sp) 12 ->
  bytes_ok data -> Z.of_nat (length data) <= PACKETSIZE ->
  m2m_recv (w_recv w) (-1) (vs_dev s) (vs_mem s) = Ret (M2M_SUCCESS, Some data, d, m) ->
  exists s', Network_Recv sp message s = Ret (1, s') /\ vs_dev s' = d /\ vs_mem s' = m /\
    guest_bytes (vs_guest s') message (Z.of_nat (length data)) = data.
Proof.
  intros Hp Hb Hsp Hm Hap Hok Hl E. set (P := w_v2p w sp) in *. unfold apart in Hap. unfold Network_Recv. rewrite (u32_small sp) by done.
  pose proof (recv_request (vs_guest s) sp message Hp Hb Hm) as G. cbn zeta in G. fold P in G. set (g := put_word _ (sp + 4) message) in *.
  change (Device.special_write w 8 sp) with (network_recv w sp). unfold network_recv. cbn [vs_guest vs_dev vs_mem with_guest].
  rewrite E. cbn [mbind run_bind vs_guest]. fold P. rewrite G. unfold get_word. rewrite (piece_at sp 12) by (done || lia). fold P.
  unfold off_recv_rv. rewrite load32_store32. eexists. split; [reflexivity|]. split; [done|]. split; [done|].
  cbn [vs_guest]. rewrite guest_bytes_piece; [|lia|intros i Hi; apply Hb; unfold PACKETSIZE in *; lia].
  rewrite Nat2Z.id. unfold store32. rewrite load_bytes_store_disj by (unfold PACKETSIZE in *; lia). by apply load_bytes_store_bytes_same.
Qed.
End Guest.

(** Printing the time and waiting for the predictor leave the VPMU on or off. *)
Lemma print_time_enabled n miss : forall u u', print_time n miss u = Some u' -> VPMU_enabled u' = VPMU_enabled u.
Proof.
  induction n as [|n IH]; intros u u'; cbn [print_time]; [by intros [= <-]|].
  destruct (vpmu_estimated_execution_time _ _ _) as [[x e]|]; [|done]. cbn [mbind option_bind]. by intros ->%IH.
Qed.
Lemma sync_enabled u : VPMU_enabled (sync_predictor u) = VPMU_enabled u.
Proof. unfold sync_predictor. by destruct (vpmu_branch_predict _ _) as [[x b]| |]. Qed.


(** The device follows a message physically.  If the message crosses from one page of the
    guest to another that is not the next in physical memory, and byte [k] behind the
    crossing differs from what lies there, the receiver gets another byte,
    while [Network_Send] reports what it always reports. *)
Theorem message_across_pages w sp r message s ret d m k :
  in_one_piece w sp 16 -> 0 <= sp < 2 ^ 32 -> 0 <= message < 2 ^ 32 -> -2 ^ 31 <= r < 2 ^ 31 ->
  apart (w_v2p w sp) 16 (w_v2p w message) PACKETSIZE -> 0 <= k < PACKETSIZE ->
  load8 (vs_guest s) (w_v2p w (message + k)) <> load8 (vs_guest s) (w_v2p w message + k) ->
  let sent := load_bytes (Z.to_nat PACKETSIZE) (vs_guest s) (w_v2p w message) in
  m2m_send (w_rand w) (w_send w) sent r 0 (vs_dev s) (vs_mem s) = Ret (ret, d, m) ->
  sent !! Z.to_nat k <> guest_bytes w (vs_guest s) message PACKETSIZE !! Z.to_nat k /\
  exists s', Network_Send w sp r message s = Ret ((if bool_decide (ret = M2M_TRANS_SUCCESS) then 1 else 0), s') /\
    vs_dev s' = d /\ vs_mem s' = m.
Proof.
  intros Hp Hsp Hm Hr Hap Hk Hne sent E. split.
  - unfold sent. rewrite load8_load_bytes by (unfold PACKETSIZE in *; lia). unfold guest_bytes.
    rewrite list_lookup_fmap, lookup_seqZ_lt by lia. cbn. rewrite Z2Nat.id, Z.add_0_l by lia. congruence.
  - destruct (guest_send_physical w sp r message s ret d m Hp Hsp Hm Hr Hap E) as (s' & H1 & H2 & H3 & _). by exists s'.
Qed.

(** A program that names a network the library does not know gets 0, and nothing
    is started; a timing model of 0 leaves the VPMU as it is; [Network_Exit] turns
    the VPMU off in every case. *)
Theorem library_start_end w files sp id ty model s :
  (ty ∉ NETWORK_TYPE -> exists g, Network_Init w files sp id ty model s =
     Ret (Some (0, mk_machine (with_guest g (m_vnd s)) (m_vpmu s) (m_DeviceID s)))) /\
  (forall r s', Network_Init w files sp id ty 0 s = Ret (Some (r, s')) -> m_vpmu s' = m_vpmu s) /\
  (forall r s', Network_Exit w files sp s = Ret (Some (r, s')) -> VPMU_enabled (d_unit (m_vpmu s')) = false).
Proof.
  split; [|split].
  - intros Ht. unfold Network_Init. rewrite bool_decide_false by done. by eexists.
  - intros r s'. unfold Network_Init. case_bool_decide; [|by intros [= <- <-]].
    cbn [Z.eqb negb]. intros (v & _ & E)%bind_Ret. cbn [mbind run_bind option_bind] in E. by injection E as <- <-.
  - intros r s'. unfold Network_Exit. intros (d & Hd & E)%bind_Ret. destruct d as [d|]; [|done].
    apply bind_Ret in E as (v & _ & E). injection E as <- <-. cbn [m_vpmu].
    change (Ret (u ← print_time 1 (d_miss (m_vpmu s)) (sync_predictor (set_enabled false (d_unit (m_vpmu s))));
                 Some (with_unit u (m_vpmu s))) = Ret (Some d)) in Hd.
    destruct (print_time 1 _ _) as [u|] eqn:E; [|done]. injection Hd as <-. apply print_time_enabled in E.
    cbn [d_unit with_unit]. by rewrite E, sync_enabled.
Qed.

(** ** Witnesses *)

(** Node 2 of the star network sends to node 3, over the coordinator. *)
Definition demo_world_of (ws : list waits) (es : list (mem -> mem)) : world :=
  mk_world (fun a => a + 0x1000) None (fun _ _ => 0) (fun _ => 0) 0 0 true [] ws es (fun _ => 7).
Definition demo_message : mem := store_bytes ∅ 0x1100 (replicate 100 65 ++ [0]).
#[local] Abbreviation demo_relay := (relay 2 1 3 (star_dev 4096 2 1000) (star_dev 4096 1 0) (fun _ => 7) 0 500).


(** Two pages that are not neighbours in physical memory *)
Definition demo_pages (ws : list waits) : world :=
  mk_world (fun a => if a <? 0x1000 then a + 0x1000 else a + 0x4000) None (fun _ _ => 0) (fun _ => 0) 0 0 true [] ws [] (fun _ => 7).

Theorem message_across_pages_witness :
  exists s', Network_Send (demo_pages []) 0x200 9 0xff0 (mk_vnd_state (star_dev 4096 2 1000) ∅ (store_bytes ∅ 0x5000 [65; 66]) false 77) =
    Ret (0, s').
Proof.
  destruct (message_across_pages (demo_pages []) 0x200 9 0xff0
    (mk_vnd_state (star_dev 4096 2 1000) ∅ (store_bytes ∅ 0x5000 [65; 66]) false 77) M2M_ERROR (star_dev 4096 2 1000) ∅ 16) as [_ (s' & E & _)].
  - intros i Hi. cbn. rewrite (proj2 (Z.ltb_lt _ _)) by lia. lia.
  - done.
  - done.
  - done.
  - unfold apart. cbn. unfold PACKETSIZE. lia.
  - done.
  - vm_compute. discriminate.
  - vm_compute. reflexivity.
  - exists s'. exact E.
Defined.
