(* ===== verification/VpmuInit.v ===== *)
(** * Start of the VPMU ([hw/vpmu-device.c]: [VPMU_cache_init], [vpmu_init_core]; [qemu-timer.c]: [cpu_get_clock])

    The cache simulator gets a tree of caches, built from the configuration: each
    cache knows the larger one behind it, the largest knows the memory.  The table
    of simulators has up to seven functions for each of ten simulators; the last two
    start and end it.  The guest's clock runs slower than the host's by a ratio.

    A cache is a number, its place in the list of all caches (dinero's [d4new]
    appends to it).  Levels are [level_cell idu lev]: idu is 0 for a unified cache, 1 for
    instructions, 2 for data. *)
From Stdlib Require Import Floats.SpecFloat.
From S2P Require Import Prelude Mem Config Timing Branch Vpmu Power VpmuConfig.

(** ** Caches *)

Inductive replacement := Lru | Fifo | Random.
Inductive fetching := Demand | Always | Miss | Tagged | LoadForward | SubBlock.
Inductive writing := Impossible | AlwaysW | Never | NoFetch.

Record d4cache := mk_cache {
  downstream : option nat; name : Z * Z;   (** idu and lev; the memory is (-1, -1) *)
  flags : Z; lg2blocksize : Z; lg2subblocksize : Z; lg2size : Z; assoc : Z;
  replacementf : replacement; prefetchf : fetching; wallocf : writing; wbackf : writing;
  prefetch_distance : Z; prefetch_abortpercent : Z }.

Definition D4F_MEM : Z := 1.
Definition D4F_CCC : Z := 2.
Definition D4F_RO : Z := 4.
Definition MEMORY : Z * Z := (-1, -1).

(** [d4new]: a zeroed cache in front of a larger one *)
Definition d4new (larger : option nat) (h : list d4cache) : nat * list d4cache :=
  let c := mk_cache larger MEMORY (match larger with None => D4F_MEM | Some _ => 0 end) 0 0 0
             (match larger with None => 1 | Some _ => 0 end) Lru Demand Impossible Impossible 0 0 in
  (length h, h ++ [c]).

Fixpoint clog2_loop (n : nat) (x i : Z) : Z :=
  match n with O => i | S n => if x =? 0 then i else clog2_loop n (Z.shiftr x 1) (i + 1) end.
(** [unsigned]: 32 rounds *)
Definition clog2 (x : Z) : Z := clog2_loop 32 x (-1).

(** The policies by their letters; the default is the first case *)
Definition replacement_of (c : Z) : replacement := if c =? 102 then Fifo else if c =? 114 then Random else Lru.
Definition fetch_of (c : Z) : fetching :=
  if c =? 97 then Always else if c =? 109 then Miss else if c =? 116 then Tagged else if c =? 108 then LoadForward
  else if c =? 115 then SubBlock else Demand.
Definition writing_of (c : Z) : writing := if c =? 97 then AlwaysW else if c =? 110 then Never else if c =? 102 then NoFetch else Impossible.

Section Caches.
(** [GlobalVPMU]'s tables, as [VpmuConfig] has them; [doccc] is never configured *)
Context (d4_level : arr) (doccc : Z -> Z -> bool).
Definition field (f idu lev : Z) : Z := d4_level.[level_cell f idu lev].
Definition size_at (idu lev : Z) : Z := field 0 idu lev.

Definition d4_cache_init (lev idu : Z) (c : d4cache) : d4cache :=
  mk_cache (downstream c) (idu, lev)
    (Z.lor (Z.lor (flags c) (if doccc idu lev then D4F_CCC else 0)) (if idu =? 1 then D4F_RO else 0))
    (clog2 (field 1 idu lev)) (clog2 (field 2 idu lev)) (clog2 (size_at idu lev)) (field 3 idu lev)
    (replacement_of (field 4 idu lev)) (fetch_of (field 7 idu lev)) (writing_of (field 5 idu lev)) (writing_of (field 6 idu lev))
    (s32 (field 9 idu lev * field 2 idu lev)) (field 8 idu lev).

(** The caches, [cd] and [ci], and [d4_levcache[3][5]] *)
Record building := mk_building { heap : list d4cache; b_cd : nat; b_ci : nat; levcache : gmap (Z * Z) nat }.

Definition add_level (lev : Z) (s : building) (idu : Z) : building :=
  if size_at idu lev =? 0 then s
  else
    let '(c, h) := d4new (Some (if idu =? 2 then b_cd s else b_ci s)) (heap s) in
    let cd := if idu =? 1 then b_cd s else c in
    let ci := if idu =? 2 then b_ci s else c in
    mk_building (alter (d4_cache_init lev idu) c h) cd ci (<[(idu, lev) := c]> (levcache s)).

(** [lev] from [d4_maxlevel - 1] down to 0 *)
Fixpoint add_levels (n : nat) (s : building) : building :=
  match n with O => s | S n => add_levels n (foldl (add_level (Z.of_nat n)) s [0; 1; 2]) end.

(** The result of [d4setup] is only printed. *)
Definition VPMU_cache_init (d4_maxlevel : Z) (h : list d4cache) (lc : gmap (Z * Z) nat) : building :=
  let '(m, h) := d4new None h in
  add_levels (Z.to_nat d4_maxlevel) (mk_building h m m lc).

(** ** The way of a reference *)

(** The caches a reference that misses everywhere passes: each larger one was made before *)
Fixpoint walk (n : nat) (h : list d4cache) (c : nat) : list (Z * Z) :=
  match n with
  | O => []
  | S n =>
      match h !! c with
      | Some x => name x :: match downstream x with Some l => walk n h l | None => [] end
      | None => []
      end
  end.
Definition way (h : list d4cache) (c : nat) : list (Z * Z) := walk (S c) h c.

(** What the configuration asks for: at each level the cache of its own kind, then the unified one *)
Definition level_way (idu lev : Z) : list (Z * Z) :=
  (if size_at idu lev =? 0 then [] else [(idu, lev)]) ++ (if size_at 0 lev =? 0 then [] else [(0, lev)]).
Definition ways (idu : Z) (from n : nat) : list (Z * Z) := concat ((fun lev => level_way idu (Z.of_nat lev)) <$> seq from n).
End Caches.

(** ** Simulators *)

(** A function of the table is a number, 0 is NULL. *)
Definition null_func : Z := 1.
Definition SIMS : Z := 10.

(** [for (...) sim[ID][i] = cb[i]; for (; i < 5; i++) sim[ID][i] = null_func], then
    init and reset; the next free number.  [None]: writing behind the table *)
Record sims := mk_sims { sim : arr; sim_id : Z }.
Definition VPMU_ASSIGN_FUNC (ID : Z) (cb : list Z) (init reset : Z) (a : arr) : option arr :=
  if (ID <? SIMS) && (length cb <=? 5)%nat then
    Some (foldl (fun a p => a.[ID * 7 + p.1 <- p.2]) a
           (imap (fun i f => (Z.of_nat i, f)) (cb ++ replicate (5 - length cb) null_func ++ [init; reset])))
  else None.
Definition vpmu_attach_simulator (description : Z) (cb : list Z) (init reset : Z) (s : sims) : option (Z * sims) :=
  if (0 <=? description) && (description <=? 2) then
    a ← VPMU_ASSIGN_FUNC description cb init reset (sim s); Some (description, mk_sims a (sim_id s))
  else
    a ← VPMU_ASSIGN_FUNC (sim_id s) cb init reset (sim s); Some (sim_id s, mk_sims a (sim_id s + 1)).

(** The functions called at start and at the end, in order *)
Definition called (col : Z) (a : arr) : list Z := filter (fun f => f <> 0) ((fun i => a.[i * 7 + col]) <$> seqZ 0 SIMS).
Definition vpmu_initiate_attached_simulators (a : arr) : list Z := called 5 a.
Definition vpmu_terminate_attached_simulators (a : arr) : list Z := called 6 a.

(** The functions by name; the descriptions "dcache", "icache" and "Branch
    Predictor" are 0, 1 and 2, every other is another number *)
Definition cb_dcache_access_count : Z := 2.
Definition cb_L1_dcache_miss_count : Z := 3.
Definition cb_L1_dcache_read_miss_count : Z := 4.
Definition cb_L1_dcache_write_miss_count : Z := 5.
Definition cb_icache_access_count : Z := 6.
Definition cb_L1_icache_miss_count : Z := 7.
Definition cb_branch_predict_correct : Z := 8.
Definition cb_branch_predict_wrong : Z := 9.
Definition dinero_init : Z := 10.

Definition attach_all (s : sims) : option sims :=
  '(_, s) ← vpmu_attach_simulator 0 [cb_dcache_access_count; cb_L1_dcache_miss_count; cb_L1_dcache_read_miss_count;
              cb_L1_dcache_write_miss_count] dinero_init 0 s;
  '(_, s) ← vpmu_attach_simulator 1 [cb_icache_access_count; cb_L1_icache_miss_count] 0 0 s;
  '(_, s) ← vpmu_attach_simulator 2 [cb_branch_predict_correct; cb_branch_predict_wrong] 0 0 s;
  Some s.

(** [vpmu_init_core]: the simulators, the configuration, then [dinero_init] for each
    time it is called; before the caches it makes one more memory ([d4_mem_create]) *)
Record started := mk_started { st_sims : sims; st_config : config; st_caches : building }.
Definition run_init (c : config) (s : option building) (f : Z) : option building :=
  s ← s;
  if f =? dinero_init then
    let '(_, h) := d4new None (heap s) in
    Some (VPMU_cache_init (d4_level c) (fun _ _ => false) (d4_maxlevel (cf_vpmu c)) h (levcache s))
  else None.
Definition vpmu_init_core (file : option (list Z)) (s : sims) (c : config) (b : building) : run (option started) :=
  match attach_all s with
  | None => Ret None
  | Some s =>
      c ← VPMU_set_config_from_file file c;
      Ret (c ← c; b ← foldl (run_init c) (Some b) (vpmu_initiate_attached_simulators (sim s)); Some (mk_started s c b))
  end.

(** ** The guest's clock *)

Definition VPMU_update_slowdown_ratio (value : Z) (s : spec_float * Z) : spec_float * Z :=
  let '(ratio, count) := s in if count =? 0 then (dZ value, count + 1) else (ratio, count).

(** [saved_ti += (int64_t)(ti - last_ti) / slowdown_ratio], the clock being enabled; the
    sum is computed in double and truncated *)
Record clock_state := mk_clock_state { last_ti : Z; saved_ti : Z }.
Definition cpu_get_clock (ratio : spec_float) (offset ti : Z) (s : clock_state) : option (Z * clock_state) :=
  x ← to_uint64 (dadd (dZ (saved_ti s)) (ddiv (dZ (ti - last_ti s)) ratio));
  Some (x + offset, mk_clock_state ti x).

(** ** Helper lemmas *)

Lemma clog2_loop_spec n : forall x i, 0 < x < 2 ^ Z.of_nat n -> clog2_loop n x i = i + 1 + Z.log2 x.
Proof.
  induction n as [|n IH]; intros x i Hx; [cbn in Hx; lia|]. cbn [clog2_loop]. rewrite (proj2 (Z.eqb_neq x 0)) by lia.
  rewrite Z.shiftr_div_pow2 by lia. change (2 ^ 1) with 2. destruct (decide (x = 1)) as [->|Hx1].
  - change (1 / 2) with 0. destruct n; cbn; lia.
  - rewrite IH.
    + assert (E : Z.log2 (x / 2) = Z.log2 x - 1); [|lia].
      pose proof (Z.log2_shiftr x 1 ltac:(lia)) as L. rewrite Z.shiftr_div_pow2 in L by lia. change (2 ^ 1) with 2 in L.
      assert (0 < Z.log2 x) by (apply Z.log2_pos; lia). lia.
    + rewrite Nat2Z.inj_succ, Z.pow_succ_r in Hx by lia. split; [apply Z.div_str_pos; lia|apply Z.div_lt_upper_bound; lia].
Qed.

Lemma clog2_exact x : 0 < x < 2 ^ 32 -> clog2 x = Z.log2 x.
Proof. intros Hx. unfold clog2. rewrite (clog2_loop_spec 32) by done. lia. Qed.

(** *** Trees of caches *)

(** Every larger cache was made before. *)
Definition grounded (h : list d4cache) : Prop := forall c x l, h !! c = Some x -> downstream x = Some l -> (l < c)%nat.

Lemma walk_prefix n h x : forall c, grounded h -> (c < length h)%nat -> walk n (h ++ [x]) c = walk n h c.
Proof.
  induction n as [|n IH]; intros c Hg Hc; [done|]. cbn [walk]. rewrite lookup_app_l by done.
  destruct (h !! c) as [y|] eqn:Hy; [|done]. destruct (downstream y) as [l|] eqn:Hl; [|done].
  rewrite IH; [done|done|]. pose proof (Hg c y l Hy Hl). lia.
Qed.

Lemma walk_fuel h : grounded h -> forall n c, (c < n)%nat -> walk n h c = way h c.
Proof.
  intros Hg n c. revert n. induction c as [c IH] using lt_wf_ind. intros n Hn. destruct n as [|n]; [lia|].
  unfold way. cbn [walk]. destruct (h !! c) as [x|] eqn:Hx; [|done]. destruct (downstream x) as [l|] eqn:Hl; [|done].
  pose proof (Hg c x l Hx Hl). rewrite (IH l) by lia. by rewrite (IH l) by lia.
Qed.

Lemma way_new h x : grounded h -> (forall l, downstream x = Some l -> (l < length h)%nat) ->
  grounded (h ++ [x]) /\ way (h ++ [x]) (length h) = name x :: match downstream x with Some l => way h l | None => [] end /\
  forall c, (c < length h)%nat -> way (h ++ [x]) c = way h c.
Proof.
  intros Hg Hx. assert (Hg' : grounded (h ++ [x])).
  { intros c y l Hy Hl. apply lookup_app_Some in Hy as [Hy|[Hge Hy]]; [by apply (Hg c y)|].
    apply list_lookup_singleton_Some in Hy as [Hc <-]. pose proof (Hx l Hl). lia. }
  split; [done|]. split.
  - unfold way at 1. cbn [walk]. rewrite lookup_app_r, Nat.sub_diag by lia. cbn [lookup list_lookup].
    destruct (downstream x) as [l|] eqn:Hl; [|done]. pose proof (Hx l eq_refl).
    rewrite walk_prefix by done. by rewrite walk_fuel by done.
  - intros c Hc. unfold way. by apply walk_prefix.
Qed.

Section Hierarchy.
Context (d4_level : arr) (doccc : Z -> Z -> bool).
#[local] Abbreviation size_at := (size_at d4_level).
#[local] Abbreviation ways := (ways d4_level).

Record built (s : building) (D I : list (Z * Z)) : Prop := {
  bu_grounded : grounded (heap s);
  bu_cd : (b_cd s < length (heap s))%nat; bu_ci : (b_ci s < length (heap s))%nat;
  bu_D : way (heap s) (b_cd s) = D; bu_I : way (heap s) (b_ci s) = I }.

(** What [d4_levcache] says of a level of nonzero size *)
Definition described (s : building) (idu lev : Z) : Prop :=
  exists c x, levcache s !! (idu, lev) = Some c /\ heap s !! c = Some x /\ name x = (idu, lev) /\
    lg2size x = clog2 (size_at idu lev) /\ lg2blocksize x = clog2 (field d4_level 1 idu lev) /\ assoc x = field d4_level 3 idu lev /\
    replacementf x = replacement_of (field d4_level 4 idu lev) /\ wbackf x = writing_of (field d4_level 6 idu lev).

Lemma described_keep s lev idu idu' lev' :
  (idu', lev') <> (idu, lev) -> described s idu' lev' -> described (add_level d4_level doccc lev s idu) idu' lev'.
Proof.
  intros Hne (c & x & H1 & H2 & H3). unfold add_level. destruct (_ =? 0); [by exists c, x|].
  cbn [d4new]. exists c, x. cbn [levcache heap]. rewrite lookup_insert_ne by congruence. split; [done|]. split; [|done].
  pose proof (lookup_lt_Some _ _ _ H2). rewrite list_lookup_alter_ne by lia. by rewrite lookup_app_l.
Qed.

Lemma add_level_spec lev s idu D I :
  built s D I -> size_at idu lev <> 0 -> let s' := add_level d4_level doccc lev s idu in
  let W := (idu, lev) :: (if idu =? 2 then D else I) in
  built s' (if idu =? 1 then D else W) (if idu =? 2 then I else W) /\ described s' idu lev /\
  exists x, heap s' = heap s ++ [x].
Proof.
  intros [Hg Hcd Hci HD HI] Hz s' W.
  set (larger := if idu =? 2 then b_cd s else b_ci s).
  set (x := d4_cache_init d4_level doccc lev idu (mk_cache (Some larger) MEMORY 0 0 0 0 0 Lru Demand Impossible Impossible 0 0)).
  assert (Hs' : s' = mk_building (heap s ++ [x]) (if idu =? 1 then b_cd s else length (heap s))
                       (if idu =? 2 then b_ci s else length (heap s)) (<[(idu, lev) := length (heap s)]> (levcache s))).
  { unfold s', add_level. rewrite (proj2 (Z.eqb_neq _ 0)) by done. cbn [d4new]. fold larger. f_equal.
    rewrite alter_app_r_alt, Nat.sub_diag by lia. done. }
  assert (Hl : (larger < length (heap s))%nat) by (unfold larger; by destruct (idu =? 2)).
  destruct (way_new (heap s) x Hg) as (Hg' & Hw & Hk); [by intros l [= <-]|].
  assert (HW : way (heap s ++ [x]) (length (heap s)) = W).
  { rewrite Hw. unfold W. cbn [name downstream x d4_cache_init]. f_equal. unfold larger. by destruct (idu =? 2). }
  rewrite Hs'. split; [|split; [|by exists x]].
  - constructor; cbn [heap b_cd b_ci]; [done|rewrite length_app; cbn; destruct (idu =? 1); lia|
      rewrite length_app; cbn; destruct (idu =? 2); lia| |].
    + destruct (idu =? 1); [by rewrite Hk|done].
    + destruct (idu =? 2); [by rewrite Hk|done].
  - exists (length (heap s)), x. cbn [levcache heap]. rewrite lookup_insert_eq, lookup_app_r, Nat.sub_diag by lia. done.
Qed.

(** One level: whatever is there of it *)
Lemma add_some lev s idu D I :
  built s D I -> let s' := add_level d4_level doccc lev s idu in
  let W := (idu, lev) :: (if idu =? 2 then D else I) in
  (exists l, heap s' = heap s ++ l) /\ (size_at idu lev <> 0 -> described s' idu lev) /\
  built s' (if (size_at idu lev =? 0) || (idu =? 1) then D else W) (if (size_at idu lev =? 0) || (idu =? 2) then I else W).
Proof.
  intros B s' W. destruct (Z.eqb_spec (size_at idu lev) 0) as [E|E]; cbn [orb].
  - assert (Es : s' = s) by (unfold s', add_level; by rewrite E). rewrite Es. split; [exists []; by rewrite app_nil_r|]. done.
  - destruct (add_level_spec lev s idu D I B E) as (B' & Hd & x & Hx). split; [by eexists|]. done.
Qed.

Lemma level_spec lev s D I :
  built s D I -> (size_at 0 lev <> 0 -> D = I) ->
  let s' := foldl (add_level d4_level doccc lev) s [0; 1; 2] in
  built s' (level_way d4_level 2 lev ++ D) (level_way d4_level 1 lev ++ I) /\
  (forall idu, 0 <= idu < 3 -> size_at idu lev <> 0 -> described s' idu lev) /\
  (forall idu lev', lev' <> lev -> described s idu lev' -> described s' idu lev') /\ exists l, heap s' = heap s ++ l.
Proof.
  intros B HDI s'. unfold s'. cbn [foldl].
  destruct (add_some lev s 0 D I B) as ([l0 H0] & D0 & B0). set (s0 := add_level d4_level doccc lev s 0) in *.
  destruct (add_some lev s0 1 _ _ B0) as ([l1 H1] & D1 & B1). set (s1 := add_level d4_level doccc lev s0 1) in *.
  destruct (add_some lev s1 2 _ _ B1) as ([l2 H2] & D2 & B2). set (s2 := add_level d4_level doccc lev s1 2) in *.
  cbn [Z.eqb Pos.eqb orb] in B0, B1, B2. split; [|split; [|split]].
  - unfold level_way. destruct (Z.eqb_spec (size_at 0 lev) 0) as [E0|E0].
      destruct (size_at 1 lev =? 0), (size_at 2 lev =? 0); exact B2.
    + rewrite (HDI E0) in *. destruct (size_at 1 lev =? 0), (size_at 2 lev =? 0); exact B2.
  - intros idu Hi Hz. assert (idu = 0 \/ idu = 1 \/ idu = 2) as [->|[->| ->]] by lia.
    + by apply described_keep, described_keep, D0.
    + by apply described_keep, D1.
    + by apply D2.
  - intros idu lev' Hne Hd. by do 3 (apply described_keep; [congruence|]).
  - exists (l0 ++ l1 ++ l2). by rewrite H2, H1, H0, !app_assoc.
Qed.

Lemma levels_spec n : forall s D I,
  built s D I -> (forall lev, 0 <= lev < Z.of_nat n -> size_at 0 lev <> 0 -> D = I) ->
  (forall lev lev', 0 <= lev < lev' -> lev' < Z.of_nat n -> size_at 0 lev <> 0 -> level_way d4_level 2 lev' = level_way d4_level 1 lev') ->
  let s' := add_levels d4_level doccc n s in
  built s' (ways 2 0 n ++ D) (ways 1 0 n ++ I) /\
  (forall idu lev, 0 <= idu < 3 -> 0 <= lev < Z.of_nat n -> size_at idu lev <> 0 -> described s' idu lev) /\
  (forall idu lev, Z.of_nat n <= lev -> described s idu lev -> described s' idu lev) /\ exists l, heap s' = heap s ++ l.
Proof.
  induction n as [|n IH]; intros s D I B HDI Hsp s'.
  - split; [done|]. split; [lia|]. split; [done|]. exists []. by rewrite app_nil_r.
  - unfold s'. cbn [add_levels].
    destruct (level_spec (Z.of_nat n) s D I B (HDI (Z.of_nat n) ltac:(lia))) as (B1 & Hn & Hk & l1 & H1).
    set (s1 := foldl _ s [0; 1; 2]) in *.
    destruct (IH s1 _ _ B1) as (B2 & Hn2 & Hk2 & l2 & H2).
    + intros lev Hl Hz. rewrite (HDI lev ltac:(lia) Hz). by rewrite (Hsp lev (Z.of_nat n) ltac:(lia) ltac:(lia) Hz).
    + intros lev lev' Hl Hl' Hz. apply (Hsp lev); [done|lia|done].
    + split; [|split; [|split]].
      * unfold ways in *. rewrite seq_S, !fmap_app, !concat_app. cbn [fmap list_fmap concat]. rewrite !app_nil_r, <- !app_assoc. exact B2.
      * intros idu lev Hi Hl Hz. destruct (decide (lev = Z.of_nat n)) as [->|Hne].
        -- apply Hk2; [lia|]. by apply Hn.
        -- apply Hn2; [done|lia|done].
      * intros idu lev Hl Hd. apply Hk2; [lia|]. apply Hk; [lia|done].
      * exists (l1 ++ l2). by rewrite H2, H1, app_assoc.
Qed.
End Hierarchy.

(** ** The properties *)

(** C11: The tree of caches is the configured one.  Let a unified cache never
    stand before split ones.  Then a data reference that misses everywhere passes the data
    cache and the unified cache of each configured level, in order, then the
    memory; an instruction reference likewise; every configured cache
    is entered in [d4_levcache] with its sizes and policies, and the caches that were
    there before are still there. *)
Theorem cache_hierarchy d4_level doccc maxlevel h lc :
  0 <= maxlevel -> grounded h ->
  (forall lev lev', 0 <= lev < lev' -> lev' < maxlevel -> size_at d4_level 0 lev <> 0 ->
     size_at d4_level 1 lev' = 0 /\ size_at d4_level 2 lev' = 0) ->
  let s := VPMU_cache_init d4_level doccc maxlevel h lc in
  way (heap s) (b_cd s) = ways d4_level 2 0 (Z.to_nat maxlevel) ++ [MEMORY] /\
  way (heap s) (b_ci s) = ways d4_level 1 0 (Z.to_nat maxlevel) ++ [MEMORY] /\
  (forall idu lev, 0 <= idu < 3 -> 0 <= lev < maxlevel -> size_at d4_level idu lev <> 0 -> described d4_level s idu lev) /\
  exists l, heap s = h ++ l.
Proof.
  intros Hm Hg Hsp s. unfold s, VPMU_cache_init, d4new. set (x := mk_cache None _ _ _ _ _ _ _ _ _ _ _ _).
  destruct (way_new h x Hg) as (Hg' & Hw & _); [done|].
  assert (B : built (mk_building (h ++ [x]) (length h) (length h) lc) [MEMORY] [MEMORY]).
  { constructor; cbn [heap b_cd b_ci]; [done|rewrite length_app; cbn; lia..|exact Hw|exact Hw]. }
  destruct (levels_spec d4_level doccc (Z.to_nat maxlevel) _ _ _ B) as (B' & Hd & _ & l & Hl); [done| |].
  - intros lev lev' H1 H2 Hz. unfold level_way. destruct (Hsp lev lev' H1 ltac:(lia) Hz) as [-> ->]. done.
  - split; [apply (bu_D _ _ _ B')|]. split; [apply (bu_I _ _ _ B')|]. split.
    + intros idu lev Hi Hlev. apply Hd; [done|lia].
    + exists ([x] ++ l). by rewrite Hl, app_assoc.
Qed.

(** The simulators of the VPMU itself.  Attached to an empty table they take the
    first three rows, the functions they do not have answer 0 ([null_func]); starting
    them builds the caches exactly once, and nothing is run at the end.  Seven
    more can be attached; the eighth is written behind the table. *)
Theorem simulators_attached :
  exists s, attach_all (mk_sims ∅ 3) = Some s /\ sim_id s = 3 /\
    vpmu_initiate_attached_simulators (sim s) = [dinero_init] /\ vpmu_terminate_attached_simulators (sim s) = [] /\
    ((fun i => (sim s).[i]) <$> seqZ 0 21 =
      [2; 3; 4; 5; null_func; dinero_init; 0; 6; 7; null_func; null_func; null_func; 0; 0;
       8; 9; null_func; null_func; null_func; 0; 0]) /\
    forall description cb init reset a, description <> 0 -> description <> 1 -> description <> 2 ->
      vpmu_attach_simulator description cb init reset (mk_sims a SIMS) = None.
Proof.
  eexists. split; [vm_compute; reflexivity|]. do 4 (split; [vm_compute; reflexivity|]).
  intros description cb init reset a H0 H1 H2. unfold vpmu_attach_simulator. cbn [sim sim_id].
  destruct ((0 <=? description) && (description <=? 2)) eqn:E; [apply andb_true_iff in E as [?%Z.leb_le ?%Z.leb_le]; lia|done].
Qed.

(** The ratio is set once: the first value stays. *)
Theorem slowdown_once value value' ratio :
  let s := VPMU_update_slowdown_ratio value (ratio, 0) in
  s.1 = dZ value /\ VPMU_update_slowdown_ratio value' s = s.
Proof. done. Qed.

Fixpoint ask_clock (n : nat) (step : Z) (ratio : spec_float) (s : clock_state) : option clock_state :=
  match n with O => Some s | S n => '(_, s) ← cpu_get_clock ratio 0 (last_ti s + step) s; ask_clock n step ratio s end.

(** The guest's clock loses a fraction each time it is read: at half speed, reading it
    every nanosecond stops it. *)
Lemma reading_stops_clock :
  saved_ti <$> ask_clock 1000 1 (dZ 2) (mk_clock_state 0 0) = Some 0 /\
  saved_ti <$> ask_clock 1 1000 (dZ 2) (mk_clock_state 0 0) = Some 500.
Proof. vm_compute. done. Qed.

(** ** Witnesses *)

(** The Cortex-A9: split first level, unified second level *)
Definition a9_levels : arr :=
  match VPMU_set_config_from_file (Some (render_config cortex_a9_lines)) config0 with Ret (Some c) => d4_level c | _ => ∅ end.

Theorem cache_hierarchy_witness :
  let s := VPMU_cache_init a9_levels (fun _ _ => false) 2 [] ∅ in
  way (heap s) (b_cd s) = [(2, 0); (0, 1); MEMORY] /\ way (heap s) (b_ci s) = [(1, 0); (0, 1); MEMORY] /\
  described a9_levels s 0 1.
Proof.
  assert (G : grounded []) by (intros c x l Hx; discriminate Hx).
  assert (S0 : size_at a9_levels 0 0 = 0) by (vm_compute; reflexivity).
  assert (S1 : size_at a9_levels 0 1 <> 0) by (vm_compute; discriminate).
  assert (W2 : ways a9_levels 2 0 (Z.to_nat 2) = [(2, 0); (0, 1)]) by (vm_compute; reflexivity).
  assert (W1 : ways a9_levels 1 0 (Z.to_nat 2) = [(1, 0); (0, 1)]) by (vm_compute; reflexivity).
  destruct (cache_hierarchy a9_levels (fun _ _ => false) 2 [] ∅ ltac:(lia) G) as (HD & HI & Hd & _).
  - intros lev lev' Hl Hl' Hz. assert (lev = 0) as -> by lia. contradiction.
  - rewrite W2 in HD. rewrite W1 in HI. split; [exact HD|]. split; [exact HI|].
    exact (Hd 0 1 ltac:(lia) ltac:(lia) S1).
Defined.

(** The whole start, from the text of the configuration: the orphan memory of
    [d4_mem_create], then the tree of caches *)
Example core_starts :
  match vpmu_init_core (Some (render_config cortex_a9_lines)) (mk_sims ∅ 3) config0 (mk_building [] 0 0 ∅) with
  | Ret (Some st) => name <$> heap (st_caches st) = [MEMORY; MEMORY; (0, 1); (1, 0); (2, 0)] /\
      lg2size <$> heap (st_caches st) = [0; 0; 20; 15; 15]
  | _ => False
  end.
Proof. vm_compute. done. Qed.
