(* ===== verification/Dinero.v ===== *)
(** * The cache simulator ([d4-7/ref.c], [d4-7/misc.c], [d4-7/d4.h])

    Each set of a cache is a _stack_: a circular, doubly linked list of one node
    more than the set has blocks.  The valid nodes come first, in the order of
    the replacement policy; the node behind them, the bottom, is spare.  Stacks of more
    than eight nodes are searched through one hash table that all caches share.
    A reference that needs something of a larger cache puts requests on the
    [pending] stack of its own cache; they are worked off at the end.

    A node is a number, 0 is NULL; its block (address and one bit per subblock:
    valid, referenced, dirty) is a record, its links are arrays.  What [d4ref]
    needs of the sets is the class [BlockStore]; here it is implemented by the linked
    nodes, in [DineroSpec] by plain lists.  [random] is a stream.  [D4CUSTOM] is 0.  The
    classification of misses ([D4F_CCC]) is left out: [VPMU_cache_init] never asks
    for it, since nothing sets [d4_level_doccc]. *)
From S2P Require Import Prelude VpmuInit.

(** ** References and blocks *)

Definition D4XREAD : Z := 0.
Definition D4XWRITE : Z := 1.
Definition D4XINSTRN : Z := 2.
Definition D4XMISC : Z := 3.
Definition D4XCOPYB : Z := 4.
Definition D4XINVAL : Z := 5.
Definition D4PREFETCH : Z := 8.
Definition D4_MULTIBLOCK : Z := 16.
Definition D4HASH_THRESH : Z := 8.
Definition D4BASIC_ATYPE (x : Z) : Z := Z.land x (D4PREFETCH - 1).

Record d4memref := mk_ref { address : Z; accesstype : Z; size : Z }.
Record block := mk_block { blockaddr : Z; valid : Z; referenced : Z; dirty : Z }.

Definition u16 (x : Z) : Z := wrap 16 x.
Definition has (x bit : Z) : bool := negb (Z.land x bit =? 0).

Section Geometry.
Context (p : d4cache).

Definition D4LG2MASK (n : Z) : Z := u32 (Z.shiftl 1 n - 1).
Definition D4ADDR2BLOCK (a : Z) : Z := Z.ldiff a (D4LG2MASK (lg2blocksize p)).
Definition D4ADDR2SUBBLOCK (a : Z) : Z := Z.ldiff a (D4LG2MASK (lg2subblocksize p)).
Definition D4ADDR2SET (numsets a : Z) : Z := Z.shiftr a (lg2blocksize p) mod numsets.
Definition D4REFNSB (m : d4memref) : Z :=
  u32 (Z.shiftr (u32 (address m + size m - 1)) (lg2subblocksize p) - Z.shiftr (address m) (lg2subblocksize p) + 1).
Definition D4ADDR2SBMASK (m : d4memref) : Z :=
  u32 (Z.shiftl (D4LG2MASK (D4REFNSB m)) (Z.shiftr (address m - D4ADDR2BLOCK (address m)) (lg2subblocksize p))).

(** The size of the subblocks a reference touches *)
Definition refsize (m : d4memref) : Z := Z.shiftl (D4REFNSB m) (lg2subblocksize p).

(** *** Policies *)

Definition pf_request (m : d4memref) : d4memref :=
  mk_ref (D4ADDR2SUBBLOCK (u32 (address m + prefetch_distance p))) (Z.lor (accesstype m) D4PREFETCH)
    (u16 (Z.shiftl 1 (lg2subblocksize p))).
Definition d4prefetch_none : option d4memref := None.
Definition d4prefetch_always (m : d4memref) : option d4memref := Some (pf_request m).
Definition d4prefetch_loadforw (m : d4memref) : option d4memref :=
  if D4ADDR2BLOCK (u32 (address m + prefetch_distance p)) =? D4ADDR2BLOCK (address m) then Some (pf_request m) else None.
Definition d4prefetch_subblock (m : d4memref) : option d4memref :=
  let pf := pf_request m in
  if D4ADDR2BLOCK (address pf) =? D4ADDR2BLOCK (address m) then Some pf
  else Some (mk_ref (u32 (address pf - Z.shiftl 1 (lg2blocksize p))) (accesstype pf) (size pf)).
Definition d4prefetch_miss (m : d4memref) (miss : bool) : option d4memref := if miss then Some (pf_request m) else None.
Definition d4prefetch_tagged (m : d4memref) (miss : bool) (refd : Z) : option d4memref :=
  if negb miss && has (D4ADDR2SBMASK m) refd then None else Some (pf_request m).
(** [refd]: the bits [referenced] of the block, if there is one *)
Definition call_prefetchf (m : d4memref) (miss : bool) (refd : Z) : option d4memref :=
  match prefetchf p with
  | Demand => d4prefetch_none | Always => d4prefetch_always m | Miss => d4prefetch_miss m miss
  | Tagged => d4prefetch_tagged m miss refd | LoadForward => d4prefetch_loadforw m | SubBlock => d4prefetch_subblock m
  end.

Definition call_wallocf (m : d4memref) : run bool :=
  match wallocf p with
  | Impossible => ProcExit | AlwaysW => Ret true | Never => Ret false | NoFetch => Ret (size m =? refsize m)
  end.
Definition call_wbackf (m : d4memref) (v : Z) : run bool :=
  match wbackf p with
  | Impossible => ProcExit | AlwaysW => Ret true | Never => Ret false
  | NoFetch => Ret ((Z.ldiff (D4ADDR2SBMASK m) v =? 0) || (size m =? refsize m))
  end.

(** [d4_splitm]: the part within the block, and what is left *)
Definition d4_splitm (mr : d4memref) (ba : Z) : d4memref * option d4memref :=
  let bsize := Z.shiftl 1 (lg2blocksize p) in
  if ba =? D4ADDR2BLOCK (u32 (address mr + size mr - 1)) then (mr, None)
  else
    let newsize := bsize - Z.land (address mr) (bsize - 1) in
    (mk_ref (address mr) (accesstype mr) (u16 newsize),
     Some (mk_ref (u32 (ba + bsize)) (Z.lor (accesstype mr) D4_MULTIBLOCK) (u16 (size mr - newsize)))).

(** [d4_wbblock]: one write for each run of dirty subblocks, the last one first *)
Fixpoint skip_clean (n : nat) (dbits b a : Z) : run (Z * Z) :=
  match n with
  | O => Spin
  | S n => if has dbits b then Ret (b, a)
           else skip_clean n dbits (u32 (Z.shiftl b 1)) (u32 (a + Z.shiftl 1 (lg2subblocksize p)))
  end.
Fixpoint take_dirty (n : nat) (dbits b a : Z) : run (Z * Z * Z) :=
  match n with
  | O => Spin
  | S n => if has dbits b
           then take_dirty n (Z.ldiff dbits b) (u32 (Z.shiftl b 1)) (u32 (a + Z.shiftl 1 (lg2subblocksize p)))
           else Ret (dbits, b, a)
  end.
Fixpoint wb_loop (n : nat) (dbits b a : Z) (newm : list d4memref) : run (list d4memref) :=
  match n with
  | O => Spin
  | S n =>
      '(b, start) ← skip_clean 33 dbits b a;
      '(dbits, b, a) ← take_dirty 33 dbits b start;
      let newm := mk_ref start D4XWRITE (u16 (u32 (a - start))) :: newm in
      if dbits =? 0 then Ret newm else wb_loop n dbits b a newm
  end.
Definition d4_wbblock (b : block) : run (list d4memref) :=
  wb_loop 33 (Z.land (valid b) (dirty b)) 1 (blockaddr b) [].
End Geometry.

(** ** One cache *)

Record cachedata := mk_data {
  numsets : Z; pending : list d4memref;
  fetch : arr; miss : arr; blockmiss : arr; multiblock : Z; bytes_read : Z; bytes_written : Z }.

Definition push (m : d4memref) (d : cachedata) : cachedata :=
  mk_data (numsets d) (m :: pending d) (fetch d) (miss d) (blockmiss d) (multiblock d) (bytes_read d) (bytes_written d).
Definition with_pending (l : list d4memref) (d : cachedata) : cachedata :=
  mk_data (numsets d) l (fetch d) (miss d) (blockmiss d) (multiblock d) (bytes_read d) (bytes_written d).
Definition count_multiblock (d : cachedata) : cachedata :=
  mk_data (numsets d) (pending d) (fetch d) (miss d) (blockmiss d) (multiblock d + 1) (bytes_read d) (bytes_written d).
Definition incr (a : arr) (i : Z) : arr := a.[i <- a.[i] + 1].
Definition count (t : Z) (is_miss is_blockmiss : bool) (d : cachedata) : cachedata :=
  mk_data (numsets d) (pending d) (incr (fetch d) t) (if is_miss then incr (miss d) t else miss d)
    (if is_miss && is_blockmiss then incr (blockmiss d) t else blockmiss d)
    (multiblock d) (bytes_read d) (bytes_written d).
Definition count_bytes (m : d4memref) (d : cachedata) : option cachedata :=
  let t := D4BASIC_ATYPE (accesstype m) in
  if (t =? D4XMISC) || (t =? D4XREAD) || (t =? D4XINSTRN)
  then Some (mk_data (numsets d) (pending d) (fetch d) (miss d) (blockmiss d) (multiblock d) (bytes_read d + size m) (bytes_written d))
  else if t =? D4XWRITE
  then Some (mk_data (numsets d) (pending d) (fetch d) (miss d) (blockmiss d) (multiblock d) (bytes_read d) (bytes_written d + size m))
  else if (t =? D4XCOPYB) || (t =? D4XINVAL) then Some d else None.

(** What a reference needs of the sets: the block of an address, the replacement
    policy (a new block is on top, valid nowhere; also the place in the stream of
    random numbers), a change of a block, and the block at the bottom, taken out *)
Class BlockStore (T : Type) := {
  handle : Type;
  lookup_block : nat -> Z -> Z -> T -> run (option handle);
  the_block : handle -> T -> block;
  put_block : handle -> block -> T -> T;
  replace_block : replacement -> nat -> Z -> Z -> option handle -> T -> Z -> run (handle * T * Z);
  evict_block : nat -> Z -> T -> run (option block * T) }.

(** ** Stacks of linked nodes *)

(** [top] and [stack_n]: [c->stack[k]]; [onstack] and [cachep] of a node never change
    after the start.  [hash_size] and [table]: [d4stackhash]; [nnodes]: [d4nnodes] *)
Record store := mk_store {
  data : gmap Z block; down : arr; up : arr; bucket : arr; onstack : arr; cachep : arr;
  top : gmap (nat * Z) Z; stack_n : gmap (nat * Z) Z; hash_size : Z; table : arr; nnodes : Z }.

Definition NULL : Z := 0.
Definition no_block : block := mk_block 0 0 0 0.
Definition node (p : Z) (s : store) : block := default no_block (data s !! p).
Definition stack_top (c : nat) (k : Z) (s : store) : Z := default NULL (top s !! (c, k)).
Definition stack_size (c : nat) (k : Z) (s : store) : Z := default 0 (stack_n s !! (c, k)).

Definition set_node (p : Z) (b : block) (s : store) : store :=
  mk_store (<[p := b]> (data s)) (down s) (up s) (bucket s) (onstack s) (cachep s) (top s) (stack_n s) (hash_size s) (table s) (nnodes s).
Definition set_down (p v : Z) (s : store) : store :=
  mk_store (data s) (down s).[p <- v] (up s) (bucket s) (onstack s) (cachep s) (top s) (stack_n s) (hash_size s) (table s) (nnodes s).
Definition set_up (p v : Z) (s : store) : store :=
  mk_store (data s) (down s) (up s).[p <- v] (bucket s) (onstack s) (cachep s) (top s) (stack_n s) (hash_size s) (table s) (nnodes s).
Definition set_bucket (p v : Z) (s : store) : store :=
  mk_store (data s) (down s) (up s) (bucket s).[p <- v] (onstack s) (cachep s) (top s) (stack_n s) (hash_size s) (table s) (nnodes s).
Definition set_top (c : nat) (k p : Z) (s : store) : store :=
  mk_store (data s) (down s) (up s) (bucket s) (onstack s) (cachep s) (<[(c, k) := p]> (top s)) (stack_n s) (hash_size s) (table s) (nnodes s).
Definition set_table (i p : Z) (s : store) : store :=
  mk_store (data s) (down s) (up s) (bucket s) (onstack s) (cachep s) (top s) (stack_n s) (hash_size s) (table s).[i <- p] (nnodes s).

Definition with_valid (v : Z) (b : block) : block := mk_block (blockaddr b) v (referenced b) (dirty b).
Definition with_dirty (v : Z) (b : block) : block := mk_block (blockaddr b) (valid b) (referenced b) v.
Definition with_address (a : Z) (b : block) : block := mk_block a (valid b) (referenced b) (dirty b).

(** [cacheid] counts from 1. *)
Definition cacheid (c : nat) : Z := Z.of_nat c + 1.
Definition D4HASH (s : store) (ba sn cid : Z) : Z := u32 (ba + sn + cid) mod hash_size s.

(** [d4_find]: along the chain of the hash table, or down the stack *)
Fixpoint find_chain (fuel : nat) (c : nat) (k ba : Z) (s : store) (p : Z) : run Z :=
  match fuel with
  | O => Spin
  | S fuel =>
      if p =? NULL then Ret NULL
      else if negb (blockaddr (node p s) =? ba) || negb ((cachep s).[p] =? Z.of_nat c) || negb ((onstack s).[p] =? k)
      then if valid (node p s) =? 0 then ProcExit else find_chain fuel c k ba s (bucket s).[p]
      else Ret p
  end.
Fixpoint find_stack (fuel : nat) (ba : Z) (s : store) (p : Z) : run Z :=
  match fuel with
  | O => Spin
  | S fuel =>
      if negb (blockaddr (node p s) =? ba) && negb (valid (node p s) =? 0) then find_stack fuel ba s (down s).[p]
      else Ret (if valid (node p s) =? 0 then NULL else p)
  end.
Definition d4_find (c : nat) (k ba : Z) (s : store) : run Z :=
  if D4HASH_THRESH <? stack_size c k s
  then find_chain (S (Z.to_nat (nnodes s))) c k ba s (table s).[D4HASH s ba k (cacheid c)]
  else find_stack (Z.to_nat (stack_size c k s)) ba s (stack_top c k s).

(** [d4findnth], from the nearer end *)
Fixpoint follow (links : arr) (n : nat) (p : Z) : Z := match n with O => p | S n => follow links n links.[p] end.
Definition d4findnth (c : nat) (k n : Z) (s : store) : run Z :=
  let stacksize := stack_size c k s in
  if n <=? stacksize then
    Ret (if n <=? stacksize / 2 then follow (down s) (Z.to_nat (n - 1)) (stack_top c k s)
         else follow (up s) (Z.to_nat (stacksize + 1 - n)) (stack_top c k s))
  else ProcExit.

(** Take a node out and put it between the top and the bottom *)
Definition relink (p top bot : Z) (s : store) : store :=
  let s := set_up (down s).[p] (up s).[p] s in
  let s := set_down (up s).[p] (down s).[p] s in
  let s := set_up p bot s in
  let s := set_down p top s in
  let s := set_down bot p s in
  set_up top p s.
Definition d4movetotop (c : nat) (k p : Z) (s : store) : store :=
  let t := stack_top c k s in
  if p =? t then s
  else
    let bot := (up s).[t] in
    set_top c k p (if bot =? p then s else relink p t bot s).
Definition d4movetobot (c : nat) (k p : Z) (s : store) : store :=
  let t := stack_top c k s in
  let bot := (up s).[t] in
  if p =? bot then s
  else if t =? p then set_top c k (down s).[t] s
  else relink p t bot s.

Definition d4hash (c : nat) (k p : Z) (s : store) : run store :=
  if D4HASH_THRESH <? stack_size c k s then
    let buck := D4HASH s (blockaddr (node p s)) k ((cachep s).[p] + 1) in
    Ret (set_table buck p (set_bucket p (table s).[buck] s))
  else ProcExit.

Fixpoint unhash_walk (fuel : nat) (p q : Z) (s : store) : run store :=
  match fuel with
  | O => Spin
  | S fuel =>
      if q =? NULL then Spin
      else if (bucket s).[q] =? p then Ret (set_bucket q (bucket s).[p] s)
      else if (bucket s).[q] =? NULL then ProcExit
      else unhash_walk fuel p (bucket s).[q] s
  end.
Definition d4_unhash (c : nat) (k p : Z) (s : store) : run store :=
  let buck := D4HASH s (blockaddr (node p s)) k (cacheid c) in
  if D4HASH_THRESH <? stack_size c k s then
    if (table s).[buck] =? p then Ret (set_table buck (bucket s).[p] s)
    else unhash_walk (S (Z.to_nat (nnodes s))) p (table s).[buck] s
  else ProcExit.

(** *** Replacement policies *)

(** The common part of a miss: the spare node comes on top *)
Definition new_top (c : nat) (k ba : Z) (s : store) : run (Z * store) :=
  let p := (up s).[stack_top c k s] in
  if valid (node p s) =? 0 then
    let s := set_node p (with_address ba (node p s)) s in
    s ← (if D4HASH_THRESH <? stack_size c k s then d4hash c k p s else Ret s);
    Ret (p, set_top c k p s)
  else ProcExit.

(** [random()]: the values of successive calls *)
Class RandomStream := random : Z -> Z.

Section Random.
Context `{RandomStream}.

Definition d4rep_lru (c : nat) (k ba p : Z) (s : store) (r : Z) : run (Z * store * Z) :=
  if negb (p =? NULL) then Ret (p, d4movetotop c k p s, r)
  else '(p, s) ← new_top c k ba s; Ret (p, s, r).
Definition d4rep_fifo (c : nat) (k ba p : Z) (s : store) (r : Z) : run (Z * store * Z) :=
  if negb (p =? NULL) then Ret (p, s, r)
  else '(p, s) ← new_top c k ba s; Ret (p, s, r).
Definition d4rep_random (c : nat) (k ba p : Z) (s : store) (r : Z) : run (Z * store * Z) :=
  if negb (p =? NULL) then Ret (p, s, r)
  else
    let setsize := stack_size c k s - 1 in
    '(p, s) ← new_top c k ba s;
    if negb (valid (node (up s).[p] s) =? 0) then
      q ← d4findnth c k (2 + random r mod setsize) s;
      Ret (p, d4movetobot c k q s, r + 1)
    else Ret (p, s, r).

(** [d4ref]'s own work on the nodes: the look at the top, the state bits, the replaced block *)
#[export] Instance store_blocks : BlockStore store := {
  handle := Z;
  lookup_block c k ba s :=
    let t := stack_top c k s in
    p ← (if (blockaddr (node t s) =? ba) && negb (valid (node t s) =? 0) then Ret t else d4_find c k ba s);
    Ret (if p =? NULL then None else Some p);
  the_block p s := node p s;
  put_block p b s := set_node p b s;
  replace_block pol c k ba p s r :=
    let p := default NULL p in
    match pol with
    | Lru => d4rep_lru c k ba p s r | Fifo => d4rep_fifo c k ba p s r | Random => d4rep_random c k ba p s r
    end;
  evict_block c k s :=
    let r := (up s).[stack_top c k s] in
    let b := node r s in
    if valid b =? 0 then Ret (None, s)
    else
      let s := if has (valid b) (dirty b) then set_node r (with_dirty 0 b) s else s in
      s ← (if D4HASH_THRESH <? stack_size c k s then d4_unhash c k r s else Ret s);
      Ret (Some b, set_node r (with_valid 0 (node r s)) s) }.

(** ** [d4ref] *)

Section Reference.
Context {T : Type} {store_of : BlockStore T}.
(** The caches as [VPMU_cache_init] made them *)
Context (h : list d4cache).

Record d4state := mk_d4 { blocks : T; cdata : list cachedata; rnd : Z }.

Definition no_data : cachedata := mk_data 0 [] ∅ ∅ ∅ 0 0 0.
Definition no_cache : d4cache := mk_cache None MEMORY 0 0 0 0 0 Lru Demand Impossible Impossible 0 0.
Definition par (c : nat) : d4cache := default no_cache (h !! c).
Definition data_of (c : nat) (s : d4state) : cachedata := default no_data (cdata s !! c).
Definition on_data (c : nat) (f : cachedata -> cachedata) (s : d4state) : d4state := mk_d4 (blocks s) (alter f c (cdata s)) (rnd s).
Definition with_blocks (b : T) (s : d4state) : d4state := mk_d4 b (cdata s) (rnd s).

(** [random()/(INT_MAX/100) < prefetch_abortpercent] throws a prefetch away. *)
Definition prefetch (c : nat) (m : d4memref) (is_miss : bool) (ptr : option handle) (s : d4state) : d4state :=
  if (accesstype m =? D4XREAD) || (accesstype m =? D4XINSTRN) then
    match call_prefetchf (par c) m is_miss (from_option (fun p => referenced (the_block p (blocks s))) 0 ptr) with
    | None => s
    | Some pf =>
        if 0 <? prefetch_abortpercent (par c) then
          let s' := mk_d4 (blocks s) (cdata s) (rnd s + 1) in
          if random (rnd s) / ((2 ^ 31 - 1) / 100) <? prefetch_abortpercent (par c) then s' else on_data c (push pf) s'
        else on_data c (push pf) s
    end
  else s.

(** The block of the reference after the access, before the write policy *)
Definition touch (m : d4memref) (sbbits : Z) (is_blockmiss : bool) (b : block) : block :=
  let b := if is_blockmiss then mk_block (blockaddr b) (valid b) 0 0 else b in
  mk_block (blockaddr b) (Z.lor (valid b) sbbits)
    (if Z.land (accesstype m) D4PREFETCH =? 0 then Z.lor (referenced b) sbbits else referenced b) (dirty b).

(** "Update the cache": the result says whether the write is written back later *)
Definition update (c : nat) (k ba : Z) (m : d4memref) (ptr : option handle) (s : d4state) : run (bool * d4state) :=
  let p := par c in
  let sbbits := D4ADDR2SBMASK p m in
  let is_blockmiss := if ptr is Some _ then false else true in
  '(ptr, b, r) ← replace_block (replacementf p) c k ba ptr (blocks s) (rnd s);
  let s := mk_d4 b (cdata s) r in
  if is_blockmiss && negb (valid (the_block ptr b) =? 0) then ProcExit
  else
    let blk := touch m sbbits is_blockmiss (the_block ptr b) in
    wback ← (if D4BASIC_ATYPE (accesstype m) =? D4XWRITE then call_wbackf p m (valid blk) else Ret false);
    let blk := if (wback : bool) then with_dirty (Z.lor (dirty blk) sbbits) blk else blk in
    let s := with_blocks (put_block ptr blk b) s in
    if is_blockmiss then
      '(victim, b) ← evict_block c k (blocks s);
      let s := with_blocks b s in
      match victim with
      | Some v =>
          if has (valid v) (dirty v)
          then newm ← d4_wbblock p v; Ret (wback, on_data c (fun d => with_pending (newm ++ pending d) d) s)
          else Ret (wback, s)
      | None => Ret (wback, s)
      end
    else Ret (wback, s).

(** "Prepare reference for downstream cache" *)
Definition downstream_requests (c : nat) (m : d4memref) (is_miss wback walloc : bool) (s : d4state) : d4state :=
  let p := par c in
  let atype := D4BASIC_ATYPE (accesstype m) in
  let s := if (atype =? D4XWRITE) && negb wback then on_data c (push m) s else s in
  if is_miss && (negb (atype =? D4XWRITE) || (walloc && negb (size m =? refsize p m))) then
    on_data c (push (mk_ref (D4ADDR2SUBBLOCK p (address m)) (if atype =? D4XWRITE then D4XREAD else atype) (u16 (refsize p m)))) s
  else s.

(** "Everything else": up to the recursive calls *)
Definition d4ref_cache (c : nat) (mr : d4memref) (s : d4state) : run d4state :=
  let p := par c in
  let ba := D4ADDR2BLOCK p (address mr) in
  let '(m, rest) := d4_splitm p mr ba in
  let s := match rest with Some pf => on_data c (fun d => count_multiblock (push pf d)) s | None => s end in
  let atype := D4BASIC_ATYPE (accesstype m) in
  setnumber ← (if numsets (data_of c s) =? 0 then Spin (* division by zero *) else Ret (D4ADDR2SET p (numsets (data_of c s)) (address m)));
  walloc ← (if atype =? D4XWRITE then call_wallocf p m else Ret false);
  if has (flags p) D4F_RO && (atype =? D4XWRITE) then ProcExit
  else
    '(ptr : option handle) ← lookup_block c setnumber ba (blocks s);
    let is_blockmiss := if ptr is Some _ then false else true in
    let sbbits := D4ADDR2SBMASK p m in
    let is_miss := match ptr with
                   | Some q => negb (Z.land sbbits (valid (the_block q (blocks s))) =? sbbits)
                   | None => true
                   end in
    let s := prefetch c m is_miss ptr s in
    '(wback, s) ← (if negb (atype =? D4XWRITE) || negb is_blockmiss || walloc
                   then update c setnumber ba m ptr s else Ret (false, s));
    let s := downstream_requests c m is_miss wback walloc s in
    Ret (on_data c (count (accesstype m) is_miss is_blockmiss) s).

(** [d4ref] and [d4_dopending] call each other; the fuel bounds the nesting of calls and turns. *)
Fixpoint d4ref (fuel : nat) (c : nat) (mr : d4memref) (s : d4state) : run d4state :=
  match fuel with
  | O => Spin
  | S fuel =>
      if has (flags (par c)) D4F_MEM then Ret (on_data c (count (accesstype mr) false false) s)
      else if (accesstype mr =? D4XCOPYB) || (accesstype mr =? D4XINVAL) then Spin (* never issued, not modelled *)
      else s ← d4ref_cache c mr s; d4_dopending fuel c s
  end
with d4_dopending (fuel : nat) (c : nat) (s : d4state) : run d4state :=
  match fuel with
  | O => Spin
  | S fuel =>
      match pending (data_of c s) with
      | [] => Ret s
      | newm :: rest =>
          let s := on_data c (with_pending rest) s in
          s ← (if negb (Z.land (accesstype newm) D4PREFETCH =? 0) then d4ref fuel c newm s
               else if negb (Z.land (accesstype newm) D4_MULTIBLOCK =? 0)
               then d4ref fuel c (mk_ref (address newm) (Z.ldiff (accesstype newm) D4_MULTIBLOCK) (size newm)) s
               else
                 match count_bytes newm (data_of c s), downstream (par c) with
                 | Some d, Some l => d4ref fuel l newm (on_data c (fun _ => d) s)
                 | None, _ => ProcExit
                 | _, None => Spin
                 end);
          d4_dopending fuel c s
      end
  end.
End Reference.
End Random.

(** ** [d4setup] *)

Definition set_home (p c k : Z) (s : store) : store :=
  mk_store (data s) (down s) (up s) (bucket s) (onstack s).[p <- k] (cachep s).[p <- c] (top s) (stack_n s) (hash_size s) (table s) (nnodes s).
Definition set_stack_n (c : nat) (k n : Z) (s : store) : store :=
  mk_store (data s) (down s) (up s) (bucket s) (onstack s) (cachep s) (top s) (<[(c, k) := n]> (stack_n s)) (hash_size s) (table s) (nnodes s).
Definition set_sizes (hs nn : Z) (s : store) : store :=
  mk_store (data s) (down s) (up s) (bucket s) (onstack s) (cachep s) (top s) (stack_n s) hs (table s) nn.

(** A node with its place; [nodes[i].cachep] is set with it. *)
Definition link (c : nat) (k p d u : Z) (s : store) : store := set_up p u (set_down p d (set_home p (Z.of_nat c) k s)).

(** "set up circular list": stack [k] of cache [c] from node [fst s] on *)
Definition setup_stack (c : nat) (n : Z) (s : Z * store) (k : Z) : Z * store :=
  let '(ptr, s) := s in
  let s := set_stack_n c k n (set_top c k ptr s) in
  let s := forZ 1 (Z.to_nat (n - 2)) (fun s j => link c k (ptr + j) (ptr + j + 1) (ptr + j - 1) s) s in
  let s := link c k ptr (ptr + 1) (ptr + n - 1) s in
  (ptr + n, link c k (ptr + n - 1) ptr (ptr + n - 2) s).

(** The number of the failure, or the sets *)
Definition setup_cache (p : d4cache) (c : nat) (s : store) : Z + (store * Z) :=
  if has (flags p) D4F_MEM then inr (s, 1)
  else if lg2blocksize p <? 0 then inl 2
  else if (lg2subblocksize p <? 0) || (lg2blocksize p <? lg2subblocksize p) then inl 3
  else if lg2size p <? lg2blocksize p then inl 4
  else if assoc p <=? 0 then inl 5
  else
    let numsets := Z.shiftl 1 (lg2size p) / (Z.shiftl 1 (lg2blocksize p) * assoc p) in
    let nodes := numsets * (1 + assoc p) in
    let '(_, s) := forZ 0 (Z.to_nat numsets) (setup_stack c (1 + assoc p)) (nnodes s + 1, s) in
    inr (set_sizes (hash_size s + numsets * assoc p) (nnodes s + nodes) s, numsets).

(** [d4_allcaches]: the last cache first *)
Fixpoint setup_all (h : list d4cache) (c : nat) (s : store) (ds : list cachedata) : Z + (store * list cachedata) :=
  match c with
  | O => inr (s, ds)
  | S c =>
      match setup_cache (par h c) c s with
      | inl r => inl r
      | inr (s, n) => setup_all h c s (mk_data n [] ∅ ∅ ∅ 0 0 0 :: ds)
      end
  end.
Definition no_store : store := mk_store ∅ ∅ ∅ ∅ ∅ ∅ ∅ ∅ 0 ∅ 0.
Definition d4setup (h : list d4cache) : Z + @d4state store :=
  match setup_all h (length h) no_store [] with
  | inl r => inl r
  | inr (s, ds) => inr (mk_d4 s ds 0)
  end.

(** [dinero_thread]: a reference of the trace goes to the instruction or the data cache. *)
Definition dinero_ref `{RandomStream} {T} `{BlockStore T} (h : list d4cache) (fuel icache dcache : nat) (m : d4memref) (s : @d4state T) : run d4state :=
  d4ref h fuel (if accesstype m =? D4XINSTRN then icache else dcache) m s.

(** One set of the trace ring: reference after reference *)
Fixpoint dinero_refs `{RandomStream} {T} `{BlockStore T} (h : list d4cache) (fuel icache dcache : nat) (ms : list d4memref) (s : @d4state T) : run d4state :=
  match ms with [] => Ret s | m :: ms => s ← dinero_ref h fuel icache dcache m s; dinero_refs h fuel icache dcache ms s end.
