(* ===== verification/DineroStack.v ===== *)
(** * Stacks and hash chains of the cache simulator: their shape and what the operations do to it

    [path s a l b]: from node [a] down over [l] to [b], with the links back up.  A
    stack whose nodes are [l] is the [ring] of [l]; moving nodes rotates the ring or
    takes a node out and puts it elsewhere. *)
From S2P Require Import Prelude VpmuInit Dinero.

(** The fields of an updated store *)
Ltac fields := cbn [data down up bucket onstack cachep top stack_n hash_size table nnodes
  set_node set_down set_up set_bucket set_top set_table set_home set_stack_n set_sizes].

(** ** Links *)

Fixpoint path (s : store) (a : Z) (l : list Z) (b : Z) : Prop :=
  match l with
  | [] => (down s).[a] = b /\ (up s).[b] = a
  | x :: l => (down s).[a] = x /\ (up s).[x] = a /\ path s x l b
  end.
Definition ring (s : store) (l : list Z) : Prop := match l with [] => False | x :: l => path s x l x end.

(** The node before the end of a path *)
Fixpoint final (a : Z) (l : list Z) : Z := match l with [] => a | x :: l => final x l end.

Lemma final_snoc a l x : final a (l ++ [x]) = x.
Proof. revert a. induction l as [|y l IH]; intros a; [done|]. apply IH. Qed.

Lemma final_in a l : final a l ∈ a :: l.
Proof. revert a. induction l as [|y l IH]; intros a; [by left|]. right. apply IH. Qed.

Lemma path_app s l1 x l2 : forall a b, path s a (l1 ++ x :: l2) b <-> path s a l1 x /\ path s x l2 b.
Proof. induction l1 as [|y l1 IH]; intros a b; cbn [path app]; [tauto|]. rewrite IH. tauto. Qed.

Lemma path_final s l : forall a b, path s a l b -> (down s).[final a l] = b /\ (up s).[b] = final a l.
Proof. induction l as [|x l IH]; intros a b; cbn [path final]; [done|]. intros (_ & _ & H). by apply IH. Qed.

(** A path survives changes elsewhere; its end may be redirected. *)
Lemma path_redirect s s' l : forall a b b',
  NoDup (a :: l) -> path s a l b ->
  (forall x, x ∈ a :: l -> x <> final a l -> (down s').[x] = (down s).[x]) -> (forall x, x ∈ l -> (up s').[x] = (up s).[x]) ->
  (down s').[final a l] = b' -> (up s').[b'] = final a l -> path s' a l b'.
Proof.
  induction l as [|x l IH]; intros a b b' Hnd Hp Hd Hu Hd' Hu'; cbn [path final] in *; [done|].
  apply NoDup_cons in Hnd as [Ha Hnd]. destruct Hp as (H1 & H2 & H3). split_and!.
  - rewrite Hd; [done|by left|]. intros E. apply Ha. rewrite E. apply final_in.
  - rewrite Hu; [done|by left].
  - apply (IH x b b'); try done; [intros y Hy; apply Hd; by right|intros y Hy; apply Hu; by right].
Qed.

Lemma path_frame s s' a l b :
  path s a l b -> (forall x, x ∈ a :: l -> (down s').[x] = (down s).[x]) ->
  (forall x, x ∈ b :: l -> (up s').[x] = (up s).[x]) -> path s' a l b.
Proof.
  revert a. induction l as [|x l IH]; intros a; cbn [path].
  - intros [H1 H2] Hd Hu. by rewrite Hd, Hu by left.
  - intros (H1 & H2 & H3) Hd Hu. split_and!; [rewrite Hd; [done|by left]|rewrite Hu; [done|right; by left]|].
    apply IH; [done|intros y Hy; apply Hd; by right|]. intros y Hy. apply Hu.
    apply elem_of_cons in Hy as [->|Hy]; [by left|right; by right].
Qed.

(** *** Rings *)

Lemma ring_rotate s l1 l2 : ring s (l1 ++ l2) -> ring s (l2 ++ l1).
Proof.
  destruct l1 as [|x l1], l2 as [|y l2]; cbn [app ring]; rewrite ?app_nil_r; try done.
  rewrite !path_app. tauto.
Qed.

Lemma ring_up s t l : ring s (t :: l) -> (up s).[t] = final t l.
Proof. intros H. by destruct (path_final _ _ _ _ H). Qed.

Lemma ring_frame s s' l :
  ring s l -> (forall x, x ∈ l -> (down s').[x] = (down s).[x] /\ (up s').[x] = (up s).[x]) -> ring s' l.
Proof. destruct l as [|t l]; [done|]. intros H Hf. apply (path_frame s); [done|intros; by apply Hf|intros; by apply Hf]. Qed.

Lemma ring_set_top s c k p l : ring s l -> ring (set_top c k p s) l.
Proof. intros H. by apply (ring_frame s). Qed.

(** Between top and bottom *)
Lemma ring_relink s t l1 p l2 :
  NoDup (t :: l1 ++ p :: l2) -> l2 <> [] -> ring s (t :: l1 ++ p :: l2) ->
  let s' := relink p t (final t (l1 ++ p :: l2)) s in
  ring s' (p :: t :: l1 ++ l2) /\ forall x, x ∉ (t :: l1 ++ p :: l2) -> (down s').[x] = (down s).[x] /\ (up s').[x] = (up s).[x].
Proof.
  intros Hnd Hl2 Hr s'. destruct l2 as [|b l3]; [done|]. subst s'. cbn [ring] in Hr |- *.
  apply path_app in Hr as [H1 H2]. destruct (path_final _ _ _ _ H1) as [D1 U1]. cbn [path] in H2. destruct H2 as (D2 & U2 & H3).
  set (bot := final t (l1 ++ p :: b :: l3)).
  assert (Hbot : bot = final b l3).
  { unfold bot. clear. revert t. induction l1 as [|x l1 IH]; intros t; [done|]. apply IH. }
  set (a := final t l1) in *.
  assert (Ha : a ∈ t :: l1) by apply final_in. assert (Hb : bot ∈ b :: l3) by (rewrite Hbot; apply final_in).
  change (t :: l1 ++ p :: b :: l3) with ((t :: l1) ++ p :: b :: l3) in Hnd.
  apply NoDup_app in Hnd as (N1 & N12 & N2). apply NoDup_cons in N2 as [Np N2].
  assert (Hpa : forall x, x ∈ t :: l1 -> x <> p) by (intros x Hx ->; apply (N12 p Hx); by left).
  assert (Hpb : forall x, x ∈ b :: l3 -> x <> p) by (by intros x Hx ->).
  assert (Hab : forall x y, x ∈ t :: l1 -> y ∈ b :: l3 -> x <> y) by (intros x y Hx Hy ->; apply (N12 y Hx); by right).
  pose proof (Hpa a Ha). pose proof (Hpb b ltac:(by left)). pose proof (Hab a b Ha ltac:(by left)).
  pose proof (Hpb bot Hb). pose proof (Hab a bot Ha Hb). pose proof (Hpa t ltac:(by left)). pose proof (Hab t b ltac:(by left) ltac:(by left)).
  unfold relink. rewrite D2, U1. fields. rewrite (aget_aset_ne _ b p) by congruence.
  rewrite U1. fields. rewrite ?D2. split.
  2:{ intros x Hx. change (t :: l1 ++ p :: b :: l3) with ((t :: l1) ++ p :: b :: l3) in Hx.
      rewrite elem_of_app in Hx. assert ((x ∉ t :: l1) /\ x <> p /\ (x ∉ b :: l3)) as (X1 & X2 & X3).
      { split_and!; [tauto|intros ->; apply Hx; right; by left|intros X; apply Hx; right; by right]. }
      assert (x <> a /\ x <> b /\ x <> bot /\ x <> t) as (? & ? & ? & ?).
      { split_and!; intros ->; [done|apply X3; by left|done|apply X1; by left]. }
      by rewrite !aget_aset_ne by congruence. }
  cbn [path]. split_and!; [by fields; rewrite aget_aset_ne, aget_aset_eq by congruence|by fields; rewrite aget_aset_eq|]. apply path_app. split.
  - apply (path_redirect s) with p; fields; try done; fold a.
    + intros x Hx Hxa. pose proof (Hpa x Hx). pose proof (Hab x bot Hx Hb). by rewrite !aget_aset_ne by congruence.
    + intros x Hx. pose proof (Hpa x ltac:(by right)). pose proof (Hab x b ltac:(by right) ltac:(by left)).
      apply NoDup_cons in N1 as [N1 _]. assert (t <> x) by (by intros ->). by rewrite !aget_aset_ne by congruence.
    + rewrite !aget_aset_ne by congruence. by rewrite aget_aset_eq.
    + rewrite !aget_aset_ne by congruence. by rewrite aget_aset_eq.
  - apply (path_redirect s) with t; fields; try done; rewrite <- ?Hbot.
    + intros x Hx Hxa. pose proof (Hpb x Hx). pose proof (Hab a x Ha Hx). by rewrite !aget_aset_ne by congruence.
    + intros x Hx. pose proof (Hpb x ltac:(by right)). pose proof (Hab t x ltac:(by left) ltac:(by right)).
      apply NoDup_cons in N2 as [N2 _]. assert (b <> x) by (by intros ->). by rewrite !aget_aset_ne by congruence.
    + by rewrite aget_aset_eq.
    + rewrite (aget_aset_ne _ t p) by congruence. by rewrite aget_aset_eq.
Qed.

(** ** Chains of the hash table *)

Fixpoint chain (s : store) (q : Z) (B : list Z) : Prop :=
  match B with
  | [] => q = NULL
  | x :: B => q = x /\ x <> NULL /\ chain s (bucket s).[x] B
  end.

Lemma chain_frame s s' B : forall q, chain s q B -> (forall x, x ∈ B -> (bucket s').[x] = (bucket s).[x]) -> chain s' q B.
Proof.
  induction B as [|x B IH]; intros q; cbn [chain]; [done|]. intros (H1 & H2 & H3) Hf. split_and!; [done|done|].
  rewrite Hf by left. apply IH; [done|]. intros y Hy. apply Hf. by right.
Qed.

Lemma chain_app s B1 x B2 : forall q, chain s q (B1 ++ x :: B2) -> chain s x (x :: B2).
Proof.
  induction B1 as [|y B1 IH]; intros q; cbn [chain app].
  - by intros (-> & ? & ?).
  - intros (_ & _ & H). by apply IH in H.
Qed.

(** Taking a node out behind another *)
Lemma chain_remove s B1 y p B2 : forall q,
  NoDup (B1 ++ y :: p :: B2) -> chain s q (B1 ++ y :: p :: B2) ->
  chain (set_bucket y (bucket s).[p] s) q (B1 ++ y :: B2).
Proof.
  induction B1 as [|x B1 IH]; intros q Hnd; cbn [chain app].
  - intros (-> & Hy & _ & _ & H). split_and!; [done|done|]. fields. rewrite aget_aset_eq.
    apply (chain_frame s); [done|]. intros z Hz. fields. apply aget_aset_ne. intros ->.
    cbn [app] in Hnd. apply NoDup_cons in Hnd as [Hnd _]. apply Hnd. by right.
  - intros (-> & Hx & H). split_and!; [done|done|]. cbn [app] in Hnd. apply NoDup_cons in Hnd as [Hxn Hnd].
    fields. rewrite aget_aset_ne; [by apply IH|]. intros ->. apply Hxn. apply elem_of_app. right. by left.
Qed.

Lemma unhash_walk_spec s p B2 : forall B1 fuel q,
  B1 <> [] -> NoDup (B1 ++ p :: B2) -> chain s q (B1 ++ p :: B2) -> (length B1 <= fuel)%nat ->
  exists B0 y, B1 = B0 ++ [y] /\ unhash_walk fuel p q s = Ret (set_bucket y (bucket s).[p] s).
Proof.
  induction B1 as [|x B1 IH]; intros fuel q Hne Hnd Hc Hf; [done|]. destruct fuel as [|fuel]; [cbn in Hf; lia|].
  cbn [chain app] in Hc. destruct Hc as (-> & Hx & Hc). cbn [unhash_walk]. rewrite (proj2 (Z.eqb_neq x NULL)) by done.
  destruct B1 as [|y B1].
  - cbn [chain app] in Hc. destruct Hc as (-> & Hp & _). rewrite Z.eqb_refl. by exists [], x.
  - cbn [app] in Hnd. apply NoDup_cons in Hnd as [Hxn Hnd].
    assert (Hbx : (bucket s).[x] = y /\ y <> NULL) by (cbn [chain app] in Hc; tauto). destruct Hbx as [Hbx Hy].
    rewrite Hbx in Hc |- *. assert (y <> p).
    { intros ->. apply NoDup_cons in Hnd as [Hnd _]. apply Hnd. apply elem_of_app. right. by left. }
    rewrite (proj2 (Z.eqb_neq y p)), (proj2 (Z.eqb_neq y NULL)) by done.
    destruct (IH fuel y) as (B0 & z & E & Hr); [done|done|done|cbn in Hf; cbn; lia|].
    exists (x :: B0), z. by rewrite Hr, E.
Qed.

(** Every chain holds exactly the nodes [M] puts there. *)
Definition hash_ok (s : store) (M : Z -> Z -> Prop) : Prop :=
  forall i, 0 <= i < hash_size s -> exists B, chain s (table s).[i] B /\ NoDup B /\ forall p, p ∈ B <-> M p i.

Lemma hash_ok_frame s s' (M M' : Z -> Z -> Prop) :
  hash_ok s M -> hash_size s' = hash_size s -> table s' = table s -> bucket s' = bucket s ->
  (forall p i, 0 <= i < hash_size s -> M p i <-> M' p i) -> hash_ok s' M'.
Proof.
  intros Hok Hs Ht Hb HM i Hi. rewrite Hs in Hi. destruct (Hok i Hi) as (B & H1 & H2 & H3). exists B. rewrite Ht. split_and!.
  - apply (chain_frame s); [done|]. intros. by rewrite Hb.
  - done.
  - intros p. rewrite H3. by apply HM.
Qed.

Lemma hash_insert s M p i :
  hash_ok s M -> 0 <= i < hash_size s -> p <> NULL -> (forall j, ~ M p j) ->
  hash_ok (set_table i p (set_bucket p (table s).[i] s)) (fun q j => M q j \/ (q = p /\ j = i)).
Proof.
  intros Hok Hi Hp Hnew j Hj. fields. cbn [hash_size set_table set_bucket] in Hj. destruct (Hok j Hj) as (B & H1 & H2 & H3).
  assert (HpB : p ∉ B) by (rewrite H3; apply Hnew).
  assert (Hc : forall q, chain s q B -> chain (set_table i p (set_bucket p (table s).[i] s)) q B).
  { intros q Hq. apply (chain_frame s); [done|]. intros x Hx. fields. apply aget_aset_ne. by intros ->. }
  destruct (decide (j = i)) as [->|Hji].
  - exists (p :: B). rewrite aget_aset_eq. split_and!.
    + cbn [chain]. split_and!; [done|done|]. fields. rewrite aget_aset_eq. by apply Hc.
    + by constructor.
    + intros q. rewrite elem_of_cons, H3. intuition congruence.
  - exists B. rewrite aget_aset_ne by congruence. split_and!; [by apply Hc|done|]. intros q. rewrite H3. intuition congruence.
Qed.

(** Only the hash table and the chains differ. *)
Definition rehashed (s s' : store) : Prop :=
  data s' = data s /\ down s' = down s /\ up s' = up s /\ onstack s' = onstack s /\ cachep s' = cachep s /\
  top s' = top s /\ stack_n s' = stack_n s /\ hash_size s' = hash_size s /\ nnodes s' = nnodes s.

Lemma NoDup_bounded (l : list Z) n : NoDup l -> (forall x, x ∈ l -> 0 < x <= n) -> Z.of_nat (length l) <= Z.max 0 n.
Proof.
  intros Hnd Hb. assert (length l <= length (seqZ 1 n))%nat as Hl.
  { apply submseteq_length, NoDup_submseteq; [done|]. intros x Hx. apply elem_of_seqZ. specialize (Hb x Hx). lia. }
  rewrite length_seqZ in Hl. lia.
Qed.

Lemma chain_length s (M : Z -> Z -> Prop) q B i :
  chain s q B -> NoDup B -> (forall p, p ∈ B <-> M p i) -> (forall p j, M p j -> 0 < p <= nnodes s) ->
  (length B <= Z.to_nat (nnodes s))%nat.
Proof.
  intros _ Hnd HB Hn. pose proof (NoDup_bounded B (nnodes s) Hnd) as Hb.
  destruct B as [|x B]; [cbn; lia|]. pose proof (Hn x i (proj1 (HB x) ltac:(by left))).
  assert (Z.of_nat (length (x :: B)) <= Z.max 0 (nnodes s)); [|lia]. apply Hb. intros y Hy. by apply (Hn y i), HB.
Qed.

Lemma unhash_ok s (M : Z -> Z -> Prop) c k p :
  let i := D4HASH s (blockaddr (node p s)) k (cacheid c) in
  hash_ok s M -> D4HASH_THRESH < stack_size c k s -> 0 <= i < hash_size s -> M p i ->
  (forall q j, M q j -> 0 < q <= nnodes s) -> (forall q j j', M q j -> M q j' -> j = j') ->
  exists s', d4_unhash c k p s = Ret s' /\ rehashed s s' /\ hash_ok s' (fun q j => M q j /\ q <> p).
Proof.
  intros i Hok Hbig Hi HM Hn Hfun. destruct (Hok i Hi) as (B & H1 & H2 & H3). unfold d4_unhash. fold i.
  rewrite (proj2 (Z.ltb_lt _ _)) by done. apply H3 in HM as HpB. apply list_elem_of_split in HpB as (B1 & B2 & ->).
  pose proof H2 as Hnd. apply NoDup_app in Hnd as (_ & HB1 & HpB2). apply NoDup_cons in HpB2 as [HpB2 _].
  assert (HpB1 : p ∉ B1) by (intros Hin; apply (HB1 p Hin); by left).
  assert (Hother : forall s', hash_size s' = hash_size s ->
    (forall j, j <> i -> (table s').[j] = (table s).[j]) ->
    (forall x j, j <> i -> M x j -> (bucket s').[x] = (bucket s).[x]) ->
    chain s' (table s').[i] (B1 ++ B2) -> hash_ok s' (fun q j => M q j /\ q <> p)).
  { intros s' Hs Ht Hb Hc j Hj. rewrite Hs in Hj. destruct (decide (j = i)) as [->|Hji].
    - exists (B1 ++ B2). split_and!; [done|by rewrite <- Permutation_middle in H2; apply NoDup_cons in H2 as [_ H2]|]. intros q.
      rewrite elem_of_app. specialize (H3 q). rewrite elem_of_app, elem_of_cons in H3. split.
      + intros Hq. split; [tauto|]. intros ->. tauto.
      + tauto.
    - destruct (Hok j Hj) as (B & C1 & C2 & C3). exists B. rewrite Ht by done. split_and!; [|done|].
      + apply (chain_frame s); [done|]. intros x Hx. apply (Hb x j); [done|by apply C3].
      + intros q. rewrite C3. split; [|tauto]. intros Hq. split; [done|]. intros ->. apply Hji. by apply (Hfun p). }
  destruct B1 as [|x B1].
  - cbn [chain app] in H1. destruct H1 as (Hp & Hp0 & Hc). rewrite Hp, Z.eqb_refl. eexists. split; [done|]. split; [by unfold rehashed|].
    apply Hother; fields; [done|intros; by apply aget_aset_ne|done|]. rewrite aget_aset_eq.
    cbn [app]. apply (chain_frame s); [done|done].
  - assert (Hx : (table s).[i] = x) by (by destruct H1). rewrite Hx in H1 |- *. rewrite (proj2 (Z.eqb_neq x p)) by (intros ->; apply HpB1; by left).
    destruct (unhash_walk_spec s p B2 (x :: B1) (S (Z.to_nat (nnodes s))) x) as (B0 & y & E & ->); [done|done|done| |].
    + pose proof (chain_length s M x _ i H1 H2 H3 Hn) as Hl. rewrite length_app in Hl. lia.
    + eexists. split; [done|]. split; [by unfold rehashed|]. rewrite E in *. rewrite <- app_assoc in H1, H2. cbn [app] in H1, H2.
      apply Hother; fields; [done|done| |].
      * intros z j Hj Hz. apply aget_aset_ne. intros <-. apply Hj. apply (Hfun y); [done|].
        apply H3. rewrite !elem_of_app. left. right. by left.
      * rewrite <- app_assoc. cbn [app]. rewrite Hx. by apply chain_remove.
Qed.

(** ** One stack: [l] are the valid nodes in order, [sp] the spare ones *)

Definition addr (s : store) (p : Z) : Z := blockaddr (node p s).

Record stack_ok (s : store) (c : nat) (k n : Z) (l sp : list Z) : Prop := {
  k_n : stack_n s !! (c, k) = Some n;
  k_n2 : 1 < n;
  k_ring : ring s (l ++ sp);
  k_top : top s !! (c, k) = head (l ++ sp);
  k_len : Z.of_nat (length (l ++ sp)) = n;
  k_nodup : NoDup (l ++ sp);
  k_home : forall p, p ∈ l ++ sp -> 0 < p <= nnodes s /\ (cachep s).[p] = Z.of_nat c /\ (onstack s).[p] = k;
  k_spare : forall p, p ∈ sp -> valid (node p s) = 0;
  k_addr : NoDup (addr s <$> l) }.

(** The parts that do not change after the start *)
Definition static (s s' : store) : Prop :=
  onstack s' = onstack s /\ cachep s' = cachep s /\ stack_n s' = stack_n s /\ nnodes s' = nnodes s /\ hash_size s' = hash_size s.
(** Changes of one stack only *)
Definition local (s s' : store) (c : nat) (k : Z) (ps : list Z) : Prop :=
  static s s' /\ (forall ck, ck <> (c, k) -> top s' !! ck = top s !! ck) /\
  forall p, p ∉ ps -> node p s' = node p s /\ (down s').[p] = (down s).[p] /\ (up s').[p] = (up s).[p].

Lemma local_refl s c k ps : local s s c k ps.
Proof. by repeat split. Qed.

Lemma local_trans s s' s'' c k ps : local s s' c k ps -> local s' s'' c k ps -> local s s'' c k ps.
Proof.
  intros ((A1 & A2 & A3 & A4 & A5) & A6 & A7) ((B1 & B2 & B3 & B4 & B5) & B6 & B7). split_and!; [|intros ck Hck; by rewrite B6, A6|].
  - unfold static. by rewrite B1, B2, B3, B4, B5.
  - intros p Hp. destruct (A7 p Hp) as (X1 & X2 & X3), (B7 p Hp) as (Y1 & Y2 & Y3).
    by rewrite Y1, Y2, Y3.
Qed.

Lemma rehashed_local s s' c k ps : rehashed s s' -> local s s' c k ps.
Proof.
  intros (H1 & H2 & H3 & H4 & H5 & H6 & H7 & H8 & H9). split_and!; [by unfold static|by rewrite H6|].
  intros p _. unfold node. by rewrite H1, H2, H3.
Qed.

Lemma stack_ok_frame s s' c k n l sp :
  stack_ok s c k n l sp -> static s s' -> top s' !! (c, k) = top s !! (c, k) ->
  (forall p, p ∈ l ++ sp -> node p s' = node p s /\ (down s').[p] = (down s).[p] /\ (up s').[p] = (up s).[p]) ->
  stack_ok s' c k n l sp.
Proof.
  intros [] (E1 & E2 & E3 & E4 & E5) Ht Hf. split; rewrite ?E1, ?E2, ?E3, ?E4, ?Ht; try done.
  - apply (ring_frame s); [done|]. intros p Hp. by destruct (Hf p Hp) as (? & ? & ?).
  - intros p Hp. destruct (Hf p) as (-> & _); [|by apply k_spare0]. apply elem_of_app. by right.
  - replace (addr s' <$> l) with (addr s <$> l); [done|]. apply list_fmap_ext. intros i p Hp. unfold addr.
    destruct (Hf p) as (-> & _); [|done]. apply elem_of_app. left. by apply list_elem_of_lookup_2 in Hp.
Qed.

Lemma stack_ok_rehashed s s' c k n l sp : stack_ok s c k n l sp -> rehashed s s' -> stack_ok s' c k n l sp.
Proof.
  intros Hok Hr. destruct (rehashed_local s s' c k [] Hr) as (Hs & _ & Hf).
  destruct Hr as (_ & _ & _ & _ & _ & Ht & _). apply (stack_ok_frame s); [done|done|by rewrite Ht|].
  intros p _. apply Hf. apply not_elem_of_nil.
Qed.

Lemma stack_size_ok s c k n l sp : stack_ok s c k n l sp -> stack_size c k s = n.
Proof. intros []. unfold stack_size. by rewrite k_n0. Qed.

(** The head of a nonempty list of nodes is the top. *)
Lemma stack_top_ok s c k n l sp t r : stack_ok s c k n l sp -> l ++ sp = t :: r -> stack_top c k s = t.
Proof. intros [] E. unfold stack_top. by rewrite k_top0, E. Qed.

Lemma head_ok s c k n l sp : stack_ok s c k n l sp -> exists t u r, l ++ sp = t :: u :: r.
Proof. intros []. destruct (l ++ sp) as [|t [|u r]] eqn:E; cbn in k_len0; [lia|lia|]. by eauto. Qed.

(** Links and tops may differ. *)
Definition relinked (s s' : store) : Prop := static s s' /\ data s' = data s /\ bucket s' = bucket s /\ table s' = table s.

Lemma relinked_set_top s s' c k p : relinked s s' -> relinked s (set_top c k p s').
Proof. done. Qed.

Lemma relinked_relink s p t bot : relinked s (relink p t bot s).
Proof. done. Qed.

Lemma stack_ok_relinked s s' c k n l l' sp :
  stack_ok s c k n l sp -> relinked s s' -> l' ≡ₚ l -> ring s' (l' ++ sp) -> top s' !! (c, k) = head (l' ++ sp) ->
  stack_ok s' c k n l' sp.
Proof.
  intros [] ((E1 & E2 & E3 & E4 & E5) & E6 & E7 & E8) Hp Hr Ht.
  assert (E : forall q, node q s' = node q s) by (intros q; unfold node; by rewrite E6).
  split; rewrite ?E1, ?E2, ?E3, ?E4; try done.
  - by rewrite Hp.
  - by rewrite Hp.
  - intros q. rewrite Hp. apply k_home0.
  - intros q Hq. rewrite E. by apply k_spare0.
  - replace (addr s') with (addr s).
    + by rewrite Hp.
    + unfold addr, node. by rewrite E6.
Qed.

Lemma local_set_top s s' c k p ps : local s s' c k ps -> local s (set_top c k p s') c k ps.
Proof.
  intros (H1 & H2 & H3). split_and!; [done| |done]. intros ck Hck. fields. rewrite lookup_insert_ne by done. by apply H2.
Qed.

Lemma final_app t l1 x l2 : final t (l1 ++ x :: l2) = final x l2.
Proof. revert t. induction l1 as [|y l1 IH]; intros t; [done|]. apply IH. Qed.

(** To the top: hits under LRU *)
Lemma movetotop_ok s c k n l1 p l2 sp :
  stack_ok s c k n (l1 ++ p :: l2) sp -> let s' := d4movetotop c k p s in
  stack_ok s' c k n (p :: l1 ++ l2) sp /\ local s s' c k ((l1 ++ p :: l2) ++ sp) /\ relinked s s'.
Proof.
  intros Hok s'. subst s'. unfold d4movetotop. destruct l1 as [|t l1].
  { rewrite (stack_top_ok s c k n _ sp p (l2 ++ sp)) by done. rewrite Z.eqb_refl. split_and!; [done|apply local_refl|done]. }
  rewrite (stack_top_ok s c k n _ sp t (l1 ++ p :: l2 ++ sp)) by (done || by cbn; rewrite <- app_assoc).
  pose proof (k_nodup _ _ _ _ _ _ Hok) as Hnd. pose proof (k_ring _ _ _ _ _ _ Hok) as Hr.
  rewrite <- app_assoc in Hnd, Hr |- *. cbn [app] in Hnd, Hr |- *.
  assert (Hpt : p <> t). { intros ->. apply NoDup_cons in Hnd as [Hnd _]. apply Hnd, elem_of_app. right. by left. }
  rewrite (proj2 (Z.eqb_neq p t)) by done. rewrite (ring_up s t _ Hr). destruct (decide (l2 ++ sp = [])) as [E|E].
  - rewrite E. rewrite final_snoc, Z.eqb_refl. apply app_nil in E as [-> ->].
    split_and!; [|by apply local_set_top, local_refl|by apply relinked_set_top].
    apply (stack_ok_relinked s _ c k n ((t :: l1) ++ [p])); [done|by apply relinked_set_top| | |fields; apply lookup_insert_eq].
    + rewrite !app_nil_r. apply Permutation_cons_append.
    + rewrite !app_nil_r in *. cbn [app]. apply ring_set_top, (ring_rotate s (t :: l1) [p]). done.
  - destruct (ring_relink s t l1 p (l2 ++ sp)) as [Hr' Hf]; [done..|].
    assert (Hb : final t (l1 ++ p :: l2 ++ sp) <> p).
    { rewrite final_app. destruct (l2 ++ sp) as [|b l3] eqn:Hl; [done|]. cbn [final]. intros Ef.
      change (t :: l1 ++ p :: b :: l3) with ((t :: l1) ++ p :: b :: l3) in Hnd. apply NoDup_app in Hnd as (_ & _ & Hnd).
      apply NoDup_cons in Hnd as [Hnd _]. apply Hnd. rewrite <- Ef. apply final_in. }
    rewrite (proj2 (Z.eqb_neq _ p)) by done. split_and!.
    + apply (stack_ok_relinked s _ c k n ((t :: l1) ++ p :: l2)); [done|by apply relinked_set_top, relinked_relink| | |fields; apply lookup_insert_eq].
      * apply (Permutation_middle (t :: l1)).
      * cbn [app]. rewrite <- ?app_assoc. by apply ring_set_top.
    + apply local_set_top. split_and!; [done|done|]. intros x Hx. split; [done|]. by apply Hf.
    + by apply relinked_set_top, relinked_relink.
Qed.

(** To the bottom of a full stack: the victim of the random policy *)
Lemma movetobot_ok s c k n t l1 q l2 :
  stack_ok s c k n (t :: l1 ++ q :: l2) [] -> let s' := d4movetobot c k q s in
  stack_ok s' c k n (t :: l1 ++ l2 ++ [q]) [] /\ local s s' c k (t :: l1 ++ q :: l2) /\ relinked s s'.
Proof.
  intros Hok s'. subst s'. unfold d4movetobot.
  rewrite (stack_top_ok s c k n _ [] t (l1 ++ q :: l2)) by (done || by rewrite app_nil_r).
  pose proof (k_nodup _ _ _ _ _ _ Hok) as Hnd. pose proof (k_ring _ _ _ _ _ _ Hok) as Hr. rewrite app_nil_r in Hnd, Hr.
  rewrite (ring_up s t _ Hr), final_app.
  assert (Hqt : t <> q). { intros ->. apply NoDup_cons in Hnd as [Hnd _]. apply Hnd, elem_of_app. right. by left. }
  destruct l2 as [|b l2].
  { cbn [final]. rewrite Z.eqb_refl. split_and!; [done|apply local_refl|done]. }
  assert (Hb : q <> final q (b :: l2)).
  { intros Ef. change (t :: l1 ++ q :: b :: l2) with ((t :: l1) ++ q :: b :: l2) in Hnd. apply NoDup_app in Hnd as (_ & _ & Hnd).
    apply NoDup_cons in Hnd as [Hnd _]. apply Hnd. rewrite Ef. apply (final_in b l2). }
  rewrite (proj2 (Z.eqb_neq _ _) Hb), (proj2 (Z.eqb_neq _ _) Hqt). rewrite <- (final_app t l1).
  destruct (ring_relink s t l1 q (b :: l2)) as [Hr' Hf]; [done..|]. split_and!.
  - apply (stack_ok_relinked s _ c k n (t :: l1 ++ q :: b :: l2)); [done|by apply relinked_relink| | |].
    + constructor. apply Permutation_app_head. symmetry. apply Permutation_cons_append.
    + rewrite app_nil_r. apply (ring_rotate _ [q] (t :: l1 ++ b :: l2)) in Hr'. cbn [app] in Hr'. by rewrite <- app_assoc in Hr'.
    + exact (k_top _ _ _ _ _ _ Hok).
  - split_and!; [done|done|]. intros x Hx. split; [done|]. by apply Hf.
  - by apply relinked_relink.
Qed.

(** A miss: the spare node comes on top. *)
Definition fresh_top (c : nat) (k ba b : Z) (s : store) : store := set_top c k b (set_node b (with_address ba (node b s)) s).

Lemma node_set_node_ne p q b s : p <> q -> node p (set_node q b s) = node p s.
Proof. intros. unfold node. fields. by rewrite lookup_insert_ne. Qed.
Lemma node_set_node_eq p b s : node p (set_node p b s) = b.
Proof. unfold node. fields. by rewrite lookup_insert_eq. Qed.

Lemma fresh_top_ok s c k n l sp b ba :
  stack_ok s c k n l (sp ++ [b]) -> ba ∉ (addr s <$> l) -> let s' := fresh_top c k ba b s in
  stack_ok s' c k n (b :: l) sp /\ local s s' c k (l ++ sp ++ [b]).
Proof.
  intros Hok Hba s'. pose proof (k_nodup _ _ _ _ _ _ Hok) as Hnd.
  assert (Hbl : forall x, x ∈ l ++ sp -> x <> b).
  { intros x Hx ->. rewrite app_assoc in Hnd. apply NoDup_app in Hnd as (_ & Hnd & _). apply (Hnd b Hx). by left. }
  assert (Hnode : forall x, x ∈ l ++ sp -> node x s' = node x s) by (intros x Hx; by apply node_set_node_ne, Hbl).
  assert (Hp : b :: l ++ sp ≡ₚ l ++ sp ++ [b]) by (rewrite app_assoc; apply Permutation_cons_append).
  split.
  - destruct Hok. split; try done; cbn [app].
    + apply ring_set_top, (ring_frame s); [|done]. rewrite app_assoc in k_ring0. by apply (ring_rotate s (l ++ sp) [b]).
    + unfold s', fresh_top. fields. apply lookup_insert_eq.
    + by rewrite Hp.
    + by rewrite Hp.
    + intros p. rewrite Hp. apply k_home0.
    + intros p Hx. rewrite Hnode by (apply elem_of_app; by right). apply k_spare0, elem_of_app. by left.
    + rewrite fmap_cons. apply NoDup_cons.
      assert (E : addr s' <$> l = addr s <$> l).
      { apply list_fmap_ext. intros i x Hx. unfold addr. rewrite Hnode; [done|]. apply elem_of_app. left. by apply list_elem_of_lookup_2 in Hx. }
      rewrite E. split; [|done]. unfold addr at 1. by rewrite (node_set_node_eq b _ s : node b s' = _).
  - split_and!; [done|intros ck Hck; unfold s', fresh_top; fields; by rewrite lookup_insert_ne by congruence|].
    intros p Hx. split; [|done]. apply node_set_node_ne. intros ->. apply Hx. rewrite <- Hp. by left.
Qed.

(** ** Searches *)

Lemma ring_lookup s l i x y : ring s l -> l !! i = Some x -> l !! S i = Some y -> (down s).[x] = y /\ (up s).[y] = x.
Proof.
  intros Hr Hx Hy. apply list_elem_of_split_length in Hx as (l1 & l2 & -> & ->).
  rewrite lookup_app_r, Nat.sub_succ_l, Nat.sub_diag in Hy by lia. destruct l2 as [|z l2]; [done|]. cbn in Hy. injection Hy as ->.
  apply ring_rotate in Hr. cbn in Hr. tauto.
Qed.

Lemma ring_wrap s t l x : ring s (t :: l) -> last (t :: l) = Some x -> (up s).[t] = x.
Proof.
  intros Hr Hx. rewrite (ring_up s t l Hr). clear Hr. revert t Hx. induction l as [|y l IH]; intros t Hx; [by injection Hx|].
  apply IH. done.
Qed.

Lemma follow_down s l : ring s l -> forall j i x y, l !! i = Some x -> l !! (i + j)%nat = Some y -> follow (down s) j x = y.
Proof.
  intros Hr. induction j as [|j IH]; intros i x y Hx Hy; [rewrite Nat.add_0_r in Hy; cbn [follow]; congruence|]. cbn [follow].
  assert (exists z, l !! S i = Some z) as [z Hz].
  { apply lookup_lt_is_Some. apply lookup_lt_Some in Hy. lia. }
  destruct (ring_lookup s l i x z Hr Hx Hz) as [-> _]. apply (IH (S i)); [done|]. by rewrite Nat.add_succ_comm.
Qed.

Lemma follow_up s l : ring s l -> forall j i x y, l !! (i + j)%nat = Some x -> l !! i = Some y -> follow (up s) j x = y.
Proof.
  intros Hr. induction j as [|j IH]; intros i x y Hx Hy; [rewrite Nat.add_0_r in Hx; cbn [follow]; congruence|]. cbn [follow].
  assert (exists z, l !! (i + j)%nat = Some z) as [z Hz].
  { apply lookup_lt_is_Some. apply lookup_lt_Some in Hx. lia. }
  rewrite Nat.add_succ_r in Hx. destruct (ring_lookup s l (i + j) z x Hr Hz Hx) as [_ ->]. by apply (IH i).
Qed.

(** The [m]-th node, counted from 1 at the top *)
Lemma findnth_ok s c k n l sp m q :
  stack_ok s c k n l sp -> 1 <= m <= n -> (l ++ sp) !! Z.to_nat (m - 1) = Some q -> d4findnth c k m s = Ret q.
Proof.
  intros Hok Hm Hq. unfold d4findnth. rewrite (stack_size_ok s c k n l sp) by done. destruct (head_ok _ _ _ _ _ _ Hok) as (t & u & r & E).
  rewrite (proj2 (Z.leb_le m n)) by lia. rewrite (stack_top_ok s c k n l sp t (u :: r)) by done. destruct Hok. f_equal.
  destruct (m <=? n / 2).
  - apply (follow_down s (l ++ sp) k_ring0 _ 0); [by rewrite E|done].
  - assert (Z.to_nat (n + 1 - m) = S (Z.to_nat (n - m))) as -> by lia. cbn [follow].
    destruct (last (l ++ sp)) as [x|] eqn:Hx; [|apply last_None in Hx; by rewrite Hx in E].
    rewrite E in Hx, k_ring0. rewrite (ring_wrap s t (u :: r) x) by done. rewrite <- E in Hx, k_ring0.
    apply (follow_up s (l ++ sp) k_ring0 _ (Z.to_nat (m - 1))); [|done].
    rewrite last_lookup in Hx. rewrite <- Hx. f_equal. lia.
Qed.

(** What a search says *)
Definition found (s : store) (l : list Z) (ba r : Z) : Prop := (r ∈ l /\ addr s r = ba) \/ (r = NULL /\ ba ∉ (addr s <$> l)).

Lemma find_stack_ok s ba x sp : valid (node x s) = 0 -> forall l fuel t r,
  l ++ x :: sp = t :: r -> (forall i y z, (l ++ x :: sp) !! i = Some y -> (l ++ x :: sp) !! S i = Some z -> (down s).[y] = z) ->
  (forall p, p ∈ l -> valid (node p s) <> 0) -> (length l < fuel)%nat ->
  exists q, find_stack fuel ba s t = Ret q /\ found s l ba q.
Proof.
  intros Hx. induction l as [|p l IH]; intros fuel t r E Hd Hv Hf; (destruct fuel as [|fuel]; [cbn in Hf; lia|]);
    cbn [app] in E; injection E as <- E; cbn [find_stack].
  - rewrite Hx. cbn. rewrite andb_false_r. eexists. split; [done|]. right. split; [done|]. apply not_elem_of_nil.
  - rewrite (proj2 (Z.eqb_neq _ _) (Hv p ltac:(by left))). cbn [negb]. rewrite andb_true_r.
    destruct (Z.eqb_spec (blockaddr (node p s)) ba) as [Eb|Eb]; cbn [negb].
    + eexists. split; [done|]. left. split; [by left|done].
    + destruct (l ++ x :: sp) as [|y r'] eqn:El; [by destruct l|].
      rewrite (Hd 0%nat p y) by (done || by cbn; rewrite El).
      destruct (IH fuel y r') as (q & Hq & Hfq); [done| |intros p' Hp'; apply Hv; by right|cbn in Hf; lia|].
      { intros i a b Ha Hb. apply (Hd (S i)); cbn; by rewrite El. }
      exists q. split; [done|]. destruct Hfq as [[H1 H2]|[H1 H2]]; [left; split; [by right|done]|right].
      split; [done|]. rewrite fmap_cons, elem_of_cons. intros [->|H3]; done.
Qed.

Definition wanted (s : store) (c : nat) (k ba x : Z) : Prop := addr s x = ba /\ (cachep s).[x] = Z.of_nat c /\ (onstack s).[x] = k.

Lemma find_chain_ok s c k ba : forall B fuel q,
  chain s q B -> (forall p, p ∈ B -> valid (node p s) <> 0) -> (length B < fuel)%nat ->
  exists r, find_chain fuel c k ba s q = Ret r /\ ((r ∈ B /\ wanted s c k ba r) \/ (r = NULL /\ forall x, x ∈ B -> ~ wanted s c k ba x)).
Proof.
  induction B as [|x B IH]; intros fuel q Hc Hv Hf; (destruct fuel as [|fuel]; [cbn in Hf; lia|]); cbn [chain find_chain] in *.
  - subst q. rewrite Z.eqb_refl. eexists. split; [done|]. right. split; [done|]. intros x Hx. by apply not_elem_of_nil in Hx.
  - destruct Hc as (-> & Hx & Hc). rewrite (proj2 (Z.eqb_neq x NULL)) by done.
    destruct (negb (blockaddr (node x s) =? ba) || negb ((cachep s).[x] =? Z.of_nat c) || negb ((onstack s).[x] =? k)) eqn:E.
    + rewrite (proj2 (Z.eqb_neq _ _) (Hv x ltac:(by left))).
      destruct (IH fuel _ Hc) as (r & Hr & Hor); [intros; apply Hv; by right|cbn in Hf; lia|]. exists r. split; [done|].
      destruct Hor as [[H1 H2]|[H1 H2]]; [left; split; [by right|done]|right]. split; [done|].
      intros y [->|Hy]%elem_of_cons; [|by apply H2]. unfold wanted, addr. lia.
    + exists x. split; [done|]. left. split; [by left|]. unfold wanted, addr. lia.
Qed.

(** ** All stacks and the table *)

Abbreviation lists := (nat * Z -> list Z).
Definition upd (L : lists) (c : nat) (k : Z) (l : list Z) : lists := fun ck => if decide (ck = (c, k)) then l else L ck.

Lemma upd_eq L c k l : upd L c k l (c, k) = l.
Proof. unfold upd. by rewrite decide_True. Qed.
Lemma upd_ne L c k l ck : ck <> (c, k) -> upd L c k l ck = L ck.
Proof. intros. unfold upd. by rewrite decide_False. Qed.

(** The valid nodes of long stacks are in the chain of their block. *)
Definition member (s : store) (L : lists) (p i : Z) : Prop :=
  exists c k n, stack_n s !! (c, k) = Some n /\ D4HASH_THRESH < n /\ p ∈ L (c, k) /\ i = D4HASH s (addr s p) k (cacheid c).

Record shaped (s : store) (L SP : lists) : Prop := {
  sh_stack : forall c k n, stack_n s !! (c, k) = Some n -> stack_ok s c k n (L (c, k)) (SP (c, k));
  sh_hash : hash_ok s (member s L);
  sh_size : forall c k n, stack_n s !! (c, k) = Some n -> D4HASH_THRESH < n -> 0 < hash_size s }.

Section Shaped.
Context (s : store) (L SP : lists) (Hs : shaped s L SP).

Lemma same_home c k n c' k' n' p :
  stack_n s !! (c, k) = Some n -> stack_n s !! (c', k') = Some n' ->
  p ∈ L (c, k) ++ SP (c, k) -> p ∈ L (c', k') ++ SP (c', k') -> (c, k) = (c', k').
Proof.
  intros Hn Hn' Hp Hp'. destruct (k_home _ _ _ _ _ _ (sh_stack _ _ _ Hs c k n Hn) p Hp) as (_ & H1 & H2).
  destruct (k_home _ _ _ _ _ _ (sh_stack _ _ _ Hs c' k' n' Hn') p Hp') as (_ & H3 & H4). f_equal; [lia|congruence].
Qed.

Lemma member_fun p i j : member s L p i -> member s L p j -> i = j.
Proof.
  intros (c & k & n & H1 & H2 & H3 & ->) (c' & k' & n' & H1' & H2' & H3' & ->).
  assert (E : (c, k) = (c', k')) by (eapply same_home; eauto; apply elem_of_app; by left). by injection E as -> ->.
Qed.

Lemma member_node p i : member s L p i -> 0 < p <= nnodes s.
Proof.
  intros (c & k & n & H1 & _ & H3 & _). apply (k_home _ _ _ _ _ _ (sh_stack _ _ _ Hs c k n H1)). apply elem_of_app. by left.
Qed.

Lemma hash_range c k n ba : stack_n s !! (c, k) = Some n -> D4HASH_THRESH < n -> 0 <= D4HASH s ba k (cacheid c) < hash_size s.
Proof. intros Hn Hb. apply Z.mod_pos_bound. by apply (sh_size _ _ _ Hs c k n). Qed.

Context (c : nat) (k n : Z) (Hn : stack_n s !! (c, k) = Some n).
#[local] Abbreviation l := (L (c, k)).
#[local] Abbreviation sp := (SP (c, k)).

Lemma shaped_update s' l' sp' :
  local s s' c k (l ++ sp) -> stack_ok s' c k n l' sp' -> hash_ok s' (member s' (upd L c k l')) ->
  shaped s' (upd L c k l') (upd SP c k sp').
Proof.
  intros (Hst & Ht & Hf) Hok Hh. pose proof Hst as (E1 & E2 & E3 & E4 & E5). split; [| done |].
  - intros c' k' n' Hn'. destruct (decide ((c', k') = (c, k))) as [E|E].
    + injection E as -> ->. rewrite !upd_eq. rewrite E3 in Hn'. assert (n' = n) as -> by congruence. done.
    + rewrite !upd_ne by done. rewrite E3 in Hn'. apply (stack_ok_frame s); [by apply (sh_stack _ _ _ Hs)|done|by apply Ht|].
      intros p Hp. apply Hf. intros Hp'. apply E. by apply (same_home c' k' n' c k n p).
  - intros c' k' n'. rewrite E3, E5. apply (sh_size _ _ _ Hs).
Qed.

(** Addresses and members kept: the table is still right. *)
Lemma member_keep s' l' :
  local s s' c k (l ++ sp) -> l' ≡ₚ l -> (forall p, p ∈ l -> addr s' p = addr s p) ->
  forall p i, member s L p i <-> member s' (upd L c k l') p i.
Proof.
  intros (Hst & Ht & Hf) Hp Ha p i. destruct Hst as (E1 & E2 & E3 & E4 & E5). unfold member, D4HASH. rewrite E3, E5.
  assert (Hin : forall c' k' n', stack_n s !! (c', k') = Some n' -> (p ∈ L (c', k') <-> p ∈ upd L c k l' (c', k'))).
  { intros c' k' n' Hn'. destruct (decide ((c', k') = (c, k))) as [E|E]; [rewrite E, upd_eq, Hp; done|by rewrite upd_ne]. }
  assert (Had : forall c' k' n', stack_n s !! (c', k') = Some n' -> p ∈ L (c', k') -> addr s' p = addr s p).
  { intros c' k' n' Hn' Hin'. destruct (decide ((c', k') = (c, k))) as [E|E]; [injection E as -> ->; by apply Ha|].
    unfold addr. destruct (Hf p) as (-> & _); [|done]. intros Hin2. apply E, (same_home c' k' n' c k n p); [done|done| |done].
    apply elem_of_app. by left. }
  split; intros (c' & k' & n' & H1 & H2 & H3 & H4); exists c', k', n'; (split_and!; [done|done| |]).
  - by apply (Hin c' k' n').
  - by rewrite (Had c' k' n').
  - by apply (Hin c' k' n').
  - apply (Hin c' k' n') in H3; [|done]. by rewrite <- (Had c' k' n').
Qed.

Lemma shaped_relinked s' l' :
  local s s' c k (l ++ sp) -> relinked s s' -> stack_ok s' c k n l' sp -> l' ≡ₚ l -> shaped s' (upd L c k l') SP.
Proof.
  intros Hl (Hst & E1 & E2 & E3) Hok Hp. assert (Hsp : forall ck, upd SP c k sp ck = SP ck).
  { intros ck. unfold upd. case_decide as E; [by rewrite E|done]. }
  assert (H : shaped s' (upd L c k l') (upd SP c k sp)).
  { apply shaped_update; [done|done|]. apply (hash_ok_frame s _ (member s L)); [apply (sh_hash _ _ _ Hs)|by apply Hst|done|done|].
    intros p i _. apply member_keep; [done|done|]. intros q _. unfold addr, node. by rewrite E1. }
  split; [|by apply H|by apply (sh_size _ _ _ H)]. intros c' k' n' Hn'. rewrite <- Hsp. by apply (sh_stack _ _ _ H).
Qed.

Lemma elem_of_addr q (Hq : q ∈ l) : addr s q ∈ (addr s <$> l).
Proof. by apply list_elem_of_fmap_2. Qed.

(** *** Members of this stack and of the others *)

Definition outer (p i : Z) : Prop :=
  exists c' k' n', (c', k') <> (c, k) /\ stack_n s !! (c', k') = Some n' /\ D4HASH_THRESH < n' /\ p ∈ L (c', k') /\
    i = D4HASH s (addr s p) k' (cacheid c').

Lemma outer_not_here p i : outer p i -> p ∉ l ++ sp.
Proof.
  intros (c' & k' & n' & N0 & N1 & _ & N3 & _) Hp. apply N0, (same_home c' k' n' c k n p); [done|done| |done]. apply elem_of_app. by left.
Qed.

Lemma member_split s' l' p i :
  local s s' c k (l ++ sp) ->
  member s' (upd L c k l') p i <-> (D4HASH_THRESH < n /\ p ∈ l' /\ i = D4HASH s (addr s' p) k (cacheid c)) \/ outer p i.
Proof.
  intros ((E1 & E2 & E3 & E4 & E5) & Ht & Hf). unfold member, outer, D4HASH. rewrite E3, E5.
  assert (Had : forall c' k' n', (c', k') <> (c, k) -> stack_n s !! (c', k') = Some n' -> p ∈ L (c', k') -> addr s' p = addr s p).
  { intros c' k' n' Hne Hn' Hp. unfold addr. destruct (Hf p) as (-> & _); [|done]. intros Hp'.
    apply Hne, (same_home c' k' n' c k n p); [done|done| |done]. apply elem_of_app. by left. }
  split.
  - intros (c' & k' & n' & N1 & N2 & N3 & ->). destruct (decide ((c', k') = (c, k))) as [E|E].
    + injection E as -> ->. rewrite upd_eq in N3. left. assert (n' = n) as -> by congruence. done.
    + rewrite upd_ne in N3 by done. right. exists c', k', n'. split_and!; try done. by rewrite (Had c' k' n').
  - intros [(N1 & N2 & ->)|(c' & k' & n' & N0 & N1 & N2 & N3 & ->)].
    + exists c, k, n. by rewrite upd_eq.
    + exists c', k', n'. rewrite upd_ne by done. split_and!; try done. by rewrite (Had c' k' n').
Qed.

Lemma member_here p i : member s L p i <-> (D4HASH_THRESH < n /\ p ∈ l /\ i = D4HASH s (addr s p) k (cacheid c)) \/ outer p i.
Proof.
  rewrite <- (member_split s l p i) by apply local_refl. unfold member.
  assert (E : forall ck, upd L c k l ck = L ck) by (intros ck; unfold upd; case_decide as E; [by rewrite E|done]).
  split; intros (c' & k' & n' & N); exists c', k', n'; [by rewrite E|by rewrite E in N].
Qed.

Lemma bottom_ok r b : l ++ sp = r ++ [b] -> (up s).[stack_top c k s] = b.
Proof.
  intros E. pose proof (sh_stack _ _ _ Hs c k n Hn) as Hok. destruct (head_ok _ _ _ _ _ _ Hok) as (t & u & r' & E').
  rewrite (stack_top_ok s c k n l sp t (u :: r')) by done. pose proof (k_ring _ _ _ _ _ _ Hok) as Hr. rewrite E' in Hr.
  apply (ring_wrap s t (u :: r')); [done|]. by rewrite <- E', E, last_snoc.
Qed.

(** *** Searching *)

(** Between references every block in a stack is valid. *)
Definition all_valid (s : store) (L : lists) : Prop :=
  forall c k n p, stack_n s !! (c, k) = Some n -> p ∈ L (c, k) -> valid (node p s) <> 0.

Lemma d4_find_ok ba : all_valid s L -> sp <> [] -> exists r, d4_find c k ba s = Ret r /\ found s l ba r.
Proof.
  intros Hv Hsp. pose proof (sh_stack _ _ _ Hs c k n Hn) as Hok. unfold d4_find. rewrite (stack_size_ok s c k n l sp Hok).
  destruct (Z.ltb_spec D4HASH_THRESH n) as [Hbig|Hbig].
  - pose proof (hash_range c k n ba Hn Hbig) as Hi. destruct (sh_hash _ _ _ Hs _ Hi) as (B & H1 & H2 & H3).
    destruct (find_chain_ok s c k ba B (S (Z.to_nat (nnodes s))) _ H1) as (r & Hr & Hor).
    + intros p Hp. apply H3 in Hp as (c' & k' & n' & N1 & _ & N3 & _). by apply (Hv c' k' n').
    + assert (length B <= Z.to_nat (nnodes s))%nat; [|lia]. eapply chain_length; [exact H1|done|exact H3|]. apply member_node.
    + exists r. split; [done|]. destruct Hor as [[HB (W1 & W2 & W3)]|[-> HB]].
      * left. split; [|done]. apply H3 in HB as (c' & k' & n' & N1 & _ & N3 & _).
        destruct (k_home _ _ _ _ _ _ (sh_stack _ _ _ Hs c' k' n' N1) r) as (_ & X1 & X2); [apply elem_of_app; by left|].
        assert (c' = c /\ k' = k) as [-> ->] by (split; [lia|congruence]). done.
      * right. split; [done|]. intros (q & -> & Hq)%list_elem_of_fmap. apply (HB q).
        -- apply H3. by exists c, k, n.
        -- destruct (k_home _ _ _ _ _ _ Hok q) as (_ & X1 & X2); [apply elem_of_app; by left|]. done.
  - destruct (head_ok _ _ _ _ _ _ Hok) as (t & u & r & E). destruct sp as [|x sp'] eqn:Esp; [done|].
    rewrite (stack_top_ok s c k n l (x :: sp') t (u :: r)) by done.
    apply (find_stack_ok s ba x sp') with (u :: r); [by apply (k_spare _ _ _ _ _ _ Hok); left|done| | |].
    + intros i y z Hy Hz. by destruct (ring_lookup s _ i y z (k_ring _ _ _ _ _ _ Hok) Hy Hz).
    + intros p Hp. by apply (Hv c k n).
    + pose proof (k_len _ _ _ _ _ _ Hok) as Hl. rewrite length_app in Hl. cbn in Hl. lia.
Qed.

Lemma lookup_ok `{RandomStream} ba : all_valid s L -> sp <> [] ->
  exists r, lookup_block c k ba s = Ret r /\ match r with Some q => q ∈ l /\ addr s q = ba | None => ba ∉ (addr s <$> l) end.
Proof.
  intros Hv Hsp. pose proof (sh_stack _ _ _ Hs c k n Hn) as Hok. cbn [lookup_block store_blocks].
  destruct (head_ok _ _ _ _ _ _ Hok) as (t & u & r & E). rewrite (stack_top_ok s c k n l sp t (u :: r)) by done.
  assert (H0 : forall q, q ∈ l -> q <> NULL).
  { intros q Hq. destruct (k_home _ _ _ _ _ _ Hok q) as (X & _); [apply elem_of_app; by left|]. unfold NULL. lia. }
  destruct (_ && _) eqn:Et.
  - assert (Ht : t ∈ l).
    { assert (t ∈ l ++ sp) as [Ht|Ht]%elem_of_app; [rewrite E; by left|done|]. apply (k_spare _ _ _ _ _ _ Hok) in Ht. lia. }
    cbn [mbind run_bind]. rewrite (proj2 (Z.eqb_neq t NULL)) by auto. exists (Some t). split; [done|]. split; [done|]. unfold addr. lia.
  - destruct (d4_find_ok ba Hv Hsp) as (q & -> & [[Hq Ha]|[-> Ha]]); cbn [mbind run_bind].
    + rewrite (proj2 (Z.eqb_neq q NULL)) by auto. by exists (Some q).
    + rewrite Z.eqb_refl. by exists None.
Qed.

(** *** A new block on top *)

Lemma new_top_ok ba : sp <> [] -> ba ∉ (addr s <$> l) ->
  exists sp' b s', sp = sp' ++ [b] /\ new_top c k ba s = Ret (b, s') /\ shaped s' (upd L c k (b :: l)) (upd SP c k sp') /\ static s s' /\
    node b s' = with_address ba (node b s) /\ valid (node b s) = 0 /\ forall p, p <> b -> node p s' = node p s.
Proof.
  intros Hsp Hba. pose proof (sh_stack _ _ _ Hs c k n Hn) as Hok.
  destruct (exists_last Hsp) as (sp' & b & Esp). exists sp', b. rewrite Esp in Hok.
  assert (Hv : valid (node b s) = 0) by (apply (k_spare _ _ _ _ _ _ Hok), elem_of_app; right; by left).
  destruct (fresh_top_ok s c k n l sp' b ba Hok Hba) as [Hok' Hl']. rewrite <- Esp in Hl'.
  assert (Hup : (up s).[stack_top c k s] = b) by (apply (bottom_ok (l ++ sp')); by rewrite Esp, app_assoc).
  assert (Hbin : b ∈ l ++ sp) by (rewrite Esp, app_assoc; apply elem_of_app; right; by left).
  destruct (k_home _ _ _ _ _ _ Hok b) as (Hb0 & Hbc & _); [by rewrite <- Esp|].
  set (s1 := fresh_top c k ba b s) in *.
  assert (Hnode : node b s1 = with_address ba (node b s)) by apply (node_set_node_eq b _ s).
  assert (Hother : forall p, p <> b -> node p s1 = node p s) by (intros p Hp; by apply (node_set_node_ne p b _ s)).
  assert (Hbl : b ∉ l).
  { pose proof (k_nodup _ _ _ _ _ _ Hok) as Hnd. apply NoDup_app in Hnd as (_ & Hnd & _). intros Hb. apply (Hnd b Hb), elem_of_app. right. by left. }
  assert (Hmem : forall p i, member s1 (upd L c k (b :: l)) p i <->
    member s L p i \/ (p = b /\ D4HASH_THRESH < n /\ i = D4HASH s ba k (cacheid c))).
  { intros p i. rewrite member_split by done. rewrite member_here, elem_of_cons. split.
    - intros [(N1 & [->|N2] & ->)|N]; [right|left; left|tauto].
      + unfold addr. by rewrite Hnode.
      + unfold addr. rewrite Hother; [done|]. by intros ->.
    - intros [[(N1 & N2 & ->)|N]|(-> & N1 & ->)]; [left|tauto|left].
      + unfold addr. rewrite Hother; [by auto|]. by intros ->.
      + unfold addr. rewrite Hnode. by auto. }
  unfold new_top. rewrite Hup, Hv. cbn [Z.eqb].
  change (stack_size c k (set_node b (with_address ba (node b s)) s)) with (stack_size c k s).
  rewrite (stack_size_ok s c k n l (sp' ++ [b])) by done. destruct (Z.ltb_spec D4HASH_THRESH n) as [Hbig|Hbig].
  - unfold d4hash. change (stack_size c k (set_node b (with_address ba (node b s)) s)) with (stack_size c k s).
    rewrite (stack_size_ok s c k n l (sp' ++ [b])) by done. rewrite (proj2 (Z.ltb_lt _ _)) by done. cbn [mbind run_bind].
    rewrite node_set_node_eq. cbn [blockaddr with_address].
    set (i := D4HASH _ ba k _). assert (Hi : i = D4HASH s ba k (cacheid c)) by (unfold i, cacheid; fields; by rewrite Hbc).
    set (s2 := set_table i b (set_bucket b (table s1).[i] s1)).
    assert (Hrh : rehashed s1 s2) by done.
    eexists. split; [done|]. split; [reflexivity|]. change (set_top c k b _) with s2. split; [|done].
    apply shaped_update; [by eapply local_trans; [exact Hl'|apply rehashed_local]|by apply (stack_ok_rehashed s1)|].
    apply (hash_ok_frame s2 s2 (fun q j => member s L q j \/ (q = b /\ j = i))); try done.
    + apply (hash_insert s1 (member s L) b i).
      * by apply (hash_ok_frame s s1 (member s L)); [apply (sh_hash _ _ _ Hs)|..].
      * rewrite Hi. by apply (hash_range c k n).
      * unfold NULL. lia.
      * intros j Hj. rewrite member_here in Hj. destruct Hj as [(_ & Hj & _)|Hj]; [done|by apply outer_not_here in Hj].
    + intros p j _. rewrite <- Hi in Hmem. change (member s2) with (member s1). rewrite Hmem. intuition.
  - cbn [mbind run_bind]. exists s1. split; [done|]. split; [reflexivity|]. split; [|done].
    apply shaped_update; [done|done|]. apply (hash_ok_frame s s1 (member s L)); [apply (sh_hash _ _ _ Hs)|done|done|done|].
    intros p j _. rewrite Hmem. intuition lia.
Qed.

(** *** Changing a block, hits, the victim *)

Lemma put_ok p b : p ∈ l -> blockaddr b = addr s p -> shaped (set_node p b s) L SP.
Proof.
  intros Hp Hb. pose proof (sh_stack _ _ _ Hs c k n Hn) as Hok. set (s' := set_node p b s).
  assert (Ha : forall q, addr s' q = addr s q).
  { intros q. unfold addr. destruct (decide (q = p)) as [->|Hq]; [by rewrite (node_set_node_eq p b s : node p s' = b)|].
    by rewrite (node_set_node_ne q p b s : q <> p -> node q s' = _). }
  assert (Hspv : forall c' k' n' q, stack_n s !! (c', k') = Some n' -> q ∈ SP (c', k') -> node q s' = node q s).
  { intros c' k' n' q Hn' Hq. apply node_set_node_ne. intros ->.
    assert (E : (c', k') = (c, k)).
    { apply (same_home c' k' n' c k n p); [done|done| |]; apply elem_of_app; [by right|by left]. }
    injection E as -> ->. pose proof (k_nodup _ _ _ _ _ _ Hok) as Hnd. apply NoDup_app in Hnd as (_ & Hnd & _). by apply (Hnd p). }
  split.
  - intros c' k' n' Hn'. destruct (sh_stack _ _ _ Hs c' k' n' Hn'). split; try done.
    + by apply (ring_frame s).
    + intros q Hq. rewrite (Hspv c' k' n') by done. by apply k_spare0.
    + replace (addr s' <$> L (c', k')) with (addr s <$> L (c', k')); [done|]. apply list_fmap_ext. intros. by rewrite Ha.
  - apply (hash_ok_frame s s' (member s L)); [apply (sh_hash _ _ _ Hs)|done|done|done|].
    intros q i _. unfold member. by setoid_rewrite Ha.
  - apply (sh_size _ _ _ Hs).
Qed.

Lemma evict_none `{RandomStream} : sp <> [] -> evict_block c k s = Ret (None, s).
Proof.
  intros Hsp. pose proof (sh_stack _ _ _ Hs c k n Hn) as Hok. destruct (exists_last Hsp) as (sp' & b & Esp). cbn [evict_block store_blocks].
  rewrite (bottom_ok (l ++ sp') b) by (by rewrite Esp, app_assoc). rewrite (k_spare _ _ _ _ _ _ Hok); [done|]. rewrite Esp. apply elem_of_app. right. by left.
Qed.

Lemma drop_ok l' b : l = l' ++ [b] -> sp = [] ->
  exists s2, (if D4HASH_THRESH <? stack_size c k s then d4_unhash c k b s else Ret s) = Ret s2 /\
    let s' := set_node b (with_valid 0 (node b s2)) s2 in
    shaped s' (upd L c k l') (upd SP c k [b]) /\ static s s' /\ forall p, p <> b -> node p s' = node p s.
Proof.
  intros El Esp. pose proof (sh_stack _ _ _ Hs c k n Hn) as Hok. rewrite (stack_size_ok s c k n l sp Hok).
  assert (Hbl : b ∈ l) by (rewrite El; apply elem_of_app; right; by left).
  assert (Hb' : b ∉ l').
  { pose proof (k_nodup _ _ _ _ _ _ Hok) as Hnd. rewrite Esp, app_nil_r, El in Hnd. apply NoDup_app in Hnd as (_ & Hnd & _).
    intros Hb. apply (Hnd b Hb). by left. }
  assert (Hbs : b ∈ l ++ sp) by (apply elem_of_app; by left).
  (* the table after the removal *)
  assert (Hun : exists s2, (if D4HASH_THRESH <? n then d4_unhash c k b s else Ret s) = Ret s2 /\ rehashed s s2 /\
    hash_ok s2 (fun q j => member s L q j /\ q <> b)).
  { destruct (Z.ltb_spec D4HASH_THRESH n) as [Hbig|Hbig].
    - apply unhash_ok.
      + apply (sh_hash _ _ _ Hs).
      + by rewrite (stack_size_ok s c k n l sp).
      + by apply (hash_range c k n).
      + by exists c, k, n.
      + apply member_node.
      + apply member_fun.
    - exists s. split; [done|]. split; [done|]. apply (hash_ok_frame s s (member s L)); [apply (sh_hash _ _ _ Hs)|done|done|done|].
      intros q j _. split; [|tauto]. intros Hq. split; [done|]. intros ->. apply member_here in Hq as [Hq|Hq]; [lia|by apply outer_not_here in Hq]. }
  destruct Hun as (s2 & E2 & Hrh & Hh). exists s2. split; [done|]. set (s' := set_node b _ s2). cbn zeta.
  assert (Hother : forall p, p <> b -> node p s' = node p s).
  { intros p Hp. rewrite (node_set_node_ne p b _ s2 Hp : node p s' = _). unfold node. by destruct Hrh as (-> & _). }
  assert (Hl : local s s' c k (l ++ sp)).
  { destruct (rehashed_local s s2 c k (l ++ sp) Hrh) as (X1 & X2 & X3). split_and!; [done|done|]. intros p Hp.
    destruct (X3 p Hp) as (_ & X4 & X5). split_and!; [|done|done]. apply Hother. by intros ->. }
  assert (Hok' : stack_ok s' c k n l' [b]).
  { pose proof (stack_ok_rehashed _ _ _ _ _ _ _ Hok Hrh) as Hok2. rewrite El, Esp in Hok2. destruct Hok2. rewrite app_nil_r in *.
    split; try done.
    - by apply (ring_frame s2).
    - intros q [->|Hq]%elem_of_cons; [|by apply not_elem_of_nil in Hq]. by rewrite (node_set_node_eq b _ s2 : node b s' = _).
    - rewrite fmap_app in k_addr0. apply NoDup_app in k_addr0 as (Hnd & _ & _).
      replace (addr s' <$> l') with (addr s2 <$> l'); [done|]. apply list_fmap_ext. intros i q Hq. unfold addr.
      rewrite (node_set_node_ne q b _ s2 : q <> b -> node q s' = _); [done|]. intros ->. by apply Hb', (list_elem_of_lookup_2 _ i). }
  split; [|split; [apply Hl|done]]. apply shaped_update; [done|done|].
  apply (hash_ok_frame s2 s' (fun q j => member s L q j /\ q <> b)); [done|done|done|done|].
  intros q j _. rewrite member_split by done. rewrite member_here. split.
  - intros [[(N1 & N2 & ->)|N] Hq]; [left|by right]. rewrite El in N2. apply elem_of_app in N2 as [N2|N2].
    + split_and!; [done|done|]. unfold addr. by rewrite Hother.
    + by apply list_elem_of_singleton in N2.
  - intros [(N1 & N2 & ->)|N].
    + assert (q <> b) by (by intros ->). split; [left; split_and!; [done|rewrite El; apply elem_of_app; by left|]|done]. unfold addr. by rewrite Hother.
    + split; [by right|]. intros ->. by apply outer_not_here in N.
Qed.
End Shaped.

(** The block at the bottom of a full stack *)
Lemma evict_ok `{RandomStream} s L SP c k n l' b :
  shaped s L SP -> stack_n s !! (c, k) = Some n -> L (c, k) = l' ++ [b] -> SP (c, k) = [] -> valid (node b s) <> 0 ->
  exists s', evict_block c k s = Ret (Some (node b s), s') /\ shaped s' (upd L c k l') (upd SP c k [b]) /\ static s s' /\
    forall p, p <> b -> node p s' = node p s.
Proof.
  intros Hs Hn El Esp Hv. cbn [evict_block store_blocks]. rewrite (bottom_ok s L SP Hs c k n Hn l' b) by (by rewrite El, Esp, app_nil_r).
  rewrite (proj2 (Z.eqb_neq _ _)) by done. set (s1 := if has _ _ then _ else s).
  assert (Hs1 : shaped s1 L SP /\ static s s1 /\ forall p, p <> b -> node p s1 = node p s).
  { unfold s1. destruct (has _ _); [|by split_and!]. split_and!; [|done|intros p Hp; by apply node_set_node_ne].
    apply (put_ok s L SP Hs c k n Hn); [|done]. rewrite El. apply elem_of_app. right. by left. }
  destruct Hs1 as (Hs1 & Hst & Hn1).
  assert (Hn' : stack_n s1 !! (c, k) = Some n) by (by destruct Hst as (_ & _ & -> & _)).
  destruct (drop_ok s1 L SP Hs1 c k n Hn' l' b El Esp) as (s2 & -> & H1 & H2 & H3). cbn [mbind run_bind].
  eexists. split; [done|]. split; [exact H1|]. split; [|intros p Hp; by rewrite H3, Hn1].
  unfold static in *. intuition congruence.
Qed.
