(* ===== verification/DineroSpec.v ===== *)
(** * The cache simulator's specification: sets as lists of blocks

    [list_blocks] implements [BlockStore] with lists in the order of the replacement
    policy, without links and without a hash table.  [d4ref] over it is the
    reference.  The rest of the file is arithmetic: blocks, subblocks, the parts of a split reference
    ([split_spec]), prefetches, the writes made of a dirty block ([wbblock_spec]).  [DineroRun] shows that a
    reference ends, [DineroRefine] that the linked nodes behave the same. *)
From S2P Require Import Prelude VpmuInit Dinero.

(** ** Sets *)

(** [ways]: one more than the blocks of a set, as [stack_n] *)
Record sets := mk_sets { content : gmap (nat * Z) (list block); ways : gmap (nat * Z) Z }.
Definition set_of (c : nat) (k : Z) (t : sets) : list block := default [] (content t !! (c, k)).
Definition ways_of (c : nat) (k : Z) (t : sets) : Z := default 0 (ways t !! (c, k)).
Definition with_set (c : nat) (k : Z) (l : list block) (t : sets) : sets := mk_sets (<[(c, k) := l]> (content t)) (ways t).

Fixpoint block_at (ba : Z) (l : list block) : block :=
  match l with [] => no_block | b :: l => if blockaddr b =? ba then b else block_at ba l end.
Definition change_at (ba : Z) (b' : block) (l : list block) : list block :=
  (fun b => if blockaddr b =? ba then b' else b) <$> l.
Definition without (ba : Z) (l : list block) : list block := filter (fun b => blockaddr b <> ba) l.

(** The element at [i] goes to the end. *)
Definition to_end (i : nat) (l : list block) : list block :=
  match l !! i with Some b => delete i l ++ [b] | None => l end.

#[export] Instance list_blocks `{RandomStream} : BlockStore sets := {
  handle := nat * Z * Z;
  lookup_block c k ba t := Ret (if bool_decide (ba ∈ blockaddr <$> set_of c k t) then Some (c, k, ba) else None);
  the_block := fun '(c, k, ba) t => block_at ba (set_of c k t);
  put_block := fun '(c, k, ba) b t => with_set c k (change_at ba b (set_of c k t)) t;
  replace_block pol c k ba ptr t r :=
    match ptr with
    | Some q =>
        Ret (q, match pol with
                | Lru => with_set c k (block_at ba (set_of c k t) :: without ba (set_of c k t)) t
                | _ => t
                end, r)
    | None =>
        let l := mk_block ba 0 0 0 :: set_of c k t in
        match pol with
        | Random =>
            if Z.of_nat (length l) =? ways_of c k t
            then Ret ((c, k, ba), with_set c k (to_end (Z.to_nat (1 + random r mod (ways_of c k t - 1))) l) t, r + 1)
            else Ret ((c, k, ba), with_set c k l t, r)
        | _ => Ret ((c, k, ba), with_set c k l t, r)
        end
    end;
  evict_block c k t :=
    let l := set_of c k t in
    if Z.of_nat (length l) =? ways_of c k t
    then Ret (last l, with_set c k (removelast l) t) else Ret (None, t) }.

(** ** Addresses, subblocks, and the requests made from them *)

(** A cache of at most 16 subblocks of a block, blocks of at most 32768 bytes *)
Record geometry (p : d4cache) : Prop := {
  g_sub : 0 <= lg2subblocksize p <= lg2blocksize p;
  g_block : lg2blocksize p <= 15;
  g_n : lg2blocksize p - lg2subblocksize p <= 4 }.

Definition ref_ok (m : d4memref) : Prop := 0 <= address m < 2 ^ 32 /\ 1 <= size m < 2 ^ 16.

Section Geometry.
Context (p : d4cache) (G : geometry p).
#[local] Abbreviation B := (2 ^ lg2blocksize p).
#[local] Abbreviation S := (2 ^ lg2subblocksize p).
#[local] Abbreviation N := (2 ^ (lg2blocksize p - lg2subblocksize p)).

Lemma geo_pow : 0 < S /\ 0 < N <= 16 /\ B = S * N /\ 0 < B <= 32768.
Proof.
  destruct G as [[G1 G2] G3 G4]. pose proof (Z.pow_pos_nonneg 2 (lg2subblocksize p) ltac:(lia) G1).
  pose proof (Z.pow_pos_nonneg 2 (lg2blocksize p - lg2subblocksize p) ltac:(lia) ltac:(lia)).
  split_and!; try done; try lia.
  - change 16 with (2 ^ 4). apply Z.pow_le_mono_r; lia.
  - rewrite <- Z.pow_add_r by lia. f_equal. lia.
  - change 32768 with (2 ^ 15). apply Z.pow_le_mono_r; lia.
Qed.

Lemma mask_ones n : 0 <= n < 32 -> D4LG2MASK n = Z.ones n.
Proof.
  intros Hn. unfold D4LG2MASK. rewrite Z.shiftl_1_l, Z.ones_equiv. unfold Z.pred. rewrite u32_small; [lia|].
  pose proof (Z.pow_pos_nonneg 2 n ltac:(lia) ltac:(lia)). pose proof (Z.pow_lt_mono_r 2 n 32 ltac:(lia) ltac:(lia) ltac:(lia)). lia.
Qed.

Lemma clear_low n a : 0 <= n < 32 -> Z.ldiff a (D4LG2MASK n) = a / 2 ^ n * 2 ^ n.
Proof.
  intros Hn. rewrite mask_ones by done. rewrite Z.ldiff_ones_r by lia. rewrite Z.shiftl_mul_pow2, Z.shiftr_div_pow2 by lia. done.
Qed.

Lemma block_eq a : D4ADDR2BLOCK p a = a / B * B.
Proof. apply clear_low. destruct G. lia. Qed.
Lemma subblock_eq a : D4ADDR2SUBBLOCK p a = a / S * S.
Proof. apply clear_low. destruct G. lia. Qed.

(** Within one block *)
Definition inside (m : d4memref) : Prop := ref_ok m /\ address m mod B + size m <= B.

Lemma inside_end m : inside m -> address m + size m <= 2 ^ 32.
Proof.
  intros [[Ha Hs] Hi]. destruct geo_pow as (_ & _ & _ & HB). pose proof (Z.div_mod (address m) B ltac:(lia)) as E.
  assert (H : 2 ^ 32 = B * 2 ^ (32 - lg2blocksize p)) by (rewrite <- Z.pow_add_r by (destruct G; lia); f_equal; lia).
  assert (address m / B < 2 ^ (32 - lg2blocksize p)) by (apply Z.div_lt_upper_bound; lia).
  assert (B * (address m / B + 1) <= B * 2 ^ (32 - lg2blocksize p)) by (apply Z.mul_le_mono_nonneg_l; lia). lia.
Qed.

(** The first subblock within the block, and how many are touched *)
Definition first_sub (m : d4memref) : Z := address m mod B / S.

Lemma subblocks_touched m : inside m ->
  1 <= D4REFNSB p m /\ 0 <= first_sub m /\ first_sub m + D4REFNSB p m <= N.
Proof.
  intros Hm. pose proof (inside_end m Hm) as He. destruct Hm as [[Ha Hs] Hi]. destruct geo_pow as (HS & HN & HB & HB'). unfold D4REFNSB, first_sub.
  rewrite !Z.shiftr_div_pow2 by (destruct G; lia). rewrite (u32_small (address m + size m - 1)) by lia.
  set (a := address m) in *. set (z := size m) in *. set (r := a mod B) in *.
  pose proof (Z.div_mod a B ltac:(lia)) as Ea. fold r in Ea. pose proof (Z.mod_pos_bound a B ltac:(lia)) as Hr. fold r in Hr.
  assert (E1 : a / S = a / B * N + r / S).
  { rewrite Ea at 1. rewrite HB at 1. replace (S * N * (a / B) + r) with (r + a / B * N * S) by ring.
    rewrite Z.div_add by lia. lia. }
  assert (E2 : (a + z - 1) / S = a / B * N + (r + z - 1) / S).
  { rewrite Ea at 1. rewrite HB at 1. replace (S * N * (a / B) + r + z - 1) with (r + z - 1 + a / B * N * S) by ring.
    rewrite Z.div_add by lia. lia. }
  assert (H1 : r / S <= (r + z - 1) / S) by (apply Z.div_le_mono; lia).
  assert (H2 : (r + z - 1) / S < N) by (apply Z.div_lt_upper_bound; lia).
  assert (H3 : 0 <= r / S) by (apply Z.div_pos; lia).
  rewrite E1, E2. rewrite u32_small by lia. lia.
Qed.

Lemma sbmask_eq m : inside m -> D4ADDR2SBMASK p m = Z.ones (D4REFNSB p m) * 2 ^ first_sub m.
Proof.
  intros Hm. destruct (subblocks_touched m Hm) as (H1 & H2 & H3). destruct geo_pow as (HS & HN & HB & HB').
  unfold D4ADDR2SBMASK. rewrite block_eq, mask_ones by lia.
  replace (address m - address m / B * B) with (address m mod B) by (rewrite Z.mod_eq by lia; ring).
  rewrite Z.shiftr_div_pow2 by (destruct G; lia). fold (first_sub m). rewrite Z.shiftl_mul_pow2 by lia.
  apply u32_small. rewrite Z.ones_equiv. unfold Z.pred.
  pose proof (Z.pow_pos_nonneg 2 (first_sub m) ltac:(lia) H2). pose proof (Z.pow_pos_nonneg 2 (D4REFNSB p m) ltac:(lia) ltac:(lia)).
  split; [nia|]. apply Z.le_lt_trans with (2 ^ (D4REFNSB p m + first_sub m)); [rewrite Z.pow_add_r by lia; nia|].
  apply Z.pow_lt_mono_r; lia.
Qed.

(** The bits of the subblocks touched are among those of the block. *)
Lemma sbmask_range m : inside m -> 0 < D4ADDR2SBMASK p m < 2 ^ N.
Proof.
  intros Hm. rewrite sbmask_eq by done. destruct (subblocks_touched m Hm) as (H1 & H2 & H3). rewrite Z.ones_equiv. unfold Z.pred.
  pose proof (Z.pow_pos_nonneg 2 (first_sub m) ltac:(lia) H2). pose proof (proj1 (Z.pow_gt_1 2 (D4REFNSB p m) ltac:(lia)) ltac:(lia)).
  split; [nia|]. apply Z.lt_le_trans with (2 ^ (D4REFNSB p m + first_sub m)); [rewrite Z.pow_add_r by lia; nia|].
  apply Z.pow_le_mono_r; lia.
Qed.

Lemma refsize_range m : inside m -> 1 <= refsize p m <= B.
Proof.
  intros Hm. destruct (subblocks_touched m Hm) as (H1 & H2 & H3). destruct geo_pow as (HS & HN & HB & HB').
  unfold refsize. rewrite Z.shiftl_mul_pow2 by (destruct G; lia). nia.
Qed.

Lemma u16_small x : 0 <= x < 2 ^ 16 -> u16 x = x.
Proof. intros. unfold u16, wrap. by apply Z.mod_small. Qed.

(** *** Splitting *)

Definition split_ok (m m1 : d4memref) (rest : option d4memref) : Prop :=
  inside m1 /\ address m1 = address m /\ accesstype m1 = accesstype m /\
  match rest with
  | None => m1 = m
  | Some r => ref_ok r /\ size m1 + size r = size m /\ address m mod B + size m1 = B /\ address r = u32 (address m + size m1) /\
      accesstype r = Z.lor (accesstype m) D4_MULTIBLOCK
  end.

Lemma split_spec m : ref_ok m -> let s := d4_splitm p m (D4ADDR2BLOCK p (address m)) in split_ok m s.1 s.2.
Proof.
  intros [Ha Hz]. destruct geo_pow as (HS & HN & HB & HB'). cbn zeta. unfold d4_splitm. rewrite !block_eq.
  rewrite Z.shiftl_1_l. change (2 ^ lg2blocksize p - 1) with (Z.pred B). rewrite <- Z.ones_equiv, Z.land_ones by (destruct G; lia).
  set (a := address m) in *. set (z := size m) in *. pose proof (Z.mod_pos_bound a B ltac:(lia)) as Hr.
  pose proof (Z.mod_eq a B ltac:(lia)) as Er. set (q := a / B) in *. set (r := a mod B) in *. destruct (Z.eqb_spec (q * B) (u32 (a + z - 1) / B * B)) as [E|E]; cbn [fst snd].
  - unfold split_ok, inside. split_and!; try done. fold a z. fold r.
    destruct (decide (a + z - 1 < 2 ^ 32)) as [Hw|Hw].
    + rewrite u32_small in E by lia. pose proof (Z.mod_eq (a + z - 1) B ltac:(lia)). pose proof (Z.mod_pos_bound (a + z - 1) B ltac:(lia)). lia.
    + exfalso. assert (E2 : u32 (a + z - 1) = a + z - 1 - 2 ^ 32).
      { unfold u32, wrap. rewrite <- (Z_mod_plus_full _ (-1)). apply Z.mod_small. lia. }
      rewrite E2 in E. pose proof (Z.mul_div_le (a + z - 1 - 2 ^ 32) B ltac:(lia)). lia.
  - assert (Hlong : B <= r + z - 1).
    { apply Z.nlt_ge. intros Hlt. apply E. rewrite u32_small.
      - f_equal. apply (Z.div_unique_pos _ _ q (r + z - 1)); lia.
      - split; [lia|]. apply Z.le_lt_trans with (a - r + (B - 1)); [lia|].
        assert (He : a < 2 ^ 32 /\ 2 ^ 32 = B * 2 ^ (32 - lg2blocksize p)).
        { split; [lia|]. rewrite <- Z.pow_add_r by (destruct G; lia). f_equal. lia. }
        assert (q < 2 ^ (32 - lg2blocksize p)) by (apply Z.div_lt_upper_bound; lia). nia. }
    rewrite (u16_small (B - r)), (u16_small (z - (B - r))) by lia. unfold split_ok, inside, ref_ok. cbn [address size accesstype]. fold a z r.
    split_and!; try lia; try done.
    + apply u32_range.
    + apply u32_range.
    + f_equal. lia.
Qed.

(** A reference inside a block is not split. *)
Lemma split_inside m : inside m -> d4_splitm p m (D4ADDR2BLOCK p (address m)) = (m, None).
Proof.
  intros Hm. pose proof (split_spec m (proj1 Hm)) as Hs. destruct (d4_splitm _ _ _) as [m1 [r|]]; destruct Hs as (H1 & H2 & H3 & H4); cbn in *; [|by subst].
  destruct H4 as ([_ H5] & H6 & H7 & _). destruct Hm as [_ Hm]. lia.
Qed.

(** *** Prefetches *)

Lemma aligned_inside a t : 0 <= a < 2 ^ 32 -> a mod S = 0 -> inside (mk_ref a t S).
Proof.
  intros Ha Hs. destruct geo_pow as (HS & HN & HB & HB'). unfold inside, ref_ok. cbn [address size]. split.
  - split; [done|]. split; [lia|]. apply Z.le_lt_trans with B; [nia|lia].
  - pose proof (Z.mod_pos_bound a B ltac:(lia)). pose proof (Z.mod_eq a B ltac:(lia)) as Er.
    destruct (Z.mod_divide a S ltac:(lia)) as [Hdiv _]. destruct (Hdiv Hs) as [x Hx].
    assert (Hd : a mod B = S * (x - N * (a / B))) by (rewrite Er; rewrite HB at 1; rewrite Hx at 1; ring).
    set (y := x - N * (a / B)) in Hd. rewrite Hd in *. assert (y < N) by (apply (Z.mul_lt_mono_pos_l S); lia).
    assert (S * (y + 1) <= S * N) by (apply Z.mul_le_mono_nonneg_l; lia). lia.
Qed.

Lemma sub_mod x : u32 x mod S = x mod S.
Proof.
  destruct geo_pow as (HS & _). unfold u32, wrap. assert (E : 2 ^ 32 = S * 2 ^ (32 - lg2subblocksize p)).
  { rewrite <- Z.pow_add_r by (destruct G; lia). f_equal. lia. }
  rewrite E, Z.rem_mul_r by lia. rewrite (Z.mul_comm S (_ mod _)), Z.mod_add by lia. apply Zmod_mod.
Qed.

Lemma pf_request_inside m : inside (pf_request p m) /\ accesstype (pf_request p m) = Z.lor (accesstype m) D4PREFETCH /\ size (pf_request p m) = S.
Proof.
  destruct geo_pow as (HS & HN & HB & HB'). unfold pf_request. rewrite Z.shiftl_1_l, subblock_eq.
  rewrite u16_small by (split; [lia|]; apply Z.le_lt_trans with B; [nia|lia]). split; [|done]. apply aligned_inside.
  - set (x := u32 _). pose proof (u32_range (address m + prefetch_distance p)) as Hx. fold x in Hx.
    pose proof (Z.mul_div_le x S ltac:(lia)). pose proof (Z.div_pos x S ltac:(lia) ltac:(lia)). nia.
  - apply Z.mod_mul. lia.
Qed.

Lemma prefetch_spec m is_miss refd pf :
  call_prefetchf p m is_miss refd = Some pf -> inside pf /\ accesstype pf = Z.lor (accesstype m) D4PREFETCH.
Proof.
  destruct (pf_request_inside m) as (H1 & H2 & H3). destruct geo_pow as (HS & HN & HB & HB'). unfold call_prefetchf.
  destruct (prefetchf p); unfold d4prefetch_none, d4prefetch_always, d4prefetch_miss, d4prefetch_tagged, d4prefetch_loadforw, d4prefetch_subblock;
    repeat case_match; intros E; try discriminate; injection E as <-; try done.
  change (u16 _) with (size (pf_request p m)). rewrite H3. cbn [accesstype]. split; [|done]. apply aligned_inside; [apply u32_range|]. rewrite sub_mod, Z.shiftl_1_l.
  rewrite subblock_eq, HB.
  set (y := _ / S). replace (y * S - S * N) with ((y - N) * S) by ring. apply Z.mod_mul. lia.
Qed.

(** *** Writing back *)

Lemma has_bit d i : 0 <= i -> has d (2 ^ i) = Z.testbit d i.
Proof.
  intros Hi. unfold has. destruct (Z.testbit d i) eqn:E.
  - apply negb_true_iff, Z.eqb_neq. intros H0. assert (Ht : Z.testbit (Z.land d (2 ^ i)) i = false) by (rewrite H0; apply Z.bits_0).
    rewrite Z.land_spec, E, Z.pow2_bits_true in Ht by done. done.
  - apply negb_false_iff, Z.eqb_eq, Z.bits_inj'. intros x Hx. rewrite Z.land_spec, Z.bits_0.
    destruct (decide (x = i)) as [->|Hne]; [by rewrite E|]. by rewrite Z.pow2_bits_false, andb_false_r by done.
Qed.

Definition at_sub (ba i : Z) : Z := u32 (ba + i * S).

Lemma next_sub ba i : u32 (at_sub ba i + Z.shiftl 1 (lg2subblocksize p)) = at_sub ba (i + 1).
Proof.
  unfold at_sub. rewrite Z.shiftl_1_l. unfold u32, wrap. rewrite Zplus_mod_idemp_l. f_equal. ring.
Qed.

Lemma next_bit i : 0 <= i < 31 -> u32 (Z.shiftl (2 ^ i) 1) = 2 ^ (i + 1).
Proof.
  intros Hi. rewrite Z.shiftl_mul_pow2, <- Z.pow_add_r by lia. apply u32_small.
  pose proof (Z.pow_pos_nonneg 2 (i + 1) ltac:(lia) ltac:(lia)). pose proof (Z.pow_lt_mono_r 2 (i + 1) 32 ltac:(lia) ltac:(lia) ltac:(lia)). lia.
Qed.

Lemma skip_spec d ba : forall n i, 0 <= i -> (exists x, i <= x < 16 /\ Z.testbit d x = true) -> 17 - i <= Z.of_nat n ->
  exists j, i <= j < 16 /\ Z.testbit d j = true /\ (forall x, i <= x < j -> Z.testbit d x = false) /\
    skip_clean p n d (2 ^ i) (at_sub ba i) = Ret (2 ^ j, at_sub ba j).
Proof.
  induction n as [|n IH]; intros i Hi (x & Hx & Hd) Hn; [lia|]. cbn [skip_clean]. rewrite has_bit by done.
  destruct (Z.testbit d i) eqn:E.
  - exists i. split_and!; try done; lia.
  - rewrite next_bit, next_sub by lia. destruct (IH (i + 1)) as (j & H1 & H2 & H3 & H4); [lia| |lia|].
    + exists x. split; [|done]. destruct (decide (x = i)); [congruence|lia].
    + exists j. split_and!; [lia|lia|done| |done]. intros y Hy. destruct (decide (y = i)) as [->|]; [done|apply H3; lia].
Qed.

Lemma take_spec ba : forall n d i, 0 <= i -> 0 <= d -> (forall x, 16 <= x -> Z.testbit d x = false) -> 17 - i <= Z.of_nat n -> i <= 16 ->
  exists j d', i <= j <= 16 /\ (forall x, i <= x < j -> Z.testbit d x = true) /\ Z.testbit d j = false /\
    (forall x, 0 <= x -> Z.testbit d' x = Z.testbit d x && negb ((i <=? x) && (x <? j))) /\ 0 <= d' <= d /\
    take_dirty p n d (2 ^ i) (at_sub ba i) = Ret (d', 2 ^ j, at_sub ba j).
Proof.
  induction n as [|n IH]; intros d i Hi Hd0 Hd Hn Hi16; [lia|]. cbn [take_dirty]. rewrite has_bit by done.
  destruct (Z.testbit d i) eqn:E.
  - assert (i < 16) by (apply Z.nle_gt; intros Hle; rewrite (Hd i Hle) in E; done).
    assert (Hb : forall x, 0 <= x -> Z.testbit (Z.ldiff d (2 ^ i)) x = Z.testbit d x && negb (x =? i)).
    { intros x Hx. rewrite Z.ldiff_spec. destruct (Z.eqb_spec x i) as [->|Hne]; [by rewrite Z.pow2_bits_true|by rewrite Z.pow2_bits_false]. }
    rewrite next_bit, next_sub by lia. destruct (IH (Z.ldiff d (2 ^ i)) (i + 1)) as (j & d' & H1 & H2 & H3 & H4 & H5 & H6); [lia|apply Z.ldiff_nonneg; lia| |lia|lia|].
    + intros x Hx. rewrite Hb, Hd by lia. done.
    + exists j, d'. rewrite H6. split_and!; [lia|lia| | | |lia| |done].
      * intros x Hx. destruct (decide (x = i)) as [->|]; [done|]. assert (Hx' := H2 x ltac:(lia)). rewrite Hb in Hx' by lia. by apply andb_true_iff in Hx' as [Hx' _].
      * rewrite Hb in H3 by lia. destruct (Z.eqb_spec j i) as [->|]; [lia|]. by rewrite andb_true_r in H3.
      * intros x Hx. rewrite H4, Hb by lia. rewrite <- andb_assoc. f_equal. lia.
      * assert (E' : d - 2 ^ i = Z.ldiff d (2 ^ i)); [|pose proof (Z.pow_pos_nonneg 2 i ltac:(lia) Hi); lia].
        apply Z.sub_nocarry_ldiff, Z.bits_inj'. intros x Hx. rewrite Z.ldiff_spec, Z.bits_0.
        destruct (decide (x = i)) as [->|Hne]; [by rewrite E, andb_false_r|by rewrite Z.pow2_bits_false].
  - exists i, d. split_and!; try done; try lia. intros x Hx. assert (Hno : (i <=? x) && (x <? i) = false) by lia. by rewrite Hno, andb_true_r.
Qed.

(** The subblocks a write covers, counted from the start of the block *)
Definition covers (ba : Z) (m : d4memref) : list Z := seqZ (u32 (address m - ba) / S) (size m / S).
Definition write_ok (m : d4memref) : Prop := ref_ok m /\ accesstype m = D4XWRITE.
Definition bits (d i : Z) : list Z := filter (fun x => Z.testbit d x = true) (seqZ i (16 - i)).

Lemma filter_all (P : Z -> Prop) `{!forall x, Decision (P x)} (l : list Z) : (forall x, x ∈ l -> P x) -> filter P l = l.
Proof.
  induction l as [|x l IH]; intros Hp; [done|]. rewrite filter_cons_True by (apply Hp; by left). f_equal. apply IH. intros. apply Hp. by right.
Qed.
Lemma filter_none (P : Z -> Prop) `{!forall x, Decision (P x)} (l : list Z) : (forall x, x ∈ l -> ~ P x) -> filter P l = [].
Proof.
  induction l as [|x l IH]; intros Hp; [done|]. rewrite filter_cons_False by (apply Hp; by left). apply IH. intros. apply Hp. by right.
Qed.

Lemma bits_split d i j : i <= j <= 16 ->
  bits d i = filter (fun x => Z.testbit d x = true) (seqZ i (j - i)) ++ bits d j.
Proof.
  intros Hj. unfold bits. replace (16 - i) with ((j - i) + (16 - j)) by lia. rewrite seqZ_app by lia. rewrite filter_app.
  by replace (i + (j - i)) with j by lia.
Qed.

Lemma bits_none d i j : i <= j <= 16 -> (forall x, i <= x < j -> Z.testbit d x = false) -> bits d i = bits d j.
Proof.
  intros Hj Hx. rewrite (bits_split d i j) by done. rewrite filter_none; [done|].
  intros x Hin%elem_of_seqZ. by rewrite Hx by lia.
Qed.

Lemma bits_all d i j : i <= j <= 16 -> (forall x, i <= x < j -> Z.testbit d x = true) -> bits d i = seqZ i (j - i) ++ bits d j.
Proof.
  intros Hj Hx. rewrite (bits_split d i j) by done. f_equal. apply filter_all.
  intros x Hin%elem_of_seqZ. apply Hx. lia.
Qed.

Lemma bits_ext d d' i : (forall x, i <= x -> Z.testbit d' x = Z.testbit d x) -> bits d' i = bits d i.
Proof. intros Hx. apply filter_ext_in. intros x Hin%elem_of_seqZ. by rewrite Hx by lia. Qed.

Lemma at_sub_diff ba i j : 0 <= i <= j -> j <= 16 -> u32 (at_sub ba j - at_sub ba i) = (j - i) * S.
Proof.
  intros Hi Hj. destruct geo_pow as (HS & HN & HB & HB'). unfold at_sub. 
  transitivity (u32 ((j - i) * S)).
  - unfold u32, wrap. rewrite Zminus_mod_idemp_l, Zminus_mod_idemp_r. f_equal. ring.
  - apply u32_small. split; [nia|]. assert (S <= B) by nia. nia.
Qed.

Lemma wb_request ba i j : 0 <= i < j -> j <= 16 -> 0 <= ba < 2 ^ 32 -> (j - i) * S < 2 ^ 16 ->
  let m := mk_ref (at_sub ba i) D4XWRITE (u16 (u32 (at_sub ba j - at_sub ba i))) in
  write_ok m /\ covers ba m = seqZ i (j - i).
Proof.
  intros Hi Hj Hba Hz. destruct geo_pow as (HS & HN & HB & HB'). cbn zeta. rewrite at_sub_diff, u16_small by nia.
  unfold write_ok, ref_ok, covers. cbn [address size accesstype]. split_and!; try done.
  - apply u32_range.
  - apply u32_range.
  - nia.
  - assert (E : u32 (at_sub ba i - ba) = i * S).
    { unfold at_sub. transitivity (u32 (i * S)).
      - unfold u32, wrap. rewrite Zminus_mod_idemp_l. f_equal. ring.
      - apply u32_small. nia. }
    by rewrite E, !Z.div_mul by lia.
Qed.

Lemma wb_loop_spec ba : 0 <= ba < 2 ^ 32 -> forall n d i newm,
  0 <= i -> (forall x, 16 <= x -> Z.testbit d x = false) -> (forall x, 0 <= x < i -> Z.testbit d x = false) -> 0 < d < 2 ^ N ->
  17 - i <= Z.of_nat n ->
  exists l, wb_loop p n d (2 ^ i) (at_sub ba i) newm = Ret (l ++ newm) /\ concat (covers ba <$> rev l) = bits d i /\
    Forall write_ok l /\ (length l <= n)%nat.
Proof.
  intros Hba. destruct geo_pow as (HS & HN & HB & HB'). induction n as [|n IH]; intros d i newm Hi Hhi Hlo Hd Hn.
  { exfalso. assert (d = 0); [|lia]. apply Z.bits_inj'. intros x Hx. rewrite Z.bits_0. destruct (decide (x < 16)); [apply Hlo; lia|apply Hhi; lia]. }
  cbn [wb_loop]. destruct (skip_spec d ba 33 i) as (j & H1 & H2 & H3 & ->); [lia| |lia|].
  { pose proof (Z.bit_log2 d ltac:(lia)) as Hb. exists (Z.log2 d). split; [|done]. split.
    - apply Z.nlt_ge. intros Hlt. rewrite Hlo in Hb; [done|]. pose proof (Z.log2_nonneg d). lia.
    - apply Z.nle_gt. intros Hle. by rewrite Hhi in Hb. }
  cbn [mbind run_bind]. destruct (take_spec ba 33 d j) as (j' & d' & K1 & K2 & K3 & K4 & K5 & ->); [lia|lia|done|lia|lia|]. cbn [mbind run_bind].
  assert (Hjj : j < j') by (destruct (decide (j = j')) as [->|]; [congruence|lia]).
  assert (Hsize : (j' - j) * S < 2 ^ 16).
  { assert (j' <= N); [|nia]. apply Z.nlt_ge. intros Hlt. assert (Hb : Z.testbit d (j' - 1) = true) by (apply K2; lia).
    rewrite Z.bits_above_log2 in Hb; [done|lia|]. apply Z.log2_lt_pow2; [lia|]. apply Z.lt_le_trans with (2 ^ N); [lia|]. apply Z.pow_le_mono_r; lia. }
  destruct (wb_request ba j j') as [Hok Hcov]; [lia|lia|done|done|]. set (m := mk_ref _ _ _) in *.
  assert (Hbits : bits d i = seqZ j (j' - j) ++ bits d' j').
  { rewrite (bits_none d i j), (bits_all d j j') by (done || lia). f_equal. symmetry. apply bits_ext. intros x Hx. rewrite K4 by lia.
    assert (Hno : (j <=? x) && (x <? j') = false) by lia. by rewrite Hno, andb_true_r. }
  assert (Hd' : forall x, 0 <= x < j' -> Z.testbit d' x = false).
  { intros x Hx. rewrite K4 by lia. destruct (decide (x < j)).
    - destruct (decide (x < i)); [by rewrite Hlo by lia|by rewrite H3 by lia].
    - assert (Hyes : (j <=? x) && (x <? j') = true) by lia. by rewrite Hyes, andb_false_r. }
  destruct (Z.eqb_spec d' 0) as [->|Hne].
  - exists [m]. split; [done|]. split; [|split; [by constructor|cbn; lia]]. cbn. rewrite Hcov, Hbits, app_nil_r.
    unfold bits. rewrite filter_none; [by rewrite app_nil_r|]. intros x _. by rewrite Z.bits_0.
  - destruct (IH d' j' (m :: newm)) as (l & -> & C1 & C2 & C3); [lia| |done|lia|lia|].
    { intros x Hx. rewrite K4 by lia. by rewrite Hhi. }
    exists (l ++ [m]). split; [by rewrite <- app_assoc|]. rewrite rev_app_distr. cbn [rev app fmap list_fmap concat].
    rewrite Hcov, C1, Hbits. split; [done|]. split; [apply Forall_app; by split; [|constructor]|]. rewrite length_app. cbn. lia.
Qed.

Lemma wbblock_spec b : 0 <= blockaddr b < 2 ^ 32 -> 0 <= valid b < 2 ^ N -> 0 <= dirty b -> Z.land (valid b) (dirty b) <> 0 ->
  exists l, d4_wbblock p b = Ret l /\ concat (covers (blockaddr b) <$> rev l) = bits (Z.land (valid b) (dirty b)) 0 /\
    Forall write_ok l /\ (length l <= 33)%nat.
Proof.
  intros Ha Hv Hd Hne. destruct geo_pow as (HS & HN & HB & HB'). unfold d4_wbblock. set (d := Z.land (valid b) (dirty b)) in *.
  assert (H0 : 0 <= d) by (apply Z.land_nonneg; lia).
  assert (Hbits : forall x, N <= x -> Z.testbit (valid b) x = false).
  { intros x Hx. destruct (decide (valid b = 0)) as [->|]; [apply Z.bits_0|]. apply Z.bits_above_log2; [lia|].
    apply Z.lt_le_trans with N; [|done]. apply (Z.log2_lt_pow2 (valid b) N); [lia|apply Hv]. }
  assert (Hdpos : 0 < d) by lia.
  assert (HdN : d < 2 ^ N).
  { apply (Z.log2_lt_pow2 d N); [lia|]. apply Z.nle_gt. intros Hle. pose proof (Z.bit_log2 d ltac:(lia)) as Hb. unfold d in Hb at 1.
    by rewrite Z.land_spec, Hbits in Hb. }
  assert (E : at_sub (blockaddr b) 0 = blockaddr b) by (unfold at_sub; rewrite u32_small; lia).
  destruct (wb_loop_spec (blockaddr b) Ha 33 d 0 []) as (l & H1 & H2 & H3 & H4); [lia| |lia|lia|lia|].
  - intros x Hx. unfold d. rewrite Z.land_spec, Hbits by lia. done.
  - rewrite app_nil_r, E in H1. by exists l.
Qed.
End Geometry.

(** ** Lists of blocks *)

Abbreviation addresses := (fmap blockaddr : list block -> list Z).

Lemma block_at_in ba l : ba ∈ addresses l -> block_at ba l ∈ l /\ blockaddr (block_at ba l) = ba.
Proof.
  induction l as [|b l IH]; cbn; [by intros H%not_elem_of_nil|]. rewrite elem_of_cons. destruct (Z.eqb_spec (blockaddr b) ba) as [E|E].
  - intros _. split; [by left|done].
  - intros [H|H]; [congruence|]. apply IH in H as [H1 H2]. split; [by right|done].
Qed.

Lemma change_addresses ba b l : blockaddr b = ba -> addresses (change_at ba b l) = addresses l.
Proof.
  intros Hb. unfold change_at. rewrite <- list_fmap_compose. apply list_fmap_ext. intros i x _. cbn.
  destruct (Z.eqb_spec (blockaddr x) ba); congruence.
Qed.

Lemma change_none ba b l : ba ∉ addresses l -> change_at ba b l = l.
Proof.
  induction l as [|x l IH]; intros Hn; [done|]. cbn in Hn |- *. rewrite elem_of_cons in Hn.
  destruct (Z.eqb_spec (blockaddr x) ba); [naive_solver|]. f_equal. apply IH. tauto.
Qed.

Lemma change_Forall (P : block -> Prop) ba b l : Forall P l -> P b -> Forall P (change_at ba b l).
Proof.
  intros Hl Hb. apply Forall_fmap. apply (Forall_impl _ _ _ Hl). intros x Hx. cbn. by destruct (_ =? _).
Qed.

Lemma change_length ba b l : length (change_at ba b l) = length l.
Proof. apply length_fmap. Qed.

Lemma without_addresses ba l : addresses (without ba l) = filter (fun a => a <> ba) (addresses l).
Proof.
  induction l as [|b l IH]; [done|]. unfold without in *. rewrite fmap_cons. destruct (decide (blockaddr b = ba)) as [E|E].
  - rewrite filter_cons_False by (by intros H). rewrite filter_cons_False by (by intros H). done.
  - rewrite !filter_cons_True by done. by rewrite fmap_cons, IH.
Qed.

Lemma without_none ba l : ba ∉ addresses l -> without ba l = l.
Proof.
  induction l as [|x l IH]; intros Hn; [done|]. rewrite fmap_cons, elem_of_cons in Hn. unfold without in *.
  rewrite filter_cons_True by (intros H; apply Hn; by left). f_equal. apply IH. tauto.
Qed.

Lemma front_perm ba l : NoDup (addresses l) -> ba ∈ addresses l -> block_at ba l :: without ba l ≡ₚ l.
Proof.
  induction l as [|b l IH]; [by intros _ H%not_elem_of_nil|]. rewrite fmap_cons. intros [Hb Hnd]%NoDup_cons Hin. cbn [block_at].
  destruct (Z.eqb_spec (blockaddr b) ba) as [E|E].
  - constructor. unfold without. rewrite filter_cons_False by (by intros H). fold (without ba l). rewrite without_none; [done|]. by subst ba.
  - apply elem_of_cons in Hin as [|Hin]; [congruence|]. unfold without in *. rewrite filter_cons_True by done.
    rewrite Permutation_swap. constructor. by apply IH.
Qed.

Lemma to_end_perm i l : to_end i l ≡ₚ l.
Proof.
  unfold to_end. destruct (l !! i) as [b|] eqn:E; [|done]. rewrite (delete_take_drop l i).
  rewrite <- (take_drop_middle l i b E) at 3. rewrite <- Permutation_cons_append. apply Permutation_middle.
Qed.

(** *** The property *)

(** C39: A dirty victim is written back exactly.  [d4_wbblock] makes write requests that
    together cover each subblock that is valid and dirty once, in ascending order, and no other; every
    request is a write of at least one byte within 16 bits. *)
Theorem write_back_exact p b : geometry p -> 0 <= blockaddr b < 2 ^ 32 -> 0 <= valid b < 2 ^ 2 ^ (lg2blocksize p - lg2subblocksize p) ->
  0 <= dirty b -> has (valid b) (dirty b) = true ->
  exists l, d4_wbblock p b = Ret l /\ concat (covers p (blockaddr b) <$> rev l) = bits (Z.land (valid b) (dirty b)) 0 /\ Forall write_ok l.
Proof.
  intros G Ha Hv Hd Hne. unfold has in Hne. apply negb_true_iff, Z.eqb_neq in Hne.
  destruct (wbblock_spec p G b Ha Hv Hd Hne) as (l & H1 & H2 & H3 & _). by exists l.
Qed.

(** *** Witness *)

(** Four subblocks of 4 bytes, the first and the last two of them dirty: two writes *)
Definition sub_cache : d4cache := mk_cache (Some 0%nat) (2, 0) 0 4 2 5 2 Lru Demand Never AlwaysW 4 0.
Theorem write_back_exact_witness :
  exists l, d4_wbblock sub_cache (mk_block 64 15 0 13) = Ret l /\ concat (covers sub_cache 64 <$> rev l) = [0; 2; 3] /\ Forall write_ok l.
Proof.
  destruct (write_back_exact sub_cache (mk_block 64 15 0 13)) as (l & H1 & H2 & H3);
    [split; cbn; lia|cbn; lia|vm_compute; split; discriminate || reflexivity|cbn; lia|vm_compute; reflexivity|].
  exists l. split; [exact H1|]. split; [exact (eq_trans H2 ltac:(vm_compute; reflexivity))|exact H3].
Defined.
