(* ===== verification/DineroRun.v ===== *)
(** * Every reference to the cache simulator ends

    Over the specification of [DineroSpec]: what one reference does to its own
    cache ([cache_step]), which requests it makes, and that working off the requests,
    with the references they cause in larger caches, comes to an end ([all_ends]). *)
From S2P Require Import Prelude VpmuInit Dinero DineroSpec.

Section Run.
Context `{RandomStream} (h : list d4cache).
#[local] Abbreviation state := (@d4state sets).
#[local] Abbreviation par := (par h).

Definition is_mem (c : nat) : bool := has (flags (par c)) D4F_MEM.
(** A cache whose policies serve writes *)
Definition writable (c : nat) : bool :=
  negb (has (flags (par c)) D4F_RO) &&
  match wallocf (par c) with Impossible => false | _ => true end && match wbackf (par c) with Impossible => false | _ => true end.

(** What [VPMU_cache_init] builds from a usable configuration: every cache has a
    larger one made before it, and writes only go where they are served. *)
Record tree : Prop := {
  t_geometry : forall c, (c < length h)%nat -> is_mem c = false -> geometry (par c);
  t_down : forall c, (c < length h)%nat -> is_mem c = false ->
    exists l, downstream (par c) = Some l /\ (l < c)%nat /\ (writable c = true -> is_mem l = true \/ writable l = true) }.

(** *** Requests *)

Definition basic (t : Z) : Prop := t = D4XREAD \/ t = D4XWRITE \/ t = D4XINSTRN \/ t = D4XMISC.
Definition plain (c : nat) (m : d4memref) : Prop :=
  ref_ok m /\ basic (accesstype m) /\ (accesstype m = D4XWRITE -> writable c = true).
Definition prefetching (c : nat) (m : d4memref) : Prop :=
  inside (par c) m /\ exists t, basic t /\ t <> D4XWRITE /\ accesstype m = Z.lor t D4PREFETCH.
Definition rest_of (c : nat) (m : d4memref) : Prop :=
  exists t, plain c (mk_ref (address m) t (size m)) /\ accesstype m = Z.lor t D4_MULTIBLOCK.
Definition pend_ok (c : nat) (m : d4memref) : Prop := plain c m \/ prefetching c m \/ rest_of c m.

(** *** Invariant *)

Record block_ok (c : nat) (b : block) : Prop := {
  b_addr : 0 <= blockaddr b < 2 ^ 32;
  b_valid : 0 < valid b < 2 ^ 2 ^ (lg2blocksize (par c) - lg2subblocksize (par c));
  b_dirty : 0 <= dirty b;
  b_clean : writable c = false -> dirty b = 0 }.
Record set_ok (c : nat) (n : Z) (l : list block) : Prop := {
  s_room : Z.of_nat (length l) < n;
  s_addr : NoDup (addresses l);
  s_blocks : Forall (block_ok c) l }.

Record good (a : state) : Prop := {
  a_length : length (cdata a) = length h;
  a_sets : forall c, (c < length h)%nat -> is_mem c = false -> 0 < numsets (data_of c a) /\
    forall k, 0 <= k < numsets (data_of c a) -> 1 < ways_of c k (blocks a) /\ set_ok c (ways_of c k (blocks a)) (set_of c k (blocks a));
  a_pending : forall c, (c < length h)%nat -> Forall (pend_ok c) (pending (data_of c a)) }.

(** Only cache [c] changes. *)
Record only (c : nat) (a a' : state) : Prop := {
  o_length : length (cdata a') = length (cdata a);
  o_data : forall x, x <> c -> data_of x a' = data_of x a;
  o_sets : forall x k, x <> c -> set_of x k (blocks a') = set_of x k (blocks a);
  o_ways : ways (blocks a') = ways (blocks a) }.

#[export] Instance only_refl c : Reflexive (only c).
Proof. by split. Qed.
#[export] Instance only_trans c : Transitive (only c).
Proof.
  intros a b d [] []. split.
  - congruence.
  - intros x Hx. rewrite o_data1 by done. by apply o_data0.
  - intros x k Hx. rewrite o_sets1 by done. by apply o_sets0.
  - congruence.
Qed.

Lemma data_on_eq c f (a : state) : (c < length (cdata a))%nat -> data_of c (on_data c f a) = f (data_of c a).
Proof.
  intros Hc. unfold data_of, on_data. cbn [cdata]. rewrite list_lookup_alter_eq.
  destruct (lookup_lt_is_Some_2 _ _ Hc) as [d ->]. done.
Qed.
Lemma data_on_ne c x f (a : state) : x <> c -> data_of x (on_data c f a) = data_of x a.
Proof. intros Hx. unfold data_of, on_data. cbn [cdata]. by rewrite list_lookup_alter_ne. Qed.

Lemma only_on_data c f (a : state) : only c a (on_data c f a).
Proof. split; [apply length_alter|intros; by apply data_on_ne|done|done]. Qed.

Lemma set_with_eq c k l t : set_of c k (with_set c k l t) = l.
Proof. unfold set_of, with_set. cbn. by rewrite lookup_insert_eq. Qed.
Lemma set_with_ne c k l t c' k' : (c', k') <> (c, k) -> set_of c' k' (with_set c k l t) = set_of c' k' t.
Proof. intros. unfold set_of, with_set. cbn. by rewrite lookup_insert_ne. Qed.

Lemma only_with_set c k l (a : state) : only c a (with_blocks (with_set c k l (blocks a)) a).
Proof. split; try done. intros x k' Hx. apply set_with_ne. congruence. Qed.

Lemma with_pending_id d : with_pending ([] ++ pending d) d = d.
Proof. by destruct d. Qed.

(** *** The access itself *)

Lemma lor_range x y n : 0 <= n -> 0 <= x < 2 ^ n -> 0 < y < 2 ^ n -> 0 < Z.lor x y < 2 ^ n.
Proof.
  intros Hn Hx Hy. assert (Hpos : 0 < Z.lor x y).
  { assert (0 <= Z.lor x y) by (apply Z.lor_nonneg; lia). assert (Z.lor x y <> 0); [|lia]. rewrite Z.lor_eq_0_iff. lia. }
  split; [done|]. apply (Z.log2_lt_pow2 _ n); [done|]. rewrite Z.log2_lor by lia. apply Z.max_lub_lt.
  - destruct (decide (x = 0)) as [->|]; [|apply (Z.log2_lt_pow2 _ n); lia].
    destruct (decide (n = 0)) as [->|]; [cbn in Hy; lia|cbn; lia].
  - apply (Z.log2_lt_pow2 _ n); lia.
Qed.

Definition new_block (c : nat) (m : d4memref) (is_blockmiss wback : bool) (b : block) : block :=
  let blk := touch m (D4ADDR2SBMASK (par c) m) is_blockmiss b in
  if wback then with_dirty (Z.lor (dirty blk) (D4ADDR2SBMASK (par c) m)) blk else blk.

Lemma new_block_ok c m is_blockmiss wback b :
  geometry (par c) -> inside (par c) m -> 0 <= blockaddr b < 2 ^ 32 ->
  0 <= valid b < 2 ^ 2 ^ (lg2blocksize (par c) - lg2subblocksize (par c)) -> 0 <= dirty b ->
  (writable c = false -> wback = false /\ dirty b = 0) -> block_ok c (new_block c m is_blockmiss wback b).
Proof.
  intros G Hm Ha Hv Hd Hw. pose proof (sbmask_range (par c) G m Hm) as Hs. set (sb := D4ADDR2SBMASK (par c) m) in *.
  assert (Hn : 0 <= 2 ^ (lg2blocksize (par c) - lg2subblocksize (par c))) by (apply Z.pow_nonneg; lia).
  pose proof (lor_range (valid b) sb _ Hn Hv Hs) as Hl. assert (0 <= Z.lor (dirty b) sb) by (apply Z.lor_nonneg; lia).
  assert (Hsb : 0 <= Z.lor 0 sb) by (apply Z.lor_nonneg; lia).
  unfold new_block, touch. fold sb. split; destruct is_blockmiss, wback; cbn [with_dirty blockaddr valid referenced dirty]; try done;
    intros Hwr; destruct (Hw Hwr) as [? ?]; done.
Qed.

Lemma new_block_addr c m x w b : blockaddr (new_block c m x w b) = blockaddr b.
Proof. unfold new_block, touch. by destruct x, w. Qed.

(** The write policy, where writes are served *)
Definition is_write (m : d4memref) : bool := D4BASIC_ATYPE (accesstype m) =? D4XWRITE.

Lemma wback_total c m v : (is_write m = true -> writable c = true) ->
  exists wback, (if is_write m then call_wbackf (par c) m v else Ret false) = Ret wback /\ (writable c = false -> wback = false).
Proof.
  intros Hw. unfold is_write in *. destruct (_ =? _); [|by exists false]. specialize (Hw eq_refl). rewrite Hw. unfold writable in Hw.
  unfold call_wbackf. destruct (wbackf (par c)); try (by eexists). by rewrite andb_false_r in Hw.
Qed.

Lemma walloc_total c m : (is_write m = true -> writable c = true) ->
  exists walloc, (if is_write m then call_wallocf (par c) m else Ret false) = Ret walloc.
Proof.
  intros Hw. unfold is_write in *. destruct (_ =? _); [|by exists false]. specialize (Hw eq_refl). unfold writable in Hw.
  unfold call_wallocf. destruct (wallocf (par c)); try (by eexists). by rewrite andb_false_r in Hw.
Qed.

(** The set [k] of [c] is [l], the others are as in [t]. *)
Record sets_upd (c : nat) (k : Z) (l : list block) (t t' : sets) : Prop := {
  u_set : set_of c k t' = l;
  u_others : forall ck, ck <> (c, k) -> set_of ck.1 ck.2 t' = set_of ck.1 ck.2 t;
  u_ways : ways t' = ways t }.

Lemma sets_upd_with c k l l0 t t' : sets_upd c k l0 t t' -> sets_upd c k l t (with_set c k l t').
Proof.
  intros [H1 H2 H3]. split; [apply set_with_eq| |done]. intros [c' k'] Hne. cbn. rewrite set_with_ne by done. by apply (H2 (c', k')).
Qed.
Lemma sets_upd_refl c k t : sets_upd c k (set_of c k t) t t.
Proof. by split. Qed.

(** The order of the addresses after a hit *)
Definition hit_order (pol : replacement) (ba : Z) (l : list Z) : list Z :=
  match pol with Lru => ba :: filter (fun a => a <> ba) l | _ => l end.

Lemma update_hit c k ba m n (a : state) : let l := set_of c k (blocks a) in
  geometry (par c) -> inside (par c) m -> (is_write m = true -> writable c = true) -> set_ok c n l -> ba ∈ addresses l ->
  exists wback t' l', update h c k ba m (Some (c, k, ba)) a = Ret (wback, with_blocks t' a) /\
    sets_upd c k l' (blocks a) t' /\ set_ok c n l' /\ addresses l' = hit_order (replacementf (par c)) ba (addresses l).
Proof.
  intros l G Hm Hw [Hr Hnd Hb] Hin. destruct (block_at_in ba l Hin) as [Hbin Hba].
  unfold update. cbn [replace_block list_blocks is_Some]. cbn [mbind run_bind].
  set (t1 := match replacementf (par c) with Lru => _ | _ => _ end).
  assert (H1 : exists l1, sets_upd c k l1 (blocks a) t1 /\ l1 ≡ₚ l /\ block_at ba l1 = block_at ba l /\
    addresses l1 = hit_order (replacementf (par c)) ba (addresses l)).
  { unfold t1. fold l. destruct (replacementf (par c)); [|exists l; split; [apply sets_upd_refl|done]..].
    exists (block_at ba l :: without ba l). split; [eapply sets_upd_with, sets_upd_refl|]. split; [by apply front_perm|]. cbn [block_at].
    rewrite Hba, Z.eqb_refl. split; [done|]. cbn [hit_order]. rewrite fmap_cons, without_addresses. by rewrite Hba. }
  destruct H1 as (l1 & Hu & Hp & Hat & Had). rewrite andb_false_l. cbn [the_block list_blocks put_block]. rewrite (u_set _ _ _ _ _ Hu), Hat.
  fold (is_write m). destruct (wback_total c m (valid (touch m (D4ADDR2SBMASK (par c) m) false (block_at ba l))) Hw) as (wback & -> & Hwb).
  cbn [mbind run_bind]. exists wback. fold (new_block c m false wback (block_at ba l)).
  eexists _, (change_at ba (new_block c m false wback (block_at ba l)) l1). split; [reflexivity|].
  pose proof (proj1 (Forall_forall _ _) Hb _ Hbin) as [B1 B2 B3 B4].
  split; [eapply sets_upd_with; exact Hu|]. split; [|rewrite change_addresses; [done|by rewrite new_block_addr]].
  split.
  - by rewrite change_length, Hp.
  - rewrite change_addresses by (by rewrite new_block_addr). by rewrite Hp.
  - apply change_Forall; [by rewrite Hp|]. apply new_block_ok; try done; [lia|]. intros Hx. split; auto.
Qed.

Lemma to_end_cons i x (l : list block) : to_end (S i) (x :: l) = x :: to_end i l.
Proof. unfold to_end. cbn. by destruct (l !! i). Qed.

(** A miss: the new block in front, the others in the order of the policy *)
Lemma replace_miss c k ba (a : state) : let l := set_of c k (blocks a) in let n := ways_of c k (blocks a) in
  1 < n -> exists r t1 rnd1, replace_block (replacementf (par c)) c k ba None (blocks a) (rnd a) = Ret ((c, k, ba), t1, rnd1) /\
    sets_upd c k (mk_block ba 0 0 0 :: r) (blocks a) t1 /\ r ≡ₚ l /\ (replacementf (par c) <> Random -> r = l).
Proof.
  intros l n Hn. cbn [replace_block list_blocks]. fold l n. destruct (replacementf (par c)).
  1,2: exists l; eexists _, _; split; [reflexivity|]; split; [eapply sets_upd_with, sets_upd_refl|done].
  destruct (_ =? _).
  - assert (Hi : exists i, Z.to_nat (1 + random (rnd a) mod (n - 1)) = S i).
    { pose proof (Z.mod_pos_bound (random (rnd a)) (n - 1) ltac:(lia)). exists (Z.to_nat (random (rnd a) mod (n - 1))). lia. }
    destruct Hi as [i ->]. rewrite to_end_cons. exists (to_end i l). eexists _, _. split; [reflexivity|].
    split; [eapply sets_upd_with, sets_upd_refl|]. split; [apply to_end_perm|done].
  - exists l. eexists _, _. split; [reflexivity|]. split; [eapply sets_upd_with, sets_upd_refl|done].
Qed.

Lemma on_pending_eq c newm (a : state) : (c < length (cdata a))%nat ->
  data_of c (on_data c (fun d => with_pending (newm ++ pending d) d) a) = with_pending (newm ++ pending (data_of c a)) (data_of c a).
Proof. intros Hc. by rewrite data_on_eq. Qed.

(** The order of the addresses after a miss, but for the random policy *)
Definition miss_order (pol : replacement) (n ba : Z) (l l' : list Z) : Prop :=
  pol <> Random -> l' = take (Z.to_nat (n - 1)) (ba :: l).

Lemma removelast_take {A} (l : list A) : removelast l = take (length l - 1) l.
Proof.
  induction l as [|x l IH]; [done|]. destruct l as [|y l]; [done|]. cbn [removelast length] in *. rewrite IH.
  replace (S (S (length l)) - 1)%nat with (S (S (length l) - 1)) by lia. done.
Qed.

Lemma evict_spec c k n b r (t : sets) : set_of c k t = b :: r -> ways_of c k t = n -> 1 < n -> Z.of_nat (length (b :: r)) <= n ->
  exists victim t' l', evict_block c k t = Ret (victim, t') /\ sets_upd c k l' t t' /\
    l' = take (Z.to_nat (n - 1)) (b :: r) /\ match victim with Some v => v ∈ r | None => True end.
Proof.
  intros Hl Hn H1 Hlen. cbn [evict_block list_blocks]. rewrite Hl, Hn. destruct (Z.eqb_spec (Z.of_nat (length (b :: r))) n) as [E|E].
  - eexists _, _, (removelast (b :: r)). split; [reflexivity|]. split; [eapply sets_upd_with, sets_upd_refl|]. split.
    + rewrite removelast_take. f_equal. lia.
    + destruct r as [|x r]; [cbn in E; lia|]. destruct (last (b :: x :: r)) as [v|] eqn:Ev; [|done].
      cbn in Ev. apply last_Some_elem_of in Ev. done.
  - exists None, t, (b :: r). split; [done|]. split; [rewrite <- Hl; apply sets_upd_refl|]. split; [|done].
    rewrite take_ge; [done|]. lia.
Qed.

Lemma sets_upd_trans c k l0 l t0 t1 t2 : sets_upd c k l0 t0 t1 -> sets_upd c k l t1 t2 -> sets_upd c k l t0 t2.
Proof. intros [] []. split; [done| |congruence]. intros ck Hne. by rewrite u_others1, u_others0. Qed.

Lemma sets_upd_only c k l (a : state) t r :
  sets_upd c k l (blocks a) t -> only c a (mk_d4 t (cdata a) r).
Proof. intros []. split; try done. intros x k' Hx. apply (u_others0 (x, k')). congruence. Qed.

(** Writing back a victim *)
Lemma wb_victim c v : geometry (par c) -> block_ok c v ->
  exists newm, (if has (valid v) (dirty v) then d4_wbblock (par c) v else Ret []) = Ret newm /\
    Forall write_ok newm /\ (newm <> [] -> writable c = true) /\ (length newm <= 33)%nat.
Proof.
  intros G [Ha Hv Hd Hc]. destruct (has (valid v) (dirty v)) eqn:E.
  - unfold has in E. apply negb_true_iff, Z.eqb_neq in E. destruct (wbblock_spec (par c) G v) as (newm & H1 & _ & H3 & H4); [done|lia|done|done|].
    exists newm. split_and!; try done. intros _. destruct (writable c); [done|]. rewrite Hc, Z.land_0_r in E by done. done.
  - exists []. cbn. split_and!; [done|by constructor|done|lia].
Qed.

Lemma update_miss c k ba m (a : state) : let l := set_of c k (blocks a) in let n := ways_of c k (blocks a) in
  (c < length (cdata a))%nat -> geometry (par c) -> inside (par c) m -> 0 <= ba < 2 ^ 32 -> (is_write m = true -> writable c = true) ->
  1 < n -> set_ok c n l -> ba ∉ addresses l ->
  exists wback a' newm l', update h c k ba m None a = Ret (wback, a') /\ only c a a' /\
    data_of c a' = with_pending (newm ++ pending (data_of c a)) (data_of c a) /\
    Forall write_ok newm /\ (newm <> [] -> writable c = true) /\ (length newm <= 33)%nat /\
    sets_upd c k l' (blocks a) (blocks a') /\ set_ok c n l' /\ miss_order (replacementf (par c)) n ba (addresses l) (addresses l').
Proof.
  intros l n Hc G Hm Hba Hw Hn [Hr Hnd Hb] Hnin. destruct (replace_miss c k ba a Hn) as (r & t1 & rnd1 & E1 & Hu1 & Hp & Hor). fold l in Hp, Hor.
  unfold update. cbn [is_Some]. rewrite E1. cbn [mbind run_bind the_block list_blocks]. rewrite (u_set _ _ _ _ _ Hu1). cbn [block_at blockaddr].
  rewrite Z.eqb_refl. set (b0 := mk_block ba 0 0 0) in *. cbn [valid b0 Z.eqb negb andb].
  fold (is_write m). destruct (wback_total c m (valid (touch m (D4ADDR2SBMASK (par c) m) true b0)) Hw) as (wback & -> & Hwb).
  cbn [mbind run_bind]. fold (new_block c m true wback b0). set (blk := new_block c m true wback b0).
  assert (Hnr : ba ∉ addresses r) by (by rewrite Hp).
  assert (Hblk : block_ok c blk).
  { apply new_block_ok; try done; [|intros Hx; auto]. split; [done|]. apply Z.pow_pos_nonneg; [lia|apply Z.pow_nonneg; lia]. }
  cbn [put_block list_blocks]. set (t2 := with_set c k (change_at ba blk (set_of c k t1)) t1).
  assert (Hput : sets_upd c k (blk :: r) (blocks a) t2).
  { unfold t2. rewrite (u_set _ _ _ _ _ Hu1). eapply sets_upd_trans; [exact Hu1|].
    replace (change_at ba blk (b0 :: r)) with (blk :: r); [apply (sets_upd_with c k (blk :: r) (set_of c k t1)), sets_upd_refl|].
    unfold change_at. rewrite fmap_cons. cbn [b0 blockaddr]. rewrite Z.eqb_refl. f_equal. symmetry. by apply (change_none ba blk r). }
  cbn [blocks with_blocks].
  assert (Hlen : length r = length l) by (by rewrite Hp).
  destruct (evict_spec c k n blk r t2) as (victim & t3 & l' & Ev & Hu3 & El' & Hv); [apply (u_set _ _ _ _ _ Hput)| |done|cbn [length]; lia|].
  { unfold ways_of. by rewrite (u_ways _ _ _ _ _ Hput). }
  assert (Hnd' : NoDup (addresses (blk :: r))).
  { rewrite fmap_cons. apply NoDup_cons. unfold blk at 1. rewrite new_block_addr. cbn [b0 blockaddr]. split; [done|by rewrite Hp]. }
  assert (Hset : set_ok c n l').
  { rewrite El'. split.
    - rewrite length_take. cbn [length]. lia.
    - rewrite fmap_take. eapply sublist_NoDup; [done|apply sublist_take].
    - apply Forall_take. constructor; [done|by rewrite Hp]. }
  pose proof (sets_upd_trans _ _ _ _ _ _ _ Hput Hu3) as Hu.
  assert (Hord : miss_order (replacementf (par c)) n ba (addresses l) (addresses l')).
  { intros Hne. rewrite El', fmap_take, fmap_cons. unfold blk. rewrite new_block_addr. by rewrite Hor. }
  rewrite Ev. cbn [mbind run_bind]. change (with_blocks t3 _) with (mk_d4 t3 (cdata a) rnd1). set (a3 := mk_d4 t3 (cdata a) rnd1).
  assert (Ho3 : only c a a3) by (apply (sets_upd_only c k l'); done). assert (Hd3 : data_of c a3 = data_of c a) by done.
  assert (Hnone : exists a' newm l', Ret (wback, a3) = Ret (wback, a') /\ only c a a' /\
    data_of c a' = with_pending (newm ++ pending (data_of c a)) (data_of c a) /\
    Forall write_ok newm /\ (newm <> [] -> writable c = true) /\ (length newm <= 33)%nat /\
    sets_upd c k l' (blocks a) (blocks a') /\ set_ok c n l' /\ miss_order (replacementf (par c)) n ba (addresses l) (addresses l')).
  { exists a3, [], l'. rewrite Hd3, with_pending_id. split_and!; try done; try (by constructor); cbn; lia. }
  destruct victim as [v|]; [|destruct Hnone as (? & ? & ? & ?); eauto 10].
  destruct (wb_victim c v G) as (newm & Ewb & W1 & W2 & W3).
  { assert (Forall (block_ok c) r) as Hrb by (by rewrite Hp). by apply (proj1 (Forall_forall _ _) Hrb). }
  destruct (has (valid v) (dirty v)); [|destruct Hnone as (? & ? & ? & ?); eauto 10].
  rewrite Ewb. cbn [mbind run_bind]. exists wback, (on_data c (fun d => with_pending (newm ++ pending d) d) a3), newm, l'. split_and!; try done.
  - etransitivity; [exact Ho3|apply only_on_data].
  - by rewrite on_pending_eq.
Qed.

(** *** Requests of one reference *)

(** References a cache is asked for: from the processor or a smaller cache, or its own prefetches *)
Definition enters (c : nat) (m : d4memref) : Prop := plain c m \/ prefetching c m.

Lemma basic_type t : basic t -> D4BASIC_ATYPE t = t /\ D4BASIC_ATYPE (Z.lor t D4PREFETCH) = t.
Proof. by intros [-> | [-> | [-> | ->]]]. Qed.

Lemma enters_type c m : enters c m -> exists t, basic t /\ D4BASIC_ATYPE (accesstype m) = t /\ (t = D4XWRITE -> writable c = true /\ accesstype m = D4XWRITE).
Proof.
  intros [(_ & Hb & Hw)|(_ & t & Hb & Hne & Ht)].
  - exists (accesstype m). split; [done|]. split; [by apply basic_type|]. auto.
  - exists t. split; [done|]. rewrite Ht. split; [by apply basic_type|done].
Qed.

Lemma enters_writes c m : enters c m -> is_write m = true -> writable c = true.
Proof. intros (t & _ & E & Hw)%enters_type Hi. unfold is_write in Hi. apply Z.eqb_eq in Hi. apply Hw. congruence. Qed.

(** The state after some requests were pushed *)
Definition pushed (c : nat) (l : list d4memref) (a a' : state) : Prop :=
  only c a a' /\ blocks a' = blocks a /\ data_of c a' = with_pending (l ++ pending (data_of c a)) (data_of c a).

Lemma pushed_nil c (a : state) : pushed c [] a a.
Proof. split_and!; [done|done|]. by rewrite with_pending_id. Qed.

Lemma pushed_push c m l (a a' : state) : (c < length (cdata a))%nat -> pushed c l a a' -> pushed c (m :: l) a (on_data c (push m) a').
Proof.
  intros Hc (Ho & Hb & Hd). split_and!; [etransitivity; [exact Ho|apply only_on_data]|done|].
  rewrite data_on_eq by (by rewrite (o_length _ _ _ Ho)). by rewrite Hd.
Qed.

Lemma pushed_rnd c l (a : state) b r : pushed c l (mk_d4 (blocks a) (cdata a) r) b -> pushed c l a b.
Proof. intros (Ho & Hb & Hd). split; [|done]. destruct Ho. by split. Qed.

Lemma prefetch_step c m is_miss ptr (a : state) :
  (c < length (cdata a))%nat -> geometry (par c) -> basic (D4BASIC_ATYPE (accesstype m)) ->
  exists pfs, pushed c pfs a (prefetch h c m is_miss ptr a) /\ Forall (prefetching c) pfs /\ (length pfs <= 1)%nat /\
    (Z.land (accesstype m) D4PREFETCH <> 0 \/ prefetchf (par c) = Demand -> pfs = []).
Proof.
  intros Hc G Hb. unfold prefetch. destruct (_ || _) eqn:E; [|by exists []; split_and!; [apply pushed_nil|constructor|cbn; lia|]].
  assert (Hno : ~ Z.land (accesstype m) D4PREFETCH <> 0).
  { apply orb_true_iff in E as [E|E]; apply Z.eqb_eq in E; rewrite E; by intros X. }
  destruct (call_prefetchf _ _ _ _) as [pf|] eqn:Ep; [|by exists []; split_and!; [apply pushed_nil|constructor|cbn; lia|]].
  assert (Hpf : prefetching c pf).
  { destruct (prefetch_spec (par c) G _ _ _ _ Ep) as [H1 H2]. split; [done|]. exists (accesstype m). split; [|split; [|done]].
    - apply orb_true_iff in E as [E|E]; apply Z.eqb_eq in E; rewrite E; unfold basic; tauto.
    - apply orb_true_iff in E as [E|E]; apply Z.eqb_eq in E; by rewrite E. }
  assert (Hde : prefetchf (par c) <> Demand) by (intros Ed; unfold call_prefetchf in Ep; by rewrite Ed in Ep).
  destruct (0 <? _); [destruct (_ <? _)|].
  - exists []. split_and!; [|constructor|cbn; lia|done]. apply (pushed_rnd c [] a _ (rnd a + 1)), pushed_nil.
  - exists [pf]. split_and!; [|by constructor|done|tauto]. apply (pushed_rnd c [pf] a _ (rnd a + 1)). apply pushed_push; [done|apply pushed_nil].
  - exists [pf]. split_and!; [|by constructor|done|tauto]. apply pushed_push; [done|apply pushed_nil].
Qed.

Lemma requests_step c m is_miss wback walloc (a : state) :
  (c < length (cdata a))%nat -> geometry (par c) -> inside (par c) m -> enters c m ->
  exists reqs, pushed c reqs a (downstream_requests h c m is_miss wback walloc a) /\ Forall (plain c) reqs /\ (length reqs <= 2)%nat.
Proof.
  intros Hc G Hm He. destruct (enters_type c m He) as (t & Hb & Ht & Hw). unfold downstream_requests. fold par. rewrite Ht.
  set (a1 := if _ && negb wback then _ else a).
  assert (H1 : exists r1, pushed c r1 a a1 /\ Forall (plain c) r1 /\ (length r1 <= 1)%nat).
  { unfold a1. destruct (Z.eqb_spec t D4XWRITE) as [->|Hne]; [destruct wback|]; cbn [andb negb].
    - exists []. split_and!; [apply pushed_nil|constructor|cbn; lia].
    - exists [m]. split_and!; [by apply pushed_push; [|apply pushed_nil]| |done]. constructor; [|done]. split; [apply Hm|].
      destruct (Hw eq_refl) as [? ->]. split; [unfold basic; tauto|done].
    - exists []. split_and!; [apply pushed_nil|constructor|cbn; lia]. }
  destruct H1 as (r1 & P1 & F1 & L1). destruct (is_miss && _); [|exists r1; split; [done|]; split; [done|lia]].
  eexists (_ :: r1). split_and!; [by apply pushed_push| |cbn; lia]. constructor; [|done].
  pose proof (refsize_range (par c) G m Hm) as Hr. destruct (geo_pow (par c) G) as (HS & HN & HB & HB').
  pose proof (proj1 Hm) as [Ha Hz]. split; [|split; cbn [accesstype]].
  - unfold ref_ok. cbn [address size]. fold par. rewrite subblock_eq by done. rewrite u16_small by lia. split; [|lia].
    pose proof (Z.mul_div_le (address m) (2 ^ lg2subblocksize (par c)) ltac:(lia)).
    pose proof (Z.div_pos (address m) (2 ^ lg2subblocksize (par c)) ltac:(lia) ltac:(lia)). nia.
  - destruct (_ =? _); [unfold basic; tauto|done].
  - destruct (Z.eqb_spec t D4XWRITE); [done|]. intros ->. done.
Qed.

(** *** What is still to do, weighed *)

Definition weight (m : d4memref) : Z :=
  if has (accesstype m) D4PREFETCH then 40 else if has (accesstype m) D4_MULTIBLOCK then 100 * size m else 1.
Definition total (l : list d4memref) : Z := foldr (fun m n => weight m + n) 0 l.

Lemma total_app l1 l2 : total (l1 ++ l2) = total l1 + total l2.
Proof. induction l1 as [|m l1 IH]; [done|]. cbn [total app foldr]. fold (total (l1 ++ l2)) (total l1). lia. Qed.

Lemma weight_plain c m : plain c m -> weight m = 1.
Proof. intros (_ & Hb & _). unfold weight. destruct Hb as [-> | [-> | [-> | ->]]]; done. Qed.
Lemma weight_prefetching c m : prefetching c m -> weight m = 40.
Proof. intros (_ & t & Hb & _ & E). unfold weight. rewrite E. destruct Hb as [-> | [-> | [-> | ->]]]; done. Qed.
Lemma weight_rest c m : rest_of c m -> weight m = 100 * size m.
Proof. intros (t & (_ & Hb & _) & E). unfold weight. rewrite E. cbn in Hb. destruct Hb as [-> | [-> | [-> | ->]]]; done. Qed.

Lemma total_plain c l : Forall (plain c) l -> total l = Z.of_nat (length l).
Proof.
  induction 1 as [|m l Hm _ IH]; [done|]. cbn [total foldr length]. fold (total l). rewrite (weight_plain c m Hm). lia.
Qed.
Lemma total_prefetching c l : Forall (prefetching c) l -> total l = 40 * Z.of_nat (length l).
Proof.
  induction 1 as [|m l Hm _ IH]; [done|]. cbn [total foldr length]. fold (total l). rewrite (weight_prefetching c m Hm). lia.
Qed.

Lemma weight_pos c m : pend_ok c m -> 1 <= weight m.
Proof.
  intros [Hm|[Hm|Hm]]; [rewrite (weight_plain c m Hm)|rewrite (weight_prefetching c m Hm)|rewrite (weight_rest c m Hm)]; [lia|lia|].
  destruct Hm as (t & ([_ Hz] & _) & _). cbn in Hz. lia.
Qed.

(** *** One reference in its own cache *)

Definition set_no (c : nat) (m : d4memref) (a : state) : Z := D4ADDR2SET (par c) (numsets (data_of c a)) (address m).
Definition block_no (c : nat) (m : d4memref) : Z := D4ADDR2BLOCK (par c) (address m).
(** What a reference leaves for the blocks behind *)
Definition the_rest (c : nat) (m : d4memref) : list d4memref :=
  match (d4_splitm (par c) m (block_no c m)).2 with Some r => [r] | None => [] end.
Definition present (c : nat) (m : d4memref) (a : state) : bool :=
  bool_decide (block_no c m ∈ addresses (set_of c (set_no c m a) (blocks a))).

(** The order after a read, but for the random policy *)
Definition read_order (pol : replacement) (n ba : Z) (l : list Z) : list Z :=
  if bool_decide (ba ∈ l) then hit_order pol ba l else take (Z.to_nat (n - 1)) (ba :: l).

Record step_result (c : nat) (m : d4memref) (a a' : state) (new : list d4memref) : Prop := {
  r_only : only c a a';
  r_numsets : numsets (data_of c a') = numsets (data_of c a);
  r_pending : pending (data_of c a') = new ++ pending (data_of c a);
  r_new : Forall (pend_ok c) new;
  r_demand : prefetchf (par c) = Demand -> exists l, new = l ++ the_rest c m /\ Forall (plain c) l;
  r_weight : total new < (if has (accesstype m) D4PREFETCH then 40 else 100 * size m);
  r_sets : exists l', sets_upd c (set_no c m a) l' (blocks a) (blocks a') /\ set_ok c (ways_of c (set_no c m a) (blocks a)) l' /\
    (is_write m = false -> replacementf (par c) <> Random ->
     addresses l' = read_order (replacementf (par c)) (ways_of c (set_no c m a) (blocks a)) (block_no c m) (addresses (set_of c (set_no c m a) (blocks a))));
  r_fetch : fetch (data_of c a') = incr (fetch (data_of c a)) (accesstype m);
  r_blockmiss : blockmiss (data_of c a') = if present c m a then blockmiss (data_of c a) else incr (blockmiss (data_of c a)) (accesstype m);
  r_miss : lg2subblocksize (par c) = lg2blocksize (par c) ->
    miss (data_of c a') = if present c m a then miss (data_of c a) else incr (miss (data_of c a)) (accesstype m);
  r_bytes : bytes_read (data_of c a') = bytes_read (data_of c a) /\ bytes_written (data_of c a') = bytes_written (data_of c a) }.

(** Before the sets are touched: the reference within its block, the rest pending *)
Lemma split_step c m (a : state) : (c < length (cdata a))%nat -> geometry (par c) -> enters c m ->
  exists m1 rs a1, (let '(m1, rest) := d4_splitm (par c) m (block_no c m) in
      (m1, match rest with Some pf => on_data c (fun d => count_multiblock (push pf d)) a | None => a end)) = (m1, a1) /\
    inside (par c) m1 /\ enters c m1 /\ address m1 = address m /\ accesstype m1 = accesstype m /\
    only c a a1 /\ blocks a1 = blocks a /\ pending (data_of c a1) = rs ++ pending (data_of c a) /\ Forall (rest_of c) rs /\
    numsets (data_of c a1) = numsets (data_of c a) /\ fetch (data_of c a1) = fetch (data_of c a) /\ blockmiss (data_of c a1) = blockmiss (data_of c a) /\ miss (data_of c a1) = miss (data_of c a) /\
    bytes_read (data_of c a1) = bytes_read (data_of c a) /\ bytes_written (data_of c a1) = bytes_written (data_of c a) /\
    (if has (accesstype m) D4PREFETCH then rs = [] else total rs <= 100 * (size m - 1)) /\
    rs = the_rest c m.
Proof.
  intros Hc G He. assert (Hok : ref_ok m) by (destruct He as [[H1 _]|[[H1 _] _]]; done).
  destruct He as [Hp|Hp].
  - pose proof (split_spec (par c) G m Hok) as Hs. fold (block_no c m) in Hs.
    unfold the_rest. destruct (d4_splitm _ _ _) as [m1 rest]; destruct Hs as (H1 & H2 & H3 & H4).
    cbn [fst snd] in *. destruct Hp as (_ & Hb & Hw). assert (Hpf : has (accesstype m) D4PREFETCH = false).
    { destruct Hb as [-> | [-> | [-> | ->]]]; done. }
    assert (Hen : enters c m1) by (left; split; [apply H1|by rewrite H3]). rewrite Hpf. destruct rest as [r|].
    + destruct H4 as (R1 & R2 & R3 & R4 & R5).
      assert (Hr : rest_of c r) by (exists (accesstype m); split; [by split|done]).
      exists m1, [r]. eexists. split; [reflexivity|]. rewrite data_on_eq by done. split_and!; try done.
      * apply only_on_data.
      * by constructor.
      * cbn [total foldr]. rewrite (weight_rest c r Hr). destruct H1 as [[_ H1] _]. lia.
    + exists m1, [], a. rewrite H4 in *. split_and!; try done. cbn. destruct Hok. lia.
  - unfold the_rest, block_no. rewrite split_inside by (done || apply Hp). exists m, [], a. assert (Hpf : has (accesstype m) D4PREFETCH = true).
    { destruct Hp as (_ & t & Hb & _ & ->). destruct Hb as [-> | [-> | [-> | ->]]]; done. }
    rewrite Hpf. destruct Hp as [Hi Hp]. split_and!; try done. right. by split.
Qed.

Lemma is_write_type m m1 : accesstype m1 = accesstype m -> is_write m1 = is_write m.
Proof. unfold is_write. by intros ->. Qed.

Lemma set_no_range c m (a : state) : 0 < numsets (data_of c a) -> 0 <= set_no c m a < numsets (data_of c a).
Proof. intros. apply Z.mod_pos_bound. done. Qed.

Lemma block_no_range c m : geometry (par c) -> ref_ok m -> 0 <= block_no c m < 2 ^ 32.
Proof.
  intros G [Ha _]. destruct (geo_pow (par c) G) as (HS & HN & HB & HB'). unfold block_no. rewrite block_eq by done.
  pose proof (Z.mul_div_le (address m) (2 ^ lg2blocksize (par c)) ltac:(lia)).
  pose proof (Z.div_pos (address m) (2 ^ lg2blocksize (par c)) ltac:(lia) ltac:(lia)). nia.
Qed.

(** [update], where it is called: on hits, reads and allocating writes *)
Lemma update_step c m1 k ba (a : state) : let l := set_of c k (blocks a) in let n := ways_of c k (blocks a) in
  (c < length (cdata a))%nat -> geometry (par c) -> inside (par c) m1 -> enters c m1 -> 0 <= ba < 2 ^ 32 -> 1 < n -> set_ok c n l ->
  exists wback a' newm l', update h c k ba m1 (if bool_decide (ba ∈ addresses l) then Some (c, k, ba) else None) a = Ret (wback, a') /\
    only c a a' /\ data_of c a' = with_pending (newm ++ pending (data_of c a)) (data_of c a) /\
    Forall (plain c) newm /\ (length newm <= 33)%nat /\ sets_upd c k l' (blocks a) (blocks a') /\ set_ok c n l' /\
    (replacementf (par c) <> Random -> addresses l' = read_order (replacementf (par c)) n ba (addresses l)).
Proof.
  intros l n Hc G Hm He Hba Hn Hok. pose proof (enters_writes c m1 He) as Hw. unfold read_order. destruct (bool_decide_reflect (ba ∈ addresses l)) as [Hin|Hin].
  - destruct (update_hit c k ba m1 n a G Hm Hw Hok Hin) as (wback & t' & l' & E & Hu & Hok' & Had).
    exists wback, (with_blocks t' a), [], l'. split; [exact E|]. split; [by apply (sets_upd_only c k l')|].
    split; [by rewrite with_pending_id|]. split; [constructor|]. split; [cbn; lia|]. done.
  - destruct (update_miss c k ba m1 a Hc G Hm Hba Hw Hn Hok Hin) as (wback & a' & newm & l' & E & Ho & Hd & Hnew & Hwr & Hlen & Hu & Hok' & Had).
    exists wback, a', newm, l'. split_and!; try done. apply Forall_forall. intros x Hx.
    destruct (proj1 (Forall_forall _ _) Hnew x Hx) as [Hx1 Hx2]. split; [done|]. rewrite Hx2. split; [unfold basic; tauto|]. intros _. apply Hwr.
    intros ->. by apply not_elem_of_nil in Hx.
Qed.

(** Without subblocks a block in its set is there whole. *)
Lemma whole_block c m b : geometry (par c) -> lg2subblocksize (par c) = lg2blocksize (par c) -> inside (par c) m -> block_ok c b ->
  Z.land (D4ADDR2SBMASK (par c) m) (valid b) = D4ADDR2SBMASK (par c) m.
Proof.
  intros G Eq Hm [_ Hv _ _]. pose proof (sbmask_range (par c) G m Hm) as Hs. rewrite Eq, Z.sub_diag in *. change (2 ^ 2 ^ 0) with 2 in *.
  assert (D4ADDR2SBMASK (par c) m = 1) as -> by lia. by assert (valid b = 1) as -> by lia.
Qed.

Lemma cache_step c m (a : state) :
  tree -> good a -> (c < length h)%nat -> is_mem c = false -> enters c m ->
  exists a' new, d4ref_cache h c m a = Ret a' /\ step_result c m a a' new.
Proof.
  intros HT Ha Hlt Hmem He. pose proof (t_geometry HT c Hlt Hmem) as G. assert (Hc : (c < length (cdata a))%nat) by (by rewrite (a_length a Ha)).
  destruct (a_sets a Ha c Hlt Hmem) as [Hns Hsets]. pose proof (set_no_range c m a Hns) as Hk. destruct (Hsets _ Hk) as [Hn Hok].
  assert (Hok0 : ref_ok m) by (destruct He as [[H1 _]|[[H1 _] _]]; done). pose proof (block_no_range c m G Hok0) as Hba.
  destruct (split_step c m a Hc G He) as (m1 & rs & a1 & Es & Hm1 & He1 & Had & Hty & Ho1 & Hb1 & Hp1 & Hrs & N1 & F1 & M1 & X1 & R1 & W1 & Wrs & Irs).
  unfold d4ref_cache. fold par (block_no c m). destruct (d4_splitm (par c) m (block_no c m)) as [m1' rest]. injection Es as -> Ea1. rewrite Ea1.
  rewrite Had, N1. rewrite (proj2 (Z.eqb_neq (numsets (data_of c a)) 0)) by lia. cbn [mbind run_bind]. fold (set_no c m a). set (k := set_no c m a) in *. set (ba := block_no c m) in *. fold (is_write m1).
  destruct (walloc_total c m1 (enters_writes c m1 He1)) as (walloc & ->). cbn [mbind run_bind].
  assert (Hro : has (flags (par c)) D4F_RO && is_write m1 = false).
  { destruct (is_write m1) eqn:E; [|by rewrite andb_false_r]. pose proof (enters_writes c m1 He1 E) as Hw. unfold writable in Hw.
    destruct (has _ D4F_RO); [done|done]. }
  rewrite Hro. cbn [lookup_block list_blocks mbind run_bind]. rewrite Hb1. fold ba. set (l := set_of c k (blocks a)) in *. set (n := ways_of c k (blocks a)) in *.
  cbn zeta. match goal with |- context [prefetch h c m1 ?x ?q a1] => set (is_miss := x); set (ptr := q) end.
  match goal with |- context [negb (is_write m1) || negb ?b || walloc] =>
    assert (Hbm : b = negb (present c m a)) by (unfold ptr, present; fold ba k l; by destruct (bool_decide _)) end.
  rewrite Hbm. destruct (enters_type c m1 He1) as (t & Ht & Et & _).
  assert (Hwhole : lg2subblocksize (par c) = lg2blocksize (par c) -> is_miss = negb (present c m a)).
  { intros Eq. unfold is_miss, ptr, present. fold ba k l. destruct (bool_decide_reflect (ba ∈ addresses l)) as [Hin|]; [|done].
    destruct (block_at_in ba l Hin) as [Hbin _]. cbn [the_block list_blocks]. rewrite ?Hb1. fold l.
    rewrite (whole_block c m1 _ G Eq Hm1 (proj1 (Forall_forall _ _) (s_blocks _ _ _ Hok) _ Hbin)). by rewrite Z.eqb_refl. }
  assert (Hc1 : (c < length (cdata a1))%nat) by (by rewrite (o_length _ _ _ Ho1)).
  destruct (prefetch_step c m1 is_miss ptr a1 Hc1 G) as (pfs & (Ho2 & Hb2 & Hd2) & Hpf & Lpf & Npf); [by rewrite Et|].
  match type of Ho2 with only c a1 ?x => set (a2 := x) in * end. rewrite Hb1 in Hb2.
  assert (Hc2 : (c < length (cdata a2))%nat) by (by rewrite (o_length _ _ _ Ho2)).
  assert (Hup : exists wback a3 newm l',
    (if negb (is_write m1) || negb (negb (present c m a)) || walloc then update h c k ba m1 (ptr : option (@handle sets list_blocks)) a2 else Ret (false, a2)) = Ret (wback, a3) /\
    only c a2 a3 /\ data_of c a3 = with_pending (newm ++ pending (data_of c a2)) (data_of c a2) /\ Forall (plain c) newm /\ (length newm <= 33)%nat /\
    sets_upd c k l' (blocks a) (blocks a3) /\ set_ok c n l' /\
    (is_write m = false -> replacementf (par c) <> Random -> addresses l' = read_order (replacementf (par c)) n ba (addresses l))).
  { rewrite (is_write_type m m1 Hty). destruct (negb (is_write m) || _ || _) eqn:Ec.
    - destruct (update_step c m1 k ba a2 Hc2 G Hm1 He1 Hba) as (wback & a3 & newm & l' & U1 & U2 & U3 & U4 & U5 & U6 & U7 & U8);
        rewrite Hb2 in *; [done|done|]. exists wback, a3, newm, l'. auto 10.
    - exists false, a2, [], l. split; [done|]. split; [done|]. split; [by rewrite with_pending_id|]. split; [constructor|]. split; [cbn; lia|].
      split; [rewrite Hb2; apply sets_upd_refl|]. split; [done|]. intros Hwr. by rewrite Hwr in Ec. }
  destruct Hup as (wback & a3 & newm & l' & -> & U2 & U3 & U4 & U5 & U6 & U7 & U8). cbn [mbind run_bind].
  assert (Hc3 : (c < length (cdata a3))%nat) by (by rewrite (o_length _ _ _ U2)).
  destruct (requests_step c m1 is_miss wback walloc a3 Hc3 G Hm1 He1) as (reqs & (Ho4 & Hb4 & Hd4) & Hreq & Lreq).
  set (a4 := downstream_requests h c m1 is_miss wback walloc a3) in *.
  assert (Hc4 : (c < length (cdata a4))%nat) by (by rewrite (o_length _ _ _ Ho4)).
  eexists _, (reqs ++ newm ++ pfs ++ rs). split; [reflexivity|].
  assert (Hd : data_of c a4 = with_pending (reqs ++ newm ++ pfs ++ pending (data_of c a1)) (data_of c a1)) by (rewrite Hd4, U3, Hd2; done).
  split; rewrite ?data_on_eq, ?Hd by done; cbn [count with_pending pending fetch miss blockmiss numsets bytes_read bytes_written]; rewrite ?Hty, ?F1, ?M1, ?X1; try done.
  - etransitivity; [exact Ho1|]. etransitivity; [exact Ho2|]. etransitivity; [exact U2|]. etransitivity; [exact Ho4|apply only_on_data].
  - by rewrite Hp1, !app_assoc.
  - repeat (apply Forall_app; split); [eapply Forall_impl; [exact Hreq|]|eapply Forall_impl; [exact U4|]|eapply Forall_impl; [exact Hpf|]|eapply Forall_impl; [exact Hrs|]];
      unfold pend_ok; cbn; tauto.
  - intros Hdem. exists (reqs ++ newm). rewrite (Npf (or_intror Hdem)), app_nil_l, app_assoc, Irs. split; [done|by apply Forall_app].
  - rewrite !total_app, (total_plain c reqs Hreq), (total_plain c newm U4), (total_prefetching c pfs Hpf).
    unfold has in *. destruct (Z.eqb_spec (Z.land (accesstype m) D4PREFETCH) 0) as [E0|E0]; cbn [negb] in *; [lia|].
    rewrite Wrs, Npf by (left; by rewrite Hty). cbn. lia.
  - exists l'. cbn [blocks on_data]. rewrite Hb4. done.
  - assert (Hm : present c m a = false -> is_miss = true) by (unfold is_miss, ptr, present; fold ba k l; by destruct (bool_decide _)).
    destruct (present c m a); [by rewrite andb_false_r|by rewrite Hm].
  - intros Eq. rewrite (Hwhole Eq). by destruct (present c m a).
Qed.

(** *** Down the tree *)

Inductive reach : nat -> nat -> Prop :=
| reach_here c : reach c c
| reach_down c l x : is_mem c = false -> downstream (par c) = Some l -> reach l x -> reach c x.

(** Only caches on the way from [c] to the memory change. *)
Record within (c : nat) (a a' : state) : Prop := {
  w_length : length (cdata a') = length (cdata a);
  w_data : forall x, ~ reach c x -> data_of x a' = data_of x a;
  w_sets : forall x k, ~ reach c x -> set_of x k (blocks a') = set_of x k (blocks a);
  w_ways : ways (blocks a') = ways (blocks a);
  w_numsets : forall x, numsets (data_of x a') = numsets (data_of x a) }.

#[export] Instance within_refl c : Reflexive (within c).
Proof. by split. Qed.
#[export] Instance within_trans c : Transitive (within c).
Proof.
  intros a b d [] []. split.
  - congruence.
  - intros x Hx. rewrite w_data1 by done. by apply w_data0.
  - intros x k Hx. rewrite w_sets1 by done. by apply w_sets0.
  - congruence.
  - intros x. by rewrite w_numsets1.
Qed.

Lemma within_down c l a a' : is_mem c = false -> downstream (par c) = Some l -> within l a a' -> within c a a'.
Proof.
  intros Hm Hd []. split; try done; intros x; [intros Hx; apply w_data0|intros k Hx; apply w_sets0]; intros Hl; apply Hx; by apply (reach_down c l).
Qed.

Lemma within_only c a a' : only c a a' -> numsets (data_of c a') = numsets (data_of c a) -> within c a a'.
Proof.
  intros [] Hn. split; try done.
  - intros x Hx. apply o_data0. intros ->. apply Hx, reach_here.
  - intros x k Hx. apply o_sets0. intros ->. apply Hx, reach_here.
  - intros x. destruct (decide (x = c)) as [->|Hne]; [done|]. by rewrite o_data0.
Qed.

Lemma step_within c m a a' new : step_result c m a a' new -> within c a a'.
Proof. intros R. apply within_only; apply R. Qed.

Lemma step_good c m a a' new : good a -> (c < length h)%nat -> step_result c m a a' new -> good a'.
Proof.
  intros [] Hc []. split.
  - by rewrite (o_length _ _ _ r_only0).
  - intros x Hx Hm. destruct (a_sets0 x Hx Hm) as [H1 H2]. unfold ways_of. rewrite (o_ways _ _ _ r_only0).
    destruct (decide (x = c)) as [->|Hne].
    + rewrite r_numsets0. split; [done|]. intros k Hk. destruct (H2 k Hk) as [H3 H4]. split; [done|].
      destruct r_sets0 as (l' & Hu & Hok & _). destruct (decide (k = set_no c m a)) as [->|Hk'].
      * by rewrite (u_set _ _ _ _ _ Hu).
      * pose proof (u_others _ _ _ _ _ Hu (c, k) ltac:(congruence)) as E. cbn in E. by rewrite E.
    + rewrite (o_data _ _ _ r_only0) by done. split; [done|]. intros k Hk. rewrite (o_sets _ _ _ r_only0) by done. by apply H2.
  - intros x Hx. destruct (decide (x = c)) as [->|Hne].
    + rewrite r_pending0. apply Forall_app. split; [done|by apply a_pending0].
    + rewrite (o_data _ _ _ r_only0) by done. by apply a_pending0.
Qed.

(** Changes of counters and shorter lists of requests *)
Lemma good_on_data c f (a : state) : good a -> (c < length h)%nat -> numsets (f (data_of c a)) = numsets (data_of c a) ->
  Forall (pend_ok c) (pending (f (data_of c a))) -> good (on_data c f a) /\ within c a (on_data c f a).
Proof.
  intros [] Hc Hn Hp. assert (Hd : forall x, x <> c -> data_of x (on_data c f a) = data_of x a) by (intros; by apply data_on_ne).
  assert (He : data_of c (on_data c f a) = f (data_of c a)) by (apply data_on_eq; by rewrite a_length0).
  split; [|apply within_only; [apply only_on_data|by rewrite He]]. split.
  - cbn. by rewrite length_alter.
  - intros x Hx Hm. destruct (decide (x = c)) as [->|Hne]; [rewrite He, Hn|rewrite Hd by done]; by apply a_sets0.
  - intros x Hx. destruct (decide (x = c)) as [->|Hne]; [by rewrite He|rewrite Hd by done; by apply a_pending0].
Qed.

(** *** Termination *)

Definition ref_ends (c : nat) : Prop := forall m (a : state), good a -> (if is_mem c then basic (accesstype m) else enters c m) ->
  exists N a', (forall fuel, (N <= fuel)%nat -> d4ref h fuel c m a = Ret a') /\ good a' /\ within c a a' /\
    (is_mem c = false -> pending (data_of c a') = []).

Lemma count_bytes_plain c m d : plain c m -> exists d', count_bytes m d = Some d' /\ numsets d' = numsets d /\ pending d' = pending d.
Proof. intros (_ & Hb & _). unfold count_bytes. destruct Hb as [-> | [-> | [-> | ->]]]; by eexists. Qed.

Lemma mem_ends c : (c < length h)%nat -> is_mem c = true -> ref_ends c.
Proof.
  intros Hc Hm m a Ha _. exists 1%nat, (on_data c (count (accesstype m) false false) a).
  destruct (good_on_data c (count (accesstype m) false false) a Ha Hc) as [Hg Hw]; [done|by apply (a_pending a Ha)|].
  split_and!; try done; [|by rewrite Hm]. intros [|fuel] Hf; [lia|]. cbn [d4ref]. fold par (is_mem c). by rewrite Hm.
Qed.

Lemma enters_not_special c m : enters c m -> (accesstype m =? D4XCOPYB) || (accesstype m =? D4XINVAL) = false.
Proof.
  intros [(_ & Hb & _)|(_ & t & Hb & _ & ->)]; [destruct Hb as [-> | [-> | [-> | ->]]]; done|destruct Hb as [-> | [-> | [-> | ->]]]; done].
Qed.

(** One request worked off *)
Definition dopending_ends (c : nat) (a : state) : Prop :=
  exists N a', (forall fuel, (N <= fuel)%nat -> d4_dopending h fuel c a = Ret a') /\ good a' /\ within c a a' /\ pending (data_of c a') = [].

Lemma ref_from_dopending c m (a : state) : tree -> good a -> (c < length h)%nat -> is_mem c = false -> enters c m ->
  (forall a' new, step_result c m a a' new -> dopending_ends c a') ->
  exists N a', (forall fuel, (N <= fuel)%nat -> d4ref h fuel c m a = Ret a') /\ good a' /\ within c a a' /\ pending (data_of c a') = [].
Proof.
  intros HT Ha Hc Hm He Hd. destruct (cache_step c m a HT Ha Hc Hm He) as (a1 & new & E & R).
  destruct (Hd a1 new R) as (N & a' & HN & Hg & Hw & Hp). exists (S N), a'. split_and!; try done.
  - intros [|fuel] Hf; [lia|]. cbn [d4ref]. fold par (is_mem c). rewrite Hm, (enters_not_special c m He), E. cbn [mbind run_bind]. apply HN. lia.
  - etransitivity; [by eapply step_within|done].
Qed.

Lemma reach_le c x : tree -> (c < length h)%nat -> reach c x -> (x <= c)%nat.
Proof.
  intros HT Hc Hr. revert Hc. induction Hr as [c|c l x Hm Hd Hr IH]; intros Hc; [done|].
  destruct (t_down HT c Hc Hm) as (l' & Hd' & Hl & _). assert (l' = l) as -> by congruence. assert (x <= l)%nat by (apply IH; lia). lia.
Qed.

(** What [d4_dopending] does with one request *)
Definition turn {T} `{BlockStore T} (fuel c : nat) (m : d4memref) (s : @d4state T) : run (@d4state T) :=
  if negb (Z.land (accesstype m) D4PREFETCH =? 0) then d4ref h fuel c m s
  else if negb (Z.land (accesstype m) D4_MULTIBLOCK =? 0)
  then d4ref h fuel c (mk_ref (address m) (Z.ldiff (accesstype m) D4_MULTIBLOCK) (size m)) s
  else
    match count_bytes m (data_of c s), downstream (par c) with
    | Some d, Some l => d4ref h fuel l m (on_data c (fun _ => d) s)
    | None, _ => ProcExit
    | _, None => Spin
    end.

Lemma total_nonneg c l : Forall (pend_ok c) l -> 0 <= total l.
Proof. induction 1 as [|m l Hm _ IH]; [done|]. cbn [total foldr]. fold (total l). pose proof (weight_pos c m Hm). lia. Qed.

Lemma turn_ends c m rest (a : state) : tree -> (c < length h)%nat -> is_mem c = false ->
  (forall l, downstream (par c) = Some l -> ref_ends l) -> good a -> pending (data_of c a) = rest -> pend_ok c m ->
  (forall a', good a' -> total (pending (data_of c a')) < weight m + total rest -> dopending_ends c a') ->
  exists N a', (forall fuel, (N <= fuel)%nat -> turn fuel c m a = Ret a') /\ good a' /\ within c a a' /\
    total (pending (data_of c a')) < weight m + total rest.
Proof.
  intros HT Hc Hm Hl Ha Hrest Hok IH. assert (Hpos : 0 <= total rest).
  { apply (total_nonneg c). rewrite <- Hrest. by apply (a_pending a Ha). }
  assert (Hself : forall m', enters c m' -> (if has (accesstype m') D4PREFETCH then 40 else 100 * size m') <= weight m ->
    exists N a', (forall fuel, (N <= fuel)%nat -> d4ref h fuel c m' a = Ret a') /\ good a' /\ within c a a' /\
      total (pending (data_of c a')) < weight m + total rest).
  { intros m' He Hw. destruct (ref_from_dopending c m' a HT Ha Hc Hm He) as (N & a' & H1 & H2 & H3 & H4).
    - intros a1 new R. apply IH; [by eapply step_good|]. rewrite (r_pending _ _ _ _ _ R), total_app, Hrest.
      pose proof (r_weight _ _ _ _ _ R). lia.
    - exists N, a'. rewrite H4. split_and!; try done. pose proof (weight_pos c m Hok). cbn. lia. }
  unfold turn. destruct Hok as [Hp|[Hp|Hp]].
  - assert (Hb : Z.land (accesstype m) D4PREFETCH = 0 /\ Z.land (accesstype m) D4_MULTIBLOCK = 0).
    { destruct Hp as (_ & Hb & _). destruct Hb as [-> | [-> | [-> | ->]]]; done. }
    destruct Hb as [-> ->]. cbn [Z.eqb negb]. destruct (count_bytes_plain c m (data_of c a) Hp) as (d & -> & Hn & Hpd).
    destruct (t_down HT c Hc Hm) as (l & Hd & Hlc & Hwr). rewrite Hd.
    destruct (good_on_data c (fun _ => d) a Ha Hc Hn) as [Hg1 Hw1]; [rewrite Hpd; by apply (a_pending a Ha)|].
    destruct (Hl l Hd m (on_data c (fun _ => d) a) Hg1) as (N & a' & H1 & H2 & H3 & _).
    { destruct Hp as (P1 & P2 & P3). destruct (is_mem l) eqn:El; [done|]. left. split; [done|]. split; [done|]. intros E.
      destruct (Hwr (P3 E)); congruence. }
    exists N, a'. split_and!; [done|done| |].
    + etransitivity; [exact Hw1|by apply (within_down c l)].
    + rewrite (w_data _ _ _ H3); [|intros Hr; pose proof (reach_le l c HT ltac:(lia) Hr); lia].
      rewrite data_on_eq by (by rewrite (a_length a Ha)). rewrite Hpd, Hrest, (weight_plain c m Hp). lia.
  - assert (Hb : negb (Z.land (accesstype m) D4PREFETCH =? 0) = true).
    { destruct Hp as (_ & t & Hb & _ & ->). destruct Hb as [-> | [-> | [-> | ->]]]; done. }
    rewrite Hb. apply Hself; [by right|]. unfold has. rewrite Hb, (weight_prefetching c m Hp). done.
  - pose proof (weight_rest c m Hp) as Hwt. destruct Hp as (t & Hp & E). rewrite E.
    assert (Hb : Z.land (Z.lor t D4_MULTIBLOCK) D4PREFETCH = 0 /\ Z.land (Z.lor t D4_MULTIBLOCK) D4_MULTIBLOCK = D4_MULTIBLOCK /\
      Z.ldiff (Z.lor t D4_MULTIBLOCK) D4_MULTIBLOCK = t /\ has t D4PREFETCH = false).
    { destruct Hp as (_ & Hb & _). cbn in Hb. destruct Hb as [-> | [-> | [-> | ->]]]; done. }
    destruct Hb as (-> & -> & -> & Hb). cbn [Z.eqb negb D4_MULTIBLOCK]. apply Hself; [by left|]. cbn [accesstype size]. rewrite Hb, Hwt. done.
Qed.

Lemma dopending_all c : tree -> (c < length h)%nat -> is_mem c = false -> (forall l, downstream (par c) = Some l -> ref_ends l) ->
  forall w (a : state), good a -> total (pending (data_of c a)) < Z.of_nat w -> dopending_ends c a.
Proof.
  intros HT Hc Hm Hl. induction w as [|w IH]; intros a Ha Hw.
  { pose proof (total_nonneg c _ (a_pending a Ha c Hc)). lia. }
  destruct (pending (data_of c a)) as [|m rest] eqn:Ep.
  { exists 1%nat, a. split_and!; try done. intros [|fuel] Hf; [lia|]. cbn [d4_dopending]. by rewrite Ep. }
  pose proof (a_pending a Ha c Hc) as Hpa. rewrite Ep in Hpa. apply Forall_cons in Hpa as [Hpm Hpr].
  destruct (good_on_data c (with_pending rest) a Ha Hc) as [Hg1 Hw1]; [done|done|]. set (a1 := on_data c (with_pending rest) a) in *.
  assert (Hp1 : pending (data_of c a1) = rest) by (unfold a1; by rewrite data_on_eq by (by rewrite (a_length a Ha))).
  cbn [total foldr] in Hw. fold (total rest) in Hw. pose proof (weight_pos c m Hpm).
  destruct (turn_ends c m rest a1 HT Hc Hm Hl Hg1 Hp1 Hpm) as (N1 & a2 & T1 & T2 & T3 & T4).
  { intros a' Ha' Ht. apply IH; [done|lia]. }
  destruct (IH a2 T2 ltac:(lia)) as (N2 & a3 & U1 & U2 & U3 & U4). exists (S (N1 + N2)), a3. split_and!; try done.
  - intros [|fuel] Hf; [lia|]. cbn [d4_dopending]. rewrite Ep.
    change (turn fuel c m a1 ≫= (fun s => d4_dopending h fuel c s) = Ret a3). rewrite T1 by lia. cbn [mbind run_bind]. apply U1. lia.
  - etransitivity; [exact Hw1|]. by etransitivity.
Qed.

Lemma all_ends : tree -> forall c, (c < length h)%nat -> ref_ends c.
Proof.
  intros HT c. induction c as [c IH] using lt_wf_ind. intros Hc. destruct (is_mem c) eqn:Hm; [by apply mem_ends|].
  intros m a Ha He. rewrite Hm in He. destruct (ref_from_dopending c m a HT Ha Hc Hm He) as (N & a' & H1 & H2 & H3 & H4).
  - intros a1 new R. apply (dopending_all c HT Hc Hm) with (w := S (Z.to_nat (total (pending (data_of c a1))))).
    + intros l Hd. destruct (t_down HT c Hc Hm) as (l' & Hd' & Hl & _). assert (l' = l) as -> by congruence. apply IH; lia.
    + by eapply step_good.
    + lia.
  - exists N, a'. auto.
Qed.
End Run.
