(* ===== verification/DineroRefine.v ===== *)
(** * The linked nodes implement the specification

    [represents]: the lists of [DineroSpec] are the blocks of the valid nodes, stack by
    stack from the top.  Every operation of [BlockStore] keeps it, and with it [d4ref]
    ([ref_refines]); [DineroSetup] shows that [d4setup] establishes it. *)
From S2P Require Import Prelude VpmuInit Dinero DineroStack DineroSpec DineroRun.

Lemma Forall2_weaken {A B} (P Q : A -> B -> Prop) l k :
  Forall2 P l k -> (forall x y, x ∈ l -> P x y -> Q x y) -> Forall2 Q l k.
Proof.
  induction 1 as [|x y l k Hxy _ IH]; intros Hq; [constructor|]. constructor; [apply Hq; [by left|done]|]. apply IH. intros. apply Hq; [by right|done].
Qed.

(** A node whose block is not valid yet may have old flags. *)
Definition node_is (s : store) (p : Z) (b : block) : Prop :=
  addr s p = blockaddr b /\ valid (node p s) = valid b /\ (valid b <> 0 -> node p s = b).

Record represents (s : store) (t : sets) (L SP : lists) : Prop := {
  rp_shape : shaped s L SP;
  rp_ways : ways t = stack_n s;
  rp_nodes : forall c k n, stack_n s !! (c, k) = Some n -> Forall2 (node_is s) (L (c, k)) (set_of c k t) }.

Section Represents.
Context (s : store) (t : sets) (L SP : lists) (R : represents s t L SP).

Lemma addresses_same c k n : stack_n s !! (c, k) = Some n -> addr s <$> L (c, k) = addresses (set_of c k t).
Proof.
  intros Hn. pose proof (rp_nodes _ _ _ _ R c k n Hn) as Hf. induction Hf as [|p b l bs [H1 _] _ IH]; [done|]. cbn. by rewrite H1, IH.
Qed.

Lemma ways_same c k n : stack_n s !! (c, k) = Some n -> ways_of c k t = n.
Proof. intros Hn. unfold ways_of. by rewrite (rp_ways _ _ _ _ R), Hn. Qed.

(** *** Between references *)

(** Every set has room and only valid blocks. *)
Definition settled (t : sets) : Prop :=
  forall ck n, ways t !! ck = Some n -> Z.of_nat (length (set_of ck.1 ck.2 t)) < n /\ Forall (fun b => valid b <> 0) (set_of ck.1 ck.2 t).

Lemma settled_valid : settled t -> all_valid s L.
Proof.
  intros Hs c k n p Hn Hp. destruct (Hs (c, k) n) as [_ Hv]; [by rewrite (rp_ways _ _ _ _ R)|]. cbn in Hv.
  apply list_elem_of_lookup in Hp as [i Hi]. destruct (Forall2_lookup_l _ _ _ _ _ (rp_nodes _ _ _ _ R c k n Hn) Hi) as (b & Hb & _ & H2 & _).
  rewrite H2. by apply (Forall_lookup_1 _ _ i _ Hv).
Qed.

Lemma settled_spare c k n : settled t -> stack_n s !! (c, k) = Some n -> SP (c, k) <> [].
Proof.
  intros Hs Hn E. destruct (Hs (c, k) n) as [Hl _]; [by rewrite (rp_ways _ _ _ _ R)|]. cbn in Hl.
  pose proof (k_len _ _ _ _ _ _ (sh_stack _ _ _ (rp_shape _ _ _ _ R) c k n Hn)) as Hk. rewrite E, app_nil_r in Hk.
  rewrite (Forall2_length _ _ _ (rp_nodes _ _ _ _ R c k n Hn)) in Hk. lia.
Qed.
End Represents.

(** *** One stack changes *)

Lemma represents_upd s s' t t' L SP SP' c k n l' bs' :
  represents s t L SP -> stack_n s !! (c, k) = Some n -> shaped s' (upd L c k l') SP' -> static s s' ->
  (forall p, p ∉ L (c, k) ++ SP (c, k) -> node p s' = node p s) -> sets_upd c k bs' t t' -> Forall2 (node_is s') l' bs' ->
  represents s' t' (upd L c k l') SP'.
Proof.
  intros R Hn Hs (E1 & E2 & E3 & E4 & E5) Hf Hu Hb. split; [done|by rewrite (u_ways _ _ _ _ _ Hu), (rp_ways _ _ _ _ R), E3|].
  intros c' k' n' Hn'. rewrite E3 in Hn'. destruct (decide ((c', k') = (c, k))) as [E|E].
  - injection E as -> ->. rewrite upd_eq, (u_set _ _ _ _ _ Hu). done.
  - rewrite upd_ne by done. pose proof (u_others _ _ _ _ _ Hu (c', k') E) as Eo. cbn in Eo. rewrite Eo.
    pose proof (rp_nodes _ _ _ _ R c' k' n' Hn') as Hf2. apply (Forall2_weaken _ _ _ _ Hf2).
    intros p b Hp. unfold node_is, addr. rewrite Hf; [done|]. intros Hp'. apply E.
    apply (same_home s L SP (rp_shape _ _ _ _ R) c' k' n' c k n p); [done|done|apply elem_of_app; by left|done].
Qed.

(** *** The list of a block in the middle *)

Lemma block_at_middle b1 b b2 : NoDup (addresses (b1 ++ b :: b2)) ->
  block_at (blockaddr b) (b1 ++ b :: b2) = b /\ without (blockaddr b) (b1 ++ b :: b2) = b1 ++ b2.
Proof.
  intros Hnd. induction b1 as [|x b1 IH].
  - cbn [app block_at]. rewrite Z.eqb_refl. split; [done|]. cbn [app] in Hnd. rewrite fmap_cons in Hnd. apply NoDup_cons in Hnd as [Hb _].
    unfold without. rewrite filter_cons_False by (by intros H). by apply without_none.
  - cbn [app] in Hnd |- *. rewrite fmap_cons in Hnd. apply NoDup_cons in Hnd as [Hx Hnd]. destruct (IH Hnd) as [H1 H2].
    assert (Hne : blockaddr x <> blockaddr b).
    { intros E. apply Hx. rewrite E, fmap_app. apply elem_of_app. right. by left. }
    cbn [block_at]. rewrite (proj2 (Z.eqb_neq _ _)) by done. split; [done|]. unfold without in *. rewrite filter_cons_True by done. by rewrite H2.
Qed.

(** The block of a node in a list *)
Lemma node_is_middle s l1 p l2 bs ba : Forall2 (node_is s) (l1 ++ p :: l2) bs -> NoDup (addr s <$> (l1 ++ p :: l2)) -> addr s p = ba ->
  exists b1 b b2, bs = b1 ++ b :: b2 /\ blockaddr b = ba /\ Forall2 (node_is s) l1 b1 /\ node_is s p b /\ Forall2 (node_is s) l2 b2 /\
    block_at ba bs = b /\ without ba bs = b1 ++ b2.
Proof.
  intros Hf Hnd Ha. assert (Es : addr s <$> (l1 ++ p :: l2) = addresses bs).
  { clear -Hf. induction Hf as [|q b l bs [H1 _] _ IH]; [done|]. cbn. by rewrite H1, IH. }
  rewrite Es in Hnd. apply Forall2_app_inv_l in Hf as (b1 & bs' & H1 & H2 & ->). apply Forall2_cons_inv_l in H2 as (b & b2 & Hb & H2 & ->).
  assert (Eb : blockaddr b = ba) by (destruct Hb as [E _]; congruence). destruct (block_at_middle b1 b b2 Hnd) as [E1 E2]. rewrite Eb in E1, E2.
  by exists b1, b, b2.
Qed.

(** A block is changed. *)
Lemma put_node_is s l bs p blk : Forall2 (node_is s) l bs -> NoDup (addr s <$> l) -> p ∈ l -> blockaddr blk = addr s p ->
  Forall2 (node_is (set_node p blk s)) l (change_at (addr s p) blk bs).
Proof.
  intros Hf Hnd Hp Ha. set (s' := set_node p blk s).
  assert (Hinj : forall q, q ∈ l -> addr s q = addr s p -> q = p).
  { intros q Hq E. apply list_elem_of_lookup in Hq as [i Hi], Hp as [j Hj].
    assert (i = j) as ->; [|congruence]. apply (NoDup_lookup (addr s <$> l) i j (addr s p) Hnd); rewrite list_lookup_fmap; [by rewrite Hi, <- E|by rewrite Hj]. }
  apply Forall2_fmap_r. apply (Forall2_weaken _ _ _ _ Hf). intros q b Hq (H1 & H2 & H3). cbn.
  destruct (Z.eqb_spec (blockaddr b) (addr s p)) as [E|E].
  - assert (q = p) as -> by (apply Hinj; [done|congruence]). unfold node_is, addr. by rewrite (node_set_node_eq p blk s : node p s' = blk).
  - assert (Hne : q <> p) by (intros ->; congruence). unfold node_is, addr. by rewrite (node_set_node_ne q p blk s Hne : node q s' = _).
Qed.

(** ** The operations *)

Section Operations.
Context `{RandomStream}.

Lemma upd_id L c k : forall ck, upd L c k (L (c, k)) ck = L ck.
Proof. intros ck. unfold upd. case_decide as E; [by rewrite E|done]. Qed.

Lemma shaped_ext s L L' SP SP' : shaped s L SP -> (forall ck, L' ck = L ck) -> (forall ck, SP' ck = SP ck) -> shaped s L' SP'.
Proof.
  intros [S1 S2 S3] HL HS. split; [intros c k n Hn; rewrite HL, HS; by apply S1| |done].
  apply (hash_ok_frame s s (member s L)); [done|done|done|done|]. intros p i _. unfold member. by setoid_rewrite HL.
Qed.

Lemma represents_ext s t L L' SP SP' : represents s t L SP -> (forall ck, L' ck = L ck) -> (forall ck, SP' ck = SP ck) -> represents s t L' SP'.
Proof.
  intros [R1 R2 R3] HL HS. split; [by apply (shaped_ext s L L' SP SP')|done|]. intros c k n Hn. rewrite HL. by apply (R3 c k n).
Qed.

Lemma lookup_refines s t L SP c k n ba : represents s t L SP -> settled t -> stack_n s !! (c, k) = Some n ->
  exists r, lookup_block c k ba s = Ret r /\
    match r with Some p => p ∈ L (c, k) /\ addr s p = ba /\ ba ∈ addresses (set_of c k t) | None => ba ∉ addresses (set_of c k t) end.
Proof.
  intros R Hs Hn. destruct (lookup_ok s L SP (rp_shape _ _ _ _ R) c k n Hn ba) as (r & Hr & Hm).
  - by apply (settled_valid s t L SP).
  - by apply (settled_spare s t L SP R c k n).
  - exists r. split; [done|]. rewrite <- (addresses_same s t L SP R c k n Hn). destruct r as [p|]; [|done].
    destruct Hm as [H1 H2]. split_and!; [done|done|]. subst ba. by apply list_elem_of_fmap_2.
Qed.

Lemma put_refines s t L SP c k n p ba blk : represents s t L SP -> stack_n s !! (c, k) = Some n -> p ∈ L (c, k) -> addr s p = ba ->
  blockaddr blk = ba -> represents (set_node p blk s) (with_set c k (change_at ba blk (set_of c k t)) t) L SP.
Proof.
  intros R Hn Hp Ha Hb. apply (represents_ext _ _ (upd L c k (L (c, k))) L SP SP); [|intros; by rewrite upd_id|done].
  apply (represents_upd s _ t _ L SP SP c k n (L (c, k)) (change_at ba blk (set_of c k t)) R Hn).
  - apply (shaped_ext _ L _ SP SP); [|by apply upd_id|done]. by apply (put_ok s L SP (rp_shape _ _ _ _ R) c k n Hn); [|congruence].
  - done.
  - intros q Hq. apply node_set_node_ne. intros ->. apply Hq, elem_of_app. by left.
  - eapply sets_upd_with, sets_upd_refl.
  - subst ba. apply put_node_is; [by apply (rp_nodes _ _ _ _ R c k n)| |done|done].
    by apply (k_addr _ _ _ _ _ _ (sh_stack _ _ _ (rp_shape _ _ _ _ R) c k n Hn)).
Qed.

(** A hit: only LRU moves the node. *)
Lemma replace_hit_refines (s : store) (t : sets) (L SP : lists) c k n p ba pol r : represents s t L SP -> settled t -> stack_n s !! (c, k) = Some n ->
  p ∈ L (c, k) -> addr s p = ba ->
  exists s' t' L', replace_block (T := store) pol c k ba (Some p) s r = Ret (p, s', r) /\
    replace_block (T := sets) pol c k ba (Some (c, k, ba)) t r = Ret ((c, k, ba), t', r) /\
    represents s' t' L' SP /\ stack_n s' = stack_n s /\ p ∈ L' (c, k) /\ node p s' = node p s.
Proof.
  intros R Hs Hn Hp Ha. pose proof (rp_shape _ _ _ _ R) as Hsh. pose proof (sh_stack _ _ _ Hsh c k n Hn) as Hok.
  assert (H0 : negb (p =? NULL) = true).
  { destruct (k_home _ _ _ _ _ _ Hok p) as (X & _); [apply elem_of_app; by left|]. unfold NULL. lia. }
  cbn [replace_block store_blocks list_blocks default from_option id]. unfold d4rep_lru, d4rep_fifo, d4rep_random. rewrite H0.
  destruct pol; [|exists s, t, L; split_and!; done..].
  pose proof Hp as (l1 & l2 & El)%list_elem_of_split. rewrite El in Hok.
  destruct (movetotop_ok s c k n l1 p l2 (SP (c, k)) Hok) as (Hok' & Hloc & Hrl). rewrite <- El in Hloc.
  exists (d4movetotop c k p s). eexists _, (upd L c k (p :: l1 ++ l2)). split; [done|]. split; [reflexivity|]. split_and!.
  - destruct (node_is_middle s l1 p l2 (set_of c k t) ba) as (b1 & b & b2 & E1 & E2 & F1 & F2 & F3 & E3 & E4).
    + rewrite <- El. by apply (rp_nodes _ _ _ _ R c k n).
    + by apply (k_addr _ _ _ _ _ _ Hok).
    + done.
    + assert (Hnode : forall q, node q (d4movetotop c k p s) = node q s) by (intros q; unfold node; by destruct Hrl as (_ & -> & _)).
      apply (represents_upd s _ t _ L SP SP c k n (p :: l1 ++ l2) (b :: b1 ++ b2) R Hn).
      * apply (shaped_relinked s L SP Hsh c k n Hn); [done|done|done|]. rewrite El. apply Permutation_middle.
      * apply Hloc.
      * intros q _. apply Hnode.
      * rewrite E3, E4. eapply sets_upd_with, sets_upd_refl.
      * assert (Hw : forall l bs, Forall2 (node_is s) l bs -> Forall2 (node_is (d4movetotop c k p s)) l bs).
        { intros l bs Hf. apply (Forall2_weaken _ _ _ _ Hf). intros q x _. unfold node_is, addr. by rewrite Hnode. }
        constructor; [|by apply Forall2_app; apply Hw]. unfold node_is, addr. by rewrite Hnode.
  - apply Hrl.
  - rewrite upd_eq. by left.
  - unfold node. by destruct Hrl as (_ & -> & _).
Qed.

(** The spare node comes on top, before the random policy chooses. *)
Lemma new_top_refines (s : store) (t : sets) (L SP : lists) c k n ba : represents s t L SP -> settled t -> stack_n s !! (c, k) = Some n ->
  ba ∉ addresses (set_of c k t) ->
  exists b s1 sp', new_top c k ba s = Ret (b, s1) /\
    represents s1 (with_set c k (mk_block ba 0 0 0 :: set_of c k t) t) (upd L c k (b :: L (c, k))) (upd SP c k sp') /\
    stack_n s1 = stack_n s /\ addr s1 b = ba /\ valid (node b s1) = 0 /\ SP (c, k) = sp' ++ [b] /\ forall p, p <> b -> node p s1 = node p s.
Proof.
  intros R Hs Hn Hba. pose proof (rp_shape _ _ _ _ R) as Hsh. rewrite <- (addresses_same s t L SP R c k n Hn) in Hba.
  destruct (new_top_ok s L SP Hsh c k n Hn ba (settled_spare s t L SP R c k n Hs Hn) Hba) as (sp' & b & s1 & E1 & E2 & E3 & E4 & E5 & E6 & E7).
  exists b, s1, sp'. assert (Hab : addr s1 b = ba) by (unfold addr; by rewrite E5). assert (Hv : valid (node b s1) = 0) by (by rewrite E5).
  pose proof (k_nodup _ _ _ _ _ _ (sh_stack _ _ _ Hsh c k n Hn)) as Hnd. rewrite E1, app_assoc in Hnd. apply NoDup_app in Hnd as (_ & Hnd & _).
  assert (Hbl : b ∉ L (c, k)) by (intros Hb; apply (Hnd b); [apply elem_of_app; by left|by left]).
  split_and!; try done; [|by apply E4]. apply (represents_upd s s1 t _ L SP _ c k n (b :: L (c, k)) (mk_block ba 0 0 0 :: set_of c k t) R Hn E3 E4).
  - intros p Hp. apply E7. intros ->. apply Hp. rewrite E1, app_assoc. apply elem_of_app. right. by left.
  - eapply sets_upd_with, sets_upd_refl.
  - constructor; [by split_and!|]. apply (Forall2_weaken _ _ _ _ (rp_nodes _ _ _ _ R c k n Hn)). intros q x Hq. unfold node_is, addr.
    rewrite E7; [done|]. by intros ->.
Qed.

(** The victim goes to the bottom. *)
Lemma victim_refines (s : store) (t : sets) (L SP : lists) c k n b bs0 l bs i : represents s t L SP -> stack_n s !! (c, k) = Some n ->
  L (c, k) = b :: l -> SP (c, k) = [] -> set_of c k t = bs0 :: bs -> (i < length l)%nat ->
  exists q s' L', d4findnth c k (2 + Z.of_nat i) s = Ret q /\ d4movetobot c k q s = s' /\
    represents s' (with_set c k (to_end (S i) (bs0 :: bs)) t) L' SP /\ stack_n s' = stack_n s /\ b ∈ L' (c, k) /\ node b s' = node b s.
Proof.
  intros R Hn El Esp Et Hi. pose proof (rp_shape _ _ _ _ R) as Hsh. pose proof (sh_stack _ _ _ Hsh c k n Hn) as Hok.
  destruct (lookup_lt_is_Some_2 _ _ Hi) as [q Hq]. pose proof (k_len _ _ _ _ _ _ Hok) as Hlen. rewrite El, Esp, app_nil_r in Hlen. cbn [length] in Hlen.
  pose proof Hq as (l1 & l2 & E & Ei)%list_elem_of_split_length. rewrite El, Esp, E in Hok.
  destruct (movetobot_ok s c k n b l1 q l2 Hok) as (Hok' & Hloc & Hrl).
  exists q, (d4movetobot c k q s), (upd L c k (b :: l1 ++ l2 ++ [q])).
  assert (Hnode : forall x, node x (d4movetobot c k q s) = node x s) by (intros x; unfold node; by destruct Hrl as (_ & -> & _)).
  split.
  { apply (findnth_ok s c k n _ [] _ q Hok); [lia|]. rewrite app_nil_r. replace (Z.to_nat (2 + Z.of_nat i - 1)) with (S i) by lia. cbn. by rewrite <- E. }
  split; [done|]. split_and!; [|by apply Hrl|rewrite upd_eq; by left|done].
  pose proof (rp_nodes _ _ _ _ R c k n Hn) as Hf. rewrite El, Et, E in Hf. apply Forall2_cons in Hf as [F0 Hf].
  apply Forall2_app_inv_l in Hf as (b1 & bs' & F1 & F2 & ->). apply Forall2_cons_inv_l in F2 as (bq & b2 & Fq & F2 & ->).
  assert (Hto : to_end (S i) (bs0 :: b1 ++ bq :: b2) = bs0 :: b1 ++ b2 ++ [bq]).
  { rewrite to_end_cons. unfold to_end. apply Forall2_length in F1 as Hl1.
    assert (El1 : i = length b1) by congruence. rewrite El1, list_lookup_middle, delete_middle by done. by rewrite <- app_assoc. }
  rewrite Hto. apply (represents_upd s _ t _ L SP SP c k n (b :: l1 ++ l2 ++ [q]) (bs0 :: b1 ++ b2 ++ [bq]) R Hn).
  - apply (shaped_relinked s L SP Hsh c k n Hn); [by rewrite El, Esp, app_nil_r, E|done|by rewrite Esp|]. rewrite El, E. constructor.
    apply Permutation_app_head. symmetry. apply Permutation_cons_append.
  - apply Hrl.
  - intros x _. apply Hnode.
  - eapply sets_upd_with, sets_upd_refl.
  - assert (Hw : forall l bs, Forall2 (node_is s) l bs -> Forall2 (node_is (d4movetobot c k q s)) l bs).
    { intros l' bs' Hf. apply (Forall2_weaken _ _ _ _ Hf). intros y x _. unfold node_is, addr. by rewrite Hnode. }
    apply Hw. constructor; [done|]. repeat apply Forall2_app; try done. by constructor.
Qed.

Lemma with_set_twice c k l l' t : with_set c k l (with_set c k l' t) = with_set c k l t.
Proof. unfold with_set. cbn. by rewrite insert_insert_eq. Qed.

Lemma replace_miss_refines (s : store) (t : sets) (L SP : lists) c k n ba pol r : represents s t L SP -> settled t ->
  stack_n s !! (c, k) = Some n -> ba ∉ addresses (set_of c k t) ->
  exists p s' t' r' L' SP', replace_block (T := store) pol c k ba None s r = Ret (p, s', r') /\
    replace_block (T := sets) pol c k ba None t r = Ret ((c, k, ba), t', r') /\
    represents s' t' L' SP' /\ stack_n s' = stack_n s /\ p ∈ L' (c, k) /\ addr s' p = ba /\ valid (node p s') = 0.
Proof.
  intros R Hs Hn Hba. destruct (new_top_refines s t L SP c k n ba R Hs Hn Hba) as (b & s1 & sp' & E1 & R1 & E2 & E3 & E4 & E5 & E6).
  set (bs := set_of c k t) in *. set (b0 := mk_block ba 0 0 0) in *. set (t1 := with_set c k (b0 :: bs) t) in *.
  assert (Hin : b ∈ upd L c k (b :: L (c, k)) (c, k)) by (rewrite upd_eq; by left).
  assert (Hn1 : stack_n s1 !! (c, k) = Some n) by (by rewrite E2).
  cbn [replace_block store_blocks list_blocks default]. unfold d4rep_lru, d4rep_fifo, d4rep_random. cbn [Z.eqb NULL negb].
  rewrite E1. cbn [mbind run_bind]. fold bs b0. rewrite (ways_same s t L SP R c k n Hn).
  destruct pol; [do 6 eexists; split; [reflexivity|]; split; [reflexivity|]; eauto 10..|].
  pose proof (sh_stack _ _ _ (rp_shape _ _ _ _ R) c k n Hn) as Hok. pose proof (sh_stack _ _ _ (rp_shape _ _ _ _ R1) c k n Hn1) as Hok1.
  pose proof (Forall2_length _ _ _ (rp_nodes _ _ _ _ R c k n Hn)) as Hll. fold bs in Hll.
  pose proof (k_len _ _ _ _ _ _ Hok1) as Hlen. rewrite !upd_eq in Hlen, Hok1. rewrite length_app in Hlen. cbn [length] in Hlen.
  pose proof (k_n2 _ _ _ _ _ _ Hok) as Hn2.
  assert (Htop : stack_top c k s1 = b) by (by apply (stack_top_ok s1 c k n _ sp' b (L (c, k) ++ sp') Hok1)).
  rewrite (stack_size_ok s c k n _ _ Hok). destruct sp' as [|z sp''].
  - assert (Hne : L (c, k) <> []). { pose proof (k_n2 _ _ _ _ _ _ Hok). destruct (L (c, k)); [cbn in Hlen; lia|done]. }
    destruct (exists_last Hne) as (l0 & z & El).
    assert (Hbot : (up s1).[b] = z).
    { rewrite <- Htop. apply (bottom_ok s1 _ _ (rp_shape _ _ _ _ R1) c k n Hn1 (b :: l0)). by rewrite !upd_eq, app_nil_r, El. }
    assert (Hz : valid (node z s1) <> 0).
    { assert (Hzl : z ∈ L (c, k)) by (rewrite El; apply elem_of_app; right; by left). rewrite E6.
      - by apply (settled_valid s t L SP R Hs c k n).
      - intros ->. pose proof (k_nodup _ _ _ _ _ _ Hok1) as Hnd. cbn [app] in Hnd. apply NoDup_cons in Hnd as [Hnd _]. apply Hnd, elem_of_app. by left. }
    rewrite Hbot, (proj2 (Z.eqb_neq _ _) Hz). cbn [negb]. cbn [length] in Hlen.
    assert (Hfull : Z.of_nat (length (b0 :: bs)) = n) by (cbn [length]; lia). rewrite (proj2 (Z.eqb_eq _ _) Hfull).
    pose proof (Z.mod_pos_bound (random r) (n - 1) ltac:(lia)) as Hmod. set (i := Z.to_nat (random r mod (n - 1))).
    assert (Ei : random r mod (n - 1) = Z.of_nat i) by lia. rewrite Ei. replace (Z.to_nat (1 + Z.of_nat i)) with (S i) by lia.
    destruct (victim_refines s1 t1 (upd L c k (b :: L (c, k))) (upd SP c k []) c k n b b0 (L (c, k)) bs i R1 Hn1) as (q & s2 & L2 & V1 & V2 & V3 & V4 & V5 & V6);
      [by rewrite upd_eq|by rewrite upd_eq|apply set_with_eq|lia|]. rewrite V1. cbn [mbind run_bind]. unfold t1 in V3. rewrite with_set_twice in V3.
    do 6 eexists. split; [reflexivity|]. split; [reflexivity|]. rewrite V2. split; [exact V3|]. split; [congruence|]. split; [done|]. unfold addr. by rewrite V6.
  - assert (Hbot : exists z', (up s1).[b] = z' /\ valid (node z' s1) = 0).
    { destruct (exists_last (l := z :: sp'')) as (sp3 & z' & E3'); [done|]. exists z'. split.
      - rewrite <- Htop. apply (bottom_ok s1 _ _ (rp_shape _ _ _ _ R1) c k n Hn1 ((b :: L (c, k)) ++ sp3)). by rewrite !upd_eq, E3', <- app_assoc.
      - apply (k_spare _ _ _ _ _ _ Hok1). rewrite E3'. apply elem_of_app. right. by left. }
    destruct Hbot as (z' & -> & ->). cbn [Z.eqb negb]. assert (Hfull : Z.of_nat (length (b0 :: bs)) <> n) by (cbn [length] in *; lia).
    rewrite (proj2 (Z.eqb_neq _ _) Hfull). do 6 eexists. split; [reflexivity|]. split; [reflexivity|]. eauto 10.
Qed.

(** The block at the bottom leaves a full set. *)
Lemma evict_refines (s : store) (t : sets) (L SP : lists) c k n : represents s t L SP -> stack_n s !! (c, k) = Some n ->
  Forall (fun b => valid b <> 0) (set_of c k t) ->
  exists v s' t' L' SP', evict_block (T := store) c k s = Ret (v, s') /\ evict_block (T := sets) c k t = Ret (v, t') /\
    represents s' t' L' SP' /\ stack_n s' = stack_n s.
Proof.
  intros R Hn Hv. pose proof (rp_shape _ _ _ _ R) as Hsh. pose proof (sh_stack _ _ _ Hsh c k n Hn) as Hok.
  pose proof (k_len _ _ _ _ _ _ Hok) as Hlen. rewrite length_app in Hlen.
  pose proof (rp_nodes _ _ _ _ R c k n Hn) as Hf. pose proof (Forall2_length _ _ _ Hf) as Hll.
  cbn [evict_block list_blocks]. rewrite (ways_same s t L SP R c k n Hn). destruct (SP (c, k)) as [|z sp] eqn:Esp.
  - cbn [length] in Hlen. rewrite (proj2 (Z.eqb_eq _ _)) by lia.
    assert (Hne : L (c, k) <> []). { pose proof (k_n2 _ _ _ _ _ _ Hok). destruct (L (c, k)); [cbn in Hlen; lia|done]. }
    destruct (exists_last Hne) as (l0 & b & El). rewrite El in Hf. apply Forall2_app_inv_l in Hf as (b1 & bs' & F1 & F2 & Eb).
    apply Forall2_cons_inv_l in F2 as (x & b2 & Fx & F2 & ->). apply Forall2_nil_inv_l in F2 as ->.
    assert (Hx : valid x <> 0) by (rewrite Eb in Hv; apply Forall_app in Hv as [_ Hv]; by apply Forall_cons in Hv as [Hv _]).
    destruct Fx as (_ & X2 & X3). specialize (X3 Hx).
    destruct (evict_ok s L SP c k n l0 b Hsh Hn El Esp) as (s' & -> & S1 & S2 & S3); [by rewrite X3|].
    exists (Some (node b s)), s'. eexists _, (upd L c k l0), (upd SP c k [b]). split; [done|].
    assert (Elast : last (set_of c k t) = Some (node b s)) by (by rewrite Eb, last_snoc, X3).
    assert (Erem : removelast (set_of c k t) = b1) by (by rewrite Eb, removelast_last). rewrite Elast, Erem. split; [reflexivity|]. split; [|by apply S2].
    apply (represents_upd s s' t _ L SP _ c k n l0 b1 R Hn S1 S2).
    + intros p Hp. apply S3. intros ->. apply Hp. rewrite El. apply elem_of_app. left. apply elem_of_app. right. by left.
    + eapply sets_upd_with, sets_upd_refl.
    + apply (Forall2_weaken _ _ _ _ F1). intros p y Hp. unfold node_is, addr. rewrite S3; [done|]. intros ->.
      pose proof (k_nodup _ _ _ _ _ _ Hok) as Hnd. rewrite El, app_nil_r in Hnd. apply NoDup_app in Hnd as (_ & Hnd & _). apply (Hnd b Hp). by left.
  - exists None, s, t, L, SP. rewrite (evict_none s L SP Hsh c k n Hn) by (by rewrite Esp).
    rewrite (proj2 (Z.eqb_neq _ _)) by (cbn [length] in Hlen; lia). done.
Qed.

Lemma node_block (s : store) (t : sets) (L SP : lists) c k n p ba : represents s t L SP -> stack_n s !! (c, k) = Some n ->
  p ∈ L (c, k) -> addr s p = ba -> node_is s p (block_at ba (set_of c k t)).
Proof.
  intros R Hn Hp Ha. pose proof Hp as (l1 & l2 & E)%list_elem_of_split.
  destruct (node_is_middle s l1 p l2 (set_of c k t) ba) as (b1 & b & b2 & _ & _ & _ & F & _ & -> & _); [| |done|done].
  - rewrite <- E. by apply (rp_nodes _ _ _ _ R c k n).
  - rewrite <- E. by apply (k_addr _ _ _ _ _ _ (sh_stack _ _ _ (rp_shape _ _ _ _ R) c k n Hn)).
Qed.

(** ** Whole states *)

Definition refines (s : @d4state store) (a : @d4state sets) : Prop :=
  (exists L SP, represents (blocks s) (blocks a) L SP) /\ cdata s = cdata a /\ rnd s = rnd a.

Context (h : list d4cache).
#[local] Abbreviation par := (par h).

Lemma refines_on_data c f s a : refines s a -> refines (on_data c f s) (on_data c f a).
Proof. intros (R & Hd & Hr). split; [exact R|]. split; [|done]. cbn. by rewrite Hd. Qed.

Lemma refines_data c s a : refines s a -> data_of c s = data_of c a.
Proof. intros (_ & Hd & _). unfold data_of. by rewrite Hd. Qed.

(** The pointers of a reference in both *)
Definition same_ptr (s : store) (L : lists) (c : nat) (k ba : Z) (ptr : option (@handle store store_blocks)) (q : option (@handle sets list_blocks)) : Prop :=
  match ptr, q with
  | Some p, Some q => p ∈ L (c, k) /\ addr s p = ba /\ q = (c, k, ba)
  | None, None => True
  | _, _ => False
  end.

Lemma touch_same m sb is_miss s p b : node_is s p b -> (is_miss = true \/ valid (node p s) <> 0) ->
  touch m sb is_miss (node p s) = touch m sb is_miss b.
Proof.
  intros (H1 & H2 & H3) [-> |Hv].
  - unfold touch. cbn. unfold addr in H1. by rewrite H1, H2.
  - rewrite H3; [done|congruence].
Qed.

Lemma update_hit_refines c k ba m n (s : @d4state store) (a : @d4state sets) L SP p wback a' :
  represents (blocks s) (blocks a) L SP -> settled (blocks a) -> stack_n (blocks s) !! (c, k) = Some n -> cdata s = cdata a -> rnd s = rnd a ->
  p ∈ L (c, k) -> addr (blocks s) p = ba ->
  update (T := sets) h c k ba m (Some (c, k, ba)) a = Ret (wback, a') ->
  exists s', update (T := store) h c k ba m (Some p) s = Ret (wback, s') /\ refines s' a'.
Proof.
  intros R Hs Hn Hd Hr Hp Ha. unfold update. fold par.
  destruct (replace_hit_refines (blocks s) (blocks a) L SP c k n p ba (replacementf (par c)) (rnd a) R Hs Hn Hp Ha)
    as (s1 & t1 & L1 & E1 & E2 & R1 & N1 & P1 & A1).
  rewrite Hr, E1, E2. cbn [mbind run_bind]. cbn [andb]. cbn [the_block store_blocks list_blocks put_block].
  assert (Hn1 : stack_n s1 !! (c, k) = Some n) by congruence. assert (Ha1 : addr s1 p = ba) by (unfold addr; by rewrite A1).
  assert (Hv : valid (node p s1) <> 0) by (rewrite A1; by apply (settled_valid (blocks s) (blocks a) L SP R Hs c k n)).
  rewrite (touch_same m _ false s1 p _ (node_block s1 t1 L1 SP c k n p ba R1 Hn1 P1 Ha1)) by auto. set (blk := touch m _ false _).
  assert (Hblk : blockaddr blk = ba).
  { unfold blk. rewrite <- (touch_same m _ false s1 p _ (node_block s1 t1 L1 SP c k n p ba R1 Hn1 P1 Ha1)) by auto. exact Ha1. }
  destruct (if D4BASIC_ATYPE (accesstype m) =? D4XWRITE then _ else _) as [w| |]; cbn [mbind run_bind]; [|done|done]. intros [= <- <-].
  eexists. split; [reflexivity|]. split; [|done]. exists L1, SP. cbn [blocks with_blocks].
  apply (put_refines s1 t1 L1 SP c k n p ba); try done. by destruct w.
Qed.

Lemma update_miss_refines c k ba m n (s : @d4state store) (a : @d4state sets) L SP wback a' :
  represents (blocks s) (blocks a) L SP -> settled (blocks a) -> stack_n (blocks s) !! (c, k) = Some n -> cdata s = cdata a -> rnd s = rnd a ->
  ba ∉ addresses (set_of c k (blocks a)) -> 0 < D4ADDR2SBMASK (par c) m ->
  update (T := sets) h c k ba m None a = Ret (wback, a') ->
  exists s', update (T := store) h c k ba m None s = Ret (wback, s') /\ refines s' a'.
Proof.
  intros R Hs Hn Hd Hr Hba Hsb. unfold update. fold par.
  destruct (replace_miss_refines (blocks s) (blocks a) L SP c k n ba (replacementf (par c)) (rnd a) R Hs Hn Hba)
    as (p & s1 & t1 & r1 & L1 & SP1 & E1 & E2 & R1 & N1 & P1 & A1 & V1).
  assert (Hn1 : stack_n s1 !! (c, k) = Some n) by congruence. pose proof (node_block s1 t1 L1 SP1 c k n p ba R1 Hn1 P1 A1) as Hnode.
  rewrite Hr, E1, E2. cbn [mbind run_bind andb the_block store_blocks list_blocks put_block].
  rewrite <- (proj1 (proj2 Hnode)), V1. cbn [Z.eqb negb]. rewrite (touch_same m _ true s1 p _ Hnode) by auto. set (blk := touch m _ true _).
  assert (Hblk : blockaddr blk = ba) by (unfold blk; rewrite <- (touch_same m _ true s1 p _ Hnode) by auto; exact A1).
  assert (Hval : valid blk <> 0).
  { unfold blk. cbn. rewrite Z.lor_eq_0_iff. fold par. lia. }
  destruct (if D4BASIC_ATYPE (accesstype m) =? D4XWRITE then _ else _) as [w| |]; cbn [mbind run_bind]; [|done|done].
  set (blk' := if (w : bool) then _ else blk). assert (Hblk' : blockaddr blk' = ba) by (unfold blk'; by destruct w).
  assert (Hval' : valid blk' <> 0) by (unfold blk'; by destruct w).
  pose proof (put_refines s1 t1 L1 SP1 c k n p ba blk' R1 Hn1 P1 A1 Hblk') as R2. cbn [blocks with_blocks].
  set (t2 := with_set c k _ t1) in *. set (s2 := set_node p blk' s1) in *.
  assert (Hv2 : Forall (fun b => valid b <> 0) (set_of c k t2)).
  { unfold t2. rewrite set_with_eq. pose proof (rp_ways _ _ _ _ R) as Hw.
    destruct (replace_miss h c k ba a) as (r & t1' & r1' & E3 & Hu & Hp & _).
    { rewrite (ways_same _ _ _ _ R c k n Hn). apply (k_n2 _ _ _ _ _ _ (sh_stack _ _ _ (rp_shape _ _ _ _ R) c k n Hn)). }
    fold par in E3. rewrite E2 in E3. injection E3 as <- <-. rewrite (u_set _ _ _ _ _ Hu). unfold change_at. rewrite fmap_cons. cbn [blockaddr]. rewrite Z.eqb_refl.
    constructor; [done|]. apply change_Forall; [|done]. rewrite Hp. by apply (Hs (c, k) n); rewrite Hw. }
  destruct (evict_refines s2 t2 L1 SP1 c k n R2 Hn1 Hv2) as (v & s3 & t3 & L3 & SP3 & E3 & E4 & R3 & N3).
  rewrite E3, E4. cbn [mbind run_bind].
  assert (R4 : refines (mk_d4 s3 (cdata s) r1) (mk_d4 t3 (cdata a) r1)) by (split; [by exists L3, SP3|done]).
  destruct v as [v|]; [destruct (has _ _)|]; [destruct (d4_wbblock _ v) as [newm| |]; cbn [mbind run_bind]; [|done|done]| |];
    intros [= <- <-]; (eexists; split; [reflexivity|]); [by apply refines_on_data|done|done].
Qed.

(** *** One reference *)

Lemma sets_same c f (a : @d4state sets) : blocks (on_data c f a) = blocks a.
Proof. done. Qed.

Lemma prefetch_refines c m is_miss ptr q s a :
  refines s a -> from_option (fun p => referenced (the_block (T := store) p (blocks s))) 0 ptr = from_option (fun p => referenced (the_block (T := sets) p (blocks a))) 0 q ->
  refines (prefetch (T := store) h c m is_miss ptr s) (prefetch (T := sets) h c m is_miss q a) /\
  blocks (prefetch (T := store) h c m is_miss ptr s) = blocks s /\ blocks (prefetch (T := sets) h c m is_miss q a) = blocks a.
Proof.
  intros R E. unfold prefetch. rewrite E. destruct (_ || _); [|done]. destruct (call_prefetchf _ _ _ _) as [pf|]; [|done].
  destruct (R) as (_ & _ & ->). assert (R1 : refines (mk_d4 (blocks s) (cdata s) (rnd a + 1)) (mk_d4 (blocks a) (cdata a) (rnd a + 1))).
  { destruct R as (R1 & R2 & R3). done. }
  destruct (_ <? _); [destruct (_ <? _)|]; (split; [|done]); [done| |]; by apply refines_on_data.
Qed.

Lemma requests_refine c m is_miss wback walloc s a : refines s a ->
  refines (downstream_requests h c m is_miss wback walloc s) (downstream_requests h c m is_miss wback walloc a).
Proof.
  intros R. unfold downstream_requests. destruct (_ && negb wback), (is_miss && _); repeat apply refines_on_data; done.
Qed.

(** Only the sets of the caches have nodes. *)
Definition homes (a : @d4state sets) : Prop :=
  forall ck n, ways (blocks a) !! ck = Some n -> (ck.1 < length h)%nat /\ is_mem h ck.1 = false /\ 0 <= ck.2 < numsets (data_of ck.1 a).

Lemma good_settled a : good h a -> homes a -> settled (blocks a).
Proof.
  intros Hg Hh [c k] n Hn. destruct (Hh _ _ Hn) as (H1 & H2 & H3). cbn in *. destruct (a_sets h a Hg c H1 H2) as [_ Hs].
  destruct (Hs k H3) as [_ Ho]. unfold ways_of in Ho. rewrite Hn in Ho. split; [apply Ho|].
  eapply Forall_impl; [apply Ho|]. intros b Hb. pose proof (b_valid _ _ _ Hb). lia.
Qed.

Lemma within_homes c a a' : homes a -> within h c a a' -> homes a'.
Proof. intros Hh [] ck n. rewrite w_ways, w_numsets. apply Hh. Qed.

Lemma cache_refines c m s a a' : tree h -> good h a -> homes a -> (c < length h)%nat -> is_mem h c = false -> enters h c m -> refines s a ->
  d4ref_cache (T := sets) h c m a = Ret a' -> exists s', d4ref_cache (T := store) h c m s = Ret s' /\ refines s' a'.
Proof.
  intros HT Ha Hh Hlt Hmem He R. pose proof (t_geometry h HT c Hlt Hmem) as G. assert (Hc : (c < length (cdata a))%nat) by (by rewrite (a_length h a Ha)).
  destruct (a_sets h a Ha c Hlt Hmem) as [Hns Hsets]. pose proof (set_no_range h c m a Hns) as Hk. destruct (Hsets _ Hk) as [Hn Hok].
  destruct (split_step h c m a Hc G He) as (m1 & rs & a1 & Es & Hm1 & He1 & Had & Hty & Ho1 & Hb1 & _ & _ & N1 & _).
  unfold d4ref_cache. fold par (block_no h c m). destruct (d4_splitm (par c) m (block_no h c m)) as [m1' rest] eqn:Esp. injection Es as -> Ea1. cbn zeta. rewrite Ea1.
  set (s1 := match rest with Some _ => _ | None => s end).
  assert (R1 : refines s1 a1) by (unfold s1; rewrite <- Ea1; destruct rest; [by apply refines_on_data|done]).
  rewrite (refines_data c s1 a1 R1), Had, N1. rewrite !(proj2 (Z.eqb_neq (numsets (data_of c a)) 0)) by lia. cbn [mbind run_bind]. fold (set_no h c m a). set (k := set_no h c m a) in *. set (ba := block_no h c m) in *.
  destruct (if D4BASIC_ATYPE (accesstype m1) =? D4XWRITE then call_wallocf _ _ else _) as [walloc| |]; cbn [mbind run_bind]; [|done|done].
  destruct (_ && _); [done|].
  pose proof R1 as ((L & SP & Rr) & Hd1 & Hr1). rewrite Hb1 in Rr. pose proof (good_settled a Ha Hh) as Hs.
  assert (Hw : exists n, stack_n (blocks s1) !! (c, k) = Some n).
  { rewrite <- (rp_ways _ _ _ _ Rr). unfold ways_of in Hn. destruct (ways (blocks a) !! (c, k)) as [n|]; [by exists n|]. cbn in Hn. lia. }
  destruct Hw as [n Hw]. destruct (lookup_refines (blocks s1) (blocks a) L SP c k n ba Rr Hs Hw) as (ptr & Hptr & Hfound).
  rewrite Hptr. cbn [lookup_block list_blocks mbind run_bind]. rewrite Hb1.
  set (q := if bool_decide _ then _ else _).
  assert (Hq : match ptr with
               | Some p => p ∈ L (c, k) /\ addr (blocks s1) p = ba /\ q = Some (c, k, ba) /\ node p (blocks s1) = block_at ba (set_of c k (blocks a))
               | None => q = None /\ ba ∉ addresses (set_of c k (blocks a)) end).
  { unfold q. destruct ptr as [p|].
    - destruct Hfound as (F1 & F2 & F3). rewrite bool_decide_true by done. split_and!; try done.
      pose proof (node_block _ _ L SP c k n p ba Rr Hw F1 F2) as (_ & B2 & B3). apply B3. rewrite <- B2.
      by apply (settled_valid (blocks s1) (blocks a) L SP Rr Hs c k n).
    - by rewrite bool_decide_false. }
  clearbody q. match goal with |- context [prefetch (T := store) h c m1 ?x ptr s1] => set (miss1 := x) end.
  match goal with |- context [prefetch (T := sets) h c m1 ?x q a1] => set (miss2 := x) end.
  assert (Em : miss1 = miss2).
  { unfold miss1, miss2. destruct ptr as [p|]; [|by destruct Hq as [-> _]]. destruct Hq as (_ & _ & -> & E). cbn [the_block store_blocks list_blocks]. by rewrite E. }
  rewrite Em. clearbody miss2. clear miss1 Em.
  destruct (prefetch_refines c m1 miss2 ptr q s1 a1 R1) as (R2 & Hb2 & Hb2').
  { destruct ptr as [p|]; [|by destruct Hq as [-> _]]. destruct Hq as (_ & _ & -> & E). cbn [from_option the_block store_blocks list_blocks]. by rewrite E, Hb1. }
  set (s2 := prefetch h c m1 miss2 ptr s1) in *. set (a2 := prefetch (T := sets) h c m1 miss2 (q : option (@handle sets list_blocks)) a1) in *.
  assert (Ebm : (if ptr is Some _ then false else true) = (if q is Some _ then false else true)).
  { destruct ptr as [p|]; [by destruct Hq as (_ & _ & -> & _)|by destruct Hq as [-> _]]. }
  rewrite Ebm. set (bm := if q is Some _ then false else true) in *.
  repeat match goal with
         | |- context [count (accesstype m1) miss2 ?x] => lazymatch x with bm => fail | _ => change x with bm end
         | |- context [negb ?x || walloc] => lazymatch x with bm => fail | _ => change x with bm end
         | |- context [negb (_ =? _) || negb ?x || walloc] => lazymatch x with bm => fail | _ => change x with bm end
         end.
  assert (Rr2 : represents (blocks s2) (blocks a2) L SP) by (by rewrite Hb2, Hb2', Hb1).
  assert (Hup : forall x, (if negb (D4BASIC_ATYPE (accesstype m1) =? D4XWRITE) || negb bm || walloc then update (T := sets) h c k ba m1 (q : option (@handle sets list_blocks)) a2 else Ret (false, a2)) = Ret x ->
    exists s3, (if negb (D4BASIC_ATYPE (accesstype m1) =? D4XWRITE) || negb bm || walloc then update (T := store) h c k ba m1 ptr s2 else Ret (false, s2)) = Ret (x.1, s3) /\ refines s3 x.2).
  { intros [w a3]. destruct (_ || walloc); [|by intros [= <- <-]; exists s2]. intros E. cbn [fst snd].
    assert (Hs2 : settled (blocks a2)) by (by rewrite Hb2', Hb1). assert (Hw2 : stack_n (blocks s2) !! (c, k) = Some n) by (by rewrite Hb2).
    destruct ptr as [p|].
    - destruct Hq as (Q1 & Q2 & -> & _). apply (update_hit_refines c k ba m1 n s2 a2 L SP p w a3); try done; try apply R2. by rewrite Hb2.
    - destruct Hq as (-> & Q2). apply (update_miss_refines c k ba m1 n s2 a2 L SP w a3); try done; try apply R2; [by rewrite Hb2', Hb1|].
      by apply (sbmask_range (par c) G m1 Hm1). }
  match type of Hup with forall x, ?e = Ret x -> _ => destruct e as [[w a3]| |] end; cbn [mbind run_bind]; [|done|done].
  destruct (Hup _ eq_refl) as (s3 & -> & R3). cbn [fst snd mbind run_bind] in *. intros [= <-]. eexists. split; [reflexivity|].
  apply refines_on_data. by apply requests_refine.
Qed.

(** *** More fuel gives the same result *)

Lemma fuel_mono {T} `{BlockStore T} fuel : forall fuel' c, (fuel <= fuel')%nat ->
  (forall m (s s' : @d4state T), d4ref h fuel c m s = Ret s' -> d4ref h fuel' c m s = Ret s') /\
  (forall (s s' : @d4state T), d4_dopending h fuel c s = Ret s' -> d4_dopending h fuel' c s = Ret s').
Proof.
  induction fuel as [|fuel IH]; [by split|]. intros [|fuel'] c Hf; [lia|]. split.
  - intros m s s'. cbn [d4ref]. destruct (has _ _); [done|]. destruct (_ || _); [done|].
    destruct (d4ref_cache h c m s) as [s1| |]; cbn [mbind run_bind]; [|done|done]. apply (IH fuel' c); lia.
  - intros s s'. cbn [d4_dopending]. destruct (pending _) as [|m rest]; [done|].
    set (s1 := on_data c _ s). change (turn h fuel c m s1 ≫= (fun s => d4_dopending h fuel c s) = Ret s' -> turn h fuel' c m s1 ≫= (fun s => d4_dopending h fuel' c s) = Ret s').
    destruct (turn h fuel c m s1) as [s2| |] eqn:E; cbn [mbind run_bind]; [|done|done].
    assert (E' : turn h fuel' c m s1 = Ret s2).
    { revert E. unfold turn. destruct (negb _); [apply (IH fuel' c); lia|]. destruct (negb _); [apply (IH fuel' c); lia|].
      destruct (count_bytes _ _); [|done]. destruct (downstream _) as [l|]; [|done]. apply (IH fuel' l); lia. }
    rewrite E'. cbn [mbind run_bind]. apply (IH fuel' c). lia.
Qed.

(** One turn is one call of [d4ref]. *)
Lemma on_data_id {T} c (s : @d4state T) : on_data c id s = s.
Proof. destruct s as [b d r]. unfold on_data. cbn. f_equal. by rewrite list_alter_id. Qed.

Lemma on_data_const {T} c f (s : @d4state T) : on_data c (fun _ => f (data_of c s)) s = on_data c f s.
Proof.
  destruct s as [b d r]. unfold on_data, data_of. cbn. f_equal. apply list_eq. intros i. destruct (decide (i = c)) as [->|Hne].
  - rewrite !list_lookup_alter_eq. by destruct (d !! c).
  - by rewrite !list_lookup_alter_ne.
Qed.

Lemma turn_call c m : tree h -> (c < length h)%nat -> is_mem h c = false -> pend_ok h c m ->
  exists c' m' f, (c' < length h)%nat /\ (if is_mem h c' then basic (accesstype m') else enters h c' m') /\
    (forall d, numsets (f d) = numsets d /\ pending (f d) = pending d) /\ (c' = c \/ downstream (par c) = Some c') /\
    (forall T (B : BlockStore T) fuel (s : @d4state T), turn h fuel c m s = d4ref h fuel c' m' (on_data c f s)).
Proof.
  intros HT Hc Hm [Hp|[Hp|Hp]].
  - destruct (t_down h HT c Hc Hm) as (l & Hd & Hl & Hw). exists l, m, (fun d => default d (count_bytes m d)). split; [lia|]. split_and!.
    + destruct Hp as (P1 & P2 & P3). destruct (is_mem h l) eqn:El; [done|]. left. split; [done|]. split; [done|].
      intros E. destruct (Hw (P3 E)); congruence.
    + intros d. destruct (count_bytes_plain h c m d Hp) as (d' & -> & ? & ?). done.
    + by right.
    + intros T B fuel s. unfold turn. fold par. rewrite Hd.
      assert (Hb : Z.land (accesstype m) D4PREFETCH = 0 /\ Z.land (accesstype m) D4_MULTIBLOCK = 0).
      { destruct Hp as (_ & Hb & _). destruct Hb as [-> | [-> | [-> | ->]]]; done. }
      destruct Hb as [-> ->]. cbn [Z.eqb negb]. rewrite <- on_data_const.
      destruct (count_bytes_plain h c m (data_of c s) Hp) as (d' & -> & _). done.
  - exists c, m, id. split; [done|]. rewrite Hm. split_and!; [by right|done|by left|]. intros T B fuel s. unfold turn. rewrite on_data_id.
    destruct Hp as (_ & t & Hb & _ & ->). destruct Hb as [-> | [-> | [-> | ->]]]; done.
  - destruct Hp as (t & Hp & E). exists c, (mk_ref (address m) t (size m)), id. split; [done|]. rewrite Hm. split_and!; [by left|done|by left|].
    intros T B fuel s. unfold turn. rewrite on_data_id, E. destruct Hp as (_ & Hb & _). cbn in Hb. destruct Hb as [-> | [-> | [-> | ->]]]; done.
Qed.

(** What a returning call leaves *)
Lemma ref_result fuel c m (a a' : @d4state sets) : tree h -> (c < length h)%nat -> good h a -> (if is_mem h c then basic (accesstype m) else enters h c m) ->
  d4ref h fuel c m a = Ret a' -> good h a' /\ within h c a a' /\ (is_mem h c = false -> pending (data_of c a') = []).
Proof.
  intros HT Hc Ha He E. destruct (all_ends h HT c Hc m a Ha He) as (N & a'' & HN & H1 & H2 & H3).
  specialize (HN (N + fuel)%nat ltac:(lia)). apply (fuel_mono fuel (N + fuel) c ltac:(lia)) in E. assert (a'' = a') as -> by congruence. done.
Qed.

Lemma ref_refines fuel : tree h ->
  (forall c m s a a', (c < length h)%nat -> good h a -> homes a -> (if is_mem h c then basic (accesstype m) else enters h c m) -> refines s a ->
    d4ref h fuel c m a = Ret a' -> exists s', d4ref h fuel c m s = Ret s' /\ refines s' a') /\
  (forall c s a a', (c < length h)%nat -> is_mem h c = false -> good h a -> homes a -> refines s a ->
    d4_dopending h fuel c a = Ret a' -> exists s', d4_dopending h fuel c s = Ret s' /\ refines s' a').
Proof.
  intros HT. induction fuel as [|fuel [IHr IHd]]; [by split|]. split.
  - intros c m s a a' Hc Ha Hh He R. cbn [d4ref]. fold par. fold (is_mem h c). destruct (is_mem h c) eqn:Hm.
    { intros [= <-]. eexists. split; [reflexivity|]. by apply refines_on_data. }
    rewrite (enters_not_special h c m He). destruct (cache_step h c m a HT Ha Hc Hm He) as (a1 & new & E & Rs). rewrite E. cbn [mbind run_bind]. intros E2.
    destruct (cache_refines c m s a a1 HT Ha Hh Hc Hm He R E) as (s1 & -> & R1). cbn [mbind run_bind].
    apply (IHd c s1 a1 a'); try done; [by eapply step_good|by eapply within_homes; [|eapply step_within]].
  - intros c s a a' Hc Hm Ha Hh R. cbn [d4_dopending]. rewrite (refines_data c s a R). destruct (pending (data_of c a)) as [|m rest] eqn:Ep.
    { intros [= <-]. by exists s. }
    pose proof (a_pending h a Ha c Hc) as Hpa. rewrite Ep in Hpa. apply Forall_cons in Hpa as [Hpm Hpr].
    destruct (good_on_data h c (with_pending rest) a Ha Hc) as [Hg1 Hw1]; [done|done|].
    set (a1 := on_data c (with_pending rest) a) in *. set (s1 := on_data c (with_pending rest) s).
    assert (R1 : refines s1 a1) by (by apply refines_on_data).
    change (turn h fuel c m a1 ≫= (fun s => d4_dopending h fuel c s) = Ret a' -> exists s', turn h fuel c m s1 ≫= (fun s => d4_dopending h fuel c s) = Ret s' /\ refines s' a').
    destruct (turn_call c m HT Hc Hm Hpm) as (c' & m' & f & Hc' & He' & Hf & _ & Ht). rewrite !Ht.
    destruct (good_on_data h c f a1 Hg1 Hc) as [Hg2 Hw2]; [apply Hf|rewrite (proj2 (Hf _)); by apply (a_pending h a1 Hg1)|].
    set (a2 := on_data c f a1) in *. assert (Hh2 : homes a2) by (eapply within_homes; [|exact Hw2]; by eapply within_homes).
    assert (R2 : refines (on_data c f s1) a2) by (by apply refines_on_data).
    destruct (d4ref h fuel c' m' a2) as [a3| |] eqn:E3; cbn [mbind run_bind]; [|done|done]. intros E4.
    destruct (IHr c' m' _ a2 a3 Hc' Hg2 Hh2 He' R2 E3) as (s3 & -> & R3). cbn [mbind run_bind].
    destruct (ref_result fuel c' m' a2 a3 HT Hc' Hg2 He' E3) as (Hg3 & Hw3 & _).
    apply (IHd c s3 a3 a'); try done. by eapply within_homes.
Qed.
End Operations.
