(* ===== verification/DineroSetup.v ===== *)
(** * The start of the cache simulator: [d4setup]

    The nodes of a cache are laid out one after another, [1 + assoc] for each set, and
    linked into a ring ([setup_stack_laid]); at the end all sets are empty, all nodes spare, and the
    whole state represents empty lists ([setup_ok], [start_refines], [start_good]). *)
From S2P Require Import Prelude VpmuInit Dinero DineroStack DineroSpec DineroRun DineroRefine.

Ltac fields_in H := cbn [data down up bucket onstack cachep top stack_n hash_size table nnodes
  set_node set_down set_up set_bucket set_top set_table set_home set_stack_n set_sizes] in H.

(** ** One stack *)

(** Nodes [ptr + i], [lo <= i < hi], are linked to their neighbours; the others are as in [s]. *)
Record linked (c : nat) (k ptr lo hi : Z) (s s' : store) : Prop := {
  l_in : forall i, lo <= i < hi -> (down s').[ptr + i] = ptr + i + 1 /\ (up s').[ptr + i] = ptr + i - 1 /\
           (cachep s').[ptr + i] = Z.of_nat c /\ (onstack s').[ptr + i] = k;
  l_out : forall x, ~ (ptr + lo <= x < ptr + hi) -> (down s').[x] = (down s).[x] /\ (up s').[x] = (up s).[x] /\
           (cachep s').[x] = (cachep s).[x] /\ (onstack s').[x] = (onstack s).[x] }.

(** All but the links and homes of nodes *)
Definition same_rest (s s' : store) : Prop :=
  data s' = data s /\ bucket s' = bucket s /\ table s' = table s /\ top s' = top s /\ stack_n s' = stack_n s /\
  hash_size s' = hash_size s /\ nnodes s' = nnodes s.

Lemma link_fields c k p d u s x :
  (down (link c k p d u s)).[x] = (if decide (p = x) then d else (down s).[x]) /\
  (up (link c k p d u s)).[x] = (if decide (p = x) then u else (up s).[x]) /\
  (cachep (link c k p d u s)).[x] = (if decide (p = x) then Z.of_nat c else (cachep s).[x]) /\
  (onstack (link c k p d u s)).[x] = (if decide (p = x) then k else (onstack s).[x]).
Proof. unfold link. fields. by rewrite !aget_aset. Qed.

Lemma middle_linked c k ptr n s : 0 <= n ->
  let s' := forZ 1 (Z.to_nat (n - 2)) (fun s j => link c k (ptr + j) (ptr + j + 1) (ptr + j - 1) s) s in
  linked c k ptr 1 (Z.max 1 (n - 1)) s s' /\ same_rest s s'.
Proof.
  intros Hn s'. unfold s'.
  pose proof (forZ_ind (fun j s' => linked c k ptr 1 j s s' /\ same_rest s s') 1 (Z.to_nat (n - 2))
    (fun s j => link c k (ptr + j) (ptr + j + 1) (ptr + j - 1) s) s) as Hind.
  replace (1 + Z.of_nat (Z.to_nat (n - 2))) with (Z.max 1 (n - 1)) in Hind by lia. apply Hind.
  - split; [|done]. split; [lia|done].
  - intros j s0 Hj [[H1 H2] H3]. split; [|exact H3]. split.
    + intros i Hi. destruct (link_fields c k (ptr + j) (ptr + j + 1) (ptr + j - 1) s0 (ptr + i)) as (-> & -> & -> & ->).
      case_decide as E; [|apply H1; lia]. assert (j = i) as -> by lia. done.
    + intros x Hx. destruct (link_fields c k (ptr + j) (ptr + j + 1) (ptr + j - 1) s0 x) as (-> & -> & -> & ->).
      case_decide as E; [lia|]. apply H2. lia.
Qed.

(** The stack of [n] nodes from [ptr] on *)
Record laid_out (c : nat) (k ptr n : Z) (s s' : store) : Prop := {
  y_down : forall i, 0 <= i < n -> (down s').[ptr + i] = (if i =? n - 1 then ptr else ptr + i + 1);
  y_up : forall i, 0 <= i < n -> (up s').[ptr + i] = (if i =? 0 then ptr + n - 1 else ptr + i - 1);
  y_home : forall i, 0 <= i < n -> (cachep s').[ptr + i] = Z.of_nat c /\ (onstack s').[ptr + i] = k;
  y_out : forall x, ~ (ptr <= x < ptr + n) -> (down s').[x] = (down s).[x] /\ (up s').[x] = (up s).[x] /\
           (cachep s').[x] = (cachep s).[x] /\ (onstack s').[x] = (onstack s).[x];
  y_rest : same_rest (set_stack_n c k n (set_top c k ptr s)) s' }.

Lemma setup_stack_laid c k ptr n s : 2 <= n -> exists s', setup_stack c n (ptr, s) k = (ptr + n, s') /\ laid_out c k ptr n s s'.
Proof.
  intros Hn. unfold setup_stack. set (s0 := set_stack_n c k n (set_top c k ptr s)).
  destruct (middle_linked c k ptr n s0 ltac:(lia)) as [[H1 H2] H3]. set (s1 := forZ 1 _ _ s0) in *.
  eexists. split; [reflexivity|].
  set (s2 := link c k ptr (ptr + 1) (ptr + n - 1) s1). set (s3 := link c k (ptr + n - 1) ptr (ptr + n - 2) s2).
  assert (F : forall x, (down s3).[x] = (if decide (ptr + n - 1 = x) then ptr else if decide (ptr = x) then ptr + 1 else (down s1).[x]) /\
    (up s3).[x] = (if decide (ptr + n - 1 = x) then ptr + n - 2 else if decide (ptr = x) then ptr + n - 1 else (up s1).[x]) /\
    (cachep s3).[x] = (if decide (ptr + n - 1 = x) then Z.of_nat c else if decide (ptr = x) then Z.of_nat c else (cachep s1).[x]) /\
    (onstack s3).[x] = (if decide (ptr + n - 1 = x) then k else if decide (ptr = x) then k else (onstack s1).[x])).
  { intros x. unfold s3. destruct (link_fields c k (ptr + n - 1) ptr (ptr + n - 2) s2 x) as (-> & -> & -> & ->). unfold s2.
    by destruct (link_fields c k ptr (ptr + 1) (ptr + n - 1) s1 x) as (-> & -> & -> & ->). }
  split.
  - intros i Hi. destruct (F (ptr + i)) as (-> & _). destruct (Z.eqb_spec i (n - 1)) as [->|Hne]; [rewrite decide_True by lia; done|].
    rewrite decide_False by lia. case_decide; [lia|]. apply H1. lia.
  - intros i Hi. destruct (F (ptr + i)) as (_ & -> & _). destruct (Z.eqb_spec i 0) as [->|Hne].
    + rewrite decide_False, decide_True by lia. done.
    + case_decide; [lia|]. rewrite decide_False by lia. apply H1. lia.
  - intros i Hi. destruct (F (ptr + i)) as (_ & _ & -> & ->). case_decide; [done|]. case_decide; [done|]. apply H1. lia.
  - intros x Hx. destruct (F x) as (-> & -> & -> & ->). rewrite !decide_False by lia. apply H2. lia.
  - exact H3.
Qed.

Lemma path_seqZ s m : forall a b, (forall i, 0 <= i < Z.of_nat m -> (down s).[a + i] = a + i + 1 /\ (up s).[a + i + 1] = a + i) ->
  (down s).[a + Z.of_nat m] = b -> (up s).[b] = a + Z.of_nat m -> path s a (seqZ (a + 1) (Z.of_nat m)) b.
Proof.
  induction m as [|m IH]; intros a b Hi Hd Hu.
  - rewrite Z.add_0_r in Hd, Hu. done.
  - rewrite seqZ_cons by lia. destruct (Hi 0 ltac:(lia)) as [H1 H2]. rewrite Z.add_0_r in H1, H2. cbn [path]. split_and!; [done|done|].
    replace (Z.pred (Z.of_nat (S m))) with (Z.of_nat m) by lia. replace (Z.succ (a + 1)) with (a + 1 + 1) by lia. apply IH.
    + intros i Hi'. destruct (Hi (i + 1) ltac:(lia)) as [H3 H4]. replace (a + 1 + i) with (a + (i + 1)) by lia. by rewrite H3, H4.
    + rewrite <- Hd. f_equal. lia.
    + rewrite Hu. lia.
Qed.

Lemma laid_ring c k ptr n s s' : 2 <= n -> laid_out c k ptr n s s' -> ring s' (seqZ ptr n).
Proof.
  intros Hn Hl. rewrite seqZ_cons by lia. cbn [ring]. replace (Z.pred n) with (Z.of_nat (Z.to_nat (n - 1))) by lia. apply path_seqZ.
  - intros i Hi. rewrite (y_down _ _ _ _ _ _ Hl) by lia. replace (ptr + i + 1) with (ptr + (i + 1)) by lia. rewrite (y_up _ _ _ _ _ _ Hl) by lia.
    destruct (Z.eqb_spec i (n - 1)); [lia|]. destruct (Z.eqb_spec (i + 1) 0); lia.
  - rewrite (y_down _ _ _ _ _ _ Hl) by lia. by rewrite (proj2 (Z.eqb_eq _ _)) by lia.
  - pose proof (y_up _ _ _ _ _ _ Hl 0 ltac:(lia)) as E. rewrite Z.add_0_r in E. rewrite E. cbn. lia.
Qed.

(** ** All stacks *)

(** Empty stacks on the nodes before [ptr]; the stacks are those of [W]. *)
Record prepared (W : gmap (nat * Z) Z) (ptr : Z) (s : store) : Prop := {
  pr_data : data s = ∅; pr_bucket : bucket s = ∅; pr_table : table s = ∅;
  pr_n : stack_n s = W;
  pr_ptr : 0 < ptr;
  pr_stacks : exists SP : lists, forall c k n, W !! (c, k) = Some n -> stack_ok (set_sizes 0 (ptr - 1) s) c k n [] (SP (c, k)) }.

Lemma prepared_stack W ptr s c k n : prepared W ptr s -> 2 <= n -> W !! (c, k) = None ->
  exists s', setup_stack c n (ptr, s) k = (ptr + n, s') /\ prepared (<[(c, k) := n]> W) (ptr + n) s' /\ hash_size s' = hash_size s /\ nnodes s' = nnodes s.
Proof.
  intros [P1 P2 P3 P4 P5 (SP & P6)] Hn Hnew. destruct (setup_stack_laid c k ptr n s Hn) as (s' & E & Hl). exists s'. split; [done|].
  pose proof (y_rest _ _ _ _ _ _ Hl) as (R1 & R2 & R3 & R4 & R5 & R6 & R7). fields_in R1; fields_in R2; fields_in R3; fields_in R4; fields_in R5; fields_in R6; fields_in R7.
  split; [|done]. split; try congruence; [lia|]. exists (upd SP c k (seqZ ptr n)). intros c' k' n'.
  destruct (decide ((c', k') = (c, k))) as [[= -> ->]|Hne].
  - rewrite lookup_insert_eq, upd_eq. intros [= ->]. split; fields; rewrite ?app_nil_l; try done.
    + by rewrite R5, lookup_insert_eq.
    + lia.
    + pose proof (laid_ring c k ptr n' s s' Hn Hl) as Hr. destruct (seqZ ptr n') as [|x l]; [done|]. by apply (path_frame s').
    + rewrite R4, lookup_insert_eq. by rewrite seqZ_cons by lia.
    + rewrite length_seqZ. lia.
    + apply NoDup_seqZ.
    + intros p Hp. apply elem_of_seqZ in Hp. split; [lia|]. replace p with (ptr + (p - ptr)) by lia. apply (y_home _ _ _ _ _ _ Hl). lia.
    + intros p _. unfold node. fields. by rewrite R1, P1.
    + constructor.
  - rewrite lookup_insert_ne, upd_ne by done. intros Hn'. destruct (P6 c' k' n' Hn') as [K1 K2 K3 K4 K5 K6 K7 K8 K9]. fields_in K1; fields_in K4; fields_in K7.
    rewrite app_nil_l in *. assert (Hin : forall p, p ∈ SP (c', k') -> 0 < p < ptr) by (intros p Hp; destruct (K7 p Hp); lia).
    assert (Hout : forall p, p ∈ SP (c', k') -> (down s').[p] = (down s).[p] /\ (up s').[p] = (up s).[p] /\
      (cachep s').[p] = (cachep s).[p] /\ (onstack s').[p] = (onstack s).[p]).
    { intros p Hp. apply (y_out _ _ _ _ _ _ Hl). specialize (Hin p Hp). lia. }
    split; fields; rewrite ?app_nil_l; try done.
    + by rewrite R5, lookup_insert_ne.
    + apply (ring_frame (set_sizes 0 (ptr - 1) s)); [done|]. intros p Hp. fields. destruct (Hout p Hp) as (-> & -> & _). done.
    + by rewrite R4, lookup_insert_ne.
    + intros p Hp. destruct (K7 p Hp) as (? & ? & ?). destruct (Hout p Hp) as (_ & _ & -> & ->). split; [lia|done].
    + intros p _. unfold node. fields. by rewrite R1, P1.
Qed.

Lemma prepared_sets c n s0 ptr m : 2 <= n -> prepared (stack_n s0) ptr s0 -> (forall k, 0 <= k -> stack_n s0 !! (c, k) = None) ->
  exists s', forZ 0 m (setup_stack c n) (ptr, s0) = (ptr + Z.of_nat m * n, s') /\ prepared (stack_n s') (ptr + Z.of_nat m * n) s' /\
    hash_size s' = hash_size s0 /\ nnodes s' = nnodes s0 /\
    forall c' k', stack_n s' !! (c', k') = if decide (c' = c /\ 0 <= k' < Z.of_nat m) then Some n else stack_n s0 !! (c', k').
Proof.
  intros Hn Hp Hnew. induction m as [|m (s1 & E & P1 & H1 & N1 & S1)].
  - exists s0. rewrite forZ_0. replace (ptr + Z.of_nat 0 * n) with ptr by lia. split_and!; try done. intros. rewrite decide_False by lia. done.
  - rewrite forZ_S, E. destruct (prepared_stack (stack_n s1) (ptr + Z.of_nat m * n) s1 c (0 + Z.of_nat m) n P1 Hn) as (s2 & E2 & P2 & H2 & N2).
    { rewrite S1, decide_False by lia. apply Hnew. lia. }
    exists s2. rewrite E2. replace (ptr + Z.of_nat (S m) * n) with (ptr + Z.of_nat m * n + n) by lia. pose proof (pr_n _ _ _ P2) as E3.
    split_and!; [done|by rewrite E3|congruence|congruence|]. intros c' k'. rewrite E3.
    destruct (decide ((c', k') = (c, 0 + Z.of_nat m))) as [[= -> ->]|Hne].
    + rewrite lookup_insert_eq, decide_True by lia. done.
    + rewrite lookup_insert_ne, S1 by done.
      assert (Hk : c' = c -> k' <> Z.of_nat m) by (intros -> ->; apply Hne; f_equal; lia).
      destruct (decide (c' = c /\ 0 <= k' < Z.of_nat m)); [rewrite decide_True by lia|rewrite decide_False by lia]; done.
Qed.

(** ** All caches *)

(** What [d4setup] checks, and that a cache has at least one set *)
Record sized (p : d4cache) : Prop := {
  z_sub : 0 <= lg2subblocksize p <= lg2blocksize p;
  z_size : lg2blocksize p <= lg2size p <= 30;
  z_assoc : 0 < assoc p;
  z_fits : 2 ^ lg2blocksize p * assoc p <= 2 ^ lg2size p }.

Definition sets_count (p : d4cache) : Z :=
  if has (flags p) D4F_MEM then 1 else 2 ^ lg2size p / (2 ^ lg2blocksize p * assoc p).
Definition fresh_data (p : d4cache) : cachedata := mk_data (sets_count p) [] ∅ ∅ ∅ 0 0 0.

Lemma sets_count_pos p : sized p -> has (flags p) D4F_MEM = false -> 0 < sets_count p.
Proof.
  intros [Z1 Z2 Z3 Z4] Hm. unfold sets_count. rewrite Hm. pose proof (Z.pow_pos_nonneg 2 (lg2blocksize p) ltac:(lia) ltac:(lia)).
  apply Z.div_str_pos. nia.
Qed.

Section Setup.
Context (h : list d4cache).
Definition usable : Prop := forall c, (c < length h)%nat -> is_mem h c = false -> sized (par h c).

(** Set [k] of cache [c] exists. *)
Definition real (lo : nat) (c : nat) (k : Z) : Prop :=
  (lo <= c < length h)%nat /\ is_mem h c = false /\ 0 <= k < sets_count (par h c).
#[export] Instance real_dec lo c k : Decision (real lo c k) := _.

(** Caches from [lo] on are set up. *)
Record ready (lo : nat) (s : store) (ds : list cachedata) : Prop := {
  y_prepared : prepared (stack_n s) (nnodes s + 1) s;
  y_stacks : forall c k, stack_n s !! (c, k) = if decide (real lo c k) then Some (1 + assoc (par h c)) else None;
  y_hash : 0 <= hash_size s /\ forall c k n, stack_n s !! (c, k) = Some n -> 0 < hash_size s;
  y_data : ds = (fun c => fresh_data (par h c)) <$> seq lo (length h - lo) }.

Lemma setup_cache_ok c s ds : usable -> (c < length h)%nat -> ready (S c) s ds ->
  exists s', setup_cache (par h c) c s = inr (s', sets_count (par h c)) /\ ready c s' (fresh_data (par h c) :: ds).
Proof.
  intros Hu Hc [Y1 Y2 Y3 Y4]. assert (Hds : fresh_data (par h c) :: ds = (fun c => fresh_data (par h c)) <$> seq c (length h - c)).
  { replace (length h - c)%nat with (S (length h - S c)) by lia. cbn. by rewrite Y4. }
  unfold setup_cache. destruct (has (flags (par h c)) D4F_MEM) eqn:Em.
  { exists s. split; [unfold sets_count; by rewrite Em|]. split; [done| |done|done]. intros c' k. rewrite Y2.
    destruct (decide (c' = c)) as [->|Hne].
    - rewrite !decide_False; [done| |unfold real; lia]. intros (_ & Hm & _). unfold is_mem in Hm. congruence.
    - apply decide_ext. unfold real. intuition lia. }
  pose proof (sets_count_pos _ (Hu c Hc Em) Em) as Hpos. destruct (Hu c Hc Em) as [Z1 Z2 Z3 Z4].
  rewrite !(proj2 (Z.ltb_ge _ _)) by lia. cbn [orb]. rewrite (proj2 (Z.leb_gt _ _)) by lia.
  rewrite !Z.shiftl_mul_pow2, !Z.mul_1_l by lia. assert (Es : 2 ^ lg2size (par h c) / (2 ^ lg2blocksize (par h c) * assoc (par h c)) = sets_count (par h c)).
  { unfold sets_count. by rewrite Em. }
  rewrite Es. destruct (prepared_sets c (1 + assoc (par h c)) s (nnodes s + 1) (Z.to_nat (sets_count (par h c)))) as (s1 & E1 & P1 & H1 & N1 & S1);
    [lia|done| |].
  { intros k _. rewrite Y2. apply decide_False. unfold real. lia. }
  rewrite Z2Nat.id in E1, P1, S1 by lia. rewrite E1. eexists. split; [reflexivity|].
  assert (Hn : nnodes s1 + sets_count (par h c) * (1 + assoc (par h c)) + 1 = nnodes s + 1 + sets_count (par h c) * (1 + assoc (par h c))) by lia.
  assert (Hh : 0 < sets_count (par h c) * assoc (par h c)) by nia.
  split; [| | |done]; fields.
  - rewrite Hn. destruct P1 as [P1 P2 P3 P4 P5 (SP & P6)]. by split; [..|exists SP].
  - intros c' k'. rewrite S1, Y2. destruct (decide (c' = c /\ 0 <= k' < sets_count (par h c))) as [[-> Hk]|Hne].
    + rewrite decide_True; [done|]. unfold real. split; [lia|]. by split.
    + apply decide_ext. unfold real. split; [intros (? & ? & ?); split; [lia|done]|]. intros (Hl & Hm & Hk). split; [|done].
      destruct (decide (c' = c)) as [->|]; [tauto|lia].
  - split; [lia|]. intros. lia.
Qed.

Lemma setup_all_ok : usable -> forall n s ds, (n <= length h)%nat -> ready n s ds ->
  exists s' ds', setup_all h n s ds = inr (s', ds') /\ ready 0 s' ds'.
Proof.
  intros Hu n. induction n as [|n IH]; intros s ds Hn Hr; [by exists s, ds|].
  destruct (setup_cache_ok n s ds Hu ltac:(lia) Hr) as (s1 & E & Hr1). cbn [setup_all]. rewrite E. apply IH; [lia|done].
Qed.

Lemma no_store_ready : ready (length h) no_store [].
Proof.
  split.
  - split; try done. exists (fun _ => []). done.
  - intros c k. rewrite decide_False; [done|]. unfold real. lia.
  - split; [done|]. intros c k n Hx. cbn in Hx. by rewrite lookup_empty in Hx.
  - by rewrite Nat.sub_diag.
Qed.

Context `{RandomStream}.
(** The specification's state at the start *)
Definition start (s : @d4state store) : @d4state sets := mk_d4 (mk_sets ∅ (stack_n (blocks s))) (cdata s) (rnd s).

Lemma setup_ok : usable -> exists s, d4setup h = inr s /\ ready 0 (blocks s) (cdata s) /\ rnd s = 0.
Proof.
  intros Hu. destruct (setup_all_ok Hu (length h) no_store [] ltac:(lia) no_store_ready) as (s & ds & E & Hr).
  exists (mk_d4 s ds 0). unfold d4setup. by rewrite E.
Qed.

Lemma start_refines s : ready 0 (blocks s) (cdata s) -> refines s (start s).
Proof.
  intros [[P1 P2 P3 P4 P5 (SP & P6)] Y2 Y3 Y4]. split; [|done]. exists (fun _ => []), SP. split; [split| |].
  - intros c k n Hn. destruct (P6 c k n Hn) as [K1 K2 K3 K4 K5 K6 K7 K8 K9]. split; try done.
    + by apply (ring_frame (set_sizes 0 (nnodes (blocks s) + 1 - 1) (blocks s))).
    + intros p Hp. destruct (K7 p Hp) as (X1 & X2 & X3). fields_in X1. split; [lia|done].
  - intros i _. exists []. rewrite P3. split_and!; [done|constructor|]. intros p. split; [by intros ?%not_elem_of_nil|].
    intros (c & k & n & _ & _ & Hp & _). by apply not_elem_of_nil in Hp.
  - intros c k n Hn _. by apply (proj2 Y3 c k n).
  - done.
  - intros c k n _. constructor.
Qed.

Lemma fresh_lookup s c : ready 0 (blocks s) (cdata s) -> (c < length h)%nat -> data_of c s = fresh_data (par h c).
Proof.
  intros [_ _ _ Y4] Hc. unfold data_of. rewrite Y4, list_lookup_fmap, lookup_seq_lt by lia. done.
Qed.

Lemma start_good s : usable -> ready 0 (blocks s) (cdata s) -> good h (start s) /\ homes h (start s).
Proof.
  intros Hu Hr. assert (Hlen : length (cdata s) = length h) by (rewrite (y_data _ _ _ Hr), length_fmap, length_seq; lia).
  assert (Hd : forall c, (c < length h)%nat -> data_of c (start s) = fresh_data (par h c)) by (intros; by apply fresh_lookup).
  assert (Hw : forall c k, ways_of c k (blocks (start s)) = if decide (real 0 c k) then 1 + assoc (par h c) else 0).
  { intros c k. unfold ways_of, start. cbn. rewrite (y_stacks _ _ _ Hr). by case_decide. }
  split; [split|].
  - done.
  - intros c Hc Hm. rewrite Hd by done. cbn [numsets fresh_data]. split; [by apply sets_count_pos; [apply Hu|]|].
    intros k Hk. rewrite Hw, decide_True by (split; [lia|by split]). pose proof (z_assoc _ (Hu c Hc Hm)). split; [lia|].
    assert (set_of c k (blocks (start s)) = []) as -> by (unfold set_of, start; cbn; by rewrite lookup_empty).
    split; [cbn; lia|constructor|constructor].
  - intros c Hc. rewrite Hd by done. constructor.
  - intros [c k] n Hn. change (stack_n (blocks s) !! (c, k) = Some n) in Hn. cbn [fst snd]. rewrite (y_stacks _ _ _ Hr) in Hn.
    case_decide as Hreal; [|done]. destruct Hreal as (Hc & Hm & Hk). rewrite Hd by lia. split; [lia|done].
Qed.
End Setup.
