(* ===== verification/DineroTrace.v ===== *)
(** * The cache simulator on a trace of references

    [dinero_thread] hands each reference to the instruction or the data cache.  On
    every trace the linked stacks return and behave as lists ([trace_runs]); the
    instruction cache under LRU holds the last different blocks of each set
    and counts as misses exactly the fetches of other blocks ([fetches_exact]), a
    fetch counting once for each block it touches. *)
From S2P Require Import Prelude VpmuInit Dinero DineroStack DineroSpec DineroRun DineroRefine DineroSetup.

Section Trace.
Context `{RandomStream} (h : list d4cache) (icache dcache : nat).
#[local] Abbreviation par := (par h).

(** The simulator's caches: the data cache serves writes. *)
Record simulated : Prop := {
  m_tree : tree h;
  m_usable : usable h;
  m_icache : (icache < length h)%nat;
  m_dcache : (dcache < length h)%nat;
  m_writes : is_mem h dcache = true \/ writable h dcache = true }.

(** What the VPMU puts into the trace *)
Definition traced (m : d4memref) : Prop :=
  ref_ok m /\ (accesstype m = D4XREAD \/ accesstype m = D4XWRITE \/ accesstype m = D4XINSTRN).

Definition target (m : d4memref) : nat := if accesstype m =? D4XINSTRN then icache else dcache.

Context (S : simulated).

Lemma traced_enters m : traced m -> (target m < length h)%nat /\ (if is_mem h (target m) then basic (accesstype m) else enters h (target m) m).
Proof.
  intros [Hok Ht]. assert (Hb : basic (accesstype m)) by (unfold basic; tauto). unfold target. split; [destruct (_ =? _); apply S|].
  destruct (is_mem h _) eqn:Em; [done|]. left. split; [done|]. split; [done|]. intros E. rewrite E in Em |- *. cbn in Em |- *.
  destruct (m_writes S); congruence.
Qed.

(** One reference, on the lists and on the linked stacks *)
Lemma reference_runs m (s : @d4state store) (a : @d4state sets) : traced m -> good h a -> homes h a -> refines s a ->
  exists N a' s', (forall fuel, (N <= fuel)%nat -> dinero_ref h fuel icache dcache m a = Ret a' /\ dinero_ref h fuel icache dcache m s = Ret s') /\
    refines s' a' /\ good h a' /\ homes h a' /\ within h (target m) a a'.
Proof.
  intros Ht Ha Hh R. destruct (traced_enters m Ht) as [Hc He]. destruct (all_ends h (m_tree S) (target m) Hc m a Ha He) as (N & a' & HN & Hg & Hw & _).
  destruct (proj1 (ref_refines h N (m_tree S)) (target m) m s a a' Hc Ha Hh He R (HN N ltac:(lia))) as (s' & Es & R').
  exists N, a', s'. split; [|split; [done|]; split; [done|]; split; [by eapply within_homes|done]].
  intros fuel Hf. split; [by apply HN|]. by apply (fuel_mono h N fuel (target m) Hf).
Qed.

Lemma trace_from ms : forall (s : @d4state store) (a : @d4state sets), Forall traced ms -> good h a -> homes h a -> refines s a ->
  exists N a' s', (forall fuel, (N <= fuel)%nat -> dinero_refs h fuel icache dcache ms a = Ret a' /\ dinero_refs h fuel icache dcache ms s = Ret s') /\
    refines s' a' /\ good h a' /\ homes h a'.
Proof.
  induction ms as [|m ms IH]; intros s a Ht Ha Hh R; [by exists 0%nat, a, s|]. apply Forall_cons in Ht as [Hm Ht].
  destruct (reference_runs m s a Hm Ha Hh R) as (N1 & a1 & s1 & H1 & R1 & G1 & Hh1 & _).
  destruct (IH s1 a1 Ht G1 Hh1 R1) as (N2 & a2 & s2 & H2 & R2 & G2). exists (N1 + N2)%nat, a2, s2. split; [|done].
  intros fuel Hf. destruct (H1 fuel ltac:(lia)) as [E1 E1']. destruct (H2 fuel ltac:(lia)) as [E2 E2'].
  cbn [dinero_refs]. rewrite E1, E1'. cbn [mbind run_bind]. by rewrite E2, E2'.
Qed.

Lemma trace_runs ms : Forall traced ms -> exists s0, d4setup h = inr s0 /\
  exists N a' s', (forall fuel, (N <= fuel)%nat -> dinero_refs h fuel icache dcache ms (start s0) = Ret a' /\ dinero_refs h fuel icache dcache ms s0 = Ret s') /\
    refines s' a' /\ good h a' /\ homes h a'.
Proof.
  intros Ht. destruct (setup_ok h (m_usable S)) as (s0 & E & Hr & _). exists s0. split; [done|].
  destruct (start_good h s0 (m_usable S) Hr) as [Hg Hh]. apply trace_from; try done. by apply (start_refines h).
Qed.

Lemma refs_mono {T} `{BlockStore T} fuel fuel' : (fuel <= fuel')%nat -> forall ms (s s' : @d4state T),
  dinero_refs h fuel icache dcache ms s = Ret s' -> dinero_refs h fuel' icache dcache ms s = Ret s'.
Proof.
  intros Hf. induction ms as [|m ms IH]; intros s s'; [done|]. cbn [dinero_refs].
  destruct (dinero_ref h fuel icache dcache m s) as [s1| |] eqn:E; cbn [mbind run_bind]; [|done|done]. intros E2.
  assert (E' : dinero_ref h fuel' icache dcache m s = Ret s1) by (by apply (fuel_mono h fuel fuel' _ Hf)).
  rewrite E'. cbn [mbind run_bind]. by apply IH.
Qed.

Lemma final_state ms s0 fuel s' : Forall traced ms -> d4setup h = inr s0 -> dinero_refs h fuel icache dcache ms s0 = Ret s' ->
  exists N a', (forall fuel, (N <= fuel)%nat -> dinero_refs h fuel icache dcache ms (start s0) = Ret a') /\ refines s' a'.
Proof.
  intros Ht E Es. destruct (trace_runs ms Ht) as (s1 & E1 & N & a' & s2 & HN & R & _).
  assert (s1 = s0) as -> by congruence. exists N, a'. split; [intros f Hf; by apply HN|].
  destruct (HN (N + fuel)%nat ltac:(lia)) as [_ E2]. apply (refs_mono fuel (N + fuel)%nat) in Es; [|lia]. by assert (s2 = s') as <- by congruence.
Qed.
End Trace.

(** ** LRU: the last different blocks *)

(** Latest first *)
Fixpoint recent (l : list Z) : list Z := match l with [] => [] | b :: l => b :: filter (fun x => x <> b) (recent l) end.

Lemma recent_NoDup l : NoDup (recent l).
Proof.
  induction l as [|b l IH]; [constructor|]. cbn. apply NoDup_cons. split; [|by apply NoDup_filter].
  intros Hb. apply list_elem_of_filter in Hb as [Hb _]. done.
Qed.

Lemma filter_absent (b : Z) (l : list Z) : b ∉ l -> filter (fun x => x <> b) l = l.
Proof.
  induction l as [|x l IH]; [done|]. rewrite not_elem_of_cons. intros [H1 H2]. rewrite filter_cons_True by congruence. by rewrite IH.
Qed.

(** Taking [b] out of the first [A], or the first [A - 1] without [b] *)
Lemma take_filter (b : Z) (l : list Z) : NoDup l -> forall A, b ∈ take A l -> take (A - 1) (filter (fun x => x <> b) l) = filter (fun x => x <> b) (take A l).
Proof.
  induction 1 as [|x l Hx Hnd IH]; intros A Hb; [by rewrite take_nil in Hb; apply not_elem_of_nil in Hb|].
  destruct A as [|A]; [by apply not_elem_of_nil in Hb|]. rewrite firstn_cons in Hb |- *. destruct (decide (x = b)) as [->|Hne].
  - rewrite !filter_cons_False by (intros X; by apply X). rewrite !filter_absent; [|intros Hin; apply Hx; apply elem_of_take in Hin as (i & Hi & _); by eapply list_elem_of_lookup_2|done].
    by replace (S A - 1)%nat with A by lia.
  - rewrite !filter_cons_True by done. apply elem_of_cons in Hb as [Hb|Hb]; [congruence|].
    destruct A as [|A]; [by apply not_elem_of_nil in Hb|]. replace (S (S A) - 1)%nat with (S A) by lia. rewrite firstn_cons. f_equal.
    rewrite <- IH by done. f_equal. lia.
Qed.

Lemma take_filter_absent (b : Z) (l : list Z) A : b ∉ take A l -> (0 < A)%nat -> take (A - 1) (filter (fun x => x <> b) l) = take (A - 1) l.
Proof.
  revert A. induction l as [|x l IH]; intros A Hb HA; [done|]. destruct A as [|A]; [lia|]. rewrite firstn_cons in Hb.
  apply not_elem_of_cons in Hb as [H1 H2]. rewrite filter_cons_True by congruence. replace (S A - 1)%nat with A by lia.
  destruct A as [|A]; [done|]. rewrite !firstn_cons. f_equal. pose proof (IH (S A) H2 ltac:(lia)) as E. by replace (S A - 1)%nat with A in E by lia.
Qed.

Lemma read_order_recent (n b : Z) (l : list Z) : 1 < n ->
  read_order Lru n b (take (Z.to_nat (n - 1)) (recent l)) = take (Z.to_nat (n - 1)) (recent (b :: l)).
Proof.
  intros Hn. set (A := Z.to_nat (n - 1)). assert (HA : exists A', A = S A') by (exists (Z.to_nat (n - 2)); lia). destruct HA as [A' HA].
  unfold read_order. cbn [recent]. pose proof (take_filter b (recent l) (recent_NoDup l) A) as H1.
  pose proof (take_filter_absent b (recent l) A) as H2. fold A. destruct (bool_decide_reflect (b ∈ take A (recent l))) as [Hin|Hin].
  - cbn [hit_order]. rewrite <- H1 by done. rewrite HA, firstn_cons. f_equal. f_equal. lia.
  - rewrite HA, !firstn_cons. f_equal. rewrite HA in H2. specialize (H2 ltac:(by rewrite <- HA) ltac:(lia)).
    replace (S A' - 1)%nat with A' in H2 by lia. rewrite H2, <- HA. rewrite take_take. f_equal. lia.
Qed.

(** ** Working off plain requests leaves the cache itself alone *)

Section Fetches.
Context `{RandomStream} (h : list d4cache) (HT : tree h).
#[local] Abbreviation par := (par h).

(** The sets and the counters of cache [c] *)
Definition unchanged (c : nat) (a a' : @d4state sets) : Prop :=
  (forall k, set_of c k (blocks a') = set_of c k (blocks a)) /\ ways (blocks a') = ways (blocks a) /\
  numsets (data_of c a') = numsets (data_of c a) /\
  fetch (data_of c a') = fetch (data_of c a) /\ blockmiss (data_of c a') = blockmiss (data_of c a) /\ miss (data_of c a') = miss (data_of c a).

Lemma within_unchanged l c a a' : ~ reach h l c -> within h l a a' -> unchanged c a a' /\ pending (data_of c a') = pending (data_of c a).
Proof. intros Hr []. rewrite w_data by done. split; [|done]. split; [intros k; by apply w_sets|]. by rewrite w_data. Qed.

Lemma unchanged_trans c a b d : unchanged c a b -> unchanged c b d -> unchanged c a d.
Proof.
  intros (A1 & A2 & A3 & A4 & A5 & A6) (B1 & B2 & B3 & B4 & B5 & B6). split; [intros k; by rewrite B1|]. by rewrite B2, B3, B4, B5, B6.
Qed.

(** Plain requests on top of others *)
Lemma dopending_plain c rs : (c < length h)%nat -> is_mem h c = false -> forall fuel l a a', good h a -> pending (data_of c a) = l ++ rs ->
  Forall (plain h c) l -> d4_dopending h fuel c a = Ret a' ->
  exists fuel' a2, unchanged c a a2 /\ pending (data_of c a2) = rs /\ good h a2 /\ d4_dopending h fuel' c a2 = Ret a'.
Proof.
  intros Hc Hm. induction fuel as [|fuel IH]; intros l a a' Ha Ep Hp; [done|]. destruct l as [|m l].
  { intros E. by exists (S fuel), a. }
  cbn [d4_dopending]. rewrite Ep. cbn [app]. apply Forall_cons in Hp as [Hpm Hpr].
  destruct (good_on_data h c (with_pending (l ++ rs)) a Ha Hc) as [Hg1 _].
  { done. } { cbn. pose proof (a_pending h a Ha c Hc) as Hall. rewrite Ep in Hall. by apply Forall_cons in Hall as [_ ?]. }
  set (a1 := on_data c (with_pending (l ++ rs)) a) in *.
  assert (Hd1 : data_of c a1 = with_pending (l ++ rs) (data_of c a)) by (unfold a1; by rewrite data_on_eq by (by rewrite (a_length h a Ha))).
  change (turn h fuel c m a1 ≫= (fun s => d4_dopending h fuel c s) = Ret a' -> exists fuel' a2, unchanged c a a2 /\ pending (data_of c a2) = rs /\ good h a2 /\ d4_dopending h fuel' c a2 = Ret a').
  unfold turn. fold par. destruct (Hpm) as (P1 & P2 & P3).
  assert (Hb : Z.land (accesstype m) D4PREFETCH = 0 /\ Z.land (accesstype m) D4_MULTIBLOCK = 0) by (destruct P2 as [-> | [-> | [-> | ->]]]; done).
  destruct Hb as [-> ->]. cbn [Z.eqb negb].
  assert (Hcb : exists d, count_bytes m (data_of c a1) = Some d /\ numsets d = numsets (data_of c a1) /\ pending d = pending (data_of c a1) /\
    fetch d = fetch (data_of c a1) /\ blockmiss d = blockmiss (data_of c a1) /\ miss d = miss (data_of c a1)).
  { unfold count_bytes. destruct P2 as [-> | [-> | [-> | ->]]]; by eexists. }
  destruct Hcb as (d & -> & D1 & D2 & D3 & D4 & D5). destruct (t_down h HT c Hc Hm) as (x & Hd & Hl & Hw). rewrite Hd.
  destruct (good_on_data h c (fun _ => d) a1 Hg1 Hc D1) as [Hg2 _]; [rewrite D2; by apply (a_pending h a1 Hg1)|].
  set (a2 := on_data c (fun _ => d) a1) in *.
  assert (Hd2 : data_of c a2 = d) by (unfold a2; by rewrite data_on_eq by (by rewrite (a_length h a1 Hg1))).
  destruct (d4ref h fuel x m a2) as [a3| |] eqn:E3; cbn [mbind run_bind]; [|done|done]. intros E4.
  assert (He : if is_mem h x then basic (accesstype m) else enters h x m).
  { destruct (is_mem h x) eqn:El; [done|]. left. split; [done|]. split; [done|]. intros E. destruct (Hw (P3 E)); congruence. }
  destruct (ref_result h fuel x m a2 a3 HT ltac:(lia) Hg2 He E3) as (Hg3 & Hw3 & _).
  assert (Hr : ~ reach h x c) by (intros Hr; pose proof (reach_le h x c HT ltac:(lia) Hr); lia).
  destruct (within_unchanged x c a2 a3 Hr Hw3) as [U3 Hp3].
  assert (U2 : unchanged c a a2) by (unfold unchanged; rewrite Hd2, D1, D3, D4, D5, Hd1; done).
  destruct (IH l a3 a' Hg3) as (fuel' & a4 & U4 & Hp4 & Hg4 & E5); [by rewrite Hp3, Hd2, D2, Hd1|done|done|].
  exists fuel', a4. split; [|done]. eapply unchanged_trans; [exact U2|]. by eapply unchanged_trans.
Qed.

Lemma dopending_none c fuel a a' : pending (data_of c a) = [] -> d4_dopending h fuel c a = Ret a' -> a' = a.
Proof. destruct fuel as [|fuel]; [done|]. cbn [d4_dopending]. intros ->. by intros [= <-]. Qed.

(** The last request of a split reference: the blocks behind *)
Lemma dopending_rest c fuel r t a a' : (c < length h)%nat -> is_mem h c = false -> good h a -> pending (data_of c a) = [r] ->
  plain h c (mk_ref (address r) t (size r)) -> accesstype r = Z.lor t D4_MULTIBLOCK -> d4_dopending h fuel c a = Ret a' ->
  exists fuel' a1, unchanged c a a1 /\ pending (data_of c a1) = [] /\ good h a1 /\ d4ref h fuel' c (mk_ref (address r) t (size r)) a1 = Ret a'.
Proof.
  intros Hc Hm Ha Ep Hr Et. destruct fuel as [|fuel]; [done|]. cbn [d4_dopending]. rewrite Ep.
  assert (Hb : Z.land (accesstype r) D4PREFETCH = 0 /\ Z.land (accesstype r) D4_MULTIBLOCK = D4_MULTIBLOCK /\ Z.ldiff (accesstype r) D4_MULTIBLOCK = t).
  { rewrite Et. destruct Hr as (_ & Hb & _). cbn in Hb. destruct Hb as [-> | [-> | [-> | ->]]]; done. }
  destruct Hb as (-> & -> & ->). cbn [Z.eqb negb D4_MULTIBLOCK].
  destruct (good_on_data h c (with_pending []) a Ha Hc) as [Hg1 _]; [done|by constructor|]. set (a1 := on_data c (with_pending []) a) in *.
  assert (Hd1 : data_of c a1 = with_pending [] (data_of c a)) by (unfold a1; by rewrite data_on_eq by (by rewrite (a_length h a Ha))).
  intros E0. change (d4ref h fuel c (mk_ref (address r) t (size r)) a1 ≫= (fun s => d4_dopending h fuel c s) = Ret a') in E0. revert E0.
  destruct (d4ref h fuel c (mk_ref (address r) t (size r)) a1) as [a2| |] eqn:E; cbn [mbind run_bind]; [|done|done]. intros E2.
  assert (Hen : if is_mem h c then basic t else enters h c (mk_ref (address r) t (size r))) by (rewrite Hm; by left).
  destruct (ref_result h fuel c _ a1 a2 HT Hc Hg1 Hen E) as (_ & _ & Hp2). rewrite (dopending_none c fuel a2 a' (Hp2 Hm) E2).
  exists fuel, a1. split; [unfold unchanged; by rewrite Hd1|]. split; [by rewrite Hd1|]. done.
Qed.
End Fetches.

(** ** The instruction cache *)

Section Lru.
Context `{RandomStream} (h : list d4cache) (icache dcache : nat) (S : simulated h icache dcache).
#[local] Abbreviation par := (par h).
#[local] Abbreviation p := (par icache).

(** An LRU cache of its own, without prefetching *)
Record own_lru : Prop := {
  w_mem : is_mem h icache = false;
  w_lru : replacementf p = Lru;
  w_demand : prefetchf p = Demand;
  w_own : ~ reach h dcache icache }.

(** The blocks of a reference, in order; the addresses wrap *)
Definition touched (m : d4memref) : list Z :=
  let B := 2 ^ lg2blocksize p in
  (fun i => u32 ((address m / B + i) * B)) <$> seqZ 0 ((address m mod B + size m - 1) / B + 1).
(** The blocks fetched, latest first, and those of one set *)
Definition fetches (ms : list d4memref) : list Z :=
  reverse (concat (touched <$> filter (fun m => accesstype m = D4XINSTRN) ms)).
Definition set_number (ba : Z) : Z := D4ADDR2SET p (sets_count p) ba.
Definition of_set (k : Z) (l : list Z) : list Z := filter (fun ba => set_number ba = k) l.
(** The blocks set [k] holds after the fetches [l], most recent first *)
Definition held (k : Z) (l : list Z) : list Z := take (Z.to_nat (assoc p)) (recent (of_set k l)).
(** One miss for each fetch of a block that is not held *)
Fixpoint lru_misses (l : list Z) : Z :=
  match l with [] => 0 | ba :: l => (if decide (ba ∈ held (set_number ba) l) then 0 else 1) + lru_misses l end.

Context (O : own_lru).

Lemma icache_geometry : geometry p.
Proof. apply (t_geometry h (m_tree _ _ _ S)); [apply S|apply O]. Qed.

Lemma block_set m : ref_ok m -> set_number (block_no h icache m) = D4ADDR2SET p (sets_count p) (address m).
Proof.
  intros [Ha _]. pose proof icache_geometry as G.
  destruct (geo_pow p G) as (_ & _ & _ & HB). unfold set_number, block_no, D4ADDR2SET. rewrite block_eq by done.
  rewrite !Z.shiftr_div_pow2 by (destruct G; lia). by rewrite Z.div_mul by lia.
Qed.

(** The blocks of a reference are that of its first part and those of the rest. *)
Lemma touched_split m : ref_ok m -> touched m = block_no h icache m :: concat (touched <$> the_rest h icache m).
Proof.
  intros Hok. pose proof icache_geometry as G. destruct (geo_pow p G) as (_ & _ & _ & HB).
  pose proof (split_spec p G m Hok) as Hs. fold (block_no h icache m) in Hs. pose proof Hok as [Ha Hz]. unfold the_rest.
  pose proof (Z.mod_pos_bound (address m) (2 ^ lg2blocksize p) ltac:(lia)) as Hr. pose proof (block_no_range h icache m G Hok) as Hbr.
  assert (Hb : block_no h icache m = u32 ((address m / 2 ^ lg2blocksize p + 0) * 2 ^ lg2blocksize p)).
  { rewrite Z.add_0_r. unfold block_no in *. rewrite block_eq in * by done. by rewrite u32_small. }
  destruct (d4_splitm p m (block_no h icache m)) as [m1 [r|]]; destruct Hs as (H1 & H2 & H3 & H4); cbn [fst snd] in *; cbn [fmap list_fmap concat].
  - destruct H4 as ([_ Hrz] & H5 & H6 & H7 & _). rewrite app_nil_r. unfold touched. set (B := 2 ^ lg2blocksize p) in *. set (x := address m) in *.
    assert (HW : 2 ^ 32 = B * 2 ^ (32 - lg2blocksize p)) by (unfold B; rewrite <- Z.pow_add_r by (destruct G; lia); f_equal; lia).
    pose proof (Z.pow_pos_nonneg 2 (32 - lg2blocksize p) ltac:(lia) ltac:(destruct G; lia)) as HW0. set (W := 2 ^ (32 - lg2blocksize p)) in *.
    assert (Ex : x + size m1 = (x / B + 1) * B) by (pose proof (Z.mod_eq x B ltac:(lia)); lia).
    assert (Er : address r = (x / B + 1) mod W * B).
    { rewrite H7, Ex. unfold u32, wrap. rewrite HW, (Z.mul_comm B W). apply Z.mul_mod_distr_r; lia. }
    assert (Hq : address r / B = (x / B + 1) mod W) by (rewrite Er; apply Z.div_mul; lia).
    assert (Hm : address r mod B = 0) by (rewrite Er; apply Z.mod_mul; lia). rewrite Hq, Hm.
    assert (Hn : (x mod B + size m - 1) / B = (0 + size r - 1) / B + 1) by (rewrite <- Z.div_add by lia; f_equal; lia).
    pose proof (Z.div_pos (0 + size r - 1) B ltac:(lia) ltac:(lia)).
    rewrite Hn, seqZ_cons by lia. cbn [fmap list_fmap]. f_equal; [done|]. replace (Z.pred ((0 + size r - 1) / B + 1 + 1)) with ((0 + size r - 1) / B + 1) by lia.
    rewrite <- (fmap_add_seqZ 1 0). rewrite <- list_fmap_compose. apply list_fmap_ext. intros _ i _. cbn.
    unfold u32, wrap. rewrite HW, (Z.mul_comm B W), !Z.mul_mod_distr_r by lia. f_equal. rewrite Zplus_mod_idemp_l. f_equal. lia.
  - unfold touched. rewrite (Z.div_small (address m mod _ + size m - 1)); [by rewrite Hb|]. destruct H1 as [_ H1]. rewrite H2 in H1. subst m1. lia.
Qed.

(** The counters from which fetches, missing blocks and misses are counted on *)
Context (f0 b0 m0 : Z).

(** The state after the fetches [l] *)
Record lru_state (l : list Z) (a : @d4state sets) : Prop := {
  v_numsets : numsets (data_of icache a) = sets_count p;
  v_ways : forall k, 0 <= k < sets_count p -> ways_of icache k (blocks a) = 1 + assoc p;
  v_sets : forall k, 0 <= k < sets_count p -> addresses (set_of icache k (blocks a)) = held k l;
  v_fetch : (fetch (data_of icache a)).[D4XINSTRN] = f0 + Z.of_nat (length l);
  v_miss : (blockmiss (data_of icache a)).[D4XINSTRN] = b0 + lru_misses l;
  v_all : lg2subblocksize p = lg2blocksize p -> (miss (data_of icache a)).[D4XINSTRN] = m0 + lru_misses l }.

Lemma lru_unchanged l a a' : lru_state l a -> unchanged icache a a' -> lru_state l a'.
Proof.
  intros [] (U1 & U2 & U3 & U4 & U5 & U6). split; [by rewrite U3|intros; unfold ways_of; by rewrite U2; apply v_ways0|
    intros; by rewrite U1; apply v_sets0|by rewrite U4|by rewrite U5|by rewrite U6].
Qed.

(** The first block of a fetch *)
Lemma lru_step l m a a1 new : ref_ok m -> accesstype m = D4XINSTRN -> lru_state l a -> step_result h icache m a a1 new ->
  lru_state (block_no h icache m :: l) a1.
Proof.
  intros Hok Ei V R. pose proof (z_assoc _ (m_usable _ _ _ S icache (m_icache _ _ _ S) (w_mem O))) as Has. set (ba := block_no h icache m) in *.
  assert (Hk : set_no h icache m a = set_number ba) by (unfold set_no, ba; rewrite (v_numsets _ _ V), block_set; done).
  assert (Hr : 0 <= set_number ba < sets_count p).
  { apply Z.mod_pos_bound. apply sets_count_pos; [apply (m_usable _ _ _ S icache (m_icache _ _ _ S) (w_mem O))|apply O]. }
  assert (Hpres : present h icache m a = bool_decide (ba ∈ held (set_number ba) l)).
  { unfold present. by rewrite Hk, (v_sets _ _ V) by done. }
  destruct (r_sets _ _ _ _ _ _ R) as (l' & [V1 V2 V3] & _ & Hord). split.
  - by rewrite (r_numsets _ _ _ _ _ _ R), (v_numsets _ _ V).
  - intros k Hk'. unfold ways_of. rewrite V3. by apply (v_ways _ _ V).
  - intros k Hk'. unfold held, of_set. destruct (decide (k = set_number ba)) as [Ek|Ek].
    + rewrite Ek, filter_cons_True by done. rewrite <- Hk, V1, Hord; [|unfold is_write; by rewrite Ei|by rewrite (w_lru O)].
      rewrite (w_lru O), Hk, (v_ways _ _ V), (v_sets _ _ V) by done. unfold held, of_set.
      replace (Z.to_nat (assoc p)) with (Z.to_nat (1 + assoc p - 1)) by lia. apply read_order_recent. lia.
    + rewrite filter_cons_False by congruence. pose proof (V2 (icache, k) ltac:(congruence)) as V4. cbn in V4. rewrite V4. by apply (v_sets _ _ V).
  - rewrite (r_fetch _ _ _ _ _ _ R), Ei. unfold incr. rewrite aget_aset_eq, (v_fetch _ _ V). cbn [length]. lia.
  - rewrite (r_blockmiss _ _ _ _ _ _ R), Hpres, Ei. cbn [lru_misses]. unfold incr. destruct (decide (ba ∈ held (set_number ba) l)) as [Ed|Ed].
    + rewrite bool_decide_true by done. rewrite (v_miss _ _ V). lia.
    + rewrite bool_decide_false, aget_aset_eq, (v_miss _ _ V) by done. lia.
  - intros Eq. rewrite (r_miss _ _ _ _ _ _ R Eq), Hpres, Ei. cbn [lru_misses]. unfold incr. destruct (decide (ba ∈ held (set_number ba) l)) as [Ed|Ed].
    + rewrite bool_decide_true by done. rewrite (v_all _ _ V Eq). lia.
    + rewrite bool_decide_false, aget_aset_eq, (v_all _ _ V Eq) by done. lia.
Qed.

(** A whole fetch, block after block *)
Lemma lru_fetch n : forall m l fuel a a', size m <= Z.of_nat n -> ref_ok m -> accesstype m = D4XINSTRN -> good h a -> pending (data_of icache a) = [] ->
  lru_state l a -> d4ref h fuel icache m a = Ret a' -> lru_state (reverse (touched m) ++ l) a' /\ pending (data_of icache a') = [].
Proof.
  pose proof (m_icache _ _ _ S) as Hc. pose proof (w_mem O) as Hm.
  induction n as [|n IH]; intros m l fuel a a' Hn Hok Ei Ha Hp V E; [destruct Hok; lia|].
  assert (He : enters h icache m) by (left; split; [done|]; rewrite Ei; split; [unfold basic; tauto|done]).
  destruct fuel as [|fuel]; [done|]. cbn [d4ref] in E. fold par in E. fold (is_mem h icache) in E. rewrite Hm, (enters_not_special h icache m He) in E.
  destruct (cache_step h icache m a (m_tree _ _ _ S) Ha Hc Hm He) as (a1 & new & E1 & R). rewrite E1 in E. cbn [mbind run_bind] in E.
  pose proof (lru_step l m a a1 new Hok Ei V R) as V1. destruct (r_demand _ _ _ _ _ _ R (w_demand O)) as (l1 & En & Hl1).
  destruct (dopending_plain h (m_tree _ _ _ S) icache (the_rest h icache m) Hc Hm fuel l1 a1 a') as (f2 & a2 & U2 & Hp2 & Hg2 & E2);
    [by eapply step_good|by rewrite (r_pending _ _ _ _ _ _ R), Hp, app_nil_r|done|done|].
  pose proof (lru_unchanged _ _ _ V1 U2) as V2. rewrite touched_split by done. rewrite reverse_cons, <- app_assoc.
  pose proof (split_spec p icache_geometry m Hok) as Hs. fold (block_no h icache m) in Hs. unfold the_rest in *.
  destruct (d4_splitm p m (block_no h icache m)) as [m1 [r|]]; cbn [fst snd] in *; cbn [fmap list_fmap concat].
  - destruct Hs as (H1 & H2 & H3 & H4 & H5 & H6 & H7 & H8).
    assert (Hpl : plain h icache (mk_ref (address r) D4XINSTRN (size r))) by (split; [done|]; split; [unfold basic; cbn; tauto|done]).
    destruct (dopending_rest h (m_tree _ _ _ S) icache f2 r D4XINSTRN a2 a' Hc Hm Hg2 Hp2 Hpl) as (f3 & a3 & U3 & Hp3 & Hg3 & E3); [by rewrite H8, Ei|done|].
    destruct (IH (mk_ref (address r) D4XINSTRN (size r)) (block_no h icache m :: l) f3 a3 a') as [V4 Hp4]; try done; [|by eapply lru_unchanged|].
    { cbn [size]. destruct H1 as [[_ ?] _]. lia. }
    split; [|done]. rewrite app_nil_r. exact V4.
  - rewrite (dopending_none h icache f2 a2 a' Hp2 E2). by split.
Qed.

Lemma lru_reference fuel m l a a' : traced m -> good h a -> pending (data_of icache a) = [] -> lru_state l a -> dinero_ref h fuel icache dcache m a = Ret a' ->
  lru_state (fetches [m] ++ l) a' /\ pending (data_of icache a') = [].
Proof.
  intros Ht Ha Hp V E. destruct (traced_enters h icache dcache S m Ht) as [Hc He]. unfold dinero_ref in E. unfold target in Hc, He. unfold fetches.
  destruct (Z.eqb_spec (accesstype m) D4XINSTRN) as [Ei|Ei].
  - rewrite filter_cons_True by done. cbn [fmap list_fmap concat]. rewrite filter_nil. cbn [fmap list_fmap concat]. rewrite app_nil_r.
    apply (lru_fetch (Z.to_nat (size m)) m l fuel a a'); try done; [|apply Ht]. destruct Ht as [[_ ?] _]. lia.
  - rewrite filter_cons_False by done.
    destruct (ref_result h fuel dcache m a a' (m_tree _ _ _ S) Hc Ha He E) as (_ & Hw & _).
    destruct (within_unchanged h dcache icache a a' (w_own O) Hw) as [U Hp']. split; [by eapply lru_unchanged|by rewrite Hp'].
Qed.

Lemma fetches_cons m ms : fetches (m :: ms) = fetches ms ++ fetches [m].
Proof.
  unfold fetches. rewrite <- reverse_app. f_equal. change (m :: ms) with ([m] ++ ms). by rewrite filter_app, fmap_app, concat_app.
Qed.

Lemma lru_trace fuel ms : forall l (a a' : @d4state sets), Forall traced ms -> good h a -> pending (data_of icache a) = [] -> lru_state l a ->
  dinero_refs h fuel icache dcache ms a = Ret a' ->
  lru_state (fetches ms ++ l) a' /\ pending (data_of icache a') = [].
Proof.
  induction ms as [|m ms IH]; intros l a a' Hf Ha Hp V; cbn [dinero_refs]; [by intros [= <-]|]. apply Forall_cons in Hf as [Hm Hf].
  destruct (dinero_ref h fuel icache dcache m a) as [a1| |] eqn:E; cbn [mbind run_bind]; [|done|done]. intros E2.
  destruct (lru_reference fuel m l a a1 Hm Ha Hp V E) as [V1 Hp1]. rewrite fetches_cons, <- app_assoc. apply (IH _ a1); try done.
  destruct (traced_enters h icache dcache S m Hm) as [Hc He]. by apply (ref_result h fuel (target icache dcache m) m a a1 (m_tree _ _ _ S) Hc Ha He).
Qed.

End Lru.

Lemma lru_start `{RandomStream} h icache dcache (S : simulated h icache dcache) (O : own_lru h icache dcache) s : ready h 0 (blocks s) (cdata s) -> lru_state h icache 0 0 0 [] (start s).
Proof.
  intros Hr. pose proof (m_icache _ _ _ S) as Hc. assert (Hd : data_of icache (start s) = fresh_data (par h icache)) by (by apply fresh_lookup).
  split; rewrite ?Hd; try done.
  - intros k Hk. unfold ways_of, start. cbn. rewrite (y_stacks _ _ _ _ Hr), decide_True; [done|]. split; [lia|]. split; [apply O|done].
  - intros k _. assert (set_of icache k (blocks (start s)) = []) as -> by (unfold set_of, start; cbn; by rewrite lookup_empty).
    unfold held, of_set. cbn. by rewrite take_nil.
Qed.

(** ** The caches [VPMU_cache_init] makes *)

Section Configured.
Context (d4_level : arr) (maxlevel : Z).
#[local] Abbreviation size_at := (size_at d4_level).
#[local] Abbreviation no_ccc := (fun _ _ : Z => false).

(** The cache of a level, but for its place *)
Definition configured (idu lev : Z) (larger : nat) : d4cache :=
  d4_cache_init d4_level no_ccc lev idu (mk_cache (Some larger) MEMORY 0 0 0 0 0 Lru Demand Impossible Impossible 0 0).

(** A configuration the simulator can run: sizes that fit, write policies where
    writes arrive, and no unified cache before split ones *)
Record proper : Prop := {
  c_sized : forall idu lev, 0 <= idu < 3 -> 0 <= lev < maxlevel -> size_at idu lev <> 0 ->
    sized (configured idu lev 0) /\ geometry (configured idu lev 0);
  c_writes : forall idu lev, idu = 0 \/ idu = 2 -> 0 <= lev < maxlevel -> size_at idu lev <> 0 ->
    wallocf (configured idu lev 0) <> Impossible /\ wbackf (configured idu lev 0) <> Impossible;
  c_unified : forall lev lev', 0 <= lev < lev' -> lev' < maxlevel -> size_at 0 lev <> 0 -> size_at 1 lev' = 0 /\ size_at 2 lev' = 0 }.

Context (P : proper).

Definition serves (h : list d4cache) (c : nat) : Prop := is_mem h c = true \/ writable h c = true.

Lemma par_app h x c : (c < length h)%nat -> par (h ++ [x]) c = par h c.
Proof. intros Hc. unfold par. by rewrite lookup_app_l. Qed.
Lemma par_last h x : par (h ++ [x]) (length h) = x.
Proof. unfold par. by rewrite lookup_app_r, Nat.sub_diag by lia. Qed.

Lemma serves_app h x c : (c < length h)%nat -> serves h c -> serves (h ++ [x]) c.
Proof. intros Hc. unfold serves, is_mem, writable. by rewrite par_app. Qed.

(** One more cache behind the others *)
Lemma tree_app h x : tree h -> usable h ->
  (has (flags x) D4F_MEM = false -> sized x /\ geometry x /\ exists l, downstream x = Some l /\ (l < length h)%nat /\
     (writable (h ++ [x]) (length h) = true -> serves h l)) ->
  tree (h ++ [x]) /\ usable (h ++ [x]).
Proof.
  intros [T1 T2] U Hx. assert (Hc : forall c, (c < length (h ++ [x]))%nat -> (c < length h)%nat \/ c = length h).
  { intros c. rewrite length_app. cbn. lia. }
  split; [split|].
  - intros c [Hl | ->]%Hc; unfold is_mem; rewrite ?par_last, ?par_app by done; [by apply T1|]. intros Hm. by apply Hx.
  - intros c [Hl | ->]%Hc; unfold is_mem; rewrite ?par_last, ?par_app by done; intros Hm.
    + destruct (T2 c Hl Hm) as (l & H1 & H2 & H3). exists l. split; [done|]. split; [done|]. unfold writable in *. rewrite !par_app by lia. done.
    + destruct (Hx Hm) as (_ & _ & l & H1 & H2 & H3). exists l. split; [done|]. split; [done|]. intros Hw. rewrite par_app by lia.
      destruct (serves_app h x l H2 (H3 Hw)) as [E|E]; [left|by right]. unfold is_mem in E. by rewrite par_app in E.
  - intros c [Hl | ->]%Hc; unfold is_mem; rewrite ?par_last, ?par_app by done; [by apply U|]. intros Hm. by apply Hx.
Qed.

Lemma configured_flags idu lev l : has (flags (configured idu lev l)) D4F_MEM = false /\ has (flags (configured idu lev l)) D4F_RO = (idu =? 1).
Proof. unfold configured, d4_cache_init. cbn. by destruct (idu =? 1). Qed.

(** What has been built so far *)
Record sound (s : building) : Prop := {
  s_tree : tree (heap s);
  s_usable : usable (heap s);
  s_cd : (b_cd s < length (heap s))%nat /\ serves (heap s) (b_cd s);
  s_ci : (b_ci s < length (heap s))%nat }.

Lemma add_sound lev s idu : sound s -> 0 <= idu < 3 -> 0 <= lev < maxlevel -> (idu = 0 -> size_at 0 lev <> 0 -> serves (heap s) (b_ci s)) ->
  let s' := add_level d4_level no_ccc lev s idu in
  sound s' /\ (size_at idu lev = 0 -> s' = s) /\ (size_at 0 lev <> 0 -> idu = 0 -> b_ci s' = b_cd s').
Proof.
  intros [T U [C1 C2] I1] Hi Hl Hs s'. unfold s', add_level. destruct (Z.eqb_spec (size_at idu lev) 0) as [E|E].
  { split; [by split|]. split; [done|]. intros H1 ->. by rewrite E in H1. }
  cbn [d4new]. set (larger := if idu =? 2 then b_cd s else b_ci s). set (h := heap s) in *.
  match goal with |- context [mk_building (alter ?f ?n ?l)] => assert (alter f n l = h ++ [configured idu lev larger]) as -> end.
  { by rewrite alter_app_r_alt, Nat.sub_diag by lia. }
  set (x := configured idu lev larger).
  assert (Hlt : (larger < length h)%nat) by (unfold larger; by destruct (idu =? 2)). destruct (configured_flags idu lev larger) as [Fm Fr]. fold x in Fm, Fr.
  assert (Hw : writable (h ++ [x]) (length h) = negb (idu =? 1)).
  { unfold writable. rewrite par_last, Fr. destruct (Z.eqb_spec idu 1) as [|Hne]; [done|].
    destruct (c_writes P idu lev ltac:(lia) Hl E) as [W1 W2]. cbn in W1, W2. unfold x. cbn. by destruct (writing_of _), (writing_of _). }
  destruct (tree_app h x T U) as [T' U'].
  { intros _. destruct (c_sized P idu lev Hi Hl E) as [[Z1 Z2 Z3 Z4] [G1 G2 G3]]. split; [by split|]. split; [by split|].
    exists larger. split; [done|]. split; [done|]. rewrite Hw. intros Hne%negb_true_iff%Z.eqb_neq. unfold larger.
    destruct (Z.eqb_spec idu 2); [done|]. assert (idu = 0) as -> by lia. by apply Hs. }
  assert (Hlen : length (h ++ [x]) = S (length h)) by (rewrite length_app; cbn; lia).
  split; [|split; [done|]].
  - split; cbn [heap b_cd b_ci]; [done|done| |].
    + rewrite Hlen. destruct (Z.eqb_spec idu 1) as [->|Hne]; [split; [lia|by apply serves_app]|]. split; [lia|]. right. by rewrite Hw.
    + rewrite Hlen. destruct (idu =? 2); lia.
  - intros _ ->. done.
Qed.

Definition unsplit (lev : Z) : Prop := size_at 1 lev = 0 /\ size_at 2 lev = 0.

Lemma level_sound lev s : sound s -> 0 <= lev < maxlevel -> (size_at 0 lev <> 0 -> b_ci s = b_cd s) ->
  let s' := foldl (add_level d4_level no_ccc lev) s [0; 1; 2] in sound s' /\ (unsplit lev -> b_ci s = b_cd s -> b_ci s' = b_cd s').
Proof.
  intros Hs Hl Hsame s'. unfold s'. cbn [foldl].
  destruct (add_sound lev s 0 Hs ltac:(lia) Hl) as (S0 & E0 & C0).
  { intros _ Hz. rewrite (Hsame Hz). apply Hs. }
  destruct (add_sound lev _ 1 S0 ltac:(lia) Hl ltac:(lia)) as (S1 & E1 & _).
  destruct (add_sound lev _ 2 S1 ltac:(lia) Hl ltac:(lia)) as (S2 & E2 & _). split; [done|]. intros [U1 U2] Heq.
  rewrite (E2 U2), (E1 U1). destruct (decide (size_at 0 lev = 0)) as [Z0|Z0]; [by rewrite (E0 Z0)|by apply C0].
Qed.

Lemma levels_sound n : forall s, Z.of_nat n <= maxlevel -> sound s ->
  (forall lev, 0 <= lev < Z.of_nat n -> size_at 0 lev <> 0 -> b_ci s = b_cd s) -> sound (add_levels d4_level no_ccc n s).
Proof.
  induction n as [|n IH]; intros s Hn Hs Hsame; [done|]. cbn [add_levels].
  destruct (level_sound (Z.of_nat n) s Hs ltac:(lia)) as [S1 C1]; [intros Hz; apply (Hsame (Z.of_nat n)); [lia|done]|].
  apply IH; [lia|done|]. intros lev Hlev Hz. apply C1; [|by apply (Hsame lev); [lia|]]. by apply (c_unified P lev); [lia|lia|].
Qed.

Lemma init_sound h lc : 0 <= maxlevel -> tree h -> usable h -> sound (VPMU_cache_init d4_level no_ccc maxlevel h lc).
Proof.
  intros Hm T U. unfold VPMU_cache_init, d4new. set (x := mk_cache None _ _ _ _ _ _ _ _ _ _ _ _).
  destruct (tree_app h x T U) as [T' U']; [done|]. apply levels_sound; [lia| |done].
  assert (Hlen : length (h ++ [x]) = S (length h)) by (rewrite length_app; cbn; lia).
  split; cbn [heap b_cd b_ci]; [done|done| |lia]. split; [lia|]. left. unfold is_mem. by rewrite par_last.
Qed.

(** *** The instruction cache is not behind the data cache *)

Lemma reach_way h c x y : grounded h -> reach h c x -> h !! x = Some y -> name y ∈ way h c.
Proof.
  intros Hg Hr. induction Hr as [c|c l x Hm Hd Hr IH]; intros Hy.
  - unfold way. cbn [walk]. rewrite Hy. by left.
  - unfold way. cbn [walk]. unfold par in Hd. destruct (h !! c) as [z|] eqn:Hz; [|done]. cbn in Hd. rewrite Hd. right.
    rewrite walk_fuel; [by apply IH|done|]. by apply (Hg c z).
Qed.

Lemma ways_kind idu n x : x ∈ VpmuInit.ways d4_level idu 0 n -> x.1 = idu \/ x.1 = 0.
Proof.
  unfold VpmuInit.ways. intros Hx. apply list_elem_of_In, in_concat in Hx as (l & Hl & Hx). apply list_elem_of_In in Hl, Hx.
  apply list_elem_of_fmap in Hl as (lev & -> & _). unfold level_way in Hx. apply elem_of_app in Hx as [Hx|Hx]; destruct (_ =? 0);
    try (by apply not_elem_of_nil in Hx); apply list_elem_of_singleton in Hx as ->; auto.
Qed.

Lemma init_own h lc : 0 < maxlevel -> grounded h -> size_at 1 0 <> 0 ->
  let s := VPMU_cache_init d4_level no_ccc maxlevel h lc in ~ reach (heap s) (b_cd s) (b_ci s).
Proof.
  intros Hm Hg Hz s. unfold s, VPMU_cache_init, d4new. set (x := mk_cache None _ _ _ _ _ _ _ _ _ _ _ _).
  destruct (way_new h x Hg) as (Hg' & Hw & _); [done|].
  assert (B : built (mk_building (h ++ [x]) (length h) (length h) lc) [MEMORY] [MEMORY]).
  { constructor; cbn [heap b_cd b_ci]; [done|rewrite length_app; cbn; lia..|exact Hw|exact Hw]. }
  destruct (levels_spec d4_level no_ccc (Z.to_nat maxlevel) _ _ _ B) as (B' & _); [done| |].
  { intros lev lev' H1 H2 Hz'. unfold level_way. by destruct (c_unified P lev lev' H1 ltac:(lia) Hz') as [-> ->]. }
  set (s' := add_levels _ _ _ _) in *. intros Hr. destruct (lookup_lt_is_Some_2 _ _ (bu_ci _ _ _ B')) as [y Hy].
  pose proof (reach_way _ _ _ _ (bu_grounded _ _ _ B') Hr Hy) as Hin. rewrite (bu_D _ _ _ B') in Hin.
  assert (Hname : name y = (1, 0)).
  { pose proof (bu_I _ _ _ B') as HI. unfold way in HI. cbn [walk] in HI. rewrite Hy in HI. unfold VpmuInit.ways in HI.
    replace (Z.to_nat maxlevel) with (Datatypes.S (Z.to_nat (maxlevel - 1))) in HI by lia. cbn [seq fmap list_fmap concat] in HI.
    unfold level_way in HI. change (Z.of_nat 0) with 0 in HI. rewrite (proj2 (Z.eqb_neq _ 0) Hz) in HI. cbn [app] in HI. by injection HI as HI _. }
  apply elem_of_app in Hin as [Hin|Hin].
  - apply ways_kind in Hin. rewrite Hname in Hin. cbn in Hin. lia.
  - apply list_elem_of_singleton in Hin. by rewrite Hname in Hin.
Qed.
End Configured.

(** ** The properties *)

(** C37: The caches built from a proper configuration can be simulated: every cache has
    a larger one behind it that was made before, its sizes pass [d4setup], it has at least
    one set, and a cache that serves writes only hands them to a cache that does, or to
    the memory.  A first-level instruction cache is not behind the data cache. *)
Theorem configured_caches d4_level maxlevel h lc : 0 < maxlevel -> proper d4_level maxlevel -> tree h -> usable h -> grounded h ->
  let s := VPMU_cache_init d4_level (fun _ _ => false) maxlevel h lc in
  simulated (heap s) (b_ci s) (b_cd s) /\ (size_at d4_level 1 0 <> 0 -> ~ reach (heap s) (b_cd s) (b_ci s)).
Proof.
  intros Hm P T U Hg s. destruct (init_sound d4_level maxlevel P h lc ltac:(lia) T U) as [T' U' [C1 C2] I1].
  split; [by split|]. intros Hz. by apply init_own.
Qed.

Section Properties.
Context `{RandomStream} (h : list d4cache) (icache dcache : nat) (Sim : simulated h icache dcache).

(** C5: The simulator works off every trace: [d4setup] succeeds, and from some nesting
    depth on all references return, on the linked stacks, whatever numbers [random] gives.
    So no assertion fails, no null or stale pointer is followed, and working off
    the requests of prefetches, split references and write-backs comes to an end. *)
Theorem trace_ends ms : Forall traced ms ->
  exists s0, d4setup h = inr s0 /\ exists N s', forall fuel, (N <= fuel)%nat -> dinero_refs h fuel icache dcache ms s0 = Ret s'.
Proof.
  intros Ht. destruct (trace_runs h icache dcache Sim ms Ht) as (s0 & E & N & a' & s' & HN & _).
  exists s0. split; [done|]. exists N, s'. intros fuel Hf. by apply HN.
Qed.

(** C4: Linked stacks and hash chains behave as lists.  Whatever a trace leaves on the
    linked nodes is what it leaves on [sets]: the same counters, requests and place in the random
    stream; stack by stack the blocks from the top down are the list; every ring, its
    links back, its spare nodes and every hash chain are intact ([shaped]). *)
Theorem stacks_are_lists ms fuel s' s0 : Forall traced ms -> d4setup h = inr s0 ->
  dinero_refs h fuel icache dcache ms s0 = Ret s' ->
  exists N a', (forall fuel, (N <= fuel)%nat -> dinero_refs h fuel icache dcache ms (start s0) = Ret a') /\ refines s' a'.
Proof. intros Ht E Es. by apply (final_state h icache dcache Sim ms s0 fuel). Qed.

(** The lists after a trace *)
Lemma icache_state ms s0 fuel s' : own_lru h icache dcache -> Forall traced ms -> d4setup h = inr s0 ->
  dinero_refs h fuel icache dcache ms s0 = Ret s' -> exists a', refines s' a' /\ lru_state h icache 0 0 0 (fetches h icache ms) a'.
Proof.
  intros O Hf E Es. destruct (final_state h icache dcache Sim ms s0 fuel s') as (fuel' & a' & Ea & R); [done..|].
  destruct (setup_ok h (m_usable _ _ _ Sim)) as (s1 & E1 & Hr & _). assert (s1 = s0) as -> by congruence.
  destruct (start_good h s0 (m_usable _ _ _ Sim) Hr) as [Hg _]. exists a'. split; [done|].
  assert (Hpe : pending (data_of icache (start s0)) = []) by (change (pending (data_of icache s0) = []); by rewrite (fresh_lookup h s0 icache Hr (m_icache _ _ _ Sim))).
  destruct (lru_trace h icache dcache Sim O 0 0 0 fuel' ms [] (start s0) a' Hf Hg Hpe (lru_start h icache dcache Sim O s0 Hr) (Ea fuel' ltac:(lia))) as [V _].
  by rewrite app_nil_r in V.
Qed.

(** C6: The instruction cache counts exactly.  It may stand before any hierarchy, and
    data references may come between; with LRU and without prefetching it counts one fetch for each
    block an instruction reference touches, in the order of addresses, and one miss for each of them
    that is not among the last [assoc] different blocks of its set; and the valid nodes of each
    stack, from the top, are those blocks. *)
Theorem fetches_exact ms s0 fuel s' : own_lru h icache dcache -> Forall traced ms -> d4setup h = inr s0 ->
  dinero_refs h fuel icache dcache ms s0 = Ret s' ->
  (fetch (data_of icache s')).[D4XINSTRN] = Z.of_nat (length (fetches h icache ms)) /\
  (blockmiss (data_of icache s')).[D4XINSTRN] = lru_misses h icache (fetches h icache ms) /\
  exists L SP, shaped (blocks s') L SP /\ forall k, 0 <= k < sets_count (par h icache) -> addr (blocks s') <$> L (icache, k) = held h icache k (fetches h icache ms).
Proof.
  intros O Hf E Es. destruct (icache_state ms s0 fuel s' O Hf E Es) as (a' & R0 & V). pose proof R0 as ((L & SP & R) & _).
  rewrite (refines_data icache s' a' R0). split; [apply V|]. split; [apply V|]. exists L, SP. split; [apply R|].
  intros k Hk. pose proof (v_ways _ _ _ _ _ _ _ V k Hk) as Hw. pose proof (z_assoc _ (m_usable _ _ _ Sim icache (m_icache _ _ _ Sim) (w_mem _ _ _ O))) as Has.
  assert (Hn : exists n, stack_n (blocks s') !! (icache, k) = Some n).
  { rewrite <- (rp_ways _ _ _ _ R). unfold ways_of in Hw. destruct (ways (blocks a') !! (icache, k)) as [n|]; [by exists n|]. cbn in Hw. lia. }
  destruct Hn as [n Hn]. rewrite (addresses_same (blocks s') (blocks a') L SP R icache k n Hn). by apply (v_sets _ _ _ _ _ _ _ V).
Qed.
End Properties.

(** *** More ways *)

Lemma held_more h1 h2 i1 i2 k l : lg2blocksize (par h1 i1) = lg2blocksize (par h2 i2) -> sets_count (par h1 i1) = sets_count (par h2 i2) ->
  assoc (par h1 i1) <= assoc (par h2 i2) -> forall ba, ba ∈ held h1 i1 k l -> ba ∈ held h2 i2 k l.
Proof.
  intros Hb Hn Ha ba Hin. unfold held, of_set, set_number, D4ADDR2SET in *. rewrite Hb, Hn in Hin.
  apply elem_of_take in Hin as (i & Hi & Hlt). apply elem_of_take. exists i. split; [done|lia].
Qed.

Lemma misses_more h1 h2 i1 i2 : lg2blocksize (par h1 i1) = lg2blocksize (par h2 i2) -> sets_count (par h1 i1) = sets_count (par h2 i2) ->
  assoc (par h1 i1) <= assoc (par h2 i2) -> forall l, lru_misses h2 i2 l <= lru_misses h1 i1 l.
Proof.
  intros Hb Hn Ha. induction l as [|ba l IH]; [done|]. cbn [lru_misses].
  assert (Hs : set_number h2 i2 ba = set_number h1 i1 ba) by (unfold set_number, D4ADDR2SET; by rewrite Hb, Hn). rewrite Hs.
  destruct (decide (ba ∈ held h1 i1 _ l)) as [H1|H1].
  - rewrite decide_True by (by apply (held_more h1 h2 i1 i2)). lia.
  - destruct (decide _); lia.
Qed.

Lemma fetches_same h1 h2 i1 i2 ms : lg2blocksize (par h1 i1) = lg2blocksize (par h2 i2) -> fetches h1 i1 ms = fetches h2 i2 ms.
Proof. intros Hb. unfold fetches, touched. by rewrite Hb. Qed.

(** More ways never miss more.  Two simulated machines whose instruction caches have
    the same blocks and the same number of sets, the second with at least as many blocks in a
    set, whatever stands behind them: on the same trace the second counts at most as many
    instruction misses. *)
Theorem more_ways `{RandomStream} h1 i1 d1 h2 i2 d2 ms s1 s2 f1 f2 t1 t2 :
  simulated h1 i1 d1 -> own_lru h1 i1 d1 -> simulated h2 i2 d2 -> own_lru h2 i2 d2 ->
  lg2blocksize (par h1 i1) = lg2blocksize (par h2 i2) -> sets_count (par h1 i1) = sets_count (par h2 i2) -> assoc (par h1 i1) <= assoc (par h2 i2) ->
  Forall traced ms -> d4setup h1 = inr s1 -> d4setup h2 = inr s2 ->
  dinero_refs h1 f1 i1 d1 ms s1 = Ret t1 -> dinero_refs h2 f2 i2 d2 ms s2 = Ret t2 ->
  (blockmiss (data_of i2 t2)).[D4XINSTRN] <= (blockmiss (data_of i1 t1)).[D4XINSTRN].
Proof.
  intros S1 O1 S2 O2 Hb Hn Ha Hf E1 E2 R1 R2.
  destruct (icache_state h1 i1 d1 S1 ms s1 f1 t1 O1 Hf E1 R1) as (a1 & A1 & V1).
  destruct (icache_state h2 i2 d2 S2 ms s2 f2 t2 O2 Hf E2 R2) as (a2 & A2 & V2).
  rewrite (refines_data i1 t1 a1 A1), (refines_data i2 t2 a2 A2), (v_miss _ _ _ _ _ _ _ V1), (v_miss _ _ _ _ _ _ _ V2), <- (fetches_same h1 h2 i1 i2 ms Hb).
  by apply misses_more.
Qed.

(** ** Witnesses *)

#[local] Instance zeros : RandomStream := fun _ => 0.

(** The Cortex-A9's caches *)
Lemma a9_proper : proper a9_levels 2.
Proof.
  assert (Hsz : forall idu lev, 0 <= idu < 3 -> 0 <= lev < 2 -> size_at a9_levels idu lev <> 0 ->
    (idu, lev) = (1, 0) \/ (idu, lev) = (2, 0) \/ (idu, lev) = (0, 1)).
  { intros idu lev Hi Hl. assert (idu = 0 \/ idu = 1 \/ idu = 2) as [-> | [-> | ->]] by lia; assert (lev = 0 \/ lev = 1) as [-> | ->] by lia;
      intros Hz; auto; exfalso; apply Hz; vm_compute; reflexivity. }
  split.
  - intros idu lev Hi Hl Hz. destruct (Hsz idu lev Hi Hl Hz) as [[= -> ->] | [[= -> ->] | [= -> ->]]];
      (split; split; vm_compute; repeat split; discriminate || reflexivity).
  - intros idu lev Hi Hl Hz. destruct (Hsz idu lev ltac:(lia) Hl Hz) as [[= -> ->] | [[= -> ->] | [= -> ->]]];
      (split; vm_compute; discriminate).
  - intros lev lev' H1 H2 Hz. assert (lev = 0) as -> by lia. exfalso. apply Hz. vm_compute. reflexivity.
Qed.

Lemma nothing_yet : tree [] /\ usable [] /\ grounded [].
Proof. split; [split; intros c Hc; cbn in Hc; lia|]. split; [intros c Hc; cbn in Hc; lia|]. intros c x l Hx. discriminate Hx. Qed.

Definition a9 : building := VPMU_cache_init a9_levels (fun _ _ => false) 2 [] ∅.

Theorem configured_caches_witness :
  0 < 2 /\ size_at a9_levels 1 0 = 32768 /\ simulated (heap a9) (b_ci a9) (b_cd a9) /\ ~ reach (heap a9) (b_cd a9) (b_ci a9).
Proof.
  destruct nothing_yet as (T & U & G). split; [lia|]. split; [vm_compute; reflexivity|].
  destruct (configured_caches a9_levels 2 [] ∅ ltac:(lia) a9_proper T U G) as [H1 H2].
  split; [exact H1|]. apply H2. vm_compute. discriminate.
Defined.

Lemma a9_simulated : simulated (heap a9) (b_ci a9) (b_cd a9).
Proof.
  destruct nothing_yet as (T & U & _). destruct (init_sound a9_levels 2 a9_proper [] ∅ ltac:(lia) T U) as [T' U' [C1 C2] I1]. by split.
Qed.

(** An instruction, a read across two blocks, a write *)
Definition three : list d4memref := [mk_ref 4096 D4XINSTRN 4; mk_ref 8222 D4XREAD 8; mk_ref 8192 D4XWRITE 4].
Lemma three_traced : Forall traced three.
Proof. repeat constructor; cbn; auto; lia. Qed.

Theorem trace_ends_witness : exists s0, d4setup (heap a9) = inr s0 /\
  exists N s', forall fuel, (N <= fuel)%nat -> dinero_refs (heap a9) fuel (b_ci a9) (b_cd a9) three s0 = Ret s'.
Proof. exact (trace_ends (heap a9) (b_ci a9) (b_cd a9) a9_simulated three three_traced). Defined.

(** Two small first-level caches of one set and 16-byte blocks before the memory *)
Definition small_cache (fl sz a : Z) : d4cache := mk_cache (Some 0%nat) (1, 0) fl 4 4 sz a Lru Demand Never AlwaysW 16 0.
Definition small (sz a : Z) : list d4cache :=
  [mk_cache None MEMORY D4F_MEM 0 0 0 1 Lru Demand Impossible Impossible 0 0; small_cache D4F_RO sz a; small_cache 0 sz a].

Lemma small_simulated sz a : 4 <= sz <= 30 -> 0 < a -> 2 ^ 4 * a <= 2 ^ sz -> simulated (small sz a) 1 2.
Proof.
  intros Hs Ha Hf. split; [split| | | |].
  - intros c Hc Hm. destruct c as [|[|[|c]]]; [done|split; cbn; lia..|cbn in Hc; lia].
  - intros c Hc Hm. destruct c as [|[|[|c]]]; [done|exists 0%nat; split; [done|split; [lia|by left]]..|cbn in Hc; lia].
  - intros c Hc Hm. destruct c as [|[|[|c]]]; [done|split; cbn [lg2blocksize lg2subblocksize lg2size assoc small small_cache par lookup default]; cbn; lia..|cbn in Hc; lia].
  - cbn. lia.
  - cbn. lia.
  - by right.
Qed.

Lemma small_own sz a : own_lru (small sz a) 1 2.
Proof.
  split; [done..|]. intros Hr. inversion Hr as [|c l x Hm Hd Hr']; subst. injection Hd as <-.
  inversion Hr' as [|c l x Hm' Hd' Hr'']; subst. discriminate Hm'.
Qed.

Definition no_state : @d4state store := mk_d4 no_store [] 0.
Definition begin (h : list d4cache) : @d4state store := match d4setup h with inr s => s | inl _ => no_state end.
Definition finish (h : list d4cache) (ms : list d4memref) : @d4state store := match dinero_refs h 20 1 2 ms (begin h) with Ret s => s | _ => no_state end.

Lemma begin_ok sz a : 4 <= sz <= 30 -> 0 < a -> 2 ^ 4 * a <= 2 ^ sz -> d4setup (small sz a) = inr (begin (small sz a)).
Proof.
  intros Hs Ha Hf. destruct (setup_ok (small sz a) (m_usable _ _ _ (small_simulated sz a Hs Ha Hf))) as (s & E & _). unfold begin. by rewrite E.
Qed.

(** Fetches of the blocks 0, 16, 0, 32, then one of 16 and 32, with a data read between *)
Definition six : list d4memref :=
  [mk_ref 0 D4XINSTRN 4; mk_ref 16 D4XINSTRN 4; mk_ref 4 D4XINSTRN 4; mk_ref 16 D4XREAD 4; mk_ref 32 D4XINSTRN 4; mk_ref 28 D4XINSTRN 8].
Lemma six_traced : Forall traced six.
Proof. repeat constructor; cbn; auto; lia. Qed.

(** Two ways: 32 replaces 16, and 16 replaces 0. *)
Theorem fetches_exact_witness : let s' := finish (small 5 2) six in
  (fetch (data_of 1 s')).[D4XINSTRN] = 6 /\ (blockmiss (data_of 1 s')).[D4XINSTRN] = 4 /\
  exists L SP, shaped (blocks s') L SP /\ addr (blocks s') <$> L (1%nat, 0) = [32; 16].
Proof.
  assert (Hr : dinero_refs (small 5 2) 20 1 2 six (begin (small 5 2)) = Ret (finish (small 5 2) six)) by (vm_compute; reflexivity).
  destruct (fetches_exact (small 5 2) 1 2 (small_simulated 5 2 ltac:(lia) ltac:(lia) ltac:(lia)) six (begin (small 5 2)) 20 (finish (small 5 2) six)
    (small_own 5 2) six_traced (begin_ok 5 2 ltac:(lia) ltac:(lia) ltac:(lia)) Hr) as (H1 & H2 & L & SP & H3 & H4).
  split; [exact H1|]. split; [rewrite H2; vm_compute; reflexivity|]. exists L, SP. split; [exact H3|]. rewrite (H4 0); [vm_compute; reflexivity|].
  split; [lia|vm_compute; reflexivity].
Defined.

Theorem stacks_are_lists_witness :
  exists N a', (forall fuel, (N <= fuel)%nat -> dinero_refs (small 5 2) fuel 1 2 six (start (begin (small 5 2))) = Ret a') /\
    refines (finish (small 5 2) six) a'.
Proof.
  assert (Hr : dinero_refs (small 5 2) 20 1 2 six (begin (small 5 2)) = Ret (finish (small 5 2) six)) by (vm_compute; reflexivity).
  exact (stacks_are_lists (small 5 2) 1 2 (small_simulated 5 2 ltac:(lia) ltac:(lia) ltac:(lia)) six 20 _ _ six_traced (begin_ok 5 2 ltac:(lia) ltac:(lia) ltac:(lia)) Hr).
Defined.

(** Four ways: three misses instead of four *)
Theorem more_ways_witness : (blockmiss (data_of 1 (finish (small 6 4) six))).[D4XINSTRN] = 3 /\
  (blockmiss (data_of 1 (finish (small 6 4) six))).[D4XINSTRN] <= (blockmiss (data_of 1 (finish (small 5 2) six))).[D4XINSTRN].
Proof.
  assert (R1 : dinero_refs (small 5 2) 20 1 2 six (begin (small 5 2)) = Ret (finish (small 5 2) six)) by (vm_compute; reflexivity).
  assert (R2 : dinero_refs (small 6 4) 20 1 2 six (begin (small 6 4)) = Ret (finish (small 6 4) six)) by (vm_compute; reflexivity).
  split; [vm_compute; reflexivity|].
  apply (more_ways (small 5 2) 1 2 (small 6 4) 1 2 six (begin (small 5 2)) (begin (small 6 4)) 20 20);
    [apply small_simulated; lia|apply small_own|apply small_simulated; lia|apply small_own|reflexivity|vm_compute; reflexivity|vm_compute; discriminate|
     apply six_traced|apply begin_ok; lia|apply begin_ok; lia|exact R1|exact R2].
Defined.

