(* ===== verification/VpmuCache.v ===== *)
(** * The VPMU on the CPU thread and the cache simulator beside it

    [HELPER(vpmu_calculate)] and [HELPER(dinero_access)] put references into the ring of
    [cache_ref]; [dinero_thread] takes them out and drives the caches; the statistics
    of [vpmu-device.c] wait until no set is counted and then read what the caches
    have counted.  Here [Vpmu], the ring of [Branch] and the caches of [Dinero] run side
    by side.  However the threads interleave, a measurement comes to its end with the
    readings of a sequential definition ([measurement_sequential]): those of
    the simulator after the whole sets of a hundred references.  With LRU the
    misses read are exactly those of the blocks executed ([icache_session]).

    The cache worker sleeps while the VPMU is off.  What wakes it, and how the signal can
    be missed, is here too. *)
From Stdlib Require Import Floats.SpecFloat.
From S2P Require Import Prelude Mem Config Timing Branch Vpmu Power VpmuDevice VpmuInit Dinero DineroStack DineroSpec DineroRun DineroRefine DineroSetup DineroTrace.

(** ** State *)

(** Where [dinero_thread] is: in its loops, behind them, or in [pthread_cond_wait].
    The wait ends with a signal only; POSIX lets it end without one. *)
Inductive worker_at := Awake | Leaving | Asleep.

(** The statistics ([cb[]] of the counters a session samples, and those of the reports) *)
Inductive statistic :=
| L1DAccess | L1DMiss | L1DReadMiss | L1DWriteMiss | L2DAccess | L2DMiss | L2DReadMiss | L2DWriteMiss
| L1IAccess | L1IMiss.

(** What the CPU thread does, one step at a time *)
Inductive cpu_op :=
| Calculate (mode : Z) (t : tb_info)
| Localtime (vpmu_trigger cell : Z)
| Access (phys preload : Z -> Z) (addr rw size : Z)
| Statistic (x : statistic)
| VPMU_sync_all
| SetEnabled (b : bool)
| ModelSetup (model : Z)
| Reset.

(** [HELPER(vpmu_calculate)]: the counters, then the clock of the network *)
Definition helper_calculate (vpmu_trigger cell mode : Z) (t : tb_info) : list cpu_op := [Calculate mode t; Localtime vpmu_trigger cell].
(** [special_write] of the VPMU, values 2 to 6, and 1; [SET_start_vpmu] *)
Definition device_on (model : Z) : list cpu_op := [Reset; SetEnabled true; ModelSetup model].
Definition device_off : list cpu_op := [SetEnabled false; VPMU_sync_all].
Definition SET_on (model : Z) : list cpu_op := [Reset; ModelSetup model; SetEnabled true].

(** [c_shm]: the segment; [None] once a time could not be converted. *)
Record cpu := mk_cpu { c_vpmu : VPMU; previous_pc : Z; c_enabled : bool; c_shm : option mem; readings : list Z }.
Record system := mk_system {
  todo : list cpu_op; the_cpu : cpu; the_ring : trace d4memref; worker : worker_at; caches : @d4state store }.

Section System.
Context `{RandomStream} (h : list d4cache) (icache dcache : nat) (levels : gmap (Z * Z) nat).

(** ** The statistics *)

(** [d4_levcache[idu][lev]->miss[type]] and [->fetch[type]], where the cache exists *)
Definition of_level (f : cachedata -> arr) (s : @d4state store) (idu lev type : Z) : Z :=
  match levels !! (idu, lev) with Some c => (f (data_of c s)).[type] | None => 0 end.
Definition missed : @d4state store -> Z -> Z -> Z -> Z := of_level miss.
Definition fetched : @d4state store -> Z -> Z -> Z -> Z := of_level fetch.

Definition read (x : statistic) (v : VPMU) (s : @d4state store) : Z :=
  match x with
  | L1DAccess => vpmu_L1_dcache_access_count (fetched s) | L1DMiss => vpmu_L1_dcache_miss_count (missed s)
  | L1DReadMiss => vpmu_L1_dcache_read_miss_count (missed s) | L1DWriteMiss => vpmu_L1_dcache_write_miss_count (missed s)
  | L2DAccess => vpmu_L2_dcache_access_count (fetched s) | L2DMiss => vpmu_L2_dcache_miss_count (missed s)
  | L2DReadMiss => vpmu_L2_dcache_read_miss_count (missed s) | L2DWriteMiss => vpmu_L2_dcache_write_miss_count (fetched s)
  | L1IAccess => vpmu_L1_icache_access_count (fetched s) v | L1IMiss => vpmu_L1_icache_miss_count (missed s)
  end.
Definition simulator_of (x : statistic) : Z := match x with L1IAccess | L1IMiss => VPMU_ICACHE_SIM | _ => VPMU_DCACHE_SIM end.
Definition cache_sim_on (v : VPMU) : bool := sim_on v VPMU_DCACHE_SIM || sim_on v VPMU_ICACHE_SIM.

(** [ResetCache] on every cache of [d4_levcache] *)
Definition reset_data (d : cachedata) : cachedata :=
  let zero a := a.[D4XREAD <- 0].[D4XWRITE <- 0].[D4XINSTRN <- 0] in
  mk_data (numsets d) (pending d) (zero (fetch d)) (zero (miss d)) (blockmiss d) (multiblock d) (bytes_read d) (bytes_written d).
Definition reset_caches {T} (s : @d4state T) : @d4state T :=
  mk_d4 (blocks s) (imap (fun c d => if bool_decide (c ∈ (map_to_list levels).*2) then reset_data d else d) (cdata s)) (rnd s).

(** ** The CPU thread *)

(** What [cache_ref] stores *)
Definition as_ref (r : memref) : d4memref := let '(addr, rw, data_size) := r in mk_ref (u32 addr) (s8 rw) (u16 data_size).

(** The helpers: the counters, and the references they emit *)
Definition with_counts (v : VPMU) (pc : Z) (c : cpu) : cpu := mk_cpu v pc (c_enabled c) (c_shm c) (readings c).
Definition helper (o : cpu_op) (c : cpu) : cpu * list d4memref :=
  match o with
  | Calculate mode t =>
      if c_enabled c then let '(v, pc, rs) := calc_stats mode t (c_vpmu c, previous_pc c, []) in (with_counts v pc c, map as_ref rs) else (c, [])
  | Access phys preload addr rw size =>
      let '(v, rs) := dinero_access (c_enabled c) phys preload addr rw size (c_vpmu c, []) in (with_counts v (previous_pc c) c, map as_ref rs)
  | _ => (c, [])
  end.

(** Whether the operation first waits until no set is counted
    ([wait_cache_thread_buf]); the network's clock needs all L1 statistics. *)
Definition waits (o : cpu_op) (c : cpu) : bool :=
  match o with
  | Localtime vpmu_trigger _ => c_enabled c && negb (vpmu_trigger =? 0) && cache_sim_on (c_vpmu c)
  | Statistic x => sim_on (c_vpmu c) (simulator_of x)
  | VPMU_sync_all => cache_sim_on (c_vpmu c)
  | _ => false
  end.

(** What it then does to the CPU thread's state *)
Definition set_timing_register (reg : Z) (c : cpu) : cpu := with_counts (set_timing reg (c_vpmu c)) (previous_pc c) c.
Definition after_wait (o : cpu_op) (s : @d4state store) (c : cpu) : cpu :=
  match o with
  | Localtime vpmu_trigger cell =>
      if c_enabled c
      then mk_cpu (c_vpmu c) (previous_pc c) true (m ← c_shm c; calc_localtime (missed s) vpmu_trigger cell (c_vpmu c) m) (readings c)
      else c
  | Statistic x => mk_cpu (c_vpmu c) (previous_pc c) (c_enabled c) (c_shm c) (readings c ++ [read x (c_vpmu c) s])
  | SetEnabled b => mk_cpu (c_vpmu c) (previous_pc c) b (c_shm c) (readings c)
  | ModelSetup model => set_timing_register (fst (vpmu_model_setup model)) c
  | Reset => with_counts (VPMU_reset (c_vpmu c)) (previous_pc c) c
  | _ => c
  end.

(** [pthread_cond_signal(&cache_cond)] wakes the worker if it waits by then. *)
Definition signalled (o : cpu_op) (w : worker_at) : worker_at :=
  match o, w with
  | ModelSetup model, Asleep => if snd (snd (vpmu_model_setup model)) then Awake else Asleep
  | _, _ => w
  end.

Fixpoint put_refs (rs : list d4memref) (q : trace d4memref) : run (trace d4memref) :=
  match rs with [] => Ret q | r :: rs => q ← cache_ref r q; put_refs rs q end.

Definition cpu_do (o : cpu_op) (s : system) : run system :=
  if waits o (the_cpu s) && (0 <? set_used (the_ring s)) then Spin
  else
    let '(c, rs) := helper o (the_cpu s) in
    q ← put_refs rs (the_ring s);
    Ret (mk_system (todo s) (after_wait o (caches s) c) q (signalled o (worker s))
           (match o with Reset => reset_caches (caches s) | _ => caches s end)).

(** ** The two threads *)

(** The reference [dinero_thread] takes, unless it has come to the end of a set *)
Definition next_ref (q : trace d4memref) : list d4memref :=
  if (c_index q =? TRACE_QUEUE_SIZE)%nat then [] else match row (rows q) (c_set q) !! c_index q with Some r => [r] | None => [] end.

Inductive step : system -> system -> Prop :=
| cpu_step s s' o rest : todo s = o :: rest -> cpu_do o (mk_system rest (the_cpu s) (the_ring s) (worker s) (caches s)) = Ret s' -> step s s'
| worker_step s q fuel d : worker s = Awake -> dinero_step (the_ring s) = Ret q ->
    dinero_refs h fuel icache dcache (next_ref (the_ring s)) (caches s) = Ret d ->
    step s (mk_system (todo s) (the_cpu s) q Awake d)
| worker_leave s : worker s = Awake -> c_enabled (the_cpu s) = false -> set_used (the_ring s) = 0 ->
    step s (mk_system (todo s) (the_cpu s) (the_ring s) Leaving (caches s))
| worker_sleep s : worker s = Leaving -> step s (mk_system (todo s) (the_cpu s) (the_ring s) Asleep (caches s)).

#[local] Abbreviation eventually := (Prelude.eventually step).

(** ** The sequential definition *)

(** The references in whole sets *)
Definition whole_sets (l : list d4memref) : list d4memref := take (TRACE_QUEUE_SIZE * (length l / TRACE_QUEUE_SIZE)) l.

(** Readings come from the simulator after the whole sets of what has been emitted: [d0] its
    state before, [ins] the references since. *)
Definition sequential_do (fuel : nat) (d0 : @d4state store) (o : cpu_op) (b : cpu * list d4memref) : run (cpu * list d4memref) :=
  let '(c, ins) := b in
  let '(c, rs) := helper o c in
  if waits o c then d ← dinero_refs h fuel icache dcache (whole_sets ins) d0; Ret (after_wait o d c, ins)
  else Ret (after_wait o d0 c, ins ++ rs).
Fixpoint sequential (fuel : nat) (d0 : @d4state store) (l : list cpu_op) (b : cpu * list d4memref) : run (cpu * list d4memref) :=
  match l with [] => Ret b | o :: l => b ← sequential_do fuel d0 o b; sequential fuel d0 l b end.

(** ** The ring *)

Section Ring.
Implicit Type q : trace d4memref.

(** What is left to do for the worker, and 2 for each reference of the set under construction *)
Definition ring_work q : Z := 101 * set_used q - Z.of_nat (c_index q) + 2 * Z.of_nat (t_index q).

Lemma ring_bounds q : trace_reach q -> 0 <= set_used q <= TRACE_SET /\ (t_index q < TRACE_QUEUE_SIZE)%nat /\ 0 <= ring_work q.
Proof.
  intros R. destruct (trace_inv_reach q R) as [Hu _ _ Hi [Hc Hz] _ _]. split; [done|]. split; [done|].
  unfold ring_work. destruct (decide (set_used q = 0)) as [E|]; [rewrite (Hz E)|unfold TRACE_QUEUE_SIZE in *]; lia.
Qed.

Lemma put_one q r : set_used q <> TRACE_SET -> exists q', cache_ref r q = Ret q' /\ refs_in q' = refs_in q ++ [r] /\ refs_out q' = refs_out q /\
  set_used q <= set_used q' /\ ((t_index q < TRACE_QUEUE_SIZE)%nat -> ring_work q' <= ring_work q + 2) /\
  t_index q' = (if S (t_index q) =? TRACE_QUEUE_SIZE then 0 else S (t_index q))%nat.
Proof.
  intros Hu. unfold cache_ref, ring_work. rewrite (proj2 (Z.eqb_neq _ _) Hu).
  destruct (Nat.eqb_spec (S (t_index q)) TRACE_QUEUE_SIZE) as [E|E]; eexists; (split; [reflexivity|]); cbn [refs_in refs_out set_used c_index t_index];
    unfold TRACE_QUEUE_SIZE in *; split_and!; try done; try lia.
Qed.

Lemma take_one q : trace_reach q -> 0 < set_used q -> exists q', dinero_step q = Ret q' /\ refs_in q' = refs_in q /\
  refs_out q' = refs_out q ++ next_ref q /\ ring_work q' = ring_work q - 1.
Proof.
  intros R Hu. destruct (trace_inv_reach q R) as [_ Hc _ _ [Hci _] _ (full & part & old & Hf & _ & Hfl & _ & _ & _ & Hrow)].
  destruct full as [|f full]; [cbn in Hf; lia|]. apply Forall_cons in Hfl as [Hf100 _].
  assert (Hf0 : row (rows q) (c_set q) = f) by (rewrite <- (Hrow O f eq_refl), Z.add_0_r, Z.mod_small; done).
  unfold dinero_step, next_ref, ring_work. rewrite (proj2 (Z.ltb_lt _ _) Hu).
  destruct (Nat.eqb_spec (c_index q) TRACE_QUEUE_SIZE) as [E|E].
  - eexists. split; [reflexivity|]. cbn [refs_in refs_out set_used c_index t_index]. rewrite app_nil_r. unfold TRACE_QUEUE_SIZE in *. split_and!; try done; lia.
  - destruct (lookup_lt_is_Some_2 f (c_index q)) as [r Hr]; [lia|]. rewrite Hf0, Hr. eexists. split; [reflexivity|].
    cbn [refs_in refs_out set_used c_index t_index]. split_and!; try done; lia.
Qed.

(** No set is counted: the simulator lacks less than a set. *)
Lemma ring_drained q : trace_reach q -> set_used q = 0 -> exists l, refs_in q = refs_out q ++ l /\ length l = t_index q.
Proof. intros R E. destruct (cache_trace_fifo q R) as (l & H1 & H2). exists l. split; [done|]. by apply H2. Qed.

Lemma ring_aligned q : trace_reach q -> (length (refs_in q) mod TRACE_QUEUE_SIZE = t_index q)%nat.
Proof.
  induction 1 as [|q q' R IH Hs]; [done|]. pose proof (ring_bounds q R) as (_ & Hi & _). destruct Hs as [r q q' E|q q' E].
  - destruct (decide (set_used q = TRACE_SET)) as [Eu|Eu]; [unfold cache_ref in E; by rewrite Eu in E|].
    destruct (put_one q r Eu) as (q1 & E1 & Hin & _ & _ & _ & Ht). assert (q1 = q') as -> by congruence.
    rewrite Hin, length_app, Ht. cbn [length]. rewrite <- Nat.Div0.add_mod_idemp_l, IH. unfold TRACE_QUEUE_SIZE in *.
    destruct (Nat.eqb_spec (S (t_index q)) 100) as [E2|E2]; [by replace (t_index q + 1)%nat with 100%nat by lia|rewrite Nat.mod_small; lia].
  - destruct (decide (0 < set_used q)) as [Hu|Hu]; [|unfold dinero_step in E; destruct (Z.ltb_spec 0 (set_used q)); [lia|done]].
    destruct (take_one q R Hu) as (q1 & E1 & Hin & _). assert (q1 = q') as -> by congruence. rewrite Hin, IH.
    unfold dinero_step in E. destruct (_ <? _); [|done]. destruct (_ =? _)%nat; [by injection E as <-|]. destruct (_ !! _); [by injection E as <-|done].
Qed.

(** Then, what the simulator has been given since the last time are the whole sets. *)
Lemma drained_whole q old out ins : (length old mod TRACE_QUEUE_SIZE = 0)%nat -> trace_reach q -> set_used q = 0 ->
  refs_in q = old ++ ins -> refs_out q = old ++ out -> out = whole_sets ins.
Proof.
  intros Ho R E Hin Hout. destruct (ring_drained q R E) as (l & H1 & H2). pose proof (ring_bounds q R) as (_ & Hi & _).
  assert (ins = out ++ l) as -> by (apply (app_inv_head old); rewrite app_assoc; congruence).
  pose proof (ring_aligned q R) as Ha. rewrite Hin, length_app, <- Nat.Div0.add_mod_idemp_l, Ho, Nat.add_0_l, length_app in Ha.
  unfold whole_sets. rewrite length_app. set (n := length out) in *. rewrite H2 in *. unfold TRACE_QUEUE_SIZE in *.
  pose proof (Nat.div_mod (n + t_index q) 100 ltac:(lia)) as Hd. rewrite take_app_length' by (fold n; lia). done.
Qed.

Lemma put_refs_one rs q q' : trace_reach q -> (length rs <= 1)%nat -> put_refs rs q = Ret q' ->
  trace_reach q' /\ refs_in q' = refs_in q ++ rs /\ refs_out q' = refs_out q /\ set_used q <= set_used q' /\ ring_work q' <= ring_work q + 2 /\
  (rs = [] -> q' = q).
Proof.
  intros R Hl. destruct rs as [|r [|r' rs]]; [|destruct (decide (set_used q = TRACE_SET)) as [Hu|Hu]|cbn in Hl; lia]; cbn [put_refs].
  - intros [= <-]. rewrite app_nil_r. split_and!; try done; lia.
  - unfold cache_ref. by rewrite Hu.
  - destruct (put_one q r Hu) as (q1 & E & H1 & H2 & H3 & H4 & _). rewrite E. intros [= <-]. pose proof (ring_bounds q R) as (_ & Hi & _).
    split_and!; try done; [|by apply H4]. eapply tr_step; [exact R|by eapply trace_put].
Qed.
End Ring.

(** ** What the helpers emit *)

(** The operations of a measurement: no reset, no other model, and blocks and accesses of
    some size *)
Definition measured (o : cpu_op) : Prop :=
  match o with
  | Calculate _ t => 1 <= tb_icache_size t < 2 ^ 16
  | Access _ _ _ rw size => (rw = D4XREAD \/ rw = D4XWRITE \/ rw = 0xff) /\ 1 <= size < 2 ^ 16
  | SetEnabled b => b = false
  | ModelSetup _ | Reset => False
  | _ => True
  end.

Lemma as_ref_traced addr rw size : rw = D4XREAD \/ rw = D4XWRITE \/ rw = D4XINSTRN -> 1 <= size < 2 ^ 16 -> traced (as_ref (addr, rw, size)).
Proof.
  intros Hrw Hs. unfold as_ref, traced, ref_ok. cbn [address Dinero.size accesstype]. rewrite u16_small by lia.
  split; [split; [apply u32_range|done]|]. destruct Hrw as [-> | [-> | ->]]; auto.
Qed.

Lemma calc_stats_emits mode t v pc : exists v' pc' rs, calc_stats mode t (v, pc, []) = (v', pc', rs) /\
  (rs = [] \/ rs = [(tb_icache_addr t, D4XINSTRN, tb_icache_size t)]) /\ (forall o, sim_on v' o = sim_on v o).
Proof.
  unfold calc_stats, calc_icache. destruct (sim_on v VPMU_ICACHE_SIM); [destruct (_ =? _)|];
    eexists _, _, _; (split; [reflexivity|]); (split; [auto|]); intros o; unfold calc_counts;
    (destruct (sim_on _ VPMU_INSN_COUNT_SIM); [rewrite count_mode_sim, set_flow_sim|]); rewrite calc_pipeline_sim; done.
Qed.

Lemma helper_emits o c c' rs : measured o -> helper o c = (c', rs) ->
  Forall traced rs /\ (length rs <= 1)%nat /\ (forall x, sim_on (c_vpmu c') x = sim_on (c_vpmu c) x) /\
  c_enabled c' = c_enabled c /\ c_shm c' = c_shm c /\ readings c' = readings c /\ (c_enabled c = false -> rs = []) /\
  (waits o c = true -> rs = [] /\ c' = c).
Proof.
  intros Hm. destruct o; cbn [helper measured waits] in *; try (intros [= <- <-]; split_and!; try done; by constructor || (cbn; lia)).
  - destruct (c_enabled c) eqn:Ee; [|intros [= <- <-]; split_and!; try done; by constructor || (cbn; lia)].
    destruct (calc_stats_emits mode t (c_vpmu c) (previous_pc c)) as (v' & pc' & l & -> & Hl & Hs). intros [= <- <-].
    split_and!; try done; try congruence; destruct Hl as [-> | ->]; cbn; repeat constructor; by apply as_ref_traced; auto.
  - destruct Hm as [Hrw Hs]. unfold dinero_access. destruct (c_enabled c && sim_on (c_vpmu c) VPMU_DCACHE_SIM) eqn:Ee.
    2: { intros [= <- <-]. split_and!; try done; by constructor || (cbn; lia). }
    assert (Hen : c_enabled c = true) by (by apply andb_true_iff in Ee as [-> _]).
    destruct (if rw =? 255 then _ else _) as [addr' rw'] eqn:Er.
    assert (Hrw' : rw' = D4XREAD \/ rw' = D4XWRITE \/ rw' = D4XINSTRN).
    { destruct (Z.eqb_spec rw 255); injection Er as _ <-; [by left|]. destruct Hrw as [-> | [-> | ->]]; [by left|by right; left|done]. }
    destruct (iomem_test (c_vpmu c) =? 1); intros [= <- <-]; cbn [map app]; split_and!; try done; try congruence; try (cbn; lia).
    apply Forall_singleton. by apply as_ref_traced.
Qed.

Lemma after_wait_keeps o d c : measured o ->
  c_vpmu (after_wait o d c) = c_vpmu c /\ previous_pc (after_wait o d c) = previous_pc c /\ (c_enabled (after_wait o d c) = true -> c_enabled c = true).
Proof. intros Hm. destruct o; cbn in *; try done; [destruct (c_enabled c) eqn:E; cbn; split_and!; congruence|by subst]. Qed.

(** *** The simulator on parts of a trace *)

Context (S : simulated h icache dcache).

(** A state the simulator can come to *)
Definition settled_at (d : @d4state store) : Prop := exists a, refines d a /\ good h a /\ homes h a.

Lemma simulator_runs ms d : settled_at d -> Forall traced ms ->
  exists N d', (forall fuel, (N <= fuel)%nat -> dinero_refs h fuel icache dcache ms d = Ret d') /\ settled_at d'.
Proof.
  intros (a & R & G & Ho) Ht. destruct (trace_from h icache dcache S ms d a Ht G Ho R) as (N & a' & d' & HN & R' & G' & Ho').
  exists N, d'. split; [intros fuel Hf; by apply HN|by exists a'].
Qed.

Lemma refs_det f1 f2 ms (d d1 d2 : @d4state store) : dinero_refs h f1 icache dcache ms d = Ret d1 -> dinero_refs h f2 icache dcache ms d = Ret d2 -> d1 = d2.
Proof.
  intros E1 E2. apply (refs_mono h icache dcache f1 (f1 + f2)) in E1; [|lia]. apply (refs_mono h icache dcache f2 (f1 + f2)) in E2; [|lia]. congruence.
Qed.

Lemma refs_app fuel l1 l2 (d : @d4state store) : dinero_refs h fuel icache dcache (l1 ++ l2) d = d1 ← dinero_refs h fuel icache dcache l1 d; dinero_refs h fuel icache dcache l2 d1.
Proof.
  revert d. induction l1 as [|m l1 IH]; intros d; [done|]. cbn [app dinero_refs].
  destruct (dinero_ref h fuel icache dcache m d) as [d1| |]; cbn [mbind run_bind]; [apply IH|done|done].
Qed.

Lemma refs_join f1 f2 l1 l2 (d d1 d2 : @d4state store) : dinero_refs h f1 icache dcache l1 d = Ret d1 -> dinero_refs h f2 icache dcache l2 d1 = Ret d2 ->
  dinero_refs h (f1 + f2) icache dcache (l1 ++ l2) d = Ret d2.
Proof.
  intros E1 E2. apply (refs_mono h icache dcache f1 (f1 + f2)) in E1; [|lia]. apply (refs_mono h icache dcache f2 (f1 + f2)) in E2; [|lia].
  rewrite refs_app, E1. done.
Qed.

(** ** A measurement *)

Definition both_on (c : cpu) : Prop := sim_on (c_vpmu c) VPMU_DCACHE_SIM = true /\ sim_on (c_vpmu c) VPMU_ICACHE_SIM = true.

Section Measurement.
(** At its start the simulator, in state [d0], has worked off the references [old]. *)
Context (old : list d4memref) (Hold : (length old mod TRACE_QUEUE_SIZE = 0)%nat) (d0 : @d4state store) (Hd0 : settled_at d0).

(** [ins]: the references since then *)
Record running (s : system) (ins : list d4memref) : Prop := {
  n_ring : trace_reach (the_ring s);
  n_in : refs_in (the_ring s) = old ++ ins;
  n_out : exists out fuel, refs_out (the_ring s) = old ++ out /\ dinero_refs h fuel icache dcache out d0 = Ret (caches s);
  n_traced : Forall traced ins;
  n_sims : both_on (the_cpu s);
  n_worker : c_enabled (the_cpu s) = true \/ 0 < set_used (the_ring s) -> worker s = Awake }.

(** What the simulator has been given is a part of what was emitted. *)
Lemma given_prefix q ins out : trace_reach q -> refs_in q = old ++ ins -> refs_out q = old ++ out -> exists l, ins = out ++ l.
Proof.
  intros R Hin Hout. destruct (cache_trace_fifo q R) as (l & El & _). exists l. apply (app_inv_head old). rewrite app_assoc. congruence.
Qed.

Lemma running_drained s ins : running s ins -> set_used (the_ring s) = 0 ->
  exists fuel, dinero_refs h fuel icache dcache (whole_sets ins) d0 = Ret (caches s).
Proof.
  intros [R Hin (out & fuel & Hout & E) _ _ _] Hu. exists fuel. by rewrite <- (drained_whole (the_ring s) old out ins).
Qed.

(** *** The worker *)

Lemma worker_keeps s ins q fuel d : running s ins -> worker s = Awake -> dinero_step (the_ring s) = Ret q ->
  dinero_refs h fuel icache dcache (next_ref (the_ring s)) (caches s) = Ret d ->
  running (mk_system (todo s) (the_cpu s) q Awake d) ins /\ ring_work q = ring_work (the_ring s) - 1.
Proof.
  clear Hold. intros [R Hin (out & f & Hout & E) Ht Hs Hw] Ha Eq Ed.
  assert (Hu : 0 < set_used (the_ring s)) by (unfold dinero_step in Eq; destruct (Z.ltb_spec 0 (set_used (the_ring s))); [lia|done]).
  destruct (take_one (the_ring s) R Hu) as (q' & Eq' & H1 & H2 & H3). assert (q' = q) as -> by congruence. split; [|done].
  split; cbn [the_ring the_cpu worker caches]; try done.
  - eapply tr_step; [exact R|]. by apply trace_get.
  - by rewrite H1.
  - exists (out ++ next_ref (the_ring s)), (f + fuel)%nat. rewrite H2, Hout, app_assoc. split; [done|]. by eapply refs_join.
Qed.

(** Awake with a set to do, it can go on. *)
Lemma worker_goes_on s ins : running s ins -> 0 < set_used (the_ring s) -> exists s', step s s'.
Proof.
  clear Hold. intros [R Hin (out & f & Hout & E) Ht Hs Hw] Hu. destruct (take_one (the_ring s) R Hu) as (q & Eq & H1 & H2 & _).
  assert (R' : trace_reach q) by (eapply tr_step; [exact R|by apply trace_get]).
  destruct (given_prefix q ins (out ++ next_ref (the_ring s)) R') as (l & El); [by rewrite H1|by rewrite H2, Hout, app_assoc|].
  rewrite El in Ht. apply Forall_app in Ht as [Ht _]. destruct (simulator_runs _ d0 Hd0 Ht) as (N & d' & HN & _).
  pose proof (HN (f + N)%nat ltac:(lia)) as E2. rewrite refs_app in E2. apply (refs_mono h icache dcache f (f + N)) in E; [|lia]. rewrite E in E2. cbn [mbind run_bind] in E2.
  eexists. apply (worker_step s q (f + N) d'); [apply Hw; by right|done|done].
Qed.

(** *** The CPU thread *)

(** An operation that does not wait reads nothing. *)
Lemma not_waiting o c c' rs d d' : both_on c -> waits o c = false -> helper o c = (c', rs) -> after_wait o d c' = after_wait o d' c'.
Proof.
  intros [Hb1 Hb2] Hw Eh. destruct o; try done; cbn in Eh, Hw |- *; injection Eh as <- <-.
  - destruct (c_enabled c); [|done]. unfold cache_sim_on in Hw. rewrite Hb1, orb_true_l, andb_true_r in Hw. cbn in Hw.
    apply negb_false_iff in Hw. unfold calc_localtime. by rewrite Hw.
  - destruct x; cbn in Hw; congruence.
Qed.

(** One operation, here and in the sequential definition *)
Lemma cpu_does s ins o rest s' : running s ins -> measured o ->
  cpu_do o (mk_system rest (the_cpu s) (the_ring s) (worker s) (caches s)) = Ret s' ->
  exists c rs q, helper o (the_cpu s) = (c, rs) /\ put_refs rs (the_ring s) = Ret q /\
    s' = mk_system rest (after_wait o (caches s) c) q (worker s) (caches s) /\
    exists f, forall fuel, (f <= fuel)%nat -> sequential_do fuel d0 o (the_cpu s, ins) = Ret (the_cpu s', ins ++ rs).
Proof.
  intros HR Hm. unfold cpu_do. cbn [the_cpu the_ring caches todo worker].
  destruct (waits o (the_cpu s) && (0 <? set_used (the_ring s))) eqn:Ew; [done|]. destruct (helper o (the_cpu s)) as [c rs] eqn:Eh.
  destruct (put_refs rs (the_ring s)) as [q| |] eqn:Eq; cbn [mbind run_bind]; [|done|done]. intros [= <-].
  exists c, rs, q. split; [done|]. split; [done|]. split; [by destruct o|]. cbn [the_cpu].
  destruct (helper_emits o (the_cpu s) c rs Hm Eh) as (_ & _ & T3 & T4 & _ & _ & _ & T8).
  unfold sequential_do. rewrite Eh. destruct (waits o (the_cpu s)) eqn:Ew2.
  - destruct (T8 eq_refl) as [-> ->]. cbn [andb] in Ew. apply Z.ltb_ge in Ew. pose proof (ring_bounds _ (n_ring _ _ HR)) as (Hb & _).
    destruct (running_drained s ins HR ltac:(lia)) as (f & E). exists f. intros fuel Hf. rewrite Ew2, app_nil_r.
    apply (refs_mono h icache dcache f fuel) in E; [|done]. by rewrite E.
  - exists O. intros fuel _. assert (Hwc : waits o c = false). 2: { rewrite Hwc. do 2 f_equal. eapply not_waiting; [apply HR|done|done]. }
    destruct o; cbn in Eh, Ew2 |- *; try done; by injection Eh as <- <-.
Qed.

Lemma cpu_keeps s ins o rest s' : running s ins -> measured o ->
  cpu_do o (mk_system rest (the_cpu s) (the_ring s) (worker s) (caches s)) = Ret s' ->
  exists ins' f, running s' ins' /\ todo s' = rest /\ worker s' = worker s /\ ring_work (the_ring s') <= ring_work (the_ring s) + 2 /\
    forall fuel, (f <= fuel)%nat -> sequential_do fuel d0 o (the_cpu s, ins) = Ret (the_cpu s', ins').
Proof.
  intros HR Hm E. destruct (cpu_does s ins o rest s' HR Hm E) as (c & rs & q & Eh & Eq & -> & f & Hf). destruct HR as [R Hin (out & f' & Hout & Ed) Ht Hs Hw].
  destruct (helper_emits o (the_cpu s) c rs Hm Eh) as (T1 & T2 & T3 & T4 & T5 & T6 & T7 & _).
  destruct (put_refs_one rs _ q R T2 Eq) as (P1 & P2 & P3 & P4 & P5 & P6). destruct (after_wait_keeps o (caches s) c Hm) as (K1 & K2 & K3).
  exists (ins ++ rs), f. split_and!; cbn [todo worker the_ring the_cpu]; try done.
  split; cbn [todo worker the_ring the_cpu caches]; try done.
  - by rewrite P2, Hin, app_assoc.
  - exists out, f'. by rewrite P3.
  - by apply Forall_app.
  - unfold both_on in *. rewrite K1, !T3. done.
  - intros Hen. apply Hw. destruct Hen as [Hen|Hen]; [left; rewrite <- T4; auto|].
    destruct (c_enabled (the_cpu s)) eqn:Ee; [by left|]. right. by rewrite (P6 (T7 eq_refl)) in Hen.
Qed.

(** Where it does not go on there is something for the worker to do. *)
Lemma cpu_stops s ins o rest : running s ins -> measured o ->
  (exists s', cpu_do o (mk_system rest (the_cpu s) (the_ring s) (worker s) (caches s)) = Ret s') \/ 0 < set_used (the_ring s).
Proof.
  intros HR Hm. pose proof (ring_bounds _ (n_ring _ _ HR)) as (Hb & _). destruct (decide (0 < set_used (the_ring s))) as [|Hz]; [by right|left].
  unfold cpu_do. cbn [the_cpu the_ring caches todo worker]. rewrite (proj2 (Z.ltb_ge 0 _)), andb_false_r by lia.
  destruct (helper o (the_cpu s)) as [c rs] eqn:Eh. destruct (helper_emits o (the_cpu s) c rs Hm Eh) as (_ & T2 & _).
  destruct rs as [|r [|r' rs]]; [by eexists| |cbn in T2; lia]. destruct (put_one (the_ring s) r) as (q & E & _); [unfold TRACE_SET; lia|].
  cbn [put_refs]. rewrite E. by eexists.
Qed.

(** *** The sequential definition returns. *)

Lemma sequential_returns l : forall c ins, Forall measured l -> Forall traced ins -> both_on c ->
  exists N b, forall fuel, (N <= fuel)%nat -> sequential fuel d0 l (c, ins) = Ret b.
Proof.
  clear Hold. induction l as [|o l IH]; intros c ins Hl Hi Hb; [by exists O, (c, ins)|]. apply Forall_cons in Hl as [Hm Hl].
  destruct (helper o c) as [c1 rs] eqn:Eh. destruct (helper_emits o c c1 rs Hm Eh) as (T1 & T2 & T3 & _).
  assert (Hb1 : forall d, both_on (after_wait o d c1)).
  { intros d. destruct (after_wait_keeps o d c1 Hm) as (K1 & _). unfold both_on in *. by rewrite K1, !T3. }
  destruct (simulator_runs (whole_sets ins) d0 Hd0) as (N1 & d & HN1 & _); [by apply Forall_take|].
  destruct (IH (after_wait o d c1) ins Hl Hi (Hb1 d)) as (N2 & b2 & HN2).
  destruct (IH (after_wait o d0 c1) (ins ++ rs) Hl ltac:(by apply Forall_app) (Hb1 d0)) as (N3 & b3 & HN3).
  exists (N1 + N2 + N3)%nat, (if waits o c1 then b2 else b3). intros fuel Hf. cbn [sequential]. unfold sequential_do. rewrite Eh.
  destruct (waits o c1); cbn [mbind run_bind]; [rewrite HN1 by lia; cbn [mbind run_bind]; apply HN2; lia|apply HN3; lia].
Qed.

(** *** Every run ends, with its results *)

Definition rank (w : worker_at) : Z := match w with Awake => 2 | Leaving => 1 | Asleep => 0 end.
Definition left_to_do (s : system) : Z := 3 * Z.of_nat (length (todo s)) + ring_work (the_ring s) + rank (worker s).

Lemma left_pos s ins : running s ins -> 0 <= left_to_do s.
Proof. clear Hold. intros HR. pose proof (ring_bounds _ (n_ring _ _ HR)) as (_ & _ & Hw). unfold left_to_do, rank. destruct (worker s); lia. Qed.

Lemma ends_with n : forall s ins N b, left_to_do s < Z.of_nat n -> running s ins -> Forall measured (todo s) ->
  (forall fuel, (N <= fuel)%nat -> sequential fuel d0 (todo s) (the_cpu s, ins) = Ret b) ->
  eventually (fun s' => todo s' = [] /\ running s' b.2 /\ the_cpu s' = b.1) s.
Proof.
  induction n as [|n IH]; intros s ins N b Hn HR Hm Hb; [pose proof (left_pos s ins HR); lia|].
  destruct (todo s) as [|o rest] eqn:Et.
  { apply ev_now. specialize (Hb N ltac:(lia)). injection Hb as <-. done. }
  pose proof Hm as [Hmo Hmr]%Forall_cons. apply ev_later.
  - destruct (cpu_stops s ins o rest HR Hmo) as [[s' E]|Hu]; [exists s'; by eapply cpu_step|by eapply worker_goes_on].
  - intros s' Hs. unfold left_to_do in Hn. rewrite Et in Hn. cbn [length] in Hn. destruct Hs as [s s' o' rest' Et' E|s q fuel d Ha Eq Ed|s Ha He Hu|s Ha].
    + assert (o' = o /\ rest' = rest) as [-> ->] by (split; congruence).
      destruct (cpu_keeps s ins o rest s' HR Hmo E) as (ins' & f & HR' & Et2 & Ew & Hwork & Hseq).
      apply (IH s' ins' (N + f)%nat b); [|done|by rewrite Et2|].
      * unfold left_to_do. rewrite Et2, Ew. lia.
      * intros fuel Hf. rewrite Et2. specialize (Hb fuel ltac:(lia)). cbn [sequential] in Hb. rewrite Hseq in Hb by lia. done.
    + destruct (worker_keeps s ins q fuel d HR Ha Eq Ed) as [HR' Hwork].
      apply (IH _ ins N b); [|done|by cbn [todo]; rewrite Et|by cbn [todo the_cpu]; rewrite Et].
      unfold left_to_do. cbn [todo the_ring worker]. rewrite Et. cbn [length]. rewrite Ha in Hn. lia.
    + apply (IH _ ins N b); [| |by cbn [todo]; rewrite Et|by cbn [todo the_cpu]; rewrite Et].
      * unfold left_to_do. cbn [todo the_ring worker]. rewrite Et. cbn [length]. rewrite Ha in Hn. cbn [rank] in *. lia.
      * destruct HR as [R Hin Hout Ht Hsm Hw]. split; cbn [the_ring the_cpu worker caches]; try done. intros [Hen|Hen]; [congruence|lia].
    + apply (IH _ ins N b); [| |by cbn [todo]; rewrite Et|by cbn [todo the_cpu]; rewrite Et].
      * unfold left_to_do. cbn [todo the_ring worker]. rewrite Et. cbn [length]. rewrite Ha in Hn. cbn [rank] in *. lia.
      * destruct HR as [R Hin Hout Ht Hsm Hw]. split; cbn [the_ring the_cpu worker caches]; try done. intros Hen. specialize (Hw Hen). congruence.
Qed.
End Measurement.

(** Where a measurement can begin: no set is counted, and [part] is in the set under
    construction (left by the measurement before). *)
Record ready_to_measure (s : system) (part : list d4memref) : Prop := {
  y_ring : trace_reach (the_ring s);
  y_drained : set_used (the_ring s) = 0;
  y_part : refs_in (the_ring s) = refs_out (the_ring s) ++ part;
  y_traced : Forall traced part;
  y_caches : settled_at (caches s);
  y_sims : both_on (the_cpu s);
  y_awake : c_enabled (the_cpu s) = true -> worker s = Awake }.

Lemma old_aligned (q : trace d4memref) : trace_reach q -> set_used q = 0 -> (length (refs_out q) mod TRACE_QUEUE_SIZE = 0)%nat.
Proof.
  intros R E. destruct (ring_drained q R E) as (l & H1 & H2). pose proof (ring_aligned q R) as Ha. pose proof (ring_bounds q R) as (_ & Hi & _).
  rewrite H1, length_app, H2 in Ha. unfold TRACE_QUEUE_SIZE in *. pose proof (Nat.div_mod (length (refs_out q) + t_index q) 100 ltac:(lia)).
  pose proof (Nat.mod_upper_bound (length (refs_out q)) 100 ltac:(lia)). pose proof (Nat.div_mod (length (refs_out q)) 100 ltac:(lia)). lia.
Qed.

Lemma measurement_begins s part : ready_to_measure s part -> running (refs_out (the_ring s)) (caches s) s part.
Proof.
  intros [R E Hp Ht Hc Hb Hw]. split; try done.
  - exists [], O. by rewrite app_nil_r.
  - intros [Hen|Hen]; [by apply Hw|lia].
Qed.

Lemma measured_run s part : ready_to_measure s part -> Forall measured (todo s) ->
  exists N c ins, (forall fuel, (N <= fuel)%nat -> sequential fuel (caches s) (todo s) (the_cpu s, part) = Ret (c, ins)) /\
    eventually (fun s' => todo s' = [] /\ running (refs_out (the_ring s)) (caches s) s' ins /\ the_cpu s' = c) s.
Proof.
  intros Hr Hm. pose proof (measurement_begins s part Hr) as HR. destruct Hr as [R E Hp Ht Hc Hb Hw].
  destruct (sequential_returns (caches s) Hc (todo s) (the_cpu s) part Hm Ht Hb) as (N & [c ins] & HN). exists N, c, ins. split; [done|].

  apply (ends_with (refs_out (the_ring s)) (old_aligned _ R E) (caches s) Hc (Datatypes.S (Z.to_nat (left_to_do s))) s part N (c, ins)); [lia|done|done|done].
Qed.

(** ** The references of a program *)

(** What the helpers look at *)
Definition same (c c' : cpu) : Prop := c_vpmu c = c_vpmu c' /\ previous_pc c = previous_pc c' /\ c_enabled c = c_enabled c'.

Definition switched (o : cpu_op) (c : cpu) : cpu :=
  match o with SetEnabled b => mk_cpu (c_vpmu c) (previous_pc c) b (c_shm c) (readings c) | _ => c end.
Fixpoint emitted (l : list cpu_op) (c : cpu) : list d4memref :=
  match l with [] => [] | o :: l => let '(c, rs) := helper o c in rs ++ emitted l (switched o c) end.

Lemma helper_same o c c' : same c c' -> (helper o c).2 = (helper o c').2 /\ same (helper o c).1 (helper o c').1.
Proof.
  intros (E1 & E2 & E3). unfold same. destruct o; cbn [helper]; try done; rewrite <- E1, <- ?E2, <- E3.
  - destruct (c_enabled c) eqn:Ee; [|cbn; split_and!; congruence]. destruct (calc_stats _ _ _) as [[v pc] rs]. cbn. split_and!; congruence.
  - destruct (dinero_access _ _ _ _ _ _ _) as [v rs]. cbn. split_and!; congruence.
Qed.

Lemma emitted_same l : forall c c', same c c' -> emitted l c = emitted l c'.
Proof.
  induction l as [|o l IH]; intros c c' E; [done|]. cbn [emitted]. destruct (helper_same o c c' E) as [H1 H2].
  destruct (helper o c) as [c1 r1], (helper o c') as [c2 r2]. cbn [fst snd] in *. subst r2. f_equal. apply IH.
  destruct o; try done. destruct H2 as (F1 & F2 & F3). by split.
Qed.

Lemma emitted_after o d l c : measured o -> emitted l (after_wait o d c) = emitted l (switched o c).
Proof. intros Hm. destruct o; try done; apply emitted_same; [cbn|by split]. by destruct (c_enabled c) eqn:Ee. Qed.

Lemma sequential_emits fuel d0 l : forall c ins c' ins', Forall measured l -> sequential fuel d0 l (c, ins) = Ret (c', ins') -> ins' = ins ++ emitted l c.
Proof.
  induction l as [|o l IH]; intros c ins c' ins' Hl; cbn [sequential emitted]; [intros [= <- <-]; by rewrite app_nil_r|].
  apply Forall_cons in Hl as [Hm Hl]. unfold sequential_do. destruct (helper o c) as [c1 rs] eqn:Eh.
  destruct (helper_emits o c c1 rs Hm Eh) as (_ & _ & _ & _ & _ & _ & _ & T8).
  destruct (waits o c1) eqn:Ew.
  - assert (Hw : waits o c = true) by (destruct o; cbn in Eh, Ew |- *; try done; by injection Eh as <- <-). destruct (T8 Hw) as [-> ->].
    destruct (dinero_refs h fuel icache dcache (whole_sets ins) d0) as [d| |]; cbn [mbind run_bind]; [|done|done]. intros E.
    by rewrite (IH _ _ _ _ Hl E), emitted_after.
  - cbn [mbind run_bind]. intros E. by rewrite (IH _ _ _ _ Hl E), emitted_after, app_assoc.
Qed.

Lemma sequential_app fuel d0 l1 l2 b : sequential fuel d0 (l1 ++ l2) b = b ← sequential fuel d0 l1 b; sequential fuel d0 l2 b.
Proof.
  revert b. induction l1 as [|o l1 IH]; intros b; [done|]. cbn [app sequential].
  destruct (sequential_do fuel d0 o b) as [b1| |]; cbn [mbind run_bind]; [apply IH|done|done].
Qed.

Lemma sequential_both fuel d0 l : forall c ins c' ins', Forall measured l -> both_on c -> sequential fuel d0 l (c, ins) = Ret (c', ins') -> both_on c'.
Proof.
  induction l as [|o l IH]; intros c ins c' ins' Hl Hb; cbn [sequential]; [by intros [= <- <-]|].
  apply Forall_cons in Hl as [Hm Hl]. unfold sequential_do. destruct (helper o c) as [c1 rs] eqn:Eh.
  destruct (helper_emits o c c1 rs Hm Eh) as (_ & _ & T3 & _).
  assert (Hb1 : forall d, both_on (after_wait o d c1)).
  { intros d. destruct (after_wait_keeps o d c1 Hm) as (K1 & _). unfold both_on in *. by rewrite K1, !T3. }
  destruct (waits o c1); [destruct (dinero_refs h fuel icache dcache (whole_sets ins) d0) as [d| |]|]; cbn [mbind run_bind]; try done; by apply IH.
Qed.

(** ** The counters of the instruction cache *)

(** After the fetches [l], latest first; counted from [f0] and [m0] on *)
Definition counted (l : list Z) (f0 m0 : Z) (d : @d4state store) : Prop :=
  exists a b0, refines d a /\ good h a /\ homes h a /\ pending (data_of icache a) = [] /\ lru_state h icache f0 b0 m0 l a.

Lemma counted_settled l f0 m0 d : counted l f0 m0 d -> settled_at d.
Proof. intros (a & b0 & R & G & Ho & _). by exists a. Qed.

Context (O : own_lru h icache dcache) (Hlev : levels !! (1, 0) = Some icache).

Lemma counted_refs fuel ms l f0 m0 d d' : counted l f0 m0 d -> Forall traced ms -> dinero_refs h fuel icache dcache ms d = Ret d' ->
  counted (fetches h icache ms ++ l) f0 m0 d'.
Proof.
  intros (a & b0 & R & G & Ho & Hp & V) Ht E. destruct (trace_from h icache dcache S ms d a Ht G Ho R) as (N & a' & d2 & HN & R' & G' & Ho').
  destruct (HN N ltac:(lia)) as [Ea Ed]. rewrite (refs_det _ _ _ _ _ _ E Ed).
  destruct (lru_trace h icache dcache S O f0 b0 m0 N ms l a a' Ht G Hp V Ea) as [V' Hp']. by exists a', b0.
Qed.

Lemma counted_reads l f0 m0 d : lg2subblocksize (par h icache) = lg2blocksize (par h icache) -> counted l f0 m0 d ->
  missed d 1 0 D4XINSTRN = m0 + lru_misses h icache l /\ fetched d 1 0 D4XINSTRN = f0 + Z.of_nat (length l).
Proof.
  intros Eq (a & b0 & R & _ & _ & _ & V). unfold missed, fetched, of_level. rewrite Hlev, (refines_data icache d a R).
  split; [by apply (v_all _ _ _ _ _ _ _ V)|apply (v_fetch _ _ _ _ _ _ _ V)].
Qed.

(** *** After a reset *)

Lemma data_reset {T} c (s : @d4state T) : data_of c (reset_caches s) = data_of c s \/ data_of c (reset_caches s) = reset_data (data_of c s).
Proof.
  unfold data_of, reset_caches. cbn [cdata]. rewrite list_lookup_imap. destruct (cdata s !! c) as [d|]; [|by left]. cbn. destruct (bool_decide _); auto.
Qed.

Lemma data_reset_icache {T} (s : @d4state T) : (icache < length (cdata s))%nat -> data_of icache (reset_caches s) = reset_data (data_of icache s).
Proof.
  intros Hl. unfold data_of, reset_caches. cbn [cdata]. rewrite list_lookup_imap. destruct (lookup_lt_is_Some_2 _ _ Hl) as [d ->]. cbn.
  rewrite bool_decide_true; [done|]. apply list_elem_of_fmap. exists ((1, 0), icache). split; [done|]. by apply elem_of_map_to_list.
Qed.

Lemma reset_refines d a : refines d a -> refines (reset_caches d) (reset_caches a).
Proof. intros (R & Hd & Hr). split; [exact R|]. split; [|done]. cbn. by rewrite Hd. Qed.

Lemma reset_good a : good h a -> homes h a -> good h (reset_caches a) /\ homes h (reset_caches a).
Proof.
  assert (Hn : forall c, numsets (data_of c (reset_caches a)) = numsets (data_of c a) /\ pending (data_of c (reset_caches a)) = pending (data_of c a)).
  { intros c. by destruct (data_reset c a) as [-> | ->]. }
  intros [G1 G2 G3] Ho. split; [split|].
  - unfold reset_caches. cbn [cdata]. by rewrite length_imap.
  - intros c Hc Hm. rewrite (proj1 (Hn c)). by apply G2.
  - intros c Hc. rewrite (proj2 (Hn c)). by apply G3.
  - intros ck n Hw. rewrite (proj1 (Hn ck.1)). by apply (Ho ck n).
Qed.

Lemma counted_reset l f0 m0 d : lg2subblocksize (par h icache) = lg2blocksize (par h icache) ->
  counted l f0 m0 d -> counted l (- Z.of_nat (length l)) (- lru_misses h icache l) (reset_caches d).
Proof.
  intros Eq (a & b0 & R & G & Ho & Hp & V). destruct (reset_good a G Ho) as [G' Ho'].
  assert (Hr : data_of icache (reset_caches a) = reset_data (data_of icache a)).
  { apply data_reset_icache. rewrite (a_length h a G). apply S. }
  exists (reset_caches a), b0. split; [by apply reset_refines|]. split; [done|]. split; [done|]. split; [by rewrite Hr|].
  destruct V as [V1 V2 V3 V4 V5 V6]. split; rewrite ?Hr; try done.
  - cbn [reset_data fetch]. rewrite aget_aset_eq. lia.
  - intros _. cbn [reset_data miss]. rewrite aget_aset_eq. lia.
Qed.

(** ** Measurements on the device *)

(** The VPMU is off and the worker has emptied the ring. *)
Record switched_off (s : system) (part : list d4memref) : Prop := {
  e_ring : trace_reach (the_ring s);
  e_drained : set_used (the_ring s) = 0;
  e_part : refs_in (the_ring s) = refs_out (the_ring s) ++ part;
  e_traced : Forall traced part;
  e_caches : settled_at (caches s);
  e_off : c_enabled (the_cpu s) = false }.

(** The timing models with both cache simulators *)
Definition with_caches (model : Z) : Prop := model = TIMING_MODEL_D \/ model = TIMING_MODEL_E \/ model = TIMING_MODEL_G.

(** While the worker sleeps, only the CPU thread moves. *)
Lemma asleep_only s o rest P : worker s = Asleep -> todo s = o :: rest ->
  (exists s', cpu_do o (mk_system rest (the_cpu s) (the_ring s) Asleep (caches s)) = Ret s' /\ eventually P s') -> eventually P s.
Proof.
  intros Hw Et (s1 & E & H1). apply ev_later; [exists s1; eapply cpu_step; [exact Et|by rewrite Hw]|].
  intros s' Hs. destruct Hs as [s s' o' rest' Et' E'|s q fuel d Ha _ _|s Ha _ _|s Ha]; congruence.
Qed.

(** The CPU thread's state when a measurement begins *)
Definition begun (model : Z) (c : cpu) : cpu :=
  mk_cpu (set_timing (fst (vpmu_model_setup model)) (VPMU_reset (c_vpmu c))) (previous_pc c) true (c_shm c) (readings c).

(** Turning on from rest wakes the worker for good. *)
Lemma device_on_begins s part model rest P : switched_off s part -> worker s = Asleep -> with_caches model -> todo s = device_on model ++ rest ->
  let s1 := mk_system rest (begun model (the_cpu s)) (the_ring s) Awake (reset_caches (caches s)) in
  ready_to_measure s1 part /\ (eventually P s1 -> eventually P s).
Proof.
  intros [R E Hp Ht Hc Hoff] Hw Hm Et s1. split.
  - split; cbn; try done.
    + destruct Hc as (a & Ra & G & Ho). exists (reset_caches a). split; [by apply reset_refines|]. by apply reset_good.
    + destruct Hm as [-> | [-> | ->]]; split; vm_compute; reflexivity.
  - intros H1. destruct s as [td c q w d]. cbn in *. subst w td.
    assert (Hz : (0 <? set_used q) = false) by (by rewrite E).
    eapply asleep_only; [done..|]. unfold cpu_do. cbn. eexists. split; [reflexivity|].
    eapply asleep_only; [done..|]. unfold cpu_do. cbn. eexists. split; [reflexivity|].
    eapply asleep_only; [done..|]. unfold cpu_do. cbn. eexists. split; [reflexivity|].
    replace (if snd (snd (vpmu_model_setup model)) then Awake else Asleep) with Awake; [exact H1|].
    by destruct Hm as [-> | [-> | ->]].
Qed.

(** The two counters of the instruction cache, read behind any operations *)
Lemma icache_reading fuel d0 ops c ins c' ins' l f0 m0 : lg2subblocksize (par h icache) = lg2blocksize (par h icache) ->
  Forall measured ops -> Forall traced ins -> Forall traced (emitted ops c) -> both_on c -> counted l f0 m0 d0 ->
  sequential fuel d0 (ops ++ [Statistic L1IMiss; Statistic L1IAccess] ++ device_off) (c, ins) = Ret (c', ins') ->
  let new := fetches h icache (whole_sets (ins ++ emitted ops c)) in
  ins' = ins ++ emitted ops c /\ c_enabled c' = false /\ exists before, readings c' = before ++ [u64 (m0 + lru_misses h icache (new ++ l));
    u64 (f0 + Z.of_nat (length new + length l) + additional_icache_access (c_vpmu c'))].
Proof.
  intros Eq Hm Ht Hte Hb Hc E new. rewrite sequential_app in E. destruct (sequential fuel d0 ops (c, ins)) as [[c1 ins1]| |] eqn:E1; [|done|done].
  pose proof (sequential_both _ _ _ _ _ _ _ Hm Hb E1) as [_ Hb1]. pose proof (sequential_emits _ _ _ _ _ _ _ Hm E1) as Hi.
  cbn [mbind run_bind sequential app device_off] in E. unfold sequential_do in E. cbn [helper waits simulator_of] in E. rewrite Hb1 in E.
  destruct (dinero_refs h fuel icache dcache (whole_sets ins1) d0) as [d| |] eqn:Ed; cbn [mbind run_bind after_wait c_vpmu] in E; [|done|done].
  rewrite Hb1, Ed in E. cbn [mbind run_bind readings c_vpmu previous_pc c_shm] in E. unfold cache_sim_on in E.
  rewrite Hb1, orb_true_r, app_nil_r, Ed in E. cbn [mbind run_bind] in E. injection E as <- <-. cbn [readings c_vpmu c_enabled].
  split; [done|]. split; [done|].
  assert (Hw : Forall traced (whole_sets ins1)) by (apply Forall_take; subst ins1; by apply Forall_app).
  pose proof (counted_refs fuel (whole_sets ins1) l f0 m0 d0 d Hc Hw Ed) as Hc'. destruct (counted_reads _ _ _ d Eq Hc') as [R1 R2].
  exists (readings c1). rewrite <- app_assoc. subst ins1. fold new in R1, R2. cbn [app read]. unfold vpmu_L1_icache_miss_count, vpmu_L1_icache_access_count.
  change Vpmu.D4XINSTRN with D4XINSTRN. rewrite R1, R2, length_app. done.
Qed.

Lemma emitted_traced ops : forall c, Forall measured ops -> Forall traced (emitted ops c).
Proof.
  induction ops as [|o ops IH]; intros c Hm; [constructor|]. apply Forall_cons in Hm as [Ho Hm]. cbn [emitted].
  destruct (helper o c) as [c1 rs] eqn:Eh. apply Forall_app. split; [by eapply helper_emits|by apply IH].
Qed.

(** *** Back at rest *)

Lemma comes_to_rest old d0 n : (length old mod TRACE_QUEUE_SIZE = 0)%nat -> settled_at d0 -> forall s ins, left_to_do s < Z.of_nat n ->
  running old d0 s ins -> todo s = [] -> c_enabled (the_cpu s) = false ->
  eventually (fun s' => todo s' = [] /\ running old d0 s' ins /\ the_cpu s' = the_cpu s /\ worker s' = Asleep) s.
Proof.
  intros Ho Hd. induction n as [|n IH]; intros s ins Hn HR Et He; [pose proof (left_pos old d0 s ins HR); lia|].
  destruct (worker s) eqn:Hw; [| |by apply ev_now].
  - pose proof (ring_bounds _ (n_ring _ _ _ _ HR)) as (Hu & _). apply ev_later.
    + destruct (decide (0 < set_used (the_ring s))) as [Hz|Hz]; [by eapply worker_goes_on|]. eexists. apply worker_leave; [done|done|lia].
    + intros s' Hs. unfold left_to_do in Hn. destruct Hs as [s s' o rest Et' E|s q fuel d Ha Eq Ed|s Ha _ Hz|s Ha]; [congruence| | |congruence].
      * destruct (worker_keeps old d0 s ins q fuel d HR Ha Eq Ed) as [HR' Hwork]. apply (IH (mk_system (todo s) (the_cpu s) q Awake d) ins); try done. unfold left_to_do. cbn [todo the_ring worker]. rewrite Hw in Hn. lia.
      * apply (IH (mk_system (todo s) (the_cpu s) (the_ring s) Leaving (caches s)) ins); try done; [unfold left_to_do; cbn [todo the_ring worker]; rewrite Hw in Hn; cbn [rank] in *; lia|].
        destruct HR as [R Hin Hout Ht Hsm HW]. split; cbn [the_ring the_cpu worker caches]; try done. intros [Hen|Hen]; [congruence|lia].
  - apply ev_later; [eexists; by apply worker_sleep|]. intros s' Hs.
    destruct Hs as [s s' o rest Et' E|s q fuel d Ha Eq Ed|s Ha _ Hz|s Ha]; try congruence. apply ev_now. cbn. split_and!; try done.
    destruct HR as [R Hin Hout Ht Hsm HW]. split; cbn [the_ring the_cpu worker caches]; try done. intros Hen. specialize (HW Hen). congruence.
Qed.

Lemma at_rest old d0 s ins : (length old mod TRACE_QUEUE_SIZE = 0)%nat -> settled_at d0 -> running old d0 s ins -> worker s = Asleep ->
  exists part fuel, ins = whole_sets ins ++ part /\ dinero_refs h fuel icache dcache (whole_sets ins) d0 = Ret (caches s) /\ switched_off s part.
Proof.
  intros Ho Hd HR Hw. pose proof (ring_bounds _ (n_ring _ _ _ _ HR)) as (Hu & _).
  assert (Hz : set_used (the_ring s) = 0).
  { destruct (decide (set_used (the_ring s) = 0)); [done|]. pose proof (n_worker _ _ _ _ HR ltac:(right; lia)). congruence. }
  assert (Hoff : c_enabled (the_cpu s) = false).
  { destruct (c_enabled (the_cpu s)) eqn:E; [|done]. pose proof (n_worker _ _ _ _ HR (or_introl E)). congruence. }
  destruct (running_drained old Ho d0 s ins HR Hz) as [fuel E]. pose proof HR as [R Hin (out & f & Hout & Ed) Ht Hsm _].
  pose proof (drained_whole _ _ _ _ Ho R Hz Hin Hout) as Ew. set (k := (TRACE_QUEUE_SIZE * (length ins / TRACE_QUEUE_SIZE))%nat).
  exists (drop k ins), fuel. split; [symmetry; apply take_drop|]. split; [done|]. split; try done.
  - rewrite Hin, Hout, Ew, <- app_assoc. f_equal. symmetry. apply take_drop.
  - by apply Forall_drop.
  - destruct (simulator_runs (whole_sets ins) d0 Hd) as (N & d' & HN & Hs); [by apply Forall_take|].
    by rewrite (refs_det _ _ _ _ _ _ E (HN N ltac:(lia))).
Qed.

(** ** A lost signal *)

Lemma put_refs_no_exit rs : forall q, put_refs rs q <> ProcExit.
Proof.
  induction rs as [|r rs IH]; intros q; cbn [put_refs]; [done|]. unfold cache_ref at 1. destruct (_ =? _); [done|]. destruct (_ =? _)%nat; apply IH.
Qed.

Lemma cpu_do_cases o s : measured o -> cpu_do o s = Spin \/ exists c rs q, helper o (the_cpu s) = (c, rs) /\ put_refs rs (the_ring s) = Ret q /\
  cpu_do o s = Ret (mk_system (todo s) (after_wait o (caches s) c) q (worker s) (caches s)).
Proof.
  intros Hm. unfold cpu_do. destruct (_ && _); [by left|]. destruct (helper o (the_cpu s)) as [c rs] eqn:Eh.
  destruct (put_refs rs (the_ring s)) as [q| |] eqn:Eq; cbn [mbind run_bind]; [|by destruct (put_refs_no_exit rs (the_ring s))|by left].
  right. exists c, rs, q. split; [done|]. split; [done|]. by destruct o.
Qed.

(** No thread can go on although the program is not at its end. *)
Definition stuck (s : system) : Prop := todo s <> [] /\ forall s', ~ step s s'.

Lemma asleep_stuck s o rest : worker s = Asleep -> todo s = o :: rest -> cpu_do o (mk_system rest (the_cpu s) (the_ring s) Asleep (caches s)) = Spin -> stuck s.
Proof.
  intros Hw Et E. split; [by rewrite Et|]. intros s2 Hs. destruct Hs as [s s' o' rest' Et' E'|s q fuel d Ha _ _|s Ha _ _|s Ha]; congruence.
Qed.

Lemma asleep_drowns x ops : forall s, worker s = Asleep -> todo s = ops ++ [Statistic x] -> Forall measured ops -> both_on (the_cpu s) ->
  trace_reach (the_ring s) -> (length (refs_out (the_ring s)) + TRACE_QUEUE_SIZE <= length (refs_in (the_ring s)) + length (emitted ops (the_cpu s)))%nat ->
  eventually stuck s.
Proof.
  induction ops as [|o ops IH]; intros s Hw Et Hm Hb R Hlen.
  - apply ev_now. apply (asleep_stuck s (Statistic x) []); [done|done|]. unfold cpu_do. cbn [the_cpu the_ring waits].
    assert (Hon : sim_on (c_vpmu (the_cpu s)) (simulator_of x) = true) by (destruct Hb; by destruct x). rewrite Hon.
    destruct (Z.ltb_spec 0 (set_used (the_ring s))) as [|Hz]; [done|]. pose proof (ring_bounds _ R) as (Hu & Hi & _).
    destruct (ring_drained (the_ring s) R ltac:(lia)) as (l & E1 & E2). rewrite E1, length_app in Hlen. cbn [emitted length] in Hlen. lia.
  - apply Forall_cons in Hm as [Ho Hm]. destruct (cpu_do_cases o (mk_system (ops ++ [Statistic x]) (the_cpu s) (the_ring s) Asleep (caches s)) Ho)
      as [E|(c & rs & q & Eh & Eq & E)]; [by apply ev_now, (asleep_stuck s o (ops ++ [Statistic x]))|].
    apply (asleep_only s o (ops ++ [Statistic x])); [done|done|]. eexists. split; [exact E|]. cbn [the_cpu the_ring] in Eh, Eq.
    destruct (helper_emits o (the_cpu s) c rs Ho Eh) as (_ & T2 & T3 & _). destruct (put_refs_one rs (the_ring s) q R T2 Eq) as (P1 & P2 & P3 & _).
    destruct (after_wait_keeps o (caches s) c Ho) as (K1 & _). apply IH; cbn [worker todo the_cpu the_ring caches]; try done.
    + unfold both_on in *. by rewrite K1, !T3.
    + cbn [emitted] in Hlen. rewrite Eh, length_app in Hlen. rewrite P2, P3, length_app. rewrite (emitted_after o (caches s) ops c Ho). lia.
Qed.

(** ** The properties *)

(** C7: However the two threads interleave, a measurement that the device begins comes to its
    end, and then the CPU thread's state (all counters, the network's clock, every
    reading taken) is that of the sequential definition, in which a reading is made on
    the simulator's state after the whole sets of the references emitted before it.  No
    reference is lost or counted twice, no wait is without end; what the measurement before
    left in the unfinished set ([part]) is counted in this one. *)
Theorem measurement_sequential s part model ops : switched_off s part -> worker s = Asleep -> with_caches model ->
  todo s = device_on model ++ ops -> Forall measured ops ->
  exists N c ins, (forall fuel, (N <= fuel)%nat -> sequential fuel (reset_caches (caches s)) ops (begun model (the_cpu s), part) = Ret (c, ins)) /\
    ins = part ++ emitted ops (begun model (the_cpu s)) /\ eventually (fun s' => todo s' = [] /\ the_cpu s' = c) s.
Proof.
  intros Hs Hw Hm Et Ho. set (P := fun c s' => todo s' = [] /\ the_cpu s' = c).
  destruct (device_on_begins s part model ops (fun _ => True) Hs Hw Hm Et) as [Hr _].
  destruct (measured_run _ part Hr Ho) as (N & c & ins & HN & Hev). exists N, c, ins. cbn [todo the_cpu caches] in *. split; [done|].
  split; [by apply (sequential_emits _ _ _ _ _ _ _ Ho (HN N ltac:(lia)))|].
  apply (device_on_begins s part model ops (P c) Hs Hw Hm Et). eapply eventually_trans; [exact Hev|]. intros s' (H1 & _ & H2). by apply ev_now.
Qed.

(** C8: What a session reads of the instruction cache is exact, and sessions follow one another.
    An LRU cache without subblocks and prefetching has seen the fetches [l]; the device is turned on,
    any blocks and accesses run, both counters are read, the device is turned off.  Then,
    in every interleaving, the VPMU comes to rest; the misses read are those of the blocks
    fetched, one for each that is not among the last [assoc] different ones of its set, with
    [l] before them; the accesses are the blocks fetched and the sizes of repeated translation blocks;
    and the next session finds the cache after [new ++ l]. *)
Theorem icache_session s part model ops l f0 m0 : lg2subblocksize (par h icache) = lg2blocksize (par h icache) ->
  switched_off s part -> worker s = Asleep -> counted l f0 m0 (caches s) -> with_caches model -> Forall measured ops ->
  todo s = device_on model ++ ops ++ [Statistic L1IMiss; Statistic L1IAccess] ++ device_off ->
  let emits := part ++ emitted ops (begun model (the_cpu s)) in let new := fetches h icache (whole_sets emits) in
  eventually (fun s' => todo s' = [] /\ worker s' = Asleep /\
    (exists part' f m, emits = whole_sets emits ++ part' /\ switched_off s' part' /\ counted (new ++ l) f m (caches s')) /\
    exists before, readings (the_cpu s') = before ++ [u64 (lru_misses h icache (new ++ l) - lru_misses h icache l);
      u64 (Z.of_nat (length new) + additional_icache_access (c_vpmu (the_cpu s')))]) s.
Proof.
  intros Eq Hs Hw Hc Hm Ho Et emits new. assert (Hall : Forall measured (ops ++ [Statistic L1IMiss; Statistic L1IAccess] ++ device_off)).
  { apply Forall_app. split; [done|]. repeat constructor. }
  match goal with |- eventually ?Q s => set (P := Q) end.
  destruct (device_on_begins s part model _ P Hs Hw Hm Et) as [Hr Hgo]. apply Hgo. clear Hgo.
  destruct (measured_run _ part Hr Hall) as (N & c & ins & HN & Hev). cbn [todo the_cpu caches the_ring] in *.
  pose proof (old_aligned _ (e_ring _ _ Hs) (e_drained _ _ Hs)) as Ha. pose proof (counted_reset l f0 m0 _ Eq Hc) as Hc0.
  destruct (icache_reading N _ ops _ part c ins l _ _ Eq Ho (e_traced _ _ Hs) (emitted_traced ops _ Ho) (y_sims _ _ Hr) Hc0 (HN N ltac:(lia)))
    as (-> & Hoff & before & Hread). cbn [the_cpu] in Hread, Hev. fold emits in Hread, Hev. fold new in Hread.
  eapply eventually_trans; [exact Hev|]. intros s1 (H1 & HR & H2). pose proof (counted_settled _ _ _ _ Hc0) as Hd0.
  eapply eventually_trans; [apply (comes_to_rest _ _ (Datatypes.S (Z.to_nat (left_to_do s1))) Ha Hd0 s1 emits); [lia|done|done|by rewrite H2]|].
  intros s2 (I1 & I2 & I3 & I4). apply ev_now. destruct (at_rest _ _ _ _ Ha Hd0 I2 I4) as (part' & fuel & J1 & J2 & J3). split; [done|]. split; [done|]. split.
  - eexists part', _, _. split; [done|]. split; [done|]. apply (counted_refs fuel (whole_sets emits) l _ _ (reset_caches (caches s))); [exact Hc0| |exact J2].
    apply Forall_take. apply Forall_app. split; [apply Hs|by apply emitted_traced].
  - exists before. rewrite I3, H2, Hread. replace (- Z.of_nat (length l) + Z.of_nat (length new + length l)) with (Z.of_nat (length new)) by lia.
    replace (- lru_misses h icache l + lru_misses h icache (new ++ l)) with (lru_misses h icache (new ++ l) - lru_misses h icache l) by lia. done.
Qed.

(** C35: The signal that wakes the cache worker can be missed.  [SET_start_vpmu] signals before it sets
    [VPMU_enabled], so a worker that is quick enough looks, finds the VPMU off and
    sleeps again; the device signals after, but a worker still on its way to sleep misses it too.
    Then the VPMU is on and the worker asleep, and once a hundred references
    have been emitted nothing moves any more: the CPU thread waits for the
    worker for ever, in [cache_ref] or before a reading. *)
Theorem signal_lost s part model ops x on : switched_off s part -> with_caches model -> Forall measured ops ->
  (worker s = Asleep /\ on = SET_on model \/ worker s = Leaving /\ on = device_on model) -> todo s = on ++ ops ++ [Statistic x] ->
  (TRACE_QUEUE_SIZE <= length part + length (emitted ops (begun model (the_cpu s))))%nat ->
  exists s', rtc step s s' /\ c_enabled (the_cpu s') = true /\ worker s' = Asleep /\ todo s' = ops ++ [Statistic x] /\ eventually stuck s'.
Proof.
  intros [R E Hp Ht Hc Hoff] Hm Ho Hon Et Hlen.
  set (s' := mk_system (ops ++ [Statistic x]) (begun model (the_cpu s)) (the_ring s) Asleep (reset_caches (caches s))).
  exists s'. split; [|split; [done|split; [done|split; [done|]]]].
  - assert (Hsig : snd (snd (vpmu_model_setup model)) = true) by (by destruct Hm as [-> | [-> | ->]]).
    assert (Hz : (0 <? set_used (the_ring s)) = false) by (by rewrite E).
    destruct s as [td c q w d]. cbn [the_cpu the_ring worker caches todo] in *. subst td. destruct Hon as [[-> ->]|[-> ->]].
    + eapply rtc_l; [eapply cpu_step; [reflexivity|unfold cpu_do; cbn; reflexivity]|].
      eapply rtc_l; [eapply cpu_step; [reflexivity|unfold cpu_do; cbn; reflexivity]|]. rewrite Hsig.
      eapply rtc_l; [apply worker_leave; done|]. eapply rtc_l; [by apply worker_sleep|].
      eapply rtc_l; [eapply cpu_step; [reflexivity|unfold cpu_do; cbn; reflexivity]|]. done.
    + eapply rtc_l; [eapply cpu_step; [reflexivity|unfold cpu_do; cbn; reflexivity]|].
      eapply rtc_l; [eapply cpu_step; [reflexivity|unfold cpu_do; cbn; reflexivity]|].
      eapply rtc_l; [eapply cpu_step; [reflexivity|unfold cpu_do; cbn; reflexivity]|].
      eapply rtc_l; [by apply worker_sleep|]. done.
  - apply (asleep_drowns x ops s'); try done; [by destruct Hm as [-> | [-> | ->]]; split; vm_compute|].
    cbn [the_ring the_cpu s']. rewrite Hp, length_app. lia.
Qed.

Lemma counted_start d : d4setup h = inr d -> counted [] 0 0 d.
Proof.
  intros E. destruct (setup_ok h (m_usable _ _ _ S)) as (s1 & E1 & Hr & _). assert (s1 = d) as -> by congruence.
  destruct (start_good h d (m_usable _ _ _ S) Hr) as [Hg Hh]. exists (start d), 0. split; [by apply (start_refines h)|].
  split; [done|]. split; [done|]. split; [|by apply (lru_start h icache dcache)].
  change (pending (data_of icache d) = []). by rewrite (fresh_lookup h d icache Hr (m_icache _ _ _ S)).
Qed.
End System.

(** ** Witnesses *)

#[local] Instance no_random : RandomStream := fun _ => 0.

(** Two caches of two blocks of 16 bytes, freshly set up, the VPMU off *)
Definition two_ways : list d4cache := small 5 2.
Definition two_levels : gmap (Z * Z) nat := {[(1, 0) := 1%nat; (2, 0) := 2%nat]}.
Definition cpu_off : cpu := mk_cpu (vpmu0 0) 0 false (Some ∅) [].
Definition at_boot (w : worker_at) (l : list cpu_op) : system := mk_system l cpu_off trace_start w (begin two_ways).
Definition run_block (a : Z) : cpu_op := Calculate ARM_CPU_MODE_USR (mk_tb_info 1 0 0 0 0 1 0 a 4).
(** A hundred blocks in a loop, the last one twice, and one of the next set *)
Definition loop_of_blocks : list cpu_op := concat (replicate 25 (run_block <$> [4096; 4112; 4128; 4112])) ++ [run_block 4112; run_block 4096].

Lemma two_simulated : simulated two_ways 1 2.
Proof. apply small_simulated; lia. Qed.
Lemma two_setup : d4setup two_ways = inr (begin two_ways).
Proof. apply begin_ok; lia. Qed.
Lemma two_counted : counted two_ways 1 [] 0 0 (begin two_ways).
Proof. apply (counted_start two_ways 1 2 two_simulated (small_own 5 2)), two_setup. Qed.
Lemma two_off w l : switched_off two_ways (at_boot w l) [].
Proof. split; [apply tr_start|done|done|constructor|by eapply counted_settled, two_counted|done]. Qed.
Lemma loop_measured : Forall measured loop_of_blocks.
Proof. unfold loop_of_blocks. cbn. repeat constructor; cbn; lia. Qed.

(** A load and a store: both are in the unfinished set when the misses are read. *)
Theorem measurement_sequential_witness :
  let ops := [Access (fun a => a) (fun a => a) 8192 D4XREAD 4; Access (fun a => a) (fun a => a) 8208 D4XWRITE 4; Statistic L1DMiss] in
  eventually (step two_ways 1 2 two_levels) (fun s' => todo s' = [] /\ readings (the_cpu s') = [0]) (at_boot Asleep (device_on TIMING_MODEL_D ++ ops)).
Proof.
  intros ops. assert (Hm : Forall measured ops) by (repeat constructor; cbn; auto; lia).
  destruct (measurement_sequential two_ways 1 2 two_levels two_simulated _ [] TIMING_MODEL_D ops (two_off Asleep _) eq_refl ltac:(by left) eq_refl Hm)
    as (N & c & ins & HN & _ & Hev).
  eapply eventually_trans; [exact Hev|]. intros s' [H1 H2]. apply ev_now. split; [exact H1|]. rewrite H2. specialize (HN N ltac:(lia)).
  vm_compute in HN.
  injection HN as <- _. reflexivity.
Defined.

(** Two ways for three blocks: 51 misses of 100 fetches, and 4 for the block run twice; the
    last fetch is left for the next session. *)
Theorem icache_session_witness :
  eventually (step two_ways 1 2 two_levels) (fun s' => todo s' = [] /\ worker s' = Asleep /\
    exists before v, readings (the_cpu s') = before ++ [51; u64 (100 + additional_icache_access v)])
    (at_boot Asleep (device_on TIMING_MODEL_G ++ loop_of_blocks ++ [Statistic L1IMiss; Statistic L1IAccess] ++ device_off)).
Proof.
  pose proof (icache_session two_ways 1 2 two_levels two_simulated (small_own 5 2) eq_refl
    (at_boot Asleep (device_on TIMING_MODEL_G ++ loop_of_blocks ++ [Statistic L1IMiss; Statistic L1IAccess] ++ device_off))
    [] TIMING_MODEL_G loop_of_blocks [] 0 0 eq_refl (two_off Asleep _) eq_refl two_counted ltac:(by right; right) loop_measured eq_refl) as H. cbv zeta in H.
  eapply eventually_trans; [exact H|]. clear H.
  intros s' (H1 & H2 & _ & before & H3). apply ev_now. split; [exact H1|]. split; [exact H2|].
  exists before, (c_vpmu (the_cpu s')). rewrite H3. match goal with |- _ ++ [u64 ?x; u64 (Z.of_nat ?n + _)] = _ =>
    assert (Ex : x = 51) by (vm_compute; reflexivity); assert (En : n = 100%nat) by (vm_compute; reflexivity); rewrite Ex, En end. reflexivity.
Defined.

(** A tracer session over the loop *)
Theorem signal_lost_witness : let s := at_boot Asleep (SET_on TIMING_MODEL_G ++ loop_of_blocks ++ [Statistic L1IMiss]) in
  exists s', rtc (step two_ways 1 2 two_levels) s s' /\ c_enabled (the_cpu s') = true /\ worker s' = Asleep /\
    eventually (step two_ways 1 2 two_levels) (stuck two_ways 1 2 two_levels) s'.
Proof.
  intros s. destruct (signal_lost two_ways 1 2 two_levels s [] TIMING_MODEL_G loop_of_blocks L1IMiss (SET_on TIMING_MODEL_G)
    (two_off Asleep _) ltac:(by right; right) loop_measured (or_introl (conj eq_refl eq_refl)) eq_refl) as (s' & H1 & H2 & H3 & _ & H4).
  - apply Nat.leb_le. vm_compute. reflexivity.
  - exists s'. split; [exact H1|]. split; [exact H2|]. split; [exact H3|exact H4].
Defined.
